(* ===== verification/_CoqProject ===== *)
-Q . S2P
Prelude.v
LinkedList.v
Hashtable.v
CfixApi.v
TsExec.v
EventEmitter.v
DisplayAction.v
Sequence.v
Filament.v
Join.v
RptStubs.v
PeModule.v
PeRun.v
Thread.v
CmdLine.v
Search.v
RunTest.v
ExecCtx.v
RunMain.v
FormatStr.v
MsgResolver.v
ConsoleSink.v
StackTrace.v
Session.v
CdiagHandlers.v
IoBuffer.v
RegStore.v
PeQuery.v
Startup.v
KrEvents.v
KlCalls.v
KrModule.v
KrConn.v
KrStubs.v
KrMain.v
KrDriver.v
KlFixture.v
KlDriver.v
KlModule.v
KlLife.v
Formatter.v
