(* ===== verification/Prelude.v ===== *)
(** * cfix -- the verification development

    cfix is a unit testing framework for C and C++ on Windows, in user and in
    kernel mode.  A test module (a DLL, an EXE or a driver) exports fixtures;
    the framework finds them, builds a tree of actions from them and runs it
    against an execution context, which is told about every step and decides,
    for every event, how to go on.  This library translates the code under
    src/ that does so into executable definitions and proves what makes them
    correct.

    ** How the program is modelled

    C functions are functions of an explicit store in the monad [ST] below; a
    result [None] is an execution without a meaning (an access violation, a
    call that never returns, a failed assertion).  Theorems about an operation
    state that it returns, and what, under stated conditions; where one only
    speaks of executions that return, it is an invariant.  Machine integers
    are integers with their wrap-around written out ([wrap], [ULONG]), flags
    are bits, HRESULTs are 32-bit patterns.  Pointers are integers and 0 is
    NULL.  Calls of the operating system, of test code and of other code
    outside src/ are parameters of the definitions (Section variables); the
    conditions on them are hypotheses of the theorems, and every theorem with
    hypotheses is instantiated in a Module [Demo] (or [Concrete]) of its file.
    A comment of the form src/path:first-last names the lines a definition
    models.  Assertions that only the debug build has are modelled where the
    release build relies on them.

    ** The files, bottom up

    - Prelude: the monad, invariants over it ([preserves]), machine integers,
      HRESULTs, shared list lemmas and tactics.
    - LinkedList (jpht/include/list.h): circular doubly linked lists on a heap
      of cells; every sequence of operations refines sequences of addresses.
    - Hashtable (jpht/jpht/hashtable.c): buckets that are rings of LinkedList.
      Put, Get, Remove and Resize refine a finite map, for any hash function and
      any memory manager; enumeration with a removing callback empties the
      table.  Scans are fuelled with the number of cells, which is shown to
      suffice.  [KeyedTable] is the interface offered to clients.
    - CfixApi (include/cfixapi.h, cfixaux.h): events, dispositions, fixtures; the
      execution context and the routines of a module as records of operations on
      an arbitrary world.
    - TsExec (cfix/cfix/tsexecaction.c): the run of a fixture.  Every run, with any
      module and any context, follows the documented life cycle (an executable
      monitor accepts its calls); which test cases run; failures stay local;
      an abort ends the fixture but not without teardown.
    - Sequence (cfix/cfix/sequenceaction.c): reference counted action objects.  A
      run of a nested sequence is the run of the tree of fixtures up to the
      first failure; counts, which are LONGs, are exact under all operations of clients
      that do not take more references than a LONG counts.
    - EventEmitter (cfix/cfix/eventemitter.c): the proxy context that sends events
      to a sink, attributed to the test case, setup or teardown, or to a test case that
      the target refused.
    - Filament (cfix/cfix/filament.c, tls.c): the threads of a test routine, the
      default filament for anonymous threads, storage.  Open thread handles are
      accounted for under any interleaving of operations of any threads.
    - Join (cfix/cfix/thread.c, filament.c): the same threads with program counters, as a
      step relation, with those that register through the default filament.  Once the join
      of a test routine has ended all registered threads have finished (if the wait did not
      fail), but a thread can still register before the default filament is revoked; the
      join does end if only the main thread creates threads, and a child that creates one
      while it waits blocks it for ever.
    - RptStubs (cfix/cfix/rptstubs.c): reporting from test code, the exception
      filter; calls return, raise, or end their thread ([OUT]).
    - PeModule (cfix/cfix/pe.c, include/cfixpe.h): the fixtures of an image, module
      objects, the blocks and library references they own.
    - PeRun (cfix/cfix/pe.c): running routines under a filament inside the filter;
      how a routine ends decides its result; what storage is visible where.
    - Thread (cfix/cfix/thread.c): child threads, the handshake with the parent.
    - CmdLine (cfix/cfixrun/cmdline.c, dllsearch.c): the command lines the runner
      accepts, exactly.
    - Search (cfix/cfixutil/search.c, cfix/cfixrun/dllsearch.c): the search for
      modules visits exactly the modules of a directory tree, in order.
    - DisplayAction (cfix/cfixrun/displayaction.c), RunTest (cfix/cfixrun/runtest.c,
      fixturesearch.c): the name filter, and the assembly of the action to run.  The
      action for a directory runs exactly the fixtures asked for; whatever fails on
      the way, no object is left behind.
    - ExecCtx (cfix/cfixrun/execctx.c): the runner's execution context.  Thread states
      are shared and released exactly, as long as children finish before their
      fixture; failures are never counted.
    - RunMain (cfix/cfixrun/main.c, cfix/cfixutil/eventdllload.c): everything put
      together in one world (action objects, proxy, context); the exit codes.
    - Startup (cfix/cfixcmd/main.c, cfix/cfixemb/embmain.c, include/cfixpe.h,
      cdiag/version.c): the tool, and executables with tests.  The theorem is about two
      processes: with -exe the tool relays what the child writes and returns the exit code
      of the runner in the child; what the system refuses is recorded, and decides what
      else may happen.  The loop of the relay is fuelled; one more than the number of
      packets the child writes is enough.
    - ConsoleSink (cfix/cfixcons/eventsink.c): the sink the runner uses by default, an
      implementation of the interface of EventEmitter.  The console shows every call,
      and every finished test case as a success.
    - StackTrace (cfix/cfix/stacktrace.c, main.c, filament.c): dbghelp is loaded when the
      first stack trace is captured and used by one thread at a time, and DllMain.  A
      trace is bounded; attach and detach of the process give back what they took, but
      for what failed attempts to load the library leave behind.
    - FormatStr (cdiag/formatstr.c, helper.c): templates of untrusted origin.  The
      one-pass formatter stays in its buffer, always returns, and is equivalent to
      the expansion of the parsed template.
    - MsgResolver (cdiag/msgresolver.c): message DLLs on a ring of LinkedList; they
      refine an ordered list, every module reference is accounted for; the first
      source that has a message delivers it.
    - Formatter (cdiag/formatter.c): event packets, byte for byte, become text.  The
      text is the template with the fields of the event for its variables, on top
      of FormatStr and any resolver (the witness takes that of MsgResolver).
    - Session (cdiag/session.c): a client of [KeyedTable] and of an interface for
      reference counted objects ([RefObjects]); a session refines a map from event
      types to registrations, calls exactly the handlers the map says, and returns every
      reference it took (or faults where there is no memory for a registration).
    - CdiagHandlers (cdiag/outputhandler.c, textfilehandler.c): handlers that turn packets
      into text for a routine or a file, with a formatter that is one of [RefObjects].
    - RegStore (cdiag/regconfigstore.c): settings in the registry, over a class of the
      system's operations and one of their laws.  Every sequence of calls refines the
      values of the registry, what was written reads back, and a store gives back
      every handle; registering a callback watches one key of the two.
    - PeQuery (cfix/cfix/pequery.c): the headers, sections and exports of a file that is not
      loaded, read from its bytes; what was laid out by the rules of the format is found.

    The kernel half.  A driver under test runs its routines through the reflector
    cfixkr, and the library cfixkl makes it look like any other test module.

    - IoBuffer: byte memories, integers and strings in them, and what a read returns
      after a write; blocks of an allocator.
    - KrEvents (cfixkern/cfixkr/rptstubs.c, stacktrace.c; include/cfixkrio.h): the
      events of a routine, byte for byte in the response buffer.  The queue never
      leaves its buffer; what is kept and what is lost is a function of the sizes.
    - KlCalls (cfixkern/cfixkl/ioctl.c): a call from the client's side, and the events
      of the response translated for the execution context, up to the first for which
      there is no memory.
    - KrModule (cfixkr/drvtestadp.c): the fixtures of a driver and their description.
    - KrConn (cfixkr/drvconn.c, drvconnreg.c, filament.c): connections of drivers, their
      registry, the filaments of threads.  Creation and release are exactly balanced.
    - KrStubs (cfixkr/rptstubs.c, drvconn.c, thread.c): test code calls the stubs of its
      connection; a routine runs as the trace of its steps says.
    - KrMain (cfixkr/main.c): the requests of the device.  The theorem that composes both
      sides: what a routine reports in the kernel, as far as the response and the client's
      memory hold it, reaches the execution context.
    - KrDriver (cfixkr/main.c, util.c, thread.c; cfixkdrv): the reflector and a test driver
      as drivers.  A test driver is connected from its entry to its unload, which
      leaves the reflector as it was; its test code calls the stubs of KrStubs for its
      connection, and the threads it creates inherit the filament.
    - KlFixture (cfixkl/module.c): fixtures from the description.  Whatever the reflector
      writes the client reads, the fixtures are those of user mode with keys for
      routines, and each key leads back to its routine.
    - KlDriver (cfixkl/load.c): drivers as services, over the class [System] of what the
      operating system offers and the class [SystemLaws] of its handles.
    - KlModule (cfixkl/module.c, ioctl.c): modules and their run methods.  The value of
      the storage travels with the calls as if it were handed from one to the next.
    - KlLife (cfixkl and cfixkr together): a module is found, described and made through
      the device of the reflector; everything it needed is given back.

    How they interact: a runner builds actions (Sequence, TsExec) from the fixtures
    of modules (PeModule) and runs them against a context, usually the proxy of
    EventEmitter around the runner's own; TsExec calls the module's routines,
    which PeRun implements on top of Filament and RptStubs; test code in turn calls
    RptStubs, Thread and the storage of Filament.

    ** Concurrency

    Operations of Filament and Thread take the thread they run on.  A critical
    section that is only held during one operation makes that operation atomic;
    the one that is held across operations (the default filament's) is modelled
    with its owner, and entering it while another thread holds it has no outcome.
    Sequences of operations of several threads are their interleavings.  In Filament
    and Thread the join of child threads and the handshake of a creation are atomic;
    Join takes them apart.

    ** What is not modelled, and the plan

    The headers for C++ and for WinUnit (include/cfixcc.h, compat) are class templates
    and macros expanded in test code; tests and samples are not part of the program.
    cfixkl/compat.c looks up two routines of the system and cfixkl/main.c forwards to
    the storage of KlModule.  The reflector's hashtables appear as finite maps and its
    spin locks as atomic operations. *)

From stdpp Require Import base gmap list strings.
From Stdlib Require Import ZArith Lia.

Declare Scope cfix_scope.
Delimit Scope cfix_scope with cfix.

(** ** The state monad with faults

    C code that reads and writes a store is a function of the store.  [None]
    stands for the executions the source gives no meaning to: an access
    violation, a call that never returns, or fuel that did not suffice (the
    development proves for every fuelled loop that it does suffice). *)
Definition ST (S A : Type) : Type := S -> option (A * S).

Definition ret {S A : Type} (a : A) : ST S A := fun s => Some (a, s).

Definition bind {S A B : Type} (m : ST S A) (k : A -> ST S B) : ST S B :=
  fun s => match m s with
           | Some (a, s') => k a s'
           | None => None
           end.

Definition fault {S A : Type} : ST S A := fun _ => None.

Definition get {S : Type} : ST S S := fun s => Some (s, s).

Definition put {S : Type} (s : S) : ST S unit := fun _ => Some (tt, s).

Definition gets {S A : Type} (f : S -> A) : ST S A := fun s => Some (f s, s).

Definition modify {S : Type} (f : S -> S) : ST S unit := fun s => Some (tt, f s).

(** [ASSERT( c )]: a violated assertion stops the program. *)
Definition assert_ {S : Type} (b : bool) : ST S unit :=
  if b then ret tt else fault.

Definition when_ {S : Type} (b : bool) (m : ST S unit) : ST S unit :=
  if b then m else ret tt.

Notation "x <- m ;; k" := (bind m (fun x => k))
  (at level 100, m at next level, right associativity) : cfix_scope.
Notation "m ;;; k" := (bind m (fun _ => k))
  (at level 100, right associativity) : cfix_scope.

Open Scope Z_scope.
Open Scope cfix_scope.

Section monad.
Context {S A B C : Type}.

Lemma bind_Some (m : ST S A) (k : A -> ST S B) s r :
  bind m k s = Some r <-> exists a s', m s = Some (a, s') /\ k a s' = Some r.
Proof.
  unfold bind. split.
  - destruct (m s) as [[a s']|] eqn:E; [|done]. intros Hk. by exists a, s'.
  - intros (a & s' & -> & Hk). done.
Qed.

Lemma bind_eq (m : ST S A) (k : A -> ST S B) s a s' :
  m s = Some (a, s') -> bind m k s = k a s'.
Proof. unfold bind. by intros ->. Qed.

Lemma bind_None (m : ST S A) (k : A -> ST S B) s : m s = None -> bind m k s = None.
Proof. unfold bind. by intros ->. Qed.

Lemma bind_ret (a : A) (k : A -> ST S B) s : bind (ret a) k s = k a s.
Proof. done. Qed.

Lemma bind_assoc (m : ST S A) (k : A -> ST S B) (l : B -> ST S C) s :
  bind (bind m k) l s = bind m (fun a => bind (k a) l) s.
Proof. unfold bind. by destruct (m s) as [[a s']|]. Qed.

Lemma bind_gets (f : S -> A) (k : A -> ST S B) s : bind (gets f) k s = k (f s) s.
Proof. done. Qed.

Lemma bind_modify (f : S -> S) (k : unit -> ST S B) s :
  bind (modify f) k s = k tt (f s).
Proof. done. Qed.

Lemma bind_assert (b : bool) (k : unit -> ST S B) s :
  b = true -> bind (assert_ b) k s = k tt s.
Proof. by intros ->. Qed.
End monad.

Create HintDb cfix.
Create Rewrite HintDb cfix.
#[export] Hint Rewrite @bind_ret @bind_gets @bind_modify @bind_assoc : cfix.

(** Run the deterministic head of a monadic goal. *)
Ltac run_step :=
  first [ rewrite bind_ret | rewrite bind_gets | rewrite bind_modify
        | rewrite bind_assoc | erewrite bind_eq by eassumption ].
Ltac run := repeat first [progress run_step | progress simpl].

(** Take a successful monadic execution apart. *)
Ltac inv_bind H :=
  let a := fresh "a" in let s := fresh "s" in
  let H1 := fresh "H" in let H2 := fresh "H" in
  apply bind_Some in H as (a & s & H1 & H2).

(** Invariants of stateful operations, composed along the code. *)
Section preserves.
Context {S : Type} (I : S -> Prop).
Definition preserves {A} (m : ST S A) : Prop := forall s a s', I s -> m s = Some (a, s') -> I s'.

Lemma preserves_ret {A} (a : A) : preserves (ret a).
Proof. by intros s a' s' HI [= _ <-]. Qed.

Lemma preserves_bind {A B} (m : ST S A) (k : A -> ST S B) :
  preserves m -> (forall a, preserves (k a)) -> preserves (bind m k).
Proof.
  intros Hm Hk s b s' HI H. inv_bind H. eapply Hk; [|eassumption]. by eapply Hm.
Qed.

Lemma preserves_gets {A} (f : S -> A) : preserves (gets f).
Proof. by intros s a s' HI [= _ <-]. Qed.

Lemma preserves_modify (f : S -> S) : (forall s, I s -> I (f s)) -> preserves (modify f).
Proof. intros Hf s a s' HI [= _ <-]. by apply Hf. Qed.

Lemma preserves_if {A} (b : bool) (m1 m2 : ST S A) :
  preserves m1 -> preserves m2 -> preserves (if b then m1 else m2).
Proof. by destruct b. Qed.

Lemma preserves_when (b : bool) (m : ST S unit) : preserves m -> preserves (when_ b m).
Proof. destruct b; [done|]. intros _. apply preserves_ret. Qed.
End preserves.

(** ** Runs: an operation returns, with a result and a state that satisfy [Q] *)
Definition Runs {X A} (m : ST X A) (x : X) (Q : A -> X -> Prop) : Prop :=
  exists a x', m x = Some (a, x') /\ Q a x'.

Section runs.
Context {X : Type}.

Lemma Runs_ret {A} (a : A) (x : X) (Q : A -> X -> Prop) : Q a x -> Runs (ret a) x Q.
Proof. intros H. by exists a, x. Qed.

Lemma Runs_bind {A B} (m : ST X A) (k : A -> ST X B) x Q :
  Runs m x (fun a x1 => Runs (k a) x1 Q) -> Runs (bind m k) x Q.
Proof.
  intros (a & x1 & E & b & x2 & E2 & H). exists b, x2. unfold bind. by rewrite E.
Qed.

Lemma Runs_weaken {A} (m : ST X A) x (Q Q' : A -> X -> Prop) :
  Runs m x Q -> (forall a x', Q a x' -> Q' a x') -> Runs m x Q'.
Proof. intros (a & x1 & E & H) HQ. exists a, x1. eauto. Qed.
End runs.

(** Walk along the code; what is left are the operations of the component, which
    the caller has as hypotheses or hints. *)
Ltac preserve :=
  lazy zeta;
  repeat first
    [ solve [eauto with cfix] | apply preserves_ret | apply preserves_gets
    | apply preserves_bind; [|intros ?; lazy zeta]
    | apply preserves_if | apply preserves_when ].

(** ** Machine integers

    A [ULONG] is an integer of [0, 2^32), a pointer-sized one of [0, 2^64). *)
Definition wrap (w z : Z) : Z := z mod 2 ^ w.
Definition ULONG (z : Z) : Z := wrap 32 z.
(** A [LONG] is signed. *)
Definition LONG (z : Z) : Z := let u := ULONG z in if u <? 2 ^ 31 then u else u - 2 ^ 32.

Lemma wrap_small w z : 0 <= z < 2 ^ w -> wrap w z = z.
Proof. apply Z.mod_small. Qed.

Lemma LONG_small z : 0 <= z < 2 ^ 31 -> LONG z = z.
Proof.
  intros H. unfold LONG, ULONG. rewrite wrap_small by lia. by destruct (Z.ltb_spec z (2 ^ 31)); [|lia].
Qed.

Lemma wrap_bound w z : 0 <= w -> 0 <= wrap w z < 2 ^ w.
Proof. intros. apply Z.mod_pos_bound. lia. Qed.

Lemma wrap_wrap w z : wrap w (wrap w z) = wrap w z.
Proof. apply Zmod_mod. Qed.

Lemma wrap_add_l w a b : wrap w (wrap w a + b) = wrap w (a + b).
Proof. unfold wrap. apply Zplus_mod_idemp_l. Qed.

Lemma wrap_sub_l w a b : wrap w (wrap w a - b) = wrap w (a - b).
Proof. unfold wrap. apply Zminus_mod_idemp_l. Qed.

#[export] Hint Rewrite wrap_wrap wrap_add_l wrap_sub_l : cfix.

(** [FlagOn( f, b )], i.e. [( f & b ) != 0]. *)
Definition FlagOn (f b : Z) : bool := negb (Z.land f b =? 0).

(** ** HRESULTs: 32-bit patterns; the sign bit says failure. *)
Definition FAILED (hr : Z) : bool := Z.testbit hr 31.
Definition SUCCEEDED (hr : Z) : bool := negb (FAILED hr).
Definition S_OK : Z := 0.
Definition S_FALSE : Z := 1.
Definition E_INVALIDARG : Z := 0x80070057.
Definition E_OUTOFMEMORY : Z := 0x8007000E.
Definition E_UNEXPECTED : Z := 0x8000FFFF.
Definition E_FAIL : Z := 0x80004005.
Definition E_NOINTERFACE : Z := 0x80004002.

(** [HRESULT_FROM_WIN32( x )]: a value that is no positive [HRESULT] is kept. *)
Definition HRESULT_FROM_WIN32 (x : Z) : Z :=
  if (x =? 0) || Z.testbit x 31 then x else Z.lor (Z.land x 0xFFFF) 0x80070000.

Lemma FAILED_from_win32 x : x <> 0 -> FAILED (HRESULT_FROM_WIN32 x) = true.
Proof.
  intros Hx. unfold HRESULT_FROM_WIN32, FAILED.
  destruct (Z.eqb_spec x 0); [lia|]. cbn [orb]. destruct (Z.testbit x 31) eqn:E; [done|].
  rewrite Z.lor_spec, Z.land_spec.
  change (Z.testbit 0x80070000 31) with true. by rewrite orb_true_r.
Qed.

(** ** Lists *)
Lemma app_cons_assoc {A} (l1 l2 : list A) x : l1 ++ x :: l2 = (l1 ++ [x]) ++ l2.
Proof. by rewrite <-app_assoc. Qed.

Lemma snoc_inv {A} (l : list A) : l = [] \/ exists l' x, l = l' ++ [x].
Proof.
  induction l as [|x l' _] using rev_ind; [by left|right; by eexists _, _].
Qed.

Lemma max_bound (l : list Z) h : h ∈ l -> h <= foldr Z.max 0 l.
Proof. induction l; set_unfold; [done|]. simpl. intros [->|?%IHl]; lia. Qed.

Lemma filter_all {A} (P : A -> Prop) `{!forall x, Decision (P x)} (l : list A) :
  (forall x, x ∈ l -> P x) -> filter P l = l.
Proof.
  induction l as [|x l IH]; intros HP; [done|].
  rewrite filter_cons_True by (apply HP; set_solver). f_equal. apply IH. set_solver.
Qed.

Lemma filter_none {A} (P : A -> Prop) `{!forall x, Decision (P x)} (l : list A) :
  (forall x, x ∈ l -> ~ P x) -> filter P l = [].
Proof.
  induction l as [|x l IH]; intros HP; [done|].
  rewrite filter_cons_False by (apply HP; set_solver). apply IH. set_solver.
Qed.
