(* ===== verification/LinkedList.v ===== *)
(** * Doubly linked lists (jpht/include/list.h)

    The operations of the intrusive [LIST_ENTRY] lists on an explicit heap, and
    the refinement of each of them to an operation on sequences.  The same
    header is compiled into cfix and cdiag. *)
From stdpp Require Import base gmap list.
From Stdlib Require Import ZArith Lia.
From S2P Require Import Prelude.

(** The Win32 [LIST_ENTRY]; addresses are integers. *)
Record LIST_ENTRY := MkLink { Flink : Z; Blink : Z }.

Notation HEAP := (gmap Z LIST_ENTRY).

Definition with_Flink (v : Z) (e : LIST_ENTRY) : LIST_ENTRY := MkLink v (Blink e).
Definition with_Blink (v : Z) (e : LIST_ENTRY) : LIST_ENTRY := MkLink (Flink e) v.

(** [p->Flink] and [p->Blink]: an unmapped address faults. *)
Definition load_Flink (p : Z) : ST HEAP Z :=
  fun h => match h !! p with Some e => Some (Flink e, h) | None => None end.
Definition load_Blink (p : Z) : ST HEAP Z :=
  fun h => match h !! p with Some e => Some (Blink e, h) | None => None end.
Definition store_Flink (p v : Z) : ST HEAP unit :=
  fun h => match h !! p with
           | Some e => Some (tt, <[p := with_Flink v e]> h)
           | None => None
           end.
Definition store_Blink (p v : Z) : ST HEAP unit :=
  fun h => match h !! p with
           | Some e => Some (tt, <[p := with_Blink v e]> h)
           | None => None
           end.

(* src/jpht/include/list.h:26-31 (InitializeListHead) *)
Definition InitializeListHead (ListHead : Z) : ST HEAP unit :=
  store_Blink ListHead ListHead ;;;
  store_Flink ListHead ListHead.

(* src/jpht/include/list.h:33-44 (InsertHeadList) *)
Definition InsertHeadList (ListHead Entry : Z) : ST HEAP unit :=
  OldFlink <- load_Flink ListHead ;;
  store_Flink Entry OldFlink ;;;
  store_Blink Entry ListHead ;;;
  store_Blink OldFlink Entry ;;;
  store_Flink ListHead Entry.

(* src/jpht/include/list.h:46-57 (InsertTailList) *)
Definition InsertTailList (ListHead Entry : Z) : ST HEAP unit :=
  OldBlink <- load_Blink ListHead ;;
  store_Flink Entry ListHead ;;;
  store_Blink Entry OldBlink ;;;
  store_Flink OldBlink Entry ;;;
  store_Blink ListHead Entry.

(* src/jpht/include/list.h:64-65 (IsListEmpty) *)
Definition IsListEmpty (ListHead : Z) : ST HEAP bool :=
  f <- load_Flink ListHead ;; ret (f =? ListHead).

(* src/jpht/include/list.h:68-80 (RemoveEntryList) *)
Definition RemoveEntryList (Entry : Z) : ST HEAP bool :=
  OldFlink <- load_Flink Entry ;;
  OldBlink <- load_Blink Entry ;;
  store_Blink OldFlink OldBlink ;;;
  store_Flink OldBlink OldFlink ;;;
  ret (OldFlink =? OldBlink).

(* src/jpht/include/list.h:82-94 (RemoveHeadList) *)
Definition RemoveHeadList (ListHead : Z) : ST HEAP Z :=
  Entry <- load_Flink ListHead ;;
  Flink <- load_Flink Entry ;;
  store_Flink ListHead Flink ;;;
  store_Blink Flink ListHead ;;;
  ret Entry.

(* src/jpht/include/list.h:96-108 (RemoveTailList) *)
Definition RemoveTailList (ListHead : Z) : ST HEAP Z :=
  Entry <- load_Blink ListHead ;;
  Blink <- load_Blink Entry ;;
  store_Blink ListHead Blink ;;;
  store_Flink Blink ListHead ;;;
  ret Entry.

(** ** The two links of an address as functions of the heap *)
Definition flk (h : HEAP) (p : Z) : option Z := Flink <$> h !! p.
Definition blk (h : HEAP) (p : Z) : option Z := Blink <$> h !! p.

(** The heaps whose mapped addresses are the same. *)
Definition same_dom (h h' : HEAP) : Prop := forall p, is_Some (h' !! p) <-> is_Some (h !! p).

Section links.
Implicit Types (h : HEAP) (p v : Z).

Lemma flk_is_Some h p : is_Some (flk h p) <-> is_Some (h !! p).
Proof. unfold flk. by rewrite fmap_is_Some. Qed.

Lemma blk_is_Some h p : is_Some (blk h p) <-> is_Some (h !! p).
Proof. unfold blk. by rewrite fmap_is_Some. Qed.

Lemma load_Flink_spec h p v : flk h p = Some v -> load_Flink p h = Some (v, h).
Proof. unfold flk, load_Flink. destruct (h !! p); naive_solver. Qed.

Lemma load_Blink_spec h p v : blk h p = Some v -> load_Blink p h = Some (v, h).
Proof. unfold blk, load_Blink. destruct (h !! p); naive_solver. Qed.

Definition stored_Flink (p v : Z) (h h' : HEAP) : Prop :=
  same_dom h h' /\ (forall q, flk h' q = if decide (q = p) then Some v else flk h q)
  /\ (forall q, blk h' q = blk h q) /\ (forall q, q <> p -> h' !! q = h !! q).

Definition stored_Blink (p v : Z) (h h' : HEAP) : Prop :=
  same_dom h h' /\ (forall q, blk h' q = if decide (q = p) then Some v else blk h q)
  /\ (forall q, flk h' q = flk h q) /\ (forall q, q <> p -> h' !! q = h !! q).

Lemma store_Flink_spec h p v :
  is_Some (h !! p) ->
  exists h', store_Flink p v h = Some (tt, h') /\ stored_Flink p v h h'.
Proof.
  intros [e He]. unfold store_Flink. rewrite He. eexists. split; [done|].
  unfold stored_Flink, same_dom, flk, blk.
  split_and!; intros q; destruct (decide (q = p)) as [->|Hq];
    rewrite ?lookup_insert_eq, ?lookup_insert_ne by done; rewrite ?He;
    rewrite ?decide_True, ?decide_False by done;
    solve [done | split; intros _; by eexists].
Qed.

Lemma store_Blink_spec h p v :
  is_Some (h !! p) ->
  exists h', store_Blink p v h = Some (tt, h') /\ stored_Blink p v h h'.
Proof.
  intros [e He]. unfold store_Blink. rewrite He. eexists. split; [done|].
  unfold stored_Blink, same_dom, flk, blk.
  split_and!; intros q; destruct (decide (q = p)) as [->|Hq];
    rewrite ?lookup_insert_eq, ?lookup_insert_ne by done; rewrite ?He;
    rewrite ?decide_True, ?decide_False by done;
    solve [done | split; intros _; by eexists].
Qed.
End links.

(** ** Segments and rings *)

(** [a->Flink == b] and [b->Blink == a]. *)
Definition linked (h : HEAP) (a b : Z) : Prop := flk h a = Some b /\ blk h b = Some a.

(** Consecutive elements of [l] are linked. *)
Fixpoint path (h : HEAP) (l : list Z) : Prop :=
  match l with
  | a :: t => match t with b :: _ => linked h a b | [] => True end /\ path h t
  | [] => True
  end.

(** [head] is the anchor of a well-formed list whose elements are [xs]. *)
Definition dll (h : HEAP) (head : Z) (xs : list Z) : Prop :=
  NoDup (head :: xs) /\ path h (head :: xs ++ [head]).

Section paths.
Implicit Types (h : HEAP) (l : list Z).

Lemma path_app h l1 x l2 :
  path h (l1 ++ x :: l2) <-> path h (l1 ++ [x]) /\ path h (x :: l2).
Proof.
  induction l1 as [|a l1 IH]; simpl; [naive_solver|].
  rewrite IH. destruct l1; simpl; naive_solver.
Qed.

Lemma path_cons2 h a b l : path h (a :: b :: l) <-> linked h a b /\ path h (b :: l).
Proof. done. Qed.

Lemma path_one h a : path h [a].
Proof. done. Qed.

(** What a path depends on: the forward links of all elements but the last,
    the backward links of all but the first. *)
Lemma path_frame h h' a l :
  (forall p, p ∈ removelast (a :: l) -> flk h' p = flk h p) ->
  (forall p, p ∈ l -> blk h' p = blk h p) ->
  path h (a :: l) -> path h' (a :: l).
Proof.
  revert a. induction l as [|b l IH]; intros a Hf Hb; [done|].
  rewrite !path_cons2. intros [[H1 H2] Hp]. split.
  - split; [rewrite Hf, H1; [done|] | rewrite Hb, H2; [done|]]; set_solver.
  - apply IH; [| |done]; intros p Hin.
    + apply Hf. change (p ∈ a :: removelast (b :: l)). set_solver.
    + apply Hb. set_solver.
Qed.

Lemma path_frame_app h h' l x :
  (forall p, p ∈ l -> flk h' p = flk h p) ->
  (forall p, p ∈ tail (l ++ [x]) -> blk h' p = blk h p) ->
  path h (l ++ [x]) -> path h' (l ++ [x]).
Proof.
  destruct l as [|a l]; [done|]. intros Hf Hb. apply (path_frame _ _ a (l ++ [x])); [|done]. intros p Hin.
  change (a :: (l ++ [x])) with ((a :: l) ++ [x]) in Hin.
  rewrite removelast_last in Hin. by apply Hf.
Qed.

Lemma path_blk_mapped h a l p : path h (a :: l) -> p ∈ l -> is_Some (h !! p).
Proof.
  revert a. induction l as [|b l IH]; intros a Hp Hin; [set_solver|].
  rewrite path_cons2 in Hp. destruct Hp as [[_ H2] Hp].
  apply elem_of_cons in Hin as [->|Hin]; [|by eapply IH].
  apply blk_is_Some. by eexists.
Qed.

Lemma dll_mapped h head xs p : dll h head xs -> p ∈ head :: xs -> is_Some (h !! p).
Proof. intros [_ Hp] Hin. eapply path_blk_mapped; [done|]. set_solver. Qed.

(** Everything a list owns: its anchor and its elements. *)
Lemma dll_frame h h' head xs :
  (forall p, p ∈ head :: xs -> h' !! p = h !! p) -> dll h head xs -> dll h' head xs.
Proof.
  intros Heq [Hnd Hp]. split; [done|].
  change (head :: xs ++ [head]) with ((head :: xs) ++ [head]) in *.
  eapply path_frame_app; [| |done]; intros p Hin; unfold flk, blk; rewrite Heq; set_solver.
Qed.

(** The neighbours of an element of a ring. *)
Lemma dll_split h head xs1 e xs2 :
  dll h head (xs1 ++ e :: xs2) ->
  exists p n,
    last (head :: xs1) = Some p /\ hd_error (xs2 ++ [head]) = Some n /\
    linked h p e /\ linked h e n.
Proof.
  intros [_ Hp].
  destruct (snoc_inv (head :: xs1)) as [|(l1 & p & E1)]; [done|].
  destruct (xs2 ++ [head]) as [|n l2] eqn:E2; [by destruct xs2|].
  exists p, n. rewrite E1, last_snoc. split_and!; try done.
  all: replace (head :: (xs1 ++ e :: xs2) ++ [head]) with (l1 ++ p :: e :: n :: l2) in Hp
    by (rewrite <-app_assoc, <-app_comm_cons, E2, (app_cons_assoc l1 _ p), <-E1; done).
  all: apply path_app in Hp as [_ Hp]; rewrite !path_cons2 in Hp; naive_solver.
Qed.
End paths.

(** ** The two ways a ring changes *)
Section splice.
Implicit Types (h : HEAP).

(** The two halves of a ring around the cut between [p] and [n] do not depend
    on the forward link of [p] nor on the backward link of [n]. *)
Lemma ring_halves h h' head xs1 xs2 l1 p n l2 :
  NoDup (head :: xs1 ++ xs2) ->
  head :: xs1 = l1 ++ [p] -> xs2 ++ [head] = n :: l2 ->
  path h (l1 ++ [p]) -> path h (n :: l2) ->
  (forall q, q ∈ head :: xs1 ++ xs2 -> q <> p -> flk h' q = flk h q) ->
  (forall q, q ∈ head :: xs1 ++ xs2 -> q <> n -> blk h' q = blk h q) ->
  path h' (l1 ++ [p]) /\ path h' (n :: l2).
Proof.
  intros Hnd E1 E2 Hp1 Hp2 Hf Hb.
  apply NoDup_cons in Hnd as [Hh Hnd]. apply NoDup_app in Hnd as (H1 & H2 & H3).
  assert (NoDup (l1 ++ [p])) as Hnd1 by (rewrite <-E1; apply NoDup_cons; set_solver).
  assert (NoDup (n :: l2)) as Hnd2.
  { rewrite <-E2. apply NoDup_app. split_and!; [done|set_solver|apply NoDup_singleton]. }
  assert (p ∈ head :: xs1) as Hp by (rewrite E1; set_solver).
  assert (n ∈ xs2 ++ [head]) as Hn by (rewrite E2; set_solver).
  split.
  - eapply path_frame_app; [| |done]; rewrite <-?E1; simpl; intros q Hq.
    + assert (q ∈ head :: xs1) by (rewrite E1; set_solver).
      apply NoDup_app in Hnd1 as (_ & Hd & _). apply Hf; set_solver.
    + apply Hb; set_solver.
  - destruct (snoc_inv (n :: l2)) as [|(l3 & y & E3)]; [done|].
    rewrite E3 in *. apply app_inj_tail in E2 as [-> <-].
    eapply path_frame_app; [| |done]; rewrite <-?E3; simpl; intros q Hq.
    + apply Hf; set_solver.
    + rewrite <-E3 in Hnd2. apply NoDup_cons in Hnd2 as [Hd _].
      assert (q ∈ l3 ++ [head]) by (rewrite <-E3; set_solver).
      apply Hb; set_solver.
Qed.

Lemma NoDup_insert (head e : Z) (xs1 xs2 : list Z) :
  NoDup (head :: xs1 ++ e :: xs2) <->
  NoDup (head :: xs1 ++ xs2) /\ e ∉ head :: xs1 ++ xs2.
Proof. rewrite !NoDup_cons, !NoDup_app, !NoDup_cons. set_solver. Qed.

(** A cut of a ring, seen from both sides. *)
Lemma ring_cut (head : Z) (xs1 xs2 : list Z) p n :
  last (head :: xs1) = Some p -> hd_error (xs2 ++ [head]) = Some n ->
  exists l1 l2,
    head :: xs1 = l1 ++ [p] /\ xs2 ++ [head] = n :: l2 /\
    head :: (xs1 ++ xs2) ++ [head] = l1 ++ p :: n :: l2 /\
    forall e, head :: (xs1 ++ e :: xs2) ++ [head] = l1 ++ p :: e :: n :: l2.
Proof.
  intros Hlast Hhd.
  destruct (snoc_inv (head :: xs1)) as [|(l1 & p' & E1)]; [done|].
  rewrite E1, last_snoc in Hlast. simplify_eq.
  destruct (xs2 ++ [head]) as [|n' l2] eqn:E2; [done|]. simpl in Hhd. simplify_eq.
  exists l1, l2. split_and!; try done.
  - rewrite <-app_assoc, E2, (app_cons_assoc l1), <-E1. done.
  - intros e. rewrite <-app_assoc, <-app_comm_cons, E2, (app_cons_assoc l1 _ p), <-E1. done.
Qed.

Lemma dll_insert h h' head xs1 xs2 e p n :
  dll h head (xs1 ++ xs2) -> e ∉ head :: xs1 ++ xs2 ->
  last (head :: xs1) = Some p -> hd_error (xs2 ++ [head]) = Some n ->
  linked h' p e -> linked h' e n ->
  (forall q, q <> p -> q <> e -> flk h' q = flk h q) ->
  (forall q, q <> n -> q <> e -> blk h' q = blk h q) ->
  dll h' head (xs1 ++ e :: xs2).
Proof.
  intros [Hnd Hp] He Hlast Hhd Hpe Hen Hf Hb. split; [by apply NoDup_insert|].
  destruct (ring_cut _ _ _ _ _ Hlast Hhd) as (l1 & l2 & E1 & E2 & Eold & ->).
  rewrite Eold in Hp. apply path_app in Hp as [Hp1 Hp2].
  rewrite path_cons2 in Hp2. destruct Hp2 as [_ Hp2].
  destruct (ring_halves h h' head xs1 xs2 l1 p n l2) as [??]; try done.
  - intros q Hq ?. apply Hf; [done|]. by intros ->.
  - intros q Hq ?. apply Hb; [done|]. by intros ->.
  - apply path_app. by rewrite !path_cons2.
Qed.

Lemma dll_remove h h' head xs1 xs2 e p n :
  dll h head (xs1 ++ e :: xs2) ->
  last (head :: xs1) = Some p -> hd_error (xs2 ++ [head]) = Some n ->
  linked h' p n ->
  (forall q, q <> p -> flk h' q = flk h q) ->
  (forall q, q <> n -> blk h' q = blk h q) ->
  dll h' head (xs1 ++ xs2).
Proof.
  intros [Hnd Hp] Hlast Hhd Hpn Hf Hb. apply NoDup_insert in Hnd as [Hnd He].
  split; [done|].
  destruct (ring_cut _ _ _ _ _ Hlast Hhd) as (l1 & l2 & E1 & E2 & -> & Eold).
  rewrite Eold in Hp. apply path_app in Hp as [Hp1 Hp2].
  rewrite !path_cons2 in Hp2. destruct Hp2 as (_ & _ & Hp2).
  destruct (ring_halves h h' head xs1 xs2 l1 p n l2) as [??]; try done; [naive_solver..|].
  apply path_app. by rewrite !path_cons2.
Qed.
End splice.

(** ** The operations, one by one *)

(** [h'] differs from [h] at the addresses of [l] only, and maps the same addresses. *)
Definition framed (l : list Z) (h h' : HEAP) : Prop :=
  same_dom h h' /\ forall q, q ∉ l -> h' !! q = h !! q.

Ltac deref_step :=
  match goal with
  | |- context [bind (load_Flink ?p) _ _] =>
      erewrite (bind_eq (load_Flink p)) by (apply load_Flink_spec; eassumption)
  | |- context [bind (load_Blink ?p) _ _] =>
      erewrite (bind_eq (load_Blink p)) by (apply load_Blink_spec; eassumption)
  end.

Section ops.
Implicit Types (h : HEAP) (xs : list Z).

Lemma same_dom_is_Some h h' p : same_dom h h' -> is_Some (h !! p) -> is_Some (h' !! p).
Proof. intros H. apply H. Qed.

Lemma framed_refl l h : framed l h h.
Proof. by split. Qed.

Lemma framed_trans l1 l2 l h1 h2 h3 :
  framed l1 h1 h2 -> framed l2 h2 h3 -> l1 ⊆ l -> l2 ⊆ l -> framed l h1 h3.
Proof.
  intros [D1 F1] [D2 F2] S1 S2. split; [intros p; by rewrite (D2 p), (D1 p)|].
  intros q Hq. rewrite F2, F1; [done|set_solver..].
Qed.

Lemma framed_dll l h h' head xs :
  framed l h h' -> (forall q, q ∈ head :: xs -> q ∉ l) -> dll h head xs -> dll h' head xs.
Proof. intros [_ F] Hd. apply dll_frame. intros p Hp. apply F, Hd, Hp. Qed.

(** The four stores that link [e] between [p] and [n], in either order of the
    last two. *)
Lemma link_between h p e n :
  is_Some (h !! p) -> is_Some (h !! e) -> is_Some (h !! n) -> p <> e -> n <> e ->
  (exists h', (store_Flink e n ;;; store_Blink e p ;;; store_Blink n e ;;; store_Flink p e) h
              = Some (tt, h') /\
    linked h' p e /\ linked h' e n /\
    (forall q, q <> p -> q <> e -> flk h' q = flk h q) /\
    (forall q, q <> n -> q <> e -> blk h' q = blk h q) /\
    framed [p; e; n] h h') /\
  (exists h', (store_Flink e n ;;; store_Blink e p ;;; store_Flink p e ;;; store_Blink n e) h
              = Some (tt, h') /\
    linked h' p e /\ linked h' e n /\
    (forall q, q <> p -> q <> e -> flk h' q = flk h q) /\
    (forall q, q <> n -> q <> e -> blk h' q = blk h q) /\
    framed [p; e; n] h h').
Proof.
  intros Hp He Hn Hpe Hne.
  destruct (store_Flink_spec h e n) as (h1 & E1 & D1 & F1 & B1 & O1); [done|].
  destruct (store_Blink_spec h1 e p) as (h2 & E2 & D2 & B2 & F2 & O2); [by apply D1|].
  split.
  - destruct (store_Blink_spec h2 n e) as (h3 & E3 & D3 & B3 & F3 & O3);
      [by apply D2, D1|].
    destruct (store_Flink_spec h3 p e) as (h4 & E4 & D4 & F4 & B4 & O4);
      [by apply D3, D2, D1|].
    exists h4. rewrite (bind_eq _ _ _ _ _ E1), (bind_eq _ _ _ _ _ E2), (bind_eq _ _ _ _ _ E3).
    split; [done|]. unfold linked, framed.
    split_and!;
      try (intros; rewrite ?F4, ?B4, ?F3, ?B3, ?F2, ?B2, ?F1, ?B1;
           repeat case_decide; congruence).
    + intros q. by rewrite (D4 q), (D3 q), (D2 q), (D1 q).
    + intros q Hq. rewrite O4, O3, O2, O1 by set_solver. done.
  - destruct (store_Flink_spec h2 p e) as (h3 & E3 & D3 & F3 & B3 & O3);
      [by apply D2, D1|].
    destruct (store_Blink_spec h3 n e) as (h4 & E4 & D4 & B4 & F4 & O4);
      [by apply D3, D2, D1|].
    exists h4. rewrite (bind_eq _ _ _ _ _ E1), (bind_eq _ _ _ _ _ E2), (bind_eq _ _ _ _ _ E3).
    split; [done|]. unfold linked, framed.
    split_and!;
      try (intros; rewrite ?F4, ?B4, ?F3, ?B3, ?F2, ?B2, ?F1, ?B1;
           repeat case_decide; congruence).
    + intros q. by rewrite (D4 q), (D3 q), (D2 q), (D1 q).
    + intros q Hq. rewrite O4, O3, O2, O1 by set_solver. done.
Qed.
End ops.

Section specs.
Implicit Types (h : HEAP) (xs : list Z).

Lemma last_cons_in (a : Z) l p : last (a :: l) = Some p -> p ∈ a :: l.
Proof. intros H. apply list_elem_of_lookup. exists (length l). by rewrite <-H, last_lookup. Qed.

Lemma hd_app_in (a : Z) l n : hd_error (l ++ [a]) = Some n -> n ∈ a :: l.
Proof. destruct l; simpl; intros; simplify_eq; set_solver. Qed.

Lemma path_ring_ends h head xs p n :
  dll h head xs -> last (head :: xs) = Some p -> hd_error (xs ++ [head]) = Some n ->
  flk h head = Some n /\ blk h head = Some p.
Proof.
  intros [_ Hp] Hlast Hhd. split.
  - destruct (xs ++ [head]) as [|n' l] eqn:E; [done|]. simpl in Hhd. simplify_eq.
    rewrite path_cons2 in Hp. destruct Hp as [[H _] _]. done.
  - destruct (snoc_inv (head :: xs)) as [|(l1 & p' & E1)]; [done|].
    rewrite E1, last_snoc in Hlast. simplify_eq.
    rewrite app_comm_cons, E1, <-app_assoc in Hp. simpl in Hp.
    apply path_app in Hp as [_ [[_ H] _]]. done.
Qed.

Lemma ring_last (head : Z) (xs : list Z) : exists p, last (head :: xs) = Some p.
Proof. destruct (snoc_inv (head :: xs)) as [|(l & p & ->)]; [done|]. exists p. apply last_snoc. Qed.

Lemma ring_hd (head : Z) (xs : list Z) : exists n, hd_error (xs ++ [head]) = Some n.
Proof. destruct xs; by eexists. Qed.

Lemma ring_last_head (head : Z) (xs : list Z) :
  head ∉ xs -> last (head :: xs) = Some head -> xs = [].
Proof.
  destruct (snoc_inv xs) as [->|(l & x & ->)]; [done|].
  rewrite app_comm_cons, last_snoc. set_solver.
Qed.

Lemma ring_hd_head (head : Z) (xs : list Z) :
  head ∉ xs -> hd_error (xs ++ [head]) = Some head -> xs = [].
Proof. destruct xs; [done|]. simpl. set_solver. Qed.

Lemma InitializeListHead_spec h head :
  is_Some (h !! head) ->
  exists h', InitializeListHead head h = Some (tt, h') /\ dll h' head [] /\
             framed [head] h h'.
Proof.
  intros Hm. unfold InitializeListHead.
  destruct (store_Blink_spec h head head) as (h1 & E1 & D1 & B1 & F1 & O1); [done|].
  destruct (store_Flink_spec h1 head head) as (h2 & E2 & D2 & F2 & B2 & O2); [by apply D1|].
  exists h2. rewrite (bind_eq _ _ _ _ _ E1). split_and!; [done| |].
  - split; [apply NoDup_singleton|]. simpl. unfold linked.
    rewrite F2, B2, B1. by rewrite !decide_True.
  - split; [intros p; by rewrite (D2 p), (D1 p)|].
    intros q Hq. rewrite O2, O1; [done|set_solver..].
Qed.

Lemma InsertHeadList_spec h head xs e :
  dll h head xs -> e ∉ head :: xs -> is_Some (h !! e) ->
  exists h', InsertHeadList head e h = Some (tt, h') /\ dll h' head (e :: xs) /\
             framed (head :: e :: xs) h h'.
Proof.
  intros Hd He Hm. destruct (ring_hd head xs) as [n Hn].
  destruct (ring_last head xs) as [p Hp].
  destruct (path_ring_ends _ _ _ _ _ Hd Hp Hn) as [Hf _].
  unfold InsertHeadList. deref_step.
  assert (n ∈ head :: xs) as Hnin by by apply hd_app_in.
  destruct (link_between h head e n) as [(h' & -> & L1 & L2 & F & B & Fr) _];
    [eapply dll_mapped; [done|set_solver] | done | by eapply dll_mapped | set_solver.. |].
  exists h'. split_and!; [done| |].
  - by eapply (dll_insert h h' head [] xs e head n).
  - eapply framed_trans; [apply Fr|apply framed_refl| |]; set_solver.
Qed.

Lemma InsertTailList_spec h head xs e :
  dll h head xs -> e ∉ head :: xs -> is_Some (h !! e) ->
  exists h', InsertTailList head e h = Some (tt, h') /\ dll h' head (xs ++ [e]) /\
             framed (head :: e :: xs) h h'.
Proof.
  intros Hd He Hm. destruct (ring_last head xs) as [p Hp].
  destruct (ring_hd head xs) as [n Hn].
  destruct (path_ring_ends _ _ _ _ _ Hd Hp Hn) as [_ Hb].
  unfold InsertTailList. deref_step.
  assert (p ∈ head :: xs) as Hpin by by apply last_cons_in.
  destruct (link_between h p e head) as [_ (h' & -> & L1 & L2 & F & B & Fr)];
    [by eapply dll_mapped | done | eapply dll_mapped; [done|set_solver] | set_solver.. |].
  exists h'. split_and!; [done| |].
  - eapply (dll_insert h h' head xs [] e p head); rewrite ?app_nil_r; done.
  - eapply framed_trans; [apply Fr|apply framed_refl| |]; set_solver.
Qed.

Lemma IsListEmpty_spec h head xs :
  dll h head xs -> IsListEmpty head h = Some (bool_decide (xs = []), h).
Proof.
  intros Hd. destruct (ring_hd head xs) as [n Hn]. destruct (ring_last head xs) as [p Hp].
  destruct (path_ring_ends _ _ _ _ _ Hd Hp Hn) as [Hf _].
  unfold IsListEmpty. deref_step. unfold ret. do 2 f_equal.
  destruct Hd as [Hnd _]. destruct xs as [|x xs]; simpl in Hn; simplify_eq.
  - by rewrite Z.eqb_refl.
  - apply NoDup_cons in Hnd as [Hh _]. rewrite bool_decide_false by done.
    apply Z.eqb_neq. set_solver.
Qed.

(** Unlinking [e] from its neighbours [p] and [n]. *)
Lemma unlink h p n :
  is_Some (h !! p) -> is_Some (h !! n) ->
  exists h1 h', store_Blink n p h = Some (tt, h1) /\ store_Flink p n h1 = Some (tt, h') /\
    linked h' p n /\
    (forall q, q <> p -> flk h' q = flk h q) /\
    (forall q, q <> n -> blk h' q = blk h q) /\
    framed [p; n] h h'.
Proof.
  intros Hp Hn.
  destruct (store_Blink_spec h n p) as (h1 & E1 & D1 & B1 & F1 & O1); [done|].
  destruct (store_Flink_spec h1 p n) as (h2 & E2 & D2 & F2 & B2 & O2); [by apply D1|].
  exists h1, h2. unfold linked, framed.
  split_and!; try done;
    try (intros; rewrite ?F2, ?B2, ?F1, ?B1; repeat case_decide; congruence).
  - intros q. by rewrite (D2 q), (D1 q).
  - intros q Hq. rewrite O2, O1 by set_solver. done.
Qed.

Lemma RemoveEntryList_spec h head xs1 e xs2 :
  dll h head (xs1 ++ e :: xs2) ->
  exists h', RemoveEntryList e h = Some (bool_decide (xs1 ++ xs2 = []), h') /\
    dll h' head (xs1 ++ xs2) /\ framed (head :: xs1 ++ xs2) h h' /\ h' !! e = h !! e.
Proof.
  intros Hd. destruct (dll_split _ _ _ _ _ Hd) as (p & n & Hp & Hn & [Lp1 Lp2] & [Ln1 Ln2]).
  pose proof (proj1 Hd) as Hnd. apply NoDup_insert in Hnd as [Hnd He].
  assert (p ∈ head :: xs1) as Hpin by by apply last_cons_in.
  assert (n ∈ head :: xs2) as Hnin by by apply hd_app_in.
  destruct (unlink h p n) as (h1 & h' & E1 & E2 & Hpn & F & B & Fr);
    [eapply dll_mapped; [done|set_solver]..|].
  exists h'. unfold RemoveEntryList. do 2 deref_step.
  rewrite (bind_eq _ _ _ _ _ E1), (bind_eq _ _ _ _ _ E2). unfold ret.
  assert (framed (head :: xs1 ++ xs2) h h') as Hfr
    by (eapply framed_trans; [apply Fr|apply framed_refl| |]; set_solver).
  split_and!; [|by eapply dll_remove|done|by apply Hfr].
  do 2 f_equal. destruct (ring_cut _ _ _ _ _ Hp Hn) as (l1 & l2 & E3 & E4 & _ & _).
  destruct (Z.eqb_spec n p) as [->|Hnp].
  - symmetry. apply bool_decide_true. apply NoDup_cons in Hnd as [Hh Hnd].
    apply NoDup_app in Hnd as (_ & Hdj & _).
    assert (p = head) as -> by set_solver.
    apply ring_last_head in Hp as ->; [|set_solver].
    by apply ring_hd_head in Hn as ->; [|set_solver].
  - symmetry. apply bool_decide_false. intros [-> ->]%app_nil. simpl in *. by simplify_eq.
Qed.
End specs.

Section ends.
Implicit Types (h : HEAP) (xs : list Z).

Lemma dll_self_links h head : dll h head [] -> flk h head = Some head /\ blk h head = Some head.
Proof. intros Hd. by apply (path_ring_ends h head []). Qed.

(** On an empty list the anchor removes itself: the heap keeps its contents. *)
Lemma store_self h p :
  flk h p = Some p -> blk h p = Some p ->
  store_Flink p p h = Some (tt, h) /\ store_Blink p p h = Some (tt, h).
Proof.
  unfold flk, blk, store_Flink, store_Blink.
  destruct (h !! p) as [[f b]|] eqn:E; [|done]. simpl. intros. simplify_eq.
  unfold with_Flink, with_Blink. simpl. by rewrite !insert_id.
Qed.

Lemma RemoveHeadList_empty h head :
  dll h head [] -> RemoveHeadList head h = Some (head, h).
Proof.
  intros Hd. destruct (dll_self_links _ _ Hd) as [F B]. destruct (store_self _ _ F B) as [E1 E2].
  unfold RemoveHeadList. do 2 deref_step.
  by rewrite (bind_eq _ _ _ _ _ E1), (bind_eq _ _ _ _ _ E2).
Qed.

Lemma RemoveTailList_empty h head :
  dll h head [] -> RemoveTailList head h = Some (head, h).
Proof.
  intros Hd. destruct (dll_self_links _ _ Hd) as [F B]. destruct (store_self _ _ F B) as [E1 E2].
  unfold RemoveTailList. do 2 deref_step.
  by rewrite (bind_eq _ _ _ _ _ E2), (bind_eq _ _ _ _ _ E1).
Qed.

(** The same two stores in the other order. *)
Lemma unlink' h p n :
  is_Some (h !! p) -> is_Some (h !! n) ->
  exists h1 h', store_Flink p n h = Some (tt, h1) /\ store_Blink n p h1 = Some (tt, h') /\
    linked h' p n /\
    (forall q, q <> p -> flk h' q = flk h q) /\
    (forall q, q <> n -> blk h' q = blk h q) /\
    framed [p; n] h h'.
Proof.
  intros Hp Hn.
  destruct (store_Flink_spec h p n) as (h1 & E1 & D1 & F1 & B1 & O1); [done|].
  destruct (store_Blink_spec h1 n p) as (h2 & E2 & D2 & B2 & F2 & O2); [by apply D1|].
  exists h1, h2. unfold linked, framed.
  split_and!; try done;
    try (intros; rewrite ?F2, ?B2, ?F1, ?B1; repeat case_decide; congruence).
  - intros q. by rewrite (D2 q), (D1 q).
  - intros q Hq. rewrite O2, O1 by set_solver. done.
Qed.

Lemma RemoveHeadList_spec h head x xs :
  dll h head (x :: xs) ->
  exists h', RemoveHeadList head h = Some (x, h') /\ dll h' head xs /\
    framed (head :: xs) h h' /\ h' !! x = h !! x.
Proof.
  intros Hd. destruct (dll_split h head [] x xs Hd) as (p & n & Hp & Hn & [Lp1 Lp2] & [Ln1 Ln2]).
  simpl in Hp. simplify_eq. pose proof (proj1 Hd) as Hnd.
  apply (NoDup_insert p x [] xs) in Hnd as [Hnd He].
  assert (n ∈ p :: xs) as Hnin by by apply hd_app_in.
  destruct (unlink' h p n) as (h1 & h' & E1 & E2 & Hpn & F & B & Fr);
    [eapply dll_mapped; [done|set_solver]..|].
  exists h'. unfold RemoveHeadList. do 2 deref_step.
  rewrite (bind_eq _ _ _ _ _ E1), (bind_eq _ _ _ _ _ E2). unfold ret.
  assert (framed (p :: xs) h h') as Hfr
    by (eapply framed_trans; [apply Fr|apply framed_refl| |]; set_solver).
  split_and!; [done| |done|by apply Hfr].
  by eapply (dll_remove h h' p [] xs x p n).
Qed.

Lemma RemoveTailList_spec h head x xs :
  dll h head (xs ++ [x]) ->
  exists h', RemoveTailList head h = Some (x, h') /\ dll h' head xs /\
    framed (head :: xs) h h' /\ h' !! x = h !! x.
Proof.
  intros Hd. destruct (dll_split h head xs x [] Hd) as (p & n & Hp & Hn & [Lp1 Lp2] & [Ln1 Ln2]).
  simpl in Hn. simplify_eq. pose proof (proj1 Hd) as Hnd.
  apply (NoDup_insert n x xs []) in Hnd as [Hnd He]. rewrite app_nil_r in *.
  assert (p ∈ n :: xs) as Hpin by by apply last_cons_in.
  destruct (unlink h p n) as (h1 & h' & E1 & E2 & Hpn & F & B & Fr);
    [eapply dll_mapped; [done|set_solver]..|].
  exists h'. unfold RemoveTailList. do 2 deref_step.
  rewrite (bind_eq _ _ _ _ _ E1), (bind_eq _ _ _ _ _ E2). unfold ret.
  assert (framed (n :: xs) h h') as Hfr
    by (eapply framed_trans; [apply Fr|apply framed_refl| |]; set_solver).
  split_and!; [done| |done|by apply Hfr].
  rewrite <-(app_nil_r xs). eapply (dll_remove h h' n xs [] x p n); rewrite ?app_nil_r; done.
Qed.
End ends.

(** ** Sequences of operations against their specification on sequences *)
Inductive list_op :=
  | OpInsertHead (Entry : Z)
  | OpInsertTail (Entry : Z)
  | OpRemove (Entry : Z)
  | OpRemoveHead
  | OpRemoveTail
  | OpIsEmpty.

Inductive list_result := RVoid | RBool (b : bool) | RAddr (p : Z).

Definition exec_op (head : Z) (o : list_op) : ST HEAP list_result :=
  match o with
  | OpInsertHead e => InsertHeadList head e ;;; ret RVoid
  | OpInsertTail e => InsertTailList head e ;;; ret RVoid
  | OpRemove e => b <- RemoveEntryList e ;; ret (RBool b)
  | OpRemoveHead => e <- RemoveHeadList head ;; ret (RAddr e)
  | OpRemoveTail => e <- RemoveTailList head ;; ret (RAddr e)
  | OpIsEmpty => b <- IsListEmpty head ;; ret (RBool b)
  end.

Fixpoint exec_ops (head : Z) (os : list list_op) : ST HEAP (list list_result) :=
  match os with
  | [] => ret []
  | o :: os => r <- exec_op head o ;; rs <- exec_ops head os ;; ret (r :: rs)
  end.

(** What each operation does to the sequence; [None] where its precondition is
    violated: inserting an entry that is in the list, removing one that is not. *)
Definition spec_op (head : Z) (o : list_op) (xs : list Z) : option (list_result * list Z) :=
  match o with
  | OpInsertHead e => if decide (e ∈ head :: xs) then None else Some (RVoid, e :: xs)
  | OpInsertTail e => if decide (e ∈ head :: xs) then None else Some (RVoid, xs ++ [e])
  | OpRemove e =>
      if decide (e ∈ xs) then
        let xs' := filter (fun x => x <> e) xs in Some (RBool (bool_decide (xs' = [])), xs')
      else None
  | OpRemoveHead =>
      match xs with [] => Some (RAddr head, []) | x :: xs' => Some (RAddr x, xs') end
  | OpRemoveTail =>
      match last xs with
      | None => Some (RAddr head, [])
      | Some x => Some (RAddr x, removelast xs)
      end
  | OpIsEmpty => Some (RBool (bool_decide (xs = [])), xs)
  end.

Fixpoint spec_ops (head : Z) (os : list list_op) (xs : list Z)
  : option (list list_result * list Z) :=
  match os with
  | [] => Some ([], xs)
  | o :: os =>
      match spec_op head o xs with
      | None => None
      | Some (r, xs1) =>
          match spec_ops head os xs1 with
          | None => None
          | Some (rs, xs2) => Some (r :: rs, xs2)
          end
      end
  end.

Definition op_entry (o : list_op) : list Z :=
  match o with OpInsertHead e | OpInsertTail e => [e] | _ => [] end.

Section refinement.
Implicit Types (h : HEAP) (xs : list Z).

Lemma filter_out (e : Z) xs1 xs2 :
  NoDup (xs1 ++ e :: xs2) -> filter (fun x => x <> e) (xs1 ++ e :: xs2) = xs1 ++ xs2.
Proof.
  intros Hnd. apply NoDup_app in Hnd as (_ & H1 & H2). apply NoDup_cons in H2 as [H2 _].
  rewrite filter_app, filter_cons_False by (intros []; done).
  by rewrite !filter_all by set_solver.
Qed.

Lemma exec_op_refines head o h xs r xs' :
  dll h head xs -> (forall e, e ∈ op_entry o -> is_Some (h !! e)) ->
  spec_op head o xs = Some (r, xs') ->
  exists h', exec_op head o h = Some (r, h') /\ dll h' head xs' /\ same_dom h h'.
Proof.
  intros Hd Hm Hs. destruct o as [e|e|e| | |]; simpl in *.
  - case_decide; [done|]. simplify_eq.
    destruct (InsertHeadList_spec h head xs e) as (h' & E & Hd' & [? _]);
      [done|done|by apply Hm; left|].
    exists h'. by rewrite (bind_eq _ _ _ _ _ E).
  - case_decide; [done|]. simplify_eq.
    destruct (InsertTailList_spec h head xs e) as (h' & E & Hd' & [? _]);
      [done|done|by apply Hm; left|].
    exists h'. by rewrite (bind_eq _ _ _ _ _ E).
  - case_decide as Hin; [|done]. apply list_elem_of_split in Hin as (xs1 & xs2 & ->).
    pose proof (proj1 Hd) as Hnd. apply NoDup_cons in Hnd as [_ Hnd].
    rewrite filter_out in Hs by done. simplify_eq.
    destruct (RemoveEntryList_spec _ _ _ _ _ Hd) as (h' & E & Hd' & [? _] & _).
    exists h'. by rewrite (bind_eq _ _ _ _ _ E).
  - destruct xs as [|x xs]; simplify_eq.
    + exists h. by rewrite (bind_eq _ _ _ _ _ (RemoveHeadList_empty _ _ Hd)).
    + destruct (RemoveHeadList_spec _ _ _ _ Hd) as (h' & E & Hd' & [? _] & _).
      exists h'. by rewrite (bind_eq _ _ _ _ _ E).
  - destruct (snoc_inv xs) as [->|(l & x & ->)]; simpl in *.
    + simplify_eq. exists h. by rewrite (bind_eq _ _ _ _ _ (RemoveTailList_empty _ _ Hd)).
    + rewrite last_snoc, removelast_last in Hs. simplify_eq.
      destruct (RemoveTailList_spec _ _ _ _ Hd) as (h' & E & Hd' & [? _] & _).
      exists h'. by rewrite (bind_eq _ _ _ _ _ E).
  - simplify_eq. exists h. by rewrite (bind_eq _ _ _ _ _ (IsListEmpty_spec _ _ _ Hd)).
Qed.

(** C9. Every sequence of list operations whose preconditions hold runs
    without a fault from an initialised anchor, returns what the operations on
    sequences return, and leaves a well-formed ring of the specified elements. *)
Theorem list_ops_refine head os h rs xs :
  is_Some (h !! head) ->
  (forall e, e ∈ mjoin (op_entry <$> os) -> is_Some (h !! e)) ->
  spec_ops head os [] = Some (rs, xs) ->
  exists h', (InitializeListHead head ;;; exec_ops head os) h = Some (rs, h') /\
             dll h' head xs.
Proof.
  intros Hh Hm Hs.
  destruct (InitializeListHead_spec h head Hh) as (h1 & E1 & Hd & [D1 _]).
  rewrite (bind_eq _ _ _ _ _ E1).
  assert (forall e, e ∈ mjoin (op_entry <$> os) -> is_Some (h1 !! e)) as Hm1
    by (intros; apply D1; auto).
  clear Hm E1 D1 Hh h. revert h1 rs Hd Hm1 Hs. generalize (@nil Z) as ys.
  induction os as [|o os IH]; intros ys h rs Hd Hm Hs; simpl in *.
  { simplify_eq. by exists h. }
  destruct (spec_op head o ys) as [[r ys1]|] eqn:E1; [|done].
  destruct (spec_ops head os ys1) as [[rs' ys2]|] eqn:E2; [|done]. simplify_eq.
  destruct (exec_op_refines head o h ys r ys1) as (h1 & X1 & Hd1 & D1); [done|set_solver|done|].
  destruct (IH ys1 h1 rs') as (h2 & X2 & Hd2);
    [done|intros; apply D1; set_solver|done|].
  exists h2. by rewrite (bind_eq _ _ _ _ _ X1), (bind_eq _ _ _ _ _ X2).
Qed.

Lemma list_ops_refine_witness :
  exists h' : HEAP,
    (InitializeListHead 16 ;;;
     exec_ops 16 [OpInsertTail 32; OpInsertHead 48; OpRemove 32; OpRemoveHead; OpIsEmpty])
      (list_to_map [(16, MkLink 0 0); (32, MkLink 7 7); (48, MkLink 9 9)])
    = Some ([RVoid; RVoid; RBool false; RAddr 48; RBool true], h') /\ dll h' 16 [].
Proof.
  apply list_ops_refine.
  - vm_compute. by eexists.
  - intros e He. vm_compute in He. repeat (apply elem_of_cons in He as [->|He]; [by eexists|]).
    by apply not_elem_of_nil in He.
  - vm_compute. reflexivity.
Defined.
End refinement.

(** ** Walking a ring *)
Section walk.
Implicit Types (h : HEAP) (xs : list Z).

(** The successor of an element and of the anchor. *)
Lemma dll_first h head xs :
  dll h head xs -> load_Flink head h = Some (default head (hd_error xs), h).
Proof.
  intros Hd. destruct (ring_hd head xs) as [n Hn], (ring_last head xs) as [p Hp].
  destruct (path_ring_ends _ _ _ _ _ Hd Hp Hn) as [Hf _].
  apply load_Flink_spec. rewrite Hf. destruct xs; simpl in *; congruence.
Qed.

Lemma dll_next h head xs1 e xs2 :
  dll h head (xs1 ++ e :: xs2) -> load_Flink e h = Some (default head (hd_error xs2), h).
Proof.
  intros Hd. destruct (dll_split _ _ _ _ _ Hd) as (p & n & _ & Hn & _ & [Hf _]).
  apply load_Flink_spec. rewrite Hf. destruct xs2; simpl in *; congruence.
Qed.

Lemma load_Flink_eq h h' e v :
  h' !! e = h !! e -> load_Flink e h = Some (v, h) -> load_Flink e h' = Some (v, h').
Proof. unfold load_Flink. intros ->. destruct (h !! e); intros; congruence. Qed.

Lemma dll_head_notin h head xs : dll h head xs -> head ∉ xs.
Proof. intros [Hnd _]. by apply NoDup_cons in Hnd as [? _]. Qed.

Lemma dll_NoDup h head xs : dll h head xs -> NoDup xs.
Proof. intros [Hnd _]. by apply NoDup_cons in Hnd as [_ ?]. Qed.

(** A ring has no more elements than the heap has cells. *)
Lemma dll_length h head xs : dll h head xs -> (length xs < size h)%nat.
Proof.
  intros Hd. pose proof (proj1 Hd) as Hnd.
  assert (list_to_set (C := gset Z) (head :: xs) ⊆ dom h) as Hsub.
  { intros p Hp. apply elem_of_list_to_set in Hp. apply elem_of_dom.
    by eapply dll_mapped. }
  apply subseteq_size in Hsub. rewrite size_list_to_set, size_dom in Hsub by done.
  simpl in Hsub. lia.
Qed.
End walk.
