(* ===== verification/Hashtable.v ===== *)
(** * The hashtable library (jpht/jpht/hashtable.c)

    An open hashtable whose buckets are the rings of [LinkedList].  The memory
    holds the links (of bucket heads and entries) and the keys of the entries;
    the client's hash and comparison routines, its context and its heap manager
    are parameters. *)
From stdpp Require Import base gmap list.
From Stdlib Require Import ZArith Lia.
From S2P Require Import Prelude LinkedList.

(** The table ([JPHT_HASHTABLE.Data]), the memory its pointers lead to, the
    state [AS] of the heap manager, and the state [X] a callback may use. *)
(* src/jpht/include/hashtable.h:77-93 (JPHT_HASHTABLE) *)
Record HT (AS X : Type) := MkHT {
  EntryCount : Z;
  BucketCount : Z;
  Buckets : Z;
  Links : HEAP;
  Keys : gmap Z Z;
  Heap : AS;
  Ctx : X }.
Arguments MkHT {AS X}. Arguments EntryCount {AS X}. Arguments BucketCount {AS X}.
Arguments Buckets {AS X}. Arguments Links {AS X}. Arguments Keys {AS X}.
Arguments Heap {AS X}. Arguments Ctx {AS X}.

Section setters.
Context {AS X : Type}.
Implicit Types (s : HT AS X).

Definition set_EntryCount (c : Z) s := MkHT c (BucketCount s) (Buckets s) (Links s) (Keys s) (Heap s) (Ctx s).
Definition set_BucketCount (c : Z) s := MkHT (EntryCount s) c (Buckets s) (Links s) (Keys s) (Heap s) (Ctx s).
Definition set_Buckets (p : Z) s := MkHT (EntryCount s) (BucketCount s) p (Links s) (Keys s) (Heap s) (Ctx s).
Definition set_Links (h : HEAP) s := MkHT (EntryCount s) (BucketCount s) (Buckets s) h (Keys s) (Heap s) (Ctx s).
Definition set_Heap (a : AS) s := MkHT (EntryCount s) (BucketCount s) (Buckets s) (Links s) (Keys s) a (Ctx s).
Definition set_Ctx (x : X) s := MkHT (EntryCount s) (BucketCount s) (Buckets s) (Links s) (Keys s) (Heap s) x.

(** A list operation acts on the links. *)
Definition on_links {A} (m : ST HEAP A) : ST (HT AS X) A :=
  fun s => match m (Links s) with
           | Some (a, h) => Some (a, set_Links h s)
           | None => None
           end.

Definition load_Key (Entry : Z) : ST (HT AS X) Z :=
  fun s => match Keys s !! Entry with Some k => Some (k, s) | None => None end.

Lemma on_links_spec {A} (m : ST HEAP A) s a h :
  m (Links s) = Some (a, h) -> on_links m s = Some (a, set_Links h s).
Proof. unfold on_links. by intros ->. Qed.

Lemma on_links_id {A} (m : ST HEAP A) s a :
  m (Links s) = Some (a, Links s) -> on_links m s = Some (a, s).
Proof. unfold on_links. intros ->. by destruct s. Qed.

Lemma load_Key_spec s e k : Keys s !! e = Some k -> load_Key e s = Some (k, s).
Proof. unfold load_Key. by intros ->. Qed.
End setters.

Section hashtable.
Context {AS X : Type}.

(** [sizeof( PVOID )], 4 or 8. *)
Context (PTR : Z).

(** [JPHT_HASH_ROUTINE] and [JPHT_EQUALS_ROUTINE]. *)
Context (Hash : Z -> Z) (Equals : Z -> Z -> bool).

Local Abbreviation M := (ST (HT AS X)).

(** [CONTAINING_RECORD( p, JPHT_HASHTABLE_ENTRY, ListEntry )] and its inverse
    [&Entry->ListEntry]; [Key] is the first member. *)
(* src/jpht/include/hashtable.h:34-38 (JPHT_HASHTABLE_ENTRY) *)
Definition entry_of (ListEntry : Z) : Z := ListEntry - PTR.
Definition link_of (Entry : Z) : Z := Entry + PTR.

(** [sizeof( JPHT_HASHTABLE_BUCKET )] and [&Buckets[ Index ].EntryListHead]. *)
(* src/jpht/include/hashtable.h:29-32 (JPHT_HASHTABLE_BUCKET) *)
Definition sizeof_bucket : Z := 2 * PTR.
Definition bucket_addr (base Index : Z) : Z := base + Index * sizeof_bucket.

(** [Count * sizeof( JPHT_HASHTABLE_BUCKET )]: the product of a ULONG and a
    [SIZE_T] is a [SIZE_T]. *)
Definition SizeRequired (Count : Z) : Z := wrap (8 * PTR) (Count * sizeof_bucket).

(** [for ( Index = from; Index < n; Index++ ) InitializeListHead( ... )] *)
Fixpoint init_heads (base : Z) (n : nat) (from : Z) : M unit :=
  match n with
  | O => ret tt
  | S n => on_links (InitializeListHead (bucket_addr base from)) ;;;
           init_heads base n (from + 1)
  end.

(** The bucket of a key. *)
Definition bucket_of (Key : Z) : M Z :=
  n <- gets BucketCount ;;
  b <- gets Buckets ;;
  ret (bucket_addr b (Hash Key mod n)).

(** The scan of a bucket by [JphtPutEntryHashtable]: it removes every entry
    with the key and goes on from the links of the removed entry. *)
(* src/jpht/jpht/hashtable.c:137-155 (JphtPutEntryHashtable) *)
Fixpoint put_scan (fuel : nat) (head Key ListEntry OldEntry : Z) : M Z :=
  match fuel with
  | O => fault
  | S fuel =>
      if ListEntry =? head then ret OldEntry else
      k <- load_Key (entry_of ListEntry) ;;
      OldEntry' <-
        (if Equals Key k then
           on_links (RemoveEntryList (link_of (entry_of ListEntry))) ;;;
           modify (fun s => set_EntryCount (ULONG (EntryCount s - 1)) s) ;;;
           ret (entry_of ListEntry)
         else ret OldEntry) ;;
      Next <- on_links (load_Flink ListEntry) ;;
      put_scan fuel head Key Next OldEntry'
  end.

(** Fuel for a walk along a ring: there are no more elements than cells. *)
Definition ring_fuel (s : HT AS X) : nat := S (size (Links s)).

(* src/jpht/jpht/hashtable.c:111-162 (JphtPutEntryHashtable) *)
Definition JphtPutEntryHashtable (Entry : Z) : M Z :=
  Key <- load_Key Entry ;;
  head <- bucket_of Key ;;
  first <- on_links (load_Flink head) ;;
  fuel <- gets ring_fuel ;;
  OldEntry <- put_scan fuel head Key first 0 ;;
  on_links (InsertHeadList head (link_of Entry)) ;;;
  modify (fun s => set_EntryCount (ULONG (EntryCount s + 1)) s) ;;;
  ret OldEntry.

(** The search loop of Get and of Remove: the list entry, if any. *)
(* src/jpht/jpht/hashtable.c:185-199 (JphtGetEntryHashtable) *)
Fixpoint find_scan (fuel : nat) (head Key ListEntry : Z) : M (option Z) :=
  match fuel with
  | O => fault
  | S fuel =>
      if ListEntry =? head then ret None else
      k <- load_Key (entry_of ListEntry) ;;
      if Equals k Key then ret (Some ListEntry) else
      Next <- on_links (load_Flink ListEntry) ;;
      find_scan fuel head Key Next
  end.

(* src/jpht/jpht/hashtable.c:164-202 (JphtGetEntryHashtable) *)
Definition JphtGetEntryHashtable (Key : Z) : M Z :=
  head <- bucket_of Key ;;
  first <- on_links (load_Flink head) ;;
  fuel <- gets ring_fuel ;;
  r <- find_scan fuel head Key first ;;
  ret (match r with Some le => entry_of le | None => 0 end).

(* src/jpht/jpht/hashtable.c:204-253 (JphtRemoveEntryHashtable) *)
Definition JphtRemoveEntryHashtable (Key : Z) : M Z :=
  head <- bucket_of Key ;;
  first <- on_links (load_Flink head) ;;
  fuel <- gets ring_fuel ;;
  r <- find_scan fuel head Key first ;;
  match r with
  | Some le =>
      on_links (RemoveEntryList le) ;;;
      modify (fun s => set_EntryCount (ULONG (EntryCount s - 1)) s) ;;;
      ret (entry_of le)
  | None => ret 0
  end.

(** One bucket of an enumeration; the successor is read before the callback. *)
(* src/jpht/jpht/hashtable.c:276-295 (JphtEnumerateEntries) *)
Fixpoint enum_ring (Callback : Z -> M unit) (fuel : nat) (head ListEntry : Z) : M unit :=
  match fuel with
  | O => fault
  | S fuel =>
      if ListEntry =? head then ret tt else
      NextEntry <- on_links (load_Flink ListEntry) ;;
      Callback (entry_of ListEntry) ;;;
      enum_ring Callback fuel head NextEntry
  end.

(** The loop over the buckets re-reads the bucket count and the bucket array in
    every round; the fuel bounds the number of rounds. *)
Fixpoint enum_table (Callback : Z -> M unit) (fuel : nat) (BucketIndex : Z) : M unit :=
  n <- gets BucketCount ;;
  if negb (BucketIndex <? n) then ret tt else
  match fuel with
  | O => fault
  | S fuel =>
      b <- gets Buckets ;;
      first <- on_links (load_Flink (bucket_addr b BucketIndex)) ;;
      rf <- gets ring_fuel ;;
      enum_ring Callback rf (bucket_addr b BucketIndex) first ;;;
      enum_table Callback fuel (BucketIndex + 1)
  end.

(* src/jpht/jpht/hashtable.c:255-297 (JphtEnumerateEntries) *)
Definition JphtEnumerateEntries (Callback : Z -> M unit) : M unit :=
  n <- gets BucketCount ;;
  enum_table Callback (Z.to_nat n) 0.

(** The loop over the old buckets, [n] of them from index [from] on. *)
(* src/jpht/jpht/hashtable.c:353-390 (JphtResize) *)
Fixpoint enum_buckets (Callback : Z -> M unit) (base : Z) (n : nat) (from : Z) : M unit :=
  match n with
  | O => ret tt
  | S n =>
      first <- on_links (load_Flink (bucket_addr base from)) ;;
      fuel <- gets ring_fuel ;;
      enum_ring Callback fuel (bucket_addr base from) first ;;;
      enum_buckets Callback base n (from + 1)
  end.

(** The body of the copy loop. *)
(* src/jpht/jpht/hashtable.c:373-388 (JphtResize) *)
Definition rehash (Entry : Z) : M unit :=
  OldEntry <- JphtPutEntryHashtable Entry ;;
  assert_ (OldEntry =? 0).

(** ** What the client's routines promise *)
Context (norm : Z -> Z).
Hypothesis PTR_pos : 0 < PTR.
Hypothesis Equals_spec : forall a b, Equals a b = (norm a =? norm b).
Hypothesis Hash_spec : forall a b, norm a = norm b -> Hash a = Hash b.

Implicit Types (s : HT AS X) (K : gmap Z Z) (bs : list (list Z)).

Lemma entry_of_link_of E : entry_of (link_of E) = E.
Proof. unfold entry_of, link_of. lia. Qed.
Lemma link_of_entry_of e : link_of (entry_of e) = e.
Proof. unfold entry_of, link_of. lia. Qed.

(** The key of a list entry, and the key up to the client's equality. *)
Definition key_at K (e : Z) : Z := default 0 (K !! entry_of e).
Definition kn K (e : Z) : Z := norm (key_at K e).

Lemma load_Key_at s e :
  is_Some (Keys s !! entry_of e) -> load_Key (entry_of e) s = Some (key_at (Keys s) e, s).
Proof. intros [k Hk]. unfold key_at. rewrite Hk. by apply load_Key_spec. Qed.

(** *** The loops over one bucket *)
Lemma put_scan_spec head Key todo : forall kept s old fuel z,
  dll (Links s) head (kept ++ todo) ->
  (forall e, e ∈ todo -> is_Some (Keys s !! entry_of e)) ->
  (length todo < fuel)%nat ->
  EntryCount s = ULONG z ->
  exists h',
    put_scan fuel head Key (default head (hd_error todo)) old s =
      Some (foldl (fun o e => if decide (kn (Keys s) e = norm Key) then entry_of e else o) old todo,
            set_EntryCount
              (ULONG (z - Z.of_nat (length (filter (fun e => kn (Keys s) e = norm Key) todo))))
              (set_Links h' s)) /\
    dll h' head (kept ++ filter (fun e => kn (Keys s) e <> norm Key) todo) /\
    framed (head :: kept ++ todo) (Links s) h'.
Proof.
  induction todo as [|e todo IH]; intros kept s old fuel z Hd HK Hf Hc;
    destruct fuel as [|fuel]; [simpl in Hf; lia| |simpl in Hf; lia|].
  - exists (Links s). simpl. rewrite Z.eqb_refl. unfold ret.
    rewrite Z.sub_0_r, <-Hc. split_and!; [by destruct s|done|apply framed_refl].
  - cbn [put_scan hd_error default from_option]. unfold default, from_option, id.
    assert (e <> head) as Hne by (apply dll_head_notin in Hd; set_solver).
    rewrite (proj2 (Z.eqb_neq e head) Hne).
    rewrite (bind_eq _ _ _ _ _ (load_Key_at s e ltac:(apply HK; set_solver))).
    rewrite Equals_spec. fold (kn (Keys s) e).
    pose proof (dll_next _ _ _ _ _ Hd) as Hnext.
    destruct (Z.eqb_spec (norm Key) (kn (Keys s) e)) as [Heq|Hneq].
    + destruct (RemoveEntryList_spec _ _ _ _ _ Hd) as (h1 & E1 & Hd1 & Fr1 & Hsame).
      rewrite bind_assoc, link_of_entry_of.
      rewrite (bind_eq _ _ _ _ _ (on_links_spec _ s _ _ E1)).
      rewrite bind_assoc, bind_modify, bind_ret.
      pose proof (load_Flink_eq _ _ _ _ Hsame Hnext) as Hnext1.
      set (s1 := set_EntryCount _ _).
      rewrite (bind_eq _ _ _ _ _ (on_links_id _ s1 _ Hnext1)).
      destruct (IH kept s1 (entry_of e) fuel (z - 1)) as (h' & -> & Hd' & Fr');
        [done|intros; apply HK; set_solver|simpl in Hf; lia| |].
      { simpl. rewrite Hc. unfold ULONG. by autorewrite with cfix. }
      exists h'. simpl. rewrite !decide_True by done. simpl.
      rewrite filter_cons_True, filter_cons_False by (rewrite Heq; tauto).
      split_and!; [|done|].
      * unfold set_EntryCount, set_Links. simpl. do 4 f_equal. lia.
      * eapply framed_trans; [apply Fr1|apply Fr'| |]; set_solver.
    + rewrite bind_ret, (bind_eq _ _ _ _ _ (on_links_id _ s _ Hnext)).
      rewrite (app_cons_assoc kept) in Hd.
      destruct (IH (kept ++ [e]) s old fuel z) as (h' & -> & Hd' & Fr');
        [done|intros; apply HK; set_solver|simpl in Hf; lia|done|].
      exists h'. simpl. rewrite !decide_False by done.
      rewrite filter_cons_False, filter_cons_True by done.
      rewrite <-app_cons_assoc in Hd'.
      split_and!; [done|done|]. eapply framed_trans; [apply framed_refl|apply Fr'| |]; set_solver.
Qed.

Lemma find_scan_spec head Key todo : forall kept s fuel,
  dll (Links s) head (kept ++ todo) ->
  (forall e, e ∈ todo -> is_Some (Keys s !! entry_of e)) ->
  (length todo < fuel)%nat ->
  find_scan fuel head Key (default head (hd_error todo)) s =
    Some (hd_error (filter (fun e => kn (Keys s) e = norm Key) todo), s).
Proof.
  induction todo as [|e todo IH]; intros kept s fuel Hd HK Hf;
    destruct fuel as [|fuel]; [simpl in Hf; lia| |simpl in Hf; lia|].
  - simpl. by rewrite Z.eqb_refl.
  - cbn [find_scan hd_error default from_option]. unfold default, from_option, id.
    assert (e <> head) as Hne by (apply dll_head_notin in Hd; set_solver).
    rewrite (proj2 (Z.eqb_neq e head) Hne).
    rewrite (bind_eq _ _ _ _ _ (load_Key_at s e ltac:(apply HK; set_solver))).
    rewrite Equals_spec. fold (kn (Keys s) e).
    destruct (Z.eqb_spec (kn (Keys s) e) (norm Key)) as [Heq|Hneq].
    + by rewrite filter_cons_True.
    + rewrite (bind_eq _ _ _ _ _ (on_links_id _ s _ (dll_next _ _ _ _ _ Hd))).
      rewrite filter_cons_False by done. rewrite (app_cons_assoc kept) in Hd.
      eapply IH; [done|intros; apply HK; set_solver|simpl in Hf; lia].
Qed.

(** *** The finite map a list of entries stands for *)
Definition abs_list K (l : list Z) : gmap Z Z :=
  list_to_map ((fun e => (kn K e, entry_of e)) <$> l).

Lemma abs_list_lookup K l nk :
  abs_list K l !! nk = entry_of <$> hd_error (filter (fun e => kn K e = nk) l).
Proof.
  unfold abs_list. induction l as [|e l IH]; [done|].
  rewrite fmap_cons, list_to_map_cons. destruct (decide (kn K e = nk)) as [<-|Hne].
  - by rewrite lookup_insert_eq, filter_cons_True.
  - by rewrite lookup_insert_ne, filter_cons_False, IH.
Qed.

Lemma abs_list_delete K l nk :
  abs_list K (filter (fun e => kn K e <> nk) l) = delete nk (abs_list K l).
Proof.
  apply map_eq. intros k. destruct (decide (k = nk)) as [->|Hne].
  - rewrite lookup_delete_eq, abs_list_lookup.
    rewrite list_filter_filter, filter_none; [done|naive_solver].
  - rewrite lookup_delete_ne, !abs_list_lookup by done.
    rewrite list_filter_filter. do 2 f_equal. apply list_filter_iff. naive_solver.
Qed.

Lemma abs_list_perm K l l' :
  NoDup (kn K <$> l) -> l ≡ₚ l' -> abs_list K l = abs_list K l'.
Proof.
  intros Hnd Hp. apply list_to_map_proper; [|by apply fmap_Permutation].
  by rewrite <-list_fmap_compose.
Qed.

Lemma abs_list_size K l : NoDup (kn K <$> l) -> size (abs_list K l) = length l.
Proof.
  intros Hnd. unfold abs_list. rewrite map_size_list_to_map; [by rewrite length_fmap|].
  by rewrite <-list_fmap_compose.
Qed.

(** An address outside the bucket array. *)
Definition outside s (q : Z) : Prop :=
  q < Buckets s \/ Buckets s + BucketCount s * sizeof_bucket <= q.

(** *** Well-formed tables: [bs] lists the elements of each bucket *)
Record ht_ok s bs : Prop := {
  ok_count : BucketCount s = Z.of_nat (length bs);
  ok_pos : bs <> [];
  ok_ring : forall i xs, bs !! i = Some xs ->
    dll (Links s) (bucket_addr (Buckets s) (Z.of_nat i)) xs;
  ok_outside : forall e, e ∈ mjoin bs -> outside s e;
  ok_nodup : NoDup (kn (Keys s) <$> mjoin bs);
  ok_keys : forall e, e ∈ mjoin bs -> is_Some (Keys s !! entry_of e);
  ok_placed : forall i xs e, bs !! i = Some xs -> e ∈ xs ->
    Hash (key_at (Keys s) e) mod Z.of_nat (length bs) = Z.of_nat i;
  ok_entries : EntryCount s = ULONG (Z.of_nat (length (mjoin bs))) }.

(** The map a table implements: from keys (up to the client's equality) to
    entries. *)
Definition abs s bs : gmap Z Z := abs_list (Keys s) (mjoin bs).

(** Replacing the elements of one bucket. *)
Lemma bucket_split bs i xs :
  bs !! i = Some xs ->
  exists rest,
    (forall ys, mjoin (<[i := ys]> bs) ≡ₚ ys ++ rest) /\
    (forall e, e ∈ rest <-> exists j zs, j <> i /\ bs !! j = Some zs /\ e ∈ zs).
Proof.
  intros Hi. exists (mjoin (take i bs) ++ mjoin (drop (S i) bs)). split.
  - intros ys. rewrite insert_take_drop by (by eapply lookup_lt_Some).
    rewrite join_app. simpl. rewrite !app_assoc. apply Permutation_app_tail.
    apply Permutation_app_comm.
  - intros e. rewrite elem_of_app, !list_elem_of_join.
    split.
    + intros [(zs & Hin & He)|(zs & Hin & He)]; apply list_elem_of_lookup in He as [j Hj].
      * apply lookup_take_Some in Hj as [Hj ?]. exists j, zs. split_and!; [lia|done|done].
      * rewrite lookup_drop in Hj. exists (S i + j)%nat, zs. split_and!; [lia|done|done].
    + intros (j & zs & Hne & Hj & He). destruct (decide (j < i)%nat).
      * left. exists zs. split; [done|]. apply list_elem_of_lookup. exists j.
        by apply lookup_take_Some.
      * right. exists zs. split; [done|]. apply list_elem_of_lookup.
        exists (j - S i)%nat. rewrite lookup_drop. by replace (S i + (j - S i))%nat with j by lia.
Qed.

Lemma bucket_in bs i xs e : bs !! i = Some xs -> e ∈ xs -> e ∈ mjoin bs.
Proof.
  intros Hi He. apply list_elem_of_join. exists xs. split; [done|].
  apply list_elem_of_lookup. by exists i.
Qed.

Lemma in_bucket bs e : e ∈ mjoin bs -> exists i xs, bs !! i = Some xs /\ e ∈ xs.
Proof.
  intros (xs & He & Hin)%list_elem_of_join. apply list_elem_of_lookup in Hin as [i Hi].
  by exists i, xs.
Qed.

Lemma bucket_addr_inj base i j : bucket_addr base i = bucket_addr base j -> i = j.
Proof. unfold bucket_addr, sizeof_bucket. intros. nia. Qed.

Lemma bucket_inside s i : 0 <= i < BucketCount s -> ~ outside s (bucket_addr (Buckets s) i).
Proof. unfold outside, bucket_addr, sizeof_bucket. nia. Qed.

Lemma ok_heads s bs i :
  ht_ok s bs -> (i < length bs)%nat -> bucket_addr (Buckets s) (Z.of_nat i) ∉ mjoin bs.
Proof.
  intros Hok Hi Hin. apply (ok_outside _ _ Hok) in Hin.
  eapply bucket_inside, Hin. rewrite (ok_count _ _ Hok). lia.
Qed.

Lemma filter_key_cases K l nk :
  NoDup (kn K <$> l) ->
  filter (fun e => kn K e = nk) l = [] \/ exists e, filter (fun e => kn K e = nk) l = [e].
Proof.
  induction l as [|e l IH]; [by left|]. rewrite fmap_cons, NoDup_cons. intros [Hni Hnd].
  destruct (decide (kn K e = nk)) as [<-|Hne].
  - right. exists e. rewrite filter_cons_True by done. f_equal.
    apply filter_none. intros x Hx Heq. apply Hni. rewrite <-Heq. by apply list_elem_of_fmap_2.
  - rewrite filter_cons_False by done. by apply IH.
Qed.

Lemma foldl_filter K nk l old :
  foldl (fun o e => if decide (kn K e = nk) then entry_of e else o) old l =
  foldl (fun _ e => entry_of e) old (filter (fun e => kn K e = nk) l).
Proof.
  revert old. induction l as [|e l IH]; intros old; [done|]. simpl.
  destruct (decide (kn K e = nk)).
  - rewrite filter_cons_True by done. apply IH.
  - rewrite filter_cons_False by done. apply IH.
Qed.

Lemma filter_length K nk l :
  (length (filter (fun e => kn K e = nk) l) + length (filter (fun e => kn K e <> nk) l) =
   length l)%nat.
Proof.
  induction l as [|e l IH]; [done|]. rewrite !filter_cons.
  destruct (decide (kn K e = nk)), (decide (kn K e <> nk)); simpl; lia || naive_solver.
Qed.

Section table.
Context s bs (Hok : ht_ok s bs).

Lemma bucket_index Key :
  exists i xs, bs !! i = Some xs /\ Hash Key mod BucketCount s = Z.of_nat i.
Proof.
  assert (0 < Z.of_nat (length bs)) as Hpos
    by (pose proof (ok_pos _ _ Hok); destruct bs; simpl in *; [done|lia]).
  pose proof (Z.mod_pos_bound (Hash Key) (Z.of_nat (length bs)) Hpos) as Hb.
  rewrite (ok_count _ _ Hok).
  destruct (lookup_lt_is_Some_2 bs (Z.to_nat (Hash Key mod Z.of_nat (length bs)))) as [xs Hxs];
    [lia|]. eexists _, xs. split; [done|lia].
Qed.

Lemma bucket_of_spec Key i :
  Hash Key mod BucketCount s = Z.of_nat i ->
  bucket_of Key s = Some (bucket_addr (Buckets s) (Z.of_nat i), s).
Proof. intros Hi. unfold bucket_of. by rewrite !bind_gets, Hi. Qed.

(** An element with the key lies in the key's bucket. *)
Lemma placed_key Key i j zs e :
  Hash Key mod BucketCount s = Z.of_nat i -> bs !! j = Some zs -> e ∈ zs ->
  kn (Keys s) e = norm Key -> j = i.
Proof.
  intros Hi Hj He Hkn. pose proof (ok_placed _ _ Hok _ _ _ Hj He) as Hp.
  rewrite (Hash_spec _ Key) in Hp by done. rewrite (ok_count _ _ Hok) in Hi. lia.
Qed.

Lemma same_bucket i j xs zs e :
  bs !! i = Some xs -> bs !! j = Some zs -> e ∈ xs -> e ∈ zs -> i = j.
Proof.
  intros Hi Hj Hx Hz. pose proof (ok_placed _ _ Hok _ _ _ Hi Hx).
  pose proof (ok_placed _ _ Hok _ _ _ Hj Hz). lia.
Qed.

(** The entries with a key are those of its bucket. *)
Lemma filter_bucket Key i xs rest :
  Hash Key mod BucketCount s = Z.of_nat i -> bs !! i = Some xs ->
  (forall e, e ∈ rest <-> exists j zs, j <> i /\ bs !! j = Some zs /\ e ∈ zs) ->
  filter (fun e => kn (Keys s) e = norm Key) rest = [] /\
  filter (fun e => kn (Keys s) e <> norm Key) rest = rest.
Proof.
  intros Hi Hxs Hrest. split; [apply filter_none|apply filter_all];
    intros e (j & zs & Hne & Hj & He)%Hrest Hkn; by eapply Hne, placed_key.
Qed.

Lemma abs_bucket Key i xs :
  Hash Key mod BucketCount s = Z.of_nat i -> bs !! i = Some xs ->
  abs s bs !! norm Key =
  entry_of <$> hd_error (filter (fun e => kn (Keys s) e = norm Key) xs).
Proof.
  intros Hi Hxs. destruct (bucket_split _ _ _ Hxs) as (rest & Hperm & Hrest).
  specialize (Hperm xs). rewrite list_insert_id in Hperm by done.
  unfold abs. rewrite (abs_list_perm _ _ _ (ok_nodup _ _ Hok) Hperm), abs_list_lookup.
  rewrite filter_app. destruct (filter_bucket Key i xs rest Hi Hxs Hrest) as [-> _].
  by rewrite app_nil_r.
Qed.

Lemma bucket_nodup i xs : bs !! i = Some xs -> NoDup (kn (Keys s) <$> xs).
Proof.
  intros Hi. destruct (bucket_split _ _ _ Hi) as (rest & Hperm & _).
  specialize (Hperm xs). rewrite list_insert_id in Hperm by done.
  pose proof (ok_nodup _ _ Hok) as Hnd. rewrite Hperm, fmap_app in Hnd.
  by apply NoDup_app in Hnd as (? & _ & _).
Qed.

(** One bucket is replaced: what remains to be checked. *)
Lemma ht_ok_replace s' i xs ys F :
  bs !! i = Some xs ->
  Keys s' = Keys s -> BucketCount s' = BucketCount s -> Buckets s' = Buckets s ->
  dll (Links s') (bucket_addr (Buckets s) (Z.of_nat i)) ys ->
  framed F (Links s) (Links s') ->
  (forall q, q ∈ F -> q = bucket_addr (Buckets s) (Z.of_nat i) \/ q ∈ xs \/ q ∈ ys) ->
  (forall e, e ∈ ys -> e ∈ xs \/
     is_Some (Keys s !! entry_of e) /\ Hash (key_at (Keys s) e) mod BucketCount s = Z.of_nat i /\
     outside s e) ->
  NoDup (kn (Keys s) <$> mjoin (<[i := ys]> bs)) ->
  EntryCount s' = ULONG (Z.of_nat (length (mjoin (<[i := ys]> bs)))) ->
  ht_ok s' (<[i := ys]> bs).
Proof.
  intros Hxs EK EB EBs Hdll Hfr HF Hys Hnd Hcount.
  pose proof (lookup_lt_Some _ _ _ Hxs) as Hlt.
  assert (forall e, e ∈ ys -> is_Some (Keys s !! entry_of e) /\
    Hash (key_at (Keys s) e) mod BucketCount s = Z.of_nat i /\
    outside s e) as Hys'.
  { intros e He. destruct (Hys e He) as [Hin|?]; [|done].
    pose proof (bucket_in _ _ _ _ Hxs Hin). split_and!.
    - by apply (ok_keys _ _ Hok).
    - rewrite (ok_count _ _ Hok). by eapply ok_placed.
    - by eapply ok_outside. }
  destruct (bucket_split _ _ _ Hxs) as (rest & Hperm & Hrest).
  split; rewrite ?length_insert, ?EK, ?EB, ?EBs; try done.
  - apply (ok_count _ _ Hok).
  - pose proof (ok_pos _ _ Hok). by destruct bs, i.
  - intros j zs Hj. destruct (decide (j = i)) as [->|Hne].
    { rewrite list_lookup_insert_eq in Hj by done. by simplify_eq. }
    rewrite list_lookup_insert_ne in Hj by done.
    eapply framed_dll; [done| |by eapply ok_ring].
    pose proof (lookup_lt_Some _ _ _ Hj).
    intros q Hq HqF. destruct (HF q HqF) as [->|[Hqx|Hqy]]; apply elem_of_cons in Hq as [Hq|Hq].
    + apply bucket_addr_inj in Hq. lia.
    + eapply (ok_heads _ _ i Hok), bucket_in; done.
    + subst. eapply (ok_heads _ _ j Hok), (bucket_in _ i); done.
    + by eapply Hne, same_bucket.
    + subst. destruct (Hys' _ Hqy) as (_ & _ & Ho). eapply bucket_inside, Ho.
      rewrite (ok_count _ _ Hok). lia.
    + apply Hne. destruct (Hys' _ Hqy) as (_ & Hi & _).
      pose proof (ok_placed _ _ Hok _ _ _ Hj Hq). rewrite (ok_count _ _ Hok) in Hi. lia.
  - intros e He. unfold outside. rewrite EB, EBs. fold (outside s e).
    rewrite Hperm in He. apply elem_of_app in He as [He|He]; [by apply Hys'|].
    apply Hrest in He as (k & zs & _ & Hk & He). by eapply ok_outside, bucket_in.
  - intros e He. rewrite Hperm in He. apply elem_of_app in He as [He|He]; [by apply Hys'|].
    apply Hrest in He as (k & zs & _ & Hk & He). by eapply ok_keys, bucket_in.
  - intros j zs e Hj He. destruct (decide (j = i)) as [->|Hne].
    + rewrite list_lookup_insert_eq in Hj by done. simplify_eq.
      rewrite <-(ok_count _ _ Hok). by apply Hys'.
    + rewrite list_lookup_insert_ne in Hj by done. by eapply ok_placed.
Qed.
End table.

(** The element with a key, taken out of its bucket. *)
Lemma filter_key_split K xs nk e :
  filter (fun e => kn K e = nk) xs = [e] ->
  exists x1 x2, xs = x1 ++ e :: x2 /\ filter (fun e => kn K e <> nk) xs = x1 ++ x2.
Proof.
  intros Ef. assert (e ∈ filter (fun e => kn K e = nk) xs) as He by (rewrite Ef; set_solver).
  apply list_elem_of_filter in He as [Hkn Hin].
  destruct (list_elem_of_split xs e Hin) as (x1 & x2 & ->). exists x1, x2. split; [done|].
  rewrite filter_app, filter_cons_True in Ef by done.
  assert (filter (fun e => kn K e = nk) x1 = [] /\ filter (fun e => kn K e = nk) x2 = [])
    as [H1 H2].
  { apply (f_equal length) in Ef. rewrite length_app in Ef. simpl in Ef.
    split; apply nil_length_inv; lia. }
  rewrite filter_app, filter_cons_False by naive_solver.
  f_equal; apply filter_all; intros x Hx Hk.
  - by eapply filter_nil_not_elem_of; [exact H1|exact Hk|].
  - by eapply filter_nil_not_elem_of; [exact H2|exact Hk|].
Qed.

(** The entries with another key. *)
Local Abbreviation others K nk := (filter (fun e => kn K e <> nk)).

(** What holds of the buckets once the entries with [Key] are gone. *)
Lemma bucket_without s bs Key i xs :
  ht_ok s bs -> bs !! i = Some xs -> Hash Key mod BucketCount s = Z.of_nat i ->
  let bs' := <[i := others (Keys s) (norm Key) xs]> bs in
  mjoin bs' ≡ₚ others (Keys s) (norm Key) (mjoin bs) /\
  NoDup (kn (Keys s) <$> mjoin bs') /\
  abs_list (Keys s) (mjoin bs') = delete (norm Key) (abs s bs) /\
  (forall j zs, bs !! j = Some zs -> bs' !! j = Some (others (Keys s) (norm Key) zs)) /\
  (length (mjoin bs') + length (filter (fun e => kn (Keys s) e = norm Key) xs) =
   length (mjoin bs))%nat.
Proof.
  intros Hok Hxs Hi bs'.
  destruct (bucket_split _ _ _ Hxs) as (rest & Hperm & Hrest).
  destruct (filter_bucket s bs Hok Key i xs rest Hi Hxs Hrest) as [_ Hfr].
  pose proof (Hperm xs) as Hp. rewrite list_insert_id in Hp by done.
  assert (mjoin bs' ≡ₚ others (Keys s) (norm Key) (mjoin bs)) as Hperm'.
  { unfold bs'. by rewrite Hperm, Hp, filter_app, Hfr. }
  assert (NoDup (kn (Keys s) <$> mjoin bs')) as Hnd'.
  { rewrite Hperm'. eapply sublist_NoDup; [apply (ok_nodup _ _ Hok)|].
    apply fmap_sublist, sublist_filter. }
  split_and!; [done|done| | |].
  - rewrite (abs_list_perm _ _ _ Hnd' Hperm'). apply abs_list_delete.
  - intros j zs Hj. unfold bs'. destruct (decide (j = i)) as [->|Hne].
    + rewrite list_lookup_insert_eq by (by eapply lookup_lt_Some). congruence.
    + rewrite list_lookup_insert_ne, Hj by done. f_equal. symmetry. apply filter_all.
      intros e He Hkn. by eapply Hne, placed_key.
  - unfold bs'. rewrite Hperm, Hp, !length_app.
    pose proof (filter_length (Keys s) (norm Key) xs). lia.
Qed.

(** The first part of an operation: find the bucket and its first element. *)
Lemma bucket_enter s bs Key :
  ht_ok s bs ->
  exists i xs, bs !! i = Some xs /\ Hash Key mod BucketCount s = Z.of_nat i /\
    dll (Links s) (bucket_addr (Buckets s) (Z.of_nat i)) xs /\
    (length xs < ring_fuel s)%nat /\
    (forall e, e ∈ xs -> is_Some (Keys s !! entry_of e)) /\
    forall A (k : Z -> Z -> nat -> M A),
    (head <- bucket_of Key ;; first <- on_links (load_Flink head) ;;
     fuel <- gets ring_fuel ;; k head first fuel) s =
    (let head := bucket_addr (Buckets s) (Z.of_nat i) in
     k head (default head (hd_error xs)) (ring_fuel s) s).
Proof.
  intros Hok. destruct (bucket_index s bs Hok Key) as (i & xs & Hxs & Hi). exists i, xs.
  pose proof (ok_ring _ _ Hok _ _ Hxs) as Hd. pose proof (dll_length _ _ _ Hd).
  split_and!; [done|done|done|unfold ring_fuel; lia| |].
  - intros e He. by eapply ok_keys, bucket_in.
  - intros A k. rewrite (bind_eq _ _ _ _ _ (bucket_of_spec s Key i Hi)).
    by rewrite (bind_eq _ _ _ _ _ (on_links_id _ s _ (dll_first _ _ _ Hd))), bind_gets.
Qed.

(** *** The operations implement the map operations *)
Lemma JphtGet_spec s bs Key :
  ht_ok s bs -> JphtGetEntryHashtable Key s = Some (default 0 (abs s bs !! norm Key), s).
Proof.
  intros Hok. unfold JphtGetEntryHashtable.
  destruct (bucket_enter s bs Key Hok) as (i & xs & Hxs & Hi & Hd & Hf & HK & Hrun).
  rewrite Hrun. clear Hrun.
  erewrite bind_eq by (by eapply (find_scan_spec _ _ xs [])).
  rewrite (abs_bucket s bs Hok Key i xs Hi Hxs). unfold ret. by destruct (filter _ xs).
Qed.

(** What an operation leaves alone. *)
Definition same_rest s s' : Prop :=
  Keys s' = Keys s /\ BucketCount s' = BucketCount s /\ Buckets s' = Buckets s /\
  Heap s' = Heap s /\ Ctx s' = Ctx s /\ same_dom (Links s) (Links s').

Lemma same_rest_links s c h :
  same_dom (Links s) h -> same_rest s (set_EntryCount c (set_Links h s)).
Proof. by unfold same_rest. Qed.

Lemma same_rest_refl s : same_rest s s.
Proof. by unfold same_rest. Qed.

Lemma JphtRemove_spec s bs Key :
  ht_ok s bs ->
  exists s' bs',
    JphtRemoveEntryHashtable Key s = Some (default 0 (abs s bs !! norm Key), s') /\
    ht_ok s' bs' /\ length bs' = length bs /\
    abs s' bs' = delete (norm Key) (abs s bs) /\
    (forall j zs, bs !! j = Some zs ->
       bs' !! j = Some (others (Keys s) (norm Key) zs)) /\
    same_rest s s'.
Proof.
  intros Hok. unfold JphtRemoveEntryHashtable.
  destruct (bucket_enter s bs Key Hok) as (i & xs & Hxs & Hi & Hd & Hf & HK & Hrun).
  rewrite Hrun. clear Hrun.
  erewrite bind_eq by (by eapply (find_scan_spec _ _ xs [])).
  rewrite (abs_bucket s bs Hok Key i xs Hi Hxs).
  pose proof (bucket_nodup s bs Hok _ _ Hxs) as Hnd.
  destruct (bucket_without s bs Key i xs Hok Hxs Hi) as (Hperm & Hnd' & Habs & Hbs & Hlen).
  set (ys := others (Keys s) (norm Key) xs) in *.
  destruct (filter_key_cases (Keys s) xs (norm Key) Hnd) as [Ef|[e Ef]]; rewrite Ef in *; simpl.
  - exists s, bs. assert (<[i := ys]> bs = bs) as Ebs.
    { apply list_insert_id. rewrite Hxs. f_equal. symmetry. apply filter_all.
      intros x Hx Hkn. by eapply filter_nil_not_elem_of; [exact Ef|exact Hkn|]. }
    by rewrite Ebs in *.
  - destruct (filter_key_split _ _ _ _ Ef) as (x1 & x2 & -> & Eys). fold ys in Eys.
    destruct (RemoveEntryList_spec _ _ _ _ _ Hd) as (h1 & E1 & Hd1 & Fr1 & _).
    rewrite (bind_eq _ _ _ _ _ (on_links_spec _ s _ _ E1)), bind_modify. unfold ret.
    eexists _, (<[i := ys]> bs). split; [done|].
    pose proof (lookup_lt_Some _ _ _ Hxs) as Hlt.
    split_and!; rewrite ?length_insert; try done; [|by apply same_rest_links, Fr1].
    eapply (ht_ok_replace s bs Hok _ i (x1 ++ e :: x2) ys _ Hxs); try done; simpl.
    + by rewrite Eys.
    + intros q Hq. set_solver.
    + intros q Hq. left. rewrite Eys in Hq. set_solver.
    + rewrite (ok_entries _ _ Hok). unfold ULONG. autorewrite with cfix.
      f_equal. simpl in Hlen. lia.
Qed.

(** The links of an entry that may be inserted: mapped, and not in the bucket array. *)
Definition insertable s (E : Z) : Prop :=
  is_Some (Links s !! link_of E) /\ outside s (link_of E).

Lemma key_at_link s E k : Keys s !! E = Some k -> key_at (Keys s) (link_of E) = k.
Proof. intros HE. unfold key_at. by rewrite entry_of_link_of, HE. Qed.

Lemma JphtPut_spec s bs E k :
  ht_ok s bs -> Keys s !! E = Some k -> insertable s E ->
  exists s' bs',
    JphtPutEntryHashtable E s = Some (default 0 (abs s bs !! norm k), s') /\
    ht_ok s' bs' /\ length bs' = length bs /\
    abs s' bs' = <[norm k := E]> (abs s bs) /\
    mjoin bs' ≡ₚ link_of E :: others (Keys s) (norm k) (mjoin bs) /\
    (exists i xs, bs !! i = Some xs /\
       framed (bucket_addr (Buckets s) (Z.of_nat i) :: link_of E :: xs) (Links s) (Links s')) /\
    same_rest s s'.
Proof.
  intros Hok HE [Hm Hh]. unfold JphtPutEntryHashtable.
  rewrite (bind_eq _ _ _ _ _ (load_Key_spec s E k HE)).
  destruct (bucket_enter s bs k Hok) as (i & xs & Hxs & Hi & Hd & Hf & HK & Hrun).
  rewrite Hrun. clear Hrun. cbv zeta.
  destruct (put_scan_spec _ k xs [] s 0 (ring_fuel s) _ Hd HK Hf (ok_entries _ _ Hok))
    as (h1 & E1 & Hd1 & Fr1). rewrite (bind_eq _ _ _ _ _ E1). clear E1.
  pose proof (bucket_nodup s bs Hok _ _ Hxs) as Hnd.
  destruct (bucket_without s bs k i xs Hok Hxs Hi) as (Hperm & Hnd' & Habs & _ & Hlen).
  pose proof (abs_bucket s bs Hok k i xs Hi Hxs) as Hlook.
  pose proof (key_at_link s E k HE) as Hkey.
  set (ys := others (Keys s) (norm k) xs) in *. simpl in Hd1, Fr1.
  assert (link_of E ∉ bucket_addr (Buckets s) (Z.of_nat i) :: ys) as Hnin.
  { rewrite not_elem_of_cons. split.
    - intros Heq. rewrite Heq in Hh. eapply bucket_inside, Hh. rewrite (ok_count _ _ Hok).
      pose proof (lookup_lt_Some _ _ _ Hxs). lia.
    - unfold ys. rewrite list_elem_of_filter. intros [Hne _]. apply Hne. unfold kn. by rewrite Hkey. }
  destruct (InsertHeadList_spec h1 _ ys (link_of E) Hd1 Hnin) as (h2 & E2 & Hd2 & Fr2);
    [by apply Fr1|].
  set (s1 := set_EntryCount _ _).
  rewrite (bind_eq _ _ _ _ _ (on_links_spec _ s1 _ _ E2)), bind_modify. unfold ret.
  destruct (bucket_split _ _ _ Hxs) as (rest & Hsplit & _).
  assert (mjoin (<[i := link_of E :: ys]> bs) ≡ₚ link_of E :: mjoin (<[i := ys]> bs)) as Hcons
    by (rewrite !Hsplit; done).
  assert (NoDup (kn (Keys s) <$> mjoin (<[i := link_of E :: ys]> bs))) as Hnd2.
  { rewrite Hcons, fmap_cons. apply NoDup_cons. split; [|done].
    rewrite Hperm. intros (x & Hx & Hin)%list_elem_of_fmap. apply list_elem_of_filter in Hin.
    destruct Hin as [Hin _]. apply Hin. rewrite <-Hx. unfold kn. by rewrite Hkey. }
  assert (framed (bucket_addr (Buckets s) (Z.of_nat i) :: link_of E :: xs) (Links s) h2) as Fr.
  { eapply framed_trans; [apply Fr1|apply Fr2|set_solver|].
    intros q. unfold ys. rewrite !elem_of_cons, list_elem_of_filter. tauto. }
  assert (foldl (fun o e => if decide (kn (Keys s) e = norm k) then entry_of e else o) 0 xs =
          default 0 (abs s bs !! norm k)) as ->.
  { rewrite foldl_filter, Hlook.
    by destruct (filter_key_cases (Keys s) xs (norm k) Hnd) as [->|[e ->]]. }
  eexists _, (<[i := link_of E :: ys]> bs). split; [done|].
  split_and!; rewrite ?length_insert; try done.
  - eapply (ht_ok_replace s bs Hok _ i xs (link_of E :: ys) _ Hxs); try done; simpl.
    + intros q Hq. set_solver.
    + intros e [->|He]%elem_of_cons.
      * right. rewrite entry_of_link_of, Hkey. done.
      * left. unfold ys in He. apply list_elem_of_filter in He. tauto.
    + rewrite Hcons. unfold ULONG. autorewrite with cfix. f_equal. simpl. lia.
  - unfold abs. simpl. rewrite (abs_list_perm _ _ _ Hnd2 Hcons).
    change (abs_list (Keys s) (link_of E :: mjoin (<[i := ys]> bs))) with
      (<[kn (Keys s) (link_of E) := entry_of (link_of E)]> (abs_list (Keys s) (mjoin (<[i := ys]> bs)))).
    rewrite entry_of_link_of. unfold kn. rewrite Hkey. fold (kn (Keys s)).
    rewrite Habs. apply insert_delete_eq.
  - by rewrite Hcons, Hperm.
  - by exists i, xs.
  - split_and!; try done. apply Fr.
Qed.

(** *** Enumeration with a callback that removes the entry

    The clients' callbacks call [JphtRemoveEntryHashtable] on the entry's key
    and then do something with the removed entry, here [act] on the context; it
    may fail to return. *)
Definition on_ctx (f : X -> option X) : M unit :=
  fun s => match f (Ctx s) with Some x => Some (tt, set_Ctx x s) | None => None end.

Definition removing_callback (act : Z -> X -> option X) (Entry : Z) : M unit :=
  Key <- load_Key Entry ;;
  JphtRemoveEntryHashtable Key ;;;
  on_ctx (act Entry).

(** [act] on one entry after the other. *)
Fixpoint visit (act : Z -> X -> option X) (Es : list Z) (x : X) : option X :=
  match Es with
  | [] => Some x
  | E :: Es => match act E x with Some x => visit act Es x | None => None end
  end.

Lemma visit_total act Es x : (forall E x, is_Some (act E x)) -> is_Some (visit act Es x).
Proof. intros H. revert x. induction Es as [|E Es IH]; intros x; [by eexists|]. simpl. by destruct (H E x) as [? ->]. Qed.

Lemma visit_app act Es1 Es2 x :
  visit act (Es1 ++ Es2) x = match visit act Es1 x with Some x => visit act Es2 x | None => None end.
Proof. revert x. induction Es1 as [|E Es1 IH]; intros x; [done|]. simpl. by destruct (act E x). Qed.

Section enumerate.
Variable act : Z -> X -> option X.

Lemma ht_ok_ctx s bs x : ht_ok s bs -> ht_ok (set_Ctx x s) bs.
Proof. intros Hok. split; apply Hok. Qed.

(** The callback takes the first element of a bucket out of it. *)
Lemma removing_callback_spec s bs i e xs c :
  ht_ok s bs -> bs !! i = Some (e :: xs) -> act (entry_of e) (Ctx s) = Some c ->
  exists s',
    removing_callback act (entry_of e) s = Some (tt, s') /\
    ht_ok s' (<[i := xs]> bs) /\ Keys s' = Keys s /\ Buckets s' = Buckets s /\
    BucketCount s' = BucketCount s /\ Heap s' = Heap s /\ Ctx s' = c /\
    same_dom (Links s) (Links s').
Proof.
  intros Hok Hi Hact. pose proof (bucket_in _ _ _ e Hi ltac:(set_solver)) as Hin.
  destruct (ok_keys _ _ Hok _ Hin) as [k Hk]. unfold removing_callback.
  rewrite (bind_eq _ _ _ _ _ (load_Key_spec _ _ _ Hk)).
  destruct (JphtRemove_spec s bs k Hok)
    as (s1 & bs1 & E1 & Hok1 & Hlen & _ & Hbs1 & (EK & EB & EBs & EH & EX & Hdom)).
  rewrite (bind_eq _ _ _ _ _ E1).
  assert (kn (Keys s) e = norm k) as Hkn by (unfold kn, key_at; by rewrite Hk).
  assert (Hash k mod BucketCount s = Z.of_nat i) as Hidx.
  { rewrite (ok_count _ _ Hok).
    assert (key_at (Keys s) e = k) as <- by (unfold key_at; by rewrite Hk).
    eapply ok_placed; [done..|set_solver]. }
  assert (abs s bs !! norm k = Some (entry_of e)) as Habs.
  { rewrite (abs_bucket s bs Hok k i _ Hidx Hi). by rewrite filter_cons_True. }
  unfold on_ctx. rewrite EX, Hact. eexists. split; [done|]. simpl.
  assert (bs1 = <[i := xs]> bs) as <-; [|by split_and!; try done; apply ht_ok_ctx].
  pose proof (bucket_nodup s bs Hok _ _ Hi) as Hnd.
  rewrite fmap_cons, NoDup_cons in Hnd. destruct Hnd as [Hni _].
  apply list_eq. intros j. destruct (decide (j < length bs)%nat) as [Hj|Hj].
  2:{ rewrite !lookup_ge_None_2; [done|rewrite ?length_insert; lia..]. }
  destruct (lookup_lt_is_Some_2 bs j Hj) as [zs Hzs]. rewrite (Hbs1 _ _ Hzs).
  destruct (decide (j = i)) as [->|Hne].
  - rewrite list_lookup_insert_eq by done. simplify_eq. f_equal.
    rewrite filter_cons_False by tauto. apply filter_all. intros x Hx Hkx.
    apply Hni. rewrite Hkn, <-Hkx. by apply list_elem_of_fmap_2.
  - rewrite list_lookup_insert_ne, Hzs by done. f_equal. apply filter_all. intros x Hx Hkx.
    apply Hne. by apply (placed_key s bs Hok k i j zs x).
Qed.

Lemma enum_ring_removing i xs : forall s bs fuel x,
  ht_ok s bs -> bs !! i = Some xs -> (length xs < fuel)%nat ->
  visit act (entry_of <$> xs) (Ctx s) = Some x ->
  exists s',
    enum_ring (removing_callback act) fuel (bucket_addr (Buckets s) (Z.of_nat i))
      (default (bucket_addr (Buckets s) (Z.of_nat i)) (hd_error xs)) s = Some (tt, s') /\
    ht_ok s' (<[i := []]> bs) /\ Keys s' = Keys s /\ Buckets s' = Buckets s /\
    BucketCount s' = BucketCount s /\ Heap s' = Heap s /\ Ctx s' = x.
Proof.
  induction xs as [|e xs IH]; intros s bs fuel x Hok Hi Hf Hv;
    (destruct fuel as [|fuel]; [simpl in Hf; lia|]).
  - simpl. rewrite Z.eqb_refl. exists s. rewrite list_insert_id by done.
    injection Hv as <-. done.
  - cbn [enum_ring hd_error default from_option]. unfold default, from_option, id.
    pose proof (ok_ring _ _ Hok _ _ Hi) as Hd.
    assert (e <> bucket_addr (Buckets s) (Z.of_nat i)) as Hne
      by (apply dll_head_notin in Hd; set_solver).
    rewrite (proj2 (Z.eqb_neq _ _) Hne).
    rewrite (bind_eq _ _ _ _ _ (on_links_id _ s _ (dll_next _ _ [] _ _ Hd))).
    cbn in Hv. destruct (act (entry_of e) (Ctx s)) as [x1|] eqn:Hact; [|done].
    destruct (removing_callback_spec s bs i e xs x1 Hok Hi Hact)
      as (s1 & E1 & Hok1 & EK & EBs & EB & EH & EX & _).
    rewrite (bind_eq _ _ _ _ _ E1). rewrite <-EX in Hv.
    destruct (IH s1 (<[i := xs]> bs) fuel x) as (s' & E' & Hok' & EK' & EBs' & EB' & EH' & EX');
      [done|by apply list_lookup_insert_eq; eapply lookup_lt_Some|simpl in Hf; lia|done|].
    rewrite EBs in E'. exists s'. rewrite list_insert_insert_eq in Hok'.
    split_and!; congruence || done.
Qed.

Lemma enum_table_removing bs2 : forall bs1 s x,
  ht_ok s (bs1 ++ bs2) -> visit act (entry_of <$> mjoin bs2) (Ctx s) = Some x ->
  exists s',
    enum_table (removing_callback act) (length bs2) (Z.of_nat (length bs1)) s = Some (tt, s') /\
    ht_ok s' (bs1 ++ replicate (length bs2) []) /\ Keys s' = Keys s /\
    Buckets s' = Buckets s /\ BucketCount s' = BucketCount s /\
    Heap s' = Heap s /\ Ctx s' = x.
Proof.
  induction bs2 as [|xs bs2 IH]; intros bs1 s x Hok Hv.
  - exists s. simpl. rewrite bind_gets, (ok_count _ _ Hok), app_nil_r in *.
    rewrite Z.ltb_irrefl. injection Hv as <-. done.
  - cbn [enum_table length]. rewrite bind_gets, (ok_count _ _ Hok), length_app.
    rewrite (proj2 (Z.ltb_lt _ _)) by (simpl; lia). cbn [negb].
    assert ((bs1 ++ xs :: bs2) !! length bs1 = Some xs) as Hi by by apply list_lookup_middle.
    pose proof (ok_ring _ _ Hok _ _ Hi) as Hd.
    rewrite bind_gets, (bind_eq _ _ _ _ _ (on_links_id _ s _ (dll_first _ _ _ Hd))), bind_gets.
    cbn in Hv. rewrite fmap_app, visit_app in Hv.
    destruct (visit act (entry_of <$> xs) (Ctx s)) as [x1|] eqn:Hv1; [|done].
    destruct (enum_ring_removing (length bs1) xs s _ (ring_fuel s) x1 Hok Hi)
      as (s1 & E1 & Hok1 & EK & EBs & EB & EH & EX);
      [pose proof (dll_length _ _ _ Hd); unfold ring_fuel; lia|done|].
    rewrite (bind_eq _ _ _ _ _ E1). rewrite <-EX in Hv.
    rewrite insert_app_r_alt, Nat.sub_diag in Hok1 by done. simpl in Hok1.
    rewrite app_cons_assoc in Hok1.
    destruct (IH (bs1 ++ [[]]) s1 x Hok1 Hv) as (s' & E' & Hok' & EK' & EBs' & EB' & EH' & EX').
    replace (Z.of_nat (length (bs1 ++ [[]]))) with (Z.of_nat (length bs1) + 1) in E'
      by (rewrite length_app; simpl; lia).
    exists s'. rewrite E'.
    rewrite <-app_assoc in Hok'. simpl. pose proof (ok_count _ _ Hok) as Hn. rewrite length_app in Hn. cbn [length] in Hn.
    split_and!; congruence || done.
Qed.
End enumerate.

(** *** Initialisation, deletion and resizing

    [JPHT_ALLOCATE_ROUTINE] (0 is NULL) and [JPHT_FREE_ROUTINE]. *)
Context (Allocate : Z -> ST (HEAP * AS) Z) (Free : Z -> ST (HEAP * AS) unit).

Definition on_heap {A} (m : ST (HEAP * AS) A) : M A :=
  fun s => match m (Links s, Heap s) with
           | Some (a, (h, x)) => Some (a, set_Heap x (set_Links h s))
           | None => None
           end.

(* src/jpht/jpht/hashtable.c:38-92 (JphtInitializeHashtable) *)
Definition JphtInitializeHashtable (InitialBucketCount : Z) : M bool :=
  assert_ (0 <? InitialBucketCount) ;;;
  modify (set_BucketCount InitialBucketCount) ;;;
  modify (set_EntryCount 0) ;;;
  if 2 ^ (8 * PTR) - 1 <? SizeRequired InitialBucketCount then ret false else
  p <- on_heap (Allocate (SizeRequired InitialBucketCount)) ;;
  modify (set_Buckets p) ;;;
  if p =? 0 then ret false else
  n <- gets BucketCount ;;
  init_heads p (Z.to_nat n) 0 ;;;
  ret true.

(** The release build; [DBG] poisons the fields afterwards. *)
(* src/jpht/jpht/hashtable.c:94-108 (JphtDeleteHashtable) *)
Definition JphtDeleteHashtable : M unit :=
  c <- gets EntryCount ;;
  assert_ (c =? 0) ;;;
  b <- gets Buckets ;;
  on_heap (Free b).

(* src/jpht/jpht/hashtable.c:299-398 (JphtResize) *)
Definition JphtResize (NewBucketCount : Z) : M bool :=
  assert_ (negb (NewBucketCount =? 0)) ;;;
  OldBuckets <- gets Buckets ;;
  OldBucketCount <- gets BucketCount ;;
  if 2 ^ (8 * PTR) - 1 <? SizeRequired NewBucketCount then ret false else
  p <- on_heap (Allocate (SizeRequired NewBucketCount)) ;;
  if p =? 0 then ret false else
  modify (set_BucketCount NewBucketCount) ;;;
  modify (set_Buckets p) ;;;
  modify (set_EntryCount 0) ;;;
  n <- gets BucketCount ;;
  init_heads p (Z.to_nat n) 0 ;;;
  enum_buckets rehash OldBuckets (Z.to_nat OldBucketCount) 0 ;;;
  on_heap (Free OldBuckets) ;;;
  ret true.

Lemma init_heads_spec base n : forall from s,
  (forall i, from <= i < from + Z.of_nat n -> is_Some (Links s !! bucket_addr base i)) ->
  exists h',
    init_heads base n from s = Some (tt, set_Links h' s) /\
    (forall i, from <= i < from + Z.of_nat n -> dll h' (bucket_addr base i) []) /\
    same_dom (Links s) h' /\
    (forall q, (forall i, from <= i < from + Z.of_nat n -> q <> bucket_addr base i) ->
       h' !! q = Links s !! q).
Proof.
  induction n as [|n IH]; intros from s Hm.
  - exists (Links s). simpl. split_and!; [by destruct s|lia|done|done].
  - destruct (InitializeListHead_spec (Links s) (bucket_addr base from)) as (h1 & E1 & Hd1 & [D1 F1]);
      [apply Hm; lia|].
    destruct (IH (from + 1) (set_Links h1 s)) as (h' & E' & Hd' & D' & F').
    { intros i Hi. simpl. apply D1, Hm. lia. }
    exists h'. cbn [init_heads]. rewrite (bind_eq _ _ _ _ _ (on_links_spec _ s _ _ E1)), E'.
    simpl in D', F'. split_and!; [done| | |].
    + intros i Hi. destruct (decide (i = from)) as [->|Hne]; [|apply Hd'; lia].
      eapply dll_frame; [|exact Hd1]. intros q Hq. apply list_elem_of_singleton in Hq as ->.
      apply F'. intros j Hj Heq. apply bucket_addr_inj in Heq. lia.
    + intros q. by rewrite (D' q), (D1 q).
    + intros q Hq. rewrite F' by (intros; apply Hq; lia). apply F1.
      rewrite list_elem_of_singleton. apply Hq. lia.
Qed.

Lemma ht_ok_empty s (n : nat) :
  (0 < n)%nat -> BucketCount s = Z.of_nat n -> EntryCount s = 0 ->
  (forall i, 0 <= i < Z.of_nat n -> dll (Links s) (bucket_addr (Buckets s) i) []) ->
  ht_ok s (replicate n []).
Proof.
  intros Hn EB EC Hd.
  assert (mjoin (replicate n ([] : list Z)) = []) as Hj by (clear; by induction n).
  split; rewrite ?Hj, ?length_replicate; try done.
  - destruct n; [lia|done].
  - intros i xs [-> Hi]%lookup_replicate. apply Hd. lia.
  - by intros e He%not_elem_of_nil.
  - apply NoDup_nil_2.
  - by intros e He%not_elem_of_nil.
  - by intros i xs e [-> _]%lookup_replicate He%not_elem_of_nil.
Qed.

(** The heap manager: [size_of] gives the size of the blocks in use. *)
Context (size_of : AS -> Z -> option Z).

Definition in_blk (p n q : Z) : Prop := p <= q < p + n.

Definition allocates : Prop := forall n h a,
  Allocate n (h, a) = Some (0, (h, a)) \/
  exists p h' a', Allocate n (h, a) = Some (p, (h', a')) /\ p <> 0 /\
    size_of a' p = Some n /\
    (forall q m, size_of a q = Some m -> size_of a' q = Some m /\ (p + n <= q \/ q + m <= p)) /\
    (forall q, is_Some (h !! q) -> h' !! q = h !! q /\ ~ in_blk p n q) /\
    (forall i, 0 <= i -> (i + 1) * sizeof_bucket <= n -> is_Some (h' !! bucket_addr p i)).

Definition frees : Prop := forall p n h a,
  size_of a p = Some n ->
  exists h' a', Free p (h, a) = Some (tt, (h', a')) /\
    (forall q, ~ in_blk p n q -> h' !! q = h !! q) /\
    (forall q m, q <> p -> size_of a q = Some m -> size_of a' q = Some m).

(** The bucket array of a table is a block of the right size. *)
Definition owns_block s : Prop :=
  size_of (Heap s) (Buckets s) = Some (SizeRequired (BucketCount s)).

(** A bucket count whose array fits the address space. *)
Definition fits (n : Z) : Prop := 0 < n < 2 ^ 32 /\ n * sizeof_bucket < 2 ^ (8 * PTR).

Lemma SizeRequired_fits n : fits n -> SizeRequired n = n * sizeof_bucket.
Proof. intros [Hn Hf]. unfold SizeRequired. apply wrap_small. unfold sizeof_bucket in *. nia. Qed.

Lemma SizeRequired_check n : (2 ^ (8 * PTR) - 1 <? SizeRequired n) = false.
Proof. apply Z.ltb_ge. pose proof (wrap_bound (8 * PTR) (n * sizeof_bucket)). unfold SizeRequired. lia. Qed.

Lemma JphtInitialize_spec s n :
  allocates -> fits n ->
  (exists s', JphtInitializeHashtable n s = Some (false, s') /\ Links s' = Links s /\
     Keys s' = Keys s /\ Heap s' = Heap s /\ Ctx s' = Ctx s) \/
  (exists s', JphtInitializeHashtable n s = Some (true, s') /\
     ht_ok s' (replicate (Z.to_nat n) []) /\ abs s' (replicate (Z.to_nat n) []) = ∅ /\
     owns_block s' /\ Keys s' = Keys s /\ Ctx s' = Ctx s /\
     forall q, is_Some (Links s !! q) -> Links s' !! q = Links s !! q /\ outside s' q).
Proof.
  intros HA Hn. pose proof (SizeRequired_fits n Hn) as Hsize.
  unfold JphtInitializeHashtable. rewrite bind_assert by (apply Z.ltb_lt, Hn).
  rewrite !bind_modify, SizeRequired_check, Hsize.
  set (s0 := set_EntryCount 0 _).
  destruct (HA (n * sizeof_bucket) (Links s0) (Heap s0))
    as [E|(p & h1 & a1 & E & Hp & Hblk & _ & Hold & Hnew)].
  { left. erewrite bind_eq by (unfold on_heap; by rewrite E).
    rewrite bind_modify. unfold ret. by eexists. }
  right. erewrite bind_eq by (unfold on_heap; by rewrite E).
  rewrite bind_modify, (proj2 (Z.eqb_neq p 0)), bind_gets by done. simpl.
  set (s1 := set_Buckets p _).
  destruct (init_heads_spec p (Z.to_nat n) 0 s1) as (h2 & E2 & Hd2 & D2 & F2).
  { intros i Hi. apply Hnew; [lia|]. unfold sizeof_bucket. destruct Hn. nia. }
  rewrite (bind_eq _ _ _ _ _ E2). unfold ret. eexists. split; [done|].
  destruct Hn as [Hn _]. split_and!.
  - apply ht_ok_empty; simpl; [lia|lia|done|]. intros i Hi. apply Hd2. lia.
  - unfold abs. assert (mjoin (replicate (Z.to_nat n) ([] : list Z)) = []) as -> ; [|done].
    generalize (Z.to_nat n) as m. by induction m.
  - unfold owns_block. simpl. by rewrite Hsize.
  - done.
  - done.
  - intros q Hq. destruct (Hold q Hq) as [Hsame Hout]. simpl in Hsame |- *.
    unfold outside, in_blk in *. simpl. split; [|lia]. rewrite <-Hsame. apply F2.
    intros i Hi ->. apply Hout. unfold bucket_addr, sizeof_bucket. nia.
Qed.

(** *** Resizing *)
Section rehashing.
(** The new array, the keys, and the heap just before the entries are moved. *)
Variables (p n : Z) (K : gmap Z Z) (h0 : HEAP).

Definition in_new (q : Z) : Prop := p <= q < p + n * sizeof_bucket.

(** The entries [moved] are in the new table; everything else is untouched. *)
Record moving s bsN (moved : list Z) : Prop := {
  mv_ok : ht_ok s bsN;
  mv_perm : mjoin bsN ≡ₚ moved;
  mv_frame : forall q, q ∉ moved -> ~ in_new q -> Links s !! q = h0 !! q;
  mv_dom : same_dom h0 (Links s);
  mv_K : Keys s = K;
  mv_p : Buckets s = p;
  mv_n : BucketCount s = n }.

(** The entries still to be moved. *)
Definition movable (e : Z) : Prop :=
  is_Some (K !! entry_of e) /\ is_Some (h0 !! e) /\ ~ in_new e.

Lemma rehash_spec s bsN moved e :
  moving s bsN moved -> movable e -> kn K e ∉ kn K <$> moved ->
  exists s' bsN', rehash (entry_of e) s = Some (tt, s') /\ moving s' bsN' (e :: moved) /\
    Heap s' = Heap s /\ Ctx s' = Ctx s /\ length bsN' = length bsN.
Proof.
  intros [Hok Hp HF HD EK Ep En] ([k Hk] & Hm & Hout) Hnin. unfold rehash.
  assert (kn K e = norm k) as Hkn by (unfold kn, key_at; by rewrite Hk).
  assert (abs s bsN !! norm k = None) as Hnone.
  { unfold abs. rewrite abs_list_lookup, filter_none; [done|]. intros x Hx Hkx. apply Hnin.
    rewrite Hkn, <-Hkx, EK. apply list_elem_of_fmap_2. by rewrite <-Hp. }
  rewrite <-EK in Hk.
  destruct (JphtPut_spec s bsN (entry_of e) k Hok Hk)
    as (s' & bs' & E1 & Hok' & Hlen & _ & Hperm & (i & xs & Hi & Fr) & (EK' & EB & EBs & EH & EX & D)).
  { unfold insertable, outside. rewrite link_of_entry_of. split; [by apply HD|].
    rewrite Ep, En. unfold in_new in Hout. lia. }
  rewrite (bind_eq _ _ _ _ _ E1), Hnone. simpl. unfold ret.
  exists s', bs'. split; [done|]. split; [|done]. rewrite link_of_entry_of in *.
  split; try congruence.
  - rewrite Hperm. f_equiv. rewrite filter_all; [done|]. intros x Hx Hkx. apply Hnin.
    rewrite Hkn, <-Hkx, EK. apply list_elem_of_fmap_2. by rewrite <-Hp.
  - intros q Hq Hqn. rewrite not_elem_of_cons in Hq. destruct Hq as [Hqe Hqm].
    destruct Fr as [_ Fr]. rewrite Fr; [by apply HF|].
    rewrite !not_elem_of_cons. split_and!; [|done|].
    + intros ->. apply Hqn. pose proof (lookup_lt_Some _ _ _ Hi).
      pose proof (ok_count _ _ Hok). unfold in_new, bucket_addr, sizeof_bucket. nia.
    + intros Hx. apply Hqm. rewrite <-Hp. by eapply bucket_in.
  - intros q. by rewrite (D q), (HD q).
Qed.

Lemma resize_ring head todo : forall kept s bsN moved fuel,
  moving s bsN moved -> dll h0 head (kept ++ todo) ->
  (forall e, e ∈ todo -> movable e) -> NoDup (kn K <$> todo ++ moved) ->
  (length todo < fuel)%nat ->
  exists s' bsN' moved',
    enum_ring rehash fuel head (default head (hd_error todo)) s = Some (tt, s') /\
    moving s' bsN' moved' /\ moved' ≡ₚ todo ++ moved /\
    Heap s' = Heap s /\ Ctx s' = Ctx s /\ length bsN' = length bsN.
Proof.
  induction todo as [|e todo IH]; intros kept s bsN moved fuel Hmv Hd Hmov Hnd Hf;
    (destruct fuel as [|fuel]; [simpl in Hf; lia|]).
  - simpl. rewrite Z.eqb_refl. by exists s, bsN, moved.
  - cbn [enum_ring hd_error default from_option]. unfold default, from_option, id.
    assert (e <> head) as Hne by (apply dll_head_notin in Hd; set_solver).
    rewrite (proj2 (Z.eqb_neq _ _) Hne).
    rewrite <-app_comm_cons, fmap_cons, NoDup_cons in Hnd. destruct Hnd as [Hni Hnd].
    rewrite fmap_app, elem_of_app in Hni.
    assert (Links s !! e = h0 !! e) as Hsame.
    { apply (mv_frame _ _ _ Hmv); [|by apply Hmov; left].
      intros Hin. apply Hni. right. by apply list_elem_of_fmap_2. }
    pose proof (load_Flink_eq _ _ _ _ Hsame (dll_next _ _ _ _ _ Hd)) as Hnext.
    rewrite (bind_eq _ _ _ _ _ (on_links_id _ s _ Hnext)).
    destruct (rehash_spec s bsN moved e) as (s1 & bs1 & E1 & Hmv1 & EH & EX & EL);
      [done|apply Hmov; set_solver|tauto|].
    rewrite (bind_eq _ _ _ _ _ E1).
    destruct (IH (kept ++ [e]) s1 bs1 (e :: moved) fuel)
      as (s' & bs' & moved' & E' & Hmv' & Hp' & EH' & EX' & EL').
    + done.
    + by rewrite <-app_cons_assoc.
    + intros x Hx. apply Hmov. set_solver.
    + rewrite <-Permutation_middle, fmap_cons, NoDup_cons. split; [|done].
      by rewrite fmap_app, elem_of_app.
    + simpl in Hf. lia.
    + exists s', bs', moved'. split_and!; try congruence. rewrite Hp'. by rewrite <-Permutation_middle.
Qed.

Lemma resize_buckets base rest : forall from s bsN moved,
  moving s bsN moved ->
  (forall i xs, rest !! i = Some xs ->
     let head := bucket_addr base (from + Z.of_nat i) in
     dll h0 head xs /\ ~ in_new head /\ head ∉ moved ++ mjoin rest) ->
  (forall e, e ∈ mjoin rest -> movable e) -> NoDup (kn K <$> mjoin rest ++ moved) ->
  exists s' bsN' moved',
    enum_buckets rehash base (length rest) from s = Some (tt, s') /\
    moving s' bsN' moved' /\ moved' ≡ₚ mjoin rest ++ moved /\
    Heap s' = Heap s /\ Ctx s' = Ctx s /\ length bsN' = length bsN.
Proof.
  induction rest as [|xs rest IH]; intros from s bsN moved Hmv Hr Hmov Hnd.
  - by exists s, bsN, moved.
  - cbn [enum_buckets length]. destruct (Hr 0%nat xs eq_refl) as (Hd & Hout & Hnm).
    simpl in Hd, Hout, Hnm. rewrite Z.add_0_r in *.
    assert (Links s !! bucket_addr base from = h0 !! bucket_addr base from) as Hsame
      by (apply (mv_frame _ _ _ Hmv); set_solver).
    pose proof (load_Flink_eq _ _ _ _ Hsame (dll_first _ _ _ Hd)) as Hfirst.
    rewrite (bind_eq _ _ _ _ _ (on_links_id _ s _ Hfirst)), bind_gets.
    simpl in Hnd, Hmov. rewrite <-app_assoc in Hnd.
    destruct (resize_ring (bucket_addr base from) xs [] s bsN moved (ring_fuel s))
      as (s1 & bs1 & m1 & E1 & Hmv1 & Hp1 & EH1 & EX1 & EL1).
    + done.
    + done.
    + intros e He. apply Hmov. set_solver.
    + rewrite (Permutation_app_comm (mjoin rest)), app_assoc, fmap_app in Hnd.
      by apply NoDup_app in Hnd as [? _].
    + pose proof (dll_length _ _ _ Hd). unfold ring_fuel.
      assert (dom (Links s) = dom h0) as Hdom.
      { apply set_eq. intros q. rewrite !elem_of_dom. apply (mv_dom _ _ _ Hmv). }
      rewrite <-(size_dom (Links s)), Hdom, size_dom. lia.
    + rewrite (bind_eq _ _ _ _ _ E1).
      destruct (IH (from + 1) s1 bs1 m1) as (s' & bs' & m' & E' & Hmv' & Hp' & EH' & EX' & EL').
      * done.
      * intros i ys Hi. specialize (Hr (S i) ys Hi). simpl in Hr.
        replace (from + 1 + Z.of_nat i) with (from + Z.of_nat (S i)) by lia.
        destruct Hr as (? & ? & Hr). split_and!; [done|done|].
        intros Hin. apply Hr. revert Hin. rewrite !elem_of_app, Hp1, elem_of_app. tauto.
      * intros e He. apply Hmov. set_solver.
      * rewrite Hp1. rewrite app_assoc, (Permutation_app_comm (mjoin rest)), <-app_assoc. done.
      * exists s', bs', m'. split_and!; try congruence. rewrite Hp', Hp1. simpl.
        rewrite app_assoc, (Permutation_app_comm (mjoin rest)), <-app_assoc. done.
Qed.
End rehashing.

Lemma ht_ok_links s bs h a :
  ht_ok s bs ->
  (forall q, q ∈ mjoin bs \/ ~ outside s q -> h !! q = Links s !! q) ->
  ht_ok (set_Heap a (set_Links h s)) bs.
Proof.
  intros Hok Hsame. split; try apply Hok. simpl. intros i xs Hi.
  eapply dll_frame; [|by eapply ok_ring]. intros q [->|Hq]%elem_of_cons; apply Hsame.
  - right. apply bucket_inside. pose proof (lookup_lt_Some _ _ _ Hi).
    rewrite (ok_count _ _ Hok). lia.
  - left. by eapply bucket_in.
Qed.

(** The entries of a table as the copy loop of [JphtResize] finds them. *)
Lemma resize_ready s bs p n h1 h2 :
  ht_ok s bs ->
  (forall q, is_Some (Links s !! q) -> h1 !! q = Links s !! q /\ ~ in_blk p (n * sizeof_bucket) q) ->
  same_dom h1 h2 ->
  (forall q, (forall i, 0 <= i < n -> q <> bucket_addr p i) -> h2 !! q = h1 !! q) ->
  (forall i xs, bs !! i = Some xs ->
     let head := bucket_addr (Buckets s) (0 + Z.of_nat i) in
     dll h2 head xs /\ ~ in_new p n head /\ head ∉ [] ++ mjoin bs) /\
  (forall e, e ∈ mjoin bs -> movable p n (Keys s) h2 e).
Proof.
  intros Hok Hold D2 F2.
  assert (forall q, is_Some (Links s !! q) -> h2 !! q = Links s !! q) as Hsame.
  { intros q Hq. destruct (Hold q Hq) as [<- Hout]. apply F2. intros i Hi ->. apply Hout.
    unfold in_blk, bucket_addr, sizeof_bucket. nia. }
  split.
  - intros i xs Hi head. pose proof (ok_ring _ _ Hok _ _ Hi) as Hd. split_and!.
    + eapply dll_frame; [|exact Hd]. intros q Hq. apply Hsame. by eapply dll_mapped.
    + apply Hold. eapply dll_mapped; [exact Hd|]. set_solver.
    + apply (ok_heads _ _ i Hok). by eapply lookup_lt_Some.
  - intros e He. destruct (in_bucket _ _ He) as (i & xs & Hi & Hin).
    assert (is_Some (Links s !! e)) as Hm
      by (eapply dll_mapped; [by eapply ok_ring|set_solver]).
    split_and!; [by eapply ok_keys|by rewrite (Hsame e Hm)|by apply Hold].
Qed.

Lemma JphtResize_spec s bs n :
  allocates -> frees -> ht_ok s bs -> owns_block s -> fits (BucketCount s) -> fits n ->
  JphtResize n s = Some (false, s) \/
  exists s' bs', JphtResize n s = Some (true, s') /\ ht_ok s' bs' /\
    abs s' bs' = abs s bs /\ EntryCount s' = EntryCount s /\ BucketCount s' = n /\
    owns_block s' /\ Keys s' = Keys s /\ Ctx s' = Ctx s /\
    forall E, insertable s E -> insertable s' E.
Proof.
  intros HA HF Hok Hown Hfo Hn. pose proof (SizeRequired_fits n Hn) as Hsize.
  unfold owns_block in Hown. rewrite (SizeRequired_fits _ Hfo) in Hown.
  unfold JphtResize. rewrite bind_assert by (destruct Hn; apply negb_true_iff, Z.eqb_neq; lia).
  rewrite !bind_gets, SizeRequired_check, Hsize.
  destruct (HA (n * sizeof_bucket) (Links s) (Heap s))
    as [E|(p & h1 & a1 & E & Hp & Hblk & Hblks & Hold & Hnew)].
  { left. erewrite bind_eq by (unfold on_heap; by rewrite E). by destruct s. }
  right. erewrite bind_eq by (unfold on_heap; by rewrite E).
  rewrite (proj2 (Z.eqb_neq p 0)), !bind_modify, bind_gets by done. simpl.
  set (s1 := set_EntryCount 0 _).
  destruct (init_heads_spec p (Z.to_nat n) 0 s1) as (h2 & E2 & Hd2 & D2 & F2).
  { intros i Hi. apply Hnew; [lia|]. unfold sizeof_bucket. destruct Hn. nia. }
  rewrite (bind_eq _ _ _ _ _ E2).
  assert (Z.of_nat (Z.to_nat n) = n) as Hzn by (destruct Hn; lia). rewrite Hzn in *.
  destruct (resize_ready s bs p n h1 h2 Hok Hold D2 F2) as [Hheads Hmov].
  assert (moving p n (Keys s) h2 (set_Links h2 s1) (replicate (Z.to_nat n) []) []) as Hmv.
  { assert (mjoin (replicate (Z.to_nat n) ([] : list Z)) = []) as Hj
      by (generalize (Z.to_nat n) as m; clear; by induction m).
    split; simpl; try done; [|by rewrite Hj].
    apply ht_ok_empty; simpl; [destruct Hn; lia|done|done|]. intros i Hi. apply Hd2. lia. }
  destruct (resize_buckets p n (Keys s) h2 (Buckets s) bs 0 _ _ _ Hmv Hheads Hmov)
    as (s3 & bs3 & m3 & E3 & Hmv3 & Hp3 & EH3 & EX3 & EL3);
    [rewrite app_nil_r; apply (ok_nodup _ _ Hok)|].
  rewrite app_nil_r in Hp3. rewrite (ok_count _ _ Hok), Nat2Z.id, (bind_eq _ _ _ _ _ E3).
  destruct Hmv3 as [Hok3 Hperm3 _ HD3 EK3 Ep3 En3]. rewrite Hp3 in Hperm3.
  simpl in EH3, EX3. destruct (Hblks _ _ Hown) as [Hown1 Hdisj]. rewrite <-EH3 in Hown1, Hblk.
  destruct (HF _ _ (Links s3) (Heap s3) Hown1) as (h4 & a4 & E4 & F4 & Hblk4).
  erewrite bind_eq by (unfold on_heap; by rewrite E4). unfold ret.
  eexists _, bs3. split; [done|].
  assert (0 < BucketCount s * sizeof_bucket /\ 0 < n * sizeof_bucket) as [??]
    by (unfold sizeof_bucket; destruct Hn, Hfo; split; nia).
  split_and!; try done.
  - apply ht_ok_links; [done|]. intros q Hq. apply F4. unfold in_blk. destruct Hq as [Hq|Hq].
    + rewrite Hperm3 in Hq. apply (ok_outside _ _ Hok) in Hq. unfold outside in Hq. lia.
    + unfold outside in Hq. rewrite Ep3, En3 in Hq. lia.
  - unfold abs. simpl. rewrite EK3. symmetry. apply abs_list_perm; [apply (ok_nodup _ _ Hok)|].
    by rewrite Hperm3.
  - simpl. rewrite (ok_entries _ _ Hok3), (ok_entries _ _ Hok). by rewrite Hperm3.
  - unfold owns_block. simpl. rewrite En3, Ep3, Hsize. apply Hblk4; [lia|done].
  - intros e [Hm Ho]. destruct (Hold _ Hm) as [Hsame Hout]. unfold insertable, outside in *.
    simpl. rewrite F4 by (unfold in_blk; lia). unfold in_blk in Hout. rewrite Ep3, En3.
    split; [|lia]. apply HD3, D2. simpl. by rewrite Hsame.
Qed.

(** *** Sequences of operations *)
Inductive ht_op := OpPut (Entry : Z) | OpGet (Key : Z) | OpRemoveKey (Key : Z) | OpResize (n : Z).

Definition exec_ht_op (o : ht_op) : M Z :=
  match o with
  | OpPut E => JphtPutEntryHashtable E
  | OpGet k => JphtGetEntryHashtable k
  | OpRemoveKey k => JphtRemoveEntryHashtable k
  | OpResize n => b <- JphtResize n ;; ret (if b : bool then 1 else 0)
  end.

Fixpoint exec_ht_ops (os : list ht_op) : M (list Z) :=
  match os with
  | [] => ret []
  | o :: os => r <- exec_ht_op o ;; rs <- exec_ht_ops os ;; ret (r :: rs)
  end.

(** The same operations on the finite map; a resize may fail. *)
Definition map_step K (o : ht_op) (m : gmap Z Z) (r : Z) (m' : gmap Z Z) : Prop :=
  match o with
  | OpPut E => let nk := norm (default 0 (K !! E)) in
               r = default 0 (m !! nk) /\ m' = <[nk := E]> m
  | OpGet k => r = default 0 (m !! norm k) /\ m' = m
  | OpRemoveKey k => r = default 0 (m !! norm k) /\ m' = delete (norm k) m
  | OpResize _ => (r = 0 \/ r = 1) /\ m' = m
  end.

Fixpoint map_steps K (os : list ht_op) (m : gmap Z Z) (rs : list Z) (m' : gmap Z Z) : Prop :=
  match os, rs with
  | [], [] => m' = m
  | o :: os, r :: rs => exists m1, map_step K o m r m1 /\ map_steps K os m1 rs m'
  | _, _ => False
  end.

Definition op_ok s (o : ht_op) : Prop :=
  match o with
  | OpPut E => is_Some (Keys s !! E) /\ insertable s E
  | OpResize n => fits n
  | _ => True
  end.

(** Everything the operations rely on. *)
Definition table_ok s bs : Prop := ht_ok s bs /\ owns_block s /\ fits (BucketCount s).

Lemma same_rest_table_ok s s' bs bs' :
  same_rest s s' -> ht_ok s' bs' -> table_ok s bs -> table_ok s' bs'.
Proof.
  intros (EK & EB & EBs & EH & _) Hok (_ & Ho & Hf). unfold table_ok, owns_block in *.
  by rewrite EB, EBs, EH.
Qed.

Lemma op_ok_mono s s' o :
  Keys s' = Keys s -> (forall E, insertable s E -> insertable s' E) -> op_ok s o -> op_ok s' o.
Proof. intros EK Hi. destruct o; simpl; rewrite ?EK; naive_solver. Qed.

Lemma same_rest_insertable s s' E : same_rest s s' -> insertable s E -> insertable s' E.
Proof.
  intros (_ & EB & EBs & _ & _ & D) [Hm Ho]. unfold insertable, outside in *.
  rewrite EB, EBs. split; [by apply D|done].
Qed.

Lemma exec_ht_op_refines s bs o :
  allocates -> frees -> table_ok s bs -> op_ok s o ->
  exists r s' bs', exec_ht_op o s = Some (r, s') /\ table_ok s' bs' /\
    map_step (Keys s) o (abs s bs) r (abs s' bs') /\ Keys s' = Keys s /\
    forall o', op_ok s o' -> op_ok s' o'.
Proof.
  intros HA HF Htab Ho. pose proof Htab as (Hok & Hown & Hfit). destruct o as [E|k|k|n]; simpl in *.
  - destruct Ho as [[k Hk] Hins].
    destruct (JphtPut_spec s bs E k Hok Hk Hins) as (s' & bs' & E1 & Hok' & _ & Habs & _ & _ & Hr).
    eexists _, s', bs'. split; [done|]. split; [by eapply same_rest_table_ok|].
    rewrite Hk. simpl. split_and!; [done|done|apply Hr|].
    intros o'. apply op_ok_mono; [apply Hr|]. intros; by eapply same_rest_insertable.
  - rewrite (JphtGet_spec s bs k Hok). by eexists _, s, bs.
  - destruct (JphtRemove_spec s bs k Hok) as (s' & bs' & E1 & Hok' & _ & Habs & _ & Hr).
    eexists _, s', bs'. split; [done|]. split; [by eapply same_rest_table_ok|].
    split_and!; [done|done|apply Hr|].
    intros o'. apply op_ok_mono; [apply Hr|]. intros; by eapply same_rest_insertable.
  - destruct (JphtResize_spec s bs n HA HF Hok Hown Hfit Ho)
      as [E1|(s' & bs' & E1 & Hok' & Habs & _ & EB & Hown' & EK & _ & Hins)];
      rewrite (bind_eq _ _ _ _ _ E1); unfold ret.
    + eexists _, s, bs. split_and!; try done. by left.
    + eexists _, s', bs'. split_and!; try done; [by unfold table_ok; rewrite EB|by right|].
      intros o'. by apply op_ok_mono.
Qed.

(** C2. Hashtable refinement.  Any sequence of Put, Get, Remove and Resize
    operations on a well-formed table runs without a fault and terminates,
    returns what the operations of a finite map from keys (up to the client's
    equality) to entries return -- Put and Remove hand back the entry that was
    displaced -- and leaves a well-formed table for the resulting map, whose
    EntryCount is the number of its keys.  Resizing never changes the map. *)
Theorem ht_ops_refine os s bs :
  allocates -> frees -> table_ok s bs -> Forall (op_ok s) os ->
  exists rs s' bs', exec_ht_ops os s = Some (rs, s') /\ table_ok s' bs' /\
    map_steps (Keys s) os (abs s bs) rs (abs s' bs') /\
    EntryCount s' = ULONG (Z.of_nat (size (abs s' bs'))).
Proof.
  intros HA HF. revert s bs. induction os as [|o os IH]; intros s bs Htab Hos.
  - exists [], s, bs. split_and!; try done. destruct Htab as [Hok _].
    unfold abs. rewrite abs_list_size by apply (ok_nodup _ _ Hok). apply (ok_entries _ _ Hok).
  - apply Forall_cons in Hos as [Ho Hos].
    destruct (exec_ht_op_refines s bs o HA HF Htab Ho) as (r & s1 & bs1 & E1 & Htab1 & Hs & EK & Hmono).
    destruct (IH s1 bs1 Htab1) as (rs & s2 & bs2 & E2 & Htab2 & Hss & Hc).
    { eapply Forall_impl; [exact Hos|]. done. }
    exists (r :: rs), s2, bs2. simpl. rewrite (bind_eq _ _ _ _ _ E1), (bind_eq _ _ _ _ _ E2).
    rewrite EK in Hss. split_and!; try done. by eexists.
Qed.

Lemma enumerate_removing act s bs x :
  ht_ok s bs -> visit act (entry_of <$> mjoin bs) (Ctx s) = Some x ->
  exists s' bs', JphtEnumerateEntries (removing_callback act) s = Some (tt, s') /\
    ht_ok s' bs' /\ abs s' bs' = ∅ /\ EntryCount s' = 0 /\ Ctx s' = x /\
    Buckets s' = Buckets s /\ BucketCount s' = BucketCount s /\ Heap s' = Heap s.
Proof.
  intros Hok Hv. unfold JphtEnumerateEntries. rewrite bind_gets, (ok_count _ _ Hok), Nat2Z.id.
  destruct (enum_table_removing act bs [] s x Hok Hv) as (s' & E & Hok' & _ & EBs & EB & EH & EX).
  assert (mjoin (replicate (length bs) ([] : list Z)) = []) as Hj
    by (generalize (length bs) as m; clear; by induction m).
  pose proof (ok_count _ _ Hok) as Hn. rewrite <-Hn. exists s', (replicate (length bs) []).
  simpl in *. split_and!; try done.
  - unfold abs. by rewrite Hj.
  - rewrite (ok_entries _ _ Hok'), Hj. done.
Qed.

(** C28. Emptying a table.  Enumerating with a callback that removes the entry it
    is given terminates whenever the client's part of the callback returns, passes
    every entry to the callback exactly once (bucket by bucket, in list order),
    leaves the empty map and an EntryCount of 0, so that JphtDeleteHashtable's
    assertion holds afterwards. *)
Theorem JphtEnumerate_removing act s bs x :
  ht_ok s bs -> visit act (entry_of <$> mjoin bs) (Ctx s) = Some x ->
  exists s' bs', JphtEnumerateEntries (removing_callback act) s = Some (tt, s') /\
    ht_ok s' bs' /\ abs s' bs' = ∅ /\ EntryCount s' = 0 /\ Ctx s' = x.
Proof.
  intros Hok Hv. destruct (enumerate_removing act s bs x Hok Hv)
    as (s' & bs' & E & H1 & H2 & H3 & H4 & _). by exists s', bs'.
Qed.
End hashtable.

(** ** The interface for clients

    What a client of the library relies on: a relation between table states and
    finite maps from keys (up to [tab_norm]) to entries, and operations that
    keep to it and leave the client's own state, [tab_ctx], alone.  An entry
    that is put must be [tab_insertable]; [tab_drain act] enumerates the table
    with a callback that removes each entry and then runs [act] on it. *)
Class KeyedTable (T X : Type) := {
  tab_norm : Z -> Z;
  tab_rel : T -> gmap Z Z -> Prop;
  tab_key : T -> Z -> option Z;
  tab_insertable : T -> Z -> Prop;
  tab_ctx : T -> X;
  tab_set_ctx : X -> T -> T;
  tab_init : Z -> ST T bool;
  tab_put : Z -> ST T Z;
  tab_get : Z -> ST T Z;
  tab_remove : Z -> ST T Z;
  tab_drain : (Z -> X -> option X) -> ST T unit;
  tab_delete : ST T unit;
  tab_ctx_set : forall t x, tab_ctx (tab_set_ctx x t) = x;
  tab_set_get : forall t, tab_set_ctx (tab_ctx t) t = t;
  tab_set_set : forall t x y, tab_set_ctx y (tab_set_ctx x t) = tab_set_ctx y t;
  tab_rel_set : forall t m x, tab_rel t m -> tab_rel (tab_set_ctx x t) m;
  tab_key_set : forall t x, tab_key (tab_set_ctx x t) = tab_key t;
  tab_insertable_set : forall t x E, tab_insertable t E -> tab_insertable (tab_set_ctx x t) E;
  tab_init_spec : forall t n, 0 < n < 2 ^ 16 ->
    exists b t', tab_init n t = Some (b, t') /\ tab_ctx t' = tab_ctx t /\
      (b = true -> tab_rel t' ∅);
  tab_get_spec : forall t m k, tab_rel t m ->
    tab_get k t = Some (default 0 (m !! tab_norm k), t);
  tab_put_spec : forall t m E k, tab_rel t m -> tab_key t E = Some k -> tab_insertable t E ->
    exists t', tab_put E t = Some (default 0 (m !! tab_norm k), t') /\
      tab_rel t' (<[tab_norm k := E]> m) /\ tab_key t' = tab_key t /\ tab_ctx t' = tab_ctx t /\
      (forall E', tab_insertable t E' -> tab_insertable t' E');
  tab_remove_spec : forall t m k, tab_rel t m ->
    exists t', tab_remove k t = Some (default 0 (m !! tab_norm k), t') /\
      tab_rel t' (delete (tab_norm k) m) /\ tab_key t' = tab_key t /\ tab_ctx t' = tab_ctx t /\
      (forall E', tab_insertable t E' -> tab_insertable t' E');
  tab_drain_spec : forall act (J : gmap Z Z -> X -> Prop) t m, tab_rel t m -> J m (tab_ctx t) ->
    (forall m k E x, J m x -> m !! k = Some E ->
       exists x', act E x = Some x' /\ J (delete k m) x') ->
    exists t', tab_drain act t = Some (tt, t') /\ tab_rel t' ∅ /\ J ∅ (tab_ctx t');
  tab_delete_spec : forall t, tab_rel t ∅ ->
    exists t', tab_delete t = Some (tt, t') /\ tab_ctx t' = tab_ctx t }.

Section instance.
Context {AS X : Type} (PTR : Z) (Hash norm : Z -> Z) (Equals : Z -> Z -> bool).
Context (Allocate : Z -> ST (HEAP * AS) Z) (Free : Z -> ST (HEAP * AS) unit)
  (size_of : AS -> Z -> option Z).
Hypothesis PTR_size : PTR = 4 \/ PTR = 8.
Hypothesis Equals_spec : forall a b, Equals a b = (norm a =? norm b).
Hypothesis Hash_spec : forall a b, norm a = norm b -> Hash a = Hash b.
Hypothesis Alloc_spec : allocates PTR Allocate size_of.
Hypothesis Free_spec : frees Free size_of.

Let PTR_pos : 0 < PTR.
Proof. lia. Qed.

Definition jpht_rel (s : HT AS X) (m : gmap Z Z) : Prop :=
  exists bs, table_ok PTR Hash norm size_of s bs /\ abs PTR norm s bs = m.

Lemma jpht_init (s : HT AS X) n : 0 < n < 2 ^ 16 ->
  exists b s', JphtInitializeHashtable PTR Allocate n s = Some (b, s') /\ Ctx s' = Ctx s /\
    (b = true -> jpht_rel s' ∅).
Proof.
  intros Hn. assert (fits PTR n) as Hf.
  { split; [lia|]. unfold sizeof_bucket. destruct PTR_size as [-> | ->]; lia. }
  destruct (JphtInitialize_spec PTR Hash norm PTR_pos Allocate size_of s n Alloc_spec Hf)
    as [(s' & E & _ & _ & _ & EX)|(s' & E & Hok & Ha & Ho & _ & EX & _)].
  - by exists false, s'.
  - exists true, s'. split_and!; [done|done|]. intros _. eexists. split; [|exact Ha].
    split_and!; [done|done|]. rewrite (ok_count _ _ _ _ _ Hok), length_replicate. by rewrite Z2Nat.id by lia.
Qed.

Lemma jpht_drain act (J : gmap Z Z -> X -> Prop) (s : HT AS X) m :
  jpht_rel s m -> J m (Ctx s) ->
  (forall m k E x, J m x -> m !! k = Some E -> exists x', act E x = Some x' /\ J (delete k m) x') ->
  exists s', JphtEnumerateEntries PTR (removing_callback PTR Hash Equals act) s = Some (tt, s') /\
    jpht_rel s' ∅ /\ J ∅ (Ctx s').
Proof.
  intros (bs & (Hok & Hown & Hfit) & <-) HJ Hact.
  assert (exists x, visit act (entry_of PTR <$> mjoin bs) (Ctx s) = Some x /\ J ∅ x) as (x & Hv & HJ').
  { pose proof (ok_nodup _ _ _ _ _ Hok) as Hnd. unfold abs in HJ. revert HJ Hnd.
    generalize (Ctx s) as x. induction (mjoin bs) as [|e l IH]; intros x HJ Hnd; [by exists x|].
    rewrite fmap_cons, NoDup_cons in Hnd. destruct Hnd as [Hni Hnd].
    unfold abs_list in HJ. rewrite fmap_cons, list_to_map_cons in HJ.
    destruct (Hact _ (kn PTR norm (Keys s) e) (entry_of PTR e) x HJ) as (x1 & E1 & HJ1);
      [by rewrite lookup_insert_eq|].
    cbn [fmap list_fmap visit]. rewrite E1. apply IH; [|done].
    rewrite delete_insert_id in HJ1; [done|]. apply not_elem_of_list_to_map.
    rewrite <-list_fmap_compose. exact Hni. }
  destruct (enumerate_removing PTR Hash Equals norm PTR_pos Equals_spec Hash_spec act s bs x Hok Hv)
    as (s' & bs' & E & Hok' & Ha & _ & EX & EBs & EB & EH).
  exists s'. split_and!; [done| |by rewrite EX]. exists bs'. split; [|done].
  split_and!; [done|unfold owns_block in *; by rewrite EH, EBs, EB|by rewrite EB].
Qed.

Lemma jpht_delete (s : HT AS X) : jpht_rel s ∅ ->
  exists s', JphtDeleteHashtable Free s = Some (tt, s') /\ Ctx s' = Ctx s.
Proof.
  intros (bs & (Hok & Hown & Hfit) & Ha). unfold JphtDeleteHashtable.
  assert (EntryCount s = 0) as E0.
  { rewrite (ok_entries _ _ _ _ _ Hok). unfold abs in Ha. apply (f_equal size) in Ha.
    rewrite abs_list_size, map_size_empty in Ha by apply (ok_nodup _ _ _ _ _ Hok). by rewrite Ha. }
  rewrite bind_gets, E0, bind_assert, bind_gets by done.
  destruct (Free_spec _ _ (Links s) (Heap s) Hown) as (h & a & E & _).
  unfold on_heap. rewrite E. by eexists.
Qed.

Definition jpht_table : KeyedTable (HT AS X) X.
Proof.
  refine {|
    tab_norm := norm;
    tab_rel := jpht_rel;
    tab_key := fun s E => Keys s !! E;
    tab_insertable := insertable PTR;
    tab_ctx := Ctx;
    tab_set_ctx := set_Ctx;
    tab_init := JphtInitializeHashtable PTR Allocate;
    tab_put := JphtPutEntryHashtable PTR Hash Equals;
    tab_get := JphtGetEntryHashtable PTR Hash Equals;
    tab_remove := JphtRemoveEntryHashtable PTR Hash Equals;
    tab_drain := fun act => JphtEnumerateEntries PTR (removing_callback PTR Hash Equals act);
    tab_delete := JphtDeleteHashtable Free |}.
  - done.
  - by intros [].
  - done.
  - intros s m x (bs & (Hok & Ho & Hf) & Ha). exists bs. split; [|done].
    split_and!; [by apply ht_ok_ctx|done|done].
  - done.
  - done.
  - apply jpht_init.
  - intros s m k (bs & [Hok _] & <-).
    apply (JphtGet_spec PTR Hash Equals norm PTR_pos Equals_spec Hash_spec s bs k Hok).
  - intros s m E k (bs & Htab & <-) Hk Hi. pose proof Htab as [Hok _].
    destruct (JphtPut_spec PTR Hash Equals norm PTR_pos Equals_spec Hash_spec s bs E k)
      as (s' & bs' & E1 & Hok' & _ & Ha & _ & _ & Hr); [done..|]. pose proof Hr as (EK & _ & _ & _ & EX & _).
    exists s'. split_and!; [done| |by rewrite EK|done|intros; by eapply same_rest_insertable].
    exists bs'. split; [by eapply same_rest_table_ok|done].
  - intros s m k (bs & Htab & <-). pose proof Htab as [Hok _].
    destruct (JphtRemove_spec PTR Hash Equals norm PTR_pos Equals_spec Hash_spec s bs k)
      as (s' & bs' & E1 & Hok' & _ & Ha & _ & Hr); [done..|]. pose proof Hr as (EK & _ & _ & _ & EX & _).
    exists s'. split_and!; [done| |by rewrite EK|done|intros; by eapply same_rest_insertable].
    exists bs'. split; [by eapply same_rest_table_ok|done].
  - intros act J s m Hr HJ Hact. by apply (jpht_drain act J s m).
  - intros s Hr. by apply jpht_delete.
Defined.

(** A client's new entry: memory that was not mapped before, with its key. *)
Definition new_entry (E k : Z) (s : HT AS X) : HT AS X :=
  MkHT (EntryCount s) (BucketCount s) (Buckets s) (<[link_of PTR E := MkLink 0 0]> (Links s))
    (<[E := k]> (Keys s)) (Heap s) (Ctx s).

Lemma jpht_new_entry s m E k : jpht_rel s m -> Links s !! link_of PTR E = None ->
  jpht_rel (new_entry E k s) m.
Proof.
  intros (bs & (Hok & Hown & Hfit) & Ha) HE.
  assert (forall e, e ∈ mjoin bs -> Links s !! e <> None) as Hm.
  { intros e (i & xs & Hi & Hin)%in_bucket.
    destruct (dll_mapped _ _ _ e (ok_ring _ _ _ _ _ Hok _ _ Hi)) as [? ->]; [set_solver|done]. }
  assert (forall e, e ∈ mjoin bs -> <[E := k]> (Keys s) !! entry_of PTR e = Keys s !! entry_of PTR e) as HK.
  { intros e He. apply lookup_insert_ne. intros ->. apply (Hm e He).
    unfold link_of, entry_of in HE. by replace (e - PTR + PTR) with e in HE by lia. }
  assert (forall e, e ∈ mjoin bs -> kn PTR norm (<[E := k]> (Keys s)) e = kn PTR norm (Keys s) e) as Hkn.
  { intros e He. unfold kn, key_at. by rewrite HK. }
  exists bs. split; [split_and!; [|done|done]|].
  - split; try apply Hok; simpl.
    + intros i xs Hi. eapply dll_frame; [|by eapply (ok_ring _ _ _ _ _ Hok)].
      intros q Hq. apply lookup_insert_ne. intros <-.
      destruct (dll_mapped _ _ _ _ (ok_ring _ _ _ _ _ Hok _ _ Hi) Hq) as [? Hs]. congruence.
    + erewrite (list_fmap_ext _ (kn PTR norm (Keys s))); [apply Hok|].
      intros i e He. apply Hkn. by eapply list_elem_of_lookup_2.
    + intros e He. rewrite HK by done. by apply Hok.
    + intros i xs e Hi He. unfold key_at. rewrite HK by (by eapply bucket_in).
      by apply (ok_placed _ _ _ _ _ Hok i xs).
  - rewrite <-Ha. unfold abs, abs_list. f_equal. apply list_fmap_ext. intros i e He.
    simpl. by rewrite Hkn by (by eapply list_elem_of_lookup_2).
Qed.
End instance.

(** ** A concrete heap manager and table *)
Module Concrete.

(** A bump allocator: the next free address and the blocks in use. *)
Definition BUMP : Type := Z * gmap Z Z.

Definition cells (p n : Z) : HEAP :=
  list_to_map ((fun i => (p + i * 16, MkLink 0 0)) <$> seqZ 0 (n / 16)).

Definition free_above (p : Z) (h : HEAP) (blks : gmap Z Z) : Prop :=
  0 < p /\ blks !! p = None /\ map_Forall (fun q _ => q < p) h /\ map_Forall (fun q m => q + m <= p) blks.

#[export] Instance free_above_dec p h blks : Decision (free_above p h blks).
Proof. unfold free_above. apply _. Defined.

Definition Allocate (n : Z) : ST (HEAP * BUMP) Z := fun '(h, (p, blks)) =>
  if decide (free_above p h blks) then
    Some (p, (h ∪ cells p n, (p + Z.max n 0, <[p := n]> blks)))
  else Some (0, (h, (p, blks))).

Definition Free (p : Z) : ST (HEAP * BUMP) unit := fun '(h, (next, blks)) =>
  Some (tt, (h, (next, delete p blks))).

Definition size_of (a : BUMP) (p : Z) : option Z := snd a !! p.

Definition Hash (k : Z) : Z := k mod 2 ^ 32.
Definition Equals (a b : Z) : bool := a mod 2 ^ 32 =? b mod 2 ^ 32.

Lemma cells_mapped p n i : 0 <= i -> (i + 1) * 16 <= n -> is_Some (cells p n !! (p + i * 16)).
Proof.
  intros Hi Hn. unfold cells.
  destruct (list_to_map (M := HEAP) ((fun i => (p + i * 16, MkLink 0 0)) <$> seqZ 0 (n / 16))
    !! (p + i * 16)) eqn:E; [done|]. apply not_elem_of_list_to_map in E. destruct E.
  rewrite <-list_fmap_compose. apply list_elem_of_fmap. exists i. split; [done|].
  apply elem_of_seqZ. assert (i + 1 <= n / 16) by (apply Z.div_le_lower_bound; lia). lia.
Qed.

Lemma allocates_bump : allocates 8 Allocate size_of.
Proof.
  intros n h [p blks]. unfold Allocate.
  destruct (decide (free_above p h blks)) as [(Hp & Hnone & Hh & Hb)|_]; [right|by left].
  eexists p, _, _. split; [done|]. split_and!.
  - lia.
  - unfold size_of. simpl. by rewrite lookup_insert_eq.
  - intros q m Hq. unfold size_of in *. simpl in *. pose proof (Hb _ _ Hq) as Hle. simpl in Hle.
    rewrite lookup_insert_ne by (intros ->; congruence). auto.
  - intros q [e He]. split; [rewrite He; by apply lookup_union_Some_l|].
    unfold in_blk. pose proof (Hh _ _ He) as Hlt. simpl in Hlt. lia.
  - intros i Hi Hle. unfold bucket_addr, sizeof_bucket in *.
    destruct (cells_mapped p n i Hi) as [e He]; [lia|].
    destruct (h !! (p + i * (2 * 8))) as [e'|] eqn:Eh.
    + exists e'. by apply lookup_union_Some_l.
    + exists e. rewrite lookup_union_r by done. by replace (2 * 8) with 16 by lia.
Qed.

Lemma frees_bump : frees Free size_of.
Proof.
  intros p n h [next blks] _. eexists h, (next, delete p blks). split_and!; [done|done|].
  intros q m Hne Hq. unfold size_of in *. simpl in *. by rewrite lookup_delete_ne.
Qed.

Lemma Equals_ok a b : Equals a b = (Hash a =? Hash b).
Proof. done. Qed.

Lemma Hash_ok a b : Hash a = Hash b -> Hash a = Hash b.
Proof. done. Qed.

(** Two empty buckets at 1000, and three entries at 100, 200 and 300 with the
    keys 5, 7 and 5 + 2^32. *)
Definition table : HT BUMP (list Z) := {|
  EntryCount := 0; BucketCount := 2; Buckets := 1000;
  Links := list_to_map [(1000, MkLink 1000 1000); (1016, MkLink 1016 1016);
                        (108, MkLink 0 0); (208, MkLink 0 0); (308, MkLink 0 0)];
  Keys := list_to_map [(100, 5); (200, 7); (300, 5 + 2 ^ 32)];
  Heap := (2000, {[ 1000 := 32 ]}); Ctx := [] |}.

Lemma table_empty : ht_ok 8 Hash Hash table [[]; []].
Proof.
  apply (ht_ok_empty 8 Hash Hash table 2); try done; [lia|].
  intros i Hi. assert (i = 0 \/ i = 1) as [-> | ->] by lia; (split; [apply NoDup_singleton|done]).
Qed.

Lemma table_is_ok : table_ok 8 Hash Hash size_of table [[]; []].
Proof. split; [apply table_empty|]. by vm_compute. Qed.

Lemma ht_ops_refine_witness :
  exists s' bs',
    exec_ht_ops 8 Hash Equals Allocate Free
      [OpPut 100; OpPut 200; OpResize 3; OpPut 300; OpGet (7 + 2 ^ 32); OpRemoveKey 5; OpGet 5] table
    = Some ([0; 0; 1; 100; 200; 300; 0], s') /\
    table_ok 8 Hash Hash size_of s' bs' /\ EntryCount s' = 1.
Proof.
  destruct (ht_ops_refine 8 Hash Equals Hash ltac:(lia) Equals_ok Hash_ok Allocate Free size_of
    [OpPut 100; OpPut 200; OpResize 3; OpPut 300; OpGet (7 + 2 ^ 32); OpRemoveKey 5; OpGet 5]
    table [[]; []] allocates_bump frees_bump table_is_ok) as (rs & s' & bs' & E & H1 & _ & _).
  - assert (forall E, E ∈ [100; 200; 300] -> op_ok 8 table (OpPut E)) as HE.
    { intros E HE. repeat (apply elem_of_cons in HE as [->|HE];
        [split; [by eexists|split; [by eexists|left; done]]|]). by apply not_elem_of_nil in HE. }
    repeat (apply Forall_cons; split); try done; try (apply HE; set_solver); apply Forall_nil.
  - assert ((fun p => (fst p, EntryCount (snd p))) <$>
      exec_ht_ops 8 Hash Equals Allocate Free
        [OpPut 100; OpPut 200; OpResize 3; OpPut 300; OpGet (7 + 2 ^ 32); OpRemoveKey 5; OpGet 5]
        table = Some ([0; 0; 1; 100; 200; 300; 0], 1)) as Hrun by (vm_compute; reflexivity).
    rewrite E in Hrun. simpl in Hrun. injection Hrun as -> Hc.
    exists s', bs'. split; [exact E|]. split; [exact H1|exact Hc].
Defined.

Lemma JphtEnumerate_removing_witness :
  exists s1 s2, JphtPutEntryHashtable 8 Hash Equals 100 table = Some (0, s1) /\
    JphtEnumerateEntries 8 (removing_callback 8 Hash Equals (fun E l => Some (l ++ [E]))) s1 = Some (tt, s2) /\
    EntryCount s2 = 0.
Proof.
  destruct (JphtPut_spec 8 Hash Equals Hash ltac:(lia) Equals_ok Hash_ok table [[]; []] 100 5 table_empty)
    as (s1 & bs1 & E1 & Hok1 & _); [done|split; [by eexists|by left]|].
  destruct (visit_total (fun E l => Some (l ++ [E])) (entry_of 8 <$> mjoin bs1) (Ctx s1)) as [x Hx];
    [intros; by eexists|].
  destruct (JphtEnumerate_removing 8 Hash Equals Hash ltac:(lia) Equals_ok Hash_ok
    (fun E l => Some (l ++ [E])) s1 bs1 x Hok1 Hx) as (s2 & bs2 & E2 & _ & _ & Hc & _).
  exists s1, s2. split; [exact E1|]. split; [exact E2|exact Hc].
Defined.
End Concrete.
