(* ===== verification/CfixApi.v ===== *)
(** * The data model of cfix (include/cfixapi.h, include/cfixaux.h, include/cfixmsg.h)

    Events, dispositions, thread identities, test cases and fixtures, and the
    two interfaces the framework is built around: the execution context and the
    test module's routines.  Both are records of operations on a world [W]: an
    implementation chooses [W], a client is generic in it. *)
From stdpp Require Import base gmap list strings.
From Stdlib Require Import ZArith Lia.
From S2P Require Import Prelude.

(** ** Result codes (include/cfixmsg.h) *)
Definition CFIX_E_MISBEHAVIOUD_GETTC_ROUTINE : Z := 0x80048000.
Definition CFIX_E_UNSUPPORTED_VERSION : Z := 0x80048001.
Definition CFIX_E_DUP_SETUP_ROUTINE : Z := 0x80048002.
Definition CFIX_E_DUP_TEARDOWN_ROUTINE : Z := 0x80048003.
Definition CFIX_E_UNKNOWN_ENTRY_TYPE : Z := 0x80048004.
Definition CFIX_E_FIXTURE_NAME_TOO_LONG : Z := 0x80048005.
Definition CFIX_E_TESTRUN_ABORTED : Z := 0x80048008.
Definition CFIX_E_UNKNOWN_THREAD : Z := 0x80048009.
Definition CFIX_E_SETUP_ROUTINE_FAILED : Z := 0x8004800B.
Definition CFIX_E_TEARDOWN_ROUTINE_FAILED : Z := 0x8004800C.
Definition CFIX_E_TEST_ROUTINE_FAILED : Z := 0x8004800E.
Definition CFIX_E_DUP_BEFORE_ROUTINE : Z := 0x8004800F.
Definition CFIX_E_DUP_AFTER_ROUTINE : Z := 0x80048010.
Definition CFIX_E_BEFORE_ROUTINE_FAILED : Z := 0x80048011.
Definition CFIX_E_AFTER_ROUTINE_FAILED : Z := 0x80048012.
Definition CFIX_E_TOO_MANY_CHILD_THREADS : Z := 0x80048015.
Definition CFIX_E_FILAMENT_JOIN_TIMEOUT : Z := 0x80048016.
Definition CFIX_E_DEFAULT_FILAMENT_CONFLICT : Z := 0x80048017.
Definition CFIX_E_INVALID_FIXTURE_FLAG : Z := 0x80048018.
Definition CFIX_E_UNSUPPORTED_FIXTURE_REVISION : Z := 0x80048019.

(** ** Events and dispositions *)
(* src/include/cfixaux.h:66-87 (CFIX_REPORT_DISPOSITION) *)
Inductive CFIX_REPORT_DISPOSITION := CfixContinue | CfixBreak | CfixBreakAlways | CfixAbort.

(* src/include/cfixaux.h:89-95 (CFIX_EVENT_TYPE) *)
Inductive CFIX_EVENT_TYPE :=
  | CfixEventFailedAssertion | CfixEventUncaughtException
  | CfixEventInconclusiveness | CfixEventLog.

(* src/include/cfixaux.h:144-156 (CFIX_THREAD_ID) *)
Record CFIX_THREAD_ID := MkThreadId { ThreadId : Z; MainThreadId : Z }.

(* src/cfix/cfix/cfixp.h:74-82 (CfixpInitializeThreadId) *)
Definition CfixpInitializeThreadId (MainOsThreadId OsThreadId : Z) : CFIX_THREAD_ID :=
  {| ThreadId := OsThreadId; MainThreadId := MainOsThreadId |}.

(** The tagged union of the event's details, and the stack trace's frames. *)
(* src/include/cfixapi.h:62-96 (CFIX_TESTCASE_EXECUTION_EVENT) *)
Inductive EVENT_INFO :=
  | FailedAssertion (File Routine : string) (Line : Z) (Expression : string) (LastError : Z)
  | UncaughtException (ExceptionCode : Z)
  | Inconclusiveness (Message : string)
  | Log (Message : string).

Record CFIX_TESTCASE_EXECUTION_EVENT := MkEvent { Info : EVENT_INFO; Frames : list Z }.

Definition EventType (e : CFIX_TESTCASE_EXECUTION_EVENT) : CFIX_EVENT_TYPE :=
  match Info e with
  | FailedAssertion _ _ _ _ _ => CfixEventFailedAssertion
  | UncaughtException _ => CfixEventUncaughtException
  | Inconclusiveness _ => CfixEventInconclusiveness
  | Log _ => CfixEventLog
  end.

#[export] Instance CFIX_REPORT_DISPOSITION_eq_dec : EqDecision CFIX_REPORT_DISPOSITION.
Proof. solve_decision. Defined.
#[export] Instance CFIX_EVENT_TYPE_eq_dec : EqDecision CFIX_EVENT_TYPE.
Proof. solve_decision. Defined.

(** ** Test cases, fixtures, modules

    A routine is an address; 0 is NULL.  Fixtures name their module; a test case
    is passed together with its fixture where the code follows the back pointer. *)
Definition CFIX_MAX_FIXTURE_NAME_CCH : Z := 128.

(* src/include/cfixapi.h:349-354 (CFIX_TEST_CASE) *)
Record CFIX_TEST_CASE := MkTestCase { TcName : string; TcRoutine : Z }.

(* src/include/cfixapi.h:356-389 (CFIX_FIXTURE) *)
Record CFIX_FIXTURE := MkFixture {
  FxName : string;
  SetupRoutine : Z;
  TeardownRoutine : Z;
  BeforeRoutine : Z;
  AfterRoutine : Z;
  ApiType : Z;
  FxFlags : Z;
  FxModuleName : string;
  TestCases : list CFIX_TEST_CASE }.

Definition TestCaseCount (f : CFIX_FIXTURE) : Z := Z.of_nat (length (TestCases f)).

Definition CFIX_TEST_FLAG_CAPTURE_STACK_TRACES : Z := 1.
Definition CFIX_TEST_FLAG_PROVIDE_DEFAULT_FILAMENT : Z := 2.
Definition CFIX_FIXTURE_USES_ANONYMOUS_THREADS : Z := 1.

(** ** The execution context

    The context object as an interface: the version and one operation per slot of
    the structure.  A context with a NULL slot is not represented. *)
Definition MAKELONG (lo hi : Z) : Z := lo + hi * 2 ^ 16.
Definition CFIX_TEST_CONTEXT_VERSION : Z := MAKELONG 1 1.

(* src/include/cfixapi.h:112-266 (CFIX_EXECUTION_CONTEXT) *)
Record CFIX_EXECUTION_CONTEXT (W : Type) := MkContext {
  CtxVersion : Z;
  ReportEvent : CFIX_THREAD_ID -> CFIX_TESTCASE_EXECUTION_EVENT -> ST W CFIX_REPORT_DISPOSITION;
  QueryDefaultDisposition : CFIX_EVENT_TYPE -> ST W CFIX_REPORT_DISPOSITION;
  BeforeFixtureStart : CFIX_THREAD_ID -> CFIX_FIXTURE -> ST W Z;
  AfterFixtureFinish : CFIX_THREAD_ID -> CFIX_FIXTURE -> bool -> ST W unit;
  BeforeTestCaseStart : CFIX_THREAD_ID -> CFIX_FIXTURE -> CFIX_TEST_CASE -> ST W Z;
  AfterTestCaseFinish : CFIX_THREAD_ID -> CFIX_FIXTURE -> CFIX_TEST_CASE -> bool -> ST W unit;
  CreateChildThread : CFIX_THREAD_ID -> ST W (Z * Z);
  BeforeChildThreadStart : CFIX_THREAD_ID -> Z -> ST W unit;
  AfterChildThreadFinish : CFIX_THREAD_ID -> Z -> ST W unit;
  OnUnhandledException : CFIX_THREAD_ID -> Z -> ST W unit;
  CtxReference : ST W unit;
  CtxDereference : ST W unit }.
Arguments MkContext {W}. Arguments CtxVersion {W}. Arguments ReportEvent {W}.
Arguments QueryDefaultDisposition {W}. Arguments BeforeFixtureStart {W}.
Arguments AfterFixtureFinish {W}. Arguments BeforeTestCaseStart {W}.
Arguments AfterTestCaseFinish {W}. Arguments CreateChildThread {W}.
Arguments BeforeChildThreadStart {W}. Arguments AfterChildThreadFinish {W}.
Arguments OnUnhandledException {W}. Arguments CtxReference {W}. Arguments CtxDereference {W}.

(* src/include/cfixapi.h:268-281 (CfixIsValidContext) *)
Definition CfixIsValidContext {W} (c : CFIX_EXECUTION_CONTEXT W) : bool :=
  CtxVersion c =? CFIX_TEST_CONTEXT_VERSION.

(** ** The routines of a test module; the last argument is a set of CFIX_TEST_FLAGs *)
(* src/include/cfixapi.h:393-414 (CFIX_TEST_MODULE) *)
Record CFIX_MODULE_ROUTINES (W : Type) := MkRoutines {
  RunTestCase : CFIX_FIXTURE -> CFIX_TEST_CASE -> CFIX_EXECUTION_CONTEXT W -> Z -> ST W Z;
  Setup : CFIX_FIXTURE -> CFIX_EXECUTION_CONTEXT W -> Z -> ST W Z;
  Teardown : CFIX_FIXTURE -> CFIX_EXECUTION_CONTEXT W -> Z -> ST W Z;
  Before : CFIX_FIXTURE -> CFIX_EXECUTION_CONTEXT W -> Z -> ST W Z;
  After : CFIX_FIXTURE -> CFIX_EXECUTION_CONTEXT W -> Z -> ST W Z;
  ModReference : ST W unit;
  ModDereference : ST W unit }.
Arguments MkRoutines {W}. Arguments RunTestCase {W}. Arguments Setup {W}.
Arguments Teardown {W}. Arguments Before {W}. Arguments After {W}.
Arguments ModReference {W}. Arguments ModDereference {W}.

#[export] Instance CFIX_TEST_CASE_eq_dec : EqDecision CFIX_TEST_CASE.
Proof. solve_decision. Defined.
