(* ===== verification/TsExec.v ===== *)
(** * Fixture execution (cfix/cfix/tsexecaction.c)

    The action that runs a fixture: setup, the selected test cases each with its
    before and after routine, teardown, and the notifications of the execution
    context in between.  The module's routines and the context are arbitrary
    operations on a world.  The ASSERTs on the routines' results, which the
    release build does not contain, are left out: the code after them handles
    other results, and so does the model. *)
From stdpp Require Import base gmap list strings.
From Stdlib Require Import ZArith Lia.
From S2P Require Import Prelude CfixApi.

Definition CFIX_FIXTURE_EXECUTION_SHORTCIRCUIT_FIXTURE_ON_FAILURE : Z := 1.
Definition CFIX_FIXTURE_EXECUTION_SHORTCIRCUIT_RUN_ON_SETUP_FAILURE : Z := 2.
Definition CFIX_FIXTURE_EXECUTION_ESCALATE_FIXTURE_FAILUES : Z := 4.
Definition CFIX_FIXTURE_EXECUTION_CAPTURE_STACK_TRACES : Z := 256.

(** [( ULONG ) -1], the index that selects all test cases. *)
Definition ALL_TESTCASES : Z := 0xFFFFFFFF.

(** The action; its module is the record of routines the operations are given. *)
(* src/cfix/cfix/tsexecaction.c:31-61 (TSEXEC_ACTION) *)
Record TSEXEC_ACTION := MkTsExec { Fixture : CFIX_FIXTURE; Flags : Z; TestCaseIndex : Z }.

Section tsexec.
Context {W : Type}.
Variables (IsDebuggerPresent : ST W bool) (GetCurrentThreadId : ST W Z).
Variables (Module : CFIX_MODULE_ROUTINES W) (Context_ : CFIX_EXECUTION_CONTEXT W).

(* src/cfix/cfix/tsexecaction.c:63-95 (CfixsGetTestFlagsFixtureExecutionAction) *)
Definition CfixsGetTestFlagsFixtureExecutionAction (Action : TSEXEC_ACTION) : ST W Z :=
  Debugged <- IsDebuggerPresent ;;
  let f1 := if Debugged : bool then 0
            else if FlagOn (Flags Action) CFIX_FIXTURE_EXECUTION_CAPTURE_STACK_TRACES
                 then CFIX_TEST_FLAG_CAPTURE_STACK_TRACES else 0 in
  let f2 := if FlagOn (FxFlags (Fixture Action)) CFIX_FIXTURE_USES_ANONYMOUS_THREADS
            then CFIX_TEST_FLAG_PROVIDE_DEFAULT_FILAMENT else 0 in
  ret (Z.lor f1 f2).

(** [Routine( ..., Context, CfixsGetTestFlagsFixtureExecutionAction( Action ) )] *)
Definition call (Action : TSEXEC_ACTION)
    (Routine : CFIX_EXECUTION_CONTEXT W -> Z -> ST W Z) : ST W Z :=
  Flags <- CfixsGetTestFlagsFixtureExecutionAction Action ;;
  Routine Context_ Flags.

(* src/cfix/cfix/tsexecaction.c:141-209 (CfixsRunTestCaseFixtureExecutionAction) *)
Definition CfixsRunTestCaseFixtureExecutionAction (Action : TSEXEC_ACTION)
    (TestCase : CFIX_TEST_CASE) : ST W Z :=
  Hr <- call Action (Before Module (Fixture Action)) ;;
  if FAILED Hr then ret Hr else
  HrTestCase <- call Action (RunTestCase Module (Fixture Action) TestCase) ;;
  Hr <- call Action (After Module (Fixture Action)) ;;
  if FAILED Hr then
    if FAILED HrTestCase then ret HrTestCase else ret Hr
  else ret HrTestCase.

(** How the loop over the test cases ends: with a result and whether the fixture
    was cut short, or with a fatal error that leaves the function at once. *)
Inductive LOOP_EXIT := LoopDone (Hr : Z) (FixtureShortCircuit : bool) | LoopFatal (Hr : Z).

(** The reaction to the result of a test case: the new [Hr] and whether to stop,
    or a fatal error. *)
(* src/cfix/cfix/tsexecaction.c:344-390 (CfixsRunFixtureExecutionAction) *)
Definition HandleTestCaseResult (Action : TSEXEC_ACTION) (Hr : Z) : LOOP_EXIT :=
  if (Hr =? CFIX_E_BEFORE_ROUTINE_FAILED) || (Hr =? CFIX_E_AFTER_ROUTINE_FAILED)
     || (Hr =? CFIX_E_TEST_ROUTINE_FAILED) then
    if FlagOn (Flags Action) CFIX_FIXTURE_EXECUTION_SHORTCIRCUIT_FIXTURE_ON_FAILURE then
      if FlagOn (Flags Action) CFIX_FIXTURE_EXECUTION_ESCALATE_FIXTURE_FAILUES
      then LoopDone Hr true
      else LoopDone S_OK true
    else LoopDone S_OK false
  else if Hr =? CFIX_E_TESTRUN_ABORTED then LoopDone Hr true
  else if FAILED Hr then LoopFatal Hr
  else LoopDone Hr false.

(* src/cfix/cfix/tsexecaction.c:303-397 (CfixsRunFixtureExecutionAction) *)
Fixpoint RunTestCases (ThreadId : CFIX_THREAD_ID) (Action : TSEXEC_ACTION)
    (Index : Z) (Cases : list CFIX_TEST_CASE) (Hr : Z) : ST W LOOP_EXIT :=
  match Cases with
  | [] => ret (LoopDone Hr false)
  | TestCase :: Cases =>
      if negb (TestCaseIndex Action =? ALL_TESTCASES) && negb (TestCaseIndex Action =? Index)
      then RunTestCases ThreadId Action (Index + 1) Cases Hr
      else
        Hr <- BeforeTestCaseStart Context_ ThreadId (Fixture Action) TestCase ;;
        if FAILED Hr then ret (LoopDone Hr true) else
        Hr <- CfixsRunTestCaseFixtureExecutionAction Action TestCase ;;
        let TestCaseRanToCompletion := SUCCEEDED Hr in
        match HandleTestCaseResult Action Hr with
        | LoopFatal Hr => ret (LoopFatal Hr)
        | LoopDone Hr FixtureShortCircuit =>
            AfterTestCaseFinish Context_ ThreadId (Fixture Action) TestCase
              TestCaseRanToCompletion ;;;
            if FixtureShortCircuit then ret (LoopDone Hr true)
            else RunTestCases ThreadId Action (Index + 1) Cases Hr
        end
  end.

(** The teardown part: the new [Hr] and whether the fixture still counts as run
    to completion. *)
(* src/cfix/cfix/tsexecaction.c:399-427 (CfixsRunFixtureExecutionAction) *)
Definition RunTeardown (Action : TSEXEC_ACTION) (Hr : Z) (FixtureShortCircuit : bool)
    : ST W (Z * bool) :=
  TeardownHr <- call Action (Teardown Module (Fixture Action)) ;;
  if FAILED TeardownHr then
    if FlagOn (Flags Action) CFIX_FIXTURE_EXECUTION_ESCALATE_FIXTURE_FAILUES
    then ret (TeardownHr, false) else ret (Hr, false)
  else ret (Hr, negb FixtureShortCircuit).

(* src/cfix/cfix/tsexecaction.c:211-437 (CfixsRunFixtureExecutionAction) *)
Definition CfixsRunFixtureExecutionAction (Action : TSEXEC_ACTION) : ST W Z :=
  Tid <- GetCurrentThreadId ;;
  Tid' <- GetCurrentThreadId ;;
  let ThreadId := CfixpInitializeThreadId Tid Tid' in
  if negb (CfixIsValidContext Context_) then ret E_INVALIDARG else
  Hr <- BeforeFixtureStart Context_ ThreadId (Fixture Action) ;;
  if FAILED Hr then ret Hr else
  Hr <- call Action (Setup Module (Fixture Action)) ;;
  if (Hr =? CFIX_E_SETUP_ROUTINE_FAILED) || (Hr =? CFIX_E_TESTRUN_ABORTED) then
    let Hr := if FlagOn (Flags Action) CFIX_FIXTURE_EXECUTION_SHORTCIRCUIT_RUN_ON_SETUP_FAILURE
              then Hr else S_OK in
    AfterFixtureFinish Context_ ThreadId (Fixture Action) false ;;;
    ret Hr
  else if FAILED Hr then ret Hr
  else
    Exit <- RunTestCases ThreadId Action 0 (TestCases (Fixture Action)) Hr ;;
    match Exit with
    | LoopFatal Hr => ret Hr
    | LoopDone Hr FixtureShortCircuit =>
        r <- RunTeardown Action Hr FixtureShortCircuit ;;
        AfterFixtureFinish Context_ ThreadId (Fixture Action) (snd r) ;;;
        ret (fst r)
    end.

(** Creation: the checks of the arguments; [Some] is the new action.  The memory
    is the caller's business (see [Sequence]). *)
(* src/cfix/cfix/tsexecaction.c:444-500 (CfixCreateFixtureExecutionAction) *)
Definition CfixCreateFixtureExecutionAction (malloc : ST W bool)
    (Fixture : CFIX_FIXTURE) (Flags TestCase : Z) : ST W (Z * option TSEXEC_ACTION) :=
  if negb (TestCase =? ALL_TESTCASES) && (TestCaseCount Fixture <=? TestCase)
  then ret (E_INVALIDARG, None) else
  ok <- malloc ;;
  if negb ok then ret (E_OUTOFMEMORY, None) else
  ModReference Module ;;;
  ret (S_OK, Some {| Fixture := Fixture; Flags := Flags; TestCaseIndex := TestCase |}).
End tsexec.

(** ** Observing a run

    The calls a run makes, each with its outcome.  A spied module and context
    behave as the original ones and record their calls. *)
Inductive CALL :=
  | CBeforeFixture (Hr : Z)
  | CAfterFixture (RanToCompletion : bool)
  | CBeforeTestCase (TestCase : CFIX_TEST_CASE) (Hr : Z)
  | CAfterTestCase (TestCase : CFIX_TEST_CASE) (RanToCompletion : bool)
  | CSetup (Hr : Z)
  | CTeardown (Hr : Z)
  | CBefore (Hr : Z)
  | CRun (TestCase : CFIX_TEST_CASE) (Hr : Z)
  | CAfter (Hr : Z).

Definition SPIED (W : Type) : Type := W * list CALL.

Definition unseen {W A} (m : ST W A) : ST (SPIED W) A := fun '(w, l) =>
  match m w with Some (a, w') => Some (a, (w', l)) | None => None end.

Definition spy {W A} (c : A -> CALL) (m : ST W A) : ST (SPIED W) A := fun '(w, l) =>
  match m w with Some (a, w') => Some (a, (w', l ++ [c a])) | None => None end.

Definition spied_context {W} (c : CFIX_EXECUTION_CONTEXT W) : CFIX_EXECUTION_CONTEXT (SPIED W) := {|
  CtxVersion := CtxVersion c;
  ReportEvent := fun t e => unseen (ReportEvent c t e);
  QueryDefaultDisposition := fun t => unseen (QueryDefaultDisposition c t);
  BeforeFixtureStart := fun t f => spy CBeforeFixture (BeforeFixtureStart c t f);
  AfterFixtureFinish := fun t f b => spy (fun _ => CAfterFixture b) (AfterFixtureFinish c t f b);
  BeforeTestCaseStart := fun t f tc => spy (CBeforeTestCase tc) (BeforeTestCaseStart c t f tc);
  AfterTestCaseFinish := fun t f tc b =>
    spy (fun _ => CAfterTestCase tc b) (AfterTestCaseFinish c t f tc b);
  CreateChildThread := fun t => unseen (CreateChildThread c t);
  BeforeChildThreadStart := fun t x => unseen (BeforeChildThreadStart c t x);
  AfterChildThreadFinish := fun t x => unseen (AfterChildThreadFinish c t x);
  OnUnhandledException := fun t x => unseen (OnUnhandledException c t x);
  CtxReference := unseen (CtxReference c);
  CtxDereference := unseen (CtxDereference c) |}.

Definition spied_routines {W} (c : CFIX_EXECUTION_CONTEXT W) (m : CFIX_MODULE_ROUTINES W)
    : CFIX_MODULE_ROUTINES (SPIED W) := {|
  RunTestCase := fun f tc _ fl => spy (CRun tc) (RunTestCase m f tc c fl);
  Setup := fun f _ fl => spy CSetup (Setup m f c fl);
  Teardown := fun f _ fl => spy CTeardown (Teardown m f c fl);
  Before := fun f _ fl => spy CBefore (Before m f c fl);
  After := fun f _ fl => spy CAfter (After m f c fl);
  ModReference := unseen (ModReference m);
  ModDereference := unseen (ModDereference m) |}.

(** [m'] does what [m] does, and records a list of calls that satisfies [P]. *)
Definition traces {W A} (m : ST W A) (m' : ST (SPIED W) A) (P : list CALL -> A -> Prop) : Prop :=
  forall w l, match m w with
              | Some (a, w') => exists l', m' (w, l) = Some (a, (w', l ++ l')) /\ P l' a
              | None => m' (w, l) = None
              end.

Section traces.
Context {W : Type}.

Lemma traces_ret {A} (a : A) (P : list CALL -> A -> Prop) : P [] a -> traces (W := W) (ret a) (ret a) P.
Proof. intros HP w l. exists []. by rewrite app_nil_r. Qed.

Lemma traces_unseen {A} (m : ST W A) (P : list CALL -> A -> Prop) :
  (forall a, P [] a) -> traces m (unseen m) P.
Proof.
  intros HP w l. unfold unseen. destruct (m w) as [[a w']|]; [|done].
  exists []. by rewrite app_nil_r.
Qed.

Lemma traces_spy {A} (c : A -> CALL) (m : ST W A) (P : list CALL -> A -> Prop) :
  (forall a, P [c a] a) -> traces m (spy c m) P.
Proof. intros HP w l. unfold spy. destruct (m w) as [[a w']|]; [|done]. by exists [c a]. Qed.

Lemma traces_bind {A B} (m : ST W A) m' P (k : A -> ST W B) k' (Q : list CALL -> B -> Prop) :
  traces m m' P -> (forall a l1, P l1 a -> traces (k a) (k' a) (fun l2 b => Q (l1 ++ l2) b)) ->
  traces (bind m k) (bind m' k') Q.
Proof.
  intros Hm Hk w l. specialize (Hm w l). unfold bind. destruct (m w) as [[a w']|].
  - destruct Hm as (l1 & -> & HP). specialize (Hk a l1 HP w' (l ++ l1)).
    destruct (k a w') as [[b w'']|]; [|done]. destruct Hk as (l2 & -> & HQ).
    exists (l1 ++ l2). by rewrite <-app_assoc.
  - by rewrite Hm.
Qed.

Lemma traces_mono {A} (m : ST W A) m' (P Q : list CALL -> A -> Prop) :
  traces m m' P -> (forall l a, P l a -> Q l a) -> traces m m' Q.
Proof.
  intros Hm HPQ w l. specialize (Hm w l). destruct (m w) as [[a w']|]; [|done].
  destruct Hm as (l' & E & HP). exists l'. auto.
Qed.
End traces.

(** ** The protocol of a fixture run *)
Inductive testcase_trace (tc : CFIX_TEST_CASE) : list CALL -> Z -> Prop :=
  | tt_before_failed rb :
      FAILED rb = true -> testcase_trace tc [CBefore rb] rb
  | tt_ran rb rt ra :
      FAILED rb = false ->
      testcase_trace tc [CBefore rb; CRun tc rt; CAfter ra]
        (if FAILED ra then if FAILED rt then rt else ra else rt).

Inductive cases_trace (a : TSEXEC_ACTION)
    : list CFIX_TEST_CASE -> Z -> list CALL -> LOOP_EXIT -> Prop :=
  | ct_done Hr : cases_trace a [] Hr [] (LoopDone Hr false)
  | ct_refused tc tcs Hr r :
      FAILED r = true ->
      cases_trace a (tc :: tcs) Hr [CBeforeTestCase tc r] (LoopDone r true)
  | ct_fatal tc tcs Hr rb l r r' :
      FAILED rb = false -> testcase_trace tc l r -> HandleTestCaseResult a r = LoopFatal r' ->
      cases_trace a (tc :: tcs) Hr (CBeforeTestCase tc rb :: l) (LoopFatal r')
  | ct_stop tc tcs Hr rb l r r' :
      FAILED rb = false -> testcase_trace tc l r -> HandleTestCaseResult a r = LoopDone r' true ->
      cases_trace a (tc :: tcs) Hr
        (CBeforeTestCase tc rb :: l ++ [CAfterTestCase tc (SUCCEEDED r)]) (LoopDone r' true)
  | ct_next tc tcs Hr rb l r r' l' e :
      FAILED rb = false -> testcase_trace tc l r -> HandleTestCaseResult a r = LoopDone r' false ->
      cases_trace a tcs r' l' e ->
      cases_trace a (tc :: tcs) Hr
        (CBeforeTestCase tc rb :: l ++ CAfterTestCase tc (SUCCEEDED r) :: l') e.

(** The test cases an action selects. *)
Fixpoint selected_from (a : TSEXEC_ACTION) (Index : Z) (tcs : list CFIX_TEST_CASE)
    : list CFIX_TEST_CASE :=
  match tcs with
  | [] => []
  | tc :: tcs =>
      if (TestCaseIndex a =? ALL_TESTCASES) || (TestCaseIndex a =? Index)
      then tc :: selected_from a (Index + 1) tcs else selected_from a (Index + 1) tcs
  end.
Definition selected (a : TSEXEC_ACTION) : list CFIX_TEST_CASE :=
  selected_from a 0 (TestCases (Fixture a)).

Definition setup_failure (r : Z) : bool :=
  (r =? CFIX_E_SETUP_ROUTINE_FAILED) || (r =? CFIX_E_TESTRUN_ABORTED).

Inductive fixture_trace (a : TSEXEC_ACTION) : list CALL -> Z -> Prop :=
  | ft_refused r : FAILED r = true -> fixture_trace a [CBeforeFixture r] r
  | ft_setup_failed rb r :
      FAILED rb = false -> setup_failure r = true ->
      fixture_trace a [CBeforeFixture rb; CSetup r; CAfterFixture false]
        (if FlagOn (Flags a) CFIX_FIXTURE_EXECUTION_SHORTCIRCUIT_RUN_ON_SETUP_FAILURE
         then r else S_OK)
  | ft_setup_fatal rb r :
      FAILED rb = false -> setup_failure r = false -> FAILED r = true ->
      fixture_trace a [CBeforeFixture rb; CSetup r] r
  | ft_fatal rb rs l r :
      FAILED rb = false -> setup_failure rs = false -> FAILED rs = false ->
      cases_trace a (selected a) rs l (LoopFatal r) ->
      fixture_trace a (CBeforeFixture rb :: CSetup rs :: l) r
  | ft_ran rb rs l r short rt :
      FAILED rb = false -> setup_failure rs = false -> FAILED rs = false ->
      cases_trace a (selected a) rs l (LoopDone r short) ->
      fixture_trace a
        (CBeforeFixture rb :: CSetup rs :: l ++
         [CTeardown rt; CAfterFixture (negb (FAILED rt) && negb short)])
        (if FAILED rt
         then if FlagOn (Flags a) CFIX_FIXTURE_EXECUTION_ESCALATE_FIXTURE_FAILUES then rt else r
         else r).

Section protocol.
Context {W : Type}.
Variables (IsDebuggerPresent : ST W bool) (GetCurrentThreadId : ST W Z).
Variables (M : CFIX_MODULE_ROUTINES W) (C : CFIX_EXECUTION_CONTEXT W).

Definition spied_run (a : TSEXEC_ACTION) : ST (SPIED W) Z :=
  CfixsRunFixtureExecutionAction (unseen IsDebuggerPresent) (unseen GetCurrentThreadId)
    (spied_routines C M) (spied_context C) a.

Lemma call_traces a (c : Z -> CALL) (R : CFIX_EXECUTION_CONTEXT W -> Z -> ST W Z) :
  traces (call IsDebuggerPresent C a R)
         (call (unseen IsDebuggerPresent) (spied_context C) a (fun _ fl => spy c (R C fl)))
         (fun l r => l = [c r]).
Proof.
  unfold call, CfixsGetTestFlagsFixtureExecutionAction.
  eapply traces_bind with (P := fun l _ => l = []).
  - eapply traces_bind; [by apply traces_unseen with (P := fun l _ => l = [])|].
    intros b l ->. by apply traces_ret.
  - intros fl l ->. by apply traces_spy.
Qed.

Lemma testcase_traces a tc :
  traces (CfixsRunTestCaseFixtureExecutionAction IsDebuggerPresent M C a tc)
         (CfixsRunTestCaseFixtureExecutionAction (unseen IsDebuggerPresent)
            (spied_routines C M) (spied_context C) a tc)
         (testcase_trace tc).
Proof.
  unfold CfixsRunTestCaseFixtureExecutionAction.
  eapply traces_bind; [apply (call_traces a CBefore (Before M (Fixture a)))|]. intros rb l ->.
  destruct (FAILED rb) eqn:Eb; [by apply traces_ret, tt_before_failed|].
  eapply traces_bind; [apply (call_traces a (CRun tc) (RunTestCase M (Fixture a) tc))|].
  intros rt l ->.
  eapply traces_bind; [apply (call_traces a CAfter (After M (Fixture a)))|]. intros ra l ->.
  pose proof (tt_ran tc rb rt ra Eb) as Ht.
  destruct (FAILED ra); [destruct (FAILED rt)|]; by apply traces_ret.
Qed.

Lemma cases_traces a t tcs : forall Index Hr,
  traces (RunTestCases IsDebuggerPresent M C t a Index tcs Hr)
         (RunTestCases (unseen IsDebuggerPresent) (spied_routines C M) (spied_context C)
            t a Index tcs Hr)
         (cases_trace a (selected_from a Index tcs) Hr).
Proof.
  induction tcs as [|tc tcs IH]; intros Index Hr; simpl; [apply traces_ret; constructor|].
  rewrite <-negb_orb. destruct (_ || _); simpl; [|apply IH].
  eapply traces_bind.
  { apply traces_spy with (P := fun l r => l = [CBeforeTestCase tc r]). done. }
  intros rb l ->. destruct (FAILED rb) eqn:Eb; [by apply traces_ret, ct_refused|].
  eapply traces_bind; [apply testcase_traces|]. intros r l Hl.
  destruct (HandleTestCaseResult a r) as [r' short|r'] eqn:Eh.
  2:{ apply traces_ret. rewrite app_nil_r. by eapply ct_fatal. }
  eapply traces_bind.
  { apply traces_spy with (P := fun l _ => l = [CAfterTestCase tc (SUCCEEDED r)]). done. }
  intros _ l' ->. destruct short.
  - apply traces_ret. by eapply (ct_stop a tc _ Hr rb l r r').
  - eapply traces_mono; [apply IH|]. intros l' e He. by eapply (ct_next a tc _ Hr rb l r r' l' e).
Qed.

Lemma teardown_traces a Hr short :
  traces (RunTeardown IsDebuggerPresent M C a Hr short)
         (RunTeardown (unseen IsDebuggerPresent) (spied_routines C M) (spied_context C) a Hr short)
         (fun l x => exists rt, l = [CTeardown rt] /\
            x = (if FAILED rt
                 then if FlagOn (Flags a) CFIX_FIXTURE_EXECUTION_ESCALATE_FIXTURE_FAILUES
                      then rt else Hr
                 else Hr, negb (FAILED rt) && negb short)).
Proof.
  unfold RunTeardown.
  eapply traces_bind; [apply (call_traces a CTeardown (Teardown M (Fixture a)))|]. intros rt l ->.
  destruct (FAILED rt) eqn:Er; [destruct (FlagOn _ _) eqn:Ef|]; apply traces_ret;
    exists rt; by rewrite Er, ?Ef.
Qed.

Lemma run_traces a :
  CfixIsValidContext C = true ->
  traces (CfixsRunFixtureExecutionAction IsDebuggerPresent GetCurrentThreadId M C a)
         (spied_run a) (fixture_trace a).
Proof.
  intros HC. unfold spied_run, CfixsRunFixtureExecutionAction.
  do 2 (eapply traces_bind; [by apply traces_unseen with (P := fun l _ => l = [])|];
        intros ? ? ->).
  unfold CfixIsValidContext in *. simpl. rewrite HC. simpl.
  eapply traces_bind.
  { apply traces_spy with (P := fun l r => l = [CBeforeFixture r]). done. }
  intros rb l ->. destruct (FAILED rb) eqn:Eb; [by apply traces_ret, ft_refused|].
  eapply traces_bind; [apply (call_traces a CSetup (Setup M (Fixture a)))|]. intros rs l ->.
  fold (setup_failure rs). destruct (setup_failure rs) eqn:Es.
  - eapply traces_bind.
    { apply traces_spy with (P := fun l _ => l = [CAfterFixture false]). done. }
    intros _ l ->. apply traces_ret. by apply ft_setup_failed.
  - destruct (FAILED rs) eqn:Ers; [by apply traces_ret, ft_setup_fatal|].
    eapply traces_bind; [apply cases_traces|]. intros [r short|r] l Hl.
    2:{ apply traces_ret. rewrite app_nil_r. by apply (ft_fatal a rb rs l r). }
    eapply traces_bind; [apply teardown_traces|]. intros x l' (rt & -> & ->).
    eapply traces_bind.
    { apply traces_spy with (P := fun l _ => l = [CAfterFixture (negb (FAILED rt) && negb short)]).
      done. }
    intros _ l' ->. apply traces_ret. simpl.
    by apply (ft_ran a rb rs l r short rt).
Qed.
End protocol.

(** ** A monitor for the life cycle of a fixture run

    Which calls may follow which, as an executable automaton over the calls. *)
Inductive PHASE :=
  | Idle | Started | SetupFailed | Ready
  | InCase (tc : CFIX_TEST_CASE) | Prepared (tc : CFIX_TEST_CASE) | Ran (tc : CFIX_TEST_CASE)
  | CaseOver (tc : CFIX_TEST_CASE) | Stopped | TornDown | Finished.

Definition monitor (p : PHASE) (c : CALL) : option PHASE :=
  match p, c with
  | Idle, CBeforeFixture r => Some (if FAILED r then Finished else Started)
  | Started, CSetup r => Some (if FAILED r then SetupFailed else Ready)
  | SetupFailed, CAfterFixture false => Some Finished
  | Ready, CBeforeTestCase tc r => Some (if FAILED r then Stopped else InCase tc)
  | InCase tc, CBefore r => Some (if FAILED r then CaseOver tc else Prepared tc)
  | Prepared tc, CRun tc' _ => if decide (tc' = tc) then Some (Ran tc) else None
  | Ran tc, CAfter _ => Some (CaseOver tc)
  | CaseOver tc, CAfterTestCase tc' _ => if decide (tc' = tc) then Some Ready else None
  | (Ready | Stopped), CTeardown _ => Some TornDown
  | TornDown, CAfterFixture _ => Some Finished
  | _, _ => None
  end.

Fixpoint monitors (p : PHASE) (l : list CALL) : option PHASE :=
  match l with
  | [] => Some p
  | c :: l => match monitor p c with Some p => monitors p l | None => None end
  end.

Lemma monitors_app p l1 l2 :
  monitors p (l1 ++ l2) =
  match monitors p l1 with Some p' => monitors p' l2 | None => None end.
Proof. revert p. induction l1 as [|c l1 IH]; intros p; simpl; [done|]. destruct (monitor p c); auto. Qed.

(** The results that cfixapi.h documents for the routines of a module. *)
Definition documented (c : CALL) : Prop :=
  match c with
  | CSetup r => r = S_OK \/ r = CFIX_E_SETUP_ROUTINE_FAILED \/ r = CFIX_E_TESTRUN_ABORTED
  | CBefore r => r = S_OK \/ r = CFIX_E_BEFORE_ROUTINE_FAILED \/ r = CFIX_E_TESTRUN_ABORTED
  | CRun _ r => r = S_OK \/ r = CFIX_E_TEST_ROUTINE_FAILED \/ r = CFIX_E_TESTRUN_ABORTED
  | CAfter r => r = S_OK \/ r = CFIX_E_AFTER_ROUTINE_FAILED \/ r = CFIX_E_TESTRUN_ABORTED
  | CTeardown r => r = S_OK \/ r = CFIX_E_TEARDOWN_ROUTINE_FAILED \/ r = CFIX_E_TESTRUN_ABORTED
  | _ => True
  end.

Section monitoring.
Implicit Types (a : TSEXEC_ACTION) (tc : CFIX_TEST_CASE).

Lemma testcase_monitored tc l r :
  testcase_trace tc l r -> monitors (InCase tc) l = Some (CaseOver tc).
Proof. intros [rb Hb|rb rt ra Hb]; simpl; rewrite Hb; [done|]. simpl. by rewrite decide_True. Qed.

Lemma testcase_documented a tc l r r' :
  testcase_trace tc l r -> Forall documented l -> HandleTestCaseResult a r <> LoopFatal r'.
Proof.
  intros Ht Hl. unfold HandleTestCaseResult.
  assert (r = S_OK \/ r = CFIX_E_BEFORE_ROUTINE_FAILED \/ r = CFIX_E_TEST_ROUTINE_FAILED \/
          r = CFIX_E_AFTER_ROUTINE_FAILED \/ r = CFIX_E_TESTRUN_ABORTED) as Hr.
  { destruct Ht as [rb Hb|rb rt ra Hb].
    - apply Forall_cons in Hl as [H1 _]. simpl in H1. naive_solver.
    - rewrite !Forall_cons in Hl. simpl in Hl. destruct Hl as (_ & H2 & H3 & _).
      destruct (FAILED ra); [destruct (FAILED rt)|]; naive_solver. }
  destruct Hr as [-> | [-> | [-> | [-> | ->]]]]; simpl; try done;
    destruct (FlagOn _ _); try done; destruct (FlagOn _ _); done.
Qed.

Lemma cases_monitored a tcs Hr l e :
  cases_trace a tcs Hr l e ->
  match e with
  | LoopFatal _ => ~ Forall documented l /\ exists p, monitors Ready l = Some p
  | LoopDone _ _ => monitors Ready l = Some Ready \/ monitors Ready l = Some Stopped
  end.
Proof.
  induction 1 as [Hr|tc tcs Hr r Hf|tc tcs Hr rb l r r' Hb Ht Hh
    |tc tcs Hr rb l r r' Hb Ht Hh|tc tcs Hr rb l r r' l' e Hb Ht Hh Hc IH]; simpl.
  - by left.
  - rewrite Hf. by right.
  - rewrite Hb, (testcase_monitored _ _ _ Ht). split; [|by eexists].
    intros [_ Hl]%Forall_cons. by eapply testcase_documented.
  - rewrite Hb, monitors_app, (testcase_monitored _ _ _ Ht). simpl.
    rewrite decide_True by done. by left.
  - rewrite Hb, monitors_app, (testcase_monitored _ _ _ Ht). simpl.
    rewrite decide_True by done. destruct e; [done|]. destruct IH as [Hn ?]. split; [|done].
    intros [_ Hl]%Forall_cons. apply Forall_app in Hl as [_ Hl].
    by apply Forall_cons in Hl as [_ Hl].
Qed.

Lemma setup_failure_FAILED r : setup_failure r = true -> FAILED r = true.
Proof. unfold setup_failure. rewrite orb_true_iff, !Z.eqb_eq. by intros [-> | ->]. Qed.

Lemma fixture_monitored a l r :
  fixture_trace a l r ->
  exists p, monitors Idle l = Some p /\ (Forall documented l -> p = Finished).
Proof.
  intros [r' Hf|rb r' Hb Hs|rb r' Hb Hs Hf|rb rs l' r' Hb Hs Hf Hc|rb rs l' r' short rt Hb Hs Hf Hc];
    simpl.
  - exists Finished. by rewrite Hf.
  - exists Finished. rewrite Hb. simpl. by rewrite (setup_failure_FAILED _ Hs).
  - exists SetupFailed. rewrite Hb. simpl. rewrite Hf. split; [done|]. rewrite !Forall_cons. simpl.
    intros (_ & [-> | [-> | ->]] & _); done.
  - rewrite Hb. simpl. rewrite Hf. apply cases_monitored in Hc as [Hn [p Hp]]. exists p. split; [done|].
    rewrite !Forall_cons. intros (_ & _ & Hl). done.
  - exists Finished. rewrite Hb. simpl. rewrite Hf, monitors_app.
    apply cases_monitored in Hc as [-> | ->]; done.
Qed.
End monitoring.

(** ** What the protocol entails *)

(** The test cases a list of calls starts. *)
Fixpoint started (l : list CALL) : list CFIX_TEST_CASE :=
  match l with
  | [] => []
  | CBeforeTestCase tc _ :: l => tc :: started l
  | _ :: l => started l
  end.

(** A refusal by the context, or a routine that asks to abort the run. *)
Definition aborts (c : CALL) : Prop :=
  match c with
  | CBeforeFixture r | CBeforeTestCase _ r => FAILED r = true
  | CSetup r | CBefore r | CRun _ r | CAfter r => r = CFIX_E_TESTRUN_ABORTED
  | _ => False
  end.

Section consequences.
Implicit Types (a : TSEXEC_ACTION) (tc : CFIX_TEST_CASE) (l : list CALL).

Lemma started_app l1 l2 : started (l1 ++ l2) = started l1 ++ started l2.
Proof. induction l1 as [|[] l1 IH]; simpl; by rewrite ?IH. Qed.

Lemma testcase_started tc l r : testcase_trace tc l r -> started l = [].
Proof. by intros []. Qed.

Lemma cases_started a tcs Hr l e :
  cases_trace a tcs Hr l e -> exists n, started l = take n tcs.
Proof.
  induction 1 as [Hr|tc tcs Hr r Hf|tc tcs Hr rb l r r' Hb Ht Hh
    |tc tcs Hr rb l r r' Hb Ht Hh|tc tcs Hr rb l r r' l' e Hb Ht Hh Hc [n IH]].
  - by exists 0%nat.
  - by exists 1%nat.
  - exists 1%nat. simpl. by rewrite (testcase_started _ _ _ Ht).
  - exists 1%nat. simpl. rewrite started_app. by rewrite (testcase_started _ _ _ Ht).
  - exists (S n). simpl. rewrite started_app, (testcase_started _ _ _ Ht). simpl. by rewrite IH.
Qed.

Lemma fixture_started a l r : fixture_trace a l r -> exists n, started l = take n (selected a).
Proof.
  intros [r' Hf|rb r' Hb Hs|rb r' Hb Hs Hf|rb rs l' r' Hb Hs Hf Hc|rb rs l' r' short rt Hb Hs Hf Hc].
  1-3: by exists 0%nat.
  - apply cases_started in Hc as [n Hn]. by exists n.
  - apply cases_started in Hc as [n Hn]. exists n. simpl.
    rewrite started_app. simpl. by rewrite app_nil_r.
Qed.

Lemma selected_from_all a tcs Index :
  TestCaseIndex a = ALL_TESTCASES -> selected_from a Index tcs = tcs.
Proof.
  intros Ha. revert Index. induction tcs as [|tc tcs IH]; intros Index; simpl; [done|].
  rewrite Ha, Z.eqb_refl. simpl. by rewrite IH.
Qed.

Lemma selected_from_one a tcs Index :
  TestCaseIndex a <> ALL_TESTCASES ->
  selected_from a Index tcs =
  if decide (Index <= TestCaseIndex a)
  then option_list (tcs !! Z.to_nat (TestCaseIndex a - Index)) else [].
Proof.
  intros Ha. revert Index. induction tcs as [|tc tcs IH]; intros Index; simpl.
  { by case_decide. }
  rewrite (proj2 (Z.eqb_neq _ _) Ha). simpl. rewrite IH.
  destruct (Z.eqb_spec (TestCaseIndex a) Index) as [->|Hne].
  - rewrite Z.sub_diag, decide_False, decide_True by lia. done.
  - case_decide; [rewrite decide_True by lia|].
    + by replace (Z.to_nat (TestCaseIndex a - Index)) with
        (S (Z.to_nat (TestCaseIndex a - (Index + 1)))) by lia.
    + rewrite decide_False by lia. done.
Qed.

(** A test case that neither fails fatally nor aborts the run does not stop the
    others unless the action's flags say so. *)
Lemma testcase_goes_on a tc l r :
  testcase_trace tc l r -> Forall documented l -> Forall (fun c => ~ aborts c) l ->
  FlagOn (Flags a) CFIX_FIXTURE_EXECUTION_SHORTCIRCUIT_FIXTURE_ON_FAILURE = false ->
  HandleTestCaseResult a r = LoopDone S_OK false.
Proof.
  intros Ht Hd Ha Hfl. unfold HandleTestCaseResult.
  assert (r = S_OK \/ r = CFIX_E_BEFORE_ROUTINE_FAILED \/ r = CFIX_E_TEST_ROUTINE_FAILED \/
          r = CFIX_E_AFTER_ROUTINE_FAILED) as Hr.
  { destruct Ht as [rb Hb|rb rt ra Hb].
    - rewrite Forall_singleton in Hd, Ha. simpl in Hd, Ha. naive_solver.
    - rewrite !Forall_cons in Hd, Ha. simpl in Hd, Ha.
      destruct (FAILED ra); [destruct (FAILED rt)|]; naive_solver. }
  destruct Hr as [-> | [-> | [-> | ->]]]; simpl; by rewrite ?Hfl.
Qed.

Lemma cases_go_on a tcs l e :
  cases_trace a tcs S_OK l e ->
  FlagOn (Flags a) CFIX_FIXTURE_EXECUTION_SHORTCIRCUIT_FIXTURE_ON_FAILURE = false ->
  Forall documented l -> Forall (fun c => ~ aborts c) l ->
  started l = tcs /\ e = LoopDone S_OK false.
Proof.
  intros Hc Hfl. remember S_OK as Hr eqn:EHr.
  induction Hc as [Hr|tc tcs Hr r Hf|tc tcs Hr rb l r r' Hb Ht Hh
    |tc tcs Hr rb l r r' Hb Ht Hh|tc tcs Hr rb l r r' l' e Hb Ht Hh Hc IH]; intros Hd Ha.
  - by rewrite EHr.
  - rewrite Forall_singleton in Ha. by destruct Ha.
  - apply Forall_cons in Hd as [_ Hd], Ha as [_ Ha].
    by rewrite (testcase_goes_on a tc l r Ht Hd Ha Hfl) in Hh.
  - apply Forall_cons in Hd as [_ Hd], Ha as [_ Ha].
    apply Forall_app in Hd as [Hd _], Ha as [Ha _].
    by rewrite (testcase_goes_on a tc l r Ht Hd Ha Hfl) in Hh.
  - apply Forall_cons in Hd as [_ Hd], Ha as [_ Ha].
    apply Forall_app in Hd as [Hd Hd'], Ha as [Ha Ha'].
    apply Forall_cons in Hd' as [_ Hd'], Ha' as [_ Ha'].
    rewrite (testcase_goes_on a tc l r Ht Hd Ha Hfl) in Hh. simplify_eq.
    destruct (IH eq_refl Hd' Ha') as [IH1 ->]. split; [|done].
    simpl. rewrite started_app, (testcase_started _ _ _ Ht). simpl. by rewrite IH1.
Qed.

(** Once [c] has happened, no further test case is started. *)
Fixpoint final (P : CALL -> Prop) l : Prop :=
  match l with
  | [] => True
  | c :: l => (P c -> started l = []) /\ final P l
  end.

(** A before or test routine that aborts the run. *)
Definition abort_call (c : CALL) : Prop :=
  match c with CBefore r | CRun _ r => r = CFIX_E_TESTRUN_ABORTED | _ => False end.

Lemma final_app P l1 l2 :
  (started l2 = [] \/ Forall (fun c => ~ P c) l1) -> started l1 = [] -> final P l2 ->
  final P (l1 ++ l2).
Proof.
  intros H1 H2 H3. revert H1 H2. induction l1 as [|c l1 IH]; intros H1 H2; [done|]. split.
  - intros HP. rewrite started_app. destruct H1 as [-> | H1].
    + destruct c; simpl in H2; rewrite ?H2; try done.
    + by apply Forall_cons in H1 as [H1 _].
  - apply IH; [|by destruct c].
    destruct H1 as [H1|H1]; [by left|right]. by apply Forall_cons in H1 as [_ H1].
Qed.

Lemma testcase_abort tc l r :
  testcase_trace tc l r -> Exists abort_call l -> r = CFIX_E_TESTRUN_ABORTED.
Proof.
  intros [rb Hb|rb rt ra Hb]; rewrite !Exists_cons, Exists_nil; simpl; [naive_solver|].
  intros [-> | [-> | [[]|[]]]]; [done|]. by destruct (FAILED ra).
Qed.

Lemma cases_abort a tcs Hr l e :
  cases_trace a tcs Hr l e ->
  final abort_call l /\ (Exists abort_call l -> e = LoopDone CFIX_E_TESTRUN_ABORTED true).
Proof.
  induction 1 as [Hr|tc tcs Hr r Hf|tc tcs Hr rb l r r' Hb Ht Hh
    |tc tcs Hr rb l r r' Hb Ht Hh|tc tcs Hr rb l r r' l' e Hb Ht Hh Hc [IH1 IH2]].
  - split; [done|]. by rewrite Exists_nil.
  - split; [done|]. rewrite Exists_cons, Exists_nil. by intros [[]|[]].
  - split.
    + split; [done|]. rewrite <-(app_nil_r l).
      apply final_app; [by left|by eapply testcase_started|done].
    + rewrite Exists_cons. intros [[]|Hx]. by rewrite (testcase_abort _ _ _ Ht Hx) in Hh.
  - split.
    + split; [done|]. apply final_app; [by left|by eapply testcase_started|done].
    + rewrite Exists_cons, Exists_app, Exists_cons, Exists_nil.
      intros [[]|[Hx|[[]|[]]]]. rewrite (testcase_abort _ _ _ Ht Hx) in Hh.
      by inversion Hh.
  - assert (~ Exists abort_call l) as Hno.
    { intros Hx. by rewrite (testcase_abort _ _ _ Ht Hx) in Hh. }
    split.
    + split; [done|]. apply final_app; [|by eapply testcase_started|done].
      right. by apply Forall_Exists_neg.
    + rewrite Exists_cons, Exists_app, Exists_cons. intros [[]|[Hx|[[]|Hx]]]; [done|auto].
Qed.
End consequences.

(** ** The properties *)
Section properties.
Context {W : Type}.
Variables (IsDebuggerPresent : ST W bool) (GetCurrentThreadId : ST W Z).
Variables (M : CFIX_MODULE_ROUTINES W) (C : CFIX_EXECUTION_CONTEXT W).
Hypothesis C_valid : CfixIsValidContext C = true.

Local Abbreviation run := (CfixsRunFixtureExecutionAction IsDebuggerPresent GetCurrentThreadId M C).
Local Abbreviation observed := (spied_run IsDebuggerPresent GetCurrentThreadId M C).

Lemma run_observed a w r w' :
  run a w = Some (r, w') -> exists l, observed a (w, []) = Some (r, (w', l)) /\ fixture_trace a l r.
Proof.
  intros E. pose proof (run_traces IsDebuggerPresent GetCurrentThreadId M C a C_valid w []) as H.
  rewrite E in H. destruct H as (l & E' & Hl). by exists l.
Qed.

(** C1. Fixture life cycle.  Whatever the module's routines and the execution
    context do, the calls a fixture run makes follow the life cycle: the context
    is asked first; setup precedes every test case; each started test case gets
    its before routine, then (if that succeeded) the test routine and the after
    routine, then the finish notification; teardown follows the last test case.
    If the routines return the documented results, every run whose setup
    succeeded is torn down exactly once and the fixture-finish notification is
    the last call. *)
Theorem run_life_cycle a w r w' :
  run a w = Some (r, w') ->
  exists l p, observed a (w, []) = Some (r, (w', l)) /\ monitors Idle l = Some p /\
    (Forall documented l -> p = Finished).
Proof.
  intros (l & E & Ht)%run_observed. destruct (fixture_monitored _ _ _ Ht) as (p & Hp & Hd).
  by exists l, p.
Qed.

(** C27. Test case selection.  The test cases a run starts are a prefix, in order
    and without repetition of positions, of those the action selects: all of
    them for the index -1, exactly the addressed one otherwise. *)
Theorem run_selects a w r w' :
  run a w = Some (r, w') ->
  (exists l n, observed a (w, []) = Some (r, (w', l)) /\ started l = take n (selected a)) /\
  (TestCaseIndex a = ALL_TESTCASES -> selected a = TestCases (Fixture a)) /\
  (TestCaseIndex a <> ALL_TESTCASES -> 0 <= TestCaseIndex a ->
   selected a = option_list (TestCases (Fixture a) !! Z.to_nat (TestCaseIndex a))).
Proof.
  intros (l & E & Ht)%run_observed. destruct (fixture_started _ _ _ Ht) as [n Hn].
  split_and!; [by exists l, n|by intros; apply selected_from_all|].
  intros Ha Hpos. unfold selected. rewrite selected_from_one, decide_True by done.
  by rewrite Z.sub_0_r.
Qed.

(** Failures stay local.  If the action has none of the short-circuit and
    escalation flags, the routines return documented results, nothing asks for
    the run to be aborted and setup succeeds, then every selected test case is
    started, whatever the test cases, the before and after routines and teardown
    report, and the run's result is S_OK. *)
Theorem run_failures_local a w r w' l :
  observed a (w, []) = Some (r, (w', l)) ->
  FlagOn (Flags a) CFIX_FIXTURE_EXECUTION_SHORTCIRCUIT_FIXTURE_ON_FAILURE = false ->
  FlagOn (Flags a) CFIX_FIXTURE_EXECUTION_ESCALATE_FIXTURE_FAILUES = false ->
  Forall documented l -> Forall (fun c => ~ aborts c) l -> CSetup S_OK ∈ l ->
  started l = selected a /\ r = S_OK.
Proof.
  intros E Hf1 Hf2 Hd Ha Hs.
  pose proof (run_traces IsDebuggerPresent GetCurrentThreadId M C a C_valid w []) as H.
  destruct (run a w) as [[r0 w0]|]; [|congruence]. destruct H as (l0 & E0 & Ht).
  rewrite E in E0. simpl in E0. injection E0 as <- <- <-. revert Ht Hd Ha Hs.
  intros [r' Hf|rb r' Hb Hsf|rb r' Hb Hsf Hf|rb rs l' r' Hb Hsf Hf Hc|rb rs l' r' short rt Hb Hsf Hf Hc];
    intros Hd Ha Hs.
  - apply Forall_cons in Ha as [Ha _]. exfalso. exact (Ha Hf).
  - exfalso. set_unfold in Hs. destruct Hs as [|[[= <-]|[|[]]]]; done.
  - exfalso. set_unfold in Hs. destruct Hs as [|[[= <-]|[]]]; done.
  - apply Forall_cons in Hd as [_ Hd], Ha as [_ Ha].
    apply Forall_cons in Hd as [Hds Hd], Ha as [_ Ha].
    apply cases_monitored in Hc as [Hn _]. done.
  - rewrite !Forall_cons, Forall_app in Hd, Ha. destruct Hd as (_ & Hds & Hd & _), Ha as (_ & _ & Ha & _).
    simpl in Hds. destruct Hds as [-> | [-> | ->]]; [|done..].
    destruct (cases_go_on a _ l' _ Hc Hf1 Hd Ha) as [Hst Heq]. injection Heq as -> ->.
    rewrite Hf2. split; [|by destruct (FAILED rt)]. simpl. rewrite started_app, Hst. simpl.
    by rewrite app_nil_r.
Qed.

(** C30. Aborting.  Once a before or a test routine has asked for the run to be
    aborted, no further test case of the fixture is started, the fixture is still
    torn down, and the run fails: with CFIX_E_TESTRUN_ABORTED, or with the
    teardown's own failure if that is escalated. *)
Theorem run_abort a w r w' :
  run a w = Some (r, w') ->
  exists l, observed a (w, []) = Some (r, (w', l)) /\ final abort_call l /\
    (Exists abort_call l ->
     FAILED r = true /\ exists rt, CTeardown rt ∈ l /\
       (r = CFIX_E_TESTRUN_ABORTED \/
        r = rt /\ FlagOn (Flags a) CFIX_FIXTURE_EXECUTION_ESCALATE_FIXTURE_FAILUES = true)).
Proof.
  intros (l & E & Ht)%run_observed. exists l. split; [done|]. clear E.
  destruct Ht as [r' Hf|rb r' Hb Hsf|rb r' Hb Hsf Hf|rb rs l r' Hb Hsf Hf Hc|rb rs l r' short rt Hb Hsf Hf Hc].
  1-3: split; [by simpl|]; rewrite !Exists_cons, Exists_nil; simpl; tauto.
  - apply cases_abort in Hc as [Hfin Hab]. split; [by simpl|].
    rewrite !Exists_cons. intros [[]|[[]|Hx]]. by apply Hab in Hx.
  - apply cases_abort in Hc as [Hfin Hab]. split.
    + split; [done|]. split; [done|]. clear -Hfin. induction l as [|c l IH]; [by simpl|].
      destruct Hfin as [H1 H2]. split; [|auto]. intros HP. rewrite started_app, H1 by done. done.
    + rewrite !Exists_cons, Exists_app, !Exists_cons, Exists_nil.
      intros [[]|[[]|[Hx|[[]|[[]|[]]]]]]. pose proof (Hab Hx) as Heq. injection Heq as -> ->.
      destruct (FAILED rt) eqn:Ert; [destruct (FlagOn _ _) eqn:Efl|];
        (split; [done|]); exists rt; (split; [set_solver|]); auto.
Qed.
End properties.

(** ** A concrete run: three test cases, the second of which fails or aborts *)
Module Demo.
Definition quiet : CFIX_EXECUTION_CONTEXT unit := {|
  CtxVersion := CFIX_TEST_CONTEXT_VERSION;
  ReportEvent := fun _ _ => ret CfixContinue;
  QueryDefaultDisposition := fun _ => ret CfixContinue;
  BeforeFixtureStart := fun _ _ => ret S_OK;
  AfterFixtureFinish := fun _ _ _ => ret tt;
  BeforeTestCaseStart := fun _ _ _ => ret S_OK;
  AfterTestCaseFinish := fun _ _ _ _ => ret tt;
  CreateChildThread := fun _ => ret (S_OK, 0);
  BeforeChildThreadStart := fun _ _ => ret tt;
  AfterChildThreadFinish := fun _ _ => ret tt;
  OnUnhandledException := fun _ _ => ret tt;
  CtxReference := ret tt;
  CtxDereference := ret tt |}.

Definition second (r : Z) : CFIX_MODULE_ROUTINES unit := {|
  RunTestCase := fun _ tc _ _ => ret (if TcRoutine tc =? 2 then r else S_OK);
  Setup := fun _ _ _ => ret S_OK;
  Teardown := fun _ _ _ => ret CFIX_E_TEARDOWN_ROUTINE_FAILED;
  Before := fun _ _ _ => ret S_OK;
  After := fun _ _ _ => ret S_OK;
  ModReference := ret tt;
  ModDereference := ret tt |}.

Definition fixture : CFIX_FIXTURE := {|
  FxName := "Demo"; SetupRoutine := 10; TeardownRoutine := 11; BeforeRoutine := 0;
  AfterRoutine := 0; ApiType := 1; FxFlags := 0; FxModuleName := "demo.dll";
  TestCases := [MkTestCase "A" 1; MkTestCase "B" 2; MkTestCase "C" 3] |}.

Definition all (flags : Z) : TSEXEC_ACTION := MkTsExec fixture flags ALL_TESTCASES.
Definition only (i : Z) : TSEXEC_ACTION := MkTsExec fixture 0 i.

Lemma run_life_cycle_witness :
  exists l p, spied_run (ret false) (ret 1) (second CFIX_E_TEST_ROUTINE_FAILED) quiet
      (all 1) (tt, []) = Some (S_OK, (tt, l)) /\
    monitors Idle l = Some p /\ (Forall documented l -> p = Finished).
Proof. by apply (run_life_cycle _ _ _ quiet eq_refl (all 1) tt). Defined.

Lemma run_selects_witness :
  (exists l n, spied_run (ret false) (ret 1) (second S_OK) quiet (only 2) (tt, [])
     = Some (S_OK, (tt, l)) /\ started l = take n (selected (only 2))) /\
  selected (only 2) = [MkTestCase "C" 3].
Proof.
  destruct (run_selects (ret false) (ret 1) (second S_OK) quiet eq_refl (only 2) tt S_OK tt)
    as (H1 & _ & H2); [vm_compute; reflexivity|].
  split; [exact H1|]. rewrite H2; [vm_compute; reflexivity|by vm_compute|by vm_compute].
Defined.

Lemma run_failures_local_witness :
  exists l, spied_run (ret false) (ret 1) (second CFIX_E_TEST_ROUTINE_FAILED) quiet
      (all 0) (tt, []) = Some (S_OK, (tt, l)) /\
    started l = TestCases fixture /\ S_OK = S_OK.
Proof.
  eexists. split; [vm_compute; reflexivity|].
  refine (run_failures_local (ret false) (ret 1) (second CFIX_E_TEST_ROUTINE_FAILED) quiet
    eq_refl (all 0) tt S_OK tt _ _ _ _ _ _ _).
  - vm_compute. reflexivity.
  - reflexivity.
  - reflexivity.
  - repeat (apply Forall_cons; split;
      [vm_compute; first [solve [auto] | let H := fresh in intros H; discriminate H]|]). by apply Forall_nil.
  - repeat (apply Forall_cons; split;
      [vm_compute; first [solve [auto] | let H := fresh in intros H; discriminate H]|]). by apply Forall_nil.
  - set_solver.
Defined.

Lemma run_abort_witness :
  exists l, spied_run (ret false) (ret 1) (second CFIX_E_TESTRUN_ABORTED) quiet
      (all 0) (tt, []) = Some (CFIX_E_TESTRUN_ABORTED, (tt, l)) /\ final abort_call l.
Proof.
  destruct (run_abort (ret false) (ret 1) (second CFIX_E_TESTRUN_ABORTED) quiet eq_refl (all 0)
    tt CFIX_E_TESTRUN_ABORTED tt) as (l & E & Hl & _); [vm_compute; reflexivity|].
  exists l. split; [exact E|exact Hl].
Defined.
End Demo.
