(* ===== verification/EventEmitter.v ===== *)
(** * The event emitting proxy (cfix/cfix/eventemitter.c)

    An execution context that forwards every callback to a target context and
    tells an event sink about it.  Its state, which the sink and the target do
    not see, is kept beside their world [W]. *)
From stdpp Require Import base gmap list strings.
From Stdlib Require Import ZArith Lia.
From S2P Require Import Prelude CfixApi TsExec.

(** The sink, an interface like the context. *)
(* src/include/cfixevnt.h:87-213 (CFIX_EVENT_SINK) *)
Record CFIX_EVENT_SINK (W : Type) := MkSink {
  SinkReportEvent : CFIX_THREAD_ID -> string -> string -> string ->
    CFIX_TESTCASE_EXECUTION_EVENT -> ST W unit;
  SinkBeforeFixtureStart : CFIX_THREAD_ID -> string -> string -> ST W unit;
  SinkAfterFixtureFinish : CFIX_THREAD_ID -> string -> string -> bool -> ST W unit;
  SinkBeforeTestCaseStart : CFIX_THREAD_ID -> string -> string -> string -> ST W unit;
  SinkAfterTestCaseFinish : CFIX_THREAD_ID -> string -> string -> string -> bool -> ST W unit;
  SinkReference : ST W unit;
  SinkDereference : ST W unit }.
Arguments MkSink {W}. Arguments SinkReportEvent {W}. Arguments SinkBeforeFixtureStart {W}.
Arguments SinkAfterFixtureFinish {W}. Arguments SinkBeforeTestCaseStart {W}.
Arguments SinkAfterTestCaseFinish {W}. Arguments SinkReference {W}. Arguments SinkDereference {W}.

(** The proxy's own fields; [Freed] says that the structure has been released. *)
(* src/cfix/cfix/eventemitter.c:30-41 (CFIXP_EVENT_EMITTING_PROXY) *)
Record PROXY := MkProxy {
  FirstTestCaseBegun : bool;
  CurrentTestCase : option CFIX_TEST_CASE;
  CurrentFixture : option CFIX_FIXTURE;
  ReferenceCount : Z;
  Freed : bool }.

Section proxy.
Context {W : Type}.
Variables (Target : CFIX_EXECUTION_CONTEXT W) (EventSink : CFIX_EVENT_SINK W).

Local Abbreviation M := (ST (PROXY * W)).

Definition outer {A} (m : ST W A) : M A := fun '(p, w) =>
  match m w with Some (a, w') => Some (a, (p, w')) | None => None end.

Definition own (f : PROXY -> PROXY) : M unit := fun '(p, w) => Some (tt, (f p, w)).

(* src/cfix/cfix/eventemitter.c:49-57 (CfixsEventEmittingProxyReference) *)
Definition CfixsEventEmittingProxyReference : M unit :=
  own (fun p => MkProxy (FirstTestCaseBegun p) (CurrentTestCase p) (CurrentFixture p)
                  (LONG (ReferenceCount p + 1)) (Freed p)).

(* src/cfix/cfix/eventemitter.c:59-73 (CfixsEventEmittingProxyDereference) *)
Definition CfixsEventEmittingProxyDereference : M unit :=
  own (fun p => MkProxy (FirstTestCaseBegun p) (CurrentTestCase p) (CurrentFixture p)
                  (LONG (ReferenceCount p - 1)) (Freed p)) ;;;
  n <- gets (fun s => ReferenceCount (fst s)) ;;
  when_ (n =? 0)
    (outer (CtxDereference Target) ;;;
     outer (SinkDereference EventSink) ;;;
     own (fun p => MkProxy (FirstTestCaseBegun p) (CurrentTestCase p) (CurrentFixture p)
                     (ReferenceCount p) true)).

(* src/cfix/cfix/eventemitter.c:75-86 (CfixsEventEmittingProxyQueryDefaultDisposition) *)
Definition CfixsEventEmittingProxyQueryDefaultDisposition (EventType : CFIX_EVENT_TYPE)
    : M CFIX_REPORT_DISPOSITION :=
  outer (QueryDefaultDisposition Target EventType).

(** The name events are reported under. *)
(* src/cfix/cfix/eventemitter.c:101-119 (CfixsEventEmittingProxyReportEvent) *)
Definition TestCaseName (p : PROXY) : string :=
  match CurrentTestCase p with
  | Some tc => TcName tc
  | None => if FirstTestCaseBegun p then "[Teardown]" else "[Setup]"
  end.

(* src/cfix/cfix/eventemitter.c:88-133 (CfixsEventEmittingProxyReportEvent) *)
Definition CfixsEventEmittingProxyReportEvent (Thread : CFIX_THREAD_ID)
    (Event : CFIX_TESTCASE_EXECUTION_EVENT) : M CFIX_REPORT_DISPOSITION :=
  f <- gets (fun s => CurrentFixture (fst s)) ;;
  match f with
  | None => fault
  | Some Fixture =>
      n <- gets (fun s => TestCaseName (fst s)) ;;
      outer (SinkReportEvent EventSink Thread (FxModuleName Fixture) (FxName Fixture) n Event) ;;;
      outer (ReportEvent Target Thread Event)
  end.

(* src/cfix/cfix/eventemitter.c:135-157 (CfixsEventEmittingProxyBeforeFixtureStart) *)
Definition CfixsEventEmittingProxyBeforeFixtureStart (Thread : CFIX_THREAD_ID)
    (Fixture : CFIX_FIXTURE) : M Z :=
  own (fun p => MkProxy false (CurrentTestCase p) (Some Fixture) (ReferenceCount p) (Freed p)) ;;;
  outer (SinkBeforeFixtureStart EventSink Thread (FxModuleName Fixture) (FxName Fixture)) ;;;
  outer (BeforeFixtureStart Target Thread Fixture).

(* src/cfix/cfix/eventemitter.c:159-182 (CfixsEventEmittingProxyBeforeTestCaseStart) *)
Definition CfixsEventEmittingProxyBeforeTestCaseStart (Thread : CFIX_THREAD_ID)
    (Fixture : CFIX_FIXTURE) (TestCase : CFIX_TEST_CASE) : M Z :=
  own (fun p => MkProxy true (Some TestCase) (CurrentFixture p) (ReferenceCount p) (Freed p)) ;;;
  outer (SinkBeforeTestCaseStart EventSink Thread (FxModuleName Fixture) (FxName Fixture)
           (TcName TestCase)) ;;;
  outer (BeforeTestCaseStart Target Thread Fixture TestCase).

(* src/cfix/cfix/eventemitter.c:187-211 (CfixsEventEmittingProxyAfterFixtureFinish) *)
Definition CfixsEventEmittingProxyAfterFixtureFinish (Thread : CFIX_THREAD_ID)
    (Fixture : CFIX_FIXTURE) (RanToCompletion : bool) : M unit :=
  own (fun p => MkProxy (FirstTestCaseBegun p) (CurrentTestCase p) None
                  (ReferenceCount p) (Freed p)) ;;;
  outer (SinkAfterFixtureFinish EventSink Thread (FxModuleName Fixture) (FxName Fixture)
           RanToCompletion) ;;;
  outer (AfterFixtureFinish Target Thread Fixture RanToCompletion).

(* src/cfix/cfix/eventemitter.c:214-239 (CfixsEventEmittingProxyAfterTestCaseFinish) *)
Definition CfixsEventEmittingProxyAfterTestCaseFinish (Thread : CFIX_THREAD_ID)
    (Fixture : CFIX_FIXTURE) (TestCase : CFIX_TEST_CASE) (RanToCompletion : bool) : M unit :=
  own (fun p => MkProxy (FirstTestCaseBegun p) None (CurrentFixture p)
                  (ReferenceCount p) (Freed p)) ;;;
  outer (SinkAfterTestCaseFinish EventSink Thread (FxModuleName Fixture) (FxName Fixture)
           (TcName TestCase) RanToCompletion) ;;;
  outer (AfterTestCaseFinish Target Thread Fixture TestCase RanToCompletion).

(* src/cfix/cfix/eventemitter.c:241-254 (CfixsEventEmittingProxyBeforeChildThreadStart) *)
Definition CfixsEventEmittingProxyBeforeChildThreadStart (Thread : CFIX_THREAD_ID)
    (ThreadContext : Z) : M unit :=
  outer (BeforeChildThreadStart Target Thread ThreadContext).

(* src/cfix/cfix/eventemitter.c:256-269 (CfixsEventEmittingProxyAfterChildThreadFinish) *)
Definition CfixsEventEmittingProxyAfterChildThreadFinish (Thread : CFIX_THREAD_ID)
    (ThreadContext : Z) : M unit :=
  outer (AfterChildThreadFinish Target Thread ThreadContext).

(* src/cfix/cfix/eventemitter.c:271-284 (CfixsEventEmittingProxyCreateChildThread) *)
Definition CfixsEventEmittingProxyCreateChildThread (Thread : CFIX_THREAD_ID) : M (Z * Z) :=
  outer (CreateChildThread Target Thread).

(* src/cfix/cfix/eventemitter.c:286-299 (CfixsEventEmittingProxyOnUnhandledException) *)
Definition CfixsEventEmittingProxyOnUnhandledException (Thread : CFIX_THREAD_ID)
    (ExceptionCode : Z) : M unit :=
  outer (OnUnhandledException Target Thread ExceptionCode).

(** The table of methods the constructor installs. *)
(* src/cfix/cfix/eventemitter.c:336-348 (CfixCreateEventEmittingExecutionContextProxy) *)
Definition proxy : CFIX_EXECUTION_CONTEXT (PROXY * W) := {|
  CtxVersion := CFIX_TEST_CONTEXT_VERSION;
  ReportEvent := CfixsEventEmittingProxyReportEvent;
  QueryDefaultDisposition := CfixsEventEmittingProxyQueryDefaultDisposition;
  BeforeFixtureStart := CfixsEventEmittingProxyBeforeFixtureStart;
  AfterFixtureFinish := CfixsEventEmittingProxyAfterFixtureFinish;
  BeforeTestCaseStart := CfixsEventEmittingProxyBeforeTestCaseStart;
  AfterTestCaseFinish := CfixsEventEmittingProxyAfterTestCaseFinish;
  CreateChildThread := CfixsEventEmittingProxyCreateChildThread;
  BeforeChildThreadStart := CfixsEventEmittingProxyBeforeChildThreadStart;
  AfterChildThreadFinish := CfixsEventEmittingProxyAfterChildThreadFinish;
  OnUnhandledException := CfixsEventEmittingProxyOnUnhandledException;
  CtxReference := CfixsEventEmittingProxyReference;
  CtxDereference := CfixsEventEmittingProxyDereference |}.

(** Construction: the zeroed structure with one reference; the sink and the
    target are referenced.  [Some] is the new proxy's state. *)
(* src/cfix/cfix/eventemitter.c:307-353 (CfixCreateEventEmittingExecutionContextProxy) *)
Definition CfixCreateEventEmittingExecutionContextProxy (malloc : ST W bool)
    : ST W (Z * option PROXY) :=
  ok <- malloc ;;
  if negb ok then ret (E_OUTOFMEMORY, None) else
  SinkReference EventSink ;;;
  CtxReference Target ;;;
  ret (S_OK, Some (MkProxy false None None 1 false)).
End proxy.

(** ** What the proxy knows during a fixture's life cycle *)
Section attribution.
Context {W : Type}.
Variables (Target : CFIX_EXECUTION_CONTEXT W) (EventSink : CFIX_EVENT_SINK W).
Variables (Thread : CFIX_THREAD_ID) (Fx : CFIX_FIXTURE).

Local Abbreviation P := (proxy Target EventSink).

(** The callback of the context that a call of a fixture run consists of. *)
Definition callback (c : CALL) : ST (PROXY * W) unit :=
  match c with
  | CBeforeFixture r => r' <- BeforeFixtureStart P Thread Fx ;; assert_ (r' =? r)
  | CAfterFixture ran => AfterFixtureFinish P Thread Fx ran
  | CBeforeTestCase tc r => r' <- BeforeTestCaseStart P Thread Fx tc ;; assert_ (r' =? r)
  | CAfterTestCase tc ran => AfterTestCaseFinish P Thread Fx tc ran
  | _ => ret tt
  end.

Fixpoint callbacks (l : list CALL) : ST (PROXY * W) unit :=
  match l with [] => ret tt | c :: l => callback c ;;; callbacks l end.

(** The test case that is running in a phase. *)
Definition running (ph : PHASE) : option CFIX_TEST_CASE :=
  match ph with InCase tc | Prepared tc | Ran tc | CaseOver tc => Some tc | _ => None end.

(** The name that the branches of [TestCaseName] mean for the events of a phase. *)
Definition expected_name (ph : PHASE) (begun : bool) : string :=
  match running ph with
  | Some tc => TcName tc
  | None => if begun then "[Teardown]" else "[Setup]"
  end.

(** The test case that the calls leave behind in the proxy although it is not
    running: the last one to begin if the target refused it, none if it was
    accepted, and what was there before if none has begun. *)
Definition left_behind (stale : option CFIX_TEST_CASE) (l : list CALL) : option CFIX_TEST_CASE :=
  fold_left (fun t c => match c with
                        | CBeforeTestCase tc r => if FAILED r then Some tc else None
                        | _ => t
                        end) l stale.

Definition refusal (c : CALL) : bool :=
  match c with CBeforeTestCase _ r => FAILED r | _ => false end.

(** Without refusals nothing is left behind. *)
Lemma left_behind_none l :
  Forall (fun c => refusal c = false) l -> left_behind None l = None.
Proof.
  induction l as [|c l IH]; intros Hl; [done|]. apply Forall_cons in Hl as [Hc Hl].
  unfold left_behind in *. cbn [fold_left]. destruct c; simpl in Hc; rewrite ?Hc; auto.
Qed.

Lemma left_behind_snoc stale l c :
  left_behind stale (l ++ [c]) =
  match c with
  | CBeforeTestCase tc r => if FAILED r then Some tc else None
  | _ => left_behind stale l
  end.
Proof. unfold left_behind. by rewrite fold_left_app. Qed.

Definition has_begun (l : list CALL) : bool := negb (bool_decide (started l = [])).

(** The phases in which events can occur. *)
Definition active (ph : PHASE) : bool :=
  match ph with Idle | Finished => false | _ => true end.

(** What the proxy has recorded in a phase, given whether a test case has begun
    and which one has been left behind. *)
Definition tracks (ph : PHASE) (begun : bool) (left : option CFIX_TEST_CASE) (p : PROXY) : Prop :=
  CurrentTestCase p = (match running ph with Some tc => Some tc | None => left end) /\
  (active ph = true -> CurrentFixture p = Some Fx /\ FirstTestCaseBegun p = begun) /\
  (is_Some (running ph) -> begun = true /\ left = None).

(** The effect of a callback on the proxy's fields. *)
Definition effect (c : CALL) (p : PROXY) : PROXY :=
  match c with
  | CBeforeFixture _ => MkProxy false (CurrentTestCase p) (Some Fx) (ReferenceCount p) (Freed p)
  | CAfterFixture _ =>
      MkProxy (FirstTestCaseBegun p) (CurrentTestCase p) None (ReferenceCount p) (Freed p)
  | CBeforeTestCase tc _ => MkProxy true (Some tc) (CurrentFixture p) (ReferenceCount p) (Freed p)
  | CAfterTestCase _ _ =>
      MkProxy (FirstTestCaseBegun p) None (CurrentFixture p) (ReferenceCount p) (Freed p)
  | _ => p
  end.

Lemma outer_inv {A} (m : ST W A) s a s' : outer m s = Some (a, s') -> fst s' = fst s.
Proof.
  destruct s as [p w]. unfold outer. destruct (m w) as [[a' w']|]; [|done].
  by intros [= _ <-].
Qed.

Lemma callback_effect c s s' : callback c s = Some (tt, s') -> fst s' = effect c (fst s).
Proof.
  destruct s as [p w], c; simpl;
    unfold CfixsEventEmittingProxyBeforeFixtureStart, CfixsEventEmittingProxyAfterFixtureFinish,
      CfixsEventEmittingProxyBeforeTestCaseStart, CfixsEventEmittingProxyAfterTestCaseFinish;
    rewrite ?bind_assoc; intros E; try (by injection E as <-);
    apply bind_Some in E as ([] & s1 & [= <-] & E); rewrite ?bind_assoc in E;
    apply bind_Some in E as ([] & s2 & E2 & E); apply outer_inv in E2; simpl in E2; rewrite <-E2.
  - apply bind_Some in E as (r & s3 & E3 & E). apply outer_inv in E3. rewrite <-E3.
    unfold assert_ in E. destruct (r =? Hr); [|done]. by injection E as <-.
  - by apply outer_inv in E.
  - apply bind_Some in E as (r & s3 & E3 & E). apply outer_inv in E3. rewrite <-E3.
    unfold assert_ in E. destruct (r =? Hr); [|done]. by injection E as <-.
  - by apply outer_inv in E.
Qed.

Lemma callbacks_snoc l c s s' :
  callbacks (l ++ [c]) s = Some (tt, s') ->
  exists s1, callbacks l s = Some (tt, s1) /\ callback c s1 = Some (tt, s').
Proof.
  revert s. induction l as [|d l IH]; intros s; simpl.
  - intros ([] & s1 & E1 & E2)%bind_Some. exists s. split; [done|]. by injection E2 as <-.
  - intros ([] & s1 & E1 & E2)%bind_Some. destruct (IH _ E2) as (s2 & E3 & E4).
    exists s2. by rewrite (bind_eq _ _ _ _ _ E1).
Qed.

Lemma has_begun_snoc l c :
  has_begun (l ++ [c]) = has_begun l || match c with CBeforeTestCase _ _ => true | _ => false end.
Proof.
  unfold has_begun. rewrite started_app.
  destruct (started l); destruct c; simpl; rewrite ?orb_false_r; done.
Qed.

(** The state machine of the fields follows the life cycle. *)
Lemma tracks_step ph c ph' begun left p :
  tracks ph begun left p -> monitor ph c = Some ph' -> (ph = Idle -> begun = false) ->
  tracks ph' (begun || match c with CBeforeTestCase _ _ => true | _ => false end)
    (match c with CBeforeTestCase tc r => if FAILED r then Some tc else None | _ => left end)
    (effect c p).
Proof.
  unfold tracks. intros (H1 & H2 & H3) Hm Hi.
  destruct ph, c; simpl in Hm; try done; simplify_eq; simpl in *;
    try (destruct (FAILED Hr) eqn:?); repeat case_decide; simplify_eq; simpl in *;
    rewrite ?orb_false_r, ?orb_true_r; try (destruct RanToCompletion; simplify_eq); simpl;
    try specialize (H2 eq_refl); try specialize (Hi eq_refl); naive_solver.
Qed.

Lemma monitors_Idle l ph : monitors Idle l = Some ph -> ph = Idle -> l = [].
Proof.
  destruct l as [|c l] using rev_ind; [done|]. rewrite monitors_app.
  destruct (monitors Idle l) as [ph1|]; [|done]. simpl. intros Hm ->.
  destruct ph1, c; simpl in Hm; try done; repeat case_decide; simplify_eq;
    try (destruct RanToCompletion; done); by destruct (FAILED Hr).
Qed.

Lemma tracks_callbacks l : forall ph s s',
  callbacks l s = Some (tt, s') -> monitors Idle l = Some ph ->
  tracks ph (has_begun l) (left_behind (CurrentTestCase (fst s)) l) (fst s').
Proof.
  induction l as [|c l IH] using rev_ind; intros ph s s' E Hm.
  { simpl in *. simplify_eq. injection E as <-. split_and!; [done|done|]. by intros []. }
  apply callbacks_snoc in E as (s1 & E1 & E2). rewrite monitors_app in Hm.
  destruct (monitors Idle l) as [ph1|] eqn:Em; [|done]. simpl in Hm.
  destruct (monitor ph1 c) as [ph2|] eqn:Ec; [|done]. injection Hm as ->.
  rewrite has_begun_snoc, left_behind_snoc, (callback_effect _ _ _ E2).
  eapply tracks_step; [by eapply IH|done|].
  intros ->. by rewrite (monitors_Idle _ _ Em eq_refl).
Qed.

(** C32. Attribution of events.  While the callbacks follow the life cycle of a
    fixture run, the proxy hands every event to the sink, with the fixture's and
    its module's name, and then returns the target's disposition.  The event goes
    under the name of the test case that is running.  When none is running, it
    goes under "[Setup]" before the first test case of the fixture has begun and
    under "[Teardown]" afterwards -- provided that no test case has been left
    behind: if the target refused the last test case to begin, the proxy still
    has it recorded and the event goes under its name, in this fixture's teardown
    and, until a test case is accepted, in the fixtures that follow.  After a run
    exactly that test case remains recorded: none if the target refused none. *)
Theorem proxy_attribution l ph s s' t e :
  callbacks l s = Some (tt, s') -> monitors Idle l = Some ph ->
  let left := left_behind (CurrentTestCase (fst s)) l in
  (active ph = true ->
   ReportEvent P t e s' =
   (outer (SinkReportEvent EventSink t (FxModuleName Fx) (FxName Fx)
             (match running ph, left with
              | None, Some refused => TcName refused
              | _, _ => expected_name ph (has_begun l)
              end) e) ;;;
    outer (ReportEvent Target t e)) s') /\
  (active ph = false -> CurrentTestCase (fst s') = left) /\
  (Forall (fun c => refusal c = false) l -> CurrentTestCase (fst s) = None -> left = None).
Proof.
  intros E Hm left. destruct (tracks_callbacks _ _ _ _ E Hm) as (H1 & H2 & H3).
  fold left in H1, H3. split_and!.
  - intros Ha. destruct (H2 Ha) as [Hfx Hb]. simpl. unfold CfixsEventEmittingProxyReportEvent.
    rewrite bind_gets, Hfx, bind_gets. unfold TestCaseName, expected_name.
    rewrite H1, Hb. by destruct (running ph), left.
  - intros Ha. rewrite H1. by destruct ph.
  - intros Hr Hn. unfold left. rewrite Hn. by apply left_behind_none.
Qed.

(** A refused test case is not forgotten.  When the target refuses a test
    case, no AfterTestCaseFinish follows, and the proxy goes on attributing
    events to the refused test case: those of the teardown routine, and those of
    the setup routine of the next fixture (documented are the names [Teardown]
    and [Setup]). *)
Theorem proxy_refused_testcase_sticks tc r p w r1 s1 fx2 r2 s2 :
  BeforeTestCaseStart P Thread Fx tc (p, w) = Some (r, s1) -> FAILED r = true ->
  AfterFixtureFinish P Thread Fx false s1 = Some (r1, s2) ->
  TestCaseName (fst s1) = TcName tc /\
  forall s3, BeforeFixtureStart P Thread fx2 s2 = Some (r2, s3) ->
    TestCaseName (fst s3) = TcName tc.
Proof.
  simpl. unfold CfixsEventEmittingProxyBeforeTestCaseStart,
    CfixsEventEmittingProxyAfterFixtureFinish, CfixsEventEmittingProxyBeforeFixtureStart.
  intros E1 Hr E2.
  apply bind_Some in E1 as ([] & t1 & [= <-] & E1).
  apply bind_Some in E1 as ([] & t2 & H1%outer_inv & H2%outer_inv).
  rewrite H1 in H2. destruct s1 as [p1 w1]. simpl in H2. subst p1.
  apply bind_Some in E2 as ([] & t3 & [= <-] & E2).
  apply bind_Some in E2 as ([] & t4 & H3%outer_inv & H4%outer_inv).
  rewrite H3 in H4. destruct s2 as [p2 w2]. simpl in H4. subst p2.
  split; [done|]. intros s3 E3.
  apply bind_Some in E3 as ([] & t5 & [= <-] & E3).
  apply bind_Some in E3 as ([] & t6 & H5%outer_inv & H6%outer_inv).
  by rewrite H6, H5.
Qed.
End attribution.

(** ** Concrete runs *)
Module Demo.
(** A target that refuses the test case "B", and a sink that keeps the names. *)
Definition target : CFIX_EXECUTION_CONTEXT (list string) := {|
  CtxVersion := CFIX_TEST_CONTEXT_VERSION;
  ReportEvent := fun _ _ => ret CfixContinue;
  QueryDefaultDisposition := fun _ => ret CfixContinue;
  BeforeFixtureStart := fun _ _ => ret S_OK;
  AfterFixtureFinish := fun _ _ _ => ret tt;
  BeforeTestCaseStart := fun _ _ tc =>
    ret (if String.eqb (TcName tc) "B" then E_FAIL else S_OK);
  AfterTestCaseFinish := fun _ _ _ _ => ret tt;
  CreateChildThread := fun _ => ret (S_OK, 0);
  BeforeChildThreadStart := fun _ _ => ret tt;
  AfterChildThreadFinish := fun _ _ => ret tt;
  OnUnhandledException := fun _ _ => ret tt;
  CtxReference := ret tt;
  CtxDereference := ret tt |}.

Definition sink : CFIX_EVENT_SINK (list string) := {|
  SinkReportEvent := fun _ _ _ n _ => modify (fun l => l ++ [n]);
  SinkBeforeFixtureStart := fun _ _ _ => ret tt;
  SinkAfterFixtureFinish := fun _ _ _ _ => ret tt;
  SinkBeforeTestCaseStart := fun _ _ _ _ => ret tt;
  SinkAfterTestCaseFinish := fun _ _ _ _ _ => ret tt;
  SinkReference := ret tt;
  SinkDereference := ret tt |}.

Definition tid : CFIX_THREAD_ID := MkThreadId 1 1.
Definition tcA : CFIX_TEST_CASE := MkTestCase "A" 1.
Definition tcB : CFIX_TEST_CASE := MkTestCase "B" 2.
Definition fixture : CFIX_FIXTURE :=
  MkFixture "Demo" 10 11 0 0 1 0 "demo.dll" [tcA; tcB].
Definition fresh : PROXY := MkProxy false None None 1 false.
Definition event : CFIX_TESTCASE_EXECUTION_EVENT := MkEvent (Log "hello") [].

Lemma proxy_attribution_witness :
  exists s', callbacks target sink tid fixture
      [CBeforeFixture S_OK; CSetup S_OK; CBeforeTestCase tcA S_OK; CBefore S_OK; CRun tcA S_OK;
       CAfter S_OK; CAfterTestCase tcA true] (fresh, []) = Some (tt, s') /\
    ReportEvent (proxy target sink) tid event s' =
    (outer (SinkReportEvent sink tid "demo.dll" "Demo" "[Teardown]" event) ;;;
     outer (ReportEvent target tid event)) s'.
Proof.
  eexists. split; [vm_compute; reflexivity|].
  refine (proj1 (proxy_attribution target sink tid fixture
    [CBeforeFixture S_OK; CSetup S_OK; CBeforeTestCase tcA S_OK; CBefore S_OK; CRun tcA S_OK;
     CAfter S_OK; CAfterTestCase tcA true] Ready (fresh, []) _ tid event _ _) eq_refl).
  - vm_compute. reflexivity.
  - vm_compute. reflexivity.
Defined.

(** Setup and teardown of a fixture whose only test case is refused, and the
    setup of the next: "[Setup]" is told under the name of the refused test case. *)
Example refused_name_in_teardown_and_next_setup :
  match (callbacks target sink tid fixture
           [CBeforeFixture S_OK; CSetup S_OK; CBeforeTestCase tcB E_FAIL] ;;;
         ReportEvent (proxy target sink) tid event ;;;
         callbacks target sink tid fixture [CTeardown S_OK; CAfterFixture false; CBeforeFixture S_OK] ;;;
         ReportEvent (proxy target sink) tid event) (fresh, []) with
  | Some (_, (_, names)) => names
  | None => []
  end = ["B"; "B"].
Proof. vm_compute. reflexivity. Qed.

Lemma proxy_refused_testcase_sticks_witness :
  exists s2, TestCaseName (fst s2) = "B" /\
    BeforeTestCaseStart (proxy target sink) tid fixture tcB (fresh, []) = Some (E_FAIL, s2).
Proof.
  eexists. split; [|vm_compute; reflexivity].
  refine (proj1 (proxy_refused_testcase_sticks target sink tid fixture tcB E_FAIL fresh []
    tt _ fixture S_OK _ _ _ _)).
  - vm_compute. reflexivity.
  - reflexivity.
  - vm_compute. reflexivity.
Defined.
End Demo.
