(* ===== verification/DisplayAction.v ===== *)
(** * Actions that display a fixture (cfix/cfixrun/displayaction.c)

    The third kind of action, next to those of [TsExec] and [Sequence]: it runs
    nothing.  Its reference counting is that of [Sequence]. *)
From stdpp Require Import base list strings.
From Stdlib Require Import ZArith Ascii.
From S2P Require Import Prelude CfixApi.

Definition newline : string := String (ascii_of_nat 10) EmptyString.

Section display.
Context {X : Type}.
Variable PrintConsole : string -> ST X unit.

(* src/cfix/cfixrun/displayaction.c:103-108 (CfixrunsRunDisplayAction) *)
Fixpoint PrintTestCases (Cases : list CFIX_TEST_CASE) : ST X unit :=
  match Cases with
  | [] => ret tt
  | c :: Cases => PrintConsole ("    " +:+ TcName c +:+ newline) ;;; PrintTestCases Cases
  end.

(* src/cfix/cfixrun/displayaction.c:83-113 (CfixrunsRunDisplayAction) *)
Definition CfixrunsRunDisplayAction (Fixture : CFIX_FIXTURE) : ST X Z :=
  PrintConsole ("  Fixture: " +:+ FxModuleName Fixture +:+ "." +:+ FxName Fixture +:+ newline) ;;;
  PrintTestCases (TestCases Fixture) ;;;
  PrintConsole newline ;;;
  ret S_OK.

(** Creation: the module is referenced; [Some] is the fixture of the new action. *)
(* src/cfix/cfixrun/displayaction.c:120-172 (CfixrunpCreateDisplayAction) *)
Definition CfixrunpCreateDisplayAction (Module_ : CFIX_MODULE_ROUTINES X) (malloc : ST X bool)
    (Fixture : CFIX_FIXTURE) : ST X (Z * option CFIX_FIXTURE) :=
  ok <- malloc ;;
  if negb ok then ret (E_OUTOFMEMORY, None) else
  ModReference Module_ ;;;
  ret (S_OK, Some Fixture).
End display.
