(* ===== verification/Sequence.v ===== *)
(** * Action objects and sequences of actions (cfix/cfix/sequenceaction.c, and the
      reference counting of cfix/cfix/tsexecaction.c)

    Actions are reference counted objects at addresses.  A sequence holds a
    reference to each of its entries; its list of entries is the sequence of
    addresses that its ring (see [LinkedList]) contains.  Its lock is a recursive
    critical section of which the model keeps the depth. *)
From stdpp Require Import base gmap list strings.
From Stdlib Require Import ZArith Lia.
From S2P Require Import Prelude CfixApi TsExec DisplayAction.

(* src/cfix/cfix/sequenceaction.c:30-59 (SEQUENCE_ACTION) *)
Inductive ACTION :=
  | TsExecAction (ReferenceCount : Z) (ModuleId : Z) (Body : TSEXEC_ACTION)
  | SequenceAction (ReferenceCount : Z) (Entries : list Z) (Count : Z) (Lock : Z)
  | DisplayAction (ReferenceCount : Z) (ModuleId : Z) (DisplayFixture : CFIX_FIXTURE).

Notation ACTIONS := (gmap Z ACTION).

Definition rc (o : ACTION) : Z :=
  match o with TsExecAction n _ _ | SequenceAction n _ _ _ | DisplayAction n _ _ => n end.
Definition set_rc (n : Z) (o : ACTION) : ACTION :=
  match o with
  | TsExecAction _ m b => TsExecAction n m b
  | SequenceAction _ es c l => SequenceAction n es c l
  | DisplayAction _ m f => DisplayAction n m f
  end.
Definition entries (o : ACTION) : list Z :=
  match o with TsExecAction _ _ _ | DisplayAction _ _ _ => [] | SequenceAction _ es _ _ => es end.

Section actions.
Context {X : Type}.
Variables (IsDebuggerPresent : ST X bool) (GetCurrentThreadId : ST X Z).
Variables (Modules : Z -> CFIX_MODULE_ROUTINES X) (Context_ : CFIX_EXECUTION_CONTEXT X).
Variable PrintConsole : string -> ST X unit.
Variable malloc : ST X bool.

Local Abbreviation M := (ST (ACTIONS * X)).

Definition ext {A} (m : ST X A) : M A := fun '(o, x) =>
  match m x with Some (a, x') => Some (a, (o, x')) | None => None end.

(** Access through a pointer to an action; a dangling pointer faults. *)
Definition load (This : Z) : M ACTION := fun '(os, x) =>
  match os !! This with Some o => Some (o, (os, x)) | None => None end.
Definition store (This : Z) (o : ACTION) : M unit := fun '(os, x) => Some (tt, (<[This := o]> os, x)).
Definition free (This : Z) : M unit := fun '(os, x) => Some (tt, (delete This os, x)).

(** Reference: [InterlockedIncrement( &Action->ReferenceCount )], a LONG. *)
(* src/cfix/cfix/sequenceaction.c:93-105 (CfixsReferenceSequenceAction) *)
Definition Reference (This : Z) : M unit :=
  o <- load This ;; store This (set_rc (LONG (rc o + 1)) o).

(* src/cfix/cfix/tsexecaction.c:110-122 (CfixsReferenceFixtureExecutionAction) *)
Definition CfixsReferenceFixtureExecutionAction (This : Z) : M unit := Reference This.

Fixpoint for_each (f : Z -> M unit) (l : list Z) : M unit :=
  match l with [] => ret tt | a :: l => f a ;;; for_each f l end.

(** Dereference, and the deletion at zero: a fixture action gives its module
    back, a sequence dereferences its entries.  The fuel bounds the nesting. *)
(* src/cfix/cfix/sequenceaction.c:66-122 (CfixsDereferenceSequenceAction) *)
Fixpoint Dereference (fuel : nat) (This : Z) : M unit :=
  match fuel with
  | O => fault
  | S fuel =>
      o <- load This ;;
      let n := LONG (rc o - 1) in
      store This (set_rc n o) ;;;
      when_ (n =? 0)
        (match o with
         | TsExecAction _ m _ | DisplayAction _ m _ => ext (ModDereference (Modules m))
         | SequenceAction _ es _ _ => for_each (Dereference fuel) es
         end ;;;
         free This)
  end.

(* src/cfix/cfix/tsexecaction.c:124-139 (CfixsDereferenceFixtureExecutionAction) *)
Definition CfixsDereferenceFixtureExecutionAction (This : Z) : M unit := Dereference 1 This.

Definition enter (This : Z) : M unit :=
  o <- load This ;;
  match o with
  | SequenceAction n es c l => store This (SequenceAction n es c (l + 1))
  | _ => fault
  end.
Definition leave (This : Z) : M unit :=
  o <- load This ;;
  match o with
  | SequenceAction n es c l => store This (SequenceAction n es c (l - 1))
  | _ => fault
  end.

(** The loop that runs the collected actions. *)
(* src/cfix/cfix/sequenceaction.c:205-215 (CfixsRunSequenceAction) *)
Fixpoint run_actions (Run : Z -> M Z) (ActionsArray : list Z) (Hr : Z) : M Z :=
  match ActionsArray with
  | [] => ret Hr
  | a :: as_ => Hr <- Run a ;; if FAILED Hr then ret Hr else run_actions Run as_ Hr
  end.

(** [Action->Run( Action, Context )] for both kinds of actions; the fuel bounds
    the nesting of sequences. *)
(* src/cfix/cfix/sequenceaction.c:124-227 (CfixsRunSequenceAction) *)
Fixpoint Run (fuel : nat) (This : Z) : M Z :=
  match fuel with
  | O => fault
  | S fuel =>
      o <- load This ;;
      match o with
      | TsExecAction _ m b =>
          ext (CfixsRunFixtureExecutionAction IsDebuggerPresent GetCurrentThreadId
                 (Modules m) Context_ b)
      | DisplayAction _ _ f => ext (CfixrunsRunDisplayAction PrintConsole f)
      | SequenceAction _ _ _ _ =>
          if negb (CfixIsValidContext Context_) then ret E_INVALIDARG else
          enter This ;;;
          o <- load This ;;
          match o with
          | SequenceAction _ es ActionsCount _ =>
              if ActionsCount =? 0 then leave This ;;; ret S_OK else
              ok <- ext malloc ;;
              if negb ok then leave This ;;; ret E_OUTOFMEMORY else
              for_each Reference es ;;;
              leave This ;;;
              Hr <- run_actions (Run fuel) es S_OK ;;
              for_each (Dereference (S fuel)) es ;;;
              ret Hr
          | _ => fault
          end
      end
  end.

(** Creation at a fresh address. *)
(* src/cfix/cfix/sequenceaction.c:234-277 (CfixCreateSequenceAction) *)
Definition CfixCreateSequenceAction (addr : Z) : M Z :=
  ok <- ext malloc ;;
  if negb ok then ret E_OUTOFMEMORY else
  store addr (SequenceAction 1 [] 0 0) ;;;
  ret S_OK.

(* src/cfix/cfix/sequenceaction.c:279-321 (CfixAddEntrySequenceAction) *)
Definition CfixAddEntrySequenceAction (This ActionToAdd : Z) : M Z :=
  if ActionToAdd =? This then ret E_INVALIDARG else
  o <- load This ;;
  match o with
  | TsExecAction _ _ _ | DisplayAction _ _ _ => ret E_INVALIDARG
  | SequenceAction _ _ _ _ =>
      ok <- ext malloc ;;
      if negb ok then ret E_OUTOFMEMORY else
      Reference ActionToAdd ;;;
      enter This ;;;
      o <- load This ;;
      match o with
      | SequenceAction n es c l => store This (SequenceAction n (es ++ [ActionToAdd]) (c + 1) l)
      | _ => fault
      end ;;;
      leave This ;;;
      ret S_OK
  end.

(** Creation of a fixture action at a fresh address. *)
(* src/cfix/cfix/tsexecaction.c:463-499 (CfixCreateFixtureExecutionAction) *)
Definition NewFixtureExecutionAction (addr ModuleId : Z) (Fx : CFIX_FIXTURE) (Fl Index : Z) : M Z :=
  r <- ext (CfixCreateFixtureExecutionAction (Modules ModuleId) malloc Fx Fl Index) ;;
  match snd r with
  | Some b => store addr (TsExecAction 1 ModuleId b) ;;; ret (fst r)
  | None => ret (fst r)
  end.
End actions.

(** ** Reference counts

    [G] maps the live objects to their entries; [refs G x] counts the references
    that sequences hold to [x]. *)
Definition count (x : Z) (l : list Z) : Z := Z.of_nat (length (filter (fun y => y = x) l)).

Definition refs (G : gmap Z (list Z)) (x : Z) : Z := map_fold (fun _ l n => count x l + n) 0 G.

Lemma count_nonneg x l : 0 <= count x l.
Proof. unfold count. lia. Qed.

Lemma count_cons x y l : count x (y :: l) = (if decide (y = x) then 1 else 0) + count x l.
Proof. unfold count. rewrite filter_cons. case_decide; simpl; lia. Qed.

Lemma count_app x l1 l2 : count x (l1 ++ l2) = count x l1 + count x l2.
Proof. unfold count. rewrite filter_app, length_app. lia. Qed.

Lemma count_in x l : x ∈ l -> 0 < count x l.
Proof.
  intros Hx. unfold count. assert (x ∈ filter (fun y => y = x) l) as H
    by (by apply list_elem_of_filter). destruct (filter _ l); [by apply not_elem_of_nil in H|].
  simpl. lia.
Qed.

Lemma count_nodup x l : NoDup l -> x ∈ l -> count x l = 1.
Proof.
  induction 1 as [|y l Hy Hn IH]; intros Hx; [by apply not_elem_of_nil in Hx|].
  rewrite count_cons. destruct (decide (y = x)) as [->|Hne].
  - unfold count. rewrite filter_none; [done|]. by intros z Hz ->.
  - apply elem_of_cons in Hx as [|Hx]; [done|]. by rewrite IH.
Qed.

Lemma refs_delete G a l x : G !! a = Some l -> refs G x = count x l + refs (delete a G) x.
Proof.
  intros Ha. unfold refs. rewrite <-(insert_delete_id G a l Ha) at 1.
  rewrite map_fold_insert_L; [done| |by rewrite lookup_delete_eq].
  intros j1 j2 z1 z2 y _ _ _. lia.
Qed.

Lemma refs_insert_new G a l x : G !! a = None -> refs (<[a := l]> G) x = count x l + refs G x.
Proof.
  intros Ha. rewrite (refs_delete _ a l) by apply lookup_insert_eq. by rewrite delete_insert_id.
Qed.

Lemma refs_nonneg G x : 0 <= refs G x.
Proof.
  induction G as [|a l G Ha IH] using map_ind; [done|].
  rewrite refs_insert_new by done. pose proof (count_nonneg x l). lia.
Qed.

Lemma refs_zero_notin G x a l : refs G x = 0 -> G !! a = Some l -> x ∉ l.
Proof.
  intros H0 Ha Hin. rewrite (refs_delete _ a l) in H0 by done.
  pose proof (count_in _ _ Hin). pose proof (refs_nonneg (delete a G) x). lia.
Qed.

(** Every live object's count is the number of references from outside ([ext_])
    plus those held by live sequences; no sequence refers to a dead object. *)
Record counted (os : ACTIONS) (G : gmap Z (list Z)) (ext_ : Z -> Z) : Prop := {
  cn_live : forall a l, G !! a = Some l ->
    exists o, os !! a = Some o /\ entries o = l /\ rc o = ext_ a + refs G a /\ 0 < rc o < 2 ^ 31;
  cn_ext : forall a, 0 <= ext_ a /\ (0 < ext_ a -> a ∈ dom G);
  cn_closed : forall a l x, G !! a = Some l -> x ∈ l -> x ∈ dom G }.

Section counting.
Context {X : Type} (Modules : Z -> CFIX_MODULE_ROUTINES X).

(** Releasing a module never fails. *)
Hypothesis Dereference_returns : forall m x, exists x', ModDereference (Modules m) x = Some (tt, x').

Local Abbreviation Deref := (Dereference Modules).

Definition bump (a : Z) (n : Z) (ext_ : Z -> Z) : Z -> Z := fun x =>
  if decide (x = a) then ext_ x + n else ext_ x.

Lemma load_spec This o (os : ACTIONS) (x : X) :
  os !! This = Some o -> load This (os, x) = Some (o, (os, x)).
Proof. unfold load. by intros ->. Qed.

Lemma entries_set_rc n o : entries (set_rc n o) = entries o.
Proof. by destruct o. Qed.
Lemma rc_set_rc n o : rc (set_rc n o) = n.
Proof. by destruct o. Qed.

(** A count that does not reach zero. *)
Lemma counted_decrement os G e a o :
  counted os G e -> os !! a = Some o -> a ∈ dom G -> 0 < e a -> rc o - 1 <> 0 ->
  counted (<[a := set_rc (rc o - 1) o]> os) G (bump a (-1) e).
Proof.
  intros [H1 H2 H3] Ho Ha He Hrc. split; [| |done].
  - intros b l Hb. destruct (H1 b l Hb) as (ob & Hob & Hen & Hrcb & Hpos). unfold bump.
    destruct (decide (b = a)) as [->|Hne].
    + simplify_eq. rewrite lookup_insert_eq. eexists. split; [done|].
      rewrite entries_set_rc, rc_set_rc. split; [done|lia].
    + rewrite lookup_insert_ne by done. by exists ob.
  - intros b. unfold bump. destruct (H2 b). case_decide; [subst; split; [lia|auto]|auto].
Qed.

(** A count that reaches zero: the object leaves the live ones, and its entries
    become references from outside. *)
Lemma counted_drop os G e a o o' :
  counted os G e -> os !! a = Some o -> G !! a = Some (entries o) -> 0 < e a -> rc o = 1 ->
  counted (<[a := o']> os) (delete a G) (fun x => bump a (-1) e x + count x (entries o)).
Proof.
  intros [H1 H2 H3] Ho Ha He Hrc.
  assert (e a = 1 /\ refs G a = 0) as [Hea Hra].
  { destruct (H1 _ _ Ha) as (o1 & Ho1 & _ & Hrc1 & _). simplify_eq.
    pose proof (refs_nonneg G a). lia. }
  assert (count a (entries o) = 0) as Hself.
  { pose proof (refs_delete G a _ a Ha). pose proof (refs_nonneg (delete a G) a).
    pose proof (count_nonneg a (entries o)). lia. }
  split.
  - intros b l Hb. apply lookup_delete_Some in Hb as [Hne Hb].
    destruct (H1 b l Hb) as (ob & Hob & Hen & Hrcb & Hpos). exists ob.
    rewrite lookup_insert_ne by done. do 2 (split; [done|]). unfold bump.
    rewrite decide_False by done. rewrite (refs_delete G a _ b Ha) in Hrcb. lia.
  - intros b. pose proof (count_nonneg b (entries o)). destruct (H2 b) as [Hb1 Hb2].
    unfold bump. destruct (decide (b = a)) as [->|Hne]; [split; lia|]. split; [lia|].
    rewrite dom_delete_L. intros Hpos. apply elem_of_difference. split; [|set_solver].
    destruct (decide (0 < e b)); [auto|]. apply (H3 a (entries o) b Ha).
    destruct (decide (b ∈ entries o)) as [|Hn]; [done|]. exfalso.
    unfold count in Hpos. rewrite filter_none in Hpos; [simpl in Hpos; lia|].
    intros y Hy ->. done.
  - intros b l x Hb Hx. apply lookup_delete_Some in Hb as [Hne Hb].
    rewrite dom_delete_L. apply elem_of_difference. split; [by eapply H3|].
    intros ->%elem_of_singleton. by eapply refs_zero_notin.
Qed.

(** What dereferencing guarantees: a part [G'] of the graph survives, the rest has
    been freed, and nothing else has been touched. *)
Definition released (os os' : ACTIONS) (G G' : gmap Z (list Z)) : Prop :=
  G' ⊆ G /\ (forall b, b ∉ dom G -> os' !! b = os !! b) /\
  (forall b, b ∈ dom G -> b ∉ dom G' -> os' !! b = None).

Lemma released_trans os1 os2 os3 G1 G2 G3 :
  released os1 os2 G1 G2 -> released os2 os3 G2 G3 -> released os1 os3 G1 G3.
Proof.
  intros (S1 & O1 & F1) (S2 & O2 & F2). pose proof (subseteq_dom _ _ S1).
  pose proof (subseteq_dom _ _ S2). split_and!.
  - by etrans.
  - intros b Hb. rewrite O2, O1; [done|done|set_solver].
  - intros b Hb1 Hb3. destruct (decide (b ∈ dom G2)); [auto|]. rewrite O2 by done. auto.
Qed.

Lemma counted_ext os G e e' : (forall x, e x = e' x) -> counted os G e -> counted os G e'.
Proof. intros He [H1 H2 H3]. split; [|intros a; rewrite <-He; auto|done]. intros. rewrite <-He. auto. Qed.

(** Dereferencing a list of objects, given that one can be dereferenced. *)
Lemma for_each_deref fuel l : forall os x G e,
  (forall a os x G e, (size G < fuel)%nat -> counted os G e -> 0 < e a ->
     exists os' x' G', Deref fuel a (os, x) = Some (tt, (os', x')) /\
       counted os' G' (bump a (-1) e) /\ released os os' G G') ->
  (size G < fuel)%nat -> counted os G (fun y => e y + count y l) -> (forall y, 0 <= e y) ->
  exists os' x' G', for_each (Deref fuel) l (os, x) = Some (tt, (os', x')) /\
    counted os' G' e /\ released os os' G G'.
Proof.
  induction l as [|a l IH]; intros os x G e Hd Hs Hc He; simpl.
  - exists os, x, G. split; [done|]. split; [|by split_and!].
    eapply counted_ext; [|exact Hc]. intros y. unfold count. simpl. lia.
  - destruct (Hd a os x G _ Hs Hc) as (os1 & x1 & G1 & E1 & Hc1 & Hr1).
    { rewrite count_cons, decide_True by done. pose proof (count_nonneg a l).
      specialize (He a). lia. }
    rewrite (bind_eq _ _ _ _ _ E1).
    assert (size G1 <= size G)%nat as Hsz by (apply map_subseteq_size, Hr1).
    destruct (IH os1 x1 G1 e) as (os2 & x2 & G2 & E2 & Hc2 & Hr2); [done|lia| |done|].
    + eapply counted_ext; [|exact Hc1]. intros y. unfold bump. simpl. rewrite count_cons.
      repeat case_decide; subst; try done; lia.
    + exists os2, x2, G2. split_and!; [done|done|by eapply released_trans].
Qed.

Lemma Dereference_counted fuel : forall a os x G e,
  (size G < fuel)%nat -> counted os G e -> 0 < e a ->
  exists os' x' G', Deref fuel a (os, x) = Some (tt, (os', x')) /\
    counted os' G' (bump a (-1) e) /\ released os os' G G'.
Proof.
  induction fuel as [|fuel IH]; intros a os x G e Hs Hc He; [lia|].
  pose proof (proj2 (cn_ext _ _ _ Hc a) He) as Ha.
  apply elem_of_dom in Ha as [l Hl].
  destruct (cn_live _ _ _ Hc a l Hl) as (o & Ho & <- & Hrc & Hpos).
  cbn [Dereference]. rewrite (bind_eq _ _ _ _ _ (load_spec _ _ _ _ Ho)).
  cbv zeta. rewrite LONG_small by lia. unfold store at 1. unfold bind at 1.
  destruct (Z.eqb_spec (rc o - 1) 0) as [Hz|Hz]; simpl.
  2:{ exists (<[a := set_rc (rc o - 1) o]> os), x, G. split; [done|]. split.
      - apply counted_decrement; try done. apply elem_of_dom. by eexists.
      - split_and!; [done| |done]. intros b Hb. rewrite lookup_insert_ne; [done|].
        intros ->. apply Hb, elem_of_dom. by eexists. }
  pose proof (counted_drop os G e a o (set_rc (rc o - 1) o) Hc Ho Hl He ltac:(lia)) as Hc1.
  assert (size (delete a G) < fuel)%nat as Hsz.
  { rewrite map_size_delete_Some by (by eexists). assert (size G <> 0)%nat; [|lia].
    apply map_size_non_empty_iff. intros ->. by rewrite lookup_empty in Hl. }
  assert (exists os2 x2 G2,
    match o with
    | TsExecAction _ m _ | DisplayAction _ m _ => ext (ModDereference (Modules m))
    | SequenceAction _ es _ _ => for_each (Deref fuel) es
    end (<[a := set_rc (rc o - 1) o]> os, x) = Some (tt, (os2, x2)) /\
    counted os2 G2 (bump a (-1) e) /\ released (<[a := set_rc (rc o - 1) o]> os) os2 (delete a G) G2)
    as (os2 & x2 & G2 & E2 & Hc2 & Hr2).
  { destruct o as [n m b|n es c k|n m b]; simpl in *.
    1, 3: (destruct (Dereference_returns m x) as [x' Hx]; unfold ext; rewrite Hx;
      eexists _, x', (delete a G); split; [done|]; split; [|by split_and!];
      eapply counted_ext; [|exact Hc1]; intros y; unfold count; simpl; lia).
    apply for_each_deref; [exact IH|done|exact Hc1|]. intros y. unfold bump.
      destruct (cn_ext _ _ _ Hc y). case_decide; subst; lia. }
  rewrite (bind_eq _ _ _ _ _ E2). unfold free.
  exists (delete a os2), x2, G2. split; [done|].
  destruct Hr2 as (S2 & O2 & F2). pose proof (subseteq_dom _ _ S2) as Hdom.
  rewrite dom_delete_L in *.
  split.
  - destruct Hc2 as [H1 H2 H3]. split; [|done|done]. intros b l Hb.
    destruct (H1 b l Hb) as (ob & Hob & Hrest). exists ob. split; [|done].
    rewrite lookup_delete_ne; [done|]. intros <-.
    assert (a ∈ dom G2) by (apply elem_of_dom; by eexists). set_solver.
  - split_and!.
    + etrans; [exact S2|]. apply delete_subseteq.
    + intros b Hb. assert (b <> a) by (intros ->; apply Hb, elem_of_dom; by eexists).
      rewrite lookup_delete_ne, O2, lookup_insert_ne; [done|done|set_solver|done].
    + intros b Hb Hb2. destruct (decide (b = a)) as [->|Hne]; [apply lookup_delete_eq|].
      rewrite lookup_delete_ne by done. apply F2; set_solver.
Qed.
End counting.

(** ** What running an action means

    The specification is a tree: a fixture runs as [TsExec] says, a node runs its
    children from left to right until one fails. *)
Inductive TREE :=
  | Leaf (ModuleId : Z) (Body : TSEXEC_ACTION)
  | Shown (ModuleId : Z) (Fixture : CFIX_FIXTURE)
  | Node (Children : list TREE).

Section running.
Context {X : Type}.
Variables (IsDebuggerPresent : ST X bool) (GetCurrentThreadId : ST X Z).
Variables (Modules : Z -> CFIX_MODULE_ROUTINES X) (Context_ : CFIX_EXECUTION_CONTEXT X).

Variable PrintConsole : string -> ST X unit.

Fixpoint run_tree (t : TREE) : ST X Z :=
  match t with
  | Leaf m b => CfixsRunFixtureExecutionAction IsDebuggerPresent GetCurrentThreadId
                  (Modules m) Context_ b
  | Shown _ f => CfixrunsRunDisplayAction PrintConsole f
  | Node ts =>
      (fix run_trees (ts : list TREE) (Hr : Z) : ST X Z :=
         match ts with
         | [] => ret Hr
         | t :: ts => Hr <- run_tree t ;; if FAILED Hr then ret Hr else run_trees ts Hr
         end) ts S_OK
  end.

Fixpoint run_trees (ts : list TREE) (Hr : Z) : ST X Z :=
  match ts with
  | [] => ret Hr
  | t :: ts => Hr <- run_tree t ;; if FAILED Hr then ret Hr else run_trees ts Hr
  end.

Lemma run_tree_node ts : run_tree (Node ts) = run_trees ts S_OK.
Proof.
  simpl. generalize S_OK. induction ts as [|t ts IH]; intros Hr; [done|]. simpl.
  f_equal.
Qed.

(** The tree an action unfolds to, up to depth [d]. *)
Fixpoint shape (d : nat) (os : ACTIONS) (a : Z) (t : TREE) : Prop :=
  match d with
  | O => False
  | S d =>
      match os !! a, t with
      | Some (TsExecAction _ m b), Leaf m' b' => m = m' /\ b = b'
      | Some (DisplayAction _ m f), Shown m' f' => m = m' /\ f = f'
      | Some (SequenceAction _ es c _), Node ts =>
          c = Z.of_nat (length es) /\ Forall2 (shape d os) es ts
      | _, _ => False
      end
  end.

(** The most references to [b] that running [a] holds at any one time: one for
    each time [b] is collected, on top of those of the nested run. *)
Definition maximum (l : list Z) : Z := foldr Z.max 0 l.

Fixpoint uses (d : nat) (os : ACTIONS) (a b : Z) : Z :=
  match d with
  | O => 0
  | S d =>
      match os !! a with
      | Some (SequenceAction _ es _ _) => count b es + maximum (map (fun e => uses d os e b) es)
      | _ => 0
      end
  end.

(** Every object is alive, and the run carries no count beyond the range of a LONG. *)
Definition countable (d : nat) (os : ACTIONS) (a : Z) : Prop :=
  forall b o, os !! b = Some o ->
    0 < rc o /\ (0 < uses d os a b -> rc o + uses d os a b < 2 ^ 31).

Lemma maximum_in (f : Z -> Z) l a : a ∈ l -> f a <= maximum (map f l).
Proof.
  induction l as [|b l IH]; intros Ha; [by apply not_elem_of_nil in Ha|].
  change (maximum (map f (b :: l))) with (Z.max (f b) (maximum (map f l))).
  apply elem_of_cons in Ha as [->|Ha]; [lia|]. specialize (IH Ha). lia.
Qed.

Lemma maximum_nonneg l : 0 <= maximum l.
Proof.
  induction l as [|a l IH]; [done|]. change (maximum (a :: l)) with (Z.max a (maximum l)). lia.
Qed.

(** The objects while references to [l] are held in addition. *)
Definition bumped (l : list Z) (os : ACTIONS) : ACTIONS :=
  map_imap (fun a o => Some (set_rc (rc o + count a l) o)) os.

Lemma bumped_lookup l os a :
  bumped l os !! a = (fun o => set_rc (rc o + count a l) o) <$> os !! a.
Proof. unfold bumped. rewrite map_lookup_imap. by destruct (os !! a). Qed.

Lemma set_rc_id o : set_rc (rc o) o = o.
Proof. by destruct o. Qed.
Lemma set_rc_set_rc n m o : set_rc n (set_rc m o) = set_rc n o.
Proof. by destruct o. Qed.

Lemma bumped_nil os : bumped [] os = os.
Proof.
  apply map_eq. intros a. rewrite bumped_lookup. destruct (os !! a) as [o|]; [|done].
  simpl. unfold count. simpl. by rewrite Z.add_0_r, set_rc_id.
Qed.

Lemma shape_bumped d l os : forall a t, shape d os a t -> shape d (bumped l os) a t.
Proof.
  induction d as [|d IH]; intros a t; [done|]. simpl. rewrite bumped_lookup.
  destruct (os !! a) as [[n m b|n es c k|n m b]|], t; simpl; try done.
  intros [-> Hf]. split; [done|]. eapply Forall2_impl; [exact Hf|]. auto.
Qed.

Lemma shape_alive d os a t : shape d os a t -> is_Some (os !! a).
Proof. destruct d; [done|]. simpl. destruct (os !! a); [by eexists|done]. Qed.

Lemma uses_bumped d l os : forall a b, uses d (bumped l os) a b = uses d os a b.
Proof.
  induction d as [|d IH]; intros a b; [done|]. simpl. rewrite bumped_lookup.
  destruct (os !! a) as [[n m f|n es c k|n m f]|]; simpl; try done.
  do 2 f_equal. apply map_ext. auto.
Qed.

(** The references to [l] carry no count beyond the range of a LONG. *)
Definition held_counts (l : list Z) (os : ACTIONS) : Prop :=
  forall b o, os !! b = Some o -> 0 < rc o /\ (0 < count b l -> rc o + count b l < 2 ^ 31).

(** The range that running a sequence needs covers the references to its entries,
    and, while these are held, what each entry needs. *)
Lemma countable_entries d os a n es c k :
  os !! a = Some (SequenceAction n es c k) -> countable (S d) os a ->
  held_counts es os.
Proof.
  intros Ha Hc b o Hb. destruct (Hc b o Hb) as [Hp Hu]. split; [done|]. simpl in Hu.
  rewrite Ha in Hu. intros Hn. pose proof (maximum_nonneg (map (fun e => uses d os e b) es)). lia.
Qed.

Lemma countable_bumped d os a n es c k e :
  os !! a = Some (SequenceAction n es c k) -> countable (S d) os a -> e ∈ es ->
  countable d (bumped es os) e.
Proof.
  intros Ha Hc He b o. rewrite bumped_lookup. destruct (os !! b) as [ob|] eqn:Hb; [|done].
  simpl. intros [= <-]. rewrite rc_set_rc, uses_bumped. destruct (Hc b ob Hb) as [Hp Hu].
  simpl in Hu. rewrite Ha in Hu. pose proof (count_nonneg b es).
  pose proof (maximum_in (fun e => uses d os e b) es e He). cbv beta in *. split; [lia|].
  intros Hn. lia.
Qed.

(** Taking the references, and giving them back. *)
Lemma for_each_Reference l : forall l0 os (x : X),
  (forall a, a ∈ l -> is_Some (os !! a)) ->
  held_counts (l0 ++ l) os ->
  for_each Reference l (bumped l0 os, x) = Some (tt, (bumped (l0 ++ l) os, x)).
Proof.
  induction l as [|a l IH]; intros l0 os x Hl Hb; simpl; [by rewrite app_nil_r|].
  destruct (Hl a) as [o Ho]; [set_solver|].
  assert (Reference a (bumped l0 os, x) = Some (tt, (bumped (l0 ++ [a]) os, x))) as E.
  { unfold Reference. erewrite bind_eq; [|apply load_spec; by rewrite bumped_lookup, Ho].
    unfold store. do 3 f_equal. apply map_eq. intros b. rewrite bumped_lookup, count_app, count_cons.
    destruct (decide (b = a)) as [->|Hne].
    - rewrite lookup_insert_eq, Ho. simpl. rewrite decide_True by done.
      rewrite set_rc_set_rc, rc_set_rc. destruct (Hb a o Ho) as [Hp Hu].
      rewrite count_app, count_cons, decide_True in Hu by done.
      pose proof (count_nonneg a l). pose proof (count_nonneg a l0).
      specialize (Hu ltac:(lia)). rewrite LONG_small by lia. unfold count at 3. simpl. by rewrite Z.add_assoc.
    - rewrite lookup_insert_ne, bumped_lookup by done. rewrite decide_False by done.
      unfold count at 3. simpl. by rewrite !Z.add_0_r. }
  rewrite (bind_eq _ _ _ _ _ E), IH by
    (intros; (apply Hl; set_solver) || (rewrite <-app_assoc; by apply Hb)).
  by rewrite <-app_assoc.
Qed.

Lemma for_each_unreference d l os (x : X) :
  held_counts l os -> (forall a, a ∈ l -> is_Some (os !! a)) ->
  for_each (Dereference Modules (S d)) l (bumped l os, x) = Some (tt, (os, x)).
Proof.
  induction l as [|a l IH]; intros Hpos Hl; [by rewrite bumped_nil|]. cbn [for_each].
  destruct (Hl a) as [o Ho]; [set_solver|].
  assert (Dereference Modules (S d) a (bumped (a :: l) os, x) = Some (tt, (bumped l os, x))) as E.
  { cbn [Dereference]. erewrite bind_eq; [|apply load_spec; by rewrite bumped_lookup, Ho].
    cbv zeta. destruct (Hpos _ _ Ho) as [Hp Hu]. rewrite count_cons, decide_True in Hu by done.
    rewrite rc_set_rc, count_cons, decide_True, set_rc_set_rc by done.
    pose proof (count_nonneg a l). specialize (Hu ltac:(lia)). rewrite LONG_small by lia.
    unfold store at 1. unfold bind at 1.
    rewrite (proj2 (Z.eqb_neq _ 0)) by lia. simpl. unfold ret. do 3 f_equal.
    apply map_eq. intros b. rewrite bumped_lookup. destruct (decide (b = a)) as [->|Hne].
    - rewrite lookup_insert_eq, Ho. simpl. do 2 f_equal. lia.
    - rewrite lookup_insert_ne, bumped_lookup, count_cons by done.
      rewrite decide_False by done. done. }
  rewrite (bind_eq _ _ _ _ _ E). apply IH; [|intros; apply Hl; set_solver].
  intros b ob Hb. destruct (Hpos b ob Hb) as [Hp Hu]. split; [done|]. intros Hn.
  rewrite count_cons in Hu. case_decide; lia.
Qed.

(** Collecting the entries under the lock leaves the references and the lock as
    if only the references had been taken. *)
Lemma collect This n es c k os (x : X) :
  os !! This = Some (SequenceAction n es c k) ->
  (forall a, a ∈ es -> is_Some (os !! a)) ->
  held_counts es os ->
  enter This (os, x) = Some (tt, (<[This := SequenceAction n es c (k + 1)]> os, x)) /\
  for_each Reference es (<[This := SequenceAction n es c (k + 1)]> os, x) =
    Some (tt, (bumped es (<[This := SequenceAction n es c (k + 1)]> os), x)) /\
  leave This (bumped es (<[This := SequenceAction n es c (k + 1)]> os), x) =
    Some (tt, (bumped es os, x)) /\
  leave This (<[This := SequenceAction n es c (k + 1)]> os, x) = Some (tt, (os, x)).
Proof.
  intros Ho Hes Hb. split_and!.
  - unfold enter. by rewrite (bind_eq _ _ _ _ _ (load_spec _ _ _ _ Ho)).
  - rewrite <-(bumped_nil (<[This := _]> os)) at 1. apply for_each_Reference.
    + intros a Ha. destruct (decide (a = This)) as [->|Hne].
      * rewrite lookup_insert_eq. by eexists.
      * rewrite lookup_insert_ne by done. auto.
    + intros a o. destruct (decide (a = This)) as [->|Hne].
      * rewrite lookup_insert_eq. intros [= <-]. apply (Hb _ _ Ho).
      * rewrite lookup_insert_ne by done. apply Hb.
  - unfold leave. erewrite bind_eq; [|apply load_spec; rewrite bumped_lookup, lookup_insert_eq; done].
    simpl. unfold store. do 3 f_equal. apply map_eq. intros b.
    destruct (decide (b = This)) as [->|Hne].
    + rewrite lookup_insert_eq, bumped_lookup, Ho. simpl. do 2 f_equal. lia.
    + by rewrite lookup_insert_ne, !bumped_lookup, lookup_insert_ne by done.
  - unfold leave. erewrite bind_eq; [|apply load_spec; by rewrite lookup_insert_eq].
    simpl. unfold store. do 3 f_equal. rewrite insert_insert_eq. apply insert_id. rewrite Ho.
    do 2 f_equal. lia.
Qed.

Lemma run_actions_trees (Run_ : Z -> ST (ACTIONS * X) Z) os es ts :
  Forall2 (fun a t => forall x, Run_ a (os, x) =
    match run_tree t x with Some (r, x') => Some (r, (os, x')) | None => None end) es ts ->
  forall Hr x, run_actions Run_ es Hr (os, x) =
    match run_trees ts Hr x with Some (r, x') => Some (r, (os, x')) | None => None end.
Proof.
  induction 1 as [|a t es ts Ha Hes IH]; intros Hr x; [done|]. simpl.
  unfold bind. rewrite Ha. destruct (run_tree t x) as [[r x']|]; [|done].
  destruct (FAILED r); [done|apply IH].
Qed.

Lemma Run_tree d : forall os a t x,
  CfixIsValidContext Context_ = true ->
  countable d os a -> shape d os a t ->
  Run IsDebuggerPresent GetCurrentThreadId Modules Context_ PrintConsole (ret true) d a (os, x) =
  match run_tree t x with Some (r, x') => Some (r, (os, x')) | None => None end.
Proof.
  induction d as [|d IH]; intros os a t x HC Hpos Hs; [done|]. cbn [Run]. simpl in Hs.
  destruct (os !! a) as [o|] eqn:Ho; [|done].
  rewrite (bind_eq _ _ _ _ _ (load_spec _ _ _ _ Ho)).
  destruct o as [n m b|n es c k|n m b], t as [m' b'|m' b'|ts]; try done.
  1, 3: destruct Hs as [-> ->]; simpl; unfold ext; done.
  destruct Hs as [-> Hf]. rewrite HC, run_tree_node. cbn [negb].
  assert (forall e, e ∈ es -> is_Some (os !! e)) as Hes.
  { intros e He. apply list_elem_of_lookup in He as [i Hi].
    destruct (Forall2_lookup_l _ _ _ _ _ Hf Hi) as (t & _ & Ht). by eapply shape_alive. }
  pose proof (countable_entries d os a n es _ k Ho Hpos) as Hbound.
  destruct (collect a n es (Z.of_nat (length es)) k os x Ho Hes Hbound) as (E1 & E2 & E3 & E4).
  rewrite (bind_eq _ _ _ _ _ E1). erewrite bind_eq by (apply load_spec; by rewrite lookup_insert_eq).
  lazy iota beta. destruct (Z.eqb_spec (Z.of_nat (length es)) 0) as [Hz|Hz].
  { destruct es; [|simpl in Hz; lia]. inversion Hf. subst.
    etrans; [exact (bind_eq _ (fun _ => ret S_OK) _ _ _ E4)|done]. }
  erewrite (bind_eq (ext (ret true))) by reflexivity. lazy iota beta delta [negb].
  rewrite (bind_eq _ _ _ _ _ E2), (bind_eq _ _ _ _ _ E3).
  assert (Forall2 (fun e t => forall y,
      Run IsDebuggerPresent GetCurrentThreadId Modules Context_ PrintConsole (ret true) d e (bumped es os, y) =
      match run_tree t y with Some (r, y') => Some (r, (bumped es os, y')) | None => None end) es ts)
    as Hall.
  { apply Forall2_same_length_lookup. split; [by eapply Forall2_length|].
    intros i e t He Ht y. apply IH; [done| |].
    - eapply countable_bumped; [exact Ho|exact Hpos|]. by eapply list_elem_of_lookup_2.
    - apply shape_bumped. by eapply Forall2_lookup_lr. }
  unfold bind at 1. rewrite (run_actions_trees _ _ _ _ Hall).
  destruct (run_trees ts S_OK x) as [[r x']|]; [|done].
  by rewrite (bind_eq _ _ _ _ _ (for_each_unreference d es os x' Hbound Hes)).
Qed.
(** C4. Sequences.  Running an action, however deeply sequences are nested, is
    running the tree it unfolds to: fixtures from left to right, stopping at the
    first failure, whose result is the result of the whole run.  Every reference
    taken for the run is given back and every lock is released: the action
    objects, their counts included, are exactly what they were.  The run needs
    no more fuel than the tree is deep, so it never recurses without end.  Counts
    are LONGs: the references that the run takes must not carry one beyond
    [2 ^ 31 - 1] ([countable]). *)
Theorem Run_is_run_tree d : forall os a t x,
  CfixIsValidContext Context_ = true ->
  countable d os a -> shape d os a t ->
  Run IsDebuggerPresent GetCurrentThreadId Modules Context_ PrintConsole (ret true) d a (os, x) =
  match run_tree t x with Some (r, x') => Some (r, (os, x')) | None => None end.
Proof. apply Run_tree. Qed.
End running.

(** ** The life cycle of action objects *)
Section lifecycle.
Context {X : Type}.
Variables (Modules : Z -> CFIX_MODULE_ROUTINES X).
Hypothesis Dereference_returns : forall m x, exists x', ModDereference (Modules m) x = Some (tt, x').
Hypothesis Reference_returns : forall m x, exists x', ModReference (Modules m) x = Some (tt, x').

(** What a client does with actions; addresses of new objects are fresh. *)
Inductive op :=
  | NewSequence (addr : Z)
  | NewFixture (addr ModuleId : Z) (Fx : CFIX_FIXTURE) (Fl Index : Z)
  | Add (Sequence Action : Z)
  | AddRef (Action : Z)
  | Release (Action : Z).

Definition exec (fuel : nat) (o : op) : ST (ACTIONS * X) Z :=
  match o with
  | NewSequence a => CfixCreateSequenceAction (ret true) a
  | NewFixture a m f fl i => NewFixtureExecutionAction Modules (ret true) a m f fl i
  | Add s a => CfixAddEntrySequenceAction (ret true) s a
  | AddRef a => Reference a ;;; ret S_OK
  | Release a => Dereference Modules fuel a ;;; ret S_OK
  end.

(** The references the client holds after an operation that returned [r]. *)
Definition holds (o : op) (r : Z) (e : Z -> Z) : Z -> Z :=
  match o with
  | NewSequence a | NewFixture a _ _ _ _ => if r =? S_OK then bump a 1 e else e
  | Add _ _ => e
  | AddRef a => bump a 1 e
  | Release a => bump a (-1) e
  end.

Definition graph (os : ACTIONS) : gmap Z (list Z) := entries <$> os.

(** The client uses only what it holds, and takes no more references than a LONG
    counts: [e a + refs (graph os) a] is the number of references there are. *)
Definition allowed (o : op) (os : ACTIONS) (e : Z -> Z) : Prop :=
  match o with
  | NewSequence a | NewFixture a _ _ _ _ => os !! a = None
  | Add s a => 0 < e s /\ 0 < e a /\ e a + refs (graph os) a + 1 < 2 ^ 31
  | AddRef a => 0 < e a /\ e a + refs (graph os) a + 1 < 2 ^ 31
  | Release a => 0 < e a
  end.

Lemma counted_new os e a o :
  counted os (graph os) e -> os !! a = None -> entries o = [] -> rc o = 1 ->
  counted (<[a := o]> os) (graph (<[a := o]> os)) (bump a 1 e).
Proof.
  intros [H1 H2 H3] Ha Ho Hrc. unfold graph in *.
  assert ((entries <$> os) !! a = None) as HG by (by rewrite lookup_fmap, Ha).
  assert (e a = 0 /\ refs (entries <$> os) a = 0) as [Hea Hra].
  { destruct (H2 a) as [Hea Hdom]. split.
    - destruct (decide (0 < e a)) as [Hp|]; [|lia].
      apply Hdom, elem_of_dom in Hp. rewrite HG in Hp. by destruct Hp.
    - destruct (decide (refs (entries <$> os) a = 0)) as [|Hne]; [done|]. exfalso.
      assert (forall G, (forall b l x, G !! b = Some l -> x ∈ l -> x <> a) -> refs G a = 0) as Hz.
      { clear. intros G. induction G as [|b l G Hb IH] using map_ind; intros HG; [done|].
        rewrite refs_insert_new, IH by
          (done || (intros c k x Hc; apply (HG c k x);
            rewrite lookup_insert_ne by (intros ->; congruence); done)).
        unfold count. rewrite filter_none; [done|]. intros y Hy.
        eapply HG; [apply lookup_insert_eq|done]. }
      apply Hne, Hz. intros b l x Hb Hx ->. pose proof (H3 b l a Hb Hx) as Hd.
      apply elem_of_dom in Hd. rewrite HG in Hd. by destruct Hd. }
  rewrite fmap_insert, Ho. split.
  - intros b l. destruct (decide (b = a)) as [->|Hne].
    + rewrite !lookup_insert_eq. intros [= <-]. exists o. do 2 (split; [done|]).
      unfold bump. rewrite decide_True, refs_insert_new by done. unfold count. simpl. lia.
    + rewrite !lookup_insert_ne by done. intros Hb. destruct (H1 b l Hb) as (ob & ? & ? & ? & ?).
      exists ob. do 2 (split; [done|]). unfold bump. rewrite decide_False, refs_insert_new by done.
      unfold count. simpl. lia.
  - intros b. unfold bump. rewrite dom_insert_L. destruct (H2 b). case_decide; [subst|];
      (split; [lia|]); set_solver.
  - intros b l x. destruct (decide (b = a)) as [->|Hne].
    + rewrite lookup_insert_eq. intros [= <-] Hx. by apply not_elem_of_nil in Hx.
    + rewrite lookup_insert_ne by done. rewrite dom_insert_L. intros Hb Hx.
      apply elem_of_union_r. by eapply H3.
Qed.

Lemma graph_lookup os a o : os !! a = Some o -> graph os !! a = Some (entries o).
Proof. intros Ha. unfold graph. by rewrite lookup_fmap, Ha. Qed.

Lemma counted_held os e a : counted os (graph os) e -> 0 < e a -> exists o, os !! a = Some o.
Proof.
  intros Hc He. pose proof (proj2 (cn_ext _ _ _ Hc a) He) as Hd. unfold graph in Hd.
  rewrite dom_fmap_L in Hd. by apply elem_of_dom in Hd.
Qed.

Lemma counted_rc os e a o :
  counted os (graph os) e -> os !! a = Some o -> rc o = e a + refs (graph os) a /\ 0 < rc o.
Proof.
  intros Hc Ho. destruct (cn_live _ _ _ Hc a _ (graph_lookup _ _ _ Ho)) as (o' & Ho' & _ & Hrc & Hpos).
  simplify_eq. split; [done|lia].
Qed.

(** One more reference, held from outside or by a sequence. *)
Lemma counted_add_ref os e a o :
  counted os (graph os) e -> os !! a = Some o -> rc o + 1 < 2 ^ 31 ->
  counted (<[a := set_rc (rc o + 1) o]> os) (graph (<[a := set_rc (rc o + 1) o]> os)) (bump a 1 e).
Proof.
  intros [H1 H2 H3] Ha Hmax. pose proof (graph_lookup _ _ _ Ha) as HG.
  assert (graph (<[a := set_rc (rc o + 1) o]> os) = graph os) as ->.
  { unfold graph in *. rewrite fmap_insert, entries_set_rc. by apply insert_id. }
  split; [| |done].
  - intros b l Hb. destruct (H1 b l Hb) as (ob & Hob & Hen & Hrc & Hpos). unfold bump.
    destruct (decide (b = a)) as [->|Hne].
    + simplify_eq. rewrite lookup_insert_eq. eexists. split; [done|].
      rewrite entries_set_rc, rc_set_rc. split; [done|lia].
    + rewrite lookup_insert_ne by done. by exists ob.
  - intros b. unfold bump. destruct (H2 b). case_decide; subst; (split; [lia|]); auto.
    intros _. apply elem_of_dom. by eexists.
Qed.

(** A reference that a sequence takes over from outside. *)
Lemma counted_enlist os e s a n es c k o :
  counted os (graph os) (bump a 1 e) -> (forall x, 0 <= e x) ->
  os !! s = Some (SequenceAction n es c k) -> os !! a = Some o ->
  counted (<[s := SequenceAction n (es ++ [a]) (c + 1) k]> os)
          (graph (<[s := SequenceAction n (es ++ [a]) (c + 1) k]> os)) e.
Proof.
  intros [H1 H2 H3] He Hs Ha. pose proof (graph_lookup _ _ _ Hs) as HGs.
  pose proof (graph_lookup _ _ _ Ha) as HGa. unfold graph in *. rewrite fmap_insert.
  simpl in *.
  assert (forall x, refs (<[s := es ++ [a]]> (entries <$> os)) x =
    refs (entries <$> os) x + (if decide (x = a) then 1 else 0)) as Hrefs.
  { intros x. rewrite (refs_delete _ s (es ++ [a])) by apply lookup_insert_eq.
    rewrite delete_insert_eq, (refs_delete _ s es x HGs), count_app, count_cons.
    unfold count at 2. simpl. repeat case_decide; congruence || lia. }
  split.
  - intros b l Hb. rewrite Hrefs. destruct (decide (b = s)) as [->|Hne].
    + rewrite lookup_insert_eq in Hb. injection Hb as <-. rewrite lookup_insert_eq.
      destruct (H1 s es HGs) as (os' & Ho & _ & Hrc & Hpos). simplify_eq. simpl in *.
      eexists. do 2 (split; [done|]). simpl. unfold bump in Hrc.
      repeat case_decide; subst; simplify_eq; lia.
    + rewrite lookup_insert_ne in Hb by done. rewrite lookup_insert_ne by done.
      destruct (H1 b l Hb) as (ob & Ho & Hen & Hrc & Hpos). exists ob. do 2 (split; [done|]).
      unfold bump in Hrc. case_decide; lia.
  - intros b. split; [done|]. intros Hb. rewrite dom_insert_L. apply elem_of_union_r, (H2 b).
    unfold bump. case_decide; lia.
  - intros b l x Hb Hx. rewrite dom_insert_L. apply elem_of_union_r.
    destruct (decide (b = s)) as [->|Hne].
    + rewrite lookup_insert_eq in Hb. injection Hb as <-. apply elem_of_app in Hx as [Hx|Hx].
      * by eapply H3; [exact HGs|].
      * apply list_elem_of_singleton in Hx as ->. apply elem_of_dom. by eexists.
    + rewrite lookup_insert_ne in Hb by done. by eapply H3.
Qed.

Lemma counted_released os os' G' e :
  counted os' G' e -> released os os' (graph os) G' -> graph os' = G'.
Proof.
  intros Hc (Hsub & Hout & Hfree). apply map_eq. intros b.
  destruct (G' !! b) as [l|] eqn:Hb.
  - destruct (cn_live _ _ _ Hc b l Hb) as (o & Ho & <- & _). by apply graph_lookup.
  - assert (os' !! b = None) as Hn; [|unfold graph; by rewrite lookup_fmap, Hn].
    destruct (decide (b ∈ dom (graph os))) as [Hd|Hd].
    + apply Hfree; [done|]. by apply not_elem_of_dom.
    + rewrite Hout by done. unfold graph in Hd. rewrite dom_fmap_L in Hd.
      by apply not_elem_of_dom in Hd.
Qed.

Lemma exec_add os e s a (x : X) :
  counted os (graph os) e -> 0 < e s -> 0 < e a -> e a + refs (graph os) a + 1 < 2 ^ 31 ->
  exists r os', CfixAddEntrySequenceAction (ret true) s a (os, x) = Some (r, (os', x)) /\
    counted os' (graph os') e.
Proof.
  intros Hc Hs Ha Hmax. unfold CfixAddEntrySequenceAction.
  destruct (Z.eqb_spec a s) as [->|Hne]; [by eexists _, os|].
  destruct (counted_held _ _ _ Hc Hs) as [o Ho]. destruct (counted_held _ _ _ Hc Ha) as [oa Hoa].
  rewrite (bind_eq _ _ _ _ _ (load_spec _ _ _ _ Ho)).
  destruct o as [n m b|n es c k|n m b]; [by eexists _, os| |by eexists _, os].
  erewrite (bind_eq (ext (ret true))) by reflexivity. cbn [negb].
  unfold Reference. rewrite bind_assoc, (bind_eq _ _ _ _ _ (load_spec _ _ _ _ Hoa)).
  pose proof (counted_rc _ _ _ _ Hc Hoa) as [Hrc Hpos]. rewrite LONG_small by lia.
  pose proof (counted_add_ref os e a oa Hc Hoa ltac:(lia)) as Hc1.
  set (os1 := <[a := set_rc (rc oa + 1) oa]> os) in *.
  unfold store at 1. unfold bind at 1.
  assert (os1 !! s = Some (SequenceAction n es c k)) as Hs1 by (unfold os1; by rewrite lookup_insert_ne).
  assert (is_Some (os1 !! a)) as [oa1 Ha1] by (unfold os1; rewrite lookup_insert_eq; by eexists).
  unfold enter. rewrite bind_assoc, (bind_eq _ _ _ _ _ (load_spec _ _ _ _ Hs1)).
  unfold store at 1. unfold bind at 1.
  erewrite bind_eq; [|apply load_spec, lookup_insert_eq].
  unfold store at 1. unfold bind at 1. rewrite insert_insert_eq.
  unfold leave. rewrite bind_assoc. erewrite bind_eq; [|apply load_spec, lookup_insert_eq].
  unfold store at 1. unfold bind at 1. rewrite insert_insert_eq. unfold ret.
  eexists _, _. split; [done|]. replace (k + 1 - 1) with k by lia.
  eapply counted_enlist; [exact Hc1| |exact Hs1|exact Ha1]. intros y. apply (cn_ext _ _ _ Hc y).
Qed.

Lemma exec_new_fixture os e a m fl fx i (x : X) :
  counted os (graph os) e -> os !! a = None ->
  exists r os' x', NewFixtureExecutionAction Modules (ret true) a m fx fl i (os, x) = Some (r, (os', x')) /\
    counted os' (graph os') (if r =? S_OK then bump a 1 e else e).
Proof.
  intros Hc Ha. unfold NewFixtureExecutionAction, CfixCreateFixtureExecutionAction, bind at 1, ext.
  destruct (negb (i =? ALL_TESTCASES) && (TestCaseCount fx <=? i)).
  { by eexists _, os, x. }
  rewrite bind_ret. cbn [negb]. destruct (Reference_returns m x) as [x' Hx].
  unfold bind at 1. rewrite Hx. eexists _, _, x'. split; [done|]. by apply counted_new.
Qed.

(** C5. Reference counting of actions.  Whatever a client does with actions it
    holds references to -- creating, adding to sequences (also cyclically),
    referencing, releasing -- every operation returns, and every live action's
    count remains exactly the number of references held by the client and by live
    sequences: no action is freed while it is referred to, no reference dangles,
    and an action nobody refers to is gone.  The counts are LONGs that wrap
    around, so the client must stop at [2 ^ 31 - 1] references to one action
    ([Demo.count_wraps] shows the next one).  Once the client has released
    everything, and the sequences are not cyclic, no action is left. *)
Theorem action_references fuel o os e (x : X) :
  counted os (graph os) e -> (size os < fuel)%nat -> allowed o os e ->
  (exists r os' x', exec fuel o (os, x) = Some (r, (os', x')) /\
     counted os' (graph os') (holds o r e)) /\
  ((forall a, e a = 0) ->
   (exists rank : Z -> nat, forall a l b, graph os !! a = Some l -> b ∈ l -> (rank b < rank a)%nat) ->
   os = ∅).
Proof.
  intros Hc Hf Hal. split.
  - destruct o as [a|a m fx fl i|s a|a|a]; simpl in *.
    + eexists _, _, x. split; [reflexivity|]. by apply counted_new.
    + by apply exec_new_fixture.
    + destruct Hal as (Hs & Ha & Hmax). destruct (exec_add os e s a x Hc Hs Ha Hmax) as (r & os' & E & Hc').
      by exists r, os', x.
    + destruct Hal as [Ha Hmax]. destruct (counted_held _ _ _ Hc Ha) as [o Ho]. unfold Reference.
      rewrite bind_assoc, (bind_eq _ _ _ _ _ (load_spec _ _ _ _ Ho)).
      destruct (counted_rc _ _ _ _ Hc Ho). rewrite LONG_small by lia.
      eexists _, _, x. split; [reflexivity|]. apply counted_add_ref; [done|done|lia].
    + destruct (Dereference_counted Modules Dereference_returns fuel a os x (graph os) e)
        as (os' & x' & G' & E & Hc' & Hr); [unfold graph; by rewrite map_size_fmap|done|done|].
      rewrite (bind_eq _ _ _ _ _ E). exists S_OK, os', x'. split; [done|].
      by rewrite (counted_released _ _ _ _ Hc' Hr).
  - intros He [rank Hrank]. destruct (decide (os = ∅)) as [|Hne]; [done|]. exfalso.
    assert (forall n a, (exists l, graph os !! a = Some l) ->
      exists b l, graph os !! b = Some l /\ (rank a + n <= rank b)%nat) as Hup.
    { induction n as [|n IH]; intros a [l Ha]; [exists a, l; split; [done|lia]|].
      destruct (cn_live _ _ _ Hc a l Ha) as (oa & _ & _ & Hrc & Hpos). rewrite He in Hrc.
      assert (exists b l', graph os !! b = Some l' /\ a ∈ l') as (b & l' & Hb & Hin).
      { assert (0 < refs (graph os) a) as Hp by lia. revert Hp. generalize (graph os) as G.
        clear. intros G. induction G as [|c l G Hc IH] using map_ind; [done|].
        rewrite refs_insert_new by done. intros Hp.
        destruct (decide (a ∈ l)); [exists c, l; by rewrite lookup_insert_eq|].
        destruct IH as (b & l' & Hb & Hin).
        { unfold count in Hp. rewrite filter_none in Hp; [simpl in Hp; lia|]. by intros y Hy ->. }
        exists b, l'. rewrite lookup_insert_ne by (intros ->; congruence). done. }
      pose proof (Hrank b l' a Hb Hin). destruct (IH b ltac:(by exists l')) as (d & l'' & Hd & Hle).
      exists d, l''. split; [done|lia]. }
    destruct (map_choose os Hne) as (a & o' & Ha).
    assert (forall l : list Z, exists n, forall y, y ∈ l -> (rank y < n)%nat) as Hbound.
    { clear. induction l as [|y l [n IH]]; [exists 0%nat; intros y Hy%not_elem_of_nil; done|].
      exists (S (max n (rank y))). intros z [->|Hz]%elem_of_cons; [lia|]. specialize (IH z Hz). lia. }
    destruct (Hbound (elements (dom (graph os)))) as [n Hn].
    destruct (Hup n a) as (b & l & Hb & Hle); [eexists; by apply graph_lookup|].
    specialize (Hn b). rewrite elem_of_elements, elem_of_dom in Hn. specialize (Hn ltac:(by exists l)).
    lia.
Qed.
End lifecycle.

(** ** Concrete actions: a sequence of a fixture and a sequence *)
Module Demo.
Definition mods (m : Z) : CFIX_MODULE_ROUTINES unit := TsExec.Demo.second S_OK.
Definition objects : ACTIONS :=
  list_to_map [(1, SequenceAction 1 [2; 3] 2 0); (2, TsExecAction 1 0 (TsExec.Demo.all 0));
               (3, SequenceAction 1 [2] 1 0)].
Definition objects' : ACTIONS :=
  list_to_map [(1, SequenceAction 1 [2; 3] 2 0); (2, TsExecAction 2 0 (TsExec.Demo.all 0));
               (3, SequenceAction 1 [2] 1 0)].
Definition held (a : Z) : Z := if decide (a = 1) then 1 else 0.

Lemma Run_is_run_tree_witness :
  Run (ret false) (ret 1) mods TsExec.Demo.quiet (fun _ => ret tt) (ret true) 3 1 (objects, tt) =
  Some (S_OK, (objects, tt)).
Proof.
  rewrite (Run_is_run_tree (ret false) (ret 1) mods TsExec.Demo.quiet (fun _ => ret tt) 3 objects 1
    (Node [Leaf 0 (TsExec.Demo.all 0); Node [Leaf 0 (TsExec.Demo.all 0)]]) tt).
  - vm_compute. reflexivity.
  - reflexivity.
  - assert (map_Forall (fun b o => 0 < rc o /\ rc o + uses 3 objects 1 b < 2 ^ 31) objects) as H
      by (by apply (bool_decide_unpack _); vm_compute).
    intros b o Hb. split; [exact (proj1 (H b o Hb))|]. intros _. exact (proj2 (H b o Hb)).
  - repeat (split || constructor).
Defined.

Lemma objects_counted : counted objects' (graph objects') held.
Proof.
  assert (forall a : Z, a ∈ dom objects' -> a = 1 \/ a = 2 \/ a = 3) as Hdom.
  { intros a Ha. assert (list_to_set (C := gset Z) [1; 2; 3] = dom objects') as E by by vm_compute.
    rewrite <-E in Ha. set_solver. }
  split.
  - intros a l Ha. unfold graph in Ha. rewrite lookup_fmap in Ha.
    assert (a = 1 \/ a = 2 \/ a = 3) as Hc.
    { apply Hdom, elem_of_dom. destruct (objects' !! a); [by eexists|done]. }
    destruct Hc as [-> | [-> | ->]]; vm_compute in Ha; injection Ha as <-; 
      (eexists; do 3 (split; [vm_compute; reflexivity|]); by vm_compute).
  - intros a. unfold held. case_decide; [subst|]; (split; [lia|]); [|lia].
    intros _. vm_compute. set_solver.
  - intros a l x Ha Hx. unfold graph in *. rewrite lookup_fmap in Ha. rewrite dom_fmap_L.
    assert (a = 1 \/ a = 2 \/ a = 3) as Hc.
    { apply Hdom, elem_of_dom. destruct (objects' !! a); [by eexists|done]. }
    apply elem_of_dom.
    destruct Hc as [-> | [-> | ->]]; vm_compute in Ha; injection Ha as <-;
      repeat (apply elem_of_cons in Hx as [->|Hx]; [by eexists|]); by apply not_elem_of_nil in Hx.
Qed.

Lemma action_references_witness :
  exists r os' x', exec mods 4 (Release 1) (objects', tt) = Some (r, (os', x')) /\
    counted os' (graph os') (bump 1 (-1) held).
Proof.
  refine (proj1 (action_references mods _ _ 4 (Release 1) objects' held tt objects_counted _ _)).
  - intros m x. by exists x.
  - intros m x. by exists x.
  - apply Nat.ltb_lt. vm_compute. reflexivity.
  - vm_compute. reflexivity.
Defined.

(** One reference more than a LONG counts: the count turns negative, and is no
    longer the number of references. *)
Example count_wraps :
  exists o, exec mods 4 (AddRef 1) ({[ 1 := SequenceAction (2 ^ 31 - 1) [] 0 0 ]}, tt) =
    Some (S_OK, ({[ 1 := o ]}, tt)) /\ rc o = - 2 ^ 31.
Proof. eexists. split; vm_compute; reflexivity. Qed.
End Demo.
