(* ===== verification/Filament.v ===== *)
(** * Filaments (cfix/cfix/filament.c, cfix/cfix/tls.c)

    A filament is the set of threads that belong to one test routine.  The world
    holds the filament structures at their addresses, the three thread local
    slots of every thread, the default filament with its lock, the open thread
    handles, and the world [X] of the execution contexts.  Operations take the
    identifier [Tid] of the thread they run on; entering a lock that another
    thread holds has no outcome, because the call does not return. *)
From stdpp Require Import base gmap list strings.
From Stdlib Require Import ZArith Lia.
From S2P Require Import Prelude CfixApi.

Definition CFIX_MAX_THREADS : Z := 64.
Definition CFIXP_FILAMENT_FLAG_CAPTURE_STACK_TRACES : Z := 1.
Definition CFIXP_FILAMENT_FLAG_DEFAULT_FILAMENT : Z := 2.

(** An execution context is referred to by its address. *)
(* src/cfix/cfix/cfixp.h:146-182 (CFIXP_FILAMENT) *)
Record CFIXP_FILAMENT := MkFilament {
  ExecutionContext : Z;
  FilMainThreadId : Z;
  Threads : list Z;
  FilFlags : Z;
  DefaultSlot : Z;
  CcSlot : Z }.

Definition set_Threads (l : list Z) (f : CFIXP_FILAMENT) : CFIXP_FILAMENT :=
  MkFilament (ExecutionContext f) (FilMainThreadId f) l (FilFlags f) (DefaultSlot f) (CcSlot f).
Definition set_DefaultSlot (v : Z) (f : CFIXP_FILAMENT) : CFIXP_FILAMENT :=
  MkFilament (ExecutionContext f) (FilMainThreadId f) (Threads f) (FilFlags f) v (CcSlot f).
Definition set_CcSlot (v : Z) (f : CFIXP_FILAMENT) : CFIXP_FILAMENT :=
  MkFilament (ExecutionContext f) (FilMainThreadId f) (Threads f) (FilFlags f) (DefaultSlot f) v.

(** A critical section: its owner, and how often the owner has entered it. *)
Record LOCK := MkLock { Owner : option Z; Depth : Z }.
Definition free_lock : LOCK := MkLock None 0.

(** The slots that [CfixpSetupFilamentTls] allocates. *)
(* src/cfix/cfix/filament.c:35-61 (CfixsTlsSlotForFilament, CfixsDefaultFilament) *)
Inductive SLOT := TlsSlotForFilament | DefaultStorageSlot | ReservedForCcStorageSlot.

#[export] Instance SLOT_eq_dec : EqDecision SLOT.
Proof. solve_decision. Defined.

Record FW (X : Type) := MkFW {
  Filaments : gmap Z CFIXP_FILAMENT;
  Tls : Z -> SLOT -> Z;
  DefaultFilament : Z;
  DefaultLock : LOCK;
  Handles : gset Z;
  Ext : X }.
Arguments MkFW {X}. Arguments Filaments {X}. Arguments Tls {X}. Arguments DefaultFilament {X}.
Arguments DefaultLock {X}. Arguments Handles {X}. Arguments Ext {X}.

Section setters.
Context {X : Type}.
Implicit Types (s : FW X).
Definition set_Filaments (m : gmap Z CFIXP_FILAMENT) s :=
  MkFW m (Tls s) (DefaultFilament s) (DefaultLock s) (Handles s) (Ext s).
Definition set_Tls (Tid : Z) (slot : SLOT) (v : Z) s :=
  MkFW (Filaments s)
    (fun t sl => if decide (t = Tid /\ sl = slot) then v else Tls s t sl)
    (DefaultFilament s) (DefaultLock s) (Handles s) (Ext s).
Definition set_DefaultFilament (f : Z) s :=
  MkFW (Filaments s) (Tls s) f (DefaultLock s) (Handles s) (Ext s).
Definition set_DefaultLock (l : LOCK) s :=
  MkFW (Filaments s) (Tls s) (DefaultFilament s) l (Handles s) (Ext s).
Definition set_Handles (h : gset Z) s :=
  MkFW (Filaments s) (Tls s) (DefaultFilament s) (DefaultLock s) h (Ext s).
Definition set_Ext (x : X) s :=
  MkFW (Filaments s) (Tls s) (DefaultFilament s) (DefaultLock s) (Handles s) x.
End setters.

Section filament.
Context {X : Type}.
(** The execution contexts by address. *)
Variable Contexts : Z -> CFIX_EXECUTION_CONTEXT X.
(** [DuplicateHandle] of the current thread: 0 and the new handle, or the last error. *)
Variable DuplicateHandle : Z -> ST X (Z * Z).
(** [WaitForMultipleObjects( ..., TRUE, Timeout )] on a list of threads: whether it timed out. *)
Variable WaitForThreads : list Z -> Z -> ST X bool.
(** [GetCurrentThreadId()] *)
Variable Tid : Z.

Local Abbreviation M := (ST (FW X)).

Definition ext {A} (m : ST X A) : M A := fun s =>
  match m (Ext s) with Some (a, x) => Some (a, set_Ext x s) | None => None end.

(** Access through a pointer to a filament. *)
Definition load (f : Z) : M CFIXP_FILAMENT := fun s =>
  match Filaments s !! f with Some o => Some (o, s) | None => None end.
Definition store (f : Z) (o : CFIXP_FILAMENT) : M unit :=
  modify (fun s => set_Filaments (<[f := o]> (Filaments s)) s).

Definition EnterDefaultLock : M unit := fun s =>
  match Owner (DefaultLock s) with
  | None => Some (tt, set_DefaultLock (MkLock (Some Tid) 1) s)
  | Some t => if t =? Tid
              then Some (tt, set_DefaultLock (MkLock (Some t) (Depth (DefaultLock s) + 1)) s)
              else None
  end.
Definition LeaveDefaultLock : M unit := fun s =>
  let d := Depth (DefaultLock s) - 1 in
  Some (tt, set_DefaultLock (if d =? 0 then free_lock else MkLock (Owner (DefaultLock s)) d) s).

Definition CloseHandle (h : Z) : M unit := modify (fun s => set_Handles (Handles s ∖ {[ h ]}) s).

(** [VERIFY( S_OK == ... )]: evaluated, and checked by the debug build only. *)
Definition VERIFY {A} (m : M A) : M unit := m ;;; ret tt.

(* src/cfix/cfix/filament.c:63-82 (CfixsGetCurrentThreadHandle) *)
Definition CfixsGetCurrentThreadHandle : M (Z * Z) :=
  r <- ext (DuplicateHandle Tid) ;;
  if negb (fst r =? 0) then ret (HRESULT_FROM_WIN32 (fst r), 0)
  else modify (fun s => set_Handles ({[ snd r ]} ∪ Handles s) s) ;;; ret (S_OK, snd r).

(** The lock of the child list is held for this operation only. *)
(* src/cfix/cfix/filament.c:87-111 (CfixsRegisterChildThreadFilament) *)
Definition CfixsRegisterChildThreadFilament (Filament Thread : Z) : M Z :=
  o <- load Filament ;;
  if Z.of_nat (length (Threads o)) =? CFIX_MAX_THREADS then ret CFIX_E_TOO_MANY_CHILD_THREADS
  else store Filament (set_Threads (Threads o ++ [Thread]) o) ;;; ret S_OK.

(** The early return in the first branch does not leave the lock. *)
(* src/cfix/cfix/filament.c:115-140 (CfixsSetDefaultFilament) *)
Definition CfixsSetDefaultFilament (Filament : Z) : M Z :=
  EnterDefaultLock ;;;
  d <- gets DefaultFilament ;;
  if negb (d =? 0) && negb (Filament =? 0) then ret CFIX_E_DEFAULT_FILAMENT_CONFLICT
  else
    when_ (negb ((d =? 0) && (Filament =? 0))) (modify (set_DefaultFilament Filament)) ;;;
    LeaveDefaultLock ;;;
    ret S_OK.

(* src/cfix/cfix/filament.c:142-151 (CfixsGetTlsFilament) *)
Definition CfixsGetTlsFilament : M (Z * bool) :=
  Value <- gets (fun s => Tls s Tid TlsSlotForFilament) ;;
  ret (Z.land Value (Z.lnot 1), negb (Z.land Value 1 =? 0)).

(* src/cfix/cfix/filament.c:153-165 (CfixsSetTlsFilamant) *)
Definition CfixsSetTlsFilamant (Filament : Z) (DerivedFromDefaultFilament : bool) : M unit :=
  modify (set_Tls Tid TlsSlotForFilament
            (Z.lor Filament (if DerivedFromDefaultFilament then 1 else 0))).

(** [CfixsGetCurrentFilament( FALSE, ... )]: the result, the filament (0 if none)
    and whether it is derived. *)
(* src/cfix/cfix/filament.c:180-190 (CfixsGetCurrentFilament) *)
Definition GetOwnFilament : M (Z * Z * bool) :=
  r <- CfixsGetTlsFilament ;;
  if negb (fst r =? 0) then ret (S_OK, fst r, snd r) else ret (CFIX_E_UNKNOWN_THREAD, 0, false).

(** The part of [CfixsSetCurrentFilament] that registers a child thread: a
    failure leaves the function. *)
(* src/cfix/cfix/filament.c:257-285 (CfixsSetCurrentFilament) *)
Definition RegisterIfChild (NewFilament : Z) : M Z :=
  if NewFilament =? 0 then ret S_OK else
  o <- load NewFilament ;;
  if Tid =? FilMainThreadId o then ret S_OK else
  r <- CfixsGetCurrentThreadHandle ;;
  if FAILED (fst r) then ret (fst r) else
  Hr <- CfixsRegisterChildThreadFilament NewFilament (snd r) ;;
  if FAILED Hr then
    CfixsSetTlsFilamant 0 false ;;;
    CloseHandle (snd r) ;;;
    ret Hr
  else ret S_OK.

(** The part that references the new context and updates the default filament. *)
(* src/cfix/cfix/filament.c:293-332 (CfixsSetCurrentFilament) *)
Definition UpdateDefault (NewFilament OldFilament : Z) : M Z :=
  if negb (NewFilament =? 0) then
    o <- load NewFilament ;;
    ext (CtxReference (Contexts (ExecutionContext o))) ;;;
    if negb (FlagOn (FilFlags o) CFIXP_FILAMENT_FLAG_DEFAULT_FILAMENT) then
      VERIFY (CfixsSetDefaultFilament 0) ;;; ret S_OK
    else if Tid =? FilMainThreadId o then CfixsSetDefaultFilament NewFilament
    else ret S_OK
  else if negb (OldFilament =? 0) then
    o <- load OldFilament ;;
    when_ ((Tid =? FilMainThreadId o) && FlagOn (FilFlags o) CFIXP_FILAMENT_FLAG_DEFAULT_FILAMENT)
      (VERIFY (CfixsSetDefaultFilament 0)) ;;;
    ret S_OK
  else ret S_OK.

(** The result and the previous filament (of interest only if the call succeeded). *)
(* src/cfix/cfix/filament.c:241-342 (CfixsSetCurrentFilament) *)
Definition CfixsSetCurrentFilament (NewFilament : Z) (DerivedFromDefaultFilament : bool)
    : M (Z * Z) :=
  g <- GetOwnFilament ;;
  let OldFilament := snd (fst g) in
  (if negb (OldFilament =? 0) then
     o <- load OldFilament ;; ext (CtxDereference (Contexts (ExecutionContext o)))
   else ret tt) ;;;
  Hr <- RegisterIfChild NewFilament ;;
  if FAILED Hr then ret (Hr, 0) else
  Hr <- UpdateDefault NewFilament OldFilament ;;
  if FAILED Hr then ret (Hr, 0) else
  CfixsSetTlsFilamant NewFilament DerivedFromDefaultFilament ;;;
  ret (S_OK, OldFilament).

(* src/cfix/cfix/filament.c:167-239 (CfixsGetCurrentFilament) *)
Definition CfixsGetCurrentFilament (DeriveDefaultIfUnavailable : bool) : M (Z * Z * bool) :=
  g <- GetOwnFilament ;;
  d <- gets DefaultFilament ;;
  if SUCCEEDED (fst (fst g)) then ret g
  else if DeriveDefaultIfUnavailable && negb (d =? 0) then
    EnterDefaultLock ;;;
    d <- gets DefaultFilament ;;
    r <- (if negb (d =? 0) then
            Hr <- CfixsSetCurrentFilament d true ;;
            if SUCCEEDED (fst Hr) then GetOwnFilament else ret (fst Hr, 0, false)
          else ret (CFIX_E_UNKNOWN_THREAD, 0, false)) ;;
    LeaveDefaultLock ;;;
    ret r
  else ret (CFIX_E_UNKNOWN_THREAD, 0, false).

(* src/cfix/cfix/filament.c:423-429 (CfixpSetCurrentFilament) *)
Definition CfixpSetCurrentFilament (NewFilament : Z) : M (Z * Z) :=
  CfixsSetCurrentFilament NewFilament false.

(* src/cfix/cfix/filament.c:431-437 (CfixpGetCurrentFilament) *)
Definition CfixpGetCurrentFilament : M (Z * Z * bool) := CfixsGetCurrentFilament true.

(** The structure at [Filament] is initialised. *)
(* src/cfix/cfix/filament.c:374-398 (CfixpInitializeFilament) *)
Definition CfixpInitializeFilament (Context MainThreadId Flags : Z) (RestoreStorage : bool)
    (Filament : Z) : M unit :=
  store Filament (MkFilament Context MainThreadId [] Flags 0 0) ;;;
  when_ (RestoreStorage && (Tid =? MainThreadId))
    (d <- gets (fun s => Tls s Tid DefaultStorageSlot) ;;
     c <- gets (fun s => Tls s Tid ReservedForCcStorageSlot) ;;
     store Filament (MkFilament Context MainThreadId [] Flags d c)).

Fixpoint CloseHandles (hs : list Z) : M unit :=
  match hs with [] => ret tt | h :: hs => CloseHandle h ;;; CloseHandles hs end.

(* src/cfix/cfix/filament.c:400-421 (CfixpDestroyFilament) *)
Definition CfixpDestroyFilament (Filament : Z) : M unit :=
  o <- load Filament ;;
  CloseHandles (Threads o) ;;;
  when_ (Tid =? FilMainThreadId o)
    (modify (set_Tls Tid DefaultStorageSlot (DefaultSlot o)) ;;;
     modify (set_Tls Tid ReservedForCcStorageSlot (CcSlot o))).

(** The wait happens inside the lock of the child list. *)
(* src/cfix/cfix/filament.c:439-465 (CfixpJoinChildThreadsFilament) *)
Definition CfixpJoinChildThreadsFilament (Filament Timeout : Z) : M Z :=
  o <- load Filament ;;
  if 0 <? Z.of_nat (length (Threads o)) then
    TimedOut <- ext (WaitForThreads (Threads o) Timeout) ;;
    ret (if TimedOut : bool then CFIX_E_FILAMENT_JOIN_TIMEOUT else S_OK)
  else ret S_OK.

(* src/cfix/cfix/filament.c:467-489 (CfixpCleanupLeakedFilamentForDetachingThread) *)
Definition CfixpCleanupLeakedFilamentForDetachingThread : M unit :=
  g <- CfixsGetCurrentFilament false ;;
  if (fst (fst g) =? S_OK) && negb (snd (fst g) =? 0)
  then CfixsSetCurrentFilament 0 false ;;; ret tt
  else ret tt.

(* src/cfix/cfix/filament.c:491-520 (CfixRegisterThread) *)
Definition CfixRegisterThread (Reserved : Z) : M Z :=
  if negb (Reserved =? 0) then ret E_INVALIDARG else
  g <- CfixpGetCurrentFilament ;;
  let Hr := fst (fst g) in
  ret (if Hr =? CFIX_E_UNKNOWN_THREAD then E_UNEXPECTED
       else if SUCCEEDED Hr && negb (snd g) then E_UNEXPECTED
       else Hr).

(** ** Filament local storage (cfix/cfix/tls.c) *)
Definition CFIX_TAG_RESERVED_FOR_CC : Z := 0xFFFFFFFF.

(* src/cfix/cfix/tls.c:35-65 (CfixPeSetValue) *)
Definition CfixPeSetValue (Tag Value : Z) : M unit :=
  g <- CfixpGetCurrentFilament ;;
  if SUCCEEDED (fst (fst g)) then
    o <- load (snd (fst g)) ;;
    if Tag =? CFIX_TAG_RESERVED_FOR_CC then store (snd (fst g)) (set_CcSlot Value o)
    else if Tag =? 0 then store (snd (fst g)) (set_DefaultSlot Value o)
    else ret tt
  else ret tt.

(* src/cfix/cfix/tls.c:67-95 (CfixPeGetValue) *)
Definition CfixPeGetValue (Tag : Z) : M Z :=
  g <- CfixpGetCurrentFilament ;;
  if SUCCEEDED (fst (fst g)) then
    o <- load (snd (fst g)) ;;
    ret (if Tag =? CFIX_TAG_RESERVED_FOR_CC then CcSlot o
         else if Tag =? 0 then DefaultSlot o
         else 0)
  else ret 0.
End filament.

(** ** Operations on the explicit state *)
Section theory.
Context {X : Type}.
Variable Contexts : Z -> CFIX_EXECUTION_CONTEXT X.
Variable DuplicateHandle : Z -> ST X (Z * Z).
Variable WaitForThreads : list Z -> Z -> ST X bool.
Implicit Types (s : FW X).

(** Filament structures are at even addresses, which leaves bit 0 for the tag. *)
Lemma tag_pointer f (b : bool) :
  Z.even f = true -> Z.land (Z.lor f (if b then 1 else 0)) (Z.lnot 1) = f.
Proof.
  intros Hf. apply Z.bits_inj'. intros n Hn.
  rewrite Z.land_spec, Z.lor_spec, Z.lnot_spec by lia.
  destruct (decide (n = 0)) as [->|].
  - rewrite Z.bit0_odd, <-Z.negb_even, Hf. by destruct b.
  - assert (Z.testbit 1 n = false) as H1.
    { apply (Z.pow2_bits_false 0 n). lia. }
    destruct b; rewrite ?H1, ?Z.bits_0, ?orb_false_r; apply andb_true_r.
Qed.

Lemma tag_flag f (b : bool) :
  Z.even f = true -> negb (Z.land (Z.lor f (if b then 1 else 0)) 1 =? 0) = b.
Proof.
  intros Hf. change 1 with (Z.ones 1) at 2.
  rewrite Z.land_ones by lia. change (2 ^ 1) with 2.
  rewrite Zmod_odd, <-Z.bit0_odd, Z.lor_spec, (Z.bit0_odd f), <-Z.negb_even, Hf.
  by destruct b.
Qed.

Lemma Tls_set t slot v t' slot' s :
  Tls (set_Tls t slot v s) t' slot' = if decide (t' = t /\ slot' = slot) then v else Tls s t' slot'.
Proof. done. Qed.

Lemma Tls_set_same t slot v s : Tls (set_Tls t slot v s) t slot = v.
Proof. rewrite Tls_set. by rewrite decide_True. Qed.

(** The filament [f] (0: none) with tag [b] is the current one of thread [t]. *)
Definition CurrentIs (t f : Z) (b : bool) s : Prop :=
  Tls s t TlsSlotForFilament = Z.lor f (if b then 1 else 0) /\ Z.even f = true.

Lemma GetOwnFilament_eq t f b s :
  CurrentIs t f b s ->
  GetOwnFilament t s =
    Some ((if f =? 0 then (CFIX_E_UNKNOWN_THREAD, 0, false) else (S_OK, f, b)), s).
Proof.
  intros [Ht Hf]. unfold GetOwnFilament, CfixsGetTlsFilament. run.
  rewrite Ht, (tag_pointer _ _ Hf), (tag_flag _ _ Hf). by destruct (f =? 0).
Qed.

Lemma load_eq f o s : Filaments s !! f = Some o -> load f s = Some (o, s).
Proof. unfold load. by intros ->. Qed.

Lemma ext_eq {A} (m : ST X A) a x s :
  m (Ext s) = Some (a, x) -> ext m s = Some (a, set_Ext x s).
Proof. unfold ext. by intros ->. Qed.

Lemma CfixsRegisterChildThreadFilament_eq f o h s :
  Filaments s !! f = Some o ->
  CfixsRegisterChildThreadFilament f h s =
    if Z.of_nat (length (Threads o)) =? CFIX_MAX_THREADS
    then Some (CFIX_E_TOO_MANY_CHILD_THREADS, s)
    else Some (S_OK, set_Filaments (<[f := set_Threads (Threads o ++ [h]) o]> (Filaments s)) s).
Proof.
  intros Hf. unfold CfixsRegisterChildThreadFilament.
  rewrite (bind_eq _ _ _ _ _ (load_eq _ _ _ Hf)). by destruct (_ =? _).
Qed.

(** The state after a child thread [t] has been registered with [f] under handle [h]. *)
Definition registered (f : Z) (o : CFIXP_FILAMENT) (h : Z) (x : X) s : FW X :=
  set_Filaments (<[f := set_Threads (Threads o ++ [h]) o]> (Filaments s))
    (set_Handles ({[h]} ∪ Handles s) (set_Ext x s)).

(** What a refused registration leaves: the duplicate is closed again. *)
Definition refused (t : Z) (h : Z) (x : X) s : FW X :=
  set_Handles (({[h]} ∪ Handles s) ∖ {[h]})
    (set_Tls t TlsSlotForFilament 0 (set_Handles ({[h]} ∪ Handles s) (set_Ext x s))).

Lemma RegisterIfChild_eq t f o h x s :
  f <> 0 -> Filaments s !! f = Some o -> FilMainThreadId o <> t ->
  DuplicateHandle t (Ext s) = Some ((0, h), x) ->
  RegisterIfChild DuplicateHandle t f s =
    if Z.of_nat (length (Threads o)) =? CFIX_MAX_THREADS
    then Some (CFIX_E_TOO_MANY_CHILD_THREADS, refused t h x s)
    else Some (S_OK, registered f o h x s).
Proof.
  intros Hf Ho Hm Hd. unfold RegisterIfChild.
  destruct (Z.eqb_spec f 0) as [|_]; [done|].
  rewrite (bind_eq _ _ _ _ _ (load_eq _ _ _ Ho)).
  destruct (Z.eqb_spec t (FilMainThreadId o)) as [|_]; [done|].
  unfold CfixsGetCurrentThreadHandle. rewrite bind_assoc.
  rewrite (bind_eq _ _ _ _ _ (ext_eq _ _ _ _ Hd)). run.
  change (FAILED (fst (S_OK, h))) with false. cbv iota. simpl snd.
  set (s1 := set_Handles _ _).
  assert (Filaments s1 !! f = Some o) as Ho1 by done.
  pose proof (CfixsRegisterChildThreadFilament_eq _ _ h _ Ho1) as Hr.
  destruct (_ =? _).
  - rewrite (bind_eq _ _ _ _ _ Hr). change (FAILED CFIX_E_TOO_MANY_CHILD_THREADS) with true.
    cbv iota. unfold CfixsSetTlsFilamant, CloseHandle. by rewrite !bind_modify.
  - by rewrite (bind_eq _ _ _ _ _ Hr).
Qed.

Lemma lock_balanced t s :
  DefaultLock s = free_lock ->
  EnterDefaultLock t s = Some (tt, set_DefaultLock (MkLock (Some t) 1) s).
Proof. intros E. unfold EnterDefaultLock. by rewrite E. Qed.

Lemma CfixsSetDefaultFilament_eq t f s :
  DefaultLock s = free_lock ->
  CfixsSetDefaultFilament t f s =
    if negb (DefaultFilament s =? 0) && negb (f =? 0)
    then Some (CFIX_E_DEFAULT_FILAMENT_CONFLICT, set_DefaultLock (MkLock (Some t) 1) s)
    else Some (S_OK, set_DefaultLock free_lock (set_DefaultFilament f s)).
Proof.
  intros E. unfold CfixsSetDefaultFilament.
  rewrite (bind_eq _ _ _ _ _ (lock_balanced t s E)). run.
  destruct (Z.eqb_spec (DefaultFilament s) 0) as [E1|], (Z.eqb_spec f 0) as [E2|]; simpl; try done.
  by rewrite <-E1 in E2; rewrite E2.
Qed.

Lemma UpdateDefault_child t f o old x s :
  f <> 0 -> Filaments s !! f = Some o ->
  FlagOn (FilFlags o) CFIXP_FILAMENT_FLAG_DEFAULT_FILAMENT = true ->
  FilMainThreadId o <> t ->
  CtxReference (Contexts (ExecutionContext o)) (Ext s) = Some (tt, x) ->
  UpdateDefault Contexts t f old s = Some (S_OK, set_Ext x s).
Proof.
  intros Hf Ho Hd Hm Hx. unfold UpdateDefault.
  destruct (Z.eqb_spec f 0) as [|_]; [done|]. simpl.
  rewrite (bind_eq _ _ _ _ _ (load_eq _ _ _ Ho)), (bind_eq _ _ _ _ _ (ext_eq _ _ _ _ Hx)), Hd.
  simpl. by destruct (Z.eqb_spec t (FilMainThreadId o)).
Qed.

(** The default filament can be used: it is live and its lock is free. *)
Record DefaultReady (o : CFIXP_FILAMENT) s : Prop := {
  dr_some : DefaultFilament s <> 0;
  dr_even : Z.even (DefaultFilament s) = true;
  dr_live : Filaments s !! DefaultFilament s = Some o;
  dr_flag : FlagOn (FilFlags o) CFIXP_FILAMENT_FLAG_DEFAULT_FILAMENT = true;
  dr_lock : DefaultLock s = free_lock }.

(** An anonymous thread (one without a filament) that asks for its filament
    while a test routine provides the default filament becomes a child of that
    filament: its handle is appended to the child list, the thread is tagged as
    derived, and asking again changes nothing.  If the list already holds
    [CFIX_MAX_THREADS] threads it is refused with
    [CFIX_E_TOO_MANY_CHILD_THREADS]: the duplicated handle is closed, and the
    filaments, the default filament and its lock are as before. *)
Theorem anonymous_thread_registers t o h x x' s :
  DefaultReady o s -> CurrentIs t 0 false s -> FilMainThreadId o <> t ->
  DuplicateHandle t (Ext s) = Some ((0, h), x) -> h ∉ Handles s ->
  CtxReference (Contexts (ExecutionContext o)) x = Some (tt, x') ->
  let d := DefaultFilament s in
  exists s',
    CfixpGetCurrentFilament Contexts DuplicateHandle t s =
      Some ((if Z.of_nat (length (Threads o)) =? CFIX_MAX_THREADS
             then (CFIX_E_TOO_MANY_CHILD_THREADS, 0, false) else (S_OK, d, true)), s') /\
    DefaultFilament s' = d /\ DefaultLock s' = free_lock /\
    if Z.of_nat (length (Threads o)) =? CFIX_MAX_THREADS
    then Filaments s' = Filaments s /\ Handles s' = Handles s /\ CurrentIs t 0 false s'
    else Filaments s' = <[d := set_Threads (Threads o ++ [h]) o]> (Filaments s) /\
         Handles s' = {[h]} ∪ Handles s /\
         CfixpGetCurrentFilament Contexts DuplicateHandle t s' = Some ((S_OK, d, true), s').
Proof.
  intros [Hd He Ho Hfl Hl] Hcur Hm Hdup Hh Href d.
  unfold CfixpGetCurrentFilament at 1, CfixsGetCurrentFilament.
  rewrite (bind_eq _ _ _ _ _ (GetOwnFilament_eq _ _ _ _ Hcur)). run. fold d.
  change (SUCCEEDED CFIX_E_UNKNOWN_THREAD) with false.
  destruct (Z.eqb_spec d 0) as [|_]; [done|]. simpl.
  rewrite (bind_eq _ _ _ _ _ (lock_balanced t s Hl)). run. fold d.
  destruct (Z.eqb_spec d 0) as [|_]; [done|]. simpl.
  unfold CfixsSetCurrentFilament. set (s1 := set_DefaultLock _ s).
  assert (CurrentIs t 0 false s1) as Hc1 by done.
  rewrite !bind_assoc, (bind_eq _ _ _ _ _ (GetOwnFilament_eq _ _ _ _ Hc1)). run.
  assert (Filaments s1 !! d = Some o) as Ho1 by done.
  pose proof (RegisterIfChild_eq t d o h x s1 Hd Ho1 Hm Hdup) as Hreg.
  destruct (Z.of_nat (length (Threads o)) =? CFIX_MAX_THREADS) eqn:Hn.
  - rewrite (bind_eq _ _ _ _ _ Hreg).
    change (FAILED CFIX_E_TOO_MANY_CHILD_THREADS) with true. cbv iota. run.
    change (SUCCEEDED CFIX_E_TOO_MANY_CHILD_THREADS) with false. run.
    eexists. split; [reflexivity|]. simpl.
    split_and!; try done; [set_solver|]. split; [apply Tls_set_same|done].
  - rewrite (bind_eq _ _ _ _ _ Hreg). change (FAILED S_OK) with false. cbv iota. run.
    set (o' := set_Threads (Threads o ++ [h]) o). set (s2 := registered _ _ _ _ _).
    assert (Filaments s2 !! d = Some o') as Ho2 by apply lookup_insert_eq.
    rewrite (bind_eq _ _ _ _ _ (UpdateDefault_child t d o' 0 x' s2 Hd Ho2 Hfl Hm Href)).
    change (FAILED S_OK) with false. cbv iota. unfold CfixsSetTlsFilamant. run.
    set (s3 := set_Tls _ _ _ _).
    assert (CurrentIs t d true s3) as Hc3 by (split; [apply Tls_set_same|done]).
    change (SUCCEEDED S_OK) with true. cbv iota.
    rewrite (bind_eq _ _ _ _ _ (GetOwnFilament_eq _ _ _ _ Hc3)).
    destruct (Z.eqb_spec d 0) as [|_]; [done|]. run.
    eexists. split; [reflexivity|]. split_and!; try done.
    unfold CfixpGetCurrentFilament, CfixsGetCurrentFilament.
    match goal with |- bind _ _ ?s' = _ => assert (CurrentIs t d true s') as Hc4 by done end.
    rewrite (bind_eq _ _ _ _ _ (GetOwnFilament_eq _ _ _ _ Hc4)).
    by destruct (Z.eqb_spec d 0).
Qed.

(** A test routine that wants to provide the default filament while another
    one is in force is refused with [CFIX_E_DEFAULT_FILAMENT_CONFLICT], but the
    lock of the default filament stays held by its thread: from then on no other
    thread's attempt to set the default filament, and no anonymous thread's
    attempt to obtain a filament, ever returns. *)
Theorem default_conflict_keeps_lock t f o b s :
  f <> 0 -> Filaments s !! f = Some o -> FilMainThreadId o = t ->
  FlagOn (FilFlags o) CFIXP_FILAMENT_FLAG_DEFAULT_FILAMENT = true ->
  DefaultFilament s <> 0 -> DefaultLock s = free_lock -> CurrentIs t 0 false s ->
  (forall x, CtxReference (Contexts (ExecutionContext o)) x <> None) ->
  exists s',
    CfixsSetCurrentFilament Contexts DuplicateHandle t f b s =
      Some ((CFIX_E_DEFAULT_FILAMENT_CONFLICT, 0), s') /\
    Owner (DefaultLock s') = Some t /\
    forall t', t' <> t ->
      (forall g, CfixsSetDefaultFilament t' g s' = None) /\
      (CurrentIs t' 0 false s' -> CfixpGetCurrentFilament Contexts DuplicateHandle t' s' = None).
Proof.
  intros Hf Ho Hm Hfl Hd Hl Hcur Href. unfold CfixsSetCurrentFilament.
  rewrite (bind_eq _ _ _ _ _ (GetOwnFilament_eq _ _ _ _ Hcur)). run.
  unfold RegisterIfChild. destruct (Z.eqb_spec f 0) as [|_]; [done|].
  rewrite !bind_assoc, (bind_eq _ _ _ _ _ (load_eq _ _ _ Ho)), Hm, Z.eqb_refl. run.
  change (FAILED S_OK) with false. cbv iota. unfold UpdateDefault.
  destruct (Z.eqb_spec f 0) as [|_]; [done|]. simpl.
  rewrite !bind_assoc, (bind_eq _ _ _ _ _ (load_eq _ _ _ Ho)), !bind_assoc.
  destruct (CtxReference (Contexts (ExecutionContext o)) (Ext s)) as [[[] x]|] eqn:Hx; [|by apply Href in Hx].
  rewrite (bind_eq _ _ _ _ _ (ext_eq _ _ _ _ Hx)), Hfl, Hm, Z.eqb_refl. simpl.
  assert (DefaultLock (set_Ext x s) = free_lock) as Hl1 by done.
  pose proof (CfixsSetDefaultFilament_eq t f _ Hl1) as E. simpl in E.
  destruct (Z.eqb_spec (DefaultFilament s) 0); [done|].
  destruct (Z.eqb_spec f 0); [done|]. simpl in E.
  rewrite (bind_eq _ _ _ _ _ E). change (FAILED CFIX_E_DEFAULT_FILAMENT_CONFLICT) with true.
  eexists. split; [reflexivity|]. split; [done|]. intros t' Ht'.
  assert (forall s', Owner (DefaultLock s') = Some t -> EnterDefaultLock t' s' = None) as Hblock.
  { intros s' Ho'. unfold EnterDefaultLock. rewrite Ho'. by destruct (Z.eqb_spec t t'). }
  split.
  - intros g. unfold CfixsSetDefaultFilament, bind. by rewrite Hblock.
  - intros Hc. unfold CfixpGetCurrentFilament, CfixsGetCurrentFilament.
    rewrite (bind_eq _ _ _ _ _ (GetOwnFilament_eq _ _ _ _ Hc)). run.
    change (SUCCEEDED CFIX_E_UNKNOWN_THREAD) with false.
    destruct (Z.eqb_spec (DefaultFilament s) 0); [done|]. simpl.
    unfold bind at 1. by rewrite Hblock.
Qed.

Lemma RegisterIfChild_main t f o s :
  Filaments s !! f = Some o -> FilMainThreadId o = t ->
  RegisterIfChild DuplicateHandle t f s = Some (S_OK, s).
Proof.
  intros Ho <-. unfold RegisterIfChild. destruct (f =? 0); [done|].
  by rewrite (bind_eq _ _ _ _ _ (load_eq _ _ _ Ho)), Z.eqb_refl.
Qed.

Lemma RegisterIfChild_nohandle t f o e h x s :
  f <> 0 -> Filaments s !! f = Some o -> FilMainThreadId o <> t ->
  DuplicateHandle t (Ext s) = Some ((e, h), x) -> e <> 0 ->
  RegisterIfChild DuplicateHandle t f s = Some (HRESULT_FROM_WIN32 e, set_Ext x s).
Proof.
  intros Hf Ho Hm Hd He. unfold RegisterIfChild, CfixsGetCurrentThreadHandle.
  destruct (Z.eqb_spec f 0) as [|_]; [done|].
  rewrite (bind_eq _ _ _ _ _ (load_eq _ _ _ Ho)).
  destruct (Z.eqb_spec t (FilMainThreadId o)) as [|_]; [done|].
  rewrite !bind_assoc, (bind_eq _ _ _ _ _ (ext_eq _ _ _ _ Hd)). simpl.
  destruct (Z.eqb_spec e 0); [done|]. simpl. rewrite bind_ret. simpl.
  by rewrite FAILED_from_win32.
Qed.
End theory.

(** ** Accounting of thread handles *)
Section handles.
Context {X : Type}.
Variable Contexts : Z -> CFIX_EXECUTION_CONTEXT X.
Variable DuplicateHandle : Z -> ST X (Z * Z).
Variable WaitForThreads : list Z -> Z -> ST X bool.

(** The handle values the operating system has ever returned; a handle that it
    returns is a new one. *)
Variable Used : X -> gset Z.
Definition Keeps {A} (m : ST X A) : Prop := forall x a x', m x = Some (a, x') -> Used x ⊆ Used x'.
Hypothesis DuplicateHandle_new : forall t x e h x',
  DuplicateHandle t x = Some ((e, h), x') ->
  (Used x ⊆ Used x') /\ (e = 0 -> (h ∉ Used x) /\ h ∈ Used x').
Hypothesis Reference_keeps : forall c, Keeps (CtxReference (Contexts c)).
Hypothesis Dereference_keeps : forall c, Keeps (CtxDereference (Contexts c)).
Hypothesis Wait_keeps : forall l n, Keeps (WaitForThreads l n).

(** The open handles are exactly those in the child lists of the live
    filaments, each in one place, and no list exceeds its array. *)
Record HandlesOk (s : FW X) : Prop := {
  ho_bound : forall f o, Filaments s !! f = Some o -> Z.of_nat (length (Threads o)) <= CFIX_MAX_THREADS;
  ho_nodup : forall f o, Filaments s !! f = Some o -> NoDup (Threads o);
  ho_disjoint : forall f g o p h, Filaments s !! f = Some o -> Filaments s !! g = Some p ->
    h ∈ Threads o -> h ∈ Threads p -> f = g;
  ho_open : forall h, h ∈ Handles s <-> exists f o, Filaments s !! f = Some o /\ h ∈ Threads o;
  ho_used : Handles s ⊆ Used (Ext s) }.

(** The part of the state the invariant speaks of. *)
Lemma HandlesOk_frame s s' :
  HandlesOk s -> Filaments s' = Filaments s -> Handles s' = Handles s ->
  Used (Ext s) ⊆ Used (Ext s') -> HandlesOk s'.
Proof.
  intros [] Ef Eh Hu. split; intros; rewrite ?Ef, ?Eh in *; eauto. set_solver.
Qed.

(** Replacing a filament by one with the same children. *)
Lemma HandlesOk_store f o o' s :
  HandlesOk s -> Filaments s !! f = Some o -> Threads o' = Threads o ->
  HandlesOk (set_Filaments (<[f := o']> (Filaments s)) s).
Proof.
  intros [Hb Hn Hd Ho Hu] Hf Et.
  assert (forall g p, <[f := o']> (Filaments s) !! g = Some p ->
            exists q, Filaments s !! g = Some q /\ Threads p = Threads q) as Hl.
  { intros g p. rewrite lookup_insert_Some. intros [[<- <-]|[? ?]]; eauto. }
  split; simpl.
  - intros g p (q & Hq & ->)%Hl. eauto.
  - intros g p (q & Hq & ->)%Hl. eauto.
  - intros g g' p p' h (q & Hq & ->)%Hl (q' & Hq' & ->)%Hl. eauto.
  - intros h. rewrite Ho. split.
    + intros (g & p & Hg & Hh). destruct (decide (g = f)) as [->|].
      * exists f, o'. rewrite lookup_insert_eq, Et. naive_solver.
      * exists g, p. by rewrite lookup_insert_ne.
    + intros (g & p & (q & Hq & Eq)%Hl & Hh). rewrite Eq in Hh. eauto.
  - done.
Qed.

(** A new filament has no children. *)
Lemma HandlesOk_new f o s :
  HandlesOk s -> Filaments s !! f = None -> Threads o = [] ->
  HandlesOk (set_Filaments (<[f := o]> (Filaments s)) s).
Proof.
  intros [Hb Hn Hd Ho Hu] Hf Et.
  assert (forall g p, <[f := o]> (Filaments s) !! g = Some p ->
            Threads p = [] \/ Filaments s !! g = Some p) as Hl.
  { intros g p. rewrite lookup_insert_Some. naive_solver. }
  split; simpl.
  - intros g p [->|Hg]%Hl; [done|eauto].
  - intros g p [->|Hg]%Hl; [constructor|eauto].
  - intros g g' p p' h [->|Hg]%Hl [->|Hg']%Hl; try by intros ?%not_elem_of_nil.
    + by intros _ ?%not_elem_of_nil.
    + eauto.
  - intros h. rewrite Ho. split.
    + intros (g & p & Hg & Hh). exists g, p.
      rewrite lookup_insert_ne by naive_solver. done.
    + intros (g & p & [Ep|Hg]%Hl & Hh); [rewrite Ep in Hh; by apply not_elem_of_nil in Hh|eauto].
  - done.
Qed.

(** A child with a fresh handle. *)
Lemma HandlesOk_registered f o h x s :
  HandlesOk s -> Filaments s !! f = Some o -> Z.of_nat (length (Threads o)) < CFIX_MAX_THREADS ->
  h ∉ Used (Ext s) -> ({[h]} ∪ Used (Ext s)) ⊆ Used x ->
  HandlesOk (registered f o h x s).
Proof.
  intros [Hb Hn Hd Ho Hu] Hf Hlt Hh Hx.
  assert (forall g p, Filaments s !! g = Some p -> h ∉ Threads p) as Hnew.
  { intros g p Hg Hp. apply Hh, Hu, Ho. eauto. }
  assert (forall g p, <[f := set_Threads (Threads o ++ [h]) o]> (Filaments s) !! g = Some p ->
            exists q, Filaments s !! g = Some q /\
              ((g <> f /\ p = q) \/ (g = f /\ q = o /\ Threads p = Threads o ++ [h]))) as Hl.
  { intros g p. rewrite lookup_insert_Some. intros [[<- <-]|[? ?]]; naive_solver. }
  split; simpl.
  - intros g p (q & Hq & [[_ ->]|(-> & -> & ->)])%Hl; [eauto|].
    rewrite length_app. simpl. lia.
  - intros g p (q & Hq & [[_ ->]|(-> & -> & ->)])%Hl; [eauto|].
    apply NoDup_app. split_and!; [eauto| |apply NoDup_singleton].
    intros k Hk E%list_elem_of_singleton. subst k. by apply (Hnew _ _ Hf).
  - intros g g' p p' k (q & Hq & Hp)%Hl (q' & Hq' & Hp')%Hl Hk Hk'.
    destruct Hp as [[? ->]|(-> & -> & Ep)], Hp' as [[? ->]|(-> & -> & Ep')]; eauto.
    + rewrite Ep' in Hk'. apply elem_of_app in Hk' as [?|E%list_elem_of_singleton]; [eauto|].
      subst k. by destruct (Hnew _ _ Hq Hk).
    + rewrite Ep in Hk. apply elem_of_app in Hk as [?|E%list_elem_of_singleton]; [eauto|].
      subst k. by destruct (Hnew _ _ Hq' Hk').
  - intros k. rewrite elem_of_union, Ho, elem_of_singleton. split.
    + intros [->|(g & p & Hg & Hk)].
      * eexists f, _. rewrite lookup_insert_eq. split; [done|]. simpl. set_solver.
      * destruct (decide (g = f)) as [->|].
        -- eexists f, _. rewrite lookup_insert_eq. split; [done|]. simplify_eq/=. set_solver.
        -- exists g, p. by rewrite lookup_insert_ne.
    + intros (g & p & (q & Hq & [[_ ->]|(-> & -> & Ep)])%Hl & Hk); [eauto|].
      rewrite Ep in Hk. apply elem_of_app in Hk as [?|E%list_elem_of_singleton]; eauto.
  - set_solver.
Qed.

(** A filament whose handles have been closed is gone. *)
Lemma HandlesOk_delete f o s :
  HandlesOk s -> Filaments s !! f = Some o ->
  HandlesOk (set_Filaments (delete f (Filaments s))
               (set_Handles (Handles s ∖ list_to_set (Threads o)) s)).
Proof.
  intros [Hb Hn Hd Ho Hu] Hf. split; simpl.
  - intros g p [_ Hg]%lookup_delete_Some. eauto.
  - intros g p [_ Hg]%lookup_delete_Some. eauto.
  - intros g g' p p' h [_ Hg]%lookup_delete_Some [_ Hg']%lookup_delete_Some. eauto.
  - intros h. rewrite elem_of_difference, elem_of_list_to_set, Ho. split.
    + intros [(g & p & Hg & Hh) Hnot]. exists g, p. split; [|done].
      apply lookup_delete_Some. split; [|done]. intros ->. naive_solver.
    + intros (g & p & [Hne Hg]%lookup_delete_Some & Hh). split; [eauto|].
      intros Hh'. apply Hne. eapply Hd; eauto.
  - set_solver.
Qed.

Local Abbreviation OK := (preserves HandlesOk).

Lemma HandlesOk_set_Tls t slot v s : HandlesOk s -> HandlesOk (set_Tls t slot v s).
Proof. intros H. by apply (HandlesOk_frame s). Qed.
Lemma HandlesOk_set_DefaultLock l s : HandlesOk s -> HandlesOk (set_DefaultLock l s).
Proof. intros H. by apply (HandlesOk_frame s). Qed.
Lemma HandlesOk_set_DefaultFilament f s : HandlesOk s -> HandlesOk (set_DefaultFilament f s).
Proof. intros H. by apply (HandlesOk_frame s). Qed.

Lemma ext_ok {A} (m : ST X A) : Keeps m -> OK (ext m).
Proof.
  intros Hm s a s' Hs H. unfold ext in H.
  destruct (m (Ext s)) as [[b x]|] eqn:E; [|done]. injection H as <- <-.
  apply (HandlesOk_frame s); try done. by eapply Hm.
Qed.

Lemma load_ok f : OK (load f).
Proof. intros s a s' Hs H. unfold load in H. by destruct (_ !! _); simplify_eq. Qed.

(** What follows a load may use that the filament is live. *)
Lemma load_bind_ok {A} f (k : CFIXP_FILAMENT -> ST (FW X) A) :
  (forall o s a s', HandlesOk s -> Filaments s !! f = Some o -> k o s = Some (a, s') -> HandlesOk s') ->
  OK (bind (load f) k).
Proof.
  intros Hk s a s' Hs H. inv_bind H. unfold load in *.
  destruct (Filaments s !! f) as [o|] eqn:Ho; [|done]. simplify_eq. by eapply Hk.
Qed.

Lemma store_ok f o o' s a s' :
  HandlesOk s -> Filaments s !! f = Some o -> Threads o' = Threads o ->
  store f o' s = Some (a, s') -> HandlesOk s'.
Proof. intros Hs Ho Et [= _ <-]. by eapply HandlesOk_store. Qed.

Lemma GetOwnFilament_ok t : OK (GetOwnFilament t).
Proof. unfold GetOwnFilament, CfixsGetTlsFilament. preserve. Qed.

Lemma CfixsSetTlsFilamant_ok t f b : OK (CfixsSetTlsFilamant t f b).
Proof. apply preserves_modify. intros. by apply HandlesOk_set_Tls. Qed.

Lemma EnterDefaultLock_ok t : OK (EnterDefaultLock t).
Proof.
  intros s a s' Hs H. unfold EnterDefaultLock in H.
  repeat case_match; simplify_eq; by apply HandlesOk_set_DefaultLock.
Qed.

Lemma LeaveDefaultLock_ok : OK LeaveDefaultLock.
Proof. intros s a s' Hs [= _ <-]. by apply HandlesOk_set_DefaultLock. Qed.

Lemma CfixsSetDefaultFilament_ok t f : OK (CfixsSetDefaultFilament t f).
Proof.
  unfold CfixsSetDefaultFilament.
  assert (OK (modify (set_DefaultFilament f))).
  { apply preserves_modify. intros. by apply HandlesOk_set_DefaultFilament. }
  pose proof (EnterDefaultLock_ok t). pose proof LeaveDefaultLock_ok. preserve.
Qed.

Lemma RegisterIfChild_ok t f : OK (RegisterIfChild DuplicateHandle t f).
Proof.
  destruct (decide (f = 0)) as [->|Hf]; [apply preserves_ret|].
  intros s a s' Hs H.
  destruct (Filaments s !! f) as [o|] eqn:Ho.
  2:{ unfold RegisterIfChild in H. destruct (Z.eqb_spec f 0); [done|].
      rewrite bind_None in H; [done|]. unfold load. by rewrite Ho. }
  destruct (decide (FilMainThreadId o = t)) as [Hm|Hm].
  { rewrite (RegisterIfChild_main DuplicateHandle t f o s) in H by done. by simplify_eq. }
  destruct (DuplicateHandle t (Ext s)) as [[[e h] x]|] eqn:Hd.
  2:{ unfold RegisterIfChild, CfixsGetCurrentThreadHandle in H.
      destruct (Z.eqb_spec f 0); [done|].
      rewrite (bind_eq _ _ _ _ _ (load_eq _ _ _ Ho)) in H.
      destruct (Z.eqb_spec t (FilMainThreadId o)); [by subst t|].
      rewrite !bind_assoc, bind_None in H; [done|]. unfold ext. by rewrite Hd. }
  destruct (DuplicateHandle_new _ _ _ _ _ Hd) as [Hu Hnew].
  destruct (decide (e = 0)) as [->|He].
  - destruct (Hnew eq_refl) as [Hh Hx].
    rewrite (RegisterIfChild_eq DuplicateHandle t f o h x s Hf Ho Hm Hd) in H.
    destruct (Z.eqb_spec (Z.of_nat (length (Threads o))) CFIX_MAX_THREADS) as [E|E]; simplify_eq.
    + apply (HandlesOk_frame s); try done. simpl.
      pose proof (ho_used _ Hs). set_solver.
    + apply HandlesOk_registered; try done; [|set_solver].
      pose proof (ho_bound _ Hs _ _ Ho). lia.
  - rewrite (RegisterIfChild_nohandle DuplicateHandle t f o e h x s Hf Ho Hm Hd He) in H.
    simplify_eq. by apply (HandlesOk_frame s).
Qed.

Lemma CfixsSetCurrentFilament_ok t f b : OK (CfixsSetCurrentFilament Contexts DuplicateHandle t f b).
Proof.
  unfold CfixsSetCurrentFilament, UpdateDefault, VERIFY.
  pose proof (GetOwnFilament_ok t). pose proof (RegisterIfChild_ok t f).
  pose proof (fun g => CfixsSetDefaultFilament_ok t g).
  pose proof (CfixsSetTlsFilamant_ok t f b). pose proof load_ok.
  pose proof (fun c => ext_ok _ (Reference_keeps c)).
  pose proof (fun c => ext_ok _ (Dereference_keeps c)).
  preserve.
Qed.

Lemma CfixsGetCurrentFilament_ok t d : OK (CfixsGetCurrentFilament Contexts DuplicateHandle t d).
Proof.
  unfold CfixsGetCurrentFilament.
  pose proof (GetOwnFilament_ok t). pose proof (CfixsSetCurrentFilament_ok t).
  pose proof (EnterDefaultLock_ok t). pose proof LeaveDefaultLock_ok.
  preserve.
Qed.

(** What the program does with filaments: a test routine brings one into being
    at an unused address, installs and finally destroys it (its stack frame is
    then gone); threads look up, register, use the storage, and detach. *)
Inductive FILAMENT_OP :=
  | OpInitialize (Context MainThreadId Flags : Z) (RestoreStorage : bool) (Filament : Z)
  | OpSetCurrent (NewFilament : Z) (Derived : bool)
  | OpGetCurrent (Derive : bool)
  | OpRegister (Reserved : Z)
  | OpSetValue (Tag Value : Z)
  | OpGetValue (Tag : Z)
  | OpJoin (Filament Timeout : Z)
  | OpCleanup
  | OpDestroy (Filament : Z).

Definition run_op (t : Z) (op : FILAMENT_OP) : ST (FW X) unit :=
  match op with
  | OpInitialize c m fl r f =>
      live <- gets (fun s => bool_decide (Filaments s !! f = None)) ;;
      assert_ live ;;; CfixpInitializeFilament t c m fl r f
  | OpSetCurrent f b => CfixsSetCurrentFilament Contexts DuplicateHandle t f b ;;; ret tt
  | OpGetCurrent d => CfixsGetCurrentFilament Contexts DuplicateHandle t d ;;; ret tt
  | OpRegister r => CfixRegisterThread Contexts DuplicateHandle t r ;;; ret tt
  | OpSetValue tag v => CfixPeSetValue Contexts DuplicateHandle t tag v
  | OpGetValue tag => CfixPeGetValue Contexts DuplicateHandle t tag ;;; ret tt
  | OpJoin f n => CfixpJoinChildThreadsFilament WaitForThreads f n ;;; ret tt
  | OpCleanup => CfixpCleanupLeakedFilamentForDetachingThread Contexts DuplicateHandle t
  | OpDestroy f =>
      CfixpDestroyFilament t f ;;; modify (fun s => set_Filaments (delete f (Filaments s)) s)
  end.

Fixpoint run_ops (ops : list (Z * FILAMENT_OP)) : ST (FW X) unit :=
  match ops with
  | [] => ret tt
  | (t, op) :: ops => run_op t op ;;; run_ops ops
  end.

Lemma CfixpInitializeFilament_ok t c m fl r f s a s' :
  HandlesOk s -> Filaments s !! f = None ->
  CfixpInitializeFilament t c m fl r f s = Some (a, s') -> HandlesOk s'.
Proof.
  intros Hs Hf H. unfold CfixpInitializeFilament, store in H. rewrite bind_modify in H.
  set (s1 := set_Filaments _ s) in H.
  assert (HandlesOk s1) as H1 by by apply HandlesOk_new.
  destruct (r && (t =? m)); [|by injection H as <- <-].
  simpl in H. rewrite !bind_gets in H. injection H as <- <-.
  apply (HandlesOk_store f (MkFilament c m [] fl 0 0) _ s1 H1); [apply lookup_insert_eq|done].
Qed.

Lemma CloseHandles_eq hs (s : FW X) :
  CloseHandles hs s = Some (tt, set_Handles (Handles s ∖ list_to_set hs) s).
Proof.
  revert s. induction hs as [|h hs IH]; intros s; simpl.
  - rewrite difference_empty_L. by destruct s.
  - unfold CloseHandle. rewrite bind_modify, IH. unfold set_Handles. simpl.
    by rewrite difference_difference_l_L.
Qed.

Lemma Destroy_ok t f : OK (run_op t (OpDestroy f)).
Proof.
  intros s a s' Hs H. simpl in H. unfold CfixpDestroyFilament in H. rewrite bind_assoc in H.
  destruct (Filaments s !! f) as [o|] eqn:Ho.
  2:{ rewrite bind_None in H; [done|]. unfold load. by rewrite Ho. }
  rewrite (bind_eq _ _ _ _ _ (load_eq _ _ _ Ho)), bind_assoc in H.
  rewrite (bind_eq _ _ _ _ _ (CloseHandles_eq _ _)) in H.
  pose proof (HandlesOk_delete _ _ _ Hs Ho) as Hd.
  destruct (t =? FilMainThreadId o); simpl in H; [rewrite bind_assoc in H|];
    rewrite ?bind_modify, ?bind_ret in H; injection H as <- <-;
    by apply (HandlesOk_frame _ _ Hd).
Qed.

Lemma run_op_ok t op : OK (run_op t op).
Proof.
  pose proof (CfixsGetCurrentFilament_ok t). pose proof (CfixsSetCurrentFilament_ok t).
  assert (forall o tag v f s a s', HandlesOk s -> Filaments s !! f = Some o ->
    (if tag =? CFIX_TAG_RESERVED_FOR_CC then store f (set_CcSlot v o)
     else if tag =? 0 then store f (set_DefaultSlot v o) else ret tt) s = Some (a, s') ->
    HandlesOk s').
  { intros o tag v f s a s' Hs Ho Hst. destruct (tag =? _); [by apply (store_ok f o (set_CcSlot v o) s a)|].
    destruct (tag =? 0); [by apply (store_ok f o (set_DefaultSlot v o) s a)|].
    by injection Hst as <- <-. }
  destruct op; simpl.
  - intros s a s' Hs H'. rewrite bind_gets in H'. case_bool_decide as Hf; [|done].
    rewrite bind_assert in H' by done. by eapply CfixpInitializeFilament_ok.
  - preserve.
  - preserve.
  - unfold CfixRegisterThread, CfixpGetCurrentFilament. preserve.
  - unfold CfixPeSetValue, CfixpGetCurrentFilament. apply preserves_bind; [done|].
    intros g. apply preserves_if; [|apply preserves_ret]. apply load_bind_ok. eauto.
  - unfold CfixPeGetValue, CfixpGetCurrentFilament. pose proof load_ok. preserve.
  - unfold CfixpJoinChildThreadsFilament. pose proof load_ok.
    pose proof (fun l n => ext_ok _ (Wait_keeps l n)). preserve.
  - unfold CfixpCleanupLeakedFilamentForDetachingThread. preserve.
  - apply (Destroy_ok t).
Qed.

(** C6. Thread handles are accounted for: whatever threads do with filaments, in
    any order, from a state without filaments and handles, every open thread
    handle is in the child list of exactly one live filament, every handle in a
    child list is open, and no list exceeds its array of [CFIX_MAX_THREADS]
    entries.  In particular no handle is left open once all filaments are
    destroyed. *)
Theorem thread_handles_accounted ops s s' :
  Filaments s = ∅ -> Handles s = ∅ -> run_ops ops s = Some (tt, s') ->
  (forall h, h ∈ Handles s' <-> exists f o, Filaments s' !! f = Some o /\ h ∈ Threads o) /\
  (forall f g o p h, Filaments s' !! f = Some o -> Filaments s' !! g = Some p ->
     h ∈ Threads o -> h ∈ Threads p -> f = g) /\
  (forall f o, Filaments s' !! f = Some o ->
     NoDup (Threads o) /\ Z.of_nat (length (Threads o)) <= CFIX_MAX_THREADS) /\
  (Filaments s' = ∅ -> Handles s' = ∅).
Proof.
  intros Hf Hh Hrun.
  assert (HandlesOk s) as Hs.
  { split; intros *; rewrite ?Hf, ?Hh, ?lookup_empty; try done; set_solver. }
  assert (HandlesOk s') as [Hb Hn Hd Ho Hu].
  { clear Hf Hh. revert s Hs Hrun. induction ops as [|[t op] ops IH]; simpl; intros s Hs H.
    - by injection H as <-.
    - inv_bind H. eapply IH; [|eassumption]. by eapply run_op_ok. }
  split_and!; try done; [by eauto|].
  intros He. apply set_eq. intros h. rewrite Ho, He. split; [|set_solver].
  intros (f & o & Hl & _). by rewrite lookup_empty in Hl.
Qed.
End handles.

(** ** A concrete instance

    The operating system hands out increasing handle values; the contexts do
    nothing. *)
Module Demo.
Definition World : Type := gset Z.
Definition new_handle (x : World) : Z := 1 + foldr Z.max 0 (elements x).
Definition DuplicateHandle (Thread : Z) : ST World (Z * Z) :=
  fun x => Some ((0, new_handle x), {[new_handle x]} ∪ x).
Definition WaitForThreads (hs : list Z) (Timeout : Z) : ST World bool := ret false.
Definition NullContext : CFIX_EXECUTION_CONTEXT World :=
  {| CtxVersion := CFIX_TEST_CONTEXT_VERSION;
     ReportEvent := fun _ _ => ret CfixContinue;
     QueryDefaultDisposition := fun _ => ret CfixContinue;
     BeforeFixtureStart := fun _ _ => ret S_OK;
     AfterFixtureFinish := fun _ _ _ => ret tt;
     BeforeTestCaseStart := fun _ _ _ => ret S_OK;
     AfterTestCaseFinish := fun _ _ _ _ => ret tt;
     CreateChildThread := fun _ => ret (S_OK, 0);
     BeforeChildThreadStart := fun _ _ => ret tt;
     AfterChildThreadFinish := fun _ _ => ret tt;
     OnUnhandledException := fun _ _ => ret tt;
     CtxReference := ret tt;
     CtxDereference := ret tt |}.
Definition Contexts (c : Z) := NullContext.

Lemma DuplicateHandle_new t (x : World) e h x' :
  DuplicateHandle t x = Some ((e, h), x') -> (x ⊆ x') /\ (e = 0 -> (h ∉ x) /\ h ∈ x').
Proof.
  intros [= <- <- <-]. split; [set_solver|]. intros _. split; [|set_solver].
  intros Hin%elem_of_elements%max_bound. unfold new_handle in Hin. lia.
Qed.

Definition state0 : FW World := MkFW ∅ (fun _ _ => 0) 0 free_lock ∅ ∅.

(** Thread 1 runs a test routine that provides the default filament 8. *)
Definition provide : list (Z * FILAMENT_OP) :=
  [(1, OpInitialize 2 1 CFIXP_FILAMENT_FLAG_DEFAULT_FILAMENT false 8); (1, OpSetCurrent 8 false)].

(** The state such operations lead to. *)
Definition after (ops : list (Z * FILAMENT_OP)) : FW World :=
  match run_ops Contexts DuplicateHandle WaitForThreads ops state0 with
  | Some (_, s) => s
  | None => state0
  end.

Lemma anonymous_thread_registers_witness :
  exists s', CfixpGetCurrentFilament Contexts DuplicateHandle 2 (after provide) =
    Some ((S_OK, 8, true), s').
Proof.
  destruct (anonymous_thread_registers Contexts DuplicateHandle 2
    (MkFilament 2 1 [] CFIXP_FILAMENT_FLAG_DEFAULT_FILAMENT 0 0) 1 {[1]} {[1]} (after provide))
    as (s' & H & _).
  - split; [discriminate|reflexivity..].
  - split; reflexivity.
  - discriminate.
  - vm_compute. reflexivity.
  - apply (bool_decide_unpack _). vm_compute. exact I.
  - reflexivity.
  - exists s'. exact H.
Defined.

(** Thread 3 has its own routine, on filament 16, that also provides a default. *)
Definition second : list (Z * FILAMENT_OP) :=
  provide ++ [(3, OpInitialize 2 3 CFIXP_FILAMENT_FLAG_DEFAULT_FILAMENT false 16)].

Lemma default_conflict_keeps_lock_witness :
  exists s', CfixsSetCurrentFilament Contexts DuplicateHandle 3 16 false (after second) =
    Some ((CFIX_E_DEFAULT_FILAMENT_CONFLICT, 0), s') /\
    CfixsSetDefaultFilament 1 0 s' = None.
Proof.
  destruct (default_conflict_keeps_lock Contexts DuplicateHandle 3 16
    (MkFilament 2 3 [] CFIXP_FILAMENT_FLAG_DEFAULT_FILAMENT 0 0) false (after second))
    as (s' & H & _ & Hb).
  - discriminate.
  - vm_compute. reflexivity.
  - reflexivity.
  - reflexivity.
  - vm_compute. discriminate.
  - reflexivity.
  - split; reflexivity.
  - discriminate.
  - exists s'. split; [exact H|]. apply (Hb 1). discriminate.
Defined.

(** The second thread registers, the first joins, tears its routine down. *)
Definition whole : list (Z * FILAMENT_OP) :=
  provide ++ [(2, OpRegister 0); (2, OpSetValue 0 7); (2, OpCleanup);
              (1, OpJoin 8 0); (1, OpSetCurrent 0 false); (1, OpDestroy 8)].

Lemma thread_handles_accounted_witness :
  Handles (after whole) = ∅ /\ Ext (after whole) = {[1]}.
Proof.
  split; [|vm_compute; reflexivity].
  apply (thread_handles_accounted Contexts DuplicateHandle WaitForThreads (fun x => x)
    DuplicateHandle_new) with (ops := whole) (s := state0).
  - by intros c x [] x' [= <-].
  - by intros c x [] x' [= <-].
  - by intros l n x b x' [= _ <-].
  - reflexivity.
  - reflexivity.
  - vm_compute. reflexivity.
  - vm_compute. reflexivity.
Defined.
End Demo.
