(* ===== verification/Join.v ===== *)
(** * Joining the threads of a test routine, step by step (cfix/cfix/thread.c, filament.c)

    Filament and Thread take operations of threads as atomic.  Here every thread has a
    program counter, and the threads of a filament take turns: creation of threads with
    the handshake between parent and child, registration under the lock of the child list,
    registration of threads that were not created through the framework (via the default
    filament, under its lock as well), the join, which waits inside the lock of the child
    list, and the revocation of the default filament.  What test code does is arbitrary: a
    thread that runs it may create a thread or finish at any time.  There is one filament:
    a default filament of another one, and nested filaments, are left out. *)
From stdpp Require Import base gmap list.
From Stdlib Require Import ZArith Lia.
From S2P Require Import Prelude CfixApi Filament.
Local Open Scope Z_scope.

(** Where a thread is. *)
Inductive PC :=
  | Running                  (** in test code *)
  | Creating (Child : Z)     (** waits for [InitializationCompleted] *)
  | Starting                 (** before the lock *)
  | Registering              (** inside the lock *)
  | Initialized (Hr : Z)     (** before [SetEvent] *)
  | Exiting (Ran : bool)     (** behind [SetEvent], or behind its routine; [Ran]: whether test code was run *)
  | Finished (Ran : bool)
  | Anonymous                (** has no filament *)
  | Adopting                 (** has none, and is before the lock of the default filament *)
  | Deriving                 (** inside that lock, before that of the list *)
  | Enlisting                (** inside both *)
  | Derived (Hr : Z)         (** inside that of the default filament, with the result *)
  | Joining                  (** before the lock *)
  | Waiting                  (** inside the lock, in [WaitForMultipleObjects] *)
  | Joined                   (** before [CfixpSetCurrentFilament( NULL )] *)
  | Returned.                (** the filament is destroyed *)

(** The child list of the filament and the thread that holds its lock, the threads, the
    threads whose [InitializationCompleted] has been set, whether the filament is the
    default filament, and the thread that holds the lock of that. *)
Record STATE := MkState {
  ListLock : option Z;
  Children : list Z;
  Pc : gmap Z PC;
  Completed : gset Z;
  DefaultOn : bool;
  DefaultLock : option Z }.

Definition set_pc (t : Z) (p : PC) (s : STATE) : STATE :=
  MkState (ListLock s) (Children s) (<[t := p]> (Pc s)) (Completed s) (DefaultOn s) (DefaultLock s).
Definition set_lock (l : option Z) (s : STATE) : STATE :=
  MkState l (Children s) (Pc s) (Completed s) (DefaultOn s) (DefaultLock s).
Definition set_default (l : option Z) (s : STATE) : STATE :=
  MkState (ListLock s) (Children s) (Pc s) (Completed s) (DefaultOn s) l.

Inductive LABEL :=
  | Create (t c : Z) | Resume (t : Z)
  | Enter (c : Z) | Refuse (c Hr : Z) | Register (c : Z) | Signal (c : Z) | Finish (c : Z) | Exit (c : Z)
  | Adopt (a : Z) | EnterDefault (a : Z) | RefuseDerived (a Hr : Z) | EnterList (a : Z) | Enlist (a : Z)
  | LeaveDefault (a : Z)
  | BeginJoin | EnterJoin | WaitAll | WaitFails | Revoke.

Section model.
Context (Main : Z).

(** [CreateThread], and the wait for the child. *)
(* src/cfix/cfix/thread.c:187-233 (CfixCreateThread2) *)
Definition exec_parent (l : LABEL) (s : STATE) : option STATE :=
  match l with
  | Create t c =>
      match Pc s !! t, Pc s !! c with
      | Some Running, None => Some (set_pc c Starting (set_pc t (Creating c) s))
      | _, _ => None
      end
  | Resume t =>
      match Pc s !! t with
      | Some (Creating c) => if bool_decide (c ∈ Completed s) then Some (set_pc t Running s) else None
      | _ => None
      end
  | _ => None
  end.

(** The child list, after a thread has tried to register, and the result. *)
(* src/cfix/cfix/filament.c:87-111 (CfixsRegisterChildThreadFilament) *)
Definition RegisterChild (Threads : list Z) (Thread : Z) : list Z * Z :=
  if Z.of_nat (length Threads) =? CFIX_MAX_THREADS then (Threads, CFIX_E_TOO_MANY_CHILD_THREADS)
  else (Threads ++ [Thread], S_OK).

(** The life of a child: it may fail to duplicate its handle ([Refuse]), or register; it sets
    the event and runs its routine, or not; then it exits.  A thread that has registered
    through the default filament finishes and exits in the same way. *)
(* src/cfix/cfix/thread.c:47-124 (CfixsThreadStart) *)
Definition exec_child (l : LABEL) (s : STATE) : option STATE :=
  match l with
  | Enter c =>
      match Pc s !! c, ListLock s with
      | Some Starting, None => Some (set_lock (Some c) (set_pc c Registering s))
      | _, _ => None
      end
  | Refuse c Hr =>
      match Pc s !! c with
      | Some Starting => if FAILED Hr then Some (set_pc c (Initialized Hr) s) else None
      | _ => None
      end
  | Register c =>
      match Pc s !! c with
      | Some Registering =>
          let (Threads, Hr) := RegisterChild (Children s) c in
          Some (MkState None Threads (<[c := Initialized Hr]> (Pc s)) (Completed s) (DefaultOn s) (DefaultLock s))
      | _ => None
      end
  | Signal c =>
      match Pc s !! c with
      | Some (Initialized Hr) =>
          Some (MkState (ListLock s) (Children s) (<[c := if FAILED Hr then Exiting false else Running]> (Pc s))
            ({[c]} ∪ Completed s) (DefaultOn s) (DefaultLock s))
      | _ => None
      end
  | Finish c =>
      match Pc s !! c with
      | Some Running => if c =? Main then None else Some (set_pc c (Exiting true) s)
      | _ => None
      end
  | Exit c => match Pc s !! c with Some (Exiting b) => Some (set_pc c (Finished b) s) | _ => None end
  | _ => None
  end.

(** A thread without a filament, on the use of the framework: it takes the default filament
    if there is one, before the lock is taken and behind it, and registers as a child. *)
(* src/cfix/cfix/filament.c:190-238 (CfixsGetCurrentFilament) *)
Definition exec_adopt (l : LABEL) (s : STATE) : option STATE :=
  match l with
  | Adopt a =>
      match Pc s !! a with
      | None | Some Anonymous => if DefaultOn s then Some (set_pc a Adopting s) else None
      | _ => None
      end
  | EnterDefault a =>
      match Pc s !! a, DefaultLock s with
      | Some Adopting, None =>
          if DefaultOn s then Some (set_default (Some a) (set_pc a Deriving s)) else Some (set_pc a Anonymous s)
      | _, _ => None
      end
  | RefuseDerived a Hr =>
      match Pc s !! a with
      | Some Deriving => if FAILED Hr then Some (set_pc a (Derived Hr) s) else None
      | _ => None
      end
  | EnterList a =>
      match Pc s !! a, ListLock s with
      | Some Deriving, None => Some (set_lock (Some a) (set_pc a Enlisting s))
      | _, _ => None
      end
  | Enlist a =>
      match Pc s !! a with
      | Some Enlisting =>
          let (Threads, Hr) := RegisterChild (Children s) a in
          Some (MkState None Threads (<[a := Derived Hr]> (Pc s)) (Completed s) (DefaultOn s) (DefaultLock s))
      | _ => None
      end
  | LeaveDefault a =>
      match Pc s !! a with
      | Some (Derived Hr) => Some (set_default None (set_pc a (if FAILED Hr then Anonymous else Running) s))
      | _ => None
      end
  | _ => None
  end.

Definition IsFinished (p : option PC) : bool := match p with Some (Finished _) => true | _ => false end.

(** The end of a test routine: the main thread waits, without a timeout, for all threads
    that are in the list.  If the wait fails, it goes on as if it had not. *)
(* src/cfix/cfix/filament.c:439-465 (CfixpJoinChildThreadsFilament) *)
Definition exec_join (l : LABEL) (s : STATE) : option STATE :=
  match l with
  | BeginJoin => match Pc s !! Main with Some Running => Some (set_pc Main Joining s) | _ => None end
  | EnterJoin =>
      match Pc s !! Main, ListLock s with
      | Some Joining, None => Some (set_lock (Some Main) (set_pc Main Waiting s))
      | _, _ => None
      end
  | WaitAll =>
      match Pc s !! Main with
      | Some Waiting =>
          if forallb (fun t => IsFinished (Pc s !! t)) (Children s) then Some (set_lock None (set_pc Main Joined s)) else None
      | _ => None
      end
  | WaitFails =>
      match Pc s !! Main, Children s with
      | Some Waiting, _ :: _ => Some (set_lock None (set_pc Main Joined s))
      | _, _ => None
      end
  | _ => None
  end.

(** The main thread gives its filament up, as the default filament under the lock, and
    destroys it. *)
(* src/cfix/cfix/filament.c:321-332 (CfixsSetCurrentFilament) *)
Definition exec_revoke (l : LABEL) (s : STATE) : option STATE :=
  match l with
  | Revoke =>
      match Pc s !! Main with
      | Some Joined =>
          if DefaultOn s then
            match DefaultLock s with
            | None => Some (MkState (ListLock s) (Children s) (<[Main := Returned]> (Pc s)) (Completed s) false None)
            | Some _ => None
            end
          else Some (set_pc Main Returned s)
      | _ => None
      end
  | _ => None
  end.

Definition exec (l : LABEL) (s : STATE) : option STATE :=
  match l with
  | Create _ _ | Resume _ => exec_parent l s
  | Enter _ | Refuse _ _ | Register _ | Signal _ | Finish _ | Exit _ => exec_child l s
  | Adopt _ | EnterDefault _ | RefuseDerived _ _ | EnterList _ | Enlist _ | LeaveDefault _ => exec_adopt l s
  | BeginJoin | EnterJoin | WaitAll | WaitFails => exec_join l s
  | Revoke => exec_revoke l s
  end.

Fixpoint exec_all (ls : list LABEL) (s : STATE) : option STATE :=
  match ls with [] => Some s | l :: ls => s' ← exec l s; exec_all ls s' end.

(** The test routine has been called with a filament of its own; [Default] says whether
    it was asked to provide a default filament. *)
(* src/cfix/cfix/pe.c:524-533 (CfixsRunTestRoutine) *)
Definition start (Default : bool) : STATE := MkState None [] {[Main := Running]} ∅ Default None.

(** As a relation. *)
Inductive step : STATE -> STATE -> Prop :=
  | step_exec l s s' : exec l s = Some s' -> step s s'.
Inductive reachable (Default : bool) : STATE -> Prop :=
  | reach_start : reachable Default (start Default)
  | reach_step s s' : reachable Default s -> step s s' -> reachable Default s'.

Lemma reachable_all D ls : forall s s', reachable D s -> exec_all ls s = Some s' -> reachable D s'.
Proof.
  induction ls as [|l ls IH]; intros s s' H E; cbn in E; [by injection E as <-|].
  destruct (exec l s) as [s1|] eqn:El; [|done]. apply (IH s1); [|done]. eapply reach_step; [exact H|by apply (step_exec l)].
Qed.

(** ** The invariant *)
(** A child of which the parent does not know yet whether it runs. *)
Definition New (s : STATE) (t : Z) : Prop :=
  t <> Main /\ t ∉ Completed s /\ exists q, Pc s !! q = Some (Creating t).

Definition IsNew (p : PC) : bool := match p with Starting | Registering | Initialized _ => true | _ => false end.
Definition HoldsList (p : PC) : bool := match p with Registering | Enlisting | Waiting => true | _ => false end.
Definition HoldsDefault (p : PC) : bool := match p with Deriving | Enlisting | Derived _ => true | _ => false end.

(** What is known about a thread, from where it is. *)
Definition ThreadOk (s : STATE) (t : Z) (p : PC) : Prop :=
  match p with
  | Running => t <> Main -> t ∈ Children s
  | Creating c => (t <> Main -> t ∈ Children s) /\ c <> Main /\
                  (c ∈ Completed s \/ exists q, Pc s !! c = Some q /\ IsNew q = true)
  | Starting => New s t /\ t ∉ Children s
  | Registering => New s t /\ t ∉ Children s /\ ListLock s = Some t
  | Initialized Hr => New s t /\ (FAILED Hr = false -> t ∈ Children s)
  | Exiting b => t <> Main /\ (b = true -> t ∈ Children s)
  | Finished _ => t <> Main
  | Anonymous | Adopting => t <> Main /\ t ∉ Children s
  | Deriving => t <> Main /\ t ∉ Children s /\ DefaultLock s = Some t
  | Enlisting => t <> Main /\ t ∉ Children s /\ DefaultLock s = Some t /\ ListLock s = Some t
  | Derived Hr => t <> Main /\ (FAILED Hr = false <-> t ∈ Children s) /\ DefaultLock s = Some t
  | Joining | Joined => t = Main
  | Returned => t = Main /\ DefaultOn s = false
  | Waiting => t = Main /\ ListLock s = Some t
  end.

Record Inv (s : STATE) : Prop := MkInv {
  inv_thread t p : Pc s !! t = Some p -> ThreadOk s t p;
  inv_lock t : ListLock s = Some t -> exists p, Pc s !! t = Some p /\ HoldsList p = true;
  inv_default t : DefaultLock s = Some t -> exists p, Pc s !! t = Some p /\ HoldsDefault p = true;
  inv_off : DefaultOn s = false -> DefaultLock s = None;
  inv_listed t : t ∈ Children s -> t <> Main /\ is_Some (Pc s !! t);
  inv_completed t : t ∈ Completed s -> is_Some (Pc s !! t);
  inv_main : is_Some (Pc s !! Main) }.

Lemma Inv_start D : Inv (start D).
Proof.
  constructor; unfold start; cbn; try done.
  - intros t p. rewrite lookup_singleton_Some. intros [<- <-]. cbn. intros Hne. by destruct Hne.
  - intros t Hin. by apply not_elem_of_nil in Hin.
  - by rewrite lookup_singleton_eq.
Qed.

(** Thread [t] moves on: it may take or give back the locks, be entered in the list, and
    have its event set. *)
Lemma Inv_move t p p' L C D B DL s : let s' := MkState L C (<[t := p']> (Pc s)) D B DL in
  Inv s -> Pc s !! t = Some p -> (forall c, p = Creating c -> c ∈ Completed s) ->
  (IsNew p = true -> IsNew p' = true \/ t ∈ D) ->
  (forall u, u <> t -> ListLock s = Some u <-> L = Some u) -> (L = Some t -> HoldsList p' = true) ->
  (forall u, u <> t -> DefaultLock s = Some u <-> DL = Some u) -> (DL = Some t -> HoldsDefault p' = true) ->
  (DefaultOn s = false -> B = false) -> (B = false -> DL = None) ->
  (forall u, u ∈ C <-> u ∈ Children s \/ u = t /\ t ∈ C) -> (t ∈ C -> t <> Main) ->
  (forall u, u <> t -> u ∈ D <-> u ∈ Completed s) -> (t ∈ Completed s -> t ∈ D) ->
  ThreadOk s' t p' -> Inv s'.
Proof.
  intros s' HI Ht NC NN HL HLt HDL HDLt HB HBD HC HCt HD HDt HT.
  assert (forall u, u <> t -> New s u -> New s' u) as HN.
  { intros u Hu (H1 & H2 & q & Hq). split; [done|]. split; [cbn; by rewrite HD|]. exists q. cbn. rewrite lookup_insert_ne; [done|].
    intros <-. rewrite Ht in Hq. injection Hq as ->. by apply H2, NC. }
  assert (forall u, u ∈ Completed s -> u ∈ D) as HD1 by (intros u Hu; destruct (decide (u = t)) as [->|]; [auto|by apply HD]).
  assert (forall u, u ∈ Children s -> u ∈ C) as HC1 by (intros u Hu; apply HC; by left).
  assert (forall u, u <> t -> u ∈ C -> u ∈ Children s) as HC2 by (intros u Hu H; apply HC in H as [H|[H _]]; [done|congruence]).
  assert (forall c, c ∈ Completed s \/ (exists q, Pc s !! c = Some q /\ IsNew q = true) ->
    c ∈ D \/ exists q, <[t := p']> (Pc s) !! c = Some q /\ IsNew q = true) as HNC.
  { intros c [H|(q & Hq & HqN)]; [auto|]. destruct (decide (c = t)) as [->|Hc].
    - rewrite lookup_insert_eq. rewrite Ht in Hq. injection Hq as <-. destruct (NN HqN); [right; eauto|auto].
    - right. exists q. by rewrite lookup_insert_ne by done. }
  constructor; cbn.
  - intros u q Hu. rewrite lookup_insert in Hu. case_decide as Hd; [by simplify_eq|].
    assert (u <> t) as Hut by congruence. pose proof (inv_thread _ HI u q Hu) as HU. specialize (HD u Hut).
    specialize (HL u Hut). specialize (HDL u Hut). specialize (HC1 u). specialize (HC2 u Hut). specialize (HN u Hut).
    destruct q; cbn in HU |- *; try tauto.
    destruct HU as (H1 & H2 & H3). split; [tauto|]. split; [done|]. by apply HNC.
  - intros u Hu. destruct (decide (u = t)) as [->|Hd]; [exists p'; by rewrite lookup_insert_eq, HLt|].
    rewrite lookup_insert_ne by done. apply (inv_lock _ HI). by apply HL.
  - intros u Hu. destruct (decide (u = t)) as [->|Hd]; [exists p'; by rewrite lookup_insert_eq, HDLt|].
    rewrite lookup_insert_ne by done. apply (inv_default _ HI). by apply HDL.
  - done.
  - intros u Hu. rewrite lookup_insert. case_decide as Hd; [subst; auto|]. apply (inv_listed _ HI). apply HC2; [congruence|done].
  - intros u Hu. rewrite lookup_insert. case_decide; [done|]. apply (inv_completed _ HI). apply HD; [congruence|done].
  - rewrite lookup_insert. case_decide; [done|]. apply (inv_main _ HI).
Qed.

(** A thread that was not there before. *)
Lemma Inv_appear a p s : Inv s -> Pc s !! a = None -> HoldsList p = false -> HoldsDefault p = false ->
  ThreadOk (set_pc a p s) a p -> Inv (set_pc a p s).
Proof.
  intros HI Ha Hl Hd HT. pose proof (inv_main _ HI) as [m Hm].
  assert (forall u, u <> a -> New s u -> New (set_pc a p s) u) as HN.
  { intros u Hu (H1 & H2 & q & Hq). do 2 (split; [done|]). exists q. cbn. rewrite lookup_insert_ne; congruence. }
  assert (forall c, c ∈ Completed s \/ (exists q, Pc s !! c = Some q /\ IsNew q = true) ->
    c ∈ Completed s \/ exists q, <[a := p]> (Pc s) !! c = Some q /\ IsNew q = true) as HNC.
  { intros c [H|(q & Hq & HqN)]; [auto|]. right. exists q. rewrite lookup_insert_ne; [done|congruence]. }
  constructor; cbn.
  - intros u q Hu. rewrite lookup_insert in Hu. case_decide; [by simplify_eq|].
    pose proof (inv_thread _ HI u q Hu) as HU. specialize (HN u ltac:(congruence)).
    destruct q; cbn in HU |- *; try tauto. destruct HU as (H1 & H2 & H3). do 2 (split; [done|]). by apply HNC.
  - intros u Hu. destruct (inv_lock _ HI u Hu) as (q & Hq & HqL). exists q. rewrite lookup_insert_ne; [done|congruence].
  - intros u Hu. destruct (inv_default _ HI u Hu) as (q & Hq & HqL). exists q. rewrite lookup_insert_ne; [done|congruence].
  - apply (inv_off _ HI).
  - intros u Hu. destruct (inv_listed _ HI u Hu) as [H1 H2]. split; [done|]. rewrite lookup_insert. by case_decide.
  - intros u Hu. pose proof (inv_completed _ HI u Hu). rewrite lookup_insert. by case_decide.
  - rewrite lookup_insert. by case_decide.
Qed.

Lemma Inv_create t c s : Inv s -> Pc s !! t = Some Running -> Pc s !! c = None ->
  Inv (set_pc c Starting (set_pc t (Creating c) s)).
Proof.
  intros HI Ht Hc. pose proof (inv_main _ HI) as [m Hm]. assert (c <> Main /\ c <> t) as [HcM Hct] by (split; congruence).
  assert (c ∉ Children s) as HcC by (intros H; destruct (inv_listed _ HI c H) as [_ [? ?]]; congruence).
  assert (forall u, New s u -> New (set_pc c Starting (set_pc t (Creating c) s)) u) as HN.
  { intros u (H1 & H2 & q & Hq). split; [done|]. split; [done|]. exists q. cbn. rewrite !lookup_insert_ne; congruence. }
  assert (forall d q, Pc s !! d = Some q -> q <> Running -> <[c := Starting]> (<[t := Creating c]> (Pc s)) !! d = Some q) as HP.
  { intros d q Hd Hq. rewrite !lookup_insert_ne; congruence. }
  constructor; cbn.
  - intros u q Hu. rewrite !lookup_insert in Hu. repeat case_decide; simplify_eq.
    + cbn. split; [|done]. split; [done|]. split; [intros Hx; destruct (inv_completed _ HI u Hx); congruence|].
      exists t. cbn. by rewrite lookup_insert_ne, lookup_insert_eq by done.
    + cbn. split; [apply (inv_thread _ HI u Running Ht)|]. split; [done|]. right. exists Starting. by rewrite lookup_insert_eq.
    + pose proof (inv_thread _ HI u q Hu) as HU. specialize (HN u). destruct q; cbn in HU |- *; try tauto.
      destruct HU as (H1 & H2 & [H3|(q & Hq & HqN)]); (split; [done|]); (split; [done|]); [by left|].
      right. exists q. split; [|done]. apply HP; [done|]. by intros ->.
  - intros u Hu. destruct (inv_lock _ HI u Hu) as (q & Hq & HqL). exists q. split; [|done]. apply HP; [done|]. by intros ->.
  - intros u Hu. destruct (inv_default _ HI u Hu) as (q & Hq & HqL). exists q. split; [|done]. apply HP; [done|]. by intros ->.
  - apply (inv_off _ HI).
  - intros u Hu. rewrite !lookup_insert. destruct (inv_listed _ HI u Hu) as [H1 H2]. split; [done|]. by repeat case_decide.
  - intros u Hu. rewrite !lookup_insert. pose proof (inv_completed _ HI u Hu). by repeat case_decide.
  - rewrite !lookup_insert. by repeat case_decide.
Qed.

(** The holders of the locks. *)
Lemma list_holder s t p : Inv s -> ListLock s = Some t -> Pc s !! t = Some p -> HoldsList p = true.
Proof. intros HI Hl Hp. destruct (inv_lock _ HI t Hl) as (q & Hq & HqL). congruence. Qed.
Lemma default_holder s t p : Inv s -> DefaultLock s = Some t -> Pc s !! t = Some p -> HoldsDefault p = true.
Proof. intros HI Hl Hp. destruct (inv_default _ HI t Hl) as (q & Hq & HqL). congruence. Qed.

(** The conditions of [Inv_move] for what does not change. *)
Ltac same HI Et := try done; try solve [ by intros c [= <-] | by left | by right
  | intros Hl; pose proof (list_holder _ _ _ HI Hl Et); done
  | intros Hl; pose proof (default_holder _ _ _ HI Hl Et); done
  | apply (inv_off _ HI) | intros u; split; [auto|intros [?|[-> ?]]; done] | intros u; tauto
  | intros Hl; apply (inv_listed _ HI _ Hl) ].

Lemma New_moved t p L C D B DL s : New s t -> Pc s !! t <> Some (Creating t) -> (t ∈ D -> t ∈ Completed s) ->
  New (MkState L C (<[t := p]> (Pc s)) D B DL) t.
Proof.
  intros (H1 & H2 & q & Hq) Hn HD. split; [done|]. split; [by intros H%HD|]. exists q. cbn.
  rewrite lookup_insert_ne; [done|]. by intros <-.
Qed.

Lemma Inv_parent l s s' : Inv s -> exec_parent l s = Some s' -> Inv s'.
Proof.
  intros HI. destruct l; cbn; try done.
  - destruct (Pc s !! t) as [[]|] eqn:Et; try done. destruct (Pc s !! c) eqn:Ec; [done|]. intros [= <-]. by apply Inv_create.
  - destruct (Pc s !! t) as [[]|] eqn:Et; try done. case_bool_decide as Hc; [|done]. intros [= <-].
    pose proof (inv_thread _ HI t _ Et) as (H1 & H2 & H3). eapply Inv_move; same HI Et.
Qed.

Lemma Inv_child l s s' : Inv s -> exec_child l s = Some s' -> Inv s'.
Proof.
  intros HI. destruct l; cbn [exec_child]; try done; destruct (Pc s !! c) as [[]|] eqn:Ec; try done.
  - destruct (ListLock s) eqn:EL; [done|]. intros [= <-]. pose proof (inv_thread _ HI c _ Ec) as [H1 H2].
    eapply Inv_move; same HI Ec; [intros u Hu; rewrite EL; naive_solver|].
    split; [apply New_moved; [done|congruence|auto]|done].
  - destruct (FAILED Hr) eqn:EH; [|done]. intros [= <-]. pose proof (inv_thread _ HI c _ Ec) as [H1 H2].
    eapply Inv_move; same HI Ec. split; [apply New_moved; [done|congruence|auto]|congruence].
  - pose proof (inv_thread _ HI c _ Ec) as (H1 & H2 & H3). unfold RegisterChild. destruct (_ =? _); intros [= <-].
    + eapply Inv_move; same HI Ec; [intros u Hu; rewrite H3; naive_solver|]. split; [apply New_moved; [done|congruence|auto]|done].
    + eapply Inv_move; same HI Ec; [intros u Hu; rewrite H3; naive_solver| |by intros _; destruct H1|].
      * intros u. rewrite !elem_of_app, !list_elem_of_singleton. naive_solver.
      * split; [apply New_moved; [done|congruence|auto]|]. intros _. cbn. rewrite elem_of_app, list_elem_of_singleton. by right.
  - intros [= <-]. pose proof (inv_thread _ HI c _ Ec) as [(H0 & H1 & H2) H3].
    assert (forall u, u ∈ {[c]} ∪ Completed s <-> u = c \/ u ∈ Completed s) as HU
      by (intros u; by rewrite elem_of_union, elem_of_singleton).
    eapply Inv_move; same HI Ec.
    + intros _. right. apply HU. by left.
    + intros u Hu. rewrite HU. naive_solver.
    + destruct (FAILED Hr); [done|]. intros _. by apply H3.
  - destruct (Z.eqb_spec c Main) as [|Hne]; [done|]. intros [= <-]. pose proof (inv_thread _ HI c _ Ec Hne) as H1.
    eapply Inv_move; same HI Ec.
  - intros [= <-]. pose proof (inv_thread _ HI c _ Ec) as [H1 H2]. eapply Inv_move; same HI Ec.
Qed.

Lemma Inv_adopt l s s' : Inv s -> exec_adopt l s = Some s' -> Inv s'.
Proof.
  intros HI. destruct l; cbn [exec_adopt]; try done; destruct (Pc s !! a) as [[]|] eqn:Ea; try done.
  - destruct (DefaultOn s); [|done]. intros [= <-]. pose proof (inv_thread _ HI a _ Ea) as [H1 H2]. eapply Inv_move; same HI Ea.
  - destruct (DefaultOn s); [|done]. intros [= <-]. pose proof (inv_main _ HI) as [m Hm].
    apply Inv_appear; try done. cbn. split; [congruence|]. intros Hin. destruct (inv_listed _ HI a Hin) as [_ [? ?]]. congruence.
  - pose proof (inv_thread _ HI a _ Ea) as [H1 H2]. destruct (DefaultLock s) eqn:ED; [done|].
    destruct (DefaultOn s) eqn:EO; intros [= <-]; (eapply Inv_move; same HI Ea); try (by rewrite EO); try (by rewrite ED).
    { intros u Hu. rewrite ED. naive_solver. }
    cbn. by rewrite EO.
  - destruct (FAILED Hr) eqn:EH; [|done]. intros [= <-]. pose proof (inv_thread _ HI a _ Ea) as (H1 & H2 & H3).
    eapply Inv_move; same HI Ea. split; [done|]. split; [|done]. split; [by rewrite EH|done].
  - destruct (ListLock s) eqn:EL; [done|]. intros [= <-]. pose proof (inv_thread _ HI a _ Ea) as (H1 & H2 & H3).
    eapply Inv_move; same HI Ea. intros u Hu. rewrite EL. naive_solver.
  - pose proof (inv_thread _ HI a _ Ea) as (H1 & H2 & H3 & H4). unfold RegisterChild. destruct (_ =? _); intros [= <-].
    + eapply Inv_move; same HI Ea. intros u Hu. rewrite H4. naive_solver.
    + eapply Inv_move; same HI Ea; [intros u Hu; rewrite H4; naive_solver| |].
      * intros u. rewrite !elem_of_app, !list_elem_of_singleton. naive_solver.
      * split; [done|]. split; [|done]. split; [intros _|done]. cbn. rewrite elem_of_app, list_elem_of_singleton. by right.
  - intros [= <-]. pose proof (inv_thread _ HI a _ Ea) as (H1 & H2 & H3).
    eapply Inv_move; same HI Ea.
    + intros u Hu. rewrite H3. naive_solver.
    + destruct (FAILED Hr) eqn:EH; cbn; [|intros _; by apply H2]. split; [done|]. intros Hin. by apply H2 in Hin.
Qed.

Lemma Inv_join l s s' : Inv s -> exec_join l s = Some s' -> Inv s'.
Proof.
  intros HI. destruct l; cbn; try done; destruct (Pc s !! Main) as [[]|] eqn:Em; try done.
  - intros [= <-]. eapply Inv_move; same HI Em.
  - destruct (ListLock s) eqn:EL; [done|]. intros [= <-]. eapply Inv_move; same HI Em. intros u Hu. rewrite EL. naive_solver.
  - destruct (forallb _ _) eqn:EF; [|done]. intros [= <-]. pose proof (inv_thread _ HI Main _ Em) as [_ HL].
    eapply Inv_move; same HI Em. intros u Hu. rewrite HL. naive_solver.
  - destruct (Children s) eqn:EC; [done|]. intros [= <-]. pose proof (inv_thread _ HI Main _ Em) as [_ HL].
    eapply Inv_move; same HI Em. intros u Hu. rewrite HL. naive_solver.
Qed.

Lemma Inv_revoke l s s' : Inv s -> exec_revoke l s = Some s' -> Inv s'.
Proof.
  intros HI. destruct l; cbn; try done. destruct (Pc s !! Main) as [[]|] eqn:Em; try done.
  destruct (DefaultOn s) eqn:EO; [destruct (DefaultLock s) eqn:ED; [done|]|]; intros [= <-]; (eapply Inv_move; same HI Em).
  intros u Hu. by rewrite ED.
Qed.

Lemma Inv_exec l s s' : Inv s -> exec l s = Some s' -> Inv s'.
Proof.
  intros HI H. destruct l; solve [exact (Inv_parent _ s s' HI H) | exact (Inv_child _ s s' HI H) | exact (Inv_adopt _ s s' HI H)
    | exact (Inv_join _ s s' HI H) | exact (Inv_revoke _ s s' HI H)].
Qed.

Lemma reachable_inv D s : reachable D s -> Inv s.
Proof.
  induction 1 as [|s s' _ IH Hs]; [apply Inv_start|]. destruct Hs as [l s s' E]. exact (Inv_exec l s s' IH E).
Qed.

(** ** After the join *)
(** A thread that will not touch the filament any more. *)
Definition Ended (p : PC) : bool := match p with Finished _ | Exiting false => true | _ => false end.
(** A thread that has not registered through the default filament, or could not. *)
Definition Outside (p : PC) : bool :=
  match p with Anonymous | Adopting | Deriving | Enlisting => true | Derived Hr => FAILED Hr | _ => false end.
Definition IsEnlist (l : LABEL) : bool := match l with Enlist _ => true | _ => false end.

Definition Settled (s : STATE) : Prop :=
  (Pc s !! Main = Some Joined \/ Pc s !! Main = Some Returned) /\
  forall t p, t <> Main -> Pc s !! t = Some p -> Ended p = true \/ Outside p = true.

Lemma settled_join s s' : Inv s -> exec WaitAll s = Some s' -> Settled s'.
Proof.
  intros HI. cbn. destruct (Pc s !! Main) as [[]|] eqn:Em; try done.
  destruct (forallb _ _) eqn:EF; [|done]. intros [= <-]. pose proof (inv_thread _ HI Main _ Em) as [_ HL].
  rewrite forallb_forall in EF. assert (forall u, u ∈ Children s -> exists b, Pc s !! u = Some (Finished b)) as HF.
  { intros u Hu%list_elem_of_In. specialize (EF u Hu). destruct (Pc s !! u) as [[]|]; try done. by eexists. }
  assert (forall v d, Pc s !! v <> Some (Creating d)) as HNo.
  { intros v d Hv. destruct (inv_thread _ HI v _ Hv) as [H1 _]. destruct (decide (v = Main)) as [->|Hne]; [congruence|].
    destruct (HF v (H1 Hne)). congruence. }
  split; [left; cbn; by rewrite lookup_insert_eq|]. intros t p Ht Hp. cbn in Hp. rewrite lookup_insert_ne in Hp by congruence.
  pose proof (inv_thread _ HI t p Hp) as HT. destruct p; cbn in HT; try (by left); try (by right).
  - destruct (HF t (HT Ht)). congruence.
  - by apply HNo in Hp.
  - destruct HT as [(_ & _ & v & Hv) _]. by apply HNo in Hv.
  - destruct HT as [(_ & _ & v & Hv) _]. by apply HNo in Hv.
  - destruct HT as [(_ & _ & v & Hv) _]. by apply HNo in Hv.
  - destruct Ran; [|by left]. destruct HT as [_ HT]. destruct (HF t (HT eq_refl)). congruence.
  - right. cbn. destruct (FAILED Hr) eqn:EH; [done|]. destruct HT as (_ & HT & _). apply HT in EH. destruct (HF t EH). congruence.
  - by destruct HT.
  - by destruct HT.
Qed.

Lemma settled_step l s s' : Settled s -> IsEnlist l = false -> exec l s = Some s' -> Settled s'.
Proof.
  intros [HM HS] Hl E.
  assert (forall t p' L C D B DL, (t <> Main -> Ended p' = true \/ Outside p' = true) ->
    (t = Main -> p' = Returned) -> Settled (MkState L C (<[t := p']> (Pc s)) D B DL)) as HK.
  { intros t p' L C D B DL H1 H2. split; cbn.
    - destruct (decide (t = Main)) as [->|Hne]; [rewrite lookup_insert_eq, H2; auto|]. by rewrite lookup_insert_ne.
    - intros u q Hu Hq. destruct (decide (u = t)) as [->|Hne]; [rewrite lookup_insert_eq in Hq; injection Hq as <-; by apply H1|].
      rewrite lookup_insert_ne in Hq by done. by eapply HS. }
  assert (forall t p, Pc s !! t = Some p -> Ended p = false -> Outside p = false -> p <> Joined -> p <> Returned -> False) as HX.
  { intros t p Hp H1 H2 H3 H4. destruct (decide (t = Main)) as [->|Hne]; [destruct HM; congruence|].
    destruct (HS t p Hne Hp); congruence. }
  destruct l; try done; cbn [exec exec_parent exec_child exec_adopt exec_join exec_revoke] in E;
    (match type of E with context [Pc s !! ?u] => destruct (Pc s !! u) as [[]|] eqn:Et; try done end);
    try (by exfalso; eapply HX; [exact Et|done..]).
  - injection E as <-. apply HK; [by left|]. intros ->. destruct HM; congruence.
  - destruct (DefaultOn s); [|done]. injection E as <-. apply HK; [by right|]. intros ->. destruct HM; congruence.
  - destruct (DefaultOn s); [|done]. injection E as <-. apply HK; [by right|]. intros ->. destruct HM; congruence.
  - destruct (DefaultLock s); [done|].
    destruct (DefaultOn s); injection E as <-; (apply HK; [by right|]); intros ->; destruct HM; congruence.
  - destruct (FAILED Hr) eqn:EH; [|done]. injection E as <-. apply HK; [by right|]. intros ->. destruct HM; congruence.
  - destruct (ListLock s); [done|]. injection E as <-. apply HK; [by right|]. intros ->. destruct HM; congruence.
  - injection E as <-. assert (a <> Main) as Hne by (intros ->; destruct HM; congruence).
    destruct (HS a _ Hne Et) as [H|H]; [done|]. cbn [Outside] in H. rewrite H. apply HK; [by right|done].
  - destruct (DefaultOn s); [destruct (DefaultLock s); [done|]|]; injection E as <-; by apply HK.
Qed.

Lemma settled_all ls : forall s s', Settled s -> Forall (fun l => IsEnlist l = false) ls ->
  exec_all ls s = Some s' -> Settled s'.
Proof.
  induction ls as [|l ls IH]; intros s s' HS Hl E; cbn in E; [by injection E as <-|]. apply Forall_cons in Hl as [Hl Hls].
  destruct (exec l s) as [s1|] eqn:El; [|done]. eapply IH; [by eapply settled_step|done|exact E].
Qed.

(** Without a default filament no thread registers through it. *)
Definition Foreign (p : PC) : bool :=
  match p with Anonymous | Adopting | Deriving | Enlisting | Derived _ => true | _ => false end.
Definition NoDefault (s : STATE) : Prop := DefaultOn s = false /\ forall t p, Pc s !! t = Some p -> Foreign p = false.

Lemma no_default_step l s s' : NoDefault s -> exec l s = Some s' -> NoDefault s' /\ IsEnlist l = false.
Proof.
  intros [HO HF] E.
  assert (forall t p' L C D DL, Foreign p' = false -> NoDefault (MkState L C (<[t := p']> (Pc s)) D (DefaultOn s) DL)) as HK.
  { intros t p' L C D DL H1. split; [done|]. intros u q Hq. cbn in Hq. rewrite lookup_insert in Hq. case_decide; [by simplify_eq|by eapply HF]. }
  assert (forall t p, Pc s !! t = Some p -> Foreign p = true -> False) as HX.
  { intros t p Hp Hf. pose proof (HF t p Hp). congruence. }
  destruct l; cbn [exec exec_parent exec_child exec_adopt exec_join exec_revoke] in E;
    (match type of E with context [Pc s !! ?u] => destruct (Pc s !! u) as [[]|] eqn:Et; try done end);
    try (by exfalso; eapply HX; [exact Et|done]); (split; [|done]);
    try (rewrite HO in E; try done; injection E as <-; rewrite <- HO; by apply HK);
    try (destruct (ListLock s); [done|]); try (case_bool_decide; [|done]); try (destruct (FAILED Hr) eqn:EH; [|done]);
    try (destruct (c =? Main); [done|]); try (destruct (forallb _ _); [|done]); try (destruct (Children s); [done|]);
    try (unfold RegisterChild in E; destruct (_ =? _)); try (injection E as <-; by apply HK).
  - destruct (Pc s !! c); [done|]. injection E as <-. split; [done|]. intros u q Hq. cbn in Hq.
    rewrite !lookup_insert in Hq. repeat case_decide; simplify_eq; [done|done|by eapply HF].
  - injection E as <-. apply HK. by destruct (FAILED Hr).
  - rewrite HO in E. injection E as <-. by apply HK.
Qed.

Lemma no_default_all ls : forall s s', NoDefault s -> exec_all ls s = Some s' -> NoDefault s' /\ Forall (fun l => IsEnlist l = false) ls.
Proof.
  induction ls as [|l ls IH]; intros s s' HN E; cbn in E; [injection E as <-; by split|].
  destruct (exec l s) as [s1|] eqn:El; [|done]. destruct (no_default_step l s s1 HN El) as [HN1 Hl].
  destruct (IH s1 s' HN1 E) as [HN' Hls]. split; [done|by constructor].
Qed.

Lemma start_no_default : NoDefault (start false).
Proof. split; [done|]. intros t p Hp. cbn in Hp. apply lookup_singleton_Some in Hp as [_ <-]. done. Qed.

Lemma exec_all_app ls1 ls2 : forall s, exec_all (ls1 ++ ls2) s = (s1 ← exec_all ls1 s; exec_all ls2 s1).
Proof. induction ls1 as [|l ls1 IH]; intros s; [done|]. cbn. destruct (exec l s); [apply IH|done]. Qed.

(** ** The test routine returns *)
(** What brings in new threads. *)
Definition IsArrival (l : LABEL) : bool := match l with Create _ _ | Adopt _ => true | _ => false end.
(** Failures of the system. *)
Definition IsRefuse (l : LABEL) : bool := match l with Refuse _ _ | WaitFails => true | _ => false end.
Definition IsFailure (l : LABEL) : bool := match l with Refuse _ _ | RefuseDerived _ _ | WaitFails => true | _ => false end.
(** Threads are created by the main thread only. *)
Definition ByMain (l : LABEL) : Prop := match l with Create t _ => t = Main | _ => True end.
Definition OnlyMainCreates (s : STATE) : Prop := forall t c, Pc s !! t = Some (Creating c) -> t = Main.

(** How many steps a thread can still make. *)
Definition rank (p : PC) : nat :=
  match p with
  | Adopting => 10 | Starting | Deriving => 9 | Registering | Enlisting => 8 | Initialized _ | Derived _ | Creating _ => 7
  | Running => 6 | Joining => 5 | Waiting => 4 | Exiting _ | Joined => 3 | Finished _ | Returned | Anonymous => 0
  end.
Definition measure (s : STATE) : nat := map_fold (fun _ p n => (rank p + n)%nat) O (Pc s).

Lemma measure_delete (m : gmap Z PC) t p : m !! t = Some p ->
  map_fold (fun _ p n => (rank p + n)%nat) O m = (rank p + map_fold (fun _ p n => (rank p + n)%nat) O (delete t m))%nat.
Proof. intros Ht. apply (map_fold_delete_L (fun _ p n => (rank p + n)%nat) O t p m); [intros; lia|done]. Qed.

Lemma measure_insert (m : gmap Z PC) t p p' : m !! t = Some p -> (rank p' < rank p)%nat ->
  (map_fold (fun _ p n => (rank p + n)%nat) O (<[t := p']> m) < map_fold (fun _ p n => (rank p + n)%nat) O m)%nat.
Proof.
  intros Ht Hr. rewrite (measure_delete m t p Ht), (measure_delete (<[t := p']> m) t p') by apply lookup_insert_eq.
  rewrite delete_insert_eq. lia.
Qed.

Lemma exec_decreases l s s' : IsArrival l = false -> exec l s = Some s' -> (measure s' < measure s)%nat.
Proof.
  unfold measure. destruct l; try done; intros _; cbn [exec exec_parent exec_child exec_adopt exec_join exec_revoke];
    (destruct (Pc s !! _) as [[]|] eqn:Et; try done); try (destruct (ListLock s); [done|]);
    try (case_bool_decide; [|done]); try (destruct (FAILED Hr) eqn:EH; [|done]);
    try (destruct (c =? Main); [done|]); try (destruct (forallb _ _); [|done]);
    try (destruct (Children s); [done|]);
    try (destruct (DefaultOn s)); try (destruct (DefaultLock s); [done|]);
    try (unfold RegisterChild; destruct (_ =? _)); intros [= <-]; cbn [Pc set_pc set_lock set_default];
    (eapply measure_insert; [eassumption|]); first [cbn; lia | destruct (FAILED Hr); cbn; lia].
Qed.

(** A thread that waits for another one has created it. *)
Lemma creating_from l s s' u d : exec l s = Some s' -> Pc s' !! u = Some (Creating d) ->
  Pc s !! u = Some (Creating d) \/ exists c, l = Create u c.
Proof.
  destruct l; cbn [exec exec_parent exec_child exec_adopt exec_join exec_revoke];
    (destruct (Pc s !! _) as [[]|] eqn:Et; try done); try (destruct (Pc s !! c) as [p|]; [done|]);
    try (destruct (ListLock s); [done|]); try (case_bool_decide; [|done]);
    try (destruct (FAILED Hr) eqn:EH; [|done]); try (destruct (c =? Main); [done|]);
    try (destruct (forallb _ _); [|done]); try (destruct (Children s); [done|]);
    try (destruct (DefaultOn s); try done); try (destruct (DefaultLock s); [done|]);
    try (unfold RegisterChild; destruct (_ =? _));
    intros [= <-]; cbn [Pc set_pc set_lock set_default]; rewrite !lookup_insert; repeat case_decide; subst; try done; try (by left);
    try (destruct (FAILED Hr); done). all: intros _; right; by eexists.
Qed.

Lemma creates_kept l s s' : ByMain l -> OnlyMainCreates s -> exec l s = Some s' -> OnlyMainCreates s'.
Proof.
  intros Hl HO E u d Hu. destruct (creating_from l s s' u d E Hu) as [H|[c ->]]; [by eapply HO|]. exact Hl.
Qed.

Lemma creates_all ls : forall s s', Forall ByMain ls -> OnlyMainCreates s -> exec_all ls s = Some s' -> OnlyMainCreates s'.
Proof.
  induction ls as [|l ls IH]; intros s s' Hl HO E; cbn in E; [by injection E as <-|]. apply Forall_cons in Hl as [Hl Hls].
  destruct (exec l s) as [s1|] eqn:El; [|done]. eapply IH; [done| |exact E]. by eapply creates_kept.
Qed.

(** Some thread can go on, without bringing in another one and without a failure. *)
Definition CanStep (s : STATE) : Prop := exists l, IsArrival l = false /\ IsFailure l = false /\ is_Some (exec l s).

Lemma can_step l s s' : IsArrival l = false -> IsFailure l = false -> exec l s = Some s' -> CanStep s.
Proof. intros H1 H2 E. exists l. do 2 (split; [done|]). by exists s'. Qed.

(** The holder of the lock of the list can go on, unless it is the main thread in its wait. *)
Lemma holder_steps s t : Inv s -> ListLock s = Some t -> Pc s !! Main <> Some Waiting -> CanStep s.
Proof.
  intros HI HL HW. destruct (inv_lock _ HI t HL) as (p & Ht & Hp). destruct p; try done.
  - destruct (RegisterChild (Children s) t) as [Th Hr] eqn:ER. eapply (can_step (Register t)); [done|done|]. cbn. by rewrite Ht, ER.
  - destruct (RegisterChild (Children s) t) as [Th Hr] eqn:ER. eapply (can_step (Enlist t)); [done|done|]. cbn. by rewrite Ht, ER.
  - destruct (inv_thread _ HI t _ Ht) as [-> _]. done.
Qed.

Lemma new_steps s c p : Inv s -> Pc s !! Main <> Some Waiting -> Pc s !! c = Some p -> IsNew p = true -> CanStep s.
Proof.
  intros HI HW Hc Hp. destruct p; try done.
  - destruct (ListLock s) as [t|] eqn:EL; [by apply (holder_steps s t)|].
    eapply (can_step (Enter c)); [done|done|]. cbn. by rewrite Hc, EL.
  - apply (holder_steps s c); [done| |done]. apply (inv_thread _ HI c _ Hc).
  - eapply (can_step (Signal c)); [done|done|]. cbn. by rewrite Hc.
Qed.

(** So can the holder of that of the default filament. *)
Lemma default_steps s t : Inv s -> DefaultLock s = Some t -> Pc s !! Main <> Some Waiting -> CanStep s.
Proof.
  intros HI HL HW. destruct (inv_default _ HI t HL) as (p & Ht & Hp). destruct p; try done.
  - destruct (ListLock s) as [u|] eqn:EL; [by apply (holder_steps s u)|].
    eapply (can_step (EnterList t)); [done|done|]. cbn. by rewrite Ht, EL.
  - apply (holder_steps s t); [done| |done]. apply (inv_thread _ HI t _ Ht).
  - eapply (can_step (LeaveDefault t)); [done|done|]. cbn. by rewrite Ht.
Qed.

Lemma waiting_steps s : Inv s -> OnlyMainCreates s -> Pc s !! Main = Some Waiting -> CanStep s.
Proof.
  intros HI HO Hm. destruct (forallb (fun t => IsFinished (Pc s !! t)) (Children s)) eqn:EF.
  { eapply (can_step WaitAll); [done|done|]. cbn. by rewrite Hm, EF. }
  apply not_true_iff_false in EF. rewrite forallb_forall in EF.
  assert (exists t, t ∈ Children s /\ IsFinished (Pc s !! t) = false) as (t & Hin & Ht).
  { destruct (decide (Forall (fun t => IsFinished (Pc s !! t) = true) (Children s))) as [HF|HF].
    - exfalso. apply EF. intros t Ht%list_elem_of_In. rewrite Forall_forall in HF. by apply HF.
    - apply not_Forall_Exists, Exists_exists in HF as (t & Hin & Ht); [|apply _]. exists t. split; [done|].
      by apply not_true_iff_false. }
  destruct (inv_listed _ HI t Hin) as [Hne [p Hp]]. rewrite Hp in Ht. pose proof (inv_thread _ HI t p Hp) as HT.
  destruct p; cbn in HT, Ht; try done; try (by destruct HT); try (by destruct HT as (_ & HT & _)).
  - eapply (can_step (Finish t)); [done|done|]. cbn. by rewrite Hp, (proj2 (Z.eqb_neq t Main)).
  - exfalso. by apply Hne, (HO t Child).
  - eapply (can_step (Signal t)); [done|done|]. cbn. by rewrite Hp.
  - eapply (can_step (Exit t)); [done|done|]. cbn. by rewrite Hp.
  - eapply (can_step (LeaveDefault t)); [done|done|]. cbn. by rewrite Hp.
Qed.

Lemma progress s : Inv s -> OnlyMainCreates s -> Pc s !! Main = Some Returned \/ CanStep s.
Proof.
  intros HI HO. destruct (inv_main _ HI) as [p Hm]. pose proof (inv_thread _ HI Main p Hm) as HT.
  destruct p; cbn in HT; try (exfalso; by destruct HT as [(? & _) _]); try (exfalso; by destruct HT).
  - right. eapply (can_step BeginJoin); [done|done|]. cbn. by rewrite Hm.
  - right. destruct HT as (_ & Hc & [HD|(q & Hq & HqN)]).
    + eapply (can_step (Resume Main)); [done|done|]. cbn. by rewrite Hm, bool_decide_true.
    + apply (new_steps s Child q); [done|congruence|done|done].
  - right. destruct (ListLock s) as [t|] eqn:EL; [apply (holder_steps s t); congruence|].
    eapply (can_step EnterJoin); [done|done|]. cbn. by rewrite Hm, EL.
  - right. by apply waiting_steps.
  - right. destruct (DefaultLock s) as [t|] eqn:ED; [apply (default_steps s t); congruence|].
    destruct (DefaultOn s) eqn:EO; (eapply (can_step Revoke); [done|done|]); cbn; by rewrite Hm, EO, ?ED.
  - by left.
Qed.

Lemma runs_bounded ls : forall s s', Forall (fun l => IsArrival l = false) ls -> exec_all ls s = Some s' ->
  (length ls + measure s' <= measure s)%nat.
Proof.
  induction ls as [|l ls IH]; intros s s' Hl E; cbn in E |- *; [injection E as <-; lia|]. apply Forall_cons in Hl as [Hl Hls].
  destruct (exec l s) as [s1|] eqn:El; [|done]. pose proof (exec_decreases l s s1 Hl El). pose proof (IH s1 s' Hls E). lia.
Qed.

Lemma start_only_main D : OnlyMainCreates (start D).
Proof. intros t c H. cbn in H. apply lookup_singleton_Some in H as [_ [=]]. Qed.

Lemma not_creating ls : Forall (fun l => IsArrival l = false) ls -> Forall ByMain ls.
Proof. intros H. eapply Forall_impl; [exact H|]. by intros []. Qed.

(** C7. The end of a test routine waits for its threads.  However threads are scheduled, and
    whenever they create threads, register through the default filament, finish or exit:
    once the wait of the join has ended (without failing), and as long as no thread registers
    through the default filament after that, every thread but the main thread has exited, or
    is a child that was refused, ran no test code and is about to exit, or -- only if the
    routine provides a default filament -- is a thread that was not created through the
    framework and has not registered.  This includes threads created by other children and
    by registered threads.  Once the routine has returned and destroyed the filament, which
    is on its stack, no such thread is inside the registration either.  And if only the main
    thread creates threads, the routine does return: from any point on, there are only so
    many steps that do not bring in a thread, and as long as it has not returned, some thread
    can make one, without a failure of the system. *)
Theorem join_waits_for_threads Default ls s : exec_all ls (start Default) = Some s ->
  (forall ls1 ls2, ls = ls1 ++ WaitAll :: ls2 -> Default = false \/ Forall (fun l => IsEnlist l = false) ls2 ->
   (Pc s !! Main = Some Joined \/ Pc s !! Main = Some Returned) /\
   forall t p, t <> Main -> Pc s !! t = Some p ->
     Ended p = true \/
     Default = true /\ Outside p = true /\ (Pc s !! Main = Some Returned -> HoldsDefault p = false)) /\
  (Forall ByMain ls -> forall ls' s', Forall (fun l => IsArrival l = false) ls' -> exec_all ls' s = Some s' ->
     (length ls' <= measure s)%nat /\ (Pc s' !! Main = Some Returned \/ CanStep s')).
Proof.
  intros E. pose proof (reachable_all Default ls (start Default) s (reach_start Default) E) as HR.
  pose proof (reachable_inv _ s HR) as HI. split.
  - intros ls1 ls2 -> Hno. pose proof E as Eall. rewrite exec_all_app in E. cbn [exec_all] in E.
    destruct (exec_all ls1 (start Default)) as [s1|] eqn:E1; [|done].
    cbn [mbind option_bind] in E. destruct (exec WaitAll s1) as [s2|] eqn:E2; [|done].
    pose proof (reachable_inv _ _ (reachable_all Default ls1 _ s1 (reach_start Default) E1)) as HI1.
    assert (Forall (fun l => IsEnlist l = false) ls2) as Hno2.
    { destruct Hno as [->|]; [|done]. destruct (no_default_all _ _ _ start_no_default Eall) as [_ HF].
      apply Forall_app in HF as [_ HF]. by apply Forall_cons in HF as [_ HF]. }
    destruct (settled_all ls2 s2 s (settled_join s1 s2 HI1 E2) Hno2 E) as [HM HS]. split; [done|].
    intros t p Ht Hp. destruct (HS t p Ht Hp) as [H|H]; [by left|]. right. destruct Default.
    + do 2 (split; [done|]). intros HMR. destruct (inv_thread _ HI Main _ HMR) as [_ HO]. apply (inv_off _ HI) in HO.
      pose proof (inv_thread _ HI t p Hp) as HT.
      assert (HoldsDefault p = true -> DefaultLock s = Some t) as HD by (destruct p; try done; cbn in HT; tauto).
      destruct (HoldsDefault p); [|done]. specialize (HD eq_refl). congruence.
    + exfalso. destruct (no_default_all _ _ _ start_no_default Eall) as [[_ HF] _]. specialize (HF t p Hp).
      by destruct p.
  - intros Hl ls' s' Hl' E'. split; [pose proof (runs_bounded ls' s s' Hl' E'); lia|]. apply progress.
    + eapply reachable_inv, reachable_all; [exact HR|exact E'].
    + eapply creates_all; [by apply not_creating| |exact E']. eapply creates_all; [exact Hl|apply start_only_main|exact E].
Qed.

(** ** The join and the registration wait for each other *)
(** The main thread waits for [t], [t] for [c], and [c] for the lock that the main thread
    holds. *)
Definition Circle (t c : Z) (s : STATE) : Prop :=
  ListLock s = Some Main /\ Pc s !! Main = Some Waiting /\ t ∈ Children s /\ Pc s !! t = Some (Creating c) /\
  Pc s !! c = Some Starting /\ c ∉ Completed s.

Lemma circle_kept t c l s s' : Inv s -> Circle t c s -> IsRefuse l = false -> exec l s = Some s' -> Circle t c s'.
Proof.
  intros HI (HL & HM & HC & Ht & Hc & HD) Hl.
  assert (forall u p p' L B DL, Pc s !! u = Some p -> p <> Waiting -> p <> Creating c -> p <> Starting -> L = Some Main ->
    Circle t c (MkState L (Children s) (<[u := p']> (Pc s)) (Completed s) B DL)) as HK.
  { intros u p p' L B DL Hu H1 H2 H3 ->. unfold Circle. cbn. rewrite !lookup_insert. repeat case_decide; subst; congruence || done. }
  destruct l; try done; cbn [exec exec_parent exec_child exec_adopt exec_join exec_revoke];
    rewrite ?HM, ?HL; try done;
    try (match goal with |- context [Pc s !! ?u] => destruct (Pc s !! u) as [[]|] eqn:Et; try done end).
  - destruct (Pc s !! c0) eqn:Ec; [done|]. intros [= <-]. unfold Circle. cbn. rewrite !lookup_insert.
    repeat case_decide; subst; try congruence. done.
  - case_bool_decide as Hin; [|done]. intros [= <-]. eapply HK; try done. congruence.
  - destruct (inv_thread _ HI c0 _ Et) as (_ & _ & HL'). rewrite HL in HL'. injection HL' as <-. congruence.
  - intros [= <-]. unfold Circle. cbn. rewrite !lookup_insert, elem_of_union, elem_of_singleton.
    repeat case_decide; subst; try congruence. naive_solver.
  - destruct (c0 =? Main); [done|]. intros [= <-]. by eapply HK.
  - intros [= <-]. by eapply HK.
  - destruct (DefaultOn s); [|done]. intros [= <-]. by eapply HK.
  - destruct (DefaultOn s); [|done]. intros [= <-]. unfold Circle. cbn. rewrite !lookup_insert. by repeat case_decide; subst; try congruence.
  - destruct (DefaultLock s); [done|]. destruct (DefaultOn s); intros [= <-]; by eapply HK.
  - destruct (FAILED Hr); [|done]. intros [= <-]. by eapply HK.
  - destruct (inv_thread _ HI a _ Et) as (_ & _ & _ & HL'). rewrite HL in HL'. injection HL' as <-. congruence.
  - intros [= <-]. by eapply HK.
  - destruct (forallb _ _) eqn:EF; [|done]. rewrite forallb_forall in EF. apply list_elem_of_In in HC. specialize (EF t HC).
    by rewrite Ht in EF.
Qed.

Lemma circle_all D t c ls : forall s s', reachable D s -> Circle t c s -> Forall (fun l => IsRefuse l = false) ls ->
  exec_all ls s = Some s' -> Circle t c s'.
Proof.
  induction ls as [|l ls IH]; intros s s' HR HC Hl E; cbn in E; [by injection E as <-|]. apply Forall_cons in Hl as [Hl Hls].
  destruct (exec l s) as [s1|] eqn:El; [|done].
  eapply IH; [|by eapply (circle_kept t c l s); [eapply reachable_inv| | |]|done|exact E].
  eapply reach_step; [exact HR|by apply (step_exec l)].
Qed.

(** C8. A test routine may never end.  If a thread of its filament creates a thread after the
    join has begun to wait, the join does not return, whatever happens then, even if all
    test code finishes: the new thread needs the lock of the child list in order to register,
    its creator waits for it, and the join waits for the creator while it holds the lock.
    (Only failures of the system would end it: to duplicate the handle of the new thread,
    which keeps it from the lock, or to wait.) *)
Theorem late_thread_blocks_join Default ls s t c s1 : exec_all ls (start Default) = Some s -> Pc s !! Main = Some Waiting ->
  exec (Create t c) s = Some s1 ->
  forall ls' s2, Forall (fun l => IsRefuse l = false) ls' -> exec_all ls' s1 = Some s2 -> Pc s2 !! Main = Some Waiting.
Proof.
  intros E HM E1 ls' s2 Hl E2. pose proof (reachable_all Default ls _ s (reach_start Default) E) as HR.
  pose proof (reachable_inv _ s HR) as HI.
  assert (reachable Default s1) as HR1 by (eapply reach_step; [exact HR|by apply (step_exec (Create t c))]).
  cut (Circle t c s1); [intros HC; apply (circle_all Default t c ls' s1 s2 HR1 HC Hl E2)|].
  cbn in E1. destruct (Pc s !! t) as [[]|] eqn:Et; try done. destruct (Pc s !! c) eqn:Ec; [done|]. injection E1 as <-.
  assert (t <> Main) as Ht by congruence. pose proof (inv_thread _ HI t _ Et Ht) as H1.
  assert (c ∉ Completed s) as H3 by (intros H; destruct (inv_completed _ HI c H); congruence).
  unfold Circle. cbn. rewrite !lookup_insert. repeat case_decide; subst; try congruence.
  destruct (inv_thread _ HI Main _ HM) as [_ HL]. done.
Qed.
End model.

Module Demo.
(** The main thread creates a child and waits for it. *)
Definition waiting : list LABEL := [Create 1 2; Enter 2; Register 2; Signal 2; Resume 1; BeginJoin; EnterJoin].

Example ends_well : (s ← exec_all 1 (waiting ++ [Finish 2; Exit 2; WaitAll; Revoke]) (start 1 false); Pc s !! 1) = Some Returned.
Proof. reflexivity. Qed.

(** The child creates another one before it finishes: nobody can make a step, unless the
    system refuses one. *)
Definition blocked : option STATE := exec_all 1 (waiting ++ [Create 2 3]) (start 1 false).
Example nobody_steps : exists s, blocked = Some s /\
  forallb (fun l => match exec 1 l s with None => true | Some _ => false end)
    ([BeginJoin; EnterJoin; WaitAll; Revoke] ++
     (t ← [1; 2; 3]; [Create t 4; Resume t; Enter t; Register t; Signal t; Finish t; Exit t; Adopt t; EnterDefault t;
                      EnterList t; Enlist t; LeaveDefault t])) = true.
Proof. eexists. split; reflexivity. Qed.

(** The 65th child is not registered, and runs no test code. *)
Definition adopt (n : nat) : list LABEL :=
  let c := 2 + Z.of_nat n in [Create 1 c; Enter c; Register c; Signal c; Resume 1].
Example too_many : (s ← exec_all 1 (seq 0 65 ≫= adopt) (start 1 false); Pc s !! 66) = Some (Exiting false).
Proof. by vm_compute. Qed.

(** Thread 9 has not been created through the framework.  It finds the default filament and
    enters its lock, but the join is already waiting inside the lock of the child list.  Once
    the join is done, the thread registers, and it runs on with the filament after the main
    thread has revoked and destroyed it. *)
Definition late : list LABEL :=
  waiting ++ [Adopt 9; EnterDefault 9; Finish 2; Exit 2; WaitAll; EnterList 9; Enlist 9; LeaveDefault 9; Revoke].
Example registers_after_join : (s ← exec_all 1 late (start 1 true); Some (Pc s !! 1, Pc s !! 9)) = Some (Some Returned, Some Running).
Proof. reflexivity. Qed.

(** The wait fails: the routine returns while its child is running. *)
Example wait_fails : (s ← exec_all 1 (waiting ++ [WaitFails; Revoke]) (start 1 false); Some (Pc s !! 1, Pc s !! 2)) =
  Some (Some Returned, Some Running).
Proof. reflexivity. Qed.

(** A thread that is created by a thread that registered itself, and one that comes too
    late; the join waits for the first two. *)
Definition adopted : list LABEL :=
  [Adopt 8; EnterDefault 8; EnterList 8; Enlist 8; LeaveDefault 8; Create 8 3; Enter 3; Register 3; Signal 3; Resume 8;
   BeginJoin; EnterJoin; Adopt 9; Finish 8; Exit 8; Finish 3; Exit 3; WaitAll; Revoke; EnterDefault 9].
Lemma join_waits_for_threads_witness : exists s, exec_all 1 adopted (start 1 true) = Some s /\
  (forall t p, t <> 1 -> Pc s !! t = Some p -> Ended p = true \/ Outside p = true /\ HoldsDefault p = false).
Proof.
  destruct (exec_all 1 adopted (start 1 true)) as [s|] eqn:E; [|discriminate]. exists s. split; [done|].
  destruct (proj1 (join_waits_for_threads 1 true adopted s E) (take 17 adopted) (drop 18 adopted) eq_refl) as [_ H].
  { right. repeat constructor. }
  intros t p Ht Hp. destruct (H t p Ht Hp) as [H1|(_ & H1 & H2)]; [by left|]. right. split; [done|]. apply H2.
  vm_compute in E. injection E as <-. reflexivity.
Defined.

Lemma late_thread_blocks_join_witness : exists s s1, exec_all 1 waiting (start 1 false) = Some s /\ exec 1 (Create 2 3) s = Some s1 /\
  forall ls' s2, Forall (fun l => IsRefuse l = false) ls' -> exec_all 1 ls' s1 = Some s2 -> Pc s2 !! 1 = Some Waiting.
Proof.
  eexists _, _. split; [reflexivity|]. split; [reflexivity|].
  eapply (late_thread_blocks_join 1 false waiting _ 2 3 _); reflexivity.
Defined.
End Demo.
