(* ===== verification/RptStubs.v ===== *)
(** * Reporting from test code (cfix/cfix/rptstubs.c)

    The routines that test code calls to report failed assertions,
    inconclusiveness and log messages, and the exception filter that the frames
    below them install.  A call that test code makes returns, raises an
    exception, or ends the thread it runs on. *)
From stdpp Require Import base gmap list strings.
From Stdlib Require Import ZArith Lia.
From S2P Require Import Prelude CfixApi Filament.

(** ** Outcomes of calls *)
Inductive OUT (A : Type) := Returned (a : A) | Raised (ExceptionCode : Z) | Exited (ExitCode : Z).
Arguments Returned {A}. Arguments Raised {A}. Arguments Exited {A}.

Definition retO {S A : Type} (a : A) : ST S (OUT A) := ret (Returned a).
Definition bindO {S A B : Type} (m : ST S (OUT A)) (k : A -> ST S (OUT B)) : ST S (OUT B) :=
  r <- m ;;
  match r with
  | Returned a => k a
  | Raised c => ret (Raised c)
  | Exited c => ret (Exited c)
  end.
Definition lift {S A : Type} (m : ST S A) : ST S (OUT A) := a <- m ;; retO a.
Definition RaiseException {S A : Type} (c : Z) : ST S (OUT A) := ret (Raised c).
Definition ExitThread {S A : Type} (c : Z) : ST S (OUT A) := ret (Exited c).

Notation "x <~ m ;; k" := (bindO m (fun x => k))
  (at level 100, m at next level, right associativity) : cfix_scope.
Notation "m ~; k" := (bindO m (fun _ => k))
  (at level 100, right associativity) : cfix_scope.

Definition EXCEPTION_TESTCASE_INCONCLUSIVE : Z := 0x8004AFFE.
Definition EXCEPTION_TESTCASE_FAILED : Z := 0x8004AFFF.
Definition EXCEPTION_TESTCASE_FAILED_ABORT : Z := 0x8004AFFD.
Definition EXCEPTION_BREAKPOINT : Z := 0x80000003.
Definition EXCEPTION_STACK_OVERFLOW : Z := 0xC00000FD.
Definition CFIX_EXIT_THREAD_ABORTED : Z := 0xFFFFFFFF.

Inductive FILTER := EXCEPTION_EXECUTE_HANDLER | EXCEPTION_CONTINUE_SEARCH.

(** ** Message buffers

    A buffer of [n] characters keeps the first [n - 1] characters of what is
    printed to it. *)
Definition StringCch (n : nat) (s : string) : string := String.substring 0 (n - 1) s.

Definition HexDigit (d : Z) : string :=
  match String.get (Z.to_nat d) "0123456789ABCDEF" with
  | Some c => String c ""
  | None => ""
  end.
(** [%08X] *)
Fixpoint Hex (digits : nat) (v : Z) : string :=
  match digits with
  | O => ""
  | S n => Hex n (v / 16) +:+ HexDigit (v mod 16)
  end.

Section rptstubs.
Context {X ARGS : Type}.
Variable Contexts : Z -> CFIX_EXECUTION_CONTEXT X.
Variable DuplicateHandle : Z -> ST X (Z * Z).
(** [CfixpCaptureStackTrace]: a status and the frames. *)
Variable CfixpCaptureStackTrace : ST X (Z * list Z).
Variable GetLastError : ST X Z.
Variable IsDebuggerPresent : ST X bool.
Variable OutputDebugString : string -> ST X unit.
(** [StringCchVPrintf]: the contents of a buffer of the given size. *)
Variable StringCchVPrintf : nat -> string -> ARGS -> string.
(** [MultiByteToWideChar( CP_ACP, 0, s, -1, ..., n )]: [None] if it fails. *)
Variable MultiByteToWideChar : nat -> string -> option string.
Variable Tid : Z.

Local Abbreviation M := (ST (FW X)).

(** [CaptureTrace] captures the stack trace of an event, if the filament asks for it. *)
(* src/cfix/cfix/rptstubs.c:225-235 (CfixPeReportFailedAssertion) *)
Definition CaptureTrace (o : CFIXP_FILAMENT) : M (list Z) :=
  if FlagOn (FilFlags o) CFIXP_FILAMENT_FLAG_CAPTURE_STACK_TRACES then
    r <- ext CfixpCaptureStackTrace ;;
    ret (if FAILED (fst r) then [] else snd r)
  else ret [].

(** The decision of the filter and the value it leaves in [AbortRun]: [None] if it
    does not write it. *)
(* src/cfix/cfix/rptstubs.c:35-131 (CfixpExceptionFilter) *)
Definition CfixpExceptionFilter (ExcpCode Filament : Z) : M (FILTER * option bool) :=
  o <- load Filament ;;
  let ThreadId := CfixpInitializeThreadId (FilMainThreadId o) Tid in
  if (EXCEPTION_TESTCASE_INCONCLUSIVE =? ExcpCode) || (EXCEPTION_TESTCASE_FAILED =? ExcpCode) then
    ret (EXCEPTION_EXECUTE_HANDLER, Some false)
  else if EXCEPTION_TESTCASE_FAILED_ABORT =? ExcpCode then
    ret (EXCEPTION_EXECUTE_HANDLER, Some true)
  else if EXCEPTION_BREAKPOINT =? ExcpCode then ret (EXCEPTION_CONTINUE_SEARCH, None)
  else if EXCEPTION_STACK_OVERFLOW =? ExcpCode then ret (EXCEPTION_CONTINUE_SEARCH, None)
  else
    let c := Contexts (ExecutionContext o) in
    ext (OnUnhandledException c ThreadId ExcpCode) ;;;
    Frames <- CaptureTrace o ;;
    Disp <- ext (ReportEvent c ThreadId (MkEvent (UncaughtException ExcpCode) Frames)) ;;
    ret (if bool_decide (Disp = CfixBreak) then EXCEPTION_CONTINUE_SEARCH
         else EXCEPTION_EXECUTE_HANDLER,
         Some (bool_decide (Disp = CfixAbort))).

(* src/cfix/cfix/rptstubs.c:139-166 (CfixPeFail) *)
Definition CfixPeFail {A} : M (OUT A) :=
  g <- CfixpGetCurrentFilament Contexts DuplicateHandle Tid ;;
  if SUCCEEDED (fst (fst g)) && negb (snd g) then RaiseException EXCEPTION_TESTCASE_FAILED
  else ExitThread CFIX_EXIT_THREAD_ABORTED.

(* src/cfix/cfix/rptstubs.c:168-290 (CfixPeReportFailedAssertion) *)
Definition CfixPeReportFailedAssertion (File Routine : string) (Line : Z) (Expression : string)
    : M (OUT CFIX_REPORT_DISPOSITION) :=
  LastError <- ext GetLastError ;;
  g <- CfixpGetCurrentFilament Contexts DuplicateHandle Tid ;;
  if FAILED (fst (fst g)) then
    ext (OutputDebugString (StringCch 200
      ("Failed assertion '" +:+ Expression +:+ "' on unknown thread - terminating."))) ;;;
    ExitThread CFIX_EXIT_THREAD_ABORTED
  else
    o <- load (snd (fst g)) ;;
    let ThreadId := CfixpInitializeThreadId (FilMainThreadId o) Tid in
    Frames <- CaptureTrace o ;;
    Disp <- ext (ReportEvent (Contexts (ExecutionContext o)) ThreadId
                   (MkEvent (FailedAssertion File Routine Line Expression LastError) Frames)) ;;
    match Disp with
    | CfixBreakAlways => retO CfixBreak
    | CfixAbort =>
        if negb (snd g) then RaiseException EXCEPTION_TESTCASE_FAILED_ABORT
        else ExitThread CFIX_EXIT_THREAD_ABORTED
    | CfixContinue => retO CfixContinue
    | CfixBreak =>
        d <- ext IsDebuggerPresent ;;
        if d : bool then retO CfixBreak else CfixPeFail
    end.

(** A format is optional; without one the message is empty. *)
(* src/cfix/cfix/rptstubs.c:292-319 (CfixPeReportFailedAssertionFormatW) *)
Definition CfixPeReportFailedAssertionFormatW (File Routine : string) (Line : Z)
    (Format : option string) (lst : ARGS) : M (OUT CFIX_REPORT_DISPOSITION) :=
  let Buffer := match Format with Some f => StringCchVPrintf 256 f lst | None => "" end in
  CfixPeReportFailedAssertion File Routine Line Buffer.

(** The conversion of an ANSI message into a buffer of [n] wide characters. *)
(* src/cfix/cfix/rptstubs.c:349-362 (CfixPeReportFailedAssertionFormatA) *)
Definition Widen (n : nat) (Ansi : string) : string :=
  match MultiByteToWideChar n Ansi with
  | Some w => w
  | None => StringCch n "(Invalid string)"
  end.

(* src/cfix/cfix/rptstubs.c:321-370 (CfixPeReportFailedAssertionFormatA) *)
Definition CfixPeReportFailedAssertionFormatA (File Routine : string) (Line : Z)
    (Format : option string) (lst : ARGS) : M (OUT CFIX_REPORT_DISPOSITION) :=
  let Buffer := match Format with
                | Some f => Widen 256 (StringCchVPrintf 256 f lst)
                | None => ""
                end in
  CfixPeReportFailedAssertion File Routine Line Buffer.

(* src/cfix/cfix/rptstubs.c:372-406 (CfixPeAssertEqualsUlong) *)
Definition CfixPeAssertEqualsUlong (Expected Actual : Z) (File Routine : string) (Line : Z)
    (Expression : string) : M (OUT CFIX_REPORT_DISPOSITION) :=
  if Expected =? Actual then retO CfixContinue
  else
    CfixPeReportFailedAssertion File Routine Line (StringCch 200
      ("Comparison failed. Expected: 0x" +:+ Hex 8 Expected +:+ ", Actual: 0x" +:+ Hex 8 Actual +:+
       " (Expression: " +:+ Expression +:+ ")")).

(* src/cfix/cfix/rptstubs.c:408-492 (CfixPeReportInconclusiveness) *)
Definition CfixPeReportInconclusiveness (Message : string) : M (OUT unit) :=
  g <- CfixpGetCurrentFilament Contexts DuplicateHandle Tid ;;
  if FAILED (fst (fst g)) then
    ext (OutputDebugString (StringCch 200
      ("Inconclusiveness report '" +:+ Message +:+ "' on unknown thread - terminating."))) ;;;
    ExitThread CFIX_EXIT_THREAD_ABORTED
  else
    o <- load (snd (fst g)) ;;
    let ThreadId := CfixpInitializeThreadId (FilMainThreadId o) Tid in
    Frames <- CaptureTrace o ;;
    ext (ReportEvent (Contexts (ExecutionContext o)) ThreadId
           (MkEvent (Inconclusiveness Message) Frames)) ;;;
    if negb (snd g) then RaiseException EXCEPTION_TESTCASE_INCONCLUSIVE
    else ExitThread CFIX_EXIT_THREAD_ABORTED.

(* src/cfix/cfix/rptstubs.c:494-521 (CfixPeReportInconclusivenessA) *)
Definition CfixPeReportInconclusivenessA (Message : option string) : M (OUT unit) :=
  CfixPeReportInconclusiveness (match Message with Some m => Widen 256 m | None => "" end).

(* src/cfix/cfix/rptstubs.c:523-574 (CfixsPeReportLog) *)
Definition CfixsPeReportLog (Message : string) : M (OUT unit) :=
  g <- CfixpGetCurrentFilament Contexts DuplicateHandle Tid ;;
  if FAILED (fst (fst g)) then
    ext (OutputDebugString (StringCch 200
      ("Log report '" +:+ Message +:+ "' on unknown thread - terminating."))) ;;;
    ExitThread CFIX_EXIT_THREAD_ABORTED
  else
    o <- load (snd (fst g)) ;;
    let ThreadId := CfixpInitializeThreadId (FilMainThreadId o) Tid in
    ext (ReportEvent (Contexts (ExecutionContext o)) ThreadId (MkEvent (Log Message) [])) ;;;
    retO tt.

(* src/cfix/cfix/rptstubs.c:576-599 (CfixPeReportLog) *)
Definition CfixPeReportLog (Format : option string) (lst : ARGS) : M (OUT unit) :=
  CfixsPeReportLog (match Format with Some f => StringCchVPrintf 512 f lst | None => "" end).

(* src/cfix/cfix/rptstubs.c:601-641 (CfixPeReportLogA) *)
Definition CfixPeReportLogA (Format : option string) (lst : ARGS) : M (OUT unit) :=
  CfixsPeReportLog (match Format with
                    | Some f => Widen 512 (StringCchVPrintf 512 f lst)
                    | None => ""
                    end).
End rptstubs.

Section theory.
Context {X ARGS : Type}.
Variable Contexts : Z -> CFIX_EXECUTION_CONTEXT X.
Variable DuplicateHandle : Z -> ST X (Z * Z).
Variable CfixpCaptureStackTrace : ST X (Z * list Z).
Variable GetLastError : ST X Z.
Variable IsDebuggerPresent : ST X bool.
Variable OutputDebugString : string -> ST X unit.
Implicit Types (s : FW X).

(** A thread with a filament finds it. *)
Lemma CfixpGetCurrentFilament_own t f b s :
  CurrentIs t f b s -> f <> 0 ->
  CfixpGetCurrentFilament Contexts DuplicateHandle t s = Some ((S_OK, f, b), s).
Proof.
  intros Hc Hf. unfold CfixpGetCurrentFilament, CfixsGetCurrentFilament.
  rewrite (bind_eq _ _ _ _ _ (GetOwnFilament_eq _ _ _ _ Hc)).
  by destruct (Z.eqb_spec f 0).
Qed.

(** One without finds none, if no default filament is provided. *)
Lemma CfixpGetCurrentFilament_none t b s :
  CurrentIs t 0 b s -> DefaultFilament s = 0 ->
  CfixpGetCurrentFilament Contexts DuplicateHandle t s = Some ((CFIX_E_UNKNOWN_THREAD, 0, false), s).
Proof.
  intros Hc Hd. unfold CfixpGetCurrentFilament, CfixsGetCurrentFilament.
  rewrite (bind_eq _ _ _ _ _ (GetOwnFilament_eq _ _ _ _ Hc)). run. by rewrite Hd.
Qed.

Lemma CaptureTrace_eq o r x s :
  CfixpCaptureStackTrace (Ext s) = Some (r, x) ->
  CaptureTrace CfixpCaptureStackTrace o s =
    Some (if FlagOn (FilFlags o) CFIXP_FILAMENT_FLAG_CAPTURE_STACK_TRACES
          then ((if FAILED (fst r) then [] else snd r), set_Ext x s) else ([], s)).
Proof.
  intros H. unfold CaptureTrace. destruct (FlagOn _ _); [|done].
  by rewrite (bind_eq _ _ _ _ _ (ext_eq _ _ _ _ H)).
Qed.

Lemma CfixPeFail_own {A} t f b s :
  CurrentIs t f b s -> f <> 0 ->
  CfixPeFail Contexts DuplicateHandle t s =
    Some ((if b then Exited CFIX_EXIT_THREAD_ABORTED else @Raised A EXCEPTION_TESTCASE_FAILED), s).
Proof.
  intros Hc Hf. unfold CfixPeFail.
  rewrite (bind_eq _ _ _ _ _ (CfixpGetCurrentFilament_own _ _ _ _ Hc Hf)). by destruct b.
Qed.

(** How a call that reported a failed assertion ends, by the disposition of the
    context, whether the filament was derived from the default one, and whether a
    debugger is present. *)
Definition AssertionOutcome (Disp : CFIX_REPORT_DISPOSITION) (Derived Debugger : bool)
    : OUT CFIX_REPORT_DISPOSITION :=
  let Stop c := if Derived then Exited CFIX_EXIT_THREAD_ABORTED else Raised c in
  match Disp with
  | CfixContinue => Returned CfixContinue
  | CfixBreakAlways => Returned CfixBreak
  | CfixBreak => if Debugger then Returned CfixBreak else Stop EXCEPTION_TESTCASE_FAILED
  | CfixAbort => Stop EXCEPTION_TESTCASE_FAILED_ABORT
  end.

(** C31. A failed assertion on a thread with a filament is reported exactly once, to
    the filament's context, with the last error and under the thread's and the
    main thread's identity; then the disposition decides: the caller continues
    or breaks, or the test routine is left by the exception that the filter
    recognises (on an anonymous thread, where there is no filter, the thread
    ends).  Never is the caller told to abort, or to break without a debugger
    unless always. *)
Theorem assertion_outcome t f b o File Routine Line Expression s le x1 tr x2 Disp x3 dbg x4 :
  CurrentIs t f b s -> f <> 0 -> Filaments s !! f = Some o ->
  GetLastError (Ext s) = Some (le, x1) ->
  CfixpCaptureStackTrace x1 = Some (tr, x2) ->
  let Traced := FlagOn (FilFlags o) CFIXP_FILAMENT_FLAG_CAPTURE_STACK_TRACES in
  let Frames := if Traced then if FAILED (fst tr) then [] else snd tr else [] in
  ReportEvent (Contexts (ExecutionContext o)) (CfixpInitializeThreadId (FilMainThreadId o) t)
    (MkEvent (FailedAssertion File Routine Line Expression le) Frames)
    (if Traced then x2 else x1) = Some (Disp, x3) ->
  IsDebuggerPresent x3 = Some (dbg, x4) ->
  CfixPeReportFailedAssertion Contexts DuplicateHandle CfixpCaptureStackTrace GetLastError
    IsDebuggerPresent OutputDebugString t File Routine Line Expression s =
    Some (AssertionOutcome Disp b dbg, set_Ext (if bool_decide (Disp = CfixBreak) then x4 else x3) s).
Proof.
  intros Hc Hf Ho Hle Htr Traced Frames Hrep Hdbg. unfold CfixPeReportFailedAssertion.
  rewrite (bind_eq _ _ _ _ _ (ext_eq _ _ _ _ Hle)). set (s1 := set_Ext x1 s).
  assert (CurrentIs t f b s1) as Hc1 by done.
  rewrite (bind_eq _ _ _ _ _ (CfixpGetCurrentFilament_own _ _ _ _ Hc1 Hf)).
  change (FAILED (fst (fst (S_OK, f, b)))) with false. cbv iota. simpl fst. simpl snd.
  assert (Filaments s1 !! f = Some o) as Ho1 by done.
  rewrite (bind_eq _ _ _ _ _ (load_eq _ _ _ Ho1)). cbv zeta.
  rewrite (bind_eq _ _ _ Frames (set_Ext (if Traced then x2 else x1) s1)).
  2:{ rewrite (CaptureTrace_eq o tr x2 s1 Htr). fold Traced. unfold Frames. by destruct Traced. }
  rewrite (bind_eq _ _ _ _ _ (ext_eq _ _ _ (set_Ext (if Traced then x2 else x1) s1) Hrep)).
  destruct Disp; cbn [AssertionOutcome]; [done| |done|by destruct b].
  rewrite (bind_eq _ _ _ _ _ (ext_eq _ _ _ (set_Ext x3 _) Hdbg)). destruct dbg; [done|].
  rewrite (CfixPeFail_own t f b) by done. by destruct b.
Qed.

(** On a thread that belongs to no test routine (and with no default filament
    to join) reports have nowhere to go: each of them writes one line to the
    debugger, does nothing else to the world, and ends the thread. *)
Theorem unknown_thread_reports t b s File Routine Line Message le x1 :
  CurrentIs t 0 b s -> DefaultFilament s = 0 ->
  GetLastError (Ext s) = Some (le, x1) ->
  (forall m x, OutputDebugString m x <> None) ->
  let ends {A} (r : option (OUT A * FW X)) x0 :=
    exists m x, OutputDebugString m x0 = Some (tt, x) /\
                r = Some (Exited CFIX_EXIT_THREAD_ABORTED, set_Ext x s) in
  ends (CfixPeReportFailedAssertion Contexts DuplicateHandle CfixpCaptureStackTrace GetLastError
          IsDebuggerPresent OutputDebugString t File Routine Line Message s) x1 /\
  ends (CfixPeReportInconclusiveness Contexts DuplicateHandle CfixpCaptureStackTrace
          OutputDebugString t Message s) (Ext s) /\
  ends (CfixsPeReportLog Contexts DuplicateHandle OutputDebugString t Message s) (Ext s).
Proof.
  intros Hc Hd Hle Hout ends.
  assert (forall A (m : string) (s' : FW X), CurrentIs t 0 b s' -> DefaultFilament s' = 0 ->
    forall x, OutputDebugString m (Ext s') = Some (tt, x) ->
    (ext (OutputDebugString m) ;;; @ExitThread (FW X) A CFIX_EXIT_THREAD_ABORTED) s' =
      Some (Exited CFIX_EXIT_THREAD_ABORTED, set_Ext x s')) as Hend.
  { intros A m s' _ _ x Hx. by rewrite (bind_eq _ _ _ _ _ (ext_eq _ _ _ _ Hx)). }
  assert (forall m x0, exists x, OutputDebugString m x0 = Some (tt, x)) as Htot.
  { intros m x0. destruct (OutputDebugString m x0) as [[[] x]|] eqn:E; [eauto|by apply Hout in E]. }
  unfold CfixPeReportFailedAssertion, CfixPeReportInconclusiveness, CfixsPeReportLog.
  rewrite (bind_eq _ _ _ _ _ (ext_eq _ _ _ _ Hle)). set (s1 := set_Ext x1 s).
  assert (CurrentIs t 0 b s1) as Hc1 by done. assert (DefaultFilament s1 = 0) as Hd1 by done.
  rewrite (bind_eq _ _ _ _ _ (CfixpGetCurrentFilament_none _ _ _ Hc1 Hd1)).
  rewrite !(bind_eq _ _ _ _ _ (CfixpGetCurrentFilament_none _ _ _ Hc Hd)).
  change (FAILED (fst (fst (CFIX_E_UNKNOWN_THREAD, 0, false)))) with true. cbv iota.
  unfold ends. split_and!.
  all: match goal with |- exists m x, OutputDebugString m ?x0 = _ /\ (ext (OutputDebugString ?m') ;;; _) _ = _ =>
    destruct (Htot m' x0) as [x Hx]; exists m', x; split; [done|]; by rewrite (Hend _ m' _ Hc Hd x) || by rewrite (Hend _ m' _ Hc1 Hd1 x) end.
Qed.
End theory.

(** ** A concrete instance: contexts that record the events *)
Module Demo.
Definition World : Type := list (CFIX_THREAD_ID * CFIX_TESTCASE_EXECUTION_EVENT).
Definition Recorder (d : CFIX_REPORT_DISPOSITION) : CFIX_EXECUTION_CONTEXT World :=
  {| CtxVersion := CFIX_TEST_CONTEXT_VERSION;
     ReportEvent := fun t e => modify (fun l => l ++ [(t, e)]) ;;; ret d;
     QueryDefaultDisposition := fun _ => ret d;
     BeforeFixtureStart := fun _ _ => ret S_OK;
     AfterFixtureFinish := fun _ _ _ => ret tt;
     BeforeTestCaseStart := fun _ _ _ => ret S_OK;
     AfterTestCaseFinish := fun _ _ _ _ => ret tt;
     CreateChildThread := fun _ => ret (S_OK, 0);
     BeforeChildThreadStart := fun _ _ => ret tt;
     AfterChildThreadFinish := fun _ _ => ret tt;
     OnUnhandledException := fun _ _ => ret tt;
     CtxReference := ret tt;
     CtxDereference := ret tt |}.
(** The context at address 2 aborts, all others break. *)
Definition Contexts (c : Z) := Recorder (if c =? 2 then CfixAbort else CfixBreak).
Definition DuplicateHandle (t : Z) : ST World (Z * Z) := ret (0, t).
Definition Capture : ST World (Z * list Z) := ret (S_OK, [1; 2]).
Definition LastError : ST World Z := ret 5.
Definition Debugger : ST World bool := ret false.
Definition Debug (m : string) : ST World unit := ret tt.

(** Thread 1 runs under filament 8 of context [c], and wants stack traces. *)
Definition running (c : Z) : FW World :=
  MkFW {[8 := MkFilament c 1 [] CFIXP_FILAMENT_FLAG_CAPTURE_STACK_TRACES 0 0]}
    (fun t sl => if decide (t = 1 /\ sl = TlsSlotForFilament) then 8 else 0) 0 free_lock ∅ [].

Definition failure : CFIX_THREAD_ID * CFIX_TESTCASE_EXECUTION_EVENT :=
  (MkThreadId 1 1, MkEvent (FailedAssertion "a.c" "Test" 7 "x == y" 5) [1; 2]).

Lemma assertion_outcome_witness :
  CfixPeReportFailedAssertion Contexts DuplicateHandle Capture LastError Debugger Debug 1
    "a.c" "Test" 7 "x == y" (running 2) =
    Some (Raised EXCEPTION_TESTCASE_FAILED_ABORT, set_Ext [failure] (running 2)).
Proof.
  apply (assertion_outcome Contexts DuplicateHandle Capture LastError Debugger Debug 1 8 false
    (MkFilament 2 1 [] CFIXP_FILAMENT_FLAG_CAPTURE_STACK_TRACES 0 0)
    "a.c" "Test" 7 "x == y" (running 2) 5 [] (S_OK, [1; 2]) [] CfixAbort [failure] false [failure]).
  - split; reflexivity.
  - discriminate.
  - reflexivity.
  - reflexivity.
  - reflexivity.
  - reflexivity.
  - reflexivity.
Defined.

Lemma unknown_thread_reports_witness :
  exists r, CfixsPeReportLog Contexts DuplicateHandle Debug 3 "hello" (running 2) = Some (Exited r, running 2).
Proof.
  destruct (unknown_thread_reports Contexts DuplicateHandle Capture LastError Debugger Debug 3 false
    (running 2) "a.c" "Test" 7 "hello" 5 []) as (_ & _ & m & x & Hx & H).
  - split; reflexivity.
  - reflexivity.
  - reflexivity.
  - discriminate.
  - injection Hx as <-. exists CFIX_EXIT_THREAD_ABORTED. exact H.
Defined.
End Demo.
