(* ===== verification/PeModule.v ===== *)
(** * Test modules made from PE images (cfix/cfix/pe.c, creation and deletion)

    Fixtures are found by walking the export directory of a loaded image.  The
    world holds the heap blocks in use, the reference counts of loaded
    libraries, the test modules at their addresses, and the rest [X] of the
    process.  The 64-bit build is modelled. *)
From stdpp Require Import base gmap list strings.
From Stdlib Require Import ZArith Lia Ascii.
From S2P Require Import Prelude CfixApi.

(** ** Fixture definitions, as test code compiles them in (include/cfixpe.h) *)
(* src/include/cfixpe.h:273-281 (CFIX_ENTRY_TYPE) *)
Definition CfixEntryTypeEnd : Z := 0.
Definition CfixEntryTypeSetup : Z := 1.
Definition CfixEntryTypeTeardown : Z := 2.
Definition CfixEntryTypeTestcase : Z := 3.
Definition CfixEntryTypeBefore : Z := 4.
Definition CfixEntryTypeAfter : Z := 5.
Definition CfixApiTypeMin : Z := 1.
Definition CfixApiTypeMax : Z := 4.

(* src/include/cfixpe.h:290-300 (CFIX_PE_DEFINITION_ENTRY) *)
Record CFIX_PE_DEFINITION_ENTRY := MkEntry { EntryType : Z; EntryName : string; EntryRoutine : Z }.

(** The head of a definition is one ULONG that is read through bit fields. *)
(* src/include/cfixpe.h:302-329 (CFIX_TEST_PE_DEFINITION) *)
Record CFIX_TEST_PE_DEFINITION := MkDefinition { ApiVersion : Z; Entries : list CFIX_PE_DEFINITION_ENTRY }.
Definition InfoType (d : CFIX_TEST_PE_DEFINITION) : Z := Z.land (ApiVersion d) 0xF.
Definition InfoFlags (d : CFIX_TEST_PE_DEFINITION) : Z := Z.land (Z.shiftr (ApiVersion d) 4) 0xFFF.
Definition InfoRevision (d : CFIX_TEST_PE_DEFINITION) : Z := Z.land (Z.shiftr (ApiVersion d) 16) 0xFFFF.

(* src/include/cfixpe.h:334-347 (CFIX_PE_API_MAKEAPIVERSION_EX) *)
Definition CFIX_PE_API_MAKEAPIVERSION_EX (Type_ Revision Flags : Z) : Z :=
  Z.lor (Z.land Type_ 0xF)
    (Z.lor (Z.shiftl (Z.land Flags 0xFFF) 4) (Z.shiftl (Z.land Revision 0xFFFF) 16)).

(** ** Names of exports *)
(* src/include/cfixpe.h:404-418 (CFIX_FIXTURE_EXPORT_PREFIX) *)
Definition CFIX_FIXTURE_EXPORT_PREFIX : string := "__CfixFixturePe".
Definition CFIX_FIXTURE_EXPORT_PREFIX_CCH : nat := 15.

(** [memcmp( a, b, n )] of the first [n] characters. *)
Definition BeginsWith (n : nat) (Name Prefix : string) : bool :=
  String.eqb (String.substring 0 n Name) Prefix.

(* src/cfix/cfix/pe.c:788-802 (CfixpIsFixtureExport32) *)
Definition CfixpIsFixtureExport32 (ExportName : string) : bool :=
  (S CFIX_FIXTURE_EXPORT_PREFIX_CCH <? String.length ExportName)%nat &&
  BeginsWith (S CFIX_FIXTURE_EXPORT_PREFIX_CCH) ExportName ("_" +:+ CFIX_FIXTURE_EXPORT_PREFIX).

(* src/cfix/cfix/pe.c:804-818 (CfixpIsFixtureExport64) *)
Definition CfixpIsFixtureExport64 (ExportName : string) : bool :=
  (CFIX_FIXTURE_EXPORT_PREFIX_CCH <? String.length ExportName)%nat &&
  BeginsWith CFIX_FIXTURE_EXPORT_PREFIX_CCH ExportName CFIX_FIXTURE_EXPORT_PREFIX.

(** [ExportName + n] *)
Definition SkipCch (n : nat) (s : string) : string := String.substring n (String.length s - n) s.

(** The name up to the first at sign. *)
(* src/cfix/cfix/pe.c:58-75 (CfixsUnmangleName) *)
Fixpoint CfixsUnmangleName (Name : string) : string :=
  match Name with
  | EmptyString => EmptyString
  | String c s => if Ascii.eqb c "@"%char then EmptyString else String c (CfixsUnmangleName s)
  end.

(** ** Images

    The headers of a loaded image and its export directory; relative virtual
    addresses are those of the image. *)
Record IMAGE := MkImage {
  Signature : Z;
  ExportDirVirtualAddress : Z;
  ExportDirSize : Z;
  ExportBase : Z;
  NumberOfFunctions : Z;
  NumberOfNames : Z;
  NamesRvaArray : list Z;
  FunctionRvaArray : list Z;
  OrdinalsArray : list Z;
  NameAt : Z -> string }.
Definition IMAGE_NT_SIGNATURE : Z := 0x4550.
Definition ERROR_BAD_EXE_FORMAT : Z := 193.
Definition ERROR_INSUFFICIENT_BUFFER : Z := 122.

(** A fixture and the block it is stored in. *)
Notation FIXTURE_BLOCK := (Z * CFIX_FIXTURE)%type.

(* src/cfix/cfix/pe.c:37-44 (PE_TEST_MODULE) *)
Record PE_TEST_MODULE := MkModule {
  ModuleName : string;
  ModuleHandle : Z;
  ReferenceCount : Z;
  FreeImageOnDeletion : bool;
  FixtureArray : Z;
  Fixtures : list FIXTURE_BLOCK }.

Definition set_ReferenceCount (n : Z) (m : PE_TEST_MODULE) : PE_TEST_MODULE :=
  MkModule (ModuleName m) (ModuleHandle m) n (FreeImageOnDeletion m) (FixtureArray m) (Fixtures m).

Record PW (X : Type) := MkPW {
  Blocks : gset Z;
  Libraries : Z -> Z;
  Modules : gmap Z PE_TEST_MODULE;
  Rest : X }.
Arguments MkPW {X}. Arguments Blocks {X}. Arguments Libraries {X}.
Arguments Modules {X}. Arguments Rest {X}.

Section pemodule.
Context {X : Type}.
(** [malloc], given the blocks in use: the address of a block, or 0. *)
Variable Malloc : gset Z -> Z -> ST X Z.
(** [realloc], given the blocks in use: the address of the enlarged block, or 0. *)
Variable Realloc : gset Z -> Z -> Z -> ST X Z.
(** The definition that a fixture export returns; [None] for NULL. *)
Variable GetTcRoutine : Z -> ST X (option CFIX_TEST_PE_DEFINITION).
(** [MultiByteToWideChar( CP_ACP, 0, s, -1, ..., n )]: the text, or the last error. *)
Variable MultiByteToWideChar : nat -> string -> ST X (Z + string).
Variable GetModuleBaseName : Z -> ST X (Z + string).
Variable PathRemoveExtension : string -> string.
Variable GetFullPathName : string -> ST X (Z + string).
(** [LoadLibrary]: the module, or the last error. *)
Variable LoadLibrary_ : string -> ST X (Z + Z).
(** The image that a module handle refers to. *)
Variable ImageOf : Z -> IMAGE.

Local Abbreviation M := (ST (PW X)).

Definition set_Blocks (b : gset Z) (s : PW X) := MkPW b (Libraries s) (Modules s) (Rest s).
Definition set_Libraries (l : Z -> Z) (s : PW X) := MkPW (Blocks s) l (Modules s) (Rest s).
Definition set_Modules (m : gmap Z PE_TEST_MODULE) (s : PW X) := MkPW (Blocks s) (Libraries s) m (Rest s).
Definition set_Rest (x : X) (s : PW X) := MkPW (Blocks s) (Libraries s) (Modules s) x.

Definition rest {A} (m : ST X A) : M A := fun s =>
  match m (Rest s) with Some (a, x) => Some (a, set_Rest x s) | None => None end.

Definition malloc (n : Z) : M Z :=
  bs <- gets Blocks ;;
  a <- rest (Malloc bs n) ;;
  when_ (negb (a =? 0)) (modify (fun s => set_Blocks ({[a]} ∪ Blocks s) s)) ;;;
  ret a.
Definition free (a : Z) : M unit := modify (fun s => set_Blocks (Blocks s ∖ {[a]}) s).
Definition realloc (a n : Z) : M Z :=
  bs <- gets Blocks ;;
  b <- rest (Realloc bs a n) ;;
  when_ (negb (b =? 0)) (modify (fun s => set_Blocks ({[b]} ∪ (Blocks s ∖ {[a]})) s)) ;;;
  ret b.
Definition LoadLibrary (Path : string) : M (Z + Z) :=
  r <- rest (LoadLibrary_ Path) ;;
  match r with
  | inl e => ret (inl e)
  | inr h => modify (fun s => set_Libraries (fun k => if k =? h then Libraries s k + 1 else Libraries s k) s) ;;;
             ret (inr h)
  end.
Definition FreeLibrary (h : Z) : M unit :=
  modify (fun s => set_Libraries (fun k => if k =? h then Libraries s k - 1 else Libraries s k) s).

(** [CountEntries] is the loop that counts up to the end marker; without a
    marker it reads beyond the table. *)
(* src/cfix/cfix/pe.c:111-117 (CfixsCreateFixture) *)
Fixpoint CountEntries (es : list CFIX_PE_DEFINITION_ENTRY) : option Z :=
  match es with
  | [] => None
  | e :: es => if EntryType e =? CfixEntryTypeEnd then Some 0
               else match CountEntries es with Some n => Some (n + 1) | None => None end
  end.

(** [RTL_SIZEOF_THROUGH_FIELD( CFIX_FIXTURE, TestCases[ EntryCount - 1 ] )]: an
    offset, truncated to a LONG, plus the size of a test case. *)
Definition FIELD_OFFSET_TestCases : Z := 320.
Definition SIZEOF_CFIX_TEST_CASE : Z := 24.
(* src/cfix/cfix/pe.c:119-130 (CfixsCreateFixture) *)
Definition FixtureSize (EntryCount : Z) : Z :=
  wrap 64 (LONG (FIELD_OFFSET_TestCases + ULONG (EntryCount - 1) * SIZEOF_CFIX_TEST_CASE)
           + SIZEOF_CFIX_TEST_CASE).

Definition with_routine (f : CFIX_FIXTURE) (s t b a : Z) : CFIX_FIXTURE :=
  MkFixture (FxName f) s t b a (ApiType f) (FxFlags f) (FxModuleName f) (TestCases f).

(** One turn of the walk: the updated fixture, or the error. *)
(* src/cfix/cfix/pe.c:175-246 (CfixsCreateFixture) *)
Definition AddEntry (f : CFIX_FIXTURE) (e : CFIX_PE_DEFINITION_ENTRY) : Z + CFIX_FIXTURE :=
  let s := SetupRoutine f in let t := TeardownRoutine f in
  let b := BeforeRoutine f in let a := AfterRoutine f in
  let r := EntryRoutine e in
  if EntryType e =? CfixEntryTypeSetup then
    if negb (s =? 0) then inl CFIX_E_DUP_SETUP_ROUTINE else inr (with_routine f r t b a)
  else if EntryType e =? CfixEntryTypeTeardown then
    if negb (t =? 0) then inl CFIX_E_DUP_TEARDOWN_ROUTINE else inr (with_routine f s r b a)
  else if EntryType e =? CfixEntryTypeBefore then
    if negb (b =? 0) then inl CFIX_E_DUP_BEFORE_ROUTINE else inr (with_routine f s t r a)
  else if EntryType e =? CfixEntryTypeAfter then
    if negb (a =? 0) then inl CFIX_E_DUP_AFTER_ROUTINE else inr (with_routine f s t b r)
  else if EntryType e =? CfixEntryTypeTestcase then
    inr (MkFixture (FxName f) s t b a (ApiType f) (FxFlags f) (FxModuleName f)
           (TestCases f ++ [MkTestCase (EntryName e) r]))
  else inl CFIX_E_UNKNOWN_ENTRY_TYPE.

(* src/cfix/cfix/pe.c:175-246 (CfixsCreateFixture) *)
Fixpoint WalkMap (f : CFIX_FIXTURE) (es : list CFIX_PE_DEFINITION_ENTRY) : Z + CFIX_FIXTURE :=
  match es with
  | [] => inl E_UNEXPECTED
  | e :: es =>
      if EntryType e =? CfixEntryTypeEnd then inr f
      else match AddEntry f e with inl Hr => inl Hr | inr f' => WalkMap f' es end
  end.

(** The name of the new fixture, or the error. *)
(* src/cfix/cfix/pe.c:135-151 (CfixsCreateFixture) *)
Definition FixtureName (ExportName : string) : M (Z + string) :=
  r <- rest (MultiByteToWideChar (Z.to_nat CFIX_MAX_FIXTURE_NAME_CCH)
               (SkipCch CFIX_FIXTURE_EXPORT_PREFIX_CCH ExportName)) ;;
  ret match r with
      | inl Err => inl (if ERROR_INSUFFICIENT_BUFFER =? Err then CFIX_E_FIXTURE_NAME_TOO_LONG
                        else HRESULT_FROM_WIN32 Err)
      | inr Name => inr (CfixsUnmangleName Name)
      end.

(** The checks and the walk that fill the new structure. *)
(* src/cfix/cfix/pe.c:153-246 (CfixsCreateFixture) *)
Definition FillFixture (Name ModName : string) (TestDef : CFIX_TEST_PE_DEFINITION) : Z + CFIX_FIXTURE :=
  if negb (InfoRevision TestDef =? 0) then inl CFIX_E_UNSUPPORTED_FIXTURE_REVISION
  else if CFIX_FIXTURE_USES_ANONYMOUS_THREADS <? InfoFlags TestDef then inl CFIX_E_INVALID_FIXTURE_FLAG
  else WalkMap (MkFixture Name 0 0 0 0 (InfoType TestDef) (InfoFlags TestDef) ModName []) (Entries TestDef).

(* src/cfix/cfix/pe.c:77-262 (CfixsCreateFixture) *)
Definition CfixsCreateFixture (ExportName : string) (ExportedRoutine : Z) (ModName : string)
    : M (Z + FIXTURE_BLOCK) :=
  d <- rest (GetTcRoutine ExportedRoutine) ;;
  match d with
  | None => ret (inl CFIX_E_MISBEHAVIOUD_GETTC_ROUTINE)
  | Some TestDef =>
      if (InfoType TestDef <? CfixApiTypeMin) || (CfixApiTypeMax <? InfoType TestDef)
      then ret (inl CFIX_E_UNSUPPORTED_VERSION)
      else
        match CountEntries (Entries TestDef) with
        | None => fault
        | Some EntryCount =>
            NewFixture <- malloc (FixtureSize EntryCount) ;;
            if NewFixture =? 0 then ret (inl E_OUTOFMEMORY) else
            n <- FixtureName ExportName ;;
            match n with
            | inl Hr => free NewFixture ;;; ret (inl Hr)
            | inr Name =>
                match FillFixture Name ModName TestDef with
                | inl Hr => free NewFixture ;;; ret (inl Hr)
                | inr f => ret (inr (NewFixture, f))
                end
            end
        end
  end.

(* src/cfix/cfix/pe.c:264-269 (CfixsDeleteFixture) *)
Definition CfixsDeleteFixture (f : FIXTURE_BLOCK) : M unit := free (fst f).

(* src/cfix/cfix/pe.c:413-418 (CfixsLoadFixturesFromPeImage) *)
Fixpoint DeleteFixtures (fs : list FIXTURE_BLOCK) : M unit :=
  match fs with [] => ret tt | f :: fs => CfixsDeleteFixture f ;;; DeleteFixtures fs end.

(** The export at [Index]: its name and the relative address of its function.  The
    ordinal is computed in a WORD. *)
(* src/cfix/cfix/pe.c:332-352 (CfixsLoadFixturesFromPeImage) *)
Definition ExportAt (img : IMAGE) (Index : nat) : option (string * Z) :=
  match NamesRvaArray img !! Index, OrdinalsArray img !! Index with
  | Some n, Some o =>
      let Ordinal := wrap 16 (wrap 16 o + wrap 16 (ExportBase img)) in
      match FunctionRvaArray img !! Z.to_nat (ULONG (Ordinal - ExportBase img)) with
      | Some FuncRva => Some (NameAt img n, FuncRva)
      | None => None
      end
  | _, _ => None
  end.

(* src/cfix/cfix/pe.c:354-362 (CfixsLoadFixturesFromPeImage) *)
Definition IsForwarder (img : IMAGE) (FuncRva : Z) : bool :=
  (ExportDirVirtualAddress img <=? FuncRva) &&
  (FuncRva <? ULONG (ExportDirVirtualAddress img + ExportDirSize img)).

Definition SIZEOF_POINTER : Z := 8.

(** The loop over the names from [Index] on, [n] of them left: the pointer array,
    its capacity and the fixtures so far are threaded through.  The result is
    the status with what the cleanup needs. *)
(* src/cfix/cfix/pe.c:332-405 (CfixsLoadFixturesFromPeImage) *)
Fixpoint LoadLoop (img : IMAGE) (Handle : Z) (ModName : string) (n Index : nat)
    (Array Allocated : Z) (fs : list FIXTURE_BLOCK) : M (Z * Z * list FIXTURE_BLOCK) :=
  match n with
  | O => ret (S_OK, Array, fs)
  | S n =>
      match ExportAt img Index with
      | None => fault
      | Some (Name, FuncRva) =>
          if negb (IsForwarder img FuncRva) && CfixpIsFixtureExport64 Name then
            g <- (if Z.of_nat (length fs) =? Allocated then
                    NewFixtures <- realloc Array (ULONG (Allocated * 2) * SIZEOF_POINTER) ;;
                    ret (NewFixtures, ULONG (Allocated * 2))
                  else ret (Array, Allocated)) ;;
            if fst g =? 0 then ret (E_OUTOFMEMORY, Array, fs)
            else
              r <- CfixsCreateFixture Name (Handle + FuncRva) ModName ;;
              match r with
              | inl Hr => ret (Hr, fst g, fs)
              | inr f => LoadLoop img Handle ModName n (S Index) (fst g) (snd g) (fs ++ [f])
              end
          else LoadLoop img Handle ModName n (S Index) Array Allocated fs
      end
  end.

(** The release build's initial capacity. *)
Definition INITIAL_ALLOCATED_FIXTURES : Z := 16.

(** The array and the fixtures, or the error. *)
(* src/cfix/cfix/pe.c:271-425 (CfixsLoadFixturesFromPeImage) *)
Definition CfixsLoadFixturesFromPeImage (Handle : Z) (ModName : string)
    : M (Z + (Z * list FIXTURE_BLOCK)) :=
  let img := ImageOf Handle in
  FixturePtrArray <- malloc (INITIAL_ALLOCATED_FIXTURES * SIZEOF_POINTER) ;;
  if FixturePtrArray =? 0 then ret (inl E_OUTOFMEMORY)
  else if negb (IMAGE_NT_SIGNATURE =? Signature img) then
    free FixturePtrArray ;;; ret (inl (HRESULT_FROM_WIN32 ERROR_BAD_EXE_FORMAT))
  else
    r <- (if 0 <? NumberOfFunctions img then
            LoadLoop img Handle ModName (Z.to_nat (NumberOfNames img)) 0
              FixturePtrArray INITIAL_ALLOCATED_FIXTURES []
          else ret (S_OK, FixturePtrArray, [])) ;;
    let '(Hr, Array, fs) := r in
    if FAILED Hr then
      DeleteFixtures fs ;;; free Array ;;; ret (inl Hr)
    else ret (inr (Array, fs)).

(** ** Module objects *)
Definition loadm (a : Z) : M PE_TEST_MODULE := fun s =>
  match Modules s !! a with Some m => Some (m, s) | None => None end.
Definition storem (a : Z) (m : PE_TEST_MODULE) : M unit :=
  modify (fun s => set_Modules (<[a := m]> (Modules s)) s).

(* src/cfix/cfix/pe.c:433-460 (CfixsDeleteTestModule) *)
Definition CfixsDeleteTestModule (Module_ : Z) : M unit :=
  m <- loadm Module_ ;;
  DeleteFixtures (Fixtures m) ;;;
  free (FixtureArray m) ;;;
  when_ (FreeImageOnDeletion m) (FreeLibrary (ModuleHandle m)) ;;;
  free Module_ ;;;
  modify (fun s => set_Modules (delete Module_ (Modules s)) s).

(* src/cfix/cfix/pe.c:462-468 (CfixsReferenceTestModuleMethod) *)
Definition CfixsReferenceTestModuleMethod (Module_ : Z) : M unit :=
  m <- loadm Module_ ;; storem Module_ (set_ReferenceCount (LONG (ReferenceCount m + 1)) m).

(* src/cfix/cfix/pe.c:470-480 (CfixsDereferenceTestModule) *)
Definition CfixsDereferenceTestModule (Module_ : Z) : M unit :=
  m <- loadm Module_ ;;
  let n := LONG (ReferenceCount m - 1) in
  storem Module_ (set_ReferenceCount n m) ;;;
  when_ (0 =? n) (CfixsDeleteTestModule Module_).

Definition SIZEOF_PE_TEST_MODULE : Z := 240.

(** The result and, on success, the module.  [OutPtr] says whether the pointer to
    the result is not NULL. *)
(* src/cfix/cfix/pe.c:820-893 (CfixsCreateTestModule) *)
Definition CfixsCreateTestModule (Handle : Z) (FreeImage OutPtr : bool) : M (Z * Z) :=
  if (Handle =? 0) || negb OutPtr then ret (E_INVALIDARG, 0) else
  Module_ <- malloc SIZEOF_PE_TEST_MODULE ;;
  if Module_ =? 0 then ret (E_OUTOFMEMORY, 0) else
  n <- rest (GetModuleBaseName Handle) ;;
  match n with
  | inl Err => free Module_ ;;; ret (HRESULT_FROM_WIN32 Err, 0)
  | inr BaseName =>
      let Name := PathRemoveExtension BaseName in
      r <- CfixsLoadFixturesFromPeImage Handle Name ;;
      match r with
      | inl Hr => free Module_ ;;; ret (Hr, 0)
      | inr (Array, fs) =>
          storem Module_ (MkModule Name Handle 1 FreeImage Array fs) ;;; ret (S_OK, Module_)
      end
  end.

(* src/cfix/cfix/pe.c:901-912 (CfixCreateTestModule) *)
Definition CfixCreateTestModule (Handle : Z) (OutPtr : bool) : M (Z * Z) :=
  if (Handle =? 0) || negb OutPtr then ret (E_INVALIDARG, 0)
  else CfixsCreateTestModule Handle false OutPtr.

(* src/cfix/cfix/pe.c:914-964 (CfixCreateTestModuleFromPeImage) *)
Definition CfixCreateTestModuleFromPeImage (ModulePath : option string) (OutPtr : bool) : M (Z * Z) :=
  match ModulePath with
  | None => ret (E_INVALIDARG, 0)
  | Some Path =>
      if negb OutPtr then ret (E_INVALIDARG, 0) else
      p <- rest (GetFullPathName Path) ;;
      match p with
      | inl Err => ret (HRESULT_FROM_WIN32 Err, 0)
      | inr FullPathName =>
          l <- LoadLibrary FullPathName ;;
          match l with
          | inl Err => ret (HRESULT_FROM_WIN32 Err, 0)
          | inr Handle =>
              r <- CfixsCreateTestModule Handle true OutPtr ;;
              when_ (FAILED (fst r)) (FreeLibrary Handle) ;;;
              ret r
          end
      end
  end.
End pemodule.

(** ** What a definition's table describes *)
Section entries.
Implicit Types (es : list CFIX_PE_DEFINITION_ENTRY).

(** The entries before the end marker. *)
Fixpoint Body es : list CFIX_PE_DEFINITION_ENTRY :=
  match es with
  | [] => []
  | e :: es => if EntryType e =? CfixEntryTypeEnd then [] else e :: Body es
  end.

Definition RoutinesOf (t : Z) es : list Z :=
  EntryRoutine <$> filter (fun e => EntryType e = t) es.
Definition TestCasesOf es : list CFIX_TEST_CASE :=
  (fun e => MkTestCase (EntryName e) (EntryRoutine e)) <$>
    filter (fun e => EntryType e = CfixEntryTypeTestcase) es.

(** At most one routine of a type: only NULL entries before the last. *)
Definition Single (rs : list Z) : Prop := Forall (fun r => r = 0) (removelast rs).

Definition KnownTypes : list Z :=
  [CfixEntryTypeSetup; CfixEntryTypeTeardown; CfixEntryTypeTestcase; CfixEntryTypeBefore; CfixEntryTypeAfter].

(** The tables a fixture can be made of. *)
Definition WellFormed es : Prop :=
  Forall (fun e => EntryType e ∈ KnownTypes) es /\
  Single (RoutinesOf CfixEntryTypeSetup es) /\ Single (RoutinesOf CfixEntryTypeTeardown es) /\
  Single (RoutinesOf CfixEntryTypeBefore es) /\ Single (RoutinesOf CfixEntryTypeAfter es).

#[export] Instance WellFormed_dec es : Decision (WellFormed es).
Proof. unfold WellFormed, Single. apply _. Defined.

(** The last routine, or the default. *)
Fixpoint LastOr (d : Z) (rs : list Z) : Z :=
  match rs with [] => d | r :: rs => LastOr r rs end.

Definition FixtureOf (f : CFIX_FIXTURE) es : CFIX_FIXTURE :=
  MkFixture (FxName f)
    (LastOr (SetupRoutine f) (RoutinesOf CfixEntryTypeSetup es))
    (LastOr (TeardownRoutine f) (RoutinesOf CfixEntryTypeTeardown es))
    (LastOr (BeforeRoutine f) (RoutinesOf CfixEntryTypeBefore es))
    (LastOr (AfterRoutine f) (RoutinesOf CfixEntryTypeAfter es))
    (ApiType f) (FxFlags f) (FxModuleName f)
    (TestCases f ++ TestCasesOf es).
End entries.

Section walk.
Implicit Types (es : list CFIX_PE_DEFINITION_ENTRY) (f g : CFIX_FIXTURE).

Lemma RoutinesOf_cons t e es :
  RoutinesOf t (e :: es) =
    if EntryType e =? t then EntryRoutine e :: RoutinesOf t es else RoutinesOf t es.
Proof.
  unfold RoutinesOf. destruct (Z.eqb_spec (EntryType e) t).
  - by rewrite filter_cons_True.
  - by rewrite filter_cons_False.
Qed.

Lemma TestCasesOf_cons e es :
  TestCasesOf (e :: es) =
    (if EntryType e =? CfixEntryTypeTestcase then [MkTestCase (EntryName e) (EntryRoutine e)] else [])
    ++ TestCasesOf es.
Proof.
  unfold TestCasesOf. destruct (Z.eqb_spec (EntryType e) CfixEntryTypeTestcase).
  - by rewrite filter_cons_True.
  - by rewrite filter_cons_False.
Qed.

(** [Single], when the slot already holds [v]. *)
Definition SingleFrom (v : Z) (rs : list Z) : Prop := Single (v :: rs).

Lemma SingleFrom_cons v r rs : SingleFrom v (r :: rs) <-> v = 0 /\ SingleFrom r rs.
Proof. unfold SingleFrom, Single. simpl. by rewrite Forall_cons. Qed.

Lemma SingleFrom_0 rs : SingleFrom 0 rs <-> Single rs.
Proof.
  destruct rs as [|r rs]; [|by rewrite SingleFrom_cons; unfold SingleFrom; naive_solver].
  unfold SingleFrom, Single. simpl. done.
Qed.

Definition Known es : Prop := Forall (fun e => EntryType e ∈ KnownTypes) es.

Lemma Known_cons e es : Known (e :: es) <-> (EntryType e ∈ KnownTypes) /\ Known es.
Proof. apply (Forall_cons (fun e => EntryType e ∈ KnownTypes)). Qed.

Definition WellFormedFrom f es : Prop :=
  Known es /\
  SingleFrom (SetupRoutine f) (RoutinesOf CfixEntryTypeSetup es) /\
  SingleFrom (TeardownRoutine f) (RoutinesOf CfixEntryTypeTeardown es) /\
  SingleFrom (BeforeRoutine f) (RoutinesOf CfixEntryTypeBefore es) /\
  SingleFrom (AfterRoutine f) (RoutinesOf CfixEntryTypeAfter es).

Lemma known_types ty : (ty ∈ KnownTypes) <->
  ty = CfixEntryTypeSetup \/ ty = CfixEntryTypeTeardown \/ ty = CfixEntryTypeTestcase \/
  ty = CfixEntryTypeBefore \/ ty = CfixEntryTypeAfter.
Proof. unfold KnownTypes. rewrite !elem_of_cons, elem_of_nil. tauto. Qed.

(** One entry more. *)
Lemma AddEntry_spec f e es :
  match AddEntry f e with
  | inl _ => ~ WellFormedFrom f (e :: es)
  | inr f' => (WellFormedFrom f (e :: es) <-> WellFormedFrom f' es) /\
              FixtureOf f (e :: es) = FixtureOf f' es
  end.
Proof.
  destruct e as [ty nm r]. unfold WellFormedFrom, FixtureOf.
  rewrite !RoutinesOf_cons, !TestCasesOf_cons. unfold AddEntry. simpl EntryType.
  simpl EntryRoutine. simpl EntryName.
  repeat match goal with
  | |- context [ty =? ?c] =>
      destruct (Z.eqb_spec ty c) as [->|?]; cbn -[SingleFrom KnownTypes elem_of Known]
  end.
  all: try match goal with
       | |- context [?v =? 0] => destruct (Z.eqb_spec v 0) as [E|E];
           cbn -[SingleFrom KnownTypes elem_of Known]
       end; rewrite ?Known_cons, ?SingleFrom_cons, <-?app_assoc; simpl EntryType.
  all: rewrite known_types; try (split; [|reflexivity]); intuition congruence.
Qed.

Lemma WalkMap_spec es f n g :
  CountEntries es = Some n ->
  (WalkMap f es = inr g <-> WellFormedFrom f (Body es) /\ g = FixtureOf f (Body es)).
Proof.
  revert f n. induction es as [|e es IH]; intros f n; simpl; [done|].
  destruct (EntryType e =? CfixEntryTypeEnd).
  - intros _. unfold WellFormedFrom, FixtureOf, RoutinesOf, TestCasesOf. simpl.
    rewrite app_nil_r. destruct f; simpl. unfold SingleFrom, Single, Known; simpl.
    split; [intros [= <-]; repeat split; constructor|naive_solver].
  - destruct (CountEntries es) as [k|]; [|done]. intros _.
    pose proof (AddEntry_spec f e (Body es)) as H.
    destruct (AddEntry f e) as [Hr|f'].
    + split; [done|]. intros [Hw _]. by apply H in Hw.
    + destruct H as [-> ->]. by apply (IH f' k).
Qed.
End walk.

(** ** Ownership of blocks *)
Section resources.
Context {X : Type}.
Variable Malloc : gset Z -> Z -> ST X Z.
Variable Realloc : gset Z -> Z -> Z -> ST X Z.
Variable GetTcRoutine : Z -> ST X (option CFIX_TEST_PE_DEFINITION).
Variable MultiByteToWideChar : nat -> string -> ST X (Z + string).
Variable GetModuleBaseName : Z -> ST X (Z + string).
Variable PathRemoveExtension : string -> string.
Variable GetFullPathName : string -> ST X (Z + string).
Variable LoadLibrary_ : string -> ST X (Z + Z).
Variable ImageOf : Z -> IMAGE.

(** The heap does not hand out a block that is in use. *)
Hypothesis Malloc_new : forall bs n x a x', Malloc bs n x = Some (a, x') -> a ∉ bs.
Hypothesis Realloc_new : forall bs a n x b x', Realloc bs a n x = Some (b, x') -> b = a \/ b ∉ bs.
(** Failures have a last error. *)
Hypothesis GetModuleBaseName_error : forall h x e x',
  GetModuleBaseName h x = Some (inl e, x') -> e <> 0.
Hypothesis GetFullPathName_error : forall p x e x',
  GetFullPathName p x = Some (inl e, x') -> e <> 0.
Hypothesis LoadLibrary_error : forall p x e x',
  LoadLibrary_ p x = Some (inl e, x') -> e <> 0.

Implicit Types (s : PW X) (bs : list Z).

(** [s'] has the blocks of [s], and [bs] in addition. *)
Record Grew bs s s' : Prop := {
  gr_blocks : Blocks s' = list_to_set bs ∪ Blocks s;
  gr_nodup : NoDup bs;
  gr_new : forall b, b ∈ bs -> b ∉ Blocks s;
  gr_libraries : Libraries s' = Libraries s;
  gr_modules : Modules s' = Modules s }.

Lemma Grew_refl s : Grew [] s s.
Proof. split; [set_solver|constructor|set_solver|done|done]. Qed.

Lemma Grew_nil s s' : Grew [] s s' -> Blocks s' = Blocks s.
Proof. intros []. set_solver. Qed.

Lemma Grew_trans bs1 bs2 s s1 s2 : Grew bs1 s s1 -> Grew bs2 s1 s2 -> Grew (bs2 ++ bs1) s s2.
Proof.
  intros [E1 N1 F1 L1 M1] [E2 N2 F2 L2 M2]. split; [| | |congruence|congruence].
  - rewrite E2, E1, list_to_set_app_L. set_solver.
  - apply NoDup_app. split_and!; [done| |done]. intros b Hb Hb'. apply (F2 b Hb). set_solver.
  - intros b [Hb|Hb]%elem_of_app; [|auto]. specialize (F2 b Hb). set_solver.
Qed.

Lemma Grew_Permutation bs1 bs2 s s' : bs1 ≡ₚ bs2 -> Grew bs1 s s' -> Grew bs2 s s'.
Proof.
  intros Hp []. split; [|by rewrite <-Hp|intros b; rewrite <-Hp; auto|done|done].
  assert (list_to_set bs2 =@{gset Z} list_to_set bs1) as -> by by apply list_to_set_perm_L.
  done.
Qed.

Lemma Grew_same bs s s1 s2 :
  Grew bs s s1 -> Blocks s2 = Blocks s1 -> Libraries s2 = Libraries s1 -> Modules s2 = Modules s1 ->
  Grew bs s s2.
Proof. intros [] ???. split; [congruence|done|done|congruence|congruence]. Qed.

Lemma Grew_free b bs s s1 a s2 : Grew (b :: bs) s s1 -> free b s1 = Some (a, s2) -> Grew bs s s2.
Proof.
  intros [E N F L M] [= _ <-]. apply NoDup_cons in N as [Nb N].
  split; [|done|set_solver|done|done]. simpl. rewrite E.
  assert (b ∉ Blocks s) by set_solver.
  apply set_eq. intros c. destruct (decide (c = b)); set_solver.
Qed.

Lemma rest_Some {A} (m : ST X A) s a s' :
  rest m s = Some (a, s') -> exists x, m (Rest s) = Some (a, x) /\ s' = set_Rest x s.
Proof.
  unfold rest. destruct (m (Rest s)) as [[b x]|]; [|done]. intros [= <- <-]. eauto.
Qed.

Lemma Grew_rest {A} (m : ST X A) bs s s1 a s2 : Grew bs s s1 -> rest m s1 = Some (a, s2) -> Grew bs s s2.
Proof. intros H (x & _ & ->)%rest_Some. by apply (Grew_same bs s s1). Qed.

Lemma Grew_malloc n bs s s1 a s2 :
  Grew bs s s1 -> malloc Malloc n s1 = Some (a, s2) ->
  Grew (if a =? 0 then bs else a :: bs) s s2.
Proof.
  intros Hg H. unfold malloc in H. rewrite bind_gets in H. inv_bind H.
  apply rest_Some in H0 as (x & Hm & ->). apply Malloc_new in Hm.
  destruct (Z.eqb_spec a0 0) as [E|E]; cbn [negb when_] in H1.
  - rewrite bind_ret in H1. injection H1 as <- <-. rewrite E. by apply (Grew_same bs s s1).
  - rewrite bind_modify in H1. injection H1 as <- <-.
    destruct (Z.eqb_spec a0 0); [done|]. destruct Hg as [Eb N F L M].
    split; simpl; [set_solver| |set_solver|done|done].
    constructor; [set_solver|done].
Qed.

Lemma Grew_realloc a n bs s s1 b s2 :
  Grew (a :: bs) s s1 -> realloc Realloc a n s1 = Some (b, s2) ->
  Grew ((if b =? 0 then a else b) :: bs) s s2.
Proof.
  intros Hg H. unfold realloc in H. rewrite bind_gets in H. inv_bind H.
  apply rest_Some in H0 as (x & Hm & ->). apply Realloc_new in Hm.
  destruct (Z.eqb_spec a0 0) as [E|E]; cbn [negb when_] in H1.
  - rewrite bind_ret in H1. injection H1 as <- <-. rewrite E. by apply (Grew_same (a :: bs) s s1).
  - rewrite bind_modify in H1. injection H1 as <- <-.
    destruct (Z.eqb_spec a0 0); [done|]. destruct Hg as [Eb N F L M].
    apply NoDup_cons in N as [Na N].
    assert ((a0 ∉ bs) /\ (a0 ∉ Blocks s)) as [Hb1 Hb2] by (destruct Hm; set_solver).
    split; simpl; [| by constructor | set_solver | done | done].
    rewrite Eb. assert (a ∉ Blocks s) by set_solver.
    apply set_eq. intros c. destruct (decide (c = a)); set_solver.
Qed.

Lemma Grew_FixtureName ExportName bs s s1 n s2 :
  Grew bs s s1 -> FixtureName MultiByteToWideChar ExportName s1 = Some (n, s2) -> Grew bs s s2.
Proof. intros Hg H. unfold FixtureName in H. inv_bind H. injection H1 as _ <-. by eapply Grew_rest. Qed.

Lemma Grew_CfixsCreateFixture e r m bs s s1 res s2 :
  Grew bs s s1 ->
  CfixsCreateFixture Malloc GetTcRoutine MultiByteToWideChar e r m s1 = Some (res, s2) ->
  Grew (match res with inl _ => bs | inr f => fst f :: bs end) s s2.
Proof.
  intros Hg H. unfold CfixsCreateFixture in H. inv_bind H.
  apply (Grew_rest _ _ _ _ _ _ Hg) in H0. destruct a as [d|]; [|by injection H1 as <- <-].
  destruct (_ || _); [by injection H1 as <- <-|].
  destruct (CountEntries _); [|done]. inv_bind H1.
  apply (Grew_malloc _ _ _ _ _ _ H0) in H.
  destruct (Z.eqb_spec a 0); [by injection H2 as <- <-|]. inv_bind H2.
  eapply Grew_FixtureName in H1; [|done]. destruct a0 as [Hr|Name].
  - inv_bind H3. injection H4 as <- <-. by eapply Grew_free.
  - destruct (FillFixture _ _ _); [|by injection H3 as <- <-].
    inv_bind H3. injection H4 as <- <-. by eapply Grew_free.
Qed.

Lemma Grew_DeleteFixtures fs bs s s1 u s2 :
  Grew ((fst <$> fs) ++ bs) s s1 -> DeleteFixtures fs s1 = Some (u, s2) -> Grew bs s s2.
Proof.
  revert s1. induction fs as [|f fs IH]; simpl; intros s1 Hg H; [by injection H as _ <-|].
  inv_bind H. eapply IH; [|eassumption]. eapply Grew_free; [exact Hg|]. by destruct a.
Qed.

Lemma Grew_LoadLoop img h m n i Array Allocated fs bs s s1 Hr Array' fs' s2 :
  Grew ((fst <$> fs) ++ Array :: bs) s s1 ->
  LoadLoop Malloc Realloc GetTcRoutine MultiByteToWideChar img h m n i Array Allocated fs s1
    = Some ((Hr, Array', fs'), s2) ->
  Grew ((fst <$> fs') ++ Array' :: bs) s s2.
Proof.
  revert i Array Allocated fs s1.
  induction n as [|n IH]; intros i Array Allocated fs s1 Hg H; simpl in H;
    [by injection H as <- <- <- <-|].
  destruct (ExportAt img i) as [[Name FuncRva]|]; [|done].
  destruct (_ && _); [|by eapply IH].
  inv_bind H.
  assert (Grew ((fst <$> fs) ++ (if fst a =? 0 then Array else fst a) :: bs) s s0) as Hg0.
  { destruct (_ =? Allocated).
    - inv_bind H0. injection H2 as <- <-. simpl.
      eapply Grew_Permutation; [apply Permutation_middle|].
      eapply Grew_realloc; [|eassumption].
      eapply Grew_Permutation; [symmetry; apply Permutation_middle|done].
    - injection H0 as <- <-. simpl. by destruct (Array =? 0). }
  destruct (fst a =? 0); [by injection H1 as <- <- <- <-|].
  inv_bind H1. eapply Grew_CfixsCreateFixture in H; [|done].
  destruct a0 as [Hr'|f]; [by injection H2 as <- <- <- <-|].
  eapply IH; [|eassumption]. rewrite fmap_app, <-app_assoc. simpl.
  eapply Grew_Permutation; [apply Permutation_middle|done].
Qed.

Lemma Grew_Load h m bs s s1 r s2 :
  Grew bs s s1 ->
  CfixsLoadFixturesFromPeImage Malloc Realloc GetTcRoutine MultiByteToWideChar ImageOf h m s1
    = Some (r, s2) ->
  Grew (match r with inl _ => bs | inr (Array, fs) => (fst <$> fs) ++ Array :: bs end) s s2.
Proof.
  intros Hg H. unfold CfixsLoadFixturesFromPeImage in H. inv_bind H.
  apply (Grew_malloc _ _ _ _ _ _ Hg) in H0.
  destruct (Z.eqb_spec a 0); [by injection H1 as <- <-|].
  destruct (negb _).
  { inv_bind H1. injection H2 as <- <-. by eapply Grew_free. }
  inv_bind H1. destruct a0 as [[Hr Array] fs].
  assert (Grew ((fst <$> fs) ++ Array :: bs) s s3) as Hg3.
  { destruct (0 <? _); [|by injection H as <- <- <- <-]. by eapply Grew_LoadLoop in H. }
  destruct (FAILED Hr); [|by injection H2 as <- <-].
  inv_bind H2. inv_bind H3. injection H4 as <- <-.
  destruct a1. eapply Grew_free; [|eassumption]. by eapply Grew_DeleteFixtures.
Qed.

Lemma Load_error h m s Hr s' :
  CfixsLoadFixturesFromPeImage Malloc Realloc GetTcRoutine MultiByteToWideChar ImageOf h m s
    = Some (inl Hr, s') -> FAILED Hr = true.
Proof.
  intros H. unfold CfixsLoadFixturesFromPeImage in H.
  inv_bind H. destruct (a =? 0); [by injection H1 as <- _|].
  destruct (negb _); [inv_bind H1; by injection H2 as <- _|].
  inv_bind H1. destruct a0 as [[Hr' Array] fs]. destruct (FAILED Hr') eqn:E; [|done].
  inv_bind H2. inv_bind H3. by injection H4 as <- _.
Qed.

(** The result of [CfixsCreateTestModule]: an error without a trace, or a module. *)
Lemma Grew_CfixsCreateTestModule h b s s1 Hr a :
  CfixsCreateTestModule Malloc Realloc GetTcRoutine MultiByteToWideChar GetModuleBaseName
    PathRemoveExtension ImageOf h b true s = Some ((Hr, a), s1) ->
  (FAILED Hr = true /\ Grew [] s s1) \/
  (Hr = S_OK /\ a <> 0 /\ exists s0 m, s1 = set_Modules (<[a := m]> (Modules s)) s0 /\
     ReferenceCount m = 1 /\ FreeImageOnDeletion m = b /\ ModuleHandle m = h /\
     Grew ((fst <$> Fixtures m) ++ [FixtureArray m; a]) s s0).
Proof.
  intros H. unfold CfixsCreateTestModule in H. rewrite orb_false_r in H.
  destruct (h =? 0); [injection H as <- <- <-; left; split; [done|apply Grew_refl]|].
  inv_bind H. apply (Grew_malloc _ _ _ _ _ _ (Grew_refl s)) in H0.
  destruct (Z.eqb_spec a0 0); [by injection H1 as <- <- <-; left|].
  inv_bind H1. pose proof (Grew_rest _ _ _ _ _ _ H0 H) as Hg.
  destruct a1 as [e|nm].
  { inv_bind H2. injection H3 as <- <- <-. left. split; [|by eapply Grew_free].
    apply FAILED_from_win32. apply rest_Some in H as (? & H & _). by eapply GetModuleBaseName_error. }
  inv_bind H2. pose proof (Grew_Load _ _ _ _ _ _ _ Hg H1) as Hl.
  destruct a1 as [Hr'|[Array fs]].
  - inv_bind H3. injection H4 as <- <- <-. left. split; [|by eapply Grew_free].
    by eapply Load_error.
  - unfold storem in H3. rewrite bind_modify in H3. injection H3 as <- <- <-.
    right. split_and!; [done..|]. 
    exists s3, (MkModule (PathRemoveExtension nm) h 1 b Array fs).
    rewrite <-(gr_modules _ _ _ Hl). by split_and!.
Qed.

(** Uses of a module object: [true] references, [false] dereferences. *)
Fixpoint run_refs (a : Z) (evs : list bool) : ST (PW X) unit :=
  match evs with
  | [] => ret tt
  | b :: evs =>
      (if b : bool then CfixsReferenceTestModuleMethod a else CfixsDereferenceTestModule a) ;;;
      run_refs a evs
  end.
(** The number of references they leave; [None] if the object is used after its last
    reference is gone, or is given more references than a LONG counts. *)
Fixpoint balance (c : Z) (evs : list bool) : option Z :=
  match evs with
  | [] => Some c
  | b :: evs =>
      if (c =? 0) || (2 ^ 31 <=? (if b : bool then c + 1 else c - 1)) then None
      else balance (if b : bool then c + 1 else c - 1) evs
  end.

Lemma DeleteFixtures_total fs s : exists s', DeleteFixtures fs s = Some (tt, s').
Proof. revert s. induction fs as [|f fs IH]; intros s; simpl; [eauto|]. apply IH. Qed.

Lemma CfixsDeleteTestModule_ok a m s B :
  Modules s !! a = Some m -> Grew ((fst <$> Fixtures m) ++ [FixtureArray m; a]) (set_Blocks B s) s ->
  exists s', CfixsDeleteTestModule a s = Some (tt, s') /\ Blocks s' = B /\
    Modules s' = delete a (Modules s) /\
    forall k, Libraries s' k =
      Libraries s k - (if FreeImageOnDeletion m && (k =? ModuleHandle m) then 1 else 0).
Proof.
  intros Hm Hg. unfold CfixsDeleteTestModule.
  rewrite (bind_eq _ _ _ m s) by (unfold loadm; by rewrite Hm).
  destruct (DeleteFixtures_total (Fixtures m) s) as [s1 H1]. rewrite (bind_eq _ _ _ _ _ H1).
  pose proof (Grew_DeleteFixtures _ _ _ _ _ _ Hg H1) as Hg1.
  pose proof (Grew_free _ _ _ _ _ _ Hg1 eq_refl) as Hg2.
  pose proof (Grew_free _ _ _ _ _ _ Hg2 eq_refl) as Hg3.
  unfold free, FreeLibrary. rewrite bind_modify.
  assert (Libraries s1 = Libraries s /\ Modules s1 = Modules s) as [El Em] by by destruct Hg1.
  pose proof (Grew_nil _ _ Hg3) as Eb. simpl in Eb.
  destruct (FreeImageOnDeletion m); cbn [when_]; rewrite ?bind_ret, !bind_modify;
    eexists; (split; [reflexivity|]); simpl; rewrite ?El, ?Em; split_and!; try done;
    intros k; simpl; [destruct (k =? ModuleHandle m)|]; lia.
Qed.

(** What a live module object, created in a world with blocks [B], looks like. *)
Record Live (a : Z) (m : PE_TEST_MODULE) (B : gset Z) (Ms : gmap Z PE_TEST_MODULE) (L : Z -> Z)
    (n : Z) s : Prop := {
  lv_module : Modules s = <[a := set_ReferenceCount n m]> Ms;
  lv_blocks : Grew ((fst <$> Fixtures m) ++ [FixtureArray m; a]) (set_Blocks B s) s;
  lv_libraries : forall k, Libraries s k = L k + (if k =? ModuleHandle m then 1 else 0) }.

Lemma Live_count a m B Ms L n n' s :
  Live a m B Ms L n s ->
  Live a m B Ms L n' (set_Modules (<[a := set_ReferenceCount n' m]> (Modules s)) s).
Proof.
  intros [Em Hb Hl]. split; simpl; [by rewrite Em, insert_insert_eq| |done].
  by destruct Hb; split.
Qed.

Lemma Live_run a m B Ms L evs n n' s :
  Live a m B Ms L n s -> Ms !! a = None -> FreeImageOnDeletion m = true -> 0 < n ->
  balance n evs = Some n' ->
  exists s', run_refs a evs s = Some (tt, s') /\
    if n' =? 0 then Blocks s' = B /\ Modules s' = Ms /\ forall k, Libraries s' k = L k
    else Live a m B Ms L n' s'.
Proof.
  intros HL Ha Hf. revert n s HL. induction evs as [|b evs IH]; intros n s HL Hn Hbal.
  { simpl in Hbal. injection Hbal as <-. exists s. split; [done|].
    by destruct (Z.eqb_spec n 0); [lia|]. }
  cbn [balance] in Hbal. destruct (Z.eqb_spec n 0); [done|]. cbn [orb] in Hbal.
  destruct (Z.leb_spec (2 ^ 31) (if b then n + 1 else n - 1)) as [|Hmax]; [done|].
  assert (loadm a s = Some (set_ReferenceCount n m, s)) as Hload.
  { unfold loadm. by rewrite (lv_module _ _ _ _ _ _ _ HL), lookup_insert_eq. }
  destruct b; cbn [run_refs].
  - unfold CfixsReferenceTestModuleMethod. rewrite bind_assoc, (bind_eq _ _ _ _ _ Hload).
    unfold storem. rewrite bind_modify. simpl ReferenceCount. rewrite LONG_small by lia.
    change (set_ReferenceCount (n + 1) (set_ReferenceCount n m)) with (set_ReferenceCount (n + 1) m).
    apply (IH (n + 1)); [|lia|done]. by apply (Live_count _ _ _ _ _ n).
  - unfold CfixsDereferenceTestModule. rewrite bind_assoc, (bind_eq _ _ _ _ _ Hload).
    cbv zeta. simpl ReferenceCount. rewrite LONG_small by lia.
    unfold storem. rewrite bind_assoc, bind_modify.
    pose proof (Live_count _ _ _ _ _ n (n - 1) s HL) as HL1.
    change (set_ReferenceCount (n - 1) (set_ReferenceCount n m)) with (set_ReferenceCount (n - 1) m).
    set (s1 := set_Modules _ s) in *.
    destruct (Z.eqb_spec 0 (n - 1)) as [E|E]; cbn [when_].
    + rewrite <-E in Hbal. destruct evs as [|e evs]; [|done]. simpl in Hbal. injection Hbal as <-.
      destruct HL1 as [Em Hb Hl].
      destruct (CfixsDeleteTestModule_ok a (set_ReferenceCount (n - 1) m) s1 B)
        as (s2 & H2 & Hb2 & Hm2 & Hl2); [by rewrite Em, lookup_insert_eq|done|].
      rewrite (bind_eq _ _ _ _ _ H2). exists s2. split; [done|]. simpl. split_and!; [done|..].
      * rewrite Hm2, Em, delete_insert_eq. by apply delete_id.
      * intros k. rewrite Hl2, Hl. simpl. rewrite Hf. simpl. lia.
    + rewrite bind_ret. apply (IH (n - 1)); [done|lia|done].
Qed.

(** C22. A test module owns what it was made from.  If creating one from an image
    fails, at whatever point (no memory, a bad image, a fixture that cannot be
    made), no heap block and no reference to the library is left.  If it
    succeeds, then under any references and dereferences, of which no more than
    [2 ^ 31 - 1] are held at a time (the counter is a LONG that wraps around),
    the object stays intact while references are left, and with the last one the
    blocks of the module, its array and its fixtures, and the reference to the
    library, are released: heap, libraries and modules are as before the
    creation. *)
Theorem test_module_lifetime Path s Hr a s1 :
  (forall b, is_Some (Modules s !! b) -> b ∈ Blocks s) ->
  CfixCreateTestModuleFromPeImage Malloc Realloc GetTcRoutine MultiByteToWideChar GetModuleBaseName
    PathRemoveExtension GetFullPathName LoadLibrary_ ImageOf (Some Path) true s = Some ((Hr, a), s1) ->
  let restored s' := Blocks s' = Blocks s /\ Modules s' = Modules s /\
                     forall k, Libraries s' k = Libraries s k in
  if FAILED Hr then restored s1
  else exists m, Modules s1 = <[a := m]> (Modules s) /\ ReferenceCount m = 1 /\
       forall evs n, balance 1 evs = Some n ->
         exists s2, run_refs a evs s1 = Some (tt, s2) /\
           if n =? 0 then restored s2
           else Modules s2 = <[a := set_ReferenceCount n m]> (Modules s) /\ Blocks s2 = Blocks s1.
Proof.
  intros Hmods H restored. unfold CfixCreateTestModuleFromPeImage in H. simpl negb in H. cbv iota in H.
  inv_bind H. apply rest_Some in H0 as (x & Hx & ->).
  destruct a0 as [e|p].
  { injection H1 as <- <- <-. rewrite FAILED_from_win32 by by eapply GetFullPathName_error.
    by split_and!. }
  unfold LoadLibrary in H1. rewrite bind_assoc in H1. inv_bind H1.
  apply rest_Some in H as (x' & Hx' & ->).
  destruct a0 as [e|h].
  { injection H0 as <- <- <-. rewrite FAILED_from_win32 by by eapply LoadLibrary_error.
    by split_and!. }
  rewrite bind_assoc, bind_modify, bind_ret in H0. set (s0 := set_Libraries _ _) in H0.
  inv_bind H0. destruct a0 as [Hr' a'].
  apply Grew_CfixsCreateTestModule in H
    as [[HF Hg]|(-> & Ha & sm & m & -> & Hrc & Hfi & Hmh & Hg)]; simpl fst in H1.
  - rewrite HF in H1. inv_bind H1. injection H0 as <- <- <-. rewrite HF.
    injection H as _ <-. pose proof (Grew_nil _ _ Hg) as Eb. destruct Hg as [_ _ _ El Em].
    split_and!; [done|done|]. intros k. simpl. rewrite El. simpl. destruct (k =? h); lia.
  - change (FAILED S_OK) with false in H1. cbn [when_] in H1. rewrite bind_ret in H1.
    injection H1 as <- <- <-. exists m. split_and!; [done..|]. intros evs n Hbal.
    assert (Modules s !! a' = None) as Hnone.
    { destruct (Modules s !! a') eqn:E; [|done]. destruct (Hmods a'); [eauto|].
      destruct Hg as [_ _ Hn _ _]. destruct (Hn a'); [set_solver|]. apply Hmods. eauto. }
    destruct (Live_run a' m (Blocks s) (Modules s) (Libraries s) evs 1 n
                (set_Modules (<[a' := m]> (Modules s0)) sm)) as (s2 & H2 & Hend); [|done..|].
    { split; simpl.
      - by destruct m; simpl in *; subst.
      - by destruct Hg; split.
      - intros k. rewrite (gr_libraries _ _ _ Hg), Hmh. simpl. destruct (k =? h); lia. }
    exists s2. split; [done|]. destruct (n =? 0); [done|].
    destruct Hend as [Em Hb _]. split; [done|]. simpl.
    rewrite (gr_blocks _ _ _ Hb), (gr_blocks _ _ _ Hg). done.
Qed.
End resources.

(** ** Fixtures and the exports they come from *)
Section loading.
Context {X : Type}.
Variable Malloc : gset Z -> Z -> ST X Z.
Variable Realloc : gset Z -> Z -> Z -> ST X Z.
Variable GetTcRoutine : Z -> ST X (option CFIX_TEST_PE_DEFINITION).
Variable MultiByteToWideChar : nat -> string -> ST X (Z + string).
Variable ImageOf : Z -> IMAGE.

(** What the surroundings answer does not depend on the state they are in, and
    memory suffices. *)
Variable Definitions : Z -> option CFIX_TEST_PE_DEFINITION.
Variable Wide : nat -> string -> Z + string.
Hypothesis Malloc_ok : forall bs n x, exists a x', Malloc bs n x = Some (a, x') /\ a <> 0.
Hypothesis Realloc_ok : forall bs a n x, exists b x', Realloc bs a n x = Some (b, x') /\ b <> 0.
Hypothesis GetTcRoutine_ok : forall r x, exists x', GetTcRoutine r x = Some (Definitions r, x').
Hypothesis MultiByteToWideChar_ok : forall n t x, exists x', MultiByteToWideChar n t x = Some (Wide n t, x').
Hypothesis Wide_error : forall n t e, Wide n t = inl e -> e <> 0.
Hypothesis Definitions_end : forall r d, Definitions r = Some d -> is_Some (CountEntries (Entries d)).
Implicit Types (s : PW X).

(** The fixture an export describes, or why there is none. *)
Definition FixtureSpec (ModName ExportName : string) (Routine : Z) : Z + CFIX_FIXTURE :=
  match Definitions Routine with
  | None => inl CFIX_E_MISBEHAVIOUD_GETTC_ROUTINE
  | Some d =>
      if (InfoType d <? CfixApiTypeMin) || (CfixApiTypeMax <? InfoType d)
      then inl CFIX_E_UNSUPPORTED_VERSION
      else match Wide 128 (SkipCch CFIX_FIXTURE_EXPORT_PREFIX_CCH ExportName) with
           | inl e => inl (if ERROR_INSUFFICIENT_BUFFER =? e then CFIX_E_FIXTURE_NAME_TOO_LONG
                           else HRESULT_FROM_WIN32 e)
           | inr n => FillFixture (CfixsUnmangleName n) ModName d
           end
  end.

(** The first error, or all the values. *)
Fixpoint Collect {A} (rs : list (Z + A)) : Z + list A :=
  match rs with
  | [] => inr []
  | inl e :: _ => inl e
  | inr a :: rs => match Collect rs with inl e => inl e | inr l => inr (a :: l) end
  end.

Lemma malloc_ok n s : exists a s', malloc Malloc n s = Some (a, s') /\ a <> 0.
Proof.
  unfold malloc. rewrite bind_gets.
  destruct (Malloc_ok (Blocks s) n (Rest s)) as (a & x & H & Ha).
  rewrite (bind_eq _ _ _ a (set_Rest x s)) by (unfold rest; by rewrite H).
  destruct (Z.eqb_spec a 0); [done|]. simpl. rewrite bind_modify. eauto.
Qed.

Lemma realloc_ok a n s : exists b s', realloc Realloc a n s = Some (b, s') /\ b <> 0.
Proof.
  unfold realloc. rewrite bind_gets.
  destruct (Realloc_ok (Blocks s) a n (Rest s)) as (b & x & H & Hb).
  rewrite (bind_eq _ _ _ b (set_Rest x s)) by (unfold rest; by rewrite H).
  destruct (Z.eqb_spec b 0); [done|]. simpl. rewrite bind_modify. eauto.
Qed.

Lemma create_spec ExportName Routine ModName s :
  exists r s', CfixsCreateFixture Malloc GetTcRoutine MultiByteToWideChar ExportName Routine ModName s
    = Some (r, s') /\
    match FixtureSpec ModName ExportName Routine with
    | inl e => r = inl e
    | inr f => exists b, r = inr (b, f)
    end.
Proof.
  unfold CfixsCreateFixture, FixtureSpec.
  destruct (GetTcRoutine_ok Routine (Rest s)) as [x Hx].
  rewrite (bind_eq _ _ _ (Definitions Routine) (set_Rest x s)) by (unfold rest; by rewrite Hx).
  destruct (Definitions Routine) as [d|] eqn:Hd; [|by eexists _, _].
  destruct (_ || _); [by eexists _, _|].
  destruct (Definitions_end _ _ Hd) as [n ->].
  destruct (malloc_ok (FixtureSize n) (set_Rest x s)) as (a & s1 & H1 & Ha).
  rewrite (bind_eq _ _ _ _ _ H1). destruct (Z.eqb_spec a 0); [done|]. unfold FixtureName.
  change (Z.to_nat CFIX_MAX_FIXTURE_NAME_CCH) with 128%nat.
  destruct (MultiByteToWideChar_ok 128 (SkipCch CFIX_FIXTURE_EXPORT_PREFIX_CCH ExportName) (Rest s1))
    as [y Hy].
  rewrite bind_assoc, (bind_eq _ _ _ (Wide 128 (SkipCch CFIX_FIXTURE_EXPORT_PREFIX_CCH ExportName))
    (set_Rest y s1)) by (unfold rest; by rewrite Hy).
  rewrite bind_ret. destruct (Wide _ _) as [e|nm]; unfold free.
  - rewrite bind_modify. by eexists _, _.
  - destruct (FillFixture _ _ _); [rewrite bind_modify; by eexists _, _|].
    eexists _, _. split; [reflexivity|]. by eexists.
Qed.

(** The exports that are fixtures: not forwarders, and with the prefix. *)
Definition Selected (img : IMAGE) (es : list (string * Z)) : list (string * Z) :=
  filter (fun e => IsForwarder img (snd e) = false /\ CfixpIsFixtureExport64 (fst e) = true) es.

Lemma LoadLoop_spec img h m es i Array Allocated fs s :
  (forall j, (j < length es)%nat -> ExportAt img (i + j) = es !! j) -> Array <> 0 ->
  exists Hr Array' fs' s',
    LoadLoop Malloc Realloc GetTcRoutine MultiByteToWideChar img h m (length es) i Array Allocated fs s
      = Some ((Hr, Array', fs'), s') /\
    match Collect ((fun e => FixtureSpec m (fst e) (h + snd e)) <$> Selected img es) with
    | inl e => Hr = e
    | inr l => Hr = S_OK /\ snd <$> fs' = (snd <$> fs) ++ l
    end.
Proof.
  revert i Array Allocated fs s. induction es as [|[nm rva] es IH]; intros i Array Allocated fs s He Ha.
  { simpl. eexists _, _, _, _. split; [reflexivity|]. by rewrite app_nil_r. }
  assert (forall j, (j < length es)%nat -> ExportAt img (S i + j) = es !! j) as He'.
  { intros j Hj. replace (S i + j)%nat with (i + S j)%nat by lia.
    apply (He (S j)). simpl. lia. }
  cbn [length LoadLoop]. pose proof (He 0%nat ltac:(simpl; lia)) as E0.
  rewrite Nat.add_0_r in E0. simpl in E0. rewrite E0. unfold Selected.
  destruct (IsForwarder img rva) eqn:Ef; cbn [negb andb].
  { rewrite filter_cons_False by (cbn [fst snd]; intros [? ?]; congruence).
    exact (IH (S i) Array Allocated fs s He' Ha). }
  destruct (CfixpIsFixtureExport64 nm) eqn:Ex; cbn [negb andb].
  2:{ rewrite filter_cons_False by (cbn [fst snd]; intros [? ?]; congruence).
    exact (IH (S i) Array Allocated fs s He' Ha). }
  rewrite filter_cons_True by done. rewrite fmap_cons. cbn [Collect fst snd].
  assert (exists g s1, (if Z.of_nat (length fs) =? Allocated
     then NewFixtures <- realloc Realloc Array (ULONG (Allocated * 2) * SIZEOF_POINTER) ;;
          ret (NewFixtures, ULONG (Allocated * 2))
     else ret (Array, Allocated)) s = Some (g, s1) /\ fst g <> 0) as (g & s1 & Hg & Hg0).
  { destruct (_ =? Allocated); [|by eexists (_, _), _].
    destruct (realloc_ok Array (ULONG (Allocated * 2) * SIZEOF_POINTER) s) as (b & s1 & H1 & Hb).
    rewrite (bind_eq _ _ _ _ _ H1). by eexists (_, _), _. }
  rewrite (bind_eq _ _ _ _ _ Hg). destruct (Z.eqb_spec (fst g) 0); [done|].
  destruct (create_spec nm (h + rva) m s1) as (r & s2 & H2 & Hr).
  rewrite (bind_eq _ _ _ _ _ H2).
  destruct (FixtureSpec m nm (h + rva)) as [e|f].
  - subst r. by eexists _, _, _, _.
  - destruct Hr as [b ->].
    destruct (IH (S i) (fst g) (snd g) (fs ++ [(b, f)]) s2 He' Hg0) as (Hr & A & fs' & s' & H & Hc).
    exists Hr, A, fs', s'. split; [done|]. fold (Selected img es).
    destruct (Collect _) as [e|l]; [done|]. destruct Hc as [-> ->]. split; [done|].
    by rewrite fmap_app, <-app_assoc.
Qed.

Lemma AddEntry_error f e Hr : AddEntry f e = inl Hr -> FAILED Hr = true.
Proof. unfold AddEntry. intros H. repeat case_match; try discriminate; by injection H as <-. Qed.

Lemma FixtureSpec_error m nm r e : FixtureSpec m nm r = inl e -> FAILED e = true.
Proof.
  unfold FixtureSpec. destruct (Definitions r) as [d|]; [|by intros [= <-]].
  destruct (_ || _); [by intros [= <-]|].
  destruct (Wide _ _) as [err|w] eqn:Hw.
  - intros [= <-]. match goal with |- FAILED (if ?b then _ else _) = _ => destruct b; [done|] end. apply FAILED_from_win32. by eapply Wide_error.
  - unfold FillFixture. destruct (negb _); [by intros [= <-]|].
    destruct (_ <? _); [by intros [= <-]|].
    generalize (MkFixture (CfixsUnmangleName w) 0 0 0 0 (InfoType d) (InfoFlags d) m []).
    induction (Entries d) as [|x es IH]; intros f; simpl; [by intros [= <-]|].
    destruct (EntryType x =? CfixEntryTypeEnd); [done|]. destruct (AddEntry f x) eqn:E; [|apply IH].
    intros [= <-]. by eapply AddEntry_error.
Qed.

Lemma Collect_error {A} (rs : list (Z + A)) e :
  (forall e', inl e' ∈ rs -> FAILED e' = true) -> Collect rs = inl e -> FAILED e = true.
Proof.
  induction rs as [|[e'|a] rs IH]; simpl; intros Hall H; [done| |].
  - simplify_eq. apply Hall. by left.
  - destruct (Collect rs) eqn:E; [|done]. simplify_eq. apply IH; [|done].
    intros e' He'. apply Hall. by right.
Qed.

(** The export table, given that ordinals fit in a WORD together with the base. *)
Definition Exports (img : IMAGE) : list (string * Z) :=
  zip_with (fun n o => (NameAt img n, nth (Z.to_nat o) (FunctionRvaArray img) 0))
    (NamesRvaArray img) (OrdinalsArray img).

Record ImageOk (img : IMAGE) : Prop := {
  io_signature : Signature img = IMAGE_NT_SIGNATURE;
  io_functions : 0 < NumberOfFunctions img;
  io_names : NumberOfNames img = Z.of_nat (length (NamesRvaArray img));
  io_ordinals : length (OrdinalsArray img) = length (NamesRvaArray img);
  io_base : 0 <= ExportBase img;
  io_word : Forall (fun o => 0 <= o /\ o + ExportBase img < 2 ^ 16 /\
                             o < Z.of_nat (length (FunctionRvaArray img))) (OrdinalsArray img) }.

Lemma ExportAt_Exports img j :
  ImageOk img -> (j < length (Exports img))%nat -> ExportAt img j = Exports img !! j.
Proof.
  intros Hi Hj. unfold Exports in *. rewrite length_zip_with, (io_ordinals _ Hi) in Hj.
  destruct (lookup_lt_is_Some_2 (NamesRvaArray img) j) as [n Hn]; [lia|].
  destruct (lookup_lt_is_Some_2 (OrdinalsArray img) j) as [o Ho]; [rewrite (io_ordinals _ Hi); lia|].
  unfold ExportAt. rewrite lookup_zip_with, Hn, Ho. simpl.
  pose proof (io_word _ Hi) as Hw. rewrite Forall_lookup in Hw. destruct (Hw _ _ Ho) as (H1 & H2 & H3).
  pose proof (io_base _ Hi). unfold ULONG. rewrite !(wrap_small 16) by (rewrite ?wrap_small; lia).
  rewrite (wrap_small 32) by (change (2 ^ 32) with (2 ^ 16 * 2 ^ 16); lia).
  replace (o + ExportBase img - ExportBase img) with o by lia.
  destruct (FunctionRvaArray img !! Z.to_nat o) as [r|] eqn:E.
  - by rewrite (nth_lookup_Some _ _ _ _ E).
  - apply lookup_ge_None in E. lia.
Qed.

(** C26. Loading an image yields exactly the fixtures it exports: for every name of
    the export table, in order, that has the fixture prefix and is not a
    forwarder, the fixture that its definition describes; if some of them cannot
    be made, the error of the first. *)
Theorem load_yields_exported_fixtures h m s :
  ImageOk (ImageOf h) ->
  exists r s',
    CfixsLoadFixturesFromPeImage Malloc Realloc GetTcRoutine MultiByteToWideChar ImageOf h m s
      = Some (r, s') /\
    match Collect ((fun e => FixtureSpec m (fst e) (h + snd e)) <$>
                     Selected (ImageOf h) (Exports (ImageOf h))) with
    | inl e => r = inl e
    | inr fixtures => exists Array fs, r = inr (Array, fs) /\ snd <$> fs = fixtures
    end.
Proof.
  intros Hi. unfold CfixsLoadFixturesFromPeImage.
  destruct (malloc_ok (INITIAL_ALLOCATED_FIXTURES * SIZEOF_POINTER) s) as (a & s1 & H1 & Ha).
  rewrite (bind_eq _ _ _ _ _ H1). destruct (Z.eqb_spec a 0); [done|].
  rewrite (io_signature _ Hi), Z.eqb_refl. cbn [negb].
  destruct (Z.ltb_spec 0 (NumberOfFunctions (ImageOf h))); [|pose proof (io_functions _ Hi); lia].
  assert (Z.to_nat (NumberOfNames (ImageOf h)) = length (Exports (ImageOf h))) as ->.
  { unfold Exports. rewrite length_zip_with, (io_names _ Hi), (io_ordinals _ Hi). lia. }
  destruct (LoadLoop_spec (ImageOf h) h m (Exports (ImageOf h)) 0 a INITIAL_ALLOCATED_FIXTURES [] s1)
    as (Hr & A & fs & s2 & H2 & Hc); [intros j Hj; by apply ExportAt_Exports|done|].
  rewrite (bind_eq _ _ _ _ _ H2).
  destruct (Collect _) as [e|l] eqn:Ec.
  - subst Hr. assert (FAILED e = true) as ->.
    { eapply Collect_error; [|exact Ec]. intros e' (x & Hx & _)%list_elem_of_fmap.
      by eapply FixtureSpec_error. }
    destruct (DeleteFixtures_total fs s2) as [s3 H3]. rewrite (bind_eq _ _ _ _ _ H3).
    unfold free. rewrite bind_modify. by eexists _, _.
  - destruct Hc as [-> Hfs]. change (FAILED S_OK) with false. cbv iota.
    eexists _, _. split; [reflexivity|]. by eexists _, _.
Qed.
End loading.

(** ** Definitions *)
Section definitions.

(** What makes a fixture: a definition is accepted exactly if its revision is 0,
    it has no unknown flag, and its table up to the end marker has only known
    entries, with no second setup, teardown, before or after routine.  The
    fixture then has those routines (NULL if absent), and the test cases in the
    order of the table. *)
Theorem fixture_contents Name ModName d f :
  is_Some (CountEntries (Entries d)) ->
  let es := Body (Entries d) in
  FillFixture Name ModName d = inr f <->
    InfoRevision d = 0 /\ InfoFlags d <= CFIX_FIXTURE_USES_ANONYMOUS_THREADS /\ WellFormed es /\
    f = MkFixture Name
          (LastOr 0 (RoutinesOf CfixEntryTypeSetup es)) (LastOr 0 (RoutinesOf CfixEntryTypeTeardown es))
          (LastOr 0 (RoutinesOf CfixEntryTypeBefore es)) (LastOr 0 (RoutinesOf CfixEntryTypeAfter es))
          (InfoType d) (InfoFlags d) ModName (TestCasesOf es).
Proof.
  intros [n Hn] es. unfold FillFixture.
  destruct (Z.eqb_spec (InfoRevision d) 0); simpl; [|naive_solver].
  destruct (Z.ltb_spec CFIX_FIXTURE_USES_ANONYMOUS_THREADS (InfoFlags d)); [split; [done|lia]|].
  rewrite (WalkMap_spec _ _ n f Hn). unfold WellFormedFrom, WellFormed, FixtureOf, Known.
  cbn [SetupRoutine TeardownRoutine BeforeRoutine AfterRoutine FxName ApiType FxFlags FxModuleName TestCases].
  rewrite !SingleFrom_0, app_nil_l. fold es. tauto.
Qed.

Lemma bits_below t k n : 0 <= t < 2 ^ k -> 0 <= k <= n -> Z.testbit t n = false.
Proof.
  intros Ht Hn. rewrite <-(Z.mod_small t (2 ^ k)) by done. apply Z.mod_pow2_bits_high. lia.
Qed.

Lemma land_ones_bit t k n : 0 <= k -> 0 <= n -> Z.testbit (Z.land t (Z.ones k)) n = (n <? k) && Z.testbit t n.
Proof. intros. rewrite Z.land_spec, Z.testbit_ones_nonneg, andb_comm by lia. done. Qed.

Lemma land_ones_bound k t : 0 <= k -> Z.land t (Z.ones k) = t -> 0 <= t < 2 ^ k.
Proof. intros Hk <-. rewrite Z.land_ones by done. apply Z.mod_pos_bound. lia. Qed.

(** The version word that the test code macros build is taken apart to what was
    put in, and fits in a ULONG. *)
Theorem api_version_roundtrip t r f es :
  0 <= t < 2 ^ 4 -> 0 <= r < 2 ^ 16 -> 0 <= f < 2 ^ 12 ->
  let d := MkDefinition (CFIX_PE_API_MAKEAPIVERSION_EX t r f) es in
  InfoType d = t /\ InfoRevision d = r /\ InfoFlags d = f /\ 0 <= ApiVersion d < 2 ^ 32.
Proof.
  intros Ht Hr Hf d.
  assert (forall n, 0 <= n -> Z.testbit (ApiVersion d) n =
    if n <? 4 then Z.testbit t n
    else if n <? 16 then Z.testbit f (n - 4) else Z.testbit r (n - 16)) as Hbit.
  { intros n Hn. unfold d, CFIX_PE_API_MAKEAPIVERSION_EX. simpl ApiVersion.
    change 0xF with (Z.ones 4). change 0xFFF with (Z.ones 12). change 0xFFFF with (Z.ones 16).
    rewrite !Z.lor_spec, !Z.shiftl_spec, land_ones_bit by lia.
    destruct (Z.ltb_spec n 4).
    { rewrite !(Z.testbit_neg_r _ (n - _)) by lia. by rewrite !orb_false_r. }
    rewrite land_ones_bit by lia. simpl. destruct (Z.ltb_spec n 16).
    - rewrite (Z.testbit_neg_r _ (n - 16)), orb_false_r by lia.
      by destruct (Z.ltb_spec (n - 4) 12); [|lia].
    - destruct (Z.ltb_spec (n - 4) 12); [lia|]. simpl. rewrite land_ones_bit by lia.
      destruct (Z.ltb_spec (n - 16) 16); [done|].
      by rewrite (bits_below r 16) by lia. }
  assert (forall w k v, 0 <= w -> 0 <= k -> 0 <= v < 2 ^ w ->
    (forall n, 0 <= n < w -> Z.testbit (ApiVersion d) (n + k) = Z.testbit v n) ->
    Z.land (Z.shiftr (ApiVersion d) k) (Z.ones w) = v) as Hfield.
  { intros w k v Hw Hk Hv Hn. apply Z.bits_inj'. intros n ?.
    rewrite land_ones_bit, Z.shiftr_spec by lia. destruct (Z.ltb_spec n w); simpl; [apply Hn; lia|].
    by rewrite (bits_below v w) by lia. }
  assert (0 <= ApiVersion d < 2 ^ 32) as Hb.
  { apply (land_ones_bound 32); [lia|].
    apply Z.bits_inj'. intros n Hn. rewrite land_ones_bit, Hbit by lia.
    destruct (Z.ltb_spec n 32); [done|]. destruct (Z.ltb_spec n 4); [lia|].
    destruct (Z.ltb_spec n 16); [lia|]. by rewrite (bits_below r 16) by lia. }
  unfold InfoType, InfoRevision, InfoFlags. split_and!; [..|lia|lia].
  - rewrite <-(Z.shiftr_0_r (ApiVersion d)). apply (Hfield 4 0); [lia..|]. intros n Hn.
    rewrite Hbit by lia. by destruct (Z.ltb_spec (n + 0) 4); [rewrite Z.add_0_r|lia].
  - apply (Hfield 16 16); [lia..|]. intros n Hn. rewrite Hbit by lia.
    destruct (Z.ltb_spec (n + 16) 4); [lia|]. destruct (Z.ltb_spec (n + 16) 16); [lia|].
    f_equal. lia.
  - apply (Hfield 12 4); [lia..|]. intros n Hn. rewrite Hbit by lia.
    destruct (Z.ltb_spec (n + 4) 4); [lia|]. destruct (Z.ltb_spec (n + 4) 16); [f_equal; lia|lia].
Qed.
End definitions.

(** ** A concrete instance: a heap that hands out the next address *)
Module Demo.
Definition next (bs : gset Z) : Z := 1 + foldr Z.max 0 (elements bs).
Definition Malloc (bs : gset Z) (n : Z) : ST unit Z := ret (next bs).
Definition Realloc (bs : gset Z) (a n : Z) : ST unit Z := ret (next bs).

Definition good : CFIX_TEST_PE_DEFINITION :=
  MkDefinition (CFIX_PE_API_MAKEAPIVERSION_EX 1 0 1)
    [MkEntry CfixEntryTypeTestcase "A" 10; MkEntry CfixEntryTypeSetup "Up" 11;
     MkEntry CfixEntryTypeTestcase "B" 12; MkEntry CfixEntryTypeEnd "" 0].
Definition twice : CFIX_TEST_PE_DEFINITION :=
  MkDefinition (CFIX_PE_API_MAKEAPIVERSION_EX 1 0 0)
    [MkEntry CfixEntryTypeBefore "X" 10; MkEntry CfixEntryTypeBefore "Y" 11; MkEntry CfixEntryTypeEnd "" 0].

Definition Definitions (r : Z) : option CFIX_TEST_PE_DEFINITION :=
  if r =? 0x10100 then Some good else if r =? 0x20100 then Some twice else None.
Definition GetTcRoutine (r : Z) : ST unit (option CFIX_TEST_PE_DEFINITION) := ret (Definitions r).
Definition Wide (n : nat) (t : string) : Z + string :=
  if (String.length t <? n)%nat then inr t else inl ERROR_INSUFFICIENT_BUFFER.
Definition MultiByteToWideChar (n : nat) (t : string) : ST unit (Z + string) := ret (Wide n t).
Definition GetModuleBaseName (h : Z) : ST unit (Z + string) := ret (inr "demo").
Definition GetFullPathName (p : string) : ST unit (Z + string) := ret (inr p).
Definition LoadLibrary_ (p : string) : ST unit (Z + Z) :=
  ret (if String.eqb p "" then inl 2 else inr (if String.eqb p "bad" then 0x20000 else 0x10000)).

(** Exports: a function, a forwarder, and a fixture. *)
Definition image : IMAGE :=
  MkImage IMAGE_NT_SIGNATURE 0x1000 0x100 1 3 3 [1; 2; 3] [0x200; 0x1010; 0x100] [0; 1; 2]
    (fun n => if n =? 1 then "helper" else if n =? 2 then "__CfixFixturePeFwd"
              else "__CfixFixturePeSome@0").
Definition ImageOf (h : Z) : IMAGE := image.

Lemma next_new bs : next bs ∉ bs.
Proof.
  intros H%elem_of_elements%max_bound. unfold next in H. lia.
Qed.
Lemma next_pos bs : next bs <> 0.
Proof.
  unfold next. assert (0 <= foldr Z.max 0 (elements bs)); [|lia].
  induction (elements bs); simpl; lia.
Qed.

Definition state0 : PW unit := MkPW ∅ (fun _ => 0) ∅ tt.
Definition create (p : string) : option ((Z * Z) * PW unit) :=
  CfixCreateTestModuleFromPeImage Malloc Realloc GetTcRoutine MultiByteToWideChar
    GetModuleBaseName (fun s => s) GetFullPathName LoadLibrary_ ImageOf (Some p) true state0.
Definition after (p : string) : PW unit := match create p with Some (_, s) => s | None => state0 end.

Lemma create_good : create "demo.dll" = Some ((S_OK, 1), after "demo.dll").
Proof. vm_compute. reflexivity. Qed.

Lemma test_module_lifetime_witness :
  (exists m, Modules (after "demo.dll") = <[1 := m]> ∅) /\
  exists s2, run_refs 1 [true; false; false] (after "demo.dll") = Some (tt, s2) /\ Blocks s2 = ∅.
Proof.
  assert (HM : forall b, is_Some (Modules state0 !! b) -> b ∈ Blocks state0).
  { intros b [m Hm]. discriminate Hm. }
  destruct (test_module_lifetime Malloc Realloc GetTcRoutine MultiByteToWideChar
    GetModuleBaseName (fun s => s) GetFullPathName LoadLibrary_ ImageOf) with
    (Path := "demo.dll") (s := state0) (Hr := S_OK) (a := 1) (s1 := after "demo.dll")
    as (m & H1 & _ & H2).
  - intros bs n x a x' [= <- _]. apply next_new.
  - intros bs a n x b x' [= <- _]. right. apply next_new.
  - discriminate.
  - discriminate.
  - intros p x e x'. unfold LoadLibrary_, ret. destruct (String.eqb p ""); intros [= <- _]. discriminate.
  - exact HM.
  - exact create_good.
  - split; [exists m; exact H1|].
    destruct (H2 [true; false; false] 0) as (s2 & Hs2 & Hb & _); [reflexivity|].
    exists s2. split; [exact Hs2|exact Hb].
Defined.

Lemma load_yields_exported_fixtures_witness :
  exists r s', CfixsLoadFixturesFromPeImage Malloc Realloc GetTcRoutine MultiByteToWideChar ImageOf
                 0x10000 "demo" state0 = Some (r, s') /\
    exists Array fs, r = inr (Array, fs) /\ FxName <$> (snd <$> fs) = ["Some"].
Proof.
  destruct (load_yields_exported_fixtures Malloc Realloc GetTcRoutine MultiByteToWideChar ImageOf
    Definitions Wide) with (h := 0x10000) (m := "demo") (s := state0) as (r & s' & H & Hr).
  - intros bs n []. exists (next bs), tt. split; [reflexivity|apply next_pos].
  - intros bs a n []. exists (next bs), tt. split; [reflexivity|apply next_pos].
  - intros r []. exists tt. reflexivity.
  - intros n t []. exists tt. reflexivity.
  - intros n t e. unfold Wide. destruct (String.length t <? n)%nat; [discriminate|].
    intros [= <-]. discriminate.
  - intros r d. unfold Definitions. destruct (r =? 0x10100); [intros [= <-]; eexists; reflexivity|].
    destruct (r =? 0x20100); [intros [= <-]; eexists; reflexivity|discriminate].
  - split; [reflexivity|reflexivity|reflexivity|reflexivity|vm_compute; discriminate|].
    repeat constructor; vm_compute; (reflexivity || discriminate).
  - exists r, s'. split; [exact H|]. 
    match type of Hr with match ?c with _ => _ end =>
      let v := eval vm_compute in c in change c with v in Hr end.
    destruct Hr as (A & fs & -> & Hfs).
    exists A, fs. split; [reflexivity|]. rewrite Hfs. reflexivity.
Defined.

Lemma fixture_contents_witness :
  exists f, FillFixture "Some" "demo" good = inr f /\ SetupRoutine f = 11 /\ length (TestCases f) = 2%nat.
Proof.
  eexists. split.
  - apply (fixture_contents "Some" "demo" good); [eexists; reflexivity|].
    split; [reflexivity|]. split; [discriminate|]. split; [|reflexivity].
    apply (bool_decide_unpack _). vm_compute. exact I.
  - split; reflexivity.
Defined.

Lemma api_version_roundtrip_witness :
  InfoFlags (MkDefinition (CFIX_PE_API_MAKEAPIVERSION_EX 2 0 1) []) = 1.
Proof. apply (api_version_roundtrip 2 0 1 []); vm_compute; split; (reflexivity || discriminate). Defined.
End Demo.
