(* ===== verification/PeRun.v ===== *)
(** * Running the routines of a test module (cfix/cfix/pe.c, the run methods)

    A test routine runs under a filament that lives in the frame of
    [CfixsRunTestRoutine], inside the exception filter of RptStubs.  The test
    code itself is a parameter: what it does to the world, and how it ends. *)
From stdpp Require Import base gmap list strings.
From Stdlib Require Import ZArith Lia.
From S2P Require Import Prelude CfixApi Filament RptStubs.

Section perun.
Context {X : Type}.
Variable Contexts : Z -> CFIX_EXECUTION_CONTEXT X.
Variable DuplicateHandle : Z -> ST X (Z * Z).
Variable WaitForThreads : list Z -> Z -> ST X bool.
Variable CfixpCaptureStackTrace : ST X (Z * list Z).
(** The test code at an address, running on a thread. *)
Variable Code : Z -> Z -> ST (FW X) (OUT unit).
(** [GetCurrentThreadId()] *)
Variable Tid : Z.
(** The address of the local filament of [CfixsRunTestRoutine]. *)
Variable Frame : Z.

Local Abbreviation M := (ST (FW X)).

Definition INFINITE : Z := 0xFFFFFFFF.

(* src/cfix/cfix/pe.c:489-517 (CfixsRunTestRoutine) *)
Definition FilamentFlags (Flags : Z) : Z :=
  Z.lor (if FlagOn Flags CFIX_TEST_FLAG_CAPTURE_STACK_TRACES
         then CFIXP_FILAMENT_FLAG_CAPTURE_STACK_TRACES else 0)
        (if FlagOn Flags CFIX_TEST_FLAG_PROVIDE_DEFAULT_FILAMENT
         then CFIXP_FILAMENT_FLAG_DEFAULT_FILAMENT else 0).

(** The local filament goes out of scope. *)
Definition LeaveFrame : M unit := modify (fun s => set_Filaments (delete Frame (Filaments s)) s).

(** What follows the guarded block, given whether the routine ran to completion
    and the value of [AbortRun]. *)
(* src/cfix/cfix/pe.c:558-588 (CfixsRunTestRoutine) *)
Definition FinishRoutine (PrevFilament : Z) (RoutineRanToCompletion AbortRun : bool) : M (OUT Z) :=
  CfixpJoinChildThreadsFilament WaitForThreads Frame INFINITE ;;;
  VERIFY (CfixpSetCurrentFilament Contexts DuplicateHandle Tid PrevFilament) ;;;
  CfixpDestroyFilament Tid Frame ;;;
  LeaveFrame ;;;
  retO (if AbortRun then CFIX_E_TESTRUN_ABORTED
        else if RoutineRanToCompletion then S_OK else CFIX_E_TEST_ROUTINE_FAILED).

(** If the filter does not handle the exception, it passes on, and the frame is
    abandoned; the same holds if the test code ends its thread. *)
(* src/cfix/cfix/pe.c:482-589 (CfixsRunTestRoutine) *)
Definition CfixsRunTestRoutine (Routine Context Flags : Z) (RestoreFilamentStorage : bool) : M (OUT Z) :=
  if Routine =? 0 then retO E_UNEXPECTED else
  assert_ (Flags <=? Z.lor CFIX_TEST_FLAG_CAPTURE_STACK_TRACES CFIX_TEST_FLAG_PROVIDE_DEFAULT_FILAMENT) ;;;
  CfixpInitializeFilament Tid Context Tid (FilamentFlags Flags) RestoreFilamentStorage Frame ;;;
  Hr <- CfixpSetCurrentFilament Contexts DuplicateHandle Tid Frame ;;
  if FAILED (fst Hr) then
    CfixpDestroyFilament Tid Frame ;;; LeaveFrame ;;; retO (fst Hr)
  else
    out <- Code Routine Tid ;;
    match out with
    | Returned _ => FinishRoutine (snd Hr) true false
    | Raised ExcpCode =>
        d <- CfixpExceptionFilter Contexts CfixpCaptureStackTrace Tid ExcpCode Frame ;;
        match fst d with
        | EXCEPTION_EXECUTE_HANDLER => FinishRoutine (snd Hr) false (default false (snd d))
        | EXCEPTION_CONTINUE_SEARCH => ret (Raised ExcpCode)
        end
    | Exited c => ret (Exited c)
    end.

(** The check of the arguments that all methods share; 0 is NULL. *)
(* src/cfix/cfix/pe.c:597-602 (CfixsRunTestCaseTestModule) *)
Definition ValidContext (Context : Z) : bool :=
  negb (Context =? 0) && CfixIsValidContext (Contexts Context).

(** An optional routine; a failure of the test code is renamed. *)
(* src/cfix/cfix/pe.c:700-741 (CfixsRunBeforeTestModule) *)
Definition RunOptional (Routine Context Flags : Z) (Restore : bool) (Failed : Z) : M (OUT Z) :=
  if negb (Routine =? 0) then
    Hr <~ CfixsRunTestRoutine Routine Context Flags Restore ;;
    retO (if CFIX_E_TEST_ROUTINE_FAILED =? Hr then Failed else Hr)
  else retO S_OK.

(* src/cfix/cfix/pe.c:591-609 (CfixsRunTestCaseTestModule) *)
Definition CfixsRunTestCaseTestModule (TestCase : option CFIX_TEST_CASE) (Context Flags : Z) : M (OUT Z) :=
  match TestCase with
  | None => retO E_INVALIDARG
  | Some tc =>
      if negb (ValidContext Context) then retO E_INVALIDARG
      else CfixsRunTestRoutine (TcRoutine tc) Context Flags true
  end.

(* src/cfix/cfix/pe.c:611-655 (CfixsRunSetupTestModule) *)
Definition CfixsRunSetupTestModule (Fixture : option CFIX_FIXTURE) (Context Flags : Z) : M (OUT Z) :=
  match Fixture with
  | None => retO E_INVALIDARG
  | Some f =>
      if negb (ValidContext Context) then retO E_INVALIDARG
      else RunOptional (SetupRoutine f) Context Flags false CFIX_E_SETUP_ROUTINE_FAILED
  end.

(* src/cfix/cfix/pe.c:657-698 (CfixsRunTeardownTestModule) *)
Definition CfixsRunTeardownTestModule (Fixture : option CFIX_FIXTURE) (Context Flags : Z) : M (OUT Z) :=
  match Fixture with
  | None => retO E_INVALIDARG
  | Some f =>
      if negb (ValidContext Context) then retO E_INVALIDARG
      else RunOptional (TeardownRoutine f) Context Flags false CFIX_E_TEARDOWN_ROUTINE_FAILED
  end.

(* src/cfix/cfix/pe.c:700-741 (CfixsRunBeforeTestModule) *)
Definition CfixsRunBeforeTestModule (Fixture : option CFIX_FIXTURE) (Context Flags : Z) : M (OUT Z) :=
  match Fixture with
  | None => retO E_INVALIDARG
  | Some f =>
      if negb (ValidContext Context) then retO E_INVALIDARG
      else RunOptional (BeforeRoutine f) Context Flags false CFIX_E_BEFORE_ROUTINE_FAILED
  end.

(* src/cfix/cfix/pe.c:743-780 (CfixsRunAfterTestModule) *)
Definition CfixsRunAfterTestModule (Fixture : option CFIX_FIXTURE) (Context Flags : Z) : M (OUT Z) :=
  match Fixture with
  | None => retO E_INVALIDARG
  | Some f =>
      if negb (ValidContext Context) then retO E_INVALIDARG
      else RunOptional (AfterRoutine f) Context Flags true CFIX_E_AFTER_ROUTINE_FAILED
  end.
End perun.

Section theory.
Context {X : Type}.
Variable Contexts : Z -> CFIX_EXECUTION_CONTEXT X.
Variable DuplicateHandle : Z -> ST X (Z * Z).
Variable WaitForThreads : list Z -> Z -> ST X bool.
Variable CfixpCaptureStackTrace : ST X (Z * list Z).
Implicit Types (s : FW X).

Definition IsDefault (o : CFIXP_FILAMENT) : bool :=
  FlagOn (FilFlags o) CFIXP_FILAMENT_FLAG_DEFAULT_FILAMENT.

(** Thread [t] is in filament [f], of which it is the main thread, and nobody is
    at the default filament. *)
Record Inside (t f : Z) (o : CFIXP_FILAMENT) s : Prop := {
  in_current : CurrentIs t f false s;
  in_some : f <> 0;
  in_filament : Filaments s !! f = Some o;
  in_main : FilMainThreadId o = t;
  in_default : DefaultFilament s = if IsDefault o then f else 0;
  in_lock : DefaultLock s = free_lock }.

(** The thread runs no test code, and there is no default filament. *)
Record Outside (t : Z) s : Prop := {
  out_current : CurrentIs t 0 false s;
  out_default : DefaultFilament s = 0;
  out_lock : DefaultLock s = free_lock }.

(** Entering: the state in which the test code starts. *)
Definition entered (t f : Z) (o : CFIXP_FILAMENT) (x : X) s : FW X :=
  set_Tls t TlsSlotForFilament f
    (set_DefaultLock free_lock (set_DefaultFilament (if IsDefault o then f else 0) (set_Ext x s))).

Lemma SetCurrent_enter t f o x s :
  Outside t s -> f <> 0 -> Filaments s !! f = Some o -> FilMainThreadId o = t ->
  CtxReference (Contexts (ExecutionContext o)) (Ext s) = Some (tt, x) ->
  CfixpSetCurrentFilament Contexts DuplicateHandle t f s = Some ((S_OK, 0), entered t f o x s).
Proof.
  intros [Hc Hd Hl] Hf Ho Hm Hx. unfold CfixpSetCurrentFilament, CfixsSetCurrentFilament.
  rewrite (bind_eq _ _ _ _ _ (GetOwnFilament_eq _ _ _ _ Hc)). simpl. rewrite bind_ret.
  rewrite (bind_eq _ _ _ _ _ (RegisterIfChild_main DuplicateHandle t f o s Ho Hm)).
  change (FAILED S_OK) with false. cbv iota. unfold UpdateDefault.
  destruct (Z.eqb_spec f 0) as [|_]; [done|]. cbn [negb].
  rewrite bind_assoc, (bind_eq _ _ _ _ _ (load_eq _ _ _ Ho)), bind_assoc.
  rewrite (bind_eq _ _ _ _ _ (ext_eq _ _ _ _ Hx)). set (s1 := set_Ext x s).
  assert (DefaultLock s1 = free_lock) as Hl1 by done.
  unfold entered, IsDefault, CfixsSetTlsFilamant. destruct (FlagOn _ _); cbn [negb].
  - rewrite Hm, Z.eqb_refl. pose proof (CfixsSetDefaultFilament_eq t f s1 Hl1) as E.
    change (DefaultFilament s1) with (DefaultFilament s) in E. rewrite Hd in E. simpl in E.
    rewrite (bind_eq _ _ _ _ _ E). change (FAILED S_OK) with false. cbv iota.
    rewrite bind_modify. by rewrite Z.lor_0_r.
  - pose proof (CfixsSetDefaultFilament_eq t 0 s1 Hl1) as E. rewrite andb_false_r in E.
    unfold VERIFY. rewrite !bind_assoc, (bind_eq _ _ _ _ _ E), !bind_ret.
    change (FAILED S_OK) with false. cbv iota. rewrite bind_modify. by rewrite Z.lor_0_r.
Qed.

(** Leaving. *)
Definition left_ (t : Z) (x : X) s : FW X :=
  set_Tls t TlsSlotForFilament 0
    (set_DefaultLock free_lock (set_DefaultFilament 0 (set_Ext x s))).

Lemma set_Default_id s x :
  DefaultFilament s = 0 -> DefaultLock s = free_lock ->
  set_Ext x s = set_DefaultLock free_lock (set_DefaultFilament 0 (set_Ext x s)).
Proof. intros Hd Hl. destruct s; simpl in *; subst. done. Qed.

Lemma SetCurrent_leave t f o x s :
  Inside t f o s ->
  CtxDereference (Contexts (ExecutionContext o)) (Ext s) = Some (tt, x) ->
  CfixpSetCurrentFilament Contexts DuplicateHandle t 0 s = Some ((S_OK, f), left_ t x s).
Proof.
  intros [Hc Hf Ho Hm Hd Hl] Hx. unfold CfixpSetCurrentFilament, CfixsSetCurrentFilament.
  rewrite (bind_eq _ _ _ _ _ (GetOwnFilament_eq _ _ _ _ Hc)).
  destruct (Z.eqb_spec f 0) as [|Hf']; [done|]. cbn [fst snd].
  destruct (Z.eqb_spec f 0) as [|_]; [done|]. cbn [negb].
  rewrite bind_assoc, (bind_eq _ _ _ _ _ (load_eq _ _ _ Ho)), (bind_eq _ _ _ _ _ (ext_eq _ _ _ _ Hx)).
  unfold RegisterIfChild. cbn [Z.eqb]. rewrite bind_ret. change (FAILED S_OK) with false. cbv iota.
  unfold UpdateDefault. cbn [Z.eqb negb]. destruct (Z.eqb_spec f 0) as [|_]; [done|]. cbn [negb].
  set (s1 := set_Ext x s). assert (Filaments s1 !! f = Some o) as Ho1 by done.
  rewrite bind_assoc, (bind_eq _ _ _ _ _ (load_eq _ _ _ Ho1)), Hm, Z.eqb_refl. cbn [andb].
  unfold left_, CfixsSetTlsFilamant. unfold IsDefault in Hd.
  destruct (FlagOn _ _); cbn [when_].
  - assert (DefaultLock s1 = free_lock) as Hl1 by done.
    pose proof (CfixsSetDefaultFilament_eq t 0 s1 Hl1) as E. rewrite andb_false_r in E.
    unfold VERIFY. rewrite !bind_assoc, (bind_eq _ _ _ _ _ E), !bind_ret.
    change (FAILED S_OK) with false. cbv iota. rewrite bind_modify. by rewrite Z.lor_0_r.
  - rewrite bind_assoc, !bind_ret. change (FAILED S_OK) with false. cbv iota.
    rewrite bind_modify, Z.lor_0_r. unfold s1. by rewrite (set_Default_id s x Hd Hl).
Qed.

(** What remains of a test routine: the thread is out, the filament is gone, its
    handles are closed, and its storage has been saved. *)
Record TornDown (t f : Z) (o : CFIXP_FILAMENT) s s' : Prop := {
  td_outside : Outside t s';
  td_filaments : Filaments s' = delete f (Filaments s);
  td_handles : Handles s' = Handles s ∖ list_to_set (Threads o);
  td_default : Tls s' t DefaultStorageSlot = DefaultSlot o;
  td_cc : Tls s' t ReservedForCcStorageSlot = CcSlot o }.

(** The surroundings answer. *)
Hypothesis Reference_ok : forall c x, exists x', CtxReference (Contexts c) x = Some (tt, x').
Hypothesis Dereference_ok : forall c x, exists x', CtxDereference (Contexts c) x = Some (tt, x').
Hypothesis Wait_ok : forall l n x, exists b x', WaitForThreads l n x = Some (b, x').
Hypothesis Report_ok : forall c t e x, exists d x', ReportEvent (Contexts c) t e x = Some (d, x').
Hypothesis Unhandled_ok : forall c t e x, exists x', OnUnhandledException (Contexts c) t e x = Some (tt, x').
Hypothesis Capture_ok : forall x, exists r x', CfixpCaptureStackTrace x = Some (r, x').

Lemma Inside_set_Ext t f o x s : Inside t f o s -> Inside t f o (set_Ext x s).
Proof. by intros []. Qed.

Lemma Join_eq t f o s :
  Inside t f o s ->
  exists Hr x, CfixpJoinChildThreadsFilament WaitForThreads f INFINITE s = Some (Hr, set_Ext x s).
Proof.
  intros Hi. unfold CfixpJoinChildThreadsFilament.
  rewrite (bind_eq _ _ _ _ _ (load_eq _ _ _ (in_filament _ _ _ _ Hi))).
  destruct (0 <? _).
  - destruct (Wait_ok (Threads o) INFINITE (Ext s)) as (b & x & Hx).
    rewrite (bind_eq _ _ _ _ _ (ext_eq _ _ _ _ Hx)). by exists (if b then CFIX_E_FILAMENT_JOIN_TIMEOUT else S_OK), x.
  - exists S_OK, (Ext s). by destruct s.
Qed.

Lemma FinishRoutine_eq t f o ran abort s :
  Inside t f o s ->
  exists s', FinishRoutine Contexts DuplicateHandle WaitForThreads t f 0 ran abort s =
    Some (Returned (if abort then CFIX_E_TESTRUN_ABORTED
                    else if ran then S_OK else CFIX_E_TEST_ROUTINE_FAILED), s') /\
    TornDown t f o s s'.
Proof.
  intros Hi. unfold FinishRoutine. destruct (Join_eq _ _ _ _ Hi) as (Hr & x & Hj).
  rewrite (bind_eq _ _ _ _ _ Hj). set (s1 := set_Ext x s).
  assert (Inside t f o s1) as Hi1 by by apply Inside_set_Ext.
  destruct (Dereference_ok (ExecutionContext o) (Ext s1)) as [x' Hx'].
  unfold VERIFY. rewrite bind_assoc, (bind_eq _ _ _ _ _ (SetCurrent_leave _ _ _ _ _ Hi1 Hx')), bind_ret.
  set (s2 := left_ t x' s1). destruct Hi as [Hc Hf Ho Hm Hd Hl].
  assert (Filaments s2 !! f = Some o) as Ho2 by done.
  unfold CfixpDestroyFilament, LeaveFrame.
  rewrite bind_assoc, (bind_eq _ _ _ _ _ (load_eq _ _ _ Ho2)).
  rewrite bind_assoc, (bind_eq _ _ _ _ _ (CloseHandles_eq _ _)), Hm, Z.eqb_refl. cbn [when_].
  rewrite bind_assoc, !bind_modify. eexists. split; [reflexivity|].
  assert (forall a b : SLOT, a <> b -> ~ (t = t /\ a = b)) as Hne by tauto.
  split; [split; [split; [|reflexivity]|reflexivity|reflexivity]|reflexivity|reflexivity|..];
    cbn -[decide]; repeat (rewrite decide_False by (apply Hne; discriminate));
    rewrite decide_True by done; reflexivity.
Qed.

Variable Code : Z -> Z -> ST (FW X) (OUT unit).
Local Abbreviation RunTestRoutine t f :=
  (CfixsRunTestRoutine Contexts DuplicateHandle WaitForThreads CfixpCaptureStackTrace Code t f).

(** The filament a routine starts with. *)
Definition StartFilament (t c Flags : Z) (Restore : bool) s : CFIXP_FILAMENT :=
  MkFilament c t [] (FilamentFlags Flags)
    (if Restore then Tls s t DefaultStorageSlot else 0)
    (if Restore then Tls s t ReservedForCcStorageSlot else 0).

Definition Start (t f c Flags : Z) (Restore : bool) (x : X) s : FW X :=
  let o := StartFilament t c Flags Restore s in
  entered t f o x (set_Filaments (<[f := o]> (Filaments s)) s).

Lemma Start_inside t f c Flags Restore x s :
  f <> 0 -> Z.even f = true -> Inside t f (StartFilament t c Flags Restore s) (Start t f c Flags Restore x s).
Proof.
  intros Hf He. split; try done.
  - split; [|done]. unfold Start, entered. by rewrite Tls_set_same, Z.lor_0_r.
  - simpl. apply lookup_insert_eq.
Qed.

(** The run up to the guarded block. *)
Lemma RunTestRoutine_start t f r c Flags Restore x s :
  Outside t s -> r <> 0 -> Flags <= 3 -> f <> 0 ->
  CtxReference (Contexts c) (Ext s) = Some (tt, x) ->
  RunTestRoutine t f r c Flags Restore s =
    (out <- Code r t ;;
     match out with
     | Returned _ => FinishRoutine Contexts DuplicateHandle WaitForThreads t f 0 true false
     | Raised e =>
         d <- CfixpExceptionFilter Contexts CfixpCaptureStackTrace t e f ;;
         match fst d with
         | EXCEPTION_EXECUTE_HANDLER =>
             FinishRoutine Contexts DuplicateHandle WaitForThreads t f 0 false (default false (snd d))
         | EXCEPTION_CONTINUE_SEARCH => ret (Raised e)
         end
     | Exited e => ret (Exited e)
     end) (Start t f c Flags Restore x s).
Proof.
  intros Ho Hr HF Hf Hx. unfold CfixsRunTestRoutine.
  destruct (Z.eqb_spec r 0) as [|_]; [done|].
  rewrite bind_assert by (apply Z.leb_le; exact HF).
  assert (CfixpInitializeFilament t c t (FilamentFlags Flags) Restore f s =
    Some (tt, set_Filaments (<[f := StartFilament t c Flags Restore s]> (Filaments s)) s)) as Hi.
  { unfold CfixpInitializeFilament, StartFilament, store. rewrite bind_modify, Z.eqb_refl, andb_true_r.
    destruct Restore; [|done]. cbn [when_]. rewrite !bind_gets.
    unfold modify, set_Filaments. cbn. by rewrite insert_insert_eq. }
  rewrite (bind_eq _ _ _ _ _ Hi). set (s1 := set_Filaments _ s).
  assert (Outside t s1) as Ho1 by (destruct Ho; by split).
  rewrite (bind_eq _ _ _ _ _ (SetCurrent_enter t f (StartFilament t c Flags Restore s) x s1 Ho1 Hf
             (lookup_insert_eq _ _ _) eq_refl Hx)).
  done.
Qed.

(** The exceptions that a routine leaves by are handled, but for two. *)
Definition FilterDecision (e : Z) (Disp : CFIX_REPORT_DISPOSITION) : FILTER * option bool :=
  if (EXCEPTION_TESTCASE_INCONCLUSIVE =? e) || (EXCEPTION_TESTCASE_FAILED =? e)
  then (EXCEPTION_EXECUTE_HANDLER, Some false)
  else if EXCEPTION_TESTCASE_FAILED_ABORT =? e then (EXCEPTION_EXECUTE_HANDLER, Some true)
  else if (EXCEPTION_BREAKPOINT =? e) || (EXCEPTION_STACK_OVERFLOW =? e)
  then (EXCEPTION_CONTINUE_SEARCH, None)
  else (if bool_decide (Disp = CfixBreak) then EXCEPTION_CONTINUE_SEARCH else EXCEPTION_EXECUTE_HANDLER,
        Some (bool_decide (Disp = CfixAbort))).

(** [Disp] is what the context answered to the report of the exception [e]. *)
Definition Answered (t c e : Z) (Disp : CFIX_REPORT_DISPOSITION) : Prop :=
  exists x Frames x', ReportEvent (Contexts c) (MkThreadId t t)
    (MkEvent (UncaughtException e) Frames) x = Some (Disp, x').

Lemma ExceptionFilter_eq t f o e s :
  Inside t f o s ->
  exists Disp x, CfixpExceptionFilter Contexts CfixpCaptureStackTrace t e f s =
    Some (FilterDecision e Disp, set_Ext x s) /\ Answered t (ExecutionContext o) e Disp.
Proof.
  intros [Hc Hf Ho Hm Hd Hl].
  destruct (Unhandled_ok (ExecutionContext o) (MkThreadId t t) e (Ext s)) as [x1 H1].
  destruct (Capture_ok x1) as (tr & x2 & H2).
  set (Traced := FlagOn (FilFlags o) CFIXP_FILAMENT_FLAG_CAPTURE_STACK_TRACES).
  set (Frames := if Traced then if FAILED (fst tr) then [] else snd tr else []).
  set (xr := if Traced then x2 else x1).
  destruct (Report_ok (ExecutionContext o) (MkThreadId t t) (MkEvent (UncaughtException e) Frames) xr)
    as (Disp & x3 & H3).
  unfold CfixpExceptionFilter, FilterDecision.
  rewrite (bind_eq _ _ _ _ _ (load_eq _ _ _ Ho)). lazy zeta.
  unfold CfixpInitializeThreadId. rewrite Hm.
  assert (forall q : FILTER * option bool, ret q s = Some (q, set_Ext (Ext s) s)) as Hret
    by by destruct s.
  exists Disp.
  destruct (_ || _); [exists (Ext s); split; [apply Hret|by exists xr, Frames, x3]|].
  destruct (_ =? e); [exists (Ext s); split; [apply Hret|by exists xr, Frames, x3]|].
  destruct (EXCEPTION_BREAKPOINT =? e); [exists (Ext s); split; [apply Hret|by exists xr, Frames, x3]|].
  destruct (EXCEPTION_STACK_OVERFLOW =? e); [exists (Ext s); split; [apply Hret|by exists xr, Frames, x3]|].
  exists x3. split; [|by exists xr, Frames, x3].
  rewrite (bind_eq _ _ _ _ _ (ext_eq _ _ _ _ H1)).
  rewrite (bind_eq _ _ _ Frames (set_Ext xr s)).
  2:{ rewrite (CaptureTrace_eq CfixpCaptureStackTrace o tr x2 (set_Ext x1 s) H2). fold Traced.
      unfold Frames, xr. by destruct Traced. }
  rewrite (bind_eq _ _ _ _ _ (ext_eq _ _ _ (set_Ext xr s) H3)). done.
Qed.

(** The result of a test routine, given how its code ended and the disposition for
    an unhandled exception. *)
Definition RoutineResult (out : OUT unit) (Disp : CFIX_REPORT_DISPOSITION) : OUT Z :=
  match out with
  | Returned _ => Returned S_OK
  | Exited e => Exited e
  | Raised e =>
      if (e =? EXCEPTION_TESTCASE_INCONCLUSIVE) || (e =? EXCEPTION_TESTCASE_FAILED)
      then Returned CFIX_E_TEST_ROUTINE_FAILED
      else if e =? EXCEPTION_TESTCASE_FAILED_ABORT then Returned CFIX_E_TESTRUN_ABORTED
      else if (e =? EXCEPTION_BREAKPOINT) || (e =? EXCEPTION_STACK_OVERFLOW) then Raised e
      else match Disp with
           | CfixAbort => Returned CFIX_E_TESTRUN_ABORTED
           | CfixBreak => Raised e
           | _ => Returned CFIX_E_TEST_ROUTINE_FAILED
           end
  end.

(** C3. A test routine runs under a filament of its own, and its result is decided
    by how it ends: success if it returns, failure if it leaves by the exceptions
    for failed and inconclusive test cases, an aborted run if by the one that
    asks for it; breakpoints and stack overflows pass; any other exception is
    reported to the context, whose answer decides.  Whenever the call returns,
    its filament is gone, the thread and the default filament are as before, the
    handles of the child threads are closed, and the storage is saved. *)
Theorem test_routine_result t f r c Flags Restore x s out s2 o :
  Outside t s -> r <> 0 -> Flags <= 3 -> f <> 0 ->
  CtxReference (Contexts c) (Ext s) = Some (tt, x) ->
  Code r t (Start t f c Flags Restore x s) = Some (out, s2) ->
  Inside t f o s2 -> ExecutionContext o = c ->
  exists Disp s',
    RunTestRoutine t f r c Flags Restore s = Some (RoutineResult out Disp, s') /\
    match out with Raised e => Answered t c e Disp | _ => True end /\
    match RoutineResult out Disp with Returned _ => TornDown t f o s2 s' | _ => True end.
Proof.
  intros Ho Hr HF Hf Hx Hcode Hin <-.
  rewrite (RunTestRoutine_start _ _ _ _ _ _ _ _ Ho Hr HF Hf Hx), (bind_eq _ _ _ _ _ Hcode).
  destruct out as [u|e|e].
  - destruct (FinishRoutine_eq t f o true false s2 Hin) as (s' & H & Ht).
    exists CfixContinue, s'. split; [exact H|]. by split.
  - destruct (ExceptionFilter_eq t f o e s2 Hin) as (Disp & x' & Hfil & Ha).
    rewrite (bind_eq _ _ _ _ _ Hfil). set (s3 := set_Ext x' s2).
    assert (Inside t f o s3) as Hin3 by by apply Inside_set_Ext.
    exists Disp. unfold FilterDecision, RoutineResult.
    rewrite (Z.eqb_sym e EXCEPTION_TESTCASE_INCONCLUSIVE), (Z.eqb_sym e EXCEPTION_TESTCASE_FAILED),
      (Z.eqb_sym e EXCEPTION_TESTCASE_FAILED_ABORT), (Z.eqb_sym e EXCEPTION_BREAKPOINT),
      (Z.eqb_sym e EXCEPTION_STACK_OVERFLOW).
    assert (forall abort, exists s', FinishRoutine Contexts DuplicateHandle WaitForThreads t f 0 false abort s3 =
      Some (Returned (if abort then CFIX_E_TESTRUN_ABORTED else CFIX_E_TEST_ROUTINE_FAILED), s') /\
      TornDown t f o s2 s') as Hfin.
    { intros abort. destruct (FinishRoutine_eq t f o false abort s3 Hin3) as (s' & H & []).
      exists s'. split; [exact H|]. by split. }
    destruct (_ || _); [destruct (Hfin false) as (s' & H & Ht); by exists s'|].
    destruct (EXCEPTION_TESTCASE_FAILED_ABORT =? e);
      [destruct (Hfin true) as (s' & H & Ht); by exists s'|].
    destruct (_ || _); [by exists s3|].
    destruct Disp; cbn [bool_decide fst snd default].
    + destruct (Hfin false) as (s' & H & Ht); by exists s'.
    + by exists s3.
    + destruct (Hfin false) as (s' & H & Ht); by exists s'.
    + destruct (Hfin true) as (s' & H & Ht); by exists s'.
  - exists CfixContinue, s2. done.
Qed.

(** ** Storage across the routines of a fixture *)
Definition StorageSlot (Tag : Z) : SLOT :=
  if Tag =? CFIX_TAG_RESERVED_FOR_CC then ReservedForCcStorageSlot else DefaultStorageSlot.
Definition ValidTag (Tag : Z) : Prop := Tag = 0 \/ Tag = CFIX_TAG_RESERVED_FOR_CC.
Definition SlotOf (Tag : Z) (o : CFIXP_FILAMENT) : Z :=
  if Tag =? CFIX_TAG_RESERVED_FOR_CC then CcSlot o else DefaultSlot o.
Definition set_Slot (Tag v : Z) (o : CFIXP_FILAMENT) : CFIXP_FILAMENT :=
  if Tag =? CFIX_TAG_RESERVED_FOR_CC then set_CcSlot v o else set_DefaultSlot v o.

Lemma SlotOf_set Tag v o : SlotOf Tag (set_Slot Tag v o) = v.
Proof. unfold SlotOf, set_Slot. by destruct (_ =? _). Qed.

Lemma TornDown_storage t f o s s' Tag :
  TornDown t f o s s' -> Tls s' t (StorageSlot Tag) = SlotOf Tag o.
Proof. intros []. unfold StorageSlot, SlotOf. by destruct (_ =? _). Qed.

Lemma StartFilament_storage t c Flags Restore s Tag :
  SlotOf Tag (StartFilament t c Flags Restore s) = if Restore then Tls s t (StorageSlot Tag) else 0.
Proof. unfold SlotOf, StartFilament, StorageSlot. by destruct (_ =? _). Qed.

Lemma CfixPeSetValue_eq t f o Tag v s :
  Inside t f o s -> ValidTag Tag ->
  exists s', CfixPeSetValue Contexts DuplicateHandle t Tag v s = Some (tt, s') /\
    Inside t f (set_Slot Tag v o) s'.
Proof.
  intros [Hc Hf Ho Hm Hd Hl] HT. unfold CfixPeSetValue.
  rewrite (bind_eq _ _ _ _ _ (CfixpGetCurrentFilament_own Contexts DuplicateHandle t f false s Hc Hf)).
  change (SUCCEEDED (fst (fst (S_OK, f, false)))) with true. cbv iota. cbn [fst snd].
  rewrite (bind_eq _ _ _ _ _ (load_eq _ _ _ Ho)). unfold set_Slot, store.
  destruct (Z.eqb_spec Tag CFIX_TAG_RESERVED_FOR_CC) as [E|E].
  - eexists. split; [reflexivity|]. split; [done|done|apply lookup_insert_eq|done|done|done].
  - destruct (Z.eqb_spec Tag 0); [|destruct HT; done].
    eexists. split; [reflexivity|]. split; [done|done|apply lookup_insert_eq|done|done|done].
Qed.

Lemma CfixPeGetValue_eq t f o Tag s :
  Inside t f o s -> ValidTag Tag ->
  CfixPeGetValue Contexts DuplicateHandle t Tag s = Some (SlotOf Tag o, s).
Proof.
  intros [Hc Hf Ho Hm Hd Hl] HT. unfold CfixPeGetValue.
  rewrite (bind_eq _ _ _ _ _ (CfixpGetCurrentFilament_own Contexts DuplicateHandle t f false s Hc Hf)).
  change (SUCCEEDED (fst (fst (S_OK, f, false)))) with true. cbv iota. cbn [fst snd].
  rewrite (bind_eq _ _ _ _ _ (load_eq _ _ _ Ho)). unfold SlotOf.
  destruct (Z.eqb_spec Tag CFIX_TAG_RESERVED_FOR_CC) as [E|E]; [done|].
  destruct (Z.eqb_spec Tag 0); [done|destruct HT; done].
Qed.

(** Three pieces of test code: one stores a value, one fails if it finds it, one
    does nothing. *)
Section storage.
Variables (t f c Flags Tag v : Z) (rset rget rnop : Z).
Hypothesis Hf : f <> 0.
Hypothesis He : Z.even f = true.
Hypothesis HF : Flags <= 3.
Hypothesis HT : ValidTag Tag.
Hypothesis Hr : rset <> 0 /\ rget <> 0 /\ rnop <> 0.
Hypothesis Hset : forall s, Code rset t s = (CfixPeSetValue Contexts DuplicateHandle t Tag v ;;; retO tt) s.
Hypothesis Hget : forall s, Code rget t s =
  (w <- CfixPeGetValue Contexts DuplicateHandle t Tag ;;
   if w =? v then RaiseException EXCEPTION_TESTCASE_FAILED else retO tt) s.
Hypothesis Hnop : forall s, Code rnop t s = retO tt s.

Lemma run_code r Restore s out o2 :
  Outside t s -> r <> 0 ->
  (forall s1, Inside t f (StartFilament t c Flags Restore s) s1 ->
     exists s2, Code r t s1 = Some (out, s2) /\ Inside t f o2 s2) ->
  out = Returned tt \/ out = Raised EXCEPTION_TESTCASE_FAILED ->
  exists s', RunTestRoutine t f r c Flags Restore s =
    Some (Returned (match out with Returned _ => S_OK | _ => CFIX_E_TEST_ROUTINE_FAILED end), s') /\
    Outside t s' /\ Tls s' t (StorageSlot Tag) = SlotOf Tag o2.
Proof.
  intros Ho Hr0 Hcode Hout. destruct (Reference_ok c (Ext s)) as [x Hx].
  rewrite (RunTestRoutine_start _ _ _ _ _ _ _ _ Ho Hr0 HF Hf Hx).
  destruct (Hcode _ (Start_inside t f c Flags Restore x s Hf He)) as (s2 & H2 & Hin).
  rewrite (bind_eq _ _ _ _ _ H2). destruct Hout as [-> | ->].
  - destruct (FinishRoutine_eq t f o2 true false s2 Hin) as (s' & H & Ht).
    exists s'. split; [exact H|]. split; [apply Ht|by eapply TornDown_storage].
  - destruct (ExceptionFilter_eq t f o2 EXCEPTION_TESTCASE_FAILED s2 Hin) as (Disp & x' & Hfil & _).
    rewrite (bind_eq _ _ _ _ _ Hfil).
    destruct (FinishRoutine_eq t f o2 false false (set_Ext x' s2)) as (s' & H & Ht);
      [by apply Inside_set_Ext|].
    exists s'. split; [exact H|]. split; [apply Ht|by eapply TornDown_storage].
Qed.

Lemma run_set Restore s :
  Outside t s -> exists s', RunTestRoutine t f rset c Flags Restore s = Some (Returned S_OK, s') /\
    Outside t s' /\ Tls s' t (StorageSlot Tag) = v.
Proof.
  intros Ho.
  destruct (run_code rset Restore s (Returned tt) (set_Slot Tag v (StartFilament t c Flags Restore s)))
    as (s' & H & Ho' & Hs'); [done|tauto| |by left|].
  2:{ exists s'. by rewrite SlotOf_set in Hs'. }
  intros s1 Hin. destruct (CfixPeSetValue_eq _ _ _ Tag v _ Hin HT) as (s2 & H2 & Hin2).
  exists s2. rewrite Hset, (bind_eq _ _ _ _ _ H2). done.
Qed.

Lemma run_get (Restore : bool) s :
  Outside t s ->
  let w := if Restore then Tls s t (StorageSlot Tag) else 0 in
  exists s', RunTestRoutine t f rget c Flags Restore s =
      Some (Returned (if w =? v then CFIX_E_TEST_ROUTINE_FAILED else S_OK), s') /\
    Outside t s' /\ Tls s' t (StorageSlot Tag) = w.
Proof.
  intros Ho w. unfold w at 2. rewrite <-(StartFilament_storage t c Flags Restore s Tag).
  destruct (run_code rget Restore s
    (if w =? v then Raised EXCEPTION_TESTCASE_FAILED else Returned tt : OUT unit)
    (StartFilament t c Flags Restore s)) as (s' & H & Hs'); [done|tauto| |by destruct (w =? v); auto|].
  - intros s1 Hin. exists s1. split; [|done].
    rewrite Hget, (bind_eq _ _ _ _ _ (CfixPeGetValue_eq _ _ _ _ _ Hin HT)), StartFilament_storage.
    fold w. by destruct (w =? v).
  - exists s'. split; [|done]. rewrite H. by destruct (w =? v).
Qed.

Lemma run_nop (Restore : bool) s :
  Outside t s ->
  exists s', RunTestRoutine t f rnop c Flags Restore s = Some (Returned S_OK, s') /\
    Outside t s' /\ Tls s' t (StorageSlot Tag) = if Restore then Tls s t (StorageSlot Tag) else 0.
Proof.
  intros Ho. rewrite <-(StartFilament_storage t c Flags Restore s Tag).
  apply (run_code rnop Restore s (Returned tt)); [done|tauto| |by left].
  intros s1 Hin. exists s1. by rewrite Hnop.
Qed.

Local Abbreviation Setup_ := (CfixsRunSetupTestModule Contexts DuplicateHandle WaitForThreads CfixpCaptureStackTrace Code t f).
Local Abbreviation Before_ := (CfixsRunBeforeTestModule Contexts DuplicateHandle WaitForThreads CfixpCaptureStackTrace Code t f).
Local Abbreviation Test_ := (CfixsRunTestCaseTestModule Contexts DuplicateHandle WaitForThreads CfixpCaptureStackTrace Code t f).
Local Abbreviation After_ := (CfixsRunAfterTestModule Contexts DuplicateHandle WaitForThreads CfixpCaptureStackTrace Code t f).
Local Abbreviation Teardown_ := (CfixsRunTeardownTestModule Contexts DuplicateHandle WaitForThreads CfixpCaptureStackTrace Code t f).

Hypothesis Hcontext : ValidContext Contexts c = true.

(** The methods, once their arguments are valid. *)
Lemma bindO_Returned {A B} (m : ST (FW X) (OUT A)) (k : A -> ST (FW X) (OUT B)) a s s' :
  m s = Some (Returned a, s') -> bindO m k s = k a s'.
Proof. intros H. unfold bindO. by rewrite (bind_eq _ _ _ _ _ H). Qed.

Lemma RunOptional_eq r Restore Failed res s s' :
  r <> 0 -> RunTestRoutine t f r c Flags Restore s = Some (Returned res, s') ->
  RunOptional Contexts DuplicateHandle WaitForThreads CfixpCaptureStackTrace Code t f r c Flags Restore Failed s =
    Some (Returned (if CFIX_E_TEST_ROUTINE_FAILED =? res then Failed else res), s').
Proof.
  intros Hr0 H. unfold RunOptional. destruct (Z.eqb_spec r 0); [done|]. cbn [negb].
  by rewrite (bindO_Returned _ _ _ _ _ H).
Qed.

(** A value that a before routine stores is found by the test routine and by the
    after routine, and not by the teardown routine. *)
Theorem storage_before_to_after fx tc s :
  Outside t s -> v <> 0 ->
  BeforeRoutine fx = rset -> TcRoutine tc = rget -> AfterRoutine fx = rget -> TeardownRoutine fx = rget ->
  exists s', (b <~ Before_ (Some fx) c Flags ;; x <~ Test_ (Some tc) c Flags ;;
              a <~ After_ (Some fx) c Flags ;; d <~ Teardown_ (Some fx) c Flags ;;
              retO (b, x, a, d)) s =
    Some (Returned (S_OK, CFIX_E_TEST_ROUTINE_FAILED, CFIX_E_AFTER_ROUTINE_FAILED, S_OK), s').
Proof.
  intros Ho Hv Eb Et Ea Ed. destruct Hr as (Hr1 & Hr2 & Hr3).
  unfold CfixsRunBeforeTestModule, CfixsRunTestCaseTestModule, CfixsRunAfterTestModule,
    CfixsRunTeardownTestModule.
  rewrite Hcontext, Eb, Et, Ea, Ed. cbn [negb].
  destruct (run_set false s Ho) as (s1 & H1 & O1 & T1).
  rewrite (bindO_Returned _ _ _ _ _ (RunOptional_eq _ _ _ _ _ _ Hr1 H1)).
  destruct (run_get true s1 O1) as (s2 & H2 & O2 & T2). cbv iota in H2, T2. rewrite T1 in T2.
  rewrite T1, Z.eqb_refl in H2. rewrite (bindO_Returned _ _ _ _ _ H2).
  destruct (run_get true s2 O2) as (s3 & H3 & O3 & T3). cbv iota in H3. rewrite T2, Z.eqb_refl in H3.
  rewrite (bindO_Returned _ _ _ _ _ (RunOptional_eq _ _ _ _ _ _ Hr2 H3)).
  destruct (run_get false s3 O3) as (s4 & H4 & O4 & T4). cbv iota in H4.
  destruct (Z.eqb_spec 0 v); [by subst v|].
  rewrite (bindO_Returned _ _ _ _ _ (RunOptional_eq _ _ _ _ _ _ Hr2 H4)).
  by exists s4.
Qed.

(** A value that a setup routine stores is hidden from the test routine only if the
    fixture has a before routine (even one that does nothing); without one, the
    test routine finds it. *)
Theorem storage_setup_leaks fx tc s :
  Outside t s -> v <> 0 ->
  SetupRoutine fx = rset -> TcRoutine tc = rget -> BeforeRoutine fx = 0 \/ BeforeRoutine fx = rnop ->
  exists s', (u <~ Setup_ (Some fx) c Flags ;; b <~ Before_ (Some fx) c Flags ;;
              x <~ Test_ (Some tc) c Flags ;; retO (u, b, x)) s =
    Some (Returned (S_OK, S_OK,
      if BeforeRoutine fx =? 0 then CFIX_E_TEST_ROUTINE_FAILED else S_OK), s').
Proof.
  intros Ho Hv Es Et Eb. destruct Hr as (Hr1 & Hr2 & Hr3).
  unfold CfixsRunBeforeTestModule, CfixsRunTestCaseTestModule, CfixsRunSetupTestModule.
  rewrite Hcontext, Es, Et. cbn [negb].
  destruct (run_set false s Ho) as (s1 & H1 & O1 & T1).
  rewrite (bindO_Returned _ _ _ _ _ (RunOptional_eq _ _ _ _ _ _ Hr1 H1)).
  change (if CFIX_E_TEST_ROUTINE_FAILED =? S_OK then CFIX_E_SETUP_ROUTINE_FAILED else S_OK) with S_OK.
  destruct Eb as [-> | ->].
  - unfold RunOptional at 1. cbn [Z.eqb negb].
    rewrite (bindO_Returned (retO S_OK) _ S_OK s1 s1) by done.
    destruct (run_get true s1 O1) as (s2 & H2 & O2 & T2). cbv iota in H2.
    rewrite T1, Z.eqb_refl in H2. rewrite (bindO_Returned _ _ _ _ _ H2). by exists s2.
  - destruct (run_nop false s1 O1) as (s2 & H2 & O2 & T2). cbv iota in T2.
    rewrite (bindO_Returned _ _ _ _ _ (RunOptional_eq _ _ _ _ _ _ Hr3 H2)).
    destruct (run_get true s2 O2) as (s3 & H3 & O3 & T3). cbv iota in H3.
    rewrite T2 in H3. destruct (Z.eqb_spec 0 v); [by subst v|].
    rewrite (bindO_Returned _ _ _ _ _ H3). destruct (Z.eqb_spec rnop 0); [done|]. by exists s3.
Qed.
End storage.
End theory.

(** ** A concrete instance: three routines, on contexts that record *)
Module Demo.
Import RptStubs.Demo.
Definition Wait (hs : list Z) (n : Z) : ST World bool := ret false.
Definition Code (r t : Z) : ST (FW World) (OUT unit) :=
  if r =? 1 then CfixPeSetValue Contexts DuplicateHandle t 0 77 ;;; retO tt
  else if r =? 2 then
    w <- CfixPeGetValue Contexts DuplicateHandle t 0 ;;
    if w =? 77 then RaiseException EXCEPTION_TESTCASE_FAILED else retO tt
  else if r =? 3 then retO tt
  else RaiseException 0xC0000005.
Definition idle : FW World := MkFW ∅ (fun _ _ => 0) 0 free_lock ∅ [].

Lemma idle_outside : Outside 1 idle.
Proof. split; [split; reflexivity|reflexivity|reflexivity]. Qed.

Lemma test_routine_result_witness :
  exists s', CfixsRunTestRoutine Contexts DuplicateHandle Wait Capture Code 1 8 4 2 1 false idle =
    Some (Returned CFIX_E_TESTRUN_ABORTED, s').
Proof.
  destruct (test_routine_result Contexts DuplicateHandle Wait Capture) with
    (Code := Code) (t := 1) (f := 8) (r := 4) (c := 2) (Flags := 1) (Restore := false)
    (x := @nil (CFIX_THREAD_ID * CFIX_TESTCASE_EXECUTION_EVENT)) (s := idle)
    (out := @Raised unit 0xC0000005) (s2 := Start 1 8 2 1 false [] idle)
    (o := StartFilament 1 2 1 false idle) as (Disp & s' & H & (x & fr & x' & Hd) & _).
  - intros c x. exists x. reflexivity.
  - intros l n x. exists false, x. reflexivity.
  - intros c t e x. eexists _, _. reflexivity.
  - intros c t e x. exists x. reflexivity.
  - intros x. eexists _, _. reflexivity.
  - exact idle_outside.
  - discriminate.
  - discriminate.
  - discriminate.
  - reflexivity.
  - reflexivity.
  - apply Start_inside; [discriminate|reflexivity].
  - reflexivity.
  - injection Hd as <- _. exists s'. exact H.
Defined.

Definition fixture (setup before : Z) : CFIX_FIXTURE :=
  MkFixture "Demo" setup 2 before 2 1 0 "demo" [MkTestCase "A" 2].

Lemma storage_before_to_after_witness :
  exists s', (b <~ CfixsRunBeforeTestModule Contexts DuplicateHandle Wait Capture Code 1 8 (Some (fixture 0 1)) 2 0 ;;
              x <~ CfixsRunTestCaseTestModule Contexts DuplicateHandle Wait Capture Code 1 8 (Some (MkTestCase "A" 2)) 2 0 ;;
              a <~ CfixsRunAfterTestModule Contexts DuplicateHandle Wait Capture Code 1 8 (Some (fixture 0 1)) 2 0 ;;
              d <~ CfixsRunTeardownTestModule Contexts DuplicateHandle Wait Capture Code 1 8 (Some (fixture 0 1)) 2 0 ;;
              retO (b, x, a, d)) idle =
    Some (Returned (S_OK, CFIX_E_TEST_ROUTINE_FAILED, CFIX_E_AFTER_ROUTINE_FAILED, S_OK), s').
Proof.
  apply (storage_before_to_after Contexts DuplicateHandle Wait Capture) with (Tag := 0) (v := 77)
    (rset := 1) (rget := 2) (rnop := 3).
  - intros c x. exists x. reflexivity.
  - intros c x. exists x. reflexivity.
  - intros l n x. exists false, x. reflexivity.
  - intros c t e x. eexists _, _. reflexivity.
  - intros c t e x. exists x. reflexivity.
  - intros x. eexists _, _. reflexivity.
  - discriminate.
  - reflexivity.
  - discriminate.
  - left. reflexivity.
  - split; [discriminate|]. split; discriminate.
  - intros s. reflexivity.
  - intros s. reflexivity.
  - reflexivity.
  - exact idle_outside.
  - discriminate.
  - reflexivity.
  - reflexivity.
  - reflexivity.
  - reflexivity.
Defined.

Lemma storage_setup_leaks_witness :
  exists s', (u <~ CfixsRunSetupTestModule Contexts DuplicateHandle Wait Capture Code 1 8 (Some (fixture 1 0)) 2 0 ;;
              b <~ CfixsRunBeforeTestModule Contexts DuplicateHandle Wait Capture Code 1 8 (Some (fixture 1 0)) 2 0 ;;
              x <~ CfixsRunTestCaseTestModule Contexts DuplicateHandle Wait Capture Code 1 8 (Some (MkTestCase "A" 2)) 2 0 ;;
              retO (u, b, x)) idle =
    Some (Returned (S_OK, S_OK, CFIX_E_TEST_ROUTINE_FAILED), s').
Proof.
  apply (storage_setup_leaks Contexts DuplicateHandle Wait Capture) with (Tag := 0) (v := 77)
    (rset := 1) (rget := 2) (rnop := 3) (fx := fixture 1 0).
  - intros c x. exists x. reflexivity.
  - intros c x. exists x. reflexivity.
  - intros l n x. exists false, x. reflexivity.
  - intros c t e x. eexists _, _. reflexivity.
  - intros c t e x. exists x. reflexivity.
  - intros x. eexists _, _. reflexivity.
  - discriminate.
  - reflexivity.
  - discriminate.
  - left. reflexivity.
  - split; [discriminate|]. split; discriminate.
  - intros s. reflexivity.
  - intros s. reflexivity.
  - intros s. reflexivity.
  - reflexivity.
  - exact idle_outside.
  - discriminate.
  - reflexivity.
  - reflexivity.
  - left. reflexivity.
Defined.
End Demo.
