(* ===== verification/Thread.v ===== *)
(** * Child threads (cfix/cfix/thread.c)

    A child thread first initialises itself under its parent's filament, while
    the parent waits; then parent and child run on independently.  A call of
    [CfixCreateThread2] therefore performs the initialisation of the child
    itself and leaves the rest of the child's life in the list of running
    children, from which it may continue at any later time. *)
From stdpp Require Import base gmap list strings.
From Stdlib Require Import ZArith Lia.
From S2P Require Import Prelude CfixApi Filament RptStubs.

Definition CFIX_THREAD_FLAG_CRT : Z := 1.
Definition CREATE_SUSPENDED : Z := 4.
Definition ERROR_INVALID_PARAMETER : Z := 87.

(** What the parent hands to the child; the event and the result travel outside. *)
(* src/cfix/cfix/thread.c:31-45 (CFIXP_THREAD_START_PARAMETERS) *)
Record CFIXP_THREAD_START_PARAMETERS := MkParameters {
  StartAddress : Z;
  UserParameter : Z;
  ParentContext : Z;
  ParFilament : Z }.

(** A child past its initialisation: its identity and its copy of the parameters. *)
Record CHILD := MkChild { ChildId : CFIX_THREAD_ID; ChildParameters : CFIXP_THREAD_START_PARAMETERS }.

Record TW (X : Type) := MkTW {
  Fil : FW X;
  Events : gset Z;
  ThreadHandles : gset Z;
  Running : list CHILD }.
Arguments MkTW {X}. Arguments Fil {X}. Arguments Events {X}.
Arguments ThreadHandles {X}. Arguments Running {X}.

Section thread.
Context {X : Type}.
Variable Contexts : Z -> CFIX_EXECUTION_CONTEXT X.
Variable DuplicateHandle : Z -> ST X (Z * Z).
Variable CfixpCaptureStackTrace : ST X (Z * list Z).
(** [CreateEvent]: the event, or 0. *)
Variable CreateEvent : ST X Z.
(** [CreateThread] or [_beginthreadex] with the given creation flags: the handle, or
    0, and the identifier of the new thread. *)
Variable CreateOsThread : bool -> Z -> ST X (Z * Z).
(** The start routine at an address with its parameter, on a thread. *)
Variable StartRoutine : Z -> Z -> Z -> ST (FW X) (OUT Z).

Local Abbreviation M := (ST (TW X)).

Definition set_Fil (f : FW X) (s : TW X) := MkTW f (Events s) (ThreadHandles s) (Running s).
Definition set_Events (e : gset Z) (s : TW X) := MkTW (Fil s) e (ThreadHandles s) (Running s).
Definition set_ThreadHandles (h : gset Z) (s : TW X) := MkTW (Fil s) (Events s) h (Running s).
Definition set_Running (r : list CHILD) (s : TW X) := MkTW (Fil s) (Events s) (ThreadHandles s) r.

Definition fil {A} (m : ST (FW X) A) : M A := fun s =>
  match m (Fil s) with Some (a, f) => Some (a, set_Fil f s) | None => None end.

(** The child thread up to the point where it lets its parent go on: the result of
    the initialisation; after a success the child is running. *)
(* src/cfix/cfix/thread.c:47-96 (CfixsThreadStart) *)
Definition ThreadInit (Child : Z) (Parameters : CFIXP_THREAD_START_PARAMETERS) : M Z :=
  o <- fil (load (ParFilament Parameters)) ;;
  let ThreadId := CfixpInitializeThreadId (FilMainThreadId o) Child in
  InitializationResult <- fil (CfixpSetCurrentFilament Contexts DuplicateHandle Child (ParFilament Parameters)) ;;
  if FAILED (fst InitializationResult) then ret (fst InitializationResult)
  else
    fil (ext (BeforeChildThreadStart (Contexts (ExecutionContext o)) ThreadId (ParentContext Parameters))) ;;;
    modify (fun s => set_Running (Running s ++ [MkChild ThreadId Parameters]) s) ;;;
    ret (fst InitializationResult).

(** The rest of the child: its exit code. The verdict of the exception filter on the
    run as a whole goes to a dummy. *)
(* src/cfix/cfix/thread.c:98-124 (CfixsThreadStart) *)
Definition ThreadBody (c : CHILD) : ST (FW X) (OUT Z) :=
  let Parameters := ChildParameters c in
  let Child := ThreadId (ChildId c) in
  let Finish (ExitCode : Z) : ST (FW X) (OUT Z) :=
    o <- load (ParFilament Parameters) ;;
    ext (AfterChildThreadFinish (Contexts (ExecutionContext o)) (ChildId c) (ParentContext Parameters)) ;;;
    VERIFY (CfixpSetCurrentFilament Contexts DuplicateHandle Child 0) ;;;
    retO ExitCode in
  out <- StartRoutine (StartAddress Parameters) (UserParameter Parameters) Child ;;
  match out with
  | Returned ExitCode => Finish ExitCode
  | Raised e =>
      d <- CfixpExceptionFilter Contexts CfixpCaptureStackTrace Child e (ParFilament Parameters) ;;
      match fst d with
      | EXCEPTION_EXECUTE_HANDLER => Finish CFIX_EXIT_THREAD_ABORTED
      | EXCEPTION_CONTINUE_SEARCH => ret (Raised e)
      end
  | Exited ExitCode =>
      (* the thread detaches: src/cfix/cfix/main.c:63-67 *)
      CfixpCleanupLeakedFilamentForDetachingThread Contexts DuplicateHandle Child ;;;
      ret (Exited ExitCode)
  end.

(** The handle (0: none) and the last error, if the routine sets it.  A thread that
    is created suspended does not initialise itself, and the wait for it has no
    timeout. *)
(* src/cfix/cfix/thread.c:126-242 (CfixCreateThread2) *)
Definition CfixCreateThread2 (Tid StartAddress_ UserParameter_ CreationFlags Flags : Z) : M (Z * option Z) :=
  if CFIX_THREAD_FLAG_CRT <? Flags then ret (0, Some ERROR_INVALID_PARAMETER) else
  g <- fil (CfixpGetCurrentFilament Contexts DuplicateHandle Tid) ;;
  if FAILED (fst (fst g)) then ret (0, Some (fst (fst g))) else
  let Filament := snd (fst g) in
  o <- fil (load Filament) ;;
  let ThreadId := CfixpInitializeThreadId (FilMainThreadId o) Tid in
  InitializationCompleted <- fil (ext CreateEvent) ;;
  if InitializationCompleted =? 0 then ret (0, None) else
  modify (fun s => set_Events ({[InitializationCompleted]} ∪ Events s) s) ;;;
  p <- fil (ext (CreateChildThread (Contexts (ExecutionContext o)) ThreadId)) ;;
  if FAILED (fst p) then ret (0, Some (fst p)) else
  t <- fil (ext (CreateOsThread (FlagOn Flags CFIX_THREAD_FLAG_CRT) CreationFlags)) ;;
  if fst t =? 0 then ret (0, None)
  else
    modify (fun s => set_ThreadHandles ({[fst t]} ∪ ThreadHandles s) s) ;;;
    InitializationResult <-
      (if FlagOn CreationFlags CREATE_SUSPENDED then fault
       else ThreadInit (snd t) (MkParameters StartAddress_ UserParameter_ (snd p) Filament)) ;;
    modify (fun s => set_Events (Events s ∖ {[InitializationCompleted]}) s) ;;;
    if FAILED InitializationResult then
      modify (fun s => set_ThreadHandles (ThreadHandles s ∖ {[fst t]}) s) ;;;
      ret (0, Some InitializationResult)
    else ret (fst t, None).

(* src/cfix/cfix/thread.c:244-261 (CfixCreateThread) *)
Definition CfixCreateThread (Tid StartAddress_ UserParameter_ CreationFlags : Z) : M (Z * option Z) :=
  CfixCreateThread2 Tid StartAddress_ UserParameter_ CreationFlags 0.
End thread.

Section theory.
Context {X : Type}.
Variable Contexts : Z -> CFIX_EXECUTION_CONTEXT X.
Variable DuplicateHandle : Z -> ST X (Z * Z).
Variable CreateEvent : ST X Z.
Variable CreateOsThread : bool -> Z -> ST X (Z * Z).
Implicit Types (s : TW X) (w : FW X).

Lemma fil_eq {A} (m : ST (FW X) A) a w s :
  m (Fil s) = Some (a, w) -> fil m s = Some (a, set_Fil w s).
Proof. unfold fil. by intros ->. Qed.

(** Joining as a child leaves the default filament alone if the filament is it, and
    revokes any other. *)
Lemma UpdateDefault_joins t f o old x w :
  f <> 0 -> Filaments w !! f = Some o -> FilMainThreadId o <> t -> DefaultLock w = free_lock ->
  CtxReference (Contexts (ExecutionContext o)) (Ext w) = Some (tt, x) ->
  exists w', UpdateDefault Contexts t f old w = Some (S_OK, w') /\
    Filaments w' = Filaments w /\ Handles w' = Handles w /\ Tls w' = Tls w /\ Ext w' = x /\
    DefaultLock w' = free_lock.
Proof.
  intros Hf Ho Hm Hl Hx.
  destruct (FlagOn (FilFlags o) CFIXP_FILAMENT_FLAG_DEFAULT_FILAMENT) eqn:E.
  - exists (set_Ext x w). split; [by apply (UpdateDefault_child Contexts t f o old x w)|done].
  - unfold UpdateDefault. destruct (Z.eqb_spec f 0) as [|_]; [done|]. cbn [negb].
    rewrite (bind_eq _ _ _ _ _ (load_eq _ _ _ Ho)), (bind_eq _ _ _ _ _ (ext_eq _ _ _ _ Hx)), E.
    cbn [negb]. pose proof (CfixsSetDefaultFilament_eq t 0 (set_Ext x w) Hl) as H.
    rewrite andb_false_r in H. unfold VERIFY.
    rewrite bind_assoc, (bind_eq _ _ _ _ _ H), bind_ret. eexists. by split.
Qed.

(** A thread without a filament joins one as a child, or is refused. *)
Lemma SetCurrent_joins t f o h x x' w :
  CurrentIs t 0 false w -> f <> 0 -> Z.even f = true -> Filaments w !! f = Some o ->
  FilMainThreadId o <> t -> DefaultLock w = free_lock ->
  DuplicateHandle t (Ext w) = Some ((0, h), x) ->
  CtxReference (Contexts (ExecutionContext o)) x = Some (tt, x') ->
  exists r w', CfixpSetCurrentFilament Contexts DuplicateHandle t f w = Some (r, w') /\
    if Z.of_nat (length (Threads o)) =? CFIX_MAX_THREADS
    then fst r = CFIX_E_TOO_MANY_CHILD_THREADS /\ Filaments w' = Filaments w /\
         CurrentIs t 0 false w' /\ Ext w' = x
    else fst r = S_OK /\ Filaments w' = <[f := set_Threads (Threads o ++ [h]) o]> (Filaments w) /\
         CurrentIs t f false w' /\ Ext w' = x'.
Proof.
  intros Hc Hf He Ho Hm Hl Hd Hx. unfold CfixpSetCurrentFilament, CfixsSetCurrentFilament.
  rewrite (bind_eq _ _ _ _ _ (GetOwnFilament_eq _ _ _ _ Hc)). simpl. rewrite bind_ret.
  pose proof (RegisterIfChild_eq DuplicateHandle t f o h x w Hf Ho Hm Hd) as Hr.
  destruct (Z.of_nat (length (Threads o)) =? CFIX_MAX_THREADS).
  - rewrite (bind_eq _ _ _ _ _ Hr). change (FAILED CFIX_E_TOO_MANY_CHILD_THREADS) with true.
    cbv iota. eexists _, _. split; [reflexivity|]. split_and!; try done.
    split; [apply Tls_set_same|done].
  - rewrite (bind_eq _ _ _ _ _ Hr). change (FAILED S_OK) with false. cbv iota.
    set (o' := set_Threads (Threads o ++ [h]) o). set (w1 := registered _ _ _ _ _).
    assert (Filaments w1 !! f = Some o') as Ho1 by apply lookup_insert_eq.
    destruct (UpdateDefault_joins t f o' 0 x' w1) as (w2 & H2 & EF & EH & ET & EX & EL); try done.
    rewrite (bind_eq _ _ _ _ _ H2). change (FAILED S_OK) with false. cbv iota.
    unfold CfixsSetTlsFilamant. rewrite bind_modify. eexists _, _. split; [reflexivity|].
    cbn [fst]. split_and!; [done|simpl; by rewrite EF|split; [apply Tls_set_same|done]|done].
Qed.

(** The parent: a thread in a live filament, about to create a child. *)
Record Parent (t f : Z) (b : bool) (o : CFIXP_FILAMENT) s : Prop := {
  pa_current : CurrentIs t f b (Fil s);
  pa_some : f <> 0;
  pa_live : Filaments (Fil s) !! f = Some o }.

(** The common part of the calls below: up to the notification of the context. *)
Lemma create_start t f b o s start par fl flags ev x1 hr pc x2 :
  Parent t f b o s -> flags <= CFIX_THREAD_FLAG_CRT ->
  CreateEvent (Ext (Fil s)) = Some (ev, x1) -> ev <> 0 ->
  CreateChildThread (Contexts (ExecutionContext o)) (MkThreadId t (FilMainThreadId o)) x1
    = Some ((hr, pc), x2) ->
  let s2 := set_Fil (set_Ext x2 (Fil s)) (set_Events ({[ev]} ∪ Events s) s) in
  CfixCreateThread2 Contexts DuplicateHandle CreateEvent CreateOsThread t start par fl flags s =
    if FAILED hr then Some ((0, Some hr), s2) else
    (t' <- fil (ext (CreateOsThread (FlagOn flags CFIX_THREAD_FLAG_CRT) fl)) ;;
     if fst t' =? 0 then ret (0, None)
     else
       modify (fun s => set_ThreadHandles ({[fst t']} ∪ ThreadHandles s) s) ;;;
       InitializationResult <-
         (if FlagOn fl CREATE_SUSPENDED then fault
          else ThreadInit Contexts DuplicateHandle (snd t') (MkParameters start par pc f)) ;;
       modify (fun s => set_Events (Events s ∖ {[ev]}) s) ;;;
       if FAILED InitializationResult then
         modify (fun s => set_ThreadHandles (ThreadHandles s ∖ {[fst t']}) s) ;;;
         ret (0, Some InitializationResult)
       else ret (fst t', None)) s2.
Proof.
  intros [Hc Hf Ho] Hfl Hev Hev0 Hcc s2. unfold CfixCreateThread2.
  destruct (Z.ltb_spec CFIX_THREAD_FLAG_CRT flags); [lia|].
  rewrite (bind_eq _ _ _ _ _ (fil_eq _ _ _ s (CfixpGetCurrentFilament_own Contexts DuplicateHandle t f b _ Hc Hf))).
  change (FAILED (fst (fst (S_OK, f, b)))) with false. cbv iota. cbn [fst snd].
  assert (Filaments (Fil (set_Fil (Fil s) s)) !! f = Some o) as Ho1 by done.
  rewrite (bind_eq _ _ _ _ _ (fil_eq _ _ _ (set_Fil (Fil s) s) (load_eq _ _ _ Ho1))).
  lazy zeta.
  rewrite (bind_eq _ _ _ _ _ (fil_eq _ _ _ (set_Fil (Fil s) s) (ext_eq _ _ _ (Fil s) Hev))).
  destruct (Z.eqb_spec ev 0); [done|]. rewrite bind_modify.
  set (s1 := set_Events _ _).
  assert (fil (ext (CreateChildThread (Contexts (ExecutionContext o))
      (CfixpInitializeThreadId (FilMainThreadId o) t))) s1 = Some ((hr, pc), s2)) as H1.
  { unfold fil, ext, CfixpInitializeThreadId. simpl. by rewrite Hcc. }
  rewrite (bind_eq _ _ _ _ _ H1). cbn [fst snd]. by destruct (FAILED hr).
Qed.

(** When a thread is created under a filament with room for it, the parent gets
    its handle only after the child has joined the parent's filament and its
    context has been told, so that the filament waits for the child; the event
    that parent and child met at is closed.  Without room the parent gets no
    handle but [CFIX_E_TOO_MANY_CHILD_THREADS], and the new thread's handle and the
    event are closed. *)
Theorem create_thread_registers t f b o s start par fl flags ev x1 pc x2 h child x3 h2 x4 x5 x6 :
  Parent t f b o s -> Z.even f = true -> flags <= CFIX_THREAD_FLAG_CRT ->
  DefaultLock (Fil s) = free_lock -> FlagOn fl CREATE_SUSPENDED = false ->
  CreateEvent (Ext (Fil s)) = Some (ev, x1) -> ev <> 0 -> ev ∉ Events s ->
  CreateChildThread (Contexts (ExecutionContext o)) (MkThreadId t (FilMainThreadId o)) x1
    = Some ((S_OK, pc), x2) ->
  CreateOsThread (FlagOn flags CFIX_THREAD_FLAG_CRT) fl x2 = Some ((h, child), x3) -> h <> 0 ->
  h ∉ ThreadHandles s -> FilMainThreadId o <> child -> CurrentIs child 0 false (Fil s) ->
  DuplicateHandle child x3 = Some ((0, h2), x4) ->
  CtxReference (Contexts (ExecutionContext o)) x4 = Some (tt, x5) ->
  BeforeChildThreadStart (Contexts (ExecutionContext o)) (MkThreadId child (FilMainThreadId o)) pc x5
    = Some (tt, x6) ->
  exists r s',
    CfixCreateThread2 Contexts DuplicateHandle CreateEvent CreateOsThread t start par fl flags s
      = Some (r, s') /\ Events s' = Events s /\
    if Z.of_nat (length (Threads o)) =? CFIX_MAX_THREADS
    then r = (0, Some CFIX_E_TOO_MANY_CHILD_THREADS) /\ ThreadHandles s' = ThreadHandles s /\
         Running s' = Running s /\ Filaments (Fil s') = Filaments (Fil s)
    else r = (h, None) /\ ThreadHandles s' = {[h]} ∪ ThreadHandles s /\
         Running s' = Running s ++ [MkChild (MkThreadId child (FilMainThreadId o)) (MkParameters start par pc f)] /\
         Filaments (Fil s') = <[f := set_Threads (Threads o ++ [h2]) o]> (Filaments (Fil s)) /\
         CurrentIs child f false (Fil s') /\ Ext (Fil s') = x6.
Proof.
  intros HP He Hflags Hl Hsus Hev Hev0 Hevn Hcc Hos Hh Hhn Hm Hcc0 Hdup Href Hbefore.
  rewrite (create_start t f b o s start par fl flags ev x1 S_OK pc x2 HP Hflags Hev Hev0 Hcc).
  change (FAILED S_OK) with false. cbv iota. set (s2 := set_Fil _ _).
  assert (fil (ext (CreateOsThread (FlagOn flags CFIX_THREAD_FLAG_CRT) fl)) s2 =
    Some ((h, child), set_Fil (set_Ext x3 (Fil s2)) s2)) as H2 by by apply fil_eq, ext_eq.
  rewrite (bind_eq _ _ _ _ _ H2). cbn [fst snd].
  destruct (Z.eqb_spec h 0); [done|]. rewrite bind_modify, Hsus. set (s3 := set_ThreadHandles _ _).
  destruct HP as [Hcur Hf Ho]. unfold ThreadInit. cbn [ParFilament ParentContext].
  assert (Filaments (Fil s3) !! f = Some o) as Ho3 by done.
  rewrite bind_assoc, (bind_eq _ _ _ _ _ (fil_eq _ _ _ s3 (load_eq _ _ _ Ho3))). lazy zeta.
  set (s4 := set_Fil (Fil s3) s3).
  destruct (SetCurrent_joins child f o h2 x4 x5 (Fil s4)) as (r & w & Hj & Hend); try done.
  rewrite bind_assoc, (bind_eq _ _ _ _ _ (fil_eq _ _ _ s4 Hj)).
  assert (({[ev]} ∪ Events s) ∖ {[ev]} = Events s) as Eev by set_solver.
  assert (({[h]} ∪ ThreadHandles s) ∖ {[h]} = ThreadHandles s) as Eh by set_solver.
  destruct (_ =? CFIX_MAX_THREADS).
  - destruct Hend as (-> & EF & Hc & Ex). change (FAILED CFIX_E_TOO_MANY_CHILD_THREADS) with true.
    cbv iota. rewrite bind_ret, bind_modify. change (FAILED CFIX_E_TOO_MANY_CHILD_THREADS) with true.
    cbv iota. rewrite bind_modify. eexists _, _. split; [reflexivity|]. by split_and!.
  - destruct Hend as (-> & EF & Hc & Ex). change (FAILED S_OK) with false. cbv iota.
    set (s5 := set_Fil w s4).
    assert (fil (ext (BeforeChildThreadStart (Contexts (ExecutionContext o))
      (CfixpInitializeThreadId (FilMainThreadId o) child) pc)) s5 =
      Some (tt, set_Fil (set_Ext x6 (Fil s5)) s5)) as H5.
    { apply fil_eq, ext_eq. unfold CfixpInitializeThreadId. by rewrite <-Hbefore, <-Ex. }
    rewrite bind_assoc, (bind_eq _ _ _ _ _ H5), bind_assoc, bind_modify, bind_ret, bind_modify.
    change (FAILED S_OK) with false. cbv iota. eexists _, _. split; [reflexivity|].
    by split_and!.
Qed.

(** If the context refuses the child, or the operating system does not create the
    thread, the call fails and the event it created stays open. *)
Theorem create_thread_leaks_event t f b o s start par fl flags ev x1 hr pc x2 child x3 :
  Parent t f b o s -> flags <= CFIX_THREAD_FLAG_CRT ->
  CreateEvent (Ext (Fil s)) = Some (ev, x1) -> ev <> 0 -> ev ∉ Events s ->
  CreateChildThread (Contexts (ExecutionContext o)) (MkThreadId t (FilMainThreadId o)) x1
    = Some ((hr, pc), x2) ->
  FAILED hr = true \/ CreateOsThread (FlagOn flags CFIX_THREAD_FLAG_CRT) fl x2 = Some ((0, child), x3) ->
  exists err s',
    CfixCreateThread2 Contexts DuplicateHandle CreateEvent CreateOsThread t start par fl flags s
      = Some ((0, err), s') /\
    Events s' = {[ev]} ∪ Events s /\ Events s' <> Events s /\ ThreadHandles s' = ThreadHandles s.
Proof.
  intros HP Hflags Hev Hev0 Hevn Hcc Hfail.
  rewrite (create_start t f b o s start par fl flags ev x1 hr pc x2 HP Hflags Hev Hev0 Hcc).
  set (s2 := set_Fil _ _). assert ({[ev]} ∪ Events s <> Events s) as Hne by set_solver.
  destruct (FAILED hr).
  - eexists _, _. split; [reflexivity|]. done.
  - destruct Hfail as [|Hos]; [done|].
    assert (fil (ext (CreateOsThread (FlagOn flags CFIX_THREAD_FLAG_CRT) fl)) s2 =
      Some ((0, child), set_Fil (set_Ext x3 (Fil s2)) s2)) as H2 by by apply fil_eq, ext_eq.
    rewrite (bind_eq _ _ _ _ _ H2). eexists _, _. split; [reflexivity|]. done.
Qed.

(** A thread that is to be created suspended never initialises itself: once the
    operating system has created it, its creator waits for ever. *)
Theorem create_suspended_never_returns t f b o s start par fl flags ev x1 pc x2 h child x3 :
  Parent t f b o s -> flags <= CFIX_THREAD_FLAG_CRT -> FlagOn fl CREATE_SUSPENDED = true ->
  CreateEvent (Ext (Fil s)) = Some (ev, x1) -> ev <> 0 ->
  CreateChildThread (Contexts (ExecutionContext o)) (MkThreadId t (FilMainThreadId o)) x1
    = Some ((S_OK, pc), x2) ->
  CreateOsThread (FlagOn flags CFIX_THREAD_FLAG_CRT) fl x2 = Some ((h, child), x3) -> h <> 0 ->
  CfixCreateThread2 Contexts DuplicateHandle CreateEvent CreateOsThread t start par fl flags s = None.
Proof.
  intros HP Hflags Hsus Hev Hev0 Hcc Hos Hh.
  rewrite (create_start t f b o s start par fl flags ev x1 S_OK pc x2 HP Hflags Hev Hev0 Hcc).
  change (FAILED S_OK) with false. cbv iota. set (s2 := set_Fil _ _).
  assert (fil (ext (CreateOsThread (FlagOn flags CFIX_THREAD_FLAG_CRT) fl)) s2 =
    Some ((h, child), set_Fil (set_Ext x3 (Fil s2)) s2)) as H2 by by apply fil_eq, ext_eq.
  rewrite (bind_eq _ _ _ _ _ H2). cbn [fst snd].
  destruct (Z.eqb_spec h 0); [done|]. by rewrite bind_modify, Hsus.
Qed.

(** A child leaves its filament: the list of the filament keeps its handle. *)
Lemma SetCurrent_child_leaves t f o x w :
  CurrentIs t f false w -> f <> 0 -> Filaments w !! f = Some o -> FilMainThreadId o <> t ->
  CtxDereference (Contexts (ExecutionContext o)) (Ext w) = Some (tt, x) ->
  CfixpSetCurrentFilament Contexts DuplicateHandle t 0 w =
    Some ((S_OK, f), set_Tls t TlsSlotForFilament 0 (set_Ext x w)).
Proof.
  intros Hc Hf Ho Hm Hx. unfold CfixpSetCurrentFilament, CfixsSetCurrentFilament.
  rewrite (bind_eq _ _ _ _ _ (GetOwnFilament_eq _ _ _ _ Hc)).
  destruct (Z.eqb_spec f 0) as [|_]; [done|]. cbn [fst snd].
  destruct (Z.eqb_spec f 0) as [|_]; [done|]. cbn [negb].
  rewrite bind_assoc, (bind_eq _ _ _ _ _ (load_eq _ _ _ Ho)), (bind_eq _ _ _ _ _ (ext_eq _ _ _ _ Hx)).
  unfold RegisterIfChild. cbn [Z.eqb]. rewrite bind_ret. change (FAILED S_OK) with false. cbv iota.
  unfold UpdateDefault. cbn [Z.eqb negb]. destruct (Z.eqb_spec f 0) as [|_]; [done|]. cbn [negb].
  assert (Filaments (set_Ext x w) !! f = Some o) as Ho1 by done.
  rewrite bind_assoc, (bind_eq _ _ _ _ _ (load_eq _ _ _ Ho1)).
  destruct (Z.eqb_spec t (FilMainThreadId o)) as [E|_]; [by rewrite E in Hm|].
  cbn [andb when_]. rewrite bind_assoc, !bind_ret. change (FAILED S_OK) with false. cbv iota.
  unfold CfixsSetTlsFilamant. by rewrite bind_modify, Z.lor_0_r.
Qed.

Variable CfixpCaptureStackTrace : ST X (Z * list Z).
Variable StartRoutine : Z -> Z -> Z -> ST (FW X) (OUT Z).

(** A child thread's failure stays in the child: if its routine leaves by one of
    the exceptions for failed, inconclusive or aborting test code, the thread
    notifies the context, leaves its filament and exits with
    [CFIX_EXIT_THREAD_ABORTED]; in particular a request to abort the run changes
    nothing in the filament whose main thread decides the result. *)
Theorem child_failure_is_local c o w w2 e x x' :
  let t := ThreadId (ChildId c) in let f := ParFilament (ChildParameters c) in
  e = EXCEPTION_TESTCASE_FAILED \/ e = EXCEPTION_TESTCASE_INCONCLUSIVE \/
  e = EXCEPTION_TESTCASE_FAILED_ABORT ->
  StartRoutine (StartAddress (ChildParameters c)) (UserParameter (ChildParameters c)) t w
    = Some (Raised e, w2) ->
  CurrentIs t f false w2 -> f <> 0 -> Filaments w2 !! f = Some o -> FilMainThreadId o <> t ->
  AfterChildThreadFinish (Contexts (ExecutionContext o)) (ChildId c) (ParentContext (ChildParameters c))
    (Ext w2) = Some (tt, x) ->
  CtxDereference (Contexts (ExecutionContext o)) x = Some (tt, x') ->
  exists w', ThreadBody Contexts DuplicateHandle CfixpCaptureStackTrace StartRoutine c w =
      Some (Returned CFIX_EXIT_THREAD_ABORTED, w') /\
    Filaments w' = Filaments w2 /\ DefaultFilament w' = DefaultFilament w2 /\ Handles w' = Handles w2 /\
    CurrentIs t 0 false w' /\ Ext w' = x'.
Proof.
  intros t f He Hrun Hc Hf Ho Hm Hafter Hderef. unfold ThreadBody. lazy zeta. fold t f.
  rewrite (bind_eq _ _ _ _ _ Hrun).
  assert (exists a, CfixpExceptionFilter Contexts CfixpCaptureStackTrace t e f w2 =
    Some ((EXCEPTION_EXECUTE_HANDLER, Some a), w2)) as [a Hfil].
  { unfold CfixpExceptionFilter. rewrite (bind_eq _ _ _ _ _ (load_eq _ _ _ Ho)).
    destruct He as [-> | [-> | ->]]; by eexists. }
  rewrite (bind_eq _ _ _ _ _ Hfil). cbn [fst].
  rewrite (bind_eq _ _ _ _ _ (load_eq _ _ _ Ho)), (bind_eq _ _ _ _ _ (ext_eq _ _ _ _ Hafter)).
  assert (CurrentIs t f false (set_Ext x w2)) as Hc2 by done.
  pose proof (SetCurrent_child_leaves t f o x' (set_Ext x w2) Hc2 Hf Ho Hm Hderef) as Hs.
  unfold VERIFY. rewrite bind_assoc, (bind_eq _ _ _ _ _ Hs), bind_ret.
  eexists. split; [reflexivity|]. split_and!; try done. split; [apply Tls_set_same|done].
Qed.
End theory.

(** ** A concrete instance: thread 1 runs under filament 8 and creates thread 5 *)
Module Demo.
Import RptStubs.Demo.
Definition CreateEvent : ST World Z := ret 40.
Definition CreateOsThread (Crt : bool) (Flags : Z) : ST World (Z * Z) := ret (50, 5).
Definition NoThread (Crt : bool) (Flags : Z) : ST World (Z * Z) := ret (0, 0).
(** Every routine fails an assertion with a context that aborts. *)
Definition StartRoutine (a p t : Z) : ST (FW World) (OUT Z) :=
  RaiseException EXCEPTION_TESTCASE_FAILED_ABORT.
Definition start : TW World := MkTW (running 3) ∅ ∅ [].
Definition object : CFIXP_FILAMENT := MkFilament 3 1 [] CFIXP_FILAMENT_FLAG_CAPTURE_STACK_TRACES 0 0.

Lemma start_parent : Parent 1 8 false object start.
Proof. split; [split; reflexivity|discriminate|reflexivity]. Qed.

Lemma create_thread_registers_witness :
  exists s', CfixCreateThread2 Contexts DuplicateHandle CreateEvent CreateOsThread 1 100 0 0 0 start =
    Some ((50, None), s').
Proof.
  destruct (create_thread_registers Contexts DuplicateHandle CreateEvent CreateOsThread
    1 8 false object start 100 0 0 0 40 [] 0 [] 50 5 [] 5 [] [] []) as (r & s' & H & _ & -> & _).
  - exact start_parent.
  - reflexivity.
  - discriminate.
  - reflexivity.
  - reflexivity.
  - reflexivity.
  - discriminate.
  - apply not_elem_of_empty.
  - reflexivity.
  - reflexivity.
  - discriminate.
  - apply not_elem_of_empty.
  - discriminate.
  - split; reflexivity.
  - reflexivity.
  - reflexivity.
  - reflexivity.
  - exists s'. exact H.
Defined.

Lemma create_thread_leaks_event_witness :
  exists err s', CfixCreateThread2 Contexts DuplicateHandle CreateEvent NoThread 1 100 0 0 0 start =
    Some ((0, err), s') /\ Events s' <> Events start.
Proof.
  destruct (create_thread_leaks_event Contexts DuplicateHandle CreateEvent NoThread
    1 8 false object start 100 0 0 0 40 [] S_OK 0 [] 0 []) as (err & s' & H & _ & Hne & _).
  - exact start_parent.
  - discriminate.
  - reflexivity.
  - discriminate.
  - apply not_elem_of_empty.
  - reflexivity.
  - right. reflexivity.
  - exists err, s'. split; [exact H|exact Hne].
Defined.

Lemma create_suspended_never_returns_witness :
  CfixCreateThread2 Contexts DuplicateHandle CreateEvent CreateOsThread 1 100 0 CREATE_SUSPENDED 0 start = None.
Proof.
  apply (create_suspended_never_returns Contexts DuplicateHandle CreateEvent CreateOsThread
    1 8 false object start 100 0 CREATE_SUSPENDED 0 40 [] 0 [] 50 5 []).
  - exact start_parent.
  - discriminate.
  - reflexivity.
  - reflexivity.
  - discriminate.
  - reflexivity.
  - reflexivity.
  - discriminate.
Defined.

(** Thread 5, once it has joined. *)
Definition joined : FW World :=
  MkFW {[8 := set_Threads [5] object]}
    (fun t sl => if decide (sl = TlsSlotForFilament) then 8 else 0) 0 free_lock {[5]} [].
Definition child : CHILD := MkChild (MkThreadId 5 1) (MkParameters 100 0 0 8).

Lemma child_failure_is_local_witness :
  exists w', ThreadBody Contexts DuplicateHandle Capture StartRoutine child joined =
    Some (Returned CFIX_EXIT_THREAD_ABORTED, w') /\ Filaments w' = Filaments joined.
Proof.
  destruct (child_failure_is_local Contexts DuplicateHandle Capture StartRoutine child
    (set_Threads [5] object) joined joined EXCEPTION_TESTCASE_FAILED_ABORT [] [])
    as (w' & H & HF & _).
  - right. right. reflexivity.
  - reflexivity.
  - split; reflexivity.
  - discriminate.
  - reflexivity.
  - discriminate.
  - reflexivity.
  - reflexivity.
  - exists w'. split; [exact H|exact HF].
Defined.
End Demo.
