(* ===== verification/CmdLine.v ===== *)
(** * The command line of the runner (cfix/cfixrun/cmdline.c, the file name tests of
      cfix/cfixrun/dllsearch.c, and the options of cfix/cfixrun/cfixrun.h) *)
From stdpp Require Import base gmap list strings.
From Stdlib Require Import ZArith Lia Ascii.
From S2P Require Import Prelude.

(** ** Comparison without regard to case (the C locale) *)
Definition towlower (c : ascii) : ascii :=
  let n := nat_of_ascii c in
  if (65 <=? n)%nat && (n <=? 90)%nat then ascii_of_nat (n + 32) else c.
Fixpoint lower (s : string) : string :=
  match s with EmptyString => EmptyString | String c s => String (towlower c) (lower s) end.
(** [0 == _wcsicmp( a, b )] *)
Definition wcsieq (a b : string) : bool := String.eqb (lower a) (lower b).

(** [Len > 4 && 0 == _wcsicmp( Path + Len - 4, Extension )] *)
Definition HasExtension (Path Extension : string) : bool :=
  let Len := String.length Path in
  (4 <? Len)%nat && wcsieq (String.substring (Len - 4) 4 Path) Extension.

(* src/cfix/cfixrun/dllsearch.c:76-82 (CfixrunpIsDll) *)
Definition CfixrunpIsDll (Path : string) : bool := HasExtension Path ".dll".
(* src/cfix/cfixrun/dllsearch.c:84-90 (CfixrunpIsSys) *)
Definition CfixrunpIsSys (Path : string) : bool := HasExtension Path ".sys".
(* src/cfix/cfixrun/dllsearch.c:92-98 (CfixrunpIsExe) *)
Definition CfixrunpIsExe (Path : string) : bool := HasExtension Path ".exe".

(** ** Options: the BOOL members, the string members, the input *)
(* src/cfix/cfixrun/cfixrun.h:48-60 (CFIXRUN_INPUT_FILE_TYPE) *)
Inductive CFIXRUN_INPUT_FILE_TYPE := CfixrunInputDynamicallyLoadable | CfixrunInputRequiresSpawn.

Inductive SWITCH :=
  | RecursiveSearch | AbortOnFirstFailure | DoNotCatchUnhandledExceptions | AlwaysBreakOnFailure
  | DisplayOnly | Summary | PauseAtEnd | PauseAtBeginning | EnableKernelFeatures
  | ShortCircuitFixtureOnFailure | ShortCircuitRunOnFailure | ShortCircuitRunOnSetupFailure
  | NoLogo | DisableStackTraces | OmitSourceInfoInStackTrace.
Inductive VALUE := OptFixture | OptFixturePrefix | OptEventDll | OptEventDllOptions.

#[export] Instance SWITCH_eq_dec : EqDecision SWITCH.
Proof. solve_decision. Defined.
#[export] Instance VALUE_eq_dec : EqDecision VALUE.
Proof. solve_decision. Defined.

(* src/cfix/cfixrun/cfixrun.h:62-107 (CFIXRUN_OPTIONS) *)
Record CFIXRUN_OPTIONS := MkOptions {
  InputFileType : CFIXRUN_INPUT_FILE_TYPE;
  InputFile : option string;
  Switch : SWITCH -> bool;
  Value : VALUE -> option string }.

Definition set_InputFileType (t : CFIXRUN_INPUT_FILE_TYPE) (o : CFIXRUN_OPTIONS) : CFIXRUN_OPTIONS :=
  MkOptions t (InputFile o) (Switch o) (Value o).
Definition set_InputFile (f : string) (o : CFIXRUN_OPTIONS) : CFIXRUN_OPTIONS :=
  MkOptions (InputFileType o) (Some f) (Switch o) (Value o).
Definition set_Switch (b : SWITCH) (o : CFIXRUN_OPTIONS) : CFIXRUN_OPTIONS :=
  MkOptions (InputFileType o) (InputFile o) (fun x => if decide (x = b) then true else Switch o x) (Value o).
Definition set_Value (v : VALUE) (s : string) (o : CFIXRUN_OPTIONS) : CFIXRUN_OPTIONS :=
  MkOptions (InputFileType o) (InputFile o) (Switch o) (fun x => if decide (x = v) then Some s else Value o x).

(** The options as the caller zeroes them. *)
Definition zeroed : CFIXRUN_OPTIONS :=
  MkOptions CfixrunInputDynamicallyLoadable None (fun _ => false) (fun _ => None).

(** ** Flags *)
Inductive FLAG :=
  | SwitchFlag (b : SWITCH)
  | ExeFlag
  | ValueFlag (v : VALUE)
  | RemovedFlag.

(* src/cfix/cfixrun/cmdline.c:114-247 (CfixrunParseCommandLine) *)
Definition FlagNamed (FlagName : string) : option FLAG :=
  let named s := String.eqb FlagName s in
  if named "r" then Some (SwitchFlag RecursiveSearch)
  else if named "n" then Some (ValueFlag OptFixture)
  else if named "p" then Some (ValueFlag OptFixturePrefix)
  else if named "f" then Some (SwitchFlag AbortOnFirstFailure)
  else if named "u" then Some (SwitchFlag DoNotCatchUnhandledExceptions)
  else if named "b" then Some (SwitchFlag AlwaysBreakOnFailure)
  else if named "d" then Some (SwitchFlag DisplayOnly)
  else if named "z" then Some (SwitchFlag Summary)
  else if named "y" then Some (SwitchFlag PauseAtEnd)
  else if named "Y" then Some (SwitchFlag PauseAtBeginning)
  else if named "kern" then Some (SwitchFlag EnableKernelFeatures)
  else if named "exe" then Some ExeFlag
  else if named "fsf" then Some (SwitchFlag ShortCircuitFixtureOnFailure)
  else if named "fsr" then Some (SwitchFlag ShortCircuitRunOnFailure)
  else if named "fss" then Some (SwitchFlag ShortCircuitRunOnSetupFailure)
  else if named "out" then Some RemovedFlag
  else if named "log" then Some RemovedFlag
  else if named "eventdll" then Some (ValueFlag OptEventDll)
  else if named "eventdlloptions" then Some (ValueFlag OptEventDllOptions)
  else if named "nologo" then Some (SwitchFlag NoLogo)
  else if named "ts" then Some (SwitchFlag OmitSourceInfoInStackTrace)
  else if named "td" then Some (SwitchFlag DisableStackTraces)
  else None.

(** The parser expects anything, or the value for [Value]; [None] is the trash
    that values of removed options go to. *)
(* src/cfix/cfixrun/cmdline.c:32-37 (PARSE_STATE) *)
Inductive PARSE_STATE := StateExpectAny | StateExpectValue (Value : option VALUE).

Definition IsFlag (Arg : string) : bool :=
  match Arg with
  | String c _ => Ascii.eqb c "-"%char || Ascii.eqb c "/"%char
  | EmptyString => false
  end.
Definition Tail (s : string) : string := match s with String _ s => s | EmptyString => EmptyString end.

Notation PARSED := (bool * CFIXRUN_OPTIONS * list string)%type.

Definition ExpectedValue (Prev : string) : string := "Expected value after '" +:+ Prev +:+ "'".

(** The loop over the arguments; [Prev] is the argument before, [out] what has been
    printed. *)
(* src/cfix/cfixrun/cmdline.c:82-265 (CfixrunParseCommandLine) *)
Fixpoint ParseArgs (Prev : string) (Args : list string) (State : PARSE_STATE)
    (o : CFIXRUN_OPTIONS) (out : list string) : PARSED :=
  match Args with
  | [] => (true, o, out)
  | Arg :: Rest =>
      if (String.length Arg =? 0)%nat then ParseArgs Arg Rest State o out
      else
        match Rest with
        | [] =>
            match State with
            | StateExpectValue _ => (false, o, out ++ [ExpectedValue Prev])
            | StateExpectAny => (true, set_InputFile Arg o, out)
            end
        | _ :: _ =>
            if IsFlag Arg then
              match State with
              | StateExpectValue _ => (false, o, out ++ [ExpectedValue Prev])
              | StateExpectAny =>
                  match FlagNamed (Tail Arg) with
                  | Some (SwitchFlag b) => ParseArgs Arg Rest StateExpectAny (set_Switch b o) out
                  | Some ExeFlag =>
                      ParseArgs Arg Rest StateExpectAny (set_InputFileType CfixrunInputRequiresSpawn o) out
                  | Some (ValueFlag v) => ParseArgs Arg Rest (StateExpectValue (Some v)) o out
                  | Some RemovedFlag =>
                      ParseArgs Arg Rest (StateExpectValue None) o
                        (out ++ ["Warning: Option -" +:+ Tail Arg +:+ " has been removed and will be ignored."])
                  | None => (false, o, out ++ ["Unknown flag '" +:+ Arg +:+ "'"])
                  end
              end
            else
              match State with
              | StateExpectValue v =>
                  ParseArgs Arg Rest StateExpectAny
                    (match v with Some v => set_Value v Arg o | None => o end) out
              | StateExpectAny => (false, o, out ++ ["Unexpected value '" +:+ Arg +:+ "'"])
              end
        end
  end.

(** The final checks; without an input file the last of them goes through NULL. *)
(* src/cfix/cfixrun/cmdline.c:267-295 (CfixrunParseCommandLine) *)
Definition CheckOptions (o : CFIXRUN_OPTIONS) (out : list string) : option PARSED :=
  match InputFileType o with
  | CfixrunInputDynamicallyLoadable => Some (true, o, out)
  | CfixrunInputRequiresSpawn =>
      if Switch o EnableKernelFeatures
      then Some (false, o, out ++ ["Cannot use -kern and -exe at the same time"])
      else if Switch o RecursiveSearch
      then Some (false, o, out ++ ["Cannot use -r and -exe at the same time"])
      else if Switch o PauseAtBeginning || Switch o PauseAtEnd
      then Some (false, o, out ++ ["-y and -Y are currently not supported in conjunction with -exe"])
      else
        match InputFile o with
        | None => None
        | Some f =>
            if negb (CfixrunpIsExe f)
            then Some (false, o, out ++ ["-exe is only applicable for .exe files"])
            else Some (true, o, out)
        end
  end.

(** [Argv0] is the name of the program, [Args] the arguments after it. *)
(* src/cfix/cfixrun/cmdline.c:58-296 (CfixrunParseCommandLine) *)
Definition CfixrunParseCommandLine (Argv0 : string) (Args : list string) (o : CFIXRUN_OPTIONS)
    : option PARSED :=
  let '(Parsed, o, out) := ParseArgs Argv0 Args StateExpectAny (set_InputFileType CfixrunInputDynamicallyLoadable o) [] in
  if negb Parsed then Some (false, o, out) else CheckOptions o out.

(** ** The language of accepted command lines *)

(** An option: its flag character, its name, and its value if it takes one. *)
Record OPTION := MkOption { OptChar : ascii; OptName : string; OptValue : option string }.

Definition ValidOption (g : OPTION) : Prop :=
  (OptChar g = "-"%char \/ OptChar g = "/"%char) /\
  match FlagNamed (OptName g), OptValue g with
  | Some (SwitchFlag _), None | Some ExeFlag, None => True
  | Some (ValueFlag _), Some v | Some RemovedFlag, Some v => v <> "" /\ IsFlag v = false
  | _, _ => False
  end.

(** The arguments that spell an option, and what it means. *)
Definition Spell (g : OPTION) : list string :=
  String (OptChar g) (OptName g) :: match OptValue g with Some v => [v] | None => [] end.
Definition Apply (o : CFIXRUN_OPTIONS) (g : OPTION) : CFIXRUN_OPTIONS :=
  match FlagNamed (OptName g), OptValue g with
  | Some (SwitchFlag b), _ => set_Switch b o
  | Some ExeFlag, _ => set_InputFileType CfixrunInputRequiresSpawn o
  | Some (ValueFlag v), Some s => set_Value v s o
  | _, _ => o
  end.
Definition Warnings (g : OPTION) : list string :=
  match FlagNamed (OptName g) with
  | Some RemovedFlag => ["Warning: Option -" +:+ OptName g +:+ " has been removed and will be ignored."]
  | _ => []
  end.

Lemma IsFlag_spell c n : (c = "-"%char \/ c = "/"%char) -> IsFlag (String c n) = true.
Proof. by intros [-> | ->]. Qed.

Lemma IsFlag_inv a : IsFlag a = true -> exists c n, a = String c n /\ (c = "-"%char \/ c = "/"%char).
Proof.
  destruct a as [|c n]; [done|]. simpl. intros H. exists c, n. split; [done|].
  apply orb_true_iff in H as [H|H]; apply Ascii.eqb_eq in H; auto.
Qed.

Lemma length_nonempty (a : string) : a <> "" -> (String.length a =? 0)%nat = false.
Proof. by destruct a. Qed.

(** Options are consumed one by one. *)
Lemma ParseArgs_option prev g rest o out :
  ValidOption g -> rest <> [] ->
  exists prev', ParseArgs prev (Spell g ++ rest) StateExpectAny o out =
    ParseArgs prev' rest StateExpectAny (Apply o g) (out ++ Warnings g).
Proof.
  intros [Hc Hv] Hrest. destruct g as [c n [v|]]; unfold Spell, Apply, Warnings; simpl in *;
    destruct rest as [|r rest]; try done; rewrite (IsFlag_spell c n Hc : _ || _ = true);
    destruct (FlagNamed n) as [[b| |w|]|]; try done.
  - destruct Hv as [Hne Hf]. cbn [ParseArgs]. rewrite (length_nonempty v Hne), Hf, app_nil_r. by exists v.
  - destruct Hv as [Hne Hf]. cbn [ParseArgs]. rewrite (length_nonempty v Hne), Hf. by exists v.
  - rewrite app_nil_r. by exists (String c n).
  - rewrite app_nil_r. by exists (String c n).
Qed.

Lemma ParseArgs_options prev gs file o out :
  Forall ValidOption gs -> file <> "" ->
  ParseArgs prev (concat (Spell <$> gs) ++ [file]) StateExpectAny o out =
    (true, set_InputFile file (foldl Apply o gs), out ++ concat (Warnings <$> gs)).
Proof.
  intros Hgs Hfile. revert prev o out. induction Hgs as [|g gs Hg Hgs IH]; intros prev o out.
  - simpl. by rewrite (length_nonempty file Hfile), app_nil_r.
  - rewrite !fmap_cons. cbn [concat foldl]. rewrite <-app_assoc.
    destruct (ParseArgs_option prev g (concat (Spell <$> gs) ++ [file]) o out Hg) as [prev' ->];
      [by destruct (concat _)|].
    by rewrite IH, app_assoc.
Qed.

(** What the parser accepts is made of options and a file. *)
Lemma ParseArgs_accepts n : forall args prev o out o' out',
  (length args <= n)%nat -> args <> [] -> Forall (fun a => a <> "") args ->
  ParseArgs prev args StateExpectAny o out = (true, o', out') ->
  exists gs file, Forall ValidOption gs /\ file <> "" /\ args = concat (Spell <$> gs) ++ [file].
Proof.
  induction n as [|n IH]; intros args prev o out o' out' Hlen Hne Hall H; [by destruct args; simpl in *; [|lia]|].
  destruct args as [|a args]; [done|]. apply Forall_cons in Hall as [Ha Hall].
  destruct args as [|b rest].
  { exists [], a. by split_and!. }
  (* an option without a value *)
  assert (forall o1 out1, IsFlag a = true ->
    (exists sw, FlagNamed (Tail a) = Some (SwitchFlag sw)) \/ FlagNamed (Tail a) = Some ExeFlag ->
    ParseArgs a (b :: rest) StateExpectAny o1 out1 = (true, o', out') ->
    exists gs file, Forall ValidOption gs /\ file <> "" /\ a :: b :: rest = concat (Spell <$> gs) ++ [file])
    as Hswitch.
  { intros o1 out1 Hf Hn H1. destruct (IsFlag_inv a Hf) as (c & nm & -> & Hc). simpl in Hn.
    destruct (IH (b :: rest) _ _ _ _ _ ltac:(simpl in *; lia) ltac:(done) Hall H1)
      as (gs & file & Hgs & Hfile & E).
    exists (MkOption c nm None :: gs), file. split_and!; [|done|by rewrite E].
    constructor; [|done]. split; [done|]. simpl. by destruct Hn as [[sw ->] | ->]. }
  (* an option with a value *)
  assert (forall v out1, IsFlag a = true ->
    (exists w, FlagNamed (Tail a) = Some (ValueFlag w)) \/ FlagNamed (Tail a) = Some RemovedFlag ->
    ParseArgs a (b :: rest) (StateExpectValue v) o out1 = (true, o', out') ->
    exists gs file, Forall ValidOption gs /\ file <> "" /\ a :: b :: rest = concat (Spell <$> gs) ++ [file])
    as Hvalue.
  { intros v out1 Hf Hn H1. destruct (IsFlag_inv a Hf) as (c & nm & -> & Hc). simpl in Hn.
    apply Forall_cons in Hall as [Hb Hall]. cbn [ParseArgs] in H1. rewrite (length_nonempty b Hb) in H1.
    destruct rest as [|d rest]; [done|]. destruct (IsFlag b) eqn:Eb; [done|].
    destruct (IH (d :: rest) _ _ _ _ _ ltac:(simpl in *; lia) ltac:(done) Hall H1)
      as (gs & file & Hgs & Hfile & E).
    exists (MkOption c nm (Some b) :: gs), file. split_and!; [|done|by rewrite E].
    constructor; [|done]. split; [done|]. simpl. by destruct Hn as [[w ->] | ->]. }
  cbn [ParseArgs] in H. rewrite (length_nonempty a Ha) in H.
  destruct (IsFlag a) eqn:Ef; [|done].
  destruct (FlagNamed (Tail a)) as [[sw| |w|]|] eqn:En; try done;
    [eapply Hswitch in H|eapply Hswitch in H|eapply Hvalue in H|eapply Hvalue in H]; eauto.
Qed.

(** The restrictions on running an executable. *)
Definition Runnable (o : CFIXRUN_OPTIONS) (file : string) : Prop :=
  InputFileType o = CfixrunInputRequiresSpawn ->
  Switch o EnableKernelFeatures = false /\ Switch o RecursiveSearch = false /\
  Switch o PauseAtBeginning = false /\ Switch o PauseAtEnd = false /\ CfixrunpIsExe file = true.

(** C35. Exactly these command lines are accepted (of those without empty
    arguments): any number of options, each introduced by a dash or a slash, with
    a value where it takes one that does not look like an option, and last the
    input file, whatever it looks like; with -exe, no -kern, -r, -y and -Y, and a
    file name ending in .exe.  The options are then those that were given, in
    order, so the last value of an option counts, and only removed options are
    warned about. *)
Theorem cmdline_accepted Argv0 args o' out' :
  args <> [] -> Forall (fun a => a <> "") args ->
  CfixrunParseCommandLine Argv0 args zeroed = Some (true, o', out') <->
  exists gs file, Forall ValidOption gs /\ file <> "" /\ args = concat (Spell <$> gs) ++ [file] /\
    o' = set_InputFile file (foldl Apply zeroed gs) /\ out' = concat (Warnings <$> gs) /\
    Runnable o' file.
Proof.
  intros Hne Hall. unfold CfixrunParseCommandLine.
  change (set_InputFileType CfixrunInputDynamicallyLoadable zeroed) with zeroed.
  assert (forall gs file out, let o := set_InputFile file (foldl Apply zeroed gs) in
    CheckOptions o out = Some (true, o', out') <-> o' = o /\ out' = out /\ Runnable o' file) as Hcheck.
  { intros gs file out o. unfold CheckOptions, Runnable.
    destruct (InputFileType o) eqn:Et; [split; [intros [= <- <-]; by rewrite Et|intros (-> & -> & _); done]|].
    destruct (Switch o EnableKernelFeatures) eqn:E1; [split; [done|intros (-> & _ & H); destruct (H Et); congruence]|].
    destruct (Switch o RecursiveSearch) eqn:E2; [split; [done|intros (-> & _ & H); destruct (H Et); intuition congruence]|].
    destruct (Switch o PauseAtBeginning) eqn:E3; [split; [done|intros (-> & _ & H); destruct (H Et); intuition congruence]|].
    destruct (Switch o PauseAtEnd) eqn:E4; [split; [done|intros (-> & _ & H); destruct (H Et); intuition congruence]|].
    simpl. destruct (CfixrunpIsExe file) eqn:E5; simpl.
    - split; [intros [= <- <-]; by split_and!|intros (-> & -> & _); done].
    - split; [done|intros (-> & _ & H); destruct (H Et); intuition congruence]. }
  split.
  - intros H. destruct (ParseArgs Argv0 args StateExpectAny zeroed []) as [[[] o1] out1] eqn:E; [|done].
    destruct (ParseArgs_accepts (length args) args _ _ _ _ _ ltac:(lia) Hne Hall E) as (gs & file & Hgs & Hf & Ea).
    exists gs, file. rewrite Ea, ParseArgs_options in E by done. simplify_eq. simpl in H.
    apply Hcheck in H. naive_solver.
  - intros (gs & file & Hgs & Hf & -> & Ho & Hout & HR). rewrite ParseArgs_options by done. simpl.
    by apply Hcheck.
Qed.

Module Demo.
Lemma cmdline_accepted_witness :
  exists o', CfixrunParseCommandLine "cfix32" ["-n"; "Fixture.Test"; "/u"; "-exe"; "a.EXE"] zeroed
    = Some (true, o', []) /\ Value o' OptFixture = Some "Fixture.Test".
Proof.
  eexists. split.
  - apply (cmdline_accepted "cfix32"); [discriminate|repeat constructor; discriminate|].
    exists [MkOption "-" "n" (Some "Fixture.Test"); MkOption "/" "u" None; MkOption "-" "exe" None], "a.EXE".
    split; [|split; [discriminate|split; [reflexivity|split; [reflexivity|split; [reflexivity|]]]]].
    + repeat constructor; simpl; try (left; reflexivity); try (right; reflexivity); discriminate.
    + intros _. split; [reflexivity|split; [reflexivity|split; [reflexivity|split; reflexivity]]].
  - reflexivity.
Defined.

(** With an empty last argument there is no file, and -exe looks at its name. *)
Example exe_without_file : CfixrunParseCommandLine "cfix32" ["-exe"; ""] zeroed = None.
Proof. reflexivity. Qed.
End Demo.
