(* ===== verification/Search.v ===== *)
(** * Searching modules (cfix/cfixutil/search.c, cfix/cfixrun/dllsearch.c)

    The traversal of a directory tree with a visitor, and the visitor that picks
    DLLs and drivers.  The file system does not change during a search. *)
From stdpp Require Import base gmap list strings.
From Stdlib Require Import ZArith Lia Ascii.
From S2P Require Import Prelude CmdLine.

Definition E_ACCESSDENIED : Z := 0x80070005.
Definition ERROR_NO_MORE_FILES : Z := 18.
Definition ERROR_FILE_NOT_FOUND : Z := 2.
Definition FILE_ATTRIBUTE_DIRECTORY : Z := 0x10.
Definition FILE_ATTRIBUTE_REPARSE_POINT : Z := 0x400.

(* src/include/cfixutil.h:37-43 (CFIXUTIL_VISIT_TYPE) *)
Inductive CFIXUTIL_VISIT_TYPE := CfixutilFile | CfixutilEnterDirectory | CfixutilLeaveDirectory.

Record WIN32_FIND_DATA := MkFindData { cFileName : string; dwFileAttributes : Z }.

(** [wcschr( s, c ) != NULL] *)
Fixpoint Contains (c : ascii) (s : string) : bool :=
  match s with
  | EmptyString => false
  | String d s => Ascii.eqb d c || Contains c s
  end.

(** The path without its last component, up to and with the last backslash. *)
Fixpoint StripFilePart (s : string) : string :=
  match s with
  | EmptyString => EmptyString
  | String c s => if Contains "\"%char (String c s) then String c (StripFilePart s) else EmptyString
  end.

Section search.
Context {W : Type}.
(** [GetFullPathName]: the absolute path, or the last error. *)
Variable GetFullPathName : string -> Z + string.
Variable GetCurrentDirectory : Z + string.
Variable PathCombine : string -> string -> option string.
(** [FindFirstFile] and [FindNextFile]: all matches, or the last error. *)
Variable FindFiles : string -> Z + list WIN32_FIND_DATA.
(** [GetFileAttributes]; [None] if the file does not exist. *)
Variable GetFileAttributes : string -> option Z.
(** The visitor: path, type, and whether a search was performed. *)
Variable Routine : string -> CFIXUTIL_VISIT_TYPE -> bool -> ST W Z.

(** The directory to search and the filter expression, or the error. *)
(* src/cfix/cfixutil/search.c:49-115 (CfixutilsTraverseDirectory) *)
Definition DirectoryAndFilter (PathExpression : string) (PathIsFilter : bool) : Z + (string * string) :=
  if PathIsFilter then
    if Contains "\"%char PathExpression then
      match GetFullPathName PathExpression with
      | inl Err => inl (HRESULT_FROM_WIN32 Err)
      | inr PathBuffer => inr (StripFilePart PathBuffer, PathExpression)
      end
    else
      match GetCurrentDirectory with
      | inl Err => inl (HRESULT_FROM_WIN32 Err)
      | inr PathBuffer => inr (PathBuffer, PathExpression)
      end
  else
    match GetFullPathName PathExpression with
    | inl Err => inl (HRESULT_FROM_WIN32 Err)
    | inr PathBuffer =>
        match PathCombine PathBuffer "*.*" with
        | None => inl E_UNEXPECTED
        | Some FilterBuffer => inr (PathBuffer, FilterBuffer)
        end
    end.

(** What is done with one match; [Descend] traverses a subdirectory.  A path that
    cannot be combined is only an error if it is not used. *)
(* src/cfix/cfixutil/search.c:138-183 (CfixutilsTraverseDirectory) *)
Definition VisitMatch (Descend : string -> ST W Z) (PathBuffer : string) (Recursive : bool)
    (FindData : WIN32_FIND_DATA) (Hr : Z) : ST W Z :=
  if String.eqb (cFileName FindData) "." || String.eqb (cFileName FindData) ".." then ret Hr
  else
    let FilePath := PathCombine PathBuffer (cFileName FindData) in
    let Hr := if FilePath then Hr else E_UNEXPECTED in
    if FlagOn FILE_ATTRIBUTE_REPARSE_POINT (dwFileAttributes FindData) then ret Hr
    else if FlagOn FILE_ATTRIBUTE_DIRECTORY (dwFileAttributes FindData) then
      if Recursive then
        match FilePath with
        | None => fault
        | Some p => Hr <- Descend p ;; ret (if E_ACCESSDENIED =? Hr then S_OK else Hr)
        end
      else ret Hr
    else
      match FilePath with
      | None => fault
      | Some p => Routine p CfixutilFile true
      end.

(* src/cfix/cfixutil/search.c:136-185 (CfixutilsTraverseDirectory) *)
Fixpoint VisitMatches (Descend : string -> ST W Z) (PathBuffer : string) (Recursive : bool)
    (Matches : list WIN32_FIND_DATA) (Hr : Z) : ST W Z :=
  match Matches with
  | [] => ret Hr
  | m :: Matches =>
      Hr <- VisitMatch Descend PathBuffer Recursive m Hr ;;
      if SUCCEEDED Hr then VisitMatches Descend PathBuffer Recursive Matches Hr else ret Hr
  end.

(** The fuel bounds the depth of the directory tree. *)
(* src/cfix/cfixutil/search.c:30-196 (CfixutilsTraverseDirectory) *)
Fixpoint CfixutilsTraverseDirectory (fuel : nat) (PathExpression : string) (PathIsFilter Recursive : bool)
    : ST W Z :=
  match fuel with
  | O => fault
  | S fuel =>
      match DirectoryAndFilter PathExpression PathIsFilter with
      | inl Hr => ret Hr
      | inr (PathBuffer, Filter) =>
          match FindFiles Filter with
          | inl Err => ret (if ERROR_NO_MORE_FILES =? Err then S_OK else HRESULT_FROM_WIN32 Err)
          | inr Matches =>
              Hr <- Routine PathBuffer CfixutilEnterDirectory true ;;
              if SUCCEEDED Hr then
                Hr <- VisitMatches (fun p => CfixutilsTraverseDirectory fuel p false Recursive)
                        PathBuffer Recursive Matches Hr ;;
                Hr2 <- Routine PathBuffer CfixutilLeaveDirectory true ;;
                ret (if SUCCEEDED Hr && FAILED Hr2 then Hr2 else Hr)
              else ret Hr
          end
      end
  end.

(* src/cfix/cfixutil/search.c:198-246 (CfixutilSearch) *)
Definition CfixutilSearch (fuel : nat) (Path : option string) (Recursive : bool) : ST W Z :=
  match Path with
  | None => ret E_INVALIDARG
  | Some p =>
      match GetFileAttributes p with
      | None =>
          if Contains "*"%char p || Contains "?"%char p
          then CfixutilsTraverseDirectory fuel p true Recursive
          else ret (HRESULT_FROM_WIN32 ERROR_FILE_NOT_FOUND)
      | Some Attr =>
          if FlagOn FILE_ATTRIBUTE_DIRECTORY Attr
          then CfixutilsTraverseDirectory fuel p false Recursive
          else Routine p CfixutilFile false
      end
  end.
End search.

(** ** Test modules (dllsearch.c) *)
(* src/cfix/cfixrun/cfixrun.h:132-136 (CFIXRUN_MODULE_TYPE) *)
Inductive CFIXRUN_MODULE_TYPE := CfixrunDll | CfixrunSys.

Section modules.
Context {W : Type}.
Variable Callback : string -> CFIXRUN_MODULE_TYPE -> bool -> ST W Z.

(* src/cfix/cfixrun/dllsearch.c:33-74 (CfixrunsVisit) *)
Definition CfixrunsVisit (IncludeDrivers : bool) (Path : string) (Type_ : CFIXUTIL_VISIT_TYPE)
    (SearchPerformed : bool) : ST W Z :=
  match Type_ with
  | CfixutilFile =>
      if CfixrunpIsDll Path then Callback Path CfixrunDll SearchPerformed
      else if IncludeDrivers && CfixrunpIsSys Path then Callback Path CfixrunSys SearchPerformed
      else ret S_OK
  | _ => ret S_OK
  end.

(* src/cfix/cfixrun/dllsearch.c:100-123 (CfixrunSearchModules) *)
Definition CfixrunSearchModules (GetFullPathName : string -> Z + string) (GetCurrentDirectory : Z + string)
    (PathCombine : string -> string -> option string) (FindFiles : string -> Z + list WIN32_FIND_DATA)
    (GetFileAttributes : string -> option Z)
    (fuel : nat) (Path : option string) (Recursive IncludeDrivers : bool) : ST W Z :=
  CfixutilSearch GetFullPathName GetCurrentDirectory PathCombine FindFiles GetFileAttributes
    (CfixrunsVisit IncludeDrivers) fuel Path Recursive.
End modules.

(** ** What a search visits *)
Inductive FILETREE := TFile (Name : string) | TLink (Name : string) | TDir (Name : string) (Children : list FILETREE).
Definition NameOf (t : FILETREE) : string :=
  match t with TFile n | TLink n | TDir n _ => n end.

Section tree.
Variable GetFullPathName : string -> Z + string.
Variable PathCombine : string -> string -> option string.
Variable FindFiles : string -> Z + list WIN32_FIND_DATA.

(** A match describes a member of a directory. *)
Definition Describes (m : WIN32_FIND_DATA) (t : FILETREE) : Prop :=
  cFileName m = NameOf t /\ cFileName m <> "." /\ cFileName m <> ".." /\
  match t with
  | TFile _ => FlagOn FILE_ATTRIBUTE_REPARSE_POINT (dwFileAttributes m) = false /\
               FlagOn FILE_ATTRIBUTE_DIRECTORY (dwFileAttributes m) = false
  | TLink _ => FlagOn FILE_ATTRIBUTE_REPARSE_POINT (dwFileAttributes m) = true
  | TDir _ _ => FlagOn FILE_ATTRIBUTE_REPARSE_POINT (dwFileAttributes m) = false /\
                FlagOn FILE_ATTRIBUTE_DIRECTORY (dwFileAttributes m) = true
  end.
Definition Dot (m : WIN32_FIND_DATA) : bool :=
  String.eqb (cFileName m) "." || String.eqb (cFileName m) "..".

(** The tree [t] is at the path [p], to the given depth. *)
Fixpoint At (depth : nat) (p : string) (t : FILETREE) : Prop :=
  match t with
  | TFile _ | TLink _ => True
  | TDir _ ts =>
      match depth with
      | O => False
      | S depth =>
          GetFullPathName p = inr p /\
          exists Filter ms, PathCombine p "*.*" = Some Filter /\ FindFiles Filter = inr ms /\
            Forall2 (fun m t => Describes m t /\
                       exists q, PathCombine p (NameOf t) = Some q /\ At depth q t)
              (filter (fun m => Dot m = false) ms) ts
      end
  end.

Notation VISIT := (string * CFIXUTIL_VISIT_TYPE)%type.

(** The visits of a tree at a path. *)
Fixpoint Visits (Recursive : bool) (p : string) (t : FILETREE) : list VISIT :=
  match t with
  | TFile _ => [(p, CfixutilFile)]
  | TLink _ => []
  | TDir _ ts =>
      (p, CfixutilEnterDirectory) ::
      (fix members (ts : list FILETREE) : list VISIT :=
         match ts with
         | [] => []
         | t :: ts =>
             match PathCombine p (NameOf t) with
             | Some q => match t with
                         | TDir _ _ => if Recursive then Visits Recursive q t else []
                         | _ => Visits Recursive q t
                         end
             | None => []
             end ++ members ts
         end) ts ++ [(p, CfixutilLeaveDirectory)]
  end.

(** The visits of a member, and of the members, of the directory [p]. *)
Definition MemberVisits (Recursive : bool) (p : string) (t : FILETREE) : list VISIT :=
  match PathCombine p (NameOf t) with
  | Some q => match t with
              | TDir _ _ => if Recursive then Visits Recursive q t else []
              | _ => Visits Recursive q t
              end
  | None => []
  end.

Lemma Visits_dir Recursive p n ts :
  Visits Recursive p (TDir n ts) =
    (p, CfixutilEnterDirectory) :: concat (MemberVisits Recursive p <$> ts) ++ [(p, CfixutilLeaveDirectory)].
Proof.
  cbn [Visits]. f_equal. f_equal. induction ts as [|t ts IH]; [done|].
  rewrite fmap_cons. cbn [concat]. by rewrite <-IH.
Qed.
End tree.

Section visits.
Context {W : Type}.
Variable GetFullPathName : string -> Z + string.
Variable GetCurrentDirectory : Z + string.
Variable PathCombine : string -> string -> option string.
Variable FindFiles : string -> Z + list WIN32_FIND_DATA.
Variable Routine : string -> CFIXUTIL_VISIT_TYPE -> bool -> ST W Z.

Fixpoint RunVisits (l : list (string * CFIXUTIL_VISIT_TYPE)) : ST W unit :=
  match l with [] => ret tt | (p, v) :: l => Routine p v true ;;; RunVisits l end.

Lemma RunVisits_app l1 l2 w : RunVisits (l1 ++ l2) w = (RunVisits l1 ;;; RunVisits l2) w.
Proof.
  revert w. induction l1 as [|[p v] l1 IH]; intros w; simpl; [done|].
  rewrite bind_assoc. destruct (Routine p v true w) as [[Hr w']|] eqn:E.
  - rewrite !(bind_eq _ _ _ _ _ E). apply IH.
  - by rewrite !bind_None.
Qed.

(** The visitor succeeds as long as it finds what it has left behind. *)
Variable Inv : W -> Prop.
Hypothesis Routine_ok : forall p v w, Inv w ->
  exists Hr w', Routine p v true w = Some (Hr, w') /\ SUCCEEDED Hr = true /\ Inv w'.

(** [m] performs the visits [l] and succeeds. *)
Definition Performs (m : ST W Z) (l : list (string * CFIXUTIL_VISIT_TYPE)) : Prop :=
  forall w, Inv w -> exists Hr w', m w = Some (Hr, w') /\ SUCCEEDED Hr = true /\ Inv w' /\
                     RunVisits l w = Some (tt, w').

Lemma Performs_nothing Hr : SUCCEEDED Hr = true -> Performs (ret Hr) [].
Proof. intros Hok w HI. by exists Hr, w. Qed.

Lemma Performs_routine p v : Performs (Routine p v true) [(p, v)].
Proof.
  intros w HI. destruct (Routine_ok p v w HI) as (Hr & w' & H & Hs & HI').
  exists Hr, w'. split_and!; [done..|]. simpl. by rewrite (bind_eq _ _ _ _ _ H).
Qed.

Lemma VisitMatches_performs (Descend : string -> ST W Z) p Recursive ms ts Hr :
  Forall2 (fun m t => Describes m t /\ exists q, PathCombine p (NameOf t) = Some q /\
             (forall n ts', t = TDir n ts' -> Recursive = true ->
                Performs (Descend q) (Visits PathCombine Recursive q t)))
    (filter (fun m => Dot m = false) ms) ts ->
  SUCCEEDED Hr = true ->
  Performs (VisitMatches PathCombine Routine Descend p Recursive ms Hr)
    (concat (MemberVisits PathCombine Recursive p <$> ts)).
Proof.
  revert ts Hr. induction ms as [|m ms IH]; intros ts Hr Hms Hok.
  { rewrite filter_nil in Hms. apply Forall2_nil_inv_l in Hms as ->. by apply Performs_nothing. }
  cbn [VisitMatches].
  destruct (Dot m) eqn:Ed.
  { rewrite filter_cons_False in Hms by congruence. intros w HI.
    assert (VisitMatch PathCombine Routine Descend p Recursive m Hr w = Some (Hr, w)) as Hm.
    { unfold VisitMatch. unfold Dot in Ed. by rewrite Ed. }
    rewrite (bind_eq _ _ _ _ _ Hm), Hok. by apply IH. }
  rewrite filter_cons_True in Hms by done.
  apply Forall2_cons_inv_l in Hms as (t & ts' & [[Hn [_ [_ Hattr]]] (q & Hq & Hd)] & Hms & ->).
  assert (Performs (VisitMatch PathCombine Routine Descend p Recursive m Hr)
            (MemberVisits PathCombine Recursive p t)) as Hm.
  { unfold VisitMatch, MemberVisits. unfold Dot in Ed. rewrite Ed, Hn, Hq.
    destruct t as [n|n|n ts0].
    - destruct Hattr as [-> ->]. apply Performs_routine.
    - rewrite Hattr. by apply Performs_nothing.
    - destruct Hattr as [-> ->]. destruct Recursive; [|by apply Performs_nothing].
      intros w HI. destruct (Hd n ts0 eq_refl eq_refl w HI) as (Hr' & w' & H & Hs & Hv).
      rewrite (bind_eq _ _ _ _ _ H). eexists _, w'. split; [reflexivity|]. split; [|done].
      by destruct (E_ACCESSDENIED =? Hr'). }
  intros w HI. destruct (Hm w HI) as (Hr' & w' & H & Hs & HI' & Hv).
  rewrite (bind_eq _ _ _ _ _ H), Hs.
  destruct (IH ts' Hr' Hms Hs w' HI') as (Hr2 & w2 & H2 & Hs2 & HI2 & Hv2).
  exists Hr2, w2. split_and!; [done..|]. rewrite fmap_cons. cbn [concat].
  by rewrite RunVisits_app, (bind_eq _ _ _ _ _ Hv).
Qed.

Lemma Traverse_performs Recursive fuel : forall p n ts,
  At GetFullPathName PathCombine FindFiles fuel p (TDir n ts) ->
  Performs (CfixutilsTraverseDirectory GetFullPathName GetCurrentDirectory PathCombine FindFiles Routine
              fuel p false Recursive) (Visits PathCombine Recursive p (TDir n ts)).
Proof.
  induction fuel as [|fuel IH]; intros p n ts Hat; [done|].
  destruct Hat as (Hfull & Filter & ms & Hc & Hff & Hms). cbn [CfixutilsTraverseDirectory].
  unfold DirectoryAndFilter. rewrite Hfull, Hc, Hff, Visits_dir. intros w HI.
  destruct (Performs_routine p CfixutilEnterDirectory w HI) as (Hr & w1 & H1 & Hs1 & HI1 & Hv1).
  rewrite (bind_eq _ _ _ _ _ H1), Hs1.
  destruct (VisitMatches_performs
    (fun q => CfixutilsTraverseDirectory GetFullPathName GetCurrentDirectory PathCombine FindFiles Routine
                fuel q false Recursive) p Recursive ms ts Hr) with (w := w1)
    as (Hr2 & w2 & H2 & Hs2 & HI2 & Hv2); [|done|done|].
  { eapply Forall2_impl; [exact Hms|]. intros m t [Hdes (q & Hq & Hatq)].
    split; [done|]. exists q. split; [done|]. intros n' ts' -> _. by apply IH. }
  rewrite (bind_eq _ _ _ _ _ H2).
  destruct (Performs_routine p CfixutilLeaveDirectory w2 HI2) as (Hr3 & w3 & H3 & Hs3 & HI3 & Hv3).
  rewrite (bind_eq _ _ _ _ _ H3). eexists _, w3. split; [reflexivity|]. split; [|split; [done|]].
  - rewrite Hs2. by destruct (FAILED Hr3) eqn:E; [unfold SUCCEEDED in Hs3; rewrite E in Hs3|].
  - change ((p, CfixutilEnterDirectory) :: ?l) with ([(p, CfixutilEnterDirectory)] ++ l).
    rewrite RunVisits_app, (bind_eq _ _ _ _ _ Hv1), RunVisits_app, (bind_eq _ _ _ _ _ Hv2). done.
Qed.
End visits.

(** ** Modules in a tree *)
Definition ModuleOf (IncludeDrivers : bool) (v : string * CFIXUTIL_VISIT_TYPE)
    : option (string * CFIXRUN_MODULE_TYPE) :=
  match snd v with
  | CfixutilFile =>
      if CfixrunpIsDll (fst v) then Some (fst v, CfixrunDll)
      else if IncludeDrivers && CfixrunpIsSys (fst v) then Some (fst v, CfixrunSys)
      else None
  | _ => None
  end.

Section finding.
Context {W : Type}.
Variable GetFullPathName : string -> Z + string.
Variable GetCurrentDirectory : Z + string.
Variable PathCombine : string -> string -> option string.
Variable FindFiles : string -> Z + list WIN32_FIND_DATA.
Variable GetFileAttributes : string -> option Z.
Variable Callback : string -> CFIXRUN_MODULE_TYPE -> bool -> ST W Z.
Variable Inv : W -> Prop.
Hypothesis Callback_ok : forall p t w, Inv w ->
  exists Hr w', Callback p t true w = Some (Hr, w') /\ SUCCEEDED Hr = true /\ Inv w'.

Fixpoint RunCallbacks (SearchPerformed : bool) (l : list (string * CFIXRUN_MODULE_TYPE)) : ST W unit :=
  match l with [] => ret tt | (p, t) :: l => Callback p t SearchPerformed ;;; RunCallbacks SearchPerformed l end.

Lemma Visit_ok IncludeDrivers p v w : Inv w ->
  exists Hr w', CfixrunsVisit Callback IncludeDrivers p v true w = Some (Hr, w') /\ SUCCEEDED Hr = true /\ Inv w'.
Proof.
  intros HI. unfold CfixrunsVisit. destruct v; try by exists S_OK, w.
  destruct (CfixrunpIsDll p); [by apply Callback_ok|].
  destruct (_ && _); [by apply Callback_ok|by exists S_OK, w].
Qed.

Lemma RunVisits_modules IncludeDrivers l w :
  RunVisits (CfixrunsVisit Callback IncludeDrivers) l w =
    RunCallbacks true (omap (ModuleOf IncludeDrivers) l) w.
Proof.
  revert w. induction l as [|[p v] l IH]; intros w; [done|].
  cbn [RunVisits omap list_omap]. unfold ModuleOf at 1, CfixrunsVisit at 1. cbn [fst snd].
  destruct v; try (rewrite bind_ret; apply IH).
  destruct (CfixrunpIsDll p); [|destruct (_ && _); [|rewrite bind_ret; apply IH]].
  all: cbn [RunCallbacks]; match goal with |- bind ?m _ ?w0 = _ => destruct (m w0) as [[a w']|] eqn:E end;
    [rewrite !(bind_eq _ _ _ _ _ E); apply IH|by rewrite !bind_None].
Qed.

Lemma Search_modules fuel p n ts a Recursive IncludeDrivers w :
  GetFileAttributes p = Some a -> FlagOn FILE_ATTRIBUTE_DIRECTORY a = true -> Inv w ->
  At GetFullPathName PathCombine FindFiles fuel p (TDir n ts) ->
  exists Hr w',
    CfixrunSearchModules Callback GetFullPathName GetCurrentDirectory PathCombine FindFiles
      GetFileAttributes fuel (Some p) Recursive IncludeDrivers w = Some (Hr, w') /\
    SUCCEEDED Hr = true /\ Inv w' /\
    RunCallbacks true (omap (ModuleOf IncludeDrivers) (Visits PathCombine Recursive p (TDir n ts))) w = Some (tt, w').
Proof.
  intros Ha Hd HI Hat. unfold CfixrunSearchModules, CfixutilSearch. rewrite Ha, Hd.
  destruct (Traverse_performs GetFullPathName GetCurrentDirectory PathCombine FindFiles
    (CfixrunsVisit Callback IncludeDrivers) Inv (Visit_ok IncludeDrivers) Recursive fuel p n ts
    Hat w HI) as (Hr & w' & H & Hs & HI' & Hv).
  exists Hr, w'. split_and!; [done..|]. by rewrite <-RunVisits_modules.
Qed.

Lemma Search_file fuel p a Recursive IncludeDrivers :
  GetFileAttributes p = Some a -> FlagOn FILE_ATTRIBUTE_DIRECTORY a = false ->
  CfixrunSearchModules Callback GetFullPathName GetCurrentDirectory PathCombine FindFiles
      GetFileAttributes fuel (Some p) Recursive IncludeDrivers =
    match ModuleOf IncludeDrivers (p, CfixutilFile) with
    | Some (p, t) => Callback p t false
    | None => ret S_OK
    end.
Proof.
  intros Ha Hd. unfold CfixrunSearchModules, CfixutilSearch. rewrite Ha, Hd.
  unfold CfixrunsVisit, ModuleOf. cbn [fst snd].
  destruct (CfixrunpIsDll p); [done|]. by destruct (_ && _).
Qed.
End finding.

(** What the visitor of modules preserves, a search preserves. *)
Section preserving.
Context {W : Type} (I : W -> Prop).
Variable GetFullPathName : string -> Z + string.
Variable GetCurrentDirectory : Z + string.
Variable PathCombine : string -> string -> option string.
Variable FindFiles : string -> Z + list WIN32_FIND_DATA.
Variable GetFileAttributes : string -> option Z.

Lemma preserves_VisitMatches (Routine : string -> CFIXUTIL_VISIT_TYPE -> bool -> ST W Z) Descend p Recursive ms :
  (forall p v b, preserves I (Routine p v b)) -> (forall q, preserves I (Descend q)) ->
  forall Hr, preserves I (VisitMatches PathCombine Routine Descend p Recursive ms Hr).
Proof.
  intros HR HD. induction ms as [|m ms IH]; intros Hr; cbn [VisitMatches]; [apply preserves_ret|].
  apply preserves_bind; [|intros Hr'; by apply preserves_if; [|apply preserves_ret]].
  unfold VisitMatch. destruct (_ || _); [apply preserves_ret|].
  destruct (FlagOn _ _); [apply preserves_ret|].
  destruct (FlagOn _ _); [destruct Recursive; [|apply preserves_ret]|];
    (destruct (PathCombine p (cFileName m)); [|by intros s a s' _]); [|done].
  apply preserves_bind; [done|]. intros ?. apply preserves_ret.
Qed.

Lemma preserves_CfixutilsTraverseDirectory Routine fuel :
  (forall p v b, preserves I (Routine p v b)) ->
  forall p b Recursive, preserves I (CfixutilsTraverseDirectory GetFullPathName GetCurrentDirectory PathCombine
                                       FindFiles Routine fuel p b Recursive).
Proof.
  intros HR. induction fuel as [|fuel IH]; intros p b Recursive; [by intros s a s' _|].
  cbn [CfixutilsTraverseDirectory]. destruct (DirectoryAndFilter _ _ _ _ _) as [Hr|[d f]]; [apply preserves_ret|].
  destruct (FindFiles f) as [e|ms]; [apply preserves_ret|].
  apply preserves_bind; [done|]. intros Hr. apply preserves_if; [|apply preserves_ret].
  apply preserves_bind; [by apply preserves_VisitMatches|]. intros Hr1.
  apply preserves_bind; [done|]. intros Hr2. apply preserves_ret.
Qed.

Lemma preserves_CfixrunSearchModules (Callback : string -> CFIXRUN_MODULE_TYPE -> bool -> ST W Z) fuel
    Path Recursive IncludeDrivers :
  (forall p t b, preserves I (Callback p t b)) ->
  preserves I (CfixrunSearchModules Callback GetFullPathName GetCurrentDirectory PathCombine FindFiles
                 GetFileAttributes fuel Path Recursive IncludeDrivers).
Proof.
  intros HC.
  assert (forall p v b, preserves I (CfixrunsVisit Callback IncludeDrivers p v b)) as HV.
  { intros p v b. unfold CfixrunsVisit. destruct v; try apply preserves_ret.
    destruct (CfixrunpIsDll p); [done|]. apply preserves_if; [done|apply preserves_ret]. }
  unfold CfixrunSearchModules, CfixutilSearch. destruct Path as [p|]; [|apply preserves_ret].
  destruct (GetFileAttributes p) as [a|]; apply preserves_if; try apply preserves_ret;
    by (apply preserves_CfixutilsTraverseDirectory || apply HV).
Qed.
End preserving.

Section claims.
Context {W : Type}.
Variable GetFullPathName : string -> Z + string.
Variable GetCurrentDirectory : Z + string.
Variable PathCombine : string -> string -> option string.
Variable FindFiles : string -> Z + list WIN32_FIND_DATA.
Variable GetFileAttributes : string -> option Z.
Variable Callback : string -> CFIXRUN_MODULE_TYPE -> bool -> ST W Z.
Hypothesis Callback_ok : forall p t b w, exists Hr w', Callback p t b w = Some (Hr, w') /\ SUCCEEDED Hr = true.

(** C36. The runner finds every module below a directory: when the visitor of modules
    does not fail, a search calls it exactly once for each file with a DLL's (or,
    if asked for, a driver's) extension, in the order of the directories' lists,
    descending into subdirectories only if asked for and into links never, and
    succeeds.  A path to a file is visited as an explicit choice, without a
    search. *)
Theorem search_finds_modules fuel p n ts a Recursive IncludeDrivers w :
  GetFileAttributes p = Some a ->
  (FlagOn FILE_ATTRIBUTE_DIRECTORY a = true -> At GetFullPathName PathCombine FindFiles fuel p (TDir n ts)) ->
  exists Hr w',
    CfixrunSearchModules Callback GetFullPathName GetCurrentDirectory PathCombine FindFiles
      GetFileAttributes fuel (Some p) Recursive IncludeDrivers w = Some (Hr, w') /\
    SUCCEEDED Hr = true /\
    (let IsDirectory := FlagOn FILE_ATTRIBUTE_DIRECTORY a in
     let Visited := if IsDirectory then Visits PathCombine Recursive p (TDir n ts) else [(p, CfixutilFile)] in
     RunCallbacks Callback IsDirectory (omap (ModuleOf IncludeDrivers) Visited) w = Some (tt, w')).
Proof.
  intros Ha Hat. destruct (FlagOn FILE_ATTRIBUTE_DIRECTORY a) eqn:Hd; cbv zeta.
  - destruct (Search_modules GetFullPathName GetCurrentDirectory PathCombine FindFiles GetFileAttributes
      Callback (fun _ => True)) with (fuel := fuel) (p := p) (n := n) (ts := ts) (a := a)
      (Recursive := Recursive) (IncludeDrivers := IncludeDrivers) (w := w)
      as (Hr & w' & H & Hs & _ & Hc); [|done|done|done|by apply Hat|by exists Hr, w'].
    intros p' t w' _. destruct (Callback_ok p' t true w') as (Hr & w2 & H). exists Hr, w2. tauto.
  - rewrite (Search_file _ _ _ _ _ _ _ _ a) by done. cbn [omap list_omap].
    destruct (ModuleOf IncludeDrivers (p, CfixutilFile)) as [[q t]|]; [|by exists S_OK, w].
    destruct (Callback_ok q t false w) as (Hr & w' & H & Hs). exists Hr, w'.
    cbn [RunCallbacks]. by rewrite (bind_eq _ _ _ _ _ H).
Qed.
End claims.

(** ** A concrete instance *)
Module Demo.
Definition Full (p : string) : Z + string := inr p.
Definition Combine (p q : string) : option string := Some (p +:+ "\" +:+ q).
Definition Find (f : string) : Z + list WIN32_FIND_DATA :=
  if String.eqb f "c:\*.*" then
    inr [MkFindData "." 0x10; MkFindData "a.DLL" 0; MkFindData "sub" 0x10; MkFindData "l.dll" 0x400]
  else if String.eqb f "c:\sub\*.*" then inr [MkFindData "b.sys" 0; MkFindData "c.txt" 0]
  else inl ERROR_NO_MORE_FILES.
Definition Attributes (p : string) : option Z := Some 0x10.
Definition Log (p : string) (t : CFIXRUN_MODULE_TYPE) (b : bool) : ST (list string) Z :=
  modify (fun l => l ++ [p]) ;;; ret S_OK.
Definition members : list FILETREE := [TFile "a.DLL"; TDir "sub" [TFile "b.sys"; TFile "c.txt"]; TLink "l.dll"].

Lemma members_at : At Full Combine Find 3 "c:" (TDir "c:" members).
Proof.
  split; [reflexivity|]. eexists _, _. split; [reflexivity|]. split; [reflexivity|].
  repeat constructor; simpl; try discriminate; try (eexists; split; [reflexivity|]); try exact I.
  split; [reflexivity|]. eexists _, _. split; [reflexivity|]. split; [reflexivity|].
  repeat constructor; simpl; try discriminate; try (eexists; split; [reflexivity|]); exact I.
Qed.

Lemma search_finds_modules_witness :
  exists Hr, CfixrunSearchModules Log Full (inr "c:") Combine Find Attributes 3 (Some "c:") true true []
    = Some (Hr, ["c:\a.DLL"; "c:\sub\b.sys"]).
Proof.
  destruct (search_finds_modules Full (inr "c:") Combine Find Attributes Log) with
    (fuel := 3%nat) (p := "c:") (n := "c:") (ts := members) (a := 0x10) (Recursive := true)
    (IncludeDrivers := true) (w := @nil string) as (Hr & w' & H).
  - intros p t b w. eexists _, _. split; reflexivity.
  - reflexivity.
  - intros _. exact members_at.
  - destruct H as (H & _ & Hc). exists Hr. vm_compute in Hc. injection Hc as <-. exact H.
Defined.
End Demo.
