(* ===== verification/RunTest.v ===== *)
(** * Selecting fixtures and assembling actions (cfix/cfixrun/runtest.c,
      cfix/cfixrun/fixturesearch.c)

    The runner searches modules, applies the name filter to their fixtures, and
    adds an action for each selected fixture to a sequence.  The state is the
    count of fixtures beside the action objects of [Sequence].  How a module is
    created is the business of [PeModule]; here it is an operation that returns a
    result code, the module and its fixtures. *)
From stdpp Require Import base gmap list strings.
From Stdlib Require Import ZArith Lia Ascii.
From S2P Require Import Prelude CfixApi TsExec DisplayAction Sequence CmdLine Search.

(** ** The filter by name *)
(* src/include/cfixapi.h:564-567 (CFIX_FIXTURE_EXECUTION_SHORTCIRCUIT_RUN_ON_FAILURE) *)
Definition CFIX_FIXTURE_EXECUTION_SHORTCIRCUIT_RUN_ON_FAILURE : Z :=
  Z.lor (Z.lor CFIX_FIXTURE_EXECUTION_SHORTCIRCUIT_FIXTURE_ON_FAILURE
               CFIX_FIXTURE_EXECUTION_SHORTCIRCUIT_RUN_ON_SETUP_FAILURE)
        CFIX_FIXTURE_EXECUTION_ESCALATE_FIXTURE_FAILUES.

(** The part before the first dot, and the part after it if there is a dot. *)
Fixpoint SplitAtDot (s : string) : string * option string :=
  match s with
  | EmptyString => (EmptyString, None)
  | String c s =>
      if Ascii.eqb c "."%char then (EmptyString, Some s)
      else (String c (fst (SplitAtDot s)), snd (SplitAtDot s))
  end.

(** [StringCchCopy] into a buffer of [n] characters; [None] if it does not fit. *)
Definition StringCchCopy (n : nat) (s : string) : option string :=
  if (String.length s <? n)%nat then Some s else None.

(** [s] begins with [Prefix], ignoring case: the first occurrence that [StrStrI]
    finds is at the beginning. *)
Definition BeginsWithI (s Prefix : string) : bool := String.prefix (lower Prefix) (lower s).

(* src/cfix/cfixrun/runtest.c:173-185 (CfixrunsFilterFixtureByName) *)
Fixpoint FindTestCase (TestCaseName : string) (Cases : list CFIX_TEST_CASE) (Index : Z) : option Z :=
  match Cases with
  | [] => None
  | c :: Cases =>
      if wcsieq TestCaseName (TcName c) then Some Index else FindTestCase TestCaseName Cases (Index + 1)
  end.

(** The ordinal of the test case to include, or all; [None] to exclude the fixture. *)
(* src/cfix/cfixrun/runtest.c:111-202 (CfixrunsFilterFixtureByName) *)
Definition CfixrunsFilterFixtureByName (Options : CFIXRUN_OPTIONS) (Fixture : CFIX_FIXTURE) : option Z :=
  match Value Options OptFixture with
  | Some Name =>
      match StringCchCopy (Z.to_nat (CFIX_MAX_FIXTURE_NAME_CCH * 2)) Name with
      | None => None
      | Some Filter =>
          let '(Filter, TestCaseName) := SplitAtDot Filter in
          if negb (wcsieq Filter (FxName Fixture)) then None
          else match TestCaseName with
               | None => Some ALL_TESTCASES
               | Some TestCaseName => FindTestCase TestCaseName (TestCases Fixture) 0
               end
      end
  | None =>
      match Value Options OptFixturePrefix with
      | Some Prefix => if BeginsWithI (FxName Fixture) Prefix then Some ALL_TESTCASES else None
      | None => Some ALL_TESTCASES
      end
  end.

(* src/cfix/cfixrun/runtest.c:77-99 (CfixrunsCreateTsExecAction) *)
Definition ExecutionFlags (Options : CFIXRUN_OPTIONS) : Z :=
  let on (s : SWITCH) (f : Z) := if Switch Options s then f else 0 in
  Z.lor (Z.lor (Z.lor
    (if Switch Options DisableStackTraces then 0 else CFIX_FIXTURE_EXECUTION_CAPTURE_STACK_TRACES)
    (on ShortCircuitFixtureOnFailure CFIX_FIXTURE_EXECUTION_SHORTCIRCUIT_FIXTURE_ON_FAILURE))
    (on ShortCircuitRunOnFailure CFIX_FIXTURE_EXECUTION_SHORTCIRCUIT_RUN_ON_FAILURE))
    (on ShortCircuitRunOnSetupFailure CFIX_FIXTURE_EXECUTION_SHORTCIRCUIT_RUN_ON_SETUP_FAILURE).

(** ** Assembly *)
(** An address that no action has. *)
Definition NewAddress (os : ACTIONS) : Z := 1 + map_fold (fun a _ n => Z.max a n) 0 os.

Section assembly.
Context {X : Type}.
Variable Modules : Z -> CFIX_MODULE_ROUTINES X.
Variable malloc : ST X bool.
(** [CfixCreateTestModuleFromPeImage], [CfixklCreateTestModuleFromDriver], and
    [CfixCreateTestModule( GetModuleHandle( NULL ) )]: the result code, and the
    new module with its fixtures. *)
Variable CreateTestModule : string -> CFIXRUN_MODULE_TYPE -> ST X (Z * (Z * list CFIX_FIXTURE)).
Variable CreateTestModuleOfProcess : ST X (Z * (Z * list CFIX_FIXTURE)).
Variable Options : CFIXRUN_OPTIONS.

Local Abbreviation W := (Z * (ACTIONS * X))%type.
Local Abbreviation M := (ST W).

Definition act {A} (m : ST (ACTIONS * X) A) : M A := fun '(c, s) =>
  match m s with Some (a, s') => Some (a, (c, s')) | None => None end.

(** [Context->FixtureCount++] *)
Definition CountFixture : M unit := modify (fun '(c, s) => (ULONG (c + 1), s)).

(** Run a creation at a new address; the result is the code and the action. *)
Definition Created (create : Z -> ST (ACTIONS * X) Z) : M (Z * Z) :=
  addr <- gets (fun s => NewAddress (fst (snd s))) ;;
  Hr <- act (create addr) ;;
  if SUCCEEDED Hr then CountFixture ;;; ret (Hr, addr) else ret (Hr, 0).

(* src/cfix/cfixrun/runtest.c:64-109 (CfixrunsCreateTsExecAction) *)
Definition CfixrunsCreateTsExecAction (ModuleId : Z) (Fixture : CFIX_FIXTURE) (TestCase : Z) : M (Z * Z) :=
  Created (fun addr =>
    NewFixtureExecutionAction Modules malloc addr ModuleId Fixture (ExecutionFlags Options) TestCase).

(* src/cfix/cfixrun/runtest.c:37-62 (CfixrunsCreateDisplayAction) *)
Definition CfixrunsCreateDisplayAction (ModuleId : Z) (Fixture : CFIX_FIXTURE) (TestCase : Z) : M (Z * Z) :=
  Created (fun addr =>
    r <- ext (CfixrunpCreateDisplayAction (Modules ModuleId) malloc Fixture) ;;
    match snd r with
    | Some f => store addr (DisplayAction 1 ModuleId f) ;;; ret (fst r)
    | None => ret (fst r)
    end).

Section callbacks.
Variable FilterCallback : CFIX_FIXTURE -> option Z.
Variable CreateActionCallback : Z -> CFIX_FIXTURE -> Z -> M (Z * Z).

(* src/cfix/cfixrun/fixturesearch.c:29-103 (CfixrunsAddFixturesOfModuleToSequenceAction) *)
Fixpoint CfixrunsAddFixturesOfModuleToSequenceAction (TestModule : Z) (Fixtures : list CFIX_FIXTURE)
    (SequenceAction : Z) (Hr : Z) : M Z :=
  match Fixtures with
  | [] => ret Hr
  | Fixture :: Fixtures =>
      match FilterCallback Fixture with
      | None => CfixrunsAddFixturesOfModuleToSequenceAction TestModule Fixtures SequenceAction Hr
      | Some TestCase =>
          r <- CreateActionCallback TestModule Fixture TestCase ;;
          if FAILED (fst r) || (snd r =? 0) then ret (fst r)
          else
            Hr <- act (CfixAddEntrySequenceAction malloc SequenceAction (snd r)) ;;
            act (Dereference Modules 1 (snd r)) ;;;
            if FAILED Hr then ret Hr
            else CfixrunsAddFixturesOfModuleToSequenceAction TestModule Fixtures SequenceAction Hr
      end
  end.

(* src/cfix/cfixrun/fixturesearch.c:112-170 (CfixrunsAddFixturesOfDllToSequenceAction) *)
Definition CfixrunsAddFixturesOfDllToSequenceAction (SequenceAction : Z) (Path : string)
    (Type_ : CFIXRUN_MODULE_TYPE) (SearchPerformed : bool) : M Z :=
  r <- act (ext (CreateTestModule Path Type_)) ;;
  if FAILED (fst r) then ret (if SearchPerformed then S_OK else fst r)
  else
    Hr <- CfixrunsAddFixturesOfModuleToSequenceAction (fst (snd r)) (snd (snd r)) SequenceAction S_OK ;;
    act (ext (ModDereference (Modules (fst (snd r))))) ;;;
    ret Hr.

(** The new sequence is filled; if that fails, it is released.  The fuel is the
    nesting of the sequence. *)
(* src/cfix/cfixrun/fixturesearch.c:193-235 (CfixrunpSearchFixturesAndCreateSequenceAction) *)
Definition FillNewSequence (Fill : Z -> M Z) : M (Z * Z) :=
  addr <- gets (fun s => NewAddress (fst (snd s))) ;;
  Hr <- act (CfixCreateSequenceAction malloc addr) ;;
  if FAILED Hr then ret (Hr, 0)
  else
    Hr <- Fill addr ;;
    if SUCCEEDED Hr then ret (S_OK, addr)
    else act (Dereference Modules 2 addr) ;;; ret (Hr, 0).

(* src/cfix/cfixrun/fixturesearch.c:172-235 (CfixrunpSearchFixturesAndCreateSequenceAction) *)
Definition CfixrunpSearchFixturesAndCreateSequenceAction
    (Search : string -> (string -> CFIXRUN_MODULE_TYPE -> bool -> M Z) -> M Z)
    (DllOrDirectory : option string) : M (Z * Z) :=
  match DllOrDirectory with
  | None => ret (E_INVALIDARG, 0)
  | Some Path => FillNewSequence (fun addr => Search Path (CfixrunsAddFixturesOfDllToSequenceAction addr))
  end.

(* src/cfix/cfixrun/fixturesearch.c:237-288 (CfixrunpCreateSequenceAction) *)
Definition CfixrunpCreateSequenceAction (TestModule : Z) (Fixtures : list CFIX_FIXTURE) : M (Z * Z) :=
  FillNewSequence (fun addr => CfixrunsAddFixturesOfModuleToSequenceAction TestModule Fixtures addr S_OK).

(* src/cfix/cfixrun/runtest.c:204-236 (CfixrunsCreateSequenceActionForCurrentExecutable) *)
Definition CfixrunsCreateSequenceActionForCurrentExecutable : M (Z * Z) :=
  r <- act (ext CreateTestModuleOfProcess) ;;
  if FAILED (fst r) then ret (fst r, 0)
  else
    s <- CfixrunpCreateSequenceAction (fst (snd r)) (snd (snd r)) ;;
    act (ext (ModDereference (Modules (fst (snd r))))) ;;;
    ret s.
End callbacks.

(** [CfixrunSearchModules( Path, RecursiveSearch, EnableKernelFeatures, ... )] on the
    file system at hand. *)
Variable SearchModules : string -> bool -> bool -> (string -> CFIXRUN_MODULE_TYPE -> bool -> M Z) -> M Z.

(** The action that the options ask for, and the number of its fixtures; the
    count starts at zero. *)
Definition Assemble (CreateActionCallback : Z -> CFIX_FIXTURE -> Z -> M (Z * Z))
    : ST (ACTIONS * X) (Z * Z * Z) := fun s =>
  match
    match InputFileType Options with
    | CfixrunInputDynamicallyLoadable =>
        CfixrunpSearchFixturesAndCreateSequenceAction (CfixrunsFilterFixtureByName Options)
          CreateActionCallback
          (fun Path => SearchModules Path (Switch Options RecursiveSearch)
                         (Switch Options EnableKernelFeatures))
          (InputFile Options)
    | CfixrunInputRequiresSpawn =>
        CfixrunsCreateSequenceActionForCurrentExecutable (CfixrunsFilterFixtureByName Options)
          CreateActionCallback
    end (0, s)
  with
  | Some (r, (c, s')) => Some ((r, c), s')
  | None => None
  end.

(* src/cfix/cfixrun/runtest.c:238-275 (CfixrunpAssembleExecutionAction) *)
Definition CfixrunpAssembleExecutionAction : ST (ACTIONS * X) (Z * Z * Z) :=
  Assemble CfixrunsCreateTsExecAction.

(* src/cfix/cfixrun/runtest.c:277-314 (CfixrunpAssembleDisplayAction) *)
Definition CfixrunpAssembleDisplayAction : ST (ACTIONS * X) (Z * Z * Z) :=
  Assemble CfixrunsCreateDisplayAction.
End assembly.

(** ** What the filter includes *)
Section filtering.
Implicit Types (Options : CFIXRUN_OPTIONS) (f : CFIX_FIXTURE).

(** The test cases that run if the filter's answer is used to create an action. *)
Definition Included Options f : list CFIX_TEST_CASE :=
  match CfixrunsFilterFixtureByName Options f with
  | Some i => selected (MkTsExec f (ExecutionFlags Options) i)
  | None => []
  end.

(** The first test case with a name. *)
Definition FirstNamed (t : string) (Cases : list CFIX_TEST_CASE) : list CFIX_TEST_CASE :=
  take 1 (filter (fun c => wcsieq t (TcName c) = true) Cases).

Lemma selected_from_past a cs : TestCaseIndex a <> ALL_TESTCASES -> forall i, TestCaseIndex a < i ->
  selected_from a i cs = [].
Proof.
  intros Ha. induction cs as [|c cs IH]; intros i Hi; [done|]. simpl.
  destruct (Z.eqb_spec (TestCaseIndex a) ALL_TESTCASES), (Z.eqb_spec (TestCaseIndex a) i); try lia.
  apply IH. lia.
Qed.

Lemma FindTestCase_selected f fl t cs : forall i, i + Z.of_nat (length cs) <= ALL_TESTCASES ->
  match FindTestCase t cs i with
  | Some j => i <= j < i + Z.of_nat (length cs) /\ selected_from (MkTsExec f fl j) i cs = FirstNamed t cs
  | None => FirstNamed t cs = []
  end.
Proof.
  unfold FirstNamed. induction cs as [|c cs IH]; intros i Hi; [done|]. cbn [FindTestCase length] in *.
  destruct (wcsieq t (TcName c)) eqn:E.
  - rewrite filter_cons_True by done. split; [lia|]. simpl. rewrite (Z.eqb_refl i), orb_true_r.
    rewrite take_0, selected_from_past; [done|simpl; lia..].
  - rewrite filter_cons_False by congruence. specialize (IH (i + 1) ltac:(lia)).
    destruct (FindTestCase t cs (i + 1)) as [j|]; [|done]. destruct IH as [Hj <-]. split; [lia|].
    simpl. destruct (Z.eqb_spec j ALL_TESTCASES), (Z.eqb_spec j i); [lia..|done].
Qed.

Lemma SplitAtDot_none n : Contains "."%char n = false -> SplitAtDot n = (n, None).
Proof.
  induction n as [|c n IH]; simpl; [done|]. intros [Hc Hn]%orb_false_iff. rewrite Hc, IH by done. done.
Qed.

Lemma SplitAtDot_some n t : Contains "."%char n = false -> SplitAtDot (n +:+ "." +:+ t) = (n, Some t).
Proof.
  induction n as [|c n IH]; simpl; [done|]. intros [Hc Hn]%orb_false_iff.
  change (String.append n (String "." t)) with (n +:+ "." +:+ t). rewrite Hc, IH by done. done.
Qed.

(** Selection by name.  With an option [-n Fixture.Test] exactly the first test
    case of that name of a fixture of that name is included, and with [-n Fixture]
    all of its test cases (a name is taken to end at the first dot, and one of 256
    characters or more selects nothing); with [-p Prefix] the fixtures that begin
    with it; otherwise everything.  Names are compared without regard to case.  The
    ordinal the filter answers is one that the creation of an action accepts. *)
Theorem filter_includes Options f (fits : Z.of_nat (length (TestCases f)) <= ALL_TESTCASES) :
  (forall i, CfixrunsFilterFixtureByName Options f = Some i -> i = ALL_TESTCASES \/ 0 <= i < TestCaseCount f) /\
  match Value Options OptFixture, Value Options OptFixturePrefix with
  | None, None => Included Options f = TestCases f
  | None, Some p =>
      Included Options f = if BeginsWithI (FxName f) p then TestCases f else []
  | Some name, _ =>
      ((256 <= String.length name)%nat -> Included Options f = []) /\
      ((String.length name < 256)%nat ->
       (Contains "."%char name = false ->
        Included Options f = if wcsieq name (FxName f) then TestCases f else []) /\
       (forall n t, name = n +:+ "." +:+ t -> Contains "."%char n = false ->
        Included Options f = if wcsieq n (FxName f) then FirstNamed t (TestCases f) else []))
  end.
Proof.
  unfold Included, CfixrunsFilterFixtureByName, TestCaseCount, StringCchCopy.
  change (Z.to_nat (CFIX_MAX_FIXTURE_NAME_CCH * 2)) with 256%nat.
  assert (forall fl, selected (MkTsExec f fl ALL_TESTCASES) = TestCases f) as Hall
    by (intros fl; by apply selected_from_all).
  destruct (Value Options OptFixture) as [name|].
  2:{ destruct (Value Options OptFixturePrefix) as [p|]; [destruct (BeginsWithI _ p)|];
      (split; [intros i [= <-]; by left|apply Hall]) || done. }
  destruct (Nat.ltb_spec (String.length name) 256) as [Hl|Hl]; [|split; [done|split; [done|lia]]].
  split; [|split; [lia|intros _; split]].
  - destruct (SplitAtDot name) as [n [t|]], (negb _); try done; intros i; [|intros [= <-]; by left].
    intros Hi. right. pose proof (FindTestCase_selected f 0 t (TestCases f) 0 fits) as H.
    rewrite Hi in H. lia.
  - intros Hd. rewrite SplitAtDot_none by done. destruct (wcsieq name _); simpl; [apply Hall|done].
  - intros n t -> Hd. rewrite SplitAtDot_some by done. destruct (wcsieq n _); simpl; [|done].
    pose proof (FindTestCase_selected f (ExecutionFlags Options) t (TestCases f) 0 fits) as H.
    destruct (FindTestCase t _ 0); [by destruct H|done].
Qed.
End filtering.

(** ** Action objects during assembly *)
Lemma NewAddress_above os a o : os !! a = Some o -> a < NewAddress os.
Proof.
  unfold NewAddress. intros Ha.
  assert (forall m : ACTIONS, is_Some (m !! a) -> a <= map_fold (fun a _ n => Z.max a n) 0 m) as H.
  { intros m. induction m as [|b p m Hb IH] using map_ind; [by intros [? H]; rewrite lookup_empty in H|].
    intros Hm. rewrite map_fold_insert_L; [|intros; lia|done].
    destruct (decide (a = b)) as [->|Hne]; [lia|]. rewrite lookup_insert_ne in Hm by done.
    specialize (IH Hm). lia. }
  specialize (H os ltac:(by eexists)). lia.
Qed.

Lemma NewAddress_fresh os : os !! NewAddress os = None.
Proof. destruct (os !! NewAddress os) eqn:E; [|done]. apply NewAddress_above in E. lia. Qed.

Lemma NewAddress_positive os : 0 < NewAddress os.
Proof.
  unfold NewAddress. assert (0 <= map_fold (fun a (_ : ACTION) n => Z.max a n) 0 os) as H; [|lia].
  induction os as [|b p m Hb IH] using map_ind; [done|]. rewrite map_fold_insert_L; [lia|intros; lia|done].
Qed.

(** An object as it is created: one reference, no entries. *)
Definition plain (o : ACTION) : Prop := rc o = 1 /\ entries o = [].

(** The objects [os] are those of [os0], a new sequence at [root], and its entries. *)
Record Assembled (os0 : ACTIONS) (root : Z) (L : list (Z * ACTION)) (os : ACTIONS) : Prop := {
  as_nodup : NoDup (root :: L.*1);
  as_new : forall a, a ∈ root :: L.*1 -> os0 !! a = None;
  as_plain : Forall (fun p => plain (snd p)) L;
  as_os : os = <[root := SequenceAction 1 (L.*1) (Z.of_nat (length L)) 0]> (list_to_map L ∪ os0) }.

Lemma Assembled_root os0 root L os :
  Assembled os0 root L os -> os !! root = Some (SequenceAction 1 (L.*1) (Z.of_nat (length L)) 0).
Proof. intros [_ _ _ ->]. apply lookup_insert_eq. Qed.

Lemma Assembled_entry os0 root L os a o : Assembled os0 root L os -> (a, o) ∈ L -> os !! a = Some o.
Proof.
  intros [Hn Hnew _ ->] Hin. apply NoDup_cons in Hn as [Hr Hn].
  assert (a ∈ L.*1) as Ha by (apply list_elem_of_fmap; by exists (a, o)).
  rewrite lookup_insert_ne by (intros ->; done).
  apply lookup_union_Some_l. by apply elem_of_list_to_map.
Qed.

Lemma Assembled_start os0 root :
  os0 !! root = None -> Assembled os0 root [] (<[root := SequenceAction 1 [] 0 0]> os0).
Proof.
  intros Hr. split; [repeat constructor; set_solver| |constructor|].
  - intros a [->|H%elem_of_nil]%elem_of_cons; done.
  - simpl. by rewrite (left_id_L ∅ (∪)).
Qed.

Lemma Assembled_extends os0 root L os : Assembled os0 root L os -> os0 ⊆ os.
Proof.
  intros [Hn Hnew _ ->]. apply map_subseteq_spec. intros b o Hb.
  rewrite lookup_insert_ne by (intros <-; rewrite Hnew in Hb by set_solver; done).
  rewrite lookup_union_r; [done|]. apply not_elem_of_list_to_map. intros Hin.
  rewrite Hnew in Hb by set_solver. done.
Qed.

(** One more entry. *)
Lemma Assembled_add os0 root L os a o :
  Assembled os0 root L os -> os !! a = None -> plain o ->
  Assembled os0 root (L ++ [(a, o)])
    (<[a := set_rc 1 (set_rc 2 o)]> (<[root := SequenceAction 1 (L.*1 ++ [a]) (Z.of_nat (length L) + 1) 0]>
       (<[a := set_rc 2 o]> (<[a := o]> os)))).
Proof.
  intros HA Ha Hp. destruct HA as [Hn Hnew Hpl Eos].
  assert (a <> root) as Hne by (intros ->; by rewrite Eos, lookup_insert_eq in Ha).
  assert (a ∉ L.*1) as HaL.
  { intros Hin. apply list_elem_of_fmap in Hin as ([b o'] & -> & Hin).
    pose proof (Assembled_entry _ _ _ _ _ _ (Build_Assembled _ _ _ _ Hn Hnew Hpl Eos) Hin) as H.
    simpl in Ha. congruence. }
  assert (list_to_map (M := ACTIONS) L !! a = None) as HaM by (by apply not_elem_of_list_to_map).
  assert (os0 !! a = None) as Ha0.
  { rewrite Eos, lookup_insert_ne in Ha by done. by apply lookup_union_None in Ha as []. }
  assert (set_rc 1 (set_rc 2 o) = o) as ->.
  { rewrite set_rc_set_rc. destruct Hp as [<- _]. apply set_rc_id. }
  split.
  - rewrite fmap_app. simpl. rewrite app_comm_cons. apply NoDup_app. split_and!; [done| |apply NoDup_singleton].
    intros b Hb Hb'. apply list_elem_of_singleton in Hb' as ->. apply elem_of_cons in Hb as [|]; done.
  - intros b. rewrite fmap_app, app_comm_cons. intros [Hb|Hb]%elem_of_app; [auto|].
    simpl in Hb. apply list_elem_of_singleton in Hb as ->. done.
  - apply Forall_app. split; [done|]. by apply Forall_singleton.
  - rewrite fmap_app, length_app, Eos. simpl. rewrite Nat2Z.inj_add. simpl.
    apply map_eq. intros b. destruct (decide (b = root)) as [->|Hbr].
    { rewrite lookup_insert_ne by done. by rewrite !lookup_insert_eq. }
    rewrite (lookup_insert_ne _ root b) by done.
    rewrite list_to_map_app, <-(assoc_L (∪)). simpl.
    destruct (decide (b = a)) as [->|Hba].
    + rewrite lookup_insert_eq. symmetry. rewrite lookup_union_r by done.
      apply lookup_union_Some_l. apply lookup_insert_eq.
    + rewrite !lookup_insert_ne by done. rewrite !lookup_union.
      rewrite (lookup_insert_ne _ a b), lookup_empty by done. by destruct (_ !! b), (os0 !! b).
Qed.

Section objects.
Context {X : Type}.
Variable Modules : Z -> CFIX_MODULE_ROUTINES X.
Hypothesis Dereference_returns : forall m x, exists x', ModDereference (Modules m) x = Some (tt, x').

Lemma Dereference_last fuel a o os (x : X) :
  os !! a = Some o -> plain o ->
  exists x', Dereference Modules (S fuel) a (os, x) = Some (tt, (delete a os, x')).
Proof.
  intros Ho [Hrc He]. cbn [Dereference]. rewrite (bind_eq _ _ _ _ _ (load_spec _ _ _ _ Ho)).
  cbv zeta. rewrite Hrc. change (LONG (1 - 1)) with 0. unfold store at 1. unfold bind at 1. simpl.
  destruct o as [n m b|n es c k|n m b]; simpl in He; subst.
  1, 3: (destruct (Dereference_returns m x) as [x' Hx]; exists x'; unfold bind, ext; rewrite Hx;
         unfold free; by rewrite delete_insert_eq).
  exists x. unfold bind, for_each, ret, free. by rewrite delete_insert_eq.
Qed.

Lemma Dereference_shared fuel a o os (x : X) :
  os !! a = Some o -> rc o = 2 ->
  Dereference Modules (S fuel) a (os, x) = Some (tt, (<[a := set_rc 1 o]> os, x)).
Proof.
  intros Ho Hrc. cbn [Dereference]. rewrite (bind_eq _ _ _ _ _ (load_spec _ _ _ _ Ho)).
  cbv zeta. rewrite Hrc. change (LONG (2 - 1)) with 1. unfold store at 1. by unfold bind at 1.
Qed.

Lemma AddEntrySequence_spec malloc root a n es c k o os (x : X) b x' :
  os !! root = Some (SequenceAction n es c k) -> os !! a = Some o -> a <> root -> 0 < rc o -> rc o + 1 < 2 ^ 31 ->
  malloc x = Some (b, x') ->
  CfixAddEntrySequenceAction malloc root a (os, x) =
    if b : bool
    then Some (S_OK, (<[root := SequenceAction n (es ++ [a]) (c + 1) k]> (<[a := set_rc (rc o + 1) o]> os), x'))
    else Some (E_OUTOFMEMORY, (os, x')).
Proof.
  intros Hr Ha Hne Hrc Hmax Hm. unfold CfixAddEntrySequenceAction.
  rewrite (proj2 (Z.eqb_neq a root) Hne), (bind_eq _ _ _ _ _ (load_spec _ _ _ _ Hr)).
  erewrite (bind_eq (ext malloc)) by (unfold ext; by rewrite Hm). destruct b; simpl; [|done].
  unfold Reference. rewrite bind_assoc, (bind_eq _ _ _ _ _ (load_spec _ _ _ _ Ha)).
  rewrite LONG_small by lia.
  unfold store at 1. unfold bind at 1. set (os1 := <[a := _]> os).
  assert (os1 !! root = Some (SequenceAction n es c k)) as Hs1 by (unfold os1; by rewrite lookup_insert_ne).
  unfold enter. rewrite bind_assoc, (bind_eq _ _ _ _ _ (load_spec _ _ _ _ Hs1)).
  unfold store at 1. unfold bind at 1.
  erewrite bind_eq; [|apply load_spec, lookup_insert_eq].
  unfold store at 1. unfold bind at 1. rewrite insert_insert_eq.
  unfold leave. rewrite bind_assoc. erewrite bind_eq; [|apply load_spec, lookup_insert_eq].
  unfold store at 1. unfold bind at 1. rewrite insert_insert_eq. unfold ret.
  by replace (k + 1 - 1) with k by lia.
Qed.

(** Releasing the sequence releases its entries, and leaves what was there. *)
Lemma release_entries fuel (L : list (Z * ACTION)) : forall os (x : X),
  NoDup (L.*1) -> Forall (fun p => plain (snd p)) L ->
  (forall a o, (a, o) ∈ L -> os !! a = Some o) ->
  exists os' x', for_each (Dereference Modules (S fuel)) (L.*1) (os, x) = Some (tt, (os', x')) /\
    forall b, os' !! b = if decide (b ∈ L.*1) then None else os !! b.
Proof.
  induction L as [|[a o] L IH]; intros os x Hn Hp Hos.
  { exists os, x. split; [done|]. intros b. by rewrite decide_False by (apply not_elem_of_nil). }
  cbn [fmap list_fmap fst] in *. apply NoDup_cons in Hn as [Ha Hn]. apply Forall_cons in Hp as [Hpo Hp].
  destruct (Dereference_last fuel a o os x (Hos a o ltac:(set_solver)) Hpo) as [x1 E1].
  cbn [for_each]. rewrite (bind_eq _ _ _ _ _ E1).
  destruct (IH (delete a os) x1 Hn) as (os' & x' & E & H).
  - done.
  - intros b p Hb. rewrite lookup_delete_ne; [apply Hos; set_solver|].
    intros <-. apply Ha, list_elem_of_fmap. by exists (a, p).
  - exists os', x'. split; [done|]. intros b. rewrite H. destruct (decide (b = a)) as [->|Hne].
    + rewrite decide_False by done. rewrite lookup_delete_eq, decide_True by set_solver. done.
    + rewrite lookup_delete_ne by done.
      destruct (decide (b ∈ L.*1)), (decide (b ∈ a :: L.*1)); set_solver.
Qed.

Lemma Assembled_release os0 root L os (x : X) :
  Assembled os0 root L os -> exists x', Dereference Modules 2 root (os, x) = Some (tt, (os0, x')).
Proof.
  intros HA. change (Dereference Modules 2 root) with (
    o <- load (X := X) root ;; store root (set_rc (LONG (rc o - 1)) o) ;;;
    when_ (LONG (rc o - 1) =? 0)
      (match o with
       | TsExecAction _ m _ | DisplayAction _ m _ => ext (ModDereference (Modules m))
       | SequenceAction _ es _ _ => for_each (Dereference Modules 1) es
       end ;;; free root)).
  rewrite (bind_eq _ _ _ _ _ (load_spec _ _ _ _ (Assembled_root _ _ _ _ HA))).
  unfold store at 1. unfold bind at 1. simpl.
  assert (forall a o, (a, o) ∈ L -> os !! a = Some o) as He by (intros; by eapply Assembled_entry).
  destruct HA as [Hn Hnew Hp Eos].
  apply NoDup_cons in Hn as [Hr Hn].
  set (os1 := <[root := _]> os).
  destruct (release_entries 0 L os1 x Hn) as (os' & x' & E & H).
  - done.
  - intros a o Hin. unfold os1. rewrite lookup_insert_ne; [by eapply He|].
    intros <-. apply Hr, list_elem_of_fmap. by exists (root, o).
  - rewrite (bind_eq _ _ _ _ _ E). unfold free. exists x'. do 3 f_equal. apply map_eq. intros b.
    destruct (decide (b = root)) as [->|Hb].
    { rewrite lookup_delete_eq, Hnew; [done|set_solver]. }
    rewrite lookup_delete_ne, H by done. unfold os1. case_decide as Hin.
    { rewrite Hnew; [done|set_solver]. }
    rewrite lookup_insert_ne by done. rewrite Eos, lookup_insert_ne by done.
    apply lookup_union_r. by apply not_elem_of_list_to_map.
Qed.
End objects.

(** ** Filling a sequence *)
Section filling.
Context {X : Type}.
Variable Modules : Z -> CFIX_MODULE_ROUTINES X.
Variable malloc : ST X bool.
Variable FilterCallback : CFIX_FIXTURE -> option Z.
Variable CreateActionCallback : Z -> CFIX_FIXTURE -> Z -> ST (Z * (ACTIONS * X)) (Z * Z).
Hypothesis Dereference_returns : forall m x, exists x', ModDereference (Modules m) x = Some (tt, x').
Hypothesis malloc_returns : forall x, exists b x', malloc x = Some (b, x').

(** What a callback that creates actions does: it makes one plain object at a new
    address and counts it, or nothing; [Accepts] is when it needs only memory. *)
Variable Object : Z -> CFIX_FIXTURE -> Z -> ACTION.
Variable Accepts : CFIX_FIXTURE -> Z -> Prop.
Definition Always : Prop := forall x, exists x', malloc x = Some (true, x').
Hypothesis Object_plain : forall m f i, plain (Object m f i).
Hypothesis Create_spec : forall m f i c os x, exists Hr x',
  CreateActionCallback m f i (c, (os, x)) =
    (if SUCCEEDED Hr
     then Some ((Hr, NewAddress os), (ULONG (c + 1), (<[NewAddress os := Object m f i]> os, x')))
     else Some ((Hr, 0), (c, (os, x')))) /\
  (Always -> Accepts f i -> SUCCEEDED Hr = true).

(** The fixtures that the filter lets pass, and the objects made of them. *)
Definition Chosen (fs : list CFIX_FIXTURE) : list (CFIX_FIXTURE * Z) :=
  omap (fun f => (fun i => (f, i)) <$> FilterCallback f) fs.
Definition MadeOf (p : Z * ACTION) (fi : CFIX_FIXTURE * Z) : Prop :=
  exists m, snd p = Object m (fst fi) (snd fi).

Local Abbreviation AddFixtures := (CfixrunsAddFixturesOfModuleToSequenceAction Modules malloc FilterCallback
                                     CreateActionCallback).

Lemma act_eq {A} (m : ST (ACTIONS * X) A) c s a s' : m s = Some (a, s') -> act m (c, s) = Some (a, (c, s')).
Proof. unfold act. by intros ->. Qed.

(** The outcome of an operation that adds objects for [want]. *)
Definition Outcome (os0 : ACTIONS) (root : Z) (L : list (Z * ACTION)) (c : Z)
    (want : list (CFIX_FIXTURE * Z)) (ok : Prop) (r : option (Z * (Z * (ACTIONS * X)))) : Prop :=
  exists Hr L' c' os' x', r = Some (Hr, (c', (os', x'))) /\ Assembled os0 root (L ++ L') os' /\
    (SUCCEEDED Hr = true -> Forall2 MadeOf L' want /\
       (ULONG c = c -> c' = ULONG (c + Z.of_nat (length L')))) /\
    (Always -> ok -> SUCCEEDED Hr = true).

Definition Acceptable (want : list (CFIX_FIXTURE * Z)) : Prop := Forall (fun fi => Accepts (fst fi) (snd fi)) want.

(** Creating an action and adding it. *)
Definition AddOne (root m : Z) (f : CFIX_FIXTURE) (i : Z) : ST (Z * (ACTIONS * X)) Z :=
  r <- CreateActionCallback m f i ;;
  if FAILED (fst r) || (snd r =? 0) then ret (fst r)
  else Hr <- act (CfixAddEntrySequenceAction malloc root (snd r)) ;;
       act (Dereference Modules 1 (snd r)) ;;; ret Hr.

Lemma add_one os0 root L m f i c os x :
  Assembled os0 root L os ->
  Outcome os0 root L c [(f, i)] (Acceptable [(f, i)])
    (AddOne root m f i (c, (os, x))).
Proof.
  unfold AddOne.
  intros HA. destruct (Create_spec m f i c os x) as (Hr & x1 & E1 & Hok).
  assert (Acceptable [(f, i)] -> Accepts f i) as Hacc by (intros Hf; by inversion Hf).
  unfold SUCCEEDED in E1, Hok. destruct (FAILED Hr) eqn:Es; cbn [negb] in E1, Hok;
    rewrite (bind_eq _ _ _ _ _ E1); cbn [fst snd]; rewrite Es; cbn [orb].
  { exists Hr, [], c, os, x1. rewrite app_nil_r. unfold SUCCEEDED. rewrite Es. simpl.
    split_and!; [done|done|done|]. intros Ha Hb. by specialize (Hok Ha (Hacc Hb)). }
  set (a := NewAddress os) in *.
  assert (0 < a) as Hpos by apply NewAddress_positive. assert (os !! a = None) as Hfresh by apply NewAddress_fresh.
  rewrite (proj2 (Z.eqb_neq a 0)) by lia. set (o := Object m f i) in *.
  assert (a <> root) as Hne by (intros E; rewrite E, (Assembled_root _ _ _ _ HA) in Hfresh; done).
  destruct (malloc_returns x1) as (b & x2 & Em).
  assert ((<[a:=o]> os) !! root = Some (SequenceAction 1 (L.*1) (Z.of_nat (length L)) 0)) as Hroot
    by (rewrite lookup_insert_ne by done; by apply (Assembled_root os0)).
  assert (rc o = 1) as Hone by apply Object_plain.
  pose proof (AddEntrySequence_spec malloc root a _ _ _ _ o _ x1 b x2 Hroot (lookup_insert_eq os a o) Hne
    ltac:(lia) ltac:(lia) Em) as E2.
  destruct b.
  - rewrite (bind_eq _ _ _ _ _ (act_eq _ _ _ _ _ E2)).
    destruct (Object_plain m f i) as [Hrc Hent]. fold o in Hrc, Hent. rewrite Hrc in *.
    erewrite bind_eq; [|apply act_eq, (Dereference_shared Modules 0 a (set_rc 2 o));
      [rewrite lookup_insert_ne by done; apply lookup_insert_eq|apply rc_set_rc]].
    eexists S_OK, [(a, o)], _, _, _. split; [reflexivity|].
    split; [by apply Assembled_add|]. split; [|done]. intros _. split.
    + constructor; [by exists m|constructor].
    + done.
  - rewrite (bind_eq _ _ _ _ _ (act_eq _ _ _ _ _ E2)).
    destruct (Dereference_last Modules Dereference_returns 0 a o (<[a:=o]> os) x2 (lookup_insert_eq os a o)
      (Object_plain m f i)) as [x3 E3].
    erewrite bind_eq; [|apply act_eq; exact E3]. rewrite delete_insert_id by done.
    eexists E_OUTOFMEMORY, [], _, os, x3. split; [reflexivity|]. rewrite app_nil_r.
    split_and!; [done|done|]. intros Ha. destruct (Ha x1) as [? Hx]. congruence.
Qed.

Lemma AddFixtures_cons m f fs root Hr0 s :
  AddFixtures m (f :: fs) root Hr0 s =
    match FilterCallback f with
    | None => AddFixtures m fs root Hr0 s
    | Some i => (Hr <- AddOne root m f i ;; if FAILED Hr then ret Hr else AddFixtures m fs root Hr) s
    end.
Proof.
  cbn [CfixrunsAddFixturesOfModuleToSequenceAction].
  destruct (FilterCallback f) as [i|]; [|done]. unfold AddOne. rewrite bind_assoc.
  destruct s as [c [os x]]. destruct (Create_spec m f i c os x) as (Hr & x1 & E1 & _).
  unfold SUCCEEDED in E1. destruct (FAILED Hr) eqn:Es; cbn [negb] in E1;
    rewrite !(bind_eq _ _ _ _ _ E1); cbn [fst snd]; rewrite Es; cbn [orb].
  - by rewrite bind_ret, Es.
  - pose proof (NewAddress_positive os). rewrite (proj2 (Z.eqb_neq _ 0)) by lia.
    rewrite bind_assoc. unfold bind, ret.
    repeat match goal with |- context [act ?m ?s] => destruct (act m s) as [[? ?]|] end; done.
Qed.

(** A further step after one that succeeded. *)
Lemma Outcome_bind os0 root L c w1 w2 (m1 : ST (Z * (ACTIONS * X)) Z) k s :
  Outcome os0 root L c w1 (Acceptable w1) (m1 s) ->
  (forall Hr L' c' os' x', Assembled os0 root (L ++ L') os' -> FAILED Hr = false ->
     Outcome os0 root (L ++ L') c' w2 (Acceptable w2) (k Hr (c', (os', x')))) ->
  Outcome os0 root L c (w1 ++ w2) (Acceptable (w1 ++ w2))
    ((Hr <- m1 ;; if FAILED Hr then ret Hr else k Hr) s).
Proof.
  intros (Hr & L1 & c1 & os1 & x1 & E1 & HA & Hok & Hal) Hk. rewrite (bind_eq _ _ _ _ _ E1).
  unfold SUCCEEDED in Hok, Hal. destruct (FAILED Hr) eqn:Es.
  - exists Hr, L1, c1, os1, x1. unfold SUCCEEDED. rewrite Es. split_and!; [done|done|done|].
    intros Ha Hb. unfold Acceptable in Hb. apply Forall_app in Hb as [Hb _]. by specialize (Hal Ha Hb).
  - destruct (Hok eq_refl) as [Hm1 Hc1].
    destruct (Hk Hr L1 c1 os1 x1 HA) as (Hr2 & L2 & c2 & os2 & x2 & E2 & HA2 & Hok2 & Hal2).
    + done.
    + exists Hr2, (L1 ++ L2), c2, os2, x2. split; [done|]. split; [by rewrite app_assoc|]. split.
      * intros H2. destruct (Hok2 H2) as [Hm2 Hc2]. split; [by apply Forall2_app|].
        intros Hc. specialize (Hc1 Hc). rewrite Hc2, Hc1, length_app, Nat2Z.inj_add; [|rewrite Hc1; apply wrap_wrap].
        unfold ULONG. rewrite wrap_add_l. f_equal. lia.
      * intros Ha Hb. unfold Acceptable in Hb. apply Forall_app in Hb as [_ Hb]. by apply Hal2.
Qed.

Lemma AddFixtures_spec m fs : forall os0 root L c os x Hr,
  Assembled os0 root L os -> FAILED Hr = false ->
  Outcome os0 root L c (Chosen fs) (Acceptable (Chosen fs)) (AddFixtures m fs root Hr (c, (os, x))).
Proof.
  induction fs as [|f fs IH]; intros os0 root L c os x Hr HA Hs.
  - exists Hr, [], c, os, x. rewrite app_nil_r. simpl. rewrite Z.add_0_r. unfold SUCCEEDED. rewrite Hs.
    split_and!; [done|done| |done]. intros _. split; [constructor|done].
  - rewrite AddFixtures_cons. unfold Chosen. cbn [omap list_omap].
    destruct (FilterCallback f) as [i|]; [|by apply IH]. cbn [fmap option_fmap option_map].
    change ((f, i) :: omap ?g fs) with ([(f, i)] ++ Chosen fs).
    apply Outcome_bind; [by apply add_one|]. intros Hr' L' c' os' x' HA' Hs'. by apply IH.
Qed.

(** The state while a sequence is filled. *)
Definition Filling (os0 : ACTIONS) (root : Z) (s : Z * (ACTIONS * X)) : Prop :=
  exists L, Assembled os0 root L (fst (snd s)).

Lemma preserves_AddFixtures os0 root m fs : preserves (Filling os0 root) (AddFixtures m fs root S_OK).
Proof.
  intros [c [os x]] Hr s' [L HA] H.
  destruct (AddFixtures_spec m fs os0 root L c os x S_OK HA eq_refl) as (Hr' & L' & c' & os' & x' & E & HA' & _).
  rewrite E in H. injection H as <- <-. by exists (L ++ L').
Qed.

Lemma preserves_act_ext {A} os0 root (m : ST X A) : preserves (Filling os0 root) (act (ext m)).
Proof.
  intros [c [os x]] a s' HF H. unfold act, ext in H. destruct (m x) as [[b x']|]; [|done].
  by injection H as <- <-.
Qed.

Variable CreateTestModule : string -> CFIXRUN_MODULE_TYPE -> ST X (Z * (Z * list CFIX_FIXTURE)).
Variable CreateTestModuleOfProcess : ST X (Z * (Z * list CFIX_FIXTURE)).
Local Abbreviation AddDll := (CfixrunsAddFixturesOfDllToSequenceAction Modules malloc CreateTestModule
                                FilterCallback CreateActionCallback).

Lemma preserves_AddDll os0 root p t b : preserves (Filling os0 root) (AddDll root p t b).
Proof.
  unfold CfixrunsAddFixturesOfDllToSequenceAction.
  apply preserves_bind; [apply preserves_act_ext|]. intros r. apply preserves_if; [apply preserves_ret|].
  apply preserves_bind; [apply preserves_AddFixtures|]. intros Hr.
  apply preserves_bind; [apply preserves_act_ext|]. intros u. apply preserves_ret.
Qed.

(** A new sequence is returned filled, or has been released. *)
Definition Owned (os0 : ACTIONS) (r : Z * Z) (os : ACTIONS) : Prop :=
  if FAILED (fst r) then snd r = 0 /\ os = os0 else fst r = S_OK /\ exists L, Assembled os0 (snd r) L os.

Lemma CreateSequence_spec a os (x : X) b x1 :
  malloc x = Some (b, x1) ->
  CfixCreateSequenceAction malloc a (os, x) =
    Some (if b : bool then (S_OK, (<[a := SequenceAction 1 [] 0 0]> os, x1)) else (E_OUTOFMEMORY, (os, x1))).
Proof.
  intros Em. unfold CfixCreateSequenceAction. erewrite bind_eq by (unfold ext; by rewrite Em). by destruct b.
Qed.

Lemma FillNewSequence_eq Fill c os x b x1 :
  malloc x = Some (b, x1) ->
  FillNewSequence Modules malloc Fill (c, (os, x)) =
    let a := NewAddress os in
    if b : bool
    then (Hr <- Fill a ;; if SUCCEEDED Hr then ret (S_OK, a) else act (Dereference Modules 2 a) ;;; ret (Hr, 0))
           (c, (<[a := SequenceAction 1 [] 0 0]> os, x1))
    else Some ((E_OUTOFMEMORY, 0), (c, (os, x1))).
Proof.
  intros Em. unfold FillNewSequence. rewrite bind_gets. cbn [fst snd].
  pose proof (CreateSequence_spec (NewAddress os) os x b x1 Em) as E.
  destruct b; by rewrite (bind_eq _ _ _ _ _ (act_eq _ _ _ _ _ E)).
Qed.

Lemma FillNewSequence_owned Fill c os0 x r c' os x' :
  (forall root, preserves (Filling os0 root) (Fill root)) ->
  FillNewSequence Modules malloc Fill (c, (os0, x)) = Some (r, (c', (os, x'))) -> Owned os0 r os.
Proof.
  intros HF H. destruct (malloc_returns x) as (b & x1 & Em). rewrite (FillNewSequence_eq _ _ _ _ _ _ Em) in H.
  cbv zeta in H. destruct b; [|by injection H as <- _ <- _]. inv_bind H.
  assert (Filling os0 (NewAddress os0) s) as [L HL].
  { eapply HF; [|exact H0]. exists []. apply Assembled_start, NewAddress_fresh. }
  destruct s as [c2 [os2 x2]]. cbn [fst snd] in HL. unfold SUCCEEDED in H1. destruct (FAILED a) eqn:Ef.
  - cbn [negb] in H1. destruct (Assembled_release Modules Dereference_returns _ _ _ _ x2 HL) as [x3 E3].
    rewrite (bind_eq _ _ _ _ _ (act_eq _ _ _ _ _ E3)) in H1. injection H1 as <- _ <- _.
    unfold Owned. cbn [fst snd]. by rewrite Ef.
  - injection H1 as <- _ <- _. split; [done|by exists L].
Qed.

Lemma act_ext_Some {A} (m : ST X A) c os x a s :
  act (ext m) (c, (os, x)) = Some (a, s) -> exists x', s = (c, (os, x')).
Proof. unfold act, ext. destruct (m x) as [[b x']|]; [|done]. intros [= <- <-]. by exists x'. Qed.

(** Whichever way a sequence is assembled. *)
Lemma Assemble_owned Options SearchModules os0 x Hr a n os' x' :
  CfixrunsFilterFixtureByName Options = FilterCallback ->
  (forall p b1 b2 Callback I, (forall p t b, preserves I (Callback p t b)) ->
     preserves I (SearchModules p b1 b2 Callback)) ->
  Assemble Modules malloc CreateTestModule CreateTestModuleOfProcess Options SearchModules
    CreateActionCallback (os0, x) = Some ((Hr, a, n), (os', x')) -> Owned os0 (Hr, a) os'.
Proof.
  intros HFilter HS H. unfold Assemble in H. rewrite HFilter in H. destruct (InputFileType Options).
  - unfold CfixrunpSearchFixturesAndCreateSequenceAction in H. destruct (InputFile Options) as [p|];
      [|by injection H as <- <- <- <- <-].
    destruct (FillNewSequence _ _ _ _) as [[r [c [os1 x1]]]|] eqn:E; [|done]. injection H as -> -> <- <-.
    eapply FillNewSequence_owned; [|exact E]. intros root. apply HS. intros. apply preserves_AddDll.
  - unfold CfixrunsCreateSequenceActionForCurrentExecutable in H.
    destruct (bind _ _ _) as [[r [c [os1 x1]]]|] eqn:E; [|done]. injection H as -> -> <- <-.
    inv_bind E. apply act_ext_Some in H as [x2 ->]. destruct (FAILED (fst a0)) eqn:Ef.
    { injection H0 as <- <- <- <- <-. unfold Owned. simpl. by rewrite Ef. }
    inv_bind H0. destruct s as [c3 [os3 x3]]. inv_bind H1. apply act_ext_Some in H0 as [x4 ->].
    injection H2 as -> <- <- <-. eapply FillNewSequence_owned; [|exact H].
    intros root. apply preserves_AddFixtures.
Qed.

(** ** Modules that can be read *)
(** What a module holds, if it can be loaded. *)
Variable Loaded : string -> CFIXRUN_MODULE_TYPE -> option (list CFIX_FIXTURE).
Definition Loads (m : ST X (Z * (Z * list CFIX_FIXTURE))) (fs : option (list CFIX_FIXTURE)) : Prop :=
  forall x, exists Hr m' fs' x', m x = Some ((Hr, (m', fs')), x') /\
    match fs with Some fs => FAILED Hr = false /\ fs' = fs | None => FAILED Hr = true end.
Hypothesis CreateTestModule_loads : forall p t, Loads (CreateTestModule p t) (Loaded p t).

Definition WantedOf (fs : option (list CFIX_FIXTURE)) : list (CFIX_FIXTURE * Z) := Chosen (default [] fs).

Lemma act_ext_eq {A} (m : ST X A) c os x a x' : m x = Some (a, x') -> act (ext m) (c, (os, x)) = Some (a, (c, (os, x'))).
Proof. intros H. apply act_eq. unfold ext. by rewrite H. Qed.

(** Giving a module back does not change the outcome. *)
Lemma Outcome_release os0 root L c want ok m' (m1 : ST (Z * (ACTIONS * X)) Z) s :
  Outcome os0 root L c want ok (m1 s) ->
  Outcome os0 root L c want ok ((Hr <- m1 ;; act (ext (ModDereference (Modules m'))) ;;; ret Hr) s).
Proof.
  intros (Hr & L' & c' & os' & x' & E & H). rewrite (bind_eq _ _ _ _ _ E).
  destruct (Dereference_returns m' x') as [x2 Hx].
  rewrite (bind_eq _ _ _ _ _ (act_ext_eq _ _ _ _ _ _ Hx)). by exists Hr, L', c', os', x2.
Qed.

Lemma Outcome_impl os0 root L c want (ok ok' : Prop) r :
  (ok' -> ok) -> Outcome os0 root L c want ok r -> Outcome os0 root L c want ok' r.
Proof.
  intros Hi (Hr & L' & c' & os' & x' & E & HA & H1 & H2). exists Hr, L', c', os', x'.
  split_and!; auto.
Qed.

Lemma AddDll_spec p t b os0 root L c os x :
  Assembled os0 root L os ->
  Outcome os0 root L c (WantedOf (Loaded p t))
    (Acceptable (WantedOf (Loaded p t)) /\ (b = true \/ is_Some (Loaded p t)))
    (AddDll root p t b (c, (os, x))).
Proof.
  intros HA. unfold CfixrunsAddFixturesOfDllToSequenceAction.
  destruct (CreateTestModule_loads p t x) as (Hr & m & fs & x' & E & H).
  rewrite (bind_eq _ _ _ _ _ (act_ext_eq _ _ _ _ _ _ E)). cbn [fst snd].
  unfold WantedOf. destruct (Loaded p t) as [fs'|]; cbn [default from_option id].
  - destruct H as [-> ->]. apply Outcome_release.
    eapply Outcome_impl; [|by apply AddFixtures_spec]. tauto.
  - rewrite H. exists (if b then S_OK else Hr), [], c, os, x'. rewrite app_nil_r. simpl. rewrite Z.add_0_r.
    split_and!; [done|done|intros _; by split|]. intros _ [_ [-> |[? H']]]; done.
Qed.

(** The calls for a list of modules found by a search, all of which succeed. *)
Lemma RunCallbacks_outcome mods : forall os0 root L c os x,
  Assembled os0 root L os -> Always ->
  let want := concat ((fun pt => WantedOf (Loaded (fst pt) (snd pt))) <$> mods) in
  Acceptable want ->
  exists L' c' os' x', RunCallbacks (AddDll root) true mods (c, (os, x)) = Some (tt, (c', (os', x'))) /\
    Assembled os0 root (L ++ L') os' /\ Forall2 MadeOf L' want /\
    (ULONG c = c -> c' = ULONG (c + Z.of_nat (length L'))).
Proof.
  induction mods as [|[p t] mods IH]; intros os0 root L c os x HA Hal; simpl; intros Hacc.
  { exists [], c, os, x. rewrite app_nil_r. simpl. rewrite Z.add_0_r. split_and!; [done|done|constructor|done]. }
  unfold Acceptable in Hacc. apply Forall_app in Hacc as [Hacc1 Hacc2].
  destruct (AddDll_spec p t true os0 root L c os x HA) as (Hr & L1 & c1 & os1 & x1 & E1 & HA1 & H1 & Hs).
  destruct (H1 (Hs Hal (conj Hacc1 (or_introl eq_refl)))) as [Hm1 Hc1].
  destruct (IH os0 root (L ++ L1) c1 os1 x1 HA1 Hal Hacc2) as (L2 & c2 & os2 & x2 & E2 & HA2 & Hm2 & Hc2).
  rewrite (bind_eq _ _ _ _ _ E1). exists (L1 ++ L2), c2, os2, x2.
  split; [done|]. split; [by rewrite app_assoc|]. split; [by apply Forall2_app|].
  intros Hc. specialize (Hc1 Hc). rewrite Hc2, Hc1, length_app, Nat2Z.inj_add; [|rewrite Hc1; apply wrap_wrap].
  unfold ULONG. rewrite wrap_add_l. f_equal. lia.
Qed.

(** ** A whole directory *)
Variable GetFullPathName : string -> Z + string.
Variable GetCurrentDirectory : Z + string.
Variable PathCombine : string -> string -> option string.
Variable FindFiles : string -> Z + list WIN32_FIND_DATA.
Variable GetFileAttributes : string -> option Z.

(** What is wanted of a list of modules. *)
Definition Wanted (mods : list (string * CFIXRUN_MODULE_TYPE)) : list (CFIX_FIXTURE * Z) :=
  concat ((fun pt => WantedOf (Loaded (fst pt) (snd pt))) <$> mods).

Lemma search_fills fuel p n ts a Recursive IncludeDrivers os0 root c os x :
  GetFileAttributes p = Some a -> FlagOn FILE_ATTRIBUTE_DIRECTORY a = true ->
  At GetFullPathName PathCombine FindFiles fuel p (TDir n ts) ->
  Always -> (forall p t, Acceptable (WantedOf (Loaded p t))) ->
  Assembled os0 root [] os ->
  let want := Wanted (omap (ModuleOf IncludeDrivers) (Visits PathCombine Recursive p (TDir n ts))) in
  exists Hr L c' os' x',
    CfixrunSearchModules (AddDll root) GetFullPathName GetCurrentDirectory PathCombine FindFiles
      GetFileAttributes fuel (Some p) Recursive IncludeDrivers (c, (os, x)) = Some (Hr, (c', (os', x'))) /\
    SUCCEEDED Hr = true /\ Assembled os0 root L os' /\ Forall2 MadeOf L want /\
    (ULONG c = c -> c' = ULONG (c + Z.of_nat (length L))).
Proof.
  intros Ha Hd Hat Hal Hacc HA want.
  destruct (Search_modules GetFullPathName GetCurrentDirectory PathCombine FindFiles GetFileAttributes
    (AddDll root) (Filling os0 root)) with (fuel := fuel) (p := p) (n := n) (ts := ts) (a := a)
    (Recursive := Recursive) (IncludeDrivers := IncludeDrivers) (w := (c, (os, x)))
    as (Hr & [c' [os' x']] & H & Hs & _ & Hc); [|done|done|by exists []|done|].
  - intros q t [c1 [os1 x1]] [L1 HA1].
    destruct (AddDll_spec q t true os0 root L1 c1 os1 x1 HA1) as (Hr & L' & c2 & os2 & x2 & E & HA2 & _ & Hs).
    exists Hr, (c2, (os2, x2)). split; [done|]. split; [|by exists (L1 ++ L')].
    apply Hs; [done|]. split; [apply Hacc|by left].
  - destruct (RunCallbacks_outcome (omap (ModuleOf IncludeDrivers) (Visits PathCombine Recursive p (TDir n ts)))
      os0 root [] c os x HA Hal) as (L & c2 & os2 & x2 & E & HA2 & Hm & Hc2).
    { unfold Acceptable. apply Forall_concat, Forall_fmap, Forall_true. intros []. apply Hacc. }
    rewrite Hc in E. injection E as -> -> ->. exists Hr, L, c2, os2, x2. split_and!; done.
Qed.

Lemma directory_sequence fuel p n ts a Recursive IncludeDrivers c os0 x :
  GetFileAttributes p = Some a -> FlagOn FILE_ATTRIBUTE_DIRECTORY a = true ->
  At GetFullPathName PathCombine FindFiles fuel p (TDir n ts) ->
  Always -> (forall p t, Acceptable (WantedOf (Loaded p t))) ->
  let want := Wanted (omap (ModuleOf IncludeDrivers) (Visits PathCombine Recursive p (TDir n ts))) in
  exists root L c' os' x',
    CfixrunpSearchFixturesAndCreateSequenceAction Modules malloc CreateTestModule FilterCallback
      CreateActionCallback
      (fun q Callback => CfixrunSearchModules Callback GetFullPathName GetCurrentDirectory PathCombine
         FindFiles GetFileAttributes fuel (Some q) Recursive IncludeDrivers)
      (Some p) (c, (os0, x)) = Some ((S_OK, root), (c', (os', x'))) /\
    Assembled os0 root L os' /\ Forall2 MadeOf L want /\
    (ULONG c = c -> c' = ULONG (c + Z.of_nat (length L))).
Proof.
  intros Ha Hd Hat Hal Hacc want. destruct (Hal x) as [x1 Em].
  unfold CfixrunpSearchFixturesAndCreateSequenceAction. rewrite (FillNewSequence_eq _ _ _ _ _ _ Em). cbv zeta.
  set (root := NewAddress os0).
  destruct (search_fills fuel p n ts a Recursive IncludeDrivers os0 root c
    (<[root := SequenceAction 1 [] 0 0]> os0) x1 Ha Hd Hat Hal Hacc) as (Hr & L & c' & os' & x' & E & Hs & H).
  { apply Assembled_start, NewAddress_fresh. }
  rewrite (bind_eq _ _ _ _ _ E), Hs. by exists root, L, c', os', x'.
Qed.
End filling.

(** ** The two callbacks *)
Section kinds.
Context {X : Type}.
Variable Modules : Z -> CFIX_MODULE_ROUTINES X.
Variable malloc : ST X bool.
Variable Options : CFIXRUN_OPTIONS.
Hypothesis Reference_returns : forall m x, exists x', ModReference (Modules m) x = Some (tt, x').
Hypothesis malloc_returns : forall x, exists b x', malloc x = Some (b, x').

Definition ExecObject (m : Z) (f : CFIX_FIXTURE) (i : Z) : ACTION :=
  TsExecAction 1 m (MkTsExec f (ExecutionFlags Options) i).
Definition ExecAccepts (f : CFIX_FIXTURE) (i : Z) : Prop := i = ALL_TESTCASES \/ i < TestCaseCount f.

Lemma Created_eq (create : Z -> ST (ACTIONS * X) Z) c os x Hr s :
  create (NewAddress os) (os, x) = Some (Hr, s) ->
  Created create (c, (os, x)) =
    if SUCCEEDED Hr then Some ((Hr, NewAddress os), (ULONG (c + 1), s)) else Some ((Hr, 0), (c, s)).
Proof.
  intros E. unfold Created. rewrite bind_gets. cbn [fst snd]. rewrite (bind_eq _ _ _ _ _ (act_eq _ _ _ _ _ E)).
  by destruct (SUCCEEDED Hr).
Qed.

Lemma exec_create_spec m f i c os x : exists Hr x',
  CfixrunsCreateTsExecAction Modules malloc Options m f i (c, (os, x)) =
    (if SUCCEEDED Hr
     then Some ((Hr, NewAddress os), (ULONG (c + 1), (<[NewAddress os := ExecObject m f i]> os, x')))
     else Some ((Hr, 0), (c, (os, x')))) /\
  (Always malloc -> ExecAccepts f i -> SUCCEEDED Hr = true).
Proof.
  unfold CfixrunsCreateTsExecAction.
  assert (exists Hr x', NewFixtureExecutionAction Modules malloc (NewAddress os) m f (ExecutionFlags Options) i (os, x) =
    Some (Hr, (if SUCCEEDED Hr then <[NewAddress os := ExecObject m f i]> os else os, x')) /\
    (Always malloc -> ExecAccepts f i -> SUCCEEDED Hr = true)) as (Hr & x' & E & Hok).
  { unfold NewFixtureExecutionAction, CfixCreateFixtureExecutionAction, bind at 1, ext, ExecAccepts.
    destruct (Z.eqb_spec i ALL_TESTCASES), (Z.leb_spec (TestCaseCount f) i); cbn [negb andb].
    all: try (exists E_INVALIDARG, x; split; [done|lia]).
    all: destruct (malloc_returns x) as (b & x1 & Em); rewrite (bind_eq _ _ _ _ _ Em); destruct b;
      [|exists E_OUTOFMEMORY, x1; split; [done|]; intros Ha; destruct (Ha x); congruence];
      destruct (Reference_returns m x1) as [x2 Hx]; cbn [negb]; rewrite (bind_eq _ _ _ _ _ Hx);
      by exists S_OK, x2. }
  exists Hr, x'. split; [|done]. rewrite (Created_eq _ _ _ _ _ _ E). by destruct (SUCCEEDED Hr).
Qed.

Lemma display_create_spec m f i c os x : exists Hr x',
  CfixrunsCreateDisplayAction Modules malloc m f i (c, (os, x)) =
    (if SUCCEEDED Hr
     then Some ((Hr, NewAddress os), (ULONG (c + 1), (<[NewAddress os := DisplayAction 1 m f]> os, x')))
     else Some ((Hr, 0), (c, (os, x')))) /\
  (Always malloc -> True -> SUCCEEDED Hr = true).
Proof.
  unfold CfixrunsCreateDisplayAction. match goal with |- context [Created ?k] => set (create := k) end.
  assert (exists Hr x', create (NewAddress os) (os, x) =
    Some (Hr, (if SUCCEEDED Hr then <[NewAddress os := DisplayAction 1 m f]> os else os, x')) /\
    (Always malloc -> True -> SUCCEEDED Hr = true)) as (Hr & x' & E & Hok).
  { unfold create, CfixrunpCreateDisplayAction, bind at 1, ext.
    destruct (malloc_returns x) as (b & x1 & Em). rewrite (bind_eq _ _ _ _ _ Em). destruct b.
    - destruct (Reference_returns m x1) as [x2 Hx]. cbn [negb]. rewrite (bind_eq _ _ _ _ _ Hx).
      by exists S_OK, x2.
    - exists E_OUTOFMEMORY, x1. split; [done|]. intros Ha. destruct (Ha x). congruence. }
  exists Hr, x'. split; [|done]. rewrite (Created_eq _ _ _ _ _ _ E). by destruct (SUCCEEDED Hr).
Qed.
End kinds.

(** ** Running and releasing what was assembled *)
Section assembled_run.
Context {X : Type}.
Variables (IsDebuggerPresent : ST X bool) (GetCurrentThreadId : ST X Z).
Variables (Modules : Z -> CFIX_MODULE_ROUTINES X) (Context_ : CFIX_EXECUTION_CONTEXT X).
Variable PrintConsole : string -> ST X unit.
Hypothesis Context_valid : CfixIsValidContext Context_ = true.

(** The tree an entry unfolds to. *)
Definition LeafOf (o : ACTION) : TREE :=
  match o with
  | TsExecAction _ m b => Leaf m b
  | DisplayAction _ m f => Shown m f
  | SequenceAction _ _ _ _ => Node []
  end.
Definition IsLeaf (o : ACTION) : Prop :=
  match o with SequenceAction _ _ _ _ => False | _ => True end.

Lemma Assembled_shape os0 root L os :
  Assembled os0 root L os -> Forall (fun p => IsLeaf (snd p)) L ->
  shape 2 os root (Node (LeafOf <$> L.*2)).
Proof.
  intros HA Hl. cbn [shape]. rewrite (Assembled_root _ _ _ _ HA). rewrite length_fmap. split; [done|].
  assert (forall l, l ⊆ L -> Forall2 (shape 1 os) (l.*1) (LeafOf <$> l.*2)) as H; [|by apply H].
  induction l as [|[b o] l IH]; intros Hin; [constructor|]. cbn [fmap list_fmap fst snd].
  assert ((b, o) ∈ L) as Hb by (apply Hin; by left).
  constructor; [|apply IH; set_solver]. cbn [shape]. rewrite (Assembled_entry _ _ _ _ _ _ HA Hb).
  rewrite Forall_forall in Hl. specialize (Hl _ Hb). by destruct o.
Qed.

Lemma Assembled_counts os0 root L os :
  Assembled os0 root L os -> (forall b o, os0 !! b = Some o -> 0 < rc o) ->
  forall b o, os !! b = Some o -> 0 < rc o.
Proof.
  intros [Hn Hnew Hp ->] Hpos b o. destruct (decide (b = root)) as [->|Hb].
  - rewrite lookup_insert_eq. by intros [= <-].
  - rewrite lookup_insert_ne by done. intros [Hin|[_ Hin]]%lookup_union_Some_raw; [|by eapply Hpos].
    apply elem_of_list_to_map_2 in Hin. rewrite Forall_forall in Hp. destruct (Hp _ Hin) as [Hrc _].
    simpl in Hrc. lia.
Qed.

(** Running takes one reference to each entry, of which it is the second. *)
Lemma Assembled_countable os0 root L os :
  Assembled os0 root L os -> Forall (fun p => IsLeaf (snd p)) L ->
  (forall b o, os0 !! b = Some o -> 0 < rc o) -> countable 2 os root.
Proof.
  intros HA Hl Hpos b o Hb. split; [by eapply Assembled_counts|].
  assert (maximum (map (fun e => uses 1 os e b) (L.*1)) = 0) as Hz.
  { assert (forall l, l ⊆ L -> maximum (map (fun e => uses 1 os e b) (l.*1)) = 0) as H; [|by apply H].
    induction l as [|[e p] l IH]; intros Hin; [done|].
    assert ((e, p) ∈ L) as He by (apply Hin; by left). rewrite Forall_forall in Hl.
    specialize (Hl _ He). cbn [fmap list_fmap fst map]. unfold maximum. cbn [foldr].
    fold (maximum (map (fun e => uses 1 os e b) (l.*1))). rewrite IH by set_solver.
    cbn [uses]. rewrite (Assembled_entry _ _ _ _ _ _ HA He). by destruct p. }
  change (uses 2 os root b) with (match os !! root with
    | Some (SequenceAction _ es _ _) => count b es + maximum (map (fun e => uses 1 os e b) es)
    | _ => 0
    end). rewrite (Assembled_root _ _ _ _ HA), Hz, Z.add_0_r. intros Hc. assert (b ∈ L.*1) as Hin.
  { destruct (decide (b ∈ L.*1)) as [|Hn]; [done|]. unfold count in Hc.
    rewrite filter_none in Hc; [simpl in Hc; lia|]. by intros y Hy ->. }
  apply list_elem_of_fmap in Hin as ([b' p] & -> & Hin). cbn [fst] in *.
  rewrite (Assembled_entry _ _ _ _ _ _ HA Hin) in Hb. injection Hb as <-.
  destruct HA as [Hn _ Hp _]. rewrite Forall_forall in Hp. destruct (Hp _ Hin) as [Hrc _].
  cbn [snd] in Hrc. rewrite Hrc. apply NoDup_cons in Hn as [_ Hn].
  rewrite count_nodup by (done || (apply list_elem_of_fmap; by exists (b', p))). lia.
Qed.

Lemma Assembled_run os0 root L os x :
  Assembled os0 root L os -> Forall (fun p => IsLeaf (snd p)) L ->
  (forall b o, os0 !! b = Some o -> 0 < rc o) ->
  Run IsDebuggerPresent GetCurrentThreadId Modules Context_ PrintConsole (ret true) 2 root (os, x) =
  match run_trees IsDebuggerPresent GetCurrentThreadId Modules Context_ PrintConsole (LeafOf <$> L.*2) S_OK x with
  | Some (r, x') => Some (r, (os, x')) | None => None end.
Proof.
  intros HA Hl Hpos. rewrite (Run_tree _ _ _ _ _ 2 os root (Node (LeafOf <$> L.*2))); [|done| |].
  - by rewrite run_tree_node.
  - by eapply Assembled_countable.
  - by eapply Assembled_shape.
Qed.
End assembled_run.

(** The trees for the fixtures that are wanted; [ids] are their modules. *)
Definition ExecTrees (Options : CFIXRUN_OPTIONS) (ids : list Z) (want : list (CFIX_FIXTURE * Z)) : list TREE :=
  zip_with (fun m fi => Leaf m (MkTsExec (fst fi) (ExecutionFlags Options) (snd fi))) ids want.

Lemma MadeOf_trees Options L want :
  Forall2 (MadeOf (ExecObject Options)) L want ->
  Forall (fun p => IsLeaf (snd p)) L /\
  exists ids, length ids = length want /\ LeafOf <$> L.*2 = ExecTrees Options ids want.
Proof.
  induction 1 as [|[a o] [f i] L want [m Hm] _ (Hl & ids & Hlen & E)]; [by split; [|exists []]|].
  simpl in Hm. subst o. split; [by constructor|]. exists (m :: ids). split; [simpl; by rewrite Hlen|]. cbn. f_equal. exact E.
Qed.

Section claims.
Context {X : Type}.
Variables (IsDebuggerPresent : ST X bool) (GetCurrentThreadId : ST X Z).
Variables (Modules : Z -> CFIX_MODULE_ROUTINES X) (Context_ : CFIX_EXECUTION_CONTEXT X).
Variable PrintConsole : string -> ST X unit.
Variable malloc : ST X bool.
Variable CreateTestModule : string -> CFIXRUN_MODULE_TYPE -> ST X (Z * (Z * list CFIX_FIXTURE)).
Variable CreateTestModuleOfProcess : ST X (Z * (Z * list CFIX_FIXTURE)).
Variable GetFullPathName : string -> Z + string.
Variable GetCurrentDirectory : Z + string.
Variable PathCombine : string -> string -> option string.
Variable FindFiles : string -> Z + list WIN32_FIND_DATA.
Variable GetFileAttributes : string -> option Z.
Hypothesis Reference_returns : forall m x, exists x', ModReference (Modules m) x = Some (tt, x').
Hypothesis Dereference_returns : forall m x, exists x', ModDereference (Modules m) x = Some (tt, x').

(** The search on this file system. *)
Definition SearchOn (fuel : nat) (p : string) (Recursive IncludeDrivers : bool)
    (Callback : string -> CFIXRUN_MODULE_TYPE -> bool -> ST (Z * (ACTIONS * X)) Z) : ST (Z * (ACTIONS * X)) Z :=
  CfixrunSearchModules Callback GetFullPathName GetCurrentDirectory PathCombine FindFiles GetFileAttributes
    fuel (Some p) Recursive IncludeDrivers.

Local Abbreviation AssembleExecution fuel Options :=
  (CfixrunpAssembleExecutionAction Modules malloc CreateTestModule CreateTestModuleOfProcess Options (SearchOn fuel)).
Local Abbreviation AssembleDisplay fuel Options :=
  (CfixrunpAssembleDisplayAction Modules malloc CreateTestModule CreateTestModuleOfProcess Options (SearchOn fuel)).

Lemma filter_accepts Options f i :
  Z.of_nat (length (TestCases f)) <= ALL_TESTCASES ->
  CfixrunsFilterFixtureByName Options f = Some i -> ExecAccepts f i.
Proof.
  intros fits. unfold CfixrunsFilterFixtureByName, ExecAccepts, TestCaseCount.
  destruct (Value Options OptFixture) as [n|].
  2:{ destruct (Value Options OptFixturePrefix) as [p|]; [destruct (BeginsWithI _ p)|];
      (intros [= <-]; by left) || done. }
  destruct (StringCchCopy _ n) as [b|]; [|done]. destruct (SplitAtDot b) as [g [t|]], (negb _); try done.
  2: intros [= <-]; by left.
  pose proof (FindTestCase_selected f 0 t (TestCases f) 0 fits) as H.
  intros Hi. right. rewrite Hi in H. lia.
Qed.

(** The assembled action owns itself.  Whatever the memory manager, the modules and
    the file system do: assembling an action to run or to display fixtures either
    fails, and then no action is returned and every action object created on the
    way has been released, leaving exactly the objects there were; or it returns a
    new sequence with one reference, whose entries are new objects that only the
    sequence refers to, and leaves all other objects as they were. *)
Theorem assembly_owns_its_objects fuel Options os0 x Hr a n os' x' :
  (forall x, exists b x', malloc x = Some (b, x')) ->
  (AssembleExecution fuel Options (os0, x) = Some ((Hr, a, n), (os', x')) \/
   AssembleDisplay fuel Options (os0, x) = Some ((Hr, a, n), (os', x'))) ->
  if FAILED Hr then a = 0 /\ os' = os0
  else Hr = S_OK /\ os0 ⊆ os' /\
    (exists es, os' !! a = Some (SequenceAction 1 es (Z.of_nat (length es)) 0) /\ NoDup (a :: es) /\
       dom os' = dom os0 ∪ list_to_set (a :: es) /\
       (forall b, b ∈ a :: es -> os0 !! b = None) /\
       (forall b, b ∈ es -> exists o, os' !! b = Some o /\ rc o = 1 /\ entries o = [])).
Proof.
  intros Hm H.
  assert (Owned os0 (Hr, a) os') as HO.
  { assert (forall p b1 b2 Callback I, (forall p t b, preserves I (Callback p t b)) ->
      preserves I (SearchOn fuel p b1 b2 Callback)) as HS
      by (intros; by apply preserves_CfixrunSearchModules).
    destruct H as [H|H].
    - eapply (Assemble_owned Modules malloc (CfixrunsFilterFixtureByName Options)
        (CfixrunsCreateTsExecAction Modules malloc Options) Dereference_returns Hm (ExecObject Options) ExecAccepts);
        [done|intros; by apply exec_create_spec|done|exact HS|exact H].
    - eapply (Assemble_owned Modules malloc (CfixrunsFilterFixtureByName Options)
        (CfixrunsCreateDisplayAction Modules malloc) Dereference_returns Hm
        (fun m f _ => DisplayAction 1 m f) (fun _ _ => True));
        [done|intros; by apply display_create_spec|done|exact HS|exact H]. }
  unfold Owned in HO. cbn [fst snd] in HO. destruct (FAILED Hr); [done|].
  destruct HO as [-> [L HA]]. split; [done|]. split.
  { by eapply Assembled_extends. }
  exists (L.*1). pose proof (Assembled_root _ _ _ _ HA) as Hroot. rewrite length_fmap.
  pose proof HA as HA'. destruct HA as [Hn Hnew Hp Eos]. split_and!; [done|done| |done|].
  - rewrite Eos, dom_insert_L, dom_union_L, dom_list_to_map_L. simpl. set_solver.
  - intros b Hb. apply list_elem_of_fmap in Hb as ([b' o] & -> & Hin). exists o.
    rewrite Forall_forall in Hp. destruct (Hp _ Hin) as [Hrc He].
    split; [|done]. by eapply Assembled_entry.
Qed.

(** C29. What is assembled runs exactly the fixtures that were asked for.  For a
    directory, the action that the runner assembles contains, for every module the
    search finds, in order, and every fixture of it that the filter includes, in
    order, one fixture action with the flags of the options and the ordinal of the
    filter; modules that cannot be loaded are skipped, and the number of fixtures
    reported is theirs.  Running the action runs these fixtures from left to right
    up to the first failure, and releasing it afterwards leaves no action behind. *)
Theorem assembled_action_runs_selection fuel p n ts a Options os0 x :
  (forall x, exists x', malloc x = Some (true, x')) ->
  forall Loaded, (forall p t, Loads (CreateTestModule p t) (Loaded p t)) ->
  (forall p t fs f, Loaded p t = Some fs -> f ∈ fs -> Z.of_nat (length (TestCases f)) <= ALL_TESTCASES) ->
  GetFileAttributes p = Some a -> FlagOn FILE_ATTRIBUTE_DIRECTORY a = true ->
  At GetFullPathName PathCombine FindFiles fuel p (TDir n ts) ->
  InputFileType Options = CfixrunInputDynamicallyLoadable -> InputFile Options = Some p ->
  CfixIsValidContext Context_ = true -> (forall b o, os0 !! b = Some o -> 0 < rc o) ->
  let modules := omap (ModuleOf (Switch Options EnableKernelFeatures))
                   (Visits PathCombine (Switch Options RecursiveSearch) p (TDir n ts)) in
  let want := Wanted (CfixrunsFilterFixtureByName Options) Loaded modules in
  exists root os1 x1 ids,
    AssembleExecution fuel Options (os0, x) = Some ((S_OK, root, ULONG (Z.of_nat (length want))), (os1, x1)) /\
    length ids = length want /\
    (forall y,
       Run IsDebuggerPresent GetCurrentThreadId Modules Context_ PrintConsole (ret true) 2 root (os1, y) =
       match run_trees IsDebuggerPresent GetCurrentThreadId Modules Context_ PrintConsole
               (ExecTrees Options ids want) S_OK y with
       | Some (r, y') => Some (r, (os1, y')) | None => None end) /\
    (forall y, exists y', Dereference Modules 2 root (os1, y) = Some (tt, (os0, y'))).
Proof.
  intros Hal Loaded Hload Hfits Ha Hd Hat Htype Hfile HC Hpos modules want.
  assert (forall x, exists b x', malloc x = Some (b, x')) as Hm by (intros y; destruct (Hal y) as [y' Hy]; eauto).
  destruct (directory_sequence Modules malloc (CfixrunsFilterFixtureByName Options)
    (CfixrunsCreateTsExecAction Modules malloc Options) Dereference_returns Hm (ExecObject Options) ExecAccepts)
    with (CreateTestModule := CreateTestModule) (Loaded := Loaded) (GetFullPathName := GetFullPathName)
    (GetCurrentDirectory := GetCurrentDirectory) (PathCombine := PathCombine) (FindFiles := FindFiles)
    (GetFileAttributes := GetFileAttributes) (fuel := fuel) (p := p) (n := n) (ts := ts) (a := a)
    (Recursive := Switch Options RecursiveSearch) (IncludeDrivers := Switch Options EnableKernelFeatures)
    (c := 0) (os0 := os0) (x := x)
    as (root & L & c' & os1 & x1 & E & HA & HL & Hc).
  - done.
  - intros. by apply exec_create_spec.
  - done.
  - done.
  - done.
  - done.
  - done.
  - intros q t. unfold WantedOf. destruct (Loaded q t) as [fs|] eqn:El; [|constructor]. simpl.
    apply Forall_forall. intros [f i] Hin. unfold Chosen in Hin. apply list_elem_of_omap in Hin as (f' & Hf & E).
    destruct (CfixrunsFilterFixtureByName Options f') as [j|] eqn:Efl; [|done]. injection E as -> ->.
    eapply filter_accepts; [|done]. by eapply Hfits.
  - destruct (MadeOf_trees _ _ _ HL) as (Hl & ids & Hlen & Et).
    exists root, os1, x1, ids. split_and!.
    + unfold CfixrunpAssembleExecutionAction, Assemble. rewrite Htype, Hfile. unfold SearchOn. rewrite E.
      rewrite Hc by done. rewrite (Forall2_length _ _ _ HL). done.
    + done.
    + intros y. rewrite (Assembled_run _ _ _ _ _ HC _ _ _ _ _ HA Hl Hpos). by rewrite Et.
    + intros y. by apply (Assembled_release Modules Dereference_returns _ _ _ _ _ HA).
Qed.
End claims.

(** ** A concrete instance: the directory of [Search.Demo] *)
Module Demo.
Definition fixtures : list CFIX_FIXTURE :=
  [TsExec.Demo.fixture; MkFixture "Other" 0 0 0 0 1 0 "b" [MkTestCase "x" 5]].
Definition Loaded (p : string) (t : CFIXRUN_MODULE_TYPE) : option (list CFIX_FIXTURE) :=
  match t with CfixrunDll => Some fixtures | CfixrunSys => None end.
Definition CreateTestModule (p : string) (t : CFIXRUN_MODULE_TYPE) : ST unit (Z * (Z * list CFIX_FIXTURE)) :=
  ret match t with CfixrunDll => (S_OK, (7, fixtures)) | CfixrunSys => (E_FAIL, (0, [])) end.
Definition options (name : string) : CFIXRUN_OPTIONS :=
  set_Value OptFixture name (set_Switch RecursiveSearch (set_Switch EnableKernelFeatures
    (set_InputFile "c:" zeroed))).
Definition malloc : ST unit bool := ret true.

Lemma filter_includes_witness :
  Included (options "other.X") (MkFixture "Other" 0 0 0 0 1 0 "b" [MkTestCase "y" 4; MkTestCase "x" 5])
  = [MkTestCase "x" 5].
Proof.
  destruct (filter_includes (options "other.X")
    (MkFixture "Other" 0 0 0 0 1 0 "b" [MkTestCase "y" 4; MkTestCase "x" 5])) as [_ H].
  - vm_compute. discriminate.
  - destruct H as [_ H]. destruct H as [_ H]; [apply Nat.ltb_lt; reflexivity|].
    rewrite (H "other" "X"); reflexivity.
Defined.

Definition assembled : option (Z * Z * Z * (ACTIONS * unit)) :=
  CfixrunpAssembleExecutionAction Sequence.Demo.mods malloc CreateTestModule (ret (E_FAIL, (0, [])))
    (options "other") (SearchOn Search.Demo.Full (inr "c:") Search.Demo.Combine Search.Demo.Find
       Search.Demo.Attributes 3) (∅, tt).

Lemma assembly_owns_its_objects_witness :
  exists Hr a n os x, assembled = Some ((Hr, a, n), (os, x)) /\ FAILED Hr = false /\ ∅ ⊆ os.
Proof.
  destruct assembled as [[[[Hr a] n] [os []]]|] eqn:E; [|vm_compute in E; discriminate].
  exists Hr, a, n, os, tt. split; [reflexivity|].
  assert (FAILED Hr = false) as Hf by (vm_compute in E; injection E as <- _ _ _; reflexivity).
  split; [exact Hf|].
  pose proof (assembly_owns_its_objects Sequence.Demo.mods malloc CreateTestModule (ret (E_FAIL, (0, [])))
    Search.Demo.Full (inr "c:") Search.Demo.Combine Search.Demo.Find Search.Demo.Attributes
    ltac:(intros m x; exists x; reflexivity) ltac:(intros m x; exists x; reflexivity) 3 (options "other") ∅ tt Hr a n os tt
    ltac:(intros x; exists true, x; reflexivity) (or_introl E)) as H.
  rewrite Hf in H. exact (proj1 (proj2 H)).
Defined.

Lemma assembled_action_runs_selection_witness :
  exists root os1 x1 (ids : list Z),
    assembled = Some ((S_OK, root, 1), (os1, x1)) /\ length ids = 1%nat /\
    (forall y, exists y', Dereference Sequence.Demo.mods 2 root (os1, y) = Some (tt, (∅, y'))).
Proof.
  destruct (assembled_action_runs_selection (ret false) (ret 1) Sequence.Demo.mods TsExec.Demo.quiet
    (fun _ => ret tt) malloc CreateTestModule (ret (E_FAIL, (0, [])))
    Search.Demo.Full (inr "c:") Search.Demo.Combine Search.Demo.Find Search.Demo.Attributes) with
    (fuel := 3%nat) (p := "c:") (n := "c:") (ts := Search.Demo.members) (a := 0x10) (Options := options "other")
    (os0 := (∅ : ACTIONS)) (x := tt) (Loaded := Loaded) as (root & os1 & x1 & ids & E & Hl & _ & Hd).
  - intros m x. exists x. reflexivity.
  - intros m x. exists x. reflexivity.
  - intros x. exists x. reflexivity.
  - intros p t x. destruct t; eexists _, _, _, _; (split; [reflexivity|]); [split; reflexivity|reflexivity].
  - intros p t fs f Hfs Hin. destruct t; [|discriminate]. injection Hfs as <-.
    repeat (apply elem_of_cons in Hin as [->|Hin]; [vm_compute; discriminate|]). by apply not_elem_of_nil in Hin.
  - reflexivity.
  - reflexivity.
  - exact Search.Demo.members_at.
  - reflexivity.
  - reflexivity.
  - reflexivity.
  - intros b o Hb. rewrite lookup_empty in Hb. discriminate.
  - exists root, os1, x1, ids. split; [exact E|]. split; [exact Hl|exact Hd].
Defined.
End Demo.
