(* ===== verification/ExecCtx.v ===== *)
(** * The runner's execution context (cfix/cfixrun/execctx.c)

    The context keeps statistics, and a state with two counters for each thread
    that runs a fixture, which the thread's children share.  States are found
    through a slot of thread local storage.  Operations run on the thread [Tid];
    [This] is the address of the context. *)
From stdpp Require Import base gmap list strings.
From Stdlib Require Import ZArith Lia.
From S2P Require Import Prelude CfixApi CmdLine.

Definition TLS_OUT_OF_INDEXES : Z := 0xFFFFFFFF.

(* src/cfix/cfixrun/execctx.c:40-53 (EXEC_THREAD_STATE) *)
Record EXEC_THREAD_STATE := MkState {
  FailureCount : Z; InconclusiveCount : Z; StReferenceCount : Z }.

(* src/cfix/cfixrun/cfixrunp.h:80-87 (CFIXRUN_STATISTICS) *)
Record CFIXRUN_STATISTICS := MkStatistics {
  StFixtures : Z; StTestCases : Z; SucceededTestCases : Z; FailedTestCases : Z; InconclusiveTestCases : Z }.

(* src/cfix/cfixrun/execctx.c:55-63 (EXEC_CONTEXT) *)
Record EXEC_CONTEXT := MkExec { ExReferenceCount : Z; ExOptions : CFIXRUN_OPTIONS; Statistics : CFIXRUN_STATISTICS }.

(** The world: the states, the contexts, each thread's value of the slot, the
    slot and its usage count; [Ext] is what the outside owns. *)
Record EW (X : Type) := MkEW {
  States : gmap Z EXEC_THREAD_STATE;
  Contexts : gmap Z EXEC_CONTEXT;
  SlotValue : Z -> Z;
  CurrentExecutionStateSlot : Z;
  SlotUsageCount : Z;
  Ext : X }.
Arguments MkEW {X}. Arguments States {X}. Arguments Contexts {X}. Arguments SlotValue {X}.
Arguments CurrentExecutionStateSlot {X}. Arguments SlotUsageCount {X}. Arguments Ext {X}.

Section setters.
Context {X : Type}.
Implicit Types (s : EW X).
Definition set_States m s := MkEW m (Contexts s) (SlotValue s) (CurrentExecutionStateSlot s) (SlotUsageCount s) (Ext s).
Definition set_Contexts m s := MkEW (States s) m (SlotValue s) (CurrentExecutionStateSlot s) (SlotUsageCount s) (Ext s).
Definition set_SlotValue (t v : Z) s :=
  MkEW (States s) (Contexts s) (fun u => if decide (u = t) then v else SlotValue s u)
    (CurrentExecutionStateSlot s) (SlotUsageCount s) (Ext s).
Definition set_Slot (i : Z) (values : Z -> Z) s := MkEW (States s) (Contexts s) values i (SlotUsageCount s) (Ext s).
Definition set_Usage n s := MkEW (States s) (Contexts s) (SlotValue s) (CurrentExecutionStateSlot s) n (Ext s).
Definition set_Ext (x : X) s := MkEW (States s) (Contexts s) (SlotValue s) (CurrentExecutionStateSlot s) (SlotUsageCount s) x.
End setters.

Section execctx.
Context {X : Type}.
(** The heap's answer, 0 if there is no memory, given the blocks in use. *)
Variable Malloc : gset Z -> ST X Z.
Variable TlsAlloc : ST X Z.
Variable PrintConsole : string -> ST X unit.
Variable Tid : Z.

Local Abbreviation M := (ST (EW X)).

Definition ext {A} (m : ST X A) : M A := fun s =>
  match m (Ext s) with Some (a, x) => Some (a, set_Ext x s) | None => None end.
Definition malloc : M Z :=
  bs <- gets (fun s => dom (States s) ∪ dom (Contexts s)) ;; ext (Malloc bs).

Definition TlsGetValue : M Z := gets (fun s =>
  if CurrentExecutionStateSlot s =? TLS_OUT_OF_INDEXES then 0 else SlotValue s Tid).
Definition TlsSetValue (v : Z) : M unit := modify (fun s =>
  if CurrentExecutionStateSlot s =? TLS_OUT_OF_INDEXES then s else set_SlotValue Tid v s).

(** Access through a pointer; a dangling one faults. *)
Definition loads (p : Z) : M EXEC_THREAD_STATE := fun s =>
  match States s !! p with Some o => Some (o, s) | None => None end.
Definition stores (p : Z) (o : EXEC_THREAD_STATE) : M unit := modify (fun s => set_States (<[p := o]> (States s)) s).
Definition loadc (p : Z) : M EXEC_CONTEXT := fun s =>
  match Contexts s !! p with Some o => Some (o, s) | None => None end.
Definition storec (p : Z) (o : EXEC_CONTEXT) : M unit := modify (fun s => set_Contexts (<[p := o]> (Contexts s)) s).

(* src/cfix/cfixrun/execctx.c:74-84 (CfixrunsDereferenceCurrentExecutionState) *)
Definition CfixrunsDereferenceCurrentExecutionState : M unit :=
  State <- TlsGetValue ;;
  if State =? 0 then ret tt else
  o <- loads State ;;
  let n := LONG (StReferenceCount o - 1) in
  stores State (MkState (FailureCount o) (InconclusiveCount o) n) ;;;
  when_ (n =? 0) (TlsSetValue 0 ;;; modify (fun s => set_States (delete State (States s)) s)).

(* src/cfix/cfixrun/execctx.c:86-91 (CfixrunsReferenceExecutionState) *)
Definition CfixrunsReferenceExecutionState (State : Z) : M unit :=
  o <- loads State ;;
  stores State (MkState (FailureCount o) (InconclusiveCount o) (LONG (StReferenceCount o + 1))).

(* src/cfix/cfixrun/execctx.c:93-98 (CfixrunsSetCurrentExecutionState) *)
Definition CfixrunsSetCurrentExecutionState (State : Z) : M unit := TlsSetValue State.

(* src/cfix/cfixrun/execctx.c:100-119 (CfixrunsGetCurrentExecutionState) *)
Definition CfixrunsGetCurrentExecutionState (Create : bool) : M Z :=
  State <- TlsGetValue ;;
  if (State =? 0) && Create then
    State <- malloc ;;
    when_ (negb (State =? 0))
      (stores State (MkState 0 0 1) ;;; CfixrunsSetCurrentExecutionState State) ;;;
    ret State
  else ret State.

(* src/cfix/cfixrun/execctx.c:127-141 (CfixrunsDeleteExecutionContext) *)
Definition CfixrunsDeleteExecutionContext (This : Z) : M unit :=
  modify (fun s => set_Contexts (delete This (Contexts s)) s) ;;;
  modify (fun s => set_Usage (ULONG (SlotUsageCount s - 1)) s) ;;;
  n <- gets SlotUsageCount ;;
  when_ (n =? 0) (modify (fun s => set_Slot TLS_OUT_OF_INDEXES (fun _ => 0) s)).

(* src/cfix/cfixrun/execctx.c:143-149 (CfixrunsExecCtxReference) *)
Definition CfixrunsExecCtxReference (This : Z) : M unit :=
  o <- loadc This ;; storec This (MkExec (LONG (ExReferenceCount o + 1)) (ExOptions o) (Statistics o)).

(* src/cfix/cfixrun/execctx.c:151-160 (CfixrunsExecCtxDereference) *)
Definition CfixrunsExecCtxDereference (This : Z) : M unit :=
  o <- loadc This ;;
  let n := LONG (ExReferenceCount o - 1) in
  storec This (MkExec n (ExOptions o) (Statistics o)) ;;;
  when_ (n =? 0) (CfixrunsDeleteExecutionContext This).

(** The disposition that a set of options prescribes. *)
(* src/cfix/cfixrun/execctx.c:169-212 (CfixrunsExecCtxQueryDefaultDisposition) *)
Definition DefaultDisposition (Options : CFIXRUN_OPTIONS) (EventType : CFIX_EVENT_TYPE) : CFIX_REPORT_DISPOSITION :=
  match EventType with
  | CfixEventFailedAssertion =>
      if Switch Options AbortOnFirstFailure then CfixAbort
      else if Switch Options AlwaysBreakOnFailure then CfixBreakAlways
      else CfixBreak
  | CfixEventUncaughtException =>
      if Switch Options DoNotCatchUnhandledExceptions then CfixBreak
      else if Switch Options AbortOnFirstFailure then CfixAbort else CfixContinue
  | CfixEventInconclusiveness => CfixContinue
  | CfixEventLog => CfixContinue
  end.

(* src/cfix/cfixrun/execctx.c:162-213 (CfixrunsExecCtxQueryDefaultDisposition) *)
Definition CfixrunsExecCtxQueryDefaultDisposition (This : Z) (EventType : CFIX_EVENT_TYPE)
    : M CFIX_REPORT_DISPOSITION :=
  o <- loadc This ;; ret (DefaultDisposition (ExOptions o) EventType).

(* src/cfix/cfixrun/execctx.c:215-237 (CfixrunsExecCtxReportEvent) *)
Definition CfixrunsExecCtxReportEvent (This : Z) (Event : CFIX_TESTCASE_EXECUTION_EVENT)
    : M CFIX_REPORT_DISPOSITION :=
  CurrentState <- CfixrunsGetCurrentExecutionState false ;;
  if CurrentState =? 0 then
    ext (PrintConsole "Unable to create current execution context state. Aborting") ;;; ret CfixAbort
  else CfixrunsExecCtxQueryDefaultDisposition This (EventType Event).

(* src/cfix/cfixrun/execctx.c:242-263 (CfixrunsExecCtxBeforeFixtureStart) *)
Definition CfixrunsExecCtxBeforeFixtureStart : M Z :=
  CurrentState <- CfixrunsGetCurrentExecutionState true ;;
  if CurrentState =? 0 then
    ext (PrintConsole "Unable to create current execution context state.") ;;; ret E_UNEXPECTED
  else ret S_OK.

(* src/cfix/cfixrun/execctx.c:265-286 (CfixrunsExecCtxBeforeTestCaseStart) *)
Definition CfixrunsExecCtxBeforeTestCaseStart : M Z :=
  CurrentState <- CfixrunsGetCurrentExecutionState false ;;
  if CurrentState =? 0 then
    ext (PrintConsole "Unable to create current execution context state.") ;;; ret E_UNEXPECTED
  else ret S_OK.

(** Counting in the statistics of the context. *)
Definition CountIn (This : Z) (f : CFIXRUN_STATISTICS -> CFIXRUN_STATISTICS) : M unit :=
  o <- loadc This ;; storec This (MkExec (ExReferenceCount o) (ExOptions o) (f (Statistics o))).

(* src/cfix/cfixrun/execctx.c:291-316 (CfixrunsExecCtxAfterFixtureFinish) *)
Definition CfixrunsExecCtxAfterFixtureFinish (This : Z) : M unit :=
  CurrentState <- CfixrunsGetCurrentExecutionState false ;;
  if CurrentState =? 0 then
    ext (PrintConsole "Unable to obtain current execution context state.")
  else
    CountIn This (fun c => MkStatistics (LONG (StFixtures c + 1)) (StTestCases c) (SucceededTestCases c)
                             (FailedTestCases c) (InconclusiveTestCases c)) ;;;
    CfixrunsDereferenceCurrentExecutionState.

(** Was it a success or failure? *)
(* src/cfix/cfixrun/execctx.c:344-366 (CfixrunsExecCtxAfterTestCaseFinish) *)
Definition CountTestCase (st : EXEC_THREAD_STATE) (c : CFIXRUN_STATISTICS) : CFIXRUN_STATISTICS :=
  let n := LONG (StTestCases c + 1) in
  if (FailureCount st =? 0) && (InconclusiveCount st =? 0)
  then MkStatistics (StFixtures c) n (LONG (SucceededTestCases c + 1)) (FailedTestCases c) (InconclusiveTestCases c)
  else if 0 <? FailureCount st
  then MkStatistics (StFixtures c) n (SucceededTestCases c) (LONG (FailedTestCases c + 1)) (InconclusiveTestCases c)
  else if 0 <? InconclusiveCount st
  then MkStatistics (StFixtures c) n (SucceededTestCases c) (FailedTestCases c) (LONG (InconclusiveTestCases c + 1))
  else MkStatistics (StFixtures c) n (SucceededTestCases c) (FailedTestCases c) (InconclusiveTestCases c).

(* src/cfix/cfixrun/execctx.c:319-370 (CfixrunsExecCtxAfterTestCaseFinish) *)
Definition CfixrunsExecCtxAfterTestCaseFinish (This : Z) : M unit :=
  CurrentState <- CfixrunsGetCurrentExecutionState false ;;
  if CurrentState =? 0 then
    ext (PrintConsole "Unable to obtain current execution context state.")
  else
    st <- loads CurrentState ;;
    CountIn This (CountTestCase st) ;;;
    stores CurrentState (MkState 0 0 (StReferenceCount st)).

(* src/cfix/cfixrun/execctx.c:372-396 (CfixrunsExecCtxBeforeChildThreadStart) *)
Definition CfixrunsExecCtxBeforeChildThreadStart (ParentState : Z) : M unit :=
  CfixrunsReferenceExecutionState ParentState ;;;
  CfixrunsSetCurrentExecutionState ParentState.

(* src/cfix/cfixrun/execctx.c:398-409 (CfixrunsExecCtxAfterChildThreadFinish) *)
Definition CfixrunsExecCtxAfterChildThreadFinish : M unit := CfixrunsDereferenceCurrentExecutionState.

(** The result code and the context for the child. *)
(* src/cfix/cfixrun/execctx.c:411-432 (CfixrunsExecCtxCreateChildThread) *)
Definition CfixrunsExecCtxCreateChildThread : M (Z * Z) :=
  CurrentState <- CfixrunsGetCurrentExecutionState false ;;
  if CurrentState =? 0 then
    ext (PrintConsole "Unable to obtain current execution context state/test case.") ;;;
    ret (CFIX_E_UNKNOWN_THREAD, 0)
  else ret (S_OK, CurrentState).

(** The methods, as the creation installs them. *)
(* src/cfix/cfixrun/execctx.c:482-494 (CfixrunpCreateExecutionContext) *)
Definition ExecutionContext (This : Z) : CFIX_EXECUTION_CONTEXT (EW X) := {|
  CtxVersion := CFIX_TEST_CONTEXT_VERSION;
  ReportEvent := fun _ => CfixrunsExecCtxReportEvent This;
  QueryDefaultDisposition := CfixrunsExecCtxQueryDefaultDisposition This;
  BeforeFixtureStart := fun _ _ => CfixrunsExecCtxBeforeFixtureStart;
  AfterFixtureFinish := fun _ _ _ => CfixrunsExecCtxAfterFixtureFinish This;
  BeforeTestCaseStart := fun _ _ _ => CfixrunsExecCtxBeforeTestCaseStart;
  AfterTestCaseFinish := fun _ _ _ _ => CfixrunsExecCtxAfterTestCaseFinish This;
  CreateChildThread := fun _ => CfixrunsExecCtxCreateChildThread;
  BeforeChildThreadStart := fun _ => CfixrunsExecCtxBeforeChildThreadStart;
  AfterChildThreadFinish := fun _ _ => CfixrunsExecCtxAfterChildThreadFinish;
  OnUnhandledException := fun _ _ => ret tt;
  CtxReference := CfixrunsExecCtxReference This;
  CtxDereference := CfixrunsExecCtxDereference This |}.

(** The result code and the new context. *)
(* src/cfix/cfixrun/execctx.c:450-499 (CfixrunpCreateExecutionContext) *)
Definition CfixrunpCreateExecutionContext (State : option CFIXRUN_OPTIONS) (OutPtr : bool) : M (Z * Z) :=
  match State, OutPtr with
  | Some Options, true =>
      Slot <- gets CurrentExecutionStateSlot ;;
      failed <- (if Slot =? TLS_OUT_OF_INDEXES then
                   i <- ext TlsAlloc ;;
                   modify (set_Slot i (fun _ => 0)) ;;;
                   ret (i =? TLS_OUT_OF_INDEXES)
                 else ret false) ;;
      if failed : bool then ret (HRESULT_FROM_WIN32 TLS_OUT_OF_INDEXES, 0)
      else
        modify (fun s => set_Usage (ULONG (SlotUsageCount s + 1)) s) ;;;
        NewContext <- malloc ;;
        if NewContext =? 0 then ret (E_OUTOFMEMORY, 0)
        else
          storec NewContext (MkExec 1 Options (MkStatistics 0 0 0 0 0)) ;;;
          ret (S_OK, NewContext)
  | _, _ => ret (E_INVALIDARG, 0)
  end.

(** The statistics; the output is left as it is if an argument is NULL. *)
(* src/cfix/cfixrun/execctx.c:501-512 (CfixrunpGetStatisticsExecutionContext) *)
Definition CfixrunpGetStatisticsExecutionContext (This : Z) (Out : CFIXRUN_STATISTICS) : M CFIXRUN_STATISTICS :=
  if This =? 0 then ret Out else o <- loadc This ;; ret (Statistics o).
End execctx.

(** ** Sequences of operations of any threads *)
Inductive EXEC_OP :=
  | OpReportEvent (Event : CFIX_TESTCASE_EXECUTION_EVENT)
  | OpBeforeFixtureStart | OpBeforeTestCaseStart | OpAfterTestCaseFinish | OpAfterFixtureFinish
  | OpCreateChildThread | OpBeforeChildThreadStart (ParentState : Z) | OpAfterChildThreadFinish
  | OpReference | OpDereference.

Section operations.
Context {X : Type}.
Variable Malloc : gset Z -> ST X Z.
Variable PrintConsole : string -> ST X unit.
Variable This : Z.

(** An operation on thread [t]. *)
Definition run_op (t : Z) (op : EXEC_OP) : ST (EW X) unit :=
  match op with
  | OpReportEvent e => CfixrunsExecCtxReportEvent Malloc PrintConsole t This e ;;; ret tt
  | OpBeforeFixtureStart => CfixrunsExecCtxBeforeFixtureStart Malloc PrintConsole t ;;; ret tt
  | OpBeforeTestCaseStart => CfixrunsExecCtxBeforeTestCaseStart Malloc PrintConsole t ;;; ret tt
  | OpAfterTestCaseFinish => CfixrunsExecCtxAfterTestCaseFinish Malloc PrintConsole t This
  | OpAfterFixtureFinish => CfixrunsExecCtxAfterFixtureFinish Malloc PrintConsole t This
  | OpCreateChildThread => CfixrunsExecCtxCreateChildThread Malloc PrintConsole t ;;; ret tt
  | OpBeforeChildThreadStart p => CfixrunsExecCtxBeforeChildThreadStart t p
  | OpAfterChildThreadFinish => CfixrunsExecCtxAfterChildThreadFinish t
  | OpReference => CfixrunsExecCtxReference This
  | OpDereference => CfixrunsExecCtxDereference This
  end.
Fixpoint run_ops (ops : list (Z * EXEC_OP)) : ST (EW X) unit :=
  match ops with [] => ret tt | (t, op) :: ops => run_op t op ;;; run_ops ops end.
End operations.

(** An invariant of all the operations of a context. *)
Record ContextOK {W : Type} (I : W -> Prop) (c : CFIX_EXECUTION_CONTEXT W) : Prop := {
  co_report : forall t e, preserves I (ReportEvent c t e);
  co_query : forall e, preserves I (QueryDefaultDisposition c e);
  co_before_fixture : forall t f, preserves I (BeforeFixtureStart c t f);
  co_after_fixture : forall t f b, preserves I (AfterFixtureFinish c t f b);
  co_before_case : forall t f tc, preserves I (BeforeTestCaseStart c t f tc);
  co_after_case : forall t f tc b, preserves I (AfterTestCaseFinish c t f tc b);
  co_create_child : forall t, preserves I (CreateChildThread c t);
  co_before_child : forall t p, preserves I (BeforeChildThreadStart c t p);
  co_after_child : forall t p, preserves I (AfterChildThreadFinish c t p);
  co_exception : forall t e, preserves I (OnUnhandledException c t e);
  co_reference : preserves I (CtxReference c);
  co_dereference : preserves I (CtxDereference c) }.

(** ** Failures are never counted *)
Section uncounted.
Context {X : Type}.
Variable Malloc : gset Z -> ST X Z.
Variable PrintConsole : string -> ST X unit.
Implicit Types (s : EW X).

(** Statistics that know only successes. *)
Definition OnlySuccesses (c : CFIXRUN_STATISTICS) : Prop :=
  FailedTestCases c = 0 /\ InconclusiveTestCases c = 0 /\ SucceededTestCases c = StTestCases c.
Record Uncounted s : Prop := {
  un_states : forall p o, States s !! p = Some o -> FailureCount o = 0 /\ InconclusiveCount o = 0;
  un_contexts : forall p o, Contexts s !! p = Some o -> OnlySuccesses (Statistics o) }.

Local Abbreviation OK := (preserves Uncounted).

Lemma Uncounted_same s s' : States s' = States s -> Contexts s' = Contexts s -> Uncounted s -> Uncounted s'.
Proof. intros E1 E2 [H1 H2]. split; [by rewrite E1|by rewrite E2]. Qed.

Lemma OK_ext {A} (m : ST X A) : OK (ext m).
Proof.
  intros s a s' H E. unfold ext in E. destruct (m (Ext s)) as [[b x]|]; [|done]. injection E as <- <-.
  by apply (Uncounted_same s).
Qed.
Lemma OK_modify (f : EW X -> EW X) : (forall s, States (f s) = States s /\ Contexts (f s) = Contexts s) -> OK (modify f).
Proof. intros Hf s a s' H [= _ <-]. destruct (Hf s). by apply (Uncounted_same s). Qed.

(** Reading a value that is known, and what is known of it. *)
Lemma OK_loads {A} p (k : EXEC_THREAD_STATE -> ST (EW X) A) :
  (forall o, FailureCount o = 0 -> InconclusiveCount o = 0 -> OK (k o)) -> OK (bind (loads p) k).
Proof.
  intros Hk s a s' H E. unfold bind, loads in E. destruct (States s !! p) as [o|] eqn:Ep; [|done].
  destruct (un_states s H p o Ep). by eapply Hk.
Qed.
Lemma OK_loadc {A} p (k : EXEC_CONTEXT -> ST (EW X) A) :
  (forall o, OnlySuccesses (Statistics o) -> OK (k o)) -> OK (bind (loadc p) k).
Proof.
  intros Hk s a s' H E. unfold bind, loadc in E. destruct (Contexts s !! p) as [o|] eqn:Ep; [|done].
  eapply Hk; [by eapply un_contexts|exact H|exact E].
Qed.
Lemma OK_stores p o : FailureCount o = 0 -> InconclusiveCount o = 0 -> OK (stores (X := X) p o).
Proof.
  intros H1 H2 s a s' [Hs Hc] [= _ <-]. split; [|done]. simpl. intros q o'.
  destruct (decide (q = p)) as [->|Hne]; [rewrite lookup_insert_eq; by intros [= <-]|].
  rewrite lookup_insert_ne by done. apply Hs.
Qed.
Lemma OK_storec p o : OnlySuccesses (Statistics o) -> OK (storec (X := X) p o).
Proof.
  intros H1 s a s' [Hs Hc] [= _ <-]. split; [done|]. simpl. intros q o'.
  destruct (decide (q = p)) as [->|Hne]; [rewrite lookup_insert_eq; by intros [= <-]|].
  rewrite lookup_insert_ne by done. apply Hc.
Qed.
Lemma OK_frees p : OK (modify (fun s => set_States (delete p (States s)) s)).
Proof. intros s a s' [Hs Hc] [= _ <-]. split; [|done]. intros q o. simpl. intros [_ H]%lookup_delete_Some. by eapply Hs. Qed.
Lemma OK_freec p : OK (modify (fun s => set_Contexts (delete p (Contexts s)) s)).
Proof. intros s a s' [Hs Hc] [= _ <-]. split; [done|]. intros q o. simpl. intros [_ H]%lookup_delete_Some. by eapply Hc. Qed.

Lemma OK_TlsSetValue t v : OK (TlsSetValue t v).
Proof. apply OK_modify. intros s. by destruct (_ =? _). Qed.

Lemma OK_Dereference t : OK (CfixrunsDereferenceCurrentExecutionState t).
Proof.
  unfold CfixrunsDereferenceCurrentExecutionState, TlsGetValue.
  apply preserves_bind; [apply preserves_gets|]. intros p. apply preserves_if; [apply preserves_ret|].
  apply OK_loads. intros o H1 H2. cbv zeta. apply preserves_bind; [by apply OK_stores|]. intros _.
  apply preserves_when, preserves_bind; [apply OK_TlsSetValue|]. intros _. apply OK_frees.
Qed.

Lemma OK_GetCurrent t b : OK (CfixrunsGetCurrentExecutionState Malloc t b).
Proof.
  unfold CfixrunsGetCurrentExecutionState, TlsGetValue, malloc.
  apply preserves_bind; [apply preserves_gets|]. intros p. apply preserves_if; [|apply preserves_ret].
  apply preserves_bind; [apply preserves_bind; [apply preserves_gets|intros ?; apply OK_ext]|]. intros q.
  apply preserves_bind; [|intros _; apply preserves_ret].
  apply preserves_when, preserves_bind; [by apply OK_stores|]. intros _. apply OK_TlsSetValue.
Qed.

(** The common shape of the methods: an error message without a state. *)
Lemma OK_method {A} t b (err : Z -> ST (EW X) A) k :
  (forall p, OK (err p)) -> (forall p, OK (k p)) ->
  OK (p <- CfixrunsGetCurrentExecutionState Malloc t b ;; if p =? 0 then err p else k p).
Proof. intros He Hk. apply preserves_bind; [apply OK_GetCurrent|]. intros p. by apply preserves_if. Qed.

Lemma OK_message {A} m (a : A) : OK (ext (PrintConsole m) ;;; ret a).
Proof. apply preserves_bind; [apply OK_ext|]. intros _. apply preserves_ret. Qed.

Lemma OK_CountTestCase st c : FailureCount st = 0 -> InconclusiveCount st = 0 ->
  OnlySuccesses c -> OnlySuccesses (CountTestCase st c).
Proof. unfold CountTestCase, OnlySuccesses. intros -> -> (-> & -> & ->). done. Qed.

Lemma OK_CountIn p f : (forall c, OnlySuccesses c -> OnlySuccesses (f c)) -> OK (CountIn (X := X) p f).
Proof. intros Hf. apply OK_loadc. intros o Ho. apply OK_storec. by apply Hf. Qed.

Lemma OK_AfterTestCase t This : OK (CfixrunsExecCtxAfterTestCaseFinish Malloc PrintConsole t This).
Proof.
  apply OK_method; [intros; apply OK_ext|]. intros p. apply OK_loads. intros st H1 H2.
  apply preserves_bind; [|intros _; by apply OK_stores].
  apply OK_CountIn. intros c. by apply OK_CountTestCase.
Qed.

Lemma OK_AfterFixture t This : OK (CfixrunsExecCtxAfterFixtureFinish Malloc PrintConsole t This).
Proof.
  apply OK_method; [intros; apply OK_ext|]. intros p.
  apply preserves_bind; [|intros _; apply OK_Dereference]. by apply OK_CountIn.
Qed.

Lemma OK_Query This ty : OK (CfixrunsExecCtxQueryDefaultDisposition (X := X) This ty).
Proof. apply OK_loadc. intros o _. apply preserves_ret. Qed.

Lemma OK_CtxReference This : OK (CfixrunsExecCtxReference (X := X) This).
Proof. apply OK_loadc. intros o Ho. by apply OK_storec. Qed.

Lemma OK_CtxDereference This : OK (CfixrunsExecCtxDereference (X := X) This).
Proof.
  apply OK_loadc. intros o Ho. cbv zeta. apply preserves_bind; [by apply OK_storec|]. intros _.
  apply preserves_when. unfold CfixrunsDeleteExecutionContext.
  apply preserves_bind; [apply OK_freec|]. intros _.
  apply preserves_bind; [by apply OK_modify|]. intros _.
  apply preserves_bind; [apply preserves_gets|]. intros n. apply preserves_when. by apply OK_modify.
Qed.

Lemma OK_BeforeChild t p : OK (CfixrunsExecCtxBeforeChildThreadStart (X := X) t p).
Proof.
  apply preserves_bind; [|intros _; apply OK_TlsSetValue].
  apply OK_loads. intros o H1 H2. by apply OK_stores.
Qed.

Lemma ExecutionContext_uncounted t This : ContextOK Uncounted (ExecutionContext Malloc PrintConsole t This).
Proof.
  split; intros; simpl; try (apply OK_method; intros; apply OK_message || apply preserves_ret).
  - apply OK_method; intros; [apply OK_message|apply OK_Query].
  - apply OK_Query.
  - apply OK_AfterFixture.
  - apply OK_AfterTestCase.
  - apply OK_BeforeChild.
  - apply OK_Dereference.
  - apply preserves_ret.
  - apply OK_CtxReference.
  - apply OK_CtxDereference.
Qed.

Lemma run_op_uncounted This t op : OK (run_op Malloc PrintConsole This t op).
Proof.
  destruct (ExecutionContext_uncounted t This) as [H1 H2 H3 H4 H5 H6 H7 H8 H9 H10 H11 H12].
  simpl in *. pose (T := MkThreadId 0 0). pose (F := MkFixture "" 0 0 0 0 0 0 "" []). pose (C := MkTestCase "" 0).
  destruct op; simpl; try (apply preserves_bind; [|intros _; apply preserves_ret]).
  - apply (H1 T). - apply (H3 T F). - apply (H5 T F C). - apply (H6 T F C true). - apply (H4 T F true).
  - apply (H7 T). - apply (H8 T). - apply (H9 T 0). - apply H11. - apply H12.
Qed.

Lemma run_ops_uncounted This ops : OK (run_ops Malloc PrintConsole This ops).
Proof.
  induction ops as [|[t op] ops IH]; [apply preserves_ret|].
  apply preserves_bind; [apply run_op_uncounted|by intros _].
Qed.
End uncounted.

(** ** The lifetime of thread states

    [R] maps the threads that run a fixture, or are children of one that does, to
    their state. *)
Definition shares (R : gmap Z Z) (p : Z) : Z := Z.of_nat (size (filter (fun tq => snd tq = p) R)).

Lemma shares_insert R t q p : R !! t = None ->
  shares (<[t := q]> R) p = shares R p + (if decide (q = p) then 1 else 0).
Proof.
  intros Ht. unfold shares. case_decide as E.
  - rewrite map_filter_insert_True by done. rewrite map_size_insert_None; [lia|].
    apply map_lookup_filter_None. by left.
  - rewrite map_filter_insert_False by done. rewrite delete_id by done. lia.
Qed.

Lemma shares_delete R t q p : R !! t = Some q ->
  shares (delete t R) p = shares R p - (if decide (q = p) then 1 else 0).
Proof.
  intros Ht. rewrite <-(insert_delete_id R t q Ht) at 2.
  rewrite shares_insert by apply lookup_delete_eq. lia.
Qed.

Lemma shares_pos R t p : R !! t = Some p -> 0 < shares R p.
Proof.
  intros Ht. unfold shares. destruct (size _) eqn:E; [|lia]. exfalso.
  apply map_size_empty_inv in E. assert (filter (fun tq => snd tq = p) R !! t = Some p) as H
    by by apply map_lookup_filter_Some. by rewrite E, lookup_empty in H.
Qed.

Lemma shares_nonneg R p : 0 <= shares R p.
Proof. unfold shares. lia. Qed.

Lemma shares_bound R p : shares R p <= Z.of_nat (size R).
Proof. unfold shares. apply inj_le, map_subseteq_size, map_filter_subseteq. Qed.

Section lifetime.
Context {X : Type}.
Variable Malloc : gset Z -> ST X Z.
Variable PrintConsole : string -> ST X unit.
Variable This : Z.
Hypothesis Malloc_new : forall bs x a x', Malloc bs x = Some (a, x') -> a ∉ bs.
Hypothesis Malloc_returns : forall bs x, exists a x', Malloc bs x = Some (a, x').
Hypothesis Print_returns : forall m x, exists x', PrintConsole m x = Some (tt, x').
Implicit Types (s : EW X) (R : gmap Z Z).

(** The threads of the process fit a LONG. *)
Definition MAX_THREADS : Z := 2 ^ 31 - 1.

Record StatesOwned R s : Prop := {
  so_slot : CurrentExecutionStateSlot s <> TLS_OUT_OF_INDEXES;
  so_context : is_Some (Contexts s !! This);
  so_value : forall t p, R !! t = Some p -> SlotValue s t = p /\ p <> 0 /\ is_Some (States s !! p);
  so_shared : forall p o, States s !! p = Some o -> StReferenceCount o = shares R p /\ 0 < shares R p;
  so_threads : Z.of_nat (size R) <= MAX_THREADS }.

(** The life cycle that the framework keeps: a thread that is none of the run has no
    state (a fixture that ended early leaves its thread one), children are given
    the state of a thread of the run, and a fixture finishes after its children. *)
Definition allowed R s (t : Z) (op : EXEC_OP) : Prop :=
  match op with
  | OpReportEvent _ | OpBeforeTestCaseStart | OpAfterTestCaseFinish | OpCreateChildThread =>
      is_Some (R !! t) \/ SlotValue s t = 0
  | OpBeforeFixtureStart =>
      is_Some (R !! t) \/ (R !! t = None /\ SlotValue s t = 0 /\ Z.of_nat (size R) < MAX_THREADS)
  | OpBeforeChildThreadStart p =>
      R !! t = None /\ (exists u, R !! u = Some p) /\ Z.of_nat (size R) < MAX_THREADS
  | OpAfterChildThreadFinish => is_Some (R !! t)
  | OpAfterFixtureFinish => exists p, R !! t = Some p /\ forall u, R !! u = Some p -> u = t
  | OpReference | OpDereference => False
  end.
Definition after R s' (t : Z) (op : EXEC_OP) : gmap Z Z :=
  match op with
  | OpBeforeFixtureStart =>
      match R !! t with
      | Some _ => R
      | None => if SlotValue s' t =? 0 then R else <[t := SlotValue s' t]> R
      end
  | OpBeforeChildThreadStart p => <[t := p]> R
  | OpAfterChildThreadFinish | OpAfterFixtureFinish => delete t R
  | _ => R
  end.

Lemma run_ext {A} (m : ST X A) s a x : m (Ext s) = Some (a, x) -> ext m s = Some (a, set_Ext x s).
Proof. unfold ext. by intros ->. Qed.
Lemma StatesOwned_ext R s x : StatesOwned R s -> StatesOwned R (set_Ext x s).
Proof. by intros []. Qed.

Lemma shares_long R s p : StatesOwned R s -> 0 <= shares R p <= MAX_THREADS.
Proof. intros H. pose proof (shares_bound R p). pose proof (shares_nonneg R p). pose proof (so_threads _ _ H). lia. Qed.

(** The current state of a thread. *)
Lemma GetCurrent_eq R s t : StatesOwned R s ->
  CfixrunsGetCurrentExecutionState Malloc t false s = Some (SlotValue s t, s).
Proof.
  intros H. unfold CfixrunsGetCurrentExecutionState, TlsGetValue. rewrite bind_gets.
  rewrite (proj2 (Z.eqb_neq _ _) (so_slot _ _ H)), andb_false_r. done.
Qed.

(** [m] returns and leaves the states owned by [R]. *)
Definition Keeps {A} R (m : ST (EW X) A) s : Prop := exists a s', m s = Some (a, s') /\ StatesOwned R s'.

Lemma Keeps_method {A} R s t (err k : Z -> ST (EW X) A) : StatesOwned R s ->
  (is_Some (R !! t) \/ SlotValue s t = 0) -> Keeps R (err 0) s -> (forall p, R !! t = Some p -> Keeps R (k p) s) ->
  Keeps R (p <- CfixrunsGetCurrentExecutionState Malloc t false ;; if p =? 0 then err p else k p) s.
Proof.
  intros H Hal He Hk. unfold Keeps. rewrite (bind_eq _ _ _ _ _ (GetCurrent_eq R s t H)). destruct (R !! t) as [p|] eqn:E.
  - destruct (so_value _ _ H t p E) as (-> & Hp & _). rewrite (proj2 (Z.eqb_neq _ _) Hp). by apply Hk.
  - destruct Hal as [[? ?]|Hz]; [done|]. by rewrite Hz.
Qed.

Lemma Keeps_ret {A} R s (a : A) : StatesOwned R s -> Keeps R (ret a) s.
Proof. intros H. by exists a, s. Qed.
Lemma Keeps_message {A} R s m (k : unit -> ST (EW X) A) : StatesOwned R s ->
  (forall s', StatesOwned R s' -> Keeps R (k tt) s') -> Keeps R (bind (ext (PrintConsole m)) k) s.
Proof.
  intros H Hk. destruct (Print_returns m (Ext s)) as [x Hx]. unfold Keeps.
  rewrite (bind_eq _ _ _ _ _ (run_ext _ _ _ _ Hx)). apply Hk. by apply StatesOwned_ext.
Qed.
Lemma Keeps_print R s m : StatesOwned R s -> Keeps R (ext (PrintConsole m)) s.
Proof.
  intros H. destruct (Print_returns m (Ext s)) as [x Hx]. eexists _, _.
  split; [by apply run_ext|by apply StatesOwned_ext].
Qed.

(** Updating the counters of a state that stays shared as it is. *)
Lemma StatesOwned_counters R s p o f i :
  StatesOwned R s -> States s !! p = Some o ->
  StatesOwned R (set_States (<[p := MkState f i (StReferenceCount o)]> (States s)) s).
Proof.
  intros [H1 H2 H3 H4 H5] Hp. split; simpl; try done.
  - intros t q Ht. destruct (H3 t q Ht) as (E & Hq & Hs). split_and!; [done|done|].
    destruct (decide (q = p)) as [->|]; [rewrite lookup_insert_eq; by eexists|by rewrite lookup_insert_ne].
  - intros q o'. destruct (decide (q = p)) as [->|Hne].
    + rewrite lookup_insert_eq. intros [= <-]. simpl. by apply H4.
    + rewrite lookup_insert_ne by done. apply H4.
Qed.

Lemma CountIn_eq R s f : StatesOwned R s ->
  exists s', CountIn This f s = Some (tt, s') /\ StatesOwned R s' /\ States s' = States s.
Proof.
  intros H. destruct (so_context _ _ H) as [o Ho]. unfold CountIn, loadc, bind. rewrite Ho.
  eexists. split; [reflexivity|]. split; [|done]. destruct H as [H1 H2 H3 H4 H5]. split; simpl; try done.
  rewrite lookup_insert_eq. by eexists.
Qed.

(** A thread gives its share back. *)
Lemma Dereference_eq R s t p : StatesOwned R s -> R !! t = Some p ->
  exists s', CfixrunsDereferenceCurrentExecutionState t s = Some (tt, s') /\ StatesOwned (delete t R) s'.
Proof.
  intros H Ht. destruct (so_value _ _ H t p Ht) as (E & Hp & [o Ho]).
  destruct (so_shared _ _ H p o Ho) as [Hrc Hpos]. pose proof (shares_long R s p H).
  unfold CfixrunsDereferenceCurrentExecutionState, TlsGetValue. rewrite bind_gets.
  rewrite (proj2 (Z.eqb_neq _ _) (so_slot _ _ H)), E, (proj2 (Z.eqb_neq _ _) Hp).
  unfold loads. unfold bind at 1. rewrite Ho. cbv zeta. unfold stores. rewrite bind_modify.
  rewrite Hrc, LONG_small by (unfold MAX_THREADS in *; lia).
  pose proof (shares_delete R t p) as Hdel. destruct H as [H1 H2 H3 H4 H5].
  assert (forall u q, delete t R !! u = Some q -> u <> t /\ R !! u = Some q) as Hlook
    by (intros u q [Hne Hu]%lookup_delete_Some; done).
  assert (Z.of_nat (size (delete t R)) <= MAX_THREADS) as H5'
    by (rewrite map_size_delete_Some by (by eexists); lia).
  destruct (Z.eqb_spec (shares R p - 1) 0) as [Hz|Hz]; simpl.
  - unfold TlsSetValue. rewrite bind_modify. eexists. split; [reflexivity|].
    assert (forall u, R !! u = Some p -> u = t) as Honly.
    { intros u Hu. destruct (decide (u = t)) as [|Hne]; [done|]. exfalso.
      assert (0 < shares (delete t R) p) as Hp' by (apply (shares_pos _ u); by rewrite lookup_delete_ne).
      rewrite (Hdel p Ht), decide_True in Hp' by done. lia. }
    cbn [CurrentExecutionStateSlot set_States]. rewrite (proj2 (Z.eqb_neq _ _) H1).
    split; simpl; try done.
    + intros u q Hu. destruct (Hlook u q Hu) as [Hne Hu']. rewrite decide_False by done.
      destruct (H3 u q Hu') as (Eq & Hq & Hs). split_and!; [done|done|].
      assert (q <> p) by (intros ->; apply Hne; by apply Honly).
      by rewrite lookup_delete_ne, lookup_insert_ne.
    + intros q o'. intros [Hne Hq]%lookup_delete_Some. rewrite lookup_insert_ne in Hq by done.
      rewrite (Hdel q Ht), decide_False by done. rewrite Z.sub_0_r. by apply H4.
  - eexists. split; [reflexivity|]. split; simpl; try done.
    + intros u q Hu. destruct (Hlook u q Hu) as [Hne Hu'].
      destruct (H3 u q Hu') as (Eq & Hq & Hs). split_and!; [done|done|].
      destruct (decide (q = p)) as [->|]; [rewrite lookup_insert_eq; by eexists|by rewrite lookup_insert_ne].
    + intros q o'. rewrite (Hdel q Ht). destruct (decide (q = p)) as [->|Hne].
      * rewrite lookup_insert_eq. intros [= <-]. simpl. rewrite decide_True by done. lia.
      * rewrite lookup_insert_ne by done. rewrite decide_False by done. rewrite Z.sub_0_r. apply H4.
Qed.

(** A thread takes a share of a state that is there, or of a new one. *)
Lemma StatesOwned_join R s t p o n :
  StatesOwned R s -> R !! t = None -> Z.of_nat (size R) < MAX_THREADS -> p <> 0 ->
  StReferenceCount o = shares R p + 1 -> (States s !! p = None -> shares R p = 0) ->
  n = set_SlotValue t p (set_States (<[p := o]> (States s)) s) ->
  StatesOwned (<[t := p]> R) n.
Proof.
  intros [H1 H2 H3 H4 H5] Ht Hsz Hp Hrc Hnew ->. split; simpl; try done.
  - intros u q. destruct (decide (u = t)) as [->|Hne].
    + rewrite lookup_insert_eq. intros [= <-]. rewrite lookup_insert_eq by done.
      split_and!; [done|done|by eexists].
    + rewrite lookup_insert_ne by done. intros Hu. destruct (H3 u q Hu) as (Eq & Hq & Hs).
      split_and!; [done|done|]. destruct (decide (q = p)) as [->|];
        [rewrite lookup_insert_eq; by eexists|by rewrite lookup_insert_ne].
  - intros q o'. rewrite shares_insert by done. pose proof (shares_nonneg R q).
    destruct (decide (q = p)) as [->|Hne].
    + rewrite lookup_insert_eq. intros [= <-]. rewrite decide_True by done. lia.
    + rewrite lookup_insert_ne by done. rewrite decide_False by done. rewrite Z.add_0_r. apply H4.
  - rewrite map_size_insert_None by done. lia.
Qed.

Lemma BeforeFixture_joins R s t :
  StatesOwned R s -> R !! t = None -> SlotValue s t = 0 -> Z.of_nat (size R) < MAX_THREADS ->
  exists Hr s', CfixrunsExecCtxBeforeFixtureStart Malloc PrintConsole t s = Some (Hr, s') /\
    StatesOwned (if SlotValue s' t =? 0 then R else <[t := SlotValue s' t]> R) s'.
Proof.
  intros H Ht Hz Hsz. unfold CfixrunsExecCtxBeforeFixtureStart, CfixrunsGetCurrentExecutionState, TlsGetValue.
  pose proof (so_slot _ _ H) as Hslot. rewrite bind_assoc, bind_gets, (proj2 (Z.eqb_neq _ _) Hslot), Hz.
  cbn [Z.eqb andb]. unfold malloc. rewrite !bind_assoc, bind_gets.
  destruct (Malloc_returns (dom (States s) ∪ dom (Contexts s)) (Ext s)) as (p & x & Hm).
  rewrite (bind_eq _ _ _ _ _ (run_ext _ _ _ _ Hm)). pose proof (StatesOwned_ext _ _ x H) as Hx.
  destruct (Z.eqb_spec p 0) as [->|Hp]; cbn [negb when_].
  - rewrite bind_assoc, bind_ret, bind_ret. cbn [Z.eqb].
    destruct (Print_returns "Unable to create current execution context state." (Ext (set_Ext x s))) as [x2 Hx2].
    rewrite (bind_eq _ _ _ _ _ (run_ext _ _ _ _ Hx2)). eexists _, _. split; [reflexivity|].
    simpl. rewrite Hz. simpl. by apply (StatesOwned_ext _ (set_Ext x s)).
  - apply Malloc_new in Hm. assert (States s !! p = None) as Hfresh by (apply not_elem_of_dom; set_solver).
    rewrite !bind_assoc. unfold stores, CfixrunsSetCurrentExecutionState, TlsSetValue.
    rewrite bind_modify, bind_modify. cbn [CurrentExecutionStateSlot set_States set_Ext].
    rewrite (proj2 (Z.eqb_neq _ _) Hslot), bind_ret, (proj2 (Z.eqb_neq _ _) Hp).
    eexists _, _. split; [reflexivity|]. simpl. rewrite decide_True by done.
    rewrite (proj2 (Z.eqb_neq _ _) Hp).
    assert (shares R p = 0) as Hs0.
    { destruct (decide (0 < shares R p)) as [Hs|]; [|pose proof (shares_nonneg R p); lia]. exfalso.
      unfold shares in Hs. destruct (decide (filter (fun tq => snd tq = p) R = ∅)) as [E|E];
        [rewrite E, map_size_empty in Hs; lia|].
      apply map_choose in E as (u & q & Hu). apply map_lookup_filter_Some in Hu as [Hu Hq]. simpl in Hq. subst q.
      destruct (so_value _ _ H u p Hu) as (_ & _ & [o Ho]). congruence. }
    eapply (StatesOwned_join R (set_Ext x s) t p (MkState 0 0 1)); try done. simpl. lia.
Qed.

Lemma BeforeChild_joins R s t u p :
  StatesOwned R s -> R !! t = None -> R !! u = Some p -> Z.of_nat (size R) < MAX_THREADS ->
  exists s', CfixrunsExecCtxBeforeChildThreadStart t p s = Some (tt, s') /\ StatesOwned (<[t := p]> R) s'.
Proof.
  intros H Ht Hu Hsz. destruct (so_value _ _ H u p Hu) as (_ & Hp & [o Ho]).
  destruct (so_shared _ _ H p o Ho) as [Hrc Hpos]. pose proof (shares_bound R p).
  unfold CfixrunsExecCtxBeforeChildThreadStart, CfixrunsReferenceExecutionState. rewrite bind_assoc.
  unfold loads. unfold bind at 1. rewrite Ho. unfold stores. rewrite bind_modify.
  unfold CfixrunsSetCurrentExecutionState, TlsSetValue, modify. simpl.
  rewrite (proj2 (Z.eqb_neq _ _) (so_slot _ _ H)). eexists. split; [reflexivity|].
  eapply (StatesOwned_join R s t p); try done. simpl. rewrite Hrc, LONG_small; [done|unfold MAX_THREADS in *; lia].
  intros E. congruence.
Qed.

Lemma Keeps_tt R (m : ST (EW X) unit) s :
  Keeps R m s -> exists s', m s = Some (tt, s') /\ StatesOwned R s'.
Proof. intros ([] & s' & H). by exists s'. Qed.
Lemma Keeps_unit {A} R (m : ST (EW X) A) s :
  Keeps R m s -> exists s', (m ;;; ret tt) s = Some (tt, s') /\ StatesOwned R s'.
Proof. intros (a & s' & E & H). exists s'. by rewrite (bind_eq _ _ _ _ _ E). Qed.

(** C34. Thread states are shared and released exactly.  As long as threads keep the
    life cycle that the framework keeps -- children are given the state of a
    running thread and finish before the fixture does -- every operation of the
    context on any thread returns, never follows a pointer to a released state,
    and keeps every state's count equal to the number of threads that share it; a
    state without sharers is released, so that no state is left when no thread
    runs. *)
Theorem thread_states_owned R s t op :
  StatesOwned R s -> allowed R s t op ->
  (exists s', run_op Malloc PrintConsole This t op s = Some (tt, s') /\ StatesOwned (after R s' t op) s') /\
  (R = ∅ -> States s = ∅).
Proof.
  intros H Hal. split.
  2:{ intros ->. apply map_eq. intros p. rewrite lookup_empty. destruct (States s !! p) as [o|] eqn:E; [|done].
      destruct (so_shared _ _ H p o E) as [_ Hp]. by unfold shares in Hp. }
  destruct op as [e| | | | | |p| | |]; simpl in Hal; cbn [run_op after].
  - apply Keeps_unit, Keeps_method; [done..| |].
    + apply Keeps_message; [done|]. intros. by apply Keeps_ret.
    + intros p _. destruct (so_context _ _ H) as [o Ho]. exists (DefaultDisposition (ExOptions o) (EventType e)), s.
      unfold CfixrunsExecCtxQueryDefaultDisposition, loadc, bind. by rewrite Ho.
  - destruct Hal as [[p Hp]|(Ht & Hz & Hsz)].
    { destruct (so_value _ _ H t p Hp) as (Ep & Hp0 & _). exists s. rewrite Hp. split; [|done].
      unfold CfixrunsExecCtxBeforeFixtureStart, CfixrunsGetCurrentExecutionState, TlsGetValue.
      rewrite !bind_assoc, bind_gets, (proj2 (Z.eqb_neq _ _) (so_slot _ _ H)), Ep, (proj2 (Z.eqb_neq _ _) Hp0).
      cbn [andb]. by rewrite bind_ret, (proj2 (Z.eqb_neq _ _) Hp0). }
    rewrite Ht. destruct (BeforeFixture_joins R s t H Ht Hz Hsz) as (Hr & s' & E & H').
    rewrite (bind_eq _ _ _ _ _ E). by exists s'.
  - apply Keeps_unit, Keeps_method; [done..| |].
    + apply Keeps_message; [done|]. intros. by apply Keeps_ret.
    + intros p _. by apply Keeps_ret.
  - apply Keeps_tt, Keeps_method; [done..| |]; [by apply Keeps_print|].
    intros p Hp. destruct (so_value _ _ H t p Hp) as (_ & _ & [o Ho]).
    unfold Keeps, loads. unfold bind at 1. rewrite Ho.
    destruct (CountIn_eq R s (CountTestCase o) H) as (s1 & E1 & H1 & Es). rewrite (bind_eq _ _ _ _ _ E1).
    eexists _, _. split; [reflexivity|]. apply StatesOwned_counters; [done|by rewrite Es].
  - destruct Hal as (p & Hp & _). unfold CfixrunsExecCtxAfterFixtureFinish.
    rewrite (bind_eq _ _ _ _ _ (GetCurrent_eq R s t H)). destruct (so_value _ _ H t p Hp) as (-> & Hp0 & _).
    rewrite (proj2 (Z.eqb_neq _ _) Hp0).
    match goal with |- context [CountIn This ?f] => destruct (CountIn_eq R s f H) as (s1 & E1 & H1 & _) end.
    rewrite (bind_eq _ _ _ _ _ E1). by apply (Dereference_eq _ _ _ p).
  - apply Keeps_unit, Keeps_method; [done..| |].
    + apply Keeps_message; [done|]. intros. by apply Keeps_ret.
    + intros p _. by apply Keeps_ret.
  - destruct Hal as (Ht & [u Hu] & Hsz). by apply (BeforeChild_joins R s t u p).
  - destruct Hal as [p Hp]. by apply (Dereference_eq _ _ _ p).
  - done.
  - done.
Qed.
End lifetime.

Section statistics.
Context {X : Type}.
Variable Malloc : gset Z -> ST X Z.
Variable TlsAlloc : ST X Z.
Variable PrintConsole : string -> ST X unit.

Lemma OK_Create State OutPtr :
  preserves (Uncounted (X := X)) (CfixrunpCreateExecutionContext Malloc TlsAlloc State OutPtr).
Proof.
  unfold CfixrunpCreateExecutionContext, malloc. destruct State as [o|]; [|apply preserves_ret].
  destruct OutPtr; [|apply preserves_ret].
  apply preserves_bind; [apply preserves_gets|]. intros i. apply preserves_bind.
  - apply preserves_if; [|apply preserves_ret]. apply preserves_bind; [apply OK_ext|]. intros j.
    apply preserves_bind; [by apply OK_modify|]. intros _. apply preserves_ret.
  - intros b. apply preserves_if; [apply preserves_ret|].
    apply preserves_bind; [by apply OK_modify|]. intros _.
    apply preserves_bind; [apply preserves_bind; [apply preserves_gets|intros ?; apply OK_ext]|]. intros a.
    apply preserves_if; [apply preserves_ret|].
    apply preserves_bind; [by apply OK_storec|]. intros _. apply preserves_ret.
Qed.

(** The runner counts no failure.  Whatever happens during a run -- any operations
    of any threads, events of any type reported in any order -- the statistics that
    the context hands out at the end know no failed and no inconclusive test case:
    every test case that has finished is counted as succeeded, because nothing ever
    increments the counters of a thread's state. *)
Theorem failures_never_counted Options s0 This s1 ops s2 Out c s3 :
  States s0 = ∅ -> Contexts s0 = ∅ ->
  CfixrunpCreateExecutionContext Malloc TlsAlloc (Some Options) true s0 = Some ((S_OK, This), s1) ->
  run_ops Malloc PrintConsole This ops s1 = Some (tt, s2) -> This <> 0 ->
  CfixrunpGetStatisticsExecutionContext This Out s2 = Some (c, s3) ->
  FailedTestCases c = 0 /\ InconclusiveTestCases c = 0 /\ SucceededTestCases c = StTestCases c.
Proof.
  intros E1 E2 HC Hops Hnull Hget.
  assert (Uncounted s0) as H0 by (split; intros p o; [rewrite E1|rewrite E2]; by rewrite lookup_empty).
  pose proof (OK_Create _ _ _ _ _ H0 HC) as H1.
  pose proof (run_ops_uncounted _ _ _ _ _ _ _ H1 Hops) as [_ H2].
  unfold CfixrunpGetStatisticsExecutionContext in Hget. rewrite (proj2 (Z.eqb_neq _ _) Hnull) in Hget.
  unfold bind, loadc in Hget. destruct (Contexts s2 !! This) as [o|] eqn:Eo; [|done].
  injection Hget as <- _. by apply (H2 This).
Qed.
End statistics.

(** ** A concrete run: a fixture with a failing test case on thread 1, a child on 2 *)
Module Demo.
Definition Malloc (bs : gset Z) : ST unit Z := ret (1 + foldr Z.max 0 (elements bs)).
Definition TlsAlloc : ST unit Z := ret 5.
Definition Print (m : string) : ST unit unit := ret tt.
Definition state0 : EW unit := MkEW ∅ ∅ (fun _ => 0) TLS_OUT_OF_INDEXES 0 tt.
Definition failure : CFIX_TESTCASE_EXECUTION_EVENT := MkEvent (FailedAssertion "f.c" "T" 1 "x" 0) [].
Definition created : option (Z * Z * EW unit) :=
  CfixrunpCreateExecutionContext Malloc TlsAlloc (Some zeroed) true state0.
Definition state1 : EW unit := match created with Some (_, s) => s | None => state0 end.
Definition fixture : list (Z * EXEC_OP) :=
  [(1, OpBeforeFixtureStart); (1, OpBeforeTestCaseStart); (2, OpBeforeChildThreadStart 2);
   (2, OpReportEvent failure); (2, OpAfterChildThreadFinish); (1, OpAfterTestCaseFinish);
   (1, OpAfterFixtureFinish)].
Definition after_ops (ops : list (Z * EXEC_OP)) : EW unit :=
  match run_ops Malloc Print 1 ops state1 with Some (_, s) => s | None => state0 end.

Lemma failures_never_counted_witness :
  exists c s3, CfixrunpGetStatisticsExecutionContext 1 (MkStatistics 0 0 0 0 0) (after_ops fixture) = Some (c, s3) /\
    StTestCases c = 1 /\ FailedTestCases c = 0.
Proof.
  eexists _, _. split; [vm_compute; reflexivity|]. split; [reflexivity|].
  refine (proj1 (failures_never_counted Malloc TlsAlloc Print zeroed state0 1 state1 fixture (after_ops fixture)
    (MkStatistics 0 0 0 0 0) (MkStatistics 1 1 1 0 0) (after_ops fixture) eq_refl eq_refl _ _ _ _)).
  all: try (vm_compute; reflexivity). discriminate.
Defined.

Lemma Malloc_new bs x a x' : Malloc bs x = Some (a, x') -> a ∉ bs.
Proof.
  intros [= <- _] H%elem_of_elements%max_bound. lia.
Qed.

Lemma state1_owned : StatesOwned 1 ∅ state1.
Proof.
  split.
  - vm_compute. discriminate.
  - vm_compute. by eexists.
  - intros t p H. by rewrite lookup_empty in H.
  - intros p o H. vm_compute in H. by destruct p.
  - vm_compute. discriminate.
Qed.

Lemma thread_states_owned_witness :
  exists s', run_op Malloc Print 1 1 OpBeforeFixtureStart state1 = Some (tt, s') /\
    StatesOwned 1 (after ∅ s' 1 OpBeforeFixtureStart) s'.
Proof.
  refine (proj1 (thread_states_owned Malloc Print 1 Malloc_new _ _ ∅ state1 1 OpBeforeFixtureStart state1_owned _)).
  - intros bs x. eexists _, x. reflexivity.
  - intros m x. exists x. reflexivity.
  - right. split; [reflexivity|]. split; reflexivity.
Defined.

(** The life cycle is needed: when a fixture finishes before its child, the main
    thread is left with a pointer to the state that the child releases, and the
    next fixture runs into it. *)
Example early_finish_dangles :
  run_ops Malloc Print 1
    [(1, OpBeforeFixtureStart); (2, OpBeforeChildThreadStart 2); (1, OpAfterFixtureFinish);
     (2, OpAfterChildThreadFinish); (1, OpBeforeFixtureStart); (1, OpAfterTestCaseFinish)] state1 = None.
Proof. vm_compute. reflexivity. Qed.
End Demo.
