(* ===== verification/RunMain.v ===== *)
(** * The runner (cfix/cfixrun/main.c, cfix/cfixutil/eventdllload.c)

    The components put together: the options select fixtures ([RunTest]), whose
    action ([Sequence], [TsExec]) runs against the proxy ([EventEmitter]) of the
    runner's context ([ExecCtx]).  The world has the action objects, the proxy's
    structure (meaningless before it is created) and the world of [ExecCtx]. *)
From stdpp Require Import base gmap list strings pretty.
From Stdlib Require Import ZArith Lia.
From S2P Require Import Prelude CfixApi TsExec EventEmitter DisplayAction Sequence CmdLine Search RunTest RptStubs ExecCtx.

Definition CFIXRUN_EXIT_ALL_SUCCEEDED : Z := 0.
Definition CFIXRUN_EXIT_NONE_EXECUTED : Z := 1.
Definition CFIXRUN_EXIT_SOME_FAILED : Z := 2.
Definition CFIXRUN_EXIT_USAGE_FAILURE : Z := 3.
Definition CFIXRUN_EXIT_FAILURE : Z := 4.

Definition CFIX_E_MISSING_EVENT_SINK_EXPORT : Z := 0x8004801B.
Definition CFIX_E_LOADING_EVENTDLL_FAILED : Z := 0x8004801C.
Definition CFIX_EVENT_SINK_VERSION : Z := MAKELONG 1 0.
Definition CFIX_EVENT_SINK_FLAG_SHOW_STACKTRACE_SOURCE_INFORMATION : Z := 1.
Definition CFIXRUNP_DEFAULT_EVENT_DLL : string := "cfixcons.dll".

(** A number, right-aligned in eight columns. *)
Definition Padded (z : Z) : string :=
  let s := pretty z in String.concat "" (replicate (8 - String.length s) " ") +:+ s.

Section runmain.
Context {X : Type}.
(** The operating system. *)
Variables (IsDebuggerPresent : ST X bool) (GetCurrentThreadId : ST X Z).
Variable Malloc : gset Z -> ST X Z.
Variable malloc : ST X bool.
Variable TlsAlloc : ST X Z.
Variable PrintConsole : string -> ST X unit.
Variable getch : ST X unit.
Variable LoadLibrary : string -> ST X Z.
Variable GetProcAddress : Z -> string -> ST X Z.
(** cdiag: creation of a resolver and its methods. *)
Variable CdiagCreateMessageResolver : ST X (Z * Z).
Variable RegisterMessageDll : Z -> string -> ST X Z.
Variable ResolveMessage : Z -> Z -> ST X (option string).
Variable DereferenceResolver : Z -> ST X unit.

Local Abbreviation E := (EW X).
Local Abbreviation P := (PROXY * E)%type.
Local Abbreviation W := (ACTIONS * P)%type.

(** The exported routine of an event DLL, and the methods of the sinks. *)
Variable CreateEventSinkRoutine : Z -> Z -> Z -> option string -> ST E (Z * Z).
Variable Sinks : Z -> CFIX_EVENT_SINK E.
(** Modules, their creation, and the search for them. *)
Variable Modules : Z -> CFIX_MODULE_ROUTINES P.
Variable CreateTestModule : string -> CFIXRUN_MODULE_TYPE -> ST P (Z * (Z * list CFIX_FIXTURE)).
Variable CreateTestModuleOfProcess : ST P (Z * (Z * list CFIX_FIXTURE)).
Variable SearchModules : string -> bool -> bool -> (string -> CFIXRUN_MODULE_TYPE -> bool -> ST (Z * W) Z) -> ST (Z * W) Z.
(** The main thread. *)
Variable Tid : Z.

(** Operations of the outside, of the context, and on the proxy, in the whole world. *)
Definition onE {A} (m : ST E A) : ST W A := Sequence.ext (outer m).
Definition onX {A} (m : ST X A) : ST W A := onE (ExecCtx.ext m).
Definition inP {A} (m : ST X A) : ST P A := outer (ExecCtx.ext m).

(* src/cfix/cfixutil/eventdllload.c:31-66 (CfixutilLoadEventSinkFromDll) *)
Definition CfixutilLoadEventSinkFromDll (DllPath : option string) (Flags : Z) (Options : option string)
    (OutPtr : bool) : ST E (Z * Z) :=
  match DllPath, OutPtr with
  | Some Path, true =>
      Module_ <- ExecCtx.ext (LoadLibrary Path) ;;
      if Module_ =? 0 then ret (CFIX_E_LOADING_EVENTDLL_FAILED, 0) else
      Routine <- ExecCtx.ext (GetProcAddress Module_ "CreateEventSink") ;;
      if Routine =? 0 then ret (CFIX_E_MISSING_EVENT_SINK_EXPORT, 0)
      else CreateEventSinkRoutine Routine CFIX_EVENT_SINK_VERSION Flags Options
  | _, _ => ret (E_INVALIDARG, 0)
  end.

Definition Inner (This : Z) : CFIX_EXECUTION_CONTEXT E := ExecutionContext Malloc PrintConsole Tid This.

(** The result code, the proxy with its sink, and the inner context. *)
(* src/cfix/cfixrun/main.c:35-89 (CfixrunsCreateExecutionContextAndEventSink) *)
Definition CfixrunsCreateExecutionContextAndEventSink (SinkFlags : Z) (Options : CFIXRUN_OPTIONS)
    : ST E (Z * option (PROXY * Z) * Z) :=
  c <- CfixrunpCreateExecutionContext Malloc TlsAlloc (Some Options) true ;;
  if FAILED (fst c) then ret (fst c, None, 0) else
  let InnerExecContext := snd c in
  s <- CfixutilLoadEventSinkFromDll
         (Some (match Value Options OptEventDll with Some d => d | None => CFIXRUNP_DEFAULT_EVENT_DLL end))
         SinkFlags
         (match Value Options OptEventDll with Some _ => Value Options OptEventDllOptions | None => None end)
         true ;;
  r <- (if FAILED (fst s) then ret (fst s, None)
        else
          p <- CfixCreateEventEmittingExecutionContextProxy (Inner InnerExecContext) (Sinks (snd s))
                 (ExecCtx.ext malloc) ;;
          ret (fst p, (fun q => (q, snd s)) <$> snd p)) ;;
  CtxDereference (Inner InnerExecContext) ;;;
  when_ (negb (snd s =? 0)) (SinkDereference (Sinks (snd s))) ;;;
  ret (r, InnerExecContext).

(** The statistics, printed. *)
(* src/cfix/cfixrun/main.c:182-193 (CfixrunsMainWorker) *)
Definition SummaryText (c : CFIXRUN_STATISTICS) : string :=
  newline +:+ newline +:+
  Padded (StFixtures c) +:+ " Fixtures" +:+ newline +:+
  Padded (StTestCases c) +:+ " Test cases" +:+ newline +:+
  "    " +:+ Padded (SucceededTestCases c) +:+ " succeeded" +:+ newline +:+
  "    " +:+ Padded (FailedTestCases c) +:+ " failed" +:+ newline +:+
  "    " +:+ Padded (InconclusiveTestCases c) +:+ " inconclusive" +:+
  newline +:+ newline.

(* src/cfix/cfixrun/main.c:167-178 (CfixrunsMainWorker) *)
Definition ExitCodeOf (c : CFIXRUN_STATISTICS) : Z :=
  if StTestCases c =? 0 then CFIXRUN_EXIT_NONE_EXECUTED
  else if FailedTestCases c =? 0 then CFIXRUN_EXIT_ALL_SUCCEEDED
  else CFIXRUN_EXIT_SOME_FAILED.

(** [! InputFileType != CfixrunInputRequiresSpawn]: the negation binds tighter. *)
(* src/cfix/cfixrun/main.c:131-132 (CfixrunsMainWorker) *)
Definition NoteCondition (Options : CFIXRUN_OPTIONS) : bool :=
  negb (Switch Options EnableKernelFeatures) ||
  match InputFileType Options with
  | CfixrunInputDynamicallyLoadable => false
  | CfixrunInputRequiresSpawn => true
  end.

(** Running the action against a new context; the fuel is the nesting of a sequence. *)
(* src/cfix/cfixrun/main.c:142-203 (CfixrunsMainWorker) *)
Definition RunAction (Options : CFIXRUN_OPTIONS) (Action ExitCode : Z) : ST W (Z * Z) :=
  r <- onE (CfixrunsCreateExecutionContextAndEventSink
              (if Switch Options OmitSourceInfoInStackTrace then 0
               else CFIX_EVENT_SINK_FLAG_SHOW_STACKTRACE_SOURCE_INFORMATION) Options) ;;
  let '(Hr, ExecCtx, InnerExecCtx) := r in
  res <- match ExecCtx with
         | Some (p, Sink) =>
             if FAILED Hr then ret (Hr, ExitCode) else
             Sequence.ext (own (fun _ => p)) ;;;
             Hr <- Run (inP IsDebuggerPresent) (inP GetCurrentThreadId) Modules
                     (proxy (Inner InnerExecCtx) (Sinks Sink)) (fun m => inP (PrintConsole m))
                     (inP malloc) 2 Action ;;
             c <- onE (CfixrunpGetStatisticsExecutionContext InnerExecCtx (MkStatistics 0 0 0 0 0)) ;;
             when_ (Switch Options Summary) (onX (PrintConsole (SummaryText c))) ;;;
             Sequence.ext (CtxDereference (proxy (Inner InnerExecCtx) (Sinks Sink))) ;;;
             ret (Hr, ExitCodeOf c)
         | None => ret (Hr, ExitCode)
         end ;;
  Dereference Modules 2 Action ;;;
  ret res.

(** The result and the exit code, which has a value already. *)
(* src/cfix/cfixrun/main.c:91-203 (CfixrunsMainWorker) *)
Definition CfixrunsMainWorker (Options : CFIXRUN_OPTIONS) (ExitCode : Z) : ST W (Z * Z) :=
  match InputFile Options with
  | None | Some EmptyString => ret (HRESULT_FROM_WIN32 ERROR_FILE_NOT_FOUND, CFIXRUN_EXIT_USAGE_FAILURE)
  | Some _ =>
      a <- (if Switch Options DisplayOnly
            then CfixrunpAssembleDisplayAction Modules (inP malloc) CreateTestModule CreateTestModuleOfProcess
                   Options SearchModules
            else CfixrunpAssembleExecutionAction Modules (inP malloc) CreateTestModule CreateTestModuleOfProcess
                   Options SearchModules) ;;
      let '(Hr, Action, FixtureCount) := a in
      if FAILED Hr then ret (Hr, CFIXRUN_EXIT_FAILURE)
      else if FixtureCount =? 0 then
        onX (PrintConsole ("No matching test modules/fixtures found" +:+ newline)) ;;;
        when_ (NoteCondition Options)
          (onX (PrintConsole ("Note: Kernel mode and/or exe-based tests were not included in the search." +:+ newline
                  +:+ "      Use the -exe switch to search for exe-based tests" +:+ newline
                  +:+ "      Use the -kern switch to search for kernel mode tests" +:+ newline))) ;;;
        ret (Hr, CFIXRUN_EXIT_NONE_EXECUTED)
      else RunAction Options Action ExitCode
  end.

(** The calls of RegisterMessageDll do not assign [Hr]. *)
(* src/cfix/cfixrun/main.c:220-322 (CfixrunMain) *)
Definition CfixrunMain (Options : CFIXRUN_OPTIONS) : ST W Z :=
  r <- onX CdiagCreateMessageResolver ;;
  let '(Hr, Resolver) := r in
  ExitCode <-
    (if FAILED Hr then ret CFIXRUN_EXIT_FAILURE else
     onX (RegisterMessageDll Resolver "cdiag.dll") ;;;
     onX (RegisterMessageDll Resolver "cfix.dll") ;;;
     onX (RegisterMessageDll Resolver "cfixkl.dll") ;;;
     when_ (Switch Options PauseAtBeginning)
       (onX (PrintConsole ("Press any key to start testrun..." +:+ newline)) ;;; onX getch) ;;;
     w <- CfixrunsMainWorker Options CFIXRUN_EXIT_FAILURE ;;
     when_ (FAILED (fst w))
       (m <- onX (ResolveMessage Resolver (fst w)) ;;
        onX (PrintConsole (match m with
                           | Some ErrMsg => ErrMsg
                           | None => "Error 0x" +:+ RptStubs.Hex 8 (fst w)
                           end +:+ newline))) ;;;
     ret (snd w)) ;;
  when_ (negb (Resolver =? 0)) (onX (DereferenceResolver Resolver)) ;;;
  when_ (Switch Options PauseAtEnd)
    (onX (PrintConsole ("Finished. Press any key to continue..." +:+ newline)) ;;; onX getch) ;;;
  ret ExitCode.
End runmain.

(** ** An invariant of a run *)
Section invariant.
Context {W : Type} (I : W -> Prop).
Variables (IsDebuggerPresent : ST W bool) (GetCurrentThreadId : ST W Z).
Variables (Modules : Z -> CFIX_MODULE_ROUTINES W) (Context_ : CFIX_EXECUTION_CONTEXT W).
Variable PrintConsole : string -> ST W unit.
Variable malloc : ST W bool.

(** The routines of a module preserve what the context they are given preserves. *)
Record RoutinesOK (m : CFIX_MODULE_ROUTINES W) : Prop := {
  ro_run : forall f tc c fl, ContextOK I c -> preserves I (RunTestCase m f tc c fl);
  ro_setup : forall f c fl, ContextOK I c -> preserves I (Setup m f c fl);
  ro_teardown : forall f c fl, ContextOK I c -> preserves I (Teardown m f c fl);
  ro_before : forall f c fl, ContextOK I c -> preserves I (Before m f c fl);
  ro_after : forall f c fl, ContextOK I c -> preserves I (After m f c fl);
  ro_reference : preserves I (ModReference m);
  ro_dereference : preserves I (ModDereference m) }.

Hypothesis Debugger_ok : preserves I IsDebuggerPresent.
Hypothesis Thread_ok : preserves I GetCurrentThreadId.
Hypothesis Modules_ok : forall m, RoutinesOK (Modules m).
Hypothesis Context_ok : ContextOK I Context_.
Hypothesis Print_ok : forall t, preserves I (PrintConsole t).
Hypothesis malloc_ok : preserves I malloc.

Ltac pres := repeat first
  [ assumption | apply preserves_ret | apply preserves_bind; [|intros ?] | apply preserves_if | apply preserves_when ].

Lemma preserves_call a Routine :
  (forall c fl, ContextOK I c -> preserves I (Routine c fl)) ->
  preserves I (call IsDebuggerPresent Context_ a Routine).
Proof.
  intros HR. unfold call, CfixsGetTestFlagsFixtureExecutionAction. lazy zeta. pres. by apply HR.
Qed.

Ltac pres_calls := repeat first [ apply preserves_call; intros ? ? ?; eauto | progress (repeat first
  [ assumption | apply preserves_ret | apply preserves_if | apply preserves_when ]) | apply preserves_bind; [|intros ?] ].

Lemma preserves_RunTestCase m a tc :
  preserves I (CfixsRunTestCaseFixtureExecutionAction IsDebuggerPresent (Modules m) Context_ a tc).
Proof.
  destruct (Modules_ok m). unfold CfixsRunTestCaseFixtureExecutionAction.
  pres_calls.
Qed.

Lemma preserves_RunTestCases m th a cs : forall i Hr,
  preserves I (RunTestCases IsDebuggerPresent (Modules m) Context_ th a i cs Hr).
Proof.
  destruct Context_ok. induction cs as [|tc cs IH]; intros i Hr; cbn [RunTestCases]; [apply preserves_ret|].
  apply preserves_if; [apply IH|]. apply preserves_bind; [eauto|]. intros Hr1. apply preserves_if; [apply preserves_ret|].
  apply preserves_bind; [apply preserves_RunTestCase|]. intros Hr2. lazy zeta.
  destruct (HandleTestCaseResult a Hr2); [|apply preserves_ret].
  apply preserves_bind; [eauto|]. intros _. apply preserves_if; [apply preserves_ret|apply IH].
Qed.

Lemma preserves_fixture m a :
  preserves I (CfixsRunFixtureExecutionAction IsDebuggerPresent GetCurrentThreadId (Modules m) Context_ a).
Proof.
  destruct (Modules_ok m). unfold CfixsRunFixtureExecutionAction. lazy zeta. pres_calls.
  - destruct Context_ok; eauto.
  - destruct Context_ok; eauto.
  - apply preserves_RunTestCases.
  - destruct a4; [|apply preserves_ret]. unfold RunTeardown. pres_calls. destruct Context_ok; eauto.
Qed.

Lemma preserves_display f : preserves I (CfixrunsRunDisplayAction PrintConsole f).
Proof.
  unfold CfixrunsRunDisplayAction. pres; try apply Print_ok.
  induction (TestCases f) as [|c cs IH]; simpl; [apply preserves_ret|]. pres. apply Print_ok.
Qed.

(** The same for the world with action objects. *)
Definition IA (s : ACTIONS * W) : Prop := I (snd s).
Local Abbreviation OK := (preserves IA).

Lemma OKA_ext {A} (m : ST W A) : preserves I m -> OK (Sequence.ext m).
Proof.
  intros Hm [os w] a s' H E. unfold Sequence.ext in E. destruct (m w) as [[b w']|] eqn:Em; [|done].
  injection E as <- <-. by apply (Hm w b w').
Qed.
Lemma OKA_load a : OK (load (X := W) a).
Proof. intros [os w] o s' H E. unfold load in E. destruct (os !! a); [|done]. by injection E as <- <-. Qed.
Lemma OKA_store a o : OK (store (X := W) a o).
Proof. by intros [os w] u s' H [= <- <-]. Qed.
Lemma OKA_free a : OK (free (X := W) a).
Proof. by intros [os w] u s' H [= <- <-]. Qed.
Lemma OKA_for_each f l : (forall a, OK (f a)) -> OK (for_each f l).
Proof. intros Hf. induction l as [|a l IH]; simpl; [apply preserves_ret|]. by apply preserves_bind; [|intros _]. Qed.
Lemma OKA_Reference a : OK (Reference (X := W) a).
Proof. apply preserves_bind; [apply OKA_load|]. intros o. apply OKA_store. Qed.
Lemma OKA_enter a : OK (enter (X := W) a).
Proof. apply preserves_bind; [apply OKA_load|]. intros [| |]; [done|apply OKA_store|done]. Qed.
Lemma OKA_leave a : OK (leave (X := W) a).
Proof. apply preserves_bind; [apply OKA_load|]. intros [| |]; [done|apply OKA_store|done]. Qed.

Lemma OKA_Dereference fuel : forall a, OK (Dereference Modules fuel a).
Proof.
  induction fuel as [|fuel IH]; intros a; [done|]. cbn [Dereference].
  apply preserves_bind; [apply OKA_load|]. intros o. apply preserves_bind; [apply OKA_store|]. intros _.
  apply preserves_when, preserves_bind; [|intros _; apply OKA_free].
  destruct o as [n m b|n es c k|n m f]; [apply OKA_ext, (Modules_ok m)|by apply OKA_for_each|apply OKA_ext, (Modules_ok m)].
Qed.

Lemma OKA_Run fuel : forall a,
  OK (Run IsDebuggerPresent GetCurrentThreadId Modules Context_ PrintConsole malloc fuel a).
Proof.
  induction fuel as [|fuel IH]; intros a; [done|]. cbn [Run].
  apply preserves_bind; [apply OKA_load|]. intros [n m b|n es c k|n m f].
  - apply OKA_ext, preserves_fixture.
  - apply preserves_if; [apply preserves_ret|]. apply preserves_bind; [apply OKA_enter|]. intros _.
    apply preserves_bind; [apply OKA_load|]. intros [n' m' b'|n' es' c' k'|n' m' f']; [done| |done].
    apply preserves_if; [apply preserves_bind; [apply OKA_leave|intros _; apply preserves_ret]|].
    apply preserves_bind; [by apply OKA_ext|]. intros ok.
    apply preserves_if; [apply preserves_bind; [apply OKA_leave|intros _; apply preserves_ret]|].
    apply preserves_bind; [apply OKA_for_each; intros; apply OKA_Reference|]. intros _.
    apply preserves_bind; [apply OKA_leave|]. intros _. apply preserves_bind; [|intros Hr].
    + generalize S_OK. induction es' as [|e es' IHe]; intros Hr; simpl; [apply preserves_ret|].
      apply preserves_bind; [apply IH|]. intros Hr'. apply preserves_if; [apply preserves_ret|apply IHe].
    + apply preserves_bind; [apply OKA_for_each; intros; apply OKA_Dereference|]. intros _. apply preserves_ret.
  - apply OKA_ext, preserves_display.
Qed.

(** The assembly. *)
Variable CreateTestModule : string -> CFIXRUN_MODULE_TYPE -> ST W (Z * (Z * list CFIX_FIXTURE)).
Variable CreateTestModuleOfProcess : ST W (Z * (Z * list CFIX_FIXTURE)).
Variable SearchModules : string -> bool -> bool ->
  (string -> CFIXRUN_MODULE_TYPE -> bool -> ST (Z * (ACTIONS * W)) Z) -> ST (Z * (ACTIONS * W)) Z.
Hypothesis Create_ok : forall p t, preserves I (CreateTestModule p t).
Hypothesis CreateProcess_ok : preserves I CreateTestModuleOfProcess.
Hypothesis Search_ok : forall J p b1 b2 Callback, (forall p t b, preserves J (Callback p t b)) ->
  preserves J (SearchModules p b1 b2 Callback).

Local Abbreviation OKC := (preserves (fun s : Z * (ACTIONS * W) => IA (snd s))).

Lemma OKC_act {A} (m : ST (ACTIONS * W) A) : OK m -> OKC (act m).
Proof.
  intros Hm [c s] a s' H E. unfold act in E. destruct (m s) as [[b s2]|] eqn:Em; [|done].
  injection E as <- <-. by apply (Hm s b s2).
Qed.

Lemma OKA_AddEntry s a : OK (CfixAddEntrySequenceAction malloc s a).
Proof.
  unfold CfixAddEntrySequenceAction. apply preserves_if; [apply preserves_ret|].
  apply preserves_bind; [apply OKA_load|]. intros [| |]; [apply preserves_ret| |apply preserves_ret].
  apply preserves_bind; [by apply OKA_ext|]. intros ok. apply preserves_if; [apply preserves_ret|].
  apply preserves_bind; [apply OKA_Reference|]. intros _. apply preserves_bind; [apply OKA_enter|]. intros _.
  apply preserves_bind; [apply OKA_load|]. intros o.
  apply preserves_bind; [destruct o; [done|apply OKA_store|done]|]. intros _.
  apply preserves_bind; [apply OKA_leave|]. intros _. apply preserves_ret.
Qed.

Lemma OKC_Created create : (forall a, OK (create a)) -> OKC (Created create).
Proof.
  intros Hc. unfold Created. apply preserves_bind; [apply preserves_gets|]. intros a.
  apply preserves_bind; [by apply OKC_act|]. intros Hr. apply preserves_if; [|apply preserves_ret].
  apply preserves_bind; [|intros _; apply preserves_ret]. apply preserves_modify. by intros [c s].
Qed.

Lemma OKC_TsExec Options m f i : OKC (CfixrunsCreateTsExecAction Modules malloc Options m f i).
Proof.
  apply OKC_Created. intros a. unfold NewFixtureExecutionAction. apply preserves_bind.
  - apply OKA_ext. unfold CfixCreateFixtureExecutionAction. apply preserves_if; [apply preserves_ret|].
    apply preserves_bind; [done|]. intros ok. apply preserves_if; [apply preserves_ret|].
    apply preserves_bind; [apply (Modules_ok m)|]. intros _. apply preserves_ret.
  - intros [Hr [b|]]; [|apply preserves_ret]. apply preserves_bind; [apply OKA_store|]. intros _. apply preserves_ret.
Qed.

Lemma OKC_Display m f i : OKC (CfixrunsCreateDisplayAction Modules malloc m f i).
Proof.
  apply OKC_Created. intros a. apply preserves_bind.
  - apply OKA_ext. unfold DisplayAction.CfixrunpCreateDisplayAction.
    apply preserves_bind; [done|]. intros ok. apply preserves_if; [apply preserves_ret|].
    apply preserves_bind; [apply (Modules_ok m)|]. intros _. apply preserves_ret.
  - intros [Hr [b|]]; [|apply preserves_ret]. apply preserves_bind; [apply OKA_store|]. intros _. apply preserves_ret.
Qed.

Lemma OKC_AddFixtures Filter Create m fs root : (forall m f i, OKC (Create m f i)) ->
  forall Hr, OKC (CfixrunsAddFixturesOfModuleToSequenceAction Modules malloc Filter Create m fs root Hr).
Proof.
  intros HC. induction fs as [|f fs IH]; intros Hr; cbn [CfixrunsAddFixturesOfModuleToSequenceAction];
    [apply preserves_ret|].
  destruct (Filter f); [|apply IH]. apply preserves_bind; [apply HC|]. intros r.
  apply preserves_if; [apply preserves_ret|]. apply preserves_bind; [apply OKC_act, OKA_AddEntry|]. intros Hr'.
  apply preserves_bind; [apply OKC_act, OKA_Dereference|]. intros _. apply preserves_if; [apply preserves_ret|apply IH].
Qed.

Lemma OKC_act_ext {A} (m : ST W A) : preserves I m -> OKC (act (Sequence.ext m)).
Proof. intros Hm. by apply OKC_act, OKA_ext. Qed.

Lemma OKC_Fill Fill : (forall a, OKC (Fill a)) -> OKC (FillNewSequence Modules malloc Fill).
Proof.
  intros HF. unfold FillNewSequence, CfixCreateSequenceAction. apply preserves_bind; [apply preserves_gets|]. intros a.
  apply preserves_bind.
  { apply OKC_act, preserves_bind; [by apply OKA_ext|]. intros ok. apply preserves_if; [apply preserves_ret|].
    apply preserves_bind; [apply OKA_store|]. intros _. apply preserves_ret. }
  intros Hr. apply preserves_if; [apply preserves_ret|]. apply preserves_bind; [apply HF|]. intros Hr'.
  apply preserves_if; [apply preserves_ret|]. apply preserves_bind; [apply OKC_act, OKA_Dereference|].
  intros _. apply preserves_ret.
Qed.

Lemma OKA_Assemble Options Create : (forall m f i, OKC (Create m f i)) ->
  OK (Assemble Modules malloc CreateTestModule CreateTestModuleOfProcess Options SearchModules Create).
Proof.
  intros HC s r s' H E. unfold Assemble in E.
  destruct (match InputFileType Options with _ => _ end (0, s)) as [[r1 [c s1]]|] eqn:E1; [|done].
  injection E as <- <-. revert E1. match goal with |- ?m (0, s) = _ -> _ => assert (OKC m) as Hm end.
  { destruct (InputFileType Options).
    - unfold CfixrunpSearchFixturesAndCreateSequenceAction. destruct (InputFile Options); [|apply preserves_ret].
      apply OKC_Fill. intros a. apply Search_ok. intros p t b. unfold CfixrunsAddFixturesOfDllToSequenceAction.
      apply preserves_bind; [by apply OKC_act_ext|]. intros x. apply preserves_if; [apply preserves_ret|].
      apply preserves_bind; [by apply OKC_AddFixtures|]. intros Hr.
      apply preserves_bind; [apply OKC_act_ext, (Modules_ok _)|]. intros _. apply preserves_ret.
    - unfold CfixrunsCreateSequenceActionForCurrentExecutable.
      apply preserves_bind; [by apply OKC_act_ext|]. intros x. apply preserves_if; [apply preserves_ret|].
      apply preserves_bind; [apply OKC_Fill; intros; by apply OKC_AddFixtures|]. intros y.
      apply preserves_bind; [apply OKC_act_ext, (Modules_ok _)|]. intros _. apply preserves_ret. }
  intros E1. exact (Hm (0, s) r1 (c, s1) H E1).
Qed.
End invariant.

(** ** The exit code *)
Section exit_code.
Context {X : Type}.
Variables (IsDebuggerPresent : ST X bool) (GetCurrentThreadId : ST X Z).
Variable Malloc : gset Z -> ST X Z.
Variable malloc : ST X bool.
Variable TlsAlloc : ST X Z.
Variable PrintConsole : string -> ST X unit.
Variable getch : ST X unit.
Variable LoadLibrary : string -> ST X Z.
Variable GetProcAddress : Z -> string -> ST X Z.
Variable CdiagCreateMessageResolver : ST X (Z * Z).
Variable RegisterMessageDll : Z -> string -> ST X Z.
Variable ResolveMessage : Z -> Z -> ST X (option string).
Variable DereferenceResolver : Z -> ST X unit.
Local Abbreviation E := (EW X).
Local Abbreviation P := (PROXY * E)%type.
Local Abbreviation W := (ACTIONS * P)%type.
Variable CreateEventSinkRoutine : Z -> Z -> Z -> option string -> ST E (Z * Z).
Variable Sinks : Z -> CFIX_EVENT_SINK E.
Variable Modules : Z -> CFIX_MODULE_ROUTINES P.
Variable CreateTestModule : string -> CFIXRUN_MODULE_TYPE -> ST P (Z * (Z * list CFIX_FIXTURE)).
Variable CreateTestModuleOfProcess : ST P (Z * (Z * list CFIX_FIXTURE)).
Variable SearchModules : string -> bool -> bool -> (string -> CFIXRUN_MODULE_TYPE -> bool -> ST (Z * W) Z) -> ST (Z * W) Z.
Variable Tid : Z.

Definition UncountedP (s : P) : Prop := Uncounted (snd s).

(** The sinks, the modules and their creation use the context through its
    operations only. *)
Record SinkOK (k : CFIX_EVENT_SINK E) : Prop := {
  sk_report : forall t a b c e, preserves Uncounted (SinkReportEvent k t a b c e);
  sk_before_fixture : forall t a b, preserves Uncounted (SinkBeforeFixtureStart k t a b);
  sk_after_fixture : forall t a b r, preserves Uncounted (SinkAfterFixtureFinish k t a b r);
  sk_before_case : forall t a b c, preserves Uncounted (SinkBeforeTestCaseStart k t a b c);
  sk_after_case : forall t a b c r, preserves Uncounted (SinkAfterTestCaseFinish k t a b c r);
  sk_reference : preserves Uncounted (SinkReference k);
  sk_dereference : preserves Uncounted (SinkDereference k) }.
Hypothesis Sinks_ok : forall k, SinkOK (Sinks k).
Hypothesis Routine_ok : forall a v fl o, preserves Uncounted (CreateEventSinkRoutine a v fl o).
Hypothesis Modules_ok : forall m, RoutinesOK UncountedP (Modules m).
Hypothesis Create_ok : forall p t, preserves UncountedP (CreateTestModule p t).
Hypothesis CreateProcess_ok : preserves UncountedP CreateTestModuleOfProcess.
Hypothesis Search_ok : forall J p b1 b2 Callback, (forall p t b, preserves J (Callback p t b)) ->
  preserves J (SearchModules p b1 b2 Callback).

Local Abbreviation OKW := (preserves (IA UncountedP)).

Lemma preserves_outer {A} (m : ST E A) : preserves Uncounted m -> preserves UncountedP (outer m).
Proof.
  intros Hm [p e] a s' H EE. unfold outer in EE. destruct (m e) as [[b e']|] eqn:Em; [|done].
  injection EE as <- <-. by apply (Hm e b e').
Qed.
Lemma preserves_own f : preserves UncountedP (own (W := E) f).
Proof. by intros [p e] a s' H [= <- <-]. Qed.
Lemma preserves_inP {A} (m : ST X A) : preserves UncountedP (inP m).
Proof. apply preserves_outer, OK_ext. Qed.
Lemma OKW_onE {A} (m : ST E A) : preserves Uncounted m -> OKW (onE m).
Proof. intros Hm. apply OKA_ext, preserves_outer, Hm. Qed.
Lemma OKW_onX {A} (m : ST X A) : OKW (onX m).
Proof. apply OKW_onE, ExecCtx.OK_ext. Qed.

Local Abbreviation Inner_ := (Inner Malloc PrintConsole Tid).

(** A note in the proxy, the sink, then the target. *)
Lemma preserves_noted {A} f (m1 : ST E unit) (m2 : ST E A) :
  preserves Uncounted m1 -> preserves Uncounted m2 -> preserves UncountedP (own f ;;; outer m1 ;;; outer m2).
Proof.
  intros H1 H2. apply preserves_bind; [apply preserves_own|]. intros _.
  apply preserves_bind; [by apply preserves_outer|]. intros _. by apply preserves_outer.
Qed.

Lemma proxy_uncounted This k : ContextOK UncountedP (proxy (Inner_ This) (Sinks k)).
Proof.
  destruct (ExecutionContext_uncounted Malloc PrintConsole Tid This), (Sinks_ok k).
  split; intros; simpl; try (by apply preserves_noted); try (apply preserves_outer; by eauto).
  - apply preserves_bind; [apply preserves_gets|]. intros [f|]; [|done].
    apply preserves_bind; [apply preserves_gets|]. intros n.
    apply preserves_bind; [by apply preserves_outer|]. intros _. apply preserves_outer; eauto.
  - apply preserves_own.
  - apply preserves_bind; [apply preserves_own|]. intros _.
    apply preserves_bind; [apply preserves_gets|]. intros n. apply preserves_when.
    apply preserves_bind; [by apply preserves_outer|]. intros _.
    apply preserves_bind; [by apply preserves_outer|]. intros _. apply preserves_own.
Qed.

Lemma preserves_CreateSink Flags Options :
  preserves Uncounted (CfixrunsCreateExecutionContextAndEventSink Malloc malloc TlsAlloc PrintConsole LoadLibrary
    GetProcAddress CreateEventSinkRoutine Sinks Tid Flags Options).
Proof.
  unfold CfixrunsCreateExecutionContextAndEventSink. apply preserves_bind; [apply OK_Create|]. intros c.
  apply preserves_if; [apply preserves_ret|]. lazy zeta. apply preserves_bind.
  { unfold CfixutilLoadEventSinkFromDll. apply preserves_bind; [apply OK_ext|]. intros m.
    apply preserves_if; [apply preserves_ret|]. apply preserves_bind; [apply OK_ext|]. intros r.
    apply preserves_if; [apply preserves_ret|apply Routine_ok]. }
  intros k. destruct (ExecutionContext_uncounted Malloc PrintConsole Tid (snd c)), (Sinks_ok (snd k)).
  apply preserves_bind.
  { apply preserves_if; [apply preserves_ret|]. apply preserves_bind; [|intros p; apply preserves_ret].
    unfold CfixCreateEventEmittingExecutionContextProxy. apply preserves_bind; [apply OK_ext|]. intros ok.
    apply preserves_if; [apply preserves_ret|]. apply preserves_bind; [done|]. intros _.
    apply preserves_bind; [done|]. intros _. apply preserves_ret. }
  intros r. apply preserves_bind; [done|]. intros _. apply preserves_bind; [by apply preserves_when|].
  intros _. apply preserves_ret.
Qed.

Local Abbreviation Worker Options := (CfixrunsMainWorker IsDebuggerPresent GetCurrentThreadId Malloc malloc TlsAlloc
  PrintConsole LoadLibrary GetProcAddress CreateEventSinkRoutine Sinks Modules CreateTestModule
  CreateTestModuleOfProcess SearchModules Tid Options).
Local Abbreviation Main Options := (CfixrunMain IsDebuggerPresent GetCurrentThreadId Malloc malloc TlsAlloc
  PrintConsole getch LoadLibrary GetProcAddress CdiagCreateMessageResolver RegisterMessageDll ResolveMessage
  DereferenceResolver CreateEventSinkRoutine Sinks Modules CreateTestModule CreateTestModuleOfProcess
  SearchModules Tid Options).
Local Abbreviation RunAct Options := (RunAction IsDebuggerPresent GetCurrentThreadId Malloc malloc TlsAlloc
  PrintConsole LoadLibrary GetProcAddress CreateEventSinkRoutine Sinks Modules Tid Options).

(** What holds of an outcome, if the invariant held before. *)
Definition Yields {A} (m : ST W A) (Q : A -> Prop) : Prop :=
  forall s a s', IA UncountedP s -> m s = Some (a, s') -> IA UncountedP s' /\ Q a.

Lemma Yields_bind {A B} (m : ST W A) (k : A -> ST W B) Q R :
  Yields m Q -> (forall a, Q a -> Yields (k a) R) -> Yields (bind m k) R.
Proof.
  intros Hm Hk s b s' H EE. inv_bind EE. destruct (Hm _ _ _ H H0) as [H2 HQ]. by apply (Hk a HQ s0).
Qed.
Lemma Yields_ret {A} (a : A) (Q : A -> Prop) : Q a -> Yields (ret a) Q.
Proof. by intros HQ s b s' H [= <- <-]. Qed.
Lemma Yields_if {A} (b : bool) (m1 m2 : ST W A) Q : Yields m1 Q -> Yields m2 Q -> Yields (if b then m1 else m2) Q.
Proof. by destruct b. Qed.
Lemma Yields_any {A} (m : ST W A) : OKW m -> Yields m (fun _ => True).
Proof. intros Hm s a s' H EE. split; [by eapply Hm|done]. Qed.
Lemma Yields_then {A B} (m : ST W A) (k : A -> ST W B) Q : OKW m -> (forall a, Yields (k a) Q) -> Yields (bind m k) Q.
Proof. intros Hm Hk. eapply Yields_bind; [by apply Yields_any|]. by intros a _. Qed.

(** Statistics of the inner context know only successes. *)
Lemma Yields_statistics This :
  Yields (onE (CfixrunpGetStatisticsExecutionContext This (MkStatistics 0 0 0 0 0))) OnlySuccesses.
Proof.
  intros [os [p e]] c s' H EE. unfold onE, Sequence.ext, outer, CfixrunpGetStatisticsExecutionContext in EE.
  destruct (This =? 0); [by injection EE as <- <-|]. unfold bind, loadc in EE.
  destruct (Contexts e !! This) as [o|] eqn:Eo; [|done]. injection EE as <- <-.
  split; [done|]. by apply (un_contexts _ H This).
Qed.

(** The codes the runner ends with, having run something or not. *)
Definition Codes (Initial : Z) (r : Z * Z) : Prop :=
  snd r = CFIXRUN_EXIT_ALL_SUCCEEDED \/ snd r = CFIXRUN_EXIT_NONE_EXECUTED \/ snd r = Initial.

Lemma Yields_RunAction Options Action Initial : Yields (RunAct Options Action Initial) (Codes Initial).
Proof.
  unfold RunAction. apply Yields_then; [apply OKW_onE, preserves_CreateSink|]. intros [[Hr EC] This].
  eapply Yields_bind with (Q := Codes Initial).
  - destruct EC as [[p Sink]|]; [|by apply Yields_ret; right; right].
    apply Yields_if; [by apply Yields_ret; right; right|].
    pose proof (proxy_uncounted This Sink) as HP.
    apply Yields_then; [apply OKA_ext, preserves_own|]. intros _.
    apply Yields_then; [by apply OKA_Run; try (intros; apply preserves_inP)|]. intros Hr'.
    eapply Yields_bind; [apply Yields_statistics|]. intros c (Hf & _ & _).
    apply Yields_then; [apply preserves_when, OKW_onX|]. intros _.
    apply Yields_then; [apply OKA_ext, HP|]. intros _. apply Yields_ret.
    unfold Codes, ExitCodeOf. cbn [snd]. rewrite Hf. destruct (_ =? 0); tauto.
  - intros r Hc. apply Yields_then; [by apply OKA_Dereference|]. intros _. by apply Yields_ret.
Qed.

Definition ExitCodes Options (c : Z) : Prop :=
  c = CFIXRUN_EXIT_ALL_SUCCEEDED \/ c = CFIXRUN_EXIT_NONE_EXECUTED \/ c = CFIXRUN_EXIT_FAILURE \/
  c = CFIXRUN_EXIT_USAGE_FAILURE /\ (InputFile Options = None \/ InputFile Options = Some EmptyString).

Lemma Yields_Worker Options : Yields (Worker Options CFIXRUN_EXIT_FAILURE) (fun r => ExitCodes Options (snd r)).
Proof.
  unfold CfixrunsMainWorker, ExitCodes. destruct (InputFile Options) as [[|ch fn]|] eqn:EI;
    [apply Yields_ret; simpl; tauto| |apply Yields_ret; simpl; tauto].
  apply Yields_then.
  { assert (preserves UncountedP (inP (X := X) malloc)) as Hm by apply preserves_inP.
    apply preserves_if; apply OKA_Assemble; try done; intros; [by apply OKC_Display|by apply OKC_TsExec]. }
  intros [[Hr2 Action] Count]. apply Yields_if; [apply Yields_ret; simpl; tauto|]. apply Yields_if.
  - apply Yields_then; [apply OKW_onX|]. intros _.
    apply Yields_then; [apply preserves_when, OKW_onX|]. intros _. apply Yields_ret. simpl. tauto.
  - intros s1 r s2 H1 E1. destruct (Yields_RunAction _ _ _ _ _ _ H1 E1) as [H2 HC]. split; [done|].
    unfold Codes in HC. tauto.
Qed.

Lemma Yields_Main Options : Yields (Main Options) (ExitCodes Options).
Proof.
  unfold CfixrunMain. apply Yields_then; [apply OKW_onX|]. intros [Hr Resolver].
  eapply Yields_bind with (Q := ExitCodes Options).
  - apply Yields_if; [apply Yields_ret; unfold ExitCodes; tauto|].
    do 3 (apply Yields_then; [apply OKW_onX|]; intros _).
    apply Yields_then; [apply preserves_when, preserves_bind; [apply OKW_onX|intros _; apply OKW_onX]|].
    intros _. eapply Yields_bind; [apply Yields_Worker|]. intros r Hr'.
    apply Yields_then; [|intros _; by apply Yields_ret].
    apply preserves_when, preserves_bind; [apply OKW_onX|]. intros m. apply OKW_onX.
  - intros c Hc. apply Yields_then; [apply preserves_when, OKW_onX|]. intros _.
    apply Yields_then; [apply preserves_when, preserves_bind; [apply OKW_onX|intros _; apply OKW_onX]|].
    intros _. by apply Yields_ret.
Qed.

(** The runner never says that a test failed.  Whatever modules, event DLL and file
    system are used, as long as they use the runner's memory through the context's
    operations only: if the runner ends, its exit code is "all succeeded", "none
    executed", "usage failure" (only without an input file) or "failure", and
    never the documented "some failed", however many test cases failed. *)
Theorem exit_code_never_some_failed Options s ExitCode s' :
  Uncounted (snd (snd s)) -> Main Options s = Some (ExitCode, s') ->
  (ExitCode = CFIXRUN_EXIT_ALL_SUCCEEDED \/ ExitCode = CFIXRUN_EXIT_NONE_EXECUTED \/
   ExitCode = CFIXRUN_EXIT_FAILURE \/
   ExitCode = CFIXRUN_EXIT_USAGE_FAILURE /\ (InputFile Options = None \/ InputFile Options = Some EmptyString)) /\
  ExitCode <> CFIXRUN_EXIT_SOME_FAILED.
Proof.
  intros HU HM. destruct (Yields_Main Options s ExitCode s' HU HM) as [_ HQ]. split; [exact HQ|].
  unfold ExitCodes, CFIXRUN_EXIT_ALL_SUCCEEDED, CFIXRUN_EXIT_NONE_EXECUTED, CFIXRUN_EXIT_FAILURE,
    CFIXRUN_EXIT_USAGE_FAILURE, CFIXRUN_EXIT_SOME_FAILED in *. lia.
Qed.
End exit_code.

(** ** A concrete run: every test case of the fixtures of [RunTest.Demo] fails *)
Module Demo.
Definition X := list string.
Definition quiet {A} (a : A) : ST X A := ret a.
Definition Malloc (bs : gset Z) : ST X Z := ret (1 + foldr Z.max 0 (elements bs)).
Definition Print (m : string) : ST X unit := modify (fun l => l ++ [m]).
Definition Sink : CFIX_EVENT_SINK (EW X) := {|
  SinkReportEvent := fun _ _ _ n _ => ExecCtx.ext (Print n);
  SinkBeforeFixtureStart := fun _ _ _ => ret tt;
  SinkAfterFixtureFinish := fun _ _ _ _ => ret tt;
  SinkBeforeTestCaseStart := fun _ _ _ _ => ret tt;
  SinkAfterTestCaseFinish := fun _ _ _ _ _ => ret tt;
  SinkReference := ret tt;
  SinkDereference := ret tt |}.
Definition failing : CFIX_MODULE_ROUTINES (PROXY * EW X) := {|
  RunTestCase := fun _ _ c _ =>
    ReportEvent c (MkThreadId 1 1) ExecCtx.Demo.failure ;;; ret CFIX_E_TEST_ROUTINE_FAILED;
  Setup := fun _ _ _ => ret S_OK;
  Teardown := fun _ _ _ => ret S_OK;
  Before := fun _ _ _ => ret S_OK;
  After := fun _ _ _ => ret S_OK;
  ModReference := ret tt;
  ModDereference := ret tt |}.
Definition CreateTestModule (p : string) (t : CFIXRUN_MODULE_TYPE)
    : ST (PROXY * EW X) (Z * (Z * list CFIX_FIXTURE)) :=
  ret match t with CfixrunDll => (S_OK, (7, RunTest.Demo.fixtures)) | CfixrunSys => (E_FAIL, (0, [])) end.
Definition run (o : CFIXRUN_OPTIONS) : option (Z * (ACTIONS * (PROXY * EW X))) :=
  CfixrunMain (quiet false) (quiet 1) Malloc (quiet true) (quiet 5) Print (quiet tt) (fun _ => quiet 9)
    (fun _ _ => quiet 3) (quiet (S_OK, 1)) (fun _ _ => quiet S_OK) (fun _ _ => quiet None) (fun _ => quiet tt)
    (fun _ _ _ _ => ret (S_OK, 2)) (fun _ => Sink) (fun _ => failing) CreateTestModule
    (ret (E_FAIL, (0, [])))
    (SearchOn Search.Demo.Full (inr "c:") Search.Demo.Combine Search.Demo.Find Search.Demo.Attributes 3) 1 o
    (∅, (MkProxy false None None 0 true, MkEW ∅ ∅ (fun _ => 0) TLS_OUT_OF_INDEXES 0 [])).
Definition options : CFIXRUN_OPTIONS := RunTest.Demo.options "other".

(** The failure of test case x was reported, and the run is a success. *)
Example failed_run_succeeds : exists s, run options = Some (CFIXRUN_EXIT_ALL_SUCCEEDED, s) /\ Ext (snd (snd s)) = ["x"].
Proof. eexists. split; vm_compute; reflexivity. Qed.

Lemma failing_ok : RoutinesOK UncountedP failing.
Proof.
  split; intros; simpl; try apply preserves_ret. apply preserves_bind; [by apply (co_report _ _ H)|].
  intros d. apply preserves_ret.
Qed.

Lemma exit_code_never_some_failed_witness :
  exists c s, run options = Some (c, s) /\ c <> CFIXRUN_EXIT_SOME_FAILED.
Proof.
  destruct (run options) as [[c s]|] eqn:E; [|vm_compute in E; discriminate].
  exists c, s. split; [reflexivity|]. unfold run in E.
  refine (proj2 (exit_code_never_some_failed _ _ _ _ _ _ _ _ _ _ _ _ _ _ _ _ _ _ _ _ _ _ _ _ _ _ options _ c s _ E)).
  - intros k. split; intros; simpl; try apply preserves_ret. apply ExecCtx.OK_ext.
  - intros a v fl o. apply preserves_ret.
  - intros m. exact failing_ok.
  - intros p t. apply preserves_ret.
  - apply preserves_ret.
  - intros J p b1 b2 Callback H. by apply preserves_CfixrunSearchModules.
  - split; intros p o; simpl; rewrite lookup_empty; discriminate.
Defined.
End Demo.
