(* ===== verification/FormatStr.v ===== *)
(** * Message templates (cdiag/formatstr.c, cdiag/helper.c)

    [CdiagpFormatString] expands the variables of a template that need not be
    trusted.  A string is the list of its characters without the terminator;
    a pointer into the template is an offset.  The output buffer is a block of
    exactly the promised size, a write outside of it has no outcome. *)
From stdpp Require Import base list.
From Equations Require Import Equations.
From Stdlib Require Import ZArith Lia.
From S2P Require Import Prelude.

(* src/include/cdiagmsg.h:68-74 (CDIAG_E_BUFFER_TOO_SMALL) *)
Definition CDIAG_E_BUFFER_TOO_SMALL : Z := 0x80048101.
Definition MAXWORD : Z := 0xFFFF.

(** [L'%'] *)
Definition PERCENT : Z := 37.

(* src/cdiag/cdiag/cdiagp.h:108-122 (FORMAT_VARIABLE) *)
Record FORMAT_VARIABLE := { Name : list Z; Format : list Z }.

(** The loop of [CdiagpIsWhitespaceOnly]. *)
(* src/cdiag/cdiag/helper.c:31-49 (CdiagpIsWhitespaceOnly) *)
Fixpoint whitespace_only (wsOnly : bool) (String : list Z) : bool :=
  match String with
  | [] => wsOnly
  | ch :: String =>
      if wsOnly then
        whitespace_only (wsOnly && ((ch =? 32) || (ch =? 9) || (ch =? 10) || (ch =? 13))) String
      else wsOnly
  end.
Definition CdiagpIsWhitespaceOnly : list Z -> bool := whitespace_only true.

(** [StringCchLength( String, Max + 1, &size )] succeeds for strings of at most
    [Max] characters. *)
(* src/cdiag/cdiag/helper.c:51-68 (CdiagpIsStringValid) *)
Definition CdiagpIsStringValid (String : option (list Z)) (MinLengthInclusive MaxLengthInclusive : Z)
    (AllowWhitespaceOnly : bool) : bool :=
  match String with
  | None => false
  | Some String =>
      let size := Z.of_nat (length String) in
      (AllowWhitespaceOnly || negb (CdiagpIsWhitespaceOnly String)) &&
      (size <=? MaxLengthInclusive) && (MinLengthInclusive <=? size)
  end.

(** The output: the block [Buffer] and the offset of [BufferPtr] in it. *)
Record OUTPUT := MkOutput { Buffer : list Z; BufferPtr : nat }.

(** Storing characters at an offset of a block. *)
Definition store (p : nat) (s B : list Z) : list Z := take p B ++ s ++ drop (p + length s) B.

Definition write (s : list Z) : ST OUTPUT unit :=
  fun o => if decide (BufferPtr o + length s <= length (Buffer o))%nat
           then Some (tt, MkOutput (store (BufferPtr o) s (Buffer o)) (BufferPtr o))
           else None.

Definition advance (n : nat) : ST OUTPUT unit :=
  modify (fun o => MkOutput (Buffer o) (BufferPtr o + n)).

(** [*BufferPtr++ = c] *)
Definition write_char (c : Z) : ST OUTPUT unit := write [c] ;;; advance 1.

(** The bits of a [SIZE_T]. *)
Definition SIZE_T (z : Z) : Z := wrap 64 z.

Section formatstr.
(** Character classes of the locale. *)
Context (towlower : Z -> Z) (iswalnum : Z -> bool).

(** The characters [printf] makes of a format and an argument; [None] for an
    encoding error. *)
Context (Printf : list Z -> Z -> option (list Z)).

Local Abbreviation M := (ST OUTPUT).

(** [_snwprintf]: an output of exactly [count] characters is not terminated, a
    longer one is cut off and reported by a negative result. *)
Definition _snwprintf (count : nat) (format : list Z) (arg : Z) : M Z :=
  match Printf format arg with
  | None => ret (-1)
  | Some s =>
      if decide (length s < count)%nat then write (s ++ [0]) ;;; ret (Z.of_nat (length s))
      else if decide (length s = count) then write s ;;; ret (Z.of_nat (length s))
      else write (take count s) ;;; ret (-1)
  end.

(** The two strings are read up to their terminators; [None] if a pointer is
    moved past one of them. *)
(* src/cdiag/cdiag/formatstr.c:27-52 (CdiagsCompareString) *)
Fixpoint CdiagsCompareString (Dst Src : list Z) (MaxCch : Z) : option Z :=
  let DstChar := towlower (default 0 (head Dst)) in
  let SrcChar := towlower (default 0 (head Src)) in
  let MaxCch := SIZE_T (MaxCch - 1) in
  if (0 <? MaxCch) && negb (DstChar =? 0) && (DstChar =? SrcChar) then
    match Dst, Src with
    | _ :: Dst, _ :: Src => CdiagsCompareString Dst Src MaxCch
    | _, _ => None
    end
  else Some (DstChar - SrcChar).

Section template.
Context (Variables : list FORMAT_VARIABLE) (Bindings : list Z) (T : list Z).

(** The loop, [n] rounds from [Index] on. *)
(* src/cdiag/cdiag/formatstr.c:54-82 (CdiagsGetVariableBindingIndex) *)
Fixpoint CdiagsGetVariableBindingIndex (n Index : nat) (VariableName : list Z) (VariableNameCch : Z)
    : option (option nat) :=
  match n with
  | O => Some None
  | S n =>
      match Variables !! Index with
      | None => None
      | Some v =>
          match CdiagsCompareString (Name v) VariableName VariableNameCch with
          | None => None
          | Some 0 => Some (Some Index)
          | Some _ => CdiagsGetVariableBindingIndex n (S Index) VariableName VariableNameCch
          end
      end
  end.

(** A value that a C function does not compute ends the run. *)
Definition of_option {A} (o : option A) : M A :=
  match o with Some a => ret a | None => fault end.

(** The name reaches from one offset of the template to another. *)
(* src/cdiag/cdiag/formatstr.c:84-138 (CdiagsHandleVariable) *)
Definition CdiagsHandleVariable (VarCount : nat) (VariableNameBegin VariableNameEndExcl : nat)
    (BufferSizeInChars : nat) : M Z :=
  r <- of_option (CdiagsGetVariableBindingIndex VarCount 0 (drop VariableNameBegin T)
                    (SIZE_T (Z.of_nat VariableNameEndExcl - Z.of_nat VariableNameBegin))) ;;
  match r with
  | None => ret S_OK
  | Some BindingIndex =>
      v <- of_option (Variables !! BindingIndex) ;;
      b <- of_option (Bindings !! BindingIndex) ;;
      CharsWritten <- _snwprintf BufferSizeInChars (Format v) b ;;
      if 0 <=? CharsWritten then advance (Z.to_nat CharsWritten) ;;; ret S_OK
      else ret CDIAG_E_BUFFER_TOO_SMALL
  end.

(** [VariableName] may be [NULL] only where it is not read. *)
Definition HandleVariableAt (VarCount : nat) (VariableName : option nat) (Cur BufferEnd : nat) : M Z :=
  match VariableName with
  | None => fault
  | Some vn =>
      ptr <- gets BufferPtr ;;
      CdiagsHandleVariable VarCount vn Cur (BufferEnd - ptr)
  end.

(** What follows the loop. *)
(* src/cdiag/cdiag/formatstr.c:249-275 (CdiagpFormatString) *)
Definition FinishFormat (VarCount BufferEnd : nat) (InVariable : bool) (VariableName : option nat)
    (Cur : nat) : M Z :=
  ptr <- gets BufferPtr ;;
  if (ptr <=? BufferEnd)%nat then
    Hr <- (if InVariable then HandleVariableAt VarCount VariableName Cur BufferEnd else ret S_OK) ;;
    if FAILED Hr then ret Hr else write [0] ;;; ret S_OK
  else ret CDIAG_E_BUFFER_TOO_SMALL.

(** The loop over the template; [rest] is what [Cur] points to. *)
(* src/cdiag/cdiag/formatstr.c:180-247 (CdiagpFormatString) *)
Fixpoint FormatLoop (VarCount BufferEnd : nat) (InVariable : bool) (VariableName : option nat)
    (Cur : nat) (rest : list Z) : M Z :=
  match rest with
  | [] => FinishFormat VarCount BufferEnd InVariable VariableName Cur
  | c :: rest =>
      ptr <- gets BufferPtr ;;
      if (BufferEnd <=? ptr)%nat then ret CDIAG_E_BUFFER_TOO_SMALL else
      if c =? PERCENT then
        if decide (VariableName = Some Cur) then
          write_char c ;;;
          FormatLoop VarCount BufferEnd false VariableName (S Cur) rest
        else
          Hr <- (match VariableName with
                 | Some _ => HandleVariableAt VarCount VariableName Cur BufferEnd
                 | None => ret S_OK
                 end) ;;
          if FAILED Hr then ret Hr
          else FormatLoop VarCount BufferEnd true (Some (S Cur)) (S Cur) rest
      else if InVariable && negb (iswalnum c) then
        Hr <- HandleVariableAt VarCount VariableName Cur BufferEnd ;;
        if FAILED Hr then ret Hr
        else write_char c ;;; FormatLoop VarCount BufferEnd false None (S Cur) rest
      else if negb InVariable then
        write_char c ;;; FormatLoop VarCount BufferEnd InVariable VariableName (S Cur) rest
      else FormatLoop VarCount BufferEnd InVariable VariableName (S Cur) rest
  end.
End template.

(** The whole call.  [Block] is the memory behind [Buffer]; the arrays are
    described by what they hold. *)
(* src/cdiag/cdiag/formatstr.c:143-275 (CdiagpFormatString) *)
Definition CdiagpFormatString (VarCount : nat) (Variables : option (list FORMAT_VARIABLE))
    (Bindings : option (list Z)) (FormatStringTemplate : option (list Z))
    (BufferSizeInChars : nat) (Block : option (list Z)) : option (Z * list Z) :=
  match Variables, Bindings, FormatStringTemplate, Block with
  | Some Variables, Some Bindings, Some T, Some B =>
      if decide (VarCount = 0%nat) then Some (E_INVALIDARG, B)
      else if negb (CdiagpIsStringValid (Some T) 1 MAXWORD false) then Some (E_INVALIDARG, B)
      else if decide (BufferSizeInChars = 0%nat) then Some (E_INVALIDARG, B)
      else match FormatLoop Variables Bindings T VarCount (BufferSizeInChars - 1) false None 0 T
                   (MkOutput B 0) with
           | Some (Hr, o) => Some (Hr, Buffer o)
           | None => None
           end
  | _, _, _, _ => Some (E_INVALIDARG, default [] Block)
  end.
End formatstr.

(** ** The documented expansion

    A template is a sequence of characters, percent signs and variables. *)
Inductive PIECE := Char (c : Z) | Percent | Variable_ (name : list Z).

Definition spell_piece (p : PIECE) : list Z :=
  match p with Char c => [c] | Percent => [PERCENT; PERCENT] | Variable_ n => PERCENT :: n end.

Fixpoint span (p : Z -> bool) (l : list Z) : list Z :=
  match l with
  | [] => []
  | c :: l => if p c then c :: span p l else []
  end.

Lemma span_spec p l :
  exists r, l = span p l ++ r /\ Forall (fun c => p c = true) (span p l) /\
            (forall c, head r = Some c -> p c = false).
Proof.
  induction l as [|c l (r & E & HF & Hr)]; [by exists []|].
  simpl. destruct (p c) eqn:Hc.
  - exists r. rewrite <-app_comm_cons, <-E. by split_and!; [|constructor|].
  - exists (c :: l). split_and!; [done|constructor|]. by intros ? [= <-].
Qed.

Section reference.
Context (towlower : Z -> Z) (iswalnum : Z -> bool) (Printf : list Z -> Z -> option (list Z)).

Equations? parse (t : list Z) : list PIECE by wf (length t) lt :=
  parse [] := [];
  parse (c :: t) with decide (c = PERCENT) => {
    | right _ := Char c :: parse t;
    | left _ with t => {
      | [] := [Variable_ []];
      | d :: t' with decide (d = PERCENT) => {
        | left _ := Percent :: parse t';
        | right _ := Variable_ (span iswalnum (d :: t')) ::
                     parse (drop (length (span iswalnum (d :: t'))) (d :: t')) } } }.
Proof. all: rewrite ?length_drop; simpl; lia. Qed.

(** The first variable that the name abbreviates. *)
Definition abbreviates (name : list Z) (v : FORMAT_VARIABLE) : bool :=
  bool_decide (towlower <$> name `prefix_of` towlower <$> Name v).

Fixpoint Value (name : list Z) (vs : list FORMAT_VARIABLE) (bs : list Z) : option (list Z) :=
  match vs, bs with
  | v :: vs, b :: bs => if abbreviates name v then Printf (Format v) b else Value name vs bs
  | _, _ => Some []
  end.

Definition render (vs : list FORMAT_VARIABLE) (bs : list Z) (p : PIECE) : option (list Z) :=
  match p with
  | Char c => Some [c]
  | Percent => Some [PERCENT]
  | Variable_ [] => Some []
  | Variable_ name => Value name vs bs
  end.

Fixpoint expand (vs : list FORMAT_VARIABLE) (bs : list Z) (ps : list PIECE) : option (list Z) :=
  match ps with
  | [] => Some []
  | p :: ps =>
      match render vs bs p, expand vs bs ps with
      | Some a, Some b => Some (a ++ b)
      | _, _ => None
      end
  end.
End reference.

(** ** Correctness *)
Section correctness.
Context (towlower : Z -> Z) (iswalnum : Z -> bool) (Printf : list Z -> Z -> option (list Z)).

(** What is documented of the character classes: the lower case letter of an
    alphanumeric character is one, only the terminator is mapped to itself. *)
Context (lower_nul : forall c, towlower c = 0 <-> c = 0).
Context (lower_alnum : forall c, iswalnum (towlower c) = iswalnum c).
Context (alnum_nul : iswalnum 0 = false) (alnum_percent : iswalnum PERCENT = false).

Notation alnums := (Forall (fun c => iswalnum c = true)).

Lemma lower_0 : towlower 0 = 0.
Proof. by apply lower_nul. Qed.

Lemma lower_alnum_pos c : iswalnum c = true -> towlower c <> 0.
Proof. intros Hc E. rewrite <-lower_alnum, E, alnum_nul in Hc. done. Qed.

Lemma compare_spec rest name : forall N,
  name <> [] -> alnums name -> Z.of_nat (length name) < 2 ^ 64 ->
  exists r, CdiagsCompareString towlower N (name ++ rest) (Z.of_nat (length name)) = Some r /\
            (r = 0 <-> towlower <$> name `prefix_of` towlower <$> N).
Proof.
  induction name as [|a name IH]; intros N Hne Ha Hlen; [done|].
  apply Forall_cons in Ha as [Ha Hname]. pose proof (lower_alnum_pos a Ha) as Hpos.
  assert (SIZE_T (Z.of_nat (length (a :: name)) - 1) = Z.of_nat (length name)) as Hcch.
  { unfold SIZE_T. rewrite wrap_small by (simpl in *; lia). simpl. lia. }
  destruct N as [|n N].
  - cbn [CdiagsCompareString app head default from_option id].
    rewrite Hcch, lower_0, Z.eqb_refl, andb_false_r. cbn [negb andb]. eexists. split; [done|].
    simpl. split; [lia|]. intros Hp. by apply prefix_nil_inv in Hp.
  - cbn [CdiagsCompareString app head default from_option id]. rewrite Hcch, !fmap_cons.
    destruct (Z.eqb_spec (towlower n) (towlower a)) as [E|E].
    + rewrite E, (proj2 (Z.eqb_neq _ _) Hpos). cbn [negb andb]. rewrite andb_true_r.
      destruct name as [|b name].
      * cbn. eexists. split; [done|]. split; [|lia]. intros _. apply prefix_cons, prefix_nil.
      * rewrite (proj2 (Z.ltb_lt _ _)) by (simpl; lia). cbn [andb].
        destruct (IH N ltac:(done) Hname) as (r & -> & Hr); [simpl in *; lia|].
        exists r. split; [done|]. rewrite Hr. split; [apply prefix_cons|apply prefix_cons_inv_2].
    + rewrite andb_false_r. eexists. split; [done|]. split; [lia|].
      intros Hp%prefix_cons_inv_1. by rewrite Hp in E.
Qed.

Lemma compare_other n N src k :
  iswalnum n = true -> iswalnum (default 0 (head src)) = false ->
  exists r, CdiagsCompareString towlower (n :: N) src k = Some r /\ r <> 0.
Proof.
  intros Hn Hs. assert (towlower n <> towlower (default 0 (head src))) as Hd.
  { intros E. rewrite <-lower_alnum, <-E, lower_alnum, Hn in Hs. done. }
  cbn [CdiagsCompareString head default from_option id] in *.
  rewrite (proj2 (Z.eqb_neq _ _) Hd), andb_false_r. eexists. split; [done|]. lia.
Qed.

Section arrays.
Context (Variables : list FORMAT_VARIABLE) (Bindings : list Z) (VarCount : nat).
Context (count_vars : length Variables = VarCount) (count_bindings : length Bindings = VarCount).
Context (names_ok : Forall (fun v => exists n N, Name v = n :: N /\ iswalnum n = true) Variables).

Notation VBI := (CdiagsGetVariableBindingIndex towlower Variables).

Lemma lookup_none src k : iswalnum (default 0 (head src)) = false ->
  forall n Index, (Index + n = VarCount)%nat -> VBI n Index src k = Some None.
Proof.
  intros Hs. induction n as [|n IH]; intros Index Hn; [done|]. cbn [CdiagsGetVariableBindingIndex].
  destruct (lookup_lt_is_Some_2 Variables Index) as [v Hv]; [lia|]. rewrite Hv.
  destruct (proj1 (Forall_lookup _ _) names_ok _ _ Hv) as (c & N & -> & Hc).
  destruct (compare_other c N src k Hc Hs) as (r & -> & Hr). destruct r; [done| |]; apply IH; lia.
Qed.

Lemma lookup_name rest name : name <> [] -> alnums name -> Z.of_nat (length name) < 2 ^ 64 ->
  forall n Index, (Index + n = VarCount)%nat ->
  exists r, VBI n Index (name ++ rest) (Z.of_nat (length name)) = Some r /\
    match r with
    | None => Value towlower Printf name (drop Index Variables) (drop Index Bindings) = Some []
    | Some i => exists v b, Variables !! i = Some v /\ Bindings !! i = Some b /\
                  Value towlower Printf name (drop Index Variables) (drop Index Bindings) =
                  Printf (Format v) b
    end.
Proof.
  intros Hne Ha Hlen. induction n as [|n IH]; intros Index Hn.
  - exists None. split; [done|]. by rewrite drop_ge by lia.
  - cbn [CdiagsGetVariableBindingIndex].
    destruct (lookup_lt_is_Some_2 Variables Index) as [v Hv]; [lia|].
    destruct (lookup_lt_is_Some_2 Bindings Index) as [b Hb]; [lia|].
    rewrite Hv, (drop_S _ _ _ Hv), (drop_S _ _ _ Hb). cbn [Value]. unfold abbreviates.
    destruct (compare_spec rest name (Name v) Hne Ha Hlen) as (r & -> & Hr).
    destruct (decide (r = 0)) as [->|Hr0].
    + exists (Some Index). split; [done|]. rewrite bool_decide_eq_true_2 by tauto. eauto.
    + rewrite bool_decide_eq_false_2 by tauto. destruct (IH (S Index)) as (r' & -> & H); [lia|].
      exists r'. split; [by destruct r|done].
Qed.
End arrays.

(** *** The output block *)
Context (BufferEnd : nat).
Notation Size := (S BufferEnd).

(** [w] has been written so far. *)
Definition Written (w : list Z) (o : OUTPUT) : Prop :=
  take (length w) (Buffer o) = w /\ BufferPtr o = length w /\ length (Buffer o) = Size.

Lemma store_take p s B : (p + length s <= length B)%nat ->
  take (p + length s) (store p s B) = take p B ++ s /\ length (store p s B) = length B.
Proof.
  intros H. unfold store. split.
  - rewrite app_assoc, take_app_length'; [done|]. rewrite length_app, length_take. lia.
  - rewrite !length_app, length_take, length_drop. lia.
Qed.

Lemma write_spec w s o : Written w o -> (length w + length s <= Size)%nat ->
  exists B, write s o = Some (tt, MkOutput B (length w)) /\
            take (length (w ++ s)) B = w ++ s /\ length B = Size.
Proof.
  intros (Hw & Hp & Hl) Hs. unfold write. rewrite Hp, decide_True by lia.
  destruct (store_take (length w) s (Buffer o)) as [Ht Hlen]; [lia|].
  rewrite length_app. eexists. split_and!; [done|by rewrite Ht, Hw|lia].
Qed.

Lemma write_char_spec w c o : Written w o -> (length w < Size)%nat ->
  exists o', write_char c o = Some (tt, o') /\ Written (w ++ [c]) o'.
Proof.
  intros Hw Hl. destruct (write_spec w [c] o Hw) as (B & E & Ht & HB); [simpl; lia|].
  unfold write_char. rewrite (bind_eq _ _ _ _ _ E). eexists. split; [done|].
  unfold Written. cbn [Buffer BufferPtr]. rewrite Ht, length_app. done.
Qed.

Lemma snwprintf_spec w f b o : Written w o -> (length w <= BufferEnd)%nat ->
  (exists s B, Printf f b = Some s /\ (length (w ++ s) <= BufferEnd)%nat /\
     _snwprintf Printf (BufferEnd - length w) f b o =
       Some (Z.of_nat (length s), MkOutput B (length w)) /\
     Written (w ++ s) (MkOutput B (length w + length s))) \/
  (exists o', _snwprintf Printf (BufferEnd - length w) f b o = Some (-1, o') /\
     length (Buffer o') = Size /\ forall s, Printf f b = Some s -> (BufferEnd < length (w ++ s))%nat).
Proof.
  intros Hw Hl. unfold _snwprintf. destruct (Printf f b) as [s|]; last first.
  { right. exists o. destruct Hw as (_ & _ & ?). by split_and!. }
  case_decide as Hlt; [|case_decide as Heq].
  - left. destruct (write_spec w (s ++ [0]) o Hw) as (B & E & Ht & HB); [rewrite length_app; simpl; lia|].
    exists s, B. rewrite (bind_eq _ _ _ _ _ E), length_app.
    split_and!; [done|lia|done|]. unfold Written. cbn [Buffer BufferPtr]. rewrite length_app.
    split_and!; [|done|done]. apply (f_equal (take (length w + length s))) in Ht.
    rewrite take_take, app_assoc, take_app_length' in Ht by (rewrite length_app; lia).
    rewrite <-Ht. f_equal. rewrite !length_app. simpl. lia.
  - left. destruct (write_spec w s o Hw) as (B & E & Ht & HB); [lia|].
    exists s, B. rewrite (bind_eq _ _ _ _ _ E). unfold Written. cbn [Buffer BufferPtr].
    rewrite length_app in *. split_and!; try done; lia.
  - right. destruct (write_spec w (take (BufferEnd - length w) s) o Hw) as (B & E & Ht & HB);
      [rewrite length_take; lia|].
    exists (MkOutput B (length w)). rewrite (bind_eq _ _ _ _ _ E). split_and!; [done|done|].
    intros s' [= <-]. rewrite length_app. lia.
Qed.

(** *** Every step of the loop keeps to the documented expansion *)

(** The outcome, given what is already written and what is still to come. *)
Definition verdict (w : list Z) (E : option (list Z)) (Hr : Z) (B : list Z) : Prop :=
  (Hr = S_OK /\ exists out, E = Some out /\ (length (w ++ out) < Size)%nat /\
     take (length (w ++ out ++ [0])) B = w ++ out ++ [0]) \/
  (Hr = CDIAG_E_BUFFER_TOO_SMALL /\ forall out, E = Some out -> (Size <= length (w ++ out) + 1)%nat).

Definition Formats (m : ST OUTPUT Z) (w : list Z) (E : option (list Z)) : Prop :=
  forall o, Written w o ->
  exists Hr o', m o = Some (Hr, o') /\ length (Buffer o') = Size /\ verdict w E Hr (Buffer o').

Definition oapp (a b : option (list Z)) : option (list Z) :=
  match a, b with Some a, Some b => Some (a ++ b) | _, _ => None end.

Lemma verdict_app w v E Hr B : verdict (w ++ v) E Hr B -> verdict w (oapp (Some v) E) Hr B.
Proof.
  intros [(-> & out & -> & Hl & Ht)|[-> HE]].
  - left. split; [done|]. exists (v ++ out). rewrite <-!app_assoc in *. by split_and!.
  - right. split; [done|]. intros out. destruct E as [e|]; [|done]. intros [= <-].
    rewrite app_assoc. by apply HE.
Qed.

Lemma Formats_char w c m E : (length w < Size)%nat ->
  Formats m (w ++ [c]) E -> Formats (write_char c ;;; m) w (oapp (Some [c]) E).
Proof.
  intros Hl Hm o Hw. destruct (write_char_spec w c o Hw Hl) as (o1 & E1 & Hw1).
  rewrite (bind_eq _ _ _ _ _ E1). destruct (Hm o1 Hw1) as (Hr & o' & E2 & HB & HV).
  exists Hr, o'. split_and!; [done|done|]. by apply verdict_app.
Qed.

Lemma Formats_full (w : list Z) m E :
  ((length w < BufferEnd)%nat -> Formats m w E) ->
  Formats (ptr <- gets BufferPtr ;;
           if (BufferEnd <=? ptr)%nat then ret CDIAG_E_BUFFER_TOO_SMALL else m) w E.
Proof.
  intros Hm o Hw. pose proof Hw as (_ & Hp & HB). rewrite bind_gets, Hp.
  destruct (Nat.leb_spec BufferEnd (length w)); [|by apply Hm].
  eexists _, _. split_and!; [done|done|]. right. split; [done|].
  intros out _. rewrite length_app. lia.
Qed.

Lemma Formats_ok w : (length w <= BufferEnd)%nat -> Formats (write [0] ;;; ret S_OK) w (Some []).
Proof.
  intros Hl o Hw. destruct (write_spec w [0] o Hw) as (B & E & Ht & HB); [simpl; lia|].
  rewrite (bind_eq _ _ _ _ _ E). eexists _, _. split_and!; [done|done|].
  left. split; [done|]. exists []. rewrite app_nil_r. split_and!; [done|lia|done].
Qed.

(** *** The loop *)
Section loop.
Context (Variables : list FORMAT_VARIABLE) (Bindings T : list Z) (VarCount : nat).
Context (count_vars : length Variables = VarCount) (count_bindings : length Bindings = VarCount).
Context (names_ok : Forall (fun v => exists n N, Name v = n :: N /\ iswalnum n = true) Variables).
Context (T_short : Z.of_nat (length T) <= MAXWORD).

Notation loop := (FormatLoop towlower iswalnum Printf Variables Bindings T VarCount BufferEnd).
Notation handle := (HandleVariableAt towlower Printf Variables Bindings T VarCount).
Notation value := (render towlower Printf Variables Bindings).
Notation expansion t := (expand towlower Printf Variables Bindings (parse iswalnum t)).

(** What the text between two offsets stands for. *)
Definition stands_for (vn Cur : nat) (V : option (list Z)) : Prop :=
  exists r, CdiagsGetVariableBindingIndex towlower Variables VarCount 0 (drop vn T)
              (SIZE_T (Z.of_nat Cur - Z.of_nat vn)) = Some r /\
  match r with
  | None => V = Some []
  | Some i => exists v b, Variables !! i = Some v /\ Bindings !! i = Some b /\ V = Printf (Format v) b
  end.

Lemma stands_for_name vn name rest : drop vn T = name ++ rest -> alnums name ->
  (name = [] -> iswalnum (default 0 (head rest)) = false) ->
  stands_for vn (vn + length name) (value (Variable_ name)).
Proof.
  intros HT Ha Hn. destruct (decide (name = [])) as [->|Hne].
  - exists None. split; [|done]. rewrite HT. by eapply lookup_none; try done; apply Hn.
  - apply (f_equal length) in HT as Hlen. rewrite length_drop, length_app in Hlen.
    unfold MAXWORD in T_short. assert (length name <> 0)%nat by (by destruct name).
    unfold stands_for. rewrite HT.
    destruct (lookup_name Variables Bindings VarCount count_vars count_bindings rest name Hne Ha
                ltac:(lia) VarCount 0 ltac:(lia)) as (r & E & HV).
    replace (Z.of_nat (vn + length name) - Z.of_nat vn) with (Z.of_nat (length name)) by lia.
    replace (SIZE_T (Z.of_nat (length name))) with (Z.of_nat (length name))
      by (unfold SIZE_T; rewrite wrap_small; lia).
    exists r. split; [done|]. rewrite !drop_0 in HV. by destruct name.
Qed.

Lemma stands_for_percent vn Cur : head (drop vn T) = Some PERCENT -> stands_for vn Cur (Some []).
Proof.
  intros Hh. exists None. split; [|done]. eapply lookup_none; try done. by rewrite Hh.
Qed.

Lemma Formats_handle vn Cur V w k E : stands_for vn Cur V -> (length w <= BufferEnd)%nat ->
  (forall v, V = Some v -> (length (w ++ v) <= BufferEnd)%nat -> Formats k (w ++ v) E) ->
  Formats (Hr <- handle (Some vn) Cur BufferEnd ;; if FAILED Hr then ret Hr else k) w (oapp V E).
Proof.
  intros (r & Er & Hr) Hl Hk o Hw. pose proof Hw as (_ & Hp & HB).
  unfold HandleVariableAt, CdiagsHandleVariable. rewrite bind_assoc, bind_gets, Hp, Er.
  cbn [of_option]. rewrite bind_assoc, bind_ret. destruct r as [i|]; [|subst V].
  - destruct Hr as (v & b & Hv & Hb & ->). rewrite Hv, Hb. cbn [of_option].
    rewrite bind_assoc, bind_ret, bind_assoc, bind_ret, bind_assoc.
    destruct (snwprintf_spec w (Format v) b o Hw Hl) as [(s & B & EP & Hs & E1 & Hw1)|(o1 & E1 & HB1 & Hlong)]; rewrite (bind_eq _ _ _ _ _ E1).
    + rewrite (proj2 (Z.leb_le _ _)), Nat2Z.id by lia. unfold advance.
      rewrite bind_assoc, bind_modify, bind_ret. cbn [FAILED].
      destruct (Hk s EP Hs _ Hw1) as (Hr & o' & E2 & HB' & HV).
      exists Hr, o'. split_and!; [done|done|]. rewrite EP. by apply verdict_app.
    + exists CDIAG_E_BUFFER_TOO_SMALL, o1. split_and!; [done|done|]. right. split; [done|].
      intros out. rewrite !length_app. destruct (Printf _ _) as [s|], E as [e|]; intros [= <-].
      specialize (Hlong s eq_refl). rewrite !length_app in *. lia.
  - rewrite bind_ret. destruct (Hk [] eq_refl) with o as (Hr & o' & E2 & HB' & HV);
      rewrite ?app_nil_r; try done.
    exists Hr, o'. split_and!; [done|done|]. apply verdict_app. done.
Qed.

Lemma oapp_nil E : oapp (Some []) E = E.
Proof. by destruct E. Qed.

Lemma expansion_cons p ps :
  expand towlower Printf Variables Bindings (p :: ps) =
  oapp (value p) (expand towlower Printf Variables Bindings ps).
Proof. cbn. by destruct (value p), (expand _ _ _ _ ps). Qed.

Lemma Formats_finish Cur iv vn w : iv = false -> (length w <= Size)%nat ->
  Formats (FinishFormat towlower Printf Variables Bindings T VarCount BufferEnd iv vn Cur) w (Some []).
Proof.
  intros -> Hl o Hw. pose proof Hw as (_ & Hp & HB).
  unfold FinishFormat. rewrite bind_gets, Hp. destruct (Nat.leb_spec (length w) BufferEnd) as [Hle|Hgt].
  - rewrite bind_ret. by apply (Formats_ok w Hle o Hw).
  - eexists _, _. split_and!; [done|done|]. right. split; [done|].
    intros out _. rewrite length_app. lia.
Qed.

Lemma Formats_finish_var Cur p w V : stands_for p Cur V -> (length w <= Size)%nat ->
  Formats (FinishFormat towlower Printf Variables Bindings T VarCount BufferEnd true (Some p) Cur) w
          (oapp V (Some [])).
Proof.
  intros HV Hl o Hw. pose proof Hw as (_ & Hp & HB).
  unfold FinishFormat. rewrite bind_gets, Hp. destruct (Nat.leb_spec (length w) BufferEnd) as [Hle|Hgt].
  - eapply Formats_handle; [done|done| |done]. intros v _. apply Formats_ok.
  - eexists _, _. split_and!; [done|done|]. right. split; [done|].
    intros out _. rewrite length_app. lia.
Qed.

(** Where a pointer to an older name may still point to. *)
Definition stale (vn : option nat) (Cur : nat) : Prop :=
  vn = None \/ exists p, vn = Some p /\ (p < Cur)%nat /\ head (drop p T) = Some PERCENT.

Lemma loop_cons iv vn Cur c rest w E :
  ((length w < BufferEnd)%nat ->
   Formats
     (if c =? PERCENT then
        if decide (vn = Some Cur) then write_char c ;;; loop false vn (S Cur) rest
        else
          Hr <- (match vn with Some _ => handle vn Cur BufferEnd | None => ret S_OK end) ;;
          if FAILED Hr then ret Hr else loop true (Some (S Cur)) (S Cur) rest
      else if iv && negb (iswalnum c) then
        Hr <- handle vn Cur BufferEnd ;;
        if FAILED Hr then ret Hr else write_char c ;;; loop false None (S Cur) rest
      else if negb iv then write_char c ;;; loop iv vn (S Cur) rest
      else loop iv vn (S Cur) rest) w E) ->
  Formats (loop iv vn Cur (c :: rest)) w E.
Proof. intros H. by apply Formats_full. Qed.

Lemma drop_next p l (c : Z) r : drop p l = c :: r -> drop (S p) l = r.
Proof. intros H. by rewrite <-Nat.add_1_r, <-drop_drop, H. Qed.

Lemma parse_char c t : c <> PERCENT -> parse iswalnum (c :: t) = Char c :: parse iswalnum t.
Proof. intros H. simp parse. by destruct (decide _). Qed.

Lemma parse_end : parse iswalnum [PERCENT] = [Variable_ []].
Proof. simp parse. cbn. by simp parse. Qed.

Lemma parse_percent t : parse iswalnum (PERCENT :: PERCENT :: t) = Percent :: parse iswalnum t.
Proof. simp parse. cbn. simp parse. simpl. done. Qed.

Lemma parse_variable d t : d <> PERCENT ->
  parse iswalnum (PERCENT :: d :: t) =
  Variable_ (span iswalnum (d :: t)) ::
  parse iswalnum (drop (length (span iswalnum (d :: t))) (d :: t)).
Proof. intros H. simp parse. simpl. by destruct (decide (d = PERCENT)). Qed.

(** In plain text, right after a percent sign, and within a name. *)
Definition text_ok (rest : list Z) : Prop := forall vn Cur w,
  stale vn Cur -> drop Cur T = rest -> (length w <= Size)%nat ->
  Formats (loop false vn Cur rest) w (expansion rest).
Definition percent_ok (rest : list Z) : Prop := forall Cur w,
  drop Cur T = rest -> (length w <= Size)%nat ->
  Formats (loop true (Some Cur) Cur rest) w (expansion (PERCENT :: rest)).
Definition name_ok (rest : list Z) : Prop := forall p name w,
  name <> [] -> alnums name -> drop p T = name ++ rest -> (length w <= Size)%nat ->
  Formats (loop true (Some p) (p + length name)%nat rest) w
    (oapp (value (Variable_ (name ++ span iswalnum rest)))
          (expansion (drop (length (span iswalnum rest)) rest))).

Lemma text_step c rest : text_ok rest -> percent_ok rest -> text_ok (c :: rest).
Proof.
  intros IHtext IHpercent.
  intros vn Cur w Hst HT Hl. apply loop_cons. intros Hlt. pose proof (drop_next _ _ _ _ HT) as HT'.
  destruct (Z.eqb_spec c PERCENT) as [->|Hc].
  - rewrite decide_False by (destruct Hst as [->|(p & -> & ? & _)]; [done|intros [=]; lia]).
    destruct Hst as [->|(p & -> & _ & Hp)]; [by apply IHpercent|].
    rewrite <-(oapp_nil (expansion _)).
    apply Formats_handle; [by apply stands_for_percent|lia|].
    intros v [= <-] _. rewrite app_nil_r. by apply IHpercent.
  - rewrite (parse_char _ _ Hc), expansion_cons. cbn [andb negb].
    apply Formats_char; [lia|]. apply IHtext; [|done|rewrite length_app; simpl; lia].
    destruct Hst as [->|(p & -> & ? & Hp)]; [by left|right; exists p; auto with lia].
Qed.

Lemma percent_step c rest : text_ok rest -> name_ok rest -> percent_ok (c :: rest).
Proof.
  intros IHtext IHname.
  intros Cur w HT Hl. apply loop_cons. intros Hlt. pose proof (drop_next _ _ _ _ HT) as HT'.
  destruct (Z.eqb_spec c PERCENT) as [->|Hc].
  - rewrite decide_True, parse_percent, expansion_cons by done.
    apply Formats_char; [lia|]. apply IHtext; [|done|rewrite length_app; simpl; lia].
    right. exists Cur. rewrite HT. auto with lia.
  - rewrite (parse_variable _ _ Hc), expansion_cons. cbn [span andb negb].
    destruct (iswalnum c) eqn:Hal; cbn [negb].
    + cbn [length drop]. rewrite <-Nat.add_1_r. by apply (IHname Cur [c]); [|constructor| |].
    + cbn [length drop]. rewrite (parse_char _ _ Hc), expansion_cons.
      apply Formats_handle; [|lia|].
      * rewrite <-(Nat.add_0_r Cur) at 2. by apply (stands_for_name Cur [] (c :: rest)).
      * intros v [= <-] _. rewrite app_nil_r. apply Formats_char; [lia|].
        apply IHtext; [by left|done|rewrite length_app; simpl; lia].
Qed.

Lemma name_step c rest : text_ok rest -> percent_ok rest -> name_ok rest -> name_ok (c :: rest).
Proof.
  intros IHtext IHpercent IHname.
  intros p name w Hne Ha HT Hl. apply loop_cons. intros Hlt.
  assert (0 < length name)%nat by (destruct name; [done|simpl; lia]).
  assert (drop (p + length name) T = c :: rest) as HTc.
  { by rewrite <-drop_drop, HT, drop_app_length. }
  pose proof (drop_next _ _ _ _ HTc) as HT'.
  assert (stands_for p (p + length name) (value (Variable_ name))) as Hv
    by (by eapply stands_for_name).
  destruct (Z.eqb_spec c PERCENT) as [->|Hc].
  - rewrite decide_False by (intros [=]; lia). cbn [span]. rewrite alnum_percent, app_nil_r.
    apply Formats_handle; [done|lia|]. intros v _ Hv'. apply IHpercent; [done|lia].
  - cbn [span andb negb]. destruct (iswalnum c) eqn:Hal; cbn [negb].
    + replace (S (p + length name)) with (p + length (name ++ [c]))%nat
         by (rewrite length_app; simpl; lia).
      cbn [length drop]. rewrite (app_cons_assoc name (span iswalnum rest)).
      apply IHname; [by destruct name|by apply Forall_app; split; [|constructor]| |done].
      by rewrite <-app_cons_assoc.
    + cbn [length drop]. rewrite (parse_char _ _ Hc), expansion_cons, app_nil_r.
      apply Formats_handle; [done|lia|]. intros v _ Hv'. apply Formats_char; [lia|].
      apply IHtext; [by left|done|rewrite length_app; simpl; lia].
Qed.

Lemma loop_spec rest : text_ok rest /\ percent_ok rest /\ name_ok rest.
Proof.
  induction rest as [|c rest (IHtext & IHpercent & IHname)].
  - split_and!.
    + intros vn Cur w _ _ Hl. simp parse. by apply Formats_finish.
    + intros Cur w HT Hl. rewrite parse_end. apply (Formats_finish_var _ _ _ (Some [])); [|done].
      rewrite <-(Nat.add_0_r Cur) at 2. by apply (stands_for_name Cur [] []).
    + intros p name w Hne Ha HT Hl. cbn [span length drop]. simp parse.
      apply Formats_finish_var; [|done]. rewrite app_nil_r in *.
      apply (stands_for_name p name []); [by rewrite app_nil_r|done|done].
  - split_and!; [by apply text_step|by apply percent_step|by apply name_step].
Qed.

Lemma FormatString_verdict B : VarCount <> 0%nat ->
  CdiagpIsStringValid (Some T) 1 MAXWORD false = true -> length B = Size ->
  exists Hr B', CdiagpFormatString towlower iswalnum Printf VarCount (Some Variables)
                  (Some Bindings) (Some T) Size (Some B) = Some (Hr, B') /\
    length B' = Size /\ verdict [] (expansion T) Hr B'.
Proof.
  intros HV HT HB. unfold CdiagpFormatString. rewrite decide_False by done. rewrite HT.
  cbn [negb]. rewrite decide_False by done. replace (Size - 1)%nat with BufferEnd by lia.
  destruct (loop_spec T) as [Htext _].
  destruct (Htext None 0%nat [] (or_introl eq_refl) (drop_0 T) ltac:(simpl; lia) (MkOutput B 0))
    as (Hr & o' & E & HB' & HV'); [by split_and!|].
  rewrite E. by exists Hr, (Buffer o').
Qed.
End loop.
End correctness.

(** The pieces of a template spell the template. *)
Lemma parse_spells iswalnum t : concat (spell_piece <$> parse iswalnum t) = t.
Proof.
  funelim (parse iswalnum t); simp parse; rewrite <-?Heqcall; cbn -[span]; try congruence.
  rewrite H. destruct (span_spec iswalnum (d :: t')) as (r & E & _). subst c. f_equal.
  remember (span iswalnum (d :: t')) as n0. rewrite E. by rewrite drop_app_length.
Qed.

(** C20. Formatting never writes outside of the output buffer.  For any template,
    any values and any size, the call returns, the block keeps its size, and the
    result is success or the code for a buffer that is too small: an untrusted
    template does no harm, as the header promises. *)
Theorem format_stays_in_buffer towlower iswalnum Printf Variables Bindings T Size B :
  (forall c, towlower c = 0 <-> c = 0) -> (forall c, iswalnum (towlower c) = iswalnum c) ->
  iswalnum 0 = false -> iswalnum PERCENT = false ->
  Forall (fun v => exists n N, Name v = n :: N /\ iswalnum n = true) Variables ->
  length Variables = length Bindings -> length B = Size ->
  exists Hr B', CdiagpFormatString towlower iswalnum Printf (length Variables) (Some Variables)
                  (Some Bindings) (Some T) Size (Some B) = Some (Hr, B') /\
    length B' = Size /\ (Hr = S_OK \/ Hr = CDIAG_E_BUFFER_TOO_SMALL \/ Hr = E_INVALIDARG).
Proof.
  intros H1 H2 H3 H4 HN HL HB.
  destruct (decide (length Variables = 0%nat)) as [H0|H0];
    [exists E_INVALIDARG, B; unfold CdiagpFormatString; rewrite H0; eauto|].
  destruct (CdiagpIsStringValid (Some T) 1 MAXWORD false) eqn:HT; last first.
  { exists E_INVALIDARG, B. unfold CdiagpFormatString. rewrite decide_False, HT by done. eauto. }
  destruct Size as [|BufferEnd].
  { exists E_INVALIDARG, B. unfold CdiagpFormatString. rewrite decide_False, HT by done. eauto. }
  destruct (FormatString_verdict towlower iswalnum Printf H1 H2 H3 H4 BufferEnd Variables Bindings T
              (length Variables)) with B as (Hr & B' & E & HB' & HV); try done.
  { unfold CdiagpIsStringValid in HT. lia. }
  exists Hr, B'. split_and!; [done|done|]. destruct HV as [[-> _]|[-> _]]; auto.
Qed.

(** C21. Formatting is the documented expansion of the template's pieces:
    characters stand for themselves, [%%] for a percent sign, a variable for its
    formatted value, an unknown variable for nothing.  A successful call leaves
    exactly the expansion and its terminator in the buffer, and every buffer
    with room for one character more than that is large enough. *)
Theorem format_expands_pieces towlower iswalnum Printf Variables Bindings T Size B Hr B' :
  (forall c, towlower c = 0 <-> c = 0) -> (forall c, iswalnum (towlower c) = iswalnum c) ->
  iswalnum 0 = false -> iswalnum PERCENT = false ->
  Forall (fun v => exists n N, Name v = n :: N /\ iswalnum n = true) Variables ->
  Variables <> [] -> length Variables = length Bindings -> length B = Size -> (0 < Size)%nat ->
  CdiagpIsStringValid (Some T) 1 MAXWORD false = true ->
  CdiagpFormatString towlower iswalnum Printf (length Variables) (Some Variables)
    (Some Bindings) (Some T) Size (Some B) = Some (Hr, B') ->
  let text := expand towlower Printf Variables Bindings (parse iswalnum T) in
  (Hr = S_OK -> exists out, text = Some out /\ (length out < Size)%nat /\
                            take (S (length out)) B' = out ++ [0]) /\
  (forall out, text = Some out -> (S (length out) < Size)%nat -> Hr = S_OK) /\
  concat (spell_piece <$> parse iswalnum T) = T.
Proof.
  intros H1 H2 H3 H4 HN HV HL HB HS HT E text. destruct Size as [|BufferEnd]; [lia|].
  destruct (FormatString_verdict towlower iswalnum Printf H1 H2 H3 H4 BufferEnd Variables Bindings T
              (length Variables)) with B as (Hr1 & B1 & E1 & HB1 & HV1); try done.
  { unfold CdiagpIsStringValid in HT. lia. }
  { by destruct Variables. }
  rewrite E in E1. injection E1 as <- <-. split_and!; [| |apply parse_spells].
  - intros ->. destruct HV1 as [(_ & out & Ht & Hlt & HB')|[[=] _]]. exists out.
    cbn [app] in *. rewrite length_app, Nat.add_1_r in HB'. by split_and!.
  - intros out Ht Hlt. destruct HV1 as [[-> _]|[_ Hsm]]; [done|].
    specialize (Hsm out Ht). cbn [app] in Hsm. lia.
Qed.

Module Demo.

(** The "C" locale. *)
Definition in_range (a b c : Z) : bool := (a <=? c) && (c <=? b).
Definition lower (c : Z) : Z := if in_range 65 90 c then c + 32 else c.
Definition alnum (c : Z) : bool := in_range 48 57 c || in_range 65 90 c || in_range 97 122 c.

(** "%s" with a string that is named by a number, or "%x" with a single digit. *)
Definition print (f : list Z) (arg : Z) : option (list Z) :=
  if decide (f = [37; 115]) then
    Some (if arg =? 1 then [113; 117; 105; 99; 107] else [98; 114; 111; 119; 110])
  else Some [48 + arg].

(** Var1, Var2 and Foo, as in cdiagp.h; "quick", "brown" and 7. *)
Definition vars : list FORMAT_VARIABLE :=
  [ {| Name := [86; 97; 114; 49]; Format := [37; 115] |};
    {| Name := [86; 97; 114; 50]; Format := [37; 115] |};
    {| Name := [70; 111; 111]; Format := [37; 120] |} ].
Definition binds : list Z := [1; 2; 7].

(** "%Var1-%var2 %Fox%% %Foo (%Bar)" *)
Definition template : list Z :=
  [37; 86; 97; 114; 49; 45; 37; 118; 97; 114; 50; 32; 37; 70; 111; 120; 37; 37; 32;
   37; 70; 111; 111; 32; 40; 37; 66; 97; 114; 41].

(** "quick-brown % 7 ()" *)
Example documented_template :
  expand lower print vars binds (parse alnum template) =
  Some [113; 117; 105; 99; 107; 45; 98; 114; 111; 119; 110; 32; 37; 32; 55; 32; 40; 41].
Proof. vm_compute. reflexivity. Qed.

(** A name stands for the first variable it abbreviates: "%Va" is Var1. *)
Example abbreviation :
  CdiagpFormatString lower alnum print 3 (Some vars) (Some binds) (Some [37; 86; 97]) 8
    (Some (replicate 8 1)) = Some (S_OK, [113; 117; 105; 99; 107; 0; 1; 1]).
Proof. vm_compute. reflexivity. Qed.

(** A buffer that the text fills exactly is refused if the template goes on. *)
Example exact_size :
  CdiagpFormatString lower alnum print 3 (Some vars) (Some binds) (Some [65; 37; 66; 97; 114]) 2
    (Some [1; 1]) = Some (CDIAG_E_BUFFER_TOO_SMALL, [65; 1]).
Proof. vm_compute. reflexivity. Qed.

Lemma lower_nul c : lower c = 0 <-> c = 0.
Proof. unfold lower, in_range. destruct (Z.leb_spec 65 c), (Z.leb_spec c 90); simpl; lia. Qed.

Lemma lower_alnum c : alnum (lower c) = alnum c.
Proof. unfold alnum, lower, in_range. destruct (Z.leb_spec 65 c), (Z.leb_spec c 90); simpl; lia. Qed.

Lemma vars_ok : Forall (fun v => exists n N, Name v = n :: N /\ alnum n = true) vars.
Proof. repeat constructor; by eexists _, _. Qed.

Lemma format_stays_in_buffer_witness : exists Hr B',
  CdiagpFormatString lower alnum print 3 (Some vars) (Some binds) (Some template) 9
    (Some (replicate 9 1)) = Some (Hr, B') /\ length B' = 9%nat /\
  (Hr = S_OK \/ Hr = CDIAG_E_BUFFER_TOO_SMALL \/ Hr = E_INVALIDARG).
Proof.
  apply (format_stays_in_buffer lower alnum print vars binds template 9 (replicate 9 1));
    auto using lower_nul, lower_alnum, vars_ok.
Defined.

Lemma format_expands_pieces_witness :
  exists B', CdiagpFormatString lower alnum print 3 (Some vars) (Some binds) (Some template) 20
               (Some (replicate 20 1)) = Some (S_OK, B') /\
  (exists out, expand lower print vars binds (parse alnum template) = Some out /\
               take (S (length out)) B' = out ++ [0]).
Proof.
  assert (exists B', CdiagpFormatString lower alnum print 3 (Some vars) (Some binds) (Some template) 20
               (Some (replicate 20 1)) = Some (S_OK, B')) as [B' E]
    by (vm_compute; eexists; reflexivity).
  exists B'. split; [exact E|].
  destruct (format_expands_pieces lower alnum print vars binds template 20 (replicate 20 1) S_OK B'
    lower_nul lower_alnum eq_refl eq_refl vars_ok ltac:(discriminate) eq_refl eq_refl ltac:(lia)
    ltac:(vm_compute; reflexivity) E) as ((out & Ht & _ & HB) & _ & _); [reflexivity|].
  exists out. split; assumption.
Defined.
End Demo.
