(* ===== verification/MsgResolver.v ===== *)
(** * The message resolver (cdiag/msgresolver.c)

    Registered DLLs are records on a ring of [LinkedList]; the address of a
    record is that of its [ListEntry], its first member.  The loader and
    [FormatMessage] are parameters. *)
From stdpp Require Import base gmap list.
From Stdlib Require Import ZArith Lia.
From S2P Require Import Prelude LinkedList FormatStr.

(* src/include/cdiagmsg.h:92-110 (CDIAG_E_DLL_NOT_REGISTERED) *)
Definition CDIAG_E_DLL_NOT_REGISTERED : Z := 0x80048103.
Definition CDIAG_E_UNKNOWN_MESSAGE : Z := 0x80048104.
Definition CDIAG_E_ALREADY_REGISTERED : Z := 0x80048105.
Definition STRSAFE_E_INSUFFICIENT_BUFFER : Z := 0x8007007A.
Definition ERROR_INSUFFICIENT_BUFFER : Z := 122.
Definition ERROR_MORE_DATA : Z := 234.

(* src/include/cdiag.h:394-399 (CDIAG_MSGRES_RESOLVE_IGNORE_INSERTS) *)
Definition CDIAG_MSGRES_REGISTER_EXPLICIT_PATH : Z := 1.
Definition CDIAG_MSGRES_RESOLVE_IGNORE_INSERTS : Z := 1.
Definition CDIAG_MSGRES_NO_SYSTEM : Z := 2.
Definition CDIAG_MSGRES_FALLBACK_TO_DEFAULT : Z := 4.
Definition CDIAG_MSGRES_STRIP_NEWLINES : Z := 8.

(* src/cdiag/cdiag/msgresolver.c:36-42 (MAX_DLLNAME) *)
Definition MAX_DLLNAME : nat := 64.
Definition MAX_MESSAGE_CCH : Z := 0xFFFF.
Definition CDIAGP_RESOLVER_ALL_FLAGS : Z := 15.
Definition MAX_PATH : nat := 260.

(** [StringCchCopy]: a string that does not fit is cut off. *)
Definition StringCchCopy (cch : nat) (src : list Z) : Z * list Z :=
  if decide (length src < cch)%nat then (S_OK, src)
  else (STRSAFE_E_INSUFFICIENT_BUFFER, take (cch - 1) src).

(** The record without its list entry. *)
(* src/cdiag/cdiag/msgresolver.c:64-78 (REGISTERED_DLL) *)
Record REGISTERED_DLL := MkDll { DllName : list Z; Module : Z }.

(** The resolver and the memory behind it; [Loads] are the references on modules
    that have been taken and not given back. *)
(* src/cdiag/cdiag/msgresolver.c:44-62 (CDIAGP_RESOLVER) *)
Record RESOLVER := MkResolver {
  Links : HEAP;
  Dlls : gmap Z REGISTERED_DLL;
  Loads : list Z;
  ReferenceCount : Z;
  Live : bool }.

Definition set_Links (h : HEAP) (s : RESOLVER) := MkResolver h (Dlls s) (Loads s) (ReferenceCount s) (Live s).
Definition set_Dlls (m : gmap Z REGISTERED_DLL) (s : RESOLVER) := MkResolver (Links s) m (Loads s) (ReferenceCount s) (Live s).
Definition set_Loads (l : list Z) (s : RESOLVER) := MkResolver (Links s) (Dlls s) l (ReferenceCount s) (Live s).
Definition set_ReferenceCount (c : Z) (s : RESOLVER) := MkResolver (Links s) (Dlls s) (Loads s) c (Live s).
Definition set_Live (b : bool) (s : RESOLVER) := MkResolver (Links s) (Dlls s) (Loads s) (ReferenceCount s) b.

Local Abbreviation M := (ST RESOLVER).

Definition on_links {A} (m : ST HEAP A) : M A :=
  fun s => match m (Links s) with Some (a, h) => Some (a, set_Links h s) | None => None end.

Definition load_dll (RegDll : Z) : M REGISTERED_DLL :=
  fun s => match Dlls s !! RegDll with Some d => Some (d, s) | None => None end.

Definition store_dll (RegDll : Z) (d : REGISTERED_DLL) : M unit :=
  fun s => match Dlls s !! RegDll with
           | Some _ => Some (tt, set_Dlls (<[RegDll := d]> (Dlls s)) s)
           | None => None
           end.

Fixpoint remove_one (m : Z) (l : list Z) : list Z :=
  match l with [] => [] | x :: l => if decide (x = m) then l else x :: remove_one m l end.

(** Giving a reference on a module back. *)
Definition FreeLibrary (m : Z) : M unit := modify (fun s => set_Loads (remove_one m (Loads s)) s).

Section msgresolver.
(** The address of the list head; [_wcsicmp] compares strings mapped to lower
    case; the loader gives a module (0 for an error) or an error code; the name
    portion of a path. *)
Context (Head : Z) (towlower : Z -> Z).
Context (LoadLibrary : bool -> list Z -> Z) (LoadError : bool -> list Z -> Z).
Context (PathStripPath : list Z -> list Z).

(** Zeroed memory for a record, or 0. *)
Context (Malloc : M Z).

Definition same_name (a b : list Z) : bool := bool_decide (towlower <$> a = towlower <$> b).

(* src/cdiag/cdiag/msgresolver.c:105-116 (CdiagsFindRegisteredDll) *)
Fixpoint find_dll (fuel : nat) (Name : list Z) (Entry : Z) : M Z :=
  match fuel with
  | O => fault
  | S fuel =>
      if Entry =? Head then ret 0 else
      RegDll <- load_dll Entry ;;
      if same_name Name (DllName RegDll) then ret Entry else
      Next <- on_links (load_Flink Entry) ;;
      find_dll fuel Name Next
  end.

(** No ring has more elements than there are cells. *)
Definition ring_fuel (s : RESOLVER) : nat := S (size (Links s)).

(* src/cdiag/cdiag/msgresolver.c:95-119 (CdiagsFindRegisteredDll) *)
Definition CdiagsFindRegisteredDll (Name : list Z) : M Z :=
  first <- on_links (load_Flink Head) ;;
  fuel <- gets ring_fuel ;;
  find_dll fuel Name first.

(* src/cdiag/cdiag/msgresolver.c:121-138 (CdiagsDeleteRegisteredDllEntry) *)
Definition CdiagsDeleteRegisteredDllEntry (RegDll : Z) : M unit :=
  d <- load_dll RegDll ;;
  (if Module d =? 0 then ret tt else FreeLibrary (Module d)) ;;;
  f <- on_links (load_Flink RegDll) ;;
  b <- on_links (load_Blink RegDll) ;;
  (if negb (f =? 0) && negb (b =? 0) then on_links (RemoveEntryList RegDll) ;;; ret tt else ret tt) ;;;
  modify (fun s => set_Dlls (delete RegDll (Dlls s)) s).

(** [LoadLibraryEx] and [LoadLibrary]: a module that is loaded is held. *)
Definition Load (explicit : bool) (Name : list Z) : M Z :=
  let m := LoadLibrary explicit Name in
  (if m =? 0 then ret tt else modify (fun s => set_Loads (m :: Loads s) s)) ;;;
  ret m.

(** The two ways to fill the name of the record in. *)
(* src/cdiag/cdiag/msgresolver.c:232-292 (CdiagsRegisterMessageDll) *)
Definition FillRegisteredDll (RegDll : Z) (explicit : bool) (Name : list Z) : M Z :=
  let tmp := if explicit then StringCchCopy MAX_PATH Name else (S_OK, Name) in
  if FAILED (fst tmp) then ret (fst tmp) else
  let n := StringCchCopy MAX_DLLNAME (if explicit then PathStripPath (snd tmp) else Name) in
  store_dll RegDll (MkDll (snd n) 0) ;;;
  if FAILED (fst n) then ret (fst n) else
  m <- Load explicit Name ;;
  store_dll RegDll (MkDll (snd n) m) ;;;
  if m =? 0 then ret (HRESULT_FROM_WIN32 (LoadError explicit Name)) else
  Found <- CdiagsFindRegisteredDll Name ;;
  if negb (Found =? 0) then ret CDIAG_E_ALREADY_REGISTERED
  else on_links (InsertTailList Head RegDll) ;;; ret S_OK.

(* src/cdiag/cdiag/msgresolver.c:201-304 (CdiagsRegisterMessageDll) *)
Definition CdiagsRegisterMessageDll (Name : option (list Z)) (Flags Priority : Z) : M Z :=
  if negb (CdiagpIsStringValid Name 5 (Z.of_nat MAX_PATH) false) ||
     (negb (Flags =? 0) && negb (Flags =? CDIAG_MSGRES_REGISTER_EXPLICIT_PATH)) ||
     negb (Priority =? 0)
  then ret E_INVALIDARG else
  RegDll <- Malloc ;;
  if RegDll =? 0 then ret E_OUTOFMEMORY else
  Hr <- FillRegisteredDll RegDll (FlagOn Flags CDIAG_MSGRES_REGISTER_EXPLICIT_PATH) (default [] Name) ;;
  (if FAILED Hr then CdiagsDeleteRegisteredDllEntry RegDll else ret tt) ;;;
  ret Hr.

(* src/cdiag/cdiag/msgresolver.c:306-342 (CdiagsUnregisterMessageDll) *)
Definition CdiagsUnregisterMessageDll (Name : option (list Z)) : M Z :=
  if negb (CdiagpIsStringValid Name 5 (Z.of_nat MAX_DLLNAME - 1) false) then ret E_INVALIDARG else
  RegDll <- CdiagsFindRegisteredDll (default [] Name) ;;
  if RegDll =? 0 then ret CDIAG_E_DLL_NOT_REGISTERED
  else CdiagsDeleteRegisteredDllEntry RegDll ;;; ret S_OK.

(** *** The life of a resolver *)

(** The successor is read before an entry is deleted. *)
(* src/cdiag/cdiag/msgresolver.c:546-555 (CdiagsDeleteResolver) *)
Fixpoint delete_dlls (fuel : nat) (Entry : Z) : M unit :=
  match fuel with
  | O => fault
  | S fuel =>
      if Entry =? Head then ret tt else
      Next <- on_links (load_Flink Entry) ;;
      CdiagsDeleteRegisteredDllEntry Entry ;;;
      delete_dlls fuel Next
  end.

(* src/cdiag/cdiag/msgresolver.c:532-568 (CdiagsDeleteResolver) *)
Definition CdiagsDeleteResolver : M Z :=
  first <- on_links (load_Flink Head) ;;
  fuel <- gets ring_fuel ;;
  delete_dlls fuel first ;;;
  modify (set_Live false) ;;;
  ret S_OK.

(* src/cdiag/cdiag/msgresolver.c:570-578 (CdiagsReferenceResolver) *)
Definition CdiagsReferenceResolver : M unit :=
  modify (fun s => set_ReferenceCount (LONG (ReferenceCount s + 1)) s).

(* src/cdiag/cdiag/msgresolver.c:580-592 (CdiagsDereferenceResolver) *)
Definition CdiagsDereferenceResolver : M unit :=
  modify (fun s => set_ReferenceCount (LONG (ReferenceCount s - 1)) s) ;;;
  c <- gets ReferenceCount ;;
  if c =? 0 then CdiagsDeleteResolver ;;; ret tt else ret tt.

(** [Alloc]: whether there is memory for the object. *)
(* src/cdiag/cdiag/msgresolver.c:600-639 (CdiagCreateMessageResolver) *)
Definition CdiagCreateMessageResolver (MessageResolver : Z) (Alloc : bool) : M Z :=
  if MessageResolver =? 0 then ret E_INVALIDARG else
  if negb Alloc then ret E_OUTOFMEMORY else
  modify (set_ReferenceCount 1) ;;;
  modify (set_Live true) ;;;
  on_links (InitializeListHead Head) ;;;
  ret S_OK.

(** ** The registered DLLs as a list *)

(** The records along the ring. *)
Definition entries (Ds : gmap Z REGISTERED_DLL) (xs : list Z) : list REGISTERED_DLL :=
  omap (fun E => Ds !! E) xs.

Definition held (d : REGISTERED_DLL) : list Z := if Module d =? 0 then [] else [Module d].

(** The ring [xs]; every record but those of [extra] is on it; every module of a
    record is held, once for each record. *)
Record rings (s : RESOLVER) (xs extra : list Z) : Prop := {
  rg_dll : dll (Links s) Head xs;
  rg_zero : 0 ∉ Head :: xs;
  rg_recs : forall E, is_Some (Dlls s !! E) <-> E ∈ extra ++ xs;
  rg_nodup : NoDup (extra ++ xs);
  rg_loads : Loads s ≡ₚ entries (Dlls s) (extra ++ xs) ≫= held }.

(** A resolver and the registrations it stands for. *)
Definition resolver_ok (s : RESOLVER) (l : list REGISTERED_DLL) : Prop :=
  exists xs, rings s xs [] /\ entries (Dlls s) xs = l /\ Forall (fun d => Module d <> 0) l.

(** The first registration with a name. *)
Definition named (Name : list Z) (d : REGISTERED_DLL) : bool := same_name Name (DllName d).

Fixpoint remove_named (Name : list Z) (l : list REGISTERED_DLL) : list REGISTERED_DLL :=
  match l with
  | [] => []
  | d :: l => if named Name d then l else d :: remove_named Name l
  end.

Lemma entries_app Ds xs ys : entries Ds (xs ++ ys) = entries Ds xs ++ entries Ds ys.
Proof. apply omap_app. Qed.

Lemma entries_insert Ds xs E d : E ∉ xs -> entries (<[E := d]> Ds) xs = entries Ds xs.
Proof.
  intros HE. induction xs as [|x xs IH]; [done|]. apply not_elem_of_cons in HE as [Hx HE].
  simpl. by rewrite lookup_insert_ne, IH.
Qed.

Lemma entries_delete Ds xs E : E ∉ xs -> entries (delete E Ds) xs = entries Ds xs.
Proof.
  intros HE. induction xs as [|x xs IH]; [done|]. apply not_elem_of_cons in HE as [Hx HE].
  simpl. by rewrite lookup_delete_ne, IH.
Qed.

Lemma remove_one_perm m l : m ∈ l -> l ≡ₚ m :: remove_one m l.
Proof.
  induction l as [|x l IH]; [by intros ?%not_elem_of_nil|]. intros Hin. simpl.
  destruct (decide (x = m)) as [->|Hne]; [done|].
  apply elem_of_cons in Hin as [->|Hin]; [done|]. rewrite (IH Hin) at 1. constructor.
Qed.

(** What the walk along the ring finds. *)
Fixpoint first_named (Ds : gmap Z REGISTERED_DLL) (Name : list Z) (xs : list Z) : option Z :=
  match xs with
  | [] => None
  | E :: xs => match Ds !! E with
               | Some d => if named Name d then Some E else first_named Ds Name xs
               | None => first_named Ds Name xs
               end
  end.

Lemma first_named_split Ds Name xs E : first_named Ds Name xs = Some E ->
  exists xs1 xs2 d, xs = xs1 ++ E :: xs2 /\ Ds !! E = Some d /\
    existsb (named Name) (entries Ds xs) = true /\
    remove_named Name (entries Ds xs) = entries Ds (xs1 ++ xs2).
Proof.
  induction xs as [|x xs IH]; [done|]. simpl. destruct (Ds !! x) as [d|] eqn:Hx.
  - destruct (named Name d) eqn:Hn.
    + intros [= <-]. exists [], xs, d. simpl. by rewrite Hn.
    + intros (xs1 & xs2 & d' & -> & HE & Hex & Hrm)%IH. exists (x :: xs1), xs2, d'.
      simpl. rewrite Hx, Hn. by split_and!; [| | |f_equal].
  - intros (xs1 & xs2 & d' & -> & HE & Hex & Hrm)%IH. exists (x :: xs1), xs2, d'. simpl. by rewrite Hx.
Qed.

Lemma first_named_none Ds Name xs : first_named Ds Name xs = None ->
  existsb (named Name) (entries Ds xs) = false /\ remove_named Name (entries Ds xs) = entries Ds xs.
Proof.
  induction xs as [|x xs IH]; [done|]. simpl. destruct (Ds !! x) as [d|]; [|done].
  simpl. destruct (named Name d); [done|]. intros [H1 H2]%IH. split; [done|by f_equal].
Qed.

Lemma on_links_read {A} (m : ST HEAP A) s a : m (Links s) = Some (a, Links s) -> on_links m s = Some (a, s).
Proof. unfold on_links. intros ->. by destruct s. Qed.

Lemma on_links_eq {A} (m : ST HEAP A) s a h : m (Links s) = Some (a, h) -> on_links m s = Some (a, set_Links h s).
Proof. unfold on_links. by intros ->. Qed.

Lemma load_dll_eq s E d : Dlls s !! E = Some d -> load_dll E s = Some (d, s).
Proof. unfold load_dll. by intros ->. Qed.

Lemma find_dll_spec Name s todo : forall done_ fuel,
  dll (Links s) Head (done_ ++ todo) -> (forall E, E ∈ todo -> is_Some (Dlls s !! E)) ->
  (length todo < fuel)%nat ->
  find_dll fuel Name (default Head (hd_error todo)) s =
    Some (default 0 (first_named (Dlls s) Name todo), s).
Proof.
  induction todo as [|E todo IH]; intros done_ fuel Hd HD Hf;
    (destruct fuel as [|fuel]; [simpl in Hf; lia|]); cbn [find_dll hd_error default from_option id].
  - by rewrite Z.eqb_refl.
  - assert (E <> Head) as Hne by (apply dll_head_notin in Hd; set_solver).
    rewrite (proj2 (Z.eqb_neq _ _) Hne). destruct (HD E) as [d HE]; [by left|].
    rewrite (bind_eq _ _ _ _ _ (load_dll_eq _ _ _ HE)). cbn [first_named]. rewrite HE.
    change (same_name Name (DllName d)) with (named Name d). destruct (named Name d); [done|].
    rewrite (bind_eq _ _ _ _ _ (on_links_read _ s _ (dll_next _ _ _ _ _ Hd))).
    apply (IH (done_ ++ [E])); [by rewrite <-app_assoc|set_solver|simpl in Hf; lia].
Qed.

Lemma Find_spec Name s xs extra : rings s xs extra ->
  CdiagsFindRegisteredDll Name s = Some (default 0 (first_named (Dlls s) Name xs), s).
Proof.
  intros HR. pose proof (rg_dll _ _ _ HR) as Hd. unfold CdiagsFindRegisteredDll.
  rewrite (bind_eq _ _ _ _ _ (on_links_read _ s _ (dll_first _ _ _ Hd))), bind_gets.
  apply (find_dll_spec Name s xs []); [done| |].
  - intros E HE. apply (rg_recs _ _ _ HR). set_solver.
  - pose proof (dll_length _ _ _ Hd). unfold ring_fuel. lia.
Qed.

(** *** Deleting a record *)
Lemma release_eq d s rest : Loads s ≡ₚ held d ++ rest ->
  exists l, l ≡ₚ rest /\ forall A (k : unit -> M A),
    bind (if Module d =? 0 then ret tt else FreeLibrary (Module d)) k s = k tt (set_Loads l s).
Proof.
  unfold held. destruct (Z.eqb_spec (Module d) 0); intros Hl.
  - exists (Loads s). split; [done|]. intros A k. rewrite bind_ret. by destruct s.
  - exists (remove_one (Module d) (Loads s)). split; [|done].
    assert (Module d ∈ Loads s) as Hin by (rewrite Hl; set_solver).
    rewrite (remove_one_perm _ _ Hin) in Hl. by apply Permutation_cons_inv in Hl.
Qed.

Lemma entries_remove Ds xs1 E d xs2 : Ds !! E = Some d -> NoDup (xs1 ++ E :: xs2) ->
  entries Ds (xs1 ++ E :: xs2) ≡ₚ d :: entries (delete E Ds) (xs1 ++ xs2) /\
  entries (delete E Ds) (xs1 ++ xs2) = entries Ds (xs1 ++ xs2).
Proof.
  intros HE Hnd. apply NoDup_app in Hnd as (_ & H1 & Hnd). apply NoDup_cons in Hnd as [H2 _].
  assert (E ∉ xs1 ++ xs2) as Hni by set_solver.
  split; [|by apply entries_delete]. rewrite (entries_delete _ _ _ Hni), !entries_app. simpl.
  rewrite HE. by rewrite <-Permutation_middle.
Qed.

(** The records after one of them, [E], is gone from the heap. *)
Lemma rings_gone s h l xs xs1 xs2 E d :
  rings s xs [] -> xs = xs1 ++ E :: xs2 -> Dlls s !! E = Some d ->
  dll h Head (xs1 ++ xs2) -> l ≡ₚ entries (delete E (Dlls s)) (xs1 ++ xs2) ≫= held ->
  rings (MkResolver h (delete E (Dlls s)) l (ReferenceCount s) (Live s)) (xs1 ++ xs2) [].
Proof.
  intros HR -> HE Hd Hl. pose proof (rg_nodup _ _ _ HR) as Hnd. simpl in Hnd. split; simpl; try done.
  - intros H0. apply (rg_zero _ _ _ HR). set_solver.
  - intros E'. pose proof (rg_recs _ _ _ HR E') as Hr. simpl in Hr.
    apply NoDup_app in Hnd as (_ & H1 & Hnd). apply NoDup_cons in Hnd as [H2 _].
    destruct (decide (E' = E)) as [->|Hne].
    + rewrite lookup_delete_eq. split; [by intros [? [=]]|set_solver].
    + rewrite lookup_delete_ne by done. rewrite Hr. set_solver.
  - by apply dll_NoDup in Hd.
Qed.

Lemma delete_linked s xs1 E xs2 d : rings s (xs1 ++ E :: xs2) [] -> Dlls s !! E = Some d ->
  exists s', CdiagsDeleteRegisteredDllEntry E s = Some (tt, s') /\ rings s' (xs1 ++ xs2) [] /\
    Dlls s' = delete E (Dlls s) /\ Live s' = Live s /\ ReferenceCount s' = ReferenceCount s /\
    size (Links s') = size (Links s).
Proof.
  intros HR HE. pose proof (rg_dll _ _ _ HR) as Hd. unfold CdiagsDeleteRegisteredDllEntry.
  rewrite (bind_eq _ _ _ _ _ (load_dll_eq _ _ _ HE)).
  destruct (entries_remove (Dlls s) xs1 E d xs2 HE (rg_nodup _ _ _ HR)) as [Hp Hsame].
  pose proof (rg_loads _ _ _ HR) as Hl. simpl in Hl. rewrite Hp in Hl. simpl in Hl.
  destruct (release_eq d s _ Hl) as (l & Hl' & ->).
  destruct (dll_split _ _ _ _ _ Hd) as (p & n & Hpl & Hnh & [_ Lb] & [Lf _]).
  assert (n <> 0 /\ p <> 0) as [Hn Hpn].
  { pose proof (rg_zero _ _ _ HR) as H0. apply last_cons_in in Hpl. apply hd_app_in in Hnh.
    split; intros ->; apply H0; set_solver. }
  rewrite (bind_eq _ _ _ _ _ (on_links_read _ (set_Loads l s) _ (load_Flink_spec _ _ _ Lf))).
  rewrite (bind_eq _ _ _ _ _ (on_links_read _ (set_Loads l s) _ (load_Blink_spec _ _ _ Lb))).
  rewrite !(proj2 (Z.eqb_neq _ _)) by done. cbn [negb andb].
  destruct (RemoveEntryList_spec _ _ _ _ _ Hd) as (h & E1 & Hd' & [Hdom _] & _).
  rewrite bind_assoc, (bind_eq _ _ _ _ _ (on_links_eq _ (set_Loads l s) _ _ E1)), bind_ret.
  eexists. split; [reflexivity|]. simpl. split_and!; try done.
  - by eapply (rings_gone s h l).
  - rewrite <-!size_dom. f_equal. apply set_eq. intros q. rewrite !elem_of_dom. apply Hdom.
Qed.

Lemma delete_unlinked s xs E d :
  rings s xs [E] -> Dlls s !! E = Some d -> Links s !! E = Some (MkLink 0 0) ->
  exists s', CdiagsDeleteRegisteredDllEntry E s = Some (tt, s') /\ rings s' xs [] /\
    Dlls s' = delete E (Dlls s) /\ Live s' = Live s /\ ReferenceCount s' = ReferenceCount s.
Proof.
  intros HR HE HL. unfold CdiagsDeleteRegisteredDllEntry.
  rewrite (bind_eq _ _ _ _ _ (load_dll_eq _ _ _ HE)).
  pose proof (rg_nodup _ _ _ HR) as Hnd. simpl in Hnd. apply NoDup_cons in Hnd as [Hni Hnd].
  pose proof (rg_loads _ _ _ HR) as Hl. simpl in Hl. rewrite HE in Hl. simpl in Hl.
  destruct (release_eq d s _ Hl) as (l & Hl' & ->).
  assert (flk (Links s) E = Some 0 /\ blk (Links s) E = Some 0) as [Lf Lb]
    by (unfold flk, blk; by rewrite HL).
  rewrite (bind_eq _ _ _ _ _ (on_links_read _ (set_Loads l s) _ (load_Flink_spec _ _ _ Lf))).
  rewrite (bind_eq _ _ _ _ _ (on_links_read _ (set_Loads l s) _ (load_Blink_spec _ _ _ Lb))).
  cbn [Z.eqb negb andb]. rewrite bind_ret. eexists. split; [reflexivity|]. simpl.
  split_and!; try done. split; simpl; try apply HR; try done.
  - intros E'. pose proof (rg_recs _ _ _ HR E') as Hr. simpl in Hr.
    destruct (decide (E' = E)) as [->|Hne].
    + rewrite lookup_delete_eq. split; [by intros [? [=]]|done].
    + rewrite lookup_delete_ne by done. rewrite Hr. set_solver.
  - by rewrite entries_delete.
Qed.

(** *** Registering *)

(** What the allocator and the loader promise. *)
Definition allocates_record : Prop := forall s,
  Malloc s = Some (0, s) \/
  exists E, E <> 0 /\ E <> Head /\ Dlls s !! E = None /\
    Malloc s = Some (E, MkResolver (<[E := MkLink 0 0]> (Links s)) (<[E := MkDll [] 0]> (Dlls s))
                          (Loads s) (ReferenceCount s) (Live s)).
Definition has_errors : Prop := forall e n, LoadError e n <> 0.
Context (Malloc_ok : allocates_record) (Errors_ok : has_errors).

(** The same on the list of registrations. *)
Definition stored_name (explicit : bool) (Name : list Z) : list Z :=
  if explicit then PathStripPath Name else Name.

Definition register (l : list REGISTERED_DLL) (explicit : bool) (Name : list Z) : Z * list REGISTERED_DLL :=
  let m := LoadLibrary explicit Name in
  if explicit && negb (bool_decide (length Name < MAX_PATH)%nat) then (STRSAFE_E_INSUFFICIENT_BUFFER, l)
  else if negb (bool_decide (length (stored_name explicit Name) < MAX_DLLNAME)%nat)
  then (STRSAFE_E_INSUFFICIENT_BUFFER, l)
  else if m =? 0 then (HRESULT_FROM_WIN32 (LoadError explicit Name), l)
  else if existsb (named Name) l then (CDIAG_E_ALREADY_REGISTERED, l)
  else (S_OK, l ++ [MkDll (stored_name explicit Name) m]).

(** A record [E] of [d] that is not on the ring yet. *)
Record in_flight (s : RESOLVER) (xs : list Z) (E : Z) (d : REGISTERED_DLL) (l : list REGISTERED_DLL) : Prop := {
  fl_rings : rings s xs [E];
  fl_links : Links s !! E = Some (MkLink 0 0);
  fl_rec : Dlls s !! E = Some d;
  fl_zero : E <> 0 /\ E <> Head;
  fl_entries : entries (Dlls s) xs = l }.

Lemma in_flight_notin s xs E d l : in_flight s xs E d l -> E ∉ xs.
Proof. intros H. pose proof (rg_nodup _ _ _ (fl_rings _ _ _ _ _ H)) as Hn. by apply NoDup_cons in Hn as [? _]. Qed.

Lemma in_flight_store s xs E d0 d l : in_flight s xs E d0 l -> Module d0 = 0 ->
  in_flight (MkResolver (Links s) (<[E := d]> (Dlls s)) (held d ++ Loads s) (ReferenceCount s) (Live s))
    xs E d l.
Proof.
  intros H H0. pose proof (in_flight_notin _ _ _ _ _ H) as Hni. destruct H as [HR HL HE HZ Hl].
  split; simpl; try done; [|by rewrite lookup_insert_eq|by rewrite entries_insert].
  split; simpl; try apply HR.
  - intros E'. pose proof (rg_recs _ _ _ HR E') as Hr. simpl in Hr.
    destruct (decide (E' = E)) as [->|Hne]; [|by rewrite lookup_insert_ne].
    rewrite lookup_insert_eq. split; [set_solver|by eexists].
  - rewrite lookup_insert_eq. simpl. rewrite entries_insert by done.
    pose proof (rg_loads _ _ _ HR) as Hlo. simpl in Hlo. rewrite HE in Hlo. simpl in Hlo.
    unfold held in Hlo at 1. rewrite H0 in Hlo. by rewrite Hlo.
Qed.

Lemma in_flight_link s xs E d l : in_flight s xs E d l ->
  exists h, on_links (InsertTailList Head E) s = Some (tt, set_Links h s) /\
            rings (set_Links h s) (xs ++ [E]) [] /\ entries (Dlls s) (xs ++ [E]) = l ++ [d].
Proof.
  intros H. pose proof (in_flight_notin _ _ _ _ _ H) as Hni. destruct H as [HR HL HE [HZ HH] Hl].
  destruct (InsertTailList_spec (Links s) Head xs E (rg_dll _ _ _ HR)) as (h & E1 & Hd & _);
    [set_solver|by rewrite HL|].
  exists h. split; [by apply on_links_eq|].
  assert (entries (Dlls s) (xs ++ [E]) = l ++ [d]) as He.
  { rewrite entries_app, Hl. simpl. by rewrite HE. }
  split; [|done]. split; simpl; try done.
  - intros H0. apply (rg_zero _ _ _ HR). set_solver.
  - intros E'. rewrite (rg_recs _ _ _ HR E'). set_solver.
  - pose proof (rg_nodup _ _ _ HR) as Hn. simpl in Hn. by rewrite Permutation_app_comm.
  - rewrite (rg_loads _ _ _ HR). simpl. rewrite HE, He, bind_app, Hl. simpl.
    rewrite app_nil_r. apply Permutation_app_comm.
Qed.

Lemma store_dll_eq s E d0 d : Dlls s !! E = Some d0 ->
  store_dll E d s = Some (tt, set_Dlls (<[E := d]> (Dlls s)) s).
Proof. unfold store_dll. by intros ->. Qed.

(** Filling the record in: the outcome, and the record if it is still loose. *)
Lemma load_store s xs E n explicit Name l : in_flight s xs E (MkDll n 0) l ->
  let m := LoadLibrary explicit Name in
  exists s', in_flight s' xs E (MkDll n m) l /\ forall A (k : Z -> M A),
    bind (Load explicit Name) (fun m => store_dll E (MkDll n m) ;;; k m) s = k m s'.
Proof.
  intros H m. pose proof (in_flight_store _ _ _ _ (MkDll n m) _ H eq_refl) as H'.
  eexists. split; [exact H'|]. intros A k. unfold Load. fold m. unfold held. simpl.
  destruct (Z.eqb_spec m 0) as [->|Hm]; rewrite bind_assoc.
  - rewrite bind_ret, bind_ret. by rewrite (bind_eq _ _ _ _ _ (store_dll_eq _ _ _ _ (fl_rec _ _ _ _ _ H))).
  - rewrite bind_modify, bind_ret. set (s1 := set_Loads _ s).
    by rewrite (bind_eq _ _ _ _ _ (store_dll_eq s1 _ _ _ (fl_rec _ _ _ _ _ H))).
Qed.

(** The entry into the ring, unless the name is taken. *)
Lemma enter_spec s xs E d l Name : in_flight s xs E d l ->
  exists s',
    (Found <- CdiagsFindRegisteredDll Name ;;
     if negb (Found =? 0) then ret CDIAG_E_ALREADY_REGISTERED
     else on_links (InsertTailList Head E) ;;; ret S_OK) s =
      Some (fst (if existsb (named Name) l then (CDIAG_E_ALREADY_REGISTERED, l) else (S_OK, l ++ [d])), s') /\
    if existsb (named Name) l then in_flight s' xs E d l
    else rings s' (xs ++ [E]) [] /\ entries (Dlls s') (xs ++ [E]) = l ++ [d].
Proof.
  intros H. pose proof (fl_rings _ _ _ _ _ H) as HR. pose proof (fl_entries _ _ _ _ _ H) as Hl.
  rewrite (bind_eq _ _ _ _ _ (Find_spec Name _ _ _ HR)).
  destruct (first_named (Dlls s) Name xs) as [E0|] eqn:Hf; cbn [default from_option id].
  - destruct (first_named_split _ _ _ _ Hf) as (xs1 & xs2 & d0 & -> & _ & Hex & _).
    rewrite Hl in Hex. rewrite Hex.
    assert (E0 <> 0) by (intros ->; apply (rg_zero _ _ _ HR); set_solver).
    rewrite (proj2 (Z.eqb_neq _ _)) by done. by exists s.
  - destruct (first_named_none _ _ _ Hf) as [Hex _]. rewrite Hl in Hex. rewrite Hex.
    destruct (in_flight_link _ _ _ _ _ H) as (h & E1 & HR' & He).
    cbn [Z.eqb negb]. rewrite (bind_eq _ _ _ _ _ E1). by exists (set_Links h s).
Qed.

Lemma in_flight_new s xs E l : rings s xs [] -> entries (Dlls s) xs = l ->
  E <> 0 -> E <> Head -> Dlls s !! E = None ->
  in_flight (MkResolver (<[E := MkLink 0 0]> (Links s)) (<[E := MkDll [] 0]> (Dlls s)) (Loads s)
               (ReferenceCount s) (Live s)) xs E (MkDll [] 0) l.
Proof.
  intros HR Hl H0 HH HE. assert (E ∉ xs) as Hni.
  { intros Hin. destruct (proj2 (rg_recs _ _ _ HR E)) as [d Hd]; [done|congruence]. }
  split; simpl; try done; rewrite ?lookup_insert_eq, ?entries_insert by done; try done.
  split; simpl; try apply HR.
  - eapply dll_frame; [|apply HR]. intros q Hq. apply lookup_insert_ne. set_solver.
  - intros E'. pose proof (rg_recs _ _ _ HR E') as Hr. simpl in Hr.
    destruct (decide (E' = E)) as [->|Hne].
    + rewrite lookup_insert_eq. split; [set_solver|by eexists].
    + rewrite lookup_insert_ne, Hr by done. set_solver.
  - apply NoDup_cons. split; [done|apply HR].
  - rewrite lookup_insert_eq. simpl. rewrite entries_insert by done. apply HR.
Qed.

Lemma register_failed l explicit Name Hr l' : register l explicit Name = (Hr, l') ->
  FAILED Hr = true -> l = l'.
Proof. unfold register. repeat case_match; intros [= <- <-]; done. Qed.

Lemma register_modules l explicit Name Hr l' : register l explicit Name = (Hr, l') ->
  Forall (fun d => Module d <> 0) l -> Forall (fun d => Module d <> 0) l'.
Proof.
  unfold register. cbv zeta. repeat (case_match; [by intros [= _ <-]|]). intros [= _ <-] Hl.
  apply Forall_app. split; [done|]. constructor; [|done]. simpl. by apply Z.eqb_neq.
Qed.

(** Filling the record in: the outcome, and the record if it is still loose. *)
Lemma Fill_spec s xs E l explicit Name : in_flight s xs E (MkDll [] 0) l ->
  exists s', FillRegisteredDll E explicit Name s = Some (fst (register l explicit Name), s') /\
    if FAILED (fst (register l explicit Name)) then exists d, in_flight s' xs E d l
    else rings s' (xs ++ [E]) [] /\ entries (Dlls s') (xs ++ [E]) = snd (register l explicit Name).
Proof.
  intros H. unfold FillRegisteredDll, register. cbv zeta.
  set (m := LoadLibrary explicit Name).
  destruct (explicit && negb (bool_decide (length Name < MAX_PATH)%nat)) eqn:Hlong.
  { apply andb_true_iff in Hlong as [-> Hlong%negb_true_iff%bool_decide_eq_false].
    unfold StringCchCopy. rewrite decide_False by done. cbn. eexists. split; [done|]. by eexists. }
  assert ((if explicit then StringCchCopy MAX_PATH Name else (S_OK, Name)) = (S_OK, Name)) as ->.
  { destruct explicit; [|done]. unfold StringCchCopy. apply negb_false_iff, bool_decide_eq_true in Hlong.
    by rewrite decide_True. }
  cbn [fst snd]. fold (stored_name explicit Name). set (n := StringCchCopy MAX_DLLNAME _).
  change (FAILED S_OK) with false. cbv iota.
  rewrite (bind_eq _ _ _ _ _ (store_dll_eq _ _ _ (MkDll (snd n) 0) (fl_rec _ _ _ _ _ H))).
  pose proof (in_flight_store _ _ _ _ (MkDll (snd n) 0) _ H eq_refl) as H1. cbn [held Module Z.eqb app] in H1.
  set (s1 := set_Dlls _ s). change (in_flight s1 xs E (MkDll (snd n) 0) l) in H1.
  unfold n, StringCchCopy. destruct (decide (length (stored_name explicit Name) < MAX_DLLNAME)%nat) as [Hn|Hn];
    [rewrite bool_decide_eq_true_2 by done|rewrite bool_decide_eq_false_2 by done]; cbn [fst snd negb].
  2:{ eexists. split; [done|]. by eexists. }
  change (FAILED S_OK) with false. cbv iota.
  assert (snd n = stored_name explicit Name) as En by (unfold n, StringCchCopy; by rewrite decide_True).
  rewrite En in H1.
  destruct (load_store s1 xs E _ explicit Name l H1) as (s2 & H2 & ->). fold m.
  destruct (Z.eqb_spec m 0) as [Em|Em].
  { eexists. split; [done|]. cbn [fst]. rewrite FAILED_from_win32 by apply Errors_ok. by eexists. }
  destruct (enter_spec s2 xs E _ l Name H2) as (s' & E' & Hs').
  eexists. split; [exact E'|]. destruct (existsb (named Name) l); [by eexists|exact Hs'].
Qed.

(** The names that are accepted: of 5 to [max] characters, not all of them white space. *)
Definition valid_name (max : nat) (Name : option (list Z)) : Prop :=
  match Name with
  | None => False
  | Some n => (5 <= length n <= max)%nat /\ Exists (fun c => c ∉ [32; 9; 10; 13]) n
  end.

#[export] Instance valid_name_dec max Name : Decision (valid_name max Name).
Proof. destruct Name; simpl; apply _. Defined.

Lemma whitespace_spec n : CdiagpIsWhitespaceOnly n = false <-> Exists (fun c => c ∉ [32; 9; 10; 13]) n.
Proof.
  unfold CdiagpIsWhitespaceOnly. induction n as [|c n IH]; [split; [done|by intros ?%Exists_nil]|].
  cbn [whitespace_only andb]. rewrite Exists_cons.
  assert ((c =? 32) || (c =? 9) || (c =? 10) || (c =? 13) = bool_decide (c ∈ [32; 9; 10; 13])) as ->.
  { symmetry. destruct (bool_decide_reflect (c ∈ [32; 9; 10; 13])) as [Hc|Hc].
    - rewrite !elem_of_cons in Hc. destruct Hc as [->|[->|[->|[->|Hc%elem_of_nil]]]]; done.
    - rewrite !not_elem_of_cons in Hc. destruct Hc as (H1 & H2 & H3 & H4 & _). lia. }
  destruct (bool_decide_reflect (c ∈ [32; 9; 10; 13])) as [Hc|Hc]; [rewrite IH; naive_solver|].
  split; [by left|]. intros _. by destruct n.
Qed.

Lemma valid_name_spec (max : nat) Name :
  CdiagpIsStringValid Name 5 (Z.of_nat max) false = bool_decide (valid_name max Name).
Proof.
  apply eq_true_iff_eq. rewrite bool_decide_eq_true. destruct Name as [n|]; [|done].
  unfold CdiagpIsStringValid, valid_name.
  rewrite !andb_true_iff, orb_false_l, negb_true_iff, whitespace_spec, !Z.leb_le.
  split; [intros [[Hw H1] H2]|intros [[H1 H2] Hw]]; split_and!; done || lia.
Qed.

(** Whether there is memory for a record. *)
Definition memory (s : RESOLVER) : bool := match Malloc s with Some (E, _) => negb (E =? 0) | None => false end.

(** The registration and the removal on the list of registrations, refusals included. *)
Definition register_checked (mem : bool) (l : list REGISTERED_DLL) (Name : option (list Z)) (Flags Priority : Z)
    : Z * list REGISTERED_DLL :=
  if decide (valid_name MAX_PATH Name /\ (Flags = 0 \/ Flags = CDIAG_MSGRES_REGISTER_EXPLICIT_PATH) /\ Priority = 0) then
    if mem then register l (bool_decide (Flags = CDIAG_MSGRES_REGISTER_EXPLICIT_PATH)) (default [] Name)
    else (E_OUTOFMEMORY, l)
  else (E_INVALIDARG, l).

Definition unregister_checked (l : list REGISTERED_DLL) (Name : option (list Z)) : Z * list REGISTERED_DLL :=
  if decide (valid_name (MAX_DLLNAME - 1) Name) then
    if existsb (named (default [] Name)) l then (S_OK, remove_named (default [] Name) l)
    else (CDIAG_E_DLL_NOT_REGISTERED, l)
  else (E_INVALIDARG, l).

Lemma register_dll_spec s l Name Flags Priority : resolver_ok s l ->
  exists Hr s' l', CdiagsRegisterMessageDll Name Flags Priority s = Some (Hr, s') /\ resolver_ok s' l' /\
    (Hr, l') = register_checked (memory s) l Name Flags Priority.
Proof.
  intros (xs & HR & Hl & Hmod). unfold CdiagsRegisterMessageDll, register_checked.
  rewrite valid_name_spec. destruct (decide _) as [(Hv & Hf & ->)|Hn]; last first.
  { assert (negb (bool_decide (valid_name MAX_PATH Name)) ||
        (negb (Flags =? 0) && negb (Flags =? CDIAG_MSGRES_REGISTER_EXPLICIT_PATH)) || negb (Priority =? 0) = true) as ->.
    { apply not_false_iff_true. intros HF. apply Hn.
      rewrite !orb_false_iff, andb_false_iff, !negb_false_iff, bool_decide_eq_true, !Z.eqb_eq in HF. tauto. }
    exists E_INVALIDARG, s, l. split_and!; [done|by exists xs|done]. }
  rewrite bool_decide_eq_true_2 by done.
  assert (negb (Flags =? 0) && negb (Flags =? CDIAG_MSGRES_REGISTER_EXPLICIT_PATH) = false) as -> by (by destruct Hf as [-> | ->]).
  assert (FlagOn Flags CDIAG_MSGRES_REGISTER_EXPLICIT_PATH = bool_decide (Flags = CDIAG_MSGRES_REGISTER_EXPLICIT_PATH)) as ->
    by (by destruct Hf as [-> | ->]).
  cbn [negb orb Z.eqb]. unfold memory.
  destruct (Malloc_ok s) as [E1|(E & HE0 & HEH & HE & E1)]; rewrite (bind_eq _ _ _ _ _ E1), E1.
  { exists E_OUTOFMEMORY, s, l. split_and!; [done|by exists xs|done]. }
  rewrite (proj2 (Z.eqb_neq _ _)) by done. cbn [negb].
  set (explicit := bool_decide _). set (name := default [] Name).
  destruct (Fill_spec _ xs E l explicit name (in_flight_new s xs E l HR Hl HE0 HEH HE)) as (s1 & E2 & H1).
  rewrite (bind_eq _ _ _ _ _ E2). destruct (register l explicit name) as [Hr l'] eqn:Hreg. cbn [fst snd] in *.
  destruct (FAILED Hr) eqn:HF.
  - destruct H1 as [d H1]. pose proof (in_flight_notin _ _ _ _ _ H1) as Hni.
    destruct (delete_unlinked s1 xs E d (fl_rings _ _ _ _ _ H1) (fl_rec _ _ _ _ _ H1) (fl_links _ _ _ _ _ H1))
      as (s2 & E3 & HR2 & ED & _). rewrite (bind_eq _ _ _ _ _ E3).
    exists Hr, s2, l. split_and!; [done| |].
    + exists xs. split_and!; [done| |done]. rewrite ED, entries_delete by done.
      apply (fl_entries _ _ _ _ _ H1).
    + f_equal. by eapply register_failed.
  - rewrite bind_ret. exists Hr, s1, l'. split_and!; [done| |done].
    exists (xs ++ [E]). destruct H1 as [HR1 He]. split_and!; [done|done|].
    by eapply register_modules.
Qed.

Lemma unregister_dll_spec s l Name : resolver_ok s l ->
  exists Hr s' l', CdiagsUnregisterMessageDll Name s = Some (Hr, s') /\ resolver_ok s' l' /\
    (Hr, l') = unregister_checked l Name.
Proof.
  intros (xs & HR & Hl & Hmod). unfold CdiagsUnregisterMessageDll, unregister_checked.
  change (Z.of_nat MAX_DLLNAME - 1) with (Z.of_nat (MAX_DLLNAME - 1)). rewrite valid_name_spec.
  destruct (decide _) as [Hv|Hn]; [rewrite bool_decide_eq_true_2 by done|rewrite bool_decide_eq_false_2 by done]; cbn [negb]; last first.
  { exists E_INVALIDARG, s, l. split_and!; [done|by exists xs|done]. }
  set (name := default [] Name). rewrite (bind_eq _ _ _ _ _ (Find_spec name _ _ _ HR)).
  destruct (first_named (Dlls s) name xs) as [E|] eqn:Hf; cbn [default from_option id].
  - destruct (first_named_split _ _ _ _ Hf) as (xs1 & xs2 & d & -> & HE & Hex & Hrm).
    assert (E <> 0) by (intros ->; apply (rg_zero _ _ _ HR); set_solver).
    rewrite (proj2 (Z.eqb_neq _ _)) by done.
    destruct (delete_linked s xs1 E xs2 d HR HE) as (s1 & E1 & HR1 & ED & _).
    rewrite (bind_eq _ _ _ _ _ E1). exists S_OK, s1, (remove_named name l).
    destruct (entries_remove (Dlls s) xs1 E d xs2 HE (rg_nodup _ _ _ HR)) as [Hp Hs].
    split_and!; [done| |by rewrite <-Hl, Hex].
    exists (xs1 ++ xs2). rewrite ED, Hs, <-Hrm, Hl. split_and!; [done|done|].
    rewrite <-Hl, Hp in Hmod. apply Forall_cons in Hmod as [_ Hmod]. by rewrite <-Hl, Hrm, <-Hs.
  - destruct (first_named_none _ _ _ Hf) as [Hex Hrm]. rewrite Z.eqb_refl.
    exists CDIAG_E_DLL_NOT_REGISTERED, s, l. split_and!; [done|by exists xs|by rewrite <-Hl, Hex].
Qed.

(** *** Sequences of registrations, and the end *)
Inductive resolver_op := OpRegister (Name : option (list Z)) (Flags Priority : Z)
                       | OpUnregister (Name : option (list Z)).

Definition exec_resolver_op (o : resolver_op) : M Z :=
  match o with
  | OpRegister n f p => CdiagsRegisterMessageDll n f p
  | OpUnregister n => CdiagsUnregisterMessageDll n
  end.

(** The same on the list of registrations; [mem] says whether there is memory. *)
Definition resolver_step (mem : bool) (o : resolver_op) (l : list REGISTERED_DLL) : Z * list REGISTERED_DLL :=
  match o with
  | OpRegister n f p => register_checked mem l n f p
  | OpUnregister n => unregister_checked l n
  end.

Fixpoint exec_resolver_ops (os : list resolver_op) : M (list Z) :=
  match os with
  | [] => ret []
  | o :: os => r <- exec_resolver_op o ;; rs <- exec_resolver_ops os ;; ret (r :: rs)
  end.

(** The code and the list go through the operations together. *)
Inductive resolver_steps : list resolver_op -> RESOLVER -> list REGISTERED_DLL -> list Z -> RESOLVER ->
    list REGISTERED_DLL -> Prop :=
  | rsteps_nil s l : resolver_steps [] s l [] s l
  | rsteps_cons o os s l r s1 l1 rs s2 l2 :
      exec_resolver_op o s = Some (r, s1) -> (r, l1) = resolver_step (memory s) o l ->
      resolver_steps os s1 l1 rs s2 l2 -> resolver_steps (o :: os) s l (r :: rs) s2 l2.

Lemma resolver_op_spec o s l : resolver_ok s l ->
  exists Hr s' l', exec_resolver_op o s = Some (Hr, s') /\ resolver_ok s' l' /\ (Hr, l') = resolver_step (memory s) o l.
Proof. intros H. destruct o as [n f p|n]; [by apply register_dll_spec|by apply unregister_dll_spec]. Qed.

Lemma resolver_ops_spec os : forall s l, resolver_ok s l ->
  exists rs s' l', exec_resolver_ops os s = Some (rs, s') /\ resolver_ok s' l' /\ resolver_steps os s l rs s' l'.
Proof.
  induction os as [|o os IH]; intros s l H; [exists [], s, l; split_and!; [done|done|constructor]|].
  destruct (resolver_op_spec o s l H) as (r & s1 & l1 & E1 & H1 & Hs).
  destruct (IH s1 l1 H1) as (rs & s2 & l2 & E2 & H2 & Hss).
  exists (r :: rs), s2, l2. simpl. rewrite (bind_eq _ _ _ _ _ E1), (bind_eq _ _ _ _ _ E2).
  split_and!; [done|done|by econstructor].
Qed.

Lemma delete_dlls_spec xs : forall s fuel, rings s xs [] -> (length xs < fuel)%nat ->
  exists s', delete_dlls fuel (default Head (hd_error xs)) s = Some (tt, s') /\ rings s' [] [].
Proof.
  induction xs as [|E xs IH]; intros s fuel HR Hf; (destruct fuel as [|fuel]; [simpl in Hf; lia|]);
    cbn [delete_dlls hd_error default from_option id].
  - rewrite Z.eqb_refl. by exists s.
  - pose proof (rg_dll _ _ _ HR) as Hd.
    assert (E <> Head) as Hne by (apply dll_head_notin in Hd; set_solver).
    rewrite (proj2 (Z.eqb_neq _ _) Hne).
    rewrite (bind_eq _ _ _ _ _ (on_links_read _ s _ (dll_next _ _ [] _ _ Hd))).
    destruct (proj2 (rg_recs _ _ _ HR E)) as [d HE]; [set_solver|].
    destruct (delete_linked s [] E xs d HR HE) as (s1 & E1 & HR1 & _). rewrite (bind_eq _ _ _ _ _ E1).
    apply IH; [done|simpl in Hf; lia].
Qed.

Lemma delete_resolver_spec s l : resolver_ok s l ->
  exists s', CdiagsDeleteResolver s = Some (S_OK, s') /\ Live s' = false /\ Loads s' = [] /\ Dlls s' = ∅.
Proof.
  intros (xs & HR & _). pose proof (rg_dll _ _ _ HR) as Hd. unfold CdiagsDeleteResolver.
  rewrite (bind_eq _ _ _ _ _ (on_links_read _ s _ (dll_first _ _ _ Hd))), bind_gets.
  destruct (delete_dlls_spec xs s (ring_fuel s) HR) as (s' & E & HR');
    [pose proof (dll_length _ _ _ Hd); unfold ring_fuel; lia|].
  rewrite (bind_eq _ _ _ _ _ E), bind_modify. eexists. split_and!; [done|done| |]; simpl.
  - pose proof (rg_loads _ _ _ HR') as Hl. simpl in Hl. by apply Permutation_nil_r.
  - apply map_empty. intros E'. apply eq_None_not_Some. rewrite (rg_recs _ _ _ HR'). simpl.
    apply not_elem_of_nil.
Qed.

(** C23. The resolver keeps an ordered list of registrations.  Any sequence of
    registrations and removals runs without a fault on the real ring (in a release build,
    without the assertions), and every call returns exactly what the list says: a call is
    refused with E_INVALIDARG if and only if its name has not 5 to 260 (or 63) characters or
    only white space, or its flags or priority are wrong, else a registration with
    E_OUTOFMEMORY if and only if there is no memory for its record; otherwise a DLL goes to
    the end unless the name it is given under is the stored name of another one, and the
    first one of a name is removed.  The resolver holds exactly one reference on a module for
    each registration, on every path through the code; deleting it gives all of them back
    and frees every record.  (A DLL registered by its path is stored under its file name, so
    that a second registration by the path is not refused, contrary to cdiag.h, and one
    removal leaves the other: [Demo.registered_twice].) *)
Theorem registrations_refine_list os s l : resolver_ok s l ->
  exists rs s' l', exec_resolver_ops os s = Some (rs, s') /\ resolver_ok s' l' /\
    resolver_steps os s l rs s' l' /\ Loads s' ≡ₚ Module <$> l' /\
    exists s2, CdiagsDeleteResolver s' = Some (S_OK, s2) /\ Loads s2 = [] /\ Dlls s2 = ∅.
Proof.
  intros H. destruct (resolver_ops_spec os s l H) as (rs & s' & l' & E & H' & Hs).
  exists rs, s', l'. split_and!; [done|done|done| |].
  - destruct H' as (xs & HR & <- & Hm). rewrite (rg_loads _ _ _ HR). simpl. clear Hs. revert Hm.
    induction (entries (Dlls s') xs) as [|d ds IH]; [done|]. intros [Hd Hds]%Forall_cons. simpl.
    unfold held at 1. rewrite (proj2 (Z.eqb_neq _ _) Hd). simpl. f_equiv. by apply IH.
  - destruct (delete_resolver_spec s' l' H') as (s2 & E2 & _ & HL & HD). by exists s2.
Qed.

End msgresolver.

(** [FormatMessage] of a module (0 for the system) and a message: the number of
    characters, the buffer, and the last error. *)
Section resolving.
Context (Head : Z).
Context (FormatMessage : Z -> Z -> bool -> option (list (list Z)) -> list Z -> Z * list Z * Z).

(** *** Resolving a message *)

(** The first loop of [CdiagsStripNewlines]: the index it stops at. *)
(* src/cdiag/cdiag/msgresolver.c:344-365 (CdiagsStripNewlines) *)
Fixpoint BlankNewlines (Buffer : list Z) : nat * list Z :=
  match Buffer with
  | [] => (0%nat, [])
  | c :: B =>
      if (c =? 13) || (c =? 10) then let r := BlankNewlines B in (S (fst r), 32 :: snd r)
      else if c =? 0 then (0%nat, c :: B)
      else let r := BlankNewlines B in (S (fst r), c :: snd r)
  end.

(** The second loop, from the index down. *)
(* src/cdiag/cdiag/msgresolver.c:367-379 (CdiagsStripNewlines) *)
Fixpoint CutAtSpace (Index : nat) (Buffer : list Z) : option (list Z) :=
  match Index with
  | O => Some Buffer
  | S Index =>
      match Buffer !! Index with
      | None => None
      | Some c => if c =? 32 then Some (<[Index := 0]> Buffer) else CutAtSpace Index Buffer
      end
  end.

Definition CdiagsStripNewlines (Buffer : list Z) : option (list Z) :=
  let r := BlankNewlines Buffer in CutAtSpace (fst r) (snd r).

(** The status and the buffer. *)
(* src/cdiag/cdiag/msgresolver.c:140-193 (CdiagsFormatMessage) *)
Definition CdiagsFormatMessage (Module_ MessageId : Z) (UseInsertionStrings : bool)
    (InsertionStrings : option (list (list Z))) (Buffer : list Z) : Z * list Z :=
  let '(n, B, Err) := FormatMessage Module_ MessageId UseInsertionStrings InsertionStrings Buffer in
  if 0 <? n then (S_OK, B)
  else if (Err =? ERROR_INSUFFICIENT_BUFFER) || (Err =? ERROR_MORE_DATA)
  then (CDIAG_E_BUFFER_TOO_SMALL, B)
  else (HRESULT_FROM_WIN32 Err, B).

(** "0x%08X" *)
Definition hex_digit (d : Z) : Z := if d <? 10 then 48 + d else 55 + d.
Definition hex8 (v : Z) : list Z :=
  (fun i => hex_digit (Z.land (Z.shiftr v (4 * i)) 15)) <$> [7; 6; 5; 4; 3; 2; 1; 0].
Definition default_message (MessageId : Z) : list Z := [48; 120] ++ hex8 MessageId.

(** [StringCchPrintf] into a buffer. *)
Definition StringCchPrintf (text Buffer : list Z) : Z * list Z :=
  if decide (length text < length Buffer)%nat then (S_OK, store 0 (text ++ [0]) Buffer)
  else (STRSAFE_E_INSUFFICIENT_BUFFER, store 0 (take (length Buffer - 1) text ++ [0]) Buffer).

Section resolve.
Context (MessageId : Z) (Use : bool) (Inserts : option (list (list Z))).

(** The walk along the registered DLLs: the status, whether the message has
    been found, and the buffer. *)
(* src/cdiag/cdiag/msgresolver.c:442-486 (CdiagsResolveMessage) *)
Fixpoint resolve_dlls (fuel : nat) (Entry Hr : Z) (Buffer : list Z) : M (Z * bool * list Z) :=
  match fuel with
  | O => fault
  | S fuel =>
      if Entry =? Head then ret (Hr, false, Buffer) else
      RegDll <- load_dll Entry ;;
      let r := CdiagsFormatMessage (Module RegDll) MessageId Use Inserts Buffer in
      if fst r =? S_OK then ret (S_OK, true, snd r)
      else if fst r =? CDIAG_E_BUFFER_TOO_SMALL then ret (fst r, false, snd r)
      else Next <- on_links (load_Flink Entry) ;;
           resolve_dlls fuel Next (fst r) (snd r)
  end.

(** What is made of the outcome. *)
(* src/cdiag/cdiag/msgresolver.c:488-530 (CdiagsResolveMessage) *)
Definition FinishResolve (Flags : Z) (r : Z * bool * list Z) : M (Z * list Z) :=
  let '(Hr, Resolved, Buffer) := r in
  if Resolved : bool then
    if FlagOn Flags CDIAG_MSGRES_STRIP_NEWLINES then
      match CdiagsStripNewlines Buffer with Some B => ret (S_OK, B) | None => fault end
    else ret (S_OK, Buffer)
  else if Hr =? CDIAG_E_BUFFER_TOO_SMALL then ret (Hr, Buffer)
  else if FlagOn Flags CDIAG_MSGRES_FALLBACK_TO_DEFAULT then
    let p := StringCchPrintf (default_message MessageId) Buffer in
    if fst p =? STRSAFE_E_INSUFFICIENT_BUFFER then ret (CDIAG_E_BUFFER_TOO_SMALL, snd p)
    else ret (S_OK, snd p)
  else ret (CDIAG_E_UNKNOWN_MESSAGE, Buffer).
End resolve.

(** [Buffer] is the block of [BufferSizeInChars] characters, if not NULL. *)
(* src/cdiag/cdiag/msgresolver.c:381-530 (CdiagsResolveMessage) *)
Definition CdiagsResolveMessage (MessageId Flags : Z) (Inserts : option (list (list Z)))
    (Buffer : option (list Z)) : M (Z * list Z) :=
  let Use := negb (FlagOn Flags CDIAG_MSGRES_RESOLVE_IGNORE_INSERTS) in
  match Buffer with
  | None => ret (E_INVALIDARG, [])
  | Some B =>
      let size := Z.of_nat (length B) in
      if FlagOn Flags (Z.lnot CDIAGP_RESOLVER_ALL_FLAGS) || (size =? 0) || (MAX_MESSAGE_CCH <? size)
      then ret (E_INVALIDARG, B) else
      let sys := if FlagOn Flags CDIAG_MSGRES_NO_SYSTEM then (S_OK, false, B)
                 else let r := CdiagsFormatMessage 0 MessageId Use Inserts B in
                      (fst r, fst r =? S_OK, snd r) in
      let '(Hr, Resolved, B) := sys in
      if negb Resolved && (Hr =? CDIAG_E_BUFFER_TOO_SMALL) then ret (Hr, B)
      else if Resolved : bool then FinishResolve MessageId Flags (Hr, true, B)
      else
        first <- on_links (load_Flink Head) ;;
        fuel <- gets ring_fuel ;;
        r <- resolve_dlls MessageId Use Inserts fuel first Hr B ;;
        FinishResolve MessageId Flags r
  end.

(** *** Who resolves a message *)
Section resolution.
Context (MessageId : Z) (Use : bool) (Inserts : option (list (list Z))).

Notation try m B := (CdiagsFormatMessage m MessageId Use Inserts B).

(** The walk, on the list of registrations. *)
Fixpoint resolve_list (l : list REGISTERED_DLL) (Hr : Z) (B : list Z) : Z * bool * list Z :=
  match l with
  | [] => (Hr, false, B)
  | d :: l =>
      let r := try (Module d) B in
      if fst r =? S_OK then (S_OK, true, snd r)
      else if fst r =? CDIAG_E_BUFFER_TOO_SMALL then (fst r, false, snd r)
      else resolve_list l (fst r) (snd r)
  end.

Lemma resolve_dlls_spec s todo : forall done_ fuel Hr B,
  dll (Links s) Head (done_ ++ todo) -> (forall E, E ∈ todo -> is_Some (Dlls s !! E)) ->
  (length todo < fuel)%nat ->
  resolve_dlls MessageId Use Inserts fuel (default Head (hd_error todo)) Hr B s =
    Some (resolve_list (entries (Dlls s) todo) Hr B, s).
Proof.
  induction todo as [|E todo IH]; intros done_ fuel Hr B Hd HD Hf;
    (destruct fuel as [|fuel]; [simpl in Hf; lia|]); cbn [resolve_dlls hd_error default from_option id].
  - by rewrite Z.eqb_refl.
  - assert (E <> Head) as Hne by (apply dll_head_notin in Hd; set_solver).
    rewrite (proj2 (Z.eqb_neq _ _) Hne). destruct (HD E) as [d HE]; [by left|].
    rewrite (bind_eq _ _ _ _ _ (load_dll_eq _ _ _ HE)). cbv zeta.
    cbn [entries omap list_omap]. rewrite HE. cbn [resolve_list].
    destruct (fst (try (Module d) B) =? S_OK); [done|].
    destruct (fst (try (Module d) B) =? CDIAG_E_BUFFER_TOO_SMALL); [done|].
    rewrite (bind_eq _ _ _ _ _ (on_links_read _ s _ (dll_next _ _ _ _ _ Hd))).
    apply (IH (done_ ++ [E])); [by rewrite <-app_assoc|set_solver|simpl in Hf; lia].
Qed.

(** A module that does not have the message. *)
Definition lacks (m : Z) : Prop := forall B,
  fst (try m B) <> S_OK /\ fst (try m B) <> CDIAG_E_BUFFER_TOO_SMALL.

Lemma resolve_list_skip l1 l2 : Forall (fun d => lacks (Module d)) l1 -> forall Hr B,
  exists Hr' B', resolve_list (l1 ++ l2) Hr B = resolve_list l2 Hr' B' /\
    (Hr <> CDIAG_E_BUFFER_TOO_SMALL -> Hr' <> CDIAG_E_BUFFER_TOO_SMALL).
Proof.
  induction l1 as [|d l1 IH]; intros HF Hr B; [by exists Hr, B|].
  apply Forall_cons in HF as [Hd HF]. destruct (Hd B) as [H1 H2]. cbn [app resolve_list].
  rewrite (proj2 (Z.eqb_neq _ _) H1), (proj2 (Z.eqb_neq _ _) H2).
  destruct (IH HF (fst (try (Module d) B)) (snd (try (Module d) B))) as (Hr' & B' & E & H).
  exists Hr', B'. split; [done|]. intros _. by apply H.
Qed.
End resolution.

Lemma resolve_message_spec s l MessageId Flags Inserts B :
  resolver_ok Head s l -> FlagOn Flags (Z.lnot CDIAGP_RESOLVER_ALL_FLAGS) = false ->
  0 < Z.of_nat (length B) <= MAX_MESSAGE_CCH ->
  (FlagOn Flags CDIAG_MSGRES_NO_SYSTEM = false ->
   lacks MessageId (negb (FlagOn Flags CDIAG_MSGRES_RESOLVE_IGNORE_INSERTS)) Inserts 0) ->
  exists Hr B', Hr <> CDIAG_E_BUFFER_TOO_SMALL /\
    CdiagsResolveMessage MessageId Flags Inserts (Some B) s =
    FinishResolve MessageId Flags
      (resolve_list MessageId (negb (FlagOn Flags CDIAG_MSGRES_RESOLVE_IGNORE_INSERTS)) Inserts l Hr B') s.
Proof.
  intros (xs & HR & Hl & _) HF HB Hsys. unfold CdiagsResolveMessage. cbv zeta.
  set (Use := negb (FlagOn Flags CDIAG_MSGRES_RESOLVE_IGNORE_INSERTS)) in *.
  rewrite HF, (proj2 (Z.eqb_neq _ _)), (proj2 (Z.ltb_ge _ _)) by lia. cbn [orb].
  pose proof (rg_dll _ _ _ _ HR) as Hd.
  assert (forall Hr B, (first <- on_links (load_Flink Head) ;; fuel <- gets ring_fuel ;;
    r <- resolve_dlls MessageId Use Inserts fuel first Hr B ;; FinishResolve MessageId Flags r) s =
    FinishResolve MessageId Flags (resolve_list MessageId Use Inserts l Hr B) s) as Hwalk.
  { intros Hr B'. rewrite (bind_eq _ _ _ _ _ (on_links_read _ s _ (dll_first _ _ _ Hd))), bind_gets.
    rewrite (bind_eq _ _ _ _ _ (resolve_dlls_spec MessageId Use Inserts s xs [] (ring_fuel s) Hr B' Hd
      (fun E HE => proj2 (rg_recs _ _ _ _ HR E) HE)
      ltac:(pose proof (dll_length _ _ _ Hd); unfold ring_fuel; lia))). by rewrite Hl. }
  destruct (FlagOn Flags CDIAG_MSGRES_NO_SYSTEM) eqn:HN.
  - exists S_OK, B. split; [done|]. exact (Hwalk S_OK B).
  - destruct (Hsys eq_refl B) as [H1 H2]. exists (fst (CdiagsFormatMessage 0 MessageId Use Inserts B)),
      (snd (CdiagsFormatMessage 0 MessageId Use Inserts B)). split; [done|].
    rewrite (proj2 (Z.eqb_neq _ _) H1), (proj2 (Z.eqb_neq _ _) H2). exact (Hwalk _ _).
Qed.

(** Messages come from the first source that has them.  If neither the system
    (unless it is excluded) nor the DLLs registered before it have a message, a
    DLL that has it delivers it, whatever is registered after it; and if nobody
    has it, the caller gets the default text where there is room for it and asked
    for it, and otherwise an error. *)
Theorem first_source_wins s l1 l2 MessageId Flags Inserts B :
  let Use := negb (FlagOn Flags CDIAG_MSGRES_RESOLVE_IGNORE_INSERTS) in
  resolver_ok Head s (l1 ++ l2) -> FlagOn Flags (Z.lnot CDIAGP_RESOLVER_ALL_FLAGS) = false ->
  FlagOn Flags CDIAG_MSGRES_STRIP_NEWLINES = false ->
  0 < Z.of_nat (length B) <= MAX_MESSAGE_CCH ->
  (FlagOn Flags CDIAG_MSGRES_NO_SYSTEM = false -> lacks MessageId Use Inserts 0) ->
  Forall (fun d => lacks MessageId Use Inserts (Module d)) l1 ->
  match l2 with
  | d :: _ => (forall B, fst (CdiagsFormatMessage (Module d) MessageId Use Inserts B) = S_OK) ->
      exists B', CdiagsResolveMessage MessageId Flags Inserts (Some B) s =
        Some ((S_OK, snd (CdiagsFormatMessage (Module d) MessageId Use Inserts B')), s)
  | [] => exists B',
      CdiagsResolveMessage MessageId Flags Inserts (Some B) s =
        Some ((if FlagOn Flags CDIAG_MSGRES_FALLBACK_TO_DEFAULT then
                 if decide (10 < length B')%nat then (S_OK, store 0 (default_message MessageId ++ [0]) B')
                 else (CDIAG_E_BUFFER_TOO_SMALL,
                       store 0 (take (length B' - 1) (default_message MessageId) ++ [0]) B')
               else (CDIAG_E_UNKNOWN_MESSAGE, B')), s)
  end.
Proof.
  intros Use Hok HF Hst HB Hsys Hl1. subst Use.
  destruct (resolve_message_spec s _ MessageId Flags Inserts B Hok HF HB Hsys) as (Hr & B1 & Hne & ->).
  destruct (resolve_list_skip _ _ _ l1 l2 Hl1 Hr B1) as (Hr2 & B2 & -> & H2).
  specialize (H2 Hne). destruct l2 as [|d l2].
  - exists B2. cbn [resolve_list FinishResolve]. rewrite (proj2 (Z.eqb_neq _ _) H2).
    destruct (FlagOn Flags CDIAG_MSGRES_FALLBACK_TO_DEFAULT); [|done].
    unfold StringCchPrintf. change (length (default_message MessageId)) with 10%nat.
    by destruct (decide _).
  - intros Hd. exists B2. cbn [resolve_list]. rewrite Hd. cbn [Z.eqb S_OK FinishResolve].
    by rewrite Hst.
Qed.
End resolving.

(** ** Stripping newlines *)

(** Carriage returns and line feeds become spaces. *)
Definition blank (c : Z) : Z := if (c =? 13) || (c =? 10) then 32 else c.

Lemma BlankNewlines_spec t rest : Forall (fun c => c <> 0) t ->
  BlankNewlines (t ++ 0 :: rest) = (length t, (blank <$> t) ++ 0 :: rest).
Proof.
  induction t as [|c t IH]; intros Ht; [done|]. apply Forall_cons in Ht as [Hc Ht].
  cbn [app BlankNewlines]. rewrite (IH Ht). cbn [fst snd length fmap list_fmap app].
  assert (blank c = if (c =? 13) || (c =? 10) then 32 else c) as -> by done.
  destruct ((c =? 13) || (c =? 10)); [done|]. by rewrite (proj2 (Z.eqb_neq _ _) Hc).
Qed.

Lemma CutAtSpace_none a : forall B, (forall i c, (i < a)%nat -> B !! i = Some c -> c <> 32) ->
  (a <= length B)%nat -> CutAtSpace a B = Some B.
Proof.
  induction a as [|a IH]; intros B HB Hl; [done|]. cbn [CutAtSpace].
  destruct (lookup_lt_is_Some_2 B a) as [c Hc]; [lia|]. rewrite Hc.
  rewrite (proj2 (Z.eqb_neq _ _) (HB a c ltac:(lia) Hc)). apply IH; [|lia].
  intros i c' Hi. apply HB. lia.
Qed.

Lemma CutAtSpace_last a b rest : 32 ∉ b ->
  CutAtSpace (length (a ++ 32 :: b)) (a ++ 32 :: b ++ rest) = Some (a ++ 0 :: b ++ rest).
Proof.
  rewrite length_app. cbn [length].
  revert rest. induction b as [|c b IH] using rev_ind; intros rest Hb.
  - rewrite Nat.add_1_r. cbn [CutAtSpace app].
    rewrite list_lookup_middle, Z.eqb_refl by done.
    by rewrite insert_app_r_alt, Nat.sub_diag by done.
  - rewrite length_app. cbn [length]. replace (length a + S (length b + 1))%nat
      with (S (length a + S (length b))) by lia. cbn [CutAtSpace].
    rewrite <-app_assoc. cbn [app].
    assert ((a ++ 32 :: b ++ c :: rest) !! (length a + S (length b))%nat = Some c) as ->.
    { replace (a ++ 32 :: b ++ c :: rest) with ((a ++ 32 :: b) ++ c :: rest)
        by (by rewrite <-app_assoc). apply list_lookup_middle. rewrite length_app. simpl. lia. }
    rewrite (proj2 (Z.eqb_neq _ _)) by set_solver. apply IH. set_solver.
Qed.

(** What stripping newlines does to a message: every carriage return and line
    feed becomes a space, and then the text is cut at its last space, so that of a
    message that does not end in one the last word is lost; without any space it
    is left alone. *)
Theorem strip_cuts_at_last_space text rest :
  Forall (fun c => c <> 0) text ->
  (forall a b, blank <$> text = a ++ 32 :: b -> 32 ∉ b ->
     CdiagsStripNewlines (text ++ 0 :: rest) = Some (a ++ 0 :: b ++ 0 :: rest)) /\
  (32 ∉ blank <$> text -> CdiagsStripNewlines (text ++ 0 :: rest) = Some (text ++ 0 :: rest)).
Proof.
  intros Ht. unfold CdiagsStripNewlines. rewrite (BlankNewlines_spec _ _ Ht). cbn [fst snd].
  rewrite <-(length_fmap blank text). split.
  - intros a b -> Hb. rewrite <-app_assoc. cbn [app]. by apply CutAtSpace_last.
  - intros Hn. rewrite CutAtSpace_none.
    + f_equal. f_equal. clear Ht. induction text as [|c t IH]; [done|]. cbn in *.
      apply not_elem_of_cons in Hn as [Hc Hn]. f_equal; [|by apply IH].
      unfold blank in *. by destruct ((c =? 13) || (c =? 10)).
    + intros i c Hi Hc -> . rewrite lookup_app_l in Hc by done. apply Hn. by eapply list_elem_of_lookup_2.
    + rewrite length_app. lia.
Qed.

Module Demo.

(** "Hello World" loses its last word. *)
Example strip_hello :
  CdiagsStripNewlines [72; 101; 108; 108; 111; 32; 87; 111; 114; 108; 100; 0] =
  Some [72; 101; 108; 108; 111; 0; 87; 111; 114; 108; 100; 0].
Proof. reflexivity. Qed.

Lemma strip_cuts_at_last_space_witness :
  CdiagsStripNewlines ([97; 10; 98] ++ 0 :: []) = Some ([97] ++ 0 :: [98] ++ 0 :: []).
Proof.
  destruct (strip_cuts_at_last_space [97; 10; 98] []) as [H _]; [repeat constructor; discriminate|].
  apply H; [reflexivity|]. intros Hin%elem_of_cons. destruct Hin as [Hin|Hin]; [discriminate|].
  by apply not_elem_of_nil in Hin.
Defined.

(** A loader that finds everything; a module per length of the name; a path is
    stripped to what follows its last backslash. *)
Definition Lib (explicit : bool) (Name : list Z) : Z := Z.of_nat (length Name).
Definition Err (explicit : bool) (Name : list Z) : Z := 126.
Fixpoint Strip (acc p : list Z) : list Z :=
  match p with [] => acc | c :: p => if c =? 92 then Strip [] p else Strip (acc ++ [c]) p end.

Definition Malloc : ST RESOLVER Z := fun s =>
  let E := 2 + foldr Z.max 0 (map_to_list (Dlls s)).*1 in
  Some (E, MkResolver (<[E := MkLink 0 0]> (Links s)) (<[E := MkDll [] 0]> (Dlls s))
             (Loads s) (ReferenceCount s) (Live s)).

Lemma Record_malloc_ok : allocates_record 1 Malloc.
Proof.
  intros s. right. exists (2 + foldr Z.max 0 (map_to_list (Dlls s)).*1).
  assert (0 <= foldr Z.max 0 (map_to_list (Dlls s)).*1)
    by (induction (map_to_list (Dlls s)).*1; simpl; lia).
  split_and!; [lia|lia| |done].
  destruct (Dlls s !! _) as [d|] eqn:E; [|done]. exfalso.
  assert (2 + foldr Z.max 0 (map_to_list (Dlls s)).*1 <= foldr Z.max 0 (map_to_list (Dlls s)).*1); [|lia].
  apply max_bound, list_elem_of_fmap. eexists (_, d). split; [done|]. by apply elem_of_map_to_list.
Qed.

Lemma Err_ok : has_errors Err.
Proof. done. Qed.

(** A resolver that was just created. *)
Definition new_resolver : RESOLVER := MkResolver {[ 1 := MkLink 1 1 ]} ∅ [] 1 true.

Lemma new_ok : resolver_ok 1 new_resolver [].
Proof.
  exists []. split_and!; [|done|done]. split; simpl; try done.
  - split; [apply NoDup_singleton|]. by repeat split.
  - by intros H%list_elem_of_singleton.
  - intros E. rewrite lookup_empty. split; [by intros [? [=]]|by intros ?%not_elem_of_nil].
  - constructor.
Qed.

(** "C:\a.dll" with an explicit path, twice, then "a.dll" is removed. *)
Definition path : list Z := [67; 58; 92; 97; 46; 100; 108; 108].
Definition ops : list resolver_op :=
  [OpRegister (Some path) 1 0; OpRegister (Some path) 1 0; OpUnregister (Some [97; 46; 100; 108; 108])].

(** The second registration is not refused, and one survives the removal. *)
Example registered_twice :
  (fun r => (fst r, Loads (snd r))) <$>
    exec_resolver_ops 1 (fun c => c) Lib Err (Strip []) Malloc ops new_resolver =
  Some ([S_OK; S_OK; S_OK], [8]).
Proof. vm_compute. reflexivity. Qed.

Lemma registrations_refine_list_witness :
  exists rs s', exec_resolver_ops 1 (fun c => c) Lib Err (Strip []) Malloc ops new_resolver = Some (rs, s') /\
    exists s2, CdiagsDeleteResolver 1 s' = Some (S_OK, s2) /\ Loads s2 = [].
Proof.
  destruct (registrations_refine_list 1 (fun c => c) Lib Err (Strip []) Malloc Record_malloc_ok Err_ok ops
    new_resolver [] new_ok) as (rs & s' & l' & E & _ & _ & _ & s2 & E2 & HL & _).
  exists rs, s'. split; [exact E|]. exists s2. split; [exact E2|exact HL].
Defined.

(** The system knows nothing, a module has the message 7. *)
Definition Format (m id : Z) (use : bool) (ins : option (list (list Z))) (B : list Z) : Z * list Z * Z :=
  if (m =? 0) || negb (id =? 7) then (0, B, 317) else (1, store 0 [65; 0] B, 0).

Definition one : RESOLVER :=
  MkResolver (list_to_map [(1, MkLink 2 2); (2, MkLink 1 1)]) {[ 2 := MkDll [97] 9 ]} [9] 1 true.

Lemma one_ok : resolver_ok 1 one [MkDll [97] 9].
Proof.
  exists [2]. split_and!; [|done|by constructor]. split; simpl; try done.
  - split; [|by repeat split]. apply NoDup_cons. split; [by intros H%list_elem_of_singleton|apply NoDup_singleton].
  - by repeat setoid_rewrite elem_of_cons; rewrite elem_of_nil; intros [|[|]].
  - intros E. rewrite list_elem_of_singleton. split; [by intros [d [-> _]%lookup_singleton_Some]|].
    intros ->. by eexists.
  - apply NoDup_singleton.
Qed.

Lemma first_source_wins_witness :
  exists B', CdiagsResolveMessage 1 Format 7 0 None (Some [1; 1; 1]) one =
    Some ((S_OK, snd (CdiagsFormatMessage Format 9 7 true None B')), one).
Proof.
  apply (first_source_wins 1 Format one [] [MkDll [97] 9] 7 0 None [1; 1; 1] one_ok);
    try reflexivity; try done; intros; split; discriminate.
Defined.
End Demo.
