(* ===== verification/ConsoleSink.v ===== *)
(** * The console (cfix/cfixcons/eventsink.c)

    The event sink that the runner uses unless told otherwise: events become text on
    the console.  It implements the interface [CFIX_EVENT_SINK] that the proxy of
    EventEmitter calls.  The text of an error code comes from a message resolver, of
    which [R] is the state. *)
From stdpp Require Import base gmap list strings pretty.
From Stdlib Require Import ZArith Lia.
From S2P Require Import MsgResolver Prelude CfixApi TsExec EventEmitter RptStubs RunMain.
Local Open Scope Z_scope.
Local Open Scope cfix_scope.

Definition CFIX_E_UNSUPPORTED_EVENT_SINK_VERSION : Z := 0x8004801A.

(** [StringCchPrintf]: what is printed, if the buffer of [n] characters can hold it.
    [StringCchCat]: whether the buffer can hold what is appended, and the buffer. *)
Definition StringCchPrintf (n : nat) (s : string) : option string :=
  if (String.length s <? n)%nat then Some s else None.
Definition StringCchCat (n : nat) (Buffer s : string) : bool * string :=
  ((String.length (Buffer +:+ s) <? n)%nat, StringCch n (Buffer +:+ s)).

(** [%d] of a DWORD, [%x] *)
Definition Decimal (z : Z) : string := pretty (LONG z).
Definition LowerHexDigit (d : Z) : string :=
  match String.get (Z.to_nat d) "0123456789abcdef" with Some c => String c "" | None => "" end.
Fixpoint LowerHex (fuel : nat) (v : Z) : string :=
  match fuel with
  | O => ""
  | S n => (if v <? 16 then "" else LowerHex n (v / 16)) +:+ LowerHexDigit (v mod 16)
  end.
Definition NL : string := String (Ascii.ascii_of_nat 10) "".
Definition Indent : string := "                 ".

(** What is known about a frame of a stack. *)
Record FRAME_INFORMATION := MkFrame {
  ModuleName : string;
  FunctionName : string;
  Displacement : Z;
  SourceFile : string;
  SourceLine : Z }.

(* src/cfix/cfixcons/eventsink.c:39-58 (CFIXCONS_EVENT_SINK) *)
Record CFIXCONS_EVENT_SINK := MkConsSink {
  SkReferenceCount : Z;
  SkFlags : Z;
  SkResolver : Z;
  FailureCount : Z;
  InconclusiveCount : Z }.

(** The console, the sinks by their blocks, and the resolvers. *)
Record CW (R : Type) := MkCW {
  Console : string;
  SinkObjects : gmap Z CFIXCONS_EVENT_SINK;
  SkResolvers : R }.
Arguments MkCW {R}. Arguments Console {R}. Arguments SinkObjects {R}. Arguments SkResolvers {R}.

Section console.
Context {R : Type}.
(** The methods of resolvers: the result and the buffer of a size. *)
Context (ResolveMessage : Z -> Z -> Z -> nat -> ST R (Z * string)) (DereferenceResolver : Z -> ST R unit).
Context (CdiagCreateMessageResolver : ST R (Z * Z)) (malloc : gmap Z CFIXCONS_EVENT_SINK -> Z).
(** [GetInformationStackFrame]: the routine, if there is one, and what it finds out
    about a frame, if it finds out anything; the address of an exception ([%p]). *)
Context (GetInformationStackFrame : option (Z -> option FRAME_INFORMATION)).
Context (ExceptionAddress : CFIX_TESTCASE_EXECUTION_EVENT -> string).

Local Abbreviation M := (ST (CW R)).

Definition wprintf (s : string) : M unit :=
  modify (fun w => MkCW (Console w +:+ s) (SinkObjects w) (SkResolvers w)).
Definition resolver {A} (x : ST R A) : M A := fun w =>
  match x (SkResolvers w) with Some (a, r) => Some (a, MkCW (Console w) (SinkObjects w) r) | None => None end.
Definition load_object (a : Z) : M CFIXCONS_EVENT_SINK := fun w =>
  match SinkObjects w !! a with Some k => Some (k, w) | None => None end.
Definition store_object (a : Z) (k : CFIXCONS_EVENT_SINK) : M unit :=
  modify (fun w => MkCW (Console w) (<[a := k]> (SinkObjects w)) (SkResolvers w)).

(** ** Stack traces *)
(* src/cfix/cfixcons/eventsink.c:110-134 (CfixconssFormatStackTrace) *)
Definition FrameLine (ShowSourceInformation : bool) (i : FRAME_INFORMATION) : string :=
  if negb (SourceLine i =? 0) && ShowSourceInformation then
    Indent +:+ ModuleName i +:+ "!" +:+ FunctionName i +:+ " +0x" +:+ LowerHex 8 (Displacement i) +:+
    " (" +:+ SourceFile i +:+ ":" +:+ Decimal (SourceLine i) +:+ ")" +:+ NL
  else
    Indent +:+ ModuleName i +:+ "!" +:+ FunctionName i +:+ " +0x" +:+ LowerHex 8 (Displacement i) +:+ NL.

(* src/cfix/cfixcons/eventsink.c:67-148 (CfixconssFormatStackTrace) *)
Fixpoint CfixconssFormatStackTrace (GetInformation : Z -> option FRAME_INFORMATION) (Frames : list Z)
    (ShowSourceInformation : bool) (Buffer : string) (BufferSizeInChars : nat) : string :=
  match Frames with
  | [] => Buffer
  | Frame :: l =>
      match GetInformation Frame with
      | None => CfixconssFormatStackTrace GetInformation l ShowSourceInformation Buffer BufferSizeInChars
      | Some i =>
          match StringCchPrintf 200 (FrameLine ShowSourceInformation i) with
          | None => Buffer
          | Some FrameBuffer =>
              let r := StringCchCat BufferSizeInChars Buffer FrameBuffer in
              if fst r
              then CfixconssFormatStackTrace GetInformation l ShowSourceInformation (snd r) BufferSizeInChars
              else snd r
          end
      end
  end.

(** ** Methods *)
(* src/cfix/cfixcons/eventsink.c:156-164 (CfixconssReference) *)
Definition CfixconssReference (This : Z) : M unit :=
  k <- load_object This ;;
  store_object This (MkConsSink (LONG (SkReferenceCount k + 1)) (SkFlags k) (SkResolver k) (FailureCount k)
                       (InconclusiveCount k)).

(* src/cfix/cfixcons/eventsink.c:166-178 (CfixconssDereference) *)
Definition CfixconssDereference (This : Z) : M unit :=
  k <- load_object This ;;
  let n := LONG (SkReferenceCount k - 1) in
  store_object This (MkConsSink n (SkFlags k) (SkResolver k) (FailureCount k) (InconclusiveCount k)) ;;;
  when_ (n =? 0)
    (resolver (DereferenceResolver (SkResolver k)) ;;;
     modify (fun w => MkCW (Console w) (delete This (SinkObjects w)) (SkResolvers w))).

(* src/cfix/cfixcons/eventsink.c:180-212 (CfixconssResolveErrorMessage) *)
Definition CfixconssResolveErrorMessage (Resolver MessageCode : Z) (BufferSizeInChars : nat) : ST R string :=
  r <- ResolveMessage Resolver MessageCode
         (Z.lor CDIAG_MSGRES_RESOLVE_IGNORE_INSERTS CDIAG_MSGRES_STRIP_NEWLINES) BufferSizeInChars ;;
  ret (if CDIAG_E_UNKNOWN_MESSAGE =? fst r then StringCch BufferSizeInChars "Unknown error"
       else if FAILED (fst r) then ""
       else snd r).

(* src/cfix/cfixcons/eventsink.c:230-238 (CfixconssReportEvent) *)
Definition StackTraceText (Flags : Z) (Event : CFIX_TESTCASE_EXECUTION_EVENT) : string :=
  match GetInformationStackFrame, Frames Event with
  | Some GetInformation, _ :: _ =>
      CfixconssFormatStackTrace GetInformation (Frames Event)
        (negb (Z.land Flags CFIX_EVENT_SINK_FLAG_SHOW_STACKTRACE_SOURCE_INFORMATION =? 0)) "" 2048
  | _, _ => ""
  end.

Definition Subject (ModuleBaseName FixtureName TestCaseName : string) : string :=
  ModuleBaseName +:+ "." +:+ FixtureName +:+ "." +:+ TestCaseName.

(** The text of an event, given that of the last error. *)
(* src/cfix/cfixcons/eventsink.c:241-331 (CfixconssReportEvent) *)
Definition EventText (Flags : Z) (ModuleBaseName FixtureName TestCaseName : string)
    (Event : CFIX_TESTCASE_EXECUTION_EVENT) (LastErrorMessage : string) : string :=
  let Names := Subject ModuleBaseName FixtureName TestCaseName +:+ " " +:+ NL in
  let Trace := StackTraceText Flags Event +:+ NL +:+ NL in
  match Info Event with
  | FailedAssertion File Routine Line Expression LastError =>
      let Cause := Indent +:+ "Expression: " +:+ Expression +:+ NL +:+
        Indent +:+ "Last Error: " +:+ Decimal LastError +:+ " (" +:+ LastErrorMessage +:+ ")" +:+ NL +:+ NL in
      if negb (Line =? 0) then
        "[Failure]      " +:+ Names +:+
        Indent +:+ File +:+ "(" +:+ Decimal Line +:+ "): " +:+ Routine +:+ NL +:+ NL +:+ Cause +:+ Trace
      else "[Failure]      " +:+ Names +:+ Cause +:+ Trace
  | UncaughtException ExceptionCode =>
      "[Failure]      " +:+ Names +:+
      Indent +:+ StringCch 260 ("Unhandled Exception 0x" +:+ Hex 8 ExceptionCode +:+ " at " +:+ ExceptionAddress Event) +:+
      NL +:+ NL +:+ Trace
  | Inconclusiveness Message => "[Inconclusive] " +:+ Names +:+ Indent +:+ Message +:+ NL +:+ NL +:+ Trace
  | Log Message => "[Log]          " +:+ Names +:+ Indent +:+ Message +:+ NL +:+ NL
  end.

(* src/cfix/cfixcons/eventsink.c:214-332 (CfixconssReportEvent) *)
Definition CfixconssReportEvent (This : Z) (Thread : CFIX_THREAD_ID)
    (ModuleBaseName FixtureName TestCaseName : string) (Event : CFIX_TESTCASE_EXECUTION_EVENT) : M unit :=
  Sink <- load_object This ;;
  LastErrorMessage <-
    match Info Event with
    | FailedAssertion _ _ _ _ LastError =>
        resolver (CfixconssResolveErrorMessage (SkResolver Sink) LastError 260)
    | _ => ret ""
    end ;;
  wprintf (EventText (SkFlags Sink) ModuleBaseName FixtureName TestCaseName Event LastErrorMessage).

(* src/cfix/cfixcons/eventsink.c:334-349 (CfixconssBeforeFixtureStart) *)
Definition CfixconssBeforeFixtureStart (This : Z) (Thread : CFIX_THREAD_ID)
    (ModuleBaseName FixtureName : string) : M unit := ret tt.

(* src/cfix/cfixcons/eventsink.c:351-368 (CfixconssAfterFixtureFinish) *)
Definition CfixconssAfterFixtureFinish (This : Z) (Thread : CFIX_THREAD_ID)
    (ModuleBaseName FixtureName : string) (RanToCompletion : bool) : M unit := ret tt.

(* src/cfix/cfixcons/eventsink.c:370-390 (CfixconssBeforeTestCaseStart) *)
Definition CfixconssBeforeTestCaseStart (This : Z) (Thread : CFIX_THREAD_ID)
    (ModuleBaseName FixtureName TestCaseName : string) : M unit :=
  k <- load_object This ;;
  store_object This (MkConsSink (SkReferenceCount k) (SkFlags k) (SkResolver k) 0 0).

Definition SuccessText (ModuleBaseName FixtureName TestCaseName : string) : string :=
  "[Success]      " +:+ Subject ModuleBaseName FixtureName TestCaseName +:+ NL.

(* src/cfix/cfixcons/eventsink.c:392-431 (CfixconssAfterTestCaseFinish) *)
Definition CfixconssAfterTestCaseFinish (This : Z) (Thread : CFIX_THREAD_ID)
    (ModuleBaseName FixtureName TestCaseName : string) (RanToCompletion : bool) : M unit :=
  Sink <- load_object This ;;
  when_ ((FailureCount Sink =? 0) && (InconclusiveCount Sink =? 0))
    (wprintf (SuccessText ModuleBaseName FixtureName TestCaseName)).

(** The sink as the proxy sees it. *)
Definition console_sink (This : Z) : CFIX_EVENT_SINK (CW R) := {|
  SinkReportEvent := CfixconssReportEvent This;
  SinkBeforeFixtureStart := CfixconssBeforeFixtureStart This;
  SinkAfterFixtureFinish := CfixconssAfterFixtureFinish This;
  SinkBeforeTestCaseStart := CfixconssBeforeTestCaseStart This;
  SinkAfterTestCaseFinish := CfixconssAfterTestCaseFinish This;
  SinkReference := CfixconssReference This;
  SinkDereference := CfixconssDereference This |}.

(** A result code, and the sink.  A block of zeroes is made first. *)
(* src/cfix/cfixcons/eventsink.c:440-500 (CreateEventSink) *)
Definition CreateEventSink (Version Flags : Z) (Options : option string) (Sink : Z) : M (Z * Z) :=
  if negb (Version =? CFIX_EVENT_SINK_VERSION) then ret (CFIX_E_UNSUPPORTED_EVENT_SINK_VERSION, 0)
  else if Sink =? 0 then ret (E_INVALIDARG, 0)
  else
    match Options with
    | Some _ => ret (E_INVALIDARG, 0)
    | None =>
        w <- gets (fun w => w) ;;
        let NewSink := malloc (SinkObjects w) in
        if NewSink =? 0 then ret (E_OUTOFMEMORY, 0)
        else
          store_object NewSink (MkConsSink 1 Flags 0 0 0) ;;;
          r <- resolver CdiagCreateMessageResolver ;;
          if FAILED (fst r) then
            modify (fun w => MkCW (Console w) (delete NewSink (SinkObjects w)) (SkResolvers w)) ;;; ret (fst r, 0)
          else
            store_object NewSink (MkConsSink 1 Flags (snd r) 0 0) ;;; ret (S_OK, NewSink)
    end.

(** ** The stack trace fits its buffer *)
Lemma app_String c (a b : string) : String c a +:+ b = String c (a +:+ b).
Proof. done. Qed.

Lemma str_app_nil (a : string) : a +:+ "" = a.
Proof. induction a as [|c a IH]; [done|]. by rewrite app_String, IH. Qed.

Lemma str_app_assoc (a b d : string) : (a +:+ b) +:+ d = a +:+ (b +:+ d).
Proof. induction a as [|c a IH]; [done|]. by rewrite !app_String, IH. Qed.

Lemma substring_all s : forall k, (String.length s <= k)%nat -> String.substring 0 k s = s.
Proof.
  induction s as [|c s IH]; intros [|k] H; cbn in *; try done; [lia|]. by rewrite IH by lia.
Qed.

Lemma substring_app_long a b : forall k, (k <= String.length a)%nat ->
  String.substring 0 k (a +:+ b) = String.substring 0 k a.
Proof.
  induction a as [|c a IH]; intros [|k] H; [by destruct b|by inversion H|done|].
  rewrite app_String. cbn. f_equal. apply IH. cbn in H. lia.
Qed.

Lemma length_substring s : forall k, (String.length (String.substring 0 k s) <= k)%nat.
Proof. induction s as [|c s IH]; intros [|k]; cbn; [lia..|]. specialize (IH k). lia. Qed.

(** The lines of the frames something is known about, up to the first that does not fit
    the buffer for a line. *)
Fixpoint Lines (GetInformation : Z -> option FRAME_INFORMATION) (Show : bool) (Frames : list Z) : string :=
  match Frames with
  | [] => ""
  | f :: l =>
      match GetInformation f with
      | None => Lines GetInformation Show l
      | Some i =>
          if (String.length (FrameLine Show i) <? 200)%nat then FrameLine Show i +:+ Lines GetInformation Show l else ""
      end
  end.

Lemma format_stack_trace G Show n l : forall Buffer, (String.length Buffer < n)%nat ->
  CfixconssFormatStackTrace G l Show Buffer n = StringCch n (Buffer +:+ Lines G Show l).
Proof.
  unfold StringCch. induction l as [|f l IH]; intros Buffer Hb; cbn [CfixconssFormatStackTrace Lines].
  { rewrite str_app_nil, substring_all by lia. done. }
  destruct (G f) as [i|]; [|by apply IH]. unfold StringCchPrintf.
  destruct (Nat.ltb_spec (String.length (FrameLine Show i)) 200) as [Hl|Hl].
  2: { rewrite str_app_nil, substring_all by lia. done. }
  unfold StringCchCat, StringCch. cbn [fst snd]. rewrite <- str_app_assoc.
  destruct (Nat.ltb_spec (String.length (Buffer +:+ FrameLine Show i)) n) as [Hn|Hn].
  - rewrite substring_all by lia. by apply IH.
  - rewrite (substring_app_long (Buffer +:+ FrameLine Show i)) by lia. done.
Qed.

(** ** What is shown *)
Inductive SINK_CALL :=
  | SkReport (Thread : CFIX_THREAD_ID) (m f t : string) (Event : CFIX_TESTCASE_EXECUTION_EVENT)
  | SkBeforeFixture (Thread : CFIX_THREAD_ID) (m f : string)
  | SkAfterFixture (Thread : CFIX_THREAD_ID) (m f : string) (RanToCompletion : bool)
  | SkBeforeTestCase (Thread : CFIX_THREAD_ID) (m f t : string)
  | SkAfterTestCase (Thread : CFIX_THREAD_ID) (m f t : string) (RanToCompletion : bool)
  | SkReference_
  | SkDereference_.

Definition sink_call {W} (k : CFIX_EVENT_SINK W) (c : SINK_CALL) : ST W unit :=
  match c with
  | SkReport th m f t e => SinkReportEvent k th m f t e
  | SkBeforeFixture th m f => SinkBeforeFixtureStart k th m f
  | SkAfterFixture th m f r => SinkAfterFixtureFinish k th m f r
  | SkBeforeTestCase th m f t => SinkBeforeTestCaseStart k th m f t
  | SkAfterTestCase th m f t r => SinkAfterTestCaseFinish k th m f t r
  | SkReference_ => SinkReference k
  | SkDereference_ => SinkDereference k
  end.

Fixpoint sink_calls {W} (k : CFIX_EVENT_SINK W) (l : list SINK_CALL) : ST W unit :=
  match l with [] => ret tt | c :: l => sink_call k c ;;; sink_calls k l end.

(** The text of one call depends on this call only (and on the resolver). *)
Definition ShownText (Flags Resolver : Z) (c : SINK_CALL) : ST R string :=
  match c with
  | SkReport _ m f t e =>
      LastErrorMessage <- match Info e with
                          | FailedAssertion _ _ _ _ LastError => CfixconssResolveErrorMessage Resolver LastError 260
                          | _ => ret ""
                          end ;;
      ret (EventText Flags m f t e LastErrorMessage)
  | SkAfterTestCase _ m f t _ => ret (SuccessText m f t)
  | _ => ret ""
  end.

Fixpoint Transcript (Flags Resolver : Z) (l : list SINK_CALL) : ST R string :=
  match l with
  | [] => ret ""
  | c :: l => a <- ShownText Flags Resolver c ;; b <- Transcript Flags Resolver l ;; ret (a +:+ b)
  end.

(** The references after some calls, as long as there are any. *)
Fixpoint references (n : Z) (l : list SINK_CALL) : option Z :=
  if n <=? 0 then None
  else
    match l with
    | [] => Some n
    | SkReference_ :: l => references (n + 1) l
    | SkDereference_ :: l => references (n - 1) l
    | _ :: l => references n l
    end.

(** A sink as it is created; no call changes its counters. *)
Definition AsCreated (n Flags Resolver : Z) : CFIXCONS_EVENT_SINK := MkConsSink n Flags Resolver 0 0.

Definition refs_delta (c : SINK_CALL) : Z :=
  match c with SkReference_ => 1 | SkDereference_ => -1 | _ => 0 end.

Lemma references_cons n c l n' : references n (c :: l) = Some n' -> 0 < n /\ references (n + refs_delta c) l = Some n'.
Proof.
  cbn. destruct (Z.leb_spec n 0); [done|]. intros H0. split; [lia|].
  destruct c; cbn; rewrite ?Z.add_0_r; done.
Qed.

Lemma references_pos n l n' : references n l = Some n' -> 0 < n.
Proof. destruct l; cbn; destruct (Z.leb_spec n 0); done. Qed.

(** One call: its text, and a sink as it was but for the references. *)
Lemma call_shown This c n Flags Resolver w text r' :
  SinkObjects w !! This = Some (AsCreated n Flags Resolver) -> 0 < n < 2 ^ 31 - 1 -> 0 < n + refs_delta c ->
  ShownText Flags Resolver c (SkResolvers w) = Some (text, r') ->
  sink_call (console_sink This) c w =
  Some (tt, MkCW (Console w +:+ text) (<[This := AsCreated (n + refs_delta c) Flags Resolver]> (SinkObjects w)) r').
Proof.
  intros Hk Hn Hd HT.
  pose proof (str_app_nil (Console w)) as Hnil.
  assert (<[This := AsCreated n Flags Resolver]> (SinkObjects w) = SinkObjects w) as Hid by (by apply insert_id).
  assert (load_object This w = Some (AsCreated n Flags Resolver, w)) as Hl by (unfold load_object; by rewrite Hk).
  destruct c as [th m f t e|th m f|th m f b|th m f t|th m f t b| |]; cbn [refs_delta] in *; rewrite ?Z.add_0_r in *;
    cbn [sink_call console_sink SinkReportEvent SinkBeforeFixtureStart SinkAfterFixtureFinish SinkBeforeTestCaseStart
      SinkAfterTestCaseFinish SinkReference SinkDereference ShownText] in *.
  - unfold CfixconssReportEvent. rewrite (bind_eq _ _ _ _ _ Hl). apply bind_Some in HT as (msg & r1 & E1 & E2).
    injection E2 as <- <-. cbn [SkResolver SkFlags AsCreated]. unfold bind, resolver, wprintf.
    destruct (Info e); cbn in E1 |- *; try (injection E1 as <- <-; by rewrite Hid). rewrite E1. cbn. by rewrite Hid.
  - injection HT as <- <-. unfold CfixconssBeforeFixtureStart, ret. rewrite Hnil, Hid. by destruct w.
  - injection HT as <- <-. unfold CfixconssAfterFixtureFinish, ret. rewrite Hnil, Hid. by destruct w.
  - injection HT as <- <-. unfold CfixconssBeforeTestCaseStart. rewrite (bind_eq _ _ _ _ _ Hl), Hnil. done.
  - injection HT as <- <-. unfold CfixconssAfterTestCaseFinish. rewrite (bind_eq _ _ _ _ _ Hl), Hid. done.
  - injection HT as <- <-. unfold CfixconssReference. rewrite (bind_eq _ _ _ _ _ Hl), Hnil.
    unfold store_object, modify. cbn. by rewrite LONG_small by lia.
  - injection HT as <- <-. unfold CfixconssDereference. rewrite (bind_eq _ _ _ _ _ Hl), Hnil.
    cbn [SkReferenceCount AsCreated]. rewrite LONG_small by lia. cbv zeta.
    destruct (Z.eqb_spec (n - 1) 0); [lia|]. done.
Qed.

(** C33. What the console shows: whatever is reported to the sink, in any order and from
    any threads, as long as the sink is referenced, every call returns and appends the
    text of its event, which depends on nothing that was reported before.  In
    particular every test case that is finished is shown as a success, its failures
    notwithstanding; the sink itself stays as it was created. *)
Theorem console_shows_calls This l : forall n n' Flags Resolver w text r',
  SinkObjects w !! This = Some (AsCreated n Flags Resolver) ->
  references n l = Some n' -> n + Z.of_nat (length l) < 2 ^ 31 ->
  Transcript Flags Resolver l (SkResolvers w) = Some (text, r') ->
  sink_calls (console_sink This) l w =
  Some (tt, MkCW (Console w +:+ text) (<[This := AsCreated n' Flags Resolver]> (SinkObjects w)) r').
Proof.
  induction l as [|c l IH]; intros n n' Flags Resolver w text r' Hk Hr Hn HT.
  - cbn in Hr. destruct (n <=? 0); [done|]. injection Hr as <-. injection HT as <- <-. cbn. unfold ret. do 2 f_equal.
    rewrite insert_id by done. rewrite str_app_nil. by destruct w.
  - apply references_cons in Hr as [H0 Hr]. cbn [length] in Hn. pose proof (references_pos _ _ _ Hr) as Hp.
    cbn [Transcript] in HT. apply bind_Some in HT as (a & r1 & Ea & HT). apply bind_Some in HT as (b & r2 & Eb & HT).
    injection HT as <- <-. cbn [sink_calls].
    rewrite (bind_eq _ _ _ _ _ (call_shown This c n Flags Resolver w a r1 Hk ltac:(lia) ltac:(lia) Ea)).
    erewrite (IH (n + refs_delta c) n' Flags Resolver); [|cbn; by rewrite lookup_insert_eq|done| |exact Eb].
    + cbn [Console SinkObjects]. by rewrite insert_insert_eq, str_app_assoc.
    + destruct c; cbn [refs_delta]; lia.
Qed.

(** The last reference: the sink is gone, and its reference to the resolver. *)
Lemma last_dereference This Flags Resolver w r' : SinkObjects w !! This = Some (AsCreated 1 Flags Resolver) ->
  DereferenceResolver Resolver (SkResolvers w) = Some (tt, r') ->
  CfixconssDereference This w = Some (tt, MkCW (Console w) (delete This (SinkObjects w)) r').
Proof.
  intros Hk Hr. unfold CfixconssDereference.
  assert (load_object This w = Some (AsCreated 1 Flags Resolver, w)) as Hl by (unfold load_object; by rewrite Hk).
  rewrite (bind_eq _ _ _ _ _ Hl). cbn [SkReferenceCount SkFlags SkResolver AsCreated].
  change (LONG (1 - 1)) with 0. cbv zeta. unfold bind, resolver, store_object, modify. cbn. rewrite Hr. cbn.
  by rewrite delete_insert_eq.
Qed.

(** The text of a stack trace: the lines of its frames, cut off at the size of the
    buffer. *)
Lemma stack_trace_text Flags e G : GetInformationStackFrame = Some G ->
  StackTraceText Flags e =
    String.substring 0 2047 (Lines G (negb (Z.land Flags CFIX_EVENT_SINK_FLAG_SHOW_STACKTRACE_SOURCE_INFORMATION =? 0))
                               (Frames e)) /\
  (String.length (StackTraceText Flags e) < 2048)%nat.
Proof.
  intros HG. unfold StackTraceText. rewrite HG.
  assert (forall l, (String.length (String.substring 0 2047 l) < 2048)%nat) as Hb.
  { intros l. pose proof (length_substring l 2047). lia. }
  destruct (Frames e) as [|f l]; [split; [done|cbn; lia]|]. rewrite format_stack_trace by (cbn; lia). split; [done|]. apply Hb.
Qed.

(** Creating a sink: an error and nothing else, or a new sink in a fresh block that
    holds a new resolver. *)
Lemma create_sink Version Flags Options Sink w : SinkObjects w !! malloc (SinkObjects w) = None ->
  (exists Hr h r', CdiagCreateMessageResolver (SkResolvers w) = Some ((Hr, h), r')) ->
  exists Hr h w', CreateEventSink Version Flags Options Sink w = Some ((Hr, h), w') /\ Console w' = Console w /\
  if FAILED Hr then h = 0 /\ SinkObjects w' = SinkObjects w
  else
    h = malloc (SinkObjects w) /\ h <> 0 /\ exists Resolver r0,
      CdiagCreateMessageResolver (SkResolvers w) = Some ((r0, Resolver), SkResolvers w') /\
      SinkObjects w' = <[h := AsCreated 1 Flags Resolver]> (SinkObjects w).
Proof.
  intros Hn (Hr & h & r' & E). unfold CreateEventSink.
  assert (forall E, FAILED E = true -> exists Hr0 h0 w', ret (E, 0) w = Some ((Hr0, h0), w') /\ Console w' = Console w /\
    if FAILED Hr0 then h0 = 0 /\ SinkObjects w' = SinkObjects w
    else h0 = malloc (SinkObjects w) /\ h0 <> 0 /\ exists Resolver r0,
      CdiagCreateMessageResolver (SkResolvers w) = Some ((r0, Resolver), SkResolvers w') /\
      SinkObjects w' = <[h0 := AsCreated 1 Flags Resolver]> (SinkObjects w)) as Hfail.
  { intros e HE. exists e, 0, w. by rewrite HE. }
  destruct (negb _); [by apply Hfail|]. destruct (Sink =? 0); [by apply Hfail|].
  destruct Options; [by apply Hfail|]. rewrite bind_gets. cbv zeta.
  destruct (Z.eqb_spec (malloc (SinkObjects w)) 0) as [E0|E0]; [by apply Hfail|].
  set (w1 := MkCW (Console w) (<[malloc (SinkObjects w) := AsCreated 1 Flags 0]> (SinkObjects w)) (SkResolvers w)).
  unfold store_object at 1. rewrite bind_modify. fold (AsCreated 1 Flags 0). fold w1.
  assert (resolver CdiagCreateMessageResolver w1 = Some ((Hr, h), MkCW (Console w) (SinkObjects w1) r')) as E1.
  { unfold resolver. subst w1. cbn. by rewrite E. }
  rewrite (bind_eq _ _ _ _ _ E1). cbn [fst snd]. destruct (FAILED Hr) eqn:HF.
  - eexists Hr, 0, _. split; [reflexivity|]. rewrite HF. cbn. by rewrite delete_insert_id.
  - eexists S_OK, _, _. split; [reflexivity|]. split; [done|]. change (FAILED S_OK) with false. cbv iota.
    split; [done|]. split; [done|]. exists h, Hr. cbn. split; [done|]. by rewrite insert_insert_eq.
Qed.
End console.

Module Demo.
(** A resolver that knows one code. *)
Definition Resolve (Resolver Code Flags : Z) (n : nat) : ST unit (Z * string) :=
  ret (if Code =? 5 then (S_OK, "Access is denied.") else (CDIAG_E_UNKNOWN_MESSAGE, "")).
Definition Information (f : Z) : option FRAME_INFORMATION :=
  if f =? 0x401010 then Some (MkFrame "suite" "Add" 0x10 "suite.c" 42) else None.
Definition Address (e : CFIX_TESTCASE_EXECUTION_EVENT) : string := "00401000".

Definition tid : CFIX_THREAD_ID := MkThreadId 1 1.
Definition failure : CFIX_TESTCASE_EXECUTION_EVENT :=
  MkEvent (FailedAssertion "suite.c" "Add" 42 "a == b" 5) [0x77000000; 0x401010].
Definition world : CW unit := MkCW "" {[0x100 := AsCreated 1 1 0x200]} tt.
Definition calls : list SINK_CALL :=
  [SkBeforeTestCase tid "suite" "Math" "Add"; SkReference_; SkReport tid "suite" "Math" "Add" failure;
   SkDereference_; SkAfterTestCase tid "suite" "Math" "Add" true].

(** The failed test case is shown as a failure and then as a success. *)
Definition shown : string :=
  "[Failure]      suite.Math.Add " +:+ NL +:+
  "                 suite.c(42): Add" +:+ NL +:+ NL +:+
  "                 Expression: a == b" +:+ NL +:+
  "                 Last Error: 5 (Access is denied.)" +:+ NL +:+ NL +:+
  "                 suite!Add +0x10 (suite.c:42)" +:+ NL +:+ NL +:+ NL +:+
  "[Success]      suite.Math.Add" +:+ NL.

Local Abbreviation sink := (console_sink Resolve (fun _ => ret tt) (Some Information) Address 0x100).

Lemma console_shows_calls_witness :
  sink_calls sink calls world = Some (tt, MkCW shown {[0x100 := AsCreated 1 1 0x200]} tt).
Proof.
  rewrite (console_shows_calls Resolve (fun _ => ret tt) (Some Information) Address 0x100 calls 1 1 1 0x200 world shown tt).
  - by vm_compute.
  - by vm_compute.
  - by vm_compute.
  - by vm_compute.
  - by vm_compute.
Defined.

(** The same through the proxy: a test case that fails. *)
Definition context : CFIX_EXECUTION_CONTEXT (CW unit) := {|
  CtxVersion := 0;
  ReportEvent := fun _ _ => ret CfixContinue;
  QueryDefaultDisposition := fun _ => ret CfixContinue;
  BeforeFixtureStart := fun _ _ => ret S_OK;
  AfterFixtureFinish := fun _ _ _ => ret tt;
  BeforeTestCaseStart := fun _ _ _ => ret S_OK;
  AfterTestCaseFinish := fun _ _ _ _ => ret tt;
  CreateChildThread := fun _ => ret (S_OK, 0);
  BeforeChildThreadStart := fun _ _ => ret tt;
  AfterChildThreadFinish := fun _ _ => ret tt;
  OnUnhandledException := fun _ _ => ret tt;
  CtxReference := ret tt;
  CtxDereference := ret tt |}.

Lemma failed_test_case_on_console :
  let fx := MkFixture "Math" 0 0 0 0 1 0 "suite" [MkTestCase "Add" 1] in
  let p := proxy context sink in
  (fun x => Console (snd (snd x))) <$>
  (BeforeFixtureStart p tid fx ;;;
   BeforeTestCaseStart p tid fx (MkTestCase "Add" 1) ;;;
   ReportEvent p tid failure ;;;
   AfterTestCaseFinish p tid fx (MkTestCase "Add" 1) true) (MkProxy false None None 1 false, world) = Some shown.
Proof. by vm_compute. Qed.
End Demo.
