(* ===== verification/StackTrace.v ===== *)
(** * Stack traces, and the process-wide state of cfix (cfix/cfix/stacktrace.c, main.c)

    Stack traces are captured with the library dbghelp, which is loaded when the first
    one is needed and must not be used by two threads at a time.  Operations take the
    thread [Tid] they run on; entering the lock while another thread holds it has no
    outcome.  The library is an interface; a call through a pointer that has not been
    linked has no outcome. *)
From stdpp Require Import base gmap list strings.
From Stdlib Require Import ZArith Lia.
From S2P Require Import Prelude Filament ConsoleSink.
Local Open Scope Z_scope.
Local Open Scope cfix_scope.

(* src/include/cfixmsg.h:215-221 (CFIX_E_DBGHELP_MISSING) *)
Definition CFIX_E_DBGHELP_MISSING : Z := 0x80048013.
(* src/include/cfixmsg.h:224-230 (CFIX_E_LOADING_DBGHELP_FAILED) *)
Definition CFIX_E_LOADING_DBGHELP_FAILED : Z := 0x80048014.
Definition STRSAFE_E_INSUFFICIENT_BUFFER : Z := 0x8007007A.
Definition TLS_OUT_OF_INDEXES : Z := 0xFFFFFFFF.
Definition MAX_PATH : nat := 260.

Inductive MACHINE := IMAGE_FILE_MACHINE_I386 | IMAGE_FILE_MACHINE_AMD64 | IMAGE_FILE_MACHINE_IA64.

(** Program counter, frame and stack pointer, and the backing store of an IA64. *)
Record CONTEXT := MkContext { Pc : Z; Fp : Z; Sp : Z; Bsp : Z }.
Record STACKFRAME64 := MkStackFrame { AddrPC : Z; AddrFrame : Z; AddrBStore : Z; AddrStack : Z }.

(** The pointers are those of the routines of these names. *)
(* src/cfix/cfix/stacktrace.c:105-117 (CFIXP_DBGHELP) *)
Record CFIXP_DBGHELP := MkDbghelp { Module : Z; Proc : string -> Z }.
Definition ProcNames : list string :=
  ["SymInitializeW"; "SymFunctionTableAccess64"; "SymGetModuleBase64"; "StackWalk64"; "SymGetLineFromAddrW64";
   "UnDecorateSymbolNameW"; "SymFromAddrW"; "SymGetModuleInfoW64"]%string.

(** A lock that has not been initialised, or has been deleted, is [None]. *)
Record DW (X : Type) := MkDW {
  DbgHelpLock : option LOCK;
  DbgSymInitialized : bool;
  Dbghelp : CFIXP_DBGHELP;
  DefaultFilamentLock : bool;
  TlsSlots : list Z;
  Rest : X }.
Arguments MkDW {X}. Arguments DbgHelpLock {X}. Arguments DbgSymInitialized {X}. Arguments Dbghelp {X}.
Arguments DefaultFilamentLock {X}. Arguments TlsSlots {X}. Arguments Rest {X}.

(** ** The system and the library

    What yields text yields an error instead. *)
Class DbgSystem (X : Type) := MkDbgSystem {
  GetModuleFileName : ST X (Z + string);
  PathRemoveFileSpec : string -> string;
  PathAppend : string -> string -> string;
  FileExists : string -> ST X bool;
  LoadLibrary : string -> ST X Z;
  FreeLibrary : Z -> ST X unit;
  GetProcAddress : Z -> string -> ST X Z;
  RtlCaptureContext : ST X CONTEXT;
  (** The error, if it fails. *)
  SymInitialize : ST X (option Z);
  (** The next frame, if there is one. *)
  StackWalk64 : MACHINE -> STACKFRAME64 -> CONTEXT -> ST X (option (STACKFRAME64 * CONTEXT));
  SymGetModuleInfo64 : Z -> ST X (Z + string);
  (** A name and the displacement. *)
  SymFromAddr : Z -> ST X (Z + string * Z);
  UnDecorateSymbolName : string -> nat -> ST X (Z + string);
  (** A line and the file. *)
  SymGetLineFromAddr64 : Z -> ST X (option (Z * string));
  TlsAlloc : ST X Z;
  TlsFree : Z -> ST X bool }.

Section stacktrace.
Context {X : Type} {Sys : DbgSystem X} (Machine : MACHINE).
Local Abbreviation M := (ST (DW X)).

Definition rest {A} (m : ST X A) : M A := fun s =>
  match m (Rest s) with
  | Some (a, x) => Some (a, MkDW (DbgHelpLock s) (DbgSymInitialized s) (Dbghelp s) (DefaultFilamentLock s) (TlsSlots s) x)
  | None => None
  end.
Definition set_lock (l : option LOCK) (s : DW X) : DW X :=
  MkDW l (DbgSymInitialized s) (Dbghelp s) (DefaultFilamentLock s) (TlsSlots s) (Rest s).
Definition set_initialized (b : bool) (s : DW X) : DW X :=
  MkDW (DbgHelpLock s) b (Dbghelp s) (DefaultFilamentLock s) (TlsSlots s) (Rest s).
Definition set_dbghelp (d : CFIXP_DBGHELP) (s : DW X) : DW X :=
  MkDW (DbgHelpLock s) (DbgSymInitialized s) d (DefaultFilamentLock s) (TlsSlots s) (Rest s).
Definition set_slots (b : bool) (l : list Z) (s : DW X) : DW X :=
  MkDW (DbgHelpLock s) (DbgSymInitialized s) (Dbghelp s) b l (Rest s).

Definition EnterLock (Tid : Z) : M unit := fun s =>
  match DbgHelpLock s with
  | None => None
  | Some l =>
      match Owner l with
      | None => Some (tt, set_lock (Some (MkLock (Some Tid) 1)) s)
      | Some t => if t =? Tid then Some (tt, set_lock (Some (MkLock (Some t) (Depth l + 1))) s) else None
      end
  end.
Definition LeaveLock : M unit := fun s =>
  match DbgHelpLock s with
  | None => None
  | Some l => let d := Depth l - 1 in
              Some (tt, set_lock (Some (if d =? 0 then free_lock else MkLock (Owner l) d)) s)
  end.

(** A call through a pointer to a routine of the library. *)
Definition via {A} (Name : string) (m : ST X A) : M A :=
  d <- gets Dbghelp ;; assert_ (negb (Proc d Name =? 0)) ;;; rest m.

(* src/cfix/cfix/stacktrace.c:127-131 (CfixpSetupStackTraceCapturing) *)
Definition CfixpSetupStackTraceCapturing : M bool := modify (set_lock (Some free_lock)) ;;; ret true.

(* src/cfix/cfix/stacktrace.c:133-141 (CfixpTeardownStackTraceCapturing) *)
Definition CfixpTeardownStackTraceCapturing : M unit :=
  modify (set_lock None) ;;;
  d <- gets Dbghelp ;;
  when_ (negb (Module d =? 0)) (rest (FreeLibrary (Module d))).

(** The assignments of the pointers. *)
(* src/cfix/cfix/stacktrace.c:171-187 (CfixsLinkDbghelp) *)
Fixpoint LinkProcs (Names : list string) : M unit :=
  match Names with
  | [] => ret tt
  | n :: Names =>
      d <- gets Dbghelp ;;
      p <- rest (GetProcAddress (Module d) n) ;;
      modify (set_dbghelp (MkDbghelp (Module d) (fun m => if String.eqb m n then p else Proc d m))) ;;;
      LinkProcs Names
  end.

(* src/cfix/cfix/stacktrace.c:143-203 (CfixsLinkDbghelp) *)
Definition CfixsLinkDbghelp : M Z :=
  p <- rest GetModuleFileName ;;
  match p with
  | inl e => ret (HRESULT_FROM_WIN32 e)
  | inr p =>
      let ModulePath := PathAppend (PathRemoveFileSpec p) "dbghelp.dll" in
      e <- rest (FileExists ModulePath) ;;
      if negb e then ret CFIX_E_DBGHELP_MISSING
      else
        m <- rest (LoadLibrary ModulePath) ;;
        d <- gets Dbghelp ;;
        modify (set_dbghelp (MkDbghelp m (Proc d))) ;;;
        if m =? 0 then ret CFIX_E_LOADING_DBGHELP_FAILED
        else
          LinkProcs ProcNames ;;;
          d <- gets Dbghelp ;;
          ret (if existsb (fun n => Proc d n =? 0) ProcNames then CFIX_E_LOADING_DBGHELP_FAILED else S_OK)
  end.

(* src/cfix/cfix/stacktrace.c:205-229 (CfixsLazyInitializeDbgHelp) *)
Definition CfixsLazyInitializeDbgHelp : M Z :=
  b <- gets DbgSymInitialized ;;
  if b : bool then ret S_OK
  else
    Hr <- CfixsLinkDbghelp ;;
    if FAILED Hr then ret Hr
    else
      e <- via "SymInitializeW" SymInitialize ;;
      match e with
      | None => modify (set_initialized true) ;;; ret S_OK
      | Some Err => ret (HRESULT_FROM_WIN32 Err)
      end.

(** The frame the walk starts with. *)
(* src/cfix/cfix/stacktrace.c:278-308 (CfixpCaptureStackTrace) *)
Definition FirstFrame (Context : CONTEXT) : STACKFRAME64 :=
  match Machine with
  | IMAGE_FILE_MACHINE_I386 => MkStackFrame (Pc Context) (Fp Context) 0 (Sp Context)
  | IMAGE_FILE_MACHINE_AMD64 => MkStackFrame (Pc Context) (Sp Context) 0 (Sp Context)
  | IMAGE_FILE_MACHINE_IA64 => MkStackFrame (Pc Context) (Sp Context) (Bsp Context) (Sp Context)
  end.

(** The loop; [Left] frames are still allowed.  On an I386 no context is passed, the one
    of the model is not used then. *)
(* src/cfix/cfix/stacktrace.c:320-353 (CfixpCaptureStackTrace) *)
Fixpoint WalkStack (Left : nat) (StackFrame : STACKFRAME64) (Context : CONTEXT) : M (list Z) :=
  match Left with
  | O => ret []
  | S Left =>
      r <- via "StackWalk64" (StackWalk64 Machine StackFrame Context) ;;
      match r with
      | None => ret []
      | Some (StackFrame, Context) =>
          if negb (AddrPC StackFrame =? 0) then
            l <- WalkStack Left StackFrame Context ;; ret (AddrPC StackFrame :: l)
          else ret []
      end
  end.

(** The result and the frames. *)
(* src/cfix/cfix/stacktrace.c:239-359 (CfixpCaptureStackTrace) *)
Definition CfixpCaptureStackTrace (Tid : Z) (InitialContext : option CONTEXT) (MaxFrames : nat) : M (Z * list Z) :=
  Context <- match InitialContext with None => rest RtlCaptureContext | Some c => ret c end ;;
  EnterLock Tid ;;;
  Hr <- CfixsLazyInitializeDbgHelp ;;
  Frames <- (if SUCCEEDED Hr then WalkStack MaxFrames (FirstFrame Context) Context else ret []) ;;
  LeaveLock ;;;
  ret (Hr, Frames).

(** [StringCchCopy]: the result and what is in the buffer. *)
Definition CchCopy (n : nat) (s : string) : Z * string :=
  if (String.length s <? n)%nat then (S_OK, s) else (STRSAFE_E_INSUFFICIENT_BUFFER, String.substring 0 (n - 1) s).

(** The sizes of the buffers of a query. *)
Record BUFFERS := MkBuffers { ModuleNameCch : nat; FunctionNameCch : nat; SourceFileCch : nat }.

(** The part under the lock, up to the label [Cleanup]; [i] is what is in the buffers. *)
(* src/cfix/cfix/stacktrace.c:406-492 (CfixpGetInformationStackframe) *)
Definition DescribeFrame (Frame : Z) (b : BUFFERS) (i : FRAME_INFORMATION) : M (Z * FRAME_INFORMATION) :=
  m <- via "SymGetModuleInfoW64" (SymGetModuleInfo64 Frame) ;;
  match m with
  | inl e => ret (HRESULT_FROM_WIN32 e, i)
  | inr Name =>
      let (Hr, t) := CchCopy (ModuleNameCch b) Name in
      let i := MkFrame t (FunctionName i) (Displacement i) (SourceFile i) (SourceLine i) in
      if FAILED Hr then ret (Hr, i)
      else
        f <- via "SymFromAddrW" (SymFromAddr Frame) ;;
        match f with
        | inl e => ret (HRESULT_FROM_WIN32 e, i)
        | inr (Symbol, Displacement64) =>
            let i := MkFrame (ModuleName i) (FunctionName i) (ULONG Displacement64) (SourceFile i) (SourceLine i) in
            u <- via "UnDecorateSymbolNameW" (UnDecorateSymbolName Symbol (FunctionNameCch b)) ;;
            match u with
            | inl e => ret (HRESULT_FROM_WIN32 e, i)
            | inr Name =>
                let i := MkFrame (ModuleName i) Name (Displacement i) (SourceFile i) (SourceLine i) in
                l <- via "SymGetLineFromAddrW64" (SymGetLineFromAddr64 Frame) ;;
                match l with
                | Some (LineNumber, FileName) =>
                    let (Hr, t) := CchCopy (SourceFileCch b) FileName in
                    let i := MkFrame (ModuleName i) (FunctionName i) (Displacement i) t LineNumber in
                    if FAILED Hr then ret (Hr, i) else ret (S_OK, i)
                | None => ret (S_OK, MkFrame (ModuleName i) (FunctionName i) (Displacement i) "" 0)
                end
            end
        end
  end.

(** [Pointers]: no pointer is NULL. *)
(* src/cfix/cfix/stacktrace.c:365-499 (CfixpGetInformationStackframe) *)
Definition CfixpGetInformationStackframe (Tid Frame : Z) (b : BUFFERS) (Pointers : bool) (i : FRAME_INFORMATION) :
    M (Z * FRAME_INFORMATION) :=
  if (Frame =? 0) || (ModuleNameCch b =? 0)%nat || (FunctionNameCch b =? 0)%nat || (SourceFileCch b =? 0)%nat ||
     negb Pointers
  then ret (E_INVALIDARG, i)
  else
    EnterLock Tid ;;;
    Hr <- CfixsLazyInitializeDbgHelp ;;
    if FAILED Hr then ret (Hr, i)
    else
      r <- DescribeFrame Frame b i ;;
      LeaveLock ;;;
      ret r.

(** ** Attaching to a process *)
(* src/cfix/cfix/filament.c:350-362 (CfixpSetupFilamentTls) *)
Definition CfixpSetupFilamentTls : M bool :=
  TlsSlotForFilament <- rest TlsAlloc ;;
  DefaultStorageSlot <- rest TlsAlloc ;;
  ReservedForCcStorageSlot <- rest TlsAlloc ;;
  modify (set_slots true [TlsSlotForFilament; DefaultStorageSlot; ReservedForCcStorageSlot]) ;;;
  ret (negb (TlsSlotForFilament =? TLS_OUT_OF_INDEXES) && negb (DefaultStorageSlot =? TLS_OUT_OF_INDEXES) &&
       negb (ReservedForCcStorageSlot =? TLS_OUT_OF_INDEXES)).

(** The slots, up to the first that cannot be freed. *)
Fixpoint FreeSlots (Slots : list Z) : M bool :=
  match Slots with
  | [] => ret true
  | t :: Slots => b <- rest (TlsFree t) ;; if b : bool then FreeSlots Slots else ret false
  end.

(* src/cfix/cfix/filament.c:364-372 (CfixpTeardownFilamentTls) *)
Definition CfixpTeardownFilamentTls : M bool :=
  l <- gets TlsSlots ;;
  modify (set_slots false l) ;;;
  FreeSlots l.

Inductive REASON := DLL_PROCESS_ATTACH | DLL_PROCESS_DETACH | DLL_THREAD_DETACH | DLL_THREAD_ATTACH.

(** The sweep of a thread that ends is an operation of Filament on its part of the
    world. *)
Context (CleanupLeakedFilamentForDetachingThread : ST X unit).

(* src/cfix/cfix/main.c:27-72 (DllMain) *)
Definition DllMain (Reason : REASON) : M bool :=
  match Reason with
  | DLL_PROCESS_ATTACH =>
      a <- CfixpSetupStackTraceCapturing ;;
      if negb a then ret false
      else
        b <- CfixpSetupFilamentTls ;;
        if negb b then CfixpTeardownStackTraceCapturing ;;; ret false else ret true
  | DLL_PROCESS_DETACH => CfixpTeardownStackTraceCapturing ;;; CfixpTeardownFilamentTls
  | DLL_THREAD_DETACH => rest CleanupLeakedFilamentForDetachingThread ;;; ret true
  | DLL_THREAD_ATTACH => ret true
  end.
End stacktrace.

(** ** Laws

    The references to the library and the thread local slots that the process has. *)
Class DbgLaws (X : Type) {Sys : DbgSystem X} := MkDbgLaws {
  References : X -> Z;
  Slots : X -> gset Z;
  Keeps {A} (m : ST X A) : Prop := forall x, exists a x', m x = Some (a, x') /\ References x' = References x /\ Slots x' = Slots x;
  name_law : Keeps GetModuleFileName;
  name_error x e x' : GetModuleFileName x = Some (inl e, x') -> e <> 0;
  exists_law p : Keeps (FileExists p);
  load_law p x : exists h x', LoadLibrary p x = Some (h, x') /\ Slots x' = Slots x /\
    References x' = References x + (if h =? 0 then 0 else 1);
  free_law h x : exists x', FreeLibrary h x = Some (tt, x') /\ Slots x' = Slots x /\ References x' = References x - 1;
  proc_law h n : Keeps (GetProcAddress h n);
  context_law : Keeps RtlCaptureContext;
  initialize_law : Keeps SymInitialize;
  initialize_error x e x' : SymInitialize x = Some (Some e, x') -> e <> 0;
  walk_law m f c : Keeps (StackWalk64 m f c);
  module_law a : Keeps (SymGetModuleInfo64 a);
  symbol_law a : Keeps (SymFromAddr a);
  undecorate_law s n : Keeps (UnDecorateSymbolName s n);
  line_law a : Keeps (SymGetLineFromAddr64 a);
  alloc_law x : exists r x', TlsAlloc x = Some (r, x') /\ References x' = References x /\
    if r =? TLS_OUT_OF_INDEXES then Slots x' = Slots x else r ∉ Slots x /\ Slots x' = Slots x ∪ {[r]};
  free_slot_law r x : r ∈ Slots x -> exists x', TlsFree r x = Some (true, x') /\ References x' = References x /\
    Slots x' = Slots x ∖ {[r]} }.

Section theory.
Context {X : Type} {Sys : DbgSystem X} {Laws : DbgLaws X} (Machine : MACHINE).

(** The library is linked, and the process has references and slots. *)
Definition Linked (s : DW X) : Prop := Module (Dbghelp s) <> 0 /\ forall n, n ∈ ProcNames -> Proc (Dbghelp s) n <> 0.

(** What operations of the library leave alone. *)
Definition Frame (s s' : DW X) : Prop :=
  DbgHelpLock s' = DbgHelpLock s /\ TlsSlots s' = TlsSlots s /\ DefaultFilamentLock s' = DefaultFilamentLock s /\
  Slots (Rest s') = Slots (Rest s).
(** What is done with a library that is linked. *)
Definition Calm (s s' : DW X) : Prop :=
  Frame s s' /\ Dbghelp s' = Dbghelp s /\ DbgSymInitialized s' = DbgSymInitialized s /\ References (Rest s') = References (Rest s).

Lemma Calm_refl s : Calm s s.
Proof. done. Qed.
Lemma Calm_trans s1 s2 s3 : Calm s1 s2 -> Calm s2 s3 -> Calm s1 s3.
Proof. unfold Calm, Frame. intros (? & ? & ? & ?) (? & ? & ? & ?). split_and!; try congruence; naive_solver congruence. Qed.
Lemma Calm_linked s s' : Linked s -> Calm s s' -> Linked s'.
Proof. unfold Linked. intros H (_ & -> & _). done. Qed.

Lemma Runs_rest {A B} (m : ST X A) (k : A -> ST (DW X) B) s Q : Keeps m ->
  (forall a s', Calm s s' -> Runs (k a) s' Q) -> Runs (bind (rest m) k) s Q.
Proof.
  intros Hm HK. destruct (Hm (Rest s)) as (a & x & E & HR & HS). apply Runs_bind. eexists a, _.
  split; [unfold rest; by rewrite E|]. by apply HK.
Qed.

Lemma Runs_via {A B} n (m : ST X A) (k : A -> ST (DW X) B) s Q : Linked s -> n ∈ ProcNames -> Keeps m ->
  (forall a s', Calm s s' -> Runs (k a) s' Q) -> Runs (bind (via n m) k) s Q.
Proof.
  intros [_ HL] Hn Hm HK. destruct (Hm (Rest s)) as (a & x & E & HR & HS). apply Runs_bind. eexists a, _.
  split.
  - unfold via. rewrite bind_gets, bind_assert by (by rewrite (proj2 (Z.eqb_neq _ _) (HL n Hn))).
    unfold rest. by rewrite E.
  - by apply HK.
Qed.

Ltac in_names := refine (bool_decide_unpack _ _); vm_compute; exact I.

(** The frames of a walk are at most as many as allowed, and none of them is 0. *)
Lemma walk_spec Left : forall f c s, Linked s ->
  Runs (WalkStack Machine Left f c) s (fun l s' => Calm s s' /\ (length l <= Left)%nat /\ 0 ∉ l).
Proof.
  induction Left as [|Left IH]; intros f c s HL; cbn [WalkStack].
  { apply Runs_ret. split_and!; [apply Calm_refl|done|apply not_elem_of_nil]. }
  apply Runs_via; [done|in_names|apply walk_law|]. intros r s1 H1. destruct r as [[f1 c1]|].
  2: { apply Runs_ret. split_and!; [done|cbn; lia|apply not_elem_of_nil]. }
  destruct (Z.eqb_spec (AddrPC f1) 0) as [|H0]; cbn [negb].
  { apply Runs_ret. split_and!; [done|cbn; lia|apply not_elem_of_nil]. }
  apply Runs_bind. eapply Runs_weaken; [apply IH; by eapply Calm_linked|]. intros l s2 (H2 & Hl & Hn).
  apply Runs_ret. split_and!; [by eapply Calm_trans|cbn; lia|]. apply not_elem_of_cons. split; [congruence|done].
Qed.

Lemma describe_spec a b i s : Linked s -> Runs (DescribeFrame a b i) s (fun _ s' => Calm s s').
Proof.
  intros HL. unfold DescribeFrame. apply Runs_via; [done|in_names|apply module_law|]. intros [e|m] s1 H1; [by apply Runs_ret|].
  destruct (CchCopy _ m) as [Hr t]. cbv zeta. destruct (FAILED Hr); [by apply Runs_ret|].
  pose proof (Calm_linked _ _ HL H1) as HL1. apply Runs_via; [done|in_names|apply symbol_law|].
  intros [e|[Sym d]] s2 H2; [apply Runs_ret; by eapply Calm_trans|]. pose proof (Calm_linked _ _ HL1 H2) as HL2.
  apply Runs_via; [done|in_names|apply undecorate_law|].
  intros [e|u] s3 H3; [apply Runs_ret; eapply Calm_trans; [exact H1|]; by eapply Calm_trans|].
  apply Runs_via; [by eapply Calm_linked|in_names|apply line_law|]. intros l s4 H4.
  assert (Calm s s4) as H by (repeat (eapply Calm_trans; [eassumption|]); done).
  destruct l as [[n f]|]; [|by apply Runs_ret]. destruct (CchCopy _ f) as [Hr' t']. by destruct (FAILED Hr'); apply Runs_ret.
Qed.

(** *** Initialisation

    The references of the process that nobody will give back: all but the one of the
    module that is noted. *)
Definition Leaked (s : DW X) : Z := References (Rest s) - if Module (Dbghelp s) =? 0 then 0 else 1.

Lemma link_procs Names : forall s,
  Runs (LinkProcs Names) s (fun _ s' => Frame s s' /\ References (Rest s') = References (Rest s) /\
    DbgSymInitialized s' = DbgSymInitialized s /\ Module (Dbghelp s') = Module (Dbghelp s)).
Proof.
  induction Names as [|n Names IH]; intros s; cbn [LinkProcs].
  { by apply Runs_ret. }
  apply Runs_bind. eexists _, s. split; [reflexivity|].
  destruct (proc_law (Module (Dbghelp s)) n (Rest s)) as (p & x & E & HR & HS). apply Runs_bind. eexists p, _.
  split; [unfold rest; by rewrite E|]. apply Runs_bind. eexists _, _. split; [reflexivity|].
  eapply Runs_weaken; [apply IH|]. intros _ s' ((F1 & F2 & F3 & F4) & HRf & HI & HMod). cbn in *.
  split_and!; try congruence. unfold Frame. split_and!; congruence.
Qed.

(** An attempt to link: the library is linked then, or it is an error.  A reference that
    was there before is not given back. *)
Definition Attempted (s s' : DW X) : Prop := Frame s s' /\ DbgSymInitialized s' = DbgSymInitialized s /\
  Leaked s <= Leaked s' <= References (Rest s) /\ References (Rest s') <= References (Rest s) + 1.

Lemma Leaked_bound s : Leaked s <= References (Rest s) <= Leaked s + 1.
Proof. unfold Leaked. destruct (_ =? 0); lia. Qed.

Lemma link_spec s : Runs CfixsLinkDbghelp s (fun Hr s' => Attempted s s' /\ (Hr = S_OK /\ Linked s' \/ FAILED Hr = true)).
Proof.
  pose proof (Leaked_bound s) as HB.
  unfold CfixsLinkDbghelp. destruct (name_law (Rest s)) as (r & x1 & E1 & HR1 & HS1).
  apply Runs_bind. eexists _, _. split; [unfold rest; by rewrite E1|]. cbv zeta beta. cbn [Rest]. destruct r as [e|p].
  { apply Runs_ret. split; [|right; apply FAILED_from_win32; by eapply name_error].
    unfold Attempted, Frame, Leaked in *. cbn. rewrite HR1. split_and!; try done; lia. }
  destruct (exists_law (PathAppend (PathRemoveFileSpec p) "dbghelp.dll") x1) as (b & x2 & E2 & HR2 & HS2).
  apply Runs_bind. eexists _, _. split; [unfold rest; cbn [Rest]; by rewrite E2|]. destruct b; cbn [negb]; last first.
  { apply Runs_ret. split; [|by right]. unfold Attempted, Frame, Leaked in *. cbn.
    rewrite HR2, HR1. split_and!; try done; try congruence; lia. }
  destruct (load_law (PathAppend (PathRemoveFileSpec p) "dbghelp.dll") x2) as (h & x3 & E3 & HS3 & HR3).
  apply Runs_bind. eexists _, _. split; [unfold rest; cbn [Rest]; by rewrite E3|].
  apply Runs_bind. eexists _, _. split; [reflexivity|]. apply Runs_bind. eexists _, _. split; [reflexivity|].
  destruct (Z.eqb_spec h 0) as [->|Hh].
  { apply Runs_ret. split; [|by right]. unfold Attempted, Frame, Leaked in *. cbn. split_and!; try done; try congruence; lia. }
  apply Runs_bind. eapply Runs_weaken; [apply link_procs|].
  intros _ s' ((F1 & F2 & F3 & F4) & HRf & HI & HMod). cbn in F1, F2, F3, F4, HRf, HI, HMod.
  apply Runs_bind. eexists _, _. split; [reflexivity|]. apply Runs_ret. split.
  { unfold Attempted, Frame, Leaked in *. rewrite HMod, (proj2 (Z.eqb_neq _ _) Hh). split_and!; try congruence; lia. }
  destruct (existsb (fun n => Proc (Dbghelp s') n =? 0) ProcNames) eqn:Hex; [by right|left].
  split; [done|]. split; [congruence|]. intros n Hn H0. apply not_true_iff_false in Hex. apply Hex, existsb_exists.
  exists n. split; [by apply list_elem_of_In|]. by rewrite H0.
Qed.

(** After at most [F] failed attempts, in a process that had [L] references. *)
Definition Ready (L F : Z) (s : DW X) : Prop := L <= Leaked s /\
  if DbgSymInitialized s then Linked s /\ Leaked s <= L + F else References (Rest s) <= L + F.

Lemma Ready_more L F F' s : Ready L F s -> F <= F' -> Ready L F' s.
Proof. unfold Ready. destruct (DbgSymInitialized s); intros [? ?]; naive_solver lia. Qed.

Lemma initialize_spec L F s : Ready L F s -> Runs CfixsLazyInitializeDbgHelp s (fun Hr s' => Frame s s' /\
  (Hr = S_OK /\ Linked s' /\ DbgSymInitialized s' = true /\ Ready L F s' \/
   FAILED Hr = true /\ DbgSymInitialized s = false /\ Ready L (F + 1) s')).
Proof.
  intros HR. unfold CfixsLazyInitializeDbgHelp. apply Runs_bind. eexists _, s. split; [reflexivity|]. pose proof HR as HR'. unfold Ready in HR'.
  destruct (DbgSymInitialized s) eqn:EI; [apply Runs_ret; split; [done|]; left; split_and!; [done|apply HR'|done|done]|].
  apply Runs_bind. eapply Runs_weaken; [apply link_spec|]. intros Hr s1 [(HF & HI & HLk & HRf) Hcase].
  pose proof (Leaked_bound s1) as HB1.
  assert (FAILED Hr = true -> Ready L (F + 1) s1) as HRF by (intros _; unfold Ready; rewrite HI, EI; lia).
  destruct Hcase as [[-> HL]|HFl]; [|rewrite HFl; apply Runs_ret; split; [done|right; auto]].
  change (FAILED S_OK) with false. cbv iota. destruct (initialize_law (Rest s1)) as (e & x & E & HRx & HSx).
  apply Runs_bind. eexists e, _. split.
  { unfold via. rewrite bind_gets, bind_assert by (rewrite (proj2 (Z.eqb_neq _ _)); [done|apply HL; in_names]).
    unfold rest. by rewrite E. }
  destruct HF as (F1 & F2 & F3 & F4). destruct e as [e|].
  - apply Runs_ret. split; [unfold Frame; cbn; split_and!; congruence|]. right.
    split; [apply FAILED_from_win32; by eapply initialize_error|]. split; [done|]. unfold Ready, Leaked in *. cbn. rewrite HI, EI, HRx. lia.
  - apply Runs_bind. eexists _, _. split; [reflexivity|]. apply Runs_ret. cbn.
    split; [unfold Frame; cbn; split_and!; congruence|]. left. split; [done|]. split; [exact HL|]. split; [done|].
    unfold Ready, Leaked in *. cbn. rewrite HRx. split; [lia|]. split; [exact HL|lia].
Qed.

(** *** Operations of threads *)
Inductive OP :=
  | Capture (Context : option CONTEXT) (MaxFrames : nat)
  | Describe (Frame : Z) (b : BUFFERS) (Pointers : bool) (i : FRAME_INFORMATION).

Inductive ANSWER :=
  | Frames_ (Hr : Z) (l : list Z)
  | Described (Hr : Z) (i : FRAME_INFORMATION).

Definition exec_op (o : Z * OP) : ST (DW X) ANSWER :=
  match snd o with
  | Capture c n => r <- CfixpCaptureStackTrace Machine (fst o) c n ;; ret (Frames_ (fst r) (snd r))
  | Describe a b p i => r <- CfixpGetInformationStackframe (fst o) a b p i ;; ret (Described (fst r) (snd r))
  end.

Fixpoint exec_ops (os : list (Z * OP)) : ST (DW X) (list ANSWER) :=
  match os with [] => ret [] | o :: os => r <- exec_op o ;; rs <- exec_ops os ;; ret (r :: rs) end.

(** A captured trace has as many frames as allowed at most, and none if the capture failed. *)
Definition Fits (o : Z * OP) (a : ANSWER) : Prop :=
  match snd o, a with
  | Capture _ n, Frames_ Hr l => (Hr = S_OK /\ (length l <= n)%nat /\ 0 ∉ l) \/ (FAILED Hr = true /\ l = [])
  | Describe _ _ _ _, Described _ _ => True
  | _, _ => False
  end.

Definition failed (a : ANSWER) : bool := match a with Frames_ Hr _ | Described Hr _ => FAILED Hr end.
Definition failures (rs : list ANSWER) : Z := Z.of_nat (length (filter (fun a => failed a = true) rs)).

(** The arguments of a query are checked before the lock is entered. *)
Definition Valid (Frame : Z) (b : BUFFERS) (Pointers : bool) : Prop :=
  Frame <> 0 /\ (0 < ModuleNameCch b)%nat /\ (0 < FunctionNameCch b)%nat /\ (0 < SourceFileCch b)%nat /\ Pointers = true.

(** A valid query of thread [t] has failed to initialise the library: it has failed
    without touching the buffers, after nothing but failures. *)
Definition QueryFailed (log : list ((Z * OP) * ANSWER)) (t : Z) : Prop :=
  exists before a b p i Hr after, log = before ++ ((t, Describe a b p i), Described Hr i) :: after /\
    Valid a b p /\ FAILED Hr = true /\ Forall (fun r => failed (snd r) = true) before.

(** Between operations, after those of [log]: no thread is in the library, unless one has
    kept the lock when a query failed. *)
Definition LockState (log : list ((Z * OP) * ANSWER)) (s : DW X) : Prop :=
  DbgHelpLock s = Some free_lock \/
  exists t d, DbgHelpLock s = Some (MkLock (Some t) d) /\ 0 < d /\ QueryFailed log t.

Record Quiet (L : Z) (Sl : gset Z) (l : list Z) (log : list ((Z * OP) * ANSWER)) (s : DW X) : Prop := {
  qu_lock : LockState log s;
  qu_tls : TlsSlots s = l;
  qu_slots : Slots (Rest s) = Sl;
  qu_early : DbgSymInitialized s = false -> Forall (fun r => failed (snd r) = true) log;
  qu_ready : Ready L (failures (snd <$> log)) s }.

(** A thread enters, unless another one holds the lock. *)
Lemma entered log t s : LockState log s ->
  (exists t', t' <> t /\ QueryFailed log t' /\ EnterLock t s = None) \/
  exists lk d, EnterLock t s = Some (tt, set_lock (Some (MkLock (Some t) d)) s) /\ 0 < d /\ DbgHelpLock s = Some lk /\
    forall s2 : DW X, DbgHelpLock s2 = Some (MkLock (Some t) d) -> LeaveLock s2 = Some (tt, set_lock (Some lk) s2).
Proof.
  unfold EnterLock, LeaveLock. intros [HL|(u & d & HL & Hd & HQ)]; rewrite HL; cbn [Owner Depth free_lock].
  - right. exists free_lock, 1. split_and!; [done|lia|done|]. by intros s2 ->.
  - destruct (Z.eqb_spec u t) as [->|Hne]; [|left; by exists u]. right. exists (MkLock (Some t) d), (d + 1).
    split_and!; [done|lia|done|]. intros s2 ->. cbn. replace (d + 1 - 1) with d by lia.
    by rewrite (proj2 (Z.eqb_neq d 0)) by lia.
Qed.

Lemma failures_snoc (log : list ((Z * OP) * ANSWER)) x : failures (snd <$> (log ++ [x])) = failures (snd <$> log) + if failed (snd x) then 1 else 0.
Proof.
  unfold failures. rewrite fmap_app, filter_app, length_app. cbn [fmap list_fmap]. rewrite filter_cons, filter_nil.
  destruct (failed (snd x)); simpl; lia.
Qed.

Lemma QueryFailed_app log log' t : QueryFailed log t -> QueryFailed (log ++ log') t.
Proof.
  intros (l1 & a & b & p & i & Hr & l2 & -> & H). exists l1, a, b, p, i, Hr, (l2 ++ log').
  split; [by rewrite <- app_assoc|done].
Qed.

Lemma Ready_calm L F s s' : Ready L F s -> Calm s s' -> Ready L F s'.
Proof. unfold Ready, Leaked. intros HR (_ & HD & HI & HRf). rewrite HI. unfold Linked. rewrite HD, HRf. done. Qed.

(** What an operation with answer [a] leaves behind. *)
Definition Left_ (L : Z) (log : list ((Z * OP) * ANSWER)) (s : DW X) (a : ANSWER) (s' : DW X) : Prop :=
  TlsSlots s' = TlsSlots s /\ Slots (Rest s') = Slots (Rest s) /\
  Ready L (failures (snd <$> log) + if failed a then 1 else 0) s' /\
  (DbgSymInitialized s' = false -> DbgSymInitialized s = false /\ failed a = true).

Lemma Left_calm L log s s1 s' a : Calm s s1 -> Left_ L log s1 a s' -> Left_ L log s a s'.
Proof. intros ((F1 & F2 & F3 & F4) & HD & HI & HRf) (H1 & H2 & H3 & H4). split_and!; [congruence..|done|]. by rewrite <- HI. Qed.

(** The operation [x] is over. *)
Lemma Quiet_after L Sl l log s s' x : Quiet L Sl l log s -> LockState (log ++ [x]) s' -> Left_ L log s (snd x) s' ->
  Quiet L Sl l (log ++ [x]) s'.
Proof.
  intros [HL HT HS HE HR] HL' (H1 & H2 & H3 & H4). split; [done|congruence|congruence| |by rewrite failures_snoc].
  intros HI. destruct (H4 HI) as [HI' Hx]. apply Forall_app. split; [by apply HE|by constructor].
Qed.

Lemma LockState_same log log' s s' : LockState log s -> DbgHelpLock s' = DbgHelpLock s -> LockState (log ++ log') s'.
Proof.
  unfold LockState. intros HL ->. destruct HL as [|(t & d & HL & Hd & HQ)]; [by left|right].
  exists t, d. split_and!; [done|done|by apply QueryFailed_app].
Qed.

(** What happens inside the lock: the library is initialised and [K] run. *)
Lemma locked {B} L F t log (K : Z -> ST (DW X) B) s Q : LockState log s -> Ready L F s ->
  (forall lk d s1, DbgHelpLock s = Some lk -> 0 < d -> DbgHelpLock s1 = Some (MkLock (Some t) d) ->
    (forall s2 : DW X, DbgHelpLock s2 = Some (MkLock (Some t) d) -> LeaveLock s2 = Some (tt, set_lock (Some lk) s2)) ->
    Frame (set_lock (Some (MkLock (Some t) d)) s) s1 -> forall Hr,
    (Hr = S_OK /\ Linked s1 /\ DbgSymInitialized s1 = true /\ Ready L F s1 \/
     FAILED Hr = true /\ DbgSymInitialized s = false /\ Ready L (F + 1) s1) -> Runs (K Hr) s1 Q) ->
  (exists t', t' <> t /\ QueryFailed log t' /\ (EnterLock t ;;; Hr <- CfixsLazyInitializeDbgHelp ;; K Hr) s = None) \/
  Runs (EnterLock t ;;; Hr <- CfixsLazyInitializeDbgHelp ;; K Hr) s Q.
Proof.
  intros HL HR HK. destruct (entered log t s HL) as [(t' & Ht & HQ & E)|(lk & d & E & Hd & Hlk & Hleave)].
  { left. exists t'. split_and!; [done|done|]. by apply bind_None. }
  right. apply Runs_bind. eexists _, _. split; [exact E|]. apply Runs_bind.
  eapply Runs_weaken; [by apply (initialize_spec L F)|]. intros Hr s1 [HF Hcase].
  apply (HK lk d s1); try done. by destruct HF as (F1 & _).
Qed.

Lemma capture_spec L log t c n s : LockState log s -> Ready L (failures (snd <$> log)) s ->
  (exists t', t' <> t /\ QueryFailed log t' /\ CfixpCaptureStackTrace Machine t c n s = None) \/
  Runs (CfixpCaptureStackTrace Machine t c n) s (fun r s' => Fits (t, Capture c n) (Frames_ (fst r) (snd r)) /\
    DbgHelpLock s' = DbgHelpLock s /\ Left_ L log s (Frames_ (fst r) (snd r)) s').
Proof.
  intros HL HR. unfold CfixpCaptureStackTrace.
  assert (exists ctx s1, match c with None => rest RtlCaptureContext | Some c => ret c end s = Some (ctx, s1) /\ Calm s s1)
    as (ctx & s1 & Ec & HC).
  { destruct c as [c|]; [by eexists c, s|]. destruct (context_law (Rest s)) as (c & x & E & HRx & HSx).
    eexists c, _. split; [unfold rest; by rewrite E|]. done. }
  pose proof HC as ((C1 & C2 & C3 & C4) & _).
  assert (LockState log s1) as HL1 by (unfold LockState; by rewrite C1).
  pose proof (Ready_calm _ _ _ _ HR HC) as HR1. unfold Runs at 1. rewrite (bind_eq _ _ _ _ _ Ec).
  apply (locked L _ t log _ s1 _ HL1 HR1).
  intros lk d s2 Hlk Hd Hlk2 Hleave (F1 & F2 & F3 & F4) Hr Hcase. cbn in F1, F2, F3, F4. rewrite C1 in Hlk.
  destruct Hcase as [(-> & HLk & HI & HR2)|(HFl & HI & HR2)].
  - change (SUCCEEDED S_OK) with true. cbv iota. apply Runs_bind. eapply Runs_weaken; [by apply walk_spec|].
    intros l s3 (HC3 & Hl & H0). pose proof HC3 as ((G1 & G2 & G3 & G4) & GD & GI & GR). apply Runs_bind. eexists _, _.
    split; [apply Hleave; congruence|]. apply Runs_ret. split; [by left|]. split; [cbn; congruence|].
    eapply Left_calm; [exact HC|]. split; [cbn; congruence|]. split; [cbn; congruence|].
    split; [cbn [failed fst snd]; change (FAILED S_OK) with false; cbv iota; rewrite Z.add_0_r|cbn; intros; congruence].
    change (Ready L (failures (snd <$> log)) s3). by eapply (Ready_calm L _ s2).
  - unfold SUCCEEDED. rewrite HFl. cbn [negb]. apply Runs_bind. eexists [], s2. split; [done|]. apply Runs_bind. eexists _, _.
    split; [by apply Hleave|]. apply Runs_ret. split; [by right|]. split; [cbn; congruence|].
    eapply Left_calm; [exact HC|]. split; [cbn; congruence|]. split; [cbn; congruence|].
    cbn [failed fst snd]. by rewrite HFl.
Qed.

(** A query that fails before the frame is described keeps the lock. *)
Lemma query_spec L log t a b p i s : LockState log s -> Ready L (failures (snd <$> log)) s ->
  (DbgSymInitialized s = false -> Forall (fun r => failed (snd r) = true) log) ->
  (exists t', t' <> t /\ QueryFailed log t' /\ CfixpGetInformationStackframe t a b p i s = None) \/
  Runs (CfixpGetInformationStackframe t a b p i) s (fun r s' =>
    LockState (log ++ [((t, Describe a b p i), Described (fst r) (snd r))]) s' /\
    Left_ L log s (Described (fst r) (snd r)) s').
Proof.
  intros HL HR HE. unfold CfixpGetInformationStackframe.
  destruct ((a =? 0) || _ || _ || _ || negb p) eqn:EV.
  { right. apply Runs_ret. split; [by eapply LockState_same|]. split_and!; [done..| |done].
    eapply Ready_more; [done|]. cbn [failed fst]. destruct (FAILED E_INVALIDARG); lia. }
  rewrite !orb_false_iff, Z.eqb_neq, !Nat.eqb_neq, negb_false_iff in EV.
  assert (Valid a b p) as HV by (unfold Valid; naive_solver lia).
  apply (locked L _ t log _ s _ HL HR).
  intros lk d s1 Hlk Hd Hlk1 Hleave (F1 & F2 & F3 & F4) Hr Hcase. cbn in F1, F2, F3, F4.
  destruct Hcase as [(-> & HLk & HI & HR1)|(HFl & HI & HR1)].
  - change (FAILED S_OK) with false. cbv iota. apply Runs_bind. eapply Runs_weaken; [by apply describe_spec|].
    intros r s2 HC2. pose proof HC2 as ((G1 & G2 & G3 & G4) & GD & GI & GR). apply Runs_bind. eexists _, _.
    split; [apply Hleave; congruence|]. apply Runs_ret. split; [eapply LockState_same; [done|cbn; congruence]|].
    split_and!; [cbn; congruence|cbn; congruence| |cbn; intros; congruence].
    eapply Ready_more; [eapply (Ready_calm L _ s1 s2); [exact HR1|done]|]. destruct (failed _); lia.
  - rewrite HFl. apply Runs_ret. cbn [fst snd]. split.
    + right. exists t, d. split_and!; [done|done|]. exists log, a, b, p, i, Hr, []. split_and!; [done..|]. by apply HE.
    + split_and!; [done|done|cbn [failed]; by rewrite HFl|done].
Qed.

Lemma op_spec L Sl l log o s : Quiet L Sl l log s ->
  (exists t', t' <> fst o /\ QueryFailed log t' /\ exec_op o s = None) \/
  Runs (exec_op o) s (fun a s' => Fits o a /\ Quiet L Sl l (log ++ [(o, a)]) s').
Proof.
  intros HQ. pose proof HQ as [HL HT HS HE HR]. destruct o as [t [c n|a b p i]]; unfold exec_op; cbn [fst snd].
  - destruct (capture_spec L log t c n s HL HR) as [(t' & Ht & HF & E)|H]; [left|right].
    { exists t'. split_and!; [done|done|]. by apply bind_None. }
    apply Runs_bind. eapply Runs_weaken; [exact H|]. intros r s' (HF & HL' & HLeft). apply Runs_ret. split; [done|].
    apply (Quiet_after L Sl l log s); [done|by eapply LockState_same|done].
  - destruct (query_spec L log t a b p i s HL HR HE) as [(t' & Ht & HF & E)|H]; [left|right].
    { exists t'. split_and!; [done|done|]. by apply bind_None. }
    apply Runs_bind. eapply Runs_weaken; [exact H|]. intros r s' (HL' & HLeft). apply Runs_ret. split; [done|].
    by apply (Quiet_after L Sl l log s).
Qed.

(** An operation that another thread does not let in. *)
Definition Blocked (log : list ((Z * OP) * ANSWER)) (s : DW X) (o : Z * OP) : Prop :=
  exec_op o s = None /\ exists t, t <> fst o /\ QueryFailed log t.

Lemma ops_spec L Sl l os : forall log s, Quiet L Sl l log s ->
  exists done_ left_ rs s', os = done_ ++ left_ /\ exec_ops done_ s = Some (rs, s') /\ Forall2 Fits done_ rs /\
    Quiet L Sl l (log ++ zip done_ rs) s' /\
    match left_ with [] => True | o :: _ => Blocked (log ++ zip done_ rs) s' o end.
Proof.
  induction os as [|o os IH]; intros log s HQ.
  { exists [], [], [], s. cbn [zip zip_with app]. rewrite app_nil_r. split_and!; done. }
  destruct (op_spec L Sl l log o s HQ) as [(t & Ht & HF & E)|(a & s1 & E & HFit & HQ1)].
  { exists [], (o :: os), [], s. cbn [zip zip_with app]. rewrite app_nil_r. split_and!; try done; split; [done|by exists t]. }
  destruct (IH _ _ HQ1) as (d & lf & rs & s' & -> & Ed & HFd & HQd & Hb).
  exists (o :: d), lf, (a :: rs), s'. cbn [zip zip_with]. rewrite <- app_assoc in HQd, Hb. cbn [app] in HQd, Hb.
  split_and!; [done| |by constructor|done|done]. cbn [exec_ops]. rewrite (bind_eq _ _ _ _ _ E), (bind_eq _ _ _ _ _ Ed). done.
Qed.

(** *** The life of the process *)
Context (Cleanup : ST X unit).

(** The state before the library is attached to the process. *)
Definition Blank (x : X) : DW X := MkDW None false (MkDbghelp 0 (fun _ => 0)) false [] x.

Lemma slots_freed l : forall s, NoDup l -> (forall t, t ∈ l -> t ∈ Slots (Rest s)) ->
  Runs (FreeSlots l) s (fun b s' => b = true /\ DbgHelpLock s' = DbgHelpLock s /\ References (Rest s') = References (Rest s) /\
    Slots (Rest s') = Slots (Rest s) ∖ list_to_set l).
Proof.
  induction l as [|t l IH]; intros s HN Hl; cbn [FreeSlots].
  { apply Runs_ret. split_and!; try done. cbn. by rewrite difference_empty_L. }
  apply NoDup_cons in HN as [Ht HN]. destruct (free_slot_law t (Rest s)) as (x & E & HR & HS); [apply Hl; by left|].
  apply Runs_bind. eexists true, _. split; [unfold rest; by rewrite E|]. eapply Runs_weaken; [apply IH; [done|]|].
  - cbn. rewrite HS. intros t' Ht'. apply elem_of_difference. split; [apply Hl; by right|]. intros ->%elem_of_singleton. done.
  - intros b s' (-> & H1 & H2 & H3). cbn in *. split_and!; try congruence. rewrite H3, HS.
    by rewrite difference_difference_l_L.
Qed.

Lemma slots_allocated s : Runs CfixpSetupFilamentTls s (fun b s' => References (Rest s') = References (Rest s) /\
  DbgHelpLock s' = DbgHelpLock s /\ Dbghelp s' = Dbghelp s /\ DbgSymInitialized s' = DbgSymInitialized s /\
  if b : bool then NoDup (TlsSlots s') /\ (forall t, t ∈ TlsSlots s' -> t ∈ Slots (Rest s')) /\
    Slots (Rest s) = Slots (Rest s') ∖ list_to_set (TlsSlots s') else True).
Proof.
  unfold CfixpSetupFilamentTls. destruct (alloc_law (Rest s)) as (t1 & x1 & E1 & HR1 & H1).
  destruct (alloc_law x1) as (t2 & x2 & E2 & HR2 & H2). destruct (alloc_law x2) as (t3 & x3 & E3 & HR3 & H3).
  do 3 (apply Runs_bind; eexists _, _; (split; [unfold rest; cbn [Rest]; by rewrite ?E1, ?E2, ?E3|])).
  apply Runs_bind. eexists _, _. split; [reflexivity|]. apply Runs_ret. cbn. split_and!; [congruence|done..|].
  destruct (t1 =? _), (t2 =? _), (t3 =? _); cbn; try done.
  destruct H1 as [N1 S1], H2 as [N2 S2], H3 as [N3 S3]. rewrite S3, S2, S1 in *. split; [|split].
  - repeat constructor; rewrite ?elem_of_cons, ?elem_of_nil; clear -N2 N3; set_solver.
  - intros t. rewrite !elem_of_cons, elem_of_nil. clear. set_solver.
  - apply leibniz_equiv. intros t. clear -N1 N2 N3. set_solver.
Qed.

Lemma ready_bounds L F s : Ready L F s -> L <= References (Rest s) /\ References (Rest s) <= L + 1 + F /\
  L <= Leaked s /\ Leaked s <= L + F.
Proof. pose proof (Leaked_bound s). unfold Ready. destruct (DbgSymInitialized s); naive_solver lia. Qed.

(** Detaching gives back the reference of the module that is noted, and the slots. *)
Lemma detached s : NoDup (TlsSlots s) -> (forall t, t ∈ TlsSlots s -> t ∈ Slots (Rest s)) ->
  Runs (DllMain Cleanup DLL_PROCESS_DETACH) s (fun b s' => b = true /\ References (Rest s') = Leaked s /\
    Slots (Rest s') = Slots (Rest s) ∖ list_to_set (TlsSlots s)).
Proof.
  intros HN Hin. cbn [DllMain]. unfold CfixpTeardownStackTraceCapturing, Leaked.
  unfold Runs. rewrite bind_assoc, bind_modify, bind_assoc, bind_gets. cbn [Dbghelp set_lock].
  assert (exists s3, when_ (negb (Module (Dbghelp s) =? 0)) (rest (FreeLibrary (Module (Dbghelp s)))) (set_lock None s) =
    Some (tt, s3) /\ References (Rest s3) = References (Rest s) - (if Module (Dbghelp s) =? 0 then 0 else 1) /\
    Slots (Rest s3) = Slots (Rest s) /\ TlsSlots s3 = TlsSlots s) as (s3 & E3 & HR3 & HS3 & HT3).
  { destruct (Module (Dbghelp s) =? 0); cbn [negb when_]; [eexists; split; [done|]; cbn; split_and!; [lia|done|done]|].
    destruct (free_law (Module (Dbghelp s)) (Rest s)) as (x3 & E3 & HS3 & HR3). eexists. unfold rest. cbn [Rest set_lock].
    rewrite E3. split; [done|]. cbn. by split_and!. }
  rewrite (bind_eq _ _ _ _ _ E3). unfold CfixpTeardownFilamentTls. rewrite bind_gets, bind_modify.
  destruct (slots_freed (TlsSlots s3) (set_slots false (TlsSlots s3) s3)) as (b & s4 & E4 & -> & _ & HR4 & HS4).
  { by rewrite HT3. }
  { cbn. by rewrite HT3, HS3. }
  exists true, s4. split; [exact E4|]. cbn in HR4, HS4. by rewrite HR4, HR3, HS4, HS3, HT3.
Qed.

(** C39. The life of cfix in a process.  When it has been attached, threads capture
    stack traces and ask about frames in any order.  Every operation returns, up to one
    that comes from a thread while another thread holds the lock since one of its
    queries failed to initialise dbghelp, when nothing but failures had been before; no
    routine of dbghelp is called before it has been linked.  A trace that is captured has
    at most as many frames as asked for and none of them is 0, one that fails has none.
    The process then has one reference to the library at most, and at most one more for
    every operation that failed; when cfix is detached, at most those of the failed ones
    are left, none if none failed, and the slots of the process have been given back. *)
Theorem cfix_process_life os x : exists b s1, DllMain Cleanup DLL_PROCESS_ATTACH (Blank x) = Some (b, s1) /\
  References (Rest s1) = References x /\
  if b : bool then exists done_ left_ rs s2 s3, os = done_ ++ left_ /\
    exec_ops done_ s1 = Some (rs, s2) /\ Forall2 Fits done_ rs /\
    match left_ with [] => True | o :: _ => Blocked (zip done_ rs) s2 o end /\
    References x <= References (Rest s2) <= References x + 1 + failures rs /\
    DllMain Cleanup DLL_PROCESS_DETACH s2 = Some (true, s3) /\
    References x <= References (Rest s3) <= References x + failures rs /\ Slots (Rest s3) = Slots x
  else DbgHelpLock s1 = None.
Proof.
  cbn [DllMain]. unfold CfixpSetupStackTraceCapturing. rewrite bind_assoc, bind_modify, bind_ret. cbn [negb].
  destruct (slots_allocated (set_lock (Some free_lock) (Blank x))) as (b & s1 & E & HR & HL & HD & HI & HS).
  rewrite (bind_eq _ _ _ _ _ E). cbn in HR, HL, HD, HI. destruct b; cbn [negb].
  2: { unfold CfixpTeardownStackTraceCapturing. rewrite bind_assoc, bind_modify, bind_assoc, bind_gets. cbn [Dbghelp set_lock].
       rewrite HD. cbn. by eexists false, _. }
  destruct HS as (HN & Hin & HSl). cbn in HSl. exists true, s1. split; [done|]. split; [done|].
  assert (Quiet (References x) (Slots (Rest s1)) (TlsSlots s1) [] s1) as HQ.
  { split; [by left|done|done|by constructor|]. unfold Ready, Leaked, failures. rewrite HI, HD, HR. cbn. lia. }
  destruct (ops_spec _ _ _ os [] s1 HQ) as (d & lf & rs & s2 & Hos & E2 & HF & [_ HT2 HS2 _ HR2] & HB).
  cbn [app] in HB, HR2. apply ready_bounds in HR2 as (HRl & HRu & HLl & HLu).
  rewrite snd_zip in HLu, HRu by (by rewrite (Forall2_length _ _ _ HF)).
  destruct (detached s2) as (b4 & s4 & E4 & -> & HR4 & HS4); [by rewrite HT2|by rewrite HT2, HS2|].
  exists d, lf, rs, s2, s4. split_and!; [done..|lia|lia|exact E4|lia|lia|]. by rewrite HS4, HS2, HT2.
Qed.
End theory.

Section missing.
Context {X : Type} {Sys : DbgSystem X} {Laws : DbgLaws X} (Machine : MACHINE).

(** A query of a frame that cannot initialise the library returns inside the lock: no
    other thread captures a stack trace after that. *)
Theorem failed_query_keeps_lock (s : DW X) t t' a b i c n :
  DbgHelpLock s = Some free_lock -> DbgSymInitialized s = false -> t' <> t ->
  (forall x r x', GetModuleFileName x = Some (r, x') -> exists p, r = inr p) ->
  (forall p x e x', FileExists p x = Some (e, x') -> e = false) ->
  a <> 0 -> (0 < ModuleNameCch b)%nat -> (0 < FunctionNameCch b)%nat -> (0 < SourceFileCch b)%nat ->
  exists s', CfixpGetInformationStackframe t a b true i s = Some ((CFIX_E_DBGHELP_MISSING, i), s') /\
    CfixpCaptureStackTrace Machine t' (Some c) n s' = None.
Proof.
  intros HL HI Ht HName HMissing Ha H1 H2 H3. unfold CfixpGetInformationStackframe.
  rewrite (proj2 (Z.eqb_neq _ _) Ha), !(proj2 (Nat.eqb_neq _ 0)) by lia. cbn [orb negb].
  assert (EnterLock t s = Some (tt, set_lock (Some (MkLock (Some t) 1)) s)) as EL by (unfold EnterLock; by rewrite HL).
  rewrite (bind_eq _ _ _ _ _ EL). unfold CfixsLazyInitializeDbgHelp. rewrite bind_assoc, bind_gets. cbn [DbgSymInitialized set_lock].
  rewrite HI. unfold CfixsLinkDbghelp. destruct (name_law (Rest s)) as (r & x1 & E1 & _). destruct (HName _ _ _ E1) as [p ->].
  assert (forall {A B} (m : ST X A) (k : A -> ST (DW X) B) w v y, m (Rest w) = Some (v, y) ->
    bind (rest m) k w = k v (MkDW (DbgHelpLock w) (DbgSymInitialized w) (Dbghelp w) (DefaultFilamentLock w) (TlsSlots w) y)) as Hrest
    by (intros A B m k w v y E; unfold bind, rest; by rewrite E).
  rewrite !bind_assoc, (Hrest _ _ _ _ (set_lock _ s) _ _ E1).
  destruct (exists_law (PathAppend (PathRemoveFileSpec p) "dbghelp.dll") x1) as (e & x2 & E2 & _).
  pose proof (HMissing _ _ _ _ E2) as ->. cbv zeta. rewrite bind_assoc, (Hrest _ _ _ _ (MkDW _ _ _ _ _ x1) _ _ E2). cbn [negb].
  rewrite bind_ret. change (FAILED CFIX_E_DBGHELP_MISSING) with true. cbv iota.
  eexists. split; [reflexivity|]. unfold CfixpCaptureStackTrace. rewrite bind_ret. apply bind_None.
  unfold EnterLock. cbn. by rewrite (proj2 (Z.eqb_neq t t')).
Qed.
End missing.

Module Demo.
Record PROCESS := MkProcess { Refs : Z; Allocated : gset Z }.

(** Each frame was called by the one at half its address. *)
Definition walk (m : MACHINE) (f : STACKFRAME64) (c : CONTEXT) : ST PROCESS (option (STACKFRAME64 * CONTEXT)) :=
  ret (Some (MkStackFrame (AddrPC f / 2) (AddrFrame f) (AddrBStore f) (AddrStack f), c)).

(** Slots are numbered from 0 on. *)
Definition alloc : ST PROCESS Z := fun x =>
  let t := 1 + foldr Z.max 0 (elements (Allocated x)) in
  if t <? 1088 then Some (t, MkProcess (Refs x) (Allocated x ∪ {[t]})) else Some (TLS_OUT_OF_INDEXES, x).
Definition free_slot (t : Z) : ST PROCESS bool := fun x =>
  Some (bool_decide (t ∈ Allocated x), MkProcess (Refs x) (Allocated x ∖ {[t]})).

#[export] Instance process : DbgSystem PROCESS := MkDbgSystem PROCESS
  (ret (inr "c:\cfix\cfix.dll"%string)) (fun p => "c:\cfix"%string) (fun p q => (p +:+ "\" +:+ q)%string) (fun _ => ret true)
  (fun _ x => Some (7, MkProcess (Refs x + 1) (Allocated x)))
  (fun _ x => Some (tt, MkProcess (Refs x - 1) (Allocated x)))
  (fun _ n => ret (1 + Z.of_nat (String.length n))) (ret (MkContext 40 0 0 0)) (ret None) walk
  (fun _ => ret (inr "math"%string)) (fun a => ret (inr ("Add"%string, a))) (fun s n => ret (inr s)) (fun a => ret None)
  alloc free_slot.

#[export] Instance process_laws : DbgLaws PROCESS.
Proof.
  refine (MkDbgLaws PROCESS process Refs Allocated _ _ _ _ _ _ _ _ _ _ _ _ _ _ _ _);
    try solve [intros; eexists _, _; (split; [reflexivity|]); done]; try solve [by intros ??? [=]].
  - intros h x. by eexists.
  - intros x. cbn. unfold alloc. destruct (_ <? 1088) eqn:E; eexists _, _; (split; [reflexivity|]); (split; [done|]).
    + apply Z.ltb_lt in E. rewrite (proj2 (Z.eqb_neq _ _)) by (unfold TLS_OUT_OF_INDEXES; lia). split; [|done].
      intros Hin. apply elem_of_elements, max_bound in Hin. lia.
    + by rewrite Z.eqb_refl.
  - intros r x Hr. cbn. unfold free_slot. rewrite bool_decide_true by done. by eexists.
Defined.

Definition nothing : FRAME_INFORMATION := MkFrame "" "" 0 "" 0.
Definition trace : list (Z * OP) :=
  [(1, Capture None 3); (2, Describe 20 (MkBuffers 3 10 10) true nothing); (1, Capture (Some (MkContext 8 0 0 0)) 10);
   (2, Describe 20 (MkBuffers 10 10 10) true nothing)].
Definition start : DW PROCESS := Blank (MkProcess 0 {[1]}).

(** A module name that does not fit is cut off, and what follows is not asked for. *)
Example trace_answers :
  fst <$> (r <- DllMain (ret tt) DLL_PROCESS_ATTACH ;; exec_ops IMAGE_FILE_MACHINE_AMD64 trace) start = Some
  [Frames_ S_OK [20; 10; 5]; Described STRSAFE_E_INSUFFICIENT_BUFFER (MkFrame "ma" "" 0 "" 0); Frames_ S_OK [4; 2; 1];
   Described S_OK (MkFrame "math" "Add" 20 "" 0)].
Proof. by vm_compute. Qed.

Lemma cfix_process_life_witness : exists b s1, DllMain (ret tt) DLL_PROCESS_ATTACH start = Some (b, s1) /\
  References (Rest s1) = 0 /\
  if b : bool then exists done_ left_ rs s2 s3, trace = done_ ++ left_ /\
    exec_ops IMAGE_FILE_MACHINE_AMD64 done_ s1 = Some (rs, s2) /\ Forall2 Fits done_ rs /\
    match left_ with [] => True | o :: _ => Blocked IMAGE_FILE_MACHINE_AMD64 (zip done_ rs) s2 o end /\
    0 <= References (Rest s2) <= 0 + 1 + failures rs /\
    DllMain (ret tt) DLL_PROCESS_DETACH s2 = Some (true, s3) /\
    0 <= References (Rest s3) <= 0 + failures rs /\ Slots (Rest s3) = {[1]}
  else DbgHelpLock s1 = None.
Proof. exact (cfix_process_life IMAGE_FILE_MACHINE_AMD64 (ret tt) trace (MkProcess 0 {[1]})). Defined.
End Demo.

(** A process whose symbol engine does not start. *)
Module Refusing.
Import Demo.
#[export] Instance refusing : DbgSystem PROCESS := MkDbgSystem PROCESS
  GetModuleFileName PathRemoveFileSpec PathAppend FileExists LoadLibrary FreeLibrary GetProcAddress RtlCaptureContext
  (ret (Some 31)) walk SymGetModuleInfo64 SymFromAddr UnDecorateSymbolName SymGetLineFromAddr64 alloc free_slot.

#[local] Existing Instance refusing | 0.

(** Two captures that fail load the library twice, and one reference is left in the end. *)
Example reference_left :
  (fun r => (fst r, References (Sys := process) (Rest (snd r)))) <$>
    (DllMain (Sys := refusing) (ret tt) DLL_PROCESS_ATTACH ;;;
     rs <- exec_ops (Sys := refusing) IMAGE_FILE_MACHINE_AMD64 [(1, Capture None 3); (2, Capture None 3)] ;;
     DllMain (Sys := refusing) (ret tt) DLL_PROCESS_DETACH ;;; ret rs) start =
  Some ([Frames_ (HRESULT_FROM_WIN32 31) []; Frames_ (HRESULT_FROM_WIN32 31) []], 1).
Proof. by vm_compute. Qed.

(** A query that fails keeps the lock: its thread gets in again, no other does. *)
Example lock_kept :
  let ask t := (t, Describe 20 (MkBuffers 10 10 10) true nothing) in
  let life os := DllMain (Sys := refusing) (ret tt) DLL_PROCESS_ATTACH ;;;
    exec_ops (Sys := refusing) IMAGE_FILE_MACHINE_AMD64 os in
  fst <$> life [ask 1; ask 1] start =
    Some [Described (HRESULT_FROM_WIN32 31) nothing; Described (HRESULT_FROM_WIN32 31) nothing] /\
  life [ask 1; ask 2] start = None.
Proof. by vm_compute. Qed.
End Refusing.
