(* ===== verification/Session.v ===== *)
(** * Diagnostic sessions (cdiag/session.c)

    A session dispatches event packets to handlers.  It is a client of a keyed
    table ([KeyedTable], implemented by [Hashtable]), which holds its handler
    registrations, and of reference counted objects ([RefObjects]). *)
From stdpp Require Import base gmap list.
From Stdlib Require Import ZArith Lia.
From S2P Require Import Prelude LinkedList Hashtable.

(** ** Reference counted objects

    Handlers, resolvers and formatters, of whatever implementation.  [owns w l]:
    in the state [w], the references [l] (in any order, an object once for every
    reference) are held by others than the objects themselves. *)
Class RefObjects (O : Type) := {
  Reference : Z -> ST O unit;
  Dereference : Z -> ST O unit;
  owns : O -> list Z -> Prop;
  owns_perm : forall w l l', l ≡ₚ l' -> owns w l -> owns w l';
  Reference_spec : forall w l o, owns w l -> o ∈ l ->
    exists w', Reference o w = Some (tt, w') /\ owns w' (o :: l);
  Dereference_spec : forall w l o, owns w (o :: l) ->
    exists w', Dereference o w = Some (tt, w') /\ owns w' l }.

#[export] Instance owns_proper {O} `{RefObjects O} w : Proper ((≡ₚ) ==> iff) (owns w).
Proof. intros l l' Hl. split; apply owns_perm; [done|by symmetry]. Qed.

(* src/include/cdiag.h:1207-1249 (CDIAG_SESSION_INFO_CLASS) *)
Definition CdiagSessionDefaultHandler : Z := 0.
Definition CdiagSessionHandler : Z := 1.
Definition CdiagSessionSeverityFilter : Z := 2.
Definition CdiagSessionResolver : Z := 3.
Definition CdiagSessionFormatter : Z := 4.
Definition CdiagSessionMaxClass : Z := 4.

(** The type of a packet, and the packet. *)
Record PACKET := { Type_ : Z; Contents : Z }.

(** What has been asked of the handlers so far: handler, packet and result of every call
    of [Handle], in order.  Counting references is no such call. *)
Class Observed (O : Type) `{RefObjects O} := {
  calls : O -> list (Z * PACKET * Z);
  Reference_calls : forall w o w', Reference o w = Some (tt, w') -> calls w' = calls w;
  Dereference_calls : forall w o w', Dereference o w = Some (tt, w') -> calls w' = calls w }.

(** A registration without its hashtable entry. *)
(* src/cdiag/cdiag/session.c:47-58 (HANDLER_REGISTRATION) *)
Record REGISTRATION := MkReg { Handler : Z; SeverityFilter : Z }.

(** The session without its table; [Regs] are the registrations on the heap, by
    the address of their hashtable entry, which is their own. *)
(* src/cdiag/cdiag/session.c:60-87 (CDIAGP_SESSION) *)
Record SESSION (O : Type) := MkSession {
  Live : bool;
  ReferenceCount : Z;
  Formatter : Z;
  Resolver : Z;
  DefaultHandler : REGISTRATION;
  Regs : gmap Z REGISTRATION;
  Objects : O }.
Arguments MkSession {O}. Arguments Live {O}. Arguments ReferenceCount {O}.
Arguments Formatter {O}. Arguments Resolver {O}. Arguments DefaultHandler {O}.
Arguments Regs {O}. Arguments Objects {O}.

Section fields.
Context {O : Type}.
Implicit Types (x : SESSION O).
Definition set_Live (b : bool) x := MkSession b (ReferenceCount x) (Formatter x) (Resolver x) (DefaultHandler x) (Regs x) (Objects x).
Definition set_ReferenceCount (c : Z) x := MkSession (Live x) c (Formatter x) (Resolver x) (DefaultHandler x) (Regs x) (Objects x).
Definition set_Formatter (o : Z) x := MkSession (Live x) (ReferenceCount x) o (Resolver x) (DefaultHandler x) (Regs x) (Objects x).
Definition set_Resolver (o : Z) x := MkSession (Live x) (ReferenceCount x) (Formatter x) o (DefaultHandler x) (Regs x) (Objects x).
Definition set_DefaultHandler (r : REGISTRATION) x := MkSession (Live x) (ReferenceCount x) (Formatter x) (Resolver x) r (Regs x) (Objects x).
Definition set_Regs (m : gmap Z REGISTRATION) x := MkSession (Live x) (ReferenceCount x) (Formatter x) (Resolver x) (DefaultHandler x) m (Objects x).
Definition set_Objects (w : O) x := MkSession (Live x) (ReferenceCount x) (Formatter x) (Resolver x) (DefaultHandler x) (Regs x) w.
End fields.

Section session.
Context {O T : Type} `{RO : RefObjects O} `{OB : !Observed O} `{KT : KeyedTable T (SESSION O)}.

(** [Handle] of a handler; [CdiagpMalloc] of a registration together with the
    store of its key. *)
Context (Handle : Z -> PACKET -> ST O Z).
Context (NewRegistration : Z -> ST T Z).

Local Abbreviation M := (ST T).

Definition getx {A} (f : SESSION O -> A) : M A := gets (fun t => f (tab_ctx t)).
Definition modx (f : SESSION O -> SESSION O) : M unit :=
  modify (fun t => tab_set_ctx (f (tab_ctx t)) t).

(** A call of an object. *)
Definition lift {A} (m : ST O A) : ST (SESSION O) A :=
  fun x => match m (Objects x) with Some (a, w) => Some (a, set_Objects w x) | None => None end.
Definition in_session {A} (m : ST (SESSION O) A) : M A :=
  fun t => match m (tab_ctx t) with Some (a, x) => Some (a, tab_set_ctx x t) | None => None end.
Definition call {A} (m : ST O A) : M A := in_session (lift m).

(** The release of a registration; the table's entry is part of it. *)
(* src/cdiag/cdiag/session.c:133-145 (CdiagsDeleteHandlerRegistration) *)
Definition CdiagsDeleteHandlerRegistration (HandlerReg : Z) (x : SESSION O) : option (SESSION O) :=
  match Regs x !! HandlerReg with
  | None => None
  | Some r =>
      match (if Handler r =? 0 then ret tt else lift (Dereference (Handler r))) x with
      | Some (_, x) => Some (set_Regs (delete HandlerReg (Regs x)) x)
      | None => None
      end
  end.

Definition DeleteRegistration (HandlerReg : Z) : M unit :=
  fun t => match CdiagsDeleteHandlerRegistration HandlerReg (tab_ctx t) with
           | Some x => Some (tt, tab_set_ctx x t)
           | None => None
           end.

Definition DereferenceIf (o : Z) : M unit := if o =? 0 then ret tt else call (Dereference o).

(** The enumeration's callback removes each entry and releases its registration. *)
(* src/cdiag/cdiag/session.c:147-206 (CdiagsDeleteSession) *)
Definition CdiagsDeleteSession : M unit :=
  tab_drain CdiagsDeleteHandlerRegistration ;;;
  tab_delete ;;;
  d <- getx DefaultHandler ;;
  DereferenceIf (Handler d) ;;;
  f <- getx Formatter ;;
  DereferenceIf f ;;;
  r <- getx Resolver ;;
  DereferenceIf r ;;;
  modx (set_Live false).

(** *** Queries and updates *)

(** The queries return a status and what they store. *)
(* src/cdiag/cdiag/session.c:208-220 (CdiagsQueryDefaultHandler) *)
Definition CdiagsQueryDefaultHandler : M (Z * Z) :=
  d <- getx DefaultHandler ;;
  (if Handler d =? 0 then ret tt else call (Reference (Handler d))) ;;;
  ret (S_OK, Handler d).

(** [CdiagpIsValidHandler] of a handler that is one. *)
(* src/cdiag/cdiag/session.c:222-248 (CdiagsSetDefaultHandler) *)
Definition CdiagsSetDefaultHandler (Handler_ : Z) : M Z :=
  if Handler_ =? 0 then ret E_INVALIDARG else
  d <- getx DefaultHandler ;;
  DereferenceIf (Handler d) ;;;
  call (Reference Handler_) ;;;
  modx (fun x => set_DefaultHandler (MkReg Handler_ (SeverityFilter (DefaultHandler x))) x) ;;;
  ret S_OK.

(** Reading a registration. *)
Definition load_reg (Entry : Z) : M REGISTRATION :=
  fun t => match Regs (tab_ctx t) !! Entry with Some r => Some (r, t) | None => None end.

(* src/cdiag/cdiag/session.c:250-275 (CdiagsQueryHandler) *)
Definition CdiagsQueryHandler (Type_ : Z) : M (Z * Z) :=
  Entry <- tab_get Type_ ;;
  if Entry =? 0 then ret (S_FALSE, 0) else
  r <- load_reg Entry ;;
  call (Reference (Handler r)) ;;;
  ret (S_OK, Handler r).

(** The registration is written without a check of the allocation. *)
(* src/cdiag/cdiag/session.c:277-318 (CdiagsSetHandler) *)
Definition CdiagsSetHandler (Type_ Handler_ : Z) : M Z :=
  HandlerReg <- NewRegistration Type_ ;;
  if HandlerReg =? 0 then fault else
  modx (fun x => set_Regs (<[HandlerReg := MkReg Handler_ 0xffffffff]> (Regs x)) x) ;;;
  call (Reference Handler_) ;;;
  OldEntry <- tab_put HandlerReg ;;
  (if OldEntry =? 0 then ret tt else DeleteRegistration OldEntry) ;;;
  ret S_OK.

(* src/cdiag/cdiag/session.c:320-344 (CdiagsQuerySeverityFilter) *)
Definition CdiagsQuerySeverityFilter (Type_ : Z) : M (Z * Z) :=
  Entry <- tab_get Type_ ;;
  if Entry =? 0 then ret (S_FALSE, 0) else
  r <- load_reg Entry ;;
  ret (S_OK, SeverityFilter r).

(* src/cdiag/cdiag/session.c:346-369 (CdiagsSetSeverityFilter) *)
Definition CdiagsSetSeverityFilter (Type_ Filter : Z) : M Z :=
  Entry <- tab_get Type_ ;;
  if Entry =? 0 then ret S_FALSE else
  r <- load_reg Entry ;;
  modx (fun x => set_Regs (<[Entry := MkReg (Handler r) Filter]> (Regs x)) x) ;;;
  ret S_OK.

(** *** The exported routines

    [CdiagsIsValidSession]: a handle is NULL or the session, whose signature can
    only be read while it exists. *)
Definition with_session {A} (SessionHandle : Z) (invalid : A) (m : M A) : M A :=
  if SessionHandle =? 0 then ret invalid else
  l <- getx Live ;;
  if l : bool then m else fault.

(* src/cdiag/cdiag/session.c:375-387 (CdiagReferenceSession) *)
Definition CdiagReferenceSession (SessionHandle : Z) : M Z :=
  with_session SessionHandle E_INVALIDARG
    (modx (fun x => set_ReferenceCount (LONG (ReferenceCount x + 1)) x) ;;; ret S_OK).

(* src/cdiag/cdiag/session.c:389-405 (CdiagDereferenceSession) *)
Definition CdiagDereferenceSession (SessionHandle : Z) : M Z :=
  with_session SessionHandle E_INVALIDARG
    (modx (fun x => set_ReferenceCount (LONG (ReferenceCount x - 1)) x) ;;;
     c <- getx ReferenceCount ;;
     (if c =? 0 then CdiagsDeleteSession else ret tt) ;;;
     ret S_OK).

(** The session is zeroed memory at first; [Alloc] says whether there is some.  The
    creation of the default resolver and formatter are parameters. *)
Definition fresh_session (w : O) : SESSION O :=
  MkSession true 1 0 0 (MkReg 0 0xffffffff) ∅ w.

(* src/cdiag/cdiag/session.c:486-502 (CdiagCreateSession) *)
Definition CleanupSession (Hr : Z) : M Z :=
  f <- getx Formatter ;;
  DereferenceIf f ;;;
  r <- getx Resolver ;;
  DereferenceIf r ;;;
  modx (set_Live false) ;;;
  ret Hr.

(* src/cdiag/cdiag/session.c:407-503 (CdiagCreateSession) *)
Definition CdiagCreateSession (CdiagCreateMessageResolver : ST O (Z * Z))
    (CdiagCreateFormatter : Z -> ST O (Z * Z)) (SessionHandle : Z) (Alloc : bool)
    (Formatter_ Resolver_ : Z) : M Z :=
  if SessionHandle =? 0 then ret E_INVALIDARG else
  if negb Alloc then ret E_OUTOFMEMORY else
  modx (fun x => fresh_session (Objects x)) ;;;
  b <- tab_init 23 ;;
  if negb b then CleanupSession E_OUTOFMEMORY else
  Hr <- (if Resolver_ =? 0 then
           c <- call CdiagCreateMessageResolver ;;
           (if FAILED (fst c) then ret tt else modx (set_Resolver (snd c))) ;;; ret (fst c)
         else call (Reference Resolver_) ;;; modx (set_Resolver Resolver_) ;;; ret S_OK) ;;
  if FAILED Hr then CleanupSession Hr else
  Hr <- (if Formatter_ =? 0 then
           c <- (r <- getx Resolver ;; call (CdiagCreateFormatter r)) ;;
           (if FAILED (fst c) then ret tt else modx (set_Formatter (snd c))) ;;; ret (fst c)
         else call (Reference Formatter_) ;;; modx (set_Formatter Formatter_) ;;; ret S_OK) ;;
  if FAILED Hr then CleanupSession Hr else
  ret S_OK.

(** [1 << Packet->Type]: a shift by the width of an int or more has no meaning. *)
Definition TypeBit (t : Z) : M Z := if (0 <=? t) && (t <? 32) then ret (Z.shiftl 1 t) else fault.

(* src/cdiag/cdiag/session.c:506-583 (CdiagHandleEvent) *)
Definition CdiagHandleEvent (SessionHandle : Z) (Packet : option PACKET) : M Z :=
  match Packet with
  | None => ret E_INVALIDARG
  | Some Packet =>
      with_session SessionHandle E_INVALIDARG
        (Entry <- tab_get (Type_ Packet) ;;
         HandlerReg <- (if Entry =? 0 then getx DefaultHandler else load_reg Entry) ;;
         let h := Handler HandlerReg in
         let Filter := SeverityFilter HandlerReg in
         (if h =? 0 then ret tt else call (Reference h)) ;;;
         if h =? 0 then ret S_FALSE else
         b <- TypeBit (Type_ Packet) ;;
         Hr <- (if negb (Z.land b Filter =? 0) then call (Handle h Packet) else ret S_FALSE) ;;
         call (Dereference h) ;;;
         ret Hr)
  end.

(** [Value] is what the pointer stands for: an object, or (by the flag
    [ValuePtr]) a pointer to the filter. *)
(* src/cdiag/cdiag/session.c:585-646 (CdiagSetInformationSession) *)
Definition CdiagSetInformationSession (SessionHandle Class_ EventType ValuePtr Value : Z) : M Z :=
  with_session SessionHandle E_INVALIDARG
    (if (CdiagSessionMaxClass <? Class_) || (ValuePtr =? 0) then ret E_INVALIDARG
     else if Class_ =? CdiagSessionDefaultHandler then CdiagsSetDefaultHandler ValuePtr
     else if Class_ =? CdiagSessionHandler then CdiagsSetHandler EventType ValuePtr
     else if Class_ =? CdiagSessionSeverityFilter then CdiagsSetSeverityFilter EventType Value
     else if Class_ =? CdiagSessionResolver then
       r <- getx Resolver ;;
       call (Dereference r) ;;;
       modx (set_Resolver ValuePtr) ;;;
       call (Reference ValuePtr) ;;;
       ret S_OK
     else if Class_ =? CdiagSessionFormatter then
       f <- getx Formatter ;;
       call (Dereference f) ;;;
       modx (set_Formatter ValuePtr) ;;;
       call (Reference ValuePtr) ;;;
       ret S_OK
     else ret E_INVALIDARG).

(** The status, and what is stored through [Value] if it is not NULL. *)
(* src/cdiag/cdiag/session.c:648-704 (CdiagQueryInformationSession) *)
Definition CdiagQueryInformationSession (SessionHandle Class_ EventType ValuePtr : Z) : M (Z * Z) :=
  with_session SessionHandle (E_INVALIDARG, 0)
    (if (CdiagSessionMaxClass <? Class_) || (ValuePtr =? 0) then ret (E_INVALIDARG, 0)
     else if Class_ =? CdiagSessionDefaultHandler then CdiagsQueryDefaultHandler
     else if Class_ =? CdiagSessionHandler then CdiagsQueryHandler EventType
     else if Class_ =? CdiagSessionSeverityFilter then CdiagsQuerySeverityFilter EventType
     else if Class_ =? CdiagSessionResolver then
       r <- getx Resolver ;; call (Reference r) ;;; ret (S_OK, r)
     else if Class_ =? CdiagSessionFormatter then
       f <- getx Formatter ;; call (Reference f) ;;; ret (S_OK, f)
     else ret (E_INVALIDARG, 0)).

(** ** The abstract session

    A default registration, a map from event types to registrations, a resolver
    and a formatter; the references the clients hold; and the calls of handlers. *)
Record SPEC := MkSpec {
  s_default : REGISTRATION;
  s_map : gmap Z REGISTRATION;
  s_resolver : Z;
  s_formatter : Z;
  s_count : Z;
  s_refs : list Z;
  s_calls : list (Z * PACKET * Z) }.

Definition refs_of (h : Z) : list Z := if h =? 0 then [] else [h].
Definition regs_refs (R : gmap Z REGISTRATION) : list Z := (fun p => Handler p.2) <$> map_to_list R.

(** What the session holds references on. *)
Definition held (x : SESSION O) : list Z :=
  refs_of (Handler (DefaultHandler x)) ++ refs_of (Resolver x) ++ refs_of (Formatter x) ++
  regs_refs (Regs x).

(** The table and the registrations on the heap are in one-to-one correspondence. *)
Record Linked (m : gmap Z Z) (R : gmap Z REGISTRATION) : Prop := {
  lk_reg : forall k E, m !! k = Some E -> E <> 0 /\ is_Some (R !! E);
  lk_key : forall E r, R !! E = Some r -> Handler r <> 0 /\ exists k, m !! k = Some E;
  lk_inj : forall k1 k2 E, m !! k1 = Some E -> m !! k2 = Some E -> k1 = k2 }.

Definition abs_map (m : gmap Z Z) (R : gmap Z REGISTRATION) : gmap Z REGISTRATION :=
  omap (fun E => R !! E) m.

(** A live session, its table representing [m], implements an abstract one. *)
Record Implements (x : SESSION O) (m : gmap Z Z) (a : SPEC) : Prop := {
  im_live : Live x = true;
  im_linked : Linked m (Regs x);
  im_map : s_map a = abs_map m (Regs x);
  im_default : s_default a = DefaultHandler x;
  im_resolver : s_resolver a = Resolver x /\ Resolver x <> 0;
  im_formatter : s_formatter a = Formatter x /\ Formatter x <> 0;
  im_count : s_count a = ReferenceCount x;
  im_refs : owns (Objects x) (held x ++ s_refs a);
  im_calls : s_calls a = calls (Objects x) }.

Definition session_ok (t : T) (a : SPEC) : Prop :=
  exists m, tab_rel t m /\ Implements (tab_ctx t) m a.

(** *** Registrations *)
Lemma regs_refs_insert R E r : R !! E = None -> regs_refs (<[E := r]> R) ≡ₚ Handler r :: regs_refs R.
Proof. intros HE. unfold regs_refs. by rewrite map_to_list_insert. Qed.

Lemma regs_refs_delete R E r : R !! E = Some r -> regs_refs R ≡ₚ Handler r :: regs_refs (delete E R).
Proof.
  intros HE. rewrite <-(insert_delete_id R E r HE) at 1. apply regs_refs_insert, lookup_delete_eq.
Qed.

Lemma regs_refs_filter R E r f : R !! E = Some r ->
  regs_refs (<[E := MkReg (Handler r) f]> R) ≡ₚ regs_refs R.
Proof.
  intros HE. rewrite <-insert_delete_eq, regs_refs_insert by apply lookup_delete_eq.
  by rewrite (regs_refs_delete R E r HE).
Qed.

Lemma Linked_fresh m R E : Linked m R -> R !! E = None -> forall k, m !! k <> Some E.
Proof. intros L HE k Hk. apply (lk_reg _ _ L) in Hk as [_ [r Hr]]. congruence. Qed.

(** A registration is entered, the one it displaces is released. *)
Lemma Linked_put m R E k r : Linked m R -> R !! E = None -> E <> 0 -> Handler r <> 0 ->
  let R' := match m !! k with Some E0 => delete E0 (<[E := r]> R) | None => <[E := r]> R end in
  Linked (<[k := E]> m) R' /\ abs_map (<[k := E]> m) R' = <[k := r]> (abs_map m R).
Proof.
  intros L HE H0 Hr R'. pose proof (Linked_fresh m R E L HE) as Hf.
  assert (forall k', k' <> k -> forall E', m !! k' = Some E' -> R' !! E' = R !! E') as Hsame.
  { intros k' Hne E' Hk'. assert (E' <> E) by (intros ->; by eapply Hf).
    unfold R'. destruct (m !! k) as [E0|] eqn:Hk; [|by rewrite lookup_insert_ne].
    rewrite lookup_delete_ne by (intros ->; by apply Hne, (lk_inj _ _ L _ _ E')).
    by rewrite lookup_insert_ne. }
  assert (R' !! E = Some r) as HE'.
  { unfold R'. destruct (m !! k) as [E0|] eqn:Hk; [|by rewrite lookup_insert_eq].
    rewrite lookup_delete_ne by (intros ->; by eapply Hf). by rewrite lookup_insert_eq. }
  split; [split|].
  - intros k' E'. destruct (decide (k' = k)) as [->|Hne].
    + rewrite lookup_insert_eq. intros [= <-]. rewrite HE'. auto.
    + rewrite lookup_insert_ne by done. intros Hk'. rewrite (Hsame _ Hne _ Hk').
      by apply (lk_reg _ _ L k').
  - intros E' r' Hr'. destruct (decide (E' = E)) as [->|Hne].
    { rewrite HE' in Hr'. injection Hr' as <-. split; [done|]. exists k. by rewrite lookup_insert_eq. }
    assert (R !! E' = Some r' /\ m !! k <> Some E') as [HR Hk].
    { unfold R' in Hr'. destruct (m !! k) as [E0|]; rewrite ?lookup_delete_Some in Hr';
        rewrite ?lookup_insert_ne in Hr' by done; naive_solver. }
    destruct (lk_key _ _ L _ _ HR) as (Hh & k' & Hk'). split; [done|]. exists k'.
    rewrite lookup_insert_ne; [done|]. by intros ->.
  - intros k1 k2 E'. destruct (decide (k1 = k)) as [->|H1], (decide (k2 = k)) as [->|H2];
      rewrite ?lookup_insert_eq, ?lookup_insert_ne by done; try done.
    + intros [= <-] Hk2. exfalso. by eapply Hf.
    + intros Hk1 [= <-]. exfalso. by eapply Hf.
    + apply (lk_inj _ _ L).
  - apply map_eq. intros k'. unfold abs_map. rewrite lookup_omap.
    destruct (decide (k' = k)) as [->|Hne].
    + rewrite !lookup_insert_eq. exact HE'.
    + rewrite !lookup_insert_ne, lookup_omap by done.
      destruct (m !! k') as [E'|] eqn:Hk'; [|done]. simpl. by eapply Hsame.
Qed.

(** A registration changes its filter. *)
Lemma Linked_filter m R k E r f : Linked m R -> m !! k = Some E -> R !! E = Some r ->
  let r' := MkReg (Handler r) f in
  Linked m (<[E := r']> R) /\ abs_map m (<[E := r']> R) = <[k := r']> (abs_map m R).
Proof.
  intros L Hk HE r'. split; [split|].
  - intros k' E' Hk'. destruct (lk_reg _ _ L k' E' Hk') as [H0 HR]. split; [done|].
    destruct (decide (E' = E)) as [->|]; [by rewrite lookup_insert_eq|by rewrite lookup_insert_ne].
  - intros E' r1. destruct (decide (E' = E)) as [->|].
    + rewrite lookup_insert_eq. intros [= <-]. split; [by destruct (lk_key _ _ L E r HE)|by exists k].
    + rewrite lookup_insert_ne by done. apply (lk_key _ _ L).
  - apply (lk_inj _ _ L).
  - apply map_eq. intros k'. unfold abs_map. rewrite lookup_omap.
    destruct (decide (k' = k)) as [->|Hne].
    + by rewrite lookup_insert_eq, Hk; simpl; rewrite lookup_insert_eq.
    + rewrite lookup_insert_ne, lookup_omap by done.
      destruct (m !! k') as [E'|] eqn:Hk'; [|done]. simpl. rewrite lookup_insert_ne; [done|].
      intros <-. by apply Hne, (lk_inj _ _ L _ _ E).
Qed.

(** *** Running the code *)
Notation S x t := (tab_set_ctx (x : SESSION O) t).

Lemma bind_getx {A B} (f : SESSION O -> A) (k : A -> M B) x t :
  bind (getx f) k (S x t) = k (f x) (S x t).
Proof. unfold getx. by rewrite bind_gets, tab_ctx_set. Qed.

Lemma bind_modx {B} f (k : unit -> M B) x t : bind (modx f) k (S x t) = k tt (S (f x) t).
Proof. unfold modx. by rewrite bind_modify, tab_ctx_set, tab_set_set. Qed.

Lemma bind_call {A B} (m : ST O A) (k : A -> M B) x t a w :
  m (Objects x) = Some (a, w) -> bind (call m) k (S x t) = k a (S (set_Objects w x) t).
Proof.
  intros E. unfold call, in_session, lift, bind. by rewrite tab_ctx_set, E, tab_set_set.
Qed.

Lemma bind_load {B} (k : REGISTRATION -> M B) x t E r :
  Regs x !! E = Some r -> bind (load_reg E) k (S x t) = k r (S x t).
Proof. intros HE. unfold load_reg, bind. by rewrite tab_ctx_set, HE. Qed.

Lemma with_session_eq {A} h (a : A) (m : M A) x t :
  h <> 0 -> Live x = true -> with_session h a m (S x t) = m (S x t).
Proof.
  intros Hh HL. unfold with_session. rewrite (proj2 (Z.eqb_neq _ _)) by done.
  by rewrite bind_getx, HL.
Qed.

(** The objects [w] hold the references [l], and no handler has been called. *)
Definition after (x : SESSION O) (w : O) (l : list Z) : Prop := owns w l /\ calls w = calls (Objects x).

(** Taking and giving up a reference that may be absent. *)
Lemma take_ref h l x t :
  owns (Objects x) l -> (h <> 0 -> h ∈ l) ->
  exists w, after x w (refs_of h ++ l) /\ forall B (k : unit -> M B),
    bind (if h =? 0 then ret tt else call (Reference h)) k (S x t) = k tt (S (set_Objects w x) t).
Proof.
  intros Ho Hin. unfold refs_of. destruct (Z.eqb_spec h 0).
  - exists (Objects x). split; [done|]. intros B k. rewrite bind_ret. by destruct x.
  - destruct (Reference_spec _ l h Ho) as (w & E & Hw); [by apply Hin|].
    exists w. split; [split; [done|by eapply Reference_calls]|].
    intros B k. by rewrite (bind_call _ _ _ _ _ _ E).
Qed.

Lemma call_ref h l x t : owns (Objects x) l -> h ∈ l ->
  exists w, after x w (h :: l) /\ forall B (k : unit -> M B),
    bind (call (Reference h)) k (S x t) = k tt (S (set_Objects w x) t).
Proof.
  intros Ho Hin. destruct (Reference_spec _ l h Ho Hin) as (w & E & Hw).
  exists w. split; [split; [done|by eapply Reference_calls]|]. intros B k. by rewrite (bind_call _ _ _ _ _ _ E).
Qed.

Lemma call_deref h l x t : owns (Objects x) (h :: l) ->
  exists w, after x w l /\ forall B (k : unit -> M B),
    bind (call (Dereference h)) k (S x t) = k tt (S (set_Objects w x) t).
Proof.
  intros Ho. destruct (Dereference_spec _ l h Ho) as (w & E & Hw).
  exists w. split; [split; [done|by eapply Dereference_calls]|]. intros B k. by rewrite (bind_call _ _ _ _ _ _ E).
Qed.

Lemma drop_ref h l x t : owns (Objects x) (refs_of h ++ l) ->
  exists w, after x w l /\ forall B (k : unit -> M B),
    bind (DereferenceIf h) k (S x t) = k tt (S (set_Objects w x) t).
Proof.
  unfold DereferenceIf, refs_of. destruct (Z.eqb_spec h 0); intros Ho; [|by apply call_deref].
  exists (Objects x). split; [done|]. intros B k. rewrite bind_ret. by destruct x.
Qed.

(** The release of a registration gives one reference up. *)
Lemma DeleteRegistration_eq E x r l :
  Regs x !! E = Some r -> Handler r <> 0 -> owns (Objects x) (Handler r :: l) ->
  exists w, CdiagsDeleteHandlerRegistration E x =
              Some (set_Regs (delete E (Regs x)) (set_Objects w x)) /\ after x w l.
Proof.
  intros HE Hh Ho. unfold CdiagsDeleteHandlerRegistration. rewrite HE, (proj2 (Z.eqb_neq _ _)) by done.
  destruct (Dereference_spec _ l _ Ho) as (w & E1 & Hw). exists w. unfold lift. rewrite E1.
  split; [done|]. split; [done|by eapply Dereference_calls].
Qed.

(** *** The operations of clients *)
Inductive session_op :=
  | OpSetDefault (h : Z) | OpSetHandler (ty h : Z) | OpSetFilter (ty f : Z)
  | OpSetResolver (o : Z) | OpSetFormatter (o : Z)
  | OpQueryDefault | OpQueryHandler (ty : Z) | OpQueryFilter (ty : Z)
  | OpQueryResolver | OpQueryFormatter
  | OpHandleEvent (p : PACKET) | OpReferenceSession.

Section operations.
(** The handle of the session, and an address for values. *)
Context (handle ptr : Z) (handle_ok : handle <> 0) (ptr_ok : ptr <> 0).

Definition status (m : M Z) : M (Z * Z) := r <- m ;; ret (r, 0).

Definition exec_session_op (o : session_op) : M (Z * Z) :=
  let Set_ c ty p v := status (CdiagSetInformationSession handle c ty p v) in
  let Query c ty := CdiagQueryInformationSession handle c ty ptr in
  match o with
  | OpSetDefault h => Set_ CdiagSessionDefaultHandler 0 h 0
  | OpSetHandler ty h => Set_ CdiagSessionHandler ty h 0
  | OpSetFilter ty f => Set_ CdiagSessionSeverityFilter ty ptr f
  | OpSetResolver r => Set_ CdiagSessionResolver 0 r 0
  | OpSetFormatter f => Set_ CdiagSessionFormatter 0 f 0
  | OpQueryDefault => Query CdiagSessionDefaultHandler 0
  | OpQueryHandler ty => Query CdiagSessionHandler ty
  | OpQueryFilter ty => Query CdiagSessionSeverityFilter ty
  | OpQueryResolver => Query CdiagSessionResolver 0
  | OpQueryFormatter => Query CdiagSessionFormatter 0
  | OpHandleEvent p => status (CdiagHandleEvent handle (Some p))
  | OpReferenceSession => status (CdiagReferenceSession handle)
  end.

(** Clients pass objects they hold a reference on, and packets of a known type. *)
Definition permitted (a : SPEC) (o : session_op) : Prop :=
  match o with
  | OpSetDefault h | OpSetHandler _ h | OpSetResolver h | OpSetFormatter h => h <> 0 /\ h ∈ s_refs a
  | OpHandleEvent p => 0 <= Type_ p < 32
  | _ => True
  end.

(** The same operations on the abstract session. *)
Definition with_refs (l : list Z) (a : SPEC) : SPEC :=
  MkSpec (s_default a) (s_map a) (s_resolver a) (s_formatter a) (s_count a) (l ++ s_refs a) (s_calls a).
Definition with_map (mp : gmap Z REGISTRATION) (a : SPEC) : SPEC :=
  MkSpec (s_default a) mp (s_resolver a) (s_formatter a) (s_count a) (s_refs a) (s_calls a).
Definition with_call (c : Z * PACKET * Z) (a : SPEC) : SPEC :=
  MkSpec (s_default a) (s_map a) (s_resolver a) (s_formatter a) (s_count a) (s_refs a) (s_calls a ++ [c]).

Definition registration_for (a : SPEC) (ty : Z) : REGISTRATION :=
  default (s_default a) (s_map a !! tab_norm ty).

Definition session_step (o : session_op) (a : SPEC) (r : Z * Z) (a' : SPEC) : Prop :=
  match o with
  | OpSetDefault h => r = (S_OK, 0) /\
      a' = MkSpec (MkReg h (SeverityFilter (s_default a))) (s_map a) (s_resolver a) (s_formatter a)
             (s_count a) (s_refs a) (s_calls a)
  | OpSetHandler ty h => r = (S_OK, 0) /\
      a' = with_map (<[tab_norm ty := MkReg h 0xffffffff]> (s_map a)) a
  | OpSetFilter ty f =>
      match s_map a !! tab_norm ty with
      | None => r = (S_FALSE, 0) /\ a' = a
      | Some g => r = (S_OK, 0) /\ a' = with_map (<[tab_norm ty := MkReg (Handler g) f]> (s_map a)) a
      end
  | OpSetResolver o => r = (S_OK, 0) /\
      a' = MkSpec (s_default a) (s_map a) o (s_formatter a) (s_count a) (s_refs a) (s_calls a)
  | OpSetFormatter o => r = (S_OK, 0) /\
      a' = MkSpec (s_default a) (s_map a) (s_resolver a) o (s_count a) (s_refs a) (s_calls a)
  | OpQueryDefault => r = (S_OK, Handler (s_default a)) /\
      a' = with_refs (refs_of (Handler (s_default a))) a
  | OpQueryHandler ty =>
      match s_map a !! tab_norm ty with
      | None => r = (S_FALSE, 0) /\ a' = a
      | Some g => r = (S_OK, Handler g) /\ a' = with_refs [Handler g] a
      end
  | OpQueryFilter ty =>
      match s_map a !! tab_norm ty with
      | None => r = (S_FALSE, 0) /\ a' = a
      | Some g => r = (S_OK, SeverityFilter g) /\ a' = a
      end
  | OpQueryResolver => r = (S_OK, s_resolver a) /\ a' = with_refs [s_resolver a] a
  | OpQueryFormatter => r = (S_OK, s_formatter a) /\ a' = with_refs [s_formatter a] a
  | OpHandleEvent p =>
      let g := registration_for a (Type_ p) in
      if (Handler g =? 0) || negb (Z.testbit (SeverityFilter g) (Type_ p)) then r = (S_FALSE, 0) /\ a' = a
      else exists Hr, r = (Hr, 0) /\ a' = with_call (Handler g, p, Hr) a
  | OpReferenceSession => r = (S_OK, 0) /\
      a' = MkSpec (s_default a) (s_map a) (s_resolver a) (s_formatter a) (LONG (s_count a + 1))
             (s_refs a) (s_calls a)
  end.

(** What the handlers and the allocator promise. *)
Definition handles : Prop := forall w l h p, owns w l -> h ∈ l ->
  exists Hr w', Handle h p w = Some (Hr, w') /\ owns w' l /\ calls w' = calls w ++ [(h, p, Hr)].

Definition allocates_registration : Prop := forall t m k, tab_rel t m ->
  exists E t', NewRegistration k t = Some (E, t') /\ (E <> 0 -> tab_rel t' m /\ tab_ctx t' = tab_ctx t /\
    Regs (tab_ctx t) !! E = None /\ tab_key t' E = Some k /\ tab_insertable t' E).

Context (Handle_ok : handles) (New_ok : allocates_registration).

(** There is no memory for the registration that the operation is to enter. *)
Definition allocation_fails (o : session_op) (t : T) : Prop :=
  match o with OpSetHandler ty _ => exists t', NewRegistration ty t = Some (0, t') | _ => False end.

(** What one operation has to show. *)
Definition returns (o : session_op) (t : T) (a : SPEC) : Prop :=
  exists r t' a', exec_session_op o t = Some (r, t') /\ session_ok t' a' /\ session_step o a r a'.
Definition refines (o : session_op) : Prop := forall t a, session_ok t a -> permitted a o ->
  ~ allocation_fails o t -> returns o t a.

Lemma session_ok_S x m t a : tab_rel t m -> Implements x m a -> session_ok (S x t) a.
Proof. intros Hr Hi. exists m. rewrite tab_ctx_set. split; [by apply tab_rel_set|done]. Qed.

(** Change the part of the object world. *)
Lemma Implements_refs x m a w l : Implements x m a -> owns w (held x ++ l) -> calls w = calls (Objects x) ->
  Implements (set_Objects w x) m
    (MkSpec (s_default a) (s_map a) (s_resolver a) (s_formatter a) (s_count a) l (s_calls a)).
Proof. intros [] Ho Hc. split; simpl; congruence || done. Qed.

Lemma Implements_world x m a w : Implements x m a -> owns w (held x ++ s_refs a) -> calls w = calls (Objects x) ->
  Implements (set_Objects w x) m a.
Proof. intros [] Ho Hc. split; simpl; congruence || done. Qed.

Lemma Implements_call x m a w c : Implements x m a -> owns w (held x ++ s_refs a) ->
  calls w = calls (Objects x) ++ [c] -> Implements (set_Objects w x) m (with_call c a).
Proof. intros [] Ho Hc. split; simpl; congruence || done. Qed.

Lemma entry_of_type x m a ty : Implements x m a ->
  (m !! tab_norm ty = None /\ s_map a !! tab_norm ty = None) \/
  (exists E r, m !! tab_norm ty = Some E /\ E <> 0 /\ Regs x !! E = Some r /\
               s_map a !! tab_norm ty = Some r /\ Handler r <> 0).
Proof.
  intros HI. rewrite (im_map _ _ _ HI). unfold abs_map. rewrite lookup_omap.
  destruct (m !! tab_norm ty) as [E|] eqn:Hk; [right|by left].
  destruct (lk_reg _ _ (im_linked _ _ _ HI) _ _ Hk) as [HE [r Hr]]. exists E, r.
  split_and!; try done. by destruct (lk_key _ _ (im_linked _ _ _ HI) _ _ Hr).
Qed.

Lemma held_reg x E r : Regs x !! E = Some r -> Handler r ∈ held x.
Proof.
  intros HE. unfold held. rewrite !elem_of_app, (regs_refs_delete _ _ _ HE). set_solver.
Qed.

Lemma bind_session {A B} (a : A) (m : M A) (k : A -> M B) x t :
  Live x = true -> bind (with_session handle a m) k (S x t) = bind m k (S x t).
Proof. intros HL. unfold bind. by rewrite with_session_eq. Qed.

Lemma ptr_check (p : Z) (c : bool) : p <> 0 -> c || (p =? 0) = c.
Proof. intros Hp. by rewrite (proj2 (Z.eqb_neq _ _) Hp), orb_false_r. Qed.

(** Enter an operation: name the session [x], and get to the code of the class. *)
Ltac enter t a m x Hr HI Hp :=
  intros t a (m & Hr & HI) Hp HN; unfold returns;
  rewrite <-(tab_set_get t); set (x := tab_ctx t) in *;
  unfold exec_session_op, status, CdiagSetInformationSession, CdiagQueryInformationSession;
  cbv zeta;
  try first [rewrite bind_session by apply (im_live _ _ _ HI)
        |rewrite with_session_eq by first [apply handle_ok|apply (im_live _ _ _ HI)]];
  rewrite ?ptr_check by first [apply ptr_ok|apply Hp];
  cbn [Z.ltb Z.eqb Z.compare Pos.compare Pos.compare_cont Pos.eqb CdiagSessionMaxClass
       CdiagSessionDefaultHandler CdiagSessionHandler CdiagSessionSeverityFilter
       CdiagSessionResolver CdiagSessionFormatter].

(** Leave it with a session [x'] that implements the abstract one. *)
Ltac leave m :=
  eexists _, _, _; split; [reflexivity|apply and_comm; split; [|apply (session_ok_S _ m); [done|]]].

Lemma refs_of_nonzero h : h <> 0 -> refs_of h = [h].
Proof. intros Hh. unfold refs_of. by rewrite (proj2 (Z.eqb_neq _ _) Hh). Qed.

Lemma set_default_refines h : refines (OpSetDefault h).
Proof.
  enter t a m x Hr HI Hp. destruct Hp as [Hh Hin].
  unfold CdiagsSetDefaultHandler. rewrite (proj2 (Z.eqb_neq _ _)) by done.
  rewrite bind_assoc, bind_getx, bind_assoc. pose proof (im_refs _ _ _ HI) as Ho.
  unfold held in Ho. rewrite <-app_assoc in Ho.
  destruct (drop_ref _ _ x t Ho) as (w1 & [Hw1 Cw1] & ->).
  rewrite bind_assoc. destruct (call_ref h _ (set_Objects w1 x) t Hw1) as (w2 & [Hw2 Cw2] & ->); [set_solver|].
  rewrite bind_assoc, bind_modx, bind_ret. leave m.
  - done.
  - destruct HI; split; simpl in *; try done; [congruence| |congruence].
    unfold held. simpl. by rewrite refs_of_nonzero, <-app_assoc.
Qed.

Lemma set_resolver_refines o : refines (OpSetResolver o).
Proof.
  enter t a m x Hr HI Hp. destruct Hp as [Hh Hin].
  rewrite bind_assoc, bind_getx, bind_assoc. pose proof (im_refs _ _ _ HI) as Ho.
  pose proof (im_resolver _ _ _ HI) as [_ HR].
  assert (owns (Objects x) (Resolver x :: (refs_of (Handler (DefaultHandler x)) ++
            refs_of (Formatter x) ++ regs_refs (Regs x)) ++ s_refs a)) as Ho'.
  { revert Ho. apply owns_perm. unfold held. rewrite (refs_of_nonzero _ HR). solve_Permutation. }
  destruct (call_deref _ _ x t Ho') as (w1 & [Hw1 Cw1] & ->).
  rewrite bind_assoc, bind_modx, bind_assoc.
  destruct (call_ref o _ (set_Resolver o (set_Objects w1 x)) t Hw1) as (w2 & [Hw2 Cw2] & ->); [set_solver|].
  rewrite bind_ret. leave m.
  - done.
  - destruct HI; split; simpl in *; try done; [|congruence]. revert Hw2. apply owns_perm.
    unfold held. simpl. rewrite (refs_of_nonzero o) by done. solve_Permutation.
Qed.

Lemma set_formatter_refines o : refines (OpSetFormatter o).
Proof.
  enter t a m x Hr HI Hp. destruct Hp as [Hh Hin].
  rewrite bind_assoc, bind_getx, bind_assoc. pose proof (im_refs _ _ _ HI) as Ho.
  pose proof (im_formatter _ _ _ HI) as [_ HR].
  assert (owns (Objects x) (Formatter x :: (refs_of (Handler (DefaultHandler x)) ++
            refs_of (Resolver x) ++ regs_refs (Regs x)) ++ s_refs a)) as Ho'.
  { revert Ho. apply owns_perm. unfold held. rewrite (refs_of_nonzero _ HR). solve_Permutation. }
  destruct (call_deref _ _ x t Ho') as (w1 & [Hw1 Cw1] & ->).
  rewrite bind_assoc, bind_modx, bind_assoc.
  destruct (call_ref o _ (set_Formatter o (set_Objects w1 x)) t Hw1) as (w2 & [Hw2 Cw2] & ->); [set_solver|].
  rewrite bind_ret. leave m.
  - done.
  - destruct HI; split; simpl in *; try done; [|congruence]. revert Hw2. apply owns_perm.
    unfold held. simpl. rewrite (refs_of_nonzero o) by done. solve_Permutation.
Qed.

(** The session after a registration is entered and an old one released. *)
Lemma Implements_put x m a k E h w :
  Implements x m a -> Regs x !! E = None -> E <> 0 -> h <> 0 ->
  let r := MkReg h 0xffffffff in
  let R' := match m !! k with Some E0 => delete E0 (<[E := r]> (Regs x)) | None => <[E := r]> (Regs x) end in
  owns w (held (set_Regs R' x) ++ s_refs a) -> calls w = calls (Objects x) ->
  Implements (set_Regs R' (set_Objects w x)) (<[k := E]> m) (with_map (<[k := r]> (s_map a)) a).
Proof.
  intros HI HE H0 Hh r R' Ho Hc.
  destruct (Linked_put m (Regs x) E k r (im_linked _ _ _ HI) HE H0 Hh) as [HL Ha].
  destruct HI; split; try done; simpl; [by rewrite im_map0, <-Ha|congruence].
Qed.

Lemma set_handler_refines ty h : refines (OpSetHandler ty h).
Proof.
  enter t a m x Hr HI Hp. destruct Hp as [Hh Hin]. unfold CdiagsSetHandler.
  destruct (New_ok (S x t) m ty) as (E & t1 & E1 & H1); [by apply tab_rel_set|].
  assert (E <> 0) as HE0.
  { intros ->. apply HN. exists t1. revert E1. unfold x. by rewrite tab_set_get. }
  destruct (H1 HE0) as (Hr1 & Hx1 & HE & HK & HIns). clear H1. rewrite tab_ctx_set in Hx1, HE.
  rewrite bind_assoc, (bind_eq _ _ _ _ _ E1), (proj2 (Z.eqb_neq _ _)) by done.
  rewrite <-(tab_set_get t1), Hx1. rewrite bind_assoc, bind_modx.
  set (x1 := set_Regs _ x). rewrite bind_assoc.
  destruct (call_ref h _ x1 t1 (im_refs _ _ _ HI)) as (w & [Hw Cw] & ->); [set_solver|].
  set (x2 := set_Objects w x1). rewrite bind_assoc.
  destruct (tab_put_spec (S x2 t1) m E ty) as (t2 & E2 & Hr2 & _ & Hx2 & _);
    [by apply tab_rel_set|by rewrite tab_key_set|by apply tab_insertable_set|].
  rewrite (bind_eq _ _ _ _ _ E2). rewrite tab_ctx_set in Hx2.
  rewrite <-(tab_set_get t2), Hx2.
  pose proof (fun w => Implements_put x m a (tab_norm ty) E h w HI HE HE0 Hh) as HI'.
  destruct (m !! tab_norm ty) as [E0|] eqn:Hk; simpl.
  - destruct (lk_reg _ _ (im_linked _ _ _ HI) _ _ Hk) as [HE00 [r0 Hr0]].
    assert (E0 <> E) by congruence. rewrite (proj2 (Z.eqb_neq _ _)) by done.
    destruct (DeleteRegistration_eq E0 x2 r0 (h :: refs_of (Handler (DefaultHandler x)) ++
      refs_of (Resolver x) ++ refs_of (Formatter x) ++ regs_refs (delete E0 (Regs x)) ++ s_refs a))
      as (w' & E3 & [Hw' Cw']).
    + simpl. by rewrite lookup_insert_ne.
    + by destruct (lk_key _ _ (im_linked _ _ _ HI) _ _ Hr0).
    + revert Hw. apply owns_perm. unfold held. rewrite (regs_refs_delete _ _ _ Hr0). solve_Permutation.
    + rewrite bind_assoc. erewrite bind_eq by (unfold DeleteRegistration; by rewrite tab_ctx_set, E3).
      rewrite tab_set_set, bind_ret. leave (<[tab_norm ty := E]> m); [done|].
      specialize (HI' w'). simpl in *. apply HI'; [|congruence]. revert Hw'. apply owns_perm. unfold held. simpl.
      rewrite delete_insert_ne by done. rewrite regs_refs_insert by by rewrite lookup_delete_ne.
      simpl. solve_Permutation.
  - rewrite bind_assoc, !bind_ret. leave (<[tab_norm ty := E]> m); [done|].
    specialize (HI' w). simpl in *. apply HI'; [|congruence]. revert Hw. apply owns_perm. unfold held. simpl.
    rewrite regs_refs_insert by done. simpl. solve_Permutation.
Qed.

Lemma set_filter_refines ty f : refines (OpSetFilter ty f).
Proof.
  enter t a m x Hr HI Hp. unfold CdiagsSetSeverityFilter.
  rewrite bind_assoc, (bind_eq _ _ _ _ _ (tab_get_spec (S x t) m ty (tab_rel_set _ _ _ Hr))).
  unfold session_step.
  destruct (entry_of_type x m a ty HI) as [(Hk & Ha)|(E & r & Hk & HE0 & HE & Ha & Hh)];
    rewrite Hk, Ha; cbn [default from_option id].
  - rewrite Z.eqb_refl, bind_ret. by leave m.
  - rewrite (proj2 (Z.eqb_neq _ _)) by done.
    rewrite bind_assoc, (bind_load _ _ _ _ _ HE), bind_assoc, bind_modx, bind_ret.
    leave m; [done|]. destruct (Linked_filter m (Regs x) _ E r f (im_linked _ _ _ HI) Hk HE) as [HL Hm].
    destruct HI; split; simpl; try done; [by rewrite im_map0|].
    unfold held. simpl. by rewrite (regs_refs_filter _ _ _ f HE).
Qed.

Lemma query_default_refines : refines OpQueryDefault.
Proof.
  enter t a m x Hr HI Hp. unfold CdiagsQueryDefaultHandler. rewrite bind_getx.
  destruct (take_ref (Handler (DefaultHandler x)) _ x t (im_refs _ _ _ HI)) as (w & [Hw Cw] & ->).
  { intros Hh. unfold held. rewrite (refs_of_nonzero _ Hh). set_solver. }
  leave m; [unfold session_step; by rewrite (im_default _ _ _ HI)|]. simpl. eapply Implements_refs; [done| |done].
  revert Hw. apply owns_perm. solve_Permutation.
Qed.

Lemma query_handler_refines ty : refines (OpQueryHandler ty).
Proof.
  enter t a m x Hr HI Hp. unfold CdiagsQueryHandler.
  rewrite (bind_eq _ _ _ _ _ (tab_get_spec (S x t) m ty (tab_rel_set _ _ _ Hr))).
  unfold session_step.
  destruct (entry_of_type x m a ty HI) as [(Hk & Ha)|(E & r & Hk & HE0 & HE & Ha & Hh)];
    rewrite Hk, Ha; cbn [default from_option id].
  - rewrite Z.eqb_refl. by leave m.
  - rewrite (proj2 (Z.eqb_neq _ _)) by done. rewrite (bind_load _ _ _ _ _ HE).
    destruct (call_ref (Handler r) _ x t (im_refs _ _ _ HI)) as (w & [Hw Cw] & ->).
    { apply elem_of_app. left. by eapply held_reg. }
    leave m; [done|]. simpl. eapply Implements_refs; [done| |done].
    revert Hw. apply owns_perm. solve_Permutation.
Qed.

Lemma query_filter_refines ty : refines (OpQueryFilter ty).
Proof.
  enter t a m x Hr HI Hp. unfold CdiagsQuerySeverityFilter.
  rewrite (bind_eq _ _ _ _ _ (tab_get_spec (S x t) m ty (tab_rel_set _ _ _ Hr))).
  unfold session_step.
  destruct (entry_of_type x m a ty HI) as [(Hk & Ha)|(E & r & Hk & HE0 & HE & Ha & Hh)];
    rewrite Hk, Ha; cbn [default from_option id].
  - rewrite Z.eqb_refl. by leave m.
  - rewrite (proj2 (Z.eqb_neq _ _)) by done. rewrite (bind_load _ _ _ _ _ HE). by leave m.
Qed.

Lemma query_resolver_refines : refines OpQueryResolver.
Proof.
  enter t a m x Hr HI Hp. rewrite bind_getx. pose proof (im_resolver _ _ _ HI) as [Ea HR].
  destruct (call_ref (Resolver x) _ x t (im_refs _ _ _ HI)) as (w & [Hw Cw] & ->).
  { unfold held. rewrite (refs_of_nonzero _ HR). set_solver. }
  leave m; [unfold session_step; by rewrite Ea|]. eapply Implements_refs; [done| |done].
  revert Hw. apply owns_perm. simpl. solve_Permutation.
Qed.

Lemma query_formatter_refines : refines OpQueryFormatter.
Proof.
  enter t a m x Hr HI Hp. rewrite bind_getx. pose proof (im_formatter _ _ _ HI) as [Ea HR].
  destruct (call_ref (Formatter x) _ x t (im_refs _ _ _ HI)) as (w & [Hw Cw] & ->).
  { unfold held. rewrite (refs_of_nonzero _ HR). set_solver. }
  leave m; [unfold session_step; by rewrite Ea|]. eapply Implements_refs; [done| |done].
  revert Hw. apply owns_perm. simpl. solve_Permutation.
Qed.

Lemma reference_refines : refines OpReferenceSession.
Proof.
  enter t a m x Hr HI Hp. unfold CdiagReferenceSession.
  rewrite bind_session by apply (im_live _ _ _ HI). rewrite bind_assoc, bind_modx, bind_ret.
  leave m; [done|]. destruct HI; split; simpl; try done. by rewrite im_count0.
Qed.

(** The registration a packet is dispatched to. *)
Lemma dispatch ty x m a t : Implements x m a -> tab_rel t m ->
  exists E, tab_get ty (S x t) = Some (E, S x t) /\
    (Handler (registration_for a ty) <> 0 -> Handler (registration_for a ty) ∈ held x) /\
    forall B (k : REGISTRATION -> M B),
      bind (if E =? 0 then getx DefaultHandler else load_reg E) k (S x t) =
      k (registration_for a ty) (S x t).
Proof.
  intros HI Hr. exists (default 0 (m !! tab_norm ty)). split; [by apply tab_get_spec, tab_rel_set|].
  unfold registration_for.
  destruct (entry_of_type x m a ty HI) as [(Hk & Ha)|(E & r & Hk & HE0 & HE & Ha & Hh)];
    rewrite Hk, Ha; cbn [default from_option id].
  - rewrite Z.eqb_refl, (im_default _ _ _ HI). split; [|intros; by rewrite bind_getx].
    intros Hd. unfold held. rewrite (refs_of_nonzero _ Hd). set_solver.
  - rewrite (proj2 (Z.eqb_neq _ _) HE0).
    split; [intros _; by eapply held_reg|intros; by rewrite (bind_load _ _ _ _ _ HE)].
Qed.

Lemma type_bit ty f : 0 <= ty < 32 -> negb (Z.land (Z.shiftl 1 ty) f =? 0) = Z.testbit f ty.
Proof.
  intros Hty. assert (forall i, 0 <= i -> Z.testbit (Z.land (Z.shiftl 1 ty) f) i = (i =? ty) && Z.testbit f i)
    as Hbits.
  { intros i Hi. rewrite Z.land_spec, Z.shiftl_1_l, Z.pow2_bits_eqb by lia. f_equal. apply Z.eqb_sym. }
  destruct (Z.testbit f ty) eqn:Ef.
  - apply negb_true_iff, Z.eqb_neq. intros H0. specialize (Hbits ty ltac:(lia)).
    by rewrite H0, Z.bits_0, Z.eqb_refl, Ef in Hbits.
  - apply negb_false_iff, Z.eqb_eq. apply Z.bits_inj_0. intros i.
    destruct (Z.neg_nonneg_cases i) as [|Hi]; [by apply Z.testbit_neg_r|]. rewrite Hbits by done.
    destruct (Z.eqb_spec i ty) as [->|]; [by rewrite Ef|done].
Qed.

Lemma handle_event_refines p : refines (OpHandleEvent p).
Proof.
  enter t a m x Hr HI Hp. simpl in Hp. unfold CdiagHandleEvent.
  rewrite bind_session by apply (im_live _ _ _ HI).
  destruct (dispatch (Type_ p) x m a t HI Hr) as (E & E1 & Hin & Hd). cbv zeta.
  rewrite bind_assoc, (bind_eq _ _ _ _ _ E1), bind_assoc, Hd.
  unfold session_step. set (g := registration_for a (Type_ p)) in *.
  rewrite bind_assoc.
  destruct (take_ref (Handler g) _ x t (im_refs _ _ _ HI)) as (w & [Hw Cw] & ->).
  { intros Hh. apply elem_of_app. left. by apply Hin. }
  destruct (Z.eqb_spec (Handler g) 0) as [Hh|Hh].
  - rewrite bind_ret. leave m; [done|]. apply Implements_world; [done| |done].
    unfold refs_of in Hw. rewrite Hh in Hw. exact Hw.
  - unfold TypeBit. rewrite (proj2 (Z.leb_le _ _)), (proj2 (Z.ltb_lt _ _)) by lia.
    cbn [andb orb]. rewrite bind_assoc, bind_ret, type_bit, bind_assoc by done.
    rewrite (refs_of_nonzero _ Hh) in Hw. simpl in Hw.
    destruct (Z.testbit _ _); cbn [negb].
    + destruct (Handle_ok w _ (Handler g) p Hw ltac:(set_solver)) as (r & w' & E2 & Hw' & Cw').
      rewrite (bind_call _ _ (set_Objects w x) _ _ _ E2), bind_assoc.
      destruct (call_deref _ _ (set_Objects w' (set_Objects w x)) t Hw') as (w2 & [Hw2 Cw2] & ->).
      rewrite bind_ret. leave m; [by exists r|]. apply (Implements_call x m); [done|done|].
      simpl in *. congruence.
    + rewrite bind_ret, bind_assoc. destruct (call_deref _ _ (set_Objects w x) t Hw) as (w2 & [Hw2 Cw2] & ->).
      rewrite bind_ret. leave m; [done|]. apply (Implements_world x); [done|done|]. simpl in *. congruence.
Qed.

Lemma session_op_refines o : refines o.
Proof.
  destruct o; eauto using set_default_refines, set_handler_refines, set_filter_refines,
    set_resolver_refines, set_formatter_refines, query_default_refines, query_handler_refines,
    query_filter_refines, query_resolver_refines, query_formatter_refines, handle_event_refines,
    reference_refines.
Qed.

Fixpoint exec_session_ops (os : list session_op) : M (list (Z * Z)) :=
  match os with
  | [] => ret []
  | o :: os => r <- exec_session_op o ;; rs <- exec_session_ops os ;; ret (r :: rs)
  end.

(** Sequences of permitted operations on the abstract session. *)
Inductive session_steps : list session_op -> SPEC -> list (Z * Z) -> SPEC -> Prop :=
  | steps_nil a : session_steps [] a [] a
  | steps_cons o os a r a1 rs a2 : session_step o a r a1 -> session_steps os a1 rs a2 ->
      session_steps (o :: os) a (r :: rs) a2.

(** Every operation is permitted whenever the ones before it are done. *)
Fixpoint all_permitted (os : list session_op) (a : SPEC) : Prop :=
  match os with
  | [] => True
  | o :: os => permitted a o /\ forall r a', session_step o a r a' -> all_permitted os a'
  end.

(** The operations fault at one that finds no memory for a registration: those before it
    have done what the specification says. *)
Definition faults_without_memory (os : list session_op) (t : T) (a : SPEC) : Prop :=
  exec_session_ops os t = None /\
  exists os1 ty h os2 rs t1 a1, os = os1 ++ OpSetHandler ty h :: os2 /\
    exec_session_ops os1 t = Some (rs, t1) /\ session_ok t1 a1 /\ session_steps os1 a rs a1 /\
    (exists t', NewRegistration ty t1 = Some (0, t')).

Lemma set_handler_faults ty h t a t' : session_ok t a -> permitted a (OpSetHandler ty h) ->
  NewRegistration ty t = Some (0, t') -> exec_session_op (OpSetHandler ty h) t = None.
Proof.
  intros (m & Hr & HI) Hp HE. rewrite <-(tab_set_get t) in HE |- *. set (x := tab_ctx t) in *.
  unfold exec_session_op, status, CdiagSetInformationSession. cbv zeta.
  rewrite bind_session by apply (im_live _ _ _ HI). destruct Hp as [Hh _]. rewrite ptr_check by done.
  cbn [Z.ltb Z.eqb Z.compare Pos.compare Pos.compare_cont Pos.eqb CdiagSessionMaxClass
       CdiagSessionDefaultHandler CdiagSessionHandler].
  unfold CdiagsSetHandler. by rewrite bind_assoc, (bind_eq _ _ _ _ _ HE).
Qed.

Lemma returns_or_not o t a : session_ok t a -> permitted a o ->
  returns o t a \/ allocation_fails o t /\ exec_session_op o t = None.
Proof.
  intros Hok Hp. destruct o; try (left; apply session_op_refines; [done|done|by intros []]).
  pose proof Hok as (m & Hr & HI). destruct (New_ok t m ty Hr) as (E & t1 & E1 & _).
  destruct (decide (E = 0)) as [->|HE].
  - right. split; [by exists t1|]. by eapply set_handler_faults.
  - left. apply session_op_refines; [done|done|]. intros [t2 E2]. congruence.
Qed.

Lemma session_ops_refine os : forall t a, session_ok t a -> all_permitted os a ->
  (exists rs t' a', exec_session_ops os t = Some (rs, t') /\ session_ok t' a' /\ session_steps os a rs a') \/
  faults_without_memory os t a.
Proof.
  induction os as [|o os IH]; intros t a Ht Hp.
  - left. exists [], t, a. split_and!; [done|done|constructor].
  - destruct Hp as [Ho Hos]. destruct (returns_or_not o t a Ht Ho) as [(r & t1 & a1 & E1 & Ht1 & Hs)|[HF E1]].
    + destruct (IH t1 a1 Ht1 (Hos r a1 Hs)) as [(rs & t2 & a2 & E2 & Ht2 & Hss)|
        (E2 & os1 & ty & h & os2 & rs & t2 & a2 & -> & E3 & Ht2 & Hss & HF)].
      * left. exists (r :: rs), t2, a2. simpl. rewrite (bind_eq _ _ _ _ _ E1), (bind_eq _ _ _ _ _ E2).
        split_and!; [done|done|by econstructor].
      * right. split.
        { cbn [exec_session_ops]. rewrite (bind_eq _ _ _ _ _ E1). unfold bind. by rewrite E2. }
        exists (o :: os1), ty, h, os2, (r :: rs), t2, a2. split_and!; [done| |done|by econstructor|done].
        cbn [exec_session_ops]. by rewrite (bind_eq _ _ _ _ _ E1), (bind_eq _ _ _ _ _ E3).
    + right. split; [cbn [exec_session_ops]; unfold bind; by rewrite E1|]. destruct o; try done.
      exists [], ty, h, os, [], t, a. split_and!; [done|done|done|constructor|done].
Qed.

(** *** The end of a session *)
Lemma Linked_delete m R k E : Linked m R -> m !! k = Some E -> Linked (delete k m) (delete E R).
Proof.
  intros L Hk. split.
  - intros k' E' [Hne Hk']%lookup_delete_Some. destruct (lk_reg _ _ L _ _ Hk') as [H0 HR].
    split; [done|]. rewrite lookup_delete_ne; [done|]. intros ->. by apply Hne, (lk_inj _ _ L _ _ E').
  - intros E' r [Hne HR]%lookup_delete_Some. destruct (lk_key _ _ L _ _ HR) as (Hh & k' & Hk').
    split; [done|]. exists k'. rewrite lookup_delete_ne; [done|]. intros ->. congruence.
  - intros k1 k2 E' [_ H1]%lookup_delete_Some [_ H2]%lookup_delete_Some. by apply (lk_inj _ _ L _ _ E').
Qed.

(** While the table is drained. *)
Definition draining (x0 : SESSION O) (l : list Z) (m : gmap Z Z) (x : SESSION O) : Prop :=
  Linked m (Regs x) /\ owns (Objects x) (held x ++ l) /\
  DefaultHandler x = DefaultHandler x0 /\ Resolver x = Resolver x0 /\ Formatter x = Formatter x0.

Lemma draining_step x0 l m k E x : draining x0 l m x -> m !! k = Some E ->
  exists x', CdiagsDeleteHandlerRegistration E x = Some x' /\ draining x0 l (delete k m) x'.
Proof.
  intros (L & Ho & Hrest) Hk. destruct (lk_reg _ _ L _ _ Hk) as [HE0 [r Hr]].
  destruct (lk_key _ _ L _ _ Hr) as [Hh _].
  destruct (DeleteRegistration_eq E x r (refs_of (Handler (DefaultHandler x)) ++
    refs_of (Resolver x) ++ refs_of (Formatter x) ++ regs_refs (delete E (Regs x)) ++ l))
    as (w & E1 & Hw & _); [done|done| |].
  { revert Ho. apply owns_perm. unfold held. rewrite (regs_refs_delete _ _ _ Hr). solve_Permutation. }
  eexists. split; [exact E1|]. split_and!; try apply Hrest; [by apply Linked_delete|].
  revert Hw. apply owns_perm. unfold held. simpl. solve_Permutation.
Qed.

Lemma delete_session_spec t a : session_ok t a ->
  exists t', CdiagsDeleteSession t = Some (tt, t') /\ Live (tab_ctx t') = false /\
             owns (Objects (tab_ctx t')) (s_refs a).
Proof.
  intros (m & Hr & HI). unfold CdiagsDeleteSession.
  destruct (tab_drain_spec CdiagsDeleteHandlerRegistration (draining (tab_ctx t) (s_refs a)) t m Hr)
    as (t1 & E1 & Hr1 & (HL & Ho & Hd & HR & HF)).
  { split_and!; try done; apply HI. }
  { intros m' k E x HJ Hk. by eapply draining_step. }
  rewrite (bind_eq _ _ _ _ _ E1).
  destruct (tab_delete_spec t1 Hr1) as (t2 & E2 & Hx2). rewrite (bind_eq _ _ _ _ _ E2).
  rewrite <-(tab_set_get t2), Hx2. set (x := tab_ctx t1) in *.
  assert (regs_refs (Regs x) = []) as Hnil.
  { assert (Regs x = ∅) as ->; [|done]. apply map_empty. intros E.
    destruct (Regs x !! E) as [r|] eqn:HE; [|done]. destruct (lk_key _ _ HL _ _ HE) as (_ & k & Hk).
    by rewrite lookup_empty in Hk. }
  assert (owns (Objects x) (refs_of (Handler (DefaultHandler x)) ++ refs_of (Formatter x) ++
            refs_of (Resolver x) ++ s_refs a)) as Ho'.
  { revert Ho. apply owns_perm. unfold held. rewrite Hnil. solve_Permutation. }
  rewrite bind_getx. destruct (drop_ref _ _ x t2 Ho') as (w1 & [Hw1 Cw1] & ->).
  rewrite bind_getx. destruct (drop_ref _ _ (set_Objects w1 x) t2 Hw1) as (w2 & [Hw2 Cw2] & ->).
  rewrite bind_getx.
  destruct (drop_ref _ _ (set_Objects w2 (set_Objects w1 x)) t2 Hw2) as (w3 & [Hw3 Cw3] & ->).
  unfold modx, modify. eexists. split; [done|]. by rewrite !tab_ctx_set.
Qed.

Lemma dereference_session_spec t a : session_ok t a -> s_count a = 1 ->
  exists t', CdiagDereferenceSession handle t = Some (S_OK, t') /\ Live (tab_ctx t') = false /\
             owns (Objects (tab_ctx t')) (s_refs a).
Proof.
  intros (m & Hr & HI) Hc. rewrite <-(tab_set_get t). set (x := tab_ctx t) in *.
  unfold CdiagDereferenceSession. rewrite with_session_eq by first [done|apply HI].
  rewrite bind_modx, bind_getx. set (x1 := set_ReferenceCount _ x).
  assert (ReferenceCount x1 = 0) as ->.
  { subst x1. simpl. by rewrite <-(im_count _ _ _ HI), Hc. }
  destruct (delete_session_spec (S x1 t) (MkSpec (s_default a) (s_map a) (s_resolver a) (s_formatter a)
    (ReferenceCount x1) (s_refs a) (s_calls a))) as (t' & E & HL & Ho).
  { exists m. rewrite tab_ctx_set. split; [by apply tab_rel_set|]. destruct HI; by split. }
  rewrite Z.eqb_refl, (bind_eq _ _ _ _ _ E). by exists t'.
Qed.

(** *** The start of a session *)

(** What the routines promise that create the default objects. *)
Definition creates (m : ST O (Z * Z)) : Prop := forall w l, owns w l ->
  exists Hr o w', m w = Some ((Hr, o), w') /\
    if FAILED Hr then owns w' l else o <> 0 /\ owns w' (o :: l).

Context (CdiagCreateMessageResolver : ST O (Z * Z)) (CdiagCreateFormatter : Z -> ST O (Z * Z)).
Context (Resolver_created : creates CdiagCreateMessageResolver)
  (Formatter_created : forall r, creates (CdiagCreateFormatter r)).

Lemma CleanupSession_spec Hr x t l : owns (Objects x) (refs_of (Formatter x) ++ refs_of (Resolver x) ++ l) ->
  exists t', CleanupSession Hr (S x t) = Some (Hr, t') /\ Live (tab_ctx t') = false /\
             owns (Objects (tab_ctx t')) l.
Proof.
  intros Ho. unfold CleanupSession. rewrite bind_getx.
  destruct (drop_ref _ _ x t Ho) as (w1 & [Hw1 Cw1] & ->). rewrite bind_getx.
  destruct (drop_ref _ _ (set_Objects w1 x) t Hw1) as (w2 & [Hw2 Cw2] & ->). rewrite bind_modx.
  eexists. split; [done|]. by rewrite tab_ctx_set.
Qed.

Definition made (Hr o : Z) (w : O) (l : list Z) : Prop :=
  if FAILED Hr then owns w l else o <> 0 /\ owns w (o :: l).

(** A given object is shared, a missing one is created. *)
Lemma given_or_created o (make : M (Z * Z)) (set_o : Z -> SESSION O -> SESSION O) x t l :
  (exists Hr o' w, made Hr o' w l /\ forall B (k : Z * Z -> M B),
     bind make k (S x t) = k (Hr, o') (S (set_Objects w x) t)) ->
  owns (Objects x) l -> (o <> 0 -> o ∈ l) ->
  exists Hr o' w, made Hr o' w l /\ forall B (k : Z -> M B),
    bind (if o =? 0 then
            c <- make ;; (if FAILED (fst c) then ret tt else modx (set_o (snd c))) ;;; ret (fst c)
          else call (Reference o) ;;; modx (set_o o) ;;; ret S_OK) k (S x t) =
    k Hr (S (if FAILED Hr then set_Objects w x else set_o o' (set_Objects w x)) t).
Proof.
  intros (Hr & o' & w & Hw & E) Ho Hin. destruct (Z.eqb_spec o 0) as [->|Hne].
  - exists Hr, o', w. split; [done|]. intros B k. rewrite bind_assoc, E. cbn [fst snd].
    destruct (FAILED Hr); [done|]. by rewrite bind_assoc, bind_modx, bind_ret.
  - clear E. destruct (call_ref o l x t Ho (Hin Hne)) as (w' & [Hw' _] & E). exists S_OK, o, w'.
    split; [done|]. intros B k. by rewrite bind_assoc, E, bind_assoc, bind_modx, bind_ret.
Qed.

Lemma call_created m x t l : creates m -> owns (Objects x) l ->
  exists Hr o w, made Hr o w l /\ forall B (k : Z * Z -> M B),
    bind (call m) k (S x t) = k (Hr, o) (S (set_Objects w x) t).
Proof.
  intros Hm Ho. destruct (Hm _ _ Ho) as (Hr & o & w & E & Hw). exists Hr, o, w. split; [done|].
  intros B k. by rewrite (bind_call _ _ _ _ _ _ E).
Qed.

Lemma create_session_spec F R t l :
  owns (Objects (tab_ctx t)) l -> (F <> 0 -> F ∈ l) -> (R <> 0 -> R ∈ l) ->
  exists Hr t', CdiagCreateSession CdiagCreateMessageResolver CdiagCreateFormatter ptr true F R t = Some (Hr, t') /\
    if FAILED Hr then Live (tab_ctx t') = false /\ owns (Objects (tab_ctx t')) l
    else exists r f cs, session_ok t' (MkSpec (MkReg 0 0xffffffff) ∅ r f 1 l cs).
Proof.
  intros Ho HF HR. rewrite <-(tab_set_get t). set (x := tab_ctx t) in *.
  unfold CdiagCreateSession. rewrite (proj2 (Z.eqb_neq _ _)) by done. cbn [negb]. rewrite bind_modx.
  set (x0 := fresh_session (Objects x)).
  destruct (tab_init_spec (S x0 t) 23 ltac:(lia)) as (b & t1 & E1 & Hx1 & Hr1).
  rewrite (bind_eq _ _ _ _ _ E1). rewrite tab_ctx_set in Hx1.
  rewrite <-(tab_set_get t1), Hx1. destruct b; cbn [negb].
  2:{ destruct (CleanupSession_spec E_OUTOFMEMORY x0 t1 l Ho) as (t' & E & HL & Ho').
      by exists E_OUTOFMEMORY, t'. }
  specialize (Hr1 eq_refl).
  destruct (given_or_created R _ set_Resolver x0 t1 l
    (call_created _ x0 t1 l Resolver_created Ho) Ho HR) as (H1 & r & w1 & Hc1 & ->).
  unfold made in Hc1. destruct (FAILED H1) eqn:HF1.
  { destruct (CleanupSession_spec H1 (set_Objects w1 x0) t1 l Hc1) as (t' & E & HL & Ho').
    exists H1, t'. by rewrite HF1. }
  destruct Hc1 as [Hr0 Hc1]. set (x1 := set_Resolver r _).
  destruct (given_or_created F (r0 <- getx Resolver ;; call (CdiagCreateFormatter r0)) set_Formatter
    x1 t1 (r :: l)) as (H2 & f & w2 & Hc2 & ->); [|done|set_solver|].
  { destruct (call_created _ x1 t1 (r :: l) (Formatter_created r) Hc1) as (H2 & f & w2 & Hc2 & E).
    exists H2, f, w2. split; [done|]. intros B k. by rewrite bind_assoc, bind_getx, E. }
  unfold made in Hc2. destruct (FAILED H2) eqn:HF2.
  { destruct (CleanupSession_spec H2 (set_Objects w2 x1) t1 l) as (t' & E & HL & Ho').
    - simpl. by rewrite (refs_of_nonzero _ Hr0).
    - exists H2, t'. by rewrite HF2. }
  destruct Hc2 as [Hf0 Hc2]. eexists S_OK, _. split; [done|]. cbn. exists r, f, (calls w2), ∅.
  rewrite tab_ctx_set. split; [by apply tab_rel_set|].
  split; simpl; try done. revert Hc2. apply owns_perm. unfold held. simpl.
  rewrite (refs_of_nonzero _ Hr0), (refs_of_nonzero _ Hf0). unfold regs_refs.
  rewrite map_to_list_empty. simpl. solve_Permutation.
Qed.

(** C10. A session implements its specification, a map from event types to
    registrations with a default.  Any sequence of permitted operations runs on the real
    thing (hashtable, registrations on the heap, reference counted objects) and returns what
    the specification says, unless there is no memory for a registration: then it runs up to
    the operation that enters it, which faults.  A packet is dispatched, exactly once, to the
    handler of its type, or else the default handler, if the filter has the bit of the
    packet's type, and the result is the handler's; no other operation calls a handler
    ([s_calls] is the sequence of all calls, with packets and results).  The session always
    holds exactly one reference for everything it points to.  (Documented are S_FALSE for a
    missing default handler, which is S_OK here, and a filter by severity.) *)
Theorem session_refines os t a : session_ok t a -> all_permitted os a ->
  (exists rs t' a', exec_session_ops os t = Some (rs, t') /\ session_ok t' a' /\ session_steps os a rs a') \/
  faults_without_memory os t a.
Proof. apply session_ops_refine. Qed.

(** No reference is lost and none is given up twice.  A creation that fails
    leaves the callers' references as they were; a session that was created, used
    by any operations and whose last reference is then released leaves exactly the
    references its clients hold: those they had and those its queries gave them. *)
Theorem session_returns_references F R t l :
  owns (Objects (tab_ctx t)) l -> (F <> 0 -> F ∈ l) -> (R <> 0 -> R ∈ l) ->
  exists Hr t1, CdiagCreateSession CdiagCreateMessageResolver CdiagCreateFormatter ptr true F R t = Some (Hr, t1) /\
    if FAILED Hr then Live (tab_ctx t1) = false /\ owns (Objects (tab_ctx t1)) l
    else forall os rs t2,
      (forall r f cs, all_permitted os (MkSpec (MkReg 0 0xffffffff) ∅ r f 1 l cs)) ->
      exec_session_ops os t1 = Some (rs, t2) ->
      exists a, session_ok t2 a /\
        (s_count a = 1 -> exists t3,
           CdiagDereferenceSession handle t2 = Some (S_OK, t3) /\
           Live (tab_ctx t3) = false /\ owns (Objects (tab_ctx t3)) (s_refs a)).
Proof.
  intros Ho HF HR. destruct (create_session_spec F R t l Ho HF HR) as (Hr & t1 & E & H).
  exists Hr, t1. split; [done|]. destruct (FAILED Hr); [done|].
  destruct H as (r & f & cs & Hok). intros os rs t2 Hos E2.
  destruct (session_ops_refine os t1 _ Hok (Hos r f cs)) as [(rs' & t2' & a & E3 & Hok2 & _)|[E3 _]]; [|congruence].
  simplify_eq. exists a. split; [done|]. by apply dereference_session_spec.
Qed.
End operations.
End session.

(** ** Objects that are counts *)
Module Counted.

Definition count_of (o : Z) (l : list Z) : option Z :=
  match length (filter (fun p => p = o) l) with O => None | n => Some (Z.of_nat n) end.

Definition counts (w : gmap Z Z) (l : list Z) : Prop := forall o, w !! o = count_of o l.

Definition Ref (o : Z) : ST (gmap Z Z) unit :=
  fun w => match w !! o with Some n => Some (tt, <[o := n + 1]> w) | None => None end.

Definition Deref (o : Z) : ST (gmap Z Z) unit :=
  fun w => match w !! o with
           | Some n => Some (tt, if n =? 1 then delete o w else <[o := n - 1]> w)
           | None => None
           end.

Lemma count_of_cons o p l :
  count_of o (p :: l) = if decide (p = o) then Some (1 + default 0 (count_of o l)) else count_of o l.
Proof.
  unfold count_of. destruct (decide (p = o)) as [->|Hne].
  - rewrite filter_cons_True by done. simpl. destruct (length _); simpl; [done|f_equal; lia].
  - by rewrite filter_cons_False.
Qed.

Lemma count_pos o l n : count_of o l = Some n -> 0 < n.
Proof. unfold count_of. destruct (length _); [done|]. intros [= <-]. lia. Qed.

Lemma count_of_in o l : o ∈ l -> is_Some (count_of o l).
Proof.
  induction l as [|p l IH]; [by intros ?%not_elem_of_nil|]. rewrite count_of_cons.
  intros [->|Hin]%elem_of_cons; [by rewrite decide_True|]. destruct (decide _); [done|by apply IH].
Qed.

#[export] Instance counted_objects : RefObjects (gmap Z Z).
Proof.
  refine {| Reference := Ref; Dereference := Deref; owns := counts |}.
  - intros w l l' Hl Hw o. rewrite Hw. unfold count_of. by rewrite Hl.
  - intros w l o Hw Hin. destruct (count_of_in o l Hin) as [n Hn]. unfold Ref. rewrite Hw, Hn.
    eexists. split; [done|]. intros p. rewrite count_of_cons. destruct (decide (o = p)) as [->|Hne].
    + rewrite lookup_insert_eq, Hn. simpl. f_equal. lia.
    + rewrite lookup_insert_ne by done. apply Hw.
  - intros w l o Hw. pose proof (Hw o) as Ho. rewrite count_of_cons, decide_True in Ho by done.
    unfold Deref. rewrite Ho. eexists. split; [done|]. intros p.
    destruct (decide (o = p)) as [->|Hne].
    + destruct (count_of p l) as [n|] eqn:Hn; simpl.
      * pose proof (count_pos _ _ _ Hn). rewrite (proj2 (Z.eqb_neq _ _)) by lia.
        rewrite lookup_insert_eq. f_equal. lia.
      * by rewrite lookup_delete_eq.
    + destruct (_ =? 1); rewrite ?lookup_insert_ne, ?lookup_delete_ne by done;
        rewrite Hw, count_of_cons; by rewrite decide_False.
Defined.
End Counted.

(** ** Objects whose handlers keep a log of the packets they are given *)
Module Logged.
Section logged.
Context {O : Type} `{RefObjects O}.
Notation LOG := (list (Z * PACKET * Z)).

Definition inside {A} (m : ST O A) : ST (O * LOG) A :=
  fun w => match m w.1 with Some (a, w') => Some (a, (w', w.2)) | None => None end.

#[export] Instance logged_objects : RefObjects (O * LOG).
Proof.
  refine {| Reference := fun o => inside (Reference o); Dereference := fun o => inside (Dereference o);
            owns := fun w => owns w.1 |}.
  - intros w l l'. apply owns_perm.
  - intros w l o Hw Hin. destruct (Reference_spec _ l o Hw Hin) as (w' & E & Hw').
    exists (w', w.2). unfold inside. by rewrite E.
  - intros w l o Hw. destruct (Dereference_spec _ l o Hw) as (w' & E & Hw').
    exists (w', w.2). unfold inside. by rewrite E.
Defined.

#[export] Instance logged_observed : Observed (O * LOG).
Proof.
  refine {| calls := snd |}; intros w o w'; cbn; unfold inside;
    [destruct (Reference o w.1) as [[[] v]|]|destruct (Dereference o w.1) as [[[] v]|]]; try done; by intros [= <-].
Defined.
End logged.
End Logged.

Module Demo.
Import Counted Logged Concrete.

(** The counts, and the calls of handlers so far. *)
Notation WORLD := (gmap Z Z * list (Z * PACKET * Z))%type.

(** Sessions on a real hashtable; 500 is a handler, 600 a resolver, 700 a formatter. *)
Definition MEM : Type := HT BUMP (SESSION WORLD).

#[export] Instance table_of_sessions : KeyedTable MEM (SESSION WORLD) :=
  jpht_table 8 Hash Hash Equals Allocate Free size_of ltac:(by right) Equals_ok Hash_ok
    allocates_bump frees_bump.

(** A handler returns the contents of a packet. *)
Definition Handle (h : Z) (p : PACKET) : ST WORLD Z :=
  fun w => Some (Contents p, (w.1, w.2 ++ [(h, p, Contents p)])).

(** The memory behind everything in use. *)
Definition Malloc (k : Z) : ST MEM Z := fun s =>
  let E := 8 + foldr Z.max 0 ((map_to_list (Links s)).*1 ++ (map_to_list (Regs (Ctx s))).*1 ++
                              [Buckets s + BucketCount s * 16]) in
  Some (E, new_entry 8 E k s).

Definition no_default : ST WORLD (Z * Z) := ret (E_OUTOFMEMORY, 0).

Lemma Handle_ok : handles Handle.
Proof. intros w l h p Hw Hin. eexists _, _. split; [reflexivity|]. by split. Qed.

Lemma no_default_ok : creates no_default.
Proof. intros w l Hw. by eexists _, 0, w. Qed.

Lemma Malloc_ok : allocates_registration Malloc.
Proof.
  intros s m k Hr. unfold Malloc. set (l := _ ++ _ ++ _). set (E := 8 + _).
  assert (forall q, q ∈ l -> q < E) as Hb by (intros q Hq%max_bound; lia).
  assert (forall q, E <= q -> Links s !! q = None) as HL.
  { intros q Hq. destruct (Links s !! q) as [e|] eqn:He; [|done].
    assert (q < E); [|lia]. apply Hb. unfold l. rewrite !elem_of_app. left.
    apply list_elem_of_fmap. exists (q, e). split; [done|]. by apply elem_of_map_to_list. }
  assert (0 < E) by (pose proof (max_bound [0] 0); assert (0 <= foldr Z.max 0 l)
    by (clear; induction l; simpl; lia); lia).
  exists E, (new_entry 8 E k s). split; [done|]. intros _. split_and!; [|done| | |].
  - apply (jpht_new_entry 8 Hash Hash Equals Allocate Free size_of ltac:(by right) Equals_ok Hash_ok
      allocates_bump frees_bump); [done|]. apply HL. unfold link_of. lia.
  - destruct (Regs _ !! E) as [r|] eqn:He; [|done].
    assert (E < E); [|lia]. apply Hb. unfold l. rewrite !elem_of_app. right. left.
    apply list_elem_of_fmap. exists (E, r). split; [done|]. by apply elem_of_map_to_list.
  - simpl. by rewrite lookup_insert_eq.
  - split; simpl; [rewrite lookup_insert_eq; by eexists|]. right. unfold link_of, sizeof_bucket. simpl.
    assert (Buckets s + BucketCount s * 16 < E); [|lia]. apply Hb. unfold l. set_solver.
Qed.

(** Memory without a session; a client holds a reference on each object. *)
Definition start : MEM :=
  MkHT 0 0 0 ∅ ∅ (1000, ∅)
    (MkSession false 0 0 0 (MkReg 0 0) ∅ (<[500 := 1]> (<[600 := 1]> (<[700 := 1]> ∅)), [])).

Lemma start_owns : owns (Objects (tab_ctx start)) [500; 600; 700].
Proof.
  intros o. simpl. rewrite !count_of_cons. repeat case_decide; subst; try done.
  by rewrite !lookup_insert_ne.
Qed.

(** Register, dispatch, ask for the handler, shut the type off, dispatch. *)
Definition ops : list session_op :=
  [OpSetHandler 1 500; OpHandleEvent {| Type_ := 1; Contents := 42 |}; OpQueryHandler 1;
   OpSetFilter 1 (2 ^ 32 - 1 - 2); OpHandleEvent {| Type_ := 1; Contents := 43 |}; OpQueryDefault].

Lemma ops_permitted r f cs :
  all_permitted ops (MkSpec (MkReg 0 0xffffffff) ∅ r f 1 [500; 600; 700] cs).
Proof.
  split; [by split; [|left]|]. intros r1 a1 [-> ->]. split; [by simpl|].
  intros r2 a2. unfold session_step, registration_for. cbn [with_map s_map]. rewrite lookup_insert_eq. intros (Hr & -> & ->).
  split; [done|]. intros r3 a3. unfold session_step. cbn [with_map with_call s_map].
  rewrite lookup_insert_eq. intros [-> ->]. split; [done|].
  intros r4 a4. unfold session_step. cbn [with_map with_refs with_call s_map]. rewrite lookup_insert_eq.
  intros [-> ->]. split; [by simpl|]. intros r5 a5. unfold session_step, registration_for.
  cbn [with_map with_refs with_call s_map s_default]. rewrite lookup_insert_eq. intros [-> ->].
  split; [done|]. by intros r6 a6 [-> ->].
Qed.

Definition run_all : ST MEM (Z * list (Z * Z)) :=
  Hr <- CdiagCreateSession no_default (fun _ => no_default) 1 true 700 600 ;;
  rs <- exec_session_ops Handle Malloc 1 1 ops ;; ret (Hr, rs).

(** The packet is handled, then filtered out: one call of a handler. *)
Example dispatch_results :
  (fun p => (p.1, calls (Objects (Ctx p.2)))) <$> run_all start =
  Some (S_OK, [(S_OK, 0); (42, 0); (S_OK, 500); (S_OK, 0); (S_FALSE, 0); (S_OK, 0)],
        [(500, {| Type_ := 1; Contents := 42 |}, 42)]).
Proof. vm_compute. reflexivity. Qed.

Lemma session_refines_witness :
  exists t1 rs t2, CdiagCreateSession no_default (fun _ => no_default) 1 true 700 600 start = Some (S_OK, t1) /\
    exec_session_ops Handle Malloc 1 1 ops t1 = Some (rs, t2) /\ exists a, session_ok t2 a.
Proof.
  destruct (create_session_spec Handle Malloc 1 1 ltac:(lia) ltac:(lia) Handle_ok Malloc_ok
    no_default (fun _ => no_default) no_default_ok (fun _ => no_default_ok) 700 600 start [500; 600; 700] start_owns) as (Hr & t1 & E & H);
    [set_solver..|].
  assert (fst <$> CdiagCreateSession no_default (fun _ => no_default) 1 true 700 600 start = Some S_OK) as E0
    by (vm_compute; reflexivity).
  rewrite E in E0. injection E0 as ->. destruct H as (r & f & cs & Hok).
  destruct (session_refines Handle Malloc 1 1 ltac:(lia) ltac:(lia) Handle_ok Malloc_ok ops t1 _ Hok
    (ops_permitted r f cs)) as [(rs & t2 & a & E2 & Hok2 & _)|[E2 _]].
  - exists t1, rs, t2. split; [exact E|]. split; [exact E2|]. exists a. exact Hok2.
  - exfalso. assert (is_Some (run_all start)) as [? E3] by (vm_compute; eexists; reflexivity).
    unfold run_all in E3. rewrite (bind_eq _ _ _ _ _ E) in E3. unfold bind in E3. rewrite E2 in E3. discriminate.
Defined.

(** Without memory for a registration the session faults. *)
Example no_memory_faults :
  (CdiagCreateSession no_default (fun _ => no_default) 1 true 700 600 ;;;
   exec_session_ops Handle (fun _ => ret 0) 1 1 ops) start = None.
Proof. vm_compute. reflexivity. Qed.

Lemma session_returns_references_witness :
  exists t1, CdiagCreateSession no_default (fun _ => no_default) 1 true 700 600 start = Some (S_OK, t1) /\
    forall rs t2, exec_session_ops Handle Malloc 1 1 ops t1 = Some (rs, t2) -> exists a, session_ok t2 a.
Proof.
  destruct (session_returns_references Handle Malloc 1 1 ltac:(lia)
    ltac:(lia) Handle_ok Malloc_ok no_default (fun _ => no_default) no_default_ok (fun _ => no_default_ok) 700 600 start
    [500; 600; 700] start_owns) as (Hr & t1 & E & H); [set_solver..|].
  assert (fst <$> CdiagCreateSession no_default (fun _ => no_default) 1 true 700 600 start = Some S_OK) as E0
    by (vm_compute; reflexivity).
  rewrite E in E0. injection E0 as ->. exists t1. split; [exact E|].
  intros rs t2 E2. destruct (H ops rs t2 ops_permitted E2) as (a & Hok & _). by exists a.
Defined.
End Demo.
