(* ===== verification/CdiagHandlers.v ===== *)
(** * Handlers of the diagnostics library (cdiag/outputhandler.c, textfilehandler.c)

    A handler turns event packets into text, with the formatter of its session, and
    hands the text to a routine or appends it to a file.  Formatters are reference
    counted objects as in Session; characters and bytes are integers. *)
From stdpp Require Import base gmap list.
From Stdlib Require Import ZArith Lia.
From S2P Require Import Session Prelude.
Local Open Scope Z_scope.
Local Open Scope cfix_scope.

(* src/include/cdiagmsg.h:112-120 (CDIAG_E_CHAINING_NOT_SUPPORTED) *)
Definition CDIAG_E_CHAINING_NOT_SUPPORTED : Z := 0x80048106.

(* src/include/cdiag.h:1022-1026 (CDIAG_TEXTFILE_ENCODING) *)
Definition CdiagEncodingUtf16 : Z := 0.
Definition CdiagEncodingUtf8 : Z := 1.

(* src/cdiag/cdiag/outputhandler.c:29-38 (CDIAGP_OUT_HANDLER) *)
Record CDIAGP_OUT_HANDLER := MkOut {
  OutReferenceCount : Z;
  OutFormatter : Z;
  OutputRoutine : Z }.

(* src/cdiag/cdiag/textfilehandler.c:29-49 (CDIAGP_TEXTFILE_HANDLER) *)
Record CDIAGP_TEXTFILE_HANDLER := MkTextFile {
  TfReferenceCount : Z;
  TfFormatter : Z;
  TfUtf8 : bool;
  TfLock : bool;
  TfHandle : Z }.

(** The handlers by their blocks; the open files, with what has been written to them;
    what has been passed to output routines; the formatters. *)
Record HW (O : Type) := MkHW {
  OutHandlers : gmap Z CDIAGP_OUT_HANDLER;
  TextFileHandlers : gmap Z CDIAGP_TEXTFILE_HANDLER;
  OpenFiles : gmap Z (list Z);
  Outputs : list (Z * list Z);
  Formatters : O }.
Arguments MkHW {O}. Arguments OutHandlers {O}. Arguments TextFileHandlers {O}. Arguments OpenFiles {O}.
Arguments Outputs {O}. Arguments Formatters {O}.

Section handlers.
Context {O : Type} `{RefObjects O}.
(** The session's formatter, referenced; formatting a packet into a buffer: the result
    and the text in the buffer. *)
Context (CdiagQueryFormatter : Z -> ST O (Z * Z)) (Format : Z -> Z -> nat -> ST O (Z * list Z)).
(** The heap, and the file system: an error or a handle; an error, if there is one; the
    conversion of a text for a buffer of a size. *)
Context (CdiagpMalloc : HW O -> Z) (CreateFile : list Z -> gmap Z (list Z) -> Z + Z).
Context (SetFilePointerEx : Z -> option Z) (WriteFile_ : Z -> list Z -> option Z).
Context (WideCharToMultiByte : nat -> list Z -> Z + list Z).

Local Abbreviation M := (ST (HW O)).

Definition set_Out m (w : HW O) := MkHW m (TextFileHandlers w) (OpenFiles w) (Outputs w) (Formatters w).
Definition set_TextFile m (w : HW O) := MkHW (OutHandlers w) m (OpenFiles w) (Outputs w) (Formatters w).
Definition set_OpenFiles m (w : HW O) := MkHW (OutHandlers w) (TextFileHandlers w) m (Outputs w) (Formatters w).
Definition set_Outputs m (w : HW O) := MkHW (OutHandlers w) (TextFileHandlers w) (OpenFiles w) m (Formatters w).
Definition set_Formatters (o : O) (w : HW O) := MkHW (OutHandlers w) (TextFileHandlers w) (OpenFiles w) (Outputs w) o.

Definition formatters {A} (x : ST O A) : M A := fun w =>
  match x (Formatters w) with Some (a, o) => Some (a, set_Formatters o w) | None => None end.
Definition load_out (h : Z) : M CDIAGP_OUT_HANDLER := fun w =>
  match OutHandlers w !! h with Some x => Some (x, w) | None => None end.
Definition load_file (h : Z) : M CDIAGP_TEXTFILE_HANDLER := fun w =>
  match TextFileHandlers w !! h with Some x => Some (x, w) | None => None end.
Definition store_out (h : Z) (x : CDIAGP_OUT_HANDLER) : M unit :=
  modify (fun w => set_Out (<[h := x]> (OutHandlers w)) w).
Definition store_file (h : Z) (x : CDIAGP_TEXTFILE_HANDLER) : M unit :=
  modify (fun w => set_TextFile (<[h := x]> (TextFileHandlers w)) w).

(** ** Output handlers *)
(* src/cdiag/cdiag/outputhandler.c:45-75 (CdiagsOutHandle) *)
Definition CdiagsOutHandle (This Packet : Z) : M Z :=
  if This =? 0 then ret E_INVALIDARG
  else
    Oh <- load_out This ;;
    r <- formatters (Format (OutFormatter Oh) Packet 3072) ;;
    if FAILED (fst r) then ret (fst r)
    else modify (fun w => set_Outputs (Outputs w ++ [(OutputRoutine Oh, snd r)]) w) ;;; ret S_OK.

(* src/cdiag/cdiag/outputhandler.c:78-88 (CdiagsOutDeleteHandler) *)
Definition CdiagsOutDeleteHandler (This : Z) : M unit :=
  Oh <- load_out This ;;
  when_ (negb (OutFormatter Oh =? 0)) (formatters (Dereference (OutFormatter Oh))) ;;;
  modify (fun w => set_Out (delete This (OutHandlers w)) w).

(* src/cdiag/cdiag/outputhandler.c:90-98 (CdiagsOutSetNextHandler) *)
Definition CdiagsOutSetNextHandler (This Handler : Z) : M Z := ret CDIAG_E_CHAINING_NOT_SUPPORTED.

(* src/cdiag/cdiag/outputhandler.c:100-108 (CdiagsOutGetNextHandler) *)
Definition CdiagsOutGetNextHandler (This : Z) : M Z := ret CDIAG_E_CHAINING_NOT_SUPPORTED.

(* src/cdiag/cdiag/outputhandler.c:110-118 (CdiagsOutReferenceHandler) *)
Definition CdiagsOutReferenceHandler (This : Z) : M unit :=
  Oh <- load_out This ;;
  store_out This (MkOut (LONG (OutReferenceCount Oh + 1)) (OutFormatter Oh) (OutputRoutine Oh)).

(* src/cdiag/cdiag/outputhandler.c:120-131 (CdiagsOutDereferenceHandler) *)
Definition CdiagsOutDereferenceHandler (This : Z) : M unit :=
  Oh <- load_out This ;;
  let n := LONG (OutReferenceCount Oh - 1) in
  store_out This (MkOut n (OutFormatter Oh) (OutputRoutine Oh)) ;;;
  when_ (n =? 0) (CdiagsOutDeleteHandler This).

(** A result code, and the handler. *)
(* src/cdiag/cdiag/outputhandler.c:139-204 (CdiagCreateOutputHandler) *)
Definition CdiagCreateOutputHandler (Session_ OutputRoutine_ Handler : Z) : M (Z * Z) :=
  if (Session_ =? 0) || (OutputRoutine_ =? 0) || (Handler =? 0) then ret (E_INVALIDARG, 0)
  else
    w <- gets (fun w => w) ;;
    let Oh := CdiagpMalloc w in
    if Oh =? 0 then ret (E_OUTOFMEMORY, 0)
    else
      store_out Oh (MkOut 1 0 OutputRoutine_) ;;;
      r <- formatters (CdiagQueryFormatter Session_) ;;
      store_out Oh (MkOut 1 (snd r) OutputRoutine_) ;;;
      if FAILED (fst r) then CdiagsOutDeleteHandler Oh ;;; ret (fst r, 0) else ret (S_OK, Oh).

(** ** Text files *)
(* src/cdiag/cdiag/textfilehandler.c:56-76 (CdiagsAppendToFile) *)
Definition CdiagsAppendToFile (File : Z) (Bytes : list Z) : M Z :=
  f <- gets OpenFiles ;;
  match f !! File with
  | None => fault
  | Some l =>
      match WriteFile_ File l with
      | Some Err => ret (HRESULT_FROM_WIN32 Err)
      | None => modify (set_OpenFiles (<[File := l ++ Bytes]> f)) ;;; ret S_OK
      end
  end.

(* src/cdiag/cdiag/textfilehandler.c:78-108 (CdiagsConvertToUtf8AndAppendToFile) *)
Definition CdiagsConvertToUtf8AndAppendToFile (File : Z) (Utf16Buffer : list Z) : M Z :=
  match WideCharToMultiByte 2048 Utf16Buffer with
  | inl Err => ret (HRESULT_FROM_WIN32 Err)
  | inr Utf8Buffer => CdiagsAppendToFile File Utf8Buffer
  end.

(** The bytes of a text. *)
Definition Utf16Bytes (l : list Z) : list Z := flat_map (fun c => [c mod 256; c / 256]) l.

(* src/cdiag/cdiag/textfilehandler.c:110-198 (CdiagsTextFileHandle) *)
Definition CdiagsTextFileHandle (This Packet : Z) : M Z :=
  if This =? 0 then ret E_INVALIDARG
  else
    FileHandler <- load_file This ;;
    r <- formatters (Format (TfFormatter FileHandler) Packet 2046) ;;
    if FAILED (fst r) then ret (fst r)
    else
      assert_ (TfLock FileHandler) ;;;
      if TfUtf8 FileHandler then CdiagsConvertToUtf8AndAppendToFile (TfHandle FileHandler) (snd r)
      else CdiagsAppendToFile (TfHandle FileHandler) (Utf16Bytes (snd r)).

(* src/cdiag/cdiag/textfilehandler.c:201-213 (CdiagsTextFileDeleteHandler) *)
Definition CdiagsTextFileDeleteHandler (This : Z) : M unit :=
  FileHandler <- load_file This ;;
  when_ (negb (TfFormatter FileHandler =? 0)) (formatters (Dereference (TfFormatter FileHandler))) ;;;
  assert_ (TfLock FileHandler) ;;;
  modify (fun w => set_TextFile (delete This (TextFileHandlers w)) w).

(* src/cdiag/cdiag/textfilehandler.c:215-223 (CdiagsTextFileSetNextHandler) *)
Definition CdiagsTextFileSetNextHandler (This Handler : Z) : M Z := ret CDIAG_E_CHAINING_NOT_SUPPORTED.

(* src/cdiag/cdiag/textfilehandler.c:225-233 (CdiagsTextFileGetNextHandler) *)
Definition CdiagsTextFileGetNextHandler (This : Z) : M Z := ret CDIAG_E_CHAINING_NOT_SUPPORTED.

(* src/cdiag/cdiag/textfilehandler.c:235-243 (CdiagsTextFileReferenceHandler) *)
Definition CdiagsTextFileReferenceHandler (This : Z) : M unit :=
  x <- load_file This ;;
  store_file This (MkTextFile (LONG (TfReferenceCount x + 1)) (TfFormatter x) (TfUtf8 x) (TfLock x) (TfHandle x)).

(* src/cdiag/cdiag/textfilehandler.c:245-256 (CdiagsTextFileDereferenceHandler) *)
Definition CdiagsTextFileDereferenceHandler (This : Z) : M unit :=
  x <- load_file This ;;
  let n := LONG (TfReferenceCount x - 1) in
  store_file This (MkTextFile n (TfFormatter x) (TfUtf8 x) (TfLock x) (TfHandle x)) ;;;
  when_ (n =? 0) (CdiagsTextFileDeleteHandler This).

(** A result code, and the handler.  A path that is NULL is [None]. *)
(* src/cdiag/cdiag/textfilehandler.c:264-367 (CdiagCreateTextFileHandler) *)
Definition CdiagCreateTextFileHandler (Session_ : Z) (FilePath : option (list Z)) (Encoding Handler : Z) : M (Z * Z) :=
  match FilePath with
  | None => ret (E_INVALIDARG, 0)
  | Some Path =>
      if (Session_ =? 0) || (negb (Encoding =? CdiagEncodingUtf16) && negb (Encoding =? CdiagEncodingUtf8)) ||
         (Handler =? 0)
      then ret (E_INVALIDARG, 0)
      else
        f <- gets OpenFiles ;;
        match CreateFile Path f with
        | inl Err => ret (HRESULT_FROM_WIN32 Err, 0)
        | inr File =>
            modify (set_OpenFiles (<[File := []]> f)) ;;;
            match SetFilePointerEx File with
            | Some Err => ret (HRESULT_FROM_WIN32 Err, 0)
            | None =>
                w <- gets (fun w => w) ;;
                let FileHandler := CdiagpMalloc w in
                if FileHandler =? 0 then ret (E_OUTOFMEMORY, 0)
                else
                  let Utf8 := Encoding =? CdiagEncodingUtf8 in
                  store_file FileHandler (MkTextFile 1 0 Utf8 true File) ;;;
                  r <- formatters (CdiagQueryFormatter Session_) ;;
                  store_file FileHandler (MkTextFile 1 (snd r) Utf8 true File) ;;;
                  if FAILED (fst r) then CdiagsTextFileDeleteHandler FileHandler ;;; ret (fst r, 0)
                  else ret (S_OK, FileHandler)
            end
        end
  end.

(** ** What a handler does with packets *)
(** A session holds a reference to its formatter. *)
Context (SessionFormatter : Z -> Z).
Context (HQuery : forall s w l, owns w l -> SessionFormatter s ∈ l -> exists Hr f w', CdiagQueryFormatter s w = Some ((Hr, f), w') /\
  if FAILED Hr then f = 0 /\ owns w' l else f <> 0 /\ owns w' (f :: l)).
Context (HFormat : forall f p n w l, owns w l -> f ∈ l ->
  exists Hr t w', Format f p n w = Some ((Hr, t), w') /\ owns w' l).
Context (HMalloc : forall w, CdiagpMalloc w = 0 \/
  OutHandlers w !! CdiagpMalloc w = None /\ TextFileHandlers w !! CdiagpMalloc w = None).

Fixpoint handle_all (Handle : Z -> M Z) (ps : list Z) : M (list Z) :=
  match ps with [] => ret [] | p :: ps => r <- Handle p ;; rs <- handle_all Handle ps ;; ret (r :: rs) end.

(** The texts of packets, in order. *)
Fixpoint Formatted (f : Z) (n : nat) (ps : list Z) : ST O (list (Z * list Z)) :=
  match ps with [] => ret [] | p :: ps => r <- Format f p n ;; rs <- Formatted f n ps ;; ret (r :: rs) end.

Lemma Formatted_owns f n ps : forall w l, owns w l -> f ∈ l ->
  exists rs w', Formatted f n ps w = Some (rs, w') /\ owns w' l.
Proof.
  induction ps as [|p ps IH]; intros w l Hw Hf; [by exists [], w|]. cbn [Formatted].
  destruct (HFormat f p n w l Hw Hf) as (Hr & t & w1 & E1 & H1). rewrite (bind_eq _ _ _ _ _ E1).
  destruct (IH w1 l H1 Hf) as (rs & w2 & E2 & H2). rewrite (bind_eq _ _ _ _ _ E2). by eexists _, _.
Qed.

(** What reaches the output routine, and the result of a packet. *)
Definition Status (r : Z * list Z) : Z := if FAILED (fst r) then fst r else S_OK.
Definition Texts (rs : list (Z * list Z)) : list (list Z) := snd <$> filter (fun r => FAILED (fst r) = false) rs.

Lemma Texts_cons r rs : Texts (r :: rs) = Texts [r] ++ Texts rs.
Proof. unfold Texts. change (r :: rs) with ([r] ++ rs). by rewrite filter_app, fmap_app. Qed.

Lemma load_out_eq h x w : OutHandlers w !! h = Some x -> load_out h w = Some (x, w).
Proof. unfold load_out. by intros ->. Qed.

Lemma load_file_eq h x w : TextFileHandlers w !! h = Some x -> load_file h w = Some (x, w).
Proof. unfold load_file. by intros ->. Qed.

Lemma bind_formatters {A B} (x : ST O A) (k : A -> M B) w a o :
  x (Formatters w) = Some (a, o) -> bind (formatters x) k w = k a (set_Formatters o w).
Proof. intros E. unfold bind, formatters. by rewrite E. Qed.

Lemma out_handled h x ps : forall w rs o, h <> 0 -> OutHandlers w !! h = Some x ->
  Formatted (OutFormatter x) 3072 ps (Formatters w) = Some (rs, o) ->
  handle_all (CdiagsOutHandle h) ps w =
  Some (Status <$> rs, set_Outputs (Outputs w ++ ((OutputRoutine x,.) <$> Texts rs)) (set_Formatters o w)).
Proof.
  induction ps as [|p ps IH]; intros w rs o H0 Hx HF; cbn [Formatted handle_all] in *.
  { injection HF as <- <-. unfold ret. rewrite app_nil_r. by destruct w. }
  apply bind_Some in HF as ([Hr t] & o1 & E1 & HF). apply bind_Some in HF as (rs1 & o2 & E2 & HF).
  injection HF as <- <-. set (w1 := set_Formatters o1 w).
  assert (CdiagsOutHandle h p w = Some (Status (Hr, t),
    set_Outputs (Outputs w ++ ((OutputRoutine x,.) <$> Texts [(Hr, t)])) w1)) as E.
  { unfold CdiagsOutHandle. rewrite (proj2 (Z.eqb_neq _ _) H0), (bind_eq _ _ _ _ _ (load_out_eq _ _ _ Hx)).
    rewrite (bind_formatters _ _ _ _ _ E1). unfold Status, Texts. cbn [fst snd]. destruct (FAILED Hr) eqn:HFl.
    - rewrite filter_cons_False by (cbn [fst]; by rewrite HFl). cbn. rewrite app_nil_r. by destruct w.
    - rewrite filter_cons_True by done. done. }
  rewrite (bind_eq _ _ _ _ _ E).
  rewrite (bind_eq _ _ _ _ _ (IH (set_Outputs (Outputs w ++ ((OutputRoutine x,.) <$> Texts [(Hr, t)])) w1) rs1 o2 H0 Hx E2)).
  by rewrite (Texts_cons (Hr, t) rs1), fmap_app, app_assoc.
Qed.

Definition Dropped (x : CDIAGP_OUT_HANDLER) (o : O) (h : Z) (w : HW O) : HW O :=
  set_Out (delete h (OutHandlers w)) (set_Formatters o w).

Lemma out_deleted h x w l : OutHandlers w !! h = Some x -> OutFormatter x <> 0 ->
  owns (Formatters w) (OutFormatter x :: l) ->
  exists o, owns o l /\ CdiagsOutDeleteHandler h w = Some (tt, Dropped x o h w).
Proof.
  intros Hx H0 Ho. destruct (Dereference_spec _ _ _ Ho) as (o & E & Ho'). exists o. split; [done|].
  unfold CdiagsOutDeleteHandler. rewrite (bind_eq _ _ _ _ _ (load_out_eq _ _ _ Hx)).
  rewrite (proj2 (Z.eqb_neq _ _) H0). cbn [negb when_]. by rewrite (bind_formatters _ _ _ _ _ E).
Qed.

(** The life of an output handler: creating it fails without a trace, or yields a
    handler with a formatter; every packet is handed to the routine as text if it can
    be formatted, in order; after the last reference has been given up, the handler is
    gone and the formatter has been returned. *)
Theorem output_handler_life Session_ Routine Handler w l :
  owns (Formatters w) l -> SessionFormatter Session_ ∈ l ->
  exists Hr h w1, CdiagCreateOutputHandler Session_ Routine Handler w = Some ((Hr, h), w1) /\
  if FAILED Hr then h = 0 /\ OutHandlers w1 = OutHandlers w /\ Outputs w1 = Outputs w /\ owns (Formatters w1) l
  else forall ps, exists f rs o w2 w3, Formatted f 3072 ps (Formatters w1) = Some (rs, o) /\
    handle_all (CdiagsOutHandle h) ps w1 = Some (Status <$> rs, w2) /\
    Outputs w2 = Outputs w ++ ((Routine,.) <$> Texts rs) /\
    CdiagsOutDereferenceHandler h w2 = Some (tt, w3) /\
    OutHandlers w3 = OutHandlers w /\ Outputs w3 = Outputs w2 /\ owns (Formatters w3) l.
Proof.
  intros Ho HSf. unfold CdiagCreateOutputHandler. destruct (_ || _); [by exists E_INVALIDARG, 0, w|].
  rewrite bind_gets. cbv zeta. destruct (Z.eqb_spec (CdiagpMalloc w) 0) as [E0|E0]; [by exists E_OUTOFMEMORY, 0, w|].
  destruct (HMalloc w) as [|[Hn _]]; [done|]. set (h := CdiagpMalloc w) in *. unfold store_out at 1. rewrite bind_modify.
  set (w0 := set_Out _ w). destruct (HQuery Session_ (Formatters w0) l Ho HSf) as (Hr & f & o1 & E1 & H1).
  rewrite (bind_formatters _ _ _ _ _ E1). cbn [fst snd]. unfold store_out. rewrite bind_modify.
  set (w1 := set_Out _ (set_Formatters o1 w0)).
  assert (OutHandlers w1 !! h = Some (MkOut 1 f Routine)) as Hx by (cbn; by rewrite lookup_insert_eq).
  destruct (FAILED Hr) eqn:HF.
  - destruct H1 as [-> H1]. exists Hr, 0, (set_Out (OutHandlers w) w1). rewrite HF. split; [|done].
    unfold CdiagsOutDeleteHandler. rewrite bind_assoc, (bind_eq _ _ _ _ _ (load_out_eq _ _ _ Hx)). cbn.
    unfold bind, modify, ret. cbn. by rewrite insert_insert_eq, delete_insert_id.
  - destruct H1 as [Hf H1]. exists S_OK, h, w1. split; [done|]. change (FAILED S_OK) with false. cbv iota. intros ps.
    destruct (Formatted_owns f 3072 ps o1 (f :: l) H1) as (rs & o & EF & Ho2); [by left|].
    pose proof (out_handled h _ ps w1 rs o E0 Hx EF) as EH. set (w2 := set_Outputs _ _) in EH.
    destruct (out_deleted h (MkOut 0 f Routine) (set_Out (<[h := MkOut 0 f Routine]> (OutHandlers w2)) w2) l)
      as (o3 & Ho3 & ED); [cbn; by rewrite lookup_insert_eq|done|done|].
    exists f, rs, o, w2, (Dropped (MkOut 0 f Routine) o3 h (set_Out (<[h := MkOut 0 f Routine]> (OutHandlers w2)) w2)).
    split_and!; [done|done|done| | |done|done].
    + unfold CdiagsOutDereferenceHandler. assert (OutHandlers w2 !! h = Some (MkOut 1 f Routine)) as Hx2 by done.
      rewrite (bind_eq _ _ _ _ _ (load_out_eq _ _ _ Hx2)). cbn [OutReferenceCount OutFormatter OutputRoutine].
      change (LONG (1 - 1)) with 0. cbv zeta. unfold store_out. rewrite bind_modify. cbn [Z.eqb when_]. exact ED.
    + cbn. by rewrite !insert_insert_eq, delete_insert_id.
Qed.

(** What a packet does to the contents of a file: the result, and the contents. *)
Definition Append (Utf8 : bool) (File : Z) (Old : list Z) (r : Z * list Z) : Z * list Z :=
  if FAILED (fst r) then (fst r, Old)
  else
    match (if Utf8 then WideCharToMultiByte 2048 (snd r) else inr (Utf16Bytes (snd r))) with
    | inl Err => (HRESULT_FROM_WIN32 Err, Old)
    | inr Bytes =>
        match WriteFile_ File Old with
        | Some Err => (HRESULT_FROM_WIN32 Err, Old)
        | None => (S_OK, Old ++ Bytes)
        end
    end.

Fixpoint AppendAll (Utf8 : bool) (File : Z) (Old : list Z) (rs : list (Z * list Z)) : list Z * list Z :=
  match rs with
  | [] => ([], Old)
  | r :: rs =>
      let (Hr, New) := Append Utf8 File Old r in
      let (Hrs, Last) := AppendAll Utf8 File New rs in
      (Hr :: Hrs, Last)
  end.

Lemma file_handle_one h x p w Old r o : h <> 0 -> TextFileHandlers w !! h = Some x -> TfLock x = true ->
  OpenFiles w !! TfHandle x = Some Old -> Format (TfFormatter x) p 2046 (Formatters w) = Some (r, o) ->
  CdiagsTextFileHandle h p w =
  Some (fst (Append (TfUtf8 x) (TfHandle x) Old r),
        set_OpenFiles (<[TfHandle x := snd (Append (TfUtf8 x) (TfHandle x) Old r)]> (OpenFiles w)) (set_Formatters o w)).
Proof.
  intros H0 Hx HL HO EF. unfold CdiagsTextFileHandle.
  rewrite (proj2 (Z.eqb_neq _ _) H0), (bind_eq _ _ _ _ _ (load_file_eq _ _ _ Hx)), (bind_formatters _ _ _ _ _ EF).
  unfold Append. assert (set_OpenFiles (<[TfHandle x := Old]> (OpenFiles w)) (set_Formatters o w) = set_Formatters o w) as Hid.
  { unfold set_OpenFiles. cbn. by rewrite (insert_id (OpenFiles w)). }
  destruct (FAILED (fst r)); [cbn [fst snd]; by rewrite Hid|]. rewrite bind_assert by done.
  assert (forall b, CdiagsAppendToFile (TfHandle x) b (set_Formatters o w) =
    match WriteFile_ (TfHandle x) Old with
    | Some Err => Some (HRESULT_FROM_WIN32 Err, set_Formatters o w)
    | None => Some (S_OK, set_OpenFiles (<[TfHandle x := Old ++ b]> (OpenFiles w)) (set_Formatters o w))
    end) as HA.
  { intros b. unfold CdiagsAppendToFile. rewrite bind_gets. cbn [OpenFiles set_Formatters]. rewrite HO.
    by destruct (WriteFile_ _ _). }
  destruct (TfUtf8 x).
  - unfold CdiagsConvertToUtf8AndAppendToFile. destruct (WideCharToMultiByte 2048 (snd r)) as [e|b].
    + cbn [fst snd]. by rewrite Hid.
    + rewrite HA. destruct (WriteFile_ _ _); cbn [fst snd]; by rewrite ?Hid.
  - rewrite HA. destruct (WriteFile_ _ _); cbn [fst snd]; by rewrite ?Hid.
Qed.

Lemma file_handled h x ps : forall w Old rs o, h <> 0 -> TextFileHandlers w !! h = Some x -> TfLock x = true ->
  OpenFiles w !! TfHandle x = Some Old -> Formatted (TfFormatter x) 2046 ps (Formatters w) = Some (rs, o) ->
  handle_all (CdiagsTextFileHandle h) ps w =
  Some (fst (AppendAll (TfUtf8 x) (TfHandle x) Old rs),
        set_OpenFiles (<[TfHandle x := snd (AppendAll (TfUtf8 x) (TfHandle x) Old rs)]> (OpenFiles w)) (set_Formatters o w)).
Proof.
  induction ps as [|p ps IH]; intros w Old rs o H0 Hx HL HO HF; cbn [Formatted handle_all] in *.
  { injection HF as <- <-. cbn. unfold set_OpenFiles, set_Formatters. rewrite insert_id by done. by destruct w. }
  apply bind_Some in HF as (r & o1 & E1 & HF). apply bind_Some in HF as (rs1 & o2 & E2 & HF). injection HF as <- <-.
  rewrite (bind_eq _ _ _ _ _ (file_handle_one h x p w Old r o1 H0 Hx HL HO E1)). cbn [AppendAll].
  destruct (Append (TfUtf8 x) (TfHandle x) Old r) as [Hr New]. cbn [fst snd]. set (w1 := set_OpenFiles _ _).
  rewrite (bind_eq _ _ _ _ _ (IH w1 New rs1 o2 H0 Hx HL (lookup_insert_eq _ _ _) E2)).
  destruct (AppendAll _ _ New rs1) as [Hrs Last_]. unfold ret. cbn. unfold w1, set_OpenFiles, set_Formatters. cbn.
  by rewrite insert_insert_eq.
Qed.

Lemma file_deleted h x w l : TextFileHandlers w !! h = Some x -> TfFormatter x <> 0 -> TfLock x = true ->
  owns (Formatters w) (TfFormatter x :: l) ->
  exists o, owns o l /\ CdiagsTextFileDeleteHandler h w =
    Some (tt, set_TextFile (delete h (TextFileHandlers w)) (set_Formatters o w)).
Proof.
  intros Hx H0 HL Ho. destruct (Dereference_spec _ _ _ Ho) as (o & E & Ho'). exists o. split; [done|].
  unfold CdiagsTextFileDeleteHandler. rewrite (bind_eq _ _ _ _ _ (load_file_eq _ _ _ Hx)).
  rewrite (proj2 (Z.eqb_neq _ _) H0). cbn [negb when_]. rewrite (bind_formatters _ _ _ _ _ E).
  by rewrite bind_assert.
Qed.

(** A new handle is not one that is open; what fails has an error code. *)
Context (HCreate : forall p f File, CreateFile p f = inr File -> f !! File = None).
Context (HCreateError : forall p f Err, CreateFile p f = inl Err -> Err <> 0).
Context (HSeekError : forall File Err, SetFilePointerEx File = Some Err -> Err <> 0).

(** After the file has been opened. *)
Lemma create_file_runs Session_ Path Encoding Handler w l :
  owns (Formatters w) l -> SessionFormatter Session_ ∈ l ->
  exists Hr h w1, CdiagCreateTextFileHandler Session_ (Some Path) Encoding Handler w = Some ((Hr, h), w1) /\
  if FAILED Hr then
    h = 0 /\ TextFileHandlers w1 = TextFileHandlers w /\ owns (Formatters w1) l /\
    (OpenFiles w1 = OpenFiles w \/ exists File, OpenFiles w !! File = None /\ OpenFiles w1 = <[File := []]> (OpenFiles w))
  else
    exists f File, h <> 0 /\ f <> 0 /\ owns (Formatters w1) (f :: l) /\ TextFileHandlers w !! h = None /\
      OpenFiles w !! File = None /\ OpenFiles w1 = <[File := []]> (OpenFiles w) /\
      TextFileHandlers w1 = <[h := MkTextFile 1 f (Encoding =? CdiagEncodingUtf8) true File]> (TextFileHandlers w).
Proof.
  intros Ho HSf. unfold CdiagCreateTextFileHandler.
  destruct (_ || _); [exists E_INVALIDARG, 0, w; split; [done|]; cbv iota beta; change (FAILED E_INVALIDARG) with true; split_and!; [done..|by left]|]. rewrite bind_gets.
  destruct (CreateFile Path (OpenFiles w)) as [Err|File] eqn:EC.
  { exists (HRESULT_FROM_WIN32 Err), 0, w. split; [done|]. rewrite FAILED_from_win32 by (by eapply HCreateError).
    split_and!; [done..|by left]. }
  pose proof (HCreate _ _ _ EC) as HF. rewrite bind_modify. destruct (SetFilePointerEx File) as [Err|] eqn:ES.
  { eexists (HRESULT_FROM_WIN32 Err), 0, _. split; [reflexivity|]. rewrite FAILED_from_win32 by (by eapply HSeekError).
    split_and!; [done..|]. right. by exists File. }
  rewrite bind_gets. cbv zeta. set (w0 := set_OpenFiles _ w).
  destruct (Z.eqb_spec (CdiagpMalloc w0) 0) as [E0|E0].
  { exists E_OUTOFMEMORY, 0, w0. split; [done|]. change (FAILED E_OUTOFMEMORY) with true. split_and!; [done..|]. right. by exists File. }
  destruct (HMalloc w0) as [|[_ Hn]]; [done|]. set (h := CdiagpMalloc w0) in *.
  unfold store_file at 1. rewrite bind_modify. set (w1 := set_TextFile _ w0).
  destruct (HQuery Session_ (Formatters w1) l Ho HSf) as (Hr & f & o1 & E1 & H1).
  rewrite (bind_formatters _ _ _ _ _ E1). cbn [fst snd]. unfold store_file. rewrite bind_modify.
  set (w2 := set_TextFile _ (set_Formatters o1 w1)).
  assert (TextFileHandlers w2 = <[h := MkTextFile 1 f (Encoding =? CdiagEncodingUtf8) true File]> (TextFileHandlers w)) as Hx.
  { cbn. by rewrite insert_insert_eq. }
  destruct (FAILED Hr) eqn:HFl.
  - destruct H1 as [-> H1]. eexists Hr, 0, (set_TextFile (TextFileHandlers w) w2). rewrite HFl. split.
    + unfold CdiagsTextFileDeleteHandler. rewrite bind_assoc, (bind_eq _ _ _ _ _ (load_file_eq h _ w2 ltac:(rewrite Hx; apply lookup_insert_eq))).
      unfold bind, modify, ret. cbn. by rewrite insert_insert_eq, delete_insert_id.
    + split_and!; [done..|]. right. by exists File.
  - destruct H1 as [Hf H1]. exists S_OK, h, w2. split; [done|]. change (FAILED S_OK) with false. cbv iota.
    by exists f, File.
Qed.

(** C25. The life of a text file handler.  If it is created, the file is open and the
    handler holds a formatter; every packet that can be formatted and converted is
    appended, in order, in the encoding asked for, and a packet that cannot leaves the
    file alone and fails with the reason.  After the last reference has been given up
    the handler is gone and its formatter has been returned, but the file is still
    open; so it is when the creation fails after the file has been opened. *)
Theorem text_file_handler_life Session_ Path Encoding Handler w l :
  owns (Formatters w) l -> SessionFormatter Session_ ∈ l ->
  exists Hr h w1, CdiagCreateTextFileHandler Session_ (Some Path) Encoding Handler w = Some ((Hr, h), w1) /\
  if FAILED Hr then
    h = 0 /\ TextFileHandlers w1 = TextFileHandlers w /\ owns (Formatters w1) l /\
    (OpenFiles w1 = OpenFiles w \/ exists File, OpenFiles w !! File = None /\ OpenFiles w1 = <[File := []]> (OpenFiles w))
  else
    exists f File, OpenFiles w !! File = None /\ forall ps, exists rs o w2 w3,
      Formatted f 2046 ps (Formatters w1) = Some (rs, o) /\
      let (Hrs, Contents) := AppendAll (Encoding =? CdiagEncodingUtf8) File [] rs in
      handle_all (CdiagsTextFileHandle h) ps w1 = Some (Hrs, w2) /\
      CdiagsTextFileDereferenceHandler h w2 = Some (tt, w3) /\
      TextFileHandlers w3 = TextFileHandlers w /\ owns (Formatters w3) l /\
      OpenFiles w3 = <[File := Contents]> (OpenFiles w).
Proof.
  intros Ho HSf. destruct (create_file_runs Session_ Path Encoding Handler w l Ho HSf) as (Hr & h & w1 & E & HC).
  exists Hr, h, w1. split; [done|]. destruct (FAILED Hr); [done|].
  destruct HC as (f & File & H0 & Hf & Ho1 & Hn & HFn & HO1 & Hx1). exists f, File. split; [done|]. intros ps.
  destruct (Formatted_owns f 2046 ps (Formatters w1) (f :: l) Ho1) as (rs & o & EF & Ho2); [by left|].
  set (x := MkTextFile 1 f (Encoding =? CdiagEncodingUtf8) true File) in *.
  assert (TextFileHandlers w1 !! h = Some x) as Hx by (rewrite Hx1; apply lookup_insert_eq).
  assert (OpenFiles w1 !! TfHandle x = Some []) as HO by (rewrite HO1; apply lookup_insert_eq).
  pose proof (file_handled h x ps w1 [] rs o H0 Hx eq_refl HO EF) as EH.
  change (TfUtf8 x) with (Encoding =? CdiagEncodingUtf8) in EH. change (TfHandle x) with File in EH.
  destruct (AppendAll _ File [] rs) as [Hrs Contents_] eqn:EA. cbn [fst snd] in EH. set (w2 := set_OpenFiles _ _) in EH.
  set (x0 := MkTextFile 0 f (Encoding =? CdiagEncodingUtf8) true File).
  destruct (file_deleted h x0 (set_TextFile (<[h := x0]> (TextFileHandlers w2)) w2) l) as (o3 & Ho3 & ED);
    [cbn; by rewrite lookup_insert_eq|done..|].
  eexists rs, o, w2, _. split; [done|]. rewrite EA. split; [done|]. split; [|split_and!].
  - unfold CdiagsTextFileDereferenceHandler.
    rewrite (bind_eq _ _ _ _ _ (load_file_eq h x w2 Hx)). cbn [TfReferenceCount TfFormatter TfUtf8 TfLock TfHandle x].
    change (LONG (1 - 1)) with 0. cbv zeta. unfold store_file. rewrite bind_modify. cbn [Z.eqb when_]. exact ED.
  - cbn. rewrite Hx1, !delete_insert_eq. by apply delete_id.
  - exact Ho3.
  - cbn. by rewrite HO1, insert_insert_eq.
Qed.
End handlers.

Module Demo.
Import Session.Counted.
(** A session with the formatter 0x50, which is referenced once; a packet is its text. *)
Definition Query (s : Z) : ST (gmap Z Z) (Z * Z) := Reference 0x50 ;;; ret (S_OK, 0x50).
Definition Format_ (f p : Z) (n : nat) : ST (gmap Z Z) (Z * list Z) :=
  ret (if p <? 0 then (E_FAIL, []) else (S_OK, [p; 10])).
Definition Malloc (w : HW (gmap Z Z)) : Z :=
  if decide (OutHandlers w !! 0x100 = None /\ TextFileHandlers w !! 0x100 = None) then 0x100 else 0.
Definition Create (p : list Z) (f : gmap Z (list Z)) : Z + Z := if decide (f !! 4 = None) then inr 4 else inl 5.
Definition Seek (File : Z) : option Z := None.
(** A full disk. *)
Definition Write (File : Z) (l : list Z) : option Z := if (5 <? length l)%nat then Some 112 else None.
Definition Convert (n : nat) (l : list Z) : Z + list Z := inr l.

Definition start : HW (gmap Z Z) := MkHW ∅ ∅ ∅ [] {[0x50 := 1]}.

Lemma Query_ok s w l : owns w l -> 0x50 ∈ l -> exists Hr f w', Query s w = Some ((Hr, f), w') /\
  if FAILED Hr then f = 0 /\ owns w' l else f <> 0 /\ owns w' (f :: l).
Proof.
  intros Hw Hl. destruct (Reference_spec w l 0x50 Hw Hl) as (w' & E & Hw'). exists S_OK, 0x50, w'.
  unfold Query. by rewrite (bind_eq _ _ _ _ _ E).
Qed.

Lemma Format_ok f p n (w : gmap Z Z) l : owns w l -> f ∈ l ->
  exists Hr t w', Format_ f p n w = Some ((Hr, t), w') /\ owns w' l.
Proof. intros Hw _. unfold Format_. destruct (p <? 0); by eexists _, _, w. Qed.

Lemma Handler_malloc_ok w : Malloc w = 0 \/ OutHandlers w !! Malloc w = None /\ TextFileHandlers w !! Malloc w = None.
Proof. unfold Malloc. destruct (decide _) as [[? ?]|]; [by right|by left]. Qed.

Lemma Create_ok p f File : Create p f = inr File -> f !! File = None.
Proof. unfold Create. destruct (decide _); [|done]. by intros [= <-]. Qed.

Lemma Create_error p f Err : Create p f = inl Err -> Err <> 0.
Proof. unfold Create. destruct (decide _); [done|]. by intros [= <-]. Qed.

Lemma formatter_owned : owns (Formatters start) [0x50].
Proof.
  intros o. rewrite count_of_cons. unfold start. cbn [Formatters]. destruct (decide (0x50 = o)) as [<-|Hne].
  - by rewrite lookup_singleton_eq.
  - by rewrite lookup_singleton_ne.
Qed.

(** The second packet cannot be formatted; for the fourth the disk is full. *)
Lemma text_file_handler_life_witness :
  exists h w1 w2 w3, CdiagCreateTextFileHandler Query Malloc Create Seek 1 (Some [97]) CdiagEncodingUtf16 1 start =
      Some ((S_OK, h), w1) /\
    handle_all (CdiagsTextFileHandle Format_ Write Convert h) [65; -1; 66; 67] w1 =
      Some ([S_OK; E_FAIL; S_OK; HRESULT_FROM_WIN32 112], w2) /\
    CdiagsTextFileDereferenceHandler h w2 = Some (tt, w3) /\ TextFileHandlers w3 = ∅ /\
    OpenFiles w3 = {[4 := [65; 0; 10; 0; 66; 0; 10; 0]]} /\ owns (Formatters w3) [0x50].
Proof.
  destruct (text_file_handler_life Query Format_ Malloc Create Seek Write Convert (fun _ => 0x50) Query_ok Format_ok
    Handler_malloc_ok Create_ok Create_error ltac:(done) 1 [97] CdiagEncodingUtf16 1 start [0x50] formatter_owned ltac:(by left))
    as (Hr & h & w1 & E & HL).
  assert (Hr = S_OK /\ h = 0x100) as [-> ->] by (vm_compute in E; by injection E as <- <- _).
  change (FAILED S_OK) with false in HL. cbv iota in HL. destruct HL as (f & File & _ & HL).
  destruct (HL [65; -1; 66; 67]) as (rs & o & w2 & w3 & EF & HA). exists 0x100, w1, w2, w3. split; [exact E|].
  assert (rs = [(S_OK, [65; 10]); (E_FAIL, []); (S_OK, [66; 10]); (S_OK, [67; 10])]) as ->.
  { change (Formatters w1) with (Formatters w1) in EF. cbn in EF. by injection EF as <- _. }
  destruct (AppendAll _ _ _ _ _ _) as [Hrs Contents_] eqn:EA.
  assert (Hrs = [S_OK; E_FAIL; S_OK; HRESULT_FROM_WIN32 112] /\ Contents_ = [65; 0; 10; 0; 66; 0; 10; 0]) as [-> ->].
  { vm_compute in EA. by injection EA as <- <-. }
  destruct HA as (EH & ED & HT & Ho & HO). split; [exact EH|]. split; [exact ED|]. split; [exact HT|]. split; [|exact Ho].
  rewrite HO. assert (File = 4) as ->; [|done].
  destruct (decide (File = 4)) as [|Hne]; [done|exfalso].
  assert (OpenFiles w3 !! 4 = None) as H4 by (rewrite HO; by rewrite lookup_insert_ne).
  assert (is_Some (OpenFiles w3 !! 4)) as [x Hx]; [|congruence].
  vm_compute in E. injection E as <-. vm_compute in EH. injection EH as <-. vm_compute in ED. injection ED as <-.
  vm_compute. by eexists.
Defined.
End Demo.
