(* ===== verification/IoBuffer.v ===== *)
(** * Byte buffers shared between the kernel reflector and its user mode client

    The structures of include/cfixkrio.h and of include/cfixaux.h that cross the
    device interface are laid out in plain bytes.  A memory maps addresses to
    bytes; [put] and [fetch] are the accesses of a little-endian machine to an
    integer of [w] bytes, [poke] and [peek] are RtlCopyMemory's two halves.  The
    lemmas say what a read returns after a write, at the same place and
    elsewhere; [fetching] discharges the side conditions with [lia]. *)
From stdpp Require Import base gmap list strings.
From Stdlib Require Import ZArith Lia Ascii.
From S2P Require Import Prelude.
Local Open Scope Z_scope.

Definition Memory : Type := Z -> Z.

Definition lenZ {A} (l : list A) : Z := Z.of_nat (length l).

Definition poke (m : Memory) (a : Z) (bs : list Z) : Memory := fun i =>
  if (a <=? i) && (i <? a + lenZ bs) then nth (Z.to_nat (i - a)) bs 0 else m i.

Fixpoint peek (m : Memory) (a : Z) (n : nat) : list Z :=
  match n with O => [] | S n => m a :: peek m (a + 1) n end.

Fixpoint bytes_of (w : nat) (v : Z) : list Z :=
  match w with O => [] | S w => v mod 256 :: bytes_of w (v / 256) end.

Fixpoint of_bytes (bs : list Z) : Z :=
  match bs with [] => 0 | b :: bs => b + 256 * of_bytes bs end.

Definition put (w : nat) (m : Memory) (a v : Z) : Memory := poke m a (bytes_of w v).
Definition fetch (w : nat) (m : Memory) (a : Z) : Z := of_bytes (peek m a w).

(** Arrays of integers, such as the frames of a stack trace. *)
Fixpoint put_array (w : nat) (m : Memory) (a : Z) (vs : list Z) : Memory :=
  match vs with [] => m | v :: vs => put_array w (put w m a v) (a + Z.of_nat w) vs end.

Fixpoint fetch_array (w : nat) (m : Memory) (a : Z) (n : nat) : list Z :=
  match n with O => [] | S n => fetch w m a :: fetch_array w m (a + Z.of_nat w) n end.

(** Strings of WCHARs: two bytes per character, not terminated. *)
Fixpoint wbytes (s : string) : list Z :=
  match s with
  | EmptyString => []
  | String c s => Z.of_N (N_of_ascii c) :: 0 :: wbytes s
  end.

Fixpoint wstring (bs : list Z) : string :=
  match bs with
  | lo :: _ :: bs => String (ascii_of_N (Z.to_N lo)) (wstring bs)
  | _ => EmptyString
  end.

(** ** What a read returns after a write *)
Lemma lenZ_app {A} (l1 l2 : list A) : lenZ (l1 ++ l2) = lenZ l1 + lenZ l2.
Proof. unfold lenZ. rewrite length_app. lia. Qed.

Lemma length_peek m a n : length (peek m a n) = n.
Proof. revert a. induction n; intros; simpl; congruence. Qed.

Lemma peek_ext m m' a n :
  (forall i, a <= i < a + Z.of_nat n -> m i = m' i) -> peek m a n = peek m' a n.
Proof.
  revert a. induction n as [|n IH]; intros a H; simpl; [done|]. f_equal; [apply H; lia|].
  apply IH. intros. apply H. lia.
Qed.

Lemma poke_outside m a bs i : i < a \/ a + lenZ bs <= i -> poke m a bs i = m i.
Proof. intros H. unfold poke. destruct (Z.leb_spec a i), (Z.ltb_spec i (a + lenZ bs)); simpl; lia. Qed.

Lemma peek_poke_ne m a bs b n :
  b + Z.of_nat n <= a \/ a + lenZ bs <= b -> peek (poke m a bs) b n = peek m b n.
Proof. intros H. apply peek_ext. intros. apply poke_outside. lia. Qed.

Lemma peek_nth m a bs n :
  (forall k, (k < n)%nat -> m (a + Z.of_nat k) = nth k bs 0) -> length bs = n -> peek m a n = bs.
Proof.
  revert a bs. induction n as [|n IH]; intros a bs H Hl; destruct bs as [|b bs]; try discriminate.
  - reflexivity.
  - simpl. f_equal.
    + specialize (H 0%nat ltac:(lia)). by rewrite Z.add_0_r in H.
    + apply IH; [|by injection Hl]. intros k Hk. specialize (H (S k) ltac:(lia)). simpl in H.
      rewrite <- H. f_equal. lia.
Qed.

Lemma peek_poke_eq m a bs n : n = length bs -> peek (poke m a bs) a n = bs.
Proof.
  intros ->. apply peek_nth; [|done]. intros k Hk. unfold poke, lenZ.
  destruct (Z.leb_spec a (a + Z.of_nat k)); [|lia].
  destruct (Z.ltb_spec (a + Z.of_nat k) (a + Z.of_nat (length bs))); [|lia]. simpl. f_equal. lia.
Qed.

Lemma length_bytes_of w v : length (bytes_of w v) = w.
Proof. revert v. induction w; intros; simpl; congruence. Qed.

Lemma lenZ_bytes_of w v : lenZ (bytes_of w v) = Z.of_nat w.
Proof. unfold lenZ. by rewrite length_bytes_of. Qed.

Lemma of_bytes_of w v : of_bytes (bytes_of w v) = v mod 256 ^ Z.of_nat w.
Proof.
  revert v. induction w as [|w IH]; intros v; cbn [bytes_of of_bytes].
  - by rewrite Z.mod_1_r.
  - rewrite IH, Nat2Z.inj_succ, Z.pow_succ_r by lia.
    rewrite (Z.rem_mul_r v) by lia. done.
Qed.

Lemma fetch_put_eq w m a v : 0 <= v < 256 ^ Z.of_nat w -> fetch w (put w m a v) a = v.
Proof.
  intros H. unfold fetch, put. rewrite peek_poke_eq by (by rewrite length_bytes_of).
  rewrite of_bytes_of. by apply Z.mod_small.
Qed.

Lemma fetch_put_ne w w' m a b v :
  b + Z.of_nat w' <= a \/ a + Z.of_nat w <= b -> fetch w' (put w m a v) b = fetch w' m b.
Proof. intros H. unfold fetch, put. rewrite peek_poke_ne; [done|]. rewrite lenZ_bytes_of. lia. Qed.

Lemma fetch_poke_ne w m a bs b :
  b + Z.of_nat w <= a \/ a + lenZ bs <= b -> fetch w (poke m a bs) b = fetch w m b.
Proof. intros H. unfold fetch. by rewrite peek_poke_ne. Qed.

Lemma peek_put_ne w m a v b n :
  b + Z.of_nat n <= a \/ a + Z.of_nat w <= b -> peek (put w m a v) b n = peek m b n.
Proof. intros H. unfold put. apply peek_poke_ne. rewrite lenZ_bytes_of. lia. Qed.

Lemma put_outside w m a v i : i < a \/ a + Z.of_nat w <= i -> put w m a v i = m i.
Proof. intros H. apply poke_outside. rewrite lenZ_bytes_of. lia. Qed.

Lemma fetch_ext w m m' a :
  (forall i, a <= i < a + Z.of_nat w -> m i = m' i) -> fetch w m a = fetch w m' a.
Proof. intros H. unfold fetch. by rewrite (peek_ext m m'). Qed.

Lemma put_array_outside w m a vs i :
  i < a \/ a + Z.of_nat w * lenZ vs <= i -> put_array w m a vs i = m i.
Proof.
  revert m a. induction vs as [|v vs IH]; intros m a H; [done|]. simpl.
  assert (lenZ (v :: vs) = lenZ vs + 1) as E by (unfold lenZ; simpl; lia). rewrite E in H.
  rewrite IH by lia. apply put_outside. unfold lenZ in *. nia.
Qed.

Lemma fetch_array_ext w m m' a n :
  (forall i, a <= i < a + Z.of_nat w * Z.of_nat n -> m i = m' i) ->
  fetch_array w m a n = fetch_array w m' a n.
Proof.
  revert a. induction n as [|n IH]; intros a H; simpl; [done|].
  rewrite (fetch_ext w m m') by (intros; apply H; nia). f_equal. apply IH. intros. apply H. nia.
Qed.

Lemma fetch_array_put_array w m a vs n :
  n = length vs -> Forall (fun v => 0 <= v < 256 ^ Z.of_nat w) vs ->
  fetch_array w (put_array w m a vs) a n = vs.
Proof.
  intros -> H. revert m a. induction H as [|v vs Hv _ IH]; intros m a; simpl; [done|]. f_equal; [|apply IH].
  rewrite (fetch_ext _ _ (put w m a v)) by (intros; apply put_array_outside; lia).
  by apply fetch_put_eq.
Qed.

Lemma fetch_put_array_ne w w' m a vs b :
  b + Z.of_nat w' <= a \/ a + Z.of_nat w * lenZ vs <= b ->
  fetch w' (put_array w m a vs) b = fetch w' m b.
Proof. intros H. apply fetch_ext. intros. apply put_array_outside. lia. Qed.

Lemma peek_put_array_ne w m a vs b n :
  b + Z.of_nat n <= a \/ a + Z.of_nat w * lenZ vs <= b ->
  peek (put_array w m a vs) b n = peek m b n.
Proof. intros H. apply peek_ext. intros. apply put_array_outside. lia. Qed.

Lemma wstring_wbytes s : wstring (wbytes s) = s.
Proof. induction s as [|c s IH]; simpl; [done|]. by rewrite N2Z.id, ascii_N_embedding, IH. Qed.

Lemma length_wbytes s : length (wbytes s) = (2 * String.length s)%nat.
Proof. induction s as [|c s IH]; simpl; lia. Qed.

Lemma lenZ_wbytes s : lenZ (wbytes s) = 2 * Z.of_nat (String.length s).
Proof. unfold lenZ. rewrite length_wbytes. lia. Qed.

Lemma fetch_array_put_ne w w' m a v b n :
  b + Z.of_nat w' * Z.of_nat n <= a \/ a + Z.of_nat w <= b ->
  fetch_array w' (put w m a v) b n = fetch_array w' m b n.
Proof. intros H. apply fetch_array_ext. intros. apply put_outside. lia. Qed.

Lemma fetch_array_poke_ne w m a bs b n :
  b + Z.of_nat w * Z.of_nat n <= a \/ a + lenZ bs <= b ->
  fetch_array w (poke m a bs) b n = fetch_array w m b n.
Proof. intros H. apply fetch_array_ext. intros. apply poke_outside. lia. Qed.

(** Push a read through the writes before it. *)
Ltac fetching :=
  repeat first
    [ rewrite fetch_put_eq by (simpl; lia)
    | rewrite fetch_put_ne by (simpl; lia)
    | rewrite fetch_poke_ne by (simpl; lia)
    | rewrite fetch_put_array_ne by (simpl; lia)
    | rewrite peek_poke_eq by (simpl; lia)
    | rewrite peek_poke_ne by (simpl; lia)
    | rewrite peek_put_ne by (simpl; lia)
    | rewrite peek_put_array_ne by (simpl; lia)
    | rewrite fetch_array_put_ne by (simpl; lia)
    | rewrite fetch_array_poke_ne by (simpl; lia) ].

(** ** Copies at other addresses

    [Copied m' a' m a n]: the [n] bytes at [a'] of [m'] are those at [a] of [m]. *)
Definition Copied (m' : Memory) (a' : Z) (m : Memory) (a n : Z) : Prop :=
  forall i, 0 <= i < n -> m' (a' + i) = m (a + i).

Lemma peek_shift m' a' m a n :
  (forall i, 0 <= i < Z.of_nat n -> m' (a' + i) = m (a + i)) -> peek m' a' n = peek m a n.
Proof.
  revert a a'. induction n as [|n IH]; intros a a' H; simpl; [done|]. f_equal.
  - specialize (H 0 ltac:(lia)). by rewrite !Z.add_0_r in H.
  - apply IH. intros i Hi. rewrite <- !Z.add_assoc. apply H. lia.
Qed.

Lemma Copied_le m' a' m a n n' : Copied m' a' m a n -> n' <= n -> Copied m' a' m a n'.
Proof. intros H Hn i Hi. apply H. lia. Qed.

Lemma Copied_trans m2 a2 m1 a1 m a n :
  Copied m2 a2 m1 a1 n -> Copied m1 a1 m a n -> Copied m2 a2 m a n.
Proof. intros H1 H2 i Hi. rewrite H1 by done. by apply H2. Qed.

Lemma Copied_drop m' a' m a n k :
  Copied m' a' m a n -> 0 <= k -> Copied m' (a' + k) m (a + k) (n - k).
Proof. intros H Hk i Hi. rewrite <- !Z.add_assoc. apply H. lia. Qed.

Section copied.
Context (m' : Memory) (a' : Z) (m : Memory) (a n : Z).
Hypothesis HC : Copied m' a' m a n.

Lemma peek_Copied o k : 0 <= o -> o + Z.of_nat k <= n -> peek m' (a' + o) k = peek m (a + o) k.
Proof. intros Ho Hk. apply peek_shift. intros. rewrite <- !Z.add_assoc. apply HC. lia. Qed.

Lemma fetch_Copied w o : 0 <= o -> o + Z.of_nat w <= n -> fetch w m' (a' + o) = fetch w m (a + o).
Proof. intros. unfold fetch. by rewrite peek_Copied. Qed.

Lemma fetch_array_Copied w o k :
  0 <= o -> o + Z.of_nat w * Z.of_nat k <= n ->
  fetch_array w m' (a' + o) k = fetch_array w m (a + o) k.
Proof.
  revert o. induction k as [|k IH]; intros o Ho Hk; simpl; [done|].
  rewrite fetch_Copied by nia. f_equal. rewrite <- !Z.add_assoc. apply IH; nia.
Qed.
End copied.

(** ** An allocator that never fails: the address after all live blocks *)
Definition NextBlock (B : gset Z) : Z := 1 + foldr Z.max 0 (elements B).

Lemma NextBlock_fresh B : NextBlock B <> 0 /\ NextBlock B ∉ B.
Proof.
  unfold NextBlock. assert (forall l : list Z, 0 <= foldr Z.max 0 l /\ Forall (fun x => x <= foldr Z.max 0 l) l) as H.
  { induction l as [|x l [IH0 IH]]; [done|]. simpl. split; [lia|]. constructor; [lia|].
    eapply Forall_impl; [exact IH|]. simpl. lia. }
  destruct (H (elements B)) as [H0 HB]. split; [lia|]. intros Hin.
  rewrite Forall_forall in HB. specialize (HB _ (proj2 (elem_of_elements _ _) Hin)). simpl in HB. lia.
Qed.
