(* ===== verification/RegStore.v ===== *)
(** * The configuration store (cdiag/regconfigstore.c)

    Settings have a group, a name and a scope; they are the values of registry keys
    below a key of the machine and one of the user.  The registry and the objects of
    the system are an interface: a class of operations, and a class of laws.  A
    string is the list of its characters, a block of memory the list of its bytes. *)
From stdpp Require Import base gmap list.
From Stdlib Require Import ZArith Lia.
From S2P Require Import Prelude FormatStr Search IoBuffer.
Local Open Scope Z_scope.
Local Open Scope cfix_scope.

(* src/include/cdiagmsg.h:59-65 (CDIAG_E_SETTING_NOT_FOUND) *)
Definition CDIAG_E_SETTING_NOT_FOUND : Z := 0x80048100.
(* src/include/cdiagmsg.h:77-83 (CDIAG_E_SETTING_MISMATCH) *)
Definition CDIAG_E_SETTING_MISMATCH : Z := 0x80048102.
(* src/include/cdiag.h:49-49 (MAX_SETTINGGROUPNAME_CCH) *)
Definition MAX_SETTINGGROUPNAME_CCH : Z := 32.
(* src/include/cdiag.h:50-50 (MAX_SETTINGNAME_CCH) *)
Definition MAX_SETTINGNAME_CCH : Z := 32.
(* src/include/cdiag.h:73-92 (CDIAG_CONFIGURATION_SCOPES) *)
Definition CdiagGlobalScope : Z := 1.
Definition CdiagUserScope : Z := 2.
Definition CdiagEffectiveScope : Z := 3.
(* src/include/cdiag.h:354-358 (CDIAG_CFGS_ACCESS_ALL) *)
Definition CDIAG_CFGS_ACCESS_ALL : Z := 0xF.
Definition CDIAG_CFGS_ACCESS_READ_USER : Z := 0x1.
Definition CDIAG_CFGS_ACCESS_WRITE_USER : Z := 0x2.
Definition CDIAG_CFGS_ACCESS_READ_MACHINE : Z := 0x4.
Definition CDIAG_CFGS_ACCESS_WRITE_MACHINE : Z := 0x8.

Definition ERROR_ACCESS_DENIED : Z := 5.
Definition ERROR_MORE_DATA : Z := 234.
Definition STRSAFE_E_INVALID_PARAMETER : Z := 0x80070057.
Definition HKEY_CURRENT_USER : Z := 0x80000001.
Definition HKEY_LOCAL_MACHINE : Z := 0x80000002.
Definition KEY_QUERY_VALUE : Z := 0x1.
Definition KEY_SET_VALUE : Z := 0x2.
Definition KEY_NOTIFY : Z := 0x10.
Definition KEY_READ : Z := 0x20019.
Definition KEY_WRITE : Z := 0x20006.
Definition REG_SZ : Z := 1.
Definition REG_DWORD : Z := 4.
Definition REG_MULTI_SZ : Z := 7.

(* src/cdiag/cdiag/regconfigstore.c:37-37 (KEY_INDEX_FOR_SCOPE) *)
Definition KEY_INDEX_FOR_SCOPE (scope : Z) : nat := Z.to_nat (ULONG (scope - 1) mod 2).
(* src/cdiag/cdiag/regconfigstore.c:45-45 (MAX_REG_NAME_CCH) *)
Definition MAX_REG_NAME_CCH : Z := 100.
(* src/cdiag/cdiag/regconfigstore.c:46-47 (MAX_REG_VALUE_CCH) *)
Definition MAX_REG_VALUE_CCH : Z := 1024 * 1024 / 2.

(** [Initialised] is [Base.Size == sizeof( CDIAGP_REG_CONFIG_STORE )], [Lock] that the
    lock has been initialised. *)
(* src/cdiag/cdiag/regconfigstore.c:49-96 (CDIAGP_REG_CONFIG_STORE) *)
Record STORE := MkStore {
  Initialised : bool;
  Key : list Z;
  KeyAccessMask : list Z;
  Lock : bool;
  Event : Z;
  WaitHandle : Z;
  Function_ : Z;
  Context_ : Z }.

(** ** The operating system

    What opens or creates something yields an error or a handle; other operations
    yield an error, 0 for success. *)
Class Registry (X : Type) := MkRegistry {
  (** key, name of the subkey, access *)
  RegOpenKeyEx : Z -> list Z -> Z -> ST X (Z + Z);
  RegCreateKeyEx : Z -> list Z -> Z -> ST X (Z + Z);
  RegCloseKey : Z -> ST X Z;
  RegDeleteValue : Z -> list Z -> ST X Z;
  (** key, name, type, data *)
  RegSetValueEx : Z -> list Z -> Z -> list Z -> ST X Z;
  (** For a buffer and its size: the error, the type, the buffer, the size of the data. *)
  RegQueryValueEx : Z -> list Z -> list Z -> Z -> ST X (Z * Z * list Z * Z);
  (** key, event *)
  RegNotifyChangeKeyValue : Z -> Z -> ST X Z;
  CreateEvent : ST X (Z + Z);
  ResetEvent : Z -> ST X bool;
  (** event, callback, context *)
  RegisterWaitForSingleObject : Z -> Z -> Z -> ST X (Z + Z);
  UnregisterWait : Z -> ST X bool;
  UnregisterWaitEx : Z -> ST X Z;
  CloseHandle : Z -> ST X Z }.

(* src/cdiag/cdiag/regconfigstore.c:104-104 (CdiagsIsValidScope) *)
Definition CdiagsIsValidScope (scope : Z) : bool := (1 <=? scope) && (scope <=? 3).

(* src/cdiag/cdiag/regconfigstore.c:108-124 (CdiagsIsValidRegistryName) *)
Definition CdiagsIsValidRegistryName (Name : option (list Z)) (MaxLen : Z) : bool :=
  match Name with
  | None => false
  | Some n => bool_decide (92 ∉ n) && CdiagpIsStringValid Name 1 MaxLen false
  end.

(** Whether both names are valid. *)
Definition NamesValid (GroupName Name : option (list Z)) : bool :=
  CdiagsIsValidRegistryName GroupName MAX_SETTINGGROUPNAME_CCH &&
  CdiagsIsValidRegistryName Name MAX_SETTINGNAME_CCH.

Section settings.
Context {X : Type} {R : Registry X}.

(* src/cdiag/cdiag/regconfigstore.c:126-184 (CdiagsDeleteSettingInSingleScope) *)
Definition CdiagsDeleteSettingInSingleScope (Store : STORE) (GroupName Name : list Z) (Scope : Z) : ST X Z :=
  let i := KEY_INDEX_FOR_SCOPE Scope in
  if Key Store !!! i =? 0 then ret E_ACCESSDENIED
  else
    r <- RegOpenKeyEx (Key Store !!! i) GroupName (Z.land (KeyAccessMask Store !!! i) KEY_SET_VALUE) ;;
    match r with
    | inl Res => ret (if ERROR_FILE_NOT_FOUND =? Res then CDIAG_E_SETTING_NOT_FOUND else HRESULT_FROM_WIN32 Res)
    | inr Key =>
        Res <- RegDeleteValue Key Name ;;
        let Hr := if ERROR_FILE_NOT_FOUND =? Res then CDIAG_E_SETTING_NOT_FOUND
                  else if negb (Res =? 0) then HRESULT_FROM_WIN32 Res else S_OK in
        e <- RegCloseKey Key ;;
        assert_ (e =? 0) ;;;
        ret Hr
    end.

(* src/cdiag/cdiag/regconfigstore.c:186-252 (CdiagsWriteSettingInSingleScope) *)
Definition CdiagsWriteSettingInSingleScope (Store : STORE) (GroupName Name : list Z) (Scope DataType : Z)
    (DataLen : Z) (Data : list Z) : ST X Z :=
  let i := KEY_INDEX_FOR_SCOPE Scope in
  if Key Store !!! i =? 0 then ret E_ACCESSDENIED
  else
    r <- RegCreateKeyEx (Key Store !!! i) GroupName (Z.land (KeyAccessMask Store !!! i) KEY_WRITE) ;;
    match r with
    | inl Res => ret (HRESULT_FROM_WIN32 Res)
    | inr Key =>
        Res <- RegSetValueEx Key Name DataType (take (Z.to_nat DataLen) Data) ;;
        let Hr := if negb (Res =? 0) then HRESULT_FROM_WIN32 Res else S_OK in
        e <- RegCloseKey Key ;;
        assert_ (e =? 0) ;;;
        ret Hr
    end.

(** The result, the buffer, and what is in [*ActualLen] (before: [Actual]); a pointer
    that is NULL is [false]. *)
(* src/cdiag/cdiag/regconfigstore.c:254-344 (CdiagsReadSettingInSingleScope) *)
Definition CdiagsReadSettingInSingleScope (Store : STORE) (GroupName Name : list Z) (Scope ExpectedDataType : Z)
    (BufferLen : Z) (Buffer : list Z) (ActualLen : bool) (Actual : Z) : ST X (Z * list Z * Z) :=
  let i := KEY_INDEX_FOR_SCOPE Scope in
  if Key Store !!! i =? 0 then ret (E_ACCESSDENIED, Buffer, Actual)
  else
    r <- RegOpenKeyEx (Key Store !!! i) GroupName (Z.land (KeyAccessMask Store !!! i) KEY_READ) ;;
    match r with
    | inl Res =>
        ret (if ERROR_FILE_NOT_FOUND =? Res then CDIAG_E_SETTING_NOT_FOUND else HRESULT_FROM_WIN32 Res, Buffer, Actual)
    | inr Key =>
        q <- RegQueryValueEx Key Name Buffer BufferLen ;;
        let '(Res, DataType, Buffer, DataRead) := q in
        let '(Hr, Actual) :=
          if ERROR_FILE_NOT_FOUND =? Res then (CDIAG_E_SETTING_NOT_FOUND, Actual)
          else if ERROR_MORE_DATA =? Res then (CDIAG_E_BUFFER_TOO_SMALL, if ActualLen then DataRead else Actual)
          else if negb (Res =? 0) then (HRESULT_FROM_WIN32 Res, Actual)
          else if negb (DataType =? ExpectedDataType) then (CDIAG_E_SETTING_MISMATCH, Actual)
          else (S_OK, if ActualLen then DataRead else Actual) in
        e <- RegCloseKey Key ;;
        assert_ (e =? 0) ;;;
        ret (Hr, Buffer, Actual)
    end.

(* src/cdiag/cdiag/regconfigstore.c:346-417 (CdiagsReadSetting) *)
Definition CdiagsReadSetting (Store : STORE) (GroupName Name : list Z) (Scope ExpectedDataType : Z)
    (BufferLen : Z) (Buffer : list Z) (ActualLen : bool) (Actual : Z) : ST X (Z * list Z * Z) :=
  let Global := fun Buffer Actual =>
    if FlagOn Scope CdiagGlobalScope then
      CdiagsReadSettingInSingleScope Store GroupName Name CdiagGlobalScope ExpectedDataType BufferLen Buffer
        ActualLen Actual
    else ret (CDIAG_E_SETTING_NOT_FOUND, Buffer, Actual) in
  if FlagOn Scope CdiagUserScope then
    r <- CdiagsReadSettingInSingleScope Store GroupName Name CdiagUserScope ExpectedDataType BufferLen Buffer
           ActualLen Actual ;;
    let '(Hr, Buffer, Actual) := r in
    if SUCCEEDED Hr then ret (S_OK, Buffer, Actual)
    else if CDIAG_E_SETTING_NOT_FOUND =? Hr then Global Buffer Actual
    else ret (Hr, Buffer, Actual)
  else Global Buffer Actual.
End settings.

(** ** The methods of a store *)
Record RW (X : Type) := MkRW { Stores : gmap Z STORE; Os : X }.
Arguments MkRW {X}. Arguments Stores {X}. Arguments Os {X}.

Section store.
Context {X : Type} {R : Registry X}.
(** The heap; the address of [CdiagsKeyChangeNotificationCallback]; a callback of a
    client, by its address and its context. *)
Context (CdiagpMalloc : gmap Z STORE -> Z) (KeyChangeCallback : Z) (Invoke : Z -> Z -> ST X unit).

Local Abbreviation M := (ST (RW X)).

Definition os {A} (m : ST X A) : M A := fun w =>
  match m (Os w) with Some (a, x) => Some (a, MkRW (Stores w) x) | None => None end.
Definition load_store (This : Z) : M STORE := fun w =>
  match Stores w !! This with Some s => Some (s, w) | None => None end.
Definition save_store (This : Z) (s : STORE) : M unit :=
  modify (fun w => MkRW (<[This := s]> (Stores w)) (Os w)).

(** [CdiagsIsValidRegStore( Store )], and the object. *)
(* src/cdiag/cdiag/regconfigstore.c:105-106 (CdiagsIsValidRegStore) *)
Definition CdiagsIsValidRegStore (This : Z) : M (option STORE) :=
  if This =? 0 then ret None
  else s <- load_store This ;; ret (if Initialised s then Some s else None).

(** The result, and what is in [*Value]; [Old] is in it before. *)
(* src/cdiag/cdiag/regconfigstore.c:598-646 (CdiagsReadDwordSetting) *)
Definition CdiagsReadDwordSetting (This : Z) (GroupName Name : option (list Z)) (Scope : Z) (Value : bool) (Old : Z) :
    M (Z * Z) :=
  v <- CdiagsIsValidRegStore This ;;
  match v, GroupName, Name with
  | Some Store, Some g, Some n =>
      if negb (NamesValid GroupName Name) || negb (CdiagsIsValidScope Scope) || negb Value
      then ret (E_INVALIDARG, Old)
      else
        r <- os (CdiagsReadSetting Store g n Scope REG_DWORD 4 (bytes_of 4 0) false 0) ;;
        let '(Hr, Data, _) := r in
        ret (if CDIAG_E_BUFFER_TOO_SMALL =? Hr then (CDIAG_E_SETTING_MISMATCH, 0)
             else if FAILED Hr then (Hr, 0) else (S_OK, of_bytes Data))
  | _, _, _ => ret (E_INVALIDARG, Old)
  end.

(** The two methods that read strings differ in the type of the value.  The block
    [StringBuffer] has [BufferSizeInChars] characters; [None] for NULL. *)
(* src/cdiag/cdiag/regconfigstore.c:648-712 (CdiagsReadStringSetting) *)
Definition ReadCharacters (DataType : Z) (This : Z) (GroupName Name : option (list Z)) (Scope : Z)
    (BufferSizeInChars : Z) (StringBuffer : option (list Z)) (ActualSize : bool) (Old : Z) :
    M (Z * option (list Z) * Z) :=
  v <- CdiagsIsValidRegStore This ;;
  match v, GroupName, Name, StringBuffer with
  | Some Store, Some g, Some n, Some B =>
      if negb (NamesValid GroupName Name) || negb (CdiagsIsValidScope Scope) ||
         (BufferSizeInChars =? 0) || (MAX_REG_VALUE_CCH <? BufferSizeInChars)
      then ret (E_INVALIDARG, StringBuffer, Old)
      else
        r <- os (CdiagsReadSetting Store g n Scope DataType (ULONG (BufferSizeInChars * 2)) B ActualSize Old) ;;
        let '(Hr, B, Actual) := r in
        ret (Hr, Some B, Actual)
  | _, _, _, _ => ret (E_INVALIDARG, StringBuffer, Old)
  end.

(* src/cdiag/cdiag/regconfigstore.c:648-679 (CdiagsReadStringSetting) *)
Definition CdiagsReadStringSetting := ReadCharacters REG_SZ.

(* src/cdiag/cdiag/regconfigstore.c:681-712 (CdiagsReadMultiStringSetting) *)
Definition CdiagsReadMultiStringSetting := ReadCharacters REG_MULTI_SZ.

(** The guards that the methods that write and the one that deletes share. *)
(* src/cdiag/cdiag/regconfigstore.c:724-730 (CdiagsWriteDwordSetting) *)
Definition Writing (This : Z) (GroupName Name : option (list Z)) (Scope : Z)
    (k : STORE -> list Z -> list Z -> M Z) : M Z :=
  v <- CdiagsIsValidRegStore This ;;
  match v, GroupName, Name with
  | Some Store, Some g, Some n =>
      if negb (NamesValid GroupName Name) ||
         (negb (Scope =? CdiagUserScope) && negb (Scope =? CdiagGlobalScope))
      then ret E_INVALIDARG
      else k Store g n
  | _, _, _ => ret E_INVALIDARG
  end.

(* src/cdiag/cdiag/regconfigstore.c:714-740 (CdiagsWriteDwordSetting) *)
Definition CdiagsWriteDwordSetting (This : Z) (GroupName Name : option (list Z)) (Scope Value : Z) : M Z :=
  Writing This GroupName Name Scope (fun Store g n =>
    os (CdiagsWriteSettingInSingleScope Store g n Scope REG_DWORD 4 (bytes_of 4 Value))).

(** [StringCchLength( psz, cchMax, .. )]: the length or an error; [None] when it reads
    behind the memory at [psz]. *)
Fixpoint StringCchLength (psz : list Z) (cchMax : Z) : option (Z + nat) :=
  if cchMax <=? 0 then Some (inl STRSAFE_E_INVALID_PARAMETER)
  else
    match psz with
    | [] => None
    | c :: psz =>
        if c =? 0 then Some (inr 0%nat)
        else match StringCchLength psz (cchMax - 1) with Some (inr n) => Some (inr (S n)) | r => r end
    end.

(** The bytes of characters. *)
Definition WcharBytes (l : list Z) : list Z := mjoin (bytes_of 2 <$> l).

(** [Value] is the memory from the pointer on; [None] for NULL. *)
(* src/cdiag/cdiag/regconfigstore.c:742-777 (CdiagsWriteStringSetting) *)
Definition CdiagsWriteStringSetting (This : Z) (GroupName Name : option (list Z)) (Scope : Z)
    (Value : option (list Z)) : M Z :=
  Writing This GroupName Name Scope (fun Store g n =>
    match Value with
    | None => ret E_INVALIDARG
    | Some Value =>
        match StringCchLength Value MAX_REG_VALUE_CCH with
        | None => fault
        | Some (inl _) => ret E_INVALIDARG
        | Some (inr stringLenCch) =>
            os (CdiagsWriteSettingInSingleScope Store g n Scope REG_SZ
                  (ULONG ((Z.of_nat stringLenCch + 1) * 2)) (WcharBytes Value))
        end
    end).

(** The loop over the strings of a multi-string: the total length.  Each round takes a
    character off the memory, so its length is enough fuel. *)
(* src/cdiag/cdiag/regconfigstore.c:802-813 (CdiagsWriteMultiStringSetting) *)
Fixpoint MultiStringLength (fuel : nat) (Substr : list Z) (TotalLenCch : Z) : option (Z + Z) :=
  match fuel with
  | O => None
  | S fuel =>
      match StringCchLength Substr MAX_REG_VALUE_CCH with
      | None => None
      | Some (inl e) => Some (inl e)
      | Some (inr ElementLenCch) =>
          let TotalLenCch := SIZE_T (TotalLenCch + Z.of_nat ElementLenCch + 1) in
          if (0 <? ElementLenCch)%nat then MultiStringLength fuel (drop (ElementLenCch + 1) Substr) TotalLenCch
          else Some (inr TotalLenCch)
      end
  end.

(* src/cdiag/cdiag/regconfigstore.c:779-823 (CdiagsWriteMultiStringSetting) *)
Definition CdiagsWriteMultiStringSetting (This : Z) (GroupName Name : option (list Z)) (Scope : Z)
    (Value : option (list Z)) : M Z :=
  Writing This GroupName Name Scope (fun Store g n =>
    match Value with
    | None => ret E_INVALIDARG
    | Some Value =>
        match MultiStringLength (length Value + 1) Value 0 with
        | None => fault
        | Some (inl _) => ret E_INVALIDARG
        | Some (inr TotalLenCch) =>
            os (CdiagsWriteSettingInSingleScope Store g n Scope REG_MULTI_SZ
                  (ULONG (TotalLenCch * 2)) (WcharBytes Value))
        end
    end).

(* src/cdiag/cdiag/regconfigstore.c:825-847 (CdiagsDeleteSetting) *)
Definition CdiagsDeleteSetting (This : Z) (GroupName Name : option (list Z)) (Scope : Z) : M Z :=
  Writing This GroupName Name Scope (fun Store g n => os (CdiagsDeleteSettingInSingleScope Store g n Scope)).

(** ** Notifications *)
Definition with_event (s : STORE) (e : Z) : STORE :=
  MkStore (Initialised s) (Key s) (KeyAccessMask s) (Lock s) e (WaitHandle s) (Function_ s) (Context_ s).
Definition with_wait (s : STORE) (h : Z) : STORE :=
  MkStore (Initialised s) (Key s) (KeyAccessMask s) (Lock s) (Event s) h (Function_ s) (Context_ s).
Definition with_callback (s : STORE) (f c : Z) : STORE :=
  MkStore (Initialised s) (Key s) (KeyAccessMask s) (Lock s) (Event s) (WaitHandle s) f c.

(* src/cdiag/cdiag/regconfigstore.c:425-485 (CdiagsCreateNotificationEventAndRegisterCallback) *)
Definition CdiagsCreateNotificationEventAndRegisterCallback (This Callback CallbackContext : Z) : M Z :=
  s <- load_store This ;;
  e <- os CreateEvent ;;
  match e with
  | inl Err =>
      save_store This (with_event s 0) ;;;
      when_ (negb (WaitHandle s =? 0)) (b <- os (UnregisterWait (WaitHandle s)) ;; assert_ b ;;;
        save_store This (with_wait (with_event s 0) 0)) ;;;
      ret (HRESULT_FROM_WIN32 Err)
  | inr h =>
      let s := with_event s h in
      save_store This s ;;;
      r <- os (RegisterWaitForSingleObject h Callback CallbackContext) ;;
      match r with
      | inr wh => save_store This (with_wait s wh) ;;; ret S_OK
      | inl Err =>
          when_ (negb (WaitHandle s =? 0)) (b <- os (UnregisterWait (WaitHandle s)) ;; assert_ b ;;;
            save_store This (with_wait s 0)) ;;;
          c <- os (CloseHandle h) ;;
          assert_ (c =? 0) ;;;
          ret (HRESULT_FROM_WIN32 Err)
      end
  end.

(* src/cdiag/cdiag/regconfigstore.c:487-547 (CdiagsRegisterKeyChangeNotification) *)
Definition CdiagsRegisterKeyChangeNotification (This Key Callback CallbackContext : Z) : M Z :=
  s <- load_store This ;;
  if negb (Event s =? 0) && negb (WaitHandle s =? 0) then ret S_OK
  else
    Hr <- (if Event s =? 0 then CdiagsCreateNotificationEventAndRegisterCallback This Callback CallbackContext
           else ret S_OK) ;;
    if FAILED Hr then ret Hr
    else
      s <- load_store This ;;
      Res <- os (RegNotifyChangeKeyValue Key (Event s)) ;;
      ret (if negb (Res =? 0) then HRESULT_FROM_WIN32 Res else S_OK).

(** The loop over the keys. *)
(* src/cdiag/cdiag/regconfigstore.c:575-589 (CdiagsKeyChangeNotificationCallback) *)
Fixpoint WatchKeys (Event : Z) (Keys : list Z) : M unit :=
  match Keys with
  | [] => ret tt
  | k :: Keys =>
      when_ (negb (k =? 0)) (e <- os (RegNotifyChangeKeyValue k Event) ;; assert_ (e =? 0)) ;;;
      WatchKeys Event Keys
  end.

(* src/cdiag/cdiag/regconfigstore.c:549-590 (CdiagsKeyChangeNotificationCallback) *)
Definition CdiagsKeyChangeNotificationCallback (Context : Z) (TimedOut : bool) : M unit :=
  s <- load_store Context ;;
  assert_ (Lock s) ;;;
  when_ (negb (Function_ s =? 0)) (os (Invoke (Function_ s) (Context_ s))) ;;;
  s <- load_store Context ;;
  WatchKeys (Event s) (Key s).

(** The loop over the keys. *)
(* src/cdiag/cdiag/regconfigstore.c:878-896 (CdiagsRegisterUpdateCallback) *)
Fixpoint RegisterKeys (This : Z) (Keys : list Z) : M Z :=
  match Keys with
  | [] => ret S_OK
  | k :: Keys =>
      if k =? 0 then RegisterKeys This Keys
      else
        Hr <- CdiagsRegisterKeyChangeNotification This k KeyChangeCallback This ;;
        if FAILED Hr then ret Hr else RegisterKeys This Keys
  end.

(* src/cdiag/cdiag/regconfigstore.c:849-926 (CdiagsRegisterUpdateCallback) *)
Definition CdiagsRegisterUpdateCallback (This UpdateCallback UpdateCallbackContext : Z) : M Z :=
  v <- CdiagsIsValidRegStore This ;;
  match v with
  | None => ret E_INVALIDARG
  | Some Store =>
      if negb (UpdateCallbackContext =? 0) && (UpdateCallback =? 0) then ret E_INVALIDARG
      else
        assert_ (Lock Store) ;;;
        Hr <- (if negb (UpdateCallback =? 0) then
                 Hr <- RegisterKeys This (Key Store) ;;
                 if FAILED Hr then ret Hr
                 else
                   s <- load_store This ;;
                   save_store This (with_callback s UpdateCallback UpdateCallbackContext) ;;;
                   ret S_OK
               else save_store This (with_callback Store 0 0) ;;; ret S_OK) ;;
        s <- load_store This ;;
        os (ResetEvent (Event s)) ;;;
        ret Hr
  end.

(** ** Creation and deletion *)
(** The loop over the keys: the error, 0 if there is none. *)
(* src/cdiag/cdiag/regconfigstore.c:954-964 (CdiagsDeleteStore) *)
Fixpoint CloseKeys (Keys : list Z) : M Z :=
  match Keys with
  | [] => ret 0
  | k :: Keys =>
      e <- (if k =? 0 then ret 0 else os (CloseHandle k)) ;;
      if e =? 0 then CloseKeys Keys else ret e
  end.

(** The objects of an initialised store; the error, 0 if there is none. *)
(* src/cdiag/cdiag/regconfigstore.c:934-975 (CdiagsDeleteStore) *)
Definition ReleaseObjects (Store : STORE) : M Z :=
  e <- (if negb (WaitHandle Store =? 0) then os (UnregisterWaitEx (WaitHandle Store)) else ret 0) ;;
  if negb (e =? 0) then ret e
  else
    e <- CloseKeys (Key Store) ;;
    if negb (e =? 0) then ret e
    else
      e <- (if negb (Event Store =? 0) then os (CloseHandle (Event Store)) else ret 0) ;;
      if negb (e =? 0) then ret e else assert_ (Lock Store) ;;; ret 0.

(* src/cdiag/cdiag/regconfigstore.c:929-984 (CdiagsDeleteStore) *)
Definition CdiagsDeleteStore (This : Z) : M Z :=
  v <- CdiagsIsValidRegStore This ;;
  e <- match v with None => ret 0 | Some Store => ReleaseObjects Store end ;;
  if negb (e =? 0) then ret (HRESULT_FROM_WIN32 e)
  else modify (fun w => MkRW (delete This (Stores w)) (Os w)) ;;; ret S_OK.

(** The access mask of an index. *)
(* src/cdiag/cdiag/regconfigstore.c:1031-1044 (CdiagCreateRegistryStore) *)
Definition AccessMask (i : nat) (AccessMode : Z) : Z :=
  let '(Read, Write) :=
    if (i =? KEY_INDEX_FOR_SCOPE CdiagUserScope)%nat
    then (CDIAG_CFGS_ACCESS_READ_USER, CDIAG_CFGS_ACCESS_WRITE_USER)
    else (CDIAG_CFGS_ACCESS_READ_MACHINE, CDIAG_CFGS_ACCESS_WRITE_MACHINE) in
  Z.lor (if FlagOn AccessMode Read then KEY_READ else 0)
        (if FlagOn AccessMode Write then Z.lor KEY_WRITE KEY_NOTIFY else 0).

(** The loop over the keys, from an index on. *)
(* src/cdiag/cdiag/regconfigstore.c:1028-1072 (CdiagCreateRegistryStore) *)
Fixpoint OpenKeys (This : Z) (BaseKeyName : list Z) (AccessMode : Z) (Indexes : list nat) : M Z :=
  match Indexes with
  | [] => ret S_OK
  | i :: Indexes =>
      let Root := if (i =? KEY_INDEX_FOR_SCOPE CdiagUserScope)%nat then HKEY_CURRENT_USER else HKEY_LOCAL_MACHINE in
      let Mask := AccessMask i AccessMode in
      s <- load_store This ;;
      let s := MkStore (Initialised s) (Key s) (<[i := Mask]> (KeyAccessMask s)) (Lock s) (Event s) (WaitHandle s)
                 (Function_ s) (Context_ s) in
      save_store This s ;;;
      if Mask =? 0 then OpenKeys This BaseKeyName AccessMode Indexes
      else
        r <- os (RegCreateKeyEx Root BaseKeyName Mask) ;;
        match r with
        | inl Result => ret (HRESULT_FROM_WIN32 Result)
        | inr k =>
            save_store This (MkStore (Initialised s) (<[i := k]> (Key s)) (KeyAccessMask s) (Lock s) (Event s)
              (WaitHandle s) (Function_ s) (Context_ s)) ;;;
            OpenKeys This BaseKeyName AccessMode Indexes
        end
  end.

(** The result and the store; memory of the heap is zeroed. *)
(* src/cdiag/cdiag/regconfigstore.c:991-1104 (CdiagCreateRegistryStore) *)
Definition CdiagCreateRegistryStore (BaseKeyName : option (list Z)) (AccessMode : Z) (Store : bool) : M (Z * Z) :=
  match BaseKeyName with
  | None => ret (E_INVALIDARG, 0)
  | Some Name =>
      if negb (CdiagpIsStringValid BaseKeyName 1 MAX_REG_NAME_CCH false) || negb Store ||
         (AccessMode =? 0) || (CDIAG_CFGS_ACCESS_ALL <? AccessMode)
      then ret (E_INVALIDARG, 0)
      else
        st <- gets Stores ;;
        let TempStore := CdiagpMalloc st in
        if TempStore =? 0 then ret (E_OUTOFMEMORY, 0)
        else
          save_store TempStore (MkStore false [0; 0] [0; 0] false 0 0 0 0) ;;;
          Hr <- OpenKeys TempStore Name AccessMode [0%nat; 1%nat] ;;
          if FAILED Hr then CdiagsDeleteStore TempStore ;;; ret (Hr, 0)
          else
            s <- load_store TempStore ;;
            save_store TempStore (MkStore true (Key s) (KeyAccessMask s) true (Event s) (WaitHandle s)
              (Function_ s) (Context_ s)) ;;;
            ret (S_OK, TempStore)
  end.
End store.

(** ** Laws of the registry

    A key has a root and a path, its names separated by backslashes; names of keys and
    values are compared without regard to case.  A key has values: a type and data. *)
Definition PATH : Type := Z * list Z.
Definition VALUE : Type := Z * list Z.

(** The objects of the process: key handles with their key and access, events, and waits
    with their event, callback and context. *)
Record OBJECTS := MkObjects { Handles : gmap Z (PATH * Z); Events : gset Z; Waits : gmap Z (Z * Z * Z) }.

Definition add_handle (h : Z) (k : PATH * Z) (o : OBJECTS) : OBJECTS := MkObjects (<[h := k]> (Handles o)) (Events o) (Waits o).
Definition drop_handle (h : Z) (o : OBJECTS) : OBJECTS := MkObjects (delete h (Handles o)) (Events o ∖ {[h]}) (Waits o).
Definition add_event (h : Z) (o : OBJECTS) : OBJECTS := MkObjects (Handles o) (Events o ∪ {[h]}) (Waits o).
Definition add_wait (h : Z) (k : Z * Z * Z) (o : OBJECTS) : OBJECTS := MkObjects (Handles o) (Events o) (<[h := k]> (Waits o)).
Definition drop_wait (h : Z) (o : OBJECTS) : OBJECTS := MkObjects (Handles o) (Events o) (delete h (Waits o)).

(** The key of a handle; two handles are predefined. *)
Definition KeyOf (o : OBJECTS) (h : Z) : option PATH :=
  if (h =? HKEY_CURRENT_USER) || (h =? HKEY_LOCAL_MACHINE) then Some (h, []) else fst <$> Handles o !! h.

Definition Fresh (h : Z) (o : OBJECTS) : Prop :=
  h <> 0 /\ h <> HKEY_CURRENT_USER /\ h <> HKEY_LOCAL_MACHINE /\ Handles o !! h = None /\ h ∉ Events o.

(** The codes of the system. *)
Definition Win32 (e : Z) : Prop := 0 < e < 0x10000.

(** A key below a key, for a way to fold the case of names. *)
Definition Below (Fold : list Z -> list Z) (p : PATH) (n : list Z) : PATH := (fst p, snd p ++ 92 :: Fold n).

Class RegistryLaws (X : Type) {R : Registry X} := MkRegistryLaws {
  Objects : X -> OBJECTS;
  Contents : X -> gmap PATH (gmap (list Z) VALUE);
  (** keys watched, with their events *)
  Armed : X -> gset (Z * Z);
  Fold : list Z -> list Z;
  (** whether the security of a key grants access *)
  Grants : PATH -> Z -> bool;
  open_law h n a p x : KeyOf (Objects x) h = Some p -> exists r x',
    RegOpenKeyEx h n a x = Some (r, x') /\ Contents x' = Contents x /\ Armed x' = Armed x /\
    match Contents x !! Below Fold p n with
    | None => r = inl ERROR_FILE_NOT_FOUND /\ Objects x' = Objects x
    | Some _ =>
        if Grants (Below Fold p n) a
        then exists k, r = inr k /\ Fresh k (Objects x) /\ Objects x' = add_handle k (Below Fold p n, a) (Objects x)
        else exists e, r = inl e /\ Win32 e /\ e <> ERROR_FILE_NOT_FOUND /\ Objects x' = Objects x
    end;
  create_law h n a p x : KeyOf (Objects x) h = Some p -> exists r x',
    RegCreateKeyEx h n a x = Some (r, x') /\
    match r with
    | inl e => Win32 e /\ Objects x' = Objects x /\ Contents x' = Contents x /\ Armed x' = Armed x
    | inr k =>
        Fresh k (Objects x) /\ Objects x' = add_handle k (Below Fold p n, a) (Objects x) /\
        is_Some (Contents x' !! Below Fold p n) /\
        forall q, match Contents x !! q with
                  | Some m => Contents x' !! q = Some m
                  | None => Contents x' !! q = None \/ Contents x' !! q = Some ∅
                  end
    end;
  set_law h n t d q a m x : Handles (Objects x) !! h = Some (q, a) -> Contents x !! q = Some m -> exists e x',
    RegSetValueEx h n t d x = Some (e, x') /\ Objects x' = Objects x /\
    if e =? 0
    then FlagOn a KEY_SET_VALUE = true /\ Contents x' = <[q := <[Fold n := (t, d)]> m]> (Contents x)
    else Win32 e /\ Contents x' = Contents x;
  delete_law h n q a m x : Handles (Objects x) !! h = Some (q, a) -> Contents x !! q = Some m -> exists e x',
    RegDeleteValue h n x = Some (e, x') /\ Objects x' = Objects x /\
    if e =? 0
    then FlagOn a KEY_SET_VALUE = true /\ is_Some (m !! Fold n) /\ Contents x' = <[q := delete (Fold n) m]> (Contents x)
    else Win32 e /\ Contents x' = Contents x /\ (e = ERROR_FILE_NOT_FOUND -> m !! Fold n = None);
  query_law h n B q a m x : Handles (Objects x) !! h = Some (q, a) -> Contents x !! q = Some m -> exists e t B' l x',
    RegQueryValueEx h n B (lenZ B) x = Some (e, t, B', l, x') /\ Objects x' = Objects x /\ Contents x' = Contents x /\
    Armed x' = Armed x /\ length B' = length B /\
    if FlagOn a KEY_QUERY_VALUE then
      match m !! Fold n with
      | None => e = ERROR_FILE_NOT_FOUND
      | Some (ty, d) =>
          l = lenZ d /\ if lenZ d <=? lenZ B then e = 0 /\ t = ty /\ B' = d ++ drop (length d) B else e = ERROR_MORE_DATA
      end
    else e = ERROR_ACCESS_DENIED;
  close_key_law h k x : Handles (Objects x) !! h = Some k -> exists x',
    RegCloseKey h x = Some (0, x') /\ Objects x' = drop_handle h (Objects x) /\ Contents x' = Contents x;
  notify_law h ev k x : Handles (Objects x) !! h = Some k -> exists e x',
    RegNotifyChangeKeyValue h ev x = Some (e, x') /\ Objects x' = Objects x /\ Contents x' = Contents x /\
    if FlagOn (snd k) KEY_NOTIFY && bool_decide (ev ∈ Events (Objects x))
    then e = 0 /\ Armed x' = Armed x ∪ {[(h, ev)]}
    else Win32 e /\ Armed x' = Armed x;
  event_law x : exists r x', CreateEvent x = Some (r, x') /\ Contents x' = Contents x /\ Armed x' = Armed x /\
    match r with
    | inl e => Win32 e /\ Objects x' = Objects x
    | inr h => Fresh h (Objects x) /\ Objects x' = add_event h (Objects x)
    end;
  reset_law h x : exists b x', ResetEvent h x = Some (b, x') /\ Contents x' = Contents x /\ Armed x' = Armed x /\
    Objects x' = Objects x;
  wait_law ev cb c x : exists r x', RegisterWaitForSingleObject ev cb c x = Some (r, x') /\
    Contents x' = Contents x /\ Armed x' = Armed x /\
    match r with
    | inl e => Win32 e /\ Objects x' = Objects x
    | inr h => h <> 0 /\ Waits (Objects x) !! h = None /\ ev ∈ Events (Objects x) /\
               Objects x' = add_wait h (ev, cb, c) (Objects x)
    end;
  unwait_law h x : exists e x', UnregisterWaitEx h x = Some (e, x') /\ Contents x' = Contents x /\
    if e =? 0 then is_Some (Waits (Objects x) !! h) /\ Objects x' = drop_wait h (Objects x)
    else Win32 e /\ Objects x' = Objects x;
  close_event_law h x : h ∈ Events (Objects x) -> exists x',
    CloseHandle h x = Some (0, x') /\ Objects x' = drop_handle h (Objects x) /\ Contents x' = Contents x;
  close_law h x : exists e x', CloseHandle h x = Some (e, x') /\ Contents x' = Contents x /\
    if e =? 0 then Objects x' = drop_handle h (Objects x) /\ (is_Some (Handles (Objects x) !! h) \/ h ∈ Events (Objects x))
    else Win32 e /\ Objects x' = Objects x }.

(** ** What a store promises

    A setting is a value of a key.  Every call says what it does to the values of the
    registry, all of them; what a client gets is determined by them. *)
Section spec.
Context {X : Type} {R : Registry X} {Laws : RegistryLaws X}.


(** The values of the registry, by their key and name. *)
Definition VALUES : Type := PATH -> list Z -> option VALUE.
Definition Values (x : X) : VALUES := fun q n => Contents x !! q ≫= (.!! n).

Definition Same (V V' : VALUES) : Prop := forall q n, V' q n = V q n.
Definition Updated (V : VALUES) (p : PATH) (n : list Z) (v : option VALUE) (V' : VALUES) : Prop :=
  forall q m, V' q m = if decide (q = p /\ m = n) then v else V q m.

(** A store of a base key and an access mode: the keys of scopes and groups, and the
    access it has. *)
Record STORE_NAME := MkStoreName { BaseKey : list Z; Mode : Z }.

Definition ScopeKey (B : STORE_NAME) (Scope : Z) : PATH :=
  Below Fold (if Scope =? CdiagUserScope then HKEY_CURRENT_USER else HKEY_LOCAL_MACHINE, []) (BaseKey B).
Definition GroupKey (B : STORE_NAME) (Scope : Z) (g : list Z) : PATH := Below Fold (ScopeKey B Scope) g.
Definition Mask (B : STORE_NAME) (Scope : Z) : Z := AccessMask (KEY_INDEX_FOR_SCOPE Scope) (Mode B).

Definition CanWrite (B : STORE_NAME) (Scope : Z) : bool :=
  FlagOn (Mode B) (if Scope =? CdiagUserScope then CDIAG_CFGS_ACCESS_WRITE_USER else CDIAG_CFGS_ACCESS_WRITE_MACHINE).
Definition CanRead (B : STORE_NAME) (Scope : Z) (g : list Z) : bool :=
  FlagOn (Mode B) (if Scope =? CdiagUserScope then CDIAG_CFGS_ACCESS_READ_USER else CDIAG_CFGS_ACCESS_READ_MACHINE) &&
  Grants (GroupKey B Scope g) (Z.land (Mask B Scope) KEY_READ).

Definition Setting (B : STORE_NAME) (V : VALUES) (Scope : Z) (g n : list Z) : option VALUE :=
  V (GroupKey B Scope g) (Fold n).

(** A scope is one of the two or both; the value of the user wins. *)
Definition Effective (B : STORE_NAME) (V : VALUES) (Scope : Z) (g n : list Z) : option VALUE :=
  let Global := if FlagOn Scope CdiagGlobalScope then Setting B V CdiagGlobalScope g n else None in
  if FlagOn Scope CdiagUserScope then
    match Setting B V CdiagUserScope g n with Some v => Some v | None => Global end
  else Global.

(** What reading into a buffer delivers: the result, the buffer, the size. *)
Definition Delivers (v : option VALUE) (T : Z) (B : list Z) (ActualLen : bool) (Old : Z) (r : Z * list Z * Z) : Prop :=
  let '(Hr, B', Actual) := r in
  length B' = length B /\
  match v with
  | None => Hr = CDIAG_E_SETTING_NOT_FOUND /\ Actual = Old
  | Some (t, d) =>
      if lenZ d <=? lenZ B then
        if t =? T then Hr = S_OK /\ take (length d) B' = d /\ Actual = (if ActualLen then lenZ d else Old)
        else Hr = CDIAG_E_SETTING_MISMATCH /\ Actual = Old
      else Hr = CDIAG_E_BUFFER_TOO_SMALL /\ Actual = (if ActualLen then lenZ d else Old)
  end.

(** Reading: with access to every scope asked for it delivers the effective value; what
    it delivers is a value of a scope it has access to. *)
Definition Reads (B : STORE_NAME) (V : VALUES) (Scope : Z) (g n : list Z) (T : Z) (Buf : list Z) (ActualLen : bool)
    (Old : Z) (r : Z * list Z * Z) : Prop :=
  ((forall sc, (sc = CdiagGlobalScope \/ sc = CdiagUserScope) -> FlagOn Scope sc = true -> CanRead B sc g = true) ->
   Delivers (Effective B V Scope g n) T Buf ActualLen Old r) /\
  length (snd (fst r)) = length Buf /\
  (FAILED (fst (fst r)) = false -> exists sc v, FlagOn Scope sc = true /\ CanRead B sc g = true /\
     Setting B V sc g n = Some v /\ Delivers (Some v) T Buf ActualLen Old r).

(** An object that belongs to a name, in a process with some objects. *)
Record StoreOk (B : STORE_NAME) (s : STORE) (o : OBJECTS) : Prop := MkStoreOk {
  ok_init : Initialised s = true;
  ok_lock : Lock s = true;
  ok_length : length (Key s) = 2%nat /\ length (KeyAccessMask s) = 2%nat;
  ok_mask Scope : Scope = CdiagGlobalScope \/ Scope = CdiagUserScope ->
    KeyAccessMask s !!! KEY_INDEX_FOR_SCOPE Scope = Mask B Scope;
  ok_key Scope : Scope = CdiagGlobalScope \/ Scope = CdiagUserScope ->
    let k := Key s !!! KEY_INDEX_FOR_SCOPE Scope in
    if Mask B Scope =? 0 then k = 0
    else k <> 0 /\ k <> HKEY_CURRENT_USER /\ k <> HKEY_LOCAL_MACHINE /\ Handles o !! k = Some (ScopeKey B Scope, Mask B Scope) }.

(** *** Lemmas on access *)
Lemma scope_index Scope : Scope = CdiagGlobalScope \/ Scope = CdiagUserScope ->
  (KEY_INDEX_FOR_SCOPE Scope =? KEY_INDEX_FOR_SCOPE CdiagUserScope)%nat = (Scope =? CdiagUserScope).
Proof. by intros [-> | ->]. Qed.

Lemma mask_cases B Scope : Scope = CdiagGlobalScope \/ Scope = CdiagUserScope ->
  let r := FlagOn (Mode B) (if Scope =? CdiagUserScope then CDIAG_CFGS_ACCESS_READ_USER else CDIAG_CFGS_ACCESS_READ_MACHINE) in
  Mask B Scope = Z.lor (if r then KEY_READ else 0) (if CanWrite B Scope then Z.lor KEY_WRITE KEY_NOTIFY else 0).
Proof.
  intros HS r. unfold Mask, AccessMask. rewrite (scope_index Scope HS). unfold r, CanWrite. by destruct (Scope =? _).
Qed.

Lemma mask_write B Scope : Scope = CdiagGlobalScope \/ Scope = CdiagUserScope ->
  FlagOn (Z.land (Mask B Scope) KEY_WRITE) KEY_SET_VALUE = CanWrite B Scope /\
  FlagOn (Z.land (Mask B Scope) KEY_SET_VALUE) KEY_SET_VALUE = CanWrite B Scope.
Proof. intros HS. rewrite (mask_cases B Scope HS). by destruct (FlagOn (Mode B) _), (CanWrite B Scope). Qed.

Lemma mask_read B Scope g : Scope = CdiagGlobalScope \/ Scope = CdiagUserScope ->
  CanRead B Scope g =
  FlagOn (Z.land (Mask B Scope) KEY_READ) KEY_QUERY_VALUE && Grants (GroupKey B Scope g) (Z.land (Mask B Scope) KEY_READ).
Proof.
  intros HS. unfold CanRead. f_equal. rewrite (mask_cases B Scope HS).
  by destruct (FlagOn (Mode B) _), (CanWrite B Scope).
Qed.

Lemma mask_notify B Scope : Scope = CdiagGlobalScope \/ Scope = CdiagUserScope ->
  Mask B Scope <> 0 -> FlagOn (Mask B Scope) KEY_NOTIFY = true.
Proof.
  intros HS. rewrite (mask_cases B Scope HS). by destruct (FlagOn (Mode B) _), (CanWrite B Scope).
Qed.

Lemma mask_zero B Scope g : Scope = CdiagGlobalScope \/ Scope = CdiagUserScope -> Mask B Scope = 0 ->
  CanWrite B Scope = false /\ CanRead B Scope g = false.
Proof.
  intros HS E. rewrite (mask_read B Scope g HS), <- (proj1 (mask_write B Scope HS)), E. done.
Qed.

Lemma KeyOf_handle o h k : h <> HKEY_CURRENT_USER -> h <> HKEY_LOCAL_MACHINE -> Handles o !! h = Some k ->
  KeyOf o h = Some (fst k).
Proof. intros H1 H2 H. unfold KeyOf. by rewrite (proj2 (Z.eqb_neq _ _) H1), (proj2 (Z.eqb_neq _ _) H2), H. Qed.

Lemma drop_add_handle h k o : Fresh h o -> drop_handle h (add_handle h k o) = o.
Proof.
  intros (_ & _ & _ & H1 & H2). destruct o as [m e w]. unfold drop_handle, add_handle. cbn in *. f_equal.
  - by rewrite delete_insert_id.
  - apply leibniz_equiv. intros y. clear -H2. set_solver.
Qed.

Lemma Win32_failed e : Win32 e -> FAILED (HRESULT_FROM_WIN32 e) = true /\ HRESULT_FROM_WIN32 e <> CDIAG_E_SETTING_NOT_FOUND.
Proof.
  unfold Win32. intros He. split; [apply FAILED_from_win32; lia|]. unfold HRESULT_FROM_WIN32.
  rewrite (proj2 (Z.eqb_neq e 0)) by lia. cbn [orb]. destruct (Z.testbit e 31) eqn:E.
  - unfold CDIAG_E_SETTING_NOT_FOUND. lia.
  - intros H. apply (f_equal (fun z => Z.testbit z 16)) in H. rewrite Z.lor_spec in H.
    change (Z.testbit 0x80070000 16) with true in H. by rewrite orb_true_r in H.
Qed.

Lemma Same_refl V : Same V V.
Proof. done. Qed.

Lemma grown_same x x' : (forall q, match Contents x !! q with
    | Some m => Contents x' !! q = Some m
    | None => Contents x' !! q = None \/ Contents x' !! q = Some ∅
    end) -> Same (Values x) (Values x').
Proof.
  intros H q n. unfold Values. specialize (H q). destruct (Contents x !! q) as [m|]; [by rewrite H|].
  destruct H as [-> | ->]; cbn; [done|apply lookup_empty].
Qed.

Lemma contents_same x x' : Contents x' = Contents x -> Same (Values x) (Values x').
Proof. intros E q n. unfold Values. by rewrite E. Qed.

Lemma contents_updated x x' q n m v : Contents x !! q = Some m ->
  Contents x' = <[q := partial_alter (fun _ => v) n m]> (Contents x) -> Updated (Values x) q n v (Values x').
Proof.
  intros Hq E p k. unfold Values. rewrite E. destruct (decide (p = q /\ k = n)) as [[-> ->]|Hne].
  - by rewrite lookup_insert_eq; cbn; rewrite lookup_partial_alter_eq.
  - destruct (decide (p = q)) as [->|Hp]; [|by rewrite lookup_insert_ne].
    rewrite lookup_insert_eq, Hq. cbn. apply lookup_partial_alter_ne. clear -Hne. naive_solver.
Qed.
End spec.

(** ** Settings of one scope *)
Section single.
Context {X : Type} {R : Registry X} {Laws : RegistryLaws X}.
Context (B : STORE_NAME) (s : STORE) (Scope : Z) (HS : Scope = CdiagGlobalScope \/ Scope = CdiagUserScope).

Lemma closed {A} k p x : Handles (Objects x) !! k = Some p -> forall (Hr : A) o, Objects x = add_handle k p o -> Fresh k o ->
  exists x', (e <- RegCloseKey k ;; assert_ (e =? 0) ;;; ret Hr) x = Some (Hr, x') /\ Objects x' = o /\ Contents x' = Contents x.
Proof.
  intros Hk Hr o Eo HF. destruct (close_key_law k p x Hk) as (x' & E & EO & EC). exists x'.
  rewrite (bind_eq _ _ _ _ _ E). split; [done|]. split; [|done]. by rewrite EO, Eo, drop_add_handle.
Qed.

(** The key of the scope; without access there is none. *)
Lemma scope_key x : StoreOk B s (Objects x) ->
  if Key s !!! KEY_INDEX_FOR_SCOPE Scope =? 0 then Mask B Scope = 0
  else KeyOf (Objects x) (Key s !!! KEY_INDEX_FOR_SCOPE Scope) = Some (ScopeKey B Scope) /\
       KeyAccessMask s !!! KEY_INDEX_FOR_SCOPE Scope = Mask B Scope.
Proof.
  intros Ok. pose proof (ok_key _ _ _ Ok Scope HS) as Hk. cbv zeta in Hk.
  destruct (Z.eqb_spec (Mask B Scope) 0) as [E|E]; [by rewrite Hk|].
  destruct Hk as (H0 & H1 & H2 & Hh). rewrite (proj2 (Z.eqb_neq _ _) H0).
  split; [by rewrite (KeyOf_handle _ _ _ H1 H2 Hh)|]. apply (ok_mask _ _ _ Ok), HS.
Qed.

Lemma add_handle_at k p o : Handles (add_handle k p o) !! k = Some p.
Proof. cbn. apply lookup_insert_eq. Qed.

(** Writing stores the data or changes no value. *)
Lemma write_single g n T len D x : StoreOk B s (Objects x) -> exists Hr x',
  CdiagsWriteSettingInSingleScope s g n Scope T len D x = Some (Hr, x') /\ Objects x' = Objects x /\
  if FAILED Hr then Same (Values x) (Values x')
  else Hr = S_OK /\ CanWrite B Scope = true /\
    Updated (Values x) (GroupKey B Scope g) (Fold n) (Some (T, take (Z.to_nat len) D)) (Values x').
Proof.
  intros Ok. unfold CdiagsWriteSettingInSingleScope. cbv zeta. pose proof (scope_key x Ok) as Hk.
  destruct (_ =? 0); [by exists E_ACCESSDENIED, x|]. destruct Hk as [Hk ->].
  destruct (create_law _ g (Z.land (Mask B Scope) KEY_WRITE) _ x Hk) as (r & x1 & E1 & H1).
  rewrite (bind_eq _ _ _ _ _ E1). destruct r as [e|k].
  { destruct H1 as (He & EO & EC & _). exists (HRESULT_FROM_WIN32 e), x1.
    rewrite (proj1 (Win32_failed e He)). split_and!; [done|done|by apply contents_same]. }
  destruct H1 as (HF & EO & [m Hm] & Hgrown). fold (GroupKey B Scope g) in *.
  assert (Handles (Objects x1) !! k = Some (GroupKey B Scope g, Z.land (Mask B Scope) KEY_WRITE)) as Hh
    by (rewrite EO; apply add_handle_at).
  destruct (set_law k n T (take (Z.to_nat len) D) _ _ _ x1 Hh Hm) as (e & x2 & E2 & EO2 & H2).
  rewrite (bind_eq _ _ _ _ _ E2). rewrite <- EO2 in Hh. cbv zeta.
  destruct (closed k _ x2 Hh (if negb (e =? 0) then HRESULT_FROM_WIN32 e else S_OK) (Objects x)) as (x3 & E3 & EO3 & EC3);
    [by rewrite EO2|done|]. eexists _, x3. split; [exact E3|]. split; [done|].
  pose proof (grown_same _ _ Hgrown) as HG. destruct (e =? 0).
  - destruct H2 as [HA H2]. change (FAILED S_OK) with false. cbn [negb]. split; [done|].
    split; [by rewrite <- (proj1 (mask_write B Scope HS))|].
    assert (Updated (Values x1) (GroupKey B Scope g) (Fold n) (Some (T, take (Z.to_nat len) D)) (Values x3)) as HU.
    { apply (contents_updated _ _ _ _ m); [done|]. by rewrite EC3, H2. }
    intros q k'. rewrite (HU q k'). case_decide; [done|apply HG].
  - destruct H2 as [He H2]. cbn [negb]. rewrite (proj1 (Win32_failed e He)). intros q k'.
    rewrite (contents_same x1 x3); [apply HG|congruence].
Qed.

(** Deleting removes the value; a value that is not there is not found. *)
Lemma delete_single g n x : StoreOk B s (Objects x) -> exists Hr x',
  CdiagsDeleteSettingInSingleScope s g n Scope x = Some (Hr, x') /\ Objects x' = Objects x /\
  if FAILED Hr then Same (Values x) (Values x') /\
    (Hr = CDIAG_E_SETTING_NOT_FOUND -> Setting B (Values x) Scope g n = None)
  else Hr = S_OK /\ CanWrite B Scope = true /\ is_Some (Setting B (Values x) Scope g n) /\
    Updated (Values x) (GroupKey B Scope g) (Fold n) None (Values x').
Proof.
  intros Ok. unfold CdiagsDeleteSettingInSingleScope. cbv zeta. pose proof (scope_key x Ok) as Hk.
  destruct (_ =? 0); [by exists E_ACCESSDENIED, x|]. destruct Hk as [Hk ->].
  destruct (open_law _ g (Z.land (Mask B Scope) KEY_SET_VALUE) _ x Hk) as (r & x1 & E1 & EC & _ & H1).
  rewrite (bind_eq _ _ _ _ _ E1). fold (GroupKey B Scope g) in *. unfold Setting. change (Values x (GroupKey B Scope g) (Fold n)) with (Contents x !! GroupKey B Scope g ≫= (.!! Fold n)).
  destruct (Contents x !! GroupKey B Scope g) as [m|] eqn:Hm; cbn [mbind option_bind].
  2: { destruct H1 as [-> EO]. exists CDIAG_E_SETTING_NOT_FOUND, x1. split; [done|]. split; [done|].
       change (FAILED CDIAG_E_SETTING_NOT_FOUND) with true. split; [by apply contents_same|done]. }
  destruct (Grants _ _).
  2: { destruct H1 as (e & -> & He & Hne & EO). exists (HRESULT_FROM_WIN32 e), x1.
       rewrite (proj2 (Z.eqb_neq ERROR_FILE_NOT_FOUND e)) by congruence. destruct (Win32_failed e He) as [-> HN].
       split; [done|]. split; [done|]. split; [by apply contents_same|done]. }
  destruct H1 as (k & -> & HF & EO). rewrite <- EC in Hm.
  assert (Handles (Objects x1) !! k = Some (GroupKey B Scope g, Z.land (Mask B Scope) KEY_SET_VALUE)) as Hh
    by (rewrite EO; apply add_handle_at).
  destruct (delete_law k n _ _ _ x1 Hh Hm) as (e & x2 & E2 & EO2 & H2).
  rewrite (bind_eq _ _ _ _ _ E2). rewrite <- EO2 in Hh.
  set (Hr := if ERROR_FILE_NOT_FOUND =? e then CDIAG_E_SETTING_NOT_FOUND else
    if negb (e =? 0) then HRESULT_FROM_WIN32 e else S_OK). cbv zeta.
  destruct (closed k _ x2 Hh Hr (Objects x)) as (x3 & E3 & EO3 & EC3); [by rewrite EO2|done|].
  exists Hr, x3. split; [exact E3|]. split; [done|]. unfold Hr. pose proof (contents_same x x1 EC) as HG.
  destruct (Z.eqb_spec e 0) as [->|He0].
  - change (FAILED _) with false. destruct H2 as (HA & Hsome & H2). split; [done|].
    split; [by rewrite <- (proj2 (mask_write B Scope HS))|]. split; [done|].
    assert (Updated (Values x1) (GroupKey B Scope g) (Fold n) None (Values x3)) as HU.
    { apply (contents_updated _ _ _ _ m); [done|]. by rewrite EC3, H2. }
    intros q k'. rewrite (HU q k'). case_decide; [done|apply HG].
  - destruct H2 as (HA & H2 & HN). assert (Same (Values x) (Values x3)) as HSame by (apply contents_same; congruence).
    destruct (Z.eqb_spec ERROR_FILE_NOT_FOUND e) as [<-|Hne]; cbn [negb].
    + change (FAILED _) with true. split; [done|]. intros _. by apply HN.
    + destruct (Win32_failed e HA) as [-> Hnf]. split; [done|]. done.
Qed.

(** Reading never changes a value. *)
Lemma read_single g n T Buf AL Old x : StoreOk B s (Objects x) -> exists r x',
  CdiagsReadSettingInSingleScope s g n Scope T (lenZ Buf) Buf AL Old x = Some (r, x') /\ Objects x' = Objects x /\
  Contents x' = Contents x /\
  if CanRead B Scope g then Delivers (Setting B (Values x) Scope g n) T Buf AL Old r
  else FAILED (fst (fst r)) = true /\ length (snd (fst r)) = length Buf /\
    (fst (fst r) = CDIAG_E_SETTING_NOT_FOUND -> snd r = Old).
Proof.
  intros Ok. unfold CdiagsReadSettingInSingleScope. cbv zeta. pose proof (scope_key x Ok) as Hk.
  destruct (_ =? 0).
  { exists (E_ACCESSDENIED, Buf, Old), x. destruct (mask_zero B Scope g HS Hk) as [_ ->]. done. }
  destruct Hk as [Hk ->]. rewrite (mask_read B Scope g HS).
  destruct (open_law _ g (Z.land (Mask B Scope) KEY_READ) _ x Hk) as (r & x1 & E1 & EC & _ & H1).
  rewrite (bind_eq _ _ _ _ _ E1). fold (GroupKey B Scope g) in *. unfold Setting. change (Values x (GroupKey B Scope g) (Fold n)) with (Contents x !! GroupKey B Scope g ≫= (.!! Fold n)).
  destruct (Contents x !! GroupKey B Scope g) as [m|] eqn:Hm; cbn [mbind option_bind].
  2: { destruct H1 as [-> EO]. exists (CDIAG_E_SETTING_NOT_FOUND, Buf, Old), x1. split_and!; [done..|].
       by destruct (_ && _). }
  destruct (Grants _ _).
  2: { destruct H1 as (e & -> & He & Hne & EO). exists (HRESULT_FROM_WIN32 e, Buf, Old), x1.
       rewrite (proj2 (Z.eqb_neq ERROR_FILE_NOT_FOUND e)) by congruence. rewrite andb_false_r.
       destruct (Win32_failed e He) as [HF HN]. done. }
  destruct H1 as (k & -> & HF & EO). rewrite <- EC in Hm. rewrite andb_true_r.
  assert (Handles (Objects x1) !! k = Some (GroupKey B Scope g, Z.land (Mask B Scope) KEY_READ)) as Hh
    by (rewrite EO; apply add_handle_at).
  destruct (query_law k n Buf _ _ _ x1 Hh Hm) as (e & t & B' & l & x2 & E2 & EO2 & EC2 & _ & HL & H2).
  rewrite (bind_eq _ _ _ _ _ E2). rewrite <- EO2 in Hh. cbv beta iota.
  destruct (if ERROR_FILE_NOT_FOUND =? e then _ else _) as [Hr Act] eqn:Ec.
  destruct (closed k _ x2 Hh (Hr, B', Act) (Objects x)) as (x3 & E3 & EO3 & EC3); [by rewrite EO2|done|].
  exists (Hr, B', Act), x3. split_and!; [done|done|congruence|].
  destruct (FlagOn _ KEY_QUERY_VALUE).
  2: { subst e. injection Ec as <- <-. done. }
  destruct (m !! Fold n) as [[ty d]|]; cbn [Delivers].
  2: { subst e. by injection Ec as <- <-. }
  destruct H2 as [-> H2]. split; [done|]. destruct (lenZ d <=? lenZ Buf).
  - destruct H2 as (-> & -> & ->). cbn in Ec. destruct (ty =? T); injection Ec as <- <-; split; try done.
    split; [|done]. by rewrite take_app_length.
  - subst e. by injection Ec as <- <-.
Qed.
End single.

(** Reading from a scope, or from both. *)
Section effective.
Context {X : Type} {R : Registry X} {Laws : RegistryLaws X}.
Context (B : STORE_NAME) (s : STORE).

Lemma Delivers_retry v T Buf Buf' AL Old r : length Buf' = length Buf ->
  Delivers v T Buf' AL Old r -> Delivers v T Buf AL Old r.
Proof. intros HL. destruct r as [[Hr B'] Act]. cbn. unfold lenZ. by rewrite HL. Qed.

Lemma Delivers_failed v T Buf AL Old r : Delivers v T Buf AL Old r -> FAILED (fst (fst r)) = false -> fst (fst r) = S_OK.
Proof.
  destruct r as [[Hr B'] Act]. cbn [Delivers fst snd]. intros [_ H] HF. destruct v as [[t d]|]; [|by destruct H as [-> _]].
  destruct (lenZ d <=? _); [destruct (t =? T)|]; by destruct H as [-> _].
Qed.

Lemma Delivers_not_found v T Buf AL Old r : Delivers v T Buf AL Old r ->
  fst (fst r) = CDIAG_E_SETTING_NOT_FOUND -> v = None /\ snd r = Old.
Proof.
  destruct r as [[Hr B'] Act]. cbn [Delivers fst snd]. intros [_ H] ->. destruct v as [[t d]|]; [|by destruct H].
  destruct (lenZ d <=? _); [destruct (t =? T)|]; by destruct H.
Qed.

(** What is left when the user has no such setting. *)
Definition Global g n Scope T Buf AL Buffer Actual : ST X (Z * list Z * Z) :=
  if FlagOn Scope CdiagGlobalScope
  then CdiagsReadSettingInSingleScope s g n CdiagGlobalScope T (lenZ (A := Z) Buf) Buffer AL Actual
  else ret (CDIAG_E_SETTING_NOT_FOUND, Buffer, Actual).

Lemma global_spec g n Scope T Buf AL Old x Buf' x1 : StoreOk B s (Objects x) -> length Buf' = length Buf ->
  Objects x1 = Objects x -> Contents x1 = Contents x ->
  (FlagOn Scope CdiagUserScope = true -> CanRead B CdiagUserScope g = true -> Setting B (Values x) CdiagUserScope g n = None) ->
  exists r x', Global g n Scope T Buf AL Buf' Old x1 = Some (r, x') /\ Objects x' = Objects x /\ Contents x' = Contents x /\
    Reads B (Values x) Scope g n T Buf AL Old r.
Proof.
  intros Ok HL EO EC Hu. unfold Global. destruct (FlagOn Scope CdiagGlobalScope) eqn:HF.
  - assert (StoreOk B s (Objects x1)) as Ok1 by congruence.
    destruct (read_single B s CdiagGlobalScope (or_introl eq_refl) g n T Buf' AL Old x1 Ok1) as (r & x2 & E & EO2 & EC2 & H).
    assert (lenZ Buf = lenZ Buf') as -> by (unfold lenZ; lia). exists r, x2.
    split_and!; [done|congruence..|].
    assert (Values x1 = Values x) as EV by (unfold Values; by rewrite EC). rewrite EV in H.
    destruct (CanRead B CdiagGlobalScope g) eqn:HR.
    + apply (Delivers_retry _ _ Buf) in H; [|done]. split; [|split].
      * intros Hall. unfold Effective. rewrite HF.
        destruct (FlagOn Scope CdiagUserScope) eqn:HU; [|done].
        rewrite Hu; [done|done|]. apply Hall; [by right|done].
      * destruct r as [[Hr B'] Act]. by destruct H.
      * intros Hok. destruct (Setting B (Values x) CdiagGlobalScope g n) as [v|] eqn:Ev; [by exists CdiagGlobalScope, v|].
        destruct r as [[Hr B'] Act]. cbn [Delivers fst snd] in H, Hok. destruct H as (_ & -> & _). done.
    + destruct H as (Hf & Hl & _). split; [|split; [congruence|by rewrite Hf]].
      intros Hall. rewrite (Hall CdiagGlobalScope) in HR; [done|by left|done].
  - exists (CDIAG_E_SETTING_NOT_FOUND, Buf', Old), x1. split_and!; [done..|]. split; [|done]. intros Hall.
    unfold Effective. rewrite HF. destruct (FlagOn Scope CdiagUserScope) eqn:HU; [|done].
    rewrite Hu; [done|done|]. apply Hall; [by right|done].
Qed.

Lemma read_spec g n Scope T Buf AL Old x : StoreOk B s (Objects x) -> exists r x',
  CdiagsReadSetting s g n Scope T (lenZ Buf) Buf AL Old x = Some (r, x') /\ Objects x' = Objects x /\
  Contents x' = Contents x /\ Reads B (Values x) Scope g n T Buf AL Old r.
Proof.
  intros Ok. unfold CdiagsReadSetting. cbv zeta.
  change (exists r x', (if FlagOn Scope CdiagUserScope then
    r <- CdiagsReadSettingInSingleScope s g n CdiagUserScope T (lenZ Buf) Buf AL Old ;;
    let '(Hr, Buffer, Actual) := r in
    if SUCCEEDED Hr then ret (S_OK, Buffer, Actual)
    else if CDIAG_E_SETTING_NOT_FOUND =? Hr then Global g n Scope T Buf AL Buffer Actual else ret (Hr, Buffer, Actual)
    else Global g n Scope T Buf AL Buf Old) x = Some (r, x') /\ Objects x' = Objects x /\
    Contents x' = Contents x /\ Reads B (Values x) Scope g n T Buf AL Old r).
  destruct (FlagOn Scope CdiagUserScope) eqn:HU; [|apply global_spec; [done..|by rewrite HU]].
  destruct (read_single B s CdiagUserScope (or_intror eq_refl) g n T Buf AL Old x Ok) as (r & x1 & E & EO & EC & H).
  rewrite (bind_eq _ _ _ _ _ E). destruct r as [[Hr B'] Act]. cbn [fst snd] in H.
  assert (length B' = length Buf) as HL by (destruct (CanRead _ _ _); [by destruct H|by destruct H as (_ & ? & _)]).
  unfold SUCCEEDED. destruct (FAILED Hr) eqn:HF; cbn [negb].
  - destruct (Z.eqb_spec CDIAG_E_SETTING_NOT_FOUND Hr) as [<-|Hne].
    + assert (Act = Old) as ->. { destruct (CanRead _ _ _); [by destruct (Delivers_not_found _ _ _ _ _ _ H eq_refl)|by apply H]. }
      apply global_spec; [done..|]. intros _ HR. rewrite HR in H. by destruct (Delivers_not_found _ _ _ _ _ _ H eq_refl).
    + exists (Hr, B', Act), x1. split_and!; [done..|]. split; [|split; [done|cbn [fst]; by rewrite HF]].
      intros Hall. rewrite (Hall CdiagUserScope (or_intror eq_refl) HU) in H. unfold Effective. rewrite HU.
      destruct (Setting B (Values x) CdiagUserScope g n); [done|]. destruct H as (_ & -> & _). done.
  - destruct (CanRead B CdiagUserScope g) eqn:HR; [|by destruct H].
    pose proof (Delivers_failed _ _ _ _ _ _ H HF) as E0. cbn in E0. subst Hr.
    exists (S_OK, B', Act), x1. split_and!; [done..|].
    destruct (Setting B (Values x) CdiagUserScope g n) as [v|] eqn:Ev; [|by destruct H as (_ & ? & _)].
    split; [|split; [done|intros _; by exists CdiagUserScope, v]].
    intros _. unfold Effective. by rewrite HU, Ev.
Qed.
End effective.

(** ** Calls of clients *)
Inductive CALL :=
  | ReadDword (GroupName Name : option (list Z)) (Scope : Z)
  | ReadText (Multi : bool) (GroupName Name : option (list Z)) (Scope : Z) (Buffer : list Z)
  | WriteDword (GroupName Name : option (list Z)) (Scope Value : Z)
  | WriteText (Multi : bool) (GroupName Name : option (list Z)) (Scope : Z) (Value : list Z)
  | DeleteValue (GroupName Name : option (list Z)) (Scope : Z).

Inductive RESULT :=
  | Done (Hr : Z)
  | DwordRead (Hr Value : Z)
  | TextRead (Hr : Z) (Buffer : list Z) (ActualSize : Z).

(** What is stored for the memory at a string: the bytes up to its end. *)
Definition TextLength (Multi : bool) (Value : list Z) : option (Z + Z) :=
  if Multi then MultiStringLength (length Value + 1) Value 0
  else match StringCchLength Value MAX_REG_VALUE_CCH with
       | Some (inr n) => Some (inr (Z.of_nat n + 1))
       | Some (inl e) => Some (inl e)
       | None => None
       end.
Definition TextType (Multi : bool) : Z := if Multi then REG_MULTI_SZ else REG_SZ.
Definition Stored (Len : Z) (Value : list Z) : list Z := take (Z.to_nat (ULONG (Len * 2))) (WcharBytes Value).

(** Callers pass strings that have an end, and whole characters. *)
Definition Proper (c : CALL) : Prop :=
  match c with
  | ReadText _ _ _ _ Buffer => exists n, length Buffer = (2 * n)%nat
  | WriteText m _ _ _ Value => TextLength m Value <> None
  | _ => True
  end.

Section calls.
Context {X : Type} {R : Registry X} {Laws : RegistryLaws X}.

Definition exec (This : Z) (c : CALL) : ST (RW X) RESULT :=
  match c with
  | ReadDword g n s => r <- CdiagsReadDwordSetting This g n s true 0 ;; ret (DwordRead (fst r) (snd r))
  | ReadText m g n s Buffer =>
      r <- (if m then CdiagsReadMultiStringSetting else CdiagsReadStringSetting)
             This g n s (lenZ Buffer / 2) (Some Buffer) true 0 ;;
      ret (TextRead (fst (fst r)) (default [] (snd (fst r))) (snd r))
  | WriteDword g n s v => Hr <- CdiagsWriteDwordSetting This g n s v ;; ret (Done Hr)
  | WriteText m g n s Value =>
      Hr <- (if m then CdiagsWriteMultiStringSetting else CdiagsWriteStringSetting) This g n s (Some Value) ;; ret (Done Hr)
  | DeleteValue g n s => Hr <- CdiagsDeleteSetting This g n s ;; ret (Done Hr)
  end.

Fixpoint exec_all (This : Z) (cs : list CALL) : ST (RW X) (list RESULT) :=
  match cs with [] => ret [] | c :: cs => r <- exec This c ;; rs <- exec_all This cs ;; ret (r :: rs) end.

(** With valid names, and something else that has to hold. *)
Definition Given (g n : option (list Z)) (ok : bool) (Bad : Prop) (P : list Z -> list Z -> Prop) : Prop :=
  match g, n with
  | Some g', Some n' => if NamesValid g n && ok then P g' n' else Bad
  | _, _ => Bad
  end.

Definition Single (Scope : Z) : bool := (Scope =? CdiagUserScope) || (Scope =? CdiagGlobalScope).

(** What a call does, in terms of the values of the registry. *)
Definition Behaves (B : STORE_NAME) (V : VALUES) (c : CALL) (r : RESULT) (V' : VALUES) : Prop :=
  let Invalid := r = Done E_INVALIDARG /\ Same V V' in
  match c with
  | ReadDword g n s => Same V V' /\
      Given g n (CdiagsIsValidScope s) (r = DwordRead E_INVALIDARG 0) (fun g n => exists Hr Data a,
        Reads B V s g n REG_DWORD (bytes_of 4 0) false 0 (Hr, Data, a) /\
        r = if CDIAG_E_BUFFER_TOO_SMALL =? Hr then DwordRead CDIAG_E_SETTING_MISMATCH 0
            else if FAILED Hr then DwordRead Hr 0 else DwordRead S_OK (of_bytes Data))
  | ReadText m g n s Buffer => Same V V' /\
      Given g n (CdiagsIsValidScope s && (0 <? lenZ Buffer) && (lenZ Buffer <=? MAX_REG_VALUE_CCH * 2))
        (r = TextRead E_INVALIDARG Buffer 0) (fun g n => exists Hr Data a,
        Reads B V s g n (TextType m) Buffer true 0 (Hr, Data, a) /\ r = TextRead Hr Data a)
  | WriteDword g n s v =>
      Given g n (Single s) Invalid (fun g n => exists Hr, r = Done Hr /\
        if FAILED Hr then Same V V'
        else Hr = S_OK /\ CanWrite B s = true /\
             Updated V (GroupKey B s g) (Fold n) (Some (REG_DWORD, bytes_of 4 v)) V')
  | WriteText m g n s Value =>
      Given g n (Single s) Invalid (fun g n =>
        match TextLength m Value with
        | Some (inr Len) => exists Hr, r = Done Hr /\
            if FAILED Hr then Same V V'
            else Hr = S_OK /\ CanWrite B s = true /\
                 Updated V (GroupKey B s g) (Fold n) (Some (TextType m, Stored Len Value)) V'
        | _ => Invalid
        end)
  | DeleteValue g n s =>
      Given g n (Single s) Invalid (fun g n => exists Hr, r = Done Hr /\
        if FAILED Hr then Same V V' /\ (Hr = CDIAG_E_SETTING_NOT_FOUND -> Setting B V s g n = None)
        else Hr = S_OK /\ CanWrite B s = true /\ is_Some (Setting B V s g n) /\
             Updated V (GroupKey B s g) (Fold n) None V')
  end.

Inductive BehavesAll (B : STORE_NAME) : VALUES -> list CALL -> list RESULT -> VALUES -> Prop :=
  | BehavesNil V : BehavesAll B V [] [] V
  | BehavesCons V c r V1 cs rs V' : Behaves B V c r V1 -> BehavesAll B V1 cs rs V' -> BehavesAll B V (c :: cs) (r :: rs) V'.

(** A store that is there, under its address. *)
Definition Serves (B : STORE_NAME) (This : Z) (w : RW X) : Prop :=
  This <> 0 /\ exists s, Stores w !! This = Some s /\ StoreOk B s (Objects (Os w)).

Lemma valid_store B This w : Serves B This w -> exists s, StoreOk B s (Objects (Os w)) /\
  CdiagsIsValidRegStore This w = Some (Some s, w).
Proof.
  intros [H0 (s & Hs & Ok)]. exists s. split; [done|]. unfold CdiagsIsValidRegStore, bind, load_store.
  by rewrite (proj2 (Z.eqb_neq _ _) H0), Hs, (ok_init _ _ _ Ok).
Qed.

(** The store stays, and what the process has. *)
Definition Stays (w w' : RW X) : Prop := Stores w' = Stores w /\ Objects (Os w') = Objects (Os w).

Lemma Serves_stays B This w w' : Serves B This w -> Stays w w' -> Serves B This w'.
Proof. intros [H0 (s & Hs & Ok)] [E1 E2]. split; [done|]. exists s. split; congruence. Qed.

Lemma bind_os {A C} (m : ST X A) (k : A -> ST (RW X) C) w a x :
  m (Os w) = Some (a, x) -> bind (os m) k w = k a (MkRW (Stores w) x).
Proof. intros E. unfold bind, os. by rewrite E. Qed.

Lemma Writing_spec B This w g n s k : Serves B This w ->
  match g, n with
  | Some g', Some n' => if NamesValid g n && Single s
      then exists st, StoreOk B st (Objects (Os w)) /\ Writing This g n s k w = k st g' n' w
      else Writing This g n s k w = Some (E_INVALIDARG, w)
  | _, _ => Writing This g n s k w = Some (E_INVALIDARG, w)
  end.
Proof.
  intros HV. destruct (valid_store _ _ _ HV) as (st & Ok & E). unfold Writing, Single. rewrite (bind_eq _ _ _ _ _ E).
  destruct g as [g|]; [|done]. destruct n as [n|]; [|done].
  destruct (NamesValid _ _), (s =? CdiagUserScope), (s =? CdiagGlobalScope); cbn; by eauto.
Qed.

Lemma Single_scope s : Single s = true -> s = CdiagGlobalScope \/ s = CdiagUserScope.
Proof. unfold Single. intros [H|H]%orb_prop; apply Z.eqb_eq in H; auto. Qed.

(** A method that writes under the guards behaves as what it writes. *)
Lemma written B This w g n s T len D : Serves B This w ->
  let m := Writing This g n s (fun st g n => os (CdiagsWriteSettingInSingleScope st g n s T len D)) in
  exists Hr w', m w = Some (Hr, w') /\ Stays w w' /\
    Given g n (Single s) (Hr = E_INVALIDARG /\ Same (Values (Os w)) (Values (Os w'))) (fun g n =>
      if FAILED Hr then Same (Values (Os w)) (Values (Os w'))
      else Hr = S_OK /\ CanWrite B s = true /\
           Updated (Values (Os w)) (GroupKey B s g) (Fold n) (Some (T, take (Z.to_nat len) D)) (Values (Os w'))).
Proof.
  intros HV m. pose proof (Writing_spec B This w g n s
    (fun st g n => os (CdiagsWriteSettingInSingleScope st g n s T len D)) HV) as HW. unfold Given. fold m in HW.
  destruct g as [g|], n as [n|]; try by exists E_INVALIDARG, w.
  destruct (_ && _) eqn:EA; [|by exists E_INVALIDARG, w]. apply andb_true_iff in EA as [_ HS].
  destruct HW as (st & Ok & ->).
  destruct (write_single B st s (Single_scope _ HS) g n T len D (Os w) Ok) as (Hr & x & E & EO & H).
  exists Hr, (MkRW (Stores w) x). unfold os. by rewrite E.
Qed.

Lemma text_method (m : bool) This g n s Value :
  (if m then CdiagsWriteMultiStringSetting else CdiagsWriteStringSetting) This g n s (Some Value) =
  Writing This g n s (fun st g n =>
    match TextLength m Value with
    | None => fault
    | Some (inl _) => ret E_INVALIDARG
    | Some (inr Len) => os (CdiagsWriteSettingInSingleScope st g n s (TextType m) (ULONG (Len * 2)) (WcharBytes Value))
    end).
Proof.
  destruct m; [done|]. unfold CdiagsWriteStringSetting, TextLength.
  by destruct (StringCchLength Value MAX_REG_VALUE_CCH) as [[|]|].
Qed.

Lemma read_dword_spec B This w g n s : Serves B This w ->
  exists r w', exec This (ReadDword g n s) w = Some (r, w') /\ Stays w w' /\
    Behaves B (Values (Os w)) (ReadDword g n s) r (Values (Os w')).
Proof.
  intros HV. destruct (valid_store _ _ _ HV) as (st & Ok & E). cbn [exec Behaves]. unfold CdiagsReadDwordSetting, Given.
  rewrite bind_assoc, (bind_eq _ _ _ _ _ E).
  destruct g as [g|], n as [n|]; try by eexists _, w.
  destruct (NamesValid _ _); [|by eexists _, w]. destruct (CdiagsIsValidScope s); [|by eexists _, w]. cbn [negb orb andb].
  destruct (read_spec B st g n s REG_DWORD (bytes_of 4 0) false 0 (Os w) Ok) as ([[Hr Data] a] & x & Er & EO & EC & H).
  change (lenZ (bytes_of 4 0)) with 4 in Er. rewrite bind_assoc, (bind_os _ _ _ _ _ Er). rewrite bind_ret.
  eexists _, _. split; [reflexivity|]. split; [done|]. split; [by apply contents_same|]. exists Hr, Data, a. split; [done|].
  destruct (_ =? Hr); [done|]. by destruct (FAILED Hr).
Qed.

Lemma read_text_spec B This w m g n s Buffer : Serves B This w -> Proper (ReadText m g n s Buffer) ->
  exists r w', exec This (ReadText m g n s Buffer) w = Some (r, w') /\ Stays w w' /\
    Behaves B (Values (Os w)) (ReadText m g n s Buffer) r (Values (Os w')).
Proof.
  intros HV [k Hk]. destruct (valid_store _ _ _ HV) as (st & Ok & E). cbn [exec Behaves].
  replace (if m then CdiagsReadMultiStringSetting else CdiagsReadStringSetting) with (ReadCharacters (TextType m))
    by by destruct m.
  unfold ReadCharacters, Given. rewrite bind_assoc, (bind_eq _ _ _ _ _ E).
  destruct g as [g|], n as [n|]; try by eexists _, w.
  destruct (NamesValid _ _); [|by eexists _, w]. destruct (CdiagsIsValidScope s); [|by eexists _, w]. cbn [negb orb andb].
  assert (lenZ Buffer = Z.of_nat k * 2) as HL by (unfold lenZ; lia). rewrite HL, Z.div_mul by lia.
  destruct (Z.eqb_spec (Z.of_nat k) 0); [by rewrite (proj2 (Z.ltb_ge 0 (Z.of_nat k * 2))) by lia; eexists _, w|].
  rewrite (proj2 (Z.ltb_lt 0 (Z.of_nat k * 2))) by lia. cbn [orb andb].
  destruct (Z.ltb_spec MAX_REG_VALUE_CCH (Z.of_nat k)) as [Hlt|Hle].
  { rewrite (proj2 (Z.leb_gt (Z.of_nat k * 2) _)) by lia. by eexists _, w. }
  rewrite (proj2 (Z.leb_le (Z.of_nat k * 2) _)) by lia.
  assert (ULONG (Z.of_nat k * 2) = lenZ Buffer) as ->.
  { rewrite HL. apply wrap_small. unfold MAX_REG_VALUE_CCH in Hle. change (1024 * 1024 / 2) with 524288 in Hle. lia. }
  destruct (read_spec B st g n s (TextType m) Buffer true 0 (Os w) Ok) as ([[Hr Data] a] & x & Er & EO & EC & H).
  rewrite bind_assoc, (bind_os _ _ _ _ _ Er), bind_ret.
  eexists _, _. split; [reflexivity|]. split; [done|]. split; [by apply contents_same|]. by exists Hr, Data, a.
Qed.

Lemma write_text_spec B This w m g n s Value : Serves B This w -> Proper (WriteText m g n s Value) ->
  exists r w', exec This (WriteText m g n s Value) w = Some (r, w') /\ Stays w w' /\
    Behaves B (Values (Os w)) (WriteText m g n s Value) r (Values (Os w')).
Proof.
  intros HV HP. cbn [exec Behaves Proper] in *. rewrite text_method. destruct (TextLength m Value) as [[e|Len]|]; [| |done].
  - pose proof (Writing_spec B This w g n s (fun _ _ _ => ret E_INVALIDARG) HV) as HW.
    exists (Done E_INVALIDARG), w. assert (Writing This g n s (fun _ _ _ => ret E_INVALIDARG) w = Some (E_INVALIDARG, w)) as E.
    { destruct g as [g|], n as [n|]; try done. destruct (_ && _); [|done]. by destruct HW as (? & _ & ->). }
    rewrite (bind_eq _ _ _ _ _ E). split; [done|]. split; [done|]. unfold Given.
    destruct g, n; try done. by destruct (_ && _).
  - destruct (written B This w g n s (TextType m) (ULONG (Len * 2)) (WcharBytes Value) HV) as (Hr & w' & E & HS & H).
    exists (Done Hr), w'. rewrite (bind_eq _ _ _ _ _ E). split; [done|]. split; [done|]. unfold Given in *.
    destruct g, n; try (destruct H as [-> ?]; done). destruct (_ && _); [|by destruct H as [-> ?]]. by exists Hr.
Qed.

(** Every call does what is promised, and nothing else. *)
Lemma exec_spec B This w c : Serves B This w -> Proper c ->
  exists r w', exec This c w = Some (r, w') /\ Stays w w' /\ Behaves B (Values (Os w)) c r (Values (Os w')).
Proof.
  intros HV HP. destruct c as [g n s|m g n s Buffer|g n s v|m g n s Value|g n s].
  - by apply read_dword_spec.
  - by apply read_text_spec.
  - destruct (written B This w g n s REG_DWORD 4 (bytes_of 4 v) HV) as (Hr & w' & E & HS & H).
    exists (Done Hr), w'. cbn [exec Behaves]. unfold CdiagsWriteDwordSetting. rewrite (bind_eq _ _ _ _ _ E).
    split; [done|]. split; [done|]. unfold Given in *.
    destruct g, n; try (destruct H as [-> ?]; done). destruct (_ && _); [|by destruct H as [-> ?]].
    exists Hr. split; [done|]. rewrite take_ge in H by (rewrite length_bytes_of; lia). done.
  - by apply write_text_spec.
  - pose proof (Writing_spec B This w g n s (fun st g n => os (CdiagsDeleteSettingInSingleScope st g n s)) HV) as HW.
    cbn [exec Behaves]. unfold Given, CdiagsDeleteSetting.
    destruct g as [g|], n as [n|]; try (rewrite (bind_eq _ _ _ _ _ HW); by eexists _, w).
    destruct (_ && _) eqn:EA; [|rewrite (bind_eq _ _ _ _ _ HW); by eexists _, w].
    apply andb_true_iff in EA as [_ HS]. destruct HW as (st & Ok & HW).
    destruct (delete_single B st s (Single_scope _ HS) g n (Os w) Ok) as (Hr & x & E & EO & H).
    assert (os (CdiagsDeleteSettingInSingleScope st g n s) w = Some (Hr, MkRW (Stores w) x)) as Eo by (unfold os; by rewrite E).
    rewrite Eo in HW. exists (Done Hr), (MkRW (Stores w) x). rewrite (bind_eq _ _ _ _ _ HW). split_and!; [done..|].
    by exists Hr.
Qed.

Lemma exec_all_spec B This cs : forall w, Serves B This w -> Forall Proper cs ->
  exists rs w', exec_all This cs w = Some (rs, w') /\ Stays w w' /\ BehavesAll B (Values (Os w)) cs rs (Values (Os w')).
Proof.
  induction cs as [|c cs IH]; intros w HV HP.
  { exists [], w. split_and!; [done..|constructor]. }
  apply Forall_cons in HP as [HP HPs]. destruct (exec_spec B This w c HV HP) as (r & w1 & E & HS & H).
  destruct (IH w1 (Serves_stays _ _ _ _ HV HS) HPs) as (rs & w2 & E2 & HS2 & H2).
  exists (r :: rs), w2. cbn [exec_all]. rewrite (bind_eq _ _ _ _ _ E), (bind_eq _ _ _ _ _ E2). split; [done|]. split.
  - destruct HS, HS2. split; congruence.
  - by econstructor.
Qed.

(** *** Which setting a call changes *)
Definition Target (c : CALL) : option (Z * option (list Z) * option (list Z)) :=
  match c with
  | WriteDword g n s _ | WriteText _ g n s _ | DeleteValue g n s => Some (s, g, n)
  | _ => None
  end.

Definition Elsewhere (Scope : Z) (g n : list Z) (c : CALL) : Prop :=
  forall s g' n', Target c = Some (s, Some g', Some n') -> ~ (s = Scope /\ Fold g' = Fold g /\ Fold n' = Fold n).

Lemma GroupKey_inj B s s' g g' : Single s = true -> Single s' = true -> GroupKey B s g = GroupKey B s' g' ->
  s = s' /\ Fold g = Fold g'.
Proof.
  intros HS HS'. unfold GroupKey, ScopeKey, Below. cbn [fst snd]. intros [= E1 E2].
  apply app_inv_head in E2. injection E2 as E2. split; [|done].
  apply Single_scope in HS as [-> | ->], HS' as [-> | ->]; done.
Qed.

Lemma updated_elsewhere B V V' s sc g g' n n' v : Updated V (GroupKey B s g') (Fold n') v V' ->
  Single s = true -> Single sc = true -> ~ (s = sc /\ Fold g' = Fold g /\ Fold n' = Fold n) ->
  Setting B V' sc g n = Setting B V sc g n.
Proof.
  intros HU HS HS' Hne. unfold Setting. rewrite (HU _ _). case_decide as HD; [|done]. destruct HD as [HD1 HD2].
  destruct Hne. apply GroupKey_inj in HD1 as [-> HD1]; done.
Qed.

Lemma kept_one B V c r V' sc g n : Single sc = true -> Elsewhere sc g n c -> Behaves B V c r V' ->
  Setting B V' sc g n = Setting B V sc g n.
Proof.
  intros HS HE HB. assert (Same V V' -> Setting B V' sc g n = Setting B V sc g n) as HSame by (intros H; apply H).
  unfold Elsewhere in HE. destruct c as [g' n' s|m g' n' s Buffer|g' n' s v|m g' n' s Value|g' n' s]; cbn [Behaves Target] in *.
  1-2: apply HSame, HB.
  all: unfold Given in HB; destruct g' as [g'|], n' as [n'|]; try (apply HSame, HB);
    destruct (_ && Single s) eqn:EA; [|apply HSame, HB]; apply andb_true_iff in EA as [_ HS'];
    specialize (HE s g' n' eq_refl).
  - destruct HB as (Hr & _ & HB). destruct (FAILED Hr); [by apply HSame|]. destruct HB as (_ & _ & HB).
    by eapply updated_elsewhere.
  - destruct (TextLength m Value) as [[e|Len]|]; [apply HSame, HB| |apply HSame, HB].
    destruct HB as (Hr & _ & HB). destruct (FAILED Hr); [by apply HSame|]. destruct HB as (_ & _ & HB).
    by eapply updated_elsewhere.
  - destruct HB as (Hr & _ & HB). destruct (FAILED Hr); [apply HSame, HB|]. destruct HB as (_ & _ & _ & HB).
    by eapply updated_elsewhere.
Qed.

Lemma kept_all B V cs rs V' sc g n : Single sc = true -> Forall (Elsewhere sc g n) cs -> BehavesAll B V cs rs V' ->
  Setting B V' sc g n = Setting B V sc g n.
Proof.
  intros HS HE H. induction H as [V|V c r V1 cs rs V' H1 _ IH]; [done|]. apply Forall_cons in HE as [HE HEs].
  rewrite (IH HEs). by eapply kept_one.
Qed.

(** *** Texts in memory *)
Lemma WcharBytes_app l1 l2 : WcharBytes (l1 ++ l2) = WcharBytes l1 ++ WcharBytes l2.
Proof. unfold WcharBytes. by rewrite fmap_app, join_app. Qed.

Lemma length_WcharBytes l : length (WcharBytes l) = (2 * length l)%nat.
Proof.
  induction l as [|c l IH]; [done|]. change (c :: l) with ([c] ++ l). rewrite WcharBytes_app, !length_app, IH.
  cbn. lia.
Qed.

Lemma StringCchLength_text text junk : forall Max, 0 ∉ text -> lenZ text < Max ->
  StringCchLength (text ++ 0 :: junk) Max = Some (inr (length text)).
Proof.
  induction text as [|c text IH]; intros Max Hn HM; cbn [app StringCchLength length]; unfold lenZ in *; cbn [length] in HM.
  - by rewrite (proj2 (Z.leb_gt Max 0)) by lia.
  - rewrite (proj2 (Z.leb_gt Max 0)) by lia. apply not_elem_of_cons in Hn as [Hc Hn].
    rewrite (proj2 (Z.eqb_neq c 0)) by done. by rewrite IH by (done || lia).
Qed.

(** The memory of a multi-string. *)
Definition Strings (strs : list (list Z)) : list Z := mjoin ((fun t => t ++ [0]) <$> strs) ++ [0].

Lemma Strings_cons t strs : Strings (t :: strs) = t ++ 0 :: Strings strs.
Proof. unfold Strings. cbn. by rewrite <- !app_assoc. Qed.

Definition PlainText (t : list Z) : Prop := (0 ∉ t) /\ lenZ t < MAX_REG_VALUE_CCH.

Lemma MultiStringLength_strings strs junk : forall fuel total,
  Forall (fun t => t <> [] /\ PlainText t) strs -> (length strs < fuel)%nat ->
  0 <= total -> total + lenZ (Strings strs) < 2 ^ 64 ->
  MultiStringLength fuel (Strings strs ++ junk) total = Some (inr (total + lenZ (Strings strs))).
Proof.
  induction strs as [|t strs IH]; intros fuel total HF Hfuel H0 HL; (destruct fuel as [|fuel]; [cbn in Hfuel; lia|]).
  - cbn [MultiStringLength Strings fmap list_fmap mjoin list_join app].
    rewrite (StringCchLength_text [] junk) by (done || (by apply not_elem_of_nil)).
    change (lenZ (Strings [])) with 1 in *. cbn [length Nat.ltb Nat.leb]. change (Z.of_nat 0) with 0.
    unfold SIZE_T. rewrite wrap_small by lia. repeat f_equal; lia.
  - apply Forall_cons in HF as [[Hne [Hn HM]] HF]. rewrite Strings_cons in *. cbn [MultiStringLength].
    rewrite <- app_assoc. cbn [app]. rewrite (StringCchLength_text t _ _ Hn HM).
    assert ((0 <? length t)%nat = true) as -> by (by destruct t).
    rewrite lenZ_app in *. unfold lenZ in *. cbn [length] in *. cbv zeta. unfold SIZE_T. rewrite wrap_small by lia.
    rewrite (drop_app_add' t) by done. cbn [drop]. rewrite IH; [do 2 f_equal; lia|done|lia|lia|lia].
Qed.

Lemma Stored_text l junk : 2 * lenZ l < 2 ^ 32 -> Stored (lenZ l) (l ++ junk) = WcharBytes l.
Proof.
  intros HL. unfold Stored. unfold ULONG. rewrite wrap_small by (unfold lenZ in *; lia). rewrite WcharBytes_app.
  apply take_app_length'. rewrite length_WcharBytes. unfold lenZ. lia.
Qed.

(** *** Reading back *)
Inductive SETTING :=
  | DwordSetting (Value : Z)
  | TextSetting (Text : list Z)
  | StringsSetting (Texts : list (list Z)).

Definition Plain (v : SETTING) : Prop :=
  match v with
  | DwordSetting Value => 0 <= Value < 2 ^ 32
  | TextSetting Text => PlainText Text
  | StringsSetting Texts => Forall (fun t => t <> [] /\ PlainText t) Texts /\ lenZ (Strings Texts) <= MAX_REG_VALUE_CCH
  end.

(** The characters, and the calls; behind a string there may be anything. *)
Definition Characters (v : SETTING) : list Z :=
  match v with DwordSetting _ => [] | TextSetting Text => Text ++ [0] | StringsSetting Texts => Strings Texts end.

Definition WriteOf (v : SETTING) (g n : list Z) (Scope : Z) (Behind : list Z) : CALL :=
  match v with
  | DwordSetting Value => WriteDword (Some g) (Some n) Scope Value
  | TextSetting _ => WriteText false (Some g) (Some n) Scope (Characters v ++ Behind)
  | StringsSetting _ => WriteText true (Some g) (Some n) Scope (Characters v ++ Behind)
  end.

Definition ReadOf (v : SETTING) (g n : list Z) (Scope : Z) (Buffer : list Z) : CALL :=
  match v with
  | DwordSetting Value => ReadDword (Some g) (Some n) Scope
  | TextSetting _ => ReadText false (Some g) (Some n) Scope Buffer
  | StringsSetting _ => ReadText true (Some g) (Some n) Scope Buffer
  end.

(** The buffer takes the characters. *)
Definition Room (v : SETTING) (Buffer : list Z) : Prop :=
  exists k, length Buffer = (2 * k)%nat /\ (0 < k)%nat /\ Z.of_nat k <= MAX_REG_VALUE_CCH /\ (length (Characters v) <= k)%nat.

Definition ReadBack (v : SETTING) (r : RESULT) : Prop :=
  match v with
  | DwordSetting Value => r = DwordRead S_OK Value
  | _ => exists Buffer, r = TextRead S_OK Buffer (2 * lenZ (Characters v)) /\
      take (2 * length (Characters v)) Buffer = WcharBytes (Characters v)
  end.

(** What is in the registry. *)
Definition Encode (v : SETTING) : VALUE :=
  match v with
  | DwordSetting Value => (REG_DWORD, bytes_of 4 Value)
  | TextSetting _ => (REG_SZ, WcharBytes (Characters v))
  | StringsSetting _ => (REG_MULTI_SZ, WcharBytes (Characters v))
  end.

Lemma TextLength_plain v Behind : Plain v ->
  match v with
  | DwordSetting _ => True
  | TextSetting _ => TextLength false (Characters v ++ Behind) = Some (inr (lenZ (Characters v)))
  | StringsSetting _ => TextLength true (Characters v ++ Behind) = Some (inr (lenZ (Characters v)))
  end /\ 2 * lenZ (Characters v) < 2 ^ 32.
Proof.
  unfold MAX_REG_VALUE_CCH. destruct v as [Value|Text|Texts]; cbn [Plain Characters]; [done| |].
  - intros [Hn HL]. rewrite lenZ_app. change (lenZ [0]) with 1. unfold MAX_REG_VALUE_CCH in HL.
    change (1024 * 1024 / 2) with 524288 in HL. split; [|lia]. unfold TextLength. rewrite <- app_assoc. cbn [app].
    by rewrite StringCchLength_text.
  - intros [HF HL]. unfold MAX_REG_VALUE_CCH in HL. change (1024 * 1024 / 2) with 524288 in HL. split; [|lia]. unfold TextLength.
    rewrite MultiStringLength_strings; [done|done| |done|lia].
    assert (forall l : list (list Z), (length l < length (Strings l))%nat) as HS; [|specialize (HS Texts); rewrite length_app; lia].
    intros l. induction l as [|t l IH]; [by cbn; lia|]. rewrite Strings_cons, length_app. cbn [length]. lia.
Qed.

Lemma write_behaves B V v g n Scope Behind r V' : Plain v -> NamesValid (Some g) (Some n) = true -> Single Scope = true ->
  Behaves B V (WriteOf v g n Scope Behind) r V' ->
  exists Hr, r = Done Hr /\ if FAILED Hr then Same V V'
    else Hr = S_OK /\ CanWrite B Scope = true /\ Updated V (GroupKey B Scope g) (Fold n) (Some (Encode v)) V'.
Proof.
  intros HP HN HS. destruct (TextLength_plain v Behind HP) as [HT HL].
  destruct v as [Value|Text|Texts]; cbn [WriteOf Behaves Given]; rewrite HN, HS; cbn [andb]; [done| |];
    cbn [Characters Encode] in *; by rewrite HT, Stored_text.
Qed.

Lemma read_behaves B V v g n Scope Buffer r V' : Plain v -> NamesValid (Some g) (Some n) = true ->
  CdiagsIsValidScope Scope = true -> Room v Buffer ->
  (forall sc, (sc = CdiagGlobalScope \/ sc = CdiagUserScope) -> FlagOn Scope sc = true -> CanRead B sc g = true) ->
  Effective B V Scope g n = Some (Encode v) ->
  Behaves B V (ReadOf v g n Scope Buffer) r V' -> ReadBack v r.
Proof.
  intros HP HN HS (k & HL & H0 & HM & HR) HC HE. unfold lenZ.
  assert (lenZ Buffer = 2 * Z.of_nat k) as HZ by (unfold lenZ; lia).
  assert ((0 <? lenZ Buffer) && (lenZ Buffer <=? MAX_REG_VALUE_CCH * 2) = true) as HB.
  { rewrite HZ. apply andb_true_iff. split; [apply Z.ltb_lt; lia|apply Z.leb_le; lia]. }
  destruct v as [Value|Text|Texts]; cbn [ReadOf Behaves Given ReadBack Plain]; rewrite HN, HS, <- ?andb_assoc, ?HB; cbn [andb];
    intros (_ & Hr & Data & a & [HD _] & ->); specialize (HD HC); rewrite HE in HD; cbn [Encode Delivers] in HD.
  - destruct HD as [HLen HD]. change (lenZ (bytes_of 4 Value)) with 4 in HD. change (lenZ (bytes_of 4 0)) with 4 in HD.
    cbn [Z.leb Z.compare Pos.compare Pos.compare_cont Z.eqb Pos.eqb REG_DWORD] in HD. destruct HD as (-> & HD & _).
    change (_ =? S_OK) with false. change (FAILED S_OK) with false. cbv iota. f_equal.
    rewrite take_ge in HD by (rewrite length_bytes_of; cbn in *; lia). rewrite HD, of_bytes_of. by apply Z.mod_small.
  - destruct HD as [_ HD]. unfold lenZ in HD. rewrite length_WcharBytes, (proj2 (Z.leb_le _ _)) in HD by lia.
    destruct HD as (-> & HD & ->). exists Data. split; [|done]. f_equal. unfold lenZ. lia.
  - destruct HD as [_ HD]. unfold lenZ in HD. rewrite length_WcharBytes, (proj2 (Z.leb_le _ _)) in HD by lia.
    destruct HD as (-> & HD & ->). exists Data. split; [|done]. f_equal. unfold lenZ. lia.
Qed.

(** C24. A store refines the values of the registry: whatever sequence of calls its
    clients make, valid or not, every call returns and does to the values exactly what
    [Behaves] says.  Writing stores under one key of one scope, for a store with the
    access, or stores nothing; reading changes nothing and delivers the value of the
    user before that of the machine; no handle stays open. *)
Theorem settings_refine B This w cs : Serves B This w -> Forall Proper cs ->
  exists rs w', exec_all This cs w = Some (rs, w') /\ Serves B This w' /\
    Objects (Os w') = Objects (Os w) /\ BehavesAll B (Values (Os w)) cs rs (Values (Os w')).
Proof.
  intros HV HP. destruct (exec_all_spec B This cs w HV HP) as (rs & w' & E & HS & H). exists rs, w'.
  split; [done|]. split; [by eapply Serves_stays|]. split; [apply HS|done].
Qed.

(** What has been written is read back: a number, a string or a list of strings that
    was stored in a scope is what reading from the scope delivers (or from both, if the
    scope is that of the user), after any calls that do not change that setting, into
    any buffer with room for it; names are compared without regard to case. *)
Theorem setting_reads_back B This w v g n Scope Behind others ScopeRead Buffer :
  Serves B This w -> Plain v -> NamesValid (Some g) (Some n) = true -> Single Scope = true ->
  Forall Proper others -> Forall (Elsewhere Scope g n) others -> Room v Buffer ->
  (ScopeRead = Scope \/ Scope = CdiagUserScope /\ ScopeRead = CdiagEffectiveScope) ->
  (forall sc, (sc = CdiagGlobalScope \/ sc = CdiagUserScope) -> FlagOn ScopeRead sc = true -> CanRead B sc g = true) ->
  exists Hr w1, exec This (WriteOf v g n Scope Behind) w = Some (Done Hr, w1) /\
  if FAILED Hr then Same (Values (Os w)) (Values (Os w1))
  else exists rs w2 r w3, exec_all This others w1 = Some (rs, w2) /\
    exec This (ReadOf v g n ScopeRead Buffer) w2 = Some (r, w3) /\ ReadBack v r.
Proof.
  intros HV HP HN HS HO HE HR HSR HC.
  assert (Proper (WriteOf v g n Scope Behind)) as HPw.
  { destruct (TextLength_plain v Behind HP) as [HT _]. destruct v; cbn in *; [done|by rewrite HT..]. }
  assert (Proper (ReadOf v g n ScopeRead Buffer)) as HPr by (destruct HR as (k & Hk & _); destruct v; [done|by exists k..]).
  destruct (exec_spec B This w _ HV HPw) as (r1 & w1 & E1 & HS1 & H1).
  destruct (write_behaves _ _ _ _ _ _ _ _ _ HP HN HS H1) as (Hr & -> & HW). exists Hr, w1. split; [done|].
  destruct (FAILED Hr); [done|]. destruct HW as (_ & _ & HU). pose proof (Serves_stays _ _ _ _ HV HS1) as HV1.
  destruct (exec_all_spec B This others w1 HV1 HO) as (rs & w2 & E2 & HS2 & H2).
  destruct (exec_spec B This w2 _ (Serves_stays _ _ _ _ HV1 HS2) HPr) as (r & w3 & E3 & _ & H3).
  exists rs, w2, r, w3. split; [done|]. split; [done|].
  assert (Setting B (Values (Os w2)) Scope g n = Some (Encode v)) as HV2.
  { rewrite (kept_all _ _ _ _ _ _ _ _ HS HE H2). unfold Setting. rewrite (HU _ _). by case_decide as HD; [|destruct HD]. }
  assert (CdiagsIsValidScope ScopeRead = true /\ Effective B (Values (Os w2)) ScopeRead g n = Some (Encode v)) as [HSc HEf].
  { unfold Effective. destruct (Single_scope _ HS) as [-> | ->], HSR as [-> | [HSR ->]]; try done; cbn; by rewrite HV2. }
  by eapply read_behaves.
Qed.
End calls.

(** ** The life of a store *)
(** The objects of a process without those of a store. *)
Definition WithoutKey (k : Z) (o : OBJECTS) : OBJECTS := if k =? 0 then o else drop_handle k o.
Definition Without (s : STORE) (o : OBJECTS) : OBJECTS :=
  WithoutKey (Event s) (fold_left (fun o k => WithoutKey k o) (Key s)
    (if WaitHandle s =? 0 then o else drop_wait (WaitHandle s) o)).

Lemma WithoutKey_fresh h o : Fresh h o -> WithoutKey h o = o.
Proof.
  intros (H0 & _ & _ & H1 & H2). unfold WithoutKey. rewrite (proj2 (Z.eqb_neq _ _) H0). destruct o as [m e w].
  unfold drop_handle. cbn in *. f_equal; [by apply delete_id|]. apply leibniz_equiv. intros y. clear -H2. set_solver.
Qed.

Lemma Fresh_drop h k o : Fresh h o -> Fresh h (WithoutKey k o).
Proof.
  intros (H0 & H1 & H2 & H3 & H4). unfold WithoutKey. destruct (k =? 0); [done|]. split_and!; [done..| |].
  - cbn. destruct (decide (h = k)) as [->|]; [apply lookup_delete_eq|by rewrite lookup_delete_ne].
  - cbn. clear -H4. set_solver.
Qed.

Lemma Fresh_drops h ks : forall o, Fresh h o -> Fresh h (fold_left (fun o k => WithoutKey k o) ks o).
Proof. induction ks as [|k ks IH]; intros o H; [done|]. cbn. by apply IH, Fresh_drop. Qed.

(** The keys of a store are not the new handle. *)
Lemma drops_add_event h ks : forall o, Forall (fun k => k <> h) ks ->
  fold_left (fun o k => WithoutKey k o) ks (add_event h o) = add_event h (fold_left (fun o k => WithoutKey k o) ks o).
Proof.
  induction ks as [|k ks IH]; intros o H; [done|]. apply Forall_cons in H as [Hk H]. cbn [fold_left].
  rewrite <- IH by done. f_equal. unfold WithoutKey. destruct (k =? 0); [done|]. unfold drop_handle, add_event. cbn.
  f_equal. apply leibniz_equiv. intros y. clear -Hk. set_solver.
Qed.

Lemma WithoutKey_add_event h o : Fresh h o -> WithoutKey h (add_event h o) = o.
Proof.
  intros (H0 & _ & _ & H1 & H2). unfold WithoutKey. rewrite (proj2 (Z.eqb_neq _ _) H0). destruct o as [m e w].
  unfold drop_handle, add_event. cbn in *. f_equal; [by apply delete_id|]. apply leibniz_equiv. intros y. clear -H2. set_solver.
Qed.

Lemma WithoutKey_add_handle k p o : Fresh k o -> WithoutKey k (add_handle k p o) = o.
Proof. intros HF. unfold WithoutKey. rewrite (proj2 (Z.eqb_neq _ _) (proj1 HF)). by apply drop_add_handle. Qed.

Lemma WithoutKey_add_ne k k' p o : k <> k' -> WithoutKey k (add_handle k' p o) = add_handle k' p (WithoutKey k o).
Proof.
  intros Hne. unfold WithoutKey. destruct (k =? 0); [done|]. unfold drop_handle, add_handle. cbn. f_equal.
  by apply delete_insert_ne.
Qed.

Section life.
Context {X : Type} {R : Registry X} {Laws : RegistryLaws X}.
Context (CdiagpMalloc : gmap Z STORE -> Z) (KeyChangeCallback : Z) (Invoke : Z -> Z -> ST X unit).
(** A new block is not in use; callbacks of clients leave the store's objects alone. *)
Context (HMalloc : forall st, CdiagpMalloc st = 0 \/ st !! CdiagpMalloc st = None).
Context (HInvoke : forall f c x, exists x', Invoke f c x = Some (tt, x') /\ Objects x' = Objects x).

(** A store and all that it has opened, among stores [St] and objects [O] of others. *)
Record Owns (B : STORE_NAME) (h : Z) (St : gmap Z STORE) (O : OBJECTS) (s : STORE) (w : RW X) : Prop := MkOwns {
  owns_address : h <> 0 /\ St !! h = None;
  owns_stores : Stores w = <[h := s]> St;
  owns_ok : StoreOk B s (Objects (Os w));
  owns_objects : Without s (Objects (Os w)) = O;
  owns_wait : WaitHandle s <> 0 -> Event s <> 0 /\ Event s ∈ Events (Objects (Os w));
  owns_no_event : Event s = 0 -> WaitHandle s = 0 }.

Inductive STEP :=
  | Call (c : CALL)
  | RegisterUpdateCallback (Function Context : Z)
  (** the system calls back, as long as the wait is registered *)
  | Changed.

Definition step (h : Z) (c : STEP) : ST (RW X) unit :=
  match c with
  | Call c => exec h c ;;; ret tt
  | RegisterUpdateCallback f c => CdiagsRegisterUpdateCallback KeyChangeCallback h f c ;;; ret tt
  | Changed => s <- load_store h ;;
      when_ (negb (WaitHandle s =? 0)) (CdiagsKeyChangeNotificationCallback Invoke h false)
  end.

Fixpoint steps (h : Z) (cs : list STEP) : ST (RW X) unit :=
  match cs with [] => ret tt | c :: cs => step h c ;;; steps h cs end.

Section owned.
Context (B : STORE_NAME) (h : Z) (St : gmap Z STORE) (O : OBJECTS).

Lemma owns_serves s w : Owns B h St O s w -> Serves B h w.
Proof.
  intros H. split; [apply H|]. exists s. split; [|apply H]. rewrite (owns_stores _ _ _ _ _ _ H). apply lookup_insert_eq.
Qed.

Lemma owned_load s w : Owns B h St O s w -> load_store h w = Some (s, w).
Proof. intros H. unfold load_store. by rewrite (owns_stores _ _ _ _ _ _ H), lookup_insert_eq. Qed.

Lemma owned_valid s w : Owns B h St O s w -> CdiagsIsValidRegStore h w = Some (Some s, w).
Proof.
  intros H. unfold CdiagsIsValidRegStore. rewrite (proj2 (Z.eqb_neq _ _) (proj1 (owns_address _ _ _ _ _ _ H))).
  rewrite (bind_eq _ _ _ _ _ (owned_load _ _ H)). by rewrite (ok_init _ _ _ (owns_ok _ _ _ _ _ _ H)).
Qed.

(** What leaves the objects alone. *)
Lemma owned_stays s w w' : Owns B h St O s w -> Stays w w' -> Owns B h St O s w'.
Proof. intros [H1 H2 H3 H4 H5 H6] [E1 E2]. constructor; rewrite ?E1, ?E2; done. Qed.

Lemma owned_callback s w f c : Owns B h St O s w ->
  Owns B h St O (with_callback s f c) (MkRW (<[h := with_callback s f c]> (Stores w)) (Os w)).
Proof.
  intros [H1 H2 H3 H4 H5 H6]. constructor; try done; [|by destruct H3]. cbn. by rewrite H2, insert_insert_eq.
Qed.

(** The keys of a store, as a list. *)
Lemma owned_keys s o k : StoreOk B s o -> k ∈ Key s -> k = 0 \/
  exists p, Handles o !! k = Some p /\ FlagOn (snd p) KEY_NOTIFY = true.
Proof.
  intros Ok Hk. pose proof (ok_key _ _ _ Ok CdiagGlobalScope (or_introl eq_refl)) as H0.
  pose proof (ok_key _ _ _ Ok CdiagUserScope (or_intror eq_refl)) as H1. cbv zeta in *.
  destruct (ok_length _ _ _ Ok) as [HL _]. destruct (Key s) as [|k0 [|k1 [|? ?]]]; try done.
  change ([k0; k1] !!! KEY_INDEX_FOR_SCOPE CdiagGlobalScope) with k0 in H0.
  change ([k0; k1] !!! KEY_INDEX_FOR_SCOPE CdiagUserScope) with k1 in H1.
  assert (forall sc k, (sc = CdiagGlobalScope \/ sc = CdiagUserScope) -> (if Mask B sc =? 0 then k = 0 else
    k <> 0 /\ k <> HKEY_CURRENT_USER /\ k <> HKEY_LOCAL_MACHINE /\ Handles o !! k = Some (ScopeKey B sc, Mask B sc)) ->
    k = 0 \/ exists p, Handles o !! k = Some p /\ FlagOn (snd p) KEY_NOTIFY = true) as HK.
  { intros sc k' Hsc H. destruct (Z.eqb_spec (Mask B sc) 0) as [E|E]; [by left|right].
    destruct H as (_ & _ & _ & H). eexists. split; [exact H|]. by apply mask_notify. }
  apply elem_of_cons in Hk as [-> |Hk]; [apply (HK CdiagGlobalScope); [by left|done]|].
  apply list_elem_of_singleton in Hk as ->. apply (HK CdiagUserScope); [by right|done].
Qed.

Lemma owned_fresh s o h' : StoreOk B s o -> Fresh h' o -> Forall (fun k => k <> h') (Key s).
Proof.
  intros Ok HF. apply Forall_forall. intros k Hk ->. destruct HF as (H0 & _ & _ & H1 & _).
  destruct (owned_keys s o h' Ok Hk) as [|(p & Hp & _)]; congruence.
Qed.

(** *** Notifications *)
Lemma owned_event s w e x : Owns B h St O s w -> Event s = 0 -> Fresh e (Objects (Os w)) ->
  Objects x = add_event e (Objects (Os w)) ->
  Owns B h St O (with_event s e) (MkRW (<[h := with_event s e]> (Stores w)) x).
Proof.
  intros [H1 H2 H3 H4 H5 H6] E0 HF EO. pose proof (H6 E0) as W0. constructor; cbn [Stores Os]; rewrite ?EO.
  - done.
  - by rewrite H2, insert_insert_eq.
  - by destruct H3.
  - rewrite <- H4. unfold Without. cbn [Key with_event Event WaitHandle]. rewrite E0, W0. cbn [Z.eqb].
    rewrite drops_add_event by by eapply owned_fresh. rewrite WithoutKey_add_event by by apply Fresh_drops. done.
  - cbn. by rewrite W0.
  - cbn. by rewrite W0.
Qed.

Lemma owned_wait s w ev cb c wh x : Owns B h St O s w -> WaitHandle s = 0 -> wh <> 0 -> Event s <> 0 ->
  Waits (Objects (Os w)) !! wh = None -> Event s ∈ Events (Objects (Os w)) ->
  Objects x = add_wait wh (ev, cb, c) (Objects (Os w)) ->
  Owns B h St O (with_wait s wh) (MkRW (<[h := with_wait s wh]> (Stores w)) x).
Proof.
  intros [H1 H2 H3 H4 H5 H6] W0 Hwh He HF Hin EO. constructor; cbn [Stores Os]; rewrite ?EO.
  - done.
  - by rewrite H2, insert_insert_eq.
  - by destruct H3.
  - rewrite <- H4. unfold Without. cbn [Key with_wait Event WaitHandle]. rewrite W0, (proj2 (Z.eqb_neq _ _) Hwh).
    cbn [Z.eqb]. f_equal. f_equal. unfold drop_wait, add_wait. cbn. rewrite delete_insert_id by done. by destruct (Objects (Os w)).
  - done.
  - done.
Qed.

(** The event of a wait that could not be registered is closed, but remembered. *)
Lemma owned_dangling s w e x : Owns B h St O s w -> Event s = 0 -> Fresh e (Objects (Os w)) ->
  Objects x = Objects (Os w) ->
  Owns B h St O (with_event s e) (MkRW (<[h := with_event s e]> (Stores w)) x).
Proof.
  intros [H1 H2 H3 H4 H5 H6] E0 HF EO. pose proof (H6 E0) as W0. constructor; cbn [Stores Os]; rewrite ?EO.
  - done.
  - by rewrite H2, insert_insert_eq.
  - by destruct H3.
  - rewrite <- H4. unfold Without. cbn [Key with_event Event WaitHandle]. rewrite E0, W0. cbn [Z.eqb].
    rewrite (WithoutKey_fresh e) by by apply Fresh_drops. done.
  - cbn. by rewrite W0.
  - cbn. by rewrite W0.
Qed.

Lemma save_eq {A} s (k : unit -> ST (RW X) A) w : bind (save_store h s) k w = k tt (MkRW (<[h := s]> (Stores w)) (Os w)).
Proof. done. Qed.

Lemma event_registered s w cb c : Owns B h St O s w -> Event s = 0 -> exists Hr w' s',
  CdiagsCreateNotificationEventAndRegisterCallback h cb c w = Some (Hr, w') /\ Owns B h St O s' w' /\ Key s' = Key s /\
  (FAILED Hr = false -> Armed (Os w') = Armed (Os w) /\ Event s' <> 0 /\ WaitHandle s' <> 0).
Proof.
  intros H E0. pose proof (owns_no_event _ _ _ _ _ _ H E0) as W0.
  unfold CdiagsCreateNotificationEventAndRegisterCallback. rewrite (bind_eq _ _ _ _ _ (owned_load _ _ H)).
  destruct (event_law (Os w)) as (r & x1 & E1 & _ & EA & H1). rewrite (bind_os _ _ _ _ _ E1). rewrite W0. cbn [Z.eqb negb when_].
  destruct r as [e|ev].
  - rewrite save_eq, bind_ret. exists (HRESULT_FROM_WIN32 e), (MkRW (Stores w) x1), s.
    rewrite (proj1 (Win32_failed e (proj1 H1))). split; [|split; [|done]].
    + assert (with_event s 0 = s) as -> by (destruct s; cbn in *; by subst). unfold ret. cbn [Stores Os].
      by rewrite (owns_stores _ _ _ _ _ _ H), insert_insert_eq.
    + eapply owned_stays; [exact H|]. split; [done|]. apply H1.
  - destruct H1 as [HF EO]. rewrite save_eq. cbn [Stores Os].
    destruct (wait_law ev cb c x1) as (r & x2 & E2 & _ & EA2 & H2). rewrite (bind_os _ _ (MkRW _ x1) _ _ E2). cbn [Stores].
    destruct r as [e|wh].
    + destruct H2 as [He EO2]. change (WaitHandle (with_event s ev)) with (WaitHandle s).
      rewrite W0. cbn [Z.eqb negb when_]. rewrite bind_ret.
      destruct (close_event_law ev x2) as (x3 & E3 & EO3 & _); [rewrite EO2, EO; cbn; apply elem_of_union; right; by apply elem_of_singleton|].
      rewrite (bind_os _ _ (MkRW _ x2) _ _ E3). rewrite bind_assert by done. eexists _, _, (with_event s ev).
      split; [reflexivity|]. rewrite (proj1 (Win32_failed e He)). split; [|done]. cbn [Stores]. apply owned_dangling; try done.
      rewrite EO3, EO2, EO. pose proof (WithoutKey_add_event ev _ HF) as HW. unfold WithoutKey in HW.
      by rewrite (proj2 (Z.eqb_neq _ _) (proj1 HF)) in HW.
    + destruct H2 as (Hwh & Hfree & Hin & EO2). rewrite save_eq. eexists _, _, (with_wait (with_event s ev) wh).
      split; [reflexivity|]. cbn [Stores Os]. split; [|split; [done|intros _; split; [congruence|split; [apply HF|done]]]].
      exact (owned_wait (with_event s ev) (MkRW (<[h := with_event s ev]> (Stores w)) x1) ev cb c wh x2
        (owned_event s w ev x1 H E0 HF EO) W0 Hwh (proj1 HF) Hfree Hin EO2).
Qed.

Lemma key_registered s w k cb c : Owns B h St O s w -> k ∈ Key s -> k <> 0 -> exists Hr w' s',
  CdiagsRegisterKeyChangeNotification h k cb c w = Some (Hr, w') /\ Owns B h St O s' w' /\ Key s' = Key s.
Proof.
  intros H Hk H0. unfold CdiagsRegisterKeyChangeNotification. rewrite (bind_eq _ _ _ _ _ (owned_load _ _ H)).
  destruct (negb _ && negb _); [by exists S_OK, w, s|].
  assert (exists Hr w1 s1, (if Event s =? 0 then CdiagsCreateNotificationEventAndRegisterCallback h cb c else ret S_OK) w =
    Some (Hr, w1) /\ Owns B h St O s1 w1 /\ Key s1 = Key s) as (Hr & w1 & s1 & E1 & H1 & EK).
  { destruct (Z.eqb_spec (Event s) 0) as [E0|]; [|by exists S_OK, w, s].
    destruct (event_registered s w cb c H E0) as (Hr & w1 & s1 & E1 & H1 & EK & _). by exists Hr, w1, s1. }
  rewrite (bind_eq _ _ _ _ _ E1). destruct (FAILED Hr); [by exists Hr, w1, s1|].
  rewrite (bind_eq _ _ _ _ _ (owned_load _ _ H1)). rewrite <- EK in Hk.
  destruct (owned_keys _ _ _ (owns_ok _ _ _ _ _ _ H1) Hk) as [|(p & Hp & _)]; [done|].
  destruct (notify_law k (Event s1) p (Os w1) Hp) as (e & x & E2 & EO & _). rewrite (bind_os _ _ _ _ _ E2).
  eexists _, _, s1. split; [reflexivity|]. split; [|done]. eapply owned_stays; [exact H1|]. done.
Qed.

Lemma keys_registered ks : forall s w, Owns B h St O s w -> (forall k, k ∈ ks -> k ∈ Key s) -> exists Hr w' s',
  RegisterKeys KeyChangeCallback h ks w = Some (Hr, w') /\ Owns B h St O s' w' /\ Key s' = Key s.
Proof.
  induction ks as [|k ks IH]; intros s w H Hks; [by exists S_OK, w, s|]. cbn [RegisterKeys].
  destruct (Z.eqb_spec k 0) as [|H0]; [apply IH; [done|]; intros k' Hk'; apply Hks; by right|].
  destruct (key_registered s w k KeyChangeCallback h H) as (Hr & w1 & s1 & E1 & H1 & EK); [apply Hks; by left|done|].
  rewrite (bind_eq _ _ _ _ _ E1). destruct (FAILED Hr); [by exists Hr, w1, s1|]. rewrite <- EK.
  apply IH; [done|]. intros k' Hk'. rewrite EK. apply Hks. by right.
Qed.

Lemma callback_registered s w f c : Owns B h St O s w -> exists Hr w' s',
  CdiagsRegisterUpdateCallback KeyChangeCallback h f c w = Some (Hr, w') /\ Owns B h St O s' w'.
Proof.
  intros H. unfold CdiagsRegisterUpdateCallback. rewrite (bind_eq _ _ _ _ _ (owned_valid _ _ H)).
  destruct (_ && _); [by exists E_INVALIDARG, w, s|]. rewrite bind_assert by apply (ok_lock _ _ _ (owns_ok _ _ _ _ _ _ H)).
  set (m := if negb (f =? 0) then _ else _).
  assert (exists Hr w1 s1, m w = Some (Hr, w1) /\ Owns B h St O s1 w1) as (Hr & w1 & s1 & E1 & H1).
  { unfold m. destruct (negb (f =? 0)).
    - destruct (keys_registered (Key s) s w H) as (Hr & w1 & s1 & E1 & H1 & _); [done|].
      rewrite (bind_eq _ _ _ _ _ E1). destruct (FAILED Hr); [by exists Hr, w1, s1|].
      rewrite (bind_eq _ _ _ _ _ (owned_load _ _ H1)), save_eq. eexists _, _, _. split; [reflexivity|]. by apply owned_callback.
    - rewrite save_eq. eexists _, _, _. split; [reflexivity|]. by apply owned_callback. }
  rewrite (bind_eq _ _ _ _ _ E1), (bind_eq _ _ _ _ _ (owned_load _ _ H1)).
  destruct (reset_law (Event s1) (Os w1)) as (b & x & E2 & _ & _ & EO). rewrite (bind_os _ _ _ _ _ E2).
  eexists _, _, s1. split; [reflexivity|]. eapply owned_stays; [exact H1|]. done.
Qed.

(** Registering the first callback has the system watch the first key that is open, and
    not the second. *)
Theorem first_key_watched s w f c k0 k1 : Owns B h St O s w -> Event s = 0 -> Key s = [k0; k1] -> k0 <> 0 -> f <> 0 ->
  exists Hr w', CdiagsRegisterUpdateCallback KeyChangeCallback h f c w = Some (Hr, w') /\
    (FAILED Hr = false -> exists ev, Armed (Os w') = Armed (Os w) ∪ {[(k0, ev)]}).
Proof.
  intros H E0 EK H0 Hf. destruct (event_registered s w KeyChangeCallback h H E0) as (Hr & w1 & s1 & E1 & H1 & EK1 & HA).
  unfold CdiagsRegisterUpdateCallback. rewrite (bind_eq _ _ _ _ _ (owned_valid _ _ H)), (proj2 (Z.eqb_neq f 0)), andb_false_r by done.
  rewrite bind_assert by apply (ok_lock _ _ _ (owns_ok _ _ _ _ _ _ H)). cbn [negb]. rewrite EK. cbn [RegisterKeys].
  rewrite (proj2 (Z.eqb_neq k0 0)) by done. unfold CdiagsRegisterKeyChangeNotification at 1.
  rewrite !bind_assoc, (bind_eq _ _ _ _ _ (owned_load _ _ H)), E0. cbn [Z.eqb negb andb].
  rewrite bind_assoc, (bind_eq _ _ _ _ _ E1). destruct (FAILED Hr) eqn:HF.
  { rewrite bind_ret, HF, bind_ret, HF, bind_ret, (bind_eq _ _ _ _ _ (owned_load _ _ H1)).
    destruct (reset_law (Event s1) (Os w1)) as (b & x & E2 & _). rewrite (bind_os _ _ _ _ _ E2).
    eexists Hr, _. split; [reflexivity|]. by rewrite HF. }
  destruct (HA eq_refl) as (EA & He & HW). rewrite bind_assoc, (bind_eq _ _ _ _ _ (owned_load _ _ H1)).
  destruct (owned_keys _ _ k0 (owns_ok _ _ _ _ _ _ H1)) as [|(p & Hp & HN)]; [rewrite EK1, EK; by left|done|].
  destruct (notify_law k0 (Event s1) p (Os w1) Hp) as (e & x & E2 & EO & _ & HE).
  rewrite HN, bool_decide_true in HE by apply (owns_wait _ _ _ _ _ _ H1 HW). cbn [andb] in HE. destruct HE as [-> HE].
  rewrite bind_assoc, (bind_os _ _ _ _ _ E2), bind_ret. cbn [Z.eqb negb]. change (FAILED S_OK) with false. cbv iota.
  set (w2 := MkRW (Stores w1) x). assert (Owns B h St O s1 w2) as H2 by (eapply owned_stays; [exact H1|done]).
  set (m := if k1 =? 0 then _ else _). assert (m w2 = Some (S_OK, w2)) as Em.
  { unfold m. destruct (k1 =? 0); [done|]. unfold CdiagsRegisterKeyChangeNotification.
    rewrite bind_assoc, (bind_eq _ _ _ _ _ (owned_load _ _ H2)).
    by rewrite (proj2 (Z.eqb_neq _ _) He), (proj2 (Z.eqb_neq _ _) HW). }
  rewrite (bind_eq _ _ _ _ _ Em). change (FAILED S_OK) with false. cbv iota.
  rewrite bind_assoc, (bind_eq _ _ _ _ _ (owned_load _ _ H2)), bind_assoc, save_eq, bind_ret.
  rewrite (bind_eq _ _ _ _ _ (owned_load _ _ (owned_callback _ _ f c H2))).
  destruct (reset_law (Event (with_callback s1 f c)) x) as (b & x3 & E3 & _ & EA3 & _).
  rewrite (bind_os _ _ (MkRW _ x) _ _ E3). eexists S_OK, _. split; [reflexivity|]. intros _. exists (Event s1).
  cbn [Os]. congruence.
Qed.

Lemma keys_watched s ks : forall w, Owns B h St O s w -> Event s ∈ Events (Objects (Os w)) -> (forall k, k ∈ ks -> k ∈ Key s) ->
  exists w', WatchKeys (Event s) ks w = Some (tt, w') /\ Owns B h St O s w'.
Proof.
  induction ks as [|k ks IH]; intros w H Hin Hks; [by exists w|]. cbn [WatchKeys].
  assert (forall k, k ∈ ks -> k ∈ Key s) as Hks' by (intros k' Hk'; apply Hks; by right).
  destruct (Z.eqb_spec k 0) as [|H0]; cbn [negb when_]; [by apply IH|].
  destruct (owned_keys _ _ k (owns_ok _ _ _ _ _ _ H)) as [|(p & Hp & HN)]; [apply Hks; by left|done|].
  destruct (notify_law k (Event s) p (Os w) Hp) as (e & x & E & EO & _ & HE).
  rewrite HN, bool_decide_true in HE by done. cbn [andb] in HE. destruct HE as [-> _].
  rewrite bind_assoc, (bind_os _ _ _ _ _ E), bind_assert by done.
  apply IH; [eapply owned_stays; [exact H|done]| |done]. cbn. by rewrite EO.
Qed.

Lemma change_handled s w : Owns B h St O s w -> WaitHandle s <> 0 -> exists w',
  CdiagsKeyChangeNotificationCallback Invoke h false w = Some (tt, w') /\ Owns B h St O s w'.
Proof.
  intros H HW. unfold CdiagsKeyChangeNotificationCallback. rewrite (bind_eq _ _ _ _ _ (owned_load _ _ H)).
  rewrite bind_assert by apply (ok_lock _ _ _ (owns_ok _ _ _ _ _ _ H)).
  assert (exists w1, when_ (negb (Function_ s =? 0)) (os (Invoke (Function_ s) (Context_ s))) w = Some (tt, w1) /\
    Owns B h St O s w1) as (w1 & E1 & H1).
  { destruct (negb _); [|by exists w]. destruct (HInvoke (Function_ s) (Context_ s) (Os w)) as (x & E & EO).
    exists (MkRW (Stores w) x). unfold when_, os. rewrite E. split; [done|]. eapply owned_stays; [exact H|done]. }
  rewrite (bind_eq _ _ _ _ _ E1), (bind_eq _ _ _ _ _ (owned_load _ _ H1)).
  destruct (keys_watched s (Key s) w1 H1) as (w2 & E2 & H2); [by apply (owns_wait _ _ _ _ _ _ H1)|done|].
  by exists w2.
Qed.

Definition ProperStep (c : STEP) : Prop := match c with Call c => Proper c | _ => True end.

Lemma step_owns s w c : Owns B h St O s w -> ProperStep c -> exists w' s', step h c w = Some (tt, w') /\ Owns B h St O s' w'.
Proof.
  intros H HP. destruct c as [c|f c|]; cbn [step].
  - destruct (exec_spec B h w c (owns_serves _ _ H) HP) as (r & w1 & E & HS & _). rewrite (bind_eq _ _ _ _ _ E).
    exists w1, s. split; [done|]. by eapply owned_stays.
  - destruct (callback_registered s w f c H) as (Hr & w1 & s1 & E & H1). rewrite (bind_eq _ _ _ _ _ E). by exists w1, s1.
  - rewrite (bind_eq _ _ _ _ _ (owned_load _ _ H)). destruct (Z.eqb_spec (WaitHandle s) 0) as [|HW]; [by exists w, s|].
    destruct (change_handled s w H HW) as (w1 & E & H1). by exists w1, s.
Qed.

Lemma steps_own cs : forall s w, Owns B h St O s w -> Forall ProperStep cs -> exists w' s',
  steps h cs w = Some (tt, w') /\ Owns B h St O s' w'.
Proof.
  induction cs as [|c cs IH]; intros s w H HP; [by exists w, s|]. apply Forall_cons in HP as [HP HPs].
  destruct (step_owns s w c H HP) as (w1 & s1 & E & H1). cbn [steps]. rewrite (bind_eq _ _ _ _ _ E). by eapply IH.
Qed.

(** *** Deletion *)
Lemma keys_closed ks : forall w, exists e w', CloseKeys ks w = Some (e, w') /\ Stores w' = Stores w /\
  if e =? 0 then Objects (Os w') = fold_left (fun o k => WithoutKey k o) ks (Objects (Os w)) else Win32 e.
Proof.
  induction ks as [|k ks IH]; intros w; [by exists 0, w|]. cbn [CloseKeys fold_left]. unfold WithoutKey at 2.
  destruct (k =? 0); [rewrite bind_ret; cbn [Z.eqb]; apply IH|].
  destruct (close_law k (Os w)) as (e & x & E & _ & H). rewrite (bind_os _ _ _ _ _ E).
  destruct (e =? 0) eqn:He; [|exists e, (MkRW (Stores w) x); rewrite He; by destruct H].
  destruct (IH (MkRW (Stores w) x)) as (e1 & w1 & E1 & ES & H1). exists e1, w1. split; [done|]. split; [done|].
  destruct (e1 =? 0); [|done]. rewrite H1. cbn [Os]. by rewrite (proj1 H).
Qed.

Lemma closed_if z w : exists e x,
  (if negb (z =? 0) then os (CloseHandle z) else ret 0) w = Some (e, MkRW (Stores w) x) /\
  if e =? 0 then Objects x = WithoutKey z (Objects (Os w)) else Win32 e.
Proof.
  unfold WithoutKey. destruct (z =? 0); cbn [negb]; [exists 0, (Os w); by destruct w|].
  destruct (close_law z (Os w)) as (e & x & E & _ & HE). exists e, x. unfold os. rewrite E.
  split; [done|]. destruct (e =? 0); apply HE.
Qed.

Lemma unwaited_if z w : exists e x,
  (if negb (z =? 0) then os (UnregisterWaitEx z) else ret 0) w = Some (e, MkRW (Stores w) x) /\
  if e =? 0 then Objects x = (if z =? 0 then Objects (Os w) else drop_wait z (Objects (Os w))) else Win32 e.
Proof.
  destruct (z =? 0); cbn [negb]; [exists 0, (Os w); by destruct w|].
  destruct (unwait_law z (Os w)) as (e & x & E & _ & HE). exists e, x. unfold os. rewrite E.
  split; [done|]. destruct (e =? 0); apply HE.
Qed.

Lemma objects_released s w : Lock s = true -> exists e w', ReleaseObjects s w = Some (e, w') /\ Stores w' = Stores w /\
  if e =? 0 then Objects (Os w') = Without s (Objects (Os w)) else Win32 e.
Proof.
  intros HL. unfold ReleaseObjects. destruct (unwaited_if (WaitHandle s) w) as (e1 & x1 & E1 & H1).
  rewrite (bind_eq _ _ _ _ _ E1). destruct (e1 =? 0) eqn:He1; cbn [negb]; [|by eexists e1, _; rewrite He1].
  destruct (keys_closed (Key s) (MkRW (Stores w) x1)) as (e2 & w2 & E2 & ES2 & H2).
  rewrite (bind_eq _ _ _ _ _ E2). destruct (e2 =? 0) eqn:He2; cbn [negb]; [|by eexists e2, _; rewrite He2].
  destruct (closed_if (Event s) w2) as (e3 & x3 & E3 & H3).
  rewrite (bind_eq _ _ _ _ _ E3). destruct (e3 =? 0) eqn:He3; cbn [negb]; [|by eexists e3, _; rewrite He3].
  rewrite bind_assert by done. eexists 0, _. split; [reflexivity|]. split; [done|]. cbn [Z.eqb Os].
  rewrite H3, H2. cbn [Os]. by rewrite H1.
Qed.

Lemma store_deleted s w : Owns B h St O s w -> exists Hr w', CdiagsDeleteStore h w = Some (Hr, w') /\
  if FAILED Hr then Stores w' = <[h := s]> St else Hr = S_OK /\ Stores w' = St /\ Objects (Os w') = O.
Proof.
  intros H. unfold CdiagsDeleteStore. rewrite (bind_eq _ _ _ _ _ (owned_valid _ _ H)).
  destruct (objects_released s w (ok_lock _ _ _ (owns_ok _ _ _ _ _ _ H))) as (e & w1 & E & ES & HE).
  rewrite (bind_eq _ _ _ _ _ E). rewrite (owns_stores _ _ _ _ _ _ H) in ES. destruct (e =? 0); cbn [negb].
  - eexists S_OK, _. split; [reflexivity|]. change (FAILED S_OK) with false. split; [done|]. cbn [Stores Os]. split.
    + rewrite ES. apply delete_insert_id, (owns_address _ _ _ _ _ _ H).
    + rewrite HE. apply (owns_objects _ _ _ _ _ _ H).
  - eexists _, w1. split; [reflexivity|]. by rewrite (proj1 (Win32_failed e HE)).
Qed.
End owned.

(** *** Creation *)
Lemma base_opened Name Mode Scope x : Scope = CdiagGlobalScope \/ Scope = CdiagUserScope ->
  let B := MkStoreName Name Mode in
  exists r x', RegCreateKeyEx (if Scope =? CdiagUserScope then HKEY_CURRENT_USER else HKEY_LOCAL_MACHINE) Name (Mask B Scope) x =
    Some (r, x') /\ Same (Values x) (Values x') /\
    match r with
    | inl e => Win32 e /\ Objects x' = Objects x
    | inr k => Fresh k (Objects x) /\ Objects x' = add_handle k (ScopeKey B Scope, Mask B Scope) (Objects x)
    end.
Proof.
  intros HS B. assert (KeyOf (Objects x) (if Scope =? CdiagUserScope then HKEY_CURRENT_USER else HKEY_LOCAL_MACHINE) =
    Some (if Scope =? CdiagUserScope then HKEY_CURRENT_USER else HKEY_LOCAL_MACHINE, [])) as Hk
    by (destruct HS as [-> | ->]; done).
  destruct (create_law _ Name (Mask B Scope) _ x Hk) as (r & x' & E & H). exists r, x'. split; [done|].
  destruct r as [e|k]; [destruct H as (He & EO & EC & _)|destruct H as (HF & EO & _ & HG)].
  - split; [by apply contents_same|done].
  - split; [by apply grown_same|done].
Qed.

(** The store while its keys are opened, and the keys. *)
Definition Opening (Keys Masks : list Z) : STORE := MkStore false Keys Masks false 0 0 0 0.

(** Opening the key of an index: an error, the key, or none without access. *)
Lemma key_opened h Name Mode Scope i Rest Keys Masks st x : Scope = CdiagGlobalScope \/ Scope = CdiagUserScope ->
  i = KEY_INDEX_FOR_SCOPE Scope ->
  let B := MkStoreName Name Mode in
  exists r x1, (Same (Values x) (Values x1) /\
    match r with
    | inl e => Win32 e /\ Objects x1 = Objects x
    | inr k => if Mask B Scope =? 0 then k = Keys !!! i /\ Objects x1 = Objects x
               else Fresh k (Objects x) /\ Objects x1 = add_handle k (ScopeKey B Scope, Mask B Scope) (Objects x)
    end) /\
  let Masks' := <[i := Mask B Scope]> Masks in
  OpenKeys h Name Mode (i :: Rest) (MkRW (<[h := Opening Keys Masks]> st) x) =
  match r with
  | inl e => Some (HRESULT_FROM_WIN32 e, MkRW (<[h := Opening Keys Masks']> st) x1)
  | inr k => OpenKeys h Name Mode Rest (MkRW (<[h := Opening (if Mask B Scope =? 0 then Keys else <[i := k]> Keys) Masks']> st) x1)
  end.
Proof.
  intros HS -> B. cbn [OpenKeys]. rewrite (scope_index Scope HS). cbv zeta.
  change (AccessMask (KEY_INDEX_FOR_SCOPE Scope) Mode) with (Mask B Scope).
  assert (forall s (x' : X), load_store h (MkRW (<[h := s]> st) x') = Some (s, MkRW (<[h := s]> st) x')) as HL
    by (intros; unfold load_store; cbn; by rewrite lookup_insert_eq).
  rewrite (bind_eq _ _ _ _ _ (HL _ _)), save_eq. cbn [Stores Os]. rewrite insert_insert_eq.
  destruct (Mask B Scope =? 0) eqn:EM.
  - by exists (inr (Keys !!! KEY_INDEX_FOR_SCOPE Scope)), x.
  - destruct (base_opened Name Mode Scope x HS) as (r & x1 & E & HV & H). exists r, x1. split; [done|].
    fold B in E. rewrite (bind_os _ _ (MkRW _ x) _ _ E). destruct r as [e|k]; [done|].
    rewrite save_eq. cbn [Stores Os]. by rewrite insert_insert_eq.
Qed.

(** What has been opened for a scope: a handle, 0 without access, and the objects. *)
Definition Opened (B : STORE_NAME) (Scope k : Z) (o o' : OBJECTS) : Prop :=
  if Mask B Scope =? 0 then k = 0 /\ o' = o
  else Fresh k o /\ o' = add_handle k (ScopeKey B Scope, Mask B Scope) o.

Lemma opened_key B Scope k o o' : Opened B Scope k o o' ->
  (if Mask B Scope =? 0 then k = 0
   else k <> 0 /\ k <> HKEY_CURRENT_USER /\ k <> HKEY_LOCAL_MACHINE /\ Handles o' !! k = Some (ScopeKey B Scope, Mask B Scope)) /\
  WithoutKey k o' = o.
Proof.
  unfold Opened. destruct (_ =? 0); intros [H1 ->]; [by subst k|]. split; [|by apply WithoutKey_add_handle].
  destruct H1 as (H0 & H1 & H2 & _). split_and!; [done..|]. apply add_handle_at.
Qed.

Lemma opened_both B k0 k1 o o1 o2 : Opened B CdiagGlobalScope k0 o o1 -> Opened B CdiagUserScope k1 o1 o2 ->
  let s := MkStore true [k0; k1] [Mask B CdiagGlobalScope; Mask B CdiagUserScope] true 0 0 0 0 in
  StoreOk B s o2 /\ Without s o2 = o.
Proof.
  intros H0 H1 s. pose proof (opened_key _ _ _ _ _ H0) as [HK0 HW0]. pose proof (opened_key _ _ _ _ _ H1) as [HK1 HW1].
  assert (k0 = 0 \/ k1 = 0 \/ k0 <> k1) as Hne.
  { destruct (Mask B CdiagGlobalScope =? 0); [by left|]. right. unfold Opened in H1.
    destruct (Mask B CdiagUserScope =? 0); [left; by destruct H1|right]. intros ->.
    destruct H1 as [(_ & _ & _ & Hn & _) _]. destruct HK0 as (_ & _ & _ & HK0). congruence. }
  assert (forall p, k0 <> 0 -> Handles o1 !! k0 = Some p -> Handles o2 !! k0 = Some p) as Hkeep.
  { intros p Hk Hp. unfold Opened in H1. destruct (Mask B CdiagUserScope =? 0); destruct H1 as [Hk1 ->]; [done|].
    cbn. rewrite lookup_insert_ne; [done|]. destruct Hk1 as [Hk1 _]. naive_solver. }
  split.
  - constructor; try done; intros Scope [-> | ->]; try done.
    change (Key s !!! KEY_INDEX_FOR_SCOPE CdiagGlobalScope) with k0. cbv zeta.
    destruct (Mask B CdiagGlobalScope =? 0); [done|]. destruct HK0 as (Hk & ? & ? & HK0). split_and!; [done..|]. by apply Hkeep.
  - unfold Without. cbn [s Key Event WaitHandle fold_left]. change (WithoutKey 0) with (fun o : OBJECTS => o). cbn [Z.eqb].
    unfold Opened in H1. destruct (Mask B CdiagUserScope =? 0); destruct H1 as [Hk1 ->]; [by subst k1|].
    rewrite WithoutKey_add_ne by (destruct Hk1 as [Hk1 _]; unfold WithoutKey; naive_solver). rewrite HW0.
    rewrite WithoutKey_add_handle; [done|]. rewrite <- HW0. by apply Fresh_drop.
Qed.

Lemma store_initialised h Keys Masks st (x : X) :
  (s <- load_store h ;;
   save_store h (MkStore true (Key s) (KeyAccessMask s) true (Event s) (WaitHandle s) (Function_ s) (Context_ s)) ;;;
   ret (S_OK, h)) (MkRW (<[h := Opening Keys Masks]> st) x) =
  Some ((S_OK, h), MkRW (<[h := MkStore true Keys Masks true 0 0 0 0]> st) x).
Proof.
  assert (load_store h (MkRW (<[h := Opening Keys Masks]> st) x) = Some (Opening Keys Masks, MkRW (<[h := Opening Keys Masks]> st) x))
    as E by (unfold load_store; cbn; by rewrite lookup_insert_eq).
  rewrite (bind_eq _ _ _ _ _ E), save_eq. cbn [Stores Os Opening Key KeyAccessMask Event WaitHandle Function_ Context_].
  by rewrite insert_insert_eq.
Qed.

Lemma failed_creation h (Hr : Z) Keys Masks st (x : X) : st !! h = None -> h <> 0 ->
  (CdiagsDeleteStore h ;;; ret (Hr, 0)) (MkRW (<[h := Opening Keys Masks]> st) x) = Some ((Hr, 0), MkRW st x).
Proof.
  intros Hn H0. unfold CdiagsDeleteStore, CdiagsIsValidRegStore. rewrite (proj2 (Z.eqb_neq _ _) H0).
  unfold bind, load_store, ret, modify. cbn. rewrite lookup_insert_eq. cbn. by rewrite delete_insert_id.
Qed.

(** What is left of a failed creation: at most the handle of a key. *)
Definition Left (o o' : OBJECTS) : Prop := o' = o \/ exists k p, Fresh k o /\ o' = add_handle k p o.

Lemma opened_left B Scope k o o' : Opened B Scope k o o' -> Left o o'.
Proof. unfold Opened, Left. destruct (_ =? 0); intros [H ->]; eauto. Qed.

(** The loop over both keys. *)
Lemma keys_opened h Name Mode st x : let B := MkStoreName Name Mode in
  exists Hr Keys Masks x', OpenKeys h Name Mode [0%nat; 1%nat] (MkRW (<[h := Opening [0; 0] [0; 0]]> st) x) =
    Some (Hr, MkRW (<[h := Opening Keys Masks]> st) x') /\ Same (Values x) (Values x') /\
  if FAILED Hr then Left (Objects x) (Objects x')
  else let s := MkStore true Keys Masks true 0 0 0 0 in StoreOk B s (Objects x') /\ Without s (Objects x') = Objects x.
Proof.
  intros B.
  destruct (key_opened h Name Mode CdiagGlobalScope 0 [1%nat] [0; 0] [0; 0] st x (or_introl eq_refl) eq_refl)
    as (r0 & x1 & [HV0 H0] & E). fold B in H0, E. cbv zeta in E. rewrite E. clear E. destruct r0 as [e|k0].
  { destruct H0 as [He EO]. eexists _, _, _, x1. split; [reflexivity|]. split; [done|].
    rewrite (proj1 (Win32_failed e He)). by left. }
  set (k0' := if Mask B CdiagGlobalScope =? 0 then 0 else k0).
  assert (Opened B CdiagGlobalScope k0' (Objects x) (Objects x1)) as HO0
    by (unfold Opened, k0'; destruct (_ =? 0); [by destruct H0|done]).
  replace (if Mask B CdiagGlobalScope =? 0 then [0; 0] else <[0%nat := k0]> [0; 0]) with [k0'; 0]
    by (unfold k0'; by destruct (_ =? 0)).
  destruct (key_opened h Name Mode CdiagUserScope 1 [] [k0'; 0] (<[0%nat := Mask B CdiagGlobalScope]> [0; 0]) st x1
    (or_intror eq_refl) eq_refl) as (r1 & x2 & [HV1 H1] & E). fold B in H1, E. cbv zeta in E. rewrite E. clear E.
  assert (Same (Values x) (Values x2)) as HV by (intros q n; by rewrite (HV1 q n)). destruct r1 as [e|k1].
  { destruct H1 as [He EO]. eexists _, _, _, x2. split; [reflexivity|]. split; [done|].
    rewrite (proj1 (Win32_failed e He)), EO. by eapply opened_left. }
  set (k1' := if Mask B CdiagUserScope =? 0 then 0 else k1).
  assert (Opened B CdiagUserScope k1' (Objects x1) (Objects x2)) as HO1
    by (unfold Opened, k1'; destruct (Mask B CdiagUserScope =? 0); [by destruct H1|done]).
  replace (if Mask B CdiagUserScope =? 0 then [k0'; 0] else <[1%nat := k1]> [k0'; 0]) with [k0'; k1']
    by (unfold k1'; by destruct (Mask B CdiagUserScope =? 0)).
  eexists S_OK, _, _, x2. split; [reflexivity|]. split; [done|]. by eapply opened_both.
Qed.

(** An early return. *)
Lemma not_created Hr B (w : RW X) : FAILED Hr = true ->
  ret (Hr, 0) w = Some ((Hr, 0), w) /\ Same (Values (Os w)) (Values (Os w)) /\
  if FAILED Hr then 0 = 0 /\ Stores w = Stores w /\ Left (Objects (Os w)) (Objects (Os w))
  else Hr = S_OK /\ exists s, Owns B 0 (Stores w) (Objects (Os w)) s w.
Proof. intros ->. split_and!; try done. by left. Qed.

Lemma store_created Name Mode w : exists Hr h w1,
  CdiagCreateRegistryStore CdiagpMalloc (Some Name) Mode true w = Some ((Hr, h), w1) /\
  Same (Values (Os w)) (Values (Os w1)) /\
  if FAILED Hr then h = 0 /\ Stores w1 = Stores w /\ Left (Objects (Os w)) (Objects (Os w1))
  else Hr = S_OK /\ exists s, Owns (MkStoreName Name Mode) h (Stores w) (Objects (Os w)) s w1.
Proof.
  set (B := MkStoreName Name Mode). unfold CdiagCreateRegistryStore.
  destruct (_ || _); [by exists E_INVALIDARG, 0, w; apply not_created|].
  rewrite bind_gets. cbv zeta. destruct (Z.eqb_spec (CdiagpMalloc (Stores w)) 0) as [E0|E0];
    [by exists E_OUTOFMEMORY, 0, w; apply not_created|].
  destruct (HMalloc (Stores w)) as [|Hn]; [done|]. set (h := CdiagpMalloc (Stores w)) in *. rewrite save_eq.
  change (MkStore false [0; 0] [0; 0] false 0 0 0 0) with (Opening [0; 0] [0; 0]).
  destruct (keys_opened h Name Mode (Stores w) (Os w)) as (Hr & Keys & Masks & x & E & HV & H).
  rewrite (bind_eq _ _ _ _ _ E). destruct (FAILED Hr) eqn:HF.
  - exists Hr, 0, (MkRW (Stores w) x). rewrite HF. split; [by apply failed_creation|done].
  - rewrite store_initialised. destruct H as [Ok HW]. eexists S_OK, h, _. split; [reflexivity|]. split; [done|].
    change (FAILED S_OK) with false. split; [done|]. eexists. by constructor.
Qed.

(** The life of a configuration store.  Creating one fails, and then at most one key
    handle is left over, or yields a store; whatever its clients do with it then - read,
    write and delete settings, register callbacks, be called back for changes - all the
    handles it opens are its own, and deleting it closes every one of them: a deletion
    that reports success leaves the objects of the process as they were before. *)
Theorem registry_store_life Name Mode w : exists Hr h w1,
  CdiagCreateRegistryStore CdiagpMalloc (Some Name) Mode true w = Some ((Hr, h), w1) /\
  Same (Values (Os w)) (Values (Os w1)) /\
  if FAILED Hr then h = 0 /\ Stores w1 = Stores w /\ Left (Objects (Os w)) (Objects (Os w1))
  else Serves (MkStoreName Name Mode) h w1 /\
    forall cs, Forall ProperStep cs -> exists w2 Hr' w3,
      steps h cs w1 = Some (tt, w2) /\ Serves (MkStoreName Name Mode) h w2 /\
      CdiagsDeleteStore h w2 = Some (Hr', w3) /\
      if FAILED Hr' then is_Some (Stores w3 !! h)
      else Stores w3 = Stores w /\ Objects (Os w3) = Objects (Os w).
Proof.
  destruct (store_created Name Mode w) as (Hr & h & w1 & E & HV & H). exists Hr, h, w1. split; [done|]. split; [done|].
  destruct (FAILED Hr); [done|]. destruct H as (_ & s & H). split; [by eapply owns_serves|]. intros cs HP.
  destruct (steps_own _ _ _ _ cs s w1 H HP) as (w2 & s2 & E2 & H2).
  destruct (store_deleted _ _ _ _ s2 w2 H2) as (Hr' & w3 & E3 & H3). exists w2, Hr', w3.
  split; [done|]. split; [by eapply owns_serves|]. split; [done|].
  destruct (FAILED Hr'); [|apply H3]. rewrite H3, lookup_insert_eq. by eexists.
Qed.
End life.

(** ** A registry in memory *)
Module Demo.
Record MEMORY_REGISTRY := MkMemoryRegistry {
  MemObjects : OBJECTS;
  MemContents : gmap PATH (gmap (list Z) VALUE);
  MemArmed : gset (Z * Z) }.
Local Abbreviation X := MEMORY_REGISTRY.

Definition with_objects (x : X) (o : OBJECTS) : X := MkMemoryRegistry o (MemContents x) (MemArmed x).
Definition with_contents (x : X) c : X := MkMemoryRegistry (MemObjects x) c (MemArmed x).
Definition lower (l : list Z) : list Z := (fun c => if (65 <=? c) && (c <=? 90) then c + 32 else c) <$> l.
Definition Used (o : OBJECTS) : gset Z := dom (Handles o) ∪ Events o ∪ {[HKEY_CURRENT_USER; HKEY_LOCAL_MACHINE]}.
Definition next_handle (x : X) : Z := NextBlock (Used (MemObjects x)).
Definition next_wait (x : X) : Z := NextBlock (dom (Waits (MemObjects x))).

Lemma next_fresh x : Fresh (next_handle x) (MemObjects x).
Proof.
  destruct (NextBlock_fresh (Used (MemObjects x))) as [H0 H]. fold (next_handle x) in *. unfold Used in H.
  repeat rewrite not_elem_of_union in H. destruct H as [[H1 H2] [H3 H4]].
  rewrite not_elem_of_dom in H1. rewrite not_elem_of_singleton in H3, H4. done.
Qed.

Definition mem_open (h : Z) (n : list Z) (a : Z) : ST X (Z + Z) := fun x =>
  match KeyOf (MemObjects x) h with
  | None => Some (inl 6, x)
  | Some p =>
      match MemContents x !! Below lower p n with
      | None => Some (inl ERROR_FILE_NOT_FOUND, x)
      | Some _ => Some (inr (next_handle x), with_objects x (add_handle (next_handle x) (Below lower p n, a) (MemObjects x)))
      end
  end.

Definition mem_create (h : Z) (n : list Z) (a : Z) : ST X (Z + Z) := fun x =>
  match KeyOf (MemObjects x) h with
  | None => Some (inl 6, x)
  | Some p =>
      let q := Below lower p n in
      let c := match MemContents x !! q with Some _ => MemContents x | None => <[q := ∅]> (MemContents x) end in
      Some (inr (next_handle x), with_objects (with_contents x c) (add_handle (next_handle x) (q, a) (MemObjects x)))
  end.

(** An operation on the values of an open key. *)
Definition on_key {A} (h : Z) (Bad : A) (f : PATH -> Z -> gmap (list Z) VALUE -> ST X A) : ST X A := fun x =>
  match Handles (MemObjects x) !! h with
  | Some (q, a) => match MemContents x !! q with Some m => f q a m x | None => Some (Bad, x) end
  | None => Some (Bad, x)
  end.

Definition mem_set (h : Z) (n : list Z) (t : Z) (d : list Z) : ST X Z := on_key h 6 (fun q a m x =>
  if FlagOn a KEY_SET_VALUE then Some (0, with_contents x (<[q := <[lower n := (t, d)]> m]> (MemContents x)))
  else Some (ERROR_ACCESS_DENIED, x)).
Definition mem_delete (h : Z) (n : list Z) : ST X Z := on_key h 6 (fun q a m x =>
  if FlagOn a KEY_SET_VALUE then
    match m !! lower n with
    | Some _ => Some (0, with_contents x (<[q := delete (lower n) m]> (MemContents x)))
    | None => Some (ERROR_FILE_NOT_FOUND, x)
    end
  else Some (ERROR_ACCESS_DENIED, x)).
Definition mem_query (h : Z) (n Buf : list Z) (len : Z) : ST X (Z * Z * list Z * Z) := on_key h (6, 0, Buf, 0) (fun q a m x =>
  if FlagOn a KEY_QUERY_VALUE then
    match m !! lower n with
    | Some (t, d) => Some (if lenZ d <=? len then (0, t, d ++ drop (length d) Buf, lenZ d) else (ERROR_MORE_DATA, t, Buf, lenZ d), x)
    | None => Some (ERROR_FILE_NOT_FOUND, 0, Buf, 0, x)
    end
  else Some (ERROR_ACCESS_DENIED, 0, Buf, 0, x)).

Definition mem_close_key (h : Z) : ST X Z := fun x =>
  match Handles (MemObjects x) !! h with
  | Some _ => Some (0, with_objects x (drop_handle h (MemObjects x)))
  | None => Some (6, x)
  end.
Definition mem_notify (h ev : Z) : ST X Z := fun x =>
  match Handles (MemObjects x) !! h with
  | Some k => if FlagOn (snd k) KEY_NOTIFY && bool_decide (ev ∈ Events (MemObjects x))
              then Some (0, MkMemoryRegistry (MemObjects x) (MemContents x) (MemArmed x ∪ {[(h, ev)]}))
              else Some (ERROR_ACCESS_DENIED, x)
  | None => Some (6, x)
  end.
Definition mem_event : ST X (Z + Z) := fun x =>
  Some (inr (next_handle x), with_objects x (add_event (next_handle x) (MemObjects x))).
Definition mem_wait (ev cb c : Z) : ST X (Z + Z) := fun x =>
  if bool_decide (ev ∈ Events (MemObjects x))
  then Some (inr (next_wait x), with_objects x (add_wait (next_wait x) (ev, cb, c) (MemObjects x)))
  else Some (inl 6, x).
Definition mem_unwait (h : Z) : ST X Z := fun x =>
  match Waits (MemObjects x) !! h with
  | Some _ => Some (0, with_objects x (drop_wait h (MemObjects x)))
  | None => Some (6, x)
  end.
Definition mem_close (h : Z) : ST X Z := fun x =>
  if bool_decide (is_Some (Handles (MemObjects x) !! h)) || bool_decide (h ∈ Events (MemObjects x))
  then Some (0, with_objects x (drop_handle h (MemObjects x)))
  else Some (6, x).

#[export] Instance memory_registry : Registry X := MkRegistry X mem_open mem_create mem_close_key mem_delete mem_set
  mem_query mem_notify mem_event (fun _ => ret true) mem_wait (fun h => e <- mem_unwait h ;; ret (e =? 0)) mem_unwait mem_close.

Lemma err e : 0 < e < 1000 -> Win32 e.
Proof. unfold Win32. lia. Qed.

Lemma mem_create_law h n a p x : KeyOf (MemObjects x) h = Some p -> exists r x',
  mem_create h n a x = Some (r, x') /\
  match r with
  | inl e => Win32 e /\ MemObjects x' = MemObjects x /\ MemContents x' = MemContents x /\ MemArmed x' = MemArmed x
  | inr k =>
      Fresh k (MemObjects x) /\ MemObjects x' = add_handle k (Below lower p n, a) (MemObjects x) /\
      is_Some (MemContents x' !! Below lower p n) /\
      forall q, match MemContents x !! q with
                | Some m => MemContents x' !! q = Some m
                | None => MemContents x' !! q = None \/ MemContents x' !! q = Some ∅
                end
  end.
Proof.
  intros Hp. unfold mem_create. rewrite Hp. eexists _, _. split; [reflexivity|]. cbn. split; [apply next_fresh|]. split; [done|].
  set (q := Below lower p n). destruct (MemContents x !! q) as [m|] eqn:Hq.
  - split; [by rewrite Hq|]. intros q'. destruct (MemContents x !! q') eqn:E; [done|by left].
  - split; [by rewrite lookup_insert_eq|]. intros q'. destruct (decide (q' = q)) as [->|Hne].
    + rewrite Hq, lookup_insert_eq. by right.
    + rewrite lookup_insert_ne by done. destruct (MemContents x !! q'); [done|by left].
Qed.

#[export] Instance memory_laws : RegistryLaws X.
Proof.
  refine (MkRegistryLaws X memory_registry MemObjects MemContents MemArmed lower (fun _ _ => true) _ _ _ _ _ _ _ _ _ _ _ _ _).
  - intros h n a p x Hp. cbn. unfold mem_open. rewrite Hp. destruct (MemContents x !! _); eexists _, _; (split; [reflexivity|]);
      split_and!; try done. eexists. split; [done|]. split; [apply next_fresh|done].
  - exact mem_create_law.
  - intros h n t d q a m x Hh Hm. cbn. unfold mem_set, on_key. rewrite Hh, Hm.
    destruct (FlagOn a KEY_SET_VALUE); eexists _, _; (split; [reflexivity|]); done.
  - intros h n q a m x Hh Hm. cbn. unfold mem_delete, on_key. rewrite Hh, Hm.
    destruct (FlagOn a KEY_SET_VALUE); [destruct (m !! lower n) eqn:E|]; eexists _, _; (split; [reflexivity|]); done.
  - intros h n Buf q a m x Hh Hm. cbn. unfold mem_query, on_key. rewrite Hh, Hm.
    destruct (FlagOn a KEY_QUERY_VALUE); [destruct (m !! lower n) as [[t d]|]|].
    + destruct (Z.leb_spec (lenZ d) (lenZ Buf)) as [HL|]; eexists _, _, _, _, _; (split; [reflexivity|]); split_and!; try done.
      unfold lenZ in HL. rewrite length_app, length_drop. lia.
    + eexists _, _, _, _, _; (split; [reflexivity|]); done.
    + eexists _, _, _, _, _; (split; [reflexivity|]); done.
  - intros h k x Hh. cbn. unfold mem_close_key. rewrite Hh. by eexists.
  - intros h ev k x Hh. cbn. unfold mem_notify. rewrite Hh.
    destruct (_ && _); eexists _, _; (split; [reflexivity|]); done.
  - intros x. eexists _, _. split; [reflexivity|]. split_and!; try done; apply next_fresh.
  - intros h x. by eexists _, x.
  - intros ev cb c x. cbn. unfold mem_wait. destruct (bool_decide_reflect (ev ∈ Events (MemObjects x)));
      eexists _, _; (split; [reflexivity|]); [|done]. destruct (NextBlock_fresh (dom (Waits (MemObjects x)))) as [H0 H].
    fold (next_wait x) in *. rewrite not_elem_of_dom in H. done.
  - intros h x. cbn. unfold mem_unwait. destruct (Waits (MemObjects x) !! h); eexists _, _; (split; [reflexivity|]); cbn; by eauto.
  - intros h x Hh. cbn. unfold mem_close. rewrite (bool_decide_true (h ∈ _)), orb_true_r by done. by eexists.
  - intros h x. cbn. unfold mem_close.
    destruct (bool_decide_reflect (is_Some (Handles (MemObjects x) !! h))); [|destruct (bool_decide_reflect (h ∈ Events (MemObjects x)))];
      cbn [orb]; eexists _, _; (split; [reflexivity|]); cbn; by auto.
Defined.

(** *** A store in it *)
Definition alloc (st : gmap Z STORE) : Z := NextBlock (dom st).
Definition empty : RW X := MkRW ∅ (MkMemoryRegistry (MkObjects ∅ ∅ ∅) ∅ ∅).
Definition software : STORE_NAME := MkStoreName [83; 92; 99] CDIAG_CFGS_ACCESS_ALL.
Definition created : option ((Z * Z) * RW X) :=
  CdiagCreateRegistryStore alloc (Some (BaseKey software)) (Mode software) true empty.
Definition store_ : Z := match created with Some ((_, h), _) => h | None => 0 end.
Definition world : RW X := match created with Some (_, w) => w | None => empty end.

Lemma alloc_ok st : alloc st = 0 \/ st !! alloc st = None.
Proof. right. apply not_elem_of_dom, NextBlock_fresh. Qed.

Lemma world_serves : Serves software store_ world.
Proof.
  destruct (store_created alloc alloc_ok (BaseKey software) (Mode software) empty) as (Hr & h & w & E & _ & H).
  assert (exists w, created = Some ((S_OK, store_), w)) as [w' E'] by (vm_compute; by eexists).
  unfold world, created in *. rewrite E in *. injection E' as -> -> <-. destruct H as (_ & s & H). by eapply owns_serves.
Qed.

Definition grp : list Z := [71; 114; 112].
Definition num : list Z := [110; 117; 109].
Definition txt : list Z := [116; 120; 116].

Definition calls : list CALL :=
  [ReadDword (Some grp) (Some num) CdiagEffectiveScope;
   WriteDword (Some grp) (Some num) CdiagGlobalScope 7;
   ReadDword (Some grp) (Some [78; 85; 77]) CdiagEffectiveScope;
   WriteDword (Some grp) (Some num) CdiagUserScope 0x12345678;
   ReadDword (Some grp) (Some num) CdiagEffectiveScope;
   ReadDword (Some grp) (Some num) CdiagGlobalScope;
   WriteText false (Some grp) (Some txt) CdiagUserScope [72; 105; 0; 99];
   ReadText false (Some grp) (Some txt) CdiagUserScope (replicate 8 1);
   ReadText false (Some grp) (Some txt) CdiagUserScope (replicate 4 1);
   ReadDword (Some grp) (Some txt) CdiagUserScope;
   DeleteValue (Some grp) (Some num) CdiagUserScope;
   ReadDword (Some grp) (Some num) CdiagEffectiveScope;
   WriteDword (Some grp) (Some num) CdiagEffectiveScope 1;
   WriteDword (Some [97; 92; 98]) (Some num) CdiagUserScope 1].

Example calls_results : fst <$> exec_all store_ calls world = Some
  [DwordRead CDIAG_E_SETTING_NOT_FOUND 0; Done S_OK; DwordRead S_OK 7; Done S_OK; DwordRead S_OK 0x12345678;
   DwordRead S_OK 7; Done S_OK; TextRead S_OK [72; 0; 105; 0; 0; 0; 1; 1] 6;
   TextRead CDIAG_E_BUFFER_TOO_SMALL [1; 1; 1; 1] 6; DwordRead CDIAG_E_SETTING_MISMATCH 0; Done S_OK; DwordRead S_OK 7;
   Done E_INVALIDARG; Done E_INVALIDARG].
Proof. by vm_compute. Qed.

Lemma calls_proper : Forall Proper calls.
Proof. repeat constructor; try (by vm_compute); [by exists 4%nat|by exists 2%nat]. Qed.

Lemma settings_refine_witness : Serves software store_ world /\ exists rs w', exec_all store_ calls world = Some (rs, w') /\
  Serves software store_ w' /\ Objects (Os w') = Objects (Os world) /\
  BehavesAll software (Values (Os world)) calls rs (Values (Os w')).
Proof. split; [exact world_serves|]. exact (settings_refine software store_ world calls world_serves calls_proper). Defined.

Definition texts : SETTING := StringsSetting [[72; 105]; [121; 111; 117]].
Definition others : list CALL := [WriteDword (Some grp) (Some num) CdiagUserScope 1; DeleteValue (Some grp) (Some txt) CdiagGlobalScope].

Lemma others_elsewhere : Forall (Elsewhere CdiagUserScope grp txt) others.
Proof. repeat constructor; intros s g' n' [= <- <- <-] (H1 & H2 & H3); by vm_compute in *. Qed.

Lemma room : Room texts (replicate 20 0).
Proof. exists 10%nat. split_and!; [done|lia|by vm_compute|cbn; lia]. Qed.

Lemma texts_plain : Plain texts.
Proof.
  split; [|by vm_compute]. repeat constructor; try done; cbn; unfold MAX_REG_VALUE_CCH;
    rewrite ?elem_of_cons, ?elem_of_nil; naive_solver lia.
Qed.

Lemma may_read sc : sc = CdiagGlobalScope \/ sc = CdiagUserScope -> FlagOn CdiagEffectiveScope sc = true ->
  CanRead software sc grp = true.
Proof. by intros [-> | ->]. Qed.

Lemma setting_reads_back_witness : exists Hr w1, exec store_ (WriteOf texts grp txt CdiagUserScope [9]) world = Some (Done Hr, w1) /\
  if FAILED Hr then Same (Values (Os world)) (Values (Os w1))
  else exists rs w2 r w3, exec_all store_ others w1 = Some (rs, w2) /\
    exec store_ (ReadOf texts grp txt CdiagEffectiveScope (replicate 20 0)) w2 = Some (r, w3) /\ ReadBack texts r.
Proof.
  apply (setting_reads_back software store_ world texts grp txt CdiagUserScope [9] others CdiagEffectiveScope (replicate 20 0)).
  - exact world_serves.
  - exact texts_plain.
  - reflexivity.
  - reflexivity.
  - repeat constructor.
  - exact others_elsewhere.
  - exact room.
  - right. split; reflexivity.
  - exact may_read.
Defined.

(** A life: a callback is registered, settings change, the system calls back. *)
Definition life : list STEP := [RegisterUpdateCallback 100 5; Call (WriteDword (Some grp) (Some num) CdiagUserScope 1); Changed;
  RegisterUpdateCallback 0 0].
Definition invoke (f c : Z) : ST X unit := ret tt.

Lemma registry_store_life_witness : exists Hr h w1,
  CdiagCreateRegistryStore alloc (Some (BaseKey software)) (Mode software) true empty = Some ((Hr, h), w1) /\
  Same (Values (Os empty)) (Values (Os w1)) /\
  if FAILED Hr then h = 0 /\ Stores w1 = Stores empty /\ Left (Objects (Os empty)) (Objects (Os w1))
  else Serves software h w1 /\
    forall cs, Forall ProperStep cs -> exists w2 Hr' w3,
      steps 900 invoke h cs w1 = Some (tt, w2) /\ Serves software h w2 /\
      CdiagsDeleteStore h w2 = Some (Hr', w3) /\
      if FAILED Hr' then is_Some (Stores w3 !! h)
      else Stores w3 = Stores empty /\ Objects (Os w3) = Objects (Os empty).
Proof.
  exact (registry_store_life alloc 900 invoke alloc_ok (fun f c x => ex_intro _ x (conj eq_refl eq_refl))
    (BaseKey software) (Mode software) empty).
Defined.

(** The second key is not watched before the first change; in this life it is in the end. *)
Example life_watched : (fun r => MemArmed (Os (snd r))) <$> steps 900 invoke store_ (take 1 life) world =
  Some {[(nth 0 (Key (default (MkStore false [] [] false 0 0 0 0) (Stores world !! store_))) 0,
          Event (default (MkStore false [] [] false 0 0 0 0)
            (r ← steps 900 invoke store_ (take 1 life) world; Stores (snd r) !! store_)))]}.
Proof. by vm_compute. Qed.

Example life_returns : (fun r => (fst (fst r), map_size (Stores (snd r)), MemObjects (Os (snd r)))) <$>
  (steps 900 invoke store_ life ;;; r <- CdiagsDeleteStore store_ ;; ret (r, tt)) world =
  Some (S_OK, 0%nat, MkObjects ∅ ∅ ∅).
Proof. by vm_compute. Qed.
End Demo.
