(* ===== verification/PeQuery.v ===== *)
(** * Queries of image files (cfix/cfix/pequery.c)

    A file is mapped and its headers are read, without loading it.  A mapped file is
    the list of its bytes and a pointer into it an offset; reading outside of it has
    no outcome.  The theorem is a round trip: what is found out about an image that
    was laid out by the rules of the format is what it was made of. *)
From stdpp Require Import base gmap list strings.
From Stdlib Require Import ZArith Lia Ascii.
From S2P Require Import Prelude PeModule IoBuffer.
Local Open Scope Z_scope.
Local Open Scope cfix_scope.

Definition ERROR_BAD_EXE_FORMAT : Z := 193.
Definition IMAGE_DOS_SIGNATURE : Z := 0x5A4D.
Definition IMAGE_NT_SIGNATURE : Z := 0x4550.
Definition IMAGE_NT_OPTIONAL_HDR32_MAGIC : Z := 0x10B.
Definition IMAGE_NT_OPTIONAL_HDR64_MAGIC : Z := 0x20B.
Definition IMAGE_FILE_DLL : Z := 0x2000.
Definition IMAGE_SUBSYSTEM_NATIVE : Z := 1.

(* src/include/cfixapi.h:609-614 (CFIX_MODULE_TYPE) *)
Inductive CFIX_MODULE_TYPE := CfixModuleDll | CfixModuleExe | CfixModuleDriver.

(** The [SizeOfStruct] member is an argument of the query. *)
(* src/include/cfixapi.h:616-633 (CFIX_MODULE_INFO) *)
Record CFIX_MODULE_INFO := MkInfo {
  MachineType : Z;
  Subsystem : Z;
  FixtureExportsPresent : bool;
  ModuleType : CFIX_MODULE_TYPE }.

(** ** Reading the view of a file *)
Section view.
Context (V : list Z).

Definition read (w : nat) (off : Z) : option Z :=
  if (0 <=? off) && (off + Z.of_nat w <=? lenZ V) then Some (of_bytes (take w (drop (Z.to_nat off) V))) else None.

(** A string up to its terminator. *)
Fixpoint string_at (l : list Z) : option string :=
  match l with
  | [] => None
  | c :: l => if c =? 0 then Some EmptyString else s ← string_at l; Some (String (ascii_of_N (Z.to_N c)) s)
  end.

Definition read_string (off : Z) : option string :=
  if (0 <=? off) && (off <=? lenZ V) then string_at (drop (Z.to_nat off) V) else None.

(** [IMAGE_FIRST_SECTION( NtHeader )] *)
Definition FirstSection (NtHeader : Z) : option Z :=
  SizeOfOptionalHeader ← read 2 (NtHeader + 20); Some (NtHeader + 24 + SizeOfOptionalHeader).

(** The loop over the section headers. *)
(* src/cfix/cfix/pequery.c:42-55 (CfixPtrFromVaNonRelocated) *)
Fixpoint FindSection (Count : nat) (SectionHeader Va : Z) : option (option Z) :=
  match Count with
  | O => Some None
  | S Count =>
      VirtualAddress ← read 4 (SectionHeader + 12);
      if VirtualAddress <=? Va then
        VirtualSize ← read 4 (SectionHeader + 8);
        if Va <? ULONG (VirtualAddress + VirtualSize) then
          PointerToRawData ← read 4 (SectionHeader + 20);
          Some (Some (ULONG (PointerToRawData + (Va - VirtualAddress))))
        else FindSection Count (SectionHeader + 40) Va
      else FindSection Count (SectionHeader + 40) Va
  end.

(** [Some None] is a NULL pointer. *)
(* src/cfix/cfix/pequery.c:28-58 (CfixPtrFromVaNonRelocated) *)
Definition CfixPtrFromVaNonRelocated (NtHeader Va : Z) : option (option Z) :=
  SectionHeader ← FirstSection NtHeader;
  SectionCount ← read 2 (NtHeader + 6);
  FindSection (Z.to_nat SectionCount) SectionHeader Va.

(** The data directory of exports, the subsystem, and whether it is a 64-bit image. *)
(* src/cfix/cfix/pequery.c:60-97 (CfixsQueryOptionalHeader) *)
Definition CfixsQueryOptionalHeader (NtHeader : Z) : option (option (Z * Z * bool)) :=
  let OptHeader := NtHeader + 24 in
  Magic ← read 2 OptHeader;
  if Magic =? IMAGE_NT_OPTIONAL_HDR32_MAGIC then
    Subsystem ← read 2 (OptHeader + 68); Some (Some (OptHeader + 96, Subsystem, false))
  else if Magic =? IMAGE_NT_OPTIONAL_HDR64_MAGIC then
    Subsystem ← read 2 (OptHeader + 68); Some (Some (OptHeader + 112, Subsystem, true))
  else Some None.

(** The loop over the names. *)
(* src/cfix/cfix/pequery.c:155-177 (CfixsQueryPeImage) *)
Fixpoint AnyFixtureExport (NtHeader : Z) (Win64 : bool) (NamesRvaArray : Z) (Count : nat) : option bool :=
  match Count with
  | O => Some false
  | S Count =>
      NameRva ← read 4 NamesRvaArray;
      p ← CfixPtrFromVaNonRelocated NtHeader NameRva;
      match p with
      | None => AnyFixtureExport NtHeader Win64 (NamesRvaArray + 4) Count
      | Some p =>
          Name ← read_string p;
          if (Win64 && CfixpIsFixtureExport64 Name) || (negb Win64 && CfixpIsFixtureExport32 Name) then Some true
          else AnyFixtureExport NtHeader Win64 (NamesRvaArray + 4) Count
      end
  end.

(** Whether the export directory at a pointer names a fixture. *)
(* src/cfix/cfix/pequery.c:136-181 (CfixsQueryPeImage) *)
Definition QueryExports (NtHeader : Z) (Win64 : bool) (ExportDir : Z) : option bool :=
  AddressOfNames ← read 4 (ExportDir + 32);
  NamesRvaArray ← CfixPtrFromVaNonRelocated NtHeader AddressOfNames;
  AddressOfFunctions ← read 4 (ExportDir + 28);
  FunctionRvaArray ← CfixPtrFromVaNonRelocated NtHeader AddressOfFunctions;
  match NamesRvaArray, FunctionRvaArray with
  | Some Names, Some _ =>
      NumberOfFunctions ← read 4 (ExportDir + 20);
      if 0 <? NumberOfFunctions then
        NumberOfNames ← read 4 (ExportDir + 24);
        AnyFixtureExport NtHeader Win64 Names (Z.to_nat NumberOfNames)
      else Some false
  | _, _ => Some false
  end.

(** The result, and [Info] as it is left. *)
(* src/cfix/cfix/pequery.c:99-185 (CfixsQueryPeImage) *)
Definition CfixsQueryPeImage (NtHeader : Z) (Info : CFIX_MODULE_INFO) : option (Z * CFIX_MODULE_INFO) :=
  o ← CfixsQueryOptionalHeader NtHeader;
  match o with
  | None => Some (HRESULT_FROM_WIN32 ERROR_BAD_EXE_FORMAT, MkInfo (MachineType Info) (Subsystem Info) false (ModuleType Info))
  | Some (ExportDataDir, Subsystem, Win64) =>
      Characteristics ← read 2 (NtHeader + 22);
      let ModuleType := if FlagOn Characteristics IMAGE_FILE_DLL then CfixModuleDll
                        else if Subsystem =? IMAGE_SUBSYSTEM_NATIVE then CfixModuleDriver else CfixModuleExe in
      VirtualAddress ← read 4 ExportDataDir;
      ExportDir ← CfixPtrFromVaNonRelocated NtHeader VirtualAddress;
      Found ← match ExportDir with None => Some false | Some d => QueryExports NtHeader Win64 d end;
      Some (S_OK, MkInfo (MachineType Info) Subsystem Found ModuleType)
  end.

(** What is done with the view. *)
(* src/cfix/cfix/pequery.c:245-268 (CfixQueryPeImage) *)
Definition QueryView (Info : CFIX_MODULE_INFO) : option (Z * CFIX_MODULE_INFO) :=
  Magic ← read 2 0;
  if negb (Magic =? IMAGE_DOS_SIGNATURE) then Some (HRESULT_FROM_WIN32 ERROR_BAD_EXE_FORMAT, Info)
  else
    lfanew ← read 4 60;
    let NtHeader := LONG lfanew in
    Signature ← read 4 NtHeader;
    if negb (Signature =? IMAGE_NT_SIGNATURE) then Some (HRESULT_FROM_WIN32 ERROR_BAD_EXE_FORMAT, Info)
    else
      Machine ← read 2 (NtHeader + 4);
      CfixsQueryPeImage NtHeader (MkInfo Machine (Subsystem Info) (FixtureExportsPresent Info) (ModuleType Info)).
End view.

(** ** The query *)
(** What opens something yields an error or a handle, or the address of a view and what
    is there. *)
Class FileSystem (X : Type) := MkFileSystem {
  CreateFile : string -> ST X (Z + Z);
  CreateFileMapping : Z -> ST X (Z + Z);
  MapViewOfFile : Z -> ST X (Z + Z * list Z);
  UnmapViewOfFile : Z -> ST X bool;
  CloseHandle : Z -> ST X bool }.

Section query.
Context {X : Type} {FS : FileSystem X}.

Definition lift_view {A} (r : option A) : ST X A := match r with Some a => ret a | None => fault end.

(** [Path] is [None] for NULL; [InfoOk] that the structure is there and has its size. *)
(* src/cfix/cfix/pequery.c:187-289 (CfixQueryPeImage) *)
Definition CfixQueryPeImage (Path : option string) (InfoOk : bool) (Info : CFIX_MODULE_INFO) : ST X (Z * CFIX_MODULE_INFO) :=
  match Path with
  | None => ret (E_INVALIDARG, Info)
  | Some Path =>
      if negb InfoOk then ret (E_INVALIDARG, Info)
      else
        f <- CreateFile Path ;;
        match f with
        | inl e => ret (HRESULT_FROM_WIN32 e, Info)
        | inr File =>
            m <- CreateFileMapping File ;;
            r <- match m with
                 | inl e => ret (HRESULT_FROM_WIN32 e, Info)
                 | inr FileMapping =>
                     v <- MapViewOfFile FileMapping ;;
                     r <- match v with
                          | inl e => ret (HRESULT_FROM_WIN32 e, Info)
                          | inr (DosHeader, V) =>
                              r <- lift_view (QueryView V Info) ;;
                              b <- UnmapViewOfFile DosHeader ;; assert_ b ;;; ret r
                          end ;;
                     b <- CloseHandle FileMapping ;; assert_ b ;;; ret r
                 end ;;
            b <- CloseHandle File ;; assert_ b ;;; ret r
        end
  end.
End query.

(** Files have contents; the handles and views of a process are of them. *)
Class FileSystemLaws (X : Type) {FS : FileSystem X} := MkFileSystemLaws {
  Contents : X -> string -> list Z;
  Handles : X -> gmap Z (list Z);
  Views : X -> gmap Z (list Z);
  create_file_law p x : exists r x', CreateFile p x = Some (r, x') /\ Contents x' = Contents x /\ Views x' = Views x /\
    match r with
    | inl e => e <> 0 /\ Handles x' = Handles x
    | inr h => Handles x !! h = None /\ Handles x' = <[h := Contents x p]> (Handles x)
    end;
  create_mapping_law h V x : Handles x !! h = Some V -> exists r x',
    CreateFileMapping h x = Some (r, x') /\ Contents x' = Contents x /\ Views x' = Views x /\
    match r with
    | inl e => e <> 0 /\ Handles x' = Handles x
    | inr m => Handles x !! m = None /\ Handles x' = <[m := V]> (Handles x)
    end;
  map_view_law h V x : Handles x !! h = Some V -> exists r x',
    MapViewOfFile h x = Some (r, x') /\ Contents x' = Contents x /\ Handles x' = Handles x /\
    match r with
    | inl e => e <> 0 /\ Views x' = Views x
    | inr (a, W) => W = V /\ Views x !! a = None /\ Views x' = <[a := V]> (Views x)
    end;
  unmap_law a x : is_Some (Views x !! a) -> exists x',
    UnmapViewOfFile a x = Some (true, x') /\ Contents x' = Contents x /\ Handles x' = Handles x /\ Views x' = delete a (Views x);
  close_law h x : is_Some (Handles x !! h) -> exists x',
    CloseHandle h x = Some (true, x') /\ Contents x' = Contents x /\ Views x' = Views x /\ Handles x' = delete h (Handles x) }.

Section released.
Context {X : Type} {FS : FileSystem X} {Laws : FileSystemLaws X}.

(** The query returns what [QueryView] finds in the file, or the error of the system,
    and everything that was opened is closed again. *)
Lemma query_released Path Info x r : QueryView (Contents x Path) Info = Some r -> exists r' x',
  CfixQueryPeImage (Some Path) true Info x = Some (r', x') /\ Handles x' = Handles x /\ Views x' = Views x /\
  (r' = r \/ FAILED (fst r') = true /\ snd r' = Info).
Proof.
  intros HQ. unfold CfixQueryPeImage. cbn [negb].
  destruct (create_file_law Path x) as ([e|f] & x1 & E1 & EC1 & EV1 & H1); rewrite (bind_eq _ _ _ _ _ E1).
  { destruct H1 as [He EH]. eexists _, x1. split; [reflexivity|]. split_and!; [done..|]. right. cbn [fst snd]. by rewrite FAILED_from_win32. }
  destruct H1 as [Hf EH1]. assert (Handles x1 !! f = Some (Contents x Path)) as Hf1 by (rewrite EH1; apply lookup_insert_eq).
  destruct (create_mapping_law f _ x1 Hf1) as (m & x2 & E2 & EC2 & EV2 & H2).
  set (Good := fun r' x' => Handles x' = Handles x1 /\ Views x' = Views x /\
    (r' = r \/ FAILED (fst r') = true /\ snd r' = Info)).
  assert (forall (M : ST X (Z * CFIX_MODULE_INFO)), Runs M x1 Good ->
    exists r' x', (r <- M ;; b <- CloseHandle f ;; assert_ b ;;; ret r) x1 = Some (r', x') /\ Handles x' = Handles x /\
      Views x' = Views x /\ (r' = r \/ FAILED (fst r') = true /\ snd r' = Info)) as Hclose.
  { intros M (r' & x3 & E3 & EH3 & EV3 & Hr). rewrite (bind_eq _ _ _ _ _ E3).
    destruct (close_law f x3) as (x4 & E4 & _ & EV4 & EH4); [rewrite EH3, Hf1; by eexists|].
    rewrite (bind_eq _ _ _ _ _ E4). exists r', x4. split; [done|]. split; [|split; [congruence|done]].
    by rewrite EH4, EH3, EH1, delete_insert_id. }
  rewrite <- bind_assoc. apply Hclose. apply Runs_bind. eexists _, x2. split; [exact E2|].
  destruct m as [e|m].
  { apply Runs_ret. destruct H2 as [He EH]. split_and!; [done|congruence|]. right. cbn [fst snd]. by rewrite FAILED_from_win32. }
  destruct H2 as [Hm EH2]. assert (Handles x2 !! m = Some (Contents x Path)) as Hm2 by (rewrite EH2; apply lookup_insert_eq).
  destruct (map_view_law m _ x2 Hm2) as (v & x3 & E3 & EC3 & EH3 & H3). apply Runs_bind. eexists _, x3. split; [exact E3|].
  assert (exists r' x4, match v with
    | inl e => ret (HRESULT_FROM_WIN32 e, Info)
    | inr (DosHeader, V) => r <- lift_view (QueryView V Info) ;; b <- UnmapViewOfFile DosHeader ;; assert_ b ;;; ret r
    end x3 = Some (r', x4) /\ Handles x4 = Handles x2 /\ Views x4 = Views x /\ (r' = r \/ FAILED (fst r') = true /\ snd r' = Info))
    as (r' & x4 & E4 & EH4 & EV4 & Hr).
  { destruct v as [e|[a V]].
    - destruct H3 as [He EV]. eexists _, x3. split; [reflexivity|]. split_and!; [done|congruence|]. right. cbn [fst snd]. by rewrite FAILED_from_win32.
    - destruct H3 as (-> & Ha & EV3). rewrite HQ. cbn [lift_view]. rewrite bind_ret.
      destruct (unmap_law a x3) as (x4 & E4 & _ & EH4 & EV4); [rewrite EV3, lookup_insert_eq; by eexists|].
      rewrite (bind_eq _ _ _ _ _ E4). exists r, x4. split; [done|]. split; [congruence|]. split; [|by left].
      rewrite EV4, EV3, delete_insert_id by done. congruence. }
  apply Runs_bind. exists r', x4. split; [exact E4|].
  destruct (close_law m x4) as (x5 & E5 & _ & EV5 & EH5); [rewrite EH4, Hm2; by eexists|].
  exists r', x5. rewrite (bind_eq _ _ _ _ _ E5). split; [done|]. split; [|split; [congruence|done]].
  by rewrite EH5, EH4, EH2, delete_insert_id.
Qed.
End released.

(** ** Images, laid out *)
(** What an image is made of.  A section has an address, a size and a position in the
    file; the export directory, with the names, gets one of its own, the last. *)
Record PE := MkPe {
  PeMachine : Z;
  PeWin64 : bool;
  PeSubsystem : Z;
  PeCharacteristics : Z;
  PeSections : list (Z * Z * Z);
  PeExports : option (list string);
  ExportsVa : Z }.

Definition zeros (n : nat) : list Z := replicate n 0.

Fixpoint string_bytes (s : string) : list Z :=
  match s with EmptyString => [] | String c s => Z.of_N (N_of_ascii c) :: string_bytes s end.

(** Names, one after the other, and their addresses. *)
Definition NameBytes (names : list string) : list Z := mjoin ((fun s => string_bytes s ++ [0]) <$> names).
Fixpoint NameVas (Va : Z) (names : list string) : list Z :=
  match names with [] => [] | s :: names => Va :: NameVas (Va + Z.of_nat (String.length s) + 1) names end.
Definition DwordBytes (l : list Z) : list Z := mjoin (bytes_of 4 <$> l).

Definition ExportBytes (Va : Z) (names : list string) : list Z :=
  let n := Z.of_nat (length names) in
  zeros 20 ++ bytes_of 4 n ++ bytes_of 4 n ++ bytes_of 4 (Va + 40) ++ bytes_of 4 (Va + 40 + 4 * n) ++ zeros 4 ++
  DwordBytes (replicate (length names) 0) ++ DwordBytes (NameVas (Va + 40 + 8 * n) names) ++ NameBytes names.

Definition SectionBytes (s : Z * Z * Z) : list Z :=
  let '(VirtualAddress, VirtualSize, PointerToRawData) := s in
  zeros 8 ++ bytes_of 4 VirtualSize ++ bytes_of 4 VirtualAddress ++ bytes_of 4 VirtualSize ++
  bytes_of 4 PointerToRawData ++ zeros 16.

Section layout.
Context (pe : PE).

Definition Edata : list Z := match PeExports pe with Some names => ExportBytes (ExportsVa pe) names | None => [] end.
Definition OptSize : Z := if PeWin64 pe then 240 else 224.
Definition SectionCount : Z := Z.of_nat (length (PeSections pe)) + 1.
Definition RawExports : Z := 88 + OptSize + 40 * SectionCount.
Definition ExportSection : Z * Z * Z := (ExportsVa pe, lenZ Edata, RawExports).
Definition DirectoryVa : Z := match PeExports pe with Some _ => ExportsVa pe | None => 0 end.

Definition Headers : list Z :=
  bytes_of 2 IMAGE_DOS_SIGNATURE ++ zeros 58 ++ bytes_of 4 64 ++
  bytes_of 4 IMAGE_NT_SIGNATURE ++ bytes_of 2 (PeMachine pe) ++ bytes_of 2 SectionCount ++ zeros 12 ++
  bytes_of 2 OptSize ++ bytes_of 2 (PeCharacteristics pe) ++
  bytes_of 2 (if PeWin64 pe then IMAGE_NT_OPTIONAL_HDR64_MAGIC else IMAGE_NT_OPTIONAL_HDR32_MAGIC) ++ zeros 66 ++
  bytes_of 2 (PeSubsystem pe) ++ zeros (if PeWin64 pe then 42 else 26) ++
  bytes_of 4 DirectoryVa ++ bytes_of 4 (lenZ Edata) ++ zeros 120.

Definition Image : list Z := Headers ++ mjoin (SectionBytes <$> (PeSections pe ++ [ExportSection])) ++ Edata.

(** What the query is to find out. *)
Definition FixtureName (Name : string) : bool :=
  if PeWin64 pe then CfixpIsFixtureExport64 Name else CfixpIsFixtureExport32 Name.
Definition InfoOf : CFIX_MODULE_INFO :=
  MkInfo (PeMachine pe) (PeSubsystem pe)
    (match PeExports pe with Some names => existsb FixtureName names | None => false end)
    (if FlagOn (PeCharacteristics pe) IMAGE_FILE_DLL then CfixModuleDll
     else if PeSubsystem pe =? IMAGE_SUBSYSTEM_NATIVE then CfixModuleDriver else CfixModuleExe).

(** Fields that fit; sections that do not meet that of the exports; names without NUL. *)
Definition SectionOk (s : Z * Z * Z) : Prop :=
  let '(Va, Size, Raw) := s in
  0 < Va /\ 0 <= Size /\ Va + Size < 2 ^ 32 /\ 0 <= Raw < 2 ^ 32 /\
  (Va + Size <= ExportsVa pe \/ ExportsVa pe + lenZ Edata <= Va).

Record PeOk : Prop := MkPeOk {
  ok_machine : 0 <= PeMachine pe < 2 ^ 16;
  ok_subsystem : 0 <= PeSubsystem pe < 2 ^ 16;
  ok_characteristics : 0 <= PeCharacteristics pe < 2 ^ 16;
  ok_count : SectionCount < 2 ^ 16;
  ok_sections : Forall SectionOk (PeSections pe);
  ok_exports : 0 < ExportsVa pe /\ ExportsVa pe + lenZ Edata < 2 ^ 32 /\ RawExports + lenZ Edata < 2 ^ 32;
  ok_names : forall names, PeExports pe = Some names -> Forall (fun s => (0 ∉ string_bytes s)) names }.
End layout.

(** ** Reading what has been laid out *)
(** [l] is at an offset. *)
Definition At (V : list Z) (off : Z) (l : list Z) : Prop := exists pre post, V = pre ++ l ++ post /\ lenZ pre = off.

Lemma At_all V : At V 0 V.
Proof. exists [], []. by rewrite app_nil_r. Qed.

Lemma At_app V off l1 l2 : At V off (l1 ++ l2) -> At V off l1 /\ At V (off + lenZ l1) l2.
Proof.
  intros (pre & post & -> & <-). split.
  - exists pre, (l2 ++ post). by rewrite <- !app_assoc.
  - exists (pre ++ l1), post. rewrite <- !app_assoc, lenZ_app. done.
Qed.

Lemma read_At V w v o off : At V o (bytes_of w v) -> off = o -> 0 <= v < 256 ^ Z.of_nat w -> read V w off = Some v.
Proof.
  intros (pre & post & -> & <-) -> Hv. unfold read, lenZ. rewrite !length_app, length_bytes_of.
  rewrite (proj2 (Z.leb_le 0 _)), (proj2 (Z.leb_le (Z.of_nat (length pre) + _) _)) by lia. cbn [andb].
  rewrite Nat2Z.id, drop_app_length. rewrite take_app_length' by by rewrite length_bytes_of.
  by rewrite of_bytes_of, Z.mod_small.
Qed.

Lemma ascii_byte c : Z.to_N (Z.of_N (N_of_ascii c)) = N_of_ascii c.
Proof. apply N2Z.id. Qed.

Lemma string_at_bytes s post : 0 ∉ string_bytes s -> string_at (string_bytes s ++ 0 :: post) = Some s.
Proof.
  induction s as [|c s IH]; intros Hn; [done|]. cbn [string_bytes app string_at] in *. apply not_elem_of_cons in Hn as [Hc Hn].
  rewrite (proj2 (Z.eqb_neq _ 0)) by done. rewrite IH by done. cbn. by rewrite ascii_byte, ascii_N_embedding.
Qed.

Lemma read_string_At V s o off : At V o (string_bytes s ++ [0]) -> off = o -> 0 ∉ string_bytes s -> read_string V off = Some s.
Proof.
  intros (pre & post & -> & <-) -> Hs. unfold read_string. rewrite lenZ_app.
  rewrite (proj2 (Z.leb_le 0 _)), (proj2 (Z.leb_le (lenZ pre) _)) by (unfold lenZ; lia). cbn [andb].
  unfold lenZ. rewrite Nat2Z.id, drop_app_length, <- app_assoc. by apply string_at_bytes.
Qed.

Lemma lenZ_zeros n : lenZ (zeros n) = Z.of_nat n.
Proof. unfold lenZ, zeros. by rewrite length_replicate. Qed.

Lemma lenZ_string_bytes s : lenZ (string_bytes s) = Z.of_nat (String.length s).
Proof. unfold lenZ. f_equal. induction s as [|c s IH]; [done|]. cbn. by rewrite IH. Qed.

Lemma lenZ_section s : lenZ (SectionBytes s) = 40.
Proof. destruct s as [[a b] c]. reflexivity. Qed.

Lemma lenZ_DwordBytes l : lenZ (DwordBytes l) = 4 * Z.of_nat (length l).
Proof.
  induction l as [|x l IH]; [done|]. change (DwordBytes (x :: l)) with (bytes_of 4 x ++ DwordBytes l).
  rewrite lenZ_app, IH, lenZ_bytes_of. cbn [length]. lia.
Qed.

Lemma lenZ_sections l : lenZ (mjoin (SectionBytes <$> l)) = 40 * Z.of_nat (length l).
Proof.
  induction l as [|x l IH]; [done|]. cbn [fmap list_fmap mjoin list_join].
  change (lenZ (SectionBytes x ++ mjoin (SectionBytes <$> l)) = 40 * Z.of_nat (S (length l))).
  rewrite lenZ_app, IH, lenZ_section. lia.
Qed.

(** Take the pieces of a layout apart. *)
Ltac pieces H :=
  repeat (let H1 := fresh "F" in apply At_app in H as [H1 H];
    rewrite ?lenZ_bytes_of, ?lenZ_zeros in H).

(** *** Sections *)
(** Where an address is in the file. *)
Fixpoint PositionOf (l : list (Z * Z * Z)) (Va : Z) : option Z :=
  match l with
  | [] => None
  | (a, n, r) :: l => if (a <=? Va) && (Va <? a + n) then Some (ULONG (r + (Va - a))) else PositionOf l Va
  end.

Definition Fits (s : Z * Z * Z) : Prop :=
  let '(a, n, r) := s in 0 <= a /\ 0 <= n /\ a + n < 2 ^ 32 /\ 0 <= r < 2 ^ 32.

Lemma find_section V l : forall Off Va, At V Off (mjoin (SectionBytes <$> l)) -> Forall Fits l ->
  FindSection V (length l) Off Va = Some (PositionOf l Va).
Proof.
  induction l as [|[[a n] r] l IH]; intros Off Va H HF; [done|]. apply Forall_cons in HF as [(Ha & Hn & Hs & Hr) HF].
  change (mjoin (SectionBytes <$> (a, n, r) :: l)) with (SectionBytes (a, n, r) ++ mjoin (SectionBytes <$> l)) in H.
  apply At_app in H as [H HL]. rewrite lenZ_section in HL. cbn [SectionBytes] in H. pieces H.
  cbn [length FindSection PositionOf]. rewrite (read_At V 4 a _ (Off + 12) F1) by lia. cbn [mbind option_bind].
  destruct (Z.leb_spec a Va); [|by apply IH]. rewrite (read_At V 4 n _ (Off + 8) F0) by lia. cbn [mbind option_bind andb].
  rewrite (wrap_small 32) by lia. destruct (Va <? a + n); [|by apply IH].
  rewrite (read_At V 4 r _ (Off + 20) F3) by lia. done.
Qed.

Section image.
Context (pe : PE) (Ok : PeOk pe).
Local Abbreviation V := (Image pe).
Local Abbreviation Sections := (PeSections pe ++ [ExportSection pe]).

Definition DirectoryOffset : Z := 88 + (if PeWin64 pe then 112 else 96).

Lemma headers_At :
  At V 0 (bytes_of 2 IMAGE_DOS_SIGNATURE) /\ At V 60 (bytes_of 4 64) /\ At V 64 (bytes_of 4 IMAGE_NT_SIGNATURE) /\
  At V 68 (bytes_of 2 (PeMachine pe)) /\ At V 70 (bytes_of 2 (SectionCount pe)) /\ At V 84 (bytes_of 2 (OptSize pe)) /\
  At V 86 (bytes_of 2 (PeCharacteristics pe)) /\
  At V 88 (bytes_of 2 (if PeWin64 pe then IMAGE_NT_OPTIONAL_HDR64_MAGIC else IMAGE_NT_OPTIONAL_HDR32_MAGIC)) /\
  At V 156 (bytes_of 2 (PeSubsystem pe)) /\ At V DirectoryOffset (bytes_of 4 (DirectoryVa pe)) /\
  At V (88 + OptSize pe) (mjoin (SectionBytes <$> Sections)) /\ At V (RawExports pe) (Edata pe).
Proof.
  pose proof (At_all V) as H. unfold Image at 2 in H. apply At_app in H as [H HS]. apply At_app in HS as [HS HE].
  rewrite lenZ_sections, length_app in HE. cbn [length] in HE.
  assert (lenZ (Headers pe) = 88 + OptSize pe) as HL
    by (unfold Headers, OptSize; rewrite !lenZ_app, !lenZ_bytes_of, !lenZ_zeros; destruct (PeWin64 pe); lia).
  rewrite HL in HS, HE. unfold Headers in H. pieces H.
  assert (RawExports pe = 0 + lenZ (Headers pe) + 40 * Z.of_nat (length (PeSections pe) + 1)) as ->
    by (rewrite HL; unfold RawExports, SectionCount; lia).
  unfold DirectoryOffset. rewrite HL. split_and!; try assumption. by destruct (PeWin64 pe).
Qed.

Lemma sections_fit : Forall Fits Sections.
Proof.
  apply Forall_app. split.
  - eapply Forall_impl; [apply (ok_sections _ Ok)|]. intros [[a n] r]. cbn. lia.
  - constructor; [|constructor]. pose proof (ok_exports _ Ok) as (H1 & H2 & H3). unfold ExportSection, Fits.
    assert (0 <= RawExports pe) by (unfold RawExports, OptSize, SectionCount; destruct (PeWin64 pe); lia).
    unfold lenZ in *. lia.
Qed.

(** An address of the image is found where its section is. *)
Lemma ptr_located Va : CfixPtrFromVaNonRelocated V 64 Va = Some (PositionOf Sections Va).
Proof.
  destruct headers_At as (_ & _ & _ & _ & HC & HO & _ & _ & _ & _ & HS & _). unfold CfixPtrFromVaNonRelocated, FirstSection.
  rewrite (read_At V 2 (OptSize pe) 84 (64 + 20) HO) by (unfold OptSize; destruct (PeWin64 pe); lia). cbn [mbind option_bind].
  pose proof (ok_count _ Ok) as HB.
  rewrite (read_At V 2 (SectionCount pe) 70 (64 + 6) HC) by (unfold SectionCount in *; lia). cbn [mbind option_bind].
  replace (Z.to_nat (SectionCount pe)) with (length Sections) by (rewrite length_app; cbn [length]; unfold SectionCount; lia).
  apply find_section; [exact HS|apply sections_fit].
Qed.

Lemma locate_app l1 l2 Va : Forall (fun '(a, n, r) => Va < a \/ a + n <= Va) l1 -> PositionOf (l1 ++ l2) Va = PositionOf l2 Va.
Proof.
  induction l1 as [|[[a n] r] l1 IH]; intros H; [done|]. apply Forall_cons in H as [Ha H]. cbn [app PositionOf].
  destruct (Z.leb_spec a Va), (Z.ltb_spec Va (a + n)); cbn [andb]; try lia; by apply IH.
Qed.

Lemma located_export Off : 0 <= Off < lenZ (Edata pe) ->
  CfixPtrFromVaNonRelocated V 64 (ExportsVa pe + Off) = Some (Some (RawExports pe + Off)).
Proof.
  intros HO. rewrite ptr_located, locate_app.
  - unfold ExportSection. cbn [PositionOf]. rewrite (proj2 (Z.leb_le _ _)), (proj2 (Z.ltb_lt _ _)) by lia. cbn [andb].
    replace (RawExports pe + (ExportsVa pe + Off - ExportsVa pe)) with (RawExports pe + Off) by lia.
    pose proof (ok_exports _ Ok) as (_ & _ & H3). unfold ULONG. rewrite wrap_small; [done|].
    assert (0 <= RawExports pe) by (unfold RawExports, OptSize, SectionCount; destruct (PeWin64 pe); lia). lia.
  - eapply Forall_impl; [apply (ok_sections _ Ok)|]. intros [[a n] r]. cbn. lia.
Qed.

Lemma not_located : CfixPtrFromVaNonRelocated V 64 0 = Some None.
Proof.
  rewrite ptr_located, locate_app.
  - unfold ExportSection. cbn [PositionOf]. rewrite (proj2 (Z.leb_gt _ _)) by apply (ok_exports _ Ok). done.
  - eapply Forall_impl; [apply (ok_sections _ Ok)|]. intros [[a n] r]. cbn. lia.
Qed.

(** *** Exports *)
Lemma any_export names : forall Off Rva, At V Off (DwordBytes (NameVas (ExportsVa pe + Rva) names)) ->
  At V (RawExports pe + Rva) (NameBytes names) -> 0 <= Rva -> Rva + lenZ (NameBytes names) <= lenZ (Edata pe) ->
  Forall (fun s => (0 ∉ string_bytes s)) names ->
  AnyFixtureExport V 64 (PeWin64 pe) Off (length names) = Some (existsb (FixtureName pe) names).
Proof.
  induction names as [|s names IH]; intros Off Rva HV HN H0 HL HP; [done|]. apply Forall_cons in HP as [Hs HP].
  change (NameBytes (s :: names)) with ((string_bytes s ++ [0]) ++ NameBytes names) in *.
  cbn [NameVas] in HV. change (DwordBytes (?x :: ?l)) with (bytes_of 4 x ++ DwordBytes l) in HV.
  apply At_app in HV as [HV1 HV2], HN as [HN1 HN2]. rewrite lenZ_bytes_of in HV2. rewrite !lenZ_app, lenZ_string_bytes in *.
  change (lenZ [0]) with 1 in *. pose proof (ok_exports _ Ok) as (H1 & H2 & _). cbn [length AnyFixtureExport existsb].
  assert (0 <= lenZ (NameBytes names)) by (unfold lenZ; lia).
  rewrite (read_At V 4 _ _ Off HV1) by lia. cbn [mbind option_bind]. rewrite located_export by lia. cbn [mbind option_bind].
  rewrite (read_string_At V s _ _ HN1) by done. cbn [mbind option_bind].
  replace ((PeWin64 pe && CfixpIsFixtureExport64 s) || (negb (PeWin64 pe) && CfixpIsFixtureExport32 s)) with (FixtureName pe s)
    by (unfold FixtureName; destruct (PeWin64 pe); cbn; by rewrite ?orb_false_r).
  destruct (FixtureName pe s); [done|]. cbn [orb]. apply (IH _ (Rva + Z.of_nat (String.length s) + 1)).
  - by replace (ExportsVa pe + (Rva + Z.of_nat (String.length s) + 1)) with (ExportsVa pe + Rva + Z.of_nat (String.length s) + 1) by lia.
  - by replace (RawExports pe + (Rva + Z.of_nat (String.length s) + 1)) with (RawExports pe + Rva + (Z.of_nat (String.length s) + 1)) by lia.
  - lia.
  - lia.
  - done.
Qed.

Lemma length_NameVas names : forall Va, length (NameVas Va names) = length names.
Proof. induction names as [|s names IH]; intros Va; [done|]. cbn. by rewrite IH. Qed.

Lemma lenZ_ExportBytes Va names : lenZ (ExportBytes Va names) = 40 + 8 * Z.of_nat (length names) + lenZ (NameBytes names).
Proof.
  unfold ExportBytes. rewrite !lenZ_app, !lenZ_bytes_of, !lenZ_zeros, !lenZ_DwordBytes, length_NameVas, length_replicate. lia.
Qed.

Lemma exports_queried names : PeExports pe = Some names ->
  QueryExports V 64 (PeWin64 pe) (RawExports pe) = Some (existsb (FixtureName pe) names).
Proof.
  intros HE. destruct headers_At as (_ & _ & _ & _ & _ & _ & _ & _ & _ & _ & _ & H). pose proof (ok_exports _ Ok) as (H1 & H2 & H3).
  assert (Edata pe = ExportBytes (ExportsVa pe) names) as ED by (unfold Edata; by rewrite HE).
  pose proof (lenZ_ExportBytes (ExportsVa pe) names) as HL. rewrite <- ED in HL. rewrite ED in H. unfold ExportBytes in H.
  pieces H. rewrite !lenZ_DwordBytes, ?length_NameVas, ?length_replicate in *.
  set (n := Z.of_nat (length names)) in *. assert (0 <= n) as Hn by (unfold n; lia).
  assert (0 <= lenZ (NameBytes names)) as Hb by (unfold lenZ; lia). unfold QueryExports.
  assert (forall off, 0 <= off < 40 + 8 * n -> ExportsVa pe + off < 256 ^ Z.of_nat 4) as Hoff
    by (intros off Ho; change (256 ^ Z.of_nat 4) with (2 ^ 32); lia).
  rewrite (read_At V 4 _ _ (RawExports pe + 32) F3) by lia. cbn [mbind option_bind].
  assert (n < 256 ^ Z.of_nat 4) as Hn2 by (change (256 ^ Z.of_nat 4) with (2 ^ 32); lia).
  assert (names = [] \/ 0 < n) as [->|Hn0] by (unfold n; destruct names; [by left|right; cbn [length]; lia]).
  - rewrite !ptr_located. cbn [mbind option_bind]. rewrite (read_At V 4 _ _ (RawExports pe + 28) F2) by lia.
    cbn [mbind option_bind]. rewrite ptr_located. cbn [mbind option_bind].
    destruct (PositionOf Sections (ExportsVa pe + 40 + 4 * n)), (PositionOf Sections (ExportsVa pe + 40)); try done.
    rewrite (read_At V 4 _ _ (RawExports pe + 20) F0) by lia. done.
  - replace (ExportsVa pe + 40 + 4 * n) with (ExportsVa pe + (40 + 4 * n)) by lia. rewrite located_export by lia.
    cbn [mbind option_bind]. rewrite (read_At V 4 _ _ (RawExports pe + 28) F2) by lia. cbn [mbind option_bind].
    rewrite located_export by lia. cbn [mbind option_bind].
    rewrite (read_At V 4 _ _ (RawExports pe + 20) F0) by lia. cbn [mbind option_bind].
    rewrite (proj2 (Z.ltb_lt 0 n)) by done.
    rewrite (read_At V 4 _ _ (RawExports pe + 24) F1) by lia. cbn [mbind option_bind]. unfold n at 2. rewrite Nat2Z.id.
    apply (any_export names _ (40 + 8 * n)).
    + replace (ExportsVa pe + (40 + 8 * n)) with (ExportsVa pe + 40 + 8 * n) by lia.
      by replace (RawExports pe + (40 + 4 * n)) with
        (RawExports pe + Z.of_nat 20 + Z.of_nat 4 + Z.of_nat 4 + Z.of_nat 4 + Z.of_nat 4 + Z.of_nat 4 + 4 * n) by lia.
    + by replace (RawExports pe + (40 + 8 * n)) with
        (RawExports pe + Z.of_nat 20 + Z.of_nat 4 + Z.of_nat 4 + Z.of_nat 4 + Z.of_nat 4 + Z.of_nat 4 + 4 * n + 4 * n) by lia.
    + lia.
    + lia.
    + by apply (ok_names _ Ok).
Qed.

(** The query finds out what the image was made of. *)
Lemma view_queried Info : QueryView V Info = Some (S_OK, InfoOf pe).
Proof.
  destruct headers_At as (HM & HL & HS & HMa & _ & _ & HC & HMg & HSu & HD & _ & _). unfold QueryView.
  rewrite (read_At V 2 _ _ 0 HM) by done. cbn [mbind option_bind]. rewrite Z.eqb_refl. cbn [negb].
  rewrite (read_At V 4 _ _ 60 HL) by done. cbn [mbind option_bind]. change (LONG 64) with 64. cbv zeta.
  rewrite (read_At V 4 _ _ 64 HS) by done. cbn [mbind option_bind]. rewrite Z.eqb_refl. cbn [negb].
  rewrite (read_At V 2 _ _ (64 + 4) HMa) by (done || apply (ok_machine _ Ok)). cbn [mbind option_bind].
  assert (CfixsQueryOptionalHeader V 64 = Some (Some (DirectoryOffset, PeSubsystem pe, PeWin64 pe))) as EO.
  { unfold CfixsQueryOptionalHeader, DirectoryOffset. cbv zeta. rewrite (read_At V 2 _ _ (64 + 24) HMg) by (destruct (PeWin64 pe); done).
    cbn [mbind option_bind]. destruct (PeWin64 pe); cbn [Z.eqb Pos.eqb IMAGE_NT_OPTIONAL_HDR64_MAGIC IMAGE_NT_OPTIONAL_HDR32_MAGIC];
      rewrite (read_At V 2 _ _ (64 + 24 + 68) HSu) by (done || apply (ok_subsystem _ Ok)); done. }
  unfold CfixsQueryPeImage. rewrite EO. cbn [mbind option_bind].
  rewrite (read_At V 2 _ _ (64 + 22) HC) by (done || apply (ok_characteristics _ Ok)). cbn [mbind option_bind]. cbv zeta.
  pose proof (ok_exports _ Ok) as (H1 & H2 & H3). unfold DirectoryVa in HD.
  assert (0 <= lenZ (Edata pe)) as HE0 by (unfold lenZ; lia). change (2 ^ 32) with (256 ^ Z.of_nat 4) in H2.
  rewrite (read_At V 4 _ _ DirectoryOffset HD) by (destruct (PeExports pe); lia). cbn [mbind option_bind]. unfold InfoOf.
  destruct (PeExports pe) as [names|] eqn:EE.
  - assert (0 < lenZ (Edata pe)) as HE1.
    { unfold Edata. rewrite EE, lenZ_ExportBytes. unfold lenZ. lia. }
    replace (ExportsVa pe) with (ExportsVa pe + 0) by lia. rewrite located_export by lia. cbn [mbind option_bind].
    replace (RawExports pe + 0) with (RawExports pe) by lia. by rewrite (exports_queried names).
  - rewrite not_located. done.
Qed.
End image.

Section theorem.
Context {X : Type} {FS : FileSystem X} {Laws : FileSystemLaws X}.

(** C40. Querying an image file finds out what the image was made of: its machine,
    subsystem and type, and whether one of its exports is a fixture by the rules of its
    word size, for any sections and any exported names; if the system fails to open the
    file, the error is returned and the information is left as it was.  Either way every
    handle and view is closed again. *)
Theorem query_pe_image pe Path Info x : PeOk pe -> Contents x Path = Image pe -> exists Hr Info' x',
  CfixQueryPeImage (Some Path) true Info x = Some ((Hr, Info'), x') /\ Handles x' = Handles x /\ Views x' = Views x /\
  if FAILED Hr then Info' = Info else Hr = S_OK /\ Info' = InfoOf pe.
Proof.
  intros Ok HC. assert (QueryView (Contents x Path) Info = Some (S_OK, InfoOf pe)) as HQ by (rewrite HC; by apply view_queried).
  destruct (query_released Path Info x _ HQ) as ([Hr Info'] & x' & E & EH & EV & Hr'). exists Hr, Info', x'.
  split_and!; [done..|]. destruct Hr' as [[= -> ->]|[HF HI]]; [done|]. cbn [fst snd] in HF, HI. by rewrite HF.
Qed.
End theorem.

(** Nothing is known about where the headers are before they are read: a file that is
    too short for them has no outcome. *)
Example short_file_faults Info : QueryView [0x4D; 0x5A] Info = None.
Proof. reflexivity. Qed.

Example bad_signature Info : QueryView (repeat 0 64) Info = Some (HRESULT_FROM_WIN32 ERROR_BAD_EXE_FORMAT, Info).
Proof. reflexivity. Qed.

Module Demo.
Record DISK := MkDisk { Disk : string -> list Z; Open_ : gmap Z (list Z); Mapped : gmap Z (list Z) }.
Definition next (m : gmap Z (list Z)) : Z := NextBlock (dom m).

Lemma next_free m : m !! next m = None.
Proof. apply not_elem_of_dom, NextBlock_fresh. Qed.

Definition close (h : Z) : ST DISK bool := fun x =>
  if bool_decide (is_Some (Open_ x !! h)) then Some (true, MkDisk (Disk x) (delete h (Open_ x)) (Mapped x)) else Some (false, x).
Definition unmap (a : Z) : ST DISK bool := fun x =>
  if bool_decide (is_Some (Mapped x !! a)) then Some (true, MkDisk (Disk x) (Open_ x) (delete a (Mapped x))) else Some (false, x).
Definition open_file (p : string) : ST DISK (Z + Z) := fun x =>
  if (length (Disk x p) =? 0)%nat then Some (inl 2, x)
  else Some (inr (next (Open_ x)), MkDisk (Disk x) (<[next (Open_ x) := Disk x p]> (Open_ x)) (Mapped x)).
Definition open_mapping (h : Z) : ST DISK (Z + Z) := fun x =>
  match Open_ x !! h with
  | None => Some (inl 6, x)
  | Some V => Some (inr (next (Open_ x)), MkDisk (Disk x) (<[next (Open_ x) := V]> (Open_ x)) (Mapped x))
  end.
Definition map_view (h : Z) : ST DISK (Z + Z * list Z) := fun x =>
  match Open_ x !! h with
  | None => Some (inl 6, x)
  | Some V => Some (inr (next (Mapped x), V), MkDisk (Disk x) (Open_ x) (<[next (Mapped x) := V]> (Mapped x)))
  end.

#[export] Instance disk : FileSystem DISK := MkFileSystem DISK open_file open_mapping map_view unmap close.

#[export] Instance disk_laws : FileSystemLaws DISK.
Proof.
  refine (MkFileSystemLaws DISK disk Disk Open_ Mapped _ _ _ _ _).
  - intros p x. cbn. unfold open_file. destruct (_ =? 0)%nat; eexists _, _; (split; [reflexivity|]); [done|].
    split_and!; try done. apply next_free.
  - intros h V x Hh. cbn. unfold open_mapping. rewrite Hh. eexists _, _; (split; [reflexivity|]).
    split_and!; try done. apply next_free.
  - intros h V x Hh. cbn. unfold map_view. rewrite Hh. eexists _, _; (split; [reflexivity|]).
    split_and!; try done. apply next_free.
  - intros a x Ha. cbn. unfold unmap. rewrite bool_decide_true by done. by eexists.
  - intros h x Hh. cbn. unfold close. rewrite bool_decide_true by done. by eexists.
Defined.

(** A 64-bit DLL with a section before that of its exports. *)
Definition dll : PE := MkPe 0x8664 true 3 0x2022 [(0x1000, 0x800, 0x400)] (Some ["other"; "__CfixFixturePeMath"]%string) 0x2000.
Definition driver : PE := MkPe 0x14C false 1 0x102 [] (Some ["__CfixFixturePeMath"]%string) 0x1000.

Lemma no_nul s : forallb (fun c => negb (c =? 0)) (string_bytes s) = true -> 0 ∉ string_bytes s.
Proof.
  intros H Hin. rewrite forallb_forall in H. apply list_elem_of_In in Hin. by specialize (H _ Hin).
Qed.

Lemma dll_ok : PeOk dll.
Proof.
  assert (lenZ (Edata dll) = 82) as HE by by vm_compute.
  constructor; [cbn; lia..| | | |].
  - unfold SectionCount. cbn. lia.
  - constructor; [|constructor]. unfold SectionOk. rewrite HE. cbn. lia.
  - rewrite HE. unfold RawExports, OptSize, SectionCount. cbn. lia.
  - intros names [= <-]. repeat constructor; by apply no_nul.
Qed.

Definition blank : CFIX_MODULE_INFO := MkInfo 0 0 false CfixModuleDll.
Definition machine : DISK := MkDisk (fun p => if String.eqb p "math.dll" then Image dll else []) ∅ ∅.

Example dll_found : fst <$> CfixQueryPeImage (Some "math.dll"%string) true blank machine =
  Some (S_OK, MkInfo 0x8664 3 true CfixModuleDll).
Proof. by vm_compute. Qed.

(** By the rules of 32-bit images the name would need another underscore. *)
Example driver_found : QueryView (Image driver) blank = Some (S_OK, MkInfo 0x14C 1 false CfixModuleDriver).
Proof. by vm_compute. Qed.

Lemma query_pe_image_witness : PeOk dll /\ exists Hr Info' x',
  CfixQueryPeImage (Some "math.dll"%string) true blank machine = Some ((Hr, Info'), x') /\
  Handles x' = Handles machine /\ Views x' = Views machine /\
  if FAILED Hr then Info' = blank else Hr = S_OK /\ Info' = InfoOf dll.
Proof. split; [exact dll_ok|]. exact (query_pe_image dll "math.dll"%string blank machine dll_ok eq_refl). Defined.
End Demo.
