(* ===== verification/Startup.v ===== *)
(** * The start of processes (cfix/cfixcmd/main.c, cfix/cfixemb/embmain.c,
      include/cfixpe.h, cdiag/version.c)

    The command line tool runs the runner itself, or, for tests that are part of an
    executable, starts that executable and relays what it writes.  Code that every test
    executable contains is called before [main], looks for the name of a routine in the
    environment, and calls it; the routine of cfixemb takes the command line from the
    environment, runs the runner, and ends the process.  The tool sets Unicode variables,
    the start-up code reads its one in the ANSI code page.  What the system refuses to the
    tool is recorded in its world, so that the theorem, which puts both processes together,
    can say what becomes of a run by what was refused in it. *)
From stdpp Require Import base gmap list strings pretty.
From Stdlib Require Import ZArith Lia Ascii.
From S2P Require Import Prelude CfixApi TsExec EventEmitter DisplayAction Sequence CmdLine RunTest RptStubs ExecCtx RunMain IoBuffer.
Local Open Scope Z_scope.
Local Open Scope cfix_scope.

Definition ERROR_FILE_NOT_FOUND : Z := 2.
Definition ERROR_RESOURCE_TYPE_NOT_FOUND : Z := 1813.
Definition SEM_FAILCRITICALERRORS : Z := 1.
Definition MAX_PATH : nat := 260.
(* src/include/cdiagmsg.h:121-128 (CDIAG_E_NO_VERSION_INFO) *)
Definition CDIAG_E_NO_VERSION_INFO : Z := 0x80048107.
(* src/include/cfixaux.h:59-64 (CFIX_S_EXIT_PROCESS) *)
Definition CFIX_S_EXIT_PROCESS : Z := 0x4AFF0.
Definition CFIX_EMB_INIT_ENVVAR_NAME : string := "CFIX_INIT_ROUTINE".
Definition CFIXRUN_EMB_CMDLINE_ENVVAR_NAME : string := "CFIX_INIT_CMDLINE".

(* src/include/cdiag.h:54-60 (CDIAG_MODULE_VERSION) *)
Record CDIAG_MODULE_VERSION := MkVersion { Major : Z; Minor : Z; Revision : Z; Build : Z }.

(** ** What the operating system offers to a process

    What may fail yields an option or a boolean; [GetLastError] is asked afterwards. *)
Class ProcessSystem (X : Type) := MkProcessSystem {
  GetLastError : ST X Z;
  Print : string -> ST X unit;
  SetErrorMode : Z -> ST X Z;
  (** The value and what is in the buffer; it is undefined if the value does not fit. *)
  GetEnvironmentVariable : string -> nat -> ST X (Z * option string);
  (** The same, converted to the ANSI code page. *)
  GetEnvironmentVariableA : string -> nat -> ST X (Z * option string);
  (** An array, and what is in it. *)
  CommandLineToArgv : string -> ST X (option (Z * list string));
  LocalFree : Z -> ST X unit;
  (** The image of the process, and the size in its headers. *)
  GetModuleHandle : ST X Z;
  SizeOfImage : Z -> ST X Z;
  LoadLibraryA : string -> ST X Z;
  GetProcAddress : Z -> string -> ST X Z;
  FreeLibrary : Z -> ST X unit }.

Class SpawnSystem (X : Type) := MkSpawnSystem {
  (** The size of the buffer; the path of the image of the process. *)
  GetModuleFileName : nat -> ST X (option string);
  PathRemoveFileSpec : string -> option string;
  PathAppend : string -> string -> option string;
  GetFileAttributes : string -> ST X bool;
  GetFileVersionInfoSize : string -> ST X Z;
  Malloc : Z -> ST X Z;
  Free : Z -> ST X unit;
  GetFileVersionInfo : string -> Z -> Z -> ST X bool;
  (** [dwFileVersionMS] and [dwFileVersionLS] *)
  VerQueryValue : Z -> ST X (option (Z * Z));
  GetCommandLine : ST X string;
  SetEnvironmentVariable : string -> string -> ST X bool;
  (** The read and the write end, both inheritable. *)
  CreatePipe : ST X (option (Z * Z));
  (** For the process itself, not inheritable. *)
  DuplicateHandle : Z -> ST X (option Z);
  CloseHandle : Z -> ST X bool;
  GetStdHandle : ST X Z;
  ReadFile : Z -> nat -> ST X (option (list Z));
  WriteFile : Z -> list Z -> ST X bool;
  (** An image and the handle it inherits for its output; process and thread. *)
  CreateProcess : string -> Z -> ST X (option (Z * Z));
  WaitForSingleObject : Z -> ST X Z;
  GetExitCodeProcess : Z -> ST X (option Z) }.

(** No dialogs when a drive is not ready. *)
Definition NoDialogs {X} {Sys : ProcessSystem X} : ST X Z :=
  m <- SetErrorMode 0 ;; SetErrorMode (Z.lor m SEM_FAILCRITICALERRORS).

Fixpoint PrintLines {X} {Sys : ProcessSystem X} (ls : list string) : ST X unit :=
  match ls with
  | [] => ret tt
  | l :: ls => Print (l +:+ newline) ;;; PrintLines ls
  end.

(** The lines on the options, after the name of the tool. *)
(* src/cfix/cfixcmd/main.c:66-106 (CfixcmdsPrintUsage) *)
Definition UsageOptions : string := " <options> <dll or directory>

  Test Fixture Selection Options:
    -r               Recurse into directories to search for test DLLs
    -n <fixture>     Run <fixture>
                      <fixture> may in the format fixture.test, in which case only the specific 
                      test is run
    -p <prefix>      Run fixtures whose name starts with <prefix>

  Execution Options:
    -f               Abort immediately on first failure - no breakpoint will be triggered
    -fsf             Short-circuit fixture - when a test case fails, skip remaining test cases of
                     enclosing fixture
                     (Default: Report failure, but continue fixture)
    -fss             Short-circuit testrun on failing setup - when a setup routine fails,
                     abort testrun
                     (Default: Shortcut fixture, but continue testrun)
    -fsr             Short-circuit testrun - when a test case fails, abort testrun - 
                     implies -fsf and -fss
                     (Default: Continue testrun)
    -u               Do not catch unhandled exceptions
                     (Recommended for debugging)
    -b               Always break on failure, even if not run in user-mode debugger
                     (Allows JIT debugging/using the kernel debugger after a 
                     failure has occured - ignored when -f is used)
    -d               Display tests only, do not run
    -z               Display summary at end of testrun
    -Y               Pause at beginning of testrun
    -y               Pause at end of testrun
    -kern            Enable kernel mode features
    -exe             Enable support for EXE modules
                     When this switch is used, the exact path to the module must be specified;
                     wilcards and the -r option are not supported

  Output Options:
    -nologo          Do not display logo
    -td              Disable stack trace capturing
    -ts              Omit source information in stack traces
    -eventdll        Event DLL to use. Default is cfixcons.dll (Console output)
    -eventdlloptions Event DLL-specific options.

".

(** ** The tool *)
Section tool.
Context {X : Type} {Sys : ProcessSystem X} {Spawn : SpawnSystem X}.
Context (CfixrunMain : CFIXRUN_OPTIONS -> ST X Z).
(** The address of the name of the input file, and a constant of the build. *)
Context (InputFileAddress : Z) (DDKBUILDENV : string).

(** [Path] and [Version] are not NULL; what is filled in, if anything is. *)
(* src/cdiag/cdiag/version.c:28-91 (CdiagGetModuleVersion) *)
Definition CdiagGetModuleVersion (ModulePath : string) : ST X (Z * option CDIAG_MODULE_VERSION) :=
  found <- GetFileAttributes ModulePath ;;
  if negb found then ret (HRESULT_FROM_WIN32 ERROR_FILE_NOT_FOUND, None)
  else
    InfoLen <- GetFileVersionInfoSize ModulePath ;;
    if InfoLen =? 0 then
      Err <- GetLastError ;;
      ret (if ERROR_RESOURCE_TYPE_NOT_FOUND =? Err then CDIAG_E_NO_VERSION_INFO else HRESULT_FROM_WIN32 Err, None)
    else
      RawData <- Malloc InfoLen ;;
      if RawData =? 0 then ret (E_OUTOFMEMORY, None)
      else
        b <- GetFileVersionInfo ModulePath InfoLen RawData ;;
        r <- (if negb b then Err <- GetLastError ;; ret (HRESULT_FROM_WIN32 Err, None)
              else
                v <- VerQueryValue RawData ;;
                match v with
                | None => ret (CDIAG_E_NO_VERSION_INFO, None)
                | Some (MS, LS) => ret (S_OK, Some (MkVersion (MS / 2 ^ 16) (MS mod 2 ^ 16) (LS / 2 ^ 16) (LS mod 2 ^ 16)))
                end) ;;
        Free RawData ;;;
        ret r.

(* src/cfix/cfixcmd/main.c:40-56 (CfixcmdsPrintBanner) *)
Definition CfixcmdsPrintBanner : ST X unit :=
  p <- GetModuleFileName MAX_PATH ;;
  match p with
  | None => ret tt
  | Some Path =>
      r <- CdiagGetModuleVersion Path ;;
      match r with
      | (Hr, Some v) =>
          when_ (Hr =? S_OK) (Print ("cfix version " +:+ pretty (Major v) +:+ "." +:+ pretty (Minor v) +:+ "." +:+
            pretty (Revision v) +:+ "." +:+ pretty (Build v) +:+ " (" +:+ DDKBUILDENV +:+ ")" +:+ newline +:+
            "(C) 2008-2010 - Johannes Passing - http://www.cfix-testing.org/" +:+ newline))
      | (_, None) => ret tt
      end
  end.

(* src/cfix/cfixcmd/main.c:58-122 (CfixcmdsPrintUsage) *)
Definition CfixcmdsPrintUsage (BinName : string) : ST X unit :=
  CfixcmdsPrintBanner ;;;
  Print (newline +:+ "Usage:" +:+ newline +:+ "  " +:+ BinName +:+ UsageOptions +:+
    "  Exit codes:" +:+ newline +:+
    "    " +:+ pretty CFIXRUN_EXIT_ALL_SUCCEEDED +:+ "  All tests succeeded" +:+ newline +:+
    "    " +:+ pretty CFIXRUN_EXIT_NONE_EXECUTED +:+ "  No tests executed" +:+ newline +:+
    "    " +:+ pretty CFIXRUN_EXIT_SOME_FAILED +:+ "  At least one test failed" +:+ newline +:+
    "    " +:+ pretty CFIXRUN_EXIT_USAGE_FAILURE +:+ "  Usage failure" +:+ newline +:+
    "    " +:+ pretty CFIXRUN_EXIT_FAILURE +:+ "  Other failures" +:+ newline +:+ newline +:+
    "  Report bugs to <passing@users.sourceforge.net>" +:+ newline +:+ newline).

(* src/cfix/cfixcmd/main.c:124-135 (CfixcmdsGetCfixEmbPath) *)
Definition CfixcmdsGetCfixEmbPath (PathCch : nat) : ST X (option string) :=
  p <- GetModuleFileName PathCch ;;
  ret (match p with
       | None => None
       | Some Path => d ← PathRemoveFileSpec Path; PathAppend d "cfixemb.dll"
       end).

(** The read end and the write end. *)
(* src/cfix/cfixcmd/main.c:137-184 (CfixcmdsCreatePipe) *)
Definition CfixcmdsCreatePipe : ST X (option (Z * Z)) :=
  p <- CreatePipe ;;
  match p with
  | None => ret None
  | Some (ReadEndTemp, WriteEnd) =>
      d <- DuplicateHandle ReadEndTemp ;;
      match d with
      | Some ReadEnd => CloseHandle ReadEndTemp ;;; ret (Some (ReadEnd, WriteEnd))
      | None => CloseHandle ReadEndTemp ;;; CloseHandle WriteEnd ;;; ret None
      end
  end.

(** The loop, at most [Fuel] rounds. *)
(* src/cfix/cfixcmd/main.c:200-221 (CfixcmdsRelayOutput) *)
Fixpoint RelayLoop (Fuel : nat) (ReadHandle StdoutHandle : Z) : ST X unit :=
  match Fuel with
  | O => fault
  | S Fuel =>
      r <- ReadFile ReadHandle 512 ;;
      match r with
      | None => ret tt
      | Some Buffer =>
          b <- WriteFile StdoutHandle Buffer ;;
          if b : bool then RelayLoop Fuel ReadHandle StdoutHandle else ret tt
      end
  end.

(* src/cfix/cfixcmd/main.c:186-225 (CfixcmdsRelayOutput) *)
Definition CfixcmdsRelayOutput (Fuel : nat) (ReadHandle : Z) : ST X bool :=
  StdoutHandle <- GetStdHandle ;;
  if StdoutHandle =? 0 then ret false
  else
    RelayLoop Fuel ReadHandle StdoutHandle ;;;
    CloseHandle StdoutHandle ;;;
    ret true.

(** [StringCchCat]: what does not fit is cut off. *)
Definition CchCat (n : nat) (s t : string) : string :=
  if (String.length (s +:+ t) <? n)%nat then s +:+ t else String.substring 0 (n - 1) (s +:+ t).

(** A name as [%s] shows it. *)
Definition Shown (s : option string) : string := match s with Some s => s | None => "(null)" end.

(** The part after the attempt to start the child; a handle that has not been assigned is
    0, and an exit code that has not been assigned [None]. *)
(* src/cfix/cfixcmd/main.c:319-338 (CfixcmdsSpawnAndRun) *)
Definition AwaitChild (Fuel : nat) (PipeReadHandle PipeWriteHandle hProcess hThread : Z) (ExitCode : option Z) : ST X Z :=
  CloseHandle PipeWriteHandle ;;;
  b <- CfixcmdsRelayOutput Fuel PipeReadHandle ;;
  ExitCode <- (if b : bool then ret ExitCode
               else
                 GetLastError ;;;
                 Print ("Failed to relay I/O: Win32 error " +:+ pretty (LONG InputFileAddress) +:+ newline) ;;;
                 ret (Some CFIXRUN_EXIT_USAGE_FAILURE)) ;;
  WaitForSingleObject hProcess ;;;
  c <- GetExitCodeProcess hProcess ;;
  CloseHandle hThread ;;;
  CloseHandle hProcess ;;;
  CloseHandle PipeReadHandle ;;;
  match (match c with Some c => Some c | None => ExitCode end) with
  | Some ExitCode => ret ExitCode
  | None => fault
  end.

(** The part after the pipe has been created. *)
(* src/cfix/cfixcmd/main.c:291-338 (CfixcmdsSpawnAndRun) *)
Definition RunChild (Fuel : nat) (InputFile : string) (PipeReadHandle PipeWriteHandle : Z) : ST X Z :=
  p <- CreateProcess InputFile PipeWriteHandle ;;
  match p with
  | Some (hProcess, hThread) => AwaitChild Fuel PipeReadHandle PipeWriteHandle hProcess hThread None
  | None =>
      e <- GetLastError ;;
      Print ("The file " +:+ InputFile +:+ " could not launched: Win32 error " +:+ pretty (LONG e) +:+ newline) ;;;
      AwaitChild Fuel PipeReadHandle PipeWriteHandle 0 0 (Some CFIXRUN_EXIT_USAGE_FAILURE)
  end.

(* src/cfix/cfixcmd/main.c:227-339 (CfixcmdsSpawnAndRun) *)
Definition CfixcmdsSpawnAndRun (Fuel : nat) (Options : CFIXRUN_OPTIONS) : ST X Z :=
  found <- match InputFile Options with Some f => GetFileAttributes f | None => ret false end ;;
  match InputFile Options, found with
  | Some InputFile, true =>
      p <- CfixcmdsGetCfixEmbPath (MAX_PATH + 64) ;;
      match p with
      | None => Print ("Failed to construct path to helper DLL" +:+ newline) ;;; ret CFIXRUN_EXIT_USAGE_FAILURE
      | Some Path =>
          SetEnvironmentVariable CFIX_EMB_INIT_ENVVAR_NAME (CchCat (MAX_PATH + 64) Path "!CfixEmbMain") ;;;
          CommandLine <- GetCommandLine ;;
          SetEnvironmentVariable CFIXRUN_EMB_CMDLINE_ENVVAR_NAME CommandLine ;;;
          pipe <- CfixcmdsCreatePipe ;;
          match pipe with
          | None =>
              e <- GetLastError ;;
              Print ("Failed to create I/O pipes: Win32 error " +:+ pretty (LONG e) +:+ newline) ;;;
              ret CFIXRUN_EXIT_USAGE_FAILURE
          | Some (PipeReadHandle, PipeWriteHandle) => RunChild Fuel InputFile PipeReadHandle PipeWriteHandle
          end
      end
  | f, _ => Print ("The file " +:+ Shown f +:+ " could not be found" +:+ newline) ;;; ret CFIXRUN_EXIT_USAGE_FAILURE
  end.

(** The function is given the arguments, the name of the tool first. *)
(* src/cfix/cfixcmd/main.c:341-389 (wmain) *)
Definition wmain (Fuel : nat) (Argv : list string) : ST X Z :=
  match Argv with
  | [] => ret CFIXRUN_EXIT_USAGE_FAILURE
  | [Name] => CfixcmdsPrintUsage Name ;;; ret CFIXRUN_EXIT_USAGE_FAILURE
  | Name :: Args =>
      match CfixrunParseCommandLine Name Args zeroed with
      | None => fault
      | Some (Parsed, Options, Printed) =>
          PrintLines Printed ;;;
          if negb Parsed then ret CFIXRUN_EXIT_USAGE_FAILURE
          else
            when_ (negb (Switch Options NoLogo)) CfixcmdsPrintBanner ;;;
            match InputFileType Options with
            | CfixrunInputRequiresSpawn => CfixcmdsSpawnAndRun Fuel Options
            | CfixrunInputDynamicallyLoadable => NoDialogs ;;; CfixrunMain Options
            end
      end
  end.
End tool.

(** ** The process with the tests *)
Section embedded.
Context {X : Type} {Sys : ProcessSystem X}.
Context (CfixrunMain : CFIXRUN_OPTIONS -> ST X Z).

(** The code the process exits with. *)
(* src/cfix/cfixemb/embmain.c:45-102 (CfixEmbMain) *)
Definition CfixEmbMain : ST X Z :=
  v <- GetEnvironmentVariable CFIXRUN_EMB_CMDLINE_ENVVAR_NAME 512 ;;
  if fst v =? 0 then ret E_INVALIDARG
  else
    match snd v with
    | None => fault
    | Some CommandLine =>
        a <- CommandLineToArgv CommandLine ;;
        match a with
        | None => GetLastError
        | Some (Argv, Args) =>
            ExitCode <-
              match Args with
              | [] => ret CFIXRUN_EXIT_USAGE_FAILURE
              | Name :: Args =>
                  match CfixrunParseCommandLine Name Args zeroed with
                  | None => fault
                  | Some (Parsed, Options, Printed) =>
                      PrintLines Printed ;;;
                      if negb Parsed then ret CFIXRUN_EXIT_USAGE_FAILURE
                      else NoDialogs ;;; CfixrunMain Options
                  end
              end ;;
            LocalFree Argv ;;;
            ret ExitCode
        end
    end.

(** Where this code is. *)
Context (Address : Z).

(* src/include/cfixpe.h:91-117 (CfixpIsExeImage) *)
Definition CfixpIsExeImage : ST X bool :=
  Base <- GetModuleHandle ;;
  if Base =? 0 then ret false
  else
    Size <- SizeOfImage Base ;;
    ret ((Base <=? Address) && (Address <? Base + Size)).

(** What is before the first exclamation mark, and what is after it. *)
Fixpoint SplitBang (s : string) : option (string * string) :=
  match s with
  | EmptyString => None
  | String c s =>
      if Ascii.eqb c "!"%char then Some (EmptyString, s)
      else '(a, b) ← SplitBang s; Some (String c a, b)
  end.

(** A routine in a library: it returns a result, or ends the process with a code. *)
Context (Routines : Z -> ST X (Z + Z)).

(** [Initialized], and the code of the process if it is ended. *)
(* src/include/cfixpe.h:137-222 (CfixpCrtInitEmbedding) *)
Definition CfixpCrtInitEmbedding (Initialized : bool) : ST X (bool * option Z) :=
  if Initialized then ret (true, None)
  else
    b <- CfixpIsExeImage ;;
    if negb b then ret (false, None)
    else
      v <- GetEnvironmentVariableA CFIX_EMB_INIT_ENVVAR_NAME 100 ;;
      if fst v =? 0 then ret (true, None)
      else
        match snd v with
        | None => fault
        | Some Buffer =>
            match SplitBang Buffer with
            | None => ret (true, None)
            | Some (ModuleName, RoutineName) =>
                Module <- LoadLibraryA ModuleName ;;
                if Module =? 0 then ret (true, None)
                else
                  Routine <- GetProcAddress Module RoutineName ;;
                  if Routine =? 0 then ret (true, None)
                  else
                    r <- Routines Routine ;;
                    match r with
                    | inl Code => ret (true, Some Code)
                    | inr Hr =>
                        FreeLibrary Module ;;;
                        ret (true, if CFIX_S_EXIT_PROCESS =? Hr then Some 0 else if FAILED Hr then Some Hr else None)
                    end
            end
        end.
End embedded.

(** ** Laws

    What a query for a value in a buffer of a size yields. *)
Definition Value_ (v : option string) (size : nat) : Z * option string :=
  match v with
  | None => (0, None)
  | Some v => if (String.length v <? size)%nat then (Z.of_nat (String.length v), Some v)
              else (Z.of_nat (String.length v) + 1, None)
  end.

(** The variables of the environment, the command line, and what a command line means. *)
Class ProcessLaws (X : Type) {Sys : ProcessSystem X} := MkProcessLaws {
  Environment : X -> string -> option string;
  ArgsOf : string -> list string;
  (** A text in the ANSI code page: characters that are not in it are replaced. *)
  Ansi : string -> string;
  (** An operation that returns and leaves the environment alone. *)
  Keeps {A} (m : ST X A) : Prop := forall x, Runs m x (fun _ x' => Environment x' = Environment x);
  error_law : Keeps GetLastError;
  print_law t : Keeps (Print t);
  mode_law m : Keeps (SetErrorMode m);
  get_environment_law n size x : exists x',
    GetEnvironmentVariable n size x = Some (Value_ (Environment x n) size, x') /\ Environment x' = Environment x;
  get_ansi_law n size x : exists x',
    GetEnvironmentVariableA n size x = Some (Value_ (Ansi <$> Environment x n) size, x') /\ Environment x' = Environment x;
  args_law s x : Runs (CommandLineToArgv s) x (fun r x' => Environment x' = Environment x /\
    match r with Some (_, l) => l = ArgsOf s | None => True end);
  local_free_law a : Keeps (LocalFree a);
  handle_law : Keeps GetModuleHandle;
  size_law b : Keeps (SizeOfImage b);
  load_law n : Keeps (LoadLibraryA n);
  address_law m n : Keeps (GetProcAddress m n);
  free_library_law m : Keeps (FreeLibrary m) }.

(** What a handle refers to.  A process is identified by the pipe it writes to. *)
Inductive OBJECT := PipeRead (p : Z) | PipeWrite (p : Z) | ProcessOf (p : Z) | ThreadOf (p : Z) | ConsoleOutput.

(** What the system has refused to the process: a file is not there, the path of the image
    does not fit, a variable cannot be set, and so on. *)
Inductive REFUSAL :=
  | NoFile (f : string) | NoPath (size : nat) | NoVariable (n : string)
  | NoPipe | NoDuplicate | NoProcess (f : string) | NoOutput.

(** The handles of the process; what reads of a pipe are going to deliver once no handle
    of the process itself can write to it any more; the codes processes exit with; what
    is on the console; what has been refused. *)
Record KERNEL := MkKernel {
  Objects : gmap Z OBJECT;
  Pending : Z -> list (list Z);
  CodeOf : Z -> Z;
  Console : list Z;
  Refused : list REFUSAL }.
Definition upd {A} (f : Z -> A) (p : Z) (a : A) : Z -> A := fun q => if q =? p then a else f q.
Definition with_objects (m : gmap Z OBJECT) (k : KERNEL) : KERNEL := MkKernel m (Pending k) (CodeOf k) (Console k) (Refused k).
Definition with_pending (f : Z -> list (list Z)) (k : KERNEL) : KERNEL := MkKernel (Objects k) f (CodeOf k) (Console k) (Refused k).
Definition with_codes (f : Z -> Z) (k : KERNEL) : KERNEL := MkKernel (Objects k) (Pending k) f (Console k) (Refused k).
Definition said (b : list Z) (l : list REFUSAL) (k : KERNEL) : KERNEL :=
  MkKernel (Objects k) (Pending k) (CodeOf k) (Console k ++ b) (Refused k ++ l).
Definition refuse (r : REFUSAL) (k : KERNEL) : KERNEL := said [] [r] k.

Class SpawnLaws (X : Type) {Sys : ProcessSystem X} {Laws : ProcessLaws X} {Spawn : SpawnSystem X} := MkSpawnLaws {
  Kernel : X -> KERNEL;
  (** The command line, the standard output and the path of the image. *)
  CommandLineOf : X -> string;
  Stdout : X -> Z;
  ImagePath : X -> string;
  (** What a process of an image with an environment writes, and the code it exits with. *)
  Program : string -> (string -> option string) -> list (list Z) * Z;
  Fixed (x x' : X) : Prop := CommandLineOf x' = CommandLineOf x /\ Stdout x' = Stdout x /\ ImagePath x' = ImagePath x;
  Quiet {A} (m : ST X A) : Prop :=
    forall x, Runs m x (fun _ x' => Fixed x x' /\ Environment x' = Environment x /\ Kernel x' = Kernel x);
  (** Text goes to the console. *)
  print_console t x : Runs (Print t) x (fun _ x' => Fixed x x' /\ Environment x' = Environment x /\
    exists b, Kernel x' = said b [] (Kernel x));
  error_quiet : Quiet GetLastError;
  mode_quiet m : Quiet (SetErrorMode m);
  name_law n x : Runs (GetModuleFileName n) x (fun p x' => Fixed x x' /\ Environment x' = Environment x /\
    match p with
    | Some p => p = ImagePath x /\ Kernel x' = Kernel x
    | None => Kernel x' = refuse (NoPath n) (Kernel x)
    end);
  attributes_law f x : Runs (GetFileAttributes f) x (fun b x' => Fixed x x' /\ Environment x' = Environment x /\
    Kernel x' = if b : bool then Kernel x else refuse (NoFile f) (Kernel x));
  info_size_quiet f : Quiet (GetFileVersionInfoSize f);
  malloc_quiet n : Quiet (Malloc n);
  free_quiet a : Quiet (Free a);
  info_quiet f n a : Quiet (GetFileVersionInfo f n a);
  query_quiet a : Quiet (VerQueryValue a);
  command_line_law x : GetCommandLine x = Some (CommandLineOf x, x);
  stdout_law x : GetStdHandle x = Some (Stdout x, x);
  null_law x : Objects (Kernel x) !! 0 = None;
  set_environment_law n v x : Runs (SetEnvironmentVariable n v) x (fun b x' => Fixed x x' /\
    if b : bool then Kernel x' = Kernel x /\ Environment x' = (fun m => if String.eqb m n then Some v else Environment x m)
    else Kernel x' = refuse (NoVariable n) (Kernel x) /\ Environment x' = Environment x);
  pipe_law x : Runs CreatePipe x (fun r x' => Fixed x x' /\ Environment x' = Environment x /\
    match r with
    | None => Kernel x' = refuse NoPipe (Kernel x)
    | Some (r, w) => exists p, Objects (Kernel x) !! r = None /\ Objects (Kernel x) !! w = None /\ r <> w /\
        (forall h, Objects (Kernel x) !! h <> Some (PipeWrite p)) /\
        Kernel x' = with_objects (<[w := PipeWrite p]> (<[r := PipeRead p]> (Objects (Kernel x))))
          (with_pending (upd (Pending (Kernel x)) p []) (Kernel x))
    end);
  duplicate_law h o x : Objects (Kernel x) !! h = Some o ->
    Runs (DuplicateHandle h) x (fun r x' => Fixed x x' /\ Environment x' = Environment x /\
      match r with
      | None => Kernel x' = refuse NoDuplicate (Kernel x)
      | Some d => Objects (Kernel x) !! d = None /\ Kernel x' = with_objects (<[d := o]> (Objects (Kernel x))) (Kernel x)
      end);
  close_law h x : Runs (CloseHandle h) x (fun _ x' => Fixed x x' /\ Environment x' = Environment x /\
    Kernel x' = with_objects (delete h (Objects (Kernel x))) (Kernel x));
  process_law f w p x : Objects (Kernel x) !! w = Some (PipeWrite p) ->
    Runs (CreateProcess f w) x (fun r x' => Fixed x x' /\ Environment x' = Environment x /\
      match r with
      | None => Kernel x' = refuse (NoProcess f) (Kernel x)
      | Some (hp, ht) => Objects (Kernel x) !! hp = None /\ Objects (Kernel x) !! ht = None /\ hp <> ht /\
          Kernel x' = with_objects (<[ht := ThreadOf p]> (<[hp := ProcessOf p]> (Objects (Kernel x))))
            (with_pending (upd (Pending (Kernel x)) p (fst (Program f (Environment x))))
              (with_codes (upd (CodeOf (Kernel x)) p (snd (Program f (Environment x)))) (Kernel x)))
      end);
  read_law h p x : Objects (Kernel x) !! h = Some (PipeRead p) -> (forall w, Objects (Kernel x) !! w <> Some (PipeWrite p)) ->
    Runs (ReadFile h 512) x (fun r x' => Fixed x x' /\ Environment x' = Environment x /\
      match Pending (Kernel x) p with
      | [] => r = None /\ Kernel x' = Kernel x
      | c :: cs => r = Some c /\ Kernel x' = with_pending (upd (Pending (Kernel x)) p cs) (Kernel x)
      end);
  write_law h c x : Objects (Kernel x) !! h = Some ConsoleOutput ->
    Runs (WriteFile h c) x (fun b x' => Fixed x x' /\ Environment x' = Environment x /\
      Kernel x' = if b : bool then said c [] (Kernel x) else refuse NoOutput (Kernel x));
  (** A process ends when all it has written has been read. *)
  wait_law h p x : Objects (Kernel x) !! h = Some (ProcessOf p) -> Pending (Kernel x) p = [] ->
    Runs (WaitForSingleObject h) x (fun _ x' => Fixed x x' /\ Environment x' = Environment x /\ Kernel x' = Kernel x);
  code_law h p x : Objects (Kernel x) !! h = Some (ProcessOf p) -> Pending (Kernel x) p = [] ->
    Runs (GetExitCodeProcess h) x (fun c x' => Fixed x x' /\ Environment x' = Environment x /\ Kernel x' = Kernel x /\
      c = Some (CodeOf (Kernel x) p));
  wait_null : Quiet (WaitForSingleObject 0);
  code_null x : Runs (GetExitCodeProcess 0) x (fun c x' => Fixed x x' /\ Environment x' = Environment x /\
    Kernel x' = Kernel x /\ c = None) }.

(** ** The parent *)
Section parent.
Context {X : Type} {Sys : ProcessSystem X} {Laws : ProcessLaws X} {Spawn : SpawnSystem X} {SLaws : SpawnLaws X}.

Lemma Fixed_trans x1 x2 x3 : Fixed x1 x2 -> Fixed x2 x3 -> Fixed x1 x3.
Proof. intros (? & ? & ?) (? & ? & ?). split_and!; congruence. Qed.

Lemma said_nil k : said [] [] k = k.
Proof. unfold said. rewrite !app_nil_r. by destruct k. Qed.

(** Only the console is written to, and something may be refused. *)
Definition Still (x x' : X) : Prop := Fixed x x' /\ Environment x' = Environment x /\ exists b l, Kernel x' = said b l (Kernel x).

Lemma Still_refl x : Still x x.
Proof. split; [done|]. split; [done|]. exists [], []. by rewrite said_nil. Qed.

Lemma Still_trans x1 x2 x3 : Still x1 x2 -> Still x2 x3 -> Still x1 x3.
Proof.
  intros (F1 & E1 & b1 & l1 & K1) (F2 & E2 & b2 & l2 & K2). split; [by eapply Fixed_trans|]. split; [congruence|].
  exists (b1 ++ b2), (l1 ++ l2). rewrite K2, K1. unfold said. cbn. by rewrite !app_assoc.
Qed.

Lemma Still_quiet x x' : Fixed x x' /\ Environment x' = Environment x /\ Kernel x' = Kernel x -> Still x x'.
Proof. intros (F & E & K). split; [done|]. split; [done|]. exists [], []. by rewrite K, said_nil. Qed.

Lemma Runs_calm {A B} (m : ST X A) (k : A -> ST X B) x Q :
  Runs m x (fun _ x' => Still x x') -> (forall a x', Still x x' -> Runs (k a) x' Q) -> Runs (bind m k) x Q.
Proof. intros Hm Hk. apply Runs_bind. eapply Runs_weaken; [exact Hm|]. intros a x' H. by apply Hk. Qed.

Lemma Runs_quiet {A B} (m : ST X A) (k : A -> ST X B) x Q :
  Quiet m -> (forall a x', Still x x' -> Runs (k a) x' Q) -> Runs (bind m k) x Q.
Proof.
  intros Hm. apply Runs_calm. eapply Runs_weaken; [apply Hm|]. intros a x'. apply Still_quiet.
Qed.

Lemma print_calm t x : Runs (Print t) x (fun _ x' => Still x x').
Proof. eapply Runs_weaken; [apply print_console|]. intros u x' (F & E & b & K). split; [done|]. split; [done|]. by exists b, []. Qed.

Lemma Runs_print {B} t (k : unit -> ST X B) x Q :
  (forall x', Still x x' -> Runs (k tt) x' Q) -> Runs (bind (Print t) k) x Q.
Proof. intros Hk. apply Runs_calm; [apply print_calm|]. intros []. exact Hk. Qed.

Lemma name_calm n x : Runs (GetModuleFileName n) x (fun _ x' => Still x x').
Proof.
  eapply Runs_weaken; [apply name_law|]. intros [p|] x' (F & E & H); (split; [done|split; [done|]]).
  - exists [], []. by rewrite said_nil, (proj2 H).
  - by exists [], [NoPath n].
Qed.

Lemma attributes_calm f x : Runs (GetFileAttributes f) x (fun _ x' => Still x x').
Proof.
  eapply Runs_weaken; [apply attributes_law|]. intros [] x' (F & E & H); (split; [done|split; [done|]]).
  - exists [], []. by rewrite said_nil.
  - by exists [], [NoFile f].
Qed.

Ltac calm := cbv beta in *; repeat (eapply Still_trans; [eassumption|]); apply Still_refl.

Lemma version_calm f x : Runs (CdiagGetModuleVersion f) x (fun _ x' => Still x x').
Proof.
  unfold CdiagGetModuleVersion. apply Runs_calm; [apply attributes_calm|]. intros b x1 H1.
  destruct b; cbn [negb]; [|apply Runs_ret; calm]. apply Runs_quiet; [apply info_size_quiet|]. intros n x2 H2.
  destruct (n =? 0). { apply Runs_quiet; [apply error_quiet|]. intros e x3 H3. apply Runs_ret. calm. }
  apply Runs_quiet; [apply malloc_quiet|]. intros a x3 H3. destruct (a =? 0); [apply Runs_ret; calm|].
  apply Runs_quiet; [apply info_quiet|]. intros b x4 H4. assert (Still x x4) as H by calm. clear H1 H2 H3 H4.
  apply Runs_calm.
  - destruct b; cbn [negb].
    + apply Runs_quiet; [apply query_quiet|]. intros [[]|] x5 H5; apply Runs_ret; calm.
    + apply Runs_quiet; [apply error_quiet|]. intros e x5 H5. apply Runs_ret. calm.
  - intros r x5 H5. apply Runs_quiet; [apply free_quiet|]. intros u x6 H6. apply Runs_ret. calm.
Qed.

Lemma banner_calm build x : Runs (CfixcmdsPrintBanner build) x (fun _ x' => Still x x').
Proof.
  unfold CfixcmdsPrintBanner. apply Runs_calm; [apply name_calm|]. intros [p|] x1 H1; [|apply Runs_ret; calm].
  apply Runs_calm; [apply version_calm|]. intros [Hr [v|]] x2 H2; [|apply Runs_ret; calm].
  destruct (Hr =? S_OK); cbn [when_]; [|apply Runs_ret; calm].
  eapply Runs_weaken; [apply print_calm|]. intros u x3 H3. calm.
Qed.

Lemma lines_calm ls : forall x, Runs (PrintLines ls) x (fun _ x' => Still x x').
Proof.
  induction ls as [|l ls IH]; intros x; cbn [PrintLines]; [apply Runs_ret, Still_refl|].
  apply Runs_print. intros x1 H1. eapply Runs_weaken; [apply IH|]. intros u x2 H2. calm.
Qed.

(** *** Relaying

    The first [n] packets of those that were still to be read have been shown; what is
    behind one that has been refused is not read any more. *)
Definition Relayed (p : Z) (x x' : X) (n : nat) : Prop := exists l,
  Refused (Kernel x') = Refused (Kernel x) ++ l /\
  Console (Kernel x') = Console (Kernel x) ++ mjoin (take n (Pending (Kernel x) p)) /\
  (l = [] /\ n = length (Pending (Kernel x) p) /\ Pending (Kernel x') p = [] \/ l = [NoOutput]).

Lemma relay_loop r s p cs : forall Fuel x, (length cs < Fuel)%nat -> Pending (Kernel x) p = cs ->
  Objects (Kernel x) !! r = Some (PipeRead p) -> Objects (Kernel x) !! s = Some ConsoleOutput ->
  (forall w, Objects (Kernel x) !! w <> Some (PipeWrite p)) ->
  Runs (RelayLoop Fuel r s) x (fun _ x' => Fixed x x' /\ Environment x' = Environment x /\
    Objects (Kernel x') = Objects (Kernel x) /\ CodeOf (Kernel x') = CodeOf (Kernel x) /\ exists n, Relayed p x x' n).
Proof.
  induction cs as [|c cs IH]; intros [|Fuel] x HF HP Hr Hs Hw; [cbn in HF; lia| |cbn in HF; lia|]; cbn [RelayLoop];
    apply Runs_bind; (eapply Runs_weaken; [by apply (read_law r p)|]); rewrite HP; intros o x1 (F1 & E1 & -> & K1).
  { apply Runs_ret. rewrite K1. split_and!; try done. exists O, []. rewrite HP, K1, !app_nil_r. split_and!; try done. by left. }
  apply Runs_bind. eapply Runs_weaken; [apply (write_law s c x1); by rewrite K1|]. intros [] x2 (F2 & E2 & K2); rewrite K1 in K2.
  - eapply Runs_weaken; [apply (IH Fuel x2); rewrite ?K2; cbn; [cbn in HF; lia| |done..]|].
    { unfold upd. by rewrite Z.eqb_refl. }
    intros u x3 (F3 & E3 & O3 & C3 & n & l & L3 & S3 & H3). rewrite K2 in O3, C3, L3, S3, H3. cbn in O3, C3, L3, S3, H3.
    unfold upd in S3, H3. rewrite Z.eqb_refl in S3, H3. split_and!; try congruence.
    { eapply Fixed_trans; [exact F1|]. by eapply Fixed_trans. }
    exists (S n), l. rewrite HP, L3, S3, app_nil_r. split_and!; try done.
    + cbn. by rewrite <- app_assoc.
    + destruct H3 as [(-> & -> & H3)|H3]; [by left|by right].
  - apply Runs_ret. rewrite K2. split_and!; try done; [by eapply Fixed_trans|congruence|].
    exists O, [NoOutput]. rewrite K2, HP. cbn. split_and!; try done. by right.
Qed.

(** *** Runs that end, and those that do not

    Behind [x0], the run [m] comes to wait for a child of whose output something is not
    read, since a packet could not be shown. *)
Definition Waits (x0 : X) (m : ST X Z) (x : X) : Prop := exists hp p (k : Z -> ST X Z) x1 l,
  m x = bind (WaitForSingleObject hp) k x1 /\ Objects (Kernel x1) !! hp = Some (ProcessOf p) /\
  Pending (Kernel x1) p <> [] /\ Refused (Kernel x1) = Refused (Kernel x0) ++ l /\ NoOutput ∈ l.
Definition Ends (x0 : X) (m : ST X Z) (x : X) (Q : Z -> X -> Prop) : Prop := Runs m x Q \/ Waits x0 m x.
Definition Grows (x x' : X) : Prop := exists l, Refused (Kernel x') = Refused (Kernel x) ++ l.

Lemma Ends_bind {A} x0 (m : ST X A) k x Q : Runs m x (fun a x' => Ends x0 (k a) x' Q) -> Ends x0 (bind m k) x Q.
Proof.
  intros (a & x1 & E & [H|(hp & p & k' & x2 & l & E2 & H)]).
  - left. apply Runs_bind. by exists a, x1.
  - right. exists hp, p, k', x2, l. by rewrite (bind_eq _ _ _ _ _ E).
Qed.

Lemma Ends_weaken x0 m x (Q Q' : Z -> X -> Prop) : Ends x0 m x Q -> (forall c x', Q c x' -> Q' c x') -> Ends x0 m x Q'.
Proof. intros [H|H] HQ; [left; by eapply Runs_weaken|by right]. Qed.

Lemma Ends_calm {A} x0 (m : ST X A) k x Q : Runs m x (fun _ x' => Still x x') ->
  (forall a x', Still x x' -> Ends x0 (k a) x' Q) -> Ends x0 (bind m k) x Q.
Proof. intros Hm Hk. apply Ends_bind. eapply Runs_weaken; [exact Hm|]. intros a x' H. by apply Hk. Qed.

(** A child has been run: the console has got what it has written, all of it unless the
    console refused to take a packet. *)
Definition Ran (f : string) (x x' : X) (c : Z) (l : list REFUSAL) : Prop :=
  c = snd (Program f (Environment x)) /\ exists n t,
    Console (Kernel x') = Console (Kernel x) ++ t ++ mjoin (take n (fst (Program f (Environment x)))) /\
    (NoOutput ∉ l -> n = length (fst (Program f (Environment x)))).

(** What may keep the tool from starting the child. *)
Definition Launching (f : string) (r : REFUSAL) : Prop :=
  r = NoFile f \/ r = NoPath (MAX_PATH + 64) \/ r = NoPipe \/ r = NoDuplicate \/ r = NoProcess f.

Ltac handles := repeat (rewrite ?lookup_delete, ?lookup_insert; case_decide; subst; try congruence; try done).
Lemma pipe_spec x : Runs CfixcmdsCreatePipe x (fun e x' => Fixed x x' /\ Environment x' = Environment x /\
  Console (Kernel x') = Console (Kernel x) /\
  match e with
  | None => Objects (Kernel x') = Objects (Kernel x) /\
      exists r, (r = NoPipe \/ r = NoDuplicate) /\ Refused (Kernel x') = Refused (Kernel x) ++ [r]
  | Some (r, w) => exists p, Objects (Kernel x) !! r = None /\ Objects (Kernel x) !! w = None /\ r <> w /\
      (forall h, Objects (Kernel x) !! h <> Some (PipeWrite p)) /\ Pending (Kernel x') p = [] /\
      Objects (Kernel x') = <[w := PipeWrite p]> (<[r := PipeRead p]> (Objects (Kernel x))) /\
      Refused (Kernel x') = Refused (Kernel x)
  end).
Proof.
  unfold CfixcmdsCreatePipe. apply Runs_bind. eapply Runs_weaken; [apply pipe_law|]. intros [[t w]|] x1 (F1 & E1 & H1).
  2: { apply Runs_ret. rewrite H1. cbn. rewrite app_nil_r. split_and!; try done. exists NoPipe. split; [by left|done]. }
  destruct H1 as (p & Ht & Hw & Hne & Hp & K1).
  apply Runs_bind. eapply Runs_weaken; [apply (duplicate_law t (PipeRead p) x1); rewrite K1; cbn; handles|].
  intros [r|] x2 (F2 & E2 & H2).
  - destruct H2 as [Hr K2]. rewrite K1 in Hr, K2. cbn in Hr, K2. apply Runs_bind. eapply Runs_weaken; [apply close_law|].
    intros b x3 (F3 & E3 & K3). rewrite K2 in K3. cbn in K3. apply Runs_ret. rewrite K3. cbn.
    assert (r <> w /\ r <> t /\ Objects (Kernel x) !! r = None) as (Hrw & Hrt & Hr0) by (revert Hr; handles).
    split; [eapply Fixed_trans; [exact F1|]; by eapply Fixed_trans|]. split; [congruence|]. split; [done|].
    exists p. split_and!; try done; [unfold upd; by rewrite Z.eqb_refl|]. apply map_eq. intros i. handles.
  - rewrite K1 in H2. apply Runs_bind. eapply Runs_weaken; [apply close_law|]. intros b x3 (F3 & E3 & K3).
    rewrite H2 in K3. cbn in K3. apply Runs_bind. eapply Runs_weaken; [apply close_law|]. intros b' x4 (F4 & E4 & K4).
    rewrite K3 in K4. cbn in K4. apply Runs_ret. rewrite K4. cbn. rewrite app_nil_r.
    split; [do 3 (eapply Fixed_trans; [eassumption|]); done|]. split; [congruence|]. split; [done|].
    split; [apply map_eq; intros i; handles|]. exists NoDuplicate. split; [by right|done].
Qed.

Lemma close_three {B} a b c (k : ST X B) x Q :
  (forall x', Kernel x' = with_objects (delete c (delete b (delete a (Objects (Kernel x))))) (Kernel x) -> Runs k x' Q) ->
  Runs (CloseHandle a ;;; CloseHandle b ;;; CloseHandle c ;;; k) x Q.
Proof.
  intros Hk. apply Runs_bind. eapply Runs_weaken; [apply close_law|]. intros ? x1 (_ & _ & K1).
  apply Runs_bind. eapply Runs_weaken; [apply close_law|]. intros ? x2 (_ & _ & K2).
  apply Runs_bind. eapply Runs_weaken; [apply close_law|]. intros ? x3 (_ & _ & K3).
  apply Hk. by rewrite K3, K2, K1.
Qed.

Context (Fuel : nat) (InputFileAddress : Z).

Lemma relay_output_spec r p x : Objects (Kernel x) !! r = Some (PipeRead p) -> Objects (Kernel x) !! Stdout x = Some ConsoleOutput ->
  (forall w, Objects (Kernel x) !! w <> Some (PipeWrite p)) -> (length (Pending (Kernel x) p) < Fuel)%nat ->
  Runs (CfixcmdsRelayOutput Fuel r) x (fun b x' => b = true /\ Fixed x x' /\ Environment x' = Environment x /\
    Objects (Kernel x') = delete (Stdout x) (Objects (Kernel x)) /\ CodeOf (Kernel x') = CodeOf (Kernel x) /\
    exists n, Relayed p x x' n).
Proof.
  intros Hr Hs Hw HF. unfold CfixcmdsRelayOutput. apply Runs_bind. eexists _, x. split; [apply stdout_law|].
  destruct (Z.eqb_spec (Stdout x) 0) as [E|_]; [rewrite E, null_law in Hs; discriminate|].
  apply Runs_bind. eapply Runs_weaken; [by apply (relay_loop r (Stdout x) p _ Fuel x HF eq_refl)|].
  intros u x1 (F1 & E1 & O1 & C1 & n & l & HR). apply Runs_bind. eapply Runs_weaken; [apply close_law|]. intros b x2 (F2 & E2 & K2).
  apply Runs_ret. rewrite K2. cbn. rewrite O1. split_and!; try congruence; [by eapply Fixed_trans|].
  exists n, l. by rewrite K2.
Qed.

(** The child has run, or there is none and the exit code is that of the caller. *)
Lemma await_spec x0 r w hp ht p O c x : Grows x0 x ->
  Objects (Kernel x) !! r = Some (PipeRead p) -> Objects (Kernel x) !! w = Some (PipeWrite p) ->
  (forall h, Objects (Kernel x) !! h = Some (PipeWrite p) -> h = w) ->
  Objects (Kernel x) !! Stdout x = Some ConsoleOutput ->
  delete r (delete hp (delete ht (delete w (Objects (Kernel x))))) = O -> O !! Stdout x = Some ConsoleOutput ->
  (length (Pending (Kernel x) p) < Fuel)%nat ->
  (Objects (Kernel x) !! hp = Some (ProcessOf p) \/ hp = 0 /\ is_Some c) ->
  Ends x0 (AwaitChild InputFileAddress Fuel r w hp ht c) x (fun e x' => Objects (Kernel x') = delete (Stdout x) O /\
    exists n l, Refused (Kernel x') = Refused (Kernel x) ++ l /\
    Console (Kernel x') = Console (Kernel x) ++ mjoin (take n (Pending (Kernel x) p)) /\
    (NoOutput ∉ l -> n = length (Pending (Kernel x) p)) /\
    if hp =? 0 then c = Some e else e = CodeOf (Kernel x) p).
Proof.
  intros [l0 HG] Hr Hw Honly Hs HO HsO HF Hhp. unfold AwaitChild. apply Ends_bind. eapply Runs_weaken; [apply close_law|].
  intros b x1 ((F1 & G1 & _) & E1 & K1). assert (r <> w /\ Stdout x <> w) as [? ?] by (split; congruence).
  apply Ends_bind. eapply Runs_weaken; [apply (relay_output_spec r p); rewrite ?K1, ?G1; cbn; [handles..|done]|].
  { intros h. handles. intros Hh. by apply Honly in Hh. }
  intros b' x2 (-> & F2 & E2 & O2 & C2 & n & l & L2 & S2 & P2). rewrite K1, ?G1 in O2. rewrite K1 in C2, L2, S2, P2.
  cbn in O2, C2, L2, S2, P2. apply Ends_bind, Runs_ret.
  assert (forall m, m = delete r (delete hp (delete ht (Objects (Kernel x2)))) -> m = delete (Stdout x) O) as Hend.
  { intros m ->. rewrite O2, <- HO. apply map_eq. intros i. handles. }
  assert (NoOutput ∉ l -> n = length (Pending (Kernel x) p)) as Hn.
  { intros Hl. destruct P2 as [(_ & Hn & _)| ->]; [done|]. destruct Hl. by left. }
  destruct Hhp as [Hhp|[-> [e ->]]].
  - assert (hp <> 0) as Hz by (intros ->; rewrite null_law in Hhp; discriminate).
    rewrite (proj2 (Z.eqb_neq hp 0)) by done. assert (hp <> w /\ hp <> Stdout x) as [? ?] by (split; congruence).
    assert (Objects (Kernel x2) !! hp = Some (ProcessOf p)) as Hp2 by (rewrite O2; handles).
    destruct (Pending (Kernel x2) p) as [|u us] eqn:HP2.
    2: { right. eexists hp, p, _, x2, (l0 ++ l). split; [reflexivity|]. destruct P2 as [(_ & _ & [=])| ->].
         rewrite L2, HG, app_assoc, HP2. split_and!; try done. apply elem_of_app. right. by left. }
    left. apply Runs_bind. eapply Runs_weaken; [by apply (wait_law hp p)|]. intros u x3 (_ & _ & K3). rewrite <- K3 in Hp2, HP2.
    apply Runs_bind. eapply Runs_weaken; [by apply (code_law hp p)|]. intros e x4 (_ & _ & K4 & ->). apply close_three.
    intros x5 K5. apply Runs_ret. rewrite K5, K4, K3. cbn. split; [by apply Hend|]. exists n, l. by rewrite C2.
  - left. cbn [Z.eqb]. apply Runs_bind. eapply Runs_weaken; [apply wait_null|]. intros u x3 (_ & _ & K3).
    apply Runs_bind. eapply Runs_weaken; [apply code_null|]. intros o x4 (_ & _ & K4 & ->). apply close_three.
    intros x5 K5. apply Runs_ret. rewrite K5, K4, K3. cbn. split; [by apply Hend|]. by exists n, l.
Qed.

Lemma child_spec x0 f r w p O x : Grows x0 x -> Objects (Kernel x) = <[w := PipeWrite p]> (<[r := PipeRead p]> O) ->
  O !! r = None -> O !! w = None -> r <> w -> (forall h, O !! h <> Some (PipeWrite p)) -> Pending (Kernel x) p = [] ->
  O !! Stdout x = Some ConsoleOutput -> (length (fst (Program f (Environment x))) < Fuel)%nat ->
  Ends x0 (RunChild InputFileAddress Fuel f r w) x (fun c x' => Objects (Kernel x') = delete (Stdout x) O /\
    exists l, Refused (Kernel x') = Refused (Kernel x) ++ l /\
    (c = CFIXRUN_EXIT_USAGE_FAILURE /\ NoProcess f ∈ l \/ Ran f x x' c l)).
Proof.
  intros HG HO Hr Hw Hne Hp HP Hs HF. unfold RunChild. pose proof (null_law x) as H0.
  assert (Stdout x <> r /\ Stdout x <> w) as [Hsr Hsw] by (split; congruence).
  apply Ends_bind. eapply Runs_weaken; [apply (process_law f w p x); rewrite HO; handles|].
  intros [[hp ht]|] x1 ((F1 & G1 & _) & E1 & H1).
  - destruct H1 as (Hhp & Hht & Hn & K1).
    assert (hp <> 0) as Hz by (pose proof (null_law x1) as Hz; rewrite K1 in Hz; cbn in Hz; revert Hz; handles).
    rewrite HO in Hhp, Hht, K1.
    assert (hp <> r /\ hp <> w /\ O !! hp = None /\ ht <> r /\ ht <> w /\ O !! ht = None) as (? & ? & ? & ? & ? & ?)
      by (revert Hhp Hht; handles).
    assert (Stdout x <> hp /\ Stdout x <> ht) as [? ?] by (split; congruence).
    eapply Ends_weaken; [apply (await_spec x0 r w hp ht p O); rewrite ?K1, ?G1; cbn|].
    all: try solve [done | handles | unfold upd; by rewrite Z.eqb_refl | intros h; handles
      | apply map_eq; intros i; handles | left; handles | destruct HG as [l0 HG]; exists l0; by rewrite K1].
    intros c x2. rewrite (proj2 (Z.eqb_neq hp 0)), K1, G1 by done. cbn. unfold upd. rewrite Z.eqb_refl.
    intros (O2 & n & l & L2 & S2 & Hl & ->). split; [done|]. exists l. split; [done|]. right. split; [done|]. by exists n, [].
  - apply Ends_calm; [eapply Runs_weaken; [apply error_quiet|]; intros ? ?; apply Still_quiet|]. intros e x2 H2.
    apply Ends_calm; [apply print_calm|]. intros u x3 H3.
    assert (Still x1 x3) as ((F3 & G3 & _) & E3 & t & l3 & K3) by calm. rewrite H1 in K3. unfold refuse, said in K3. cbn in K3.
    rewrite HO in H0, K3.
    eapply Ends_weaken; [apply (await_spec x0 r w 0 0 p O); rewrite ?K3, ?G3, ?G1; cbn|].
    all: try solve [done | handles | rewrite HP; cbn; lia | intros h; handles
      | right; split; [done|by eexists] | apply map_eq; intros i; revert H0; handles
      | destruct HG as [l0 HG]; exists (l0 ++ [NoProcess f] ++ l3); rewrite K3; cbn; rewrite HG, <- !app_assoc; done].
    intros c x4 (O4 & n & l & L4 & _ & _ & [= <-]). rewrite G3, G1 in O4. split; [done|].
    exists ([NoProcess f] ++ l3 ++ l). split; [rewrite L4, K3; cbn; by rewrite <- !app_assoc|]. left. split; [done|]. by left.
Qed.

(** The path of the library with the routine: next to the image of the tool. *)
Definition EmbPath (x : X) : option string := d ← PathRemoveFileSpec (ImagePath x); PathAppend d "cfixemb.dll".

(** The environment that tells a process to run the tests of a command line. *)
Definition Told (Path cl : string) (e : string -> option string) : Prop :=
  e CFIX_EMB_INIT_ENVVAR_NAME = Some (CchCat (MAX_PATH + 64) Path "!CfixEmbMain") /\
  e CFIXRUN_EMB_CMDLINE_ENVVAR_NAME = Some cl.

(** The child has been run and told what to do, unless the environment could not be set. *)
Definition Spawned (f Path cl : string) (x x' : X) (c : Z) (l : list REFUSAL) : Prop := exists e n t,
  (Told Path cl e \/ exists v, NoVariable v ∈ l) /\ c = snd (Program f e) /\
  Console (Kernel x') = Console (Kernel x) ++ t ++ mjoin (take n (fst (Program f e))) /\
  (NoOutput ∉ l -> n = length (fst (Program f e))).

Lemma set_spec n v x : Runs (SetEnvironmentVariable n v) x (fun _ x' => Fixed x x' /\ exists l, Kernel x' = said [] l (Kernel x) /\
  (Environment x' = (fun m => if String.eqb m n then Some v else Environment x m) \/ NoVariable n ∈ l)).
Proof.
  eapply Runs_weaken; [apply set_environment_law|]. intros [] x' (F & K & E); (split; [done|]).
  - exists []. rewrite said_nil. split; [done|by left].
  - exists [NoVariable n]. split; [done|]. right. by left.
Qed.

Lemma emb_path_spec n x : Runs (CfixcmdsGetCfixEmbPath n) x (fun r x' => Fixed x x' /\
  (r = EmbPath x /\ Kernel x' = Kernel x \/ r = None /\ Kernel x' = refuse (NoPath n) (Kernel x))).
Proof.
  unfold CfixcmdsGetCfixEmbPath. apply Runs_bind. eapply Runs_weaken; [apply name_law|].
  intros [p|] x' (F & _ & H); apply Runs_ret; (split; [done|]); [left|by right]. by destruct H as [-> H].
Qed.

Lemma spawn_spec x0 o f Path x : Grows x0 x -> InputFile o = Some f -> EmbPath x = Some Path ->
  (forall e, length (fst (Program f e)) < Fuel)%nat -> Objects (Kernel x) !! Stdout x = Some ConsoleOutput ->
  Ends x0 (CfixcmdsSpawnAndRun InputFileAddress Fuel o) x (fun c x' => exists l, Refused (Kernel x') = Refused (Kernel x) ++ l /\
    (Objects (Kernel x') = Objects (Kernel x) \/ Objects (Kernel x') = delete (Stdout x) (Objects (Kernel x))) /\
    (c = CFIXRUN_EXIT_USAGE_FAILURE /\ (exists r, r ∈ l /\ Launching f r) \/ Spawned f Path (CommandLineOf x) x x' c l)).
Proof.
  intros HG Ho HP HF Hs. unfold CfixcmdsSpawnAndRun. rewrite Ho. apply Ends_bind. eapply Runs_weaken; [apply attributes_law|].
  intros [] x1 (F1 & E1 & K1).
  2: { left. apply Runs_print. intros x2 (F2 & E2 & t & l & K2). apply Runs_ret. exists ([NoFile f] ++ l).
       rewrite K2, K1. cbn. rewrite <- app_assoc. split; [done|]. split; [by left|]. left. split; [done|].
       exists (NoFile f). split; [by left|by left]. }
  apply Ends_bind. eapply Runs_weaken; [apply emb_path_spec|]. intros p x2 (F2 & [[-> K2]|[-> K2]]).
  2: { left. apply Runs_print. intros x3 (_ & _ & t & l & K3). apply Runs_ret. exists ([NoPath (MAX_PATH + 64)] ++ l).
       rewrite K3, K2, K1. cbn. rewrite <- app_assoc. split; [done|]. split; [by left|]. left. split; [done|].
       exists (NoPath (MAX_PATH + 64)). split; [by left|right; by left]. }
  unfold EmbPath in *. rewrite (proj2 (proj2 F1)), HP. rewrite K1 in K2.
  apply Ends_bind. eapply Runs_weaken; [apply set_spec|]. intros _ x3 (F3 & l3 & K3 & E3).
  apply Ends_bind. eexists _, x3. split; [apply command_line_law|].
  apply Ends_bind. eapply Runs_weaken; [apply set_spec|]. intros _ x4 (F4 & l4 & K4 & E4). rewrite K3, K2 in K4. cbn in K4.
  apply Ends_bind. eapply Runs_weaken; [apply pipe_spec|]. intros pipe x5 (F5 & E5 & S5 & H5).
  assert (Fixed x x3) as F13 by (eapply Fixed_trans; [exact F1|]; by eapply Fixed_trans).
  assert (Fixed x x5) as (C5 & G5 & _) by (eapply Fixed_trans; [exact F13|]; by eapply Fixed_trans).
  destruct F13 as (C3 & _ & _).
  assert (Told Path (CommandLineOf x) (Environment x5) \/ exists v, NoVariable v ∈ l3 ++ l4) as HT.
  { destruct E4 as [E4|E4]; [|right; eexists; apply elem_of_app; by right].
    destruct E3 as [E3|E3]; [|right; eexists; apply elem_of_app; by left]. left. rewrite C3 in E4. by split; rewrite E5, E4; cbn; rewrite ?E3. }
  destruct pipe as [[r w]|].
  - destruct H5 as (q & Hr & Hw & Hne & Hq & HQ & O5 & L5). rewrite K4 in *. cbn in Hr, Hw, Hq, O5, L5, S5. rewrite !app_nil_r in S5.
    eapply Ends_weaken; [apply (child_spec x0 f r w q (Objects (Kernel x)) x5); [|exact O5|try done; congruence..]|].
    { destruct HG as [l0 HG]. exists (l0 ++ l3 ++ l4). by rewrite L5, HG, <- !app_assoc. }
    intros c x6 (O6 & l & L6 & H6). exists (l3 ++ l4 ++ l). rewrite L6, L5, <- !app_assoc. split; [done|]. rewrite G5 in O6.
    split; [by right|]. destruct H6 as [[Hc H6]|(Hc & n & t & H6 & Hn)]; [left; split; [done|]|right].
    + exists (NoProcess f). split; [|by do 4 right]. rewrite !elem_of_app. by do 2 right.
    + exists (Environment x5), n, t. rewrite S5 in H6. split_and!; try done.
      * destruct HT as [HT|[v HT]]; [by left|right]. exists v. rewrite app_assoc. apply elem_of_app. by left.
      * intros Hl. apply Hn. intros Hl2. apply Hl. rewrite !elem_of_app. by do 2 right.
  - destruct H5 as [O5 (r & Hr & L5)]. rewrite K4 in O5, L5. cbn in O5, L5. left.
    apply Runs_quiet; [apply error_quiet|]. intros e x6 H6. apply Runs_print. intros x7 H7. apply Runs_ret.
    assert (Still x5 x7) as (_ & _ & u & l & K7) by calm. rewrite K7. cbn. rewrite O5, L5.
    exists (l3 ++ l4 ++ [r] ++ l). rewrite <- !app_assoc. split; [done|]. split; [by left|]. left. split; [done|].
    exists r. split; [clear; set_solver|]. unfold Launching. naive_solver.
Qed.
End parent.

(** ** The child *)
Section child.
Context {Y : Type} {Sys : ProcessSystem Y} {Laws : ProcessLaws Y}.
Context (CfixrunMain : CFIXRUN_OPTIONS -> ST Y Z) (Address : Z) (Routines : Z -> ST Y (Z + Z)).

(** An executable whose start-up code finds the routine of cfixemb in the library [Path]. *)
Class Embeds (Path : string) : Prop := MkEmbeds {
  is_exe y b y' : CfixpIsExeImage Address y = Some (b, y') -> b = true;
  args_there s y r y' : CommandLineToArgv s y = Some (r, y') -> is_Some r;
  library_there y m y' : LoadLibraryA Path y = Some (m, y') -> m <> 0;
  routine_there m y r y' : GetProcAddress m "CfixEmbMain" y = Some (r, y') -> r <> 0 /\
    forall z, Routines r z = (c <- CfixEmbMain CfixrunMain ;; ret (inl c)) z }.

Lemma Runs_environment {A B} (m : ST Y A) (k : A -> ST Y B) y Q :
  Keeps m -> (forall a y', m y = Some (a, y') -> Environment y' = Environment y -> Runs (k a) y' Q) -> Runs (bind m k) y Q.
Proof. intros Hm Hk. destruct (Hm y) as (a & y' & E & He). apply Runs_bind. exists a, y'. split; [exact E|]. by apply Hk. Qed.

Lemma Keeps_bind {A B} (m : ST Y A) (k : A -> ST Y B) : Keeps m -> (forall a, Keeps (k a)) -> Keeps (bind m k).
Proof.
  intros Hm Hk y. apply Runs_environment; [exact Hm|]. intros a y' _ E. eapply Runs_weaken; [apply Hk|]. intros b y2 ->. done.
Qed.

Lemma Keeps_value {A} (a : A) : Keeps (ret a : ST Y A).
Proof. intros y. by apply Runs_ret. Qed.

Lemma Keeps_lines ls : Keeps (PrintLines ls : ST Y unit).
Proof.
  induction ls as [|l ls IH]; cbn [PrintLines]; [apply Keeps_value|]. apply Keeps_bind; [apply print_law|]. by intros _.
Qed.

Lemma Keeps_exe : Keeps (CfixpIsExeImage Address).
Proof.
  unfold CfixpIsExeImage. apply Keeps_bind; [apply handle_law|]. intros b. destruct (b =? 0); [apply Keeps_value|].
  apply Keeps_bind; [apply size_law|]. intros n. apply Keeps_value.
Qed.

(** The runner has been run with some options in some environment. *)
Definition RanWith (o : CFIXRUN_OPTIONS) (e : string -> option string) (c : Z) : Prop :=
  exists z z', Environment z = e /\ CfixrunMain o z = Some (c, z').

Context (Path : string) {Emb : Embeds Path}.

(** With its variable set, the routine is the runner with the options of the command line. *)
Lemma emb_main_spec cl Name Args o out y : Environment y CFIXRUN_EMB_CMDLINE_ENVVAR_NAME = Some cl ->
  (0 < String.length cl < 512)%nat -> ArgsOf cl = Name :: Args ->
  CfixrunParseCommandLine Name Args zeroed = Some (true, o, out) ->
  exists a z, Environment z = Environment y /\
    CfixEmbMain CfixrunMain y = (c <- CfixrunMain o ;; LocalFree a ;;; ret c) z.
Proof.
  intros He Hl Ha Hp. unfold CfixEmbMain.
  destruct (get_environment_law CFIXRUN_EMB_CMDLINE_ENVVAR_NAME 512 y) as (y1 & E1 & H1). rewrite He in E1. cbn [Value_] in E1.
  rewrite (proj2 (Nat.ltb_lt _ _)) in E1 by lia. rewrite (bind_eq _ _ _ _ _ E1). cbn [fst snd].
  rewrite (proj2 (Z.eqb_neq _ 0)) by lia. destruct (args_law cl y1) as (r & y2 & E2 & H2 & Hargs).
  rewrite (bind_eq _ _ _ _ _ E2). apply args_there in E2 as [[a l] ->]. rewrite Hargs, Ha, Hp. cbn [negb].
  rewrite !bind_assoc. destruct (Keeps_lines out y2) as ([] & y3 & E3 & H3). rewrite (bind_eq _ _ _ _ _ E3), bind_assoc.
  destruct (Keeps_bind (SetErrorMode 0) (fun m => SetErrorMode (Z.lor m SEM_FAILCRITICALERRORS)) (mode_law 0)
    (fun m => mode_law _) y3) as (m & y4 & E4 & H4). unfold NoDialogs. rewrite (bind_eq _ _ _ _ _ E4).
  exists a, y4. split; [congruence|done].
Qed.

Lemma length_string_app s t : String.length (s +:+ t) = (String.length s + String.length t)%nat.
Proof.
  induction s as [|c s IH]; [done|].
  change (S (String.length (s +:+ t)) = S (String.length s + String.length t))%nat. by rewrite IH.
Qed.

Lemma SplitBang_app p s : "!"%char ∉ String.list_ascii_of_string p -> SplitBang (p +:+ String "!" s) = Some (p, s).
Proof.
  induction p as [|c p IH]; intros Hp; [done|]. cbn in Hp. apply not_elem_of_cons in Hp as [Hc Hp].
  change (String.append (String c p) (String "!" s)) with (String c (p +:+ String "!" s)).
  cbn [SplitBang]. destruct (Ascii.eqb_spec c "!") as [->|_]; [done|]. by rewrite IH.
Qed.

(** A process with the variables ends with the code of the runner, before its [main]. *)
Lemma embedding_spec cl Name Args o out y r y' : Told Path cl (Environment y) ->
  Ansi (Path +:+ "!CfixEmbMain") = Path +:+ "!CfixEmbMain" -> (String.length Path + 12 < 100)%nat -> "!"%char ∉ String.list_ascii_of_string Path ->
  (0 < String.length cl < 512)%nat -> ArgsOf cl = Name :: Args ->
  CfixrunParseCommandLine Name Args zeroed = Some (true, o, out) ->
  CfixpCrtInitEmbedding Address Routines false y = Some (r, y') ->
  exists c, r = (true, Some c) /\ RanWith o (Environment y) c.
Proof.
  intros [Hi Hc] HA HL HB Hl Ha Hp. unfold CfixpCrtInitEmbedding.
  destruct (Keeps_exe y) as (b & y1 & E1 & H1). rewrite (bind_eq _ _ _ _ _ E1). apply is_exe in E1 as ->. cbn [negb].
  assert (CchCat (MAX_PATH + 64) Path "!CfixEmbMain" = Path +:+ "!CfixEmbMain") as EC.
  { unfold CchCat. rewrite (proj2 (Nat.ltb_lt _ _)); [done|]. rewrite length_string_app. cbn. lia. }
  rewrite EC in Hi. destruct (get_ansi_law CFIX_EMB_INIT_ENVVAR_NAME 100 y1) as (y2 & E2 & H2).
  rewrite H1, Hi in E2. cbn [fmap option_fmap option_map] in E2. rewrite HA in E2. cbn [Value_] in E2. rewrite length_string_app in E2. rewrite (proj2 (Nat.ltb_lt _ _)) in E2 by (cbn; lia).
  rewrite (bind_eq _ _ _ _ _ E2). cbn [fst snd]. rewrite (proj2 (Z.eqb_neq _ 0)) by (cbn; lia). rewrite SplitBang_app by done.
  destruct (load_law Path y2) as (m & y3 & E3 & H3). rewrite (bind_eq _ _ _ _ _ E3). apply (library_there (Path := Path)) in E3.
  rewrite (proj2 (Z.eqb_neq _ 0)) by done. destruct (address_law m "CfixEmbMain" y3) as (p & y4 & E4 & H4).
  rewrite (bind_eq _ _ _ _ _ E4). apply routine_there in E4 as [Hp0 HR]. rewrite (proj2 (Z.eqb_neq _ 0)) by done.
  assert (Environment y4 = Environment y) as Ey by congruence.
  destruct (emb_main_spec cl Name Args o out y4) as (a & z & Ez & EM); try done; [by rewrite Ey|].
  unfold bind at 1. rewrite HR. unfold bind at 1. rewrite EM. unfold bind at 1.
  destruct (CfixrunMain o z) as [[c z1]|] eqn:EC1; [|done]. destruct (local_free_law a z1) as ([] & z2 & E5 & _).
  rewrite (bind_eq _ _ _ _ _ E5). intros [= <- <-]. exists c. split; [done|]. exists z, z1. split; [congruence|done].
Qed.
End child.

(** ** Both *)
Section both.
Context {X : Type} {Sys : ProcessSystem X} {Laws : ProcessLaws X} {Spawn : SpawnSystem X} {SLaws : SpawnLaws X}.
Context {Y : Type} {SysY : ProcessSystem Y} {LawsY : ProcessLaws Y}.
Context (MainX : CFIXRUN_OPTIONS -> ST X Z) (CfixrunMain : CFIXRUN_OPTIONS -> ST Y Z).
Context (Address : Z) (Routines : Z -> ST Y (Z + Z)) (Path : string) {Emb : Embeds CfixrunMain Address Routines Path}.
(** The world of a process that has just been created with an environment. *)
Context (Start : (string -> option string) -> Y).
Context (Fuel : nat) (InputFileAddress : Z) (DDKBUILDENV : string).

(** The tool up to the start of the child. *)
Lemma wmain_spawns Name Args o out f x : Args <> [] ->
  CfixrunParseCommandLine Name Args zeroed = Some (true, o, out) ->
  InputFileType o = CfixrunInputRequiresSpawn -> InputFile o = Some f -> EmbPath x = Some Path ->
  (forall e, length (fst (Program (X := X) f e)) < Fuel)%nat -> Objects (Kernel x) !! Stdout x = Some ConsoleOutput ->
  Ends x (wmain MainX InputFileAddress DDKBUILDENV Fuel (Name :: Args)) x (fun c x' => exists l,
    Refused (Kernel x') = Refused (Kernel x) ++ l /\
    (Objects (Kernel x') = Objects (Kernel x) \/ Objects (Kernel x') = delete (Stdout x) (Objects (Kernel x))) /\
    (c = CFIXRUN_EXIT_USAGE_FAILURE /\ (exists r, r ∈ l /\ Launching f r) \/ Spawned f Path (CommandLineOf x) x x' c l)).
Proof.
  intros HA Hp Ht Hf HP HF Hs. unfold wmain. destruct Args as [|a Args]; [done|]. rewrite Hp, Ht. cbn [negb].
  apply Ends_calm; [apply lines_calm|]. intros [] x1 H1. apply Ends_calm.
  { destruct (Switch o NoLogo); cbn [negb when_]; [apply Runs_ret, Still_refl|apply banner_calm]. }
  intros [] x2 H2. assert (Still x x2) as ((F & G & I) & _ & t & l0 & K) by (eapply Still_trans; [exact H1|exact H2]).
  eapply Ends_weaken; [apply (spawn_spec Fuel InputFileAddress x o f Path x2); try done|].
  - exists l0. by rewrite K.
  - unfold EmbPath in *. by rewrite I.
  - by rewrite K, G.
  - rewrite F, G, K. cbn. intros c x' (l & L & HO & H). exists (l0 ++ l). split; [by rewrite L, app_assoc|]. split; [exact HO|].
    destruct H as [(Hc & r & Hr & HL)|(e & n & u & HT & Hc & S & Hn)]; [left|right].
    + split; [done|]. exists r. split; [apply elem_of_app; by right|done].
    + exists e, n, (t ++ u). rewrite S, K. cbn. rewrite <- !app_assoc. split_and!; try done.
      * destruct HT as [HT|[v HT]]; [by left|right]. exists v. apply elem_of_app. by right.
      * intros Hl. apply Hn. intros H. apply Hl, elem_of_app. by right.
Qed.

End both.

(** ** A tool and an executable with tests *)
Module Demo.
(** *** The child: the runner of [RunMain] in a world that has the environment *)
Definition ENV := string -> option string.
Definition WORLD := (ACTIONS * (PROXY * EW ENV))%type.
Definition EnvOf (y : WORLD) : ENV := Ext (snd (snd y)).
Definition Start (e : ENV) : WORLD := (∅, (MkProxy false None None 0 true, MkEW ∅ ∅ (fun _ => 0) TLS_OUT_OF_INDEXES 0 e)).

(** The words of a command line. *)
Fixpoint Words (w s : string) : list string :=
  match s with
  | EmptyString => [w]
  | String c s => if Ascii.eqb c " "%char then w :: Words EmptyString s else Words (w +:+ String c EmptyString) s
  end.

(** Characters beyond ASCII are not in the code page. *)
Fixpoint Replaced (s : string) : string :=
  match s with
  | EmptyString => EmptyString
  | String c s => String (if (Ascii.nat_of_ascii c <? 128)%nat then c else "?"%char) (Replaced s)
  end.
Definition known_path : string := "c:\cfix\cfixemb.dll".
Definition other_path : string := ("c:\caf" +:+ String (Ascii.ascii_of_nat 233) "\cfixemb.dll")%string.
Definition load (n : string) : Z := if String.eqb n known_path || String.eqb n other_path then 7 else 0.

#[export] Instance child : ProcessSystem WORLD := MkProcessSystem WORLD
  (ret 0) (fun _ => ret tt) (fun m => ret 0) (fun n size y => Some (Value_ (EnvOf y n) size, y))
  (fun n size y => Some (Value_ (Replaced <$> EnvOf y n) size, y))
  (fun s => ret (Some (96, Words EmptyString s))) (fun _ => ret tt) (ret 4096) (fun _ => ret 8192) (fun n => ret (load n))
  (fun _ _ => ret 9) (fun _ => ret tt).

#[export] Instance child_laws : ProcessLaws WORLD.
Proof.
  refine (MkProcessLaws WORLD child EnvOf (Words EmptyString) Replaced _ _ _ _ _ _ _ _ _ _ _ _);
    repeat intro; try (by eexists); eexists _, _; (split; [reflexivity|]); done.
Defined.

Definition still {A} (a : A) : ST ENV A := ret a.
Definition memory (bs : gset Z) : ST ENV Z := ret (1 + foldr Z.max 0 (elements bs)).
Definition sink : CFIX_EVENT_SINK (EW ENV) := {|
  SinkReportEvent := fun _ _ _ n _ => ret tt;
  SinkBeforeFixtureStart := fun _ _ _ => ret tt;
  SinkAfterFixtureFinish := fun _ _ _ _ => ret tt;
  SinkBeforeTestCaseStart := fun _ _ _ _ => ret tt;
  SinkAfterTestCaseFinish := fun _ _ _ _ _ => ret tt;
  SinkReference := ret tt;
  SinkDereference := ret tt |}.
Definition passing : CFIX_MODULE_ROUTINES (PROXY * EW ENV) := {|
  RunTestCase := fun _ _ c _ => ret S_OK;
  Setup := fun _ _ _ => ret S_OK;
  Teardown := fun _ _ _ => ret S_OK;
  Before := fun _ _ _ => ret S_OK;
  After := fun _ _ _ => ret S_OK;
  ModReference := ret tt;
  ModDereference := ret tt |}.

(** The fixtures of the process itself are run. *)
Definition runner (o : CFIXRUN_OPTIONS) : ST WORLD Z :=
  CfixrunMain (still false) (still 1) memory (still true) (still 5) (fun _ => still tt) (still tt) (fun _ => still 9)
    (fun _ _ => still 3) (still (S_OK, 1)) (fun _ _ => still S_OK) (fun _ _ => still None) (fun _ => still tt)
    (fun _ _ _ _ => ret (S_OK, 2)) (fun _ => sink) (fun _ => passing) (fun _ _ => ret (E_FAIL, (0, [])))
    (ret (S_OK, (7, RunTest.Demo.fixtures))) (fun _ _ _ _ => ret E_FAIL) 1 o.
Definition routine (_ : Z) : ST WORLD (Z + Z) := c <- CfixEmbMain runner ;; ret (inl c).

#[export] Instance embeds : Embeds runner 5000 routine known_path.
Proof.
  constructor.
  - by intros y b y' [= <- _].
  - intros s y r y' [= <- _]. by eexists.
  - by intros y m y' [= <- _].
  - intros m y r y' [= <- _]. done.
Qed.

(** *** The parent *)
Record PARENT := MkParent { Vars : ENV; Kern : KERNEL }.
Definition set_kern (k : KERNEL) (x : PARENT) : PARENT := MkParent (Vars x) k.
#[export] Instance OBJECT_eq_dec : EqDecision OBJECT.
Proof. solve_decision. Defined.
Definition next (m : gmap Z OBJECT) : Z := NextBlock (dom m).
Definition Table (x : PARENT) : gmap Z OBJECT := delete 0 (Objects (Kern x)).
Definition refused {A} (r : REFUSAL) (a : A) : ST PARENT A := fun x => Some (a, set_kern (refuse r (with_objects (Table x) (Kern x))) x).

Definition program (f : string) (e : ENV) : list (list Z) * Z :=
  match CfixpCrtInitEmbedding 5000 routine false (Start e) with
  | Some ((_, Some c), _) => ([[111]; [107]], c)
  | _ => ([], 0)
  end.

Definition create_pipe : ST PARENT (option (Z * Z)) := fun x =>
  let m := Table x in
  if bool_decide (map_Forall (fun _ o => o <> PipeWrite 1) m) then
    let r := next m in
    let w := next (<[r := PipeRead 1]> m) in
    Some (Some (r, w), set_kern (with_objects (<[w := PipeWrite 1]> (<[r := PipeRead 1]> m))
      (with_pending (upd (Pending (Kern x)) 1 []) (Kern x))) x)
  else refused NoPipe None x.
Definition duplicate (h : Z) : ST PARENT (option Z) := fun x =>
  match Table x !! h with
  | None => refused NoDuplicate None x
  | Some o => Some (Some (next (Table x)), set_kern (with_objects (<[next (Table x) := o]> (Table x)) (Kern x)) x)
  end.
Definition close (h : Z) : ST PARENT bool := fun x => Some (true, set_kern (with_objects (delete h (Table x)) (Kern x)) x).
Definition create_process (f : string) (w : Z) : ST PARENT (option (Z * Z)) := fun x =>
  match Table x !! w with
  | Some (PipeWrite p) =>
      let hp := next (Table x) in
      let ht := next (<[hp := ProcessOf p]> (Table x)) in
      Some (Some (hp, ht), set_kern (with_objects (<[ht := ThreadOf p]> (<[hp := ProcessOf p]> (Table x)))
        (with_pending (upd (Pending (Kern x)) p (fst (program f (Vars x))))
          (with_codes (upd (CodeOf (Kern x)) p (snd (program f (Vars x)))) (Kern x)))) x)
  | _ => refused (NoProcess f) None x
  end.
(** A read waits as long as there is nothing to read and a handle to write. *)
Definition read (h : Z) (_ : nat) : ST PARENT (option (list Z)) := fun x =>
  match Table x !! h with
  | Some (PipeRead p) =>
      match Pending (Kern x) p with
      | c :: cs => Some (Some c, set_kern (with_pending (upd (Pending (Kern x)) p cs) (with_objects (Table x) (Kern x))) x)
      | [] => if bool_decide (map_Forall (fun _ o => o <> PipeWrite p) (Table x)) then Some (None, x) else None
      end
  | _ => Some (None, x)
  end.
Definition write (h : Z) (c : list Z) : ST PARENT bool := fun x =>
  Some (true, set_kern (said c [] (with_objects (Table x) (Kern x))) x).
(** A process that is waited for blocks if nobody reads what it writes. *)
Definition wait (h : Z) : ST PARENT Z := fun x =>
  match Table x !! h with
  | Some (ProcessOf p) => match Pending (Kern x) p with [] => Some (0, x) | _ => None end
  | _ => Some (0xFFFFFFFF, x)
  end.
Definition exit_code (h : Z) : ST PARENT (option Z) := fun x =>
  Some (match Table x !! h with Some (ProcessOf p) => Some (CodeOf (Kern x) p) | _ => None end, x).
Definition command_line : string := "cfix32 -exe test.exe".

#[export] Instance parent : ProcessSystem PARENT := MkProcessSystem PARENT
  (ret 5) (fun _ => ret tt) (fun m => ret 0) (fun n size x => Some (Value_ (Vars x n) size, x))
  (fun n size x => Some (Value_ (Replaced <$> Vars x n) size, x))
  (fun s => ret (Some (96, Words EmptyString s))) (fun _ => ret tt) (ret 4096) (fun _ => ret 8192) (fun _ => ret 7)
  (fun _ _ => ret 9) (fun _ => ret tt).
#[export] Instance spawns : SpawnSystem PARENT := MkSpawnSystem PARENT
  (fun _ => ret (Some "c:\cfix\cfix32.exe"%string)) (fun _ => Some "c:\cfix"%string) (fun p q => Some (p +:+ "\" +:+ q)%string)
  (fun _ => ret true) (fun _ => ret 0) (fun _ => ret 0) (fun _ => ret tt) (fun _ _ _ => ret false) (fun _ => ret None)
  (ret command_line) (fun n v x => Some (true, MkParent (fun m => if String.eqb m n then Some v else Vars x m) (Kern x)))
  create_pipe duplicate close (ret 7) read write create_process wait exit_code.
#[export] Instance parent_laws : ProcessLaws PARENT.
Proof.
  refine (MkProcessLaws PARENT parent Vars (Words EmptyString) Replaced _ _ _ _ _ _ _ _ _ _ _ _);
    repeat intro; try (by eexists); eexists _, _; (split; [reflexivity|]); done.
Defined.

Arguments program : simpl never.

Lemma next_handle_free m : m !! next m = None.
Proof. apply not_elem_of_dom, NextBlock_fresh. Qed.
Lemma next_positive m : next m <> 0.
Proof. apply NextBlock_fresh. Qed.
Lemma next_two m o : let h := next m in let h' := next (<[h := o]> m) in m !! h' = None /\ h <> h'.
Proof.
  intros h h'. pose proof (next_handle_free (<[h := o]> m)) as H. by apply lookup_insert_None in H.
Qed.

(** The kernel, without a handle 0. *)
Definition kernel (x : PARENT) : KERNEL := with_objects (Table x) (Kern x).

Lemma table_null x : Table x !! 0 = None.
Proof. apply lookup_delete_eq. Qed.
Lemma kernel_eq x k : Objects k !! 0 = None -> kernel (set_kern k x) = k.
Proof. intros H. unfold kernel, Table, with_objects. cbn. rewrite delete_id by done. by destruct k. Qed.
Lemma insert_null h o (m : gmap Z OBJECT) : h <> 0 -> m !! 0 = None -> <[h := o]> m !! 0 = None.
Proof. intros Hh Hm. by rewrite lookup_insert_ne. Qed.
Lemma no_writer p (m : gmap Z OBJECT) : 
  (forall h, m !! h <> Some (PipeWrite p)) <-> bool_decide (map_Forall (fun _ o => o <> PipeWrite p) m) = true.
Proof.
  rewrite bool_decide_eq_true. split.
  - intros H h o Ho ->. by apply (H h).
  - intros H h Ho. by apply (H h _ Ho).
Qed.

Lemma kernel_refused r x : kernel (set_kern (refuse r (with_objects (Table x) (Kern x))) x) = refuse r (kernel x).
Proof. apply kernel_eq, table_null. Qed.

#[export] Instance spawn_laws : SpawnLaws PARENT.
Proof.
  refine (MkSpawnLaws PARENT parent parent_laws spawns kernel (fun _ => command_line) (fun _ => 7)
    (fun _ => "c:\cfix\cfix32.exe"%string) program _ _ _ _ _ _ _ _ _ _ _ _ _ _ _ _ _ _ _ _ _ _ _ _).
  all: try solve [repeat intro; eexists _, _; (split; [reflexivity|]); done].
  all: try solve [intros x; exact (table_null x)].
  all: try done.
  - intros t x. eexists _, _. split; [reflexivity|]. split_and!; try done. exists []. by rewrite said_nil.
  - intros x. change (CreatePipe (X := PARENT)) with create_pipe. unfold Runs, create_pipe.
    destruct (bool_decide _) eqn:E; (eexists _, _; split; [reflexivity|]); split_and!; try done; [|apply kernel_refused].
    exists 1. pose proof (next_two (Table x) (PipeRead 1)) as [H1 H2].
    split_and!; try done; [apply next_handle_free|exact (proj2 (no_writer 1 (Table x)) E)|].
    rewrite kernel_eq; [done|]. cbn [Objects]. repeat apply insert_null; try apply next_positive. apply table_null.
  - intros h o x Ho. change (DuplicateHandle (X := PARENT)) with duplicate. unfold Runs, duplicate. cbn in Ho. rewrite Ho.
    eexists _, _. split; [reflexivity|]. split_and!; try done; [apply next_handle_free|].
    rewrite kernel_eq; [done|]. cbn [Objects with_objects]. apply insert_null; [apply next_positive|apply table_null].
  - intros h x. eexists _, _. split; [reflexivity|]. split_and!; try done. cbn [Objects kernel with_objects].
    rewrite kernel_eq; [done|]. cbn. rewrite lookup_delete_None. right. apply table_null.
  - intros f w p x Hw. change (CreateProcess (X := PARENT)) with create_process. unfold Runs, create_process. cbn in Hw. rewrite Hw.
    eexists _, _. split; [reflexivity|]. pose proof (next_two (Table x) (ProcessOf p)) as [H1 H2].
    split_and!; try done; [apply next_handle_free|]. rewrite kernel_eq; [done|]. cbn [Objects].
    repeat apply insert_null; try apply next_positive. apply table_null.
  - intros h p x Hh Hw. apply (proj1 (no_writer p (Table x))) in Hw.
    change (ReadFile (X := PARENT)) with read. unfold Runs, read. cbn in Hh, Hw. rewrite Hh. cbn [Pending kernel with_objects].
    destruct (Pending (Kern x) p) as [|c cs]; [rewrite Hw|]; (eexists _, _; split; [reflexivity|]); split_and!; try done.
    rewrite kernel_eq; [done|apply table_null].
  - intros h c x Hh. eexists _, _. split; [reflexivity|]. split_and!; try done. rewrite kernel_eq; [done|apply table_null].
  - intros h p x Hh HP. change (WaitForSingleObject (X := PARENT)) with wait. unfold Runs, wait.
    cbn in Hh, HP. rewrite Hh, HP. by eexists _, _.
  - intros h p x Hh HP. change (GetExitCodeProcess (X := PARENT)) with exit_code. unfold Runs, exit_code.
    cbn in Hh. rewrite Hh. by eexists _, _.
  - intros x. change (WaitForSingleObject (X := PARENT)) with wait. unfold Runs, wait. rewrite table_null. by eexists _, _.
  - intros x. change (GetExitCodeProcess (X := PARENT)) with exit_code. unfold Runs, exit_code. rewrite table_null. by eexists _, _.
Defined.

(** *** The run *)
Definition machine : PARENT := MkParent (fun _ => None) (MkKernel {[7 := ConsoleOutput]} (fun _ => []) (fun _ => 0) [] []).
Definition options : CFIXRUN_OPTIONS := MkOptions CfixrunInputRequiresSpawn (Some "test.exe"%string) (fun _ => false) (fun _ => None).
Definition tool_run (Argv : list string) : ST PARENT Z := wmain (fun _ => ret CFIXRUN_EXIT_FAILURE) 0 "fre" 3 Argv.
Definition tool (Argv : list string) : option (Z * PARENT) := tool_run Argv machine.

(** The child writes two packets, which are on the console at the end, and all tests pass. *)
Example child_relayed : (r ← tool ["cfix32"; "-exe"; "test.exe"]%string; Some (fst r, Console (kernel (snd r)),
    map_to_list (Objects (kernel (snd r))))) = Some (CFIXRUN_EXIT_ALL_SUCCEEDED, [111; 107], []).
Proof. by vm_compute. Qed.

Lemma told_starts M e : Told known_path command_line e ->
  CfixpCrtInitEmbedding 5000 (fun _ => c <- CfixEmbMain M ;; ret (inl c)) false (Start e) =
  (c <- M options ;; ret (true, Some c)) (Start e).
Proof.
  intros [H1 H2]. vm_compute in H1, H2. unfold CfixpCrtInitEmbedding, bind. vm_compute. rewrite H1. vm_compute. rewrite H2. vm_compute.
  match goal with |- context [M ?o ?y] => by destruct (M o y) as [[c z]|] end.
Qed.

Lemma told_runs e : Told known_path command_line e ->
  fst <$> CfixpCrtInitEmbedding 5000 routine false (Start e) = Some (true, Some CFIXRUN_EXIT_ALL_SUCCEEDED).
Proof. intros H. unfold routine. rewrite told_starts by done. by vm_compute. Qed.

Lemma told_ends e : Told known_path command_line e ->
  exists r y, CfixpCrtInitEmbedding 5000 routine false (Start e) = Some (r, y) /\
    forall c, snd r = Some c -> snd (program "test.exe" e) = c.
Proof.
  intros H%told_runs. unfold program. destruct (CfixpCrtInitEmbedding _ _ _ _) as [[r y]|]; [|discriminate].
  injection H as ->. exists (true, Some CFIXRUN_EXIT_ALL_SUCCEEDED), y. split; [done|]. by intros c [= <-].
Qed.

Lemma short_output f e : (length (fst (program f e)) < 3)%nat.
Proof. unfold program. destruct (CfixpCrtInitEmbedding _ _ _ _) as [[[b [c|]] y]|]; cbn; lia. Qed.


(** A tool whose console takes nothing: the child has more to write than is read. *)
Definition deaf : SpawnSystem PARENT := MkSpawnSystem PARENT
  GetModuleFileName PathRemoveFileSpec PathAppend GetFileAttributes GetFileVersionInfoSize Malloc Free GetFileVersionInfo
  VerQueryValue GetCommandLine SetEnvironmentVariable create_pipe duplicate close GetStdHandle read
  (fun _ _ => refused NoOutput false) create_process wait exit_code.
Example deaf_console : wmain (Spawn := deaf) (fun _ => ret CFIXRUN_EXIT_FAILURE) 0 "fre" 3 ["cfix32"; "-exe"; "test.exe"]%string
  machine = None.
Proof. by vm_compute. Qed.

(** A library whose path does not survive the conversion is not found, though it is there,
    and the executable goes on to its [main]. *)
Example path_not_converted :
  fst <$> CfixpCrtInitEmbedding 5000 routine false (Start (fun n =>
    if String.eqb n CFIX_EMB_INIT_ENVVAR_NAME then Some (other_path +:+ "!CfixEmbMain")%string else Some command_line)) =
  Some (true, None).
Proof. by vm_compute. Qed.

(** A value that does not fit into the buffer is not noticed: the size that would be needed
    is taken for that of the value, and the buffer is used as it is. *)
Definition long_value : string := String.concat "" (replicate 512 "a"%string).
Example long_command_line : CfixEmbMain runner (Start (fun _ => Some long_value)) = None.
Proof. by vm_compute. Qed.
Example long_path : CfixpCrtInitEmbedding 5000 routine false (Start (fun _ => Some long_value)) = None.
Proof. by vm_compute. Qed.
End Demo.
