(* ===== verification/KrEvents.v ===== *)
(** * The event queue of the kernel reflector (cfixkern/cfixkr/rptstubs.c)

    Reports of kernel mode test code are written as structures of variable
    length, one behind the other, to the output buffer of the request that runs
    the test routine.  [P] is the size of a pointer, 4 or 8.  The queue is given
    by the channel's counters and the memory behind its buffer. *)
From stdpp Require Import base list strings.
From Stdlib Require Import ZArith Lia.
From S2P Require Import Prelude CfixApi IoBuffer.
Local Open Scope Z_scope.

(** ** The layout of the structures (include/cfixkrio.h, include/cfixaux.h)

    The code of an event's type. *)
Definition EventCode (t : CFIX_EVENT_TYPE) : Z :=
  match t with
  | CfixEventFailedAssertion => 0
  | CfixEventUncaughtException => 1
  | CfixEventInconclusiveness => 2
  | CfixEventLog => 3
  end.

Definition OFFSET_Size : Z := 2.
Definition OFFSET_ThreadId : Z := 4.
Definition OFFSET_MainThreadId : Z := 8.
Definition OFFSET_Info : Z := 16.
Definition OFFSET_StackTrace : Z := 176.

(* src/include/cfixaux.h:121-137 (CFIX_STACKTRACE) *)
Definition FIELD_OFFSET_Frames (P n : Z) : Z := OFFSET_StackTrace + 2 * P + 8 * n.
(* src/include/cfixkrio.h:217-290 (CFIXKR_EXECUTION_EVENT) *)
Definition SIZEOF_EXECUTION_EVENT (P : Z) : Z := FIELD_OFFSET_Frames P 1.

Definition MAX_USHORT : Z := 0xFFFF.
Definition CFIXKRP_MAX_STACKFRAMES : Z := 32.
Definition CfixkrExceptionRecordNone : Z := 0.
Definition CfixkrExceptionRecord32 : Z := 1.
Definition CfixkrExceptionRecord64 : Z := 2.
Definition CfixkrExceptionRecordDefault (P : Z) : Z :=
  if P =? 8 then CfixkrExceptionRecord64 else CfixkrExceptionRecord32.

(** The platform's exception record; it holds fifteen parameters. *)
Record EXCEPTION_RECORD := MkException {
  ExceptionCode : Z;
  ExceptionFlags : Z;
  NestedRecord : Z;
  ExceptionAddress : Z;
  NumberParameters : Z;
  ExceptionInformation : list Z }.

Definition put_record (P : Z) (m : Memory) (a : Z) (r : EXCEPTION_RECORD) : Memory :=
  let p := Z.to_nat P in
  let m := put 4 m a (ExceptionCode r) in
  let m := put 4 m (a + 4) (ExceptionFlags r) in
  let m := put p m (a + 8) (NestedRecord r) in
  let m := put p m (a + 8 + P) (ExceptionAddress r) in
  let m := put 4 m (a + 8 + 2 * P) (NumberParameters r) in
  put_array p m (a + 8 + 3 * P) (ExceptionInformation r).

(** ** The queue *)
(* src/cfixkern/cfixkr/cfixkrp.h:142-176 (EventBuffer) *)
Record EVENT_BUFFER := MkBuffer {
  BufferSize : Z;
  Buffer : Z;
  EventCount : Z;
  BufferLength : Z;
  BufferTruncated : bool }.

(** The arguments of [CfixkrsQueueEvent] and the state of the calling thread it
    looks at: its filament's main thread, its ID, and its stack, as
    [RtlWalkFrameChain] returns it for a number of frames. *)
Record REPORT := MkReport {
  CallerContext : bool;
  RepType : CFIX_EVENT_TYPE;
  RepException : option EXCEPTION_RECORD;
  RepFile : option string;
  RepRoutine : option string;
  RepLine : Z;
  RepExpression : option string;
  RepMessage : option string;
  RepMainThreadId : Z;
  RepThreadId : Z;
  RtlWalkFrameChain : Z -> list Z }.

(** The length of a string in bytes, if its terminator is found within [cbMax] bytes. *)
Definition RtlStringCbLengthW (s : string) (cbMax : Z) : option Z :=
  if Z.of_nat (String.length s) <? cbMax / 2 then Some (2 * Z.of_nat (String.length s)) else None.

(* src/cfixkern/cfixkr/stacktrace.c:27-71 (CfixkrpCaptureStackTrace) *)
Definition CfixkrpCaptureStackTrace (P : Z) (Context : bool) (Walk : Z -> list Z)
    (m : Memory) (StackTrace MaxFrames : Z) : option Memory :=
  if Context then None else
    let m := put (Z.to_nat P) m (StackTrace + P) 0 in
    let Frames := Walk (Z.min MaxFrames 64) in
    let m := put 4 m StackTrace (lenZ Frames) in
    Some (put_array 8 m (StackTrace + 2 * P) Frames).

(** The size of an optional string: nothing for NULL, and an error for a string
    that is too long. *)
(* src/cfixkern/cfixkr/rptstubs.c:131-165 (CfixkrsQueueEvent) *)
Definition StringLengthCb (s : option string) : option Z :=
  match s with None => Some 0 | Some s => RtlStringCbLengthW s MAX_USHORT end.

(** One string of an event: its offset is stored, its characters are appended. *)
(* src/cfixkern/cfixkr/rptstubs.c:230-243 (CfixkrsQueueEvent) *)
Definition WriteString (OffsetField : Z) (s : option string) (LengthCb : Z)
    (w : Memory * Z * Z) : Memory * Z * Z :=
  let '(m, Offset, StringsPointer) := w in
  if LengthCb =? 0 then (put 2 m OffsetField 0, Offset, StringsPointer)
  else
    let m := put 2 m OffsetField Offset in
    let m := poke m StringsPointer (wbytes (default "" s)) in
    (m, wrap 16 (Offset + LengthCb), StringsPointer + LengthCb).

(* src/cfixkern/cfixkr/rptstubs.c:218-314 (CfixkrsQueueEvent) *)
Definition WriteInfo (P : Z) (q : REPORT) (FileLengthCb RoutineLengthCb ExpressionLengthCb MessageLengthCb : Z)
    (Event : Z) (m : Memory) (StructureBaseSize : Z) : Memory :=
  let Offset := wrap 16 StructureBaseSize in
  let StringsPointer := Event + Offset in
  let Info := Event + OFFSET_Info in
  match RepType q with
  | CfixEventFailedAssertion =>
      let m := put 4 m (Info + 8) (RepLine q) in
      let m := put 2 m (Info + 2) (wrap 16 FileLengthCb) in
      let m := put 2 m (Info + 6) (wrap 16 RoutineLengthCb) in
      let m := put 2 m (Info + 14) (wrap 16 ExpressionLengthCb) in
      let w := WriteString Info (RepFile q) FileLengthCb (m, Offset, StringsPointer) in
      let w := WriteString (Info + 4) (RepRoutine q) RoutineLengthCb w in
      let w := WriteString (Info + 12) (RepExpression q) ExpressionLengthCb w in
      fst (fst w)
  | CfixEventUncaughtException =>
      match RepException q with
      | Some r =>
          let m := put 4 m Info (CfixkrExceptionRecordDefault P) in
          put_record P m (Info + 8) r
      | None => put 4 m Info CfixkrExceptionRecordNone
      end
  | CfixEventInconclusiveness | CfixEventLog =>
      let m := put 2 m (Info + 2) (wrap 16 MessageLengthCb) in
      fst (fst (WriteString Info (RepMessage q) MessageLengthCb (m, Offset, StringsPointer)))
  end.

Definition Available (b : EVENT_BUFFER) : Z := ULONG (BufferSize b - BufferLength b).
Definition Truncate (b : EVENT_BUFFER) : EVENT_BUFFER :=
  MkBuffer (BufferSize b) (Buffer b) (EventCount b) (BufferLength b) true.
Definition Commit (StructureTotalSize : Z) (b : EVENT_BUFFER) : EVENT_BUFFER :=
  MkBuffer (BufferSize b) (Buffer b) (ULONG (EventCount b + 1))
    (ULONG (BufferLength b + StructureTotalSize)) (BufferTruncated b).

(** The stack trace is captured in place; the result is the size of the structure
    up to and including the frames. *)
(* src/cfixkern/cfixkr/rptstubs.c:102-117 (CfixkrsQueueEvent) *)
Definition CaptureInPlace (P : Z) (q : REPORT) (Event : Z) (m : Memory) : Memory * Z :=
  let StackTrace := Event + OFFSET_StackTrace in
  let NoFrames := fun m => (put 4 m StackTrace 0, SIZEOF_EXECUTION_EVENT P) in
  match CfixkrpCaptureStackTrace P (CallerContext q) (RtlWalkFrameChain q) m StackTrace
          CFIXKRP_MAX_STACKFRAMES with
  | Some m =>
      let FrameCount := fetch 4 m StackTrace in
      if 0 <? FrameCount then (m, FIELD_OFFSET_Frames P FrameCount) else NoFrames m
  | None => NoFrames m
  end.

(* src/cfixkern/cfixkr/rptstubs.c:209-213 (CfixkrsQueueEvent) *)
Definition WriteHeader (q : REPORT) (StructureTotalSize Event : Z) (m : Memory) : Memory :=
  let m := put 2 m Event (EventCode (RepType q)) in
  let m := put 2 m (Event + OFFSET_Size) (wrap 16 StructureTotalSize) in
  let m := put 4 m (Event + OFFSET_MainThreadId) (RepMainThreadId q) in
  put 4 m (Event + OFFSET_ThreadId) (RepThreadId q).

(* src/cfixkern/cfixkr/rptstubs.c:38-328 (CfixkrsQueueEvent) *)
Definition CfixkrsQueueEvent (P : Z) (q : REPORT) (s : EVENT_BUFFER * Memory) : EVENT_BUFFER * Memory :=
  let '(b, m) := s in
  if Available b <? FIELD_OFFSET_Frames P (CFIXKRP_MAX_STACKFRAMES + 1) then (Truncate b, m)
  else
    let Event := Buffer b + BufferLength b in
    let '(m, StructureBaseSize) := CaptureInPlace P q Event m in
    match StringLengthCb (RepFile q), StringLengthCb (RepRoutine q),
          StringLengthCb (RepMessage q), StringLengthCb (RepExpression q) with
    | Some FileLengthCb, Some RoutineLengthCb, Some MessageLengthCb, Some ExpressionLengthCb =>
        let StructureTotalSize := ULONG (StructureBaseSize + ExpressionLengthCb + FileLengthCb +
                                         MessageLengthCb + RoutineLengthCb) in
        let StructureTotalSize := Z.land (ULONG (StructureTotalSize + 7)) 0xFFFFFFF8 in
        if Available b <? StructureTotalSize then (Truncate b, m)
        else if MAX_USHORT <? StructureTotalSize then (b, m)
        else
          let m := WriteHeader q StructureTotalSize Event m in
          let m := WriteInfo P q FileLengthCb RoutineLengthCb ExpressionLengthCb MessageLengthCb
                     Event m StructureBaseSize in
          (Commit StructureTotalSize b, m)
    | _, _, _, _ => (b, m)
    end.

(** ** What the queue promises

    The frames and the strings of a report, and its size in the buffer. *)
Definition Frames_ (q : REPORT) : list Z :=
  if CallerContext q then [] else RtlWalkFrameChain q CFIXKRP_MAX_STACKFRAMES.

Definition BaseSize (P : Z) (q : REPORT) : Z := FIELD_OFFSET_Frames P (Z.max 1 (lenZ (Frames_ q))).

Definition cb (s : option string) : Z :=
  match s with None => 0 | Some s => 2 * Z.of_nat (String.length s) end.

Definition Short (s : option string) : bool := cb s <? 65534.

Definition AllShort (q : REPORT) : bool :=
  Short (RepFile q) && Short (RepRoutine q) && Short (RepMessage q) && Short (RepExpression q).

Definition RoundUp8 (n : Z) : Z := (n + 7) / 8 * 8.

Definition EventSize (P : Z) (q : REPORT) : Z :=
  RoundUp8 (BaseSize P q + cb (RepExpression q) + cb (RepFile q) + cb (RepMessage q) + cb (RepRoutine q)).

(** What becomes of a report if [room] bytes are left. *)
Inductive VERDICT := Dropped | DroppedTruncated | Accepted (n : Z).

Definition Verdict (P : Z) (room : Z) (q : REPORT) : VERDICT :=
  if room <? FIELD_OFFSET_Frames P (CFIXKRP_MAX_STACKFRAMES + 1) then DroppedTruncated
  else if negb (AllShort q) then Dropped
  else if room <? EventSize P q then DroppedTruncated
  else if MAX_USHORT <? EventSize P q then Dropped
  else Accepted (EventSize P q).

(** Arguments in the range of their types; an exception comes with its record. *)
Definition Word (P v : Z) : Prop := 0 <= v < 256 ^ P.

Record Proper_ (P : Z) (q : REPORT) : Prop := {
  proper_line : 0 <= RepLine q < 2 ^ 32;
  proper_thread : 0 <= RepThreadId q < 2 ^ 32;
  proper_main : 0 <= RepMainThreadId q < 2 ^ 32;
  proper_walk : lenZ (RtlWalkFrameChain q CFIXKRP_MAX_STACKFRAMES) <= CFIXKRP_MAX_STACKFRAMES;
  proper_frames : Forall (fun v => 0 <= v < 256 ^ Z.of_nat 8) (RtlWalkFrameChain q CFIXKRP_MAX_STACKFRAMES);
  proper_exception : RepType q = CfixEventUncaughtException -> exists r, RepException q = Some r /\
    0 <= ExceptionCode r < 2 ^ 32 /\ length (ExceptionInformation r) = 15%nat }.

(** The structure at [a], as a reader of a copy of its [n] bytes finds it. *)
Definition StringAt (m : Memory) (a OffsetField LengthField : Z) (s : option string) : Prop :=
  fetch 2 m (a + LengthField) = cb s /\
  wstring (peek m (a + fetch 2 m (a + OffsetField)) (Z.to_nat (cb s))) = default "" s.

Definition InfoAt (P : Z) (m : Memory) (a : Z) (q : REPORT) : Prop :=
  match RepType q with
  | CfixEventFailedAssertion =>
      fetch 4 m (a + 24) = RepLine q /\ StringAt m a 16 18 (RepFile q) /\
      StringAt m a 20 22 (RepRoutine q) /\ StringAt m a 28 30 (RepExpression q)
  | CfixEventUncaughtException =>
      fetch 4 m (a + 16) = CfixkrExceptionRecordDefault P /\
      Some (fetch 4 m (a + 24)) = ExceptionCode <$> RepException q
  | _ => StringAt m a 16 18 (RepMessage q)
  end.

Record HeaderAt (P : Z) (m : Memory) (a : Z) (q : REPORT) (n : Z) : Prop := {
  at_type : fetch 2 m a = EventCode (RepType q);
  at_size : fetch 2 m (a + OFFSET_Size) = n;
  at_thread : fetch 4 m (a + OFFSET_ThreadId) = RepThreadId q;
  at_main : fetch 4 m (a + OFFSET_MainThreadId) = RepMainThreadId q;
  at_count : fetch 4 m (a + OFFSET_StackTrace) = lenZ (Frames_ q);
  at_frames : fetch_array 8 m (a + FIELD_OFFSET_Frames P 0) (length (Frames_ q)) = Frames_ q }.

Definition EventAt (P : Z) (m : Memory) (a : Z) (q : REPORT) (n : Z) : Prop :=
  forall m' a', Copied m' a' m a n -> HeaderAt P m' a' q n /\ InfoAt P m' a' q.

(** ** Sizes *)
Lemma land_RoundUp8 x : 0 <= x < 2 ^ 32 -> Z.land x 0xFFFFFFF8 = x / 8 * 8.
Proof.
  intros Hx. change 0xFFFFFFF8 with (Z.shiftl (Z.ones 29) 3).
  change (x / 8 * 8) with (x / 2 ^ 3 * 2 ^ 3). rewrite <- Z.shiftr_div_pow2, <- Z.shiftl_mul_pow2 by lia.
  apply Z.bits_inj'. intros i Hi. rewrite Z.land_spec, !Z.shiftl_spec by lia.
  destruct (Z.ltb_spec i 3).
  - rewrite !(Z.testbit_neg_r _ (i - 3)) by lia. apply andb_false_r.
  - rewrite Z.shiftr_spec by lia. replace (i - 3 + 3) with i by lia.
    destruct (Z.ltb_spec i 32).
    + rewrite Z.ones_spec_low by lia. apply andb_true_r.
    + rewrite (Z.bits_above_log2 x); [done|lia|]. destruct (decide (x = 0)) as [->|]; [simpl; lia|].
      apply Z.lt_le_trans with 32; [|lia]. apply Z.log2_lt_pow2; lia.
Qed.

Lemma RoundUp8_ge n : n <= RoundUp8 n.
Proof.
  unfold RoundUp8. pose proof (Z.div_mod (n + 7) 8 ltac:(lia)).
  pose proof (Z.mod_pos_bound (n + 7) 8 ltac:(lia)). lia.
Qed.

Lemma RoundUp8_le n : RoundUp8 n <= n + 7.
Proof.
  unfold RoundUp8. pose proof (Z.div_mod (n + 7) 8 ltac:(lia)).
  pose proof (Z.mod_pos_bound (n + 7) 8 ltac:(lia)). lia.
Qed.

Lemma cb_nonneg s : 0 <= cb s.
Proof. destruct s; simpl; lia. Qed.

Lemma StringLengthCb_Short s : StringLengthCb s = if Short s then Some (cb s) else None.
Proof.
  destruct s as [s|]; [|done]. unfold StringLengthCb, RtlStringCbLengthW, Short, cb.
  change (MAX_USHORT / 2) with 32767. destruct (Z.ltb_spec (Z.of_nat (String.length s)) 32767);
    destruct (Z.ltb_spec (2 * Z.of_nat (String.length s)) 65534); try done; lia.
Qed.

Lemma lenZ_wbytes_cb s : lenZ (wbytes (default "" s)) = cb s.
Proof. destruct s as [s|]; [apply lenZ_wbytes|done]. Qed.

Lemma length_wbytes_cb s : Z.to_nat (cb s) = length (wbytes (default "" s)).
Proof. rewrite <- lenZ_wbytes_cb. unfold lenZ. lia. Qed.

Section queue.
Context (P : Z) (HP : P = 4 \/ P = 8).

Lemma Frames_length q : Proper_ P q -> 0 <= lenZ (Frames_ q) <= 32.
Proof.
  intros H. unfold Frames_. split; [unfold lenZ; lia|].
  destruct (CallerContext q); [done|]. by apply H.
Qed.

Lemma BaseSize_bounds q : Proper_ P q -> SIZEOF_EXECUTION_EVENT P <= BaseSize P q <= 448.
Proof.
  intros H%Frames_length. unfold BaseSize, SIZEOF_EXECUTION_EVENT, FIELD_OFFSET_Frames, OFFSET_StackTrace.
  lia.
Qed.

(** The total size as the code computes it. *)
Lemma TotalSize_eq q :
  Proper_ P q -> AllShort q = true ->
  Z.land (ULONG (ULONG (BaseSize P q + cb (RepExpression q) + cb (RepFile q) + cb (RepMessage q) +
    cb (RepRoutine q)) + 7)) 0xFFFFFFF8 = EventSize P q.
Proof.
  intros H HS. pose proof (BaseSize_bounds q H) as Hb.
  unfold AllShort, Short in HS. rewrite !andb_true_iff, !Z.ltb_lt in HS.
  pose proof (cb_nonneg (RepExpression q)). pose proof (cb_nonneg (RepFile q)).
  pose proof (cb_nonneg (RepMessage q)). pose proof (cb_nonneg (RepRoutine q)).
  unfold SIZEOF_EXECUTION_EVENT, FIELD_OFFSET_Frames, OFFSET_StackTrace in Hb.
  unfold ULONG. rewrite (wrap_small 32 (_ + cb (RepRoutine q))) by lia. rewrite wrap_small by lia.
  rewrite land_RoundUp8 by lia. done.
Qed.

Lemma EventSize_ge q :
  Proper_ P q ->
  BaseSize P q + cb (RepExpression q) + cb (RepFile q) + cb (RepMessage q) + cb (RepRoutine q) <= EventSize P q.
Proof. intros _. apply RoundUp8_ge. Qed.

(** ** Capturing the stack *)
Lemma CaptureInPlace_spec q Event m :
  Proper_ P q -> exists m1,
    CaptureInPlace P q Event m = (m1, BaseSize P q) /\
    fetch 4 m1 (Event + OFFSET_StackTrace) = lenZ (Frames_ q) /\
    fetch_array 8 m1 (Event + FIELD_OFFSET_Frames P 0) (length (Frames_ q)) = Frames_ q /\
    (forall i, i < Event + OFFSET_StackTrace \/ Event + FIELD_OFFSET_Frames P 32 <= i -> m1 i = m i).
Proof.
  intros H. pose proof (Frames_length q H) as HF. pose proof (proper_frames _ _ H) as HFs.
  unfold CaptureInPlace, CfixkrpCaptureStackTrace, BaseSize, Frames_ in *.
  change (Z.min CFIXKRP_MAX_STACKFRAMES 64) with CFIXKRP_MAX_STACKFRAMES.
  unfold FIELD_OFFSET_Frames, SIZEOF_EXECUTION_EVENT, FIELD_OFFSET_Frames in *.
  destruct (CallerContext q); cbn [length lenZ fetch_array].
  - eexists. split; [reflexivity|]. split; [by apply fetch_put_eq|]. split; [done|].
    intros i Hi. apply put_outside. lia.
  - set (fs := RtlWalkFrameChain q CFIXKRP_MAX_STACKFRAMES) in *. cbv zeta.
    set (m2 := put_array 8 _ _ fs).
    assert (fetch 4 m2 (Event + OFFSET_StackTrace) = lenZ fs) as E.
    { unfold m2. rewrite fetch_put_array_ne by lia. apply fetch_put_eq. change (256 ^ Z.of_nat 4) with (2 ^ 32). lia. }
    assert (forall i, i < Event + OFFSET_StackTrace \/ Event + (OFFSET_StackTrace + 2 * P + 8 * 32) <= i -> m2 i = m i) as Ho.
    { intros i Hi. unfold m2. rewrite put_array_outside, !put_outside by lia. done. }
    rewrite E. destruct (Z.ltb_spec 0 (lenZ fs)).
    + exists m2. rewrite Z.max_r by lia. split; [done|]. split; [done|]. split; [|done].
      unfold m2. replace (Event + (OFFSET_StackTrace + 2 * P + 8 * 0)) with (Event + OFFSET_StackTrace + 2 * P) by lia.
      by apply fetch_array_put_array.
    + assert (fs = []) as -> by (destruct fs; [done|unfold lenZ in *; simpl in *; lia]).
      eexists. split; [reflexivity|]. split; [by apply fetch_put_eq|]. split; [done|].
      intros i Hi. rewrite put_outside by lia. by apply Ho.
Qed.

(** ** Writing the strings

    A string whose offset is stored at [OF], its characters in [[a + B, a + T)]. *)
Definition StringIn (m : Memory) (a B T OF : Z) (s : option string) : Prop :=
  exists off, fetch 2 m OF = off /\ peek m (a + off) (Z.to_nat (cb s)) = wbytes (default "" s) /\
    (cb s = 0 \/ B <= off) /\ 0 <= off /\ off + cb s <= T.

Lemma StringIn_frame m m' a B T T' OF s :
  StringIn m a B T OF s -> T <= T' ->
  (forall i, OF <= i < OF + 2 \/ a + B <= i < a + T -> m' i = m i) -> StringIn m' a B T' OF s.
Proof.
  intros (off & Ho & Hp & HB & H0 & HT) HTT Hf. exists off.
  rewrite (fetch_ext _ m' m) by (intros; apply Hf; lia). split; [done|]. split; [|auto with lia].
  destruct HB as [E|HB].
  - by rewrite E in Hp |- *.
  - rewrite <- Hp. apply peek_ext. intros. apply Hf. lia.
Qed.

Lemma WriteString_spec a B OF s m O Ptr :
  Ptr = a + O -> a <= OF -> OF + 2 <= a + B -> B <= O -> 0 <= B -> 0 <= a -> O + cb s < 2 ^ 16 ->
  exists m', WriteString OF s (cb s) (m, O, Ptr) = (m', O + cb s, Ptr + cb s) /\
    StringIn m' a B (O + cb s) OF s /\
    (forall i, ~ (OF <= i < OF + 2) -> ~ (a + O <= i < a + O + cb s) -> m' i = m i).
Proof.
  intros ->. intros. unfold WriteString, StringIn. pose proof (cb_nonneg s). destruct (Z.eqb_spec (cb s) 0) as [E|E].
  - eexists. rewrite E, !Z.add_0_r. split; [reflexivity|]. split.
    + exists 0. split; [by apply fetch_put_eq|]. split; [|lia].
      pose proof (lenZ_wbytes_cb s) as L. rewrite E in L. by destruct (wbytes (default "" s)).
    + intros. rewrite put_outside by lia. done.
  - eexists. rewrite (wrap_small 16) by lia. split; [reflexivity|].
    pose proof (lenZ_wbytes_cb s) as L. split.
    + exists O. split.
      * rewrite fetch_poke_ne by lia. apply fetch_put_eq. change (256 ^ Z.of_nat 2) with (2 ^ 16). lia.
      * rewrite peek_poke_eq by apply length_wbytes_cb. auto with lia.
    + intros. rewrite poke_outside by lia. apply put_outside. lia.
Qed.

(** A string written there is found in every copy. *)
Lemma StringIn_StringAt m a B T n o l s m' a' :
  StringIn m a B T (a + o) s -> fetch 2 m (a + l) = cb s ->
  0 <= o -> o + 2 <= n -> 0 <= l -> l + 2 <= n -> T <= n ->
  Copied m' a' m a n -> StringAt m' a' o l s.
Proof.
  intros (off & Ho & Hp & HB & H0 & HT) Hl ? ? ? ? ? HC. unfold StringAt.
  rewrite (fetch_Copied _ _ _ _ _ HC 2 o), (fetch_Copied _ _ _ _ _ HC 2 l) by lia.
  pose proof (cb_nonneg s). rewrite Ho, Hl, (peek_Copied _ _ _ _ _ HC) by lia.
  rewrite Hp. split; [done|apply wstring_wbytes].
Qed.

Lemma put_record_code m a r :
  0 <= ExceptionCode r < 2 ^ 32 -> fetch 4 (put_record P m a r) a = ExceptionCode r.
Proof.
  intros H. unfold put_record. rewrite fetch_put_array_ne by lia.
  rewrite !fetch_put_ne by lia. by apply fetch_put_eq.
Qed.

Lemma put_record_outside m a r i :
  length (ExceptionInformation r) = 15%nat -> i < a \/ a + 152 <= i -> put_record P m a r i = m i.
Proof.
  intros HL Hi. unfold put_record.
  rewrite put_array_outside by (unfold lenZ; lia). rewrite !put_outside by lia. done.
Qed.

Lemma WriteAssertion_spec q a m :
  Proper_ P q -> RepType q = CfixEventFailedAssertion -> 0 <= a -> EventSize P q <= MAX_USHORT ->
  let m' := WriteInfo P q (cb (RepFile q)) (cb (RepRoutine q)) (cb (RepExpression q)) (cb (RepMessage q))
              a m (BaseSize P q) in
  (forall i, ~ (a + OFFSET_Info <= i < a + OFFSET_StackTrace) ->
     ~ (a + BaseSize P q <= i < a + EventSize P q) -> m' i = m i) /\
  (forall m2 a2, Copied m2 a2 m' a (EventSize P q) -> InfoAt P m2 a2 q).
Proof.
  intros H HT Ha HS m'. pose proof (BaseSize_bounds q H) as Hb. pose proof (EventSize_ge q H) as He.
  pose proof (cb_nonneg (RepFile q)) as N1. pose proof (cb_nonneg (RepRoutine q)) as N2.
  pose proof (cb_nonneg (RepExpression q)) as N3. pose proof (cb_nonneg (RepMessage q)) as N4.
  pose proof (proper_line _ _ H) as HLine.
  unfold SIZEOF_EXECUTION_EVENT, FIELD_OFFSET_Frames, OFFSET_StackTrace, OFFSET_Info, MAX_USHORT in *.
  subst m'. unfold WriteInfo, InfoAt. rewrite HT. cbv zeta. unfold OFFSET_Info.
  rewrite !(wrap_small 16) by lia.
  set (m4 := put 2 (put 2 _ _ _) _ _).
  destruct (WriteString_spec a (BaseSize P q) (a + 16) (RepFile q) m4 (BaseSize P q) (a + BaseSize P q)) as (mf & -> & Sf & Ff);
    [lia..|].
  destruct (WriteString_spec a (BaseSize P q) (a + 16 + 4) (RepRoutine q) mf (BaseSize P q + cb (RepFile q))
    (a + BaseSize P q + cb (RepFile q))) as (mr & -> & Sr & Fr); [lia..|].
  destruct (WriteString_spec a (BaseSize P q) (a + 16 + 12) (RepExpression q) mr
    (BaseSize P q + cb (RepFile q) + cb (RepRoutine q))
    (a + BaseSize P q + cb (RepFile q) + cb (RepRoutine q))) as (me & -> & Se & Fe); [lia..|].
  cbn [fst snd].
  assert (forall w o, o + Z.of_nat w <= 176 -> 16 <= o ->
    (o + Z.of_nat w <= 16 \/ 18 <= o) -> (o + Z.of_nat w <= 20 \/ 22 <= o) ->
    (o + Z.of_nat w <= 28 \/ 30 <= o) -> fetch w me (a + o) = fetch w m4 (a + o)) as Hfield.
  { intros w o ? ? ? ? ?. apply fetch_ext. intros. rewrite Fe, Fr, Ff by lia. done. }
  split.
  - intros i Hi1 Hi2. rewrite Fe, Fr, Ff by lia. subst m4. rewrite !put_outside by lia. done.
  - intros m2 a2 HC. rewrite (fetch_Copied _ _ _ _ _ HC 4 24), Hfield by (simpl; lia).
    subst m4. split; [fetching; replace (a + 24) with (a + 16 + 8) by lia; apply fetch_put_eq; simpl; lia|].
    split; [|split];
      (eapply (StringIn_StringAt me a (BaseSize P q)
        (BaseSize P q + cb (RepFile q) + cb (RepRoutine q) + cb (RepExpression q)));
       [ |rewrite Hfield by (simpl; lia); fetching| | | | | |exact HC]; try lia).
    + eapply StringIn_frame; [exact Sf|lia|]. intros. rewrite Fe, Fr by lia. done.
    + replace (a + 18) with (a + 16 + 2) by lia. apply fetch_put_eq. simpl; lia.
    + replace (a + 20) with (a + 16 + 4) by lia.
      eapply StringIn_frame; [exact Sr|lia|]. intros. rewrite Fe by lia. done.
    + replace (a + 22) with (a + 16 + 6) by lia. apply fetch_put_eq. simpl; lia.
    + replace (a + 28) with (a + 16 + 12) by lia. exact Se.
    + replace (a + 30) with (a + 16 + 14) by lia. apply fetch_put_eq. simpl; lia.
Qed.

Lemma WriteMessage_spec q a m :
  Proper_ P q -> RepType q = CfixEventInconclusiveness \/ RepType q = CfixEventLog ->
  0 <= a -> EventSize P q <= MAX_USHORT ->
  let m' := WriteInfo P q (cb (RepFile q)) (cb (RepRoutine q)) (cb (RepExpression q)) (cb (RepMessage q))
              a m (BaseSize P q) in
  (forall i, ~ (a + OFFSET_Info <= i < a + OFFSET_StackTrace) ->
     ~ (a + BaseSize P q <= i < a + EventSize P q) -> m' i = m i) /\
  (forall m2 a2, Copied m2 a2 m' a (EventSize P q) -> InfoAt P m2 a2 q).
Proof.
  intros H HT Ha HS m'. pose proof (BaseSize_bounds q H) as Hb. pose proof (EventSize_ge q H) as He.
  pose proof (cb_nonneg (RepFile q)) as N1. pose proof (cb_nonneg (RepRoutine q)) as N2.
  pose proof (cb_nonneg (RepExpression q)) as N3. pose proof (cb_nonneg (RepMessage q)) as N4.
  unfold SIZEOF_EXECUTION_EVENT, FIELD_OFFSET_Frames, OFFSET_StackTrace, OFFSET_Info, MAX_USHORT in *.
  set (m4 := put 2 m (a + 16 + 2) (cb (RepMessage q))).
  destruct (WriteString_spec a (BaseSize P q) (a + 16) (RepMessage q) m4 (BaseSize P q) (a + BaseSize P q))
    as (mf & E & Sf & Ff); [lia..|].
  assert (m' = mf) as ->.
  { subst m'. unfold WriteInfo. rewrite !(wrap_small 16) by lia. cbv zeta. unfold OFFSET_Info. fold m4.
    destruct HT as [-> | ->]; by rewrite E. }
  split.
  - intros i Hi1 Hi2. rewrite Ff by lia. subst m4. rewrite put_outside by lia. done.
  - intros m2 a2 HC. assert (StringAt m2 a2 16 18 (RepMessage q)) as HSt.
    { eapply (StringIn_StringAt mf a (BaseSize P q) (BaseSize P q + cb (RepMessage q)));
        [exact Sf| | | | | | |exact HC]; try lia.
      rewrite (fetch_ext _ mf m4) by (intros; apply Ff; lia).
      subst m4. replace (a + 18) with (a + 16 + 2) by lia. apply fetch_put_eq. simpl; lia. }
    unfold InfoAt. by destruct HT as [-> | ->].
Qed.

Lemma WriteException_spec q a m :
  Proper_ P q -> RepType q = CfixEventUncaughtException -> 0 <= a -> EventSize P q <= MAX_USHORT ->
  let m' := WriteInfo P q (cb (RepFile q)) (cb (RepRoutine q)) (cb (RepExpression q)) (cb (RepMessage q))
              a m (BaseSize P q) in
  (forall i, ~ (a + OFFSET_Info <= i < a + OFFSET_StackTrace) ->
     ~ (a + BaseSize P q <= i < a + EventSize P q) -> m' i = m i) /\
  (forall m2 a2, Copied m2 a2 m' a (EventSize P q) -> InfoAt P m2 a2 q).
Proof.
  intros H HT Ha HS m'. pose proof (BaseSize_bounds q H) as Hb. pose proof (EventSize_ge q H) as He.
  pose proof (cb_nonneg (RepFile q)) as N1. pose proof (cb_nonneg (RepRoutine q)) as N2.
  pose proof (cb_nonneg (RepExpression q)) as N3. pose proof (cb_nonneg (RepMessage q)) as N4.
  destruct (proper_exception _ _ H HT) as (r & Er & Hc & Hr).
  unfold SIZEOF_EXECUTION_EVENT, FIELD_OFFSET_Frames, OFFSET_StackTrace, OFFSET_Info, MAX_USHORT in *.
  subst m'. unfold WriteInfo, InfoAt. rewrite HT, Er. cbv zeta. unfold OFFSET_Info. split.
  - intros i Hi1 Hi2. rewrite put_record_outside by (done || lia). apply put_outside. lia.
  - intros m2 a2 HC. rewrite (fetch_Copied _ _ _ _ _ HC 4 16), (fetch_Copied _ _ _ _ _ HC 4 24) by lia. split.
    + rewrite (fetch_ext _ _ (put 4 m (a + 16) (CfixkrExceptionRecordDefault P)))
        by (intros; apply put_record_outside; [done|lia]).
      apply fetch_put_eq. by destruct HP as [-> | ->].
    + replace (a + 24) with (a + 16 + 8) by lia. by rewrite put_record_code.
Qed.

Lemma WriteInfo_spec q a m :
  Proper_ P q -> 0 <= a -> EventSize P q <= MAX_USHORT ->
  let m' := WriteInfo P q (cb (RepFile q)) (cb (RepRoutine q)) (cb (RepExpression q)) (cb (RepMessage q))
              a m (BaseSize P q) in
  (forall i, ~ (a + OFFSET_Info <= i < a + OFFSET_StackTrace) ->
     ~ (a + BaseSize P q <= i < a + EventSize P q) -> m' i = m i) /\
  (forall m2 a2, Copied m2 a2 m' a (EventSize P q) -> InfoAt P m2 a2 q).
Proof.
  intros H Ha HS. destruct (RepType q) eqn:HT.
  - by apply WriteAssertion_spec.
  - by apply WriteException_spec.
  - apply WriteMessage_spec; auto.
  - apply WriteMessage_spec; auto.
Qed.

Lemma BaseSize_le_EventSize q : Proper_ P q -> BaseSize P q <= EventSize P q.
Proof.
  intros H. pose proof (EventSize_ge q H).
  pose proof (cb_nonneg (RepFile q)). pose proof (cb_nonneg (RepRoutine q)).
  pose proof (cb_nonneg (RepExpression q)). pose proof (cb_nonneg (RepMessage q)). lia.
Qed.

Lemma WriteHeader_outside q n a m i : i < a \/ a + 12 <= i -> WriteHeader q n a m i = m i.
Proof.
  intros Hi. unfold WriteHeader, OFFSET_Size, OFFSET_MainThreadId, OFFSET_ThreadId.
  rewrite !put_outside by lia. done.
Qed.

(** The header survives what is written behind it. *)
Lemma HeaderAt_written q n a m1 m3 m' a' :
  Proper_ P q -> BaseSize P q <= n <= MAX_USHORT ->
  fetch 4 m1 (a + OFFSET_StackTrace) = lenZ (Frames_ q) ->
  fetch_array 8 m1 (a + FIELD_OFFSET_Frames P 0) (length (Frames_ q)) = Frames_ q ->
  (forall i, ~ (a + OFFSET_Info <= i < a + OFFSET_StackTrace) -> ~ (a + BaseSize P q <= i < a + n) ->
     m3 i = WriteHeader q n a m1 i) ->
  Copied m' a' m3 a n -> HeaderAt P m' a' q n.
Proof.
  intros H Hn Hcount Hframes Hfr HC. pose proof (BaseSize_bounds q H) as Hb.
  pose proof (proper_thread _ _ H). pose proof (proper_main _ _ H).
  assert (FIELD_OFFSET_Frames P (lenZ (Frames_ q)) <= BaseSize P q) as HF.
  { unfold BaseSize, FIELD_OFFSET_Frames. lia. }
  unfold SIZEOF_EXECUTION_EVENT, FIELD_OFFSET_Frames, OFFSET_StackTrace, OFFSET_Info, MAX_USHORT in *.
  assert (forall w o, 0 <= o -> o + Z.of_nat w <= 16 ->
    fetch w m' (a' + o) = fetch w (WriteHeader q n a m1) (a + o)) as Hh.
  { intros w o ? ?. rewrite (fetch_Copied _ _ _ _ _ HC) by lia. apply fetch_ext. intros. apply Hfr; lia. }
  unfold WriteHeader, OFFSET_Size, OFFSET_MainThreadId, OFFSET_ThreadId in Hh.
  rewrite (wrap_small 16 n) in Hh by lia.
  split; unfold OFFSET_Size, OFFSET_MainThreadId, OFFSET_ThreadId, FIELD_OFFSET_Frames, OFFSET_StackTrace.
  - specialize (Hh 2%nat 0). rewrite !Z.add_0_r in Hh. rewrite Hh by lia. fetching.
    apply fetch_put_eq. by destruct (RepType q).
  - rewrite Hh by lia. fetching. done.
  - rewrite Hh by lia. fetching. done.
  - rewrite Hh by lia. fetching. done.
  - rewrite (fetch_Copied _ _ _ _ _ HC) by lia. rewrite <- Hcount. apply fetch_ext. intros.
    rewrite Hfr, WriteHeader_outside by lia. done.
  - unfold lenZ in *. rewrite (fetch_array_Copied _ _ _ _ _ HC) by (change (Z.of_nat 8) with 8; lia). rewrite <- Hframes at 2.
    apply fetch_array_ext. change (Z.of_nat 8) with 8. intros.
    rewrite Hfr, WriteHeader_outside by lia. done.
Qed.

(** ** One report

    The state after a report, and what the memory holds then. *)
Definition Outcome_ (P : Z) (b : EVENT_BUFFER) (q : REPORT) : EVENT_BUFFER :=
  match Verdict P (BufferSize b - BufferLength b) q with
  | Dropped => b
  | DroppedTruncated => Truncate b
  | Accepted n => MkBuffer (BufferSize b) (Buffer b) (EventCount b + 1) (BufferLength b + n) (BufferTruncated b)
  end.

Record BufferOk (b : EVENT_BUFFER) : Prop := {
  ok_size : BufferSize b < 2 ^ 32;
  ok_base : 0 <= Buffer b;
  ok_length : 0 <= BufferLength b <= BufferSize b;
  ok_aligned : BufferLength b mod 8 = 0;
  ok_count : 0 <= EventCount b <= BufferLength b }.

Lemma QueueEvent_spec q b m :
  Proper_ P q -> BufferOk b -> exists m',
    CfixkrsQueueEvent P q (b, m) = (Outcome_ P b q, m') /\
    (forall i, i < Buffer b + BufferLength b \/ Buffer b + BufferSize b <= i -> m' i = m i) /\
    (forall n, Verdict P (BufferSize b - BufferLength b) q = Accepted n ->
       EventAt P m' (Buffer b + BufferLength b) q n).
Proof.
  intros H [Hs Hb Hl _ Hc]. unfold CfixkrsQueueEvent, Outcome_.
  assert (Available b = BufferSize b - BufferLength b) as -> by (apply wrap_small; lia).
  remember (BufferSize b - BufferLength b) as room eqn:Eroom.
  remember (Buffer b + BufferLength b) as a eqn:Ea.
  unfold Verdict. destruct (Z.ltb_spec room (FIELD_OFFSET_Frames P (CFIXKRP_MAX_STACKFRAMES + 1))) as [|Hroom].
  { exists m. done. }
  destruct (CaptureInPlace_spec q a m H) as (m1 & -> & Hcount & Hframes & Hout).
  pose proof (BaseSize_bounds q H) as Hbs. pose proof (EventSize_ge q H) as He.
  pose proof (Frames_length q H) as HFl.
  assert (FIELD_OFFSET_Frames P 32 <= room) as Hr32.
  { unfold FIELD_OFFSET_Frames, CFIXKRP_MAX_STACKFRAMES in *. lia. }
  assert (forall i, i < a \/ Buffer b + BufferSize b <= i -> m1 i = m i) as Hout1.
  { intros i Hi. apply Hout. unfold OFFSET_StackTrace. lia. }
  rewrite !StringLengthCb_Short. unfold AllShort.
  destruct (Short (RepFile q)) eqn:S1; cbn [andb negb]; [|by exists m1].
  destruct (Short (RepRoutine q)) eqn:S2; cbn [andb negb]; [|by exists m1].
  destruct (Short (RepMessage q)) eqn:S3; cbn [andb negb]; [|by exists m1].
  destruct (Short (RepExpression q)) eqn:S4; cbn [andb negb]; [|by exists m1].
  rewrite TotalSize_eq by (unfold AllShort; rewrite ?S1, ?S2, ?S3, ?S4; done).
  destruct (Z.ltb_spec room (EventSize P q)) as [|Hn]; [by exists m1|].
  destruct (Z.ltb_spec MAX_USHORT (EventSize P q)) as [|Hmax]; [by exists m1|].
  pose proof (BaseSize_le_EventSize q H) as Hge.
  destruct (WriteInfo_spec q a (WriteHeader q (EventSize P q) a m1) H) as [Hfr Hinfo]; [lia..|].
  cbv zeta in Hfr, Hinfo. set (m3 := WriteInfo _ _ _ _ _ _ _ _ _) in *. exists m3.
  unfold SIZEOF_EXECUTION_EVENT, FIELD_OFFSET_Frames, OFFSET_StackTrace, OFFSET_Info, MAX_USHORT in *.
  split; [|split].
  - unfold Commit, ULONG. rewrite (wrap_small 32 (EventCount b + 1)) by lia.
    by rewrite wrap_small by lia.
  - intros i Hi. rewrite Hfr, WriteHeader_outside by lia. by apply Hout1.
  - intros n [= <-] m' a' HC. split; [|by apply Hinfo]. by apply (HeaderAt_written q (EventSize P q) a m1 m3).
Qed.

(** ** Sequences of reports *)
Definition QueueAll (qs : list REPORT) (s : EVENT_BUFFER * Memory) : EVENT_BUFFER * Memory :=
  fold_left (fun s q => CfixkrsQueueEvent P q s) qs s.

(** What is kept of a sequence of reports, with the sizes, and whether the client
    is told that something was lost, if [room] bytes are left. *)
Fixpoint Kept (room : Z) (qs : list REPORT) : list (REPORT * Z) :=
  match qs with
  | [] => []
  | q :: qs =>
      match Verdict P room q with
      | Accepted n => (q, n) :: Kept (room - n) qs
      | _ => Kept room qs
      end
  end.

Fixpoint Lost (room : Z) (qs : list REPORT) : bool :=
  match qs with
  | [] => false
  | q :: qs =>
      match Verdict P room q with
      | Accepted n => Lost (room - n) qs
      | DroppedTruncated => true
      | Dropped => Lost room qs
      end
  end.

Fixpoint Total (l : list (REPORT * Z)) : Z :=
  match l with [] => 0 | (_, n) :: l => n + Total l end.

Fixpoint EventsAt (m : Memory) (a : Z) (l : list (REPORT * Z)) : Prop :=
  match l with
  | [] => True
  | (q, n) :: l => EventAt P m a q n /\ 0 < n /\ EventsAt m (a + n) l
  end.

Lemma Total_app l1 l2 : Total (l1 ++ l2) = Total l1 + Total l2.
Proof. induction l1 as [|[q n] l IH]; simpl; lia. Qed.

Lemma EventsAt_Total m a l : EventsAt m a l -> Z.of_nat (length l) <= Total l.
Proof.
  revert a. induction l as [|[q n] l IH]; intros a; simpl; [lia|]. intros (_ & Hn & Hl%IH). lia.
Qed.

Lemma EventsAt_app m a l1 l2 :
  EventsAt m a (l1 ++ l2) <-> EventsAt m a l1 /\ EventsAt m (a + Total l1) l2.
Proof.
  revert a. induction l1 as [|[q n] l IH]; intros a; simpl.
  - rewrite Z.add_0_r. tauto.
  - rewrite IH, Z.add_assoc. tauto.
Qed.

Lemma EventAt_Copied m a m' a' q n : EventAt P m a q n -> Copied m' a' m a n -> EventAt P m' a' q n.
Proof. intros H HC m2 a2 HC2. apply H. by eapply Copied_trans. Qed.

Lemma EventsAt_Copied m a m' a' l n :
  EventsAt m a l -> Copied m' a' m a n -> Total l <= n -> EventsAt m' a' l.
Proof.
  revert a a' n. induction l as [|[q k] l IH]; intros a a' n; simpl; [done|].
  intros (H & Hk & Hl) HC Hn. pose proof (EventsAt_Total _ _ _ Hl). split; [|split; [done|]].
  - eapply EventAt_Copied; [done|]. eapply Copied_le; [done|lia].
  - eapply IH; [done| |]; [apply Copied_drop; [done|lia]|lia].
Qed.

Lemma Verdict_Accepted room q n :
  Proper_ P q -> Verdict P room q = Accepted n ->
  SIZEOF_EXECUTION_EVENT P <= n <= room /\ n mod 8 = 0 /\ n = EventSize P q.
Proof.
  intros H. unfold Verdict. destruct (Z.ltb_spec room (FIELD_OFFSET_Frames P (CFIXKRP_MAX_STACKFRAMES + 1))); [done|].
  destruct (AllShort q); [|done]. simpl. destruct (Z.ltb_spec room (EventSize P q)); [done|].
  destruct (MAX_USHORT <? EventSize P q); [done|]. intros [= <-].
  pose proof (BaseSize_bounds q H). pose proof (BaseSize_le_EventSize q H). split; [lia|].
  split; [|done]. unfold EventSize, RoundUp8. apply Z.mod_mul. lia.
Qed.

Lemma Outcome_ok b q : Proper_ P q -> BufferOk b -> BufferOk (Outcome_ P b q).
Proof.
  intros H [Hs Hb Hl Ha Hc]. unfold Outcome_. destruct (Verdict P _ q) as [| |n] eqn:E; [by split..|].
  apply Verdict_Accepted in E as (? & Hn & _); [|done].
  unfold SIZEOF_EXECUTION_EVENT, FIELD_OFFSET_Frames, OFFSET_StackTrace in *.
  split; simpl; try lia. rewrite Z.add_mod, Ha, Hn by lia. done.
Qed.

Record Queued (b : EVENT_BUFFER) (m : Memory) (l : list (REPORT * Z)) : Prop := {
  queued_ok : BufferOk b;
  queued_events : EventsAt m (Buffer b) l;
  queued_total : Total l = BufferLength b;
  queued_count : Z.of_nat (length l) = EventCount b }.

Lemma QueueAll_spec qs : forall b m l,
  Forall (Proper_ P) qs -> Queued b m l ->
  let b' := fst (QueueAll qs (b, m)) in
  let m' := snd (QueueAll qs (b, m)) in
  let room := BufferSize b - BufferLength b in
  Queued b' m' (l ++ Kept room qs) /\ Buffer b' = Buffer b /\ BufferSize b' = BufferSize b /\
  BufferTruncated b' = BufferTruncated b || Lost room qs /\
  (forall i, i < Buffer b + BufferLength b \/ Buffer b + BufferSize b <= i -> m' i = m i).
Proof.
  induction qs as [|q qs IH]; intros b m l Hqs HQ; cbn [QueueAll fold_left fst snd Kept Lost].
  - rewrite app_nil_r, orb_false_r. auto.
  - apply Forall_cons in Hqs as [Hq Hqs]. destruct HQ as [Hok Hev Htot Hcnt].
    pose proof (Outcome_ok b q Hq Hok) as Hok'.
    destruct (QueueEvent_spec q b m Hq Hok) as (m1 & -> & Hf & HE). fold (QueueAll qs (Outcome_ P b q, m1)).
    assert (EventsAt m1 (Buffer b) l) as Hev1.
    { eapply EventsAt_Copied; [exact Hev| |reflexivity]. intros i Hi. apply Hf. lia. }
    unfold Outcome_ in *. destruct (Verdict P _ q) as [| |n] eqn:E.
    + destruct (IH b m1 l Hqs) as (? & ? & ? & ? & Hf'); [done|].
      split_and!; try done. intros i Hi. rewrite Hf' by done. by apply Hf.
    + destruct (IH (Truncate b) m1 l Hqs) as (? & ? & ? & Ht & Hf'); [done|].
      split_and!; try done; [by rewrite Ht, orb_true_r|]. intros i Hi. rewrite Hf' by done. by apply Hf.
    + pose proof (Verdict_Accepted _ _ _ Hq E) as (Hn & _).
      unfold SIZEOF_EXECUTION_EVENT, FIELD_OFFSET_Frames, OFFSET_StackTrace in Hn.
      match type of Hok' with BufferOk ?b' => set (b1 := b') in * end.
      destruct (IH b1 m1 (l ++ [(q, n)]) Hqs) as (H1 & H2 & H3 & H4 & Hf').
      { split; [exact Hok'| | |]; simpl.
        - apply EventsAt_app. split; [done|]. simpl. rewrite Htot. split_and!; [by apply HE|lia|done].
        - rewrite Total_app, Htot. simpl. lia.
        - rewrite length_app. simpl. lia. }
      subst b1. cbn [Buffer BufferSize BufferLength BufferTruncated] in *.
      replace (BufferSize b - (BufferLength b + n)) with (BufferSize b - BufferLength b - n) in * by lia.
      rewrite <- app_assoc in H1. split_and!; try done.
      intros i Hi. rewrite Hf' by lia. by apply Hf.
Qed.
End queue.

(** The initial state of a channel's queue, at an address and of a size. *)
(* src/cfixkern/cfixkr/main.c:250-264 (CfixkrsCallRoutineIoctl) *)
Definition InitialBuffer (Size Base : Z) : EVENT_BUFFER := MkBuffer Size Base 0 0 false.

Lemma InitialBuffer_queued P Size Base m :
  0 <= Size < 2 ^ 32 -> 0 <= Base -> Queued P (InitialBuffer Size Base) m [].
Proof. intros. split; [split; simpl; first [done|lia]|done..]. Qed.

Lemma Kept_Total P (HP : P = 4 \/ P = 8) qs : forall room,
  Forall (Proper_ P) qs -> Z.of_nat (length (Kept P room qs)) * SIZEOF_EXECUTION_EVENT P <= Total (Kept P room qs).
Proof.
  induction qs as [|q qs IH]; intros room Hqs; [simpl; lia|]. apply Forall_cons in Hqs as [Hq Hqs]. simpl.
  destruct (Verdict P room q) as [| |n] eqn:E; [by apply IH..|].
  apply Verdict_Accepted in E as (? & _); [|done..]. specialize (IH (room - n) Hqs). simpl. lia.
Qed.

(** C17. Whatever test code reports in the kernel, the event queue stays within the
    output buffer of the request: no byte outside it changes, the events fill a
    multiple of 8 bytes of it, each of them at least the size of the structure. *)
Theorem event_queue_stays_in_buffer P qs Size Base m :
  P = 4 \/ P = 8 -> 0 <= Size < 2 ^ 32 -> 0 <= Base -> Forall (Proper_ P) qs ->
  let '(b, m') := QueueAll P qs (InitialBuffer Size Base, m) in
  Buffer b = Base /\ BufferSize b = Size /\ 0 <= BufferLength b <= Size /\ BufferLength b mod 8 = 0 /\
  EventCount b * SIZEOF_EXECUTION_EVENT P <= BufferLength b /\
  (forall i, i < Base \/ Base + Size <= i -> m' i = m i).
Proof.
  intros HP HS HB Hqs.
  pose proof (QueueAll_spec P HP qs _ m [] Hqs (InitialBuffer_queued P Size Base m HS HB)) as H.
  destruct (QueueAll P qs _) as [b m']. simpl in H. destruct H as ([Hok _ Ht Hc] & Hb & Hs & _ & Hf).
  pose proof (Kept_Total P HP qs (Size - 0) Hqs). destruct Hok as [_ _ Hl Ha _].
  simpl in *. rewrite Hs in Hl. split_and!; try done; [lia..|]. intros i Hi. apply Hf. lia.
Qed.

Module Demo.
Definition stack (n : Z) : list Z := take (Z.to_nat n) [0x401000; 0x402000; 0x80403000].

Definition assertion : REPORT :=
  MkReport false CfixEventFailedAssertion None (Some "suite.c") (Some "Test_Add") 42 (Some "a == b") None
    7 9 stack.
Definition message : REPORT :=
  MkReport false CfixEventLog None None None 0 None (Some "hello") 7 7 (fun _ => []).
Definition breakpoint : REPORT :=
  MkReport true CfixEventUncaughtException (Some (MkException 0x80000003 0 0 0x401000 1 (0 :: repeat 0 14)))
    None None 0 None None 7 7 stack.

Lemma proper_all : Forall (Proper_ 8) [assertion; message; breakpoint].
Proof.
  repeat constructor; simpl; try lia; try done; try (unfold lenZ; simpl; unfold CFIXKRP_MAX_STACKFRAMES; lia);
    try (repeat constructor; lia).
  intros _. eexists. split; [reflexivity|]. simpl. lia.
Defined.

(** A buffer of 900 bytes has room for two of the three; the client is told that an
    event was dropped. *)
Example third_is_dropped :
  let b := fst (QueueAll 8 [assertion; message; breakpoint] (InitialBuffer 900 24, fun _ => 0xCC)) in
  (EventCount b, BufferLength b, BufferTruncated b) = (2, 480, true) /\
  map snd (Kept 8 900 [assertion; message; breakpoint]) = [264; 216].
Proof. vm_compute. auto. Qed.

Lemma event_queue_stays_in_buffer_witness :
  let '(b, m') := QueueAll 8 [assertion; message; breakpoint] (InitialBuffer 4072 24, fun _ => 0) in
  Buffer b = 24 /\ BufferSize b = 4072 /\ 0 <= BufferLength b <= 4072 /\ BufferLength b mod 8 = 0 /\
  EventCount b * SIZEOF_EXECUTION_EVENT 8 <= BufferLength b /\
  (forall i, i < 24 \/ 24 + 4072 <= i -> m' i = (fun _ => 0) i).
Proof. apply (event_queue_stays_in_buffer 8); [by right|lia|lia|apply proper_all]. Defined.
End Demo.
