(* ===== verification/KlCalls.v ===== *)
(** * Calling kernel mode test routines (cfixkern/cfixkl/ioctl.c)

    The user mode client asks the reflector to run a routine and hands the events
    of the response on to the execution context.  The client may run
    out of memory: the event for which it has none, and those behind it, are left out.
    KrMain composes the two sides. *)
From stdpp Require Import base gmap list strings.
From Stdlib Require Import ZArith Lia.
From S2P Require Import Prelude CfixApi IoBuffer KrEvents.
Local Open Scope Z_scope.
Local Open Scope cfix_scope.

Definition CFIXKL_E_INVALID_REFLECTOR_RESPONSE : Z := 0x8004A004.
Definition SIZEOF_CALL_ROUTINE_RESPONSE : Z := 24.
Definition CFIXKR_CALL_ROUTINE_FLAG_EVENTS_TRUNCATED : Z := 1.

(** ** Reading an event

    A counted string of an event, given the places of its offset and length. *)
(* src/cfixkern/cfixkl/ioctl.c:342-347 (CfixklsReportEventToExecutionContext) *)
Definition ReadString (m : Memory) (Event OffsetField LengthField : Z) : string :=
  wstring (peek m (Event + fetch 2 m (Event + OffsetField)) (Z.to_nat (fetch 2 m (Event + LengthField)))).

(** The target is a record of the client's pointer size; both the 32 and the 64 bit
    client are compiled with _WIN32 defined. *)
(* src/cfixkern/cfixkl/ioctl.c:34-70 (CfixklsCopyExceptionRecord) *)
Definition CfixklsCopyExceptionRecord (P : Z) (m : Memory) (Event : Z) (t : Memory) (Target : Z) : Memory :=
  let p := Z.to_nat P in
  let Source := Event + OFFSET_Info + 8 in
  if fetch 4 m (Event + OFFSET_Info) =? CfixkrExceptionRecord64 then
    let t := put 4 t Target (fetch 4 m Source) in
    let t := put 4 t (Target + 4) (fetch 4 m (Source + 4)) in
    let t := put 4 t (Target + 8 + 2 * P) 0 in
    let t := put p t (Target + 8 + P) 0xFFFFFFFF in
    put p t (Target + 8) 0
  else poke t Target (peek m Source 80).

(** The details of the translated event; the record is translated to a structure
    at address 0 of a memory of its own. *)
(* src/cfixkern/cfixkl/ioctl.c:327-416 (CfixklsReportEventToExecutionContext) *)
Definition TranslateInfo (P : Z) (m : Memory) (Event : Z) : option EVENT_INFO :=
  let I := OFFSET_Info in
  let Type_ := fetch 2 m Event in
  if Type_ =? EventCode CfixEventFailedAssertion then
    Some (FailedAssertion (ReadString m Event I (I + 2)) (ReadString m Event (I + 4) (I + 6))
            (fetch 4 m (Event + I + 8)) (ReadString m Event (I + 12) (I + 14)) 0)
  else if Type_ =? EventCode CfixEventUncaughtException then
    Some (UncaughtException (fetch 4 (CfixklsCopyExceptionRecord P m Event (fun _ => 0) 0) 0))
  else if Type_ =? EventCode CfixEventInconclusiveness then
    Some (Inconclusiveness (ReadString m Event I (I + 2)))
  else if Type_ =? EventCode CfixEventLog then
    Some (Log (ReadString m Event I (I + 2)))
  else None.

(** The sizes of the buffers for the terminated copies of the strings. *)
(* src/cfixkern/cfixkl/ioctl.c:327-330 (CfixklsReportEventToExecutionContext) *)
Definition StringBuffers (m : Memory) (Event : Z) : list Z :=
  let Len := fun o => fetch 2 m (Event + OFFSET_Info + o) + 2 in
  let Type_ := fetch 2 m Event in
  if Type_ =? EventCode CfixEventFailedAssertion then [Len 2; Len 6; Len 14]
  else if Type_ =? EventCode CfixEventUncaughtException then []
  else [Len 2].

(** The frames of the translated event (include/cfixapi.h) *)
Definition FIELD_OFFSET_TranslatedFrames (P n : Z) : Z := (if P =? 8 then 176 else 96) + 8 * n.

(** ** The client's world: its heap, and what the execution context works on *)
Record CW (W : Type) := MkCW { Blocks : gset Z; World : W }.
Arguments MkCW {W}. Arguments Blocks {W}. Arguments World {W}.

(* src/include/cfixkrio.h:297-327 (CFIXKR_IOCTL_CALL_ROUTINE_REQUEST) *)
Record CALL_ROUTINE_REQUEST := MkRequest {
  ReqDriverBaseAddress : Z;
  ReqFixtureKey : Z;
  ReqRoutineKey : Z;
  ReqFailedAssertion : CFIX_REPORT_DISPOSITION;
  ReqUnhandledException : CFIX_REPORT_DISPOSITION;
  ReqTlsValue : Z }.

(** What [CfixklpCallRoutine] hands back besides its result. *)
Record CALL_RESULT := MkResult { RoutineRanToCompletion : bool; AbortRun : bool; TlsValue : Z }.

Section client.
Context {W : Type}.
(** [malloc]: the address for a set of live blocks and a size, 0 if there is none. *)
Variable Malloc : gset Z -> Z -> Z.
Variable GetCurrentThreadId : Z.
(** [DeviceIoControl( ..., CFIXKR_IOCTL_CALL_ROUTINE, ... )] with a response
    buffer at an address and of a size: an error, or the bytes transferred and the
    memory of the process after the call. *)
Variable DeviceIoControl : CALL_ROUTINE_REQUEST -> Z -> Z -> ST W (Z + Z * Memory).
Variable P : Z.
Variable Context_ : CFIX_EXECUTION_CONTEXT W.

Local Abbreviation M := (ST (CW W)).

Definition malloc (n : Z) : M Z := fun s =>
  let a := Malloc (Blocks s) n in
  Some (a, if a =? 0 then s else MkCW (Blocks s ∪ {[a]}) (World s)).
Definition free (a : Z) : M unit := modify (fun s => MkCW (Blocks s ∖ {[a]}) (World s)).
Definition world {A} (x : ST W A) : M A := fun s =>
  match x (World s) with
  | Some (a, w) => Some (a, MkCW (Blocks s) w)
  | None => None
  end.

Fixpoint malloc_all (ns : list Z) : M (list Z) :=
  match ns with
  | [] => ret []
  | n :: ns => a <- malloc n ;; as_ <- malloc_all ns ;; ret (a :: as_)
  end.

Fixpoint free_all (as_ : list Z) : M unit :=
  match as_ with
  | [] => ret tt
  | a :: as_ => (if a =? 0 then ret tt else free a) ;;; free_all as_
  end.

(* src/cfixkern/cfixkl/ioctl.c:299-446 (CfixklsReportEventToExecutionContext) *)
Definition CfixklsReportEventToExecutionContext (m : Memory) (Event : Z) : M Z :=
  let FrameCount := fetch 4 m (Event + OFFSET_StackTrace) in
  EventTranslated <- malloc (FIELD_OFFSET_TranslatedFrames P FrameCount) ;;
  if EventTranslated =? 0 then ret E_OUTOFMEMORY
  else
    Buffers <- malloc_all (StringBuffers m Event) ;;
    Hr <- (if existsb (Z.eqb 0) Buffers then ret E_OUTOFMEMORY
           else
             match TranslateInfo P m Event with
             | None => fault
             | Some Info =>
                 let ThreadId := MkThreadId (fetch 4 m (Event + OFFSET_ThreadId))
                                   (fetch 4 m (Event + OFFSET_MainThreadId)) in
                 let Frames := fetch_array 8 m (Event + FIELD_OFFSET_Frames P 0) (Z.to_nat FrameCount) in
                 world (ReportEvent Context_ ThreadId (MkEvent Info Frames)) ;;;
                 ret S_OK
             end) ;;
    free_all Buffers ;;;
    free EventTranslated ;;;
    ret Hr.

(** The loop over the events; it ends early when one cannot be reported. *)
(* src/cfixkern/cfixkl/ioctl.c:618-628 (CfixklpCallRoutine) *)
Fixpoint ReportEvents (m : Memory) (Count : nat) (Event : Z) : M unit :=
  match Count with
  | O => ret tt
  | S Count =>
      Hr <- CfixklsReportEventToExecutionContext m Event ;;
      if FAILED Hr then ret tt
      else ReportEvents m Count (Event + fetch 2 m (Event + OFFSET_Size))
  end.

Definition NoteTruncated : CFIX_TESTCASE_EXECUTION_EVENT :=
  MkEvent (Log "Note: At least one event has been dropped") [].

(** The response: two flags, the TLS value, and the flags and number of the events. *)
(* src/cfixkern/cfixkl/ioctl.c:538-655 (CfixklpCallRoutine) *)
Definition CfixklpCallRoutine (DriverBaseAddress FixtureKey RoutineKey Tls : Z) : M (Z * CALL_RESULT) :=
  FailedAssertion_ <- world (QueryDefaultDisposition Context_ CfixEventFailedAssertion) ;;
  UnhandledException_ <- world (QueryDefaultDisposition Context_ CfixEventUncaughtException) ;;
  let Request := MkRequest DriverBaseAddress FixtureKey RoutineKey FailedAssertion_
                   UnhandledException_ Tls in
  let Nothing := MkResult false false Tls in
  Response <- malloc 4096 ;;
  if Response =? 0 then ret (E_OUTOFMEMORY, Nothing)
  else
    io <- world (DeviceIoControl Request Response 4096) ;;
    r <- match io with
         | inl e => ret (HRESULT_FROM_WIN32 e, Nothing)
         | inr (BytesTransferred, m) =>
             if BytesTransferred <? SIZEOF_CALL_ROUTINE_RESPONSE
             then ret (CFIXKL_E_INVALID_REFLECTOR_RESPONSE, Nothing)
             else
               let Result := MkResult (negb (fetch 1 m Response =? 0)) (negb (fetch 1 m (Response + 1) =? 0))
                               (fetch 8 m (Response + 8)) in
               ReportEvents m (Z.to_nat (fetch 4 m (Response + 20)))
                 (Response + SIZEOF_CALL_ROUTINE_RESPONSE) ;;;
               when_ (FlagOn (fetch 2 m (Response + 16)) CFIXKR_CALL_ROUTINE_FLAG_EVENTS_TRUNCATED)
                 (world (ReportEvent Context_ (MkThreadId GetCurrentThreadId GetCurrentThreadId)
                           NoteTruncated) ;;; ret tt) ;;;
               ret (S_OK, Result)
         end ;;
    free Response ;;;
    ret r.
End client.

(** ** What the client makes of the events of a response *)
Definition Info_ (q : REPORT) : EVENT_INFO :=
  match RepType q with
  | CfixEventFailedAssertion =>
      FailedAssertion (default "" (RepFile q)) (default "" (RepRoutine q)) (RepLine q)
        (default "" (RepExpression q)) 0
  | CfixEventUncaughtException => UncaughtException (from_option ExceptionCode 0 (RepException q))
  | CfixEventInconclusiveness => Inconclusiveness (default "" (RepMessage q))
  | CfixEventLog => Log (default "" (RepMessage q))
  end%string.

Definition Thread_ (q : REPORT) : CFIX_THREAD_ID := MkThreadId (RepThreadId q) (RepMainThreadId q).

(** The reports of a list, one after the other. *)
Fixpoint ReportAll {W} (c : CFIX_EXECUTION_CONTEXT W) (l : list (REPORT * Z)) : ST W unit :=
  match l with
  | [] => ret tt
  | (q, _) :: l => ReportEvent c (Thread_ q) (MkEvent (Info_ q) (Frames_ q)) ;;; ReportAll c l
  end.

Lemma Some_CW {A W} (a : A) B B' (w : W) : B = B' -> Some (a, MkCW B w) = Some (a, MkCW B' w).
Proof. by intros ->. Qed.

Lemma bind_world {W A B} (x : ST W A) (k : A -> ST (CW W) B) s :
  bind (world x) k s =
  match x (World s) with Some (a, w) => k a (MkCW (Blocks s) w) | None => None end.
Proof. unfold bind, world. by destruct (x (World s)) as [[a w]|]. Qed.

Section reader.
Context (P : Z) (HP : P = 4 \/ P = 8).

Lemma CopyException_code m a :
  fetch 4 m (a + 16) = CfixkrExceptionRecordDefault P ->
  0 <= fetch 4 m (a + 24) < 2 ^ 32 ->
  fetch 4 (CfixklsCopyExceptionRecord P m a (fun _ => 0) 0) 0 = fetch 4 m (a + 24).
Proof.
  intros HT HC. unfold CfixklsCopyExceptionRecord, OFFSET_Info. rewrite HT. replace (a + 16 + 8) with (a + 24) by lia.
  destruct HP as [-> | ->]; cbn [Z.eqb].
  - change (CfixkrExceptionRecordDefault 4 =? CfixkrExceptionRecord64) with false. cbv iota.
    reflexivity.
  - change (CfixkrExceptionRecordDefault 8 =? CfixkrExceptionRecord64) with true. cbv iota zeta.
    rewrite !fetch_put_ne by (simpl; lia). by apply fetch_put_eq.
Qed.

Lemma TranslateInfo_spec q m a n :
  Proper_ P q -> EventAt P m a q n -> TranslateInfo P m a = Some (Info_ q).
Proof.
  intros Hq H. destruct (H m a) as [[Ht _ _ _ _ _] HI]; [by intros i|].
  unfold TranslateInfo, Info_, InfoAt, StringAt, ReadString, OFFSET_Info in *. rewrite Ht.
  destruct (RepType q) eqn:E; cbn [EventCode Z.eqb Pos.eqb]; rewrite <- ?Z.add_assoc;
    change (16 + 2) with 18; change (16 + 4) with 20; change (16 + 6) with 22; change (16 + 8) with 24;
    change (16 + 12) with 28; change (16 + 14) with 30.
  - destruct HI as (HL & [F1 HF] & [R1 HR] & [E1 HE]). by rewrite F1, R1, E1, HF, HR, HE, HL.
  - destruct HI as (HT & HC). destruct (proper_exception _ _ Hq E) as (r & Er & Hr & _).
    rewrite Er in *. injection HC as HC. rewrite CopyException_code; by rewrite ?HC.
  - destruct HI as [L1 HI]. by rewrite L1, HI.
  - destruct HI as [L1 HI]. by rewrite L1, HI.
Qed.

(** The blocks the client needs to translate a report. *)
Definition Sizes (q : REPORT) : list Z :=
  FIELD_OFFSET_TranslatedFrames P (lenZ (Frames_ q)) ::
  match RepType q with
  | CfixEventFailedAssertion => [cb (RepFile q) + 2; cb (RepRoutine q) + 2; cb (RepExpression q) + 2]
  | CfixEventUncaughtException => []
  | _ => [cb (RepMessage q) + 2]
  end.

Lemma StringBuffers_spec q m a n : EventAt P m a q n ->
  FIELD_OFFSET_TranslatedFrames P (fetch 4 m (a + OFFSET_StackTrace)) :: StringBuffers m a = Sizes q.
Proof.
  intros H. destruct (H m a) as [[Ht _ _ _ Hc _] HI]; [by intros i|]. rewrite Hc. unfold Sizes. f_equal.
  unfold StringBuffers, InfoAt, StringAt, OFFSET_Info in *. rewrite Ht.
  destruct (RepType q); cbn [EventCode Z.eqb Pos.eqb]; rewrite <- ?Z.add_assoc;
    change (16 + 2) with 18; change (16 + 6) with 22; change (16 + 14) with 30; try done;
    repeat match goal with H : _ /\ _ |- _ => destruct H end; congruence.
Qed.

Context {W : Type} (Malloc : gset Z -> Z -> Z) (Context_ : CFIX_EXECUTION_CONTEXT W).
(** A block is new, if there is one. *)
Context (HMalloc : forall B n, Malloc B n = 0 \/ Malloc B n ∉ B).

(** There are blocks of the sizes [ns] when those of [B] are in use. *)
Fixpoint Granted (B : gset Z) (ns : list Z) : bool :=
  match ns with
  | [] => true
  | n :: ns => let a := Malloc B n in negb (a =? 0) && Granted (B ∪ {[a]}) ns
  end.

(** The reports up to the first for which there is no memory. *)
Fixpoint Afforded (B : gset Z) (l : list (REPORT * Z)) : list (REPORT * Z) :=
  match l with
  | [] => []
  | x :: l => if Granted B (Sizes (fst x)) then x :: Afforded B l else []
  end.

Definition live (l : list Z) : gset Z := list_to_set (filter (fun a => a <> 0) l).

Lemma live_cons a l : live (a :: l) = (if a =? 0 then ∅ else {[a]}) ∪ live l.
Proof. unfold live. rewrite filter_cons. destruct (Z.eqb_spec a 0), (decide (a <> 0)); try done; cbn; set_solver. Qed.

Lemma malloc_all_eq ns : forall s : CW W, exists l,
  malloc_all Malloc ns s = Some (l, MkCW (Blocks s ∪ live l) (World s)) /\
  live l ## Blocks s /\ existsb (Z.eqb 0) l = negb (Granted (Blocks s) ns).
Proof.
  induction ns as [|n ns IH]; intros s.
  - exists []. split_and!; [|set_solver|done]. cbn. unfold ret. destruct s. apply Some_CW. cbn. set_solver.
  - cbn [malloc_all Granted]. unfold bind at 1, malloc. set (a := Malloc (Blocks s) n).
    destruct (HMalloc (Blocks s) n) as [H0|Hn]; fold a in H0 || fold a in Hn.
    + rewrite H0. destruct (IH s) as (l & El & Hd & Hz). exists (0 :: l). rewrite live_cons. cbn [Z.eqb negb andb existsb orb].
      split_and!; [|set_solver|done]. rewrite (bind_eq _ _ _ _ _ El). unfold ret. apply Some_CW. set_solver.
    + destruct (Z.eqb_spec a 0) as [E0|E0].
      { rewrite E0. destruct (IH s) as (l & El & Hd & Hz). exists (0 :: l). rewrite live_cons. cbn [Z.eqb negb andb existsb orb].
        split_and!; [|set_solver|done]. rewrite (bind_eq _ _ _ _ _ El). unfold ret. apply Some_CW. set_solver. }
      destruct (IH (MkCW (Blocks s ∪ {[a]}) (World s))) as (l & El & Hd & Hz). exists (a :: l). cbn [Blocks World] in *.
      rewrite live_cons, (proj2 (Z.eqb_neq a 0)) by done. cbn [negb andb existsb].
      rewrite (proj2 (Z.eqb_neq 0 a)) by congruence. split_and!; [|set_solver|exact Hz].
      rewrite (bind_eq _ _ _ _ _ El). unfold ret. apply Some_CW. set_solver.
Qed.

Lemma free_all_eq l : forall s : CW W, free_all l s = Some (tt, MkCW (Blocks s ∖ live l) (World s)).
Proof.
  induction l as [|a l IH]; intros s; cbn [free_all].
  - unfold ret. destruct s. apply Some_CW. cbn. set_solver.
  - rewrite live_cons. destruct (a =? 0).
    + rewrite bind_ret, IH. apply Some_CW. set_solver.
    + etrans; [apply (bind_eq _ _ _ _ _ eq_refl)|]. rewrite IH. cbn. apply Some_CW. set_solver.
Qed.

(** An event of the queue is reported if there is the memory for it, and the client's
    heap is as before. *)
Lemma ReportEvent_spec q m a n (s : CW W) :
  Proper_ P q -> EventAt P m a q n ->
  CfixklsReportEventToExecutionContext Malloc P Context_ m a s =
  (if Granted (Blocks s) (Sizes q)
   then world (ReportEvent Context_ (Thread_ q) (MkEvent (Info_ q) (Frames_ q))) ;;; ret S_OK
   else ret E_OUTOFMEMORY) s.
Proof.
  intros Hq H. pose proof (TranslateInfo_spec q m a n Hq H) as HI.
  pose proof (StringBuffers_spec q m a n H) as HS.
  destruct (H m a) as [[_ _ Hth Hmt Hc Hf] _]; [by intros i|]. rewrite Hc in HS.
  unfold CfixklsReportEventToExecutionContext. rewrite Hc, <- HS. cbn [Granted].
  unfold bind at 1, malloc. set (e := Malloc (Blocks s) _).
  destruct (Z.eqb_spec e 0) as [|H0]; [done|]. cbn [negb andb].
  assert (e ∉ Blocks s) as He by (destruct (HMalloc (Blocks s) (FIELD_OFFSET_TranslatedFrames P (lenZ (Frames_ q)))); done).
  destruct (malloc_all_eq (StringBuffers m a) (MkCW (Blocks s ∪ {[e]}) (World s))) as (l & El & Hd & Hz).
  rewrite (bind_eq _ _ _ _ _ El), Hz, HI, Hth, Hmt. cbn [Blocks World] in *.
  destruct (Granted _ _); cbn [negb].
  - assert (Z.to_nat (lenZ (Frames_ q)) = length (Frames_ q)) as -> by (unfold lenZ; lia). rewrite Hf.
    fold (Thread_ q). rewrite bind_assoc, !bind_world. cbn [Blocks World].
    destruct (ReportEvent Context_ (Thread_ q) _ (World s)) as [[d w]|]; [|done].
    rewrite bind_ret, (bind_eq _ _ _ _ _ (free_all_eq l _)). cbn. unfold ret. apply Some_CW. set_solver.
  - rewrite bind_ret, (bind_eq _ _ _ _ _ (free_all_eq l _)). cbn. unfold ret. destruct s. apply Some_CW. cbn in *. set_solver.
Qed.

Lemma ReportEvents_spec l : forall m a (s : CW W),
  Forall (fun x => Proper_ P (fst x)) l -> EventsAt P m a l ->
  ReportEvents Malloc P Context_ m (length l) a s = world (ReportAll Context_ (Afforded (Blocks s) l)) s.
Proof.
  induction l as [|[q n] l IH]; intros m a s Hl HE.
  - cbn. unfold world, ret. by destruct s.
  - apply Forall_cons in Hl as [Hq Hl]. destruct HE as (HE & _ & HE'). cbn [length ReportEvents Afforded fst] in *.
    unfold bind at 1. rewrite (ReportEvent_spec q m a n) by done.
    destruct (HE m a) as [[_ -> _ _ _ _] _]; [by intros i|]. destruct (Granted _ _); [|by destruct s].
    rewrite bind_world. unfold world. cbn [ReportAll]. unfold bind.
    destruct (ReportEvent Context_ (Thread_ q) _ (World s)) as [[d w]|]; [|done].
    cbn. rewrite IH by done. unfold world. cbn. by destruct (ReportAll Context_ _ w) as [[[] w']|].
Qed.
End reader.

(** ** A client that does not run out of memory *)
Section memory.
Context {W : Type} (Malloc : gset Z -> Z -> Z) (HMalloc : forall B n, Malloc B n <> 0 /\ Malloc B n ∉ B).

Lemma malloc_eq n (s : CW W) : exists a, a ∉ Blocks s /\ a <> 0 /\
  malloc Malloc n s = Some (a, MkCW (Blocks s ∪ {[a]}) (World s)).
Proof.
  destruct (HMalloc (Blocks s) n) as [H0 Hn]. exists (Malloc (Blocks s) n). split_and!; [done..|].
  unfold malloc. by rewrite (proj2 (Z.eqb_neq _ _) H0).
Qed.
End memory.
