(* ===== verification/KrModule.v ===== *)
(** * Test adapters of the kernel reflector (cfixkern/cfixkr/drvtestadp.c)

    The adapter of a test driver: the fixtures that the driver exports, the
    routines behind their keys, and their description in the response of
    CFIXKR_IOCTL_QUERY_TEST_MODULE.  The image is that of PeModule; the routines
    of the driver that return definitions, and the conversion of names, are
    parameters.  The allocator works on the set of live blocks. *)
From stdpp Require Import base gmap list strings.
From Stdlib Require Import ZArith Lia Ascii.
From S2P Require Import Prelude CfixApi PeModule IoBuffer.
Local Open Scope Z_scope.
Local Open Scope cfix_scope.

Definition STATUS_SUCCESS : Z := 0.
Definition STATUS_BUFFER_OVERFLOW : Z := 0x80000005.
Definition STATUS_UNSUCCESSFUL : Z := 0xC0000001.
Definition STATUS_INVALID_PARAMETER : Z := 0xC000000D.
Definition STATUS_INVALID_DEVICE_REQUEST : Z := 0xC0000010.
Definition STATUS_NO_MEMORY : Z := 0xC0000017.
Definition STATUS_INVALID_IMAGE_FORMAT : Z := 0xC000007B.
Definition STATUS_ALLOTTED_SPACE_EXCEEDED : Z := 0xC0000099.
Definition STATUS_NOT_FOUND : Z := 0xC0000225.
Definition STATUS_DRIVER_ENTRYPOINT_NOT_FOUND : Z := 0xC0000263.
Definition STATUS_DRIVER_UNABLE_TO_LOAD : Z := 0xC000026C.
Definition NT_SUCCESS (s : Z) : bool := negb (Z.testbit s 31).

(* src/cfixkern/cfixkr/drvtestadp.c:34-37 (CFIX_MAX_ENTRY_NAME_CCH) *)
Definition CFIX_MAX_ENTRY_NAME_CCH : Z := 64.
Definition CFIX_PE_API_VERSION : Z := CFIX_PE_API_MAKEAPIVERSION_EX 1 0 0.

(* src/cfixkern/cfixkr/drvtestadp.c:39-51 (CFIXKRP_TEST_FIXTURE) *)
Record CFIXKRP_TEST_FIXTURE := MkKrFixture {
  KrName : string;
  KrEntries : list CFIX_PE_DEFINITION_ENTRY }.

(** The fixtures, and the block that holds their array. *)
(* src/cfixkern/cfixkr/drvtestadp.c:56-68 (CFIXKRP_TEST_ADAPTER) *)
Record CFIXKRP_TEST_ADAPTER := MkAdapter {
  AdFixtures : list CFIXKRP_TEST_FIXTURE;
  AdArray : Z }.

(** ** Names and definitions *)
Definition EXPORT_PREFIX_CCH (P : Z) : nat :=
  if P =? 8 then CFIX_FIXTURE_EXPORT_PREFIX_CCH else S CFIX_FIXTURE_EXPORT_PREFIX_CCH.

(* src/cfixkern/cfixkr/drvtestadp.c:76-91 (CfixkrsIsFixtureExport) *)
Definition CfixkrsIsFixtureExport (P : Z) (ExportName : string) : bool :=
  if P =? 8 then CfixpIsFixtureExport64 ExportName else CfixpIsFixtureExport32 ExportName.

(* src/cfixkern/cfixkr/drvtestadp.c:93-111 (CfixkrsUnmangleName) *)
Fixpoint CfixkrsUnmangleName (Name : string) : string :=
  match Name with
  | EmptyString => EmptyString
  | String c s => if Ascii.eqb c "@"%char then EmptyString else String c (CfixkrsUnmangleName s)
  end.

(** The entries up to the end marker; without a marker the loop leaves the table. *)
Fixpoint EntriesBefore (es : list CFIX_PE_DEFINITION_ENTRY) : option (list CFIX_PE_DEFINITION_ENTRY) :=
  match es with
  | [] => None
  | e :: es => if EntryType e =? CfixEntryTypeEnd then Some []
               else match EntriesBefore es with Some l => Some (e :: l) | None => None end
  end.

Section adapter.
Variable P : Z.
(** [RtlAnsiStringToUnicodeString] into a buffer of 128 characters: a status, or
    the string. *)
Variable RtlAnsiStringToUnicodeString : string -> Z + string.
(** The definition that an exported routine returns. *)
Variable GetFixtureRoutine : Z -> option CFIX_TEST_PE_DEFINITION.
(** The image at a load address; whether the addresses of the three arrays of its
    export directory are present. *)
Variable ImageOf : Z -> IMAGE.
Variable HasArrays : Z -> bool.
(** [ExAllocatePoolWithTag]: an address for a size, or 0. *)
Variable Pool : gset Z -> Z -> Z.

Local Abbreviation M := (ST (gset Z)).

Definition ExAllocatePool (n : Z) : M Z := fun s =>
  let a := Pool s n in Some (a, if a =? 0 then s else s ∪ {[a]}).
Definition ExFreePool (a : Z) : M unit := modify (fun s => s ∖ {[a]}).

(** [None] if the table of the definition is not terminated. *)
(* src/cfixkern/cfixkr/drvtestadp.c:113-184 (CfixkrsInitializeFixture) *)
Definition CfixkrsInitializeFixture (ExportName : string) (Routine : Z) : option (Z + CFIXKRP_TEST_FIXTURE) :=
  match RtlAnsiStringToUnicodeString (SkipCch (EXPORT_PREFIX_CCH P) ExportName) with
  | inl Status => Some (inl Status)
  | inr Name =>
      let FixtureName := CfixkrsUnmangleName Name in
      match GetFixtureRoutine Routine with
      | None => Some (inl STATUS_DRIVER_UNABLE_TO_LOAD)
      | Some TestDef =>
          if negb (ApiVersion TestDef =? CFIX_PE_API_VERSION)
          then Some (inl STATUS_DRIVER_UNABLE_TO_LOAD)
          else
            match EntriesBefore (Entries TestDef) with
            | None => None
            | Some es => Some (inr (MkKrFixture FixtureName es))
            end
      end
  end.

(** The loop over the names from [Index] on, [n] of them left. *)
(* src/cfixkern/cfixkr/drvtestadp.c:225-290 (CfixkrsWalkExportDirectoryAndExtractFixtures) *)
Fixpoint WalkExports (img : IMAGE) (LoadAddress : Z) (n Index : nat) (fs : list CFIXKRP_TEST_FIXTURE)
    : option (Z * list CFIXKRP_TEST_FIXTURE) :=
  match n with
  | O => Some (STATUS_SUCCESS, fs)
  | S n =>
      match ExportAt img Index with
      | None => None
      | Some (Name, FuncRva) =>
          if IsForwarder img FuncRva then WalkExports img LoadAddress n (S Index) fs
          else if CfixkrsIsFixtureExport P Name then
            match CfixkrsInitializeFixture Name (LoadAddress + FuncRva) with
            | None => None
            | Some (inl Status) => Some (Status, fs)
            | Some (inr f) => WalkExports img LoadAddress n (S Index) (fs ++ [f])
            end
          else WalkExports img LoadAddress n (S Index) fs
      end
  end.

(** An export directory without arrays has no exports. *)
(* src/cfixkern/cfixkr/drvtestadp.c:186-293 (CfixkrsWalkExportDirectoryAndExtractFixtures) *)
Definition CfixkrsWalkExportDirectoryAndExtractFixtures (img : IMAGE) (LoadAddress : Z)
    : option (Z * list CFIXKRP_TEST_FIXTURE) :=
  if negb (HasArrays LoadAddress) then Some (STATUS_SUCCESS, [])
  else WalkExports img LoadAddress (Z.to_nat (NumberOfNames img)) 0 [].

Definition SIZEOF_TEST_FIXTURE : Z := if P =? 8 then 288 else 272.
Definition SIZEOF_TEST_ADAPTER : Z := if P =? 8 then 24 else 12.

(* src/cfixkern/cfixkr/drvtestadp.c:295-368 (CfixkrsInitializeAdapter) *)
Definition CfixkrsInitializeAdapter (LoadAddress : Z) : M (Z + CFIXKRP_TEST_ADAPTER) :=
  let img := ImageOf LoadAddress in
  if negb (IMAGE_NT_SIGNATURE =? Signature img) then ret (inl STATUS_INVALID_IMAGE_FORMAT)
  else
    Entries <- ExAllocatePool (NumberOfNames img * SIZEOF_TEST_FIXTURE) ;;
    if Entries =? 0 then ret (inl STATUS_NO_MEMORY)
    else
      match CfixkrsWalkExportDirectoryAndExtractFixtures img LoadAddress with
      | None => fault
      | Some (Status, fs) =>
          if NT_SUCCESS Status then ret (inr (MkAdapter fs Entries))
          else ExFreePool Entries ;;; ret (inl Status)
      end.

(** The address of the adapter and its contents. *)
(* src/cfixkern/cfixkr/drvtestadp.c:437-471 (CfixkrpCreateTestAdapter) *)
Definition CfixkrpCreateTestAdapter (LoadAddress : Z) : M (Z + Z * CFIXKRP_TEST_ADAPTER) :=
  TempAdapter <- ExAllocatePool SIZEOF_TEST_ADAPTER ;;
  if TempAdapter =? 0 then ret (inl STATUS_NO_MEMORY)
  else
    r <- CfixkrsInitializeAdapter LoadAddress ;;
    match r with
    | inl Status => ExFreePool TempAdapter ;;; ret (inl Status)
    | inr a => ret (inr (TempAdapter, a))
    end.

(* src/cfixkern/cfixkr/drvtestadp.c:473-483 (CfixkrpDeleteTestAdapter) *)
Definition CfixkrpDeleteTestAdapter (Adapter : Z) (a : CFIXKRP_TEST_ADAPTER) : M unit :=
  ExFreePool (AdArray a) ;;; ExFreePool Adapter.
End adapter.

(* src/cfixkern/cfixkr/drvtestadp.c:485-513 (CfixkrpGetRoutineTestAdapter) *)
Definition CfixkrpGetRoutineTestAdapter (a : CFIXKRP_TEST_ADAPTER) (FixtureKey RoutineKey : Z) : Z + Z :=
  match AdFixtures a !! Z.to_nat FixtureKey with
  | None => inl STATUS_DRIVER_ENTRYPOINT_NOT_FOUND
  | Some f =>
      match KrEntries f !! Z.to_nat RoutineKey with
      | None => inl STATUS_DRIVER_ENTRYPOINT_NOT_FOUND
      | Some e => inr (EntryRoutine e)
      end
  end.

(** ** The description of the adapter (include/cfixkrio.h)

    The module: the number of its fixtures and the offsets of their structures.  A
    fixture: key, offset and length of its name, number of entries, and the
    entries of 12 bytes: type, key, offset and length of the name. *)
(* src/include/cfixkrio.h:107-111 (CFIXKRIO_TEST_MODULE) *)
Definition SIZEOF_IO_MODULE (FixtureCount : Z) : Z := ULONG (4 + 4 * (FixtureCount - 1) + 4).
(* src/include/cfixkrio.h:65-105 (CFIXKRIO_FIXTURE) *)
Definition SIZEOF_IO_FIXTURE (EntryCount : Z) : Z := ULONG (16 + 12 * (EntryCount - 1) + 12).

Definition NameCb (s : string) : Z := 2 * Z.of_nat (String.length s).

(** The length of an entry's name in bytes: the terminator must be found within
    [CFIX_MAX_ENTRY_NAME_CCH - 1] characters. *)
Definition EntryNameCb (s : string) : Z + Z :=
  if Z.of_nat (String.length s) <? CFIX_MAX_ENTRY_NAME_CCH - 1 then inr (NameCb s)
  else inl STATUS_INVALID_PARAMETER.

(* src/cfixkern/cfixkr/drvtestadp.c:407-424 (CfixkrsCalculateBufferSize) *)
Fixpoint EntriesStringsSize (es : list CFIX_PE_DEFINITION_ENTRY) (StringsSize : Z) : Z + Z :=
  match es with
  | [] => inr StringsSize
  | e :: es =>
      match EntryNameCb (EntryName e) with
      | inl Status => inl Status
      | inr StringLen => EntriesStringsSize es (ULONG (StringsSize + StringLen))
      end
  end.

Definition EntryCount (f : CFIXKRP_TEST_FIXTURE) : Z := lenZ (KrEntries f).

(* src/cfixkern/cfixkr/drvtestadp.c:394-425 (CfixkrsCalculateBufferSize) *)
Fixpoint FixturesSize (fs : list CFIXKRP_TEST_FIXTURE) (StructSize StringsSize : Z) : Z + Z * Z :=
  match fs with
  | [] => inr (StructSize, StringsSize)
  | f :: fs =>
      let StructSize := ULONG (StructSize + SIZEOF_IO_FIXTURE (EntryCount f)) in
      match EntriesStringsSize (KrEntries f) (ULONG (StringsSize + NameCb (KrName f))) with
      | inl Status => inl Status
      | inr StringsSize => FixturesSize fs StructSize StringsSize
      end
  end.

(* src/cfixkern/cfixkr/drvtestadp.c:370-431 (CfixkrsCalculateBufferSize) *)
Definition CfixkrsCalculateBufferSize (a : CFIXKRP_TEST_ADAPTER) : Z + Z * Z :=
  FixturesSize (AdFixtures a) (SIZEOF_IO_MODULE (lenZ (AdFixtures a))) 0.

(** The loops run with indices of 16 bits: they do not end for larger counts. *)
Definition IndexEnds (n : Z) : bool := n <? 2 ^ 16.

(* src/cfixkern/cfixkr/drvtestadp.c:618-641 (CfixkrpQueryModuleTestAdapter) *)
Fixpoint WriteEntries (IoBuffer IoFixture DefIndex : Z) (es : list CFIX_PE_DEFINITION_ENTRY)
    (m : Memory) (BufferStringsOffset : Z) : Memory * (Z + Z) :=
  match es with
  | [] => (m, inr BufferStringsOffset)
  | e :: es =>
      match EntryNameCb (EntryName e) with
      | inl Status => (m, inl Status)
      | inr StringLen =>
          let IoEntry := IoFixture + 16 + 12 * DefIndex in
          let m := put 2 m IoEntry (wrap 16 (EntryType e)) in
          let m := put 2 m (IoEntry + 2) DefIndex in
          let m := put 4 m (IoEntry + 8) StringLen in
          let m := put 4 m (IoEntry + 4) BufferStringsOffset in
          let m := poke m (IoBuffer + BufferStringsOffset) (wbytes (EntryName e)) in
          WriteEntries IoBuffer IoFixture (DefIndex + 1) es m (ULONG (BufferStringsOffset + StringLen))
      end
  end.

(* src/cfixkern/cfixkr/drvtestadp.c:586-642 (CfixkrpQueryModuleTestAdapter) *)
Fixpoint WriteFixtures (IoBuffer FixIndex : Z) (fs : list CFIXKRP_TEST_FIXTURE) (m : Memory)
    (BufferStructOffset BufferStringsOffset : Z) : option (Memory * Z) :=
  match fs with
  | [] => Some (m, STATUS_SUCCESS)
  | f :: fs =>
      if negb (IndexEnds (EntryCount f)) then None
      else
        let m := put 4 m (IoBuffer + 4 + 4 * FixIndex) BufferStructOffset in
        let IoFixture := IoBuffer + BufferStructOffset in
        let m := put 2 m IoFixture FixIndex in
        let m := put 4 m (IoFixture + 12) (EntryCount f) in
        let BufferStructOffset := ULONG (BufferStructOffset + SIZEOF_IO_FIXTURE (EntryCount f)) in
        let m := put 4 m (IoFixture + 8) (NameCb (KrName f)) in
        let m := put 4 m (IoFixture + 4) BufferStringsOffset in
        let m := poke m (IoBuffer + BufferStringsOffset) (wbytes (KrName f)) in
        let BufferStringsOffset := ULONG (BufferStringsOffset + NameCb (KrName f)) in
        match WriteEntries IoBuffer IoFixture 0 (KrEntries f) m BufferStringsOffset with
        | (m, inl Status) => Some (m, Status)
        | (m, inr BufferStringsOffset) =>
            WriteFixtures IoBuffer (FixIndex + 1) fs m BufferStructOffset BufferStringsOffset
        end
  end.

(** The status, the size in [BufferSize], and the memory; [None] if a loop over a
    16 bit index does not end. *)
(* src/cfixkern/cfixkr/drvtestadp.c:515-647 (CfixkrpQueryModuleTestAdapter) *)
Definition CfixkrpQueryModuleTestAdapter (a : CFIXKRP_TEST_ADAPTER) (MaximumBufferSize IoBuffer : Z)
    (m : Memory) : option (Z * Z * Memory) :=
  match CfixkrsCalculateBufferSize a with
  | inl Status => Some (Status, 0, m)
  | inr (StructSize, StringsSize) =>
      let BufferSize := ULONG (StructSize + StringsSize) in
      if MaximumBufferSize <? BufferSize then Some (STATUS_BUFFER_OVERFLOW, BufferSize, m)
      else if negb (IndexEnds (lenZ (AdFixtures a))) then None
      else
        let m := put 4 m IoBuffer (lenZ (AdFixtures a)) in
        match WriteFixtures IoBuffer 0 (AdFixtures a) m (SIZEOF_IO_MODULE (lenZ (AdFixtures a))) StructSize with
        | None => None
        | Some (m, Status) => Some (Status, BufferSize, m)
        end
  end.
