(* ===== verification/KrConn.v ===== *)
(** * Driver connections of the kernel reflector (cfixkern/cfixkr: drvconn.c,
      drvconnreg.c, filament.c)

    A connection stands for a test driver; the registry finds it by the load
    address of the driver.  While one of the driver's routines runs, the thread
    has a filament, which leads the report stubs to the channel of the request.
    The two hash tables are used as the finite maps that Hashtable shows them to
    be.  A wait that is not satisfied is a [None]. *)
From stdpp Require Import base gmap list strings.
From Stdlib Require Import ZArith Lia.
From S2P Require Import Prelude CfixApi PeModule IoBuffer KrEvents KrModule.
Local Open Scope Z_scope.
Local Open Scope cfix_scope.

Definition PASSIVE_LEVEL : Z := 0.
Definition CFIX_MAX_THREADS : nat := 64.

(* src/cfixkern/cfixkr/cfixkrp.h:112-182 (CFIXKRP_REPORT_CHANNEL) *)
Record CFIXKRP_REPORT_CHANNEL := MkChannel {
  DispFailedAssertion : CFIX_REPORT_DISPOSITION;
  DispUnhandledException : CFIX_REPORT_DISPOSITION;
  EventBuffer : EVENT_BUFFER;
  ChTlsValue : Z }.

(* src/cfixkern/cfixkr/cfixkrp.h:487-506 (CFIXKRP_FILAMENT) *)
Record CFIXKRP_FILAMENT := MkFilament {
  FilChannel : Z;
  FilMainThreadId : Z;
  ChildThreads : list Z }.

(** The adapter with its address; the unload lock with the number of threads that
    share it, once it has been initialised; the filaments of threads: the block of
    the table, and for a thread the block of its entry and the filament. *)
(* src/cfixkern/cfixkr/drvconn.c:35-80 (CFIXKRP_DRIVER_CONNECTION) *)
Record CFIXKRP_DRIVER_CONNECTION := MkConnection {
  DriverLoadAddress : Z;
  ExternalReferenceCount : Z;
  ConnReferenceCount : Z;
  DriverUnloadLock : option nat;
  Adapter : option (Z * CFIXKRP_TEST_ADAPTER);
  FilamentRegistry : option (Z * gmap Z (Z * Z)) }.

(** The state of the driver: pool blocks, the memory of I/O buffers, the connections
    and their registry (block of the table, and for a load address the block of the
    registration and the connection), the filaments and channels (both on kernel stacks) by
    address, and the IRQL of the current thread. *)
Record KW := MkKW {
  PoolBlocks : gset Z;
  IoMemory : Memory;
  Connections : gmap Z CFIXKRP_DRIVER_CONNECTION;
  Registry : option (Z * gmap Z (Z * Z));
  TornDown : bool;
  Filaments : gmap Z CFIXKRP_FILAMENT;
  Channels : gmap Z CFIXKRP_REPORT_CHANNEL;
  Irql : Z }.

Definition set_PoolBlocks v s := MkKW v (IoMemory s) (Connections s) (Registry s) (TornDown s) (Filaments s) (Channels s) (Irql s).
Definition set_IoMemory v s := MkKW (PoolBlocks s) v (Connections s) (Registry s) (TornDown s) (Filaments s) (Channels s) (Irql s).
Definition set_Connections v s := MkKW (PoolBlocks s) (IoMemory s) v (Registry s) (TornDown s) (Filaments s) (Channels s) (Irql s).
Definition set_Registry v s := MkKW (PoolBlocks s) (IoMemory s) (Connections s) v (TornDown s) (Filaments s) (Channels s) (Irql s).
Definition set_TornDown v s := MkKW (PoolBlocks s) (IoMemory s) (Connections s) (Registry s) v (Filaments s) (Channels s) (Irql s).
Definition set_Filaments v s := MkKW (PoolBlocks s) (IoMemory s) (Connections s) (Registry s) (TornDown s) v (Channels s) (Irql s).
Definition set_Channels v s := MkKW (PoolBlocks s) (IoMemory s) (Connections s) (Registry s) (TornDown s) (Filaments s) v (Irql s).
Definition set_Irql v s := MkKW (PoolBlocks s) (IoMemory s) (Connections s) (Registry s) (TornDown s) (Filaments s) (Channels s) v.

Local Abbreviation M := (ST KW).

Definition pool {A} (x : ST (gset Z) A) : M A := fun s =>
  match x (PoolBlocks s) with Some (a, b) => Some (a, set_PoolBlocks b s) | None => None end.

Definition load_conn (c : Z) : M CFIXKRP_DRIVER_CONNECTION := fun s =>
  match Connections s !! c with Some x => Some (x, s) | None => None end.
Definition store_conn (c : Z) (x : CFIXKRP_DRIVER_CONNECTION) : M unit :=
  modify (fun s => set_Connections (<[c := x]> (Connections s)) s).
Definition load_filament (f : Z) : M CFIXKRP_FILAMENT := fun s =>
  match Filaments s !! f with Some x => Some (x, s) | None => None end.
Definition store_filament (f : Z) (x : CFIXKRP_FILAMENT) : M unit :=
  modify (fun s => set_Filaments (<[f := x]> (Filaments s)) s).
Definition load_channel (c : Z) : M CFIXKRP_REPORT_CHANNEL := fun s =>
  match Channels s !! c with Some x => Some (x, s) | None => None end.
Definition store_channel (c : Z) (x : CFIXKRP_REPORT_CHANNEL) : M unit :=
  modify (fun s => set_Channels (<[c := x]> (Channels s)) s).

Definition set_References (ext refs : Z) (x : CFIXKRP_DRIVER_CONNECTION) : CFIXKRP_DRIVER_CONNECTION :=
  MkConnection (DriverLoadAddress x) ext refs (DriverUnloadLock x) (Adapter x) (FilamentRegistry x).
Definition set_Lock (l : option nat) (x : CFIXKRP_DRIVER_CONNECTION) : CFIXKRP_DRIVER_CONNECTION :=
  MkConnection (DriverLoadAddress x) (ExternalReferenceCount x) (ConnReferenceCount x) l (Adapter x) (FilamentRegistry x).
Definition set_Adapter (a : option (Z * CFIXKRP_TEST_ADAPTER)) (x : CFIXKRP_DRIVER_CONNECTION) : CFIXKRP_DRIVER_CONNECTION :=
  MkConnection (DriverLoadAddress x) (ExternalReferenceCount x) (ConnReferenceCount x) (DriverUnloadLock x) a (FilamentRegistry x).
Definition set_FilamentRegistry (r : option (Z * gmap Z (Z * Z))) (x : CFIXKRP_DRIVER_CONNECTION) : CFIXKRP_DRIVER_CONNECTION :=
  MkConnection (DriverLoadAddress x) (ExternalReferenceCount x) (ConnReferenceCount x) (DriverUnloadLock x) (Adapter x) r.

Section reflector.
Variable P : Z.
(** [ExAllocatePoolWithTag]; the thread the code runs on (its object and its ID). *)
Variable Pool : gset Z -> Z -> Z.
Variable Tid : Z.

(** ** Filaments (filament.c)

    The table of a registry that has been initialised. *)
Definition load_registry (Conn : Z) : M (Z * gmap Z (Z * Z)) :=
  c <- load_conn Conn ;;
  match FilamentRegistry c with Some r => ret r | None => fault end.
Definition store_registry (Conn : Z) (r : Z * gmap Z (Z * Z)) : M unit :=
  c <- load_conn Conn ;; store_conn Conn (set_FilamentRegistry (Some r) c).

(* src/cfixkern/cfixkr/filament.c:104-133 (CfixkrsRegisterChildThreadFilament) *)
Definition CfixkrsRegisterChildThreadFilament (Filament Thread : Z) : M Z :=
  f <- load_filament Filament ;;
  if (length (ChildThreads f) =? CFIX_MAX_THREADS)%nat then ret STATUS_ALLOTTED_SPACE_EXCEEDED
  else
    store_filament Filament (MkFilament (FilChannel f) (FilMainThreadId f) (ChildThreads f ++ [Thread])) ;;;
    ret STATUS_SUCCESS.

(** The array of the 31 buckets of a table. *)
Definition SIZEOF_TABLE : Z := 31 * (2 * P).

(* src/cfixkern/cfixkr/filament.c:143-164 (CfixkrpInitializeFilamentRegistry) *)
Definition CfixkrpInitializeFilamentRegistry (Conn : Z) : M Z :=
  Table <- pool (ExAllocatePool Pool SIZEOF_TABLE) ;;
  if Table =? 0 then ret STATUS_NO_MEMORY
  else store_registry Conn (Table, ∅) ;;; ret STATUS_SUCCESS.

(* src/cfixkern/cfixkr/filament.c:166-178 (CfixkrpDeleteFilamentRegistry) *)
Definition CfixkrpDeleteFilamentRegistry (Conn : Z) : M unit :=
  r <- load_registry Conn ;;
  assert_ (bool_decide (snd r = ∅)) ;;;
  pool (ExFreePool (fst r)).

(* src/cfixkern/cfixkr/filament.c:186-198 (CfixkrpInitializeFilament) *)
Definition CfixkrpInitializeFilament (Channel MainThreadId Filament : Z) : M unit :=
  store_filament Filament (MkFilament Channel MainThreadId []).

Definition SIZEOF_FILAMENT_ENTRY : Z := 3 * P.

(* src/cfixkern/cfixkr/filament.c:215-273 (CfixkrpSetCurrentFilament) *)
Definition CfixkrpSetCurrentFilament (Conn Filament : Z) : M Z :=
  Entry <- pool (ExAllocatePool Pool SIZEOF_FILAMENT_ENTRY) ;;
  if Entry =? 0 then ret STATUS_NO_MEMORY
  else
    f <- load_filament Filament ;;
    Status <- (if negb (Tid =? FilMainThreadId f) then CfixkrsRegisterChildThreadFilament Filament Tid
               else ret STATUS_SUCCESS) ;;
    if negb (NT_SUCCESS Status) then pool (ExFreePool Entry) ;;; ret Status
    else
      r <- load_registry Conn ;;
      store_registry Conn (fst r, <[Tid := (Entry, Filament)]> (snd r)) ;;;
      assert_ (bool_decide (snd r !! Tid = None)) ;;;
      ret STATUS_SUCCESS.

(* src/cfixkern/cfixkr/filament.c:275-307 (CfixkrpResetCurrentFilament) *)
Definition CfixkrpResetCurrentFilament (Conn : Z) : M unit :=
  r <- load_registry Conn ;;
  match snd r !! Tid with
  | None => fault
  | Some (Entry, _) =>
      store_registry Conn (fst r, delete Tid (snd r)) ;;;
      pool (ExFreePool Entry)
  end.

(** 0 if there is none. *)
(* src/cfixkern/cfixkr/filament.c:309-340 (CfixkrpGetCurrentFilament) *)
Definition CfixkrpGetCurrentFilament (Conn : Z) : M Z :=
  r <- load_registry Conn ;;
  ret (match snd r !! Tid with Some (_, Filament) => Filament | None => 0 end).

(** ** The registry of connections (drvconnreg.c) *)
Definition load_connections : M (Z * gmap Z (Z * Z)) := fun s =>
  match Registry s with Some r => Some (r, s) | None => None end.
Definition store_connections (r : option (Z * gmap Z (Z * Z))) : M unit := modify (set_Registry r).

(* src/cfixkern/cfixkr/drvconnreg.c:177-208 (CfixkrpInitializeDriverConnectionRegistry) *)
Definition CfixkrpInitializeDriverConnectionRegistry : M Z :=
  Table <- pool (ExAllocatePool Pool SIZEOF_TABLE) ;;
  if Table =? 0 then ret STATUS_NO_MEMORY
  else
    store_connections (Some (Table, ∅)) ;;;
    modify (set_TornDown false) ;;;
    ret STATUS_SUCCESS.

(** The enumeration frees every registration. *)
Fixpoint FreeRegistrations (l : list Z) : M unit :=
  match l with [] => ret tt | a :: l => pool (ExFreePool a) ;;; FreeRegistrations l end.

(* src/cfixkern/cfixkr/drvconnreg.c:210-241 (CfixkrpTeardownDriverConnectionRegistry) *)
Definition CfixkrpTeardownDriverConnectionRegistry : M unit :=
  modify (set_TornDown true) ;;;
  r <- load_connections ;;
  FreeRegistrations (fst ∘ snd <$> map_to_list (snd r)) ;;;
  pool (ExFreePool (fst r)) ;;;
  store_connections None.

Definition SIZEOF_REGISTRATION : Z := 3 * P.

(* src/cfixkern/cfixkr/drvconnreg.c:243-288 (CfixkrpRegisterDriverConnection) *)
Definition CfixkrpRegisterDriverConnection (LoadAddress Connection : Z) : M Z :=
  Registration <- pool (ExAllocatePool Pool SIZEOF_REGISTRATION) ;;
  if Registration =? 0 then ret STATUS_NO_MEMORY
  else
    r <- load_connections ;;
    store_connections (Some (fst r, <[LoadAddress := (Registration, Connection)]> (snd r))) ;;;
    assert_ (bool_decide (snd r !! LoadAddress = None)) ;;;
    ret STATUS_SUCCESS.

(* src/cfixkern/cfixkr/drvconnreg.c:290-333 (CfixkrpUnregisterDriverConnection) *)
Definition CfixkrpUnregisterDriverConnection (LoadAddress : Z) : M Z :=
  t <- gets TornDown ;;
  if t : bool then ret STATUS_SUCCESS
  else
    r <- load_connections ;;
    store_connections (Some (fst r, delete LoadAddress (snd r))) ;;;
    match snd r !! LoadAddress with
    | Some (Registration, _) => pool (ExFreePool Registration) ;;; ret STATUS_SUCCESS
    | None => ret STATUS_SUCCESS
    end.

(** ** The life cycle of a connection (drvconn.c) *)
(* src/cfixkern/cfixkr/drvconn.c:125-134 (CfixkrpReferenceConnection) *)
Definition CfixkrpReferenceConnection (Conn : Z) : M unit :=
  c <- load_conn Conn ;;
  store_conn Conn (set_References (ExternalReferenceCount c) (LONG (ConnReferenceCount c + 1)) c).

(** Deletion of the object: the resource must have been initialised. *)
(* src/cfixkern/cfixkr/drvconn.c:136-159 (CfixkrpDereferenceConnection) *)
Definition CfixkrpDereferenceConnection (Conn : Z) : M unit :=
  c <- load_conn Conn ;;
  let n := LONG (ConnReferenceCount c - 1) in
  store_conn Conn (set_References (ExternalReferenceCount c) n c) ;;;
  if negb (n =? 0) then ret tt
  else
    CfixkrpDeleteFilamentRegistry Conn ;;;
    CfixkrpUnregisterDriverConnection (DriverLoadAddress c) ;;;
    match Adapter c, DriverUnloadLock c with
    | Some (a, ad), Some _ =>
        pool (CfixkrpDeleteTestAdapter a ad) ;;;
        modify (fun s => set_Connections (delete Conn (Connections s)) s) ;;;
        pool (ExFreePool Conn)
    | _, _ => fault
    end.

(* src/cfixkern/cfixkr/drvconn.c:161-173 (CfixkrsExternalReferenceConnection) *)
Definition CfixkrsExternalReferenceConnection (Conn : Z) : M unit :=
  c <- load_conn Conn ;;
  assert_ (ExternalReferenceCount c =? 0) ;;;
  CfixkrpReferenceConnection Conn ;;;
  c <- load_conn Conn ;;
  store_conn Conn (set_References (LONG (ExternalReferenceCount c + 1)) (ConnReferenceCount c) c).

(** The exclusive lock is granted when no thread shares it. *)
(* src/cfixkern/cfixkr/drvconn.c:175-204 (CfixkrsExternalDereferenceConnection) *)
Definition CfixkrsExternalDereferenceConnection (Conn : Z) : M unit :=
  c <- load_conn Conn ;;
  assert_ (ExternalReferenceCount c =? 1) ;;;
  match DriverUnloadLock c with
  | Some O =>
      store_conn Conn (set_References (LONG (ExternalReferenceCount c - 1)) (ConnReferenceCount c) c) ;;;
      CfixkrpDereferenceConnection Conn
  | _ => fault
  end.

(* src/cfixkern/cfixkr/drvconn.c:88-106 (CfixkrsAcquireDriverUnloadProtection) *)
Definition CfixkrsAcquireDriverUnloadProtection (Conn : Z) : M bool :=
  c <- load_conn Conn ;;
  if ExternalReferenceCount c =? 0 then ret false
  else
    match DriverUnloadLock c with
    | Some n => store_conn Conn (set_Lock (Some (S n)) c) ;;; ret true
    | None => fault
    end.

(* src/cfixkern/cfixkr/drvconn.c:108-117 (CfixkrsReleaseDriverUnloadProtection) *)
Definition CfixkrsReleaseDriverUnloadProtection (Conn : Z) : M unit :=
  c <- load_conn Conn ;;
  match DriverUnloadLock c with
  | Some (S n) => store_conn Conn (set_Lock (Some n) c)
  | _ => fault
  end.

(** The connection, or NULL and a status. *)
(* src/cfixkern/cfixkr/drvconnreg.c:335-379 (CfixkrpLookupDriverConnection) *)
Definition CfixkrpLookupDriverConnection (LoadAddress : Z) : M (Z * Z) :=
  r <- load_connections ;;
  match snd r !! LoadAddress with
  | Some (_, Connection) => CfixkrpReferenceConnection Connection ;;; ret (STATUS_SUCCESS, Connection)
  | None => ret (STATUS_NOT_FOUND, 0)
  end.

(** The enumeration collects the load addresses as long as there is room: the
    addresses written, the number written, the total, and whether some were left
    out. *)
(* src/cfixkern/cfixkr/drvconnreg.c:141-170 (CfixkrsEnlistConnectionHashtableCallback) *)
Definition CfixkrsEnlistConnection (Capacity : nat) (ctx : list Z * Z * bool) (LoadAddress : Z)
    : list Z * Z * bool :=
  let '(Written, TotalAvailable, Overflow) := ctx in
  if (length Written <? Capacity)%nat then (Written ++ [LoadAddress], TotalAvailable + 1, Overflow)
  else (Written, TotalAvailable + 1, true).

(** The order in which the table is enumerated. *)
Variable Order : gmap Z (Z * Z) -> list Z.

(* src/cfixkern/cfixkr/drvconnreg.c:381-438 (CfixkrpGetDriverConnections) *)
Definition CfixkrpGetDriverConnections (Capacity : nat) : M (Z * list Z * Z) :=
  r <- load_connections ;;
  let '(Written, TotalAvailable, Overflow) :=
    fold_left (CfixkrsEnlistConnection Capacity) (Order (snd r)) ([], 0, false) in
  ret (if Overflow : bool then STATUS_BUFFER_OVERFLOW else STATUS_SUCCESS, Written, TotalAvailable).

(** ** Creation *)
Variable RtlAnsiStringToUnicodeString : string -> Z + string.
Variable GetFixtureRoutine : Z -> option CFIX_TEST_PE_DEFINITION.
Variable ImageOf : Z -> IMAGE.
Variable HasArrays : Z -> bool.
(** [ExInitializeResourceLite] *)
Variable ExInitializeResourceLite : M Z.

Definition SIZEOF_DRIVER_CONNECTION : Z := 256.

(** The cleanup undoes what has been done. *)
(* src/cfixkern/cfixkr/drvconn.c:288-309 (CfixkrpCreateAndRegisterDriverConnection) *)
Definition UndoConnection (Conn : Z) (ResourceInitialized HashtableInitialized : bool) (Status : Z) : M Z :=
  c <- load_conn Conn ;;
  match Adapter c with Some (a, ad) => pool (CfixkrpDeleteTestAdapter a ad) | None => ret tt end ;;;
  when_ ResourceInitialized (store_conn Conn (set_Lock None c)) ;;;
  when_ HashtableInitialized (CfixkrpDeleteFilamentRegistry Conn) ;;;
  modify (fun s => set_Connections (delete Conn (Connections s)) s) ;;;
  pool (ExFreePool Conn) ;;;
  ret Status.

(** The steps after the object has been allocated and referenced. *)
(* src/cfixkern/cfixkr/drvconn.c:251-286 (CfixkrpCreateAndRegisterDriverConnection) *)
Definition InitializeConnection (LoadAddress Conn : Z) : M Z :=
  Status <- CfixkrpInitializeFilamentRegistry Conn ;;
  if negb (NT_SUCCESS Status) then UndoConnection Conn false false STATUS_NO_MEMORY
  else
    Status <- ExInitializeResourceLite ;;
    if negb (NT_SUCCESS Status) then UndoConnection Conn false true Status
    else
      c <- load_conn Conn ;;
      store_conn Conn (set_Lock (Some O) c) ;;;
      r <- pool (CfixkrpCreateTestAdapter P RtlAnsiStringToUnicodeString GetFixtureRoutine ImageOf
                   HasArrays Pool LoadAddress) ;;
      match r with
      | inl Status => UndoConnection Conn true true Status
      | inr A =>
          c <- load_conn Conn ;;
          store_conn Conn (set_Adapter (Some A) c) ;;;
          Status <- CfixkrpRegisterDriverConnection LoadAddress Conn ;;
          if negb (NT_SUCCESS Status) then UndoConnection Conn true true Status else ret Status
      end.

(** A status, and the connection or 0. *)
(* src/cfixkern/cfixkr/drvconn.c:211-310 (CfixkrpCreateAndRegisterDriverConnection) *)
Definition CfixkrpCreateAndRegisterDriverConnection (LoadAddress : Z) : M (Z * Z) :=
  TempConn <- pool (ExAllocatePool Pool SIZEOF_DRIVER_CONNECTION) ;;
  if TempConn =? 0 then ret (STATUS_NO_MEMORY, 0)
  else
    store_conn TempConn (MkConnection LoadAddress 0 0 None None None) ;;;
    CfixkrsExternalReferenceConnection TempConn ;;;
    Status <- InitializeConnection LoadAddress TempConn ;;
    ret (Status, if NT_SUCCESS Status then TempConn else 0).
End reflector.

(** ** Lookups and enumeration *)
Definition Referenced (c : CFIXKRP_DRIVER_CONNECTION) : CFIXKRP_DRIVER_CONNECTION :=
  set_References (ExternalReferenceCount c) (ConnReferenceCount c + 1) c.

(** A connection that is registered for a load address. *)
Record RegisteredAt (s : KW) (Base Conn : Z) (c : CFIXKRP_DRIVER_CONNECTION) : Prop := {
  reg_registry : exists T r g, Registry s = Some (T, r) /\ r !! Base = Some (g, Conn);
  reg_conn : Connections s !! Conn = Some c;
  reg_refs : 1 <= ConnReferenceCount c < 2 ^ 31 - 1 }.

Lemma lookup_registered s Base Conn c : RegisteredAt s Base Conn c ->
  CfixkrpLookupDriverConnection Base s =
  Some ((STATUS_SUCCESS, Conn), set_Connections (<[Conn := Referenced c]> (Connections s)) s).
Proof.
  intros [(T & r & g & Hr & Hb) Hc Hn].
  unfold CfixkrpLookupDriverConnection, load_connections, CfixkrpReferenceConnection, load_conn, store_conn, bind.
  rewrite Hr. cbn. rewrite Hb. simpl. rewrite Hc. cbn. by rewrite LONG_small by lia.
Qed.

(** A reference that is given up again leaves nothing behind. *)
Lemma dereference_referenced s Conn c m :
  Connections s !! Conn = Some c -> 1 <= ConnReferenceCount c < 2 ^ 31 - 1 ->
  CfixkrpDereferenceConnection Conn
    (set_IoMemory m (set_Connections (<[Conn := Referenced c]> (Connections s)) s)) =
  Some (tt, set_IoMemory m s).
Proof.
  intros Hc Hn. unfold CfixkrpDereferenceConnection, load_conn, store_conn, bind. simpl. rewrite lookup_insert_eq. cbn.
  replace (ConnReferenceCount c + 1 - 1) with (ConnReferenceCount c) by lia. rewrite LONG_small by lia.
  destruct (Z.eqb_spec (ConnReferenceCount c) 0); [lia|]. cbn. unfold ret. f_equal. f_equal.
  unfold set_IoMemory, set_Connections. simpl. f_equal.
  rewrite insert_insert_eq. apply insert_id. rewrite Hc. f_equal. by destruct c.
Qed.

Lemma enlist_spec Capacity l : forall Written n b,
  (length Written <= Capacity)%nat ->
  fold_left (CfixkrsEnlistConnection Capacity) l (Written, n, b) =
  (Written ++ take (Capacity - length Written) l, n + Z.of_nat (length l),
   b || (Capacity <? length Written + length l)%nat).
Proof.
  induction l as [|x l IH]; intros Written n b Hw.
  { simpl. rewrite take_nil, app_nil_r, Z.add_0_r.
    rewrite (proj2 (Nat.ltb_ge Capacity _)) by lia. by rewrite orb_false_r. }
  cbn [fold_left]. unfold CfixkrsEnlistConnection at 2.
  destruct (Nat.ltb_spec (length Written) Capacity) as [Hlt|Hge].
  - rewrite IH by (rewrite length_app; simpl; lia). rewrite length_app. cbn [length].
    replace (Capacity - length Written)%nat with (S (Capacity - (length Written + 1)))%nat by lia.
    cbn [take]. rewrite <- app_assoc. f_equal; [f_equal; lia|]. f_equal. f_equal. lia.
  - rewrite IH by lia. replace (Capacity - length Written)%nat with O by lia. rewrite !take_0. cbn [length].
    f_equal; [f_equal; lia|]. cbn [orb]. rewrite (proj2 (Nat.ltb_lt Capacity _)) by lia.
    symmetry. apply orb_true_r.
Qed.

(** What the caller gets: as many addresses as there is room for, the total, and
    whether some did not fit. *)
Lemma GetDriverConnections_spec Order Capacity s T r : Registry s = Some (T, r) ->
  CfixkrpGetDriverConnections Order Capacity s =
  Some ((if (Capacity <? length (Order r))%nat then STATUS_BUFFER_OVERFLOW else STATUS_SUCCESS,
         take Capacity (Order r), Z.of_nat (length (Order r))), s).
Proof.
  intros Hr. unfold CfixkrpGetDriverConnections, load_connections, bind. rewrite Hr. cbn [snd].
  rewrite enlist_spec by (simpl; lia). rewrite Nat.sub_0_r. done.
Qed.

(** ** Creation and destruction *)
Ltac run_eq E := apply Runs_bind; eexists _, _; split; [exact E|]; cbv beta.

Section lifecycle.
Context (P : Z) (Pool : gset Z -> Z -> Z).
Context (Convert : string -> Z + string) (GetFixtureRoutine : Z -> option CFIX_TEST_PE_DEFINITION).
Context (ImageOf : Z -> IMAGE) (HasArrays : Z -> bool) (InitResource : M Z).
(** The allocator fails, or yields a fresh block. *)
Context (HPool : forall B n, Pool B n = 0 \/ Pool B n ∉ B).
Context (HInit : forall s, exists Status, InitResource s = Some (Status, s)).

Definition Live (a : Z) (s : KW) : KW := set_PoolBlocks (PoolBlocks s ∪ {[a]}) s.

Lemma Runs_alloc {A} n (k : Z -> M A) s Q :
  Runs (k 0) s Q -> (forall a, a <> 0 -> a ∉ PoolBlocks s -> Runs (k a) (Live a s) Q) ->
  Runs (bind (pool (ExAllocatePool Pool n)) k) s Q.
Proof.
  intros H0 Ha. apply Runs_bind. unfold Runs, pool, ExAllocatePool. cbn zeta beta iota.
  destruct (HPool (PoolBlocks s) n) as [E|E].
  - rewrite E. exists 0, s. by destruct s.
  - destruct (Z.eqb_spec (Pool (PoolBlocks s) n) 0) as [E0|E0].
    + rewrite E0. exists 0, s. by destruct s.
    + eexists _, _. split; [done|]. by apply Ha.
Qed.

Lemma free_live a s : a ∉ PoolBlocks s -> pool (ExFreePool a) (Live a s) = Some (tt, s).
Proof.
  intros Ha. unfold pool, ExFreePool, modify, Live. cbn. destruct s as [B m c r t f ch i]. cbn in *.
  unfold set_PoolBlocks. cbn. do 3 f_equal. clear -Ha; set_solver.
Qed.

Lemma bind_alloc {A} n (k : Z -> ST (gset Z) A) B :
  bind (ExAllocatePool Pool n) k B = k (Pool B n) (if Pool B n =? 0 then B else B ∪ {[Pool B n]}).
Proof. done. Qed.

Lemma bind_free {A} a (k : ST (gset Z) A) B : bind (ExFreePool a) (fun _ => k) B = k (B ∖ {[a]}).
Proof. done. Qed.

(** An adapter has two blocks. *)
Lemma CreateTestAdapter_pool Load B :
  is_Some (CfixkrsWalkExportDirectoryAndExtractFixtures P Convert GetFixtureRoutine HasArrays (ImageOf Load) Load) ->
  Runs (CfixkrpCreateTestAdapter P Convert GetFixtureRoutine ImageOf HasArrays Pool Load) B (fun r B' =>
    match r with
    | inl Status => NT_SUCCESS Status = false /\ B' = B
    | inr (a, ad) => a ∉ B /\ AdArray ad ∉ B ∪ {[a]} /\ B' = B ∪ {[a]} ∪ {[AdArray ad]}
    end).
Proof.
  intros [[Status fs] HW].
  assert (forall B n, Pool B n <> 0 -> Pool B n ∉ B) as Hfresh by (intros B' n Hn; by destruct (HPool B' n)).
  unfold CfixkrpCreateTestAdapter, Runs. rewrite bind_alloc. set (a := Pool B _).
  destruct (Z.eqb_spec a 0) as [E|E]; [by eexists _, _|]. pose proof (Hfresh _ _ E) as Ha. fold a in Ha.
  unfold CfixkrsInitializeAdapter. cbv zeta. destruct (negb _).
  { rewrite bind_ret, bind_free. eexists _, _. do 2 (split; [done|]). clear -Ha; set_solver. }
  rewrite bind_assoc, bind_alloc. set (b := Pool (B ∪ {[a]}) _).
  destruct (Z.eqb_spec b 0) as [Eb|Eb].
  { rewrite bind_ret, bind_free. eexists _, _. do 2 (split; [done|]). clear -Ha; set_solver. }
  pose proof (Hfresh _ _ Eb) as Hb. fold b in Hb. rewrite HW. destruct (NT_SUCCESS Status) eqn:ES.
  - rewrite bind_ret. eexists _, _. split; [done|]. cbn. done.
  - rewrite bind_assoc, bind_free, bind_ret, bind_free. eexists _, _. do 2 (split; [done|]). clear -Ha Hb; set_solver.
Qed.

Lemma CreateTestAdapter_runs {A} Load s (k : Z + Z * CFIXKRP_TEST_ADAPTER -> M A) Q :
  is_Some (CfixkrsWalkExportDirectoryAndExtractFixtures P Convert GetFixtureRoutine HasArrays (ImageOf Load) Load) ->
  (forall Status, NT_SUCCESS Status = false -> Runs (k (inl Status)) s Q) ->
  (forall a ad, a ∉ PoolBlocks s -> AdArray ad ∉ PoolBlocks (Live a s) ->
     Runs (k (inr (a, ad))) (Live (AdArray ad) (Live a s)) Q) ->
  Runs (bind (pool (CfixkrpCreateTestAdapter P Convert GetFixtureRoutine ImageOf HasArrays Pool Load)) k) s Q.
Proof.
  intros HW Hf Hs. apply Runs_bind.
  destruct (CreateTestAdapter_pool Load (PoolBlocks s) HW) as (r & B' & E & Hr).
  exists r, (set_PoolBlocks B' s). unfold pool at 1. rewrite E. split; [done|].
  destruct r as [Status|[a ad]].
  - destruct Hr as [HS ->]. replace (set_PoolBlocks (PoolBlocks s) s) with s by (by destruct s). by apply Hf.
  - destruct Hr as (Ha & Hb & ->). by apply Hs.
Qed.

Context (s : KW) (Load T : Z) (r : gmap Z (Z * Z)).
Context (HRegistry : Registry s = Some (T, r)) (HLoad : r !! Load = None) (HTorn : TornDown s = false).
(** Connections are blocks of the pool. *)
Context (HConns : forall c, is_Some (Connections s !! c) -> c ∈ PoolBlocks s).

(** The state with a connection [c] at [Conn], and the blocks [B]. *)
Definition At (Conn : Z) (c : CFIXKRP_DRIVER_CONNECTION) (B : gset Z) : KW :=
  set_Connections (<[Conn := c]> (Connections s)) (set_PoolBlocks B s).

Definition AdapterBlocks (c : CFIXKRP_DRIVER_CONNECTION) : gset Z :=
  match Adapter c with Some (a, ad) => {[AdArray ad; a]} | None => ∅ end.
Definition TableBlocks (c : CFIXKRP_DRIVER_CONNECTION) : gset Z :=
  match FilamentRegistry c with Some (t, _) => {[t]} | None => ∅ end.

Lemma load_At Conn c B : load_conn Conn (At Conn c B) = Some (c, At Conn c B).
Proof. unfold load_conn, At. cbn. by rewrite lookup_insert_eq. Qed.

Lemma store_At Conn c c' B : store_conn Conn c' (At Conn c B) = Some (tt, At Conn c' B).
Proof. unfold store_conn, modify, At, set_Connections. cbn. by rewrite insert_insert_eq. Qed.

Lemma free_At Conn c B a : pool (ExFreePool a) (At Conn c B) = Some (tt, At Conn c (B ∖ {[a]})).
Proof. done. Qed.

Lemma delete_adapter_At Conn c B a ad :
  pool (CfixkrpDeleteTestAdapter a ad) (At Conn c B) = Some (tt, At Conn c (B ∖ {[AdArray ad; a]})).
Proof.
  unfold pool, CfixkrpDeleteTestAdapter, ExFreePool, modify, bind. cbn. unfold At, set_PoolBlocks, set_Connections.
  cbn. do 3 f_equal. clear; set_solver.
Qed.

Lemma delete_registry_At Conn c B t : FilamentRegistry c = Some (t, ∅) ->
  CfixkrpDeleteFilamentRegistry Conn (At Conn c B) = Some (tt, At Conn c (B ∖ {[t]})).
Proof.
  intros Hr. unfold CfixkrpDeleteFilamentRegistry, load_registry. rewrite bind_assoc, (bind_eq _ _ _ _ _ (load_At _ _ _)).
  rewrite Hr. cbn [fst snd]. rewrite bind_ret. unfold bind. cbn [snd]. rewrite bool_decide_true by done. cbn. done.
Qed.

Lemma drop_At Conn c B : Connections s !! Conn = None -> B ∖ {[Conn]} = PoolBlocks s ->
  (modify (fun s => set_Connections (delete Conn (Connections s)) s) ;;; pool (ExFreePool Conn)) (At Conn c B) =
  Some (tt, s).
Proof.
  intros Hn HB. unfold At, pool, ExFreePool, modify, bind, set_Connections, set_PoolBlocks. cbn.
  rewrite delete_insert_id, HB by done. by destruct s.
Qed.

Lemma undo_At Conn c B (Resource Table : bool) Status :
  Connections s !! Conn = None ->
  (Table = true -> exists t, FilamentRegistry c = Some (t, ∅)) ->
  B ∖ AdapterBlocks c ∖ (if Table then TableBlocks c else ∅) ∖ {[Conn]} = PoolBlocks s ->
  UndoConnection Conn Resource Table Status (At Conn c B) = Some (Status, s).
Proof.
  intros Hn Ht HB. unfold UndoConnection. rewrite (bind_eq _ _ _ _ _ (load_At _ _ _)).
  assert ((match Adapter c with Some (a, ad) => pool (CfixkrpDeleteTestAdapter a ad) | None => ret tt end)
    (At Conn c B) = Some (tt, At Conn c (B ∖ AdapterBlocks c))) as E1.
  { unfold AdapterBlocks. destruct (Adapter c) as [[a ad]|]; [apply delete_adapter_At|].
    unfold ret. do 3 f_equal. clear; set_solver. }
  rewrite (bind_eq _ _ _ _ _ E1). clear E1.
  set (c' := if Resource then set_Lock None c else c).
  assert (when_ Resource (store_conn Conn (set_Lock None c)) (At Conn c (B ∖ AdapterBlocks c)) =
    Some (tt, At Conn c' (B ∖ AdapterBlocks c))) as E2.
  { subst c'. destruct Resource; [apply store_At|done]. }
  rewrite (bind_eq _ _ _ _ _ E2). clear E2.
  assert (FilamentRegistry c' = FilamentRegistry c) as Hf by (subst c'; by destruct Resource).
  assert (when_ Table (CfixkrpDeleteFilamentRegistry Conn) (At Conn c' (B ∖ AdapterBlocks c)) =
    Some (tt, At Conn c' (B ∖ AdapterBlocks c ∖ (if Table then TableBlocks c else ∅)))) as E3.
  { destruct Table; cbn [when_].
    - destruct (Ht eq_refl) as [t Et]. unfold TableBlocks. rewrite Et. apply delete_registry_At. congruence.
    - unfold ret. do 3 f_equal. clear; set_solver. }
  rewrite (bind_eq _ _ _ _ _ E3), <- bind_assoc, (bind_eq _ _ _ _ _ (drop_At _ _ _ Hn HB)). done.
Qed.

(** A new connection: one reference, held by the driver; its blocks are fresh. *)
Record Fresh (B : gset Z) (l : list Z) : Prop := { fresh_nodup : NoDup l; fresh_new : Forall (fun a => a ∉ B) l }.

Definition NewConnection (t a : Z) (ad : CFIXKRP_TEST_ADAPTER) : CFIXKRP_DRIVER_CONNECTION :=
  MkConnection Load 1 1 (Some O) (Some (a, ad)) (Some (t, ∅)).

Definition Created (Conn t a g : Z) (ad : CFIXKRP_TEST_ADAPTER) : KW :=
  set_Registry (Some (T, <[Load := (g, Conn)]> r))
    (At Conn (NewConnection t a ad) (PoolBlocks s ∪ {[Conn]} ∪ {[t]} ∪ {[a]} ∪ {[AdArray ad]} ∪ {[g]})).

Local Abbreviation Create :=
  (CfixkrpCreateAndRegisterDriverConnection P Pool Convert GetFixtureRoutine ImageOf HasArrays InitResource Load).

Lemma fresh_conn Conn : Conn ∉ PoolBlocks s -> Connections s !! Conn = None.
Proof. intros Hn. destruct (Connections s !! Conn) eqn:E; [|done]. destruct Hn. by apply HConns. Qed.

(** Registering: the last step. *)
Lemma Register_At Conn c B Q : FilamentRegistry c <> None ->
  Runs (ret STATUS_NO_MEMORY) (At Conn c B) Q ->
  (forall g, g <> 0 -> g ∉ B ->
     Runs (ret STATUS_SUCCESS) (set_Registry (Some (T, <[Load := (g, Conn)]> r)) (At Conn c (B ∪ {[g]}))) Q) ->
  Runs (CfixkrpRegisterDriverConnection P Pool Load Conn) (At Conn c B) Q.
Proof.
  intros _ Hf Hs. unfold CfixkrpRegisterDriverConnection. apply Runs_alloc; [exact Hf|].
  intros g Hg Hn. rewrite (proj2 (Z.eqb_neq _ _) Hg). apply Runs_bind. exists (T, r), (Live g (At Conn c B)).
  split; [unfold load_connections; cbn; by rewrite HRegistry|]. cbn [fst snd].
  apply Runs_bind. eexists _, _. split; [reflexivity|]. rewrite HLoad, bool_decide_true by done.
  apply Runs_bind. eexists _, _. split; [reflexivity|]. by apply Hs.
Qed.

Lemma Initialize_runs Conn Q :
  is_Some (CfixkrsWalkExportDirectoryAndExtractFixtures P Convert GetFixtureRoutine HasArrays (ImageOf Load) Load) ->
  Conn ∉ PoolBlocks s ->
  (forall Status, NT_SUCCESS Status = false -> Q Status s) ->
  (forall t a g ad, Fresh (PoolBlocks s) [Conn; t; a; AdArray ad; g] -> Q STATUS_SUCCESS (Created Conn t a g ad)) ->
  Runs (InitializeConnection P Pool Convert GetFixtureRoutine ImageOf HasArrays InitResource Load Conn)
    (At Conn (MkConnection Load 1 1 None None None) (PoolBlocks s ∪ {[Conn]})) Q.
Proof.
  intros HW Hn HF HS. pose proof (fresh_conn Conn Hn) as Hc.
  assert (forall c B (Resource Table : bool) Status,
    NT_SUCCESS Status = false -> (Table = true -> exists t, FilamentRegistry c = Some (t, ∅)) ->
    B ∖ AdapterBlocks c ∖ (if Table then TableBlocks c else ∅) ∖ {[Conn]} = PoolBlocks s ->
    Runs (UndoConnection Conn Resource Table Status) (At Conn c B) Q) as Hundo.
  { intros c B R0 T0 Status HSt Ht HB. eexists _, _. split; [by apply undo_At|]. by apply HF. }
  unfold InitializeConnection, CfixkrpInitializeFilamentRegistry. apply Runs_bind, Runs_alloc.
  { apply Runs_ret, Hundo; [done..|]. cbn [AdapterBlocks Adapter]. set_solver. }
  intros t Ht0 Ht. rewrite (proj2 (Z.eqb_neq _ _) Ht0).
  set (c1 := MkConnection Load 1 1 None None (Some (t, ∅))). set (B1 := PoolBlocks s ∪ {[Conn]} ∪ {[t]}).
  assert (store_registry Conn (t, ∅) (Live t (At Conn (MkConnection Load 1 1 None None None) (PoolBlocks s ∪ {[Conn]}))) =
    Some (tt, At Conn c1 B1)) as E1.
  { unfold store_registry. rewrite (bind_eq _ _ _ _ _ (load_At Conn (MkConnection Load 1 1 None None None) B1)).
    apply store_At. }
  run_eq E1. apply Runs_ret. change (negb (NT_SUCCESS STATUS_SUCCESS)) with false. cbv iota.
  destruct (HInit (At Conn c1 B1)) as [St ESt]. run_eq ESt. destruct (NT_SUCCESS St) eqn:HSt; cbn [negb].
  2: { apply Hundo; [done|by exists t|]. cbn [AdapterBlocks Adapter TableBlocks FilamentRegistry c1]. set_solver. }
  run_eq (load_At Conn c1 B1). run_eq (store_At Conn c1 (set_Lock (Some O) c1) B1).
  apply CreateTestAdapter_runs; [done|..].
  { intros St2 HSt2. apply Hundo; [done|by exists t|].
    cbn [AdapterBlocks Adapter TableBlocks FilamentRegistry c1 set_Lock]. set_solver. }
  intros a ad Ha Had. cbn [PoolBlocks Live At set_PoolBlocks set_Connections] in Ha, Had.
  set (B2 := B1 ∪ {[a]} ∪ {[AdArray ad]}). change (Live (AdArray ad) (Live a (At Conn (set_Lock (Some O) c1) B1)))
    with (At Conn (set_Lock (Some O) c1) B2).
  run_eq (load_At Conn (set_Lock (Some O) c1) B2).
  run_eq (store_At Conn (set_Lock (Some O) c1) (set_Adapter (Some (a, ad)) (set_Lock (Some O) c1)) B2).
  change (set_Adapter (Some (a, ad)) (set_Lock (Some O) c1)) with (NewConnection t a ad).
  apply Runs_bind, Register_At; [done|..].
  - apply Runs_ret, Hundo; [done|by exists t|].
    cbn [AdapterBlocks Adapter TableBlocks FilamentRegistry NewConnection]. subst B2 B1. set_solver.
  - intros g Hg Hgn. apply Runs_ret, Runs_ret, HS. subst B2 B1. split.
    + repeat (apply NoDup_cons; split; [set_solver|]). apply NoDup_nil_2.
    + repeat (apply Forall_cons; split; [set_solver|]). done.
Qed.

Lemma release_created Conn t a g ad : Fresh (PoolBlocks s) [Conn; t; a; AdArray ad; g] ->
  CfixkrsExternalDereferenceConnection Conn (Created Conn t a g ad) = Some (tt, s).
Proof.
  intros [_ Hnew]. rewrite !Forall_cons in Hnew. destruct Hnew as (Hn & Ht & Ha & Had & Hg & _).
  pose proof (fresh_conn Conn Hn) as Hc. set (B := PoolBlocks s ∪ {[Conn]} ∪ {[t]} ∪ {[a]} ∪ {[AdArray ad]} ∪ {[g]}).
  unfold CfixkrsExternalDereferenceConnection, CfixkrpDereferenceConnection.
  assert (forall c B', load_conn Conn (set_Registry (Some (T, <[Load := (g, Conn)]> r)) (At Conn c B')) =
    Some (c, set_Registry (Some (T, <[Load := (g, Conn)]> r)) (At Conn c B'))) as Hl.
  { intros c B'. unfold load_conn, At. cbn. by rewrite lookup_insert_eq. }
  assert (forall c c' B', store_conn Conn c' (set_Registry (Some (T, <[Load := (g, Conn)]> r)) (At Conn c B')) =
    Some (tt, set_Registry (Some (T, <[Load := (g, Conn)]> r)) (At Conn c' B'))) as Hst.
  { intros c c' B'. unfold store_conn, modify, At, set_Connections, set_Registry. cbn. by rewrite insert_insert_eq. }
  unfold Created. fold B. set (c := NewConnection t a ad).
  rewrite (bind_eq _ _ _ _ _ (Hl _ _)), bind_assert by done. cbn [DriverUnloadLock NewConnection c].
  change (LONG (ExternalReferenceCount c - 1)) with 0. rewrite (bind_eq _ _ _ _ _ (Hst _ _ _)).
  set (c0 := set_References 0 (ConnReferenceCount c) c).
  rewrite (bind_eq _ _ _ _ _ (Hl _ _)). change (LONG (ConnReferenceCount c0 - 1)) with 0.
  cbv zeta. rewrite (bind_eq _ _ _ _ _ (Hst _ _ _)). cbn [Z.eqb negb]. set (c1 := set_References _ 0 c0).
  unfold CfixkrpDeleteFilamentRegistry, load_registry. rewrite !bind_assoc, (bind_eq _ _ _ _ _ (Hl _ _)).
  change (FilamentRegistry c1) with (Some (t, ∅ : gmap Z (Z * Z))). cbv iota. rewrite bind_ret. cbn [fst snd].
  rewrite bind_assoc, bind_assert by (by apply bool_decide_true).
  unfold CfixkrpUnregisterDriverConnection, pool, ExFreePool, modify, bind. cbn. rewrite HTorn. cbn.
  rewrite lookup_insert_eq. cbn.
  unfold set_PoolBlocks, set_Connections, set_Registry. cbn.
  rewrite !delete_insert_id by done. rewrite <- HRegistry.
  assert (B ∖ {[t]} ∖ {[g]} ∖ {[AdArray ad]} ∖ {[a]} ∖ {[Conn]} = PoolBlocks s) as -> by (subst B; clear -Hn Ht Ha Had Hg; set_solver).
  by destruct s.
Qed.

Lemma create_runs :
  is_Some (CfixkrsWalkExportDirectoryAndExtractFixtures P Convert GetFixtureRoutine HasArrays (ImageOf Load) Load) ->
  Runs Create s (fun res s' =>
    (NT_SUCCESS (fst res) = false /\ snd res = 0 /\ s' = s) \/
    (exists t a g ad, fst res = STATUS_SUCCESS /\ snd res <> 0 /\ Fresh (PoolBlocks s) [snd res; t; a; AdArray ad; g] /\
       s' = Created (snd res) t a g ad)).
Proof.
  intros HW. unfold CfixkrpCreateAndRegisterDriverConnection. apply Runs_alloc; [by apply Runs_ret; left|].
  intros Conn H0 Hn. rewrite (proj2 (Z.eqb_neq _ _) H0).
  set (B := PoolBlocks s ∪ {[Conn]}). set (c0 := MkConnection Load 0 0 None None None).
  assert (store_conn Conn c0 (Live Conn s) = Some (tt, At Conn c0 B)) as E by done.
  run_eq E. assert (CfixkrsExternalReferenceConnection Conn (At Conn c0 B) =
    Some (tt, At Conn (MkConnection Load 1 1 None None None) B)) as E2.
  { unfold CfixkrsExternalReferenceConnection, CfixkrpReferenceConnection.
    rewrite (bind_eq _ _ _ _ _ (load_At _ _ _)), bind_assert by done.
    rewrite bind_assoc, (bind_eq _ _ _ _ _ (load_At _ _ _)), (bind_eq _ _ _ _ _ (store_At _ _ _ _)).
    rewrite (bind_eq _ _ _ _ _ (load_At _ _ _)). apply store_At. }
  run_eq E2. apply Runs_bind, Initialize_runs; [done..| |].
  - intros Status HSt. apply Runs_ret. left. by rewrite HSt.
  - intros t a g ad HFresh. apply Runs_ret. right. by exists t, a, g, ad.
Qed.

(** C18. The life of a connection: creating one either fails and leaves the driver's
    state as it was, whatever step has failed, or registers a connection with one
    reference in five fresh pool blocks; giving up that reference unregisters the
    connection, frees exactly these blocks, and the state is as before. *)
Theorem connection_life_balanced :
  is_Some (CfixkrsWalkExportDirectoryAndExtractFixtures P Convert GetFixtureRoutine HasArrays (ImageOf Load) Load) ->
  exists Status Conn s', Create s = Some ((Status, Conn), s') /\
  if NT_SUCCESS Status then
    CfixkrpLookupDriverConnection Load s' <> Some ((STATUS_NOT_FOUND, 0), s') /\
    CfixkrsExternalDereferenceConnection Conn s' = Some (tt, s)
  else Conn = 0 /\ s' = s.
Proof.
  intros HW. destruct (create_runs HW) as ([Status Conn] & s' & E & H). exists Status, Conn, s'. split; [done|].
  cbn [fst snd] in H. destruct H as [(-> & -> & ->)|(t & a & g & ad & -> & _ & HF & ->)]; [done|].
  change (NT_SUCCESS STATUS_SUCCESS) with true. cbv iota. split; [|by apply release_created].
  assert (RegisteredAt (Created Conn t a g ad) Load Conn (NewConnection t a ad)) as HR.
  { split; [exists T, (<[Load := (g, Conn)]> r), g; split; [done|by rewrite lookup_insert_eq]| |done].
    cbn. by rewrite lookup_insert_eq. }
  rewrite (lookup_registered _ _ _ _ HR). intros Eq. by injection Eq.
Qed.
End lifecycle.

Module Demo.
(** A driver without exports, on a system that never runs out of memory. *)
Definition image (_ : Z) : IMAGE := MkImage IMAGE_NT_SIGNATURE 0x1000 0x28 1 0 0 [] [] [] (fun _ => "").
Definition start : KW := MkKW {[0x100]} (fun _ => 0) ∅ (Some (0x100, ∅)) false ∅ ∅ PASSIVE_LEVEL.
Definition Create_ : M (Z * Z) :=
  CfixkrpCreateAndRegisterDriverConnection 8 (fun B _ => NextBlock B) inr (fun _ => None) image (fun _ => false)
    (ret STATUS_SUCCESS) 0x400000.

Lemma connection_life_balanced_witness :
  exists Conn s', Create_ start = Some ((STATUS_SUCCESS, Conn), s') /\ PoolBlocks s' <> PoolBlocks start /\
    CfixkrsExternalDereferenceConnection Conn s' = Some (tt, start).
Proof.
  destruct (connection_life_balanced 8 (fun B _ => NextBlock B) inr (fun _ => None) image (fun _ => false)
    (ret STATUS_SUCCESS) (fun B _ => or_intror (proj2 (NextBlock_fresh B))) (fun s => ex_intro _ STATUS_SUCCESS eq_refl)
    start 0x400000 0x100 ∅ eq_refl eq_refl eq_refl
    (fun c H => False_ind _ (is_Some_None (ltac:(exact H)))) ltac:(by eexists)) as (Status & Conn & s' & E & H).
  assert (Status = STATUS_SUCCESS) as -> by (vm_compute in E; by injection E as <-).
  exists Conn, s'. split; [exact E|]. destruct H as [_ H]. split; [|exact H].
  vm_compute in E. injection E as _ <-. vm_compute. congruence.
Defined.
End Demo.
