(* ===== verification/KrStubs.v ===== *)
(** * Running test code in the kernel (cfixkern/cfixkr: rptstubs.c, drvconn.c, thread.c)

    The report stubs that a test driver calls through its connection, the
    exception filter, and the call of a test routine.  As in RptStubs, a call that
    test code makes returns or raises an exception. *)
From stdpp Require Import base gmap list strings.
From Stdlib Require Import ZArith Lia.
From S2P Require Import Prelude CfixApi PeModule RptStubs IoBuffer KrEvents KrModule KrConn.
Local Open Scope Z_scope.
Local Open Scope cfix_scope.

Local Abbreviation M := (ST KW).

Section stubs.
Context {ARGS : Type}.
Variable P : Z.
Variable Pool : gset Z -> Z -> Z.
Variable Tid : Z.
(** [RtlStringCchVPrintfW]: the contents of a buffer of the given size. *)
Variable RtlStringCchVPrintfW : nat -> string -> ARGS -> string.
(** [KD_DEBUGGER_ENABLED && ! KD_DEBUGGER_NOT_PRESENT] *)
Variable DebuggerPresent : bool.

(** The frames of the stack below a call, as [RtlWalkFrameChain] returns them. *)
Local Abbreviation STACK := (Z -> list Z).

(** An event of the current thread for a channel. *)
Definition QueueEvent (Channel : Z) (q : REPORT) : M unit :=
  ch <- load_channel Channel ;;
  m <- gets IoMemory ;;
  let r := CfixkrsQueueEvent P q (EventBuffer ch, m) in
  store_channel Channel (MkChannel (DispFailedAssertion ch) (DispUnhandledException ch) (fst r) (ChTlsValue ch)) ;;;
  modify (set_IoMemory (snd r)).

Definition LogReport (MainThreadId : Z) (Message : string) (Stack : STACK) : REPORT :=
  MkReport false CfixEventLog None None None 0 None (Some Message) MainThreadId Tid Stack.

Definition ElevatedIrqlNote : string :=
  "Testcase aborted at elevated IRQL. IRQL  will be forced back to PASSIVE_LEVEL. Machine state might become corrupted".

(* src/cfixkern/cfixkr/rptstubs.c:330-372 (CfixkrsAbortCurrentTestCase) *)
Definition CfixkrsAbortCurrentTestCase {A} (Stack : STACK) (Channel Status MainThreadId : Z) : M (OUT A) :=
  i <- gets Irql ;;
  when_ (PASSIVE_LEVEL <? i)
    (QueueEvent Channel (LogReport MainThreadId ElevatedIrqlNote Stack) ;;; modify (set_Irql PASSIVE_LEVEL)) ;;;
  RaiseException Status.

(* src/cfixkern/cfixkr/rptstubs.c:374-400 (CfixkrsFailStub) *)
Definition CfixkrsFailStub (Stack : STACK) (Conn : Z) : M (OUT unit) :=
  Filament <- CfixkrpGetCurrentFilament Tid Conn ;;
  if Filament =? 0 then retO tt
  else
    f <- load_filament Filament ;;
    CfixkrsAbortCurrentTestCase Stack (FilChannel f) EXCEPTION_TESTCASE_FAILED (FilMainThreadId f).

(* src/cfixkern/cfixkr/rptstubs.c:402-485 (CfixkrsReportFailedAssertionStub) *)
Definition CfixkrsReportFailedAssertionStub (Stack : STACK) (Conn : Z) (File Routine : string) (Line : Z)
    (Expression : option string) : M (OUT CFIX_REPORT_DISPOSITION) :=
  Filament <- CfixkrpGetCurrentFilament Tid Conn ;;
  if Filament =? 0 then retO CfixContinue
  else
    f <- load_filament Filament ;;
    QueueEvent (FilChannel f)
      (MkReport false CfixEventFailedAssertion None (Some File) (Some Routine) Line Expression None
         (FilMainThreadId f) Tid Stack) ;;;
    ch <- load_channel (FilChannel f) ;;
    match DispFailedAssertion ch with
    | CfixBreakAlways => retO CfixBreak
    | CfixAbort =>
        CfixkrsAbortCurrentTestCase Stack (FilChannel f) EXCEPTION_TESTCASE_FAILED_ABORT (FilMainThreadId f)
    | CfixContinue => retO CfixContinue
    | CfixBreak =>
        if DebuggerPresent then retO CfixBreak
        else CfixkrsAbortCurrentTestCase Stack (FilChannel f) EXCEPTION_TESTCASE_FAILED (FilMainThreadId f)
    end.

(** The buffer has 200 characters; at an elevated IRQL nothing is formatted. *)
Definition FormatOr (Format : string) (Args : ARGS) : M string :=
  i <- gets Irql ;;
  ret (if i =? PASSIVE_LEVEL then RtlStringCchVPrintfW 200 Format Args else Format).

(* src/cfixkern/cfixkr/rptstubs.c:487-530 (CfixkrsReportFailedAssertionFormatStub) *)
Definition CfixkrsReportFailedAssertionFormatStub (Stack : STACK) (Conn : Z) (File Routine : string) (Line : Z)
    (Format : option string) (Args : ARGS) : M (OUT CFIX_REPORT_DISPOSITION) :=
  Message <- match Format with
             | None => ret None
             | Some Format => m <- FormatOr Format Args ;; ret (Some m)
             end ;;
  CfixkrsReportFailedAssertionStub Stack Conn File Routine Line Message.

(** [L"... 0x%08X ... %s"] into a buffer of 200 characters *)
Definition ComparisonFailed (Expected Actual : Z) (Expression : string) : string :=
  StringCch 200 ("Comparison failed. Expected: 0x" +:+ Hex 8 Expected +:+ ", Actual: 0x" +:+ Hex 8 Actual +:+
                 " (Expression: " +:+ Expression +:+ ")").

(* src/cfixkern/cfixkr/rptstubs.c:532-581 (CfixkrsAssertEqualsUlongStub) *)
Definition CfixkrsAssertEqualsUlongStub (Stack : STACK) (Conn Expected Actual : Z) (File Routine : string)
    (Line : Z) (Expression : string) : M (OUT CFIX_REPORT_DISPOSITION) :=
  if Expected =? Actual then retO CfixContinue
  else
    i <- gets Irql ;;
    CfixkrsReportFailedAssertionStub Stack Conn File Routine Line
      (Some (if i =? PASSIVE_LEVEL then ComparisonFailed Expected Actual Expression else Expression)).

(* src/cfixkern/cfixkr/rptstubs.c:583-622 (CfixkrsReportInconclusivenessStub) *)
Definition CfixkrsReportInconclusivenessStub (Stack : STACK) (Conn : Z) (Message : option string) : M (OUT unit) :=
  Filament <- CfixkrpGetCurrentFilament Tid Conn ;;
  if Filament =? 0 then retO tt
  else
    f <- load_filament Filament ;;
    QueueEvent (FilChannel f)
      (MkReport false CfixEventInconclusiveness None None None 0 None (Some (default "" Message))%string
         (FilMainThreadId f) Tid Stack) ;;;
    CfixkrsAbortCurrentTestCase Stack (FilChannel f) EXCEPTION_TESTCASE_INCONCLUSIVE (FilMainThreadId f).

(* src/cfixkern/cfixkr/rptstubs.c:624-685 (CfixkrsReportLogStub) *)
Definition CfixkrsReportLogStub (Stack : STACK) (Conn : Z) (Format : option string) (Args : ARGS) : M (OUT unit) :=
  Filament <- CfixkrpGetCurrentFilament Tid Conn ;;
  if Filament =? 0 then retO tt
  else
    f <- load_filament Filament ;;
    Message <- match Format with None => ret ""%string | Some Format => FormatOr Format Args end ;;
    QueueEvent (FilChannel f) (LogReport (FilMainThreadId f) Message Stack) ;;;
    retO tt.

(** 0 for NULL. *)
(* src/cfixkern/cfixkr/rptstubs.c:764-792 (CfixkrsGetValueStub) *)
Definition CfixkrsGetValueStub (Conn Tag : Z) : M Z :=
  if negb (Tag =? 0) then ret 0
  else
    Filament <- CfixkrpGetCurrentFilament Tid Conn ;;
    if Filament =? 0 then ret 0
    else
      f <- load_filament Filament ;;
      ch <- load_channel (FilChannel f) ;;
      ret (ChTlsValue ch).

(* src/cfixkern/cfixkr/rptstubs.c:794-822 (CfixkrsSetValueStub) *)
Definition CfixkrsSetValueStub (Conn Tag Value : Z) : M unit :=
  if negb (Tag =? 0) then ret tt
  else
    Filament <- CfixkrpGetCurrentFilament Tid Conn ;;
    if Filament =? 0 then ret tt
    else
      f <- load_filament Filament ;;
      ch <- load_channel (FilChannel f) ;;
      store_channel (FilChannel f)
        (MkChannel (DispFailedAssertion ch) (DispUnhandledException ch) (EventBuffer ch) Value).

(** ** Exceptions

    The record of an exception; the thread's context is always given. *)
(* src/cfixkern/cfixkr/rptstubs.c:687-717 (CfixkrpReportUnhandledException) *)
Definition CfixkrpReportUnhandledException (Filament : Z) (r : EXCEPTION_RECORD) : M CFIX_REPORT_DISPOSITION :=
  f <- load_filament Filament ;;
  QueueEvent (FilChannel f)
    (MkReport true CfixEventUncaughtException (Some r) None None 0 None None (FilMainThreadId f) Tid (fun _ => [])) ;;;
  ch <- load_channel (FilChannel f) ;;
  ret (DispUnhandledException ch).

(* src/cfixkern/cfixkr/rptstubs.c:719-762 (CfixkrpExceptionFilter) *)
Definition CfixkrpExceptionFilter (r : EXCEPTION_RECORD) (Filament : Z) : M (FILTER * bool) :=
  let ExcpCode := ExceptionCode r in
  if (EXCEPTION_TESTCASE_INCONCLUSIVE =? ExcpCode) || (EXCEPTION_TESTCASE_FAILED =? ExcpCode)
  then ret (EXCEPTION_EXECUTE_HANDLER, false)
  else if EXCEPTION_TESTCASE_FAILED_ABORT =? ExcpCode then ret (EXCEPTION_EXECUTE_HANDLER, true)
  else
    Disp <- CfixkrpReportUnhandledException Filament r ;;
    ret (if bool_decide (Disp = CfixBreak) then EXCEPTION_CONTINUE_SEARCH else EXCEPTION_EXECUTE_HANDLER,
         bool_decide (Disp = CfixAbort)).

(** ** Calling a test routine

    [Code]: what the routine at an address does; [RecordOf]: the record of an
    exception with a code, at the place it is raised; [KeWait]: waiting for threads. *)
Variable Code : Z -> M (OUT unit).
Variable RecordOf : Z -> EXCEPTION_RECORD.
Variable KeWaitForMultipleObjects : list Z -> M Z.

(* src/cfixkern/cfixkr/filament.c:342-375 (CfixkrpJoinChildThreadsFilament) *)
Definition CfixkrpJoinChildThreadsFilament (Filament : Z) : M Z :=
  f <- load_filament Filament ;;
  match ChildThreads f with
  | [] => ret STATUS_SUCCESS
  | ts => KeWaitForMultipleObjects ts
  end.

(** The end of a call: the IRQL is restored, the driver may unload again, child
    threads have ended, and the thread is dissociated from the filament. *)
(* src/cfixkern/cfixkr/drvconn.c:477-509 (CfixkrpCallRoutineDriverConnection) *)
Definition FinishCall (Conn Frame OldIrql : Z) : M unit :=
  i <- gets Irql ;;
  when_ (negb (OldIrql =? i)) (modify (set_Irql OldIrql)) ;;;
  CfixkrsReleaseDriverUnloadProtection Conn ;;;
  CfixkrpJoinChildThreadsFilament Frame ;;;
  CfixkrpResetCurrentFilament Tid Conn.

(** The filament is on the stack of the routine, at [Frame].  The result: the status,
    and [RoutineRanToCompletion] and [AbortRun] if they are written.  An exception
    that the filter passes on has no handler in the kernel. *)
(* src/cfixkern/cfixkr/drvconn.c:389-512 (CfixkrpCallRoutineDriverConnection) *)
Definition CfixkrpCallRoutineDriverConnection (Frame Conn FixtureKey RoutineKey Channel : Z)
    : M (OUT (Z * option (bool * bool))) :=
  CfixkrpInitializeFilament Channel Tid Frame ;;;
  c <- load_conn Conn ;;
  match Adapter c with
  | None => fault
  | Some (_, a) =>
      let Leave := modify (fun s => set_Filaments (delete Frame (Filaments s)) s) in
      match CfixkrpGetRoutineTestAdapter a FixtureKey RoutineKey with
      | inl Status => Leave ;;; retO (Status, None)
      | inr Routine =>
          Status <- CfixkrpSetCurrentFilament P Pool Tid Conn Frame ;;
          if negb (NT_SUCCESS Status) then Leave ;;; retO (Status, None)
          else
            p <- CfixkrsAcquireDriverUnloadProtection Conn ;;
            if negb p then Leave ;;; retO (STATUS_DRIVER_UNABLE_TO_LOAD, None)
            else
              i <- gets Irql ;;
              r <- Code Routine ;;
              match r with
              | Returned _ =>
                  FinishCall Conn Frame i ;;; Leave ;;; retO (STATUS_SUCCESS, Some (true, false))
              | Raised c =>
                  d <- CfixkrpExceptionFilter (RecordOf c) Frame ;;
                  match fst d with
                  | EXCEPTION_EXECUTE_HANDLER =>
                      FinishCall Conn Frame i ;;; Leave ;;; retO (STATUS_SUCCESS, Some (false, snd d))
                  | EXCEPTION_CONTINUE_SEARCH => RaiseException c
                  end
              | Exited c => ExitThread c
              end
      end
  end.

(** ** Child threads (thread.c)

    A thread that runs on: the calls below are those of the child. *)
(* src/cfixkern/cfixkr/thread.c:68-132 (CfixkrsThreadStart) *)
Definition CfixkrsThreadStart (Conn Filament StartAddress : Z) : M (OUT Z) :=
  Status <- CfixkrpSetCurrentFilament P Pool Tid Conn Filament ;;
  if negb (NT_SUCCESS Status) then retO Status
  else
    r <- Code StartAddress ;;
    match r with
    | Returned _ => CfixkrpResetCurrentFilament Tid Conn ;;; retO Status
    | Raised c =>
        d <- CfixkrpExceptionFilter (RecordOf c) Filament ;;
        match fst d with
        | EXCEPTION_EXECUTE_HANDLER => CfixkrpResetCurrentFilament Tid Conn ;;; retO Status
        | EXCEPTION_CONTINUE_SEARCH => RaiseException c
        end
    | Exited c => ExitThread c
    end.
End stubs.

(** ** What test routines do

    A routine of a test driver, as far as the reflector sees it: calls of the stubs,
    each with the stack it is made from, changes of the IRQL, and exceptions. *)
Inductive STEP (ARGS : Type) :=
  | SReport (File Routine : string) (Line : Z) (Expression : option string)
  | SReportFormat (File Routine : string) (Line : Z) (Format : option string) (Args : ARGS)
  | SAssertEquals (Expected Actual : Z) (File Routine : string) (Line : Z) (Expression : string)
  | SInconclusive (Message : option string)
  | SLog (Format : option string) (Args : ARGS)
  | SFail
  | SSetValue (Tag Value : Z)
  | SSetIrql (NewIrql : Z)
  | SThrow (Code : Z).
Arguments SReport {ARGS}. Arguments SReportFormat {ARGS}. Arguments SAssertEquals {ARGS}.
Arguments SInconclusive {ARGS}. Arguments SLog {ARGS}. Arguments SFail {ARGS}.
Arguments SSetValue {ARGS}. Arguments SSetIrql {ARGS}. Arguments SThrow {ARGS}.

Section behaviour.
Context {ARGS : Type}.
Context (P : Z) (Tid : Z) (RtlStringCchVPrintfW : nat -> string -> ARGS -> string) (DebuggerPresent : bool).

Definition ignore {A} (m : M (OUT A)) : M (OUT unit) := m ~; retO tt.

Definition perform (Conn : Z) (x : (Z -> list Z) * STEP ARGS) : M (OUT unit) :=
  let st := fst x in
  match snd x with
  | SReport f r l e => ignore (CfixkrsReportFailedAssertionStub P Tid DebuggerPresent st Conn f r l e)
  | SReportFormat f r l e a =>
      ignore (CfixkrsReportFailedAssertionFormatStub P Tid RtlStringCchVPrintfW DebuggerPresent st Conn f r l e a)
  | SAssertEquals e a f r l x => ignore (CfixkrsAssertEqualsUlongStub P Tid DebuggerPresent st Conn e a f r l x)
  | SInconclusive m => CfixkrsReportInconclusivenessStub P Tid st Conn m
  | SLog f a => CfixkrsReportLogStub P Tid RtlStringCchVPrintfW st Conn f a
  | SFail => CfixkrsFailStub P Tid st Conn
  | SSetValue t v => CfixkrsSetValueStub Tid Conn t v ;;; retO tt
  | SSetIrql i => modify (set_Irql i) ;;; retO tt
  | SThrow c => RaiseException c
  end.

Fixpoint perform_all (Conn : Z) (l : list ((Z -> list Z) * STEP ARGS)) : M (OUT unit) :=
  match l with
  | [] => retO tt
  | x :: l => perform Conn x ~; perform_all Conn l
  end.

(** The same as a trace: the reports, the outcome, the IRQL and the TLS value. *)
Record TRACE := MkTrace { TrReports : list REPORT; TrOutcome : OUT unit; TrIrql : Z; TrTls : Z }.

Definition AbortTrace (st : Z -> list Z) (Status i tls : Z) : TRACE :=
  if PASSIVE_LEVEL <? i then MkTrace [LogReport Tid Tid ElevatedIrqlNote st] (Raised Status) PASSIVE_LEVEL tls
  else MkTrace [] (Raised Status) i tls.

Definition Before_ (q : REPORT) (t : TRACE) : TRACE :=
  MkTrace (q :: TrReports t) (TrOutcome t) (TrIrql t) (TrTls t).

Definition AssertionTrace (Fa : CFIX_REPORT_DISPOSITION) (st : Z -> list Z) (f r : string) (l : Z)
    (e : option string) (i tls : Z) : TRACE :=
  Before_ (MkReport false CfixEventFailedAssertion None (Some f) (Some r) l e None Tid Tid st)
    (match Fa with
     | CfixAbort => AbortTrace st EXCEPTION_TESTCASE_FAILED_ABORT i tls
     | CfixBreak => if DebuggerPresent then MkTrace [] (Returned tt) i tls
                    else AbortTrace st EXCEPTION_TESTCASE_FAILED i tls
     | _ => MkTrace [] (Returned tt) i tls
     end).

Definition Formatted (i : Z) (Format : string) (Args : ARGS) : string :=
  if i =? PASSIVE_LEVEL then RtlStringCchVPrintfW 200 Format Args else Format.

Definition StepTrace (Fa : CFIX_REPORT_DISPOSITION) (x : (Z -> list Z) * STEP ARGS) (i tls : Z) : TRACE :=
  let st := fst x in
  let Done := MkTrace [] (Returned tt) i tls in
  match snd x with
  | SReport f r l e => AssertionTrace Fa st f r l e i tls
  | SReportFormat f r l e a =>
      AssertionTrace Fa st f r l (match e with None => None | Some e => Some (Formatted i e a) end) i tls
  | SAssertEquals e a f r l x =>
      if e =? a then Done
      else AssertionTrace Fa st f r l
             (Some (if i =? PASSIVE_LEVEL then ComparisonFailed e a x else x)) i tls
  | SInconclusive m =>
      Before_ (MkReport false CfixEventInconclusiveness None None None 0 None (Some (default "" m))%string
                 Tid Tid st)
        (AbortTrace st EXCEPTION_TESTCASE_INCONCLUSIVE i tls)
  | SLog f a =>
      Before_ (LogReport Tid Tid (match f with None => "" | Some f => Formatted i f a end)%string st) Done
  | SFail => AbortTrace st EXCEPTION_TESTCASE_FAILED i tls
  | SSetValue t v => MkTrace [] (Returned tt) i (if t =? 0 then v else tls)
  | SSetIrql j => MkTrace [] (Returned tt) j tls
  | SThrow c => MkTrace [] (Raised c) i tls
  end.

Fixpoint TraceOf (Fa : CFIX_REPORT_DISPOSITION) (l : list ((Z -> list Z) * STEP ARGS)) (i tls : Z) : TRACE :=
  match l with
  | [] => MkTrace [] (Returned tt) i tls
  | x :: l =>
      let t := StepTrace Fa x i tls in
      match TrOutcome t with
      | Returned _ =>
          let u := TraceOf Fa l (TrIrql t) (TrTls t) in
          MkTrace (TrReports t ++ TrReports u) (TrOutcome u) (TrIrql u) (TrTls u)
      | _ => t
      end
  end.
End behaviour.

(** ** A routine runs as its trace says

    [s] is the state in which the routine starts: the thread's filament [Frame]
    leads to [Channel].  The stubs change the channel, its memory and the IRQL. *)
Section running.
Context {ARGS : Type}.
Context (P : Z) (Tid : Z) (RtlStringCchVPrintfW : nat -> string -> ARGS -> string) (DebuggerPresent : bool).
Context (Conn Frame Channel Table Entry : Z) (c : CFIXKRP_DRIVER_CONNECTION) (reg : gmap Z (Z * Z)) (s : KW).
Context (Fa Ue : CFIX_REPORT_DISPOSITION).
Context (Hc : Connections s !! Conn = Some c) (Hr : FilamentRegistry c = Some (Table, reg))
  (HT : reg !! Tid = Some (Entry, Frame)) (H0 : Frame <> 0)
  (Hf : Filaments s !! Frame = Some (MkFilament Channel Tid [])).

Definition at_ (b : EVENT_BUFFER * Memory) (i tls : Z) : KW :=
  set_Irql i (set_IoMemory (snd b)
    (set_Channels (<[Channel := MkChannel Fa Ue (fst b) tls]> (Channels s)) s)).

Lemma at_registry b i tls : load_registry Conn (at_ b i tls) = Some ((Table, reg), at_ b i tls).
Proof. unfold load_registry, load_conn, bind. simpl. by rewrite Hc, Hr. Qed.

Lemma at_current {A} b i tls (k : Z -> M A) :
  bind (CfixkrpGetCurrentFilament Tid Conn) k (at_ b i tls) = k Frame (at_ b i tls).
Proof.
  unfold CfixkrpGetCurrentFilament. rewrite bind_assoc, (bind_eq _ _ _ _ _ (at_registry b i tls)), bind_ret.
  simpl. by rewrite HT.
Qed.

Lemma at_filament {A} b i tls (k : CFIXKRP_FILAMENT -> M A) :
  bind (load_filament Frame) k (at_ b i tls) = k (MkFilament Channel Tid []) (at_ b i tls).
Proof. apply bind_eq. unfold load_filament. simpl. by rewrite Hf. Qed.

Lemma at_channel {A} b i tls (k : CFIXKRP_REPORT_CHANNEL -> M A) :
  bind (load_channel Channel) k (at_ b i tls) = k (MkChannel Fa Ue (fst b) tls) (at_ b i tls).
Proof. apply bind_eq. unfold load_channel. simpl. by rewrite lookup_insert_eq. Qed.

Lemma at_store {A} b b' i tls tls' (k : unit -> M A) :
  bind (store_channel Channel (MkChannel Fa Ue b' tls')) k (at_ b i tls) = k tt (at_ (b', snd b) i tls').
Proof.
  unfold store_channel. rewrite bind_modify. unfold at_. simpl. repeat f_equal.
  unfold set_Channels, set_Irql, set_IoMemory. simpl. by rewrite insert_insert_eq.
Qed.

Lemma at_queue {A} q b i tls (k : unit -> M A) :
  bind (QueueEvent P Channel q) k (at_ b i tls) = k tt (at_ (CfixkrsQueueEvent P q b) i tls).
Proof.
  unfold QueueEvent. rewrite bind_assoc, at_channel, bind_assoc, bind_gets.
  rewrite bind_assoc. cbn [DispFailedAssertion DispUnhandledException EventBuffer ChTlsValue].
  change (IoMemory (at_ b i tls)) with (snd b). rewrite <- surjective_pairing.
  rewrite at_store, bind_modify. by destruct (CfixkrsQueueEvent P q b).
Qed.

Definition run_trace (t : TRACE) (b : EVENT_BUFFER * Memory) : option (OUT unit * KW) :=
  Some (TrOutcome t, at_ (QueueAll P (TrReports t) b) (TrIrql t) (TrTls t)).

Lemma at_abort {A B} st Status b i tls (k : OUT A -> M B) :
  bind (CfixkrsAbortCurrentTestCase P Tid st Channel Status Tid) k (at_ b i tls) =
  let t := AbortTrace Tid st Status i tls in
  k (Raised Status) (at_ (QueueAll P (TrReports t) b) (TrIrql t) (TrTls t)).
Proof.
  unfold CfixkrsAbortCurrentTestCase, AbortTrace. rewrite bind_assoc, bind_gets.
  change (Irql (at_ b i tls)) with i. rewrite bind_assoc.
  destruct (PASSIVE_LEVEL <? i); cbn [when_].
  - rewrite bind_assoc, at_queue, bind_modify. unfold RaiseException. by rewrite bind_ret.
  - unfold RaiseException. by rewrite !bind_ret.
Qed.

Lemma AbortTrace_outcome st Status i tls : TrOutcome (AbortTrace Tid st Status i tls) = Raised Status.
Proof. unfold AbortTrace. by destruct (PASSIVE_LEVEL <? i). Qed.

Lemma at_ignore_assertion st f r l e b i tls :
  ignore (CfixkrsReportFailedAssertionStub P Tid DebuggerPresent st Conn f r l e) (at_ b i tls) =
  run_trace (AssertionTrace Tid DebuggerPresent Fa st f r l e i tls) b.
Proof.
  unfold ignore, bindO, CfixkrsReportFailedAssertionStub, AssertionTrace.
  rewrite bind_assoc, at_current, (proj2 (Z.eqb_neq _ _) H0), bind_assoc, at_filament.
  cbn [FilChannel FilMainThreadId]. rewrite bind_assoc, at_queue, bind_assoc, at_channel.
  cbn [DispFailedAssertion].
  destruct Fa; try done; [destruct DebuggerPresent; [done|]|];
    rewrite at_abort; unfold run_trace; by rewrite <- (AbortTrace_outcome st _ i tls).
Qed.

Lemma at_abort_ret {A} st Status b i tls :
  CfixkrsAbortCurrentTestCase (A := A) P Tid st Channel Status Tid (at_ b i tls) =
  let t := AbortTrace Tid st Status i tls in
  Some (Raised Status, at_ (QueueAll P (TrReports t) b) (TrIrql t) (TrTls t)).
Proof.
  etrans; [|exact (at_abort (A := A) st Status b i tls ret)].
  unfold bind. by destruct (CfixkrsAbortCurrentTestCase _ _ _ _ _ _ _) as [[]|].
Qed.

Lemma at_abort_trace st Status b i tls :
  CfixkrsAbortCurrentTestCase P Tid st Channel Status Tid (at_ b i tls) =
  run_trace (AbortTrace Tid st Status i tls) b.
Proof. rewrite at_abort_ret. unfold run_trace. by rewrite AbortTrace_outcome. Qed.

Lemma at_format {A} f a b i tls (k : string -> M A) :
  bind (FormatOr RtlStringCchVPrintfW f a) k (at_ b i tls) =
  k (Formatted RtlStringCchVPrintfW i f a) (at_ b i tls).
Proof. unfold FormatOr. rewrite bind_assoc, bind_gets, bind_ret. done. Qed.

Lemma perform_trace x b i tls :
  perform P Tid RtlStringCchVPrintfW DebuggerPresent Conn x (at_ b i tls) =
  run_trace (StepTrace Tid RtlStringCchVPrintfW DebuggerPresent Fa x i tls) b.
Proof.
  destruct x as [st []]; unfold perform, StepTrace; cbn [fst snd].
  - apply at_ignore_assertion.
  - unfold CfixkrsReportFailedAssertionFormatStub, ignore, bindO. rewrite bind_assoc.
    destruct Format as [e|].
    + rewrite bind_assoc, at_format, bind_ret. apply at_ignore_assertion.
    + rewrite bind_ret. apply at_ignore_assertion.
  - unfold CfixkrsAssertEqualsUlongStub. destruct (Expected =? Actual); [done|].
    unfold ignore, bindO. rewrite bind_assoc, bind_gets. apply at_ignore_assertion.
  - unfold CfixkrsReportInconclusivenessStub. rewrite at_current, (proj2 (Z.eqb_neq _ _) H0), at_filament.
    cbn [FilChannel FilMainThreadId]. rewrite at_queue, at_abort_trace. done.
  - unfold CfixkrsReportLogStub. rewrite at_current, (proj2 (Z.eqb_neq _ _) H0), at_filament.
    cbn [FilChannel FilMainThreadId].
    destruct Format as [f|]; [rewrite at_format|rewrite bind_ret]; by rewrite at_queue.
  - unfold CfixkrsFailStub. rewrite at_current, (proj2 (Z.eqb_neq _ _) H0), at_filament.
    apply at_abort_trace.
  - unfold CfixkrsSetValueStub. destruct (Z.eqb_spec Tag 0); [|done]. cbn [negb].
    rewrite bind_assoc, at_current, (proj2 (Z.eqb_neq _ _) H0), bind_assoc, at_filament.
    cbn [FilChannel]. rewrite bind_assoc, at_channel. cbn [DispFailedAssertion DispUnhandledException EventBuffer].
    rewrite at_store. by destruct b.
  - done.
  - done.
Qed.

Lemma QueueAll_app l1 l2 b : QueueAll P (l1 ++ l2) b = QueueAll P l2 (QueueAll P l1 b).
Proof. apply fold_left_app. Qed.

Lemma perform_all_trace l : forall b i tls,
  perform_all P Tid RtlStringCchVPrintfW DebuggerPresent Conn l (at_ b i tls) =
  run_trace (TraceOf Tid RtlStringCchVPrintfW DebuggerPresent Fa l i tls) b.
Proof.
  induction l as [|x l IH]; intros b i tls; [done|]. cbn [perform_all TraceOf]. unfold bindO, bind.
  rewrite perform_trace. unfold run_trace.
  destruct (TrOutcome (StepTrace _ _ _ _ x i tls)) as [|e|e] eqn:E.
  - rewrite IH. unfold run_trace. cbn [TrReports TrOutcome TrIrql TrTls]. by rewrite QueueAll_app.
  - by rewrite E.
  - by rewrite E.
Qed.
End running.

(** ** The result of a call

    Exceptions of the framework are handled; for others there is an event, and the
    disposition decides.  [None]: the exception is passed on. *)
Definition Expected_ (Code : Z) : bool :=
  (EXCEPTION_TESTCASE_INCONCLUSIVE =? Code) || (EXCEPTION_TESTCASE_FAILED =? Code) ||
  (EXCEPTION_TESTCASE_FAILED_ABORT =? Code).

Definition ExceptionReport (Tid : Z) (r : EXCEPTION_RECORD) : REPORT :=
  MkReport true CfixEventUncaughtException (Some r) None None 0 None None Tid Tid (fun _ => []).

Definition AllReports (Tid : Z) (RecordOf : Z -> EXCEPTION_RECORD) (t : TRACE) : list REPORT :=
  TrReports t ++
  match TrOutcome t with
  | Raised c => if Expected_ c then [] else [ExceptionReport Tid (RecordOf c)]
  | _ => []
  end.

Definition CallResult (Ue : CFIX_REPORT_DISPOSITION) (o : OUT unit) : option (bool * bool) :=
  match o with
  | Returned _ => Some (true, false)
  | Raised c =>
      if Expected_ c then Some (false, EXCEPTION_TESTCASE_FAILED_ABORT =? c)
      else if bool_decide (Ue = CfixBreak) then None
      else Some (false, bool_decide (Ue = CfixAbort))
  | Exited _ => None
  end.

Section call.
Context {ARGS : Type}.
Context (P : Z) (Pool : gset Z -> Z -> Z) (Tid : Z).
Context (RtlStringCchVPrintfW : nat -> string -> ARGS -> string) (DebuggerPresent : bool).
Context (Code : Z -> M (OUT unit)) (RecordOf : Z -> EXCEPTION_RECORD) (KeWait : list Z -> M Z).
Context (HRecord : forall c, ExceptionCode (RecordOf c) = c).
Context (Conn Frame Channel : Z) (c : CFIXKRP_DRIVER_CONNECTION) (s : KW).
Context (Fa Ue : CFIX_REPORT_DISPOSITION) (b : EVENT_BUFFER) (tls : Z).

(** A connection that is ready for a call on the current thread. *)
Record Ready (Routine : Z) (FixtureKey RoutineKey : Z) : Prop := {
  ready_conn : Connections s !! Conn = Some c;
  ready_routine : exists a ad, Adapter c = Some (a, ad) /\
    CfixkrpGetRoutineTestAdapter ad FixtureKey RoutineKey = inr Routine;
  ready_registry : exists Table reg, FilamentRegistry c = Some (Table, reg) /\ reg !! Tid = None;
  ready_external : ExternalReferenceCount c <> 0;
  ready_lock : is_Some (DriverUnloadLock c);
  ready_frame : Frame <> 0 /\ Filaments s !! Frame = None;
  ready_channel : Channels s !! Channel = Some (MkChannel Fa Ue b tls);
  ready_pool : Pool (PoolBlocks s) (SIZEOF_FILAMENT_ENTRY P) <> 0 /\
    Pool (PoolBlocks s) (SIZEOF_FILAMENT_ENTRY P) ∉ PoolBlocks s;
  ready_irql : Irql s = PASSIVE_LEVEL }.

(** The state while the routine runs. *)
Definition Entry_ : Z := Pool (PoolBlocks s) (SIZEOF_FILAMENT_ENTRY P).
Definition running_conn (Table : Z) (reg : gmap Z (Z * Z)) (n : nat) : CFIXKRP_DRIVER_CONNECTION :=
  set_Lock (Some (S n)) (set_FilamentRegistry (Some (Table, <[Tid := (Entry_, Frame)]> reg)) c).
Definition running (Table : Z) (reg : gmap Z (Z * Z)) (n : nat) : KW :=
  set_PoolBlocks (PoolBlocks s ∪ {[Entry_]})
    (set_Filaments (<[Frame := MkFilament Channel Tid []]> (Filaments s))
      (set_Connections (<[Conn := running_conn Table reg n]> (Connections s)) s)).

(** The state afterwards: only the channel and its memory have changed. *)
Definition finished (r : EVENT_BUFFER * Memory) (tls' : Z) : KW :=
  set_IoMemory (snd r) (set_Channels (<[Channel := MkChannel Fa Ue (fst r) tls']> (Channels s)) s).

Lemma finish_call Table reg n Routine fk rk r i tls' :
  Ready Routine fk rk -> FilamentRegistry c = Some (Table, reg) -> reg !! Tid = None ->
  DriverUnloadLock c = Some n ->
  (FinishCall Tid KeWait Conn Frame PASSIVE_LEVEL ;;;
   modify (fun s => set_Filaments (delete Frame (Filaments s)) s))
    (at_ Channel (running Table reg n) Fa Ue r i tls') = Some (tt, finished r tls').
Proof.
  intros [Hc _ _ _ _ [H0 Hf] _ [Hp0 Hp] Hi] Hr Hn Hl.
  unfold FinishCall. rewrite bind_assoc, bind_gets, bind_assoc.
  set (x := at_ Channel (running Table reg n) Fa Ue r PASSIVE_LEVEL tls').
  assert (forall k : unit -> M unit,
    bind (when_ (negb (PASSIVE_LEVEL =? i)) (modify (set_Irql PASSIVE_LEVEL))) k
      (at_ Channel (running Table reg n) Fa Ue r i tls') = k tt x) as E.
  { intros k. subst x. destruct (Z.eqb_spec PASSIVE_LEVEL i) as [<-|]; done. }
  change (Irql (at_ Channel (running Table reg n) Fa Ue r i tls')) with i. rewrite E. clear E.
  set (x1 := set_Connections (<[Conn := set_FilamentRegistry (Some (Table, <[Tid := (Entry_, Frame)]> reg)) c]>
    (Connections s)) x).
  assert (CfixkrsReleaseDriverUnloadProtection Conn x = Some (tt, x1)) as E.
  { unfold CfixkrsReleaseDriverUnloadProtection, load_conn, store_conn, bind. subst x x1. simpl.
    rewrite lookup_insert_eq. cbn. unfold modify. f_equal. f_equal. unfold at_, running, set_Connections. simpl.
    rewrite insert_insert_eq. unfold running_conn, set_Lock. by destruct c; simplify_eq/=. }
  rewrite bind_assoc, (bind_eq _ _ _ _ _ E). clear E.
  assert (CfixkrpJoinChildThreadsFilament KeWait Frame x1 = Some (STATUS_SUCCESS, x1)) as E.
  { unfold CfixkrpJoinChildThreadsFilament, load_filament, bind. subst x x1. simpl. by rewrite lookup_insert_eq. }
  rewrite bind_assoc, (bind_eq _ _ _ _ _ E). clear E.
  unfold CfixkrpResetCurrentFilament, load_registry, store_registry, load_conn, store_conn, bind. subst x x1.
  simpl. rewrite lookup_insert_eq. cbn. rewrite lookup_insert_eq. cbn. rewrite lookup_insert_eq. cbn.
  unfold pool, ExFreePool, modify. cbn. unfold finished. rewrite <- Hi. unfold set_IoMemory, set_Channels,
    set_Filaments, set_PoolBlocks, set_Irql. cbn. repeat f_equal.
  - set_solver.
  - rewrite !insert_insert_eq. apply insert_id. rewrite Hc. f_equal. rewrite delete_insert_id by done.
    destruct c; by simplify_eq/=.
  - by apply delete_insert_id.
Qed.

Lemma enter_call Table reg n Routine fk rk :
  Ready Routine fk rk -> FilamentRegistry c = Some (Table, reg) -> reg !! Tid = None ->
  DriverUnloadLock c = Some n ->
  let s1 := set_Filaments (<[Frame := MkFilament Channel Tid []]> (Filaments s)) s in
  exists s2, CfixkrpSetCurrentFilament P Pool Tid Conn Frame s1 = Some (STATUS_SUCCESS, s2) /\
    CfixkrsAcquireDriverUnloadProtection Conn s2 =
    Some (true, at_ Channel (running Table reg n) Fa Ue (b, IoMemory s) PASSIVE_LEVEL tls).
Proof.
  intros [Hc _ _ He _ _ Hch [Hp0 Hp] Hi] Hr Hn Hl s1.
  eexists. split.
  - unfold CfixkrpSetCurrentFilament, ExAllocatePool, bind, pool. subst s1. simpl.
    rewrite (proj2 (Z.eqb_neq _ _) Hp0). unfold load_filament. simpl. rewrite lookup_insert_eq. simpl.
    rewrite Z.eqb_refl. cbn. unfold load_registry, store_registry, load_conn, store_conn, bind. simpl.
    rewrite Hc. cbn. rewrite Hr. cbn. rewrite Hc. cbn. rewrite bool_decide_eq_true_2 by done. reflexivity.
  - unfold CfixkrsAcquireDriverUnloadProtection, load_conn, store_conn, bind. simpl.
    rewrite lookup_insert_eq. cbn. rewrite (proj2 (Z.eqb_neq _ _) He), Hl. cbn.
    f_equal. f_equal. unfold at_, running, set_Connections. cbn. rewrite insert_insert_eq.
    rewrite (insert_id (Channels s)) by done. unfold set_Irql, set_IoMemory, set_Channels. cbn.
    unfold set_PoolBlocks, set_Filaments. cbn. by rewrite Hi.
Qed.

Lemma filter_trace Table reg n Routine fk rk r e i tls' :
  Ready Routine fk rk ->
  exists d, CfixkrpExceptionFilter P Tid (RecordOf e) Frame (at_ Channel (running Table reg n) Fa Ue r i tls') =
    Some (d, at_ Channel (running Table reg n) Fa Ue
      (QueueAll P (if Expected_ e then [] else [ExceptionReport Tid (RecordOf e)]) r) i tls') /\
    match CallResult Ue (Raised e) with
    | Some res => d = (EXCEPTION_EXECUTE_HANDLER, snd res) /\ fst res = false
    | None => fst d = EXCEPTION_CONTINUE_SEARCH
    end.
Proof.
  intros [_ _ _ _ _ _ _ _ _]. unfold CfixkrpExceptionFilter, CallResult, Expected_. rewrite HRecord.
  destruct (EXCEPTION_TESTCASE_INCONCLUSIVE =? e) eqn:E1; cbn [orb].
  { eexists. split; [reflexivity|]. apply Z.eqb_eq in E1. by subst e. }
  destruct (EXCEPTION_TESTCASE_FAILED =? e) eqn:E2; cbn [orb].
  { eexists. split; [reflexivity|]. apply Z.eqb_eq in E2. by subst e. }
  destruct (EXCEPTION_TESTCASE_FAILED_ABORT =? e) eqn:E3; cbn [orb].
  { eexists. by split; [reflexivity|]. }
  unfold CfixkrpReportUnhandledException. rewrite bind_assoc.
  rewrite (at_filament Tid Frame Channel _ Fa Ue) by apply lookup_insert_eq.
  rewrite bind_assoc, at_queue, bind_assoc, at_channel, bind_ret. cbn [DispUnhandledException].
  eexists. split; [reflexivity|]. by destruct (bool_decide (Ue = CfixBreak)).
Qed.

Lemma TraceOf_not_exited l : forall i tls' code,
  TrOutcome (TraceOf Tid RtlStringCchVPrintfW DebuggerPresent Fa l i tls') <> Exited code.
Proof.
  induction l as [|x l IH]; intros i tls' code; [done|]. cbn [TraceOf].
  destruct (TrOutcome (StepTrace _ _ _ _ x i tls')) eqn:E; [apply IH|by rewrite E|].
  exfalso. destruct x as [st []]; unfold StepTrace, AssertionTrace, AbortTrace, Before_ in E; simpl in E;
    repeat case_match; simplify_eq/=.
Qed.

Lemma finish_ret Table reg n Routine fk rk r i tls' (v : bool * bool) :
  Ready Routine fk rk -> FilamentRegistry c = Some (Table, reg) -> reg !! Tid = None ->
  DriverUnloadLock c = Some n ->
  (FinishCall Tid KeWait Conn Frame PASSIVE_LEVEL ;;;
   modify (fun s => set_Filaments (delete Frame (Filaments s)) s) ;;;
   retO (STATUS_SUCCESS, Some v)) (at_ Channel (running Table reg n) Fa Ue r i tls') =
  Some (Returned (STATUS_SUCCESS, Some v), finished r tls').
Proof.
  intros HR Hr Hn Hl. rewrite <- bind_assoc.
  by rewrite (bind_eq _ _ _ _ _ (finish_call Table reg n Routine fk rk r i tls' HR Hr Hn Hl)).
Qed.

Lemma code_trace steps Table reg n Routine :
  (forall x, Code Routine x = perform_all P Tid RtlStringCchVPrintfW DebuggerPresent Conn steps x) ->
  Frame <> 0 ->
  Code Routine (at_ Channel (running Table reg n) Fa Ue (b, IoMemory s) PASSIVE_LEVEL tls) =
  run_trace P Channel (running Table reg n) Fa Ue
    (TraceOf Tid RtlStringCchVPrintfW DebuggerPresent Fa steps PASSIVE_LEVEL tls) (b, IoMemory s).
Proof.
  intros HC H0. rewrite HC. eapply perform_all_trace; try apply lookup_insert_eq; [reflexivity|done].
Qed.

Lemma call_traced steps Routine fk rk res :
  Ready Routine fk rk ->
  (forall x, Code Routine x = perform_all P Tid RtlStringCchVPrintfW DebuggerPresent Conn steps x) ->
  let t := TraceOf Tid RtlStringCchVPrintfW DebuggerPresent Fa steps PASSIVE_LEVEL tls in
  CallResult Ue (TrOutcome t) = Some res ->
  CfixkrpCallRoutineDriverConnection P Pool Tid Code RecordOf KeWait Frame Conn fk rk Channel s =
  Some (Returned (STATUS_SUCCESS, Some res),
        finished (QueueAll P (AllReports Tid RecordOf t) (b, IoMemory s)) (TrTls t)).
Proof.
  intros HR HC t Hres. pose proof HR as [Hc (a & ad & Ha & Hrt) (Table & reg & Hr & Hn) _ [n Hl] [H0 Hf] _ _ Hi].
  unfold CfixkrpCallRoutineDriverConnection, CfixkrpInitializeFilament, store_filament. rewrite bind_modify.
  assert (load_conn Conn (set_Filaments (<[Frame:=MkFilament Channel Tid []]> (Filaments s)) s) =
    Some (c, set_Filaments (<[Frame:=MkFilament Channel Tid []]> (Filaments s)) s)) as E.
  { unfold load_conn. simpl. by rewrite Hc. }
  rewrite (bind_eq _ _ _ _ _ E), Ha, Hrt.
  destruct (enter_call Table reg n Routine fk rk HR Hr Hn Hl) as (s2 & E1 & E2).
  rewrite (bind_eq _ _ _ _ _ E1). cbn [NT_SUCCESS negb Z.testbit STATUS_SUCCESS].
  rewrite (bind_eq _ _ _ _ _ E2). cbn [negb]. rewrite bind_gets.
  change (Irql (at_ _ _ _ _ _ _ _)) with PASSIVE_LEVEL.
  rewrite (bind_eq _ _ _ _ _ (code_trace steps Table reg n Routine HC H0)). fold t.
  unfold AllReports. destruct (TrOutcome t) as [[]|e|e] eqn:Eo.
  - rewrite (finish_ret _ _ _ _ _ _ _ _ _ _ HR Hr Hn Hl), app_nil_r. by injection Hres as <-.
  - destruct (filter_trace Table reg n Routine fk rk (QueueAll P (TrReports t) (b, IoMemory s)) e
      (TrIrql t) (TrTls t) HR) as (d & Ed & Hd).
    rewrite (bind_eq _ _ _ _ _ Ed). rewrite Hres in Hd. destruct Hd as [-> Hd]. cbn [fst snd].
    rewrite (finish_ret _ _ _ _ _ _ _ _ _ _ HR Hr Hn Hl), QueueAll_app. destruct res as [b1 b2]. simpl in *. by subst b1.
  - exfalso. by apply TraceOf_not_exited in Eo.
Qed.
(** C12. A call of a kernel mode test routine, whatever sequence of reports, exceptions
    and IRQL changes the routine makes: the events queued in the channel are
    exactly those of the routine's trace, in order (with one more for an exception
    the framework does not know), the routine is reported as complete exactly if it
    returns, and as aborted according to the dispositions; afterwards everything
    but the channel and its buffer is as before: the IRQL, the pool, the
    connection with its unload lock, and the thread's filament. *)
Theorem kernel_routine_traced steps Routine fk rk res :
  Ready Routine fk rk ->
  (forall x, Code Routine x = perform_all P Tid RtlStringCchVPrintfW DebuggerPresent Conn steps x) ->
  let t := TraceOf Tid RtlStringCchVPrintfW DebuggerPresent Fa steps PASSIVE_LEVEL tls in
  CallResult Ue (TrOutcome t) = Some res ->
  CfixkrpCallRoutineDriverConnection P Pool Tid Code RecordOf KeWait Frame Conn fk rk Channel s =
  Some (Returned (STATUS_SUCCESS, Some res),
        finished (QueueAll P (AllReports Tid RecordOf t) (b, IoMemory s)) (TrTls t)).
Proof. apply call_traced. Qed.
End call.

Module Demo.
Definition stack (n : Z) : list Z := take (Z.to_nat n) [0x401005; 0x80403000].
Definition Pool (B : gset Z) (n : Z) : Z := NextBlock B.
Definition RecordOf (c : Z) : EXCEPTION_RECORD := MkException c 0 0 0x401000 0 (repeat 0 15).
Definition adapter : CFIXKRP_TEST_ADAPTER :=
  MkAdapter [MkKrFixture "Suite" [MkEntry CfixEntryTypeTestcase "Add" 0x401000]] 0x100.
Definition connection : CFIXKRP_DRIVER_CONNECTION :=
  MkConnection 0x400000 1 1 (Some O) (Some (0x110, adapter)) (Some (0x120, ∅)).
Definition channel : CFIXKRP_REPORT_CHANNEL := MkChannel CfixContinue CfixContinue (InitialBuffer 4072 24) 5.
Definition idle : KW :=
  MkKW {[0x100; 0x110; 0x120; 0x130]} (fun _ => 0) {[0x5000 := connection]}
    (Some (0x130, {[0x400000 := (0x140, 0x5000)]})) false ∅ {[0x9000 := channel]} PASSIVE_LEVEL.

(** The routine stores a value, logs, fails an assertion and accesses invalid memory
    at an elevated IRQL. *)
Definition steps : list ((Z -> list Z) * STEP unit) :=
  [(stack, SSetValue 0 77); (stack, SLog (Some "hello"%string) tt);
   (stack, SReport "suite.c" "Add" 42 (Some "a == b"%string)); (stack, SSetIrql 2);
   (stack, SThrow 0xC0000005)].
Definition Fmt (n : nat) (f : string) (_ : unit) : string := f.
Definition Code (Routine : Z) : M (OUT unit) := perform_all 8 7 Fmt false 0x5000 steps.

Lemma idle_ready : Ready 8 Pool 7 0x5000 0x9100 0x9000 connection idle CfixContinue CfixContinue
  (InitialBuffer 4072 24) 5 0x401000 0 0.
Proof.
  split; try done; try (by eexists; eexists; split).
Qed.

Lemma kernel_routine_traced_witness :
  let t := TraceOf 7 Fmt false CfixContinue steps PASSIVE_LEVEL 5 in
  CfixkrpCallRoutineDriverConnection 8 Pool 7 Code RecordOf (fun _ => ret 0) 0x9100 0x5000 0 0 0x9000 idle =
  Some (Returned (STATUS_SUCCESS, Some (false, false)),
        finished 0x9000 idle CfixContinue CfixContinue
          (QueueAll 8 (AllReports 7 RecordOf t) (InitialBuffer 4072 24, IoMemory idle)) 77) /\
  length (AllReports 7 RecordOf t) = 3%nat.
Proof.
  split; [|by vm_compute].
  apply (kernel_routine_traced 8 Pool 7 Fmt false Code RecordOf (fun _ => ret 0) (fun _ => eq_refl)
    0x5000 0x9100 0x9000 connection idle CfixContinue CfixContinue (InitialBuffer 4072 24) 5 steps 0x401000 0 0).
  - exact idle_ready.
  - done.
  - by vm_compute.
Defined.
End Demo.
