(* ===== verification/KrMain.v ===== *)
(** * The device of the kernel reflector (cfixkern/cfixkr/main.c)

    The three requests, with buffered I/O: request and response share the system
    buffer.  [Channel] and [Frame] are the addresses of the local variables of
    the routines that handle a request.  The last part composes the reflector with
    its client: what test code reports in the kernel reaches the execution context. *)
From stdpp Require Import base gmap list strings.
From Stdlib Require Import ZArith Lia.
From S2P Require Import Prelude CfixApi PeModule RptStubs IoBuffer KrEvents KlCalls KrModule KrConn KrStubs.
Local Open Scope Z_scope.
Local Open Scope cfix_scope.

Local Abbreviation M := (ST KW).

Definition SIZEOF_CALL_ROUTINE_REQUEST : Z := 24.
Definition SIZEOF_QUERY_TEST_MODULE_REQUEST : Z := 8.
Definition SIZEOF_GET_MODULES : Z := 16.

(** A disposition as a UCHAR. *)
Definition DispositionCode (d : CFIX_REPORT_DISPOSITION) : Z :=
  match d with CfixContinue => 0 | CfixBreak => 1 | CfixBreakAlways => 2 | CfixAbort => 3 end.
Definition DispositionOf (z : Z) : CFIX_REPORT_DISPOSITION :=
  if z =? 0 then CfixContinue else if z =? 1 then CfixBreak
  else if z =? 2 then CfixBreakAlways else CfixAbort.

Inductive IOCTL := IOCTL_QUERY_TEST_MODULE | IOCTL_GET_TEST_MODULES | IOCTL_CALL_ROUTINE | IOCTL_OTHER.

Section device.
Context (P : Z) (Pool : gset Z -> Z -> Z) (Tid : Z).
Context (Code : Z -> M (OUT unit)) (RecordOf : Z -> EXCEPTION_RECORD) (KeWait : list Z -> M Z).
Context (Order : gmap Z (Z * Z) -> list Z).
Context (Channel Frame : Z).

Definition bool_code (b : bool) : Z := if b then 1 else 0.

(** The result: the status and the number of bytes written. *)
(* src/cfixkern/cfixkr/main.c:48-127 (CfixkrsQueryModuleIoctl) *)
Definition CfixkrsQueryModuleIoctl (Buffer InputBufferLength OutputBufferLength : Z) : M (Z * Z) :=
  if (Buffer =? 0) || negb (InputBufferLength =? SIZEOF_QUERY_TEST_MODULE_REQUEST) ||
     (OutputBufferLength <? 4)
  then ret (STATUS_INVALID_PARAMETER, 0)
  else
    m <- gets IoMemory ;;
    r <- CfixkrpLookupDriverConnection (fetch 8 m Buffer) ;;
    if negb (NT_SUCCESS (fst r)) then ret (fst r, 0)
    else
      c <- load_conn (snd r) ;;
      match Adapter c with
      | None => fault
      | Some (_, a) =>
          match CfixkrpQueryModuleTestAdapter a OutputBufferLength Buffer m with
          | None => fault
          | Some (Status, BufferSize, m) =>
              modify (set_IoMemory m) ;;;
              BytesWritten <-
                (if Status =? STATUS_BUFFER_OVERFLOW then
                   modify (fun s => set_IoMemory (put 4 (IoMemory s) Buffer BufferSize) s) ;;; ret 4
                 else ret (if NT_SUCCESS Status then BufferSize else 0)) ;;
              CfixkrpDereferenceConnection (snd r) ;;;
              ret (Status, BytesWritten)
          end
      end.

(** [RTL_SIZEOF_THROUGH_FIELD( CFIXKR_IOCTL_GET_MODULES, DriverLoadAddress[ n - 1 ] )] *)
Definition SIZEOF_MODULES (n : Z) : Z := ULONG (8 + 8 * (n - 1) + 8).

(* src/cfixkern/cfixkr/main.c:129-204 (CfixkrsGetModulesIoctl) *)
Definition CfixkrsGetModulesIoctl (Buffer InputBufferLength OutputBufferLength : Z) : M (Z * Z) :=
  if (Buffer =? 0) || negb (InputBufferLength =? 0) || (OutputBufferLength <? SIZEOF_GET_MODULES)
  then ret (STATUS_INVALID_PARAMETER, 0)
  else
    let Capacity := (OutputBufferLength - 8) / 8 in
    r <- CfixkrpGetDriverConnections Order (Z.to_nat Capacity) ;;
    let '(Status, Written, ElementsAvailable) := r in
    let ElementsWritten := lenZ Written in
    modify (fun s => set_IoMemory (put_array 8 (IoMemory s) (Buffer + 8) Written) s) ;;;
    if Status =? STATUS_BUFFER_OVERFLOW then
      modify (fun s => set_IoMemory (put 4 (IoMemory s) Buffer ElementsAvailable) s) ;;;
      ret (Status, SIZEOF_MODULES ElementsWritten)
    else if NT_SUCCESS Status then
      modify (fun s => set_IoMemory (put 4 (IoMemory s) Buffer ElementsWritten) s) ;;;
      ret (Status, if ElementsWritten =? 0 then 4 else SIZEOF_MODULES ElementsWritten)
    else ret (Status, 0).

(** The response from the channel, once the routine has been called. *)
(* src/cfixkern/cfixkr/main.c:288-306 (CfixkrsCallRoutineIoctl) *)
Definition WriteResponse (Buffer : Z) (ch : CFIXKRP_REPORT_CHANNEL) (m : Memory) : Memory :=
  let m := put 4 m (Buffer + 20) (EventCount (EventBuffer ch)) in
  let m := put 2 m (Buffer + 16)
             (if BufferTruncated (EventBuffer ch) then CFIXKR_CALL_ROUTINE_FLAG_EVENTS_TRUNCATED else 0) in
  put 8 m (Buffer + 8) (ChTlsValue ch).

(* src/cfixkern/cfixkr/main.c:206-313 (CfixkrsCallRoutineIoctl) *)
Definition CfixkrsCallRoutineIoctl (Buffer_ InputBufferLength OutputBufferLength : Z) : M (OUT (Z * Z)) :=
  if (Buffer_ =? 0) || (InputBufferLength <? SIZEOF_CALL_ROUTINE_REQUEST) ||
     (OutputBufferLength <? SIZEOF_CALL_ROUTINE_RESPONSE)
  then retO (STATUS_INVALID_PARAMETER, 0)
  else
    m <- gets IoMemory ;;
    let DriverBaseAddress := fetch 8 m Buffer_ in
    let FailedAssertion_ := fetch 1 m (Buffer_ + 12) in
    let UnhandledException_ := fetch 1 m (Buffer_ + 13) in
    if DriverBaseAddress =? 0 then retO (STATUS_INVALID_PARAMETER, 0)
    else if (DispositionCode CfixAbort <? FailedAssertion_) || (DispositionCode CfixAbort <? UnhandledException_)
    then retO (STATUS_INVALID_PARAMETER, 0)
    else
      let Leave := modify (fun s => set_Channels (delete Channel (Channels s)) s) in
      store_channel Channel
        (MkChannel (DispositionOf FailedAssertion_) (DispositionOf UnhandledException_)
           (InitialBuffer (OutputBufferLength - SIZEOF_CALL_ROUTINE_RESPONSE)
              (Buffer_ + SIZEOF_CALL_ROUTINE_RESPONSE))
           (wrap (8 * P) (fetch 8 m (Buffer_ + 16)))) ;;;
      r <- CfixkrpLookupDriverConnection DriverBaseAddress ;;
      if negb (NT_SUCCESS (fst r)) then Leave ;;; retO (fst r, 0)
      else
        x <~ CfixkrpCallRoutineDriverConnection P Pool Tid Code RecordOf KeWait Frame (snd r)
               (fetch 2 m (Buffer_ + 8)) (fetch 2 m (Buffer_ + 10)) Channel ;;
        match snd x with
        | Some (RanToCompletion, Abort) =>
            modify (fun s => set_IoMemory (put 1 (put 1 (IoMemory s) Buffer_ (bool_code RanToCompletion))
                                             (Buffer_ + 1) (bool_code Abort)) s)
        | None => ret tt
        end ;;;
        BytesWritten <-
          (if NT_SUCCESS (fst x) then
             ch <- load_channel Channel ;;
             modify (fun s => set_IoMemory (WriteResponse Buffer_ ch (IoMemory s)) s) ;;;
             ret (SIZEOF_CALL_ROUTINE_RESPONSE + BufferLength (EventBuffer ch))
           else ret 0) ;;
        CfixkrpDereferenceConnection (snd r) ;;;
        Leave ;;;
        retO (fst x, BytesWritten).

(* src/cfixkern/cfixkr/main.c:370-416 (CfixkrpDispatchDeviceControl) *)
Definition CfixkrpDispatchDeviceControl (IoControlCode : IOCTL)
    (SystemBuffer InputBufferLength OutputBufferLength : Z) : M (OUT (Z * Z)) :=
  match IoControlCode with
  | IOCTL_QUERY_TEST_MODULE => lift (CfixkrsQueryModuleIoctl SystemBuffer InputBufferLength OutputBufferLength)
  | IOCTL_GET_TEST_MODULES => lift (CfixkrsGetModulesIoctl SystemBuffer InputBufferLength OutputBufferLength)
  | IOCTL_CALL_ROUTINE => CfixkrsCallRoutineIoctl SystemBuffer InputBufferLength OutputBufferLength
  | IOCTL_OTHER => retO (STATUS_INVALID_DEVICE_REQUEST, 0)
  end.
End device.

(** ** Requests in the system buffer *)
Definition WriteRequest (q : CALL_ROUTINE_REQUEST) (a : Z) (m : Memory) : Memory :=
  let m := put 8 m a (ReqDriverBaseAddress q) in
  let m := put 2 m (a + 8) (ReqFixtureKey q) in
  let m := put 2 m (a + 10) (ReqRoutineKey q) in
  let m := put 1 m (a + 12) (DispositionCode (ReqFailedAssertion q)) in
  let m := put 1 m (a + 13) (DispositionCode (ReqUnhandledException q)) in
  put 8 m (a + 16) (ReqTlsValue q).

Record RequestOk (q : CALL_ROUTINE_REQUEST) : Prop := {
  req_base : 0 < ReqDriverBaseAddress q < 2 ^ 64;
  req_fixture : 0 <= ReqFixtureKey q < 2 ^ 16;
  req_routine : 0 <= ReqRoutineKey q < 2 ^ 16;
  req_tls : 0 <= ReqTlsValue q < 2 ^ 64 }.

Lemma DispositionCode_range d : 0 <= DispositionCode d <= 3.
Proof. destruct d; simpl; lia. Qed.

Lemma DispositionOf_Code d : DispositionOf (DispositionCode d) = d.
Proof. by destruct d. Qed.

Section request.
Context (q : CALL_ROUTINE_REQUEST) (a : Z) (m : Memory) (Hq : RequestOk q).

Lemma request_base : fetch 8 (WriteRequest q a m) a = ReqDriverBaseAddress q.
Proof. pose proof (req_base _ Hq). unfold WriteRequest. fetching. done. Qed.
Lemma request_fixture : fetch 2 (WriteRequest q a m) (a + 8) = ReqFixtureKey q.
Proof. pose proof (req_fixture _ Hq). unfold WriteRequest. fetching. done. Qed.
Lemma request_routine : fetch 2 (WriteRequest q a m) (a + 10) = ReqRoutineKey q.
Proof. pose proof (req_routine _ Hq). unfold WriteRequest. fetching. done. Qed.
Lemma request_assertion : fetch 1 (WriteRequest q a m) (a + 12) = DispositionCode (ReqFailedAssertion q).
Proof. pose proof (DispositionCode_range (ReqFailedAssertion q)). unfold WriteRequest. fetching. done. Qed.
Lemma request_exception : fetch 1 (WriteRequest q a m) (a + 13) = DispositionCode (ReqUnhandledException q).
Proof. pose proof (DispositionCode_range (ReqUnhandledException q)). unfold WriteRequest. fetching. done. Qed.
Lemma request_tls : fetch 8 (WriteRequest q a m) (a + 16) = ReqTlsValue q.
Proof. pose proof (req_tls _ Hq). unfold WriteRequest. fetching. done. Qed.
End request.

(** ** A request is handled

    A state in which the routine of a request can be called. *)
Section handled.
Context {ARGS : Type}.
Context (P : Z) (Pool : gset Z -> Z -> Z) (Tid : Z).
Context (RtlStringCchVPrintfW : nat -> string -> ARGS -> string) (DebuggerPresent : bool).
Context (Code : Z -> M (OUT unit)) (RecordOf : Z -> EXCEPTION_RECORD) (KeWait : list Z -> M Z).
Context (HRecord : forall c, ExceptionCode (RecordOf c) = c).
Context (Channel Frame : Z).

Record Callable (s : KW) (Base FixtureKey RoutineKey Routine Conn : Z) (c : CFIXKRP_DRIVER_CONNECTION) : Prop := {
  cal_registry : exists T r g, Registry s = Some (T, r) /\ r !! Base = Some (g, Conn);
  cal_conn : Connections s !! Conn = Some c;
  cal_refs : 1 <= ConnReferenceCount c < 2 ^ 31 - 1;
  cal_routine : exists a ad, Adapter c = Some (a, ad) /\
    CfixkrpGetRoutineTestAdapter ad FixtureKey RoutineKey = inr Routine;
  cal_free : exists Table reg, FilamentRegistry c = Some (Table, reg) /\ reg !! Tid = None;
  cal_external : ExternalReferenceCount c <> 0;
  cal_lock : is_Some (DriverUnloadLock c);
  cal_frame : Frame <> 0 /\ Filaments s !! Frame = None;
  cal_channel : Channels s !! Channel = None;
  cal_pool : Pool (PoolBlocks s) (SIZEOF_FILAMENT_ENTRY P) <> 0 /\
    Pool (PoolBlocks s) (SIZEOF_FILAMENT_ENTRY P) ∉ PoolBlocks s;
  cal_irql : Irql s = PASSIVE_LEVEL }.

(** The state in which the routine is called. *)
Definition calling (Conn : Z) (c : CFIXKRP_DRIVER_CONNECTION) (ch : CFIXKRP_REPORT_CHANNEL) (s : KW) : KW :=
  set_Connections (<[Conn := Referenced c]> (Connections s)) (set_Channels (<[Channel := ch]> (Channels s)) s).

Lemma lookup_callable s Base fk rk Routine Conn c ch :
  Callable s Base fk rk Routine Conn c ->
  CfixkrpLookupDriverConnection Base (set_Channels (<[Channel := ch]> (Channels s)) s) =
  Some ((STATUS_SUCCESS, Conn), calling Conn c ch s).
Proof.
  intros [(T & r & g & Hr & Hb) Hc Hn _ _ _ _ _ _ _ _].
  unfold CfixkrpLookupDriverConnection, load_connections, CfixkrpReferenceConnection, load_conn, store_conn, bind.
  simpl. rewrite Hr. cbn. rewrite Hb. simpl. rewrite Hc. cbn. by rewrite LONG_small by lia.
Qed.

Lemma calling_ready s Base fk rk Routine Conn c Fa Ue b tls :
  Callable s Base fk rk Routine Conn c ->
  Ready P Pool Tid Conn Frame Channel (Referenced c) (calling Conn c (MkChannel Fa Ue b tls) s) Fa Ue b tls
    Routine fk rk.
Proof.
  intros [_ Hc Hn Hr Hf He Hl Hfr _ Hp Hi]. split; try done; simpl.
  - by rewrite lookup_insert_eq.
  - by rewrite lookup_insert_eq.
Qed.

Lemma dereference_calling s Base fk rk Routine Conn c ch m :
  Callable s Base fk rk Routine Conn c ->
  CfixkrpDereferenceConnection Conn (set_IoMemory m (calling Conn c ch s)) =
  Some (tt, set_IoMemory m (set_Channels (<[Channel := ch]> (Channels s)) s)).
Proof.
  intros [_ Hc Hn _ _ _ _ _ _ _ _].
  unfold CfixkrpDereferenceConnection, load_conn, store_conn, bind. simpl. rewrite lookup_insert_eq. cbn.
  replace (ConnReferenceCount c + 1 - 1) with (ConnReferenceCount c) by lia. rewrite LONG_small by lia.
  destruct (Z.eqb_spec (ConnReferenceCount c) 0); [lia|]. cbn. unfold ret. f_equal. f_equal.
  unfold calling, set_IoMemory, set_Connections, set_Channels. simpl. f_equal.
  rewrite insert_insert_eq. apply insert_id. rewrite Hc. f_equal. by destruct c.
Qed.

(** What the routine does for a request, what is queued for it, and the response. *)
Definition RequestTrace (steps : list ((Z -> list Z) * STEP ARGS)) (q : CALL_ROUTINE_REQUEST) : TRACE :=
  TraceOf Tid RtlStringCchVPrintfW DebuggerPresent (ReqFailedAssertion q) steps PASSIVE_LEVEL
    (wrap (8 * P) (ReqTlsValue q)).

Definition RequestQueue (steps : list ((Z -> list Z) * STEP ARGS)) (q : CALL_ROUTINE_REQUEST)
    (a n : Z) (m : Memory) : EVENT_BUFFER * Memory :=
  QueueAll P (AllReports Tid RecordOf (RequestTrace steps q)) (InitialBuffer (n - 24) (a + 24), m).

Definition RequestResponse (steps : list ((Z -> list Z) * STEP ARGS)) (q : CALL_ROUTINE_REQUEST)
    (res : bool * bool) (a n : Z) (m : Memory) : Memory :=
  let r := RequestQueue steps q a n m in
  WriteResponse a
    (MkChannel (ReqFailedAssertion q) (ReqUnhandledException q) (fst r) (TrTls (RequestTrace steps q)))
    (put 1 (put 1 (snd r) a (bool_code (fst res))) (a + 1) (bool_code (snd res))).

Lemma finished_calling s Conn c ch m Fa Ue r tls' :
  finished Channel (calling Conn c ch (set_IoMemory m s)) Fa Ue r tls' =
  set_IoMemory (snd r) (calling Conn c (MkChannel Fa Ue (fst r) tls') s).
Proof.
  unfold finished, calling, set_IoMemory, set_Channels, set_Connections. simpl.
  by rewrite insert_insert_eq.
Qed.

(** The end of a request: the response is written, the reference is given up. *)
Lemma respond_spec s Base fk rk Routine Conn c ch a m1 ran abort :
  Callable s Base fk rk Routine Conn c ->
  (modify (fun s0 => set_IoMemory (put 1 (put 1 (IoMemory s0) a (bool_code ran)) (a + 1) (bool_code abort)) s0) ;;;
   BytesWritten <-
     (if NT_SUCCESS STATUS_SUCCESS then
        ch0 <- load_channel Channel ;;
        modify (fun s0 => set_IoMemory (WriteResponse a ch0 (IoMemory s0)) s0) ;;;
        ret (24 + BufferLength (EventBuffer ch0))
      else ret 0) ;;
   CfixkrpDereferenceConnection Conn ;;;
   modify (fun s0 => set_Channels (delete Channel (Channels s0)) s0) ;;;
   retO (STATUS_SUCCESS, BytesWritten)) (set_IoMemory m1 (calling Conn c ch s)) =
  Some (Returned (STATUS_SUCCESS, 24 + BufferLength (EventBuffer ch)),
        set_IoMemory (WriteResponse a ch (put 1 (put 1 m1 a (bool_code ran)) (a + 1) (bool_code abort))) s).
Proof.
  intros Hcal. rewrite bind_modify. change (NT_SUCCESS STATUS_SUCCESS) with true. cbv iota.
  rewrite bind_assoc.
  set (s1 := set_IoMemory _ _). assert (load_channel Channel s1 = Some (ch, s1)) as E.
  { unfold load_channel. subst s1. simpl. by rewrite lookup_insert_eq. }
  rewrite (bind_eq _ _ _ _ _ E), bind_assoc, bind_modify, bind_ret. subst s1. cbn [IoMemory set_IoMemory].
  match goal with |- bind _ _ (set_IoMemory ?m2 (set_IoMemory _ _)) = _ =>
    pose proof (dereference_calling s Base fk rk Routine Conn c ch m2 Hcal) as E2 end.
  rewrite (bind_eq _ _ _ _ _ E2), bind_modify. unfold retO, ret. f_equal. f_equal.
  unfold set_IoMemory, set_Channels. simpl. f_equal. apply delete_insert_id. by destruct Hcal.
Qed.

Lemma CallRoutineIoctl_spec steps q a n s Routine Conn c res :
  RequestOk q -> 0 < a -> 24 <= n ->
  Callable s (ReqDriverBaseAddress q) (ReqFixtureKey q) (ReqRoutineKey q) Routine Conn c ->
  (forall x, Code Routine x = perform_all P Tid RtlStringCchVPrintfW DebuggerPresent Conn steps x) ->
  CallResult (ReqUnhandledException q) (TrOutcome (RequestTrace steps q)) = Some res ->
  let m := WriteRequest q a (IoMemory s) in
  CfixkrsCallRoutineIoctl P Pool Tid Code RecordOf KeWait Channel Frame a 24 n (set_IoMemory m s) =
  Some (Returned (STATUS_SUCCESS, 24 + BufferLength (fst (RequestQueue steps q a n m))),
        set_IoMemory (RequestResponse steps q res a n m) s).
Proof.
  intros Hq Ha Hn Hcal HC Hres m. unfold CfixkrsCallRoutineIoctl, SIZEOF_CALL_ROUTINE_RESPONSE.
  pose proof (req_base _ Hq) as Hb. pose proof (cal_channel _ _ _ _ _ _ _ Hcal) as Hch.
  rewrite (proj2 (Z.eqb_neq a 0)), (proj2 (Z.ltb_ge n 24)) by lia. cbn [orb Z.ltb].
  change (24 <? SIZEOF_CALL_ROUTINE_REQUEST) with false. cbn [orb]. rewrite bind_gets.
  change (IoMemory (set_IoMemory m s)) with m. unfold m.
  rewrite request_base, request_assertion, request_exception, request_fixture, request_routine, request_tls by done.
  rewrite (proj2 (Z.eqb_neq (ReqDriverBaseAddress q) 0)) by lia.
  rewrite !DispositionOf_Code, !(proj2 (Z.ltb_ge _ (DispositionCode _))) by apply DispositionCode_range.
  cbn [orb]. fold m. unfold store_channel. rewrite bind_modify.
  set (ch := MkChannel _ _ _ _).
  assert (Callable (set_IoMemory m s) (ReqDriverBaseAddress q) (ReqFixtureKey q) (ReqRoutineKey q) Routine Conn c)
    as Hcal' by by destruct Hcal.
  rewrite (bind_eq _ _ _ _ _ (lookup_callable _ _ _ _ _ _ _ ch Hcal')).
  cbn [fst snd]. change (NT_SUCCESS STATUS_SUCCESS) with true. cbn [negb]. unfold bindO.
  pose proof (calling_ready _ _ _ _ _ _ _ (ReqFailedAssertion q) (ReqUnhandledException q)
    (InitialBuffer (n - 24) (a + 24)) (wrap (8 * P) (ReqTlsValue q)) Hcal') as HR.
  pose proof (call_traced P Pool Tid RtlStringCchVPrintfW DebuggerPresent Code RecordOf KeWait HRecord
    Conn Frame Channel _ _ _ _ _ _ steps Routine _ _ res HR HC Hres) as E. fold ch in E.
  rewrite (bind_eq _ _ _ _ _ E). cbn [fst snd]. destruct res as [ran abort].
  fold (RequestTrace steps q). change (IoMemory (calling Conn c ch (set_IoMemory m s))) with m.
  fold (RequestQueue steps q a n m). set (r := RequestQueue steps q a n m).
  rewrite finished_calling. eapply respond_spec, Hcal.
Qed.
End handled.

(** ** Steps whose arguments are in the range of their types *)
Definition StackOk (st : Z -> list Z) : Prop :=
  lenZ (st CFIXKRP_MAX_STACKFRAMES) <= CFIXKRP_MAX_STACKFRAMES /\
  Forall (fun v => 0 <= v < 256 ^ Z.of_nat 8) (st CFIXKRP_MAX_STACKFRAMES).

Definition StepOk {ARGS} (x : (Z -> list Z) * STEP ARGS) : Prop :=
  StackOk (fst x) /\
  match snd x with
  | SReport _ _ l _ | SReportFormat _ _ l _ _ | SAssertEquals _ _ _ _ l _ => 0 <= l < 2 ^ 32
  | SSetValue _ v => 0 <= v < 2 ^ 64
  | SThrow c => 0 <= c < 2 ^ 32
  | _ => True
  end.

Definition RecordOk (r : EXCEPTION_RECORD) : Prop :=
  0 <= ExceptionCode r < 2 ^ 32 /\ length (ExceptionInformation r) = 15%nat.

Section proper.
Context {ARGS : Type} (P Tid : Z) (Fmt : nat -> string -> ARGS -> string) (Dbg : bool).
Context (RecordOf : Z -> EXCEPTION_RECORD) (HRecordOk : forall c, 0 <= c < 2 ^ 32 -> RecordOk (RecordOf c)).
Context (HTid : 0 <= Tid < 2 ^ 32).

Lemma proper_report st type line f r e msg :
  StackOk st -> 0 <= line < 2 ^ 32 -> type <> CfixEventUncaughtException ->
  Proper_ P (MkReport false type None f r line e msg Tid Tid st).
Proof. intros [H1 H2] Hl Ht. by split. Qed.

Lemma proper_exception_report c : 0 <= c < 2 ^ 32 -> Proper_ P (ExceptionReport Tid (RecordOf c)).
Proof.
  intros Hc. split; simpl; try done. intros _. exists (RecordOf c). split; [done|]. by apply HRecordOk.
Qed.

Lemma abort_proper st code i tls :
  StackOk st -> Forall (Proper_ P) (TrReports (AbortTrace Tid st code i tls)) /\
  TrTls (AbortTrace Tid st code i tls) = tls.
Proof.
  intros H. unfold AbortTrace. destruct (PASSIVE_LEVEL <? i); [|done]. split; [|done].
  constructor; [|constructor]. by apply proper_report.
Qed.

Lemma assertion_proper Fa st f r l e i tls :
  StackOk st -> 0 <= l < 2 ^ 32 ->
  Forall (Proper_ P) (TrReports (AssertionTrace Tid Dbg Fa st f r l e i tls)) /\
  TrTls (AssertionTrace Tid Dbg Fa st f r l e i tls) = tls.
Proof.
  intros H Hl. unfold AssertionTrace, Before_. cbn [TrReports TrTls].
  destruct Fa; [| destruct Dbg | |]; split; try (constructor; [by apply proper_report|]);
    try constructor; try done; by apply abort_proper.
Qed.

Lemma step_proper Fa x i tls :
  StepOk x -> 0 <= tls < 2 ^ 64 ->
  Forall (Proper_ P) (TrReports (StepTrace Tid Fmt Dbg Fa x i tls)) /\
  0 <= TrTls (StepTrace Tid Fmt Dbg Fa x i tls) < 2 ^ 64.
Proof.
  intros [Hst Hx] Ht. destruct x as [st []]; unfold StepTrace; cbn [fst snd] in *.
  - destruct (assertion_proper Fa st File Routine Line Expression i tls Hst Hx) as [? ->]. done.
  - match goal with |- context [AssertionTrace _ _ _ _ _ _ _ ?e] =>
      destruct (assertion_proper Fa st File Routine Line e i tls Hst Hx) as [? ->] end. done.
  - destruct (Expected =? Actual); [by split|].
    match goal with |- context [AssertionTrace _ _ _ _ _ _ _ ?e] =>
      destruct (assertion_proper Fa st File Routine Line e i tls Hst Hx) as [? ->] end. done.
  - unfold Before_. cbn [TrReports TrTls].
    destruct (abort_proper st EXCEPTION_TESTCASE_INCONCLUSIVE i tls Hst) as [? ->]. split; [|done].
    constructor; [by apply proper_report|done].
  - split; [|done]. constructor; [by apply proper_report|constructor].
  - destruct (abort_proper st EXCEPTION_TESTCASE_FAILED i tls Hst) as [? ->]. done.
  - split; [constructor|]. cbn [TrTls]. by destruct (Tag =? 0).
  - by split.
  - by split.
Qed.

Lemma trace_proper Fa l : forall i tls, Forall StepOk l -> 0 <= tls < 2 ^ 64 ->
  Forall (Proper_ P) (TrReports (TraceOf Tid Fmt Dbg Fa l i tls)) /\
  0 <= TrTls (TraceOf Tid Fmt Dbg Fa l i tls) < 2 ^ 64.
Proof.
  induction l as [|x l IH]; intros i tls Hl Ht; [by split|]. apply Forall_cons in Hl as [Hx Hl].
  destruct (step_proper Fa x i tls Hx Ht) as [H1 H2]. cbn [TraceOf].
  destruct (TrOutcome (StepTrace _ _ _ _ x i tls)); [|done..].
  destruct (IH (TrIrql (StepTrace Tid Fmt Dbg Fa x i tls)) _ Hl H2) as [H3 H4].
  split; [|done]. by apply Forall_app.
Qed.

(** The codes that steps raise. *)
Definition OutcomeOk (o : OUT unit) : Prop :=
  match o with Raised c => 0 <= c < 2 ^ 32 | _ => True end.

Lemma abort_outcome st code i tls : 0 <= code < 2 ^ 32 -> OutcomeOk (TrOutcome (AbortTrace Tid st code i tls)).
Proof. unfold AbortTrace. by destruct (_ <? _). Qed.

Lemma assertion_trace_outcome Fa st f r l e i tls : OutcomeOk (TrOutcome (AssertionTrace Tid Dbg Fa st f r l e i tls)).
Proof.
  unfold AssertionTrace. cbn [TrOutcome Before_].
  destruct Fa; [done| destruct Dbg; [done|] |done|]; by apply abort_outcome.
Qed.

Lemma step_outcome Fa x i tls : StepOk x -> OutcomeOk (TrOutcome (StepTrace Tid Fmt Dbg Fa x i tls)).
Proof.
  destruct x as [st []]; intros [_ H]; unfold StepTrace; cbn [fst snd] in *; try done;
    try apply assertion_trace_outcome; try by apply abort_outcome.
  destruct (_ =? _); [done|apply assertion_trace_outcome].
Qed.

Lemma trace_outcome Fa l : forall i tls, Forall StepOk l -> OutcomeOk (TrOutcome (TraceOf Tid Fmt Dbg Fa l i tls)).
Proof.
  induction l as [|x l IH]; intros i tls Hl; [done|]. apply Forall_cons in Hl as [Hx Hl].
  pose proof (step_outcome Fa x i tls Hx) as Ho. cbn [TraceOf].
  destruct (TrOutcome (StepTrace _ _ _ _ x i tls)) eqn:E; cbn [TrOutcome]; rewrite ?E; try done. by apply IH.
Qed.

Lemma reports_proper Fa l i tls : Forall StepOk l -> 0 <= tls < 2 ^ 64 ->
  Forall (Proper_ P) (AllReports Tid RecordOf (TraceOf Tid Fmt Dbg Fa l i tls)).
Proof.
  intros Hl Ht. unfold AllReports. apply Forall_app. split; [by apply trace_proper|].
  pose proof (trace_outcome Fa l i tls Hl) as Ho.
  destruct (TrOutcome _); [constructor| |constructor]. destruct (Expected_ _); [constructor|].
  constructor; [by apply proper_exception_report|constructor].
Qed.
End proper.

(** ** The response, as the client finds it *)
Section response.
Context {ARGS : Type} (P : Z) (HP : P = 4 \/ P = 8) (Tid : Z).
Context (Fmt : nat -> string -> ARGS -> string) (Dbg : bool).
Context (RecordOf : Z -> EXCEPTION_RECORD) (HRecordOk : forall c, 0 <= c < 2 ^ 32 -> RecordOk (RecordOf c)).
Context (HTid : 0 <= Tid < 2 ^ 32).
Context (steps : list ((Z -> list Z) * STEP ARGS)) (Hsteps : Forall StepOk steps).
Context (q : CALL_ROUTINE_REQUEST) (Hq : RequestOk q).
Context (a n : Z) (Ha : 0 < a) (Hn : 24 <= n < 2 ^ 32) (m : Memory).

Local Abbreviation T := (RequestTrace P Tid Fmt Dbg steps q).
Local Abbreviation B := (RequestQueue P Tid Fmt Dbg RecordOf steps q a n m).
Definition Delivered : list (REPORT * Z) := Kept P (n - 24) (AllReports Tid RecordOf T).
Definition Truncated : bool := Lost P (n - 24) (AllReports Tid RecordOf T).

Lemma tls_range : 0 <= wrap (8 * P) (ReqTlsValue q) < 2 ^ 64.
Proof.
  pose proof (wrap_bound (8 * P) (ReqTlsValue q) ltac:(lia)).
  assert (2 ^ (8 * P) <= 2 ^ 64) by (apply Z.pow_le_mono_r; lia). lia.
Qed.

Lemma request_proper : Forall (Proper_ P) (AllReports Tid RecordOf T).
Proof. apply reports_proper; [done..|apply tls_range]. Qed.

Lemma request_queued :
  Queued P (fst B) (snd B) Delivered /\ Buffer (fst B) = a + 24 /\ BufferSize (fst B) = n - 24 /\
  BufferTruncated (fst B) = Truncated.
Proof.
  destruct (QueueAll_spec P HP (AllReports Tid RecordOf T) (InitialBuffer (n - 24) (a + 24)) m []
    request_proper) as (H1 & H2 & H3 & H4 & _).
  { apply InitialBuffer_queued; lia. }
  cbn [Buffer BufferSize BufferLength BufferTruncated InitialBuffer orb app] in *.
  rewrite Z.sub_0_r in *. done.
Qed.

Lemma Delivered_proper : Forall (fun x => Proper_ P (fst x)) Delivered.
Proof.
  unfold Delivered. generalize (n - 24). pose proof request_proper as H.
  induction H as [|x l Hx Hl IH]; intros room; simpl; [constructor|].
  destruct (Verdict P room x); [apply IH..|]. constructor; [done|apply IH].
Qed.

(** The parts of the response, in any copy of it. *)
Record ResponseAt (m' : Memory) (r : Z) (res : bool * bool) : Prop := {
  resp_ran : fetch 1 m' r = bool_code (fst res);
  resp_abort : fetch 1 m' (r + 1) = bool_code (snd res);
  resp_tls : fetch 8 m' (r + 8) = TrTls T;
  resp_flags : fetch 2 m' (r + 16) = (if Truncated then 1 else 0);
  resp_count : fetch 4 m' (r + 20) = Z.of_nat (length Delivered);
  resp_events : EventsAt P m' (r + 24) Delivered }.

Lemma response_at res m' r :
  Copied m' r (RequestResponse P Tid Fmt Dbg RecordOf steps q res a n m) a (24 + BufferLength (fst B)) ->
  ResponseAt m' r res.
Proof.
  intros HC. destruct request_queued as ([Hok Hev Htot Hcnt] & Hb & Hs & Ht).
  destruct Hok as [_ _ Hl _ Hc]. rewrite Hs in Hl.
  assert (0 <= TrTls T < 2 ^ 64) as HT by (apply (trace_proper P Tid); [done..|apply tls_range]).
  assert (forall b, 0 <= bool_code b < 256) as Hbc by (intros []; simpl; lia).
  pose proof (Hbc (fst res)). pose proof (Hbc (snd res)).
  assert (forall i, a + 24 <= i -> RequestResponse P Tid Fmt Dbg RecordOf steps q res a n m i = snd B i) as Hout.
  { intros i Hi. unfold RequestResponse, WriteResponse. rewrite !put_outside by lia. done. }
  unfold RequestResponse, WriteResponse in HC. cbn [EventBuffer ChTlsValue] in HC.
  fold B in HC. split.
  - rewrite <- (Z.add_0_r r), (fetch_Copied _ _ _ _ _ HC) by lia. rewrite Z.add_0_r. fetching. done.
  - rewrite (fetch_Copied _ _ _ _ _ HC) by lia. fetching. done.
  - rewrite (fetch_Copied _ _ _ _ _ HC) by lia. fetching. done.
  - rewrite (fetch_Copied _ _ _ _ _ HC) by lia. fetching. rewrite Ht. apply fetch_put_eq.
    by destruct Truncated.
  - rewrite (fetch_Copied _ _ _ _ _ HC) by lia. fetching. by rewrite Hcnt.
  - apply (EventsAt_Copied P (snd B) (a + 24) m' (r + 24) Delivered (BufferLength (fst B)));
      [by rewrite <- Hb| |lia].
    intros i Hi. rewrite <- !Z.add_assoc, HC by lia. apply Hout. lia.
Qed.
End response.

(** ** The two sides composed

    The client's world [W] contains the kernel.  The operating system carries a
    request to the device and its response back (METHOD_BUFFERED): the request is
    in the system buffer when the driver is called, and what the driver says it
    has written is in the client's buffer afterwards. *)
Section composed.
Context {ARGS : Type} {W : Type}.
Context (P : Z) (Pool : gset Z -> Z -> Z) (Tid : Z) (Fmt : nat -> string -> ARGS -> string) (Dbg : bool).
Context (Code : Z -> M (OUT unit)) (RecordOf : Z -> EXCEPTION_RECORD) (KeWait : list Z -> M Z).
Context (Order : gmap Z (Z * Z) -> list Z) (Channel Frame SysBuf : Z).
Context (kernel : W -> KW) (set_kernel : KW -> W -> W).
Context (DeviceIoControl : CALL_ROUTINE_REQUEST -> Z -> Z -> ST W (Z + Z * Memory)).

Definition BufferedIo : Prop := forall q a n w Status Bytes k,
  CfixkrpDispatchDeviceControl P Pool Tid Code RecordOf KeWait Order Channel Frame IOCTL_CALL_ROUTINE SysBuf 24 n
    (set_IoMemory (WriteRequest q SysBuf (IoMemory (kernel w))) (kernel w)) =
    Some (Returned (Status, Bytes), k) ->
  NT_SUCCESS Status = true ->
  exists m', DeviceIoControl q a n w = Some (inr (Bytes, m'), set_kernel k w) /\
    Copied m' a (IoMemory k) SysBuf Bytes.

Context (HP : P = 4 \/ P = 8) (HTid : 0 <= Tid < 2 ^ 32) (HSys : 0 < SysBuf).
Context (HRecord : forall c, ExceptionCode (RecordOf c) = c) (HRecordOk : forall c, 0 <= c < 2 ^ 32 -> RecordOk (RecordOf c)).
Context (HIo : BufferedIo).
Context (Malloc : gset Z -> Z -> Z) (HMalloc : forall B n, Malloc B n = 0 \/ Malloc B n ∉ B).
Context (UserTid : Z) (ctx : CFIX_EXECUTION_CONTEXT W).

(** What the client makes of a response: the events, then the note. *)
Definition ReportResponse (l : list (REPORT * Z)) (truncated : bool) : ST W unit :=
  ReportAll ctx l ;;;
  when_ truncated (ReportEvent ctx (MkThreadId UserTid UserTid) NoteTruncated ;;; ret tt).

Lemma DeviceIo_response q w steps Routine Conn c res a :
  RequestOk q -> Forall StepOk steps ->
  Callable P Pool Tid Channel Frame (kernel w) (ReqDriverBaseAddress q) (ReqFixtureKey q) (ReqRoutineKey q)
    Routine Conn c ->
  (forall x, Code Routine x = perform_all P Tid Fmt Dbg Conn steps x) ->
  CallResult (ReqUnhandledException q) (TrOutcome (RequestTrace P Tid Fmt Dbg steps q)) = Some res ->
  exists Bytes m', 24 <= Bytes /\
    DeviceIoControl q a 4096 w =
      Some (inr (Bytes, m'),
        set_kernel (set_IoMemory (RequestResponse P Tid Fmt Dbg RecordOf steps q res SysBuf 4096
          (WriteRequest q SysBuf (IoMemory (kernel w)))) (kernel w)) w) /\
    ResponseAt P Tid Fmt Dbg RecordOf steps q 4096 m' a res.
Proof.
  intros Hq Hsteps Hcal HC Hres. set (m := WriteRequest q SysBuf (IoMemory (kernel w))).
  pose proof (CallRoutineIoctl_spec P Pool Tid Fmt Dbg Code RecordOf KeWait HRecord Channel Frame
    steps q SysBuf 4096 (kernel w) Routine Conn c res Hq HSys ltac:(lia) Hcal HC Hres) as E.
  fold m in E. destruct (HIo q a 4096 w _ _ _ E eq_refl) as (m' & E' & HCopied).
  do 2 eexists. split; [|split; [exact E'|]].
  - destruct (request_queued P HP Tid Fmt Dbg RecordOf HRecordOk HTid steps Hsteps q SysBuf 4096 ltac:(lia) ltac:(lia) m)
      as ([[] _ _ _] & _). lia.
  - by apply (response_at P HP Tid Fmt Dbg RecordOf HRecordOk HTid steps Hsteps q SysBuf 4096 ltac:(lia) ltac:(lia) m res).
Qed.

(** The client's part, once the response has arrived. *)
Lemma response_reported q steps m' a res s :
  RequestOk q -> Forall StepOk steps ->
  ResponseAt P Tid Fmt Dbg RecordOf steps q 4096 m' a res ->
  let T := RequestTrace P Tid Fmt Dbg steps q in
  let l := AllReports Tid RecordOf T in
  (ReportEvents Malloc P ctx m' (Z.to_nat (fetch 4 m' (a + 20))) (a + 24) ;;;
   when_ (FlagOn (fetch 2 m' (a + 16)) CFIXKR_CALL_ROUTINE_FLAG_EVENTS_TRUNCATED)
     (world (ReportEvent ctx (MkThreadId UserTid UserTid) NoteTruncated) ;;; ret tt) ;;;
   ret (S_OK, MkResult (negb (fetch 1 m' a =? 0)) (negb (fetch 1 m' (a + 1) =? 0)) (fetch 8 m' (a + 8)))) s =
  world (ReportResponse (Afforded P Malloc (Blocks s) (Kept P 4072 l)) (Lost P 4072 l) ;;;
         ret (S_OK, MkResult (fst res) (snd res) (TrTls T))) s.
Proof.
  intros Hq Hsteps [Hran Habort Htls Hflags Hcount Hevents] T l.
  rewrite Hran, Habort, Htls, Hflags, Hcount, Nat2Z.id.
  unfold bind at 1. rewrite (ReportEvents_spec P HP Malloc ctx HMalloc) by
    (done || by apply (Delivered_proper P HP Tid Fmt Dbg RecordOf HRecordOk HTid steps Hsteps q 4096)).
  fold T l. change (4096 - 24) with 4072.
  assert (forall b, negb (bool_code b =? 0) = b) as -> by by intros [].
  assert (forall b, negb (bool_code b =? 0) = b) as -> by by intros [].
  change (Delivered P Tid Fmt Dbg RecordOf steps q 4096) with (Kept P 4072 l).
  change (Truncated P Tid Fmt Dbg RecordOf steps q 4096) with (Lost P 4072 l).
  unfold world, ReportResponse, bind. cbn beta iota.
  destruct (ReportAll ctx _ (World s)) as [[[] w']|]; [|done].
  destruct (Lost P 4072 l); [|done].
  change (FlagOn 1 CFIXKR_CALL_ROUTINE_FLAG_EVENTS_TRUNCATED) with true. cbn.
  by destruct (ReportEvent ctx _ _ w') as [[d w'']|].
Qed.

(** C11. Kernel and user mode side together: a routine that is called through the
    reflector runs as its steps say.  Of the reports of the steps, those that the queue
    keeps in a response of 4096 bytes reach the execution context with their data, in
    order, up to the first for which the client has no memory.  A note follows if and
    only if one was lost for lack of room in the response; there is none for a report
    that is left out since one of its strings is too long, nor for those the client has
    no memory for.  The caller learns whether the routine ran to completion, whether
    the run is to be aborted and the new TLS value, and the client's heap is as
    before.  If there is no memory for the response, nothing is called. *)
Theorem kernel_events_reach_context w Bl Fa Ue Base fk rk Tls steps Routine Conn c ran abort :
  let q := MkRequest Base fk rk Fa Ue Tls in
  RequestOk q -> Forall StepOk steps ->
  QueryDefaultDisposition ctx CfixEventFailedAssertion w = Some (Fa, w) ->
  QueryDefaultDisposition ctx CfixEventUncaughtException w = Some (Ue, w) ->
  Callable P Pool Tid Channel Frame (kernel w) Base fk rk Routine Conn c ->
  (forall x, Code Routine x = perform_all P Tid Fmt Dbg Conn steps x) ->
  let T := RequestTrace P Tid Fmt Dbg steps q in
  let l := AllReports Tid RecordOf T in
  CallResult Ue (TrOutcome T) = Some (ran, abort) ->
  let a := Malloc Bl 4096 in
  let call := CfixklpCallRoutine Malloc UserTid DeviceIoControl P ctx Base fk rk Tls (MkCW Bl w) in
  if a =? 0 then call = Some ((E_OUTOFMEMORY, MkResult false false Tls), MkCW Bl w)
  else exists k, k = set_IoMemory (IoMemory k) (kernel w) /\
    call = world (modify (set_kernel k) ;;;
                  ReportResponse (Afforded P Malloc (Bl ∪ {[a]}) (Kept P 4072 l)) (Lost P 4072 l) ;;;
                  ret (S_OK, MkResult ran abort (TrTls T))) (MkCW Bl w).
Proof.
  intros q Hq Hsteps HFa HUe Hcal HC T l Hres a call. subst call.
  destruct (Z.eqb_spec a 0) as [E0|H0]; unfold CfixklpCallRoutine.
  { rewrite bind_world. cbn [World Blocks]. rewrite HFa, bind_world. cbn [World Blocks]. rewrite HUe.
    unfold bind at 1, malloc. cbn [Blocks World]. fold a. by rewrite E0. }
  assert (a ∉ Bl) as Hfresh by (by destruct (HMalloc Bl 4096)).
  destruct (DeviceIo_response q w steps Routine Conn c (ran, abort) a Hq Hsteps Hcal HC Hres)
    as (Bytes & m' & HBytes & Eio & [Hran Habort Htls Hflags Hcount Hevents]).
  match type of Eio with _ = Some (_, set_kernel ?k0 w) => exists k0 end. split; [done|].
  rewrite bind_world. cbn [World Blocks]. rewrite HFa, bind_world. cbn [World Blocks]. rewrite HUe.
  unfold bind at 1, malloc. cbn [Blocks World]. fold a. rewrite (proj2 (Z.eqb_neq a 0)) by done.
  rewrite bind_world. cbn [World Blocks]. fold q. rewrite Eio.
  rewrite (proj2 (Z.ltb_ge Bytes SIZEOF_CALL_ROUTINE_RESPONSE)) by done.
  unfold bind at 1. change SIZEOF_CALL_ROUTINE_RESPONSE with 24.
  rewrite (response_reported q steps m' a (ran, abort)) by done. fold T l. cbn [fst snd].
  set (k := set_IoMemory _ _). unfold world. cbn [World Blocks].
  rewrite bind_modify. destruct (bind _ _ (set_kernel k w)) as [[r w']|]; [|done].
  cbn. unfold ret. apply Some_CW. cbn. set_solver.
Qed.
End composed.

Module Demo.
(** The client's world: the kernel and what has been reported. *)
Definition World : Type := KW * list (CFIX_THREAD_ID * CFIX_TESTCASE_EXECUTION_EVENT).
Definition set_kernel (k : KW) (w : World) : World := (k, snd w).

Definition recorder : CFIX_EXECUTION_CONTEXT World :=
  MkContext 0 (fun t e w => Some (CfixContinue, (fst w, snd w ++ [(t, e)]))) (fun _ => ret CfixContinue)
    (fun _ _ => ret S_OK) (fun _ _ _ => ret tt) (fun _ _ _ => ret S_OK) (fun _ _ _ _ => ret tt)
    (fun _ => ret (S_OK, 0)) (fun _ _ => ret tt) (fun _ _ => ret tt) (fun _ _ => ret tt) (ret tt) (ret tt).

Definition Dispatch (q : CALL_ROUTINE_REQUEST) (n : Z) (k : KW) : option (OUT (Z * Z) * KW) :=
  CfixkrpDispatchDeviceControl 8 KrStubs.Demo.Pool 7 KrStubs.Demo.Code KrStubs.Demo.RecordOf (fun _ => ret 0)
    (fun r => map fst (map_to_list r)) 0x9000 0x9100 IOCTL_CALL_ROUTINE 0x20000 24 n
    (set_IoMemory (WriteRequest q 0x20000 (IoMemory k)) k).

Definition CopyOut (a n : Z) (m : Memory) : Memory := fun i => m (0x20000 + (i - a)).

Definition DeviceIoControl (q : CALL_ROUTINE_REQUEST) (a n : Z) : ST World (Z + Z * Memory) := fun w =>
  match Dispatch q n (fst w) with
  | Some (Returned (Status, Bytes), k) =>
      if NT_SUCCESS Status then Some (inr (Bytes, CopyOut a Bytes (IoMemory k)), set_kernel k w)
      else Some (inl 31, set_kernel k w)
  | _ => None
  end.

Lemma DeviceIoControl_buffered :
  BufferedIo 8 KrStubs.Demo.Pool 7 KrStubs.Demo.Code KrStubs.Demo.RecordOf (fun _ => ret 0)
    (fun r => map fst (map_to_list r)) 0x9000 0x9100 0x20000 fst set_kernel DeviceIoControl.
Proof.
  intros q a n w Status Bytes k E HS. exists (CopyOut a Bytes (IoMemory k)). split.
  - unfold DeviceIoControl, Dispatch. by rewrite E, HS.
  - intros i Hi. unfold CopyOut. f_equal. lia.
Defined.

Definition waiting : KW := set_Channels ∅ KrStubs.Demo.idle.

Lemma waiting_callable :
  Callable 8 KrStubs.Demo.Pool 7 0x9000 0x9100 waiting 0x400000 0 0 0x401000 0x5000 KrStubs.Demo.connection.
Proof.
  split; try done; try (by repeat eexists).
Defined.

Lemma steps_ok : Forall StepOk KrStubs.Demo.steps.
Proof.
  repeat constructor; simpl; try lia; try (unfold lenZ; simpl; unfold CFIXKRP_MAX_STACKFRAMES; lia).
Defined.

(** The log message, the failed assertion and the unhandled exception, as the
    execution context gets them. *)
Lemma kernel_events_reach_context_witness :
  (exists k, CfixklpCallRoutine (fun B _ => NextBlock B) 7 DeviceIoControl 8 recorder 0x400000 0 0 5
    (MkCW ∅ (waiting, [])) =
  world (modify (set_kernel k) ;;; ReportResponse 7 recorder
    (Afforded 8 (fun B _ => NextBlock B) {[NextBlock ∅]}
      (Kept 8 4072 (AllReports 7 KrStubs.Demo.RecordOf
        (RequestTrace 8 7 KrStubs.Demo.Fmt false KrStubs.Demo.steps (MkRequest 0x400000 0 0 CfixContinue CfixContinue 5)))))
    false ;;; ret (S_OK, MkResult false false 77)) (MkCW ∅ (waiting, []))).
Proof.
  destruct (kernel_events_reach_context 8 KrStubs.Demo.Pool 7 KrStubs.Demo.Fmt false KrStubs.Demo.Code
    KrStubs.Demo.RecordOf (fun _ => ret 0) (fun r => map fst (map_to_list r)) 0x9000 0x9100 0x20000 fst set_kernel
    DeviceIoControl ltac:(by right) ltac:(lia) ltac:(lia) (fun _ => eq_refl)
    (fun c Hc => conj Hc eq_refl) DeviceIoControl_buffered (fun B _ => NextBlock B)
    (fun B _ => or_intror (proj2 (NextBlock_fresh B)))
    7 recorder (waiting, []) ∅ CfixContinue CfixContinue 0x400000 0 0 5 KrStubs.Demo.steps 0x401000 0x5000
    KrStubs.Demo.connection false false) as (k & _ & E).
  - by split; simpl; lia.
  - exact steps_ok.
  - done.
  - done.
  - exact waiting_callable.
  - done.
  - by vm_compute.
  - exists k. exact E.
Defined.

Example three_events :
  map (fun x => Info (snd x))
    (match CfixklpCallRoutine (fun B _ => NextBlock B) 7 DeviceIoControl 8 recorder 0x400000 0 0 5
       (MkCW ∅ (waiting, [])) with
     | Some (_, s) => snd (KlCalls.World s)
     | None => []
     end) =
  [Log "hello"; FailedAssertion "suite.c" "Add" 42 "a == b" 0; UncaughtException 0xC0000005]%string.
Proof. vm_compute. reflexivity. Qed.

(** The heap has three more blocks besides the response: the first report needs two, the
    second four.  It and the third are left out, and the call is said to be good. *)
Definition ScarceMalloc (B : gset Z) (n : Z) : Z := if (size B <? 4)%nat then NextBlock B else 0.

Example out_of_memory :
  match CfixklpCallRoutine ScarceMalloc 7 DeviceIoControl 8 recorder 0x400000 0 0 5 (MkCW ∅ (waiting, [])) with
  | Some (r, s) => Some (r, map (fun x => Info (snd x)) (snd (KlCalls.World s)))
  | None => None
  end = Some ((S_OK, MkResult false false 77), [Log "hello"])%string.
Proof. vm_compute. reflexivity. Qed.

(** A message of 64 KB is left out without a note, one that only does not fit is not. *)
Example too_long_or_too_large :
  let log n := MkReport false CfixEventLog None None None 0 None (Some (String.string_of_list_ascii (repeat (Ascii.ascii_of_nat 120) n)))
                 7 7 (fun _ => []) in
  (Kept 8 4072 [log 32767%nat], Lost 8 4072 [log 32767%nat]) = ([], false) /\
  (Kept 8 4072 [log 2000%nat], Lost 8 4072 [log 2000%nat]) = ([], true).
Proof. vm_compute. auto. Qed.
End Demo.
