(* ===== verification/KrDriver.v ===== *)
(** * Drivers (cfixkern/cfixkr: main.c, drvconn.c, util.c, thread.c; cfixkern/cfixkdrv)

    The reflector and a test driver as Windows sees them: how they are loaded and
    unloaded, how the test driver asks the reflector for the report sink, and how its
    test code calls the report stubs through the sink.  The composition of both
    drivers: a test driver is connected from the time it has been loaded until it is
    unloaded.  [ASSERT] stops the system in a checked build, and does nothing in a
    free build. *)
From stdpp Require Import base gmap list strings.
From Stdlib Require Import ZArith Lia.
From S2P Require Import Prelude CfixApi PeModule RptStubs IoBuffer KrEvents KrModule KrConn KrStubs.
Local Open Scope Z_scope.
Local Open Scope cfix_scope.

(** ** The report sink *)
Definition STATUS_PENDING : Z := 0x103.
Definition STATUS_INSUFFICIENT_RESOURCES : Z := 0xC000009A.
Definition STATUS_DRIVER_INTERNAL_ERROR : Z := 0xC0000183.
Definition STATUS_NOT_IMPLEMENTED : Z := 0xC0000002.
Definition IRP_MN_QUERY_INTERFACE : Z := 8.

Definition GUID : Type := Z * Z * Z * list Z.

(* src/include/cfixkr.h:67-68 (GUID_CFIXKR_REPORT_SINK) *)
Definition GUID_CFIXKR_REPORT_SINK : GUID :=
  (0x118f0a99, 0xc318, 0x45da, [0xb5; 0x5c; 0x6e; 0x19; 0xa4; 0xe1; 0x24; 0xc]).

(* src/include/cfixkr.h:73-73 (CFIXKR_REPORT_SINK_VERSION_1) *)
Definition CFIXKR_REPORT_SINK_VERSION_1 : Z := 0x1000.
(* src/include/cfixkr.h:78-78 (CFIXKR_REPORT_SINK_VERSION_2) *)
Definition CFIXKR_REPORT_SINK_VERSION_2 : Z := 0x2000.
(* src/include/cfixkr.h:83-83 (CFIXKR_REPORT_SINK_VERSION_3) *)
Definition CFIXKR_REPORT_SINK_VERSION_3 : Z := 0x3000.

(** The methods, in the order of their fields. *)
(* src/include/cfixkr.h:244-255 (CFIXKR_REPORT_SINK_METHODS_3) *)
Inductive METHOD :=
  | MReportFailedAssertion | MAssertEqualsUlong | MReportInconclusiveness | MReportLog
  | MReportFailedAssertionFormat | MFail | MGetValue | MSetValue | MCreateSystemThread.
#[export] Instance METHOD_EqDecision : EqDecision METHOD.
Proof. solve_decision. Defined.

(** The index of the field of a method. *)
Definition Field (m : METHOD) : nat :=
  match m with
  | MReportFailedAssertion => 0 | MAssertEqualsUlong => 1 | MReportInconclusiveness => 2 | MReportLog => 3
  | MReportFailedAssertionFormat => 4 | MFail => 5 | MGetValue => 6 | MSetValue => 7 | MCreateSystemThread => 8
  end%nat.

(* src/cfixkern/cfixkr/rptstubs.c:848-858 (CfixkrpGetReportSinkStubs) *)
Definition CfixkrpGetReportSinkStubs : list METHOD :=
  [MReportFailedAssertion; MAssertEqualsUlong; MReportInconclusiveness; MReportLog].

(* src/cfixkern/cfixkr/rptstubs.c:860-874 (CfixkrpGetReportSinkStubs2) *)
Definition CfixkrpGetReportSinkStubs2 : list METHOD :=
  [MReportFailedAssertion; MAssertEqualsUlong; MReportInconclusiveness; MReportLog;
   MReportFailedAssertionFormat; MFail; MGetValue; MSetValue].

(* src/cfixkern/cfixkr/rptstubs.c:876-890 (CfixkrpGetReportSinkStubs3) *)
Definition CfixkrpGetReportSinkStubs3 : list METHOD :=
  [MReportFailedAssertion; MAssertEqualsUlong; MReportInconclusiveness; MReportLog;
   MReportFailedAssertionFormat; MFail; MGetValue; MSetValue; MCreateSystemThread].

(** The two routines of [INTERFACE]. *)
Inductive REFERENCE_ROUTINE := ExternalReferenceConnection | ExternalDereferenceConnection.

(** Memory for a sink: a method that is NULL is [None]; the number of fields is the
    number there is room for. *)
(* src/include/cfixkr.h:273-277 (CFIXKR_REPORT_SINK_INTERFACE_3) *)
Record REPORT_SINK := MkSink {
  SinkSize : Z;
  SinkVersion : Z;
  SinkContext : Z;
  SinkReference : option REFERENCE_ROUTINE;
  SinkDereference : option REFERENCE_ROUTINE;
  SinkMethods : list (option METHOD) }.

(** Memory that is zero. *)
Definition ZeroSink (fields : nat) : REPORT_SINK := MkSink 0 0 0 None None (repeat None fields).

(** The parameters of a request for an interface. *)
Record IO_STACK_LOCATION := MkLocation {
  MinorFunction : Z;
  InterfaceType : GUID;
  QuerySize : Z;
  QueryVersion : Z;
  QueryInterface : Z;
  InterfaceSpecificData : Z }.

(** What a new thread is told. *)
(* src/cfixkern/cfixkr/thread.c:27-42 (CFIXKRP_THREAD_START_PARAMETERS) *)
Record CFIXKRP_THREAD_START_PARAMETERS := MkParameters {
  Connection : Z;
  StartAddress : Z;
  UserParaneter : Z;
  StartFilament : Z }.

(** The state of the system: the reflector's own state; sinks by address; requests
    that have not been completed; devices with their reference counts; file objects
    with their devices; the symbolic link; whether the reflector's routines have been
    installed and the device of its driver object; the device the test driver keeps;
    the open thread handles; the child threads that have been started and what for. *)
Record DW := MkDW {
  Kernel : KW;
  Sinks : gmap Z REPORT_SINK;
  Irps : gset Z;
  Devices : gmap Z Z;
  Files : gmap Z Z;
  SymbolicLink : bool;
  Installed : bool;
  DriverDevice : Z;
  CfixkDrvCfixkrDevice : Z;
  ThreadHandles : gset Z;
  Running : list (Z * CFIXKRP_THREAD_START_PARAMETERS) }.

Definition set_Kernel v s := MkDW v (Sinks s) (Irps s) (Devices s) (Files s) (SymbolicLink s) (Installed s) (DriverDevice s) (CfixkDrvCfixkrDevice s) (ThreadHandles s) (Running s).
Definition set_Sinks v s := MkDW (Kernel s) v (Irps s) (Devices s) (Files s) (SymbolicLink s) (Installed s) (DriverDevice s) (CfixkDrvCfixkrDevice s) (ThreadHandles s) (Running s).
Definition set_Irps v s := MkDW (Kernel s) (Sinks s) v (Devices s) (Files s) (SymbolicLink s) (Installed s) (DriverDevice s) (CfixkDrvCfixkrDevice s) (ThreadHandles s) (Running s).
Definition set_Devices v s := MkDW (Kernel s) (Sinks s) (Irps s) v (Files s) (SymbolicLink s) (Installed s) (DriverDevice s) (CfixkDrvCfixkrDevice s) (ThreadHandles s) (Running s).
Definition set_Files v s := MkDW (Kernel s) (Sinks s) (Irps s) (Devices s) v (SymbolicLink s) (Installed s) (DriverDevice s) (CfixkDrvCfixkrDevice s) (ThreadHandles s) (Running s).
Definition set_SymbolicLink v s := MkDW (Kernel s) (Sinks s) (Irps s) (Devices s) (Files s) v (Installed s) (DriverDevice s) (CfixkDrvCfixkrDevice s) (ThreadHandles s) (Running s).
Definition set_Installed v s := MkDW (Kernel s) (Sinks s) (Irps s) (Devices s) (Files s) (SymbolicLink s) v (DriverDevice s) (CfixkDrvCfixkrDevice s) (ThreadHandles s) (Running s).
Definition set_DriverDevice v s := MkDW (Kernel s) (Sinks s) (Irps s) (Devices s) (Files s) (SymbolicLink s) (Installed s) v (CfixkDrvCfixkrDevice s) (ThreadHandles s) (Running s).
Definition set_Cfixkr v s := MkDW (Kernel s) (Sinks s) (Irps s) (Devices s) (Files s) (SymbolicLink s) (Installed s) (DriverDevice s) v (ThreadHandles s) (Running s).
Definition set_ThreadHandles v s := MkDW (Kernel s) (Sinks s) (Irps s) (Devices s) (Files s) (SymbolicLink s) (Installed s) (DriverDevice s) (CfixkDrvCfixkrDevice s) v (Running s).
Definition set_Running v s := MkDW (Kernel s) (Sinks s) (Irps s) (Devices s) (Files s) (SymbolicLink s) (Installed s) (DriverDevice s) (CfixkDrvCfixkrDevice s) (ThreadHandles s) v.

Local Abbreviation M := (ST DW).

(** What the reflector does to its own state. *)
Definition kernel {A} (x : ST KW A) : M A := fun s =>
  match x (Kernel s) with Some (a, k) => Some (a, set_Kernel k s) | None => None end.
Definition load_sink (a : Z) : M REPORT_SINK := fun s =>
  match Sinks s !! a with Some x => Some (x, s) | None => None end.
Definition store_sink (a : Z) (x : REPORT_SINK) : M unit := modify (fun s => set_Sinks (<[a := x]> (Sinks s)) s).

Section drivers.
Context (P : Z) (Pool : gset Z -> Z -> Z) (Checked : bool).
Context (Convert : string -> Z + string) (GetFixtureRoutine : Z -> option CFIX_TEST_PE_DEFINITION).
Context (ImageOf : Z -> IMAGE) (HasArrays : Z -> bool) (InitResource : ST KW Z).

Definition ASSERT (b : bool) : M unit := if Checked then assert_ b else ret tt.

Definition SIZEOF_SINK (methods : nat) : Z := 4 * P + P * Z.of_nat methods.

(** Writing a sink with these methods; the memory must be large enough. *)
(* src/cfixkern/cfixkr/drvconn.c:360-366 (CfixkrpQuerySinkInterfaceDriverConnection3) *)
Definition WriteSink (Methods : list METHOD) (Version Connection Interface : Z) : M unit :=
  k <- load_sink Interface ;;
  if (length (SinkMethods k) <? length Methods)%nat then fault
  else
    store_sink Interface
      (MkSink (SIZEOF_SINK (length Methods)) Version Connection
         (Some ExternalReferenceConnection) (Some ExternalDereferenceConnection)
         ((Some <$> Methods) ++ drop (length Methods) (SinkMethods k))).

(* src/cfixkern/cfixkr/drvconn.c:312-329 (CfixkrpQuerySinkInterfaceDriverConnection) *)
Definition CfixkrpQuerySinkInterfaceDriverConnection (Connection Interface : Z) : M unit :=
  WriteSink CfixkrpGetReportSinkStubs CFIXKR_REPORT_SINK_VERSION_1 Connection Interface.

(* src/cfixkern/cfixkr/drvconn.c:331-348 (CfixkrpQuerySinkInterfaceDriverConnection2) *)
Definition CfixkrpQuerySinkInterfaceDriverConnection2 (Connection Interface : Z) : M unit :=
  WriteSink CfixkrpGetReportSinkStubs2 CFIXKR_REPORT_SINK_VERSION_2 Connection Interface.

(* src/cfixkern/cfixkr/drvconn.c:350-367 (CfixkrpQuerySinkInterfaceDriverConnection3) *)
Definition CfixkrpQuerySinkInterfaceDriverConnection3 (Connection Interface : Z) : M unit :=
  WriteSink CfixkrpGetReportSinkStubs3 CFIXKR_REPORT_SINK_VERSION_3 Connection Interface.

(** ** Finding the module of an address (util.c)

    [AuxKlibQueryModuleInformation]: the status and the size of the list; the status
    and for each module the load address and the size of the image. *)
Context (AuxKlibQuerySize : Z * Z) (AuxKlibQueryModules : Z -> Z * list (Z * Z)).

Definition SIZEOF_MODULE_INFO : Z := 272.

(** The first module that contains the address; 0 if there is none. *)
(* src/cfixkern/cfixkr/util.c:127-138 (CfixkrpGetModuleBaseAddress) *)
Fixpoint FindModule (Modules : list (Z * Z)) (Address : Z) : Z :=
  match Modules with
  | [] => 0
  | (ImageBase, ImageSize) :: l =>
      if (ImageBase <=? Address) && (Address <? wrap (8 * P) (ImageBase + ImageSize)) then ImageBase
      else FindModule l Address
  end.

(** A status and the load address. *)
(* src/cfixkern/cfixkr/util.c:69-153 (CfixkrpGetModuleBaseAddress) *)
Definition CfixkrpGetModuleBaseAddress (AddressWithinModule : Z) : M (Z * Z) :=
  let (Status, BufferSize) := AuxKlibQuerySize in
  if negb (NT_SUCCESS Status) then ret (Status, 0)
  else
    ASSERT (BufferSize mod SIZEOF_MODULE_INFO =? 0) ;;;
    Modules <- kernel (pool (ExAllocatePool Pool BufferSize)) ;;
    if Modules =? 0 then ret (STATUS_NO_MEMORY, 0)
    else
      let (Status, Infos) := AuxKlibQueryModules BufferSize in
      let BaseAddress := if NT_SUCCESS Status then FindModule Infos AddressWithinModule else 0 in
      kernel (pool (ExFreePool Modules)) ;;;
      ASSERT (negb (BaseAddress =? 0)) ;;;
      if BaseAddress =? 0 then ret (STATUS_UNSUCCESSFUL, 0) else ret (Status, BaseAddress).

(** ** The dispatch routines (main.c)

    The result of a dispatch routine: its status, and if the request has been
    completed the status and the information of the request.  A request is completed
    once. *)
(* src/cfixkern/cfixkr/util.c:28-43 (CfixkrpCompleteRequest) *)
Definition CfixkrpCompleteRequest (Irp Status Information : Z) : M (Z * option (Z * Z)) :=
  s <- gets Irps ;;
  assert_ (bool_decide (Irp ∈ s)) ;;;
  modify (set_Irps (s ∖ {[Irp]})) ;;;
  ret (Status, Some (Status, Information)).

(* src/cfixkern/cfixkr/main.c:327-338 (CfixkrpDispatchCreate) *)
Definition CfixkrpDispatchCreate (Irp : Z) : M (Z * option (Z * Z)) :=
  CfixkrpCompleteRequest Irp STATUS_SUCCESS 0.

(* src/cfixkern/cfixkr/main.c:340-350 (CfixkrpDispatchCleanup) *)
Definition CfixkrpDispatchCleanup (Irp : Z) : M (Z * option (Z * Z)) :=
  CfixkrpCompleteRequest Irp STATUS_SUCCESS 0.

(** [FsContext]: that of the file object. *)
(* src/cfixkern/cfixkr/main.c:352-368 (CfixkrpDispatchClose) *)
Definition CfixkrpDispatchClose (Irp FsContext : Z) : M (Z * option (Z * Z)) :=
  ASSERT (FsContext =? 0) ;;;
  CfixkrpCompleteRequest Irp STATUS_SUCCESS 0.

(** The interface for a version, or the status. *)
(* src/cfixkern/cfixkr/main.c:481-513 (CfixkrpDispatchPnp) *)
Definition QuerySink (Version Reporter Interface : Z) (Status : Z) : M Z :=
  if Version =? CFIXKR_REPORT_SINK_VERSION_1 then
    CfixkrpQuerySinkInterfaceDriverConnection Reporter Interface ;;; ret Status
  else if Version =? CFIXKR_REPORT_SINK_VERSION_2 then
    CfixkrpQuerySinkInterfaceDriverConnection2 Reporter Interface ;;; ret Status
  else if Version =? CFIXKR_REPORT_SINK_VERSION_3 then
    CfixkrpQuerySinkInterfaceDriverConnection3 Reporter Interface ;;; ret Status
  else ret STATUS_INVALID_DEVICE_REQUEST.

(* src/cfixkern/cfixkr/main.c:418-537 (CfixkrpDispatchPnp) *)
Definition CfixkrpDispatchPnp (Irp : Z) (l : IO_STACK_LOCATION) : M (Z * option (Z * Z)) :=
  i <- gets (fun s => Irql (Kernel s)) ;;
  ASSERT (i =? PASSIVE_LEVEL) ;;;
  if MinorFunction l =? IRP_MN_QUERY_INTERFACE then
    if bool_decide (InterfaceType l = GUID_CFIXKR_REPORT_SINK) &&
       (SIZEOF_SINK (length CfixkrpGetReportSinkStubs) <=? QuerySize l) &&
       negb (QueryInterface l =? 0) && negb (InterfaceSpecificData l =? 0)
    then
      b <- CfixkrpGetModuleBaseAddress (InterfaceSpecificData l) ;;
      if negb (NT_SUCCESS (fst b)) then ret (STATUS_DRIVER_INTERNAL_ERROR, None)
      else
        c <- kernel (CfixkrpCreateAndRegisterDriverConnection P Pool Convert GetFixtureRoutine ImageOf HasArrays
                       InitResource (snd b)) ;;
        Status <- (if NT_SUCCESS (fst c) then QuerySink (QueryVersion l) (snd c) (QueryInterface l) (fst c)
                   else ret (fst c)) ;;
        CfixkrpCompleteRequest Irp Status 0
    else CfixkrpCompleteRequest Irp STATUS_INVALID_DEVICE_REQUEST 0
  else CfixkrpCompleteRequest Irp STATUS_INVALID_DEVICE_REQUEST 0.

(** ** Loading and unloading the reflector (main.c)

    [AuxKlibInitialize] is a status; [IoCreateDevice], given the devices there are: the
    status, and the pointer it writes, if it writes one; [Uninitialized]: what the
    variable for the pointer holds before. *)
Context (AuxKlibInitialize : Z) (IoCreateDevice_ : gmap Z Z -> Z * option Z) (IoCreateSymbolicLink_ : bool -> Z).
Context (Uninitialized : Z).

(** A new device is not referenced, and becomes the device of the driver object. *)
Definition IoCreateDevice : M (Z * Z) :=
  d <- gets Devices ;;
  let (Status, Written) := IoCreateDevice_ d in
  let DeviceObject := default Uninitialized Written in
  when_ (NT_SUCCESS Status)
    (modify (set_Devices (<[DeviceObject := 0]> d)) ;;; modify (set_DriverDevice DeviceObject)) ;;;
  ret (Status, DeviceObject).

(** The pointer must be one to a device. *)
Definition IoDeleteDevice (DeviceObject : Z) : M unit :=
  d <- gets Devices ;;
  match d !! DeviceObject with
  | Some _ => modify (set_Devices (delete DeviceObject d)) ;;; modify (set_DriverDevice 0)
  | None => fault
  end.

Definition IoCreateSymbolicLink : M Z :=
  l <- gets SymbolicLink ;;
  let Status := IoCreateSymbolicLink_ l in
  when_ (NT_SUCCESS Status) (modify (set_SymbolicLink true)) ;;; ret Status.

(* src/cfixkern/cfixkr/main.c:530-547 (CfixkrpUnload) *)
Definition CfixkrpUnload : M unit :=
  DeviceObject <- gets DriverDevice ;;
  modify (set_SymbolicLink false) ;;;
  when_ (negb (DeviceObject =? 0)) (IoDeleteDevice DeviceObject) ;;;
  kernel CfixkrpTeardownDriverConnectionRegistry.

(* src/cfixkern/cfixkr/main.c:619-632 (DriverEntry) *)
Definition EntryCleanup (Status DeviceObject : Z) : M Z :=
  when_ (negb (NT_SUCCESS Status))
    (when_ (negb (DeviceObject =? 0)) (IoDeleteDevice DeviceObject) ;;;
     kernel CfixkrpTeardownDriverConnectionRegistry) ;;;
  ret Status.

(* src/cfixkern/cfixkr/main.c:554-635 (DriverEntry) *)
Definition CfixkrDriverEntry : M Z :=
  if negb (NT_SUCCESS AuxKlibInitialize) then ret AuxKlibInitialize
  else
    Status <- kernel (CfixkrpInitializeDriverConnectionRegistry P Pool) ;;
    if negb (NT_SUCCESS Status) then ret Status
    else
      d <- IoCreateDevice ;;
      if negb (NT_SUCCESS (fst d)) then EntryCleanup (fst d) (snd d)
      else
        Status <- IoCreateSymbolicLink ;;
        if negb (NT_SUCCESS Status) then EntryCleanup Status (snd d)
        else modify (set_Installed true) ;;; EntryCleanup Status (snd d).

(** ** The test driver (cfixkdrv)

    [SinkAt]: the address of the driver's variable for the sink; [CodeAt]: that of one
    of its routines; the allocation of requests; [IoGetDeviceObjectPointer_], given the
    devices: a status, or a file object and its device; the file object holds the
    device until it is closed.  The I/O manager fails requests for a driver that has
    not installed its routines. *)
Context (SinkAt CodeAt : Z) (NewIrp : gset Z -> Z) (IoGetDeviceObjectPointer_ : gmap Z Z -> Z + Z * Z).

Definition IoGetDeviceObjectPointer : M (Z + Z * Z) :=
  d <- gets Devices ;;
  match IoGetDeviceObjectPointer_ d with
  | inl Status => ret (inl Status)
  | inr (File, Device) => modify (fun s => set_Files (<[File := Device]> (Files s)) s) ;;; ret (inr (File, Device))
  end.

Definition CloseFile (File : Z) : M unit :=
  f <- gets Files ;;
  match f !! File with Some _ => modify (set_Files (delete File f)) | None => fault end.

Definition ObReferenceDevice (Device : Z) : M unit :=
  d <- gets Devices ;;
  match d !! Device with Some n => modify (set_Devices (<[Device := n + 1]> d)) | None => fault end.

Definition ObDereferenceDevice (Device : Z) : M unit :=
  d <- gets Devices ;;
  match d !! Device with
  | Some n => if 0 <? n then modify (set_Devices (<[Device := n - 1]> d)) else fault
  | None => fault
  end.

Definition IoBuildSynchronousFsdRequest : M Z :=
  s <- gets Irps ;;
  let Irp := NewIrp s in
  when_ (negb (Irp =? 0)) (modify (set_Irps (s ∪ {[Irp]}))) ;;; ret Irp.

Definition IoCallDriver (Device Irp : Z) (l : IO_STACK_LOCATION) : M (Z * option (Z * Z)) :=
  s <- gets (fun s => s) ;;
  match Devices s !! Device with
  | None => fault
  | Some _ =>
      if Installed s then CfixkrpDispatchPnp Irp l else CfixkrpCompleteRequest Irp STATUS_INVALID_DEVICE_REQUEST 0
  end.

(* src/cfixkern/cfixkdrv/drvmain.c:37-46 (CfixkDrvNotImplemented) *)
Definition CfixkDrvNotImplemented (Irp : Z) : M (Z * option (Z * Z)) := ret (STATUS_NOT_IMPLEMENTED, None).

(** A request that is pending is waited for. *)
(* src/cfixkern/cfixkdrv/drvmain.c:65-128 (CfixkDrvQueryReporter) *)
Definition CfixkDrvQueryReporter (CfixkrDevObject : Z) : M Z :=
  Irp <- IoBuildSynchronousFsdRequest ;;
  if Irp =? 0 then ret STATUS_INSUFFICIENT_RESOURCES
  else
    r <- IoCallDriver CfixkrDevObject Irp
           (MkLocation IRP_MN_QUERY_INTERFACE GUID_CFIXKR_REPORT_SINK
              (SIZEOF_SINK (length CfixkrpGetReportSinkStubs3)) CFIXKR_REPORT_SINK_VERSION_3 SinkAt CodeAt) ;;
    Status <- (if fst r =? STATUS_PENDING then
                 match snd r with Some (Status, _) => ret Status | None => fault end
               else ret (fst r)) ;;
    k <- load_sink SinkAt ;;
    ASSERT (Bool.eqb (NT_SUCCESS Status) (negb (SinkContext k =? 0))) ;;;
    ASSERT (Bool.eqb (NT_SUCCESS Status) (SinkVersion k =? CFIXKR_REPORT_SINK_VERSION_3)) ;;;
    ret Status.

(* src/cfixkern/cfixkdrv/drvmain.c:130-183 (DriverEntry) *)
Definition CfixkdrvDriverEntry : M Z :=
  r <- IoGetDeviceObjectPointer ;;
  match r with
  | inl Status => ret Status
  | inr (File, CfixkrObject) =>
      Status <- CfixkDrvQueryReporter CfixkrObject ;;
      when_ (NT_SUCCESS Status)
        (ObReferenceDevice CfixkrObject ;;; modify (set_Cfixkr CfixkrObject)) ;;;
      CloseFile File ;;;
      ret Status
  end.

(** The part of a sink that the first version of the interface has. *)
Definition ZeroMemory (methods : nat) (k : REPORT_SINK) : REPORT_SINK :=
  MkSink 0 0 0 None None (repeat None methods ++ drop methods (SinkMethods k)).

(* src/cfixkern/cfixkdrv/drvmain.c:48-63 (CfixkDrvUnload) *)
Definition CfixkDrvUnload : M unit :=
  d <- gets CfixkDrvCfixkrDevice ;;
  if d =? 0 then ret tt
  else
    k <- load_sink SinkAt ;;
    match SinkDereference k with
    | Some ExternalDereferenceConnection => kernel (CfixkrsExternalDereferenceConnection (SinkContext k))
    | Some ExternalReferenceConnection => kernel (CfixkrsExternalReferenceConnection (SinkContext k))
    | None => fault
    end ;;;
    store_sink SinkAt (ZeroMemory (length CfixkrpGetReportSinkStubs) k) ;;;
    ObDereferenceDevice d.

(** ** The reflector is loaded and unloaded *)
Lemma bind_kernel {A B} (x : ST KW A) (k : A -> M B) s a k' :
  x (Kernel s) = Some (a, k') -> bind (kernel x) k s = k a (set_Kernel k' s).
Proof. intros E. unfold bind, kernel. by rewrite E. Qed.

Lemma run_kernel {A} (x : ST KW A) s a k' :
  x (Kernel s) = Some (a, k') -> kernel x s = Some (a, set_Kernel k' s).
Proof. intros E. unfold kernel. by rewrite E. Qed.

Lemma Runs_kernel {A B} (x : ST KW A) (k : A -> M B) s Q :
  Runs x (Kernel s) (fun a k' => Runs (k a) (set_Kernel k' s) Q) -> Runs (bind (kernel x) k) s Q.
Proof. intros (a & k' & E & H). unfold Runs. by rewrite (bind_kernel _ _ _ _ _ E). Qed.

Lemma Runs_gets {A B} (f : DW -> A) (k : A -> M B) s Q : Runs (k (f s)) s Q -> Runs (bind (gets f) k) s Q.
Proof. done. Qed.

Lemma Runs_ASSERT {B} b (k : unit -> M B) s Q : b = true -> Runs (k tt) s Q -> Runs (bind (ASSERT b) k) s Q.
Proof. intros ->. unfold ASSERT. by destruct Checked. Qed.

Lemma set_Kernel_id s : set_Kernel (Kernel s) s = s.
Proof. by destruct s. Qed.

(** The allocator fails, or yields a fresh block. *)
Context (HPool : forall B n, Pool B n = 0 \/ Pool B n ∉ B).

Lemma Runs_pool {A} n (k : Z -> M A) s Q :
  Runs (k 0) s Q ->
  (forall a, a <> 0 -> a ∉ PoolBlocks (Kernel s) -> Runs (k a) (set_Kernel (Live a (Kernel s)) s) Q) ->
  Runs (bind (kernel (pool (ExAllocatePool Pool n))) k) s Q.
Proof.
  intros H0 Ha. apply Runs_kernel. unfold Runs at 1, pool, ExAllocatePool. cbn zeta beta iota.
  replace (set_PoolBlocks (PoolBlocks (Kernel s)) (Kernel s)) with (Kernel s) by (by destruct s as [[] ]).
  destruct (Z.eqb_spec (Pool (PoolBlocks (Kernel s)) n) 0) as [E0|E0].
  - rewrite E0. exists 0, (Kernel s). split; [|by rewrite set_Kernel_id]. by destruct s as [[] ].
  - eexists _, _. split; [done|]. apply Ha; [done|]. by destruct (HPool (PoolBlocks (Kernel s)) n).
Qed.

Section reflector_life.
(** A failing [IoCreateDevice] writes NULL; a new device is a new one. *)
Context (HNoDevice : forall d, NT_SUCCESS (fst (IoCreateDevice_ d)) = false -> snd (IoCreateDevice_ d) = Some 0).
Context (HDevice : forall d, NT_SUCCESS (fst (IoCreateDevice_ d)) = true ->
  exists a, snd (IoCreateDevice_ d) = Some a /\ a <> 0 /\ d !! a = None).

(** The reflector is not loaded. *)
Record NotLoaded (s : DW) : Prop := {
  not_device : DriverDevice s = 0;
  not_link : SymbolicLink s = false;
  not_registry : Registry (Kernel s) = None }.

(** The reflector is loaded: its device is there, and its registry. *)
Record Loaded (s : DW) (Device T : Z) : Prop := {
  loaded_device : DriverDevice s = Device /\ Device <> 0 /\ Devices s !! Device = Some 0;
  loaded_link : SymbolicLink s = true;
  loaded_installed : Installed s = true;
  loaded_registry : Registry (Kernel s) = Some (T, ∅);
  loaded_up : TornDown (Kernel s) = false }.

(** What is left of a driver that is gone: static data and its driver object. *)
Definition Forget (s : DW) : DW := set_Installed false (set_Kernel (set_TornDown false (Kernel s)) s).

Lemma teardown_empty k T : Registry k = Some (T, ∅) ->
  CfixkrpTeardownDriverConnectionRegistry k =
  Some (tt, set_Registry None (set_PoolBlocks (PoolBlocks k ∖ {[T]}) (set_TornDown true k))).
Proof.
  intros Hr. unfold CfixkrpTeardownDriverConnectionRegistry. rewrite bind_modify. unfold load_connections, bind.
  cbn. by rewrite Hr.
Qed.

Definition Unloaded (s : DW) (T : Z) : DW :=
  set_Kernel (set_Registry None (set_PoolBlocks (PoolBlocks (Kernel s) ∖ {[T]}) (set_TornDown true (Kernel s)))) s.

(** Unloading: the device, the link and the registry are gone. *)
Lemma unload_loaded s Device T : Loaded s Device T ->
  CfixkrpUnload s =
  Some (tt, set_Devices (delete Device (Devices s)) (set_DriverDevice 0 (set_SymbolicLink false (Unloaded s T)))).
Proof.
  intros [(Hd & H0 & Hx) _ _ Hr _]. unfold CfixkrpUnload. rewrite bind_gets, bind_modify, Hd.
  rewrite (proj2 (Z.eqb_neq _ _) H0). cbn [negb when_]. unfold IoDeleteDevice. rewrite bind_assoc, bind_gets.
  cbn [Devices set_SymbolicLink]. rewrite Hx, !bind_assoc, !bind_modify.
  erewrite run_kernel by (apply teardown_empty; exact Hr). done.
Qed.

Lemma cleanup_failed s Status T : NT_SUCCESS Status = false -> Registry (Kernel s) = Some (T, ∅) ->
  EntryCleanup Status 0 s = Some (Status, Unloaded s T).
Proof.
  intros HS Hr. unfold EntryCleanup. rewrite HS. cbn [negb when_ Z.eqb]. rewrite bind_assoc, bind_ret.
  by rewrite (bind_kernel _ _ _ _ _ (teardown_empty _ T Hr)).
Qed.

Lemma cleanup_device s Status Device T : NT_SUCCESS Status = false -> Registry (Kernel s) = Some (T, ∅) ->
  Device <> 0 -> is_Some (Devices s !! Device) ->
  EntryCleanup Status Device s =
  Some (Status, set_Devices (delete Device (Devices s)) (set_DriverDevice 0 (Unloaded s T))).
Proof.
  intros HS Hr H0 [n Hx]. unfold EntryCleanup. rewrite HS, (proj2 (Z.eqb_neq _ _) H0). cbn [negb when_].
  unfold IoDeleteDevice. rewrite !bind_assoc, bind_gets, Hx, !bind_assoc, !bind_modify.
  assert (Registry (Kernel (set_DriverDevice 0 (set_Devices (delete Device (Devices s)) s))) = Some (T, ∅)) as Hr' by done.
  by rewrite (bind_kernel _ _ _ _ _ (teardown_empty _ T Hr')).
Qed.

Lemma forget_unloaded s T : Registry (Kernel s) = None -> T ∉ PoolBlocks (Kernel s) ->
  Forget (Unloaded (set_Kernel (set_TornDown false (set_Registry (Some (T, ∅)) (Live T (Kernel s)))) s) T) = Forget s.
Proof.
  intros Hr Hn. destruct s as [[B m c r t f ch i] ?]. cbn in *. subst r.
  unfold Forget, Unloaded, Live, set_PoolBlocks, set_TornDown, set_Registry, set_Kernel. cbn.
  replace ((B ∪ {[T]}) ∖ {[T]}) with B by (clear -Hn; set_solver). done.
Qed.

Lemma entry_runs s : NotLoaded s ->
  Runs CfixkrDriverEntry s (fun Status s' =>
    if NT_SUCCESS Status then
      exists Device T, Loaded s' Device T /\ T ∉ PoolBlocks (Kernel s) /\ Devices s !! Device = None /\
        s' = set_Installed true (set_SymbolicLink true (set_DriverDevice Device (set_Devices (<[Device := 0]> (Devices s))
               (set_Kernel (set_TornDown false (set_Registry (Some (T, ∅)) (Live T (Kernel s)))) s))))
    else Forget s' = Forget s).
Proof.
  intros [Hd Hl Hr]. unfold CfixkrDriverEntry. destruct (NT_SUCCESS AuxKlibInitialize) eqn:HA; cbn [negb].
  2: { apply Runs_ret. by rewrite HA. }
  apply Runs_kernel. unfold CfixkrpInitializeDriverConnectionRegistry. apply (Runs_alloc _ HPool).
  { apply Runs_ret. cbn. apply Runs_ret. cbn. by rewrite set_Kernel_id. }
  intros T HT0 HT. rewrite (proj2 (Z.eqb_neq _ _) HT0). unfold Runs at 1, store_connections. rewrite !bind_modify.
  eexists _, _. split; [reflexivity|].
  change (negb (NT_SUCCESS STATUS_SUCCESS)) with false. cbv iota.
  set (s1 := set_Kernel _ s). assert (Registry (Kernel s1) = Some (T, ∅)) as Hr1 by done.
  unfold IoCreateDevice. apply Runs_bind. unfold Runs at 1. rewrite bind_gets. change (Devices s1) with (Devices s).
  destruct (IoCreateDevice_ (Devices s)) as [St W] eqn:EC. destruct (NT_SUCCESS St) eqn:HSt; cbn [when_ fst snd].
  2: { pose proof (HNoDevice (Devices s)) as HN. rewrite EC in HN. specialize (HN HSt). cbn in HN. subst W.
       rewrite bind_ret. eexists _, _. split; [reflexivity|]. cbn [fst snd default]. rewrite HSt. cbn [negb].
       eexists _, _. split; [by apply cleanup_failed|]. rewrite HSt. subst s1. by apply forget_unloaded. }
  pose proof (HDevice (Devices s)) as HD. rewrite EC in HD. destruct (HD HSt) as (a & Ha & Ha0 & Hn). cbn in Ha. subst W.
  rewrite bind_assoc, !bind_modify. eexists _, _. split; [reflexivity|]. cbn [fst snd default]. rewrite HSt. cbn [negb].
  unfold IoCreateSymbolicLink. apply Runs_bind. unfold Runs at 1. rewrite bind_gets.
  destruct (NT_SUCCESS (IoCreateSymbolicLink_ _)) eqn:HL; cbn [when_].
  - rewrite bind_modify. eexists _, _. split; [reflexivity|]. rewrite HL. cbn [negb].
    unfold Runs. rewrite bind_modify. unfold EntryCleanup. rewrite HL. cbn [negb when_]. rewrite bind_ret.
    eexists _, _. split; [reflexivity|]. cbn beta. rewrite HL. exists a, T. split_and!; [|done..].
    split; [|done..]. cbn. by rewrite lookup_insert_eq.
  - rewrite bind_ret. eexists _, _. split; [reflexivity|]. rewrite HL. cbn [negb].
    eexists _, _. split; [apply (cleanup_device _ _ _ T); [done..|]; cbn; rewrite lookup_insert_eq; by eexists|].
    cbn beta. rewrite HL. rewrite <- (forget_unloaded s T) by done. subst s1.
    destruct s as [k si ir de fi sl ins dd cf th ru]. cbn in Hd, Hl, Hr, Hn, HT |- *. subst dd sl.
    unfold Forget, Unloaded. cbn. by rewrite delete_insert_id.
Qed.

(** The life of the reflector: its entry returns, and either the driver is loaded,
    with its device, its link and an empty registry of connections, and unloading it
    leaves the system as it was; or it fails and has undone all it did, provided that
    [IoCreateDevice] writes NULL when it fails. *)
Theorem reflector_life s : NotLoaded s ->
  exists Status s', CfixkrDriverEntry s = Some (Status, s') /\
  if NT_SUCCESS Status then
    (exists Device T, Loaded s' Device T) /\
    exists s'', CfixkrpUnload s' = Some (tt, s'') /\ Forget s'' = Forget s
  else Forget s' = Forget s.
Proof.
  intros Hnot. destruct (entry_runs s Hnot) as (Status & s' & E & H). exists Status, s'. split; [done|].
  destruct (NT_SUCCESS Status); [|done]. destruct H as (Device & T & HL & HT & Hn & ->). split; [by exists Device, T|].
  eexists. split; [by apply (unload_loaded _ Device T)|]. destruct Hnot as [Hd Hl Hr].
  rewrite <- (forget_unloaded s T) by done.
  destruct s as [k si ir de fi sl ins dd cf th ru]. cbn in Hd, Hl, Hr, Hn, HT |- *. subst dd sl.
  unfold Forget, Unloaded. cbn. by rewrite delete_insert_id.
Qed.
End reflector_life.

(** The pointer to the device is not initialised: if [IoCreateDevice] fails and does
    not write it, whatever it holds is deleted. *)
Lemma entry_deletes_uninitialized (s : DW) (Status T : Z) :
  NT_SUCCESS AuxKlibInitialize = true -> Pool (PoolBlocks (Kernel s)) (SIZEOF_TABLE P) = T -> T <> 0 ->
  IoCreateDevice_ (Devices s) = (Status, None) -> NT_SUCCESS Status = false ->
  Uninitialized <> 0 -> Devices s !! Uninitialized = None ->
  CfixkrDriverEntry s = None.
Proof.
  intros HA HP HT EC HS HU Hn. unfold CfixkrDriverEntry. rewrite HA. cbn [negb].
  assert (CfixkrpInitializeDriverConnectionRegistry P Pool (Kernel s) =
    Some (STATUS_SUCCESS, set_TornDown false (set_Registry (Some (T, ∅)) (Live T (Kernel s))))) as E.
  { unfold CfixkrpInitializeDriverConnectionRegistry, bind, pool, ExAllocatePool. cbn. rewrite HP.
    by rewrite (proj2 (Z.eqb_neq _ _) HT). }
  rewrite (bind_kernel _ _ _ _ _ E). change (negb (NT_SUCCESS STATUS_SUCCESS)) with false. cbv iota.
  unfold IoCreateDevice. rewrite bind_assoc, bind_gets. cbn [Devices set_Kernel]. rewrite EC, HS. cbn [when_ negb].
  rewrite bind_assoc, !bind_ret. cbn [fst snd default]. rewrite HS. cbn [negb]. unfold EntryCleanup. rewrite HS.
  cbn [negb when_]. rewrite (proj2 (Z.eqb_neq _ _) HU). cbn [negb when_]. unfold IoDeleteDevice.
  rewrite !bind_assoc, bind_gets. cbn [Devices set_Kernel]. by rewrite Hn.
Qed.

(** Only the size of the first version of the interface is asked for: a client that
    has that much memory and asks for version 3 has memory behind it overwritten. *)
Lemma short_interface_overruns s Interface k Reporter Status :
  Sinks s !! Interface = Some k -> length (SinkMethods k) = length CfixkrpGetReportSinkStubs ->
  QuerySink CFIXKR_REPORT_SINK_VERSION_3 Reporter Interface Status s = None.
Proof.
  intros Hk Hl. unfold QuerySink. cbn [Z.eqb Pos.eqb CFIXKR_REPORT_SINK_VERSION_1 CFIXKR_REPORT_SINK_VERSION_2
    CFIXKR_REPORT_SINK_VERSION_3].
  unfold CfixkrpQuerySinkInterfaceDriverConnection3, WriteSink, load_sink, bind. by rewrite Hk, Hl.
Qed.

(** ** A test driver is loaded and unloaded *)
Section test_driver_life.
Context (HInit : forall s, exists Status, InitResource s = Some (Status, s)).
Context (Load : Z) (HP : 0 < P) (HSink : SinkAt <> 0) (HCode : CodeAt <> 0).
Context (HWalk : is_Some (CfixkrsWalkExportDirectoryAndExtractFixtures P Convert GetFixtureRoutine HasArrays (ImageOf Load) Load)).
(** The driver is among the loaded modules: its code is in it, and in none before it; no
    module reaches beyond the address space. *)
Definition HasCode (m : Z * Z) : Prop := fst m <= CodeAt < fst m + snd m.
Context (HLoad0 : Load <> 0) (HSize : snd AuxKlibQuerySize mod SIZEOF_MODULE_INFO = 0).
Context (HModules : forall n, NT_SUCCESS (fst (AuxKlibQueryModules n)) = true -> exists Before Size After,
  snd (AuxKlibQueryModules n) = Before ++ (Load, Size) :: After /\ HasCode (Load, Size) /\
  Forall (fun m => ~ HasCode m) Before /\ Forall (fun m => 0 <= fst m + snd m < 2 ^ (8 * P)) (Before ++ [(Load, Size)])).
Context (HQuery : Checked = true -> forall n, NT_SUCCESS (fst (AuxKlibQueryModules n)) = true).
(** Requests are new ones; the device object that is found is there. *)
Context (HIrp : forall s, NewIrp s = 0 \/ NewIrp s ∉ s).
Context (HOpen : forall d File Device, IoGetDeviceObjectPointer_ d = inr (File, Device) ->
  Device <> 0 /\ is_Some (d !! Device)).
Context (HNotOpen : forall d Status, IoGetDeviceObjectPointer_ d = inl Status -> NT_SUCCESS Status = false).

Lemma module_found Before Size After : HasCode (Load, Size) -> Forall (fun m => ~ HasCode m) Before ->
  Forall (fun m => 0 <= fst m + snd m < 2 ^ (8 * P)) (Before ++ [(Load, Size)]) ->
  FindModule (Before ++ (Load, Size) :: After) CodeAt = Load.
Proof.
  intros HI HB. induction HB as [|[b n] Before Hb HB IH]; intros [Hw Hws]%Forall_cons; cbn [app FindModule fst snd] in *;
    rewrite wrap_small by lia; unfold HasCode in *; cbn [fst snd] in *.
  - by rewrite (proj2 (Z.leb_le _ _)), (proj2 (Z.ltb_lt _ _)) by lia.
  - destruct (Z.leb_spec b CodeAt), (Z.ltb_spec CodeAt (b + n)); cbn [andb]; [lia|by apply IH..].
Qed.

(** The load address of the driver; the pool is as before. *)
Lemma base_address_runs s :
  Runs (CfixkrpGetModuleBaseAddress CodeAt) s (fun b s' =>
    s' = s /\ (NT_SUCCESS (fst b) = false \/ (NT_SUCCESS (fst b) = true /\ snd b = Load))).
Proof.
  unfold CfixkrpGetModuleBaseAddress. destruct AuxKlibQuerySize as [St Size] eqn:EQ.
  destruct (NT_SUCCESS St) eqn:HS; cbn [negb].
  2: { apply Runs_ret. cbn. rewrite HS. auto. }
  apply Runs_ASSERT; [apply Z.eqb_eq, HSize|]. apply Runs_pool; [by apply Runs_ret; auto|]. intros a Ha Hn. rewrite (proj2 (Z.eqb_neq _ _) Ha).
  destruct (AuxKlibQueryModules Size) as [St2 Infos] eqn:EM. apply Runs_kernel.
  eexists _, _. split; [by apply free_live|].
  replace (set_Kernel (Kernel s) (set_Kernel (Live a (Kernel s)) s)) with s by (by destruct s).
  pose proof (HModules Size) as HM. rewrite EM in HM. cbn [fst snd] in HM.
  destruct (NT_SUCCESS St2) eqn:HS2.
  - destruct (HM eq_refl) as (Before & n & After & -> & HI & HB & HW). rewrite module_found by done. rewrite (proj2 (Z.eqb_neq _ _) HLoad0). apply Runs_ASSERT; [done|]. apply Runs_ret. cbn. rewrite HS2. auto.
  - apply Runs_bind. exists tt, s. split.
    { unfold ASSERT. destruct Checked; [|done]. specialize (HQuery eq_refl Size). rewrite EM in HQuery. cbn in HQuery. congruence. }
    apply Runs_ret. split; [done|]. by left.
Qed.

(** A connected sink, and what unloading makes of it. *)
Definition ConnectedSink (Conn : Z) : REPORT_SINK :=
  MkSink (SIZEOF_SINK 9) CFIXKR_REPORT_SINK_VERSION_3 Conn
    (Some ExternalReferenceConnection) (Some ExternalDereferenceConnection) (Some <$> CfixkrpGetReportSinkStubs3).
Definition StaleSink : REPORT_SINK :=
  MkSink 0 0 0 None None
    [None; None; None; None; Some MReportFailedAssertionFormat; Some MFail; Some MGetValue; Some MSetValue;
     Some MCreateSystemThread].

(** The system before the driver is loaded, and the reflector in it. *)
Record Before (s : DW) (T : Z) (r : gmap Z (Z * Z)) : Prop := {
  before_irql : Irql (Kernel s) = PASSIVE_LEVEL;
  before_installed : Installed s = true;
  before_sink : Sinks s !! SinkAt = Some (ZeroSink 9);
  before_cfixkr : CfixkDrvCfixkrDevice s = 0;
  before_registry : Registry (Kernel s) = Some (T, r);
  before_new : r !! Load = None;
  before_up : TornDown (Kernel s) = false;
  before_conns : forall c, is_Some (Connections (Kernel s) !! c) -> c ∈ PoolBlocks (Kernel s) }.

(** The file object is a new one, the device is not referenced too little. *)
Record Openable (s : DW) : Prop := {
  open_file : forall f d, IoGetDeviceObjectPointer_ (Devices s) = inr (f, d) -> Files s !! f = None;
  open_refs : forall f d n, IoGetDeviceObjectPointer_ (Devices s) = inr (f, d) -> Devices s !! d = Some n -> 0 <= n }.

Lemma complete_pending s irp Status k si : irp ∉ Irps s ->
  CfixkrpCompleteRequest irp Status 0 (set_Sinks si (set_Kernel k (set_Irps (Irps s ∪ {[irp]}) s))) =
  Some ((Status, Some (Status, 0)), set_Sinks si (set_Kernel k s)).
Proof.
  intros Hn. unfold CfixkrpCompleteRequest. rewrite bind_gets. cbn [Irps set_Sinks set_Kernel set_Irps].
  rewrite bind_assert by (apply bool_decide_true; clear; set_solver). rewrite bind_modify. unfold ret. f_equal. f_equal.
  destruct s. cbn in *. unfold set_Sinks, set_Kernel, set_Irps. cbn. f_equal. clear -Hn; set_solver.
Qed.

(** The reflector's answer to a test driver's request. *)
Definition QueryLocation : IO_STACK_LOCATION :=
  MkLocation IRP_MN_QUERY_INTERFACE GUID_CFIXKR_REPORT_SINK
    (SIZEOF_SINK (length CfixkrpGetReportSinkStubs3)) CFIXKR_REPORT_SINK_VERSION_3 SinkAt CodeAt.

Definition Connected (s : DW) (T : Z) (r : gmap Z (Z * Z)) (Conn t a g : Z) (ad : CFIXKRP_TEST_ADAPTER) : DW :=
  set_Sinks (<[SinkAt := ConnectedSink Conn]> (Sinks s)) (set_Kernel (Created (Kernel s) Load T r Conn t a g ad) s).

Lemma dispatch_runs s T r irp : Before s T r -> irp ∉ Irps s ->
  Runs (CfixkrpDispatchPnp irp QueryLocation) (set_Irps (Irps s ∪ {[irp]}) s) (fun x s' =>
    (fst x = STATUS_DRIVER_INTERNAL_ERROR /\ s' = set_Irps (Irps s ∪ {[irp]}) s) \/
    (NT_SUCCESS (fst x) = false /\ s' = s) \/
    (fst x = STATUS_SUCCESS /\ exists Conn t a g ad, Conn <> 0 /\
       Fresh (PoolBlocks (Kernel s)) [Conn; t; a; AdArray ad; g] /\ s' = Connected s T r Conn t a g ad)).
Proof.
  intros B Hirp. set (s1 := set_Irps _ s). unfold CfixkrpDispatchPnp.
  apply Runs_gets, Runs_ASSERT; [apply Z.eqb_eq, (before_irql _ _ _ B)|].
  cbn [MinorFunction QueryLocation]. rewrite Z.eqb_refl.
  assert (bool_decide (InterfaceType QueryLocation = GUID_CFIXKR_REPORT_SINK) &&
       (SIZEOF_SINK (length CfixkrpGetReportSinkStubs) <=? QuerySize QueryLocation) &&
       negb (QueryInterface QueryLocation =? 0) && negb (InterfaceSpecificData QueryLocation =? 0) = true) as ->.
  { rewrite bool_decide_true by done. cbn [QuerySize QueryInterface InterfaceSpecificData QueryLocation].
    rewrite (proj2 (Z.eqb_neq _ _) HSink), (proj2 (Z.eqb_neq _ _) HCode).
    rewrite (proj2 (Z.leb_le _ _)); [done|]. unfold SIZEOF_SINK. cbn. lia. }
  apply Runs_bind. eapply Runs_weaken; [apply base_address_runs|]. intros [St Base] s2 [-> HB]. cbn [fst snd] in HB |- *.
  destruct HB as [HB|[HB ->]]; rewrite HB; cbn [negb].
  { apply Runs_ret. by left. }
  apply Runs_kernel. change (Kernel s1) with (Kernel s).
  eapply Runs_weaken.
  { apply (create_runs P Pool Convert GetFixtureRoutine ImageOf HasArrays InitResource HPool HInit (Kernel s) Load T r);
      [apply B..|exact HWalk]. }
  intros [St2 Conn] k' [(HF & -> & ->)|(t & a & g & ad & Hs & H0 & HFr & ->)]; cbn [fst snd] in *.
  - rewrite HF. apply Runs_bind, Runs_ret. eexists _, _. split.
    { apply (complete_pending s irp St2 (Kernel s) (Sinks s) Hirp). }
    right. left. cbn. split; [done|by destruct s].
  - subst St2. change (NT_SUCCESS STATUS_SUCCESS) with true. cbv iota. cbn [QueryVersion QueryInterface QueryLocation].
    apply Runs_bind. unfold QuerySink. cbn [Z.eqb Pos.eqb CFIXKR_REPORT_SINK_VERSION_1 CFIXKR_REPORT_SINK_VERSION_2
      CFIXKR_REPORT_SINK_VERSION_3].
    set (k := Created _ _ _ _ _ _ _ _ _).
    assert (CfixkrpQuerySinkInterfaceDriverConnection3 Conn SinkAt (set_Kernel k s1) =
      Some (tt, set_Sinks (<[SinkAt := ConnectedSink Conn]> (Sinks s)) (set_Kernel k s1))) as E.
    { unfold CfixkrpQuerySinkInterfaceDriverConnection3, WriteSink, load_sink, bind. cbn [Sinks set_Kernel s1 set_Irps].
      rewrite (before_sink _ _ _ B). done. }
    run_eq E. apply Runs_ret. eexists _, _. split; [apply complete_pending, Hirp|].
    right. right. split; [done|]. by exists Conn, t, a, g, ad.
Qed.

(** What the query leaves: it fails without a trace, or with a request that is never
    completed, or the sink is connected. *)
Definition Queried (s : DW) (T : Z) (r : gmap Z (Z * Z)) (Status : Z) (s' : DW) : Prop :=
  (NT_SUCCESS Status = false /\ s' = s) \/
  (Status = STATUS_DRIVER_INTERNAL_ERROR /\ exists irp, irp ∉ Irps s /\ s' = set_Irps (Irps s ∪ {[irp]}) s) \/
  (Status = STATUS_SUCCESS /\ exists Conn t a g ad, Conn <> 0 /\
     Fresh (PoolBlocks (Kernel s)) [Conn; t; a; AdArray ad; g] /\ s' = Connected s T r Conn t a g ad).

(** The driver's checks of the answer: a sink that is connected if and only if the
    request has succeeded. *)
Lemma checks_run s Status k Q : Sinks s !! SinkAt = Some k ->
  NT_SUCCESS Status = negb (SinkContext k =? 0) ->
  NT_SUCCESS Status = (SinkVersion k =? CFIXKR_REPORT_SINK_VERSION_3) -> Q Status s ->
  Runs (k <- load_sink SinkAt ;;
    ASSERT (Bool.eqb (NT_SUCCESS Status) (negb (SinkContext k =? 0))) ;;;
    ASSERT (Bool.eqb (NT_SUCCESS Status) (SinkVersion k =? CFIXKR_REPORT_SINK_VERSION_3)) ;;;
    ret Status) s Q.
Proof.
  intros Hk Hc Hv HQ. apply Runs_bind. exists k, s. split; [unfold load_sink; by rewrite Hk|].
  rewrite <- Hc, <- Hv. apply Runs_ASSERT; [by destruct (NT_SUCCESS Status)|].
  apply Runs_ASSERT; [by destruct (NT_SUCCESS Status)|]. by apply Runs_ret.
Qed.

Lemma query_runs s T r Device : Before s T r -> is_Some (Devices s !! Device) ->
  Runs (CfixkDrvQueryReporter Device) s (Queried s T r).
Proof.
  intros B [n Hd]. unfold CfixkDrvQueryReporter, IoBuildSynchronousFsdRequest. apply Runs_bind, Runs_gets. cbn zeta.
  destruct (Z.eqb_spec (NewIrp (Irps s)) 0) as [E0|E0]; cbn [negb when_].
  { apply Runs_bind, Runs_ret, Runs_ret. rewrite E0. cbn. apply Runs_ret. by left. }
  set (irp := NewIrp (Irps s)) in *. assert (irp ∉ Irps s) as Hirp by (by destruct (HIrp (Irps s))).
  apply Runs_bind. eexists _, _. split; [reflexivity|]. apply Runs_ret. rewrite (proj2 (Z.eqb_neq _ _) E0).
  apply Runs_bind. unfold IoCallDriver. apply Runs_gets. cbn [Devices Installed set_Irps].
  rewrite Hd, (before_installed _ _ _ B). fold QueryLocation.
  eapply Runs_weaken; [by apply (dispatch_runs s T r irp)|]. intros [St io] s' H. cbn [fst snd] in H |- *.
  assert (NT_SUCCESS St = false -> Runs
    (if St =? STATUS_PENDING then match io with Some (Status, _) => ret Status | None => fault end else ret St)
    s' (fun a s1 => a = St /\ s1 = s') ) as HF.
  { intros HS. destruct (Z.eqb_spec St STATUS_PENDING) as [->|_]; [discriminate HS|]. by apply Runs_ret. }
  destruct H as [[-> ->]|[[HS ->]|(-> & Conn & t & a & g & ad & H0 & HFr & ->)]].
  - apply Runs_bind. eapply Runs_weaken; [by apply HF|]. intros ? ? [-> ->].
    apply (checks_run _ _ (ZeroSink 9)); [apply B|done..|]. right. left. split; [done|]. by exists irp.
  - apply Runs_bind. eapply Runs_weaken; [by apply HF|]. intros ? ? [-> ->].
    apply (checks_run _ _ (ZeroSink 9)); [apply B|done..|]. by left.
  - apply Runs_bind, Runs_ret. apply (checks_run _ _ (ConnectedSink Conn)).
    + unfold Connected. cbn. by rewrite lookup_insert_eq.
    + cbn. by rewrite (proj2 (Z.eqb_neq _ _) H0).
    + done.
    + right. right. split; [done|]. by exists Conn, t, a, g, ad.
Qed.

(** The driver's entry: the file object is closed again, the device is kept. *)
Definition Held (Device : Z) (s : DW) : DW :=
  set_Cfixkr Device
    (set_Devices (match Devices s !! Device with Some n => <[Device := n + 1]> (Devices s) | None => Devices s end) s).

Lemma close_opened s File Device : Files s !! File = None ->
  CloseFile File (set_Files (<[File := Device]> (Files s)) s) = Some (tt, s).
Proof.
  intros Hn. unfold CloseFile. rewrite bind_gets. cbn [Files set_Files]. rewrite lookup_insert_eq.
  rewrite delete_insert_id by done. by destruct s.
Qed.

Lemma driver_entry_runs s T r : Before s T r -> Openable s ->
  Runs CfixkdrvDriverEntry s (fun Status s' => exists s1, Queried s T r Status s1 /\
    if NT_SUCCESS Status then
      exists Device n, Device <> 0 /\ Devices s !! Device = Some n /\ 0 <= n /\ s' = Held Device s1
    else s' = s1).
Proof.
  intros B HOp. unfold CfixkdrvDriverEntry, IoGetDeviceObjectPointer. apply Runs_bind, Runs_gets.
  destruct (IoGetDeviceObjectPointer_ (Devices s)) as [St|[File Device]] eqn:EO.
  { apply Runs_ret, Runs_ret. exists s. rewrite (HNotOpen _ _ EO). split; [|done]. left. by rewrite (HNotOpen _ _ EO). }
  destruct (HOpen _ _ _ EO) as [H0 [n Hd]]. pose proof (open_file _ HOp _ _ EO) as Hf.
  apply Runs_bind. eexists _, _. split; [reflexivity|]. apply Runs_ret. set (s0 := set_Files _ s).
  assert (Before s0 T r) as B0 by (destruct B; by split).
  apply Runs_bind. eapply Runs_weaken; [apply (query_runs s0 T r Device B0); by exists n|]. intros Status s2 HQ.
  destruct (NT_SUCCESS Status) eqn:HS; cbn [when_].
  - destruct HQ as [[HF _]|[[-> _]|(-> & Conn & t & a & g & ad & Hc & HFr & ->)]]; [congruence|discriminate HS|].
    apply Runs_bind. unfold ObReferenceDevice.
    eexists tt, (set_Cfixkr Device (set_Devices (<[Device := n + 1]> (Devices s)) (Connected s0 T r Conn t a g ad))).
    split; [rewrite bind_assoc, bind_gets; cbn; by rewrite Hd|].
    apply Runs_bind. eexists tt, (Held Device (Connected s T r Conn t a g ad)). split.
    { unfold CloseFile. rewrite bind_gets. cbn. rewrite lookup_insert_eq, delete_insert_id by done.
      unfold modify, Held. cbn. rewrite Hd. done. }
    apply Runs_ret. eexists. split; [right; right; split; [done|]; by exists Conn, t, a, g, ad|].
    change (NT_SUCCESS STATUS_SUCCESS) with true. cbv iota. exists Device, n. split_and!; [done..| |done].
    by apply (open_refs _ HOp File Device n).
  - apply Runs_bind, Runs_ret. apply Runs_bind.
    destruct HQ as [[HF ->]|[[-> (irp & Hi & ->)]|(-> & _)]]; [|..|discriminate HS].
    + exists tt, s. split; [by apply close_opened|]. apply Runs_ret. exists s. rewrite HF. split; [by left|done].
    + exists tt, (set_Irps (Irps s ∪ {[irp]}) s). split.
      { unfold CloseFile. rewrite bind_gets. cbn. rewrite lookup_insert_eq, delete_insert_id by done.
        done. }
      apply Runs_ret. eexists. split; [right; left; split; [done|]; by exists irp|]. by rewrite HS.
Qed.

Lemma driver_unload s T r Conn t a g ad Device n : Before s T r -> Device <> 0 -> Devices s !! Device = Some n ->
  0 <= n -> Fresh (PoolBlocks (Kernel s)) [Conn; t; a; AdArray ad; g] ->
  CfixkDrvUnload (Held Device (Connected s T r Conn t a g ad)) =
  Some (tt, set_Cfixkr Device (set_Sinks (<[SinkAt := StaleSink]> (Sinks s)) s)).
Proof.
  intros B H0 Hd Hn HFr. unfold CfixkDrvUnload. rewrite bind_gets. set (s1 := Held _ _).
  change (CfixkDrvCfixkrDevice s1) with Device. rewrite (proj2 (Z.eqb_neq _ _) H0).
  assert (load_sink SinkAt s1 = Some (ConnectedSink Conn, s1)) as El.
  { unfold load_sink, s1, Held, Connected. cbn. by rewrite lookup_insert_eq. }
  rewrite (bind_eq _ _ _ _ _ El). cbn [SinkDereference SinkContext ConnectedSink].
  assert (CfixkrsExternalDereferenceConnection Conn (Kernel s1) = Some (tt, Kernel s)) as Er.
  { change (Kernel s1) with (Created (Kernel s) Load T r Conn t a g ad).
    apply release_created; [apply B..|done]. }
  rewrite (bind_kernel _ _ _ _ _ Er). unfold store_sink, ObDereferenceDevice. rewrite bind_modify, bind_gets.
  unfold s1, Held, Connected. cbn. rewrite Hd. cbn. rewrite lookup_insert_eq.
  rewrite (proj2 (Z.ltb_lt _ _)) by lia. unfold modify. do 2 f_equal.
  unfold set_Devices, set_Sinks, set_Cfixkr, set_Kernel. cbn. rewrite !insert_insert_eq.
  replace (n + 1 - 1) with n by lia. rewrite (insert_id (Devices s)) by done. done.
Qed.

(** C15. The life of a test driver: its entry returns.  If it succeeds, the driver is
    connected: the sink in its variable has all the methods of version 3 and a
    connection that is registered for the load address of the driver, and the
    reflector's device is referenced.  Unloading it gives up both, the state of the
    reflector is exactly as before, and of the sink the fields that only the later
    versions have are left.  If it fails, nothing is left, except for a request that
    is never completed if the module of the driver could not be determined. *)
Theorem test_driver_life s T r : Before s T r -> Openable s ->
  exists Status s', CfixkdrvDriverEntry s = Some (Status, s') /\
  if NT_SUCCESS Status then
    exists Conn c Device, Conn <> 0 /\ Sinks s' !! SinkAt = Some (ConnectedSink Conn) /\
      RegisteredAt (Kernel s') Load Conn c /\ ExternalReferenceCount c = 1 /\
      CfixkDrvCfixkrDevice s' = Device /\ Devices s' !! Device = (fun n => n + 1) <$> Devices s !! Device /\
      CfixkDrvUnload s' = Some (tt, set_Cfixkr Device (set_Sinks (<[SinkAt := StaleSink]> (Sinks s)) s))
  else s' = s \/ Status = STATUS_DRIVER_INTERNAL_ERROR /\
    exists irp, irp ∉ Irps s /\ s' = set_Irps (Irps s ∪ {[irp]}) s.
Proof.
  intros B HOp. destruct (driver_entry_runs s T r B HOp) as (Status & s' & E & s1 & HQ & H). exists Status, s'. split; [done|].
  destruct HQ as [[HS ->]|[[-> HI]|(-> & Conn & t & a & g & ad & Hc & HFr & ->)]].
  - rewrite HS in *. subst s'. by left.
  - change (NT_SUCCESS STATUS_DRIVER_INTERNAL_ERROR) with false in *. cbv iota in *. subst s'. by right.
  - change (NT_SUCCESS STATUS_SUCCESS) with true in *. cbv iota in *. destruct H as (Device & n & H0 & Hd & Hn & ->).
    exists Conn, (NewConnection Load t a ad), Device. split_and!; [done| | |done|done| |by apply (driver_unload _ _ _ _ _ _ _ _ _ n)].
    + unfold Held, Connected. cbn. by rewrite lookup_insert_eq.
    + split; [exists T, (<[Load := (g, Conn)]> r), g; split; [done|by rewrite lookup_insert_eq]| |done].
      cbn. by rewrite lookup_insert_eq.
    + unfold Held, Connected. cbn. rewrite Hd. cbn. by rewrite lookup_insert_eq.
Qed.
End test_driver_life.
End drivers.

(** ** The stubs that test code is linked with (cfixkdrv)

    A call goes to the method of the sink, with its context. *)
Section calls.
Context {ARGS : Type}.
Context (P : Z) (Checked : bool) (SinkAt Tid : Z) (RtlStringCchVPrintfW : nat -> string -> ARGS -> string).
Context (DebuggerPresent : bool).

Local Abbreviation STACK := (Z -> list Z).

(* src/cfixkern/cfixkdrv/drvmain.c:208-221 (CfixPeReportFailedAssertion) *)
Definition CallMethod {A} (m : METHOD) (Default : A) (Stub : Z -> ST KW (OUT A)) : M (OUT A) :=
  k <- load_sink SinkAt ;;
  ASSERT Checked (negb (SinkContext k =? 0)) ;;;
  if SinkContext k =? 0 then retO Default
  else
    match SinkMethods k !! Field m with
    | Some (Some m') => if bool_decide (m' = m) then kernel (Stub (SinkContext k)) else fault
    | _ => fault
    end.

(* src/cfixkern/cfixkdrv/drvmain.c:191-199 (CfixPeFail) *)
Definition CfixPeFail (Stack : STACK) : M (OUT unit) :=
  CallMethod MFail tt (CfixkrsFailStub P Tid Stack).

(* src/cfixkern/cfixkdrv/drvmain.c:201-222 (CfixPeReportFailedAssertion) *)
Definition CfixPeReportFailedAssertion (Stack : STACK) (File Routine : string) (Line : Z)
    (Expression : option string) : M (OUT CFIX_REPORT_DISPOSITION) :=
  CallMethod MReportFailedAssertion CfixAbort (fun c =>
    CfixkrsReportFailedAssertionStub P Tid DebuggerPresent Stack c File Routine Line Expression).

(* src/cfixkern/cfixkdrv/drvmain.c:224-254 (CfixPeReportFailedAssertionFormatW) *)
Definition CfixPeReportFailedAssertionFormatW (Stack : STACK) (File Routine : string) (Line : Z)
    (Format : option string) (VarArgs : ARGS) : M (OUT CFIX_REPORT_DISPOSITION) :=
  CallMethod MReportFailedAssertionFormat CfixAbort (fun c =>
    CfixkrsReportFailedAssertionFormatStub P Tid RtlStringCchVPrintfW DebuggerPresent Stack c File Routine Line
      Format VarArgs).

(* src/cfixkern/cfixkdrv/drvmain.c:256-283 (CfixPeAssertEqualsUlong) *)
Definition CfixPeAssertEqualsUlong (Stack : STACK) (Expected Actual : Z) (File Routine : string) (Line : Z)
    (Expression : string) : M (OUT CFIX_REPORT_DISPOSITION) :=
  CallMethod MAssertEqualsUlong CfixAbort (fun c =>
    CfixkrsAssertEqualsUlongStub P Tid DebuggerPresent Stack c Expected Actual File Routine Line Expression).

(* src/cfixkern/cfixkdrv/drvmain.c:285-296 (CfixPeReportInconclusiveness) *)
Definition CfixPeReportInconclusiveness (Stack : STACK) (Message : option string) : M (OUT unit) :=
  CallMethod MReportInconclusiveness tt (fun c => CfixkrsReportInconclusivenessStub P Tid Stack c Message).

(* src/cfixkern/cfixkdrv/drvmain.c:298-315 (CfixPeReportLog) *)
Definition CfixPeReportLog (Stack : STACK) (Format : option string) (VarArgs : ARGS) : M (OUT unit) :=
  CallMethod MReportLog tt (fun c => CfixkrsReportLogStub P Tid RtlStringCchVPrintfW Stack c Format VarArgs).

(* src/cfixkern/cfixkdrv/drvmain.c:317-332 (CfixPeGetValue) *)
Definition CfixPeGetValue (Tag : Z) : M (OUT Z) :=
  CallMethod MGetValue 0 (fun c => lift (CfixkrsGetValueStub Tid c Tag)).

(* src/cfixkern/cfixkdrv/drvmain.c:334-347 (CfixPeSetValue) *)
Definition CfixPeSetValue (Tag Value : Z) : M (OUT unit) :=
  CallMethod MSetValue tt (fun c => lift (CfixkrsSetValueStub Tid c Tag Value)).

(** A routine of a test driver, whose calls are those of the library it is linked
    with. *)
Definition drv_perform (x : STACK * STEP ARGS) : M (OUT unit) :=
  let st := fst x in
  match snd x with
  | SReport f r l e => CfixPeReportFailedAssertion st f r l e ~; retO tt
  | SReportFormat f r l e a => CfixPeReportFailedAssertionFormatW st f r l e a ~; retO tt
  | SAssertEquals e a f r l x => CfixPeAssertEqualsUlong st e a f r l x ~; retO tt
  | SInconclusive m => CfixPeReportInconclusiveness st m
  | SLog f a => CfixPeReportLog st f a
  | SFail => CfixPeFail st
  | SSetValue t v => CfixPeSetValue t v
  | SSetIrql i => kernel (modify (set_Irql i)) ;;; retO tt
  | SThrow c => RaiseException c
  end.

Fixpoint drv_perform_all (l : list (STACK * STEP ARGS)) : M (OUT unit) :=
  match l with
  | [] => retO tt
  | x :: l => drv_perform x ~; drv_perform_all l
  end.

(** A sink with all methods of version 3. *)
Record SinkOf (s : DW) (Conn : Z) : Prop := {
  sink_conn : Conn <> 0;
  sink_there : exists k, Sinks s !! SinkAt = Some k /\ SinkContext k = Conn /\
    SinkMethods k = Some <$> CfixkrpGetReportSinkStubs3 }.

Lemma call_method {A} (m : METHOD) (Default : A) Stub s Conn : SinkOf s Conn ->
  CallMethod m Default Stub s = kernel (Stub Conn) s.
Proof.
  intros [H0 (k & Hk & <- & Hm)]. unfold CallMethod, load_sink, bind at 1. rewrite Hk.
  unfold bind, ASSERT. rewrite (proj2 (Z.eqb_neq _ _) H0). cbn [negb assert_].
  rewrite Hm. destruct Checked, m; done.
Qed.

Lemma SinkOf_kernel s Conn k : SinkOf s Conn -> SinkOf (set_Kernel k s) Conn.
Proof. by intros [? ?]. Qed.

Lemma kernel_bindO {A B} (x : M (OUT A)) (y : A -> M (OUT B)) m k s :
  x s = kernel m s -> (forall a k', y a (set_Kernel k' s) = kernel (k a) (set_Kernel k' s)) ->
  bindO x y s = kernel (bindO m k) s.
Proof.
  intros Hx Hy. unfold bindO, bind. rewrite Hx. unfold kernel at 1 2. destruct (m (Kernel s)) as [[[a|c|c] k']|]; [|done..].
  rewrite Hy. unfold kernel. cbn. by destruct (k a k') as [[? ?]|].
Qed.

Lemma drv_perform_eq x s Conn : SinkOf s Conn ->
  drv_perform x s = kernel (perform P Tid RtlStringCchVPrintfW DebuggerPresent Conn x) s.
Proof.
  intros HS. destruct x as [st []]; cbn [drv_perform perform fst snd]; unfold ignore.
  1-3: by (apply kernel_bindO; [exact (call_method _ _ _ s Conn HS)|]).
  all: try exact (call_method _ _ _ s Conn HS).
  - unfold CfixPeSetValue. rewrite (call_method _ _ _ s Conn HS). unfold kernel, lift, retO, bind.
    destruct (CfixkrsSetValueStub _ _ _ _ _) as [[u k]|]; [by destruct u|done].
  - done.
  - unfold RaiseException, kernel. cbn. by rewrite set_Kernel_id.
Qed.

(** Test code in a driver that is connected: whatever it does, its calls are exactly
    those of the reflector's stubs for the connection of the driver, and nothing but
    the state of the reflector changes. *)
Theorem driver_calls_reflector l : forall s Conn, SinkOf s Conn ->
  drv_perform_all l s =
  match perform_all P Tid RtlStringCchVPrintfW DebuggerPresent Conn l (Kernel s) with
  | Some (o, k) => Some (o, set_Kernel k s)
  | None => None
  end.
Proof.
  intros s Conn HS. change (drv_perform_all l s = kernel (perform_all P Tid RtlStringCchVPrintfW DebuggerPresent Conn l) s).
  revert s HS. induction l as [|x l IH]; intros s HS.
  { unfold kernel. cbn. by rewrite set_Kernel_id. }
  cbn [drv_perform_all perform_all]. apply kernel_bindO; [by apply drv_perform_eq|].
  intros _ k'. apply IH. by apply SinkOf_kernel.
Qed.

(** A driver that is not connected: a checked build stops, a free build aborts what
    asks for a disposition and ignores everything else. *)
Lemma not_connected {A} m (Default : A) Stub s k : Sinks s !! SinkAt = Some k -> SinkContext k = 0 ->
  CallMethod m Default Stub s = if Checked then None else Some (Returned Default, s).
Proof.
  intros Hk H0. unfold CallMethod, load_sink, bind at 1. rewrite Hk. unfold bind, ASSERT. rewrite H0.
  by destruct Checked.
Qed.
End calls.

(** ** Child threads (thread.c)

    [PsCreateSystemThread_], given whether it is called in the context of the system
    process, and the handles there are: a status, or a handle and the new thread.  The
    new thread runs up to the event that the creating thread waits for; a thread
    whose initialisation has failed ends. *)
Section threads.
Context (P : Z) (Pool : gset Z -> Z -> Z) (Checked : bool) (SinkAt Tid : Z).
Context (PsCreateSystemThread_ : bool -> gset Z -> Z + Z * Z) (OsMajorVersion OsMinorVersion : Z).

(* src/include/cfixaux.h:57-57 (CFIX_SYSTEM_THREAD_FLAG_SYSTEM_CONTEXT) *)
Definition CFIX_SYSTEM_THREAD_FLAG_SYSTEM_CONTEXT : Z := 1.

Definition PsCreateSystemThread (System : bool) (Parameters : CFIXKRP_THREAD_START_PARAMETERS)
    : M (Z + Z * Z) :=
  h <- gets ThreadHandles ;;
  match PsCreateSystemThread_ System h with
  | inl Status => ret (inl Status)
  | inr (Handle, Child) =>
      modify (set_ThreadHandles (h ∪ {[Handle]})) ;;;
      modify (fun s => set_Running ((Child, Parameters) :: Running s) s) ;;;
      ret (inr (Handle, Child))
  end.

(** The work item runs in the context of the system process; it is waited for. *)
(* src/cfixkern/cfixkr/thread.c:134-150 (CfixkrsCreateSystemThreadWorkItemRoutine) *)
Definition CfixkrsCreateSystemThreadWorkItemRoutine (Parameters : CFIXKRP_THREAD_START_PARAMETERS)
    : M (Z + Z * Z) := PsCreateSystemThread true Parameters.

(* src/cfixkern/cfixkr/thread.c:156-220 (CfixkrsCreateSystemThreadInSystemContext) *)
Definition CfixkrsCreateSystemThreadInSystemContext (Parameters : CFIXKRP_THREAD_START_PARAMETERS)
    : M (Z + Z * Z) := CfixkrsCreateSystemThreadWorkItemRoutine Parameters.

(** The child's part up to the event. *)
(* src/cfixkern/cfixkr/thread.c:75-111 (CfixkrsThreadStart) *)
Definition ThreadInitialization (Child : Z) (Parameters : CFIXKRP_THREAD_START_PARAMETERS) : M Z :=
  Status <- kernel (CfixkrpSetCurrentFilament P Pool Child (Connection Parameters) (StartFilament Parameters)) ;;
  when_ (negb (NT_SUCCESS Status)) (modify (fun s => set_Running (tail (Running s)) s)) ;;;
  ret Status.

Definition ZwClose (Handle : Z) : M unit := modify (fun s => set_ThreadHandles (ThreadHandles s ∖ {[Handle]}) s).

(** Windows 2000 and older systems create threads in the system's context only. *)
(* src/cfixkern/cfixkr/thread.c:247-269 (CfixkrpCreateSystemThread) *)
Definition EffectiveFlags (Flags : Z) : Z :=
  if Z.land Flags CFIX_SYSTEM_THREAD_FLAG_SYSTEM_CONTEXT =? 0 then
    if (OsMajorVersion <? 5) || ((OsMajorVersion =? 5) && (OsMinorVersion =? 0))
    then Z.lor Flags CFIX_SYSTEM_THREAD_FLAG_SYSTEM_CONTEXT else Flags
  else Flags.

(** A status, and what is written to [*ThreadHandle], if anything is. *)
(* src/cfixkern/cfixkr/thread.c:224-343 (CfixkrpCreateSystemThread) *)
Definition CfixkrpCreateSystemThread (StartRoutine StartContext Flags Conn : Z) : M (Z * option Z) :=
  i <- gets (fun s => Irql (Kernel s)) ;;
  ASSERT Checked (i =? PASSIVE_LEVEL) ;;;
  if CFIX_SYSTEM_THREAD_FLAG_SYSTEM_CONTEXT <? Flags then ret (STATUS_INVALID_PARAMETER, None)
  else
    let Flags := EffectiveFlags Flags in
    Filament <- kernel (CfixkrpGetCurrentFilament Tid Conn) ;;
    if Filament =? 0 then ret (STATUS_UNSUCCESSFUL, None)
    else
      let Parameters := MkParameters Conn StartRoutine StartContext Filament in
      r <- (if Z.land Flags CFIX_SYSTEM_THREAD_FLAG_SYSTEM_CONTEXT =? 0
            then PsCreateSystemThread false Parameters
            else CfixkrsCreateSystemThreadInSystemContext Parameters) ;;
      match r with
      | inl Status => ret (Status, None)
      | inr (ThreadHandle, Child) =>
          InitializationStatus <- ThreadInitialization Child Parameters ;;
          if negb (NT_SUCCESS InitializationStatus) then
            ZwClose ThreadHandle ;;; ret (InitializationStatus, Some ThreadHandle)
          else ret (STATUS_SUCCESS, Some ThreadHandle)
      end.

(* src/cfixkern/cfixkr/rptstubs.c:824-846 (CfixkrsCreateSystemThread) *)
Definition CfixkrsCreateSystemThread (Context StartRoutine StartContext Flags : Z) : M (Z * option Z) :=
  CfixkrpCreateSystemThread StartRoutine StartContext Flags Context.

(* src/cfixkern/cfixkdrv/drvmain.c:349-376 (CfixCreateSystemThread) *)
Definition CfixCreateSystemThread (StartRoutine StartContext Flags : Z) : M (Z * option Z) :=
  k <- load_sink SinkAt ;;
  ASSERT Checked (negb (SinkContext k =? 0)) ;;;
  if SinkContext k =? 0 then ret (STATUS_UNSUCCESSFUL, None)
  else
    match SinkMethods k !! Field MCreateSystemThread with
    | Some (Some MCreateSystemThread) => CfixkrsCreateSystemThread (SinkContext k) StartRoutine StartContext Flags
    | _ => fault
    end.

(** ** A child inherits the filament *)
Context (HPool : forall B n, Pool B n = 0 \/ Pool B n ∉ B).
Context (HThread : forall b h Status, PsCreateSystemThread_ b h = inl Status -> NT_SUCCESS Status = false).

(** The thread runs test code of a connected driver, in a filament. *)
Record Inside (s : DW) (Conn Filament : Z) (c : CFIXKRP_DRIVER_CONNECTION) (f : CFIXKRP_FILAMENT) (t : Z)
    (reg : gmap Z (Z * Z)) : Prop := {
  in_irql : Irql (Kernel s) = PASSIVE_LEVEL;
  in_conn : Connections (Kernel s) !! Conn = Some c;
  in_registry : FilamentRegistry c = Some (t, reg);
  in_current : exists e, reg !! Tid = Some (e, Filament);
  in_filament : Filaments (Kernel s) !! Filament = Some f;
  in_nonzero : Filament <> 0;
  in_new : forall b h Handle Child, PsCreateSystemThread_ b h = inr (Handle, Child) ->
    Handle ∉ h /\ reg !! Child = None /\ Child <> FilMainThreadId f }.

(** The child, registered with the filament. *)
Definition Adopted (k : KW) (Conn Filament : Z) (c : CFIXKRP_DRIVER_CONNECTION) (f : CFIXKRP_FILAMENT) (t : Z)
    (reg : gmap Z (Z * Z)) (Child e : Z) : KW :=
  set_Connections (<[Conn := set_FilamentRegistry (Some (t, <[Child := (e, Filament)]> reg)) c]> (Connections k))
    (set_Filaments (<[Filament := MkFilament (FilChannel f) (FilMainThreadId f) (ChildThreads f ++ [Child])]> (Filaments k))
       (Live e k)).

Lemma set_filament_runs k Conn Filament c f t reg Child :
  Connections k !! Conn = Some c -> FilamentRegistry c = Some (t, reg) -> Filaments k !! Filament = Some f ->
  reg !! Child = None -> Child <> FilMainThreadId f ->
  Runs (CfixkrpSetCurrentFilament P Pool Child Conn Filament) k (fun Status k' =>
    if NT_SUCCESS Status then
      (length (ChildThreads f) <> CFIX_MAX_THREADS)%nat /\ exists e, e ∉ PoolBlocks k /\
        k' = Adopted k Conn Filament c f t reg Child e
    else k' = k).
Proof.
  intros Hc Hr Hf Hn Hm. unfold CfixkrpSetCurrentFilament. apply (Runs_alloc _ HPool); [by apply Runs_ret|].
  intros e He Hfresh. rewrite (proj2 (Z.eqb_neq _ _) He). apply Runs_bind. exists f, (Live e k).
  split; [unfold load_filament; cbn; by rewrite Hf|]. rewrite (proj2 (Z.eqb_neq _ _) Hm). cbn [negb].
  unfold CfixkrsRegisterChildThreadFilament. apply Runs_bind, Runs_bind. exists f, (Live e k).
  split; [unfold load_filament; cbn; by rewrite Hf|]. destruct (Nat.eqb_spec (length (ChildThreads f)) CFIX_MAX_THREADS) as [E|E].
  - apply Runs_ret. change (negb (NT_SUCCESS STATUS_ALLOTTED_SPACE_EXCEEDED)) with true. cbv iota.
    apply Runs_bind. exists tt, k. split; [|by apply Runs_ret].
    unfold pool, ExFreePool, modify, Live. cbn. destruct k. cbn in *. unfold set_PoolBlocks. cbn. do 3 f_equal. clear -Hfresh; set_solver.
  - apply Runs_bind. eexists _, _. split; [reflexivity|]. apply Runs_ret.
    change (negb (NT_SUCCESS STATUS_SUCCESS)) with false. cbv iota. set (k1 := set_Filaments _ _).
    apply Runs_bind. exists (t, reg), k1. split.
    { unfold load_registry, load_conn, bind. cbn. by rewrite Hc, Hr. }
    apply Runs_bind. eexists tt, _. split.
    { unfold store_registry, load_conn, bind. cbn. by rewrite Hc. }
    cbn [fst snd]. rewrite Hn, bool_decide_true by done. apply Runs_bind. eexists _, _. split; [reflexivity|].
    apply Runs_ret. change (NT_SUCCESS STATUS_SUCCESS) with true. cbv iota. split; [done|]. exists e. split; [done|].
    unfold Adopted. subst k1. cbn. done.
Qed.

Lemma current_filament s Conn Filament c f t reg : Inside s Conn Filament c f t reg ->
  CfixkrpGetCurrentFilament Tid Conn (Kernel s) = Some (Filament, Kernel s).
Proof.
  intros [_ Hc Hr [e He] _ _ _]. unfold CfixkrpGetCurrentFilament, load_registry, load_conn, bind. rewrite Hc, Hr.
  cbn. by rewrite He.
Qed.

(** The creation of the thread itself, in either context. *)
Lemma spawn_runs s Flags Parameters Q :
  (forall Status, NT_SUCCESS Status = false -> Q (inl Status) s) ->
  (forall b Handle Child, PsCreateSystemThread_ b (ThreadHandles s) = inr (Handle, Child) ->
     Q (inr (Handle, Child)) (set_Running ((Child, Parameters) :: Running s)
       (set_ThreadHandles (ThreadHandles s ∪ {[Handle]}) s))) ->
  Runs (if Z.land Flags CFIX_SYSTEM_THREAD_FLAG_SYSTEM_CONTEXT =? 0
        then PsCreateSystemThread false Parameters
        else CfixkrsCreateSystemThreadInSystemContext Parameters) s Q.
Proof.
  intros HF HS. unfold CfixkrsCreateSystemThreadInSystemContext, CfixkrsCreateSystemThreadWorkItemRoutine.
  assert (forall b, Runs (PsCreateSystemThread b Parameters) s Q) as H; [|by destruct (_ =? _)].
  intros b. unfold PsCreateSystemThread. apply Runs_gets.
  destruct (PsCreateSystemThread_ b (ThreadHandles s)) as [St|[Handle Child]] eqn:E.
  - apply Runs_ret, HF. by apply (HThread b (ThreadHandles s)).
  - eexists _, _. rewrite !bind_modify. split; [reflexivity|]. by apply (HS b).
Qed.

(** A thread that test code creates: the creation returns; if it fails, whatever
    has failed, the state is as before, no handle is left open and no thread runs;
    that is the case if the filament has 64 child threads.  If it succeeds, the
    thread runs the start routine and, before the creation returns, has been
    registered: the filament of its creator is its current filament, and waits for it. *)
Theorem created_thread_is_adopted s Conn Filament c f t reg StartRoutine StartContext Flags :
  Inside s Conn Filament c f t reg -> Flags <= 1 ->
  exists Status h s', CfixkrpCreateSystemThread StartRoutine StartContext Flags Conn s = Some ((Status, h), s') /\
  if NT_SUCCESS Status then
    exists Handle Child, h = Some Handle /\ ThreadHandles s' = ThreadHandles s ∪ {[Handle]} /\
      Running s' = (Child, MkParameters Conn StartRoutine StartContext Filament) :: Running s /\
      (length (ChildThreads f) <> CFIX_MAX_THREADS)%nat /\
      CfixkrpGetCurrentFilament Child Conn (Kernel s') = Some (Filament, Kernel s') /\
      Filaments (Kernel s') !! Filament =
        Some (MkFilament (FilChannel f) (FilMainThreadId f) (ChildThreads f ++ [Child]))
  else s' = s.
Proof.
  intros HI HFl.
  assert (Runs (CfixkrpCreateSystemThread StartRoutine StartContext Flags Conn) s (fun r s' =>
    if NT_SUCCESS (fst r) then
      exists Handle Child e, snd r = Some Handle /\ (length (ChildThreads f) <> CFIX_MAX_THREADS)%nat /\
        s' = set_Kernel (Adopted (Kernel s) Conn Filament c f t reg Child e)
               (set_Running ((Child, MkParameters Conn StartRoutine StartContext Filament) :: Running s)
                  (set_ThreadHandles (ThreadHandles s ∪ {[Handle]}) s))
    else s' = s)) as ([St h] & s' & E & H).
  { unfold CfixkrpCreateSystemThread. apply Runs_gets, Runs_ASSERT; [apply Z.eqb_eq, (in_irql _ _ _ _ _ _ _ HI)|].
    unfold CFIX_SYSTEM_THREAD_FLAG_SYSTEM_CONTEXT at 1. rewrite (proj2 (Z.ltb_ge 1 Flags)) by lia. cbn zeta.
    apply Runs_kernel. eexists _, _. split; [by apply (current_filament s Conn Filament c f t reg)|].
    rewrite set_Kernel_id, (proj2 (Z.eqb_neq _ _) (in_nonzero _ _ _ _ _ _ _ HI)).
    apply Runs_bind, spawn_runs; [intros St HSt; apply Runs_ret; cbn; by rewrite HSt|].
    intros b Handle Child EP. destruct (in_new _ _ _ _ _ _ _ HI _ _ _ _ EP) as (Hh & Hn & Hm).
    set (s1 := set_Running _ _). unfold ThreadInitialization. apply Runs_bind, Runs_kernel.
    eapply Runs_weaken; [apply (set_filament_runs (Kernel s1) Conn Filament c f t reg Child); [apply HI..|done|done]|].
    intros St k'. cbn beta. destruct (NT_SUCCESS St) eqn:HSt.
    - intros (Hlen & e & He & ->). cbn [negb when_]. apply Runs_bind, Runs_ret, Runs_ret. rewrite HSt. cbn [negb].
      apply Runs_ret. cbn [fst snd]. change (NT_SUCCESS STATUS_SUCCESS) with true. cbv iota.
      by exists Handle, Child, e.
    - intros ->. cbn [negb when_]. apply Runs_bind. eexists _, _. split; [reflexivity|]. apply Runs_ret.
      rewrite HSt. cbn [negb]. apply Runs_bind. eexists _, _. split; [reflexivity|]. apply Runs_ret. cbn [fst]. rewrite HSt.
      subst s1. clear -Hh. destruct s. unfold set_ThreadHandles, set_Running, set_Kernel. cbn in *. f_equal. set_solver. }
  exists St, h, s'. split; [done|]. cbn [fst snd] in H. destruct (NT_SUCCESS St); [|done].
  destruct H as (Handle & Child & e & -> & Hlen & ->). exists Handle, Child. split_and!; [done..| |].
  - unfold CfixkrpGetCurrentFilament, load_registry, load_conn, bind, Adopted. cbn. rewrite lookup_insert_eq. cbn.
    by rewrite lookup_insert_eq.
  - unfold Adopted. cbn. by rewrite lookup_insert_eq.
Qed.
End threads.

Module Demo.
Definition Pool (B : gset Z) (n : Z) : Z := NextBlock B.
Definition NewDevice (d : gmap Z Z) : Z * option Z :=
  if bool_decide (d !! 0x200 = None) then (STATUS_SUCCESS, Some 0x200) else (STATUS_UNSUCCESSFUL, Some 0).
Definition NewLink (l : bool) : Z := if l then STATUS_UNSUCCESSFUL else STATUS_SUCCESS.
Definition FindDevice (d : gmap Z Z) : Z + Z * Z :=
  if bool_decide (is_Some (d !! 0x200)) then inr (0x300, 0x200) else inl STATUS_NOT_FOUND.

(** A system without the reflector. *)
Definition kernel_start : KW := MkKW ∅ (fun _ => 0) ∅ None false ∅ ∅ PASSIVE_LEVEL.
Definition boot : DW := MkDW kernel_start {[0x7000 := ZeroSink 9]} ∅ ∅ ∅ false false 0 0 ∅ [].
(** The reflector is loaded. *)
Definition loaded : DW :=
  match CfixkrDriverEntry 8 Pool STATUS_SUCCESS NewDevice NewLink 0xBAD boot with Some (_, s) => s | None => boot end.

Lemma HPool B n : Pool B n = 0 \/ Pool B n ∉ B.
Proof. right. apply NextBlock_fresh. Qed.

Lemma NewDevice_fails d : NT_SUCCESS (fst (NewDevice d)) = false -> snd (NewDevice d) = Some 0.
Proof. unfold NewDevice. by case_bool_decide. Qed.

Lemma NewDevice_new d : NT_SUCCESS (fst (NewDevice d)) = true ->
  exists a, snd (NewDevice d) = Some a /\ a <> 0 /\ d !! a = None.
Proof. unfold NewDevice. case_bool_decide; [|done]. intros _. by exists 0x200. Qed.

Lemma reflector_life_witness :
  exists Status s', CfixkrDriverEntry 8 Pool STATUS_SUCCESS NewDevice NewLink 0xBAD boot = Some (Status, s') /\
    NT_SUCCESS Status = true /\ exists s'', CfixkrpUnload s' = Some (tt, s'') /\ Forget s'' = Forget boot.
Proof.
  destruct (reflector_life 8 Pool STATUS_SUCCESS NewDevice NewLink 0xBAD HPool NewDevice_fails NewDevice_new boot)
    as (Status & s' & E & H); [by split|]. exists Status, s'. split; [exact E|].
  assert (NT_SUCCESS Status = true) as HS by (vm_compute in E; by injection E as <- _).
  rewrite HS in H. split; [exact HS|]. by destruct H as [_ H].
Defined.

(** A driver without fixtures at 0x400000. *)
Definition image (_ : Z) : IMAGE := MkImage IMAGE_NT_SIGNATURE 0x1000 0x28 1 0 0 [] [] [] (fun _ => "").
Definition Modules (_ : Z) : Z * list (Z * Z) := (STATUS_SUCCESS, [(0x100000, 0x10000); (0x400000, 0x10000)]).

Lemma modules_listed n : NT_SUCCESS (fst (Modules n)) = true -> exists Before Size After,
  snd (Modules n) = Before ++ (0x400000, Size) :: After /\ HasCode 0x401000 (0x400000, Size) /\
  Forall (fun m => ~ HasCode 0x401000 m) Before /\ Forall (fun m => 0 <= fst m + snd m < 2 ^ (8 * 8)) (Before ++ [(0x400000, Size)]).
Proof.
  intros _. exists [(0x100000, 0x10000)], 0x10000, []. unfold HasCode. split; [done|].
  repeat constructor; cbn [fst snd app]; lia.
Defined.

Lemma test_driver_life_witness :
  exists Status s', CfixkdrvDriverEntry 8 Pool true inr (fun _ => None) image (fun _ => false) (ret STATUS_SUCCESS)
      (STATUS_SUCCESS, 544) Modules 0x7000 0x401000 (fun s => NextBlock s) FindDevice loaded = Some (Status, s') /\
    NT_SUCCESS Status = true /\ Devices s' !! 0x200 = Some 1 /\
    CfixkDrvUnload 0x7000 s' =
      Some (tt, set_Cfixkr 0x200 (set_Sinks (<[0x7000 := StaleSink]> (Sinks loaded)) loaded)).
Proof.
  destruct (test_driver_life 8 Pool true inr (fun _ => None) image (fun _ => false) (ret STATUS_SUCCESS)
    (STATUS_SUCCESS, 544) Modules 0x7000 0x401000 (fun s => NextBlock s) FindDevice HPool
    (fun s => ex_intro _ STATUS_SUCCESS eq_refl) 0x400000 ltac:(lia) ltac:(lia) ltac:(lia) ltac:(by eexists)
    ltac:(lia) eq_refl modules_listed (fun _ n => eq_refl) (fun s => or_intror (proj2 (NextBlock_fresh s))))
    with (s := loaded) (T := 1) (r := ∅ : gmap Z (Z * Z)) as (Status & s' & E & H).
  - intros d File Device. unfold FindDevice. case_bool_decide as Hd; [|done]. by intros [= _ <-].
  - intros d Status. unfold FindDevice. case_bool_decide; [done|]. by intros [= <-].
  - split; try (by vm_compute). intros c [x Hc]. by vm_compute in Hc.
  - split; [by vm_compute|]. intros f d n E Hn. vm_compute in E. injection E as _ <-. vm_compute in Hn. injection Hn as <-. lia.
  - exists Status, s'. split; [exact E|].
    assert (NT_SUCCESS Status = true) as HS by (vm_compute in E; by injection E as <- _).
    rewrite HS in H. split; [exact HS|]. destruct H as (Conn & c & Device & _ & _ & _ & _ & HD & _ & HU).
    assert (Device = 0x200) as -> by (rewrite <- HD; vm_compute in E; by injection E as _ <-).
    split; [|exact HU]. vm_compute in E. by injection E as _ <-.
Defined.

(** A thread of a connected driver that runs a test routine. *)
Definition running_conn : CFIXKRP_DRIVER_CONNECTION :=
  set_FilamentRegistry (Some (0x120, {[7 := (0x150, 0x9100)]})) KrStubs.Demo.connection.
Definition inside : DW :=
  set_Sinks {[0x7000 := ConnectedSink 8 0x5000]}
    (set_Kernel (set_Connections {[0x5000 := running_conn]}
       (set_Filaments {[0x9100 := MkFilament 0x9000 7 []]} KrStubs.Demo.idle)) boot).

Lemma driver_calls_reflector_witness :
  exists o k, drv_perform_all 8 true 0x7000 7 KrStubs.Demo.Fmt false KrStubs.Demo.steps inside =
    Some (o, set_Kernel k inside) /\ o = Raised 0xC0000005 /\ Irql k = 2 /\
    ChTlsValue <$> Channels k !! 0x9000 = Some 77.
Proof.
  assert (SinkOf 0x7000 inside 0x5000) as HS by (split; [lia|by exists (ConnectedSink 8 0x5000)]).
  pose proof (driver_calls_reflector 8 true 0x7000 7 KrStubs.Demo.Fmt false KrStubs.Demo.steps inside 0x5000 HS) as H.
  destruct (perform_all 8 7 KrStubs.Demo.Fmt false 0x5000 KrStubs.Demo.steps (Kernel inside)) as [[o k]|] eqn:E.
  - exists o, k. split; [exact H|]. clear H.
    assert ((fun x => (fst x, Irql (snd x), ChTlsValue <$> Channels (snd x) !! 0x9000)) <$>
      perform_all 8 7 KrStubs.Demo.Fmt false 0x5000 KrStubs.Demo.steps (Kernel inside) =
      Some (Raised 0xC0000005, 2, Some 77)) as E2 by (by vm_compute).
    rewrite E in E2. by injection E2 as -> -> ->.
  - assert (is_Some (perform_all 8 7 KrStubs.Demo.Fmt false 0x5000 KrStubs.Demo.steps (Kernel inside))) as [x Hx].
    { vm_compute. by eexists. }
    congruence.
Defined.

Definition NewThread (System : bool) (h : gset Z) : Z + Z * Z :=
  inr (NextBlock h, if System then 22 else 21).

Lemma created_thread_is_adopted_witness :
  exists s', CfixkrpCreateSystemThread 8 Pool true 7 NewThread 6 1 0x402000 0x1234 0 0x5000 inside =
      Some ((STATUS_SUCCESS, Some 1), s') /\
    Running s' = [(21, MkParameters 0x5000 0x402000 0x1234 0x9100)] /\
    Filaments (Kernel s') !! 0x9100 = Some (MkFilament 0x9000 7 [21]).
Proof.
  destruct (created_thread_is_adopted 8 Pool true 7 NewThread 6 1 HPool ltac:(by intros ? ? ? [=]) inside 0x5000 0x9100
    running_conn (MkFilament 0x9000 7 []) 0x120 {[7 := (0x150, 0x9100)]} 0x402000 0x1234 0) as (Status & h & s' & E & H).
  - split; try done; try (by eexists). intros b hs Handle Child [= <- <-].
    split; [apply NextBlock_fresh|]. by destruct b.
  - lia.
  - exists s'. assert (Status = STATUS_SUCCESS /\ h = Some 1) as [-> ->].
    { vm_compute in E. by injection E as <- <- _. }
    split; [exact E|]. change (NT_SUCCESS STATUS_SUCCESS) with true in H. cbv iota in H.
    destruct H as (Handle & Child & _ & _ & HR & _ & _ & HF). rewrite HR, HF.
    assert (Child = 21) as ->; [|done].
    vm_compute in E. injection E as <-. vm_compute in HR. by injection HR.
Defined.
End Demo.
