(* ===== verification/KlFixture.v ===== *)
(** * Fixtures of kernel mode test modules (cfixkern/cfixkl/module.c, first part)

    The client makes fixtures from the description of a test driver that the
    reflector has written (KrModule).  The description is laid out in two parts,
    the structures and the strings; the theorems show that what one side writes the
    other side reads, that the fixtures are those that the same definitions would
    give in user mode, with keys for routines, and that each key leads back to the
    routine it stands for. *)
From stdpp Require Import base gmap list strings.
From Stdlib Require Import ZArith Lia.
From S2P Require Import Prelude CfixApi PeModule IoBuffer KrModule KrEvents KlCalls.
Local Open Scope Z_scope.
Local Open Scope cfix_scope.

(* src/cfixkern/cfixkl/module.c:36-36 (CFIXKLP_ROUTINE_PRESENT) *)
Definition CFIXKLP_ROUTINE_PRESENT : Z := 0x80000000.

Definition CfixApiTypeBase : Z := 1.

(** A fixture, with the key of the driver's fixture in [Reserved]. *)
(* src/include/cfixapi.h:356-389 (CFIX_FIXTURE) *)
Record KL_FIXTURE := MkKlFixture { KfReserved : Z; KfBase : CFIX_FIXTURE }.

(** ** The description, as it is read

    Offsets within a CFIXKRIO_FIXTURE and its entries. *)
Definition IoEntry (IoFixture Index : Z) : Z := IoFixture + 16 + 12 * Index.
Definition IoType (m : Memory) (e : Z) : Z := fetch 2 m e.
Definition IoKey (m : Memory) (e : Z) : Z := fetch 2 m (e + 2).
Definition IoNameOffset (m : Memory) (e : Z) : Z := fetch 4 m (e + 4).
Definition IoNameLength (m : Memory) (e : Z) : Z := fetch 4 m (e + 8).
Definition IoEntryCount (m : Memory) (IoFixture : Z) : Z := fetch 4 m (IoFixture + 12).
(** The characters that are copied. *)
Definition IoName (m : Memory) (IoModule e : Z) : string :=
  wstring (peek m (IoModule + IoNameOffset m e) (Z.to_nat (IoNameLength m e))).

(** [RTL_SIZEOF_THROUGH_FIELD( CFIX_FIXTURE, TestCases[ TestCaseCount - 1 ] )] for a
    pointer size of [P] bytes. *)
Definition OFFSET_TestCases (P : Z) : Z := if P =? 8 then 320 else 292.
Definition SIZEOF_THROUGH_TestCases (P TestCaseCount : Z) : Z :=
  wrap (8 * P) (LONG (OFFSET_TestCases P + ULONG (TestCaseCount - 1) * (3 * P)) + 3 * P).

(** The number of test cases and the size of their names. *)
(* src/cfixkern/cfixkl/module.c:183-191 (CfixklsCreateFixture) *)
Fixpoint CountTestCases (m : Memory) (IoFixture Index : Z) (n : nat) (TestCaseCount StringSizesTotalCb : Z) : Z * Z :=
  match n with
  | O => (TestCaseCount, StringSizesTotalCb)
  | S n =>
      let e := IoEntry IoFixture Index in
      if IoType m e =? CfixEntryTypeTestcase
      then CountTestCases m IoFixture (Index + 1) n (ULONG (TestCaseCount + 1))
             (ULONG (StringSizesTotalCb + ULONG (IoNameLength m e + 2)))
      else CountTestCases m IoFixture (Index + 1) n TestCaseCount StringSizesTotalCb
  end.

(** An entry other than a test case, or a test case whose name has been copied. *)
(* src/cfixkern/cfixkl/module.c:249-347 (CfixklsCreateFixture) *)
Definition AddIoEntry (f : CFIX_FIXTURE) (Type_ Key : Z) (Name : string) : Z + CFIX_FIXTURE :=
  let s := SetupRoutine f in let t := TeardownRoutine f in
  let b := BeforeRoutine f in let a := AfterRoutine f in
  let r := Z.lor Key CFIXKLP_ROUTINE_PRESENT in
  if Type_ =? CfixEntryTypeTestcase then
    inr (MkFixture (FxName f) s t b a (ApiType f) (FxFlags f) (FxModuleName f)
           (TestCases f ++ [MkTestCase Name Key]))
  else if Type_ =? CfixEntryTypeSetup then
    if FlagOn s CFIXKLP_ROUTINE_PRESENT then inl CFIX_E_DUP_SETUP_ROUTINE else inr (with_routine f r t b a)
  else if Type_ =? CfixEntryTypeTeardown then
    if FlagOn t CFIXKLP_ROUTINE_PRESENT then inl CFIX_E_DUP_TEARDOWN_ROUTINE else inr (with_routine f s r b a)
  else if Type_ =? CfixEntryTypeBefore then
    if FlagOn b CFIXKLP_ROUTINE_PRESENT then inl CFIX_E_DUP_BEFORE_ROUTINE else inr (with_routine f s t r a)
  else if Type_ =? CfixEntryTypeAfter then
    if FlagOn a CFIXKLP_ROUTINE_PRESENT then inl CFIX_E_DUP_AFTER_ROUTINE else inr (with_routine f s t b r)
  else inl CFIXKL_E_INVALID_REFLECTOR_RESPONSE.

(** The walk over the entries.  [None]: a test case or its name would be written
    outside its part of the block of [BlockSize] bytes, whose strings start at
    [Strings]. *)
(* src/cfixkern/cfixkl/module.c:240-353 (CfixklsCreateFixture) *)
Fixpoint WalkIoEntries (P : Z) (m : Memory) (IoModule IoFixture BlockSize Strings Index : Z) (n : nat)
    (f : CFIX_FIXTURE) (CurrentStringOffset : Z) : option (Z + CFIX_FIXTURE * Z) :=
  match n with
  | O => Some (inr (f, CurrentStringOffset))
  | S n =>
      let e := IoEntry IoFixture Index in
      let IsTestCase := IoType m e =? CfixEntryTypeTestcase in
      if IsTestCase &&
         negb ((Strings <=? CurrentStringOffset) && (CurrentStringOffset + IoNameLength m e + 2 <=? BlockSize) &&
               (OFFSET_TestCases P + (TestCaseCount f + 1) * (3 * P) <=? Strings))
      then None
      else
        match AddIoEntry f (IoType m e) (IoKey m e) (IoName m IoModule e) with
        | inl Hr => Some (inl Hr)
        | inr f =>
            WalkIoEntries P m IoModule IoFixture BlockSize Strings (Index + 1) n f
              (if IsTestCase then ULONG (CurrentStringOffset + ULONG (IoNameLength m e + 2)) else CurrentStringOffset)
        end
  end.

Section fixtures.
Context {W : Type}.
Variable Malloc : gset Z -> Z -> Z.
Variable P : Z.
Local Abbreviation M := (ST (CW W)).

(** The block of the new fixture and its contents. *)
(* src/cfixkern/cfixkl/module.c:153-372 (CfixklsCreateFixture) *)
Definition CfixklsCreateFixture (m : Memory) (IoModule IoFixture : Z) (ModName : string) : M (Z + Z * KL_FIXTURE) :=
  let n := Z.to_nat (IoEntryCount m IoFixture) in
  let '(TestCaseCount, StringSizesTotalCb) := CountTestCases m IoFixture 0 n 0 0 in
  let Strings := SIZEOF_THROUGH_TestCases P TestCaseCount in
  let BlockSize := wrap (8 * P) (Strings + StringSizesTotalCb) in
  NewFixture <- malloc Malloc BlockSize ;;
  if NewFixture =? 0 then ret (inl E_OUTOFMEMORY)
  else
    assert_ (IoNameLength m IoFixture mod 2 =? 0) ;;;
    if 2 * CFIX_MAX_FIXTURE_NAME_CCH - 2 <? IoNameLength m IoFixture
    then free NewFixture ;;; ret (inl (HRESULT_FROM_WIN32 ERROR_INSUFFICIENT_BUFFER))
    else
      let f := MkFixture (IoName m IoModule IoFixture) 0 0 0 0 CfixApiTypeBase 0 ModName [] in
      match WalkIoEntries P m IoModule IoFixture BlockSize Strings 0 n f (ULONG Strings) with
      | None => fault
      | Some (inl Hr) => free NewFixture ;;; ret (inl Hr)
      | Some (inr (f, CurrentStringOffset)) =>
          assert_ (CurrentStringOffset =? wrap (8 * P) (Strings + StringSizesTotalCb)) ;;;
          ret (inr (NewFixture, MkKlFixture (fetch 2 m IoFixture) f))
      end.

(* src/cfixkern/cfixkl/module.c:374-380 (CfixklsDeleteFixture) *)
Definition CfixklsDeleteFixture (f : Z * KL_FIXTURE) : M unit := free (fst f).

(** The fixtures of a response at [r]: those that have been made, and the result. *)
(* src/cfixkern/cfixkl/module.c:442-458 (CfixklsInitializeModule) *)
Fixpoint CreateFixtures (m : Memory) (r : Z) (ModName : string) (Index : Z) (n : nat)
    (fs : list (Z * KL_FIXTURE)) : M (Z * list (Z * KL_FIXTURE)) :=
  match n with
  | O => ret (S_OK, fs)
  | S n =>
      x <- CfixklsCreateFixture m r (r + fetch 4 m (r + 4 + 4 * Index)) ModName ;;
      match x with
      | inl Hr => ret (Hr, fs)
      | inr f => CreateFixtures m r ModName (Index + 1) n (fs ++ [f])
      end
  end.

(* src/cfixkern/cfixkl/module.c:468-474 (CfixklsInitializeModule) *)
Fixpoint DeleteKlFixtures (fs : list (Z * KL_FIXTURE)) : M unit :=
  match fs with [] => ret tt | f :: fs => CfixklsDeleteFixture f ;;; DeleteKlFixtures fs end.
End fixtures.

(** ** The layout of a description

    Structures at offsets from [io], with the offset [s] of their first string. *)
Definition EntryOk (e : CFIX_PE_DEFINITION_ENTRY) : Prop :=
  0 < EntryType e < 2 ^ 16 /\ Z.of_nat (String.length (EntryName e)) < CFIX_MAX_ENTRY_NAME_CCH - 1.
Definition KrFixtureOk (f : CFIXKRP_TEST_FIXTURE) : Prop :=
  EntryCount f < 2 ^ 16 /\ Forall EntryOk (KrEntries f).

Fixpoint NamesCb (es : list CFIX_PE_DEFINITION_ENTRY) : Z :=
  match es with [] => 0 | e :: es => NameCb (EntryName e) + NamesCb es end.
Definition StringsCb (f : CFIXKRP_TEST_FIXTURE) : Z := NameCb (KrName f) + NamesCb (KrEntries f).
Definition StructCb (f : CFIXKRP_TEST_FIXTURE) : Z := 16 + 12 * EntryCount f.
Definition Sum {A} (g : A -> Z) (l : list A) : Z := foldr (fun x n => g x + n) 0 l.

Record EntryAt (m : Memory) (io off idx : Z) (e : CFIX_PE_DEFINITION_ENTRY) (s : Z) : Prop := {
  ent_type : fetch 2 m (io + off) = EntryType e;
  ent_key : fetch 2 m (io + off + 2) = idx;
  ent_offset : fetch 4 m (io + off + 4) = s;
  ent_length : fetch 4 m (io + off + 8) = NameCb (EntryName e);
  ent_name : peek m (io + s) (Z.to_nat (NameCb (EntryName e))) = wbytes (EntryName e) }.

Fixpoint EntriesAt (m : Memory) (io off idx : Z) (es : list CFIX_PE_DEFINITION_ENTRY) (s : Z) : Prop :=
  match es with
  | [] => True
  | e :: es => EntryAt m io off idx e s /\ EntriesAt m io (off + 12) (idx + 1) es (s + NameCb (EntryName e))
  end.

Record FixtureAt (m : Memory) (io off idx : Z) (f : CFIXKRP_TEST_FIXTURE) (s : Z) : Prop := {
  fix_key : fetch 2 m (io + off) = idx;
  fix_offset : fetch 4 m (io + off + 4) = s;
  fix_length : fetch 4 m (io + off + 8) = NameCb (KrName f);
  fix_count : fetch 4 m (io + off + 12) = EntryCount f;
  fix_name : peek m (io + s) (Z.to_nat (NameCb (KrName f))) = wbytes (KrName f);
  fix_entries : EntriesAt m io (off + 16) 0 (KrEntries f) (s + NameCb (KrName f)) }.

Fixpoint FixturesAt (m : Memory) (io off idx : Z) (fs : list CFIXKRP_TEST_FIXTURE) (s : Z) : Prop :=
  match fs with
  | [] => True
  | f :: fs =>
      fetch 4 m (io + 4 + 4 * idx) = off /\ FixtureAt m io off idx f s /\
      FixturesAt m io (off + StructCb f) (idx + 1) fs (s + StringsCb f)
  end.

Lemma NameCb_nonneg s : 0 <= NameCb s.
Proof. unfold NameCb. lia. Qed.

Lemma lenZ_nonneg {A} (l : list A) : 0 <= lenZ l.
Proof. unfold lenZ. lia. Qed.

Lemma lenZ_cons {A} (x : A) l : lenZ (x :: l) = lenZ l + 1.
Proof. unfold lenZ. simpl. lia. Qed.

Lemma NamesCb_nonneg es : 0 <= NamesCb es.
Proof. induction es as [|e es IH]; simpl; [done|]. pose proof (NameCb_nonneg (EntryName e)). lia. Qed.

Lemma Sum_nonneg {A} (g : A -> Z) l : (forall x, 0 <= g x) -> 0 <= Sum g l.
Proof. intros H. unfold Sum. induction l as [|x l IH]; simpl; [done|]. specialize (H x). lia. Qed.

Lemma StringsCb_nonneg f : 0 <= StringsCb f.
Proof. pose proof (NameCb_nonneg (KrName f)). pose proof (NamesCb_nonneg (KrEntries f)). unfold StringsCb. lia. Qed.

Lemma StructCb_nonneg f : 0 <= StructCb f.
Proof. pose proof (lenZ_nonneg (KrEntries f)). unfold StructCb, EntryCount. lia. Qed.

(** Layouts depend on the bytes of their structures and strings only. *)
Definition Same (m' : Memory) (io' : Z) (m : Memory) (io lo n : Z) : Prop := Copied m' (io' + lo) m (io + lo) n.

Lemma Same_le m' io' m io lo n lo' n' :
  Same m' io' m io lo n -> lo <= lo' -> lo' + n' <= lo + n -> Same m' io' m io lo' n'.
Proof.
  intros H H1 H2 i Hi. replace (io' + lo' + i) with (io' + lo + (lo' - lo + i)) by lia.
  rewrite H by lia. f_equal. lia.
Qed.

Ltac same_part :=
  match goal with H : Same _ _ _ _ _ _ |- Same _ _ _ _ _ _ => eapply (Same_le _ _ _ _ _ _ _ _ H); lia end.

Section same.
Context (m' : Memory) (io' : Z) (m : Memory) (io : Z).

Lemma fetch_Same w lo n o : Same m' io' m io lo n -> 0 <= o -> o + Z.of_nat w <= n ->
  fetch w m' (io' + lo + o) = fetch w m (io + lo + o).
Proof. intros H. apply (fetch_Copied _ _ _ _ _ H). Qed.

Lemma fetch_Same_0 w lo n : Same m' io' m io lo n -> Z.of_nat w <= n ->
  fetch w m' (io' + lo) = fetch w m (io + lo).
Proof. intros H Hn. rewrite <- (Z.add_0_r (io' + lo)), (fetch_Same _ _ _ _ H) by lia. by rewrite Z.add_0_r. Qed.

Lemma peek_Same lo n k : Same m' io' m io lo n -> Z.of_nat k <= n -> peek m' (io' + lo) k = peek m (io + lo) k.
Proof. intros H Hk. apply peek_shift. intros i Hi. apply H. lia. Qed.

Lemma EntryAt_Same off idx e s :
  Same m' io' m io off 12 -> Same m' io' m io s (NameCb (EntryName e)) ->
  EntryAt m io off idx e s -> EntryAt m' io' off idx e s.
Proof.
  intros H1 H2 []. split; rewrite ?(fetch_Same _ _ _ _ H1), ?(fetch_Same_0 _ _ _ H1) by lia; try done.
  rewrite (peek_Same _ _ _ H2); [done|]. pose proof (NameCb_nonneg (EntryName e)). lia.
Qed.

Lemma EntriesAt_Same es : forall off idx s,
  Same m' io' m io off (12 * lenZ es) -> Same m' io' m io s (NamesCb es) ->
  EntriesAt m io off idx es s -> EntriesAt m' io' off idx es s.
Proof.
  induction es as [|e es IH]; intros off idx s H1 H2 H; [done|]. destruct H as [He H].
  rewrite lenZ_cons in H1. cbn [NamesCb] in H2. pose proof (lenZ_nonneg es). pose proof (NamesCb_nonneg es).
  pose proof (NameCb_nonneg (EntryName e)).
  split; [apply (EntryAt_Same off idx e s)|apply IH]; try done; same_part.
Qed.

Lemma FixtureAt_Same off idx f s :
  Same m' io' m io off (StructCb f) -> Same m' io' m io s (StringsCb f) ->
  FixtureAt m io off idx f s -> FixtureAt m' io' off idx f s.
Proof.
  intros H1 H2 []. unfold StructCb, StringsCb, EntryCount in *. pose proof (lenZ_nonneg (KrEntries f)).
  pose proof (NameCb_nonneg (KrName f)). pose proof (NamesCb_nonneg (KrEntries f)).
  split; rewrite ?(fetch_Same _ _ _ _ H1), ?(fetch_Same_0 _ _ _ H1) by lia; try done.
  - rewrite (peek_Same _ _ _ H2); [done|]. lia.
  - eapply EntriesAt_Same; [| |done]; same_part.
Qed.

Lemma FixturesAt_Same fs : forall off idx s,
  Same m' io' m io (4 + 4 * idx) (4 * lenZ fs) -> Same m' io' m io off (Sum StructCb fs) ->
  Same m' io' m io s (Sum StringsCb fs) ->
  FixturesAt m io off idx fs s -> FixturesAt m' io' off idx fs s.
Proof.
  induction fs as [|f fs IH]; intros off idx s H0 H1 H2 H; [done|]. destruct H as (Ho & Hf & H).
  rewrite lenZ_cons in H0. cbn [Sum foldr] in *. fold (Sum StructCb fs) in *. fold (Sum StringsCb fs) in *.
  pose proof (lenZ_nonneg fs). pose proof (StructCb_nonneg f). pose proof (StringsCb_nonneg f).
  pose proof (Sum_nonneg StructCb fs StructCb_nonneg). pose proof (Sum_nonneg StringsCb fs StringsCb_nonneg).
  split; [|split].
  - rewrite <- Z.add_assoc, (fetch_Same_0 _ _ _ H0) by lia. by rewrite Z.add_assoc.
  - eapply FixtureAt_Same; [| |done]; same_part.
  - apply IH; [..|done]; same_part.
Qed.
End same.

(** ** The reflector writes the layout

    [Elsewhere m' m io off n s k]: outside the [n] bytes at offset [off] and the [k]
    bytes at offset [s], the memories agree. *)
Definition Elsewhere (m' m : Memory) (io off n s k : Z) : Prop :=
  forall i, ~ (off <= i < off + n) -> ~ (s <= i < s + k) -> m' (io + i) = m (io + i).

Lemma Elsewhere_Same m' m io off n s k lo c :
  Elsewhere m' m io off n s k ->
  lo + c <= off \/ off + n <= lo -> lo + c <= s \/ s + k <= lo -> Same m' io m io lo c.
Proof. intros H H1 H2 i Hi. rewrite <- !Z.add_assoc. apply H; lia. Qed.

Lemma wrap_ULONG z : 0 <= z < 2 ^ 32 -> ULONG z = z.
Proof. intros H. unfold ULONG. by rewrite wrap_small. Qed.

Lemma lenZ_wbytes_name s : lenZ (wbytes s) = NameCb s.
Proof. apply lenZ_wbytes. Qed.

Lemma EntryNameCb_ok e : EntryOk e -> EntryNameCb (EntryName e) = inr (NameCb (EntryName e)).
Proof. intros [_ H]. unfold EntryNameCb. by rewrite (proj2 (Z.ltb_lt _ _) H). Qed.

Lemma NameCb_small e : EntryOk e -> NameCb (EntryName e) < 2 ^ 32.
Proof. intros [_ H]. unfold NameCb, CFIX_MAX_ENTRY_NAME_CCH in *. lia. Qed.

Section writer.
Context (io : Z).

(** One entry: five writes. *)
Definition write_entry (off idx : Z) (e : CFIX_PE_DEFINITION_ENTRY) (s : Z) (m : Memory) : Memory :=
  poke (put 4 (put 4 (put 2 (put 2 m (io + off) (wrap 16 (EntryType e))) (io + off + 2) idx)
    (io + off + 8) (NameCb (EntryName e))) (io + off + 4) s) (io + s) (wbytes (EntryName e)).

Lemma write_entry_at off idx e s m :
  EntryOk e -> 0 <= idx < 2 ^ 16 -> 0 <= s < 2 ^ 32 -> off + 12 <= s ->
  EntryAt (write_entry off idx e s m) io off idx e s /\
  Elsewhere (write_entry off idx e s m) m io off 12 s (NameCb (EntryName e)).
Proof.
  intros He Hi Hs Hd. pose proof (NameCb_nonneg (EntryName e)). pose proof (NameCb_small e He).
  pose proof (lenZ_wbytes_name (EntryName e)) as Hl. destruct He as [Ht Hn].
  unfold write_entry. rewrite wrap_small by lia. split.
  - split; try (fetching; done).
    apply peek_poke_eq. unfold lenZ in Hl. lia.
  - intros i Hi1 Hi2. rewrite poke_outside by lia. rewrite !put_outside by (simpl; lia). done.
Qed.

Lemma WriteEntries_at foff es : forall idx m s,
  Forall EntryOk es -> 0 <= idx -> idx + lenZ es <= 2 ^ 16 -> 0 <= s ->
  foff + 16 + 12 * (idx + lenZ es) <= s -> s + NamesCb es < 2 ^ 32 ->
  exists m', WriteEntries io (io + foff) idx es m s = (m', inr (s + NamesCb es)) /\
    EntriesAt m' io (foff + 16 + 12 * idx) idx es s /\
    Elsewhere m' m io (foff + 16 + 12 * idx) (12 * lenZ es) s (NamesCb es).
Proof.
  induction es as [|e es IH]; intros idx m s Hes Hi Hlen Hs Hd Ht.
  - exists m. cbn [WriteEntries NamesCb]. rewrite Z.add_0_r. split_and!; [done..|]. intros i _ _. done.
  - apply Forall_cons in Hes as [He Hes]. rewrite lenZ_cons in *. cbn [NamesCb] in *.
    pose proof (lenZ_nonneg es). pose proof (NamesCb_nonneg es). pose proof (NameCb_nonneg (EntryName e)).
    set (off := foff + 16 + 12 * idx) in *. set (m1 := write_entry off idx e s m).
    destruct (write_entry_at off idx e s m He ltac:(lia) ltac:(lia) ltac:(lia)) as [Hat Hout]. fold m1 in Hat, Hout.
    destruct (IH (idx + 1) m1 (s + NameCb (EntryName e)) Hes ltac:(lia) ltac:(lia) ltac:(lia) ltac:(lia) ltac:(lia))
      as (m' & E & HE & Hout').
    replace (foff + 16 + 12 * (idx + 1)) with (off + 12) in * by lia.
    exists m'. cbn [WriteEntries]. rewrite EntryNameCb_ok by done. split_and!.
    + rewrite wrap_ULONG by lia. rewrite Z.add_assoc, <- E. unfold m1, write_entry. subst off.
      rewrite !Z.add_assoc. done.
    + cbn [EntriesAt]. split; [|done].
      apply (EntryAt_Same m' io m1 io); [| |done]; apply (Elsewhere_Same _ _ _ _ _ _ _ _ _ Hout'); lia.
    + intros i Hi1 Hi2. rewrite Hout' by lia. apply Hout; lia.
Qed.

(** One fixture without its entries: its offset and five fields. *)
Definition write_head (off idx : Z) (f : CFIXKRP_TEST_FIXTURE) (s : Z) (m : Memory) : Memory :=
  poke (put 4 (put 4 (put 4 (put 2 (put 4 m (io + 4 + 4 * idx) off) (io + off) idx)
    (io + off + 12) (EntryCount f)) (io + off + 8) (NameCb (KrName f))) (io + off + 4) s)
    (io + s) (wbytes (KrName f)).

(** Outside the offsets, structures and strings of fixtures. *)
Definition Elsewhere3 (m' m : Memory) (idx n off k s l : Z) : Prop :=
  forall i, ~ (4 + 4 * idx <= i < 4 + 4 * idx + 4 * n) -> ~ (off <= i < off + k) -> ~ (s <= i < s + l) ->
  m' (io + i) = m (io + i).

Lemma write_head_at off idx f s m :
  EntryCount f < 2 ^ 16 -> 0 <= idx < 2 ^ 16 -> 4 + 4 * idx + 4 <= off -> off + 16 <= s ->
  s + NameCb (KrName f) < 2 ^ 32 ->
  let m' := write_head off idx f s m in
  (fetch 4 m' (io + 4 + 4 * idx) = off /\ fetch 2 m' (io + off) = idx /\ fetch 4 m' (io + off + 4) = s /\
   fetch 4 m' (io + off + 8) = NameCb (KrName f) /\ fetch 4 m' (io + off + 12) = EntryCount f /\
   peek m' (io + s) (Z.to_nat (NameCb (KrName f))) = wbytes (KrName f)) /\
  Elsewhere3 m' m idx 1 off 16 s (NameCb (KrName f)).
Proof.
  intros Hc Hi Ho Hs Ht m'. pose proof (NameCb_nonneg (KrName f)). pose proof (lenZ_nonneg (KrEntries f)).
  pose proof (lenZ_wbytes_name (KrName f)) as Hl. unfold EntryCount in *. subst m'. unfold write_head, EntryCount.
  split; [split_and!|].
  - fetching. done.
  - fetching. done.
  - fetching. done.
  - fetching. done.
  - fetching. done.
  - apply peek_poke_eq. unfold lenZ in Hl. lia.
  - intros i Hi1 Hi2 Hi3. rewrite poke_outside by lia. rewrite !put_outside by (simpl; lia). done.
Qed.

Lemma Elsewhere3_Same m' m idx n off k s l lo c :
  Elsewhere3 m' m idx n off k s l ->
  lo + c <= 4 + 4 * idx \/ 4 + 4 * idx + 4 * n <= lo -> lo + c <= off \/ off + k <= lo ->
  lo + c <= s \/ s + l <= lo -> Same m' io m io lo c.
Proof. intros H H1 H2 H3 i Hi. rewrite <- !Z.add_assoc. apply H; lia. Qed.

Lemma write_fixture_at off idx f s m :
  KrFixtureOk f -> 0 <= idx < 2 ^ 16 -> 4 + 4 * idx + 4 <= off -> off + StructCb f <= s ->
  s + StringsCb f < 2 ^ 32 ->
  exists m', WriteEntries io (io + off) 0 (KrEntries f) (write_head off idx f s m) (s + NameCb (KrName f)) =
      (m', inr (s + StringsCb f)) /\
    fetch 4 m' (io + 4 + 4 * idx) = off /\ FixtureAt m' io off idx f s /\
    Elsewhere3 m' m idx 1 off (StructCb f) s (StringsCb f).
Proof.
  intros [Hc Hes] Hi Ho Hs Ht. pose proof (NameCb_nonneg (KrName f)). pose proof (NamesCb_nonneg (KrEntries f)).
  unfold StructCb, StringsCb, EntryCount in *. pose proof (lenZ_nonneg (KrEntries f)).
  destruct (write_head_at off idx f s m ltac:(unfold EntryCount; lia) Hi ltac:(lia) ltac:(lia) ltac:(lia))
    as [(K1 & K2 & K3 & K4 & K5 & K6) Hout].
  destruct (WriteEntries_at off (KrEntries f) 0 (write_head off idx f s m) (s + NameCb (KrName f)) Hes)
    as (m' & E & HE & Hout'); [lia..|].
  rewrite Z.mul_0_r, Z.add_0_r in HE, Hout'.
  exists m'. rewrite E, Z.add_assoc. split_and!; [done| | |].
  - rewrite <- (fetch_ext 4 (write_head off idx f s m)); [done|]. intros i Hi'.
    replace i with (io + (i - io)) by lia. symmetry. apply Hout'; simpl in Hi'; lia.
  - assert (Same m' io (write_head off idx f s m) io off 16) as S1
      by (apply (Elsewhere_Same _ _ _ _ _ _ _ _ _ Hout'); lia).
    assert (Same m' io (write_head off idx f s m) io s (NameCb (KrName f))) as S2
      by (apply (Elsewhere_Same _ _ _ _ _ _ _ _ _ Hout'); lia).
    split; rewrite ?(fetch_Same _ _ _ _ _ _ _ _ S1), ?(fetch_Same_0 _ _ _ _ _ _ _ S1) by lia; try done.
    rewrite (peek_Same _ _ _ _ _ _ _ S2) by lia. done.
  - intros i Hi1 Hi2 Hi3. rewrite Hout' by lia. apply Hout; lia.
Qed.

Lemma WriteFixtures_at fs : forall idx m off s,
  Forall KrFixtureOk fs -> 0 <= idx -> idx + lenZ fs <= 2 ^ 16 -> 4 + 4 * (idx + lenZ fs) <= off ->
  off + Sum StructCb fs <= s -> s + Sum StringsCb fs < 2 ^ 32 ->
  exists m', WriteFixtures io idx fs m off s = Some (m', STATUS_SUCCESS) /\
    FixturesAt m' io off idx fs s /\
    Elsewhere3 m' m idx (lenZ fs) off (Sum StructCb fs) s (Sum StringsCb fs).
Proof.
  induction fs as [|f fs IH]; intros idx m off s Hfs Hi Hlen Ho Hs Ht.
  - exists m. cbn [WriteFixtures]. split_and!; [done..|]. intros i _ _ _. done.
  - apply Forall_cons in Hfs as [Hf Hfs]. rewrite lenZ_cons in *. cbn [Sum foldr] in *.
    fold (Sum StructCb fs) in *. fold (Sum StringsCb fs) in *.
    pose proof (lenZ_nonneg fs). pose proof (StructCb_nonneg f). pose proof (StringsCb_nonneg f).
    pose proof (Sum_nonneg StructCb fs StructCb_nonneg). pose proof (Sum_nonneg StringsCb fs StringsCb_nonneg).
    destruct (write_fixture_at off idx f s m Hf ltac:(lia) ltac:(lia) ltac:(lia) ltac:(lia))
      as (m1 & E1 & Ho1 & Hf1 & Hout1).
    destruct (IH (idx + 1) m1 (off + StructCb f) (s + StringsCb f) Hfs) as (m' & E & HF & Hout); [lia..|].
    exists m'. cbn [WriteFixtures].
    destruct Hf as [Hc _]. unfold IndexEnds. rewrite (proj2 (Z.ltb_lt _ _) Hc). cbn [negb].
    pose proof (NameCb_nonneg (KrName f)). pose proof (NamesCb_nonneg (KrEntries f)).
    pose proof (lenZ_nonneg (KrEntries f)).
    assert (SIZEOF_IO_FIXTURE (EntryCount f) = StructCb f) as ->.
    { unfold SIZEOF_IO_FIXTURE, StructCb, EntryCount in *. rewrite wrap_ULONG by lia. lia. }
    unfold StringsCb in Ht at 1. rewrite !wrap_ULONG by lia.
    fold (write_head off idx f s m). rewrite E1, E. split_and!; [done| |].
    + cbn [FixturesAt]. split_and!; [| |done].
      * rewrite <- (fetch_ext 4 m1); [done|]. intros i Hi'. simpl in Hi'.
        replace i with (io + (i - io)) by lia. symmetry. apply Hout; lia.
      * apply (FixtureAt_Same m' io m1 io); [| |done]; apply (Elsewhere3_Same _ _ _ _ _ _ _ _ _ _ Hout); lia.
    + intros i Hi1 Hi2 Hi3. rewrite Hout by lia. apply Hout1; lia.
Qed.
End writer.

(** ** The size of a description *)
Definition DescriptionStruct (fs : list CFIXKRP_TEST_FIXTURE) : Z := 4 + 4 * lenZ fs + Sum StructCb fs.
Definition DescriptionSize (fs : list CFIXKRP_TEST_FIXTURE) : Z := DescriptionStruct fs + Sum StringsCb fs.

Record AdapterOk (a : CFIXKRP_TEST_ADAPTER) : Prop := {
  ad_count : lenZ (AdFixtures a) < 2 ^ 16;
  ad_fixtures : Forall KrFixtureOk (AdFixtures a);
  ad_size : DescriptionSize (AdFixtures a) < 2 ^ 32 }.

Lemma EntriesStringsSize_spec es : forall n, Forall EntryOk es -> 0 <= n -> n + NamesCb es < 2 ^ 32 ->
  EntriesStringsSize es n = inr (n + NamesCb es).
Proof.
  induction es as [|e es IH]; intros n Hes Hn Ht; cbn [EntriesStringsSize NamesCb] in *; [by rewrite Z.add_0_r|].
  apply Forall_cons in Hes as [He Hes]. pose proof (NameCb_nonneg (EntryName e)). pose proof (NamesCb_nonneg es).
  rewrite EntryNameCb_ok by done. rewrite wrap_ULONG by lia. rewrite IH by (done || lia). f_equal. lia.
Qed.

Lemma FixturesSize_spec fs : forall n k, Forall KrFixtureOk fs -> 0 <= n -> 0 <= k ->
  n + Sum StructCb fs < 2 ^ 32 -> k + Sum StringsCb fs < 2 ^ 32 ->
  FixturesSize fs n k = inr (n + Sum StructCb fs, k + Sum StringsCb fs).
Proof.
  induction fs as [|f fs IH]; intros n k Hfs Hn Hk Ht1 Ht2; cbn [FixturesSize]; [by rewrite !Z.add_0_r|].
  apply Forall_cons in Hfs as [[Hc Hes] Hfs]. cbn [Sum foldr] in *. fold (Sum StructCb fs) in *.
  fold (Sum StringsCb fs) in *. pose proof (Sum_nonneg StructCb fs StructCb_nonneg).
  pose proof (Sum_nonneg StringsCb fs StringsCb_nonneg). pose proof (NameCb_nonneg (KrName f)).
  pose proof (NamesCb_nonneg (KrEntries f)). pose proof (lenZ_nonneg (KrEntries f)).
  assert (SIZEOF_IO_FIXTURE (EntryCount f) = StructCb f) as ->.
  { unfold SIZEOF_IO_FIXTURE, StructCb, EntryCount in *. rewrite wrap_ULONG by lia. lia. }
  unfold StringsCb in Ht2 at 1. rewrite (wrap_ULONG (k + _)) by lia.
  rewrite EntriesStringsSize_spec by (done || lia). pose proof (StructCb_nonneg f). rewrite wrap_ULONG by lia.
  rewrite IH by (done || lia). unfold StringsCb at 2. do 2 f_equal; lia.
Qed.

(** The reflector's answer: the size if the buffer is too small, else the layout. *)
Lemma QueryModule_small a Max io m :
  AdapterOk a -> Max < DescriptionSize (AdFixtures a) ->
  CfixkrpQueryModuleTestAdapter a Max io m = Some (STATUS_BUFFER_OVERFLOW, DescriptionSize (AdFixtures a), m).
Proof.
  intros [Hc Hfs Ht] Hm. unfold DescriptionSize, DescriptionStruct in *.
  pose proof (lenZ_nonneg (AdFixtures a)). pose proof (Sum_nonneg StructCb (AdFixtures a) StructCb_nonneg).
  pose proof (Sum_nonneg StringsCb (AdFixtures a) StringsCb_nonneg).
  unfold CfixkrpQueryModuleTestAdapter, CfixkrsCalculateBufferSize, SIZEOF_IO_MODULE.
  rewrite wrap_ULONG by lia. rewrite FixturesSize_spec by (done || lia). rewrite wrap_ULONG by lia.
  match goal with |- context [Max <? ?x] => replace x with (4 + 4 * lenZ (AdFixtures a) + Sum StructCb (AdFixtures a) + Sum StringsCb (AdFixtures a)) by lia end.
  by rewrite (proj2 (Z.ltb_lt _ _) Hm).
Qed.

Lemma QueryModule_written a Max io m :
  AdapterOk a -> DescriptionSize (AdFixtures a) <= Max ->
  exists m', CfixkrpQueryModuleTestAdapter a Max io m = Some (STATUS_SUCCESS, DescriptionSize (AdFixtures a), m') /\
    fetch 4 m' io = lenZ (AdFixtures a) /\
    FixturesAt m' io (4 + 4 * lenZ (AdFixtures a)) 0 (AdFixtures a) (DescriptionStruct (AdFixtures a)) /\
    (forall i, i < 0 \/ DescriptionSize (AdFixtures a) <= i -> m' (io + i) = m (io + i)).
Proof.
  intros [Hc Hfs Ht] Hm. unfold DescriptionSize, DescriptionStruct in *. set (fs := AdFixtures a) in *.
  pose proof (lenZ_nonneg fs). pose proof (Sum_nonneg StructCb fs StructCb_nonneg).
  pose proof (Sum_nonneg StringsCb fs StringsCb_nonneg).
  unfold CfixkrpQueryModuleTestAdapter, CfixkrsCalculateBufferSize, SIZEOF_IO_MODULE. fold fs.
  rewrite wrap_ULONG by lia. rewrite FixturesSize_spec by (done || lia). rewrite wrap_ULONG by lia.
  rewrite (proj2 (Z.ltb_ge _ _)) by lia. unfold IndexEnds. rewrite (proj2 (Z.ltb_lt _ _) Hc). cbn [negb].
  replace (4 + 4 * (lenZ fs - 1) + 4) with (4 + 4 * lenZ fs) by lia.
  destruct (WriteFixtures_at io fs 0 (put 4 m io (lenZ fs)) (4 + 4 * lenZ fs) (4 + 4 * lenZ fs + Sum StructCb fs) Hfs)
    as (m' & E & HF & Hout); [lia..|].
  exists m'. rewrite E, Z.add_0_l. split_and!; [done| |done|].
  - rewrite <- (fetch_ext 4 (put 4 m io (lenZ fs))); [by apply fetch_put_eq; simpl; lia|].
    intros i Hi. simpl in Hi. replace i with (io + (i - io)) by lia. symmetry. apply Hout; lia.
  - intros i Hi. rewrite Hout by lia. apply put_outside. simpl. lia.
Qed.

(** ** The same fixtures in user mode

    The entries with their keys for routines, marked as present. *)
Definition KeyOf (idx Type_ : Z) : Z :=
  if Type_ =? CfixEntryTypeTestcase then idx else Z.lor idx CFIXKLP_ROUTINE_PRESENT.
Fixpoint Keyed (idx : Z) (es : list CFIX_PE_DEFINITION_ENTRY) : list CFIX_PE_DEFINITION_ENTRY :=
  match es with
  | [] => [MkEntry CfixEntryTypeEnd "" 0]
  | e :: es => MkEntry (EntryType e) (EntryName e) (KeyOf idx (EntryType e)) :: Keyed (idx + 1) es
  end.

Definition KlError (Hr : Z) : Z :=
  if Hr =? CFIX_E_UNKNOWN_ENTRY_TYPE then CFIXKL_E_INVALID_REFLECTOR_RESPONSE else Hr.
Definition EmptyFixture (Name ModName : string) : CFIX_FIXTURE :=
  MkFixture Name 0 0 0 0 CfixApiTypeBase 0 ModName [].

(** The walk of PeModule over the entries gives the fixture. *)
Definition KlFixtureOf (ModName : string) (Key : Z) (f : CFIXKRP_TEST_FIXTURE) : Z + KL_FIXTURE :=
  if 2 * CFIX_MAX_FIXTURE_NAME_CCH - 2 <? NameCb (KrName f)
  then inl (HRESULT_FROM_WIN32 ERROR_INSUFFICIENT_BUFFER)
  else
    match WalkMap (EmptyFixture (KrName f) ModName) (Keyed 0 (KrEntries f)) with
    | inl Hr => inl (KlError Hr)
    | inr f => inr (MkKlFixture Key f)
    end.

(** A routine is absent or marked. *)
Definition Marked (r : Z) : Prop := r = 0 \/ FlagOn r CFIXKLP_ROUTINE_PRESENT = true.
Definition MarkedRoutines (f : CFIX_FIXTURE) : Prop :=
  Marked (SetupRoutine f) /\ Marked (TeardownRoutine f) /\ Marked (BeforeRoutine f) /\ Marked (AfterRoutine f).

Lemma Marked_flag r : Marked r -> FlagOn r CFIXKLP_ROUTINE_PRESENT = negb (r =? 0).
Proof.
  intros [-> | H]; [done|]. rewrite H. destruct (Z.eqb_spec r 0) as [-> |]; [|done]. discriminate.
Qed.

Lemma FlagOn_key idx : FlagOn (Z.lor idx CFIXKLP_ROUTINE_PRESENT) CFIXKLP_ROUTINE_PRESENT = true.
Proof.
  unfold FlagOn. assert (Z.land (Z.lor idx CFIXKLP_ROUTINE_PRESENT) CFIXKLP_ROUTINE_PRESENT = CFIXKLP_ROUTINE_PRESENT) as ->; [|done].
  apply Z.bits_inj'. intros n Hn. rewrite Z.land_spec, Z.lor_spec.
  by destruct (Z.testbit idx n), (Z.testbit CFIXKLP_ROUTINE_PRESENT n).
Qed.

Lemma Marked_key idx : Marked (Z.lor idx CFIXKLP_ROUTINE_PRESENT).
Proof. right. apply FlagOn_key. Qed.

Lemma AddIoEntry_spec f idx e :
  MarkedRoutines f ->
  AddIoEntry f (EntryType e) idx (EntryName e) =
    match AddEntry f (MkEntry (EntryType e) (EntryName e) (KeyOf idx (EntryType e))) with
    | inl Hr => inl (KlError Hr)
    | inr f => inr f
    end /\
  forall f', AddEntry f (MkEntry (EntryType e) (EntryName e) (KeyOf idx (EntryType e))) = inr f' ->
    MarkedRoutines f' /\
    TestCaseCount f' = TestCaseCount f + (if EntryType e =? CfixEntryTypeTestcase then 1 else 0).
Proof.
  intros (Hs & Ht & Hb & Ha). unfold AddIoEntry, AddEntry, KeyOf. cbn [EntryType EntryName EntryRoutine].
  pose proof (Marked_key idx).
  rewrite (Marked_flag _ Hs), (Marked_flag _ Ht), (Marked_flag _ Hb), (Marked_flag _ Ha).
  destruct (Z.eqb_spec (EntryType e) CfixEntryTypeTestcase) as [-> |].
  - split; [done|]. intros f' E. injection E as <-. split; [done|]. unfold TestCaseCount. cbn [TestCases].
    rewrite length_app. simpl. lia.
  - repeat case_match; simplify_eq/=; (split; [done|]); intros f' E; simplify_eq; (split; [done|]);
      unfold TestCaseCount; simpl; lia.
Qed.

(** ** The client reads the layout *)
Definition IsTest (e : CFIX_PE_DEFINITION_ENTRY) : bool := EntryType e =? CfixEntryTypeTestcase.
Definition Tests (es : list CFIX_PE_DEFINITION_ENTRY) : Z := Sum (fun e => if IsTest e then 1 else 0) es.
Definition TestNames (es : list CFIX_PE_DEFINITION_ENTRY) : Z :=
  Sum (fun e => if IsTest e then NameCb (EntryName e) + 2 else 0) es.

Lemma Tests_cons e es : Tests (e :: es) = (if IsTest e then 1 else 0) + Tests es.
Proof. done. Qed.
Lemma TestNames_cons e es : TestNames (e :: es) = (if IsTest e then NameCb (EntryName e) + 2 else 0) + TestNames es.
Proof. done. Qed.

Lemma Tests_bound es : Forall EntryOk es -> 0 <= Tests es <= lenZ es /\ 0 <= TestNames es <= 126 * lenZ es.
Proof.
  induction 1 as [|e es [_ He] _ IH]; [done|]. rewrite Tests_cons, TestNames_cons, lenZ_cons.
  pose proof (NameCb_nonneg (EntryName e)). unfold CFIX_MAX_ENTRY_NAME_CCH, NameCb in *. destruct (IsTest e); lia.
Qed.

Section entries.
Context (P : Z) (m : Memory) (io foff : Z).

Lemma IoEntry_at idx off : off = foff + 16 + 12 * idx -> IoEntry (io + foff) idx = io + off.
Proof. unfold IoEntry. lia. Qed.

Lemma IoName_at idx off e s : EntryAt m io off idx e s -> IoName m io (io + off) = EntryName e.
Proof.
  intros []. unfold IoName, IoNameOffset, IoNameLength. rewrite ent_offset0, ent_length0, ent_name0.
  apply wstring_wbytes.
Qed.

Lemma CountTestCases_at es : forall idx s c b,
  EntriesAt m io (foff + 16 + 12 * idx) idx es s -> Forall EntryOk es -> 0 <= c -> 0 <= b ->
  c + Tests es < 2 ^ 32 -> b + TestNames es < 2 ^ 32 ->
  CountTestCases m (io + foff) idx (length es) c b = (c + Tests es, b + TestNames es).
Proof.
  induction es as [|e es IH]; intros idx s c b H Hok Hc Hb H1 H2.
  { cbn. f_equal; unfold Tests, TestNames; simpl; lia. }
  destruct H as [He H]. apply Forall_cons in Hok as [Heok Hok].
  destruct (Tests_bound es Hok) as [? ?]. pose proof (NameCb_nonneg (EntryName e)).
  rewrite Tests_cons, TestNames_cons in *. cbn [length CountTestCases].
  rewrite (IoEntry_at idx _ eq_refl). destruct He. unfold IoType, IoNameLength. rewrite ent_type0, ent_length0.
  fold (IsTest e). replace (foff + 16 + 12 * idx + 12) with (foff + 16 + 12 * (idx + 1)) in H by lia.
  destruct (IsTest e); [|rewrite (IH _ _ _ _ H) by (done || lia); f_equal; lia].
  rewrite (wrap_ULONG (NameCb _ + 2)), !wrap_ULONG by lia. rewrite (IH _ _ _ _ H) by (done || lia). f_equal; lia.
Qed.

Lemma WalkIoEntries_at BlockSize Strings es : forall idx s f cur,
  EntriesAt m io (foff + 16 + 12 * idx) idx es s -> Forall EntryOk es -> MarkedRoutines f ->
  0 < P -> 0 <= cur -> Strings <= cur -> cur + TestNames es <= BlockSize -> BlockSize < 2 ^ 32 ->
  OFFSET_TestCases P + (TestCaseCount f + Tests es) * (3 * P) <= Strings ->
  WalkIoEntries P m io (io + foff) BlockSize Strings idx (length es) f cur =
  Some (match WalkMap f (Keyed idx es) with
        | inl Hr => inl (KlError Hr)
        | inr f' => inr (f', cur + TestNames es)
        end).
Proof.
  induction es as [|e es IH]; intros idx s f cur H Hok Hf HP Hc Hs Hb Hbs Ho.
  { cbn. by rewrite Z.add_0_r. }
  destruct H as [He H]. apply Forall_cons in Hok as [Heok Hok].
  destruct (Tests_bound es Hok) as [? ?]. pose proof (NameCb_nonneg (EntryName e)).
  rewrite Tests_cons, TestNames_cons in *. cbn [length WalkIoEntries Keyed WalkMap].
  rewrite (IoEntry_at idx _ eq_refl). pose proof (IoName_at _ _ _ _ He) as ->. destruct He.
  unfold IoType, IoKey, IoNameLength. rewrite ent_type0, ent_key0, ent_length0. fold (IsTest e).
  replace (foff + 16 + 12 * idx + 12) with (foff + 16 + 12 * (idx + 1)) in H by lia.
  cbn [EntryType]. destruct Heok as [Htype Hname].
  rewrite (proj2 (Z.eqb_neq (EntryType e) CfixEntryTypeEnd)) by (unfold CfixEntryTypeEnd; lia).
  destruct (AddIoEntry_spec f idx e Hf) as [-> Hnext].
  assert (IsTest e && negb ((Strings <=? cur) && (cur + NameCb (EntryName e) + 2 <=? BlockSize) &&
    (OFFSET_TestCases P + (TestCaseCount f + 1) * (3 * P) <=? Strings)) = false) as ->.
  { destruct (IsTest e); [|done]. cbn [andb]. rewrite !(proj2 (Z.leb_le _ _)) by nia. done. }
  destruct (AddEntry f _) as [Hr|f']; [done|]. destruct (Hnext f' eq_refl) as [Hf' Hcount]. fold (IsTest e) in Hcount.
  assert ((if IsTest e then ULONG (cur + ULONG (NameCb (EntryName e) + 2)) else cur) =
    cur + (if IsTest e then NameCb (EntryName e) + 2 else 0)) as ->.
  { destruct (IsTest e); [|lia]. rewrite (wrap_ULONG (NameCb _ + 2)), wrap_ULONG; lia. }
  rewrite (IH _ _ _ _ H Hok Hf' HP); [by rewrite Z.add_assoc| | | |done|]; try (destruct (IsTest e); lia).
Qed.
End entries.

Section reader.
Context (P : Z) (HP : P = 4 \/ P = 8) {W : Type} (Malloc : gset Z -> Z -> Z).
(** The client does not run out of memory. *)
Context (HMalloc : forall B n, Malloc B n <> 0 /\ Malloc B n ∉ B).

Lemma SIZEOF_THROUGH_small n :
  0 <= n <= 2 ^ 16 -> SIZEOF_THROUGH_TestCases P n = OFFSET_TestCases P + n * (3 * P).
Proof.
  intros Hn. unfold SIZEOF_THROUGH_TestCases, ULONG.
  destruct (Z.eq_dec n 0) as [-> |Hn0]; [by destruct HP as [-> | ->]|].
  rewrite (wrap_small 32 (n - 1)) by lia. unfold LONG, ULONG.
  assert (0 <= OFFSET_TestCases P + (n - 1) * (3 * P) < 2 ^ 31) as H.
  { unfold OFFSET_TestCases. destruct HP as [-> | ->]; cbn [Z.eqb Pos.eqb]; lia. }
  rewrite (wrap_small 32) by lia. rewrite (proj2 (Z.ltb_lt _ _)) by lia.
  rewrite wrap_small; [lia|]. destruct HP as [-> | ->]; lia.
Qed.

(** What the state is like when a fixture has been made or not. *)
Definition Made (s : CW W) (b : Z) : CW W := MkCW (Blocks s ∪ {[b]}) (World s).

Lemma CreateFixture_at m io off idx f str ModName (s : CW W) :
  KrFixtureOk f -> FixtureAt m io off idx f str ->
  exists b, b ∉ Blocks s /\ b <> 0 /\
  CfixklsCreateFixture Malloc P m io (io + off) ModName s =
  Some (match KlFixtureOf ModName idx f with
        | inl Hr => (inl Hr, s)
        | inr f' => (inr (b, f'), Made s b)
        end).
Proof.
  intros [Hcount Hes] []. unfold EntryCount in *. destruct (Tests_bound _ Hes) as [Ht Hn].
  pose proof (lenZ_nonneg (KrEntries f)).
  unfold CfixklsCreateFixture. unfold IoEntryCount. rewrite fix_count0.
  replace (Z.to_nat (lenZ (KrEntries f))) with (length (KrEntries f)) by (unfold lenZ; lia).
  replace (off + 16) with (off + 16 + 12 * 0) in fix_entries0 by lia.
  rewrite (CountTestCases_at m io off _ _ _ 0 0 fix_entries0) by (done || lia). rewrite !Z.add_0_l.
  rewrite SIZEOF_THROUGH_small by lia.
  set (Strings := OFFSET_TestCases P + Tests (KrEntries f) * (3 * P)).
  assert (0 < Strings /\ Strings + TestNames (KrEntries f) < 2 ^ 32 /\ 2 ^ 32 <= 2 ^ (8 * P)) as (HS1 & HS2 & HP8).
  { unfold Strings, OFFSET_TestCases. destruct HP as [-> | ->]; cbn [Z.eqb Pos.eqb]; lia. }
  rewrite wrap_small by lia.
  destruct (malloc_eq Malloc HMalloc (Strings + TestNames (KrEntries f)) s) as (b & Hb & H0 & E).
  exists b. split_and!; [done..|]. rewrite (bind_eq _ _ _ _ _ E), (proj2 (Z.eqb_neq _ _) H0).
  unfold IoNameLength. rewrite fix_length0.
  assert (NameCb (KrName f) mod 2 = 0) as -> by (unfold NameCb; by rewrite Z.mul_comm, Z.mod_mul).
  assert (forall x : Z, (free b ;;; ret (inl x : Z + Z * KL_FIXTURE)) (MkCW (Blocks s ∪ {[b]}) (World s)) = Some (inl x, s)) as HF.
  { intros x. cbn. unfold ret. destruct s as [B w]. cbn in *. apply Some_CW. set_solver. }
  unfold KlFixtureOf, bind at 1. cbn [Z.eqb assert_ ret].
  destruct (_ <? NameCb (KrName f)); [apply HF|].
  assert (IoName m io (io + off) = KrName f) as ->.
  { unfold IoName, IoNameOffset, IoNameLength. rewrite fix_offset0, fix_length0, fix_name0. apply wstring_wbytes. }
  fold (EmptyFixture (KrName f) ModName). rewrite wrap_ULONG by lia.
  rewrite (WalkIoEntries_at P m io off (Strings + TestNames (KrEntries f)) Strings _ _ _ _ _ fix_entries0)
    by (done || lia || (split_and!; by left)).
  destruct (WalkMap _ _) as [Hr|f']; [apply HF|].
  rewrite Z.eqb_refl. unfold bind. cbn [assert_ ret]. rewrite fix_key0. done.
Qed.

(** The fixtures of a whole description. *)
Fixpoint KlFixturesOf (ModName : string) (Key : Z) (fs : list CFIXKRP_TEST_FIXTURE) : Z * list KL_FIXTURE :=
  match fs with
  | [] => (S_OK, [])
  | f :: fs =>
      match KlFixtureOf ModName Key f with
      | inl Hr => (Hr, [])
      | inr f' => let r := KlFixturesOf ModName (Key + 1) fs in (fst r, f' :: snd r)
      end
  end.

Lemma CreateFixtures_at m io ModName fs : forall off idx str (s : CW W) done_,
  Forall KrFixtureOk fs -> FixturesAt m io off idx fs str ->
  exists bs, NoDup bs /\ Forall (fun b => b ∉ Blocks s /\ b <> 0) bs /\
    length bs = length (snd (KlFixturesOf ModName idx fs)) /\
    CreateFixtures Malloc P m io ModName idx (length fs) done_ s =
    Some ((fst (KlFixturesOf ModName idx fs), done_ ++ zip bs (snd (KlFixturesOf ModName idx fs))),
          MkCW (Blocks s ∪ list_to_set bs) (World s)).
Proof.
  induction fs as [|f fs IH]; intros off idx str s done_ Hok H.
  { exists []. cbn. unfold ret. rewrite app_nil_r. split_and!; [constructor|constructor|done|].
    destruct s. apply Some_CW. cbn. set_solver. }
  apply Forall_cons in Hok as [Hf Hok]. destruct H as (Ho & Hat & H). cbn [length CreateFixtures KlFixturesOf].
  rewrite Ho. destruct (CreateFixture_at m io off idx f str ModName s Hf Hat) as (b & Hb & H0 & E).
  unfold bind at 1. rewrite E. destruct (KlFixtureOf ModName idx f) as [Hr|f'].
  { exists []. cbn. unfold ret. rewrite app_nil_r. split_and!; [constructor|constructor|done|].
    destruct s. apply Some_CW. cbn. set_solver. }
  destruct (IH _ _ _ (Made s b) (done_ ++ [(b, f')]) Hok H) as (bs & Hnd & Hbs & Hl & E').
  exists (b :: bs). rewrite E'. cbn [fst snd length zip zip_with Blocks World Made] in *. split_and!.
  - constructor; [|done]. intros Hin. rewrite Forall_forall in Hbs. specialize (Hbs b Hin). set_solver.
  - constructor; [done|]. eapply Forall_impl; [exact Hbs|]. simpl. set_solver.
  - lia.
  - rewrite <- app_assoc. apply Some_CW. cbn. set_solver.
Qed.
End reader.

(** ** The keys of a fixture

    The key in the field of a routine, as the run methods extract it. *)
(* src/cfixkern/cfixkl/module.c:623-624 (CfixklsRunSetupRoutine) *)
Definition KeyIn (Routine : Z) : Z := wrap 16 (Z.land Routine (Z.lnot CFIXKLP_ROUTINE_PRESENT)).

Lemma KeyIn_key idx : 0 <= idx < 2 ^ 16 -> KeyIn (Z.lor idx CFIXKLP_ROUTINE_PRESENT) = idx.
Proof.
  intros H. unfold KeyIn. assert (Z.land (Z.lor idx CFIXKLP_ROUTINE_PRESENT) (Z.lnot CFIXKLP_ROUTINE_PRESENT) = idx) as ->.
  { apply Z.bits_inj'. intros n Hn. rewrite Z.land_spec, Z.lor_spec, Z.lnot_spec by done.
    change CFIXKLP_ROUTINE_PRESENT with (2 ^ 31). rewrite Z.pow2_bits_eqb by done.
    destruct (Z.eqb_spec 31 n) as [<-|]; [|by destruct (Z.testbit idx n)].
    cbn [negb andb orb]. rewrite andb_false_r. symmetry. apply Z.bits_above_log2; [lia|].
    destruct (Z.eq_dec idx 0) as [-> |]; [done|]. apply Z.log2_lt_pow2; lia. }
  by apply wrap_small.
Qed.

Definition HasType (T : Z) (e : CFIX_PE_DEFINITION_ENTRY) : bool := EntryType e =? T.

(** The routine of at most one entry; [R] resolves keys. *)
Definition Resolved (R : Z -> option Z) (v : Z) (l : list CFIX_PE_DEFINITION_ENTRY) : Prop :=
  match l with
  | [] => v = 0
  | [e] => FlagOn v CFIXKLP_ROUTINE_PRESENT = true /\ R (KeyIn v) = Some (EntryRoutine e)
  | _ => False
  end.

Record ResolvedFixture (R : Z -> option Z) (f : CFIX_FIXTURE) (es : list CFIX_PE_DEFINITION_ENTRY) : Prop := {
  res_tests : map (fun t => (TcName t, R (TcRoutine t))) (TestCases f) =
    map (fun e => (EntryName e, Some (EntryRoutine e))) (List.filter IsTest es);
  res_setup : Resolved R (SetupRoutine f) (List.filter (HasType CfixEntryTypeSetup) es);
  res_teardown : Resolved R (TeardownRoutine f) (List.filter (HasType CfixEntryTypeTeardown) es);
  res_before : Resolved R (BeforeRoutine f) (List.filter (HasType CfixEntryTypeBefore) es);
  res_after : Resolved R (AfterRoutine f) (List.filter (HasType CfixEntryTypeAfter) es) }.

Section keys.
Context (R : Z -> option Z).

Lemma Resolved_other v T es e : (EntryType e =? T) = false ->
  Resolved R v (List.filter (HasType T) es) -> Resolved R v (List.filter (HasType T) (es ++ [e])).
Proof. intros HT H. rewrite List.filter_app. simpl. unfold HasType at 2. by rewrite HT, app_nil_r. Qed.

Lemma Resolved_new T es e idx : EntryType e = T -> 0 <= idx < 2 ^ 16 -> R idx = Some (EntryRoutine e) ->
  Resolved R 0 (List.filter (HasType T) es) ->
  Resolved R (Z.lor idx CFIXKLP_ROUTINE_PRESENT) (List.filter (HasType T) (es ++ [e])).
Proof.
  intros HT Hi HR H. rewrite List.filter_app. simpl. unfold HasType at 2. rewrite HT, Z.eqb_refl.
  destruct (List.filter (HasType T) es) as [|x [|y l]]; [|by destruct H|done].
  simpl. rewrite KeyIn_key by done. split; [apply FlagOn_key|done].
Qed.

Lemma filter_test_other es e : (EntryType e =? CfixEntryTypeTestcase) = false ->
  List.filter IsTest (es ++ [e]) = List.filter IsTest es.
Proof. intros H. rewrite List.filter_app. simpl. unfold IsTest at 2. by rewrite H, app_nil_r. Qed.

(** The entry at hand is of the type [T] of the field with value [V]. *)
Ltac routine_case E V HV :=
  rewrite E; cbn; destruct (Z.eqb_spec V 0) as [H0|]; [|done]; intros Hf; injection Hf as <-;
  rewrite H0 in HV; split; cbn [SetupRoutine TeardownRoutine BeforeRoutine AfterRoutine TestCases with_routine];
  first [ by rewrite filter_test_other by (by rewrite E) | by apply Resolved_new
        | by apply Resolved_other; [rewrite E|] ].

Lemma AddEntry_resolved f es e idx f' :
  0 <= idx < 2 ^ 16 -> R idx = Some (EntryRoutine e) -> ResolvedFixture R f es ->
  AddEntry f (MkEntry (EntryType e) (EntryName e) (KeyOf idx (EntryType e))) = inr f' ->
  ResolvedFixture R f' (es ++ [e]).
Proof.
  intros Hi HR [Ht Hs Htd Hb Ha]. unfold AddEntry, KeyOf. cbn [EntryType EntryName EntryRoutine].
  destruct (Z.eqb_spec (EntryType e) CfixEntryTypeSetup) as [E|Es]; [routine_case E (SetupRoutine f) Hs|].
  destruct (Z.eqb_spec (EntryType e) CfixEntryTypeTeardown) as [E|Et]; [routine_case E (TeardownRoutine f) Htd|].
  destruct (Z.eqb_spec (EntryType e) CfixEntryTypeBefore) as [E|Eb]; [routine_case E (BeforeRoutine f) Hb|].
  destruct (Z.eqb_spec (EntryType e) CfixEntryTypeAfter) as [E|Ea]; [routine_case E (AfterRoutine f) Ha|].
  destruct (Z.eqb_spec (EntryType e) CfixEntryTypeTestcase) as [E|]; [|done]. intros Hf. injection Hf as <-.
  split; cbn [SetupRoutine TeardownRoutine BeforeRoutine AfterRoutine TestCases];
    try (by apply Resolved_other; [rewrite E|]).
  rewrite List.filter_app, !map_app, Ht. f_equal. simpl. unfold IsTest. rewrite E. simpl. by rewrite HR.
Qed.

Lemma WalkMap_resolved es : forall idx f pre f',
  0 <= idx -> idx + lenZ es <= 2 ^ 16 ->
  (forall i e, es !! i = Some e -> R (idx + Z.of_nat i) = Some (EntryRoutine e)) ->
  Forall EntryOk es -> ResolvedFixture R f pre -> WalkMap f (Keyed idx es) = inr f' ->
  ResolvedFixture R f' (pre ++ es).
Proof.
  induction es as [|e es IH]; intros idx f pre f' Hi Hl HR Hok Hf E.
  { cbn in E. injection E as <-. by rewrite app_nil_r. }
  apply Forall_cons in Hok as [[He _] Hok]. rewrite lenZ_cons in Hl. pose proof (lenZ_nonneg es).
  cbn [Keyed WalkMap EntryType] in E.
  rewrite (proj2 (Z.eqb_neq (EntryType e) CfixEntryTypeEnd)) in E by (unfold CfixEntryTypeEnd; lia).
  destruct (AddEntry f _) as [Hr|f1] eqn:E1; [done|].
  assert (R idx = Some (EntryRoutine e)) as HR0.
  { pose proof (HR O e eq_refl) as H'. by rewrite Z.add_0_r in H'. }
  pose proof (AddEntry_resolved f pre e idx f1 ltac:(lia) HR0 Hf E1) as Hf1.
  replace (pre ++ e :: es) with ((pre ++ [e]) ++ es) by (by rewrite <- app_assoc).
  apply (IH (idx + 1) f1); try done; try lia.
  intros i x Hx. rewrite <- (HR (S i) x Hx). f_equal. lia.
Qed.
End keys.

(** The routine that the reflector finds for keys. *)
Definition RoutineAt (a : CFIXKRP_TEST_ADAPTER) (FixtureKey RoutineKey : Z) : option Z :=
  match CfixkrpGetRoutineTestAdapter a FixtureKey RoutineKey with inr r => Some r | inl _ => None end.

Lemma KlFixtureOf_resolved a ModName k f kf :
  AdFixtures a !! k = Some f -> KrFixtureOk f -> KlFixtureOf ModName (Z.of_nat k) f = inr kf ->
  KfReserved kf = Z.of_nat k /\ FxName (KfBase kf) = KrName f /\
  ResolvedFixture (RoutineAt a (KfReserved kf)) (KfBase kf) (KrEntries f).
Proof.
  intros Hk [Hc Hes] E. unfold KlFixtureOf in E. destruct (_ <? _); [done|].
  destruct (WalkMap _ _) as [Hr|f'] eqn:EW; [done|]. injection E as <-. cbn [KfReserved KfBase].
  split; [done|]. unfold EntryCount in Hc. split.
  - assert (forall es f f', WalkMap f es = inr f' -> FxName f' = FxName f) as HN; [|by apply HN in EW].
    induction es as [|e es IH]; intros f0 f1 H; [done|]. cbn [WalkMap] in H.
    destruct (_ =? _); [by injection H as <-|]. destruct (AddEntry f0 e) as [|f2] eqn:E2; [done|].
    rewrite (IH _ _ H). unfold AddEntry in E2. repeat case_match; simplify_eq/=; done.
  - apply (WalkMap_resolved (RoutineAt a (Z.of_nat k)) (KrEntries f) 0 (EmptyFixture (KrName f) ModName) []);
      try done; try lia.
    intros i e He. unfold RoutineAt, CfixkrpGetRoutineTestAdapter. rewrite Nat2Z.id, Hk.
    replace (Z.to_nat (0 + Z.of_nat i)) with i by lia. by rewrite He.
Qed.

Lemma KlFixturesOf_lookup ModName fs : forall K i kf,
  snd (KlFixturesOf ModName K fs) !! i = Some kf ->
  exists f, fs !! i = Some f /\ KlFixtureOf ModName (K + Z.of_nat i) f = inr kf.
Proof.
  induction fs as [|f fs IH]; intros K i kf H; [done|]. cbn [KlFixturesOf] in H.
  destruct (KlFixtureOf ModName K f) as [Hr|f'] eqn:E; [done|]. destruct i as [|i].
  - injection H as <-. exists f. by rewrite Z.add_0_r.
  - destruct (IH _ _ _ H) as (g & Hg & Eg). exists g. split; [done|].
    replace (K + Z.of_nat (S i)) with (K + 1 + Z.of_nat i) by lia. done.
Qed.

Lemma FixturesAt_copied a io m' m2 r :
  FixturesAt m' io (4 + 4 * lenZ (AdFixtures a)) 0 (AdFixtures a) (DescriptionStruct (AdFixtures a)) ->
  Copied m2 r m' io (DescriptionSize (AdFixtures a)) ->
  fetch 4 m2 r = fetch 4 m' io /\
  FixturesAt m2 r (4 + 4 * lenZ (AdFixtures a)) 0 (AdFixtures a) (DescriptionStruct (AdFixtures a)).
Proof.
  intros HF HC. set (fs := AdFixtures a) in *. unfold DescriptionSize, DescriptionStruct in *.
  pose proof (lenZ_nonneg fs). pose proof (Sum_nonneg StructCb fs StructCb_nonneg).
  pose proof (Sum_nonneg StringsCb fs StringsCb_nonneg). split.
  - rewrite <- (Z.add_0_r r), (fetch_Copied _ _ _ _ _ HC) by lia. by rewrite Z.add_0_r.
  - apply (FixturesAt_Same m2 r m' io); [..|done]; intros i Hi; rewrite <- !Z.add_assoc; apply HC; lia.
Qed.

(** ** Fixtures are well-typed, whatever the response holds

    A field of a routine is empty or a marked 16 bit key; so are the fields of test
    cases, without the mark; the name fits its buffer. *)
Definition KeyField (v : Z) : Prop := v = 0 \/ exists k, 0 <= k < 2 ^ 16 /\ v = Z.lor k CFIXKLP_ROUTINE_PRESENT.

Record TypedBase (f : CFIX_FIXTURE) : Prop := {
  ty_setup : KeyField (SetupRoutine f);
  ty_teardown : KeyField (TeardownRoutine f);
  ty_before : KeyField (BeforeRoutine f);
  ty_after : KeyField (AfterRoutine f);
  ty_tests : Forall (fun t => 0 <= TcRoutine t < 2 ^ 16) (TestCases f) }.

Record TypedFixture (f : KL_FIXTURE) : Prop := {
  ty_base : TypedBase (KfBase f);
  ty_key : 0 <= KfReserved f < 2 ^ 16;
  ty_name : Z.of_nat (String.length (FxName (KfBase f))) < CFIX_MAX_FIXTURE_NAME_CCH }.

Lemma KeyField_Marked v : KeyField v -> Marked v.
Proof. intros [-> |(k & _ & ->)]; [by left|apply Marked_key]. Qed.

Lemma TypedBase_Marked f : TypedBase f -> MarkedRoutines f.
Proof. intros []. repeat split; by apply KeyField_Marked. Qed.

Section typed.
Context (m : Memory) (Hbytes : forall a, 0 <= m a < 256).

Lemma fetch2_range a : 0 <= fetch 2 m a < 2 ^ 16.
Proof. unfold fetch. cbn [peek of_bytes]. pose proof (Hbytes a). pose proof (Hbytes (a + 1)). lia. Qed.

Lemma AddIoEntry_typed f T K N f' : 0 <= K < 2 ^ 16 -> TypedBase f -> AddIoEntry f T K N = inr f' ->
  TypedBase f' /\ FxName f' = FxName f.
Proof.
  intros HK [] E. assert (KeyField (Z.lor K CFIXKLP_ROUTINE_PRESENT)) by (right; by exists K).
  unfold AddIoEntry in E. repeat case_match; simplify_eq; (split; [split|]); cbn; try done.
  apply Forall_app. split; [done|]. by constructor.
Qed.

Lemma WalkIoEntries_typed P io iof BlockSize Strings n : forall Index f Cur f' Cur',
  TypedBase f -> WalkIoEntries P m io iof BlockSize Strings Index n f Cur = Some (inr (f', Cur')) ->
  TypedBase f' /\ FxName f' = FxName f.
Proof.
  induction n as [|n IH]; intros Index f Cur f' Cur' Hf E; cbn [WalkIoEntries] in E; [by injection E as <- <-|].
  destruct (_ && _) in E; [done|]. destruct (AddIoEntry _ _ _ _) as [|g] eqn:Eg in E; [done|].
  apply AddIoEntry_typed in Eg as [Hg <-]; [by eapply IH|apply fetch2_range|done].
Qed.

Lemma length_wstring n a : (String.length (wstring (peek m a n)) <= n / 2)%nat.
Proof.
  enough (forall k b, (String.length (wstring (peek m b (2 * k))) <= k)%nat /\
    (String.length (wstring (peek m b (2 * k + 1))) <= k)%nat) as H.
  { destruct (H (n / 2)%nat a) as [H0 H1]. pose proof (Nat.div_mod_eq n 2).
    assert (n mod 2 < 2)%nat by (apply Nat.mod_upper_bound; lia).
    destruct (n mod 2)%nat as [|[|]]; [|..|lia]; rewrite H2 at 1; [by rewrite Nat.add_0_r|done]. }
  intros k. induction k as [|k IH]; intros b; [by split|].
  replace (2 * S k)%nat with (S (S (2 * k))) by lia. replace (S (S (2 * k)) + 1)%nat with (S (S (2 * k + 1))) by lia.
  cbn [peek wstring String.length]. destruct (IH (b + 1 + 1)) as [H0 H1]. split; lia.
Qed.

Lemma CreateFixture_typed {W} Malloc P io iof ModName (s s' : CW W) b f :
  CfixklsCreateFixture Malloc P m io iof ModName s = Some (inr (b, f), s') -> TypedFixture f.
Proof.
  unfold CfixklsCreateFixture. intros E. destruct (CountTestCases _ _ _ _ _ _) as [c l] in E. cbv zeta in E.
  apply bind_Some in E as (a & s1 & _ & E). destruct (a =? 0); [done|].
  apply bind_Some in E as ([] & s2 & _ & E).
  destruct (Z.ltb_spec (2 * CFIX_MAX_FIXTURE_NAME_CCH - 2) (IoNameLength m iof)) as [|Hlen].
  { apply bind_Some in E as ([] & s3 & _ & E). done. }
  destruct (WalkIoEntries _ _ _ _ _ _ _ _ _ _) as [[Hr|[g Cur]]|] eqn:EW; [|..|done].
  { apply bind_Some in E as ([] & s3 & _ & E). done. }
  apply bind_Some in E as ([] & s3 & _ & E). injection E as <- <- <-.
  apply WalkIoEntries_typed in EW as [Hg HN]; [|split; cbn; try (by left); constructor].
  split; [done|apply fetch2_range|]. cbn [KfBase]. rewrite HN. cbn [FxName].
  unfold IoName. pose proof (length_wstring (Z.to_nat (IoNameLength m iof)) (io + IoNameOffset m iof)) as Hw.
  pose proof (Nat.Div0.div_le_mono (Z.to_nat (IoNameLength m iof)) (Z.to_nat (2 * CFIX_MAX_FIXTURE_NAME_CCH - 2)) 2 ltac:(lia)) as Hd.
  unfold CFIX_MAX_FIXTURE_NAME_CCH in *. change (Z.to_nat (2 * 128 - 2) / 2)%nat with 127%nat in Hd. lia.
Qed.

Lemma CreateFixtures_typed {W} Malloc P r ModName n : forall Index fs (s s' : CW W) Hr fs',
  Forall (fun x => TypedFixture (snd x)) fs ->
  CreateFixtures Malloc P m r ModName Index n fs s = Some ((Hr, fs'), s') -> Forall (fun x => TypedFixture (snd x)) fs'.
Proof.
  induction n as [|n IH]; intros Index fs s s' Hr fs' Hfs E; cbn [CreateFixtures] in E; [by injection E as <- <- <-|].
  apply bind_Some in E as ([e|[b f]] & s1 & Ef & E); [by injection E as <- <- <-|].
  eapply IH; [|exact E]. apply Forall_app. split; [done|]. constructor; [|constructor]. cbn [snd]. by eapply CreateFixture_typed.
Qed.
End typed.

Section claims.
Context (P : Z) (HP : P = 4 \/ P = 8) {W : Type} (Malloc : gset Z -> Z -> Z).
Context (HMalloc : forall B n, Malloc B n <> 0 /\ Malloc B n ∉ B).

(** C16. The description of a test driver: the reflector writes it into the system
    buffer if it fits and touches nothing else, and from any copy of it the client
    makes the fixtures of the driver, in order, each in a block of its own, up to
    the first fixture that is refused. *)
Theorem description_roundtrip a Max io m ModName :
  AdapterOk a -> DescriptionSize (AdFixtures a) <= Max ->
  exists m', CfixkrpQueryModuleTestAdapter a Max io m = Some (STATUS_SUCCESS, DescriptionSize (AdFixtures a), m') /\
  (forall i, i < 0 \/ DescriptionSize (AdFixtures a) <= i -> m' (io + i) = m (io + i)) /\
  forall m2 r (s : CW W), Copied m2 r m' io (DescriptionSize (AdFixtures a)) ->
  let x := KlFixturesOf ModName 0 (AdFixtures a) in
  exists bs, NoDup bs /\ Forall (fun b => b ∉ Blocks s /\ b <> 0) bs /\ length bs = length (snd x) /\
    CreateFixtures Malloc P m2 r ModName 0 (Z.to_nat (fetch 4 m2 r)) [] s =
    Some ((fst x, zip bs (snd x)), MkCW (Blocks s ∪ list_to_set bs) (World s)).
Proof.
  intros Ha Hm. destruct (QueryModule_written a Max io m Ha Hm) as (m' & E & Hn & HF & Hout).
  exists m'. split_and!; [done..|]. intros m2 r s HC x.
  destruct (FixturesAt_copied a io m' m2 r HF HC) as [Hn2 HF2].
  rewrite Hn2, Hn. replace (Z.to_nat (lenZ (AdFixtures a))) with (length (AdFixtures a)) by (unfold lenZ; lia).
  by apply (CreateFixtures_at P HP Malloc HMalloc _ _ _ _ _ _ _ s [] (ad_fixtures _ Ha) HF2).
Qed.

(** Every key that the client has for a fixture, a test case, a setup, teardown,
    before or after routine leads the reflector to the routine of that name and
    type, and a routine that the driver does not define has no key. *)
Theorem keys_lead_to_routines a ModName k kf :
  AdapterOk a -> snd (KlFixturesOf ModName 0 (AdFixtures a)) !! k = Some kf ->
  exists f, AdFixtures a !! k = Some f /\ KfReserved kf = Z.of_nat k /\ FxName (KfBase kf) = KrName f /\
    ResolvedFixture (RoutineAt a (KfReserved kf)) (KfBase kf) (KrEntries f).
Proof.
  intros Ha H. destruct (KlFixturesOf_lookup _ _ _ _ _ H) as (f & Hf & E). exists f.
  pose proof (proj1 (Forall_lookup _ _) (ad_fixtures _ Ha) _ _ Hf) as Hok.
  rewrite Z.add_0_l in E. destruct (KlFixtureOf_resolved a ModName k f kf Hf Hok E) as (? & ? & ?). done.
Qed.

(** C37. Whatever bytes a response consists of, the fixtures that are made of it are
    well-typed: every field of a routine is empty or a marked 16 bit key from which
    the run methods get that key back, test cases and fixtures have 16 bit keys, so
    that no cast of the run methods loses anything, and names fit their buffers. *)
Theorem created_fixtures_typed m r ModName n (s s' : CW W) Hr fs :
  (forall a, 0 <= m a < 256) -> CreateFixtures Malloc P m r ModName 0 n [] s = Some ((Hr, fs), s') ->
  Forall (fun x => TypedFixture (snd x) /\ MarkedRoutines (KfBase (snd x)) /\
    forall v, v ∈ [SetupRoutine (KfBase (snd x)); TeardownRoutine (KfBase (snd x));
                   BeforeRoutine (KfBase (snd x)); AfterRoutine (KfBase (snd x))] -> v <> 0 ->
    v = Z.lor (KeyIn v) CFIXKLP_ROUTINE_PRESENT) fs.
Proof.
  intros Hm E. apply (CreateFixtures_typed m Hm) in E; [|constructor]. eapply Forall_impl; [exact E|].
  intros x Hx. split_and!; [done|apply TypedBase_Marked, Hx|]. destruct Hx as [[] _ _]. intros v Hv Hn.
  assert (KeyField v) as [|(k & Hk & ->)]; [|done|by rewrite KeyIn_key].
  repeat (apply elem_of_cons in Hv as [-> |Hv]; [done|]). by apply elem_of_nil in Hv.
Qed.
End claims.

Module Demo.
Definition adapter : CFIXKRP_TEST_ADAPTER :=
  MkAdapter
    [ MkKrFixture "Empty" [];
      MkKrFixture "Suite"
        [ MkEntry CfixEntryTypeSetup "SetUp" 0x401000; MkEntry CfixEntryTypeTestcase "Add" 0x401100;
          MkEntry CfixEntryTypeAfter "After" 0x401200; MkEntry CfixEntryTypeTestcase "Remove" 0x401300 ] ]
    0x100.

Lemma adapter_ok : AdapterOk adapter.
Proof. split; [by vm_compute|repeat constructor; simpl; unfold CFIX_MAX_ENTRY_NAME_CCH; lia|by vm_compute]. Defined.

Lemma description_roundtrip_witness :
  exists m', CfixkrpQueryModuleTestAdapter adapter 4096 24 (fun _ => 0xCC) = Some (STATUS_SUCCESS, 150, m') /\
  forall m2 r (s : CW unit), Copied m2 r m' 24 150 ->
  exists bs, NoDup bs /\
    CreateFixtures (fun B _ => NextBlock B) 8 m2 r "driver" 0 (Z.to_nat (fetch 4 m2 r)) [] s =
    Some ((S_OK, zip bs (snd (KlFixturesOf "driver" 0 (AdFixtures adapter)))),
          MkCW (Blocks s ∪ list_to_set bs) (World s)).
Proof.
  destruct (description_roundtrip 8 ltac:(by right) (W := unit) (fun B _ => NextBlock B) (fun B _ => NextBlock_fresh B)
    adapter 4096 24 (fun _ => 0xCC) "driver" adapter_ok ltac:(by vm_compute)) as (m' & E & _ & H).
  exists m'. split; [exact E|]. intros m2 r s HC.
  destruct (H m2 r s HC) as (bs & Hnd & _ & _ & E2). exists bs. split; [exact Hnd|exact E2].
Defined.

Lemma keys_lead_to_routines_witness :
  let kf := MkKlFixture 1 (MkFixture "Suite" 0x80000000 0 0 0x80000002 CfixApiTypeBase 0 "driver"
              [MkTestCase "Add" 1; MkTestCase "Remove" 3]) in
  exists f, AdFixtures adapter !! 1%nat = Some f /\ KfReserved kf = 1 /\ FxName (KfBase kf) = KrName f /\
    ResolvedFixture (RoutineAt adapter 1) (KfBase kf) (KrEntries f).
Proof.
  intros kf. apply (keys_lead_to_routines adapter "driver" 1 kf adapter_ok). by vm_compute.
Defined.

(** Bytes that nobody has written as a description: one fixture with a setup routine
    of key 7. *)
Definition bytes (a : Z) : Z :=
  if a =? 28 then 32 else if a =? 68 then 1 else if a =? 72 then CfixEntryTypeSetup else if a =? 74 then 7 else 0.

Lemma created_fixtures_typed_witness :
  exists b f s', CreateFixtures (fun B _ => NextBlock B) 8 bytes 24 "driver" 0 1 [] (MkCW ∅ tt) = Some ((S_OK, [(b, f)]), s') /\
    SetupRoutine (KfBase f) = Z.lor 7 CFIXKLP_ROUTINE_PRESENT /\ TypedFixture f /\ MarkedRoutines (KfBase f).
Proof.
  assert (exists b f s', CreateFixtures (fun B _ => NextBlock B) 8 bytes 24 "driver" 0 1 [] (MkCW ∅ tt) =
    Some ((S_OK, [(b, f)]), s') /\ SetupRoutine (KfBase f) = Z.lor 7 CFIXKLP_ROUTINE_PRESENT) as (b & f & s' & E & Es)
    by (do 3 eexists; split; [vm_compute; reflexivity|reflexivity]).
  pose proof (created_fixtures_typed 8 (fun B _ => NextBlock B) bytes 24 "driver" 1 _ _ _ _
    ltac:(intros a; unfold bytes, CfixEntryTypeSetup; repeat case_match; lia) E) as H.
  apply Forall_cons in H as [(H1 & H2 & _) _]. exists b, f, s'. split_and!; assumption.
Defined.
End Demo.
