(* ===== verification/KlDriver.v ===== *)
(** * Loading drivers (cfixkern/cfixkl/load.c)

    The client installs and starts the reflector and the driver under test through
    the service control manager.  The operating system is an interface: a class of
    operations, and a class of laws about the handles that they open and close.
    The theorem is that no handle of a service is lost, whatever the operations
    return. *)
From stdpp Require Import base gmap list strings.
From Stdlib Require Import ZArith Lia.
From S2P Require Import Prelude CfixApi Search IoBuffer KrEvents KlCalls.
Local Open Scope Z_scope.
Local Open Scope cfix_scope.

Definition ERROR_MOD_NOT_FOUND : Z := 126.
Definition ERROR_MORE_DATA : Z := 234.
Definition ERROR_SERVICE_ALREADY_RUNNING : Z := 1056.
Definition ERROR_SERVICE_NOT_ACTIVE : Z := 1062.
Definition ERROR_SERVICE_EXISTS : Z := 1073.
Definition STRSAFE_E_INSUFFICIENT_BUFFER : Z := 0x8007007A.
Definition CFIXKL_E_CFIXKR_NOT_FOUND : Z := 0x8004A000.
Definition CFIXKL_E_CFIXKR_START_DENIED : Z := 0x8004A002.
Definition MAX_PATH : nat := 260.

(** [StringCchCopy] into a buffer of [n] characters. *)
Definition CopyCch (n : nat) (s : string) : Z + string :=
  if (String.length s <? n)%nat then inr s else inl STRSAFE_E_INSUFFICIENT_BUFFER.

(** ** The operating system

    An operation that opens something yields an error or a handle. *)
Inductive ARCHITECTURE := PROCESSOR_ARCHITECTURE_AMD64 | PROCESSOR_ARCHITECTURE_INTEL | OTHER_ARCHITECTURE.

(** The requests to the reflector's device. *)
Inductive REQUEST :=
  | GetTestModules
  | QueryTestModule (DriverBaseAddress : Z)
  | CallRoutineRequest (q : CALL_ROUTINE_REQUEST).

Class System (X : Type) := MkSystem {
  GetFullPathName : string -> ST X (Z + string);
  (** [INVALID_FILE_ATTRIBUTES != GetFileAttributes( Path )] *)
  FileExists : string -> ST X bool;
  OpenSCManager : ST X (Z + Z);
  (** manager, name, display name, path *)
  CreateService : Z -> string -> string -> string -> ST X (Z + Z);
  OpenService : Z -> string -> ST X (Z + Z);
  (** the error, 0 for success *)
  StartService : Z -> ST X Z;
  StopService : Z -> ST X Z;
  DeleteService : Z -> ST X Z;
  CloseServiceHandle : Z -> ST X bool;
  GetModuleFileName : ST X (Z + string);
  NativeArchitecture : ST X ARCHITECTURE;
  PathRemoveFileSpec : string -> option string;
  PathCombine : string -> string -> option string;
  (** the device of the reflector *)
  CreateFile : ST X (Z + Z);
  CloseHandle : Z -> ST X bool;
  (** The error, the number of bytes transferred, and the memory of the process
      after the call, for a response buffer at an address and of a size. *)
  DeviceIoControl : Z -> REQUEST -> Z -> Z -> ST X (Z * Z * Memory);
  GetDeviceDriverBaseName : Z -> ST X (Z + string) }.

Section load.
Context {X : Type} {Sys : System X}.
Local Abbreviation M := (ST X).

(** The result, whether the service has been installed, and its handle. *)
(* src/cfixkern/cfixkl/load.c:41-139 (CfixklsOpenDriver) *)
Definition CfixklsOpenDriver (DriverPath DriverName DisplayName : string) : M (Z * bool * Z) :=
  p <- GetFullPathName DriverPath ;;
  match p with
  | inl e => ret (HRESULT_FROM_WIN32 e, false, 0)
  | inr FullPath =>
      e <- FileExists FullPath ;;
      if negb e then ret (HRESULT_FROM_WIN32 ERROR_MOD_NOT_FOUND, false, 0)
      else
        m <- OpenSCManager ;;
        match m with
        | inl e => ret (HRESULT_FROM_WIN32 e, false, 0)
        | inr Scm =>
            c <- CreateService Scm DriverName DisplayName FullPath ;;
            r <- match c with
                 | inr h => ret (S_OK, true, h)
                 | inl Err =>
                     if ERROR_SERVICE_EXISTS =? Err then
                       o <- OpenService Scm DriverName ;;
                       ret match o with
                           | inr h => (S_OK, false, h)
                           | inl e => (HRESULT_FROM_WIN32 e, false, 0)
                           end
                     else ret (HRESULT_FROM_WIN32 Err, false, 0)
                 end ;;
            CloseServiceHandle Scm ;;;
            ret r
        end
  end.

(* src/cfixkern/cfixkl/load.c:141-227 (CfixklsFindReflectorImage) *)
Definition CfixklsFindReflectorImage (PathCch : nat) : M (Z + string) :=
  p <- GetModuleFileName ;;
  match p with
  | inl e => ret (inl (HRESULT_FROM_WIN32 e))
  | inr OwnModulePath =>
      match PathRemoveFileSpec OwnModulePath with
      | None => ret (inl CFIXKL_E_CFIXKR_NOT_FOUND)
      | Some Directory =>
          a <- NativeArchitecture ;;
          let Try := fun (Name : string) (Otherwise : M (Z + string)) =>
            match PathCombine Directory Name with
            | None => ret (inl CFIXKL_E_CFIXKR_NOT_FOUND)
            | Some Path => e <- FileExists Path ;; if e : bool then ret (CopyCch PathCch Path) else Otherwise
            end in
          let NotFound := ret (inl CFIXKL_E_CFIXKR_NOT_FOUND) in
          match a with
          | PROCESSOR_ARCHITECTURE_AMD64 => Try "cfixkr64.sys"%string (Try "..\amd64\cfixkr64.sys"%string NotFound)
          | PROCESSOR_ARCHITECTURE_INTEL => Try "cfixkr32.sys"%string (Try "..\i386\cfixkr32.sys"%string NotFound)
          | OTHER_ARCHITECTURE => ret (inl E_UNEXPECTED)
          end
      end
  end.

(** What [CfixklpStartDriver] hands back. *)
Record START := MkStart { StartHr : Z; Installed : bool; Loaded : bool; DriverHandle : Z }.

(* src/cfixkern/cfixkl/load.c:233-301 (CfixklpStartDriver) *)
Definition CfixklpStartDriver (DriverPath DriverName DisplayName : string) : M START :=
  r <- CfixklsOpenDriver DriverPath DriverName DisplayName ;;
  let '(Hr, Installed, h) := r in
  if FAILED Hr then ret (MkStart Hr Installed false h)
  else
    Err <- StartService h ;;
    if Err =? 0 then ret (MkStart S_OK Installed true h)
    else if (Err =? ERROR_SERVICE_ALREADY_RUNNING) || (Err =? ERROR_FILE_NOT_FOUND)
    then ret (MkStart S_OK Installed false h)
    else
      CloseServiceHandle h ;;;
      ret (MkStart (if Err =? ERROR_MORE_DATA then CFIX_E_FIXTURE_NAME_TOO_LONG else HRESULT_FROM_WIN32 Err)
             Installed false 0).

(* src/cfixkern/cfixkl/load.c:303-343 (CfixklpStopDriverAndCloseHandle) *)
Definition CfixklpStopDriverAndCloseHandle (DriverHandle : Z) (Uninstall : bool) : M Z :=
  Error <- StopService DriverHandle ;;
  let Hr := if Error =? 0 then S_OK
            else if Error =? ERROR_SERVICE_NOT_ACTIVE then S_OK else HRESULT_FROM_WIN32 Error in
  Hr <- (if SUCCEEDED Hr && Uninstall then
           e <- DeleteService DriverHandle ;; ret (if e =? 0 then Hr else HRESULT_FROM_WIN32 e)
         else ret Hr) ;;
  CloseServiceHandle DriverHandle ;;;
  ret Hr.

(* src/cfixkern/cfixkl/load.c:345-383 (CfixklpStartCfixKernelReflector) *)
Definition CfixklpStartCfixKernelReflector : M Z :=
  p <- CfixklsFindReflectorImage MAX_PATH ;;
  match p with
  | inl Hr => ret Hr
  | inr CfixkrModulePath =>
      r <- CfixklpStartDriver CfixkrModulePath "cfixkr" "Cfix Kernel Reflector" ;;
      if SUCCEEDED (StartHr r) then CloseServiceHandle (DriverHandle r) ;;; ret (StartHr r)
      else ret (if E_ACCESSDENIED =? StartHr r then CFIXKL_E_CFIXKR_START_DENIED else StartHr r)
  end.
End load.

(** ** Laws

    The handles that are open: of services (and of the manager), and of files.  An
    operation returns; it opens a fresh handle, closes an open one, or neither. *)
Section laws.
Context {X : Type} (Services Files : X -> gset Z).

Definition Keeps {A} (m : ST X A) : Prop := forall x, exists a x',
  m x = Some (a, x') /\ Services x' = Services x /\ Files x' = Files x.

(** A question has an answer or an error. *)
Definition Asks {A} (m : ST X (Z + A)) : Prop := forall x, exists r x',
  m x = Some (r, x') /\ Services x' = Services x /\ Files x' = Files x /\ r <> inl 0.

Definition OpensService (m : ST X (Z + Z)) : Prop := forall x, exists r x',
  m x = Some (r, x') /\ Files x' = Files x /\
  match r with
  | inl e => e <> 0 /\ Services x' = Services x
  | inr h => h <> 0 /\ h ∉ Services x /\ Services x' = Services x ∪ {[h]}
  end.

Definition OpensFile (m : ST X (Z + Z)) : Prop := forall x, exists r x',
  m x = Some (r, x') /\ Services x' = Services x /\
  match r with
  | inl e => e <> 0 /\ Files x' = Files x
  | inr h => 0 < h /\ h ∉ Files x /\ Files x' = Files x ∪ {[h]}
  end.
End laws.

Class SystemLaws (X : Type) {Sys : System X} := MkLaws {
  Services : X -> gset Z;
  Files : X -> gset Z;
  full_path_asks p : Asks Services Files (GetFullPathName p);
  exists_keeps p : Keeps Services Files (FileExists p);
  scm_opens : OpensService Services Files OpenSCManager;
  create_opens m n d p : OpensService Services Files (CreateService m n d p);
  open_opens m n : OpensService Services Files (OpenService m n);
  start_keeps h : Keeps Services Files (StartService h);
  stop_keeps h : Keeps Services Files (StopService h);
  delete_keeps h : Keeps Services Files (DeleteService h);
  close_service h x : exists b x', CloseServiceHandle h x = Some (b, x') /\
    Services x' = Services x ∖ {[h]} /\ Files x' = Files x;
  module_asks : Asks Services Files GetModuleFileName;
  architecture_keeps : Keeps Services Files NativeArchitecture;
  file_opens : OpensFile Services Files CreateFile;
  close_file h x : exists b x', CloseHandle h x = Some (b, x') /\
    Services x' = Services x /\ Files x' = Files x ∖ {[h]};
  base_name_asks a : Asks Services Files (GetDeviceDriverBaseName a) }.

Section theory.
Context {X : Type} {Sys : System X} {Laws : SystemLaws X}.

(** The open handles of services are [S], those of files [F]. *)
Definition Open (S F : gset Z) (x : X) : Prop := Services x = S /\ Files x = F.

Lemma Runs_keeps {A B} (m : ST X A) (k : A -> ST X B) x Q S F :
  Keeps Services Files m -> Open S F x ->
  (forall a x1, Open S F x1 -> Runs (k a) x1 Q) -> Runs (bind m k) x Q.
Proof.
  intros Hm [HS HF] HK. destruct (Hm x) as (a & x1 & E & HS1 & HF1). apply Runs_bind. exists a, x1.
  split; [done|]. apply HK. split; congruence.
Qed.

Lemma Runs_opens {B} (m : ST X (Z + Z)) (k : Z + Z -> ST X B) x Q S F :
  OpensService Services Files m -> Open S F x ->
  (forall e x1, e <> 0 -> Open S F x1 -> Runs (k (inl e)) x1 Q) ->
  (forall h x1, h <> 0 -> h ∉ S -> Open (S ∪ {[h]}) F x1 -> Runs (k (inr h)) x1 Q) ->
  Runs (bind m k) x Q.
Proof.
  intros Hm [HS HF] He Hh. destruct (Hm x) as (r & x1 & E & HF1 & Hr). apply Runs_bind. exists r, x1.
  split; [done|]. destruct r as [e|h]; [destruct Hr as [H0 HS1]; apply He|destruct Hr as (H0 & Hn & HS1); apply Hh];
    rewrite <- ?HS; try done; split; congruence.
Qed.

Lemma Runs_close {B} h (k : bool -> ST X B) x Q S F :
  Open S F x -> (forall b x1, Open (S ∖ {[h]}) F x1 -> Runs (k b) x1 Q) ->
  Runs (bind (CloseServiceHandle h) k) x Q.
Proof.
  intros [HS HF] HK. destruct (close_service h x) as (b & x1 & E & HS1 & HF1). apply Runs_bind. exists b, x1.
  split; [done|]. apply HK. split; congruence.
Qed.

Lemma Open_eq S S' F x : Open S F x -> S = S' -> Open S' F x.
Proof. by intros ? <-. Qed.

Lemma FAILED_win32 e : e <> 0 -> FAILED (HRESULT_FROM_WIN32 e) = true.
Proof. apply FAILED_from_win32. Qed.

Lemma Runs_asks {A B} (m : ST X (Z + A)) (k : Z + A -> ST X B) x Q S F :
  Asks Services Files m -> Open S F x ->
  (forall e x1, e <> 0 -> Open S F x1 -> Runs (k (inl e)) x1 Q) ->
  (forall a x1, Open S F x1 -> Runs (k (inr a)) x1 Q) ->
  Runs (bind m k) x Q.
Proof.
  intros Hm [HS HF] He Ha. destruct (Hm x) as (r & x1 & E & HS1 & HF1 & Hr). apply Runs_bind. exists r, x1.
  split; [done|]. destruct r as [e|a]; [apply He; [congruence|]|apply Ha]; split; congruence.
Qed.

(** Opening leaves the one handle of the service, and none if it fails. *)
Lemma OpenDriver_runs p n d x S F : Open S F x ->
  Runs (CfixklsOpenDriver p n d) x (fun r x' =>
    let '(Hr, Inst, h) := r in
    if FAILED Hr then Inst = false /\ h = 0 /\ Open S F x'
    else Hr = S_OK /\ h <> 0 /\ h ∉ S /\ Open (S ∪ {[h]}) F x').
Proof.
  intros H. unfold CfixklsOpenDriver. eapply Runs_asks; [apply full_path_asks|done|..].
  { intros e x1 He H1. apply Runs_ret. by rewrite FAILED_win32. }
  intros path x1 H1. eapply Runs_keeps; [apply exists_keeps|done|]. intros [] x2 H2; cbn [negb]; [|by apply Runs_ret].
  eapply Runs_opens; [apply scm_opens|done|..].
  { intros e x3 He H3. apply Runs_ret. by rewrite FAILED_win32. }
  intros Scm x3 H0 HSn H3.
  assert (forall r x4 T, Open T F x4 ->
    (let '(Hr, Inst, h) := r in
     if FAILED Hr then Inst = false /\ h = 0 /\ T = S ∪ {[Scm]}
     else Hr = S_OK /\ h <> 0 /\ h ∉ S ∪ {[Scm]} /\ T = S ∪ {[Scm]} ∪ {[h]}) ->
    Runs (CloseServiceHandle Scm ;;; ret r) x4 (fun r x' =>
      let '(Hr, Inst, h) := r in
      if FAILED Hr then Inst = false /\ h = 0 /\ Open S F x'
      else Hr = S_OK /\ h <> 0 /\ h ∉ S /\ Open (S ∪ {[h]}) F x')) as Hclose.
  { intros [[Hr Inst] h] x4 T H4 HT. eapply Runs_close; [done|]. intros b x5 H5. apply Runs_ret.
    destruct (FAILED Hr).
    - destruct HT as (? & ? & ->). split_and!; [done..|]. eapply Open_eq; [done|]. set_solver.
    - destruct HT as (? & ? & Hn & ->). split_and!; [done..|set_solver|]. eapply Open_eq; [done|]. set_solver. }
  eapply Runs_opens; [apply create_opens|done|..].
  - intros e x4 He H4. destruct (ERROR_SERVICE_EXISTS =? e).
    + apply Runs_bind. eapply Runs_opens; [apply open_opens|done|..].
      * intros e2 x5 He2 H5. apply Runs_ret. eapply Hclose; [done|]. by rewrite FAILED_win32.
      * intros h x5 Hh Hn H5. apply Runs_ret. eapply Hclose; [done|]. done.
    + apply Runs_bind, Runs_ret. eapply Hclose; [done|]. by rewrite FAILED_win32.
  - intros h x4 Hh Hn H4. apply Runs_bind, Runs_ret. eapply Hclose; [done|]. done.
Qed.

Lemma StartDriver_runs p n d x S F : Open S F x ->
  Runs (CfixklpStartDriver p n d) x (fun r x' =>
    if FAILED (StartHr r) then Loaded r = false /\ DriverHandle r = 0 /\ Open S F x'
    else StartHr r = S_OK /\ DriverHandle r <> 0 /\ DriverHandle r ∉ S /\ Open (S ∪ {[DriverHandle r]}) F x').
Proof.
  intros H. unfold CfixklpStartDriver. apply Runs_bind.
  eapply Runs_weaken; [by apply OpenDriver_runs|]. intros [[Hr Inst] h] x1. cbv beta iota.
  destruct (FAILED Hr) eqn:EF.
  { intros (-> & -> & H1). apply Runs_ret. cbn [StartHr Loaded DriverHandle]. by rewrite EF. }
  intros (_ & Hh & Hn & H1). eapply Runs_keeps; [apply start_keeps|done|]. intros Err x2 H2.
  destruct (Z.eqb_spec Err 0); [by apply Runs_ret|]. destruct (_ || _); [by apply Runs_ret|].
  eapply Runs_close; [done|]. intros b x3 H3. apply Runs_ret. cbn [StartHr Loaded DriverHandle].
  assert (FAILED (if Err =? ERROR_MORE_DATA then CFIX_E_FIXTURE_NAME_TOO_LONG else HRESULT_FROM_WIN32 Err) = true) as ->.
  { destruct (Err =? ERROR_MORE_DATA); [done|by apply FAILED_win32]. }
  split_and!; [done..|]. eapply Open_eq; [done|]. set_solver.
Qed.

Lemma StopDriver_runs h U x S F : Open S F x ->
  Runs (CfixklpStopDriverAndCloseHandle h U) x (fun _ x' => Open (S ∖ {[h]}) F x').
Proof.
  intros H. unfold CfixklpStopDriverAndCloseHandle. eapply Runs_keeps; [apply stop_keeps|done|]. intros Err x1 H1.
  assert (forall (Hr : Z) x2, Open S F x2 -> Runs (CloseServiceHandle h ;;; ret Hr) x2 (fun _ x' => Open (S ∖ {[h]}) F x')) as Hc.
  { intros Hr x2 H2. eapply Runs_close; [done|]. intros b x3 H3. by apply Runs_ret. }
  apply Runs_bind. destruct (_ && U); [|by apply Runs_ret, Hc].
  eapply Runs_keeps; [apply delete_keeps|done|]. intros e x2 H2. by apply Runs_ret, Hc.
Qed.

Lemma FindReflector_runs n x S F : Open S F x ->
  Runs (CfixklsFindReflectorImage n) x (fun r x' => r <> inl S_OK /\ Open S F x').
Proof.
  intros H. unfold CfixklsFindReflectorImage. eapply Runs_asks; [apply module_asks|done|..].
  { intros e x1 He H1. apply Runs_ret. split; [|done]. intros E. injection E as E.
    pose proof (FAILED_win32 e He) as HF. by rewrite E in HF. }
  intros path x1 H1. destruct (PathRemoveFileSpec path) as [dir|]; [|by apply Runs_ret].
  eapply Runs_keeps; [apply architecture_keeps|done|]. intros a x2 H2.
  assert (forall Name (Otherwise : ST X (Z + string)) x3, Open S F x3 ->
    (forall x4, Open S F x4 -> Runs Otherwise x4 (fun r x' => r <> inl S_OK /\ Open S F x')) ->
    Runs (match PathCombine dir Name with
          | None => ret (inl CFIXKL_E_CFIXKR_NOT_FOUND)
          | Some Path => e <- FileExists Path ;; if e : bool then ret (CopyCch n Path) else Otherwise
          end) x3 (fun r x' => r <> inl S_OK /\ Open S F x')) as Htry.
  { intros Name O x3 H3 HO. destruct (PathCombine dir Name) as [P|]; [|by apply Runs_ret].
    eapply Runs_keeps; [apply exists_keeps|done|]. intros [] x4 H4; [|by apply HO].
    apply Runs_ret. split; [|done]. unfold CopyCch. by destruct (_ <? _)%nat. }
  assert (forall x4, Open S F x4 -> Runs (ret (inl CFIXKL_E_CFIXKR_NOT_FOUND)) x4
    (fun (r : Z + string) x' => r <> inl S_OK /\ Open S F x')) as Hno by (intros x4 H4; by apply Runs_ret).
  destruct a; [by apply Htry; [|intros; apply Htry]..|by apply Runs_ret].
Qed.

(** Starting the reflector leaves no handle, whatever happens. *)
Lemma StartReflector_runs x S F : Open S F x ->
  Runs CfixklpStartCfixKernelReflector x (fun _ x' => Open S F x').
Proof.
  intros H. unfold CfixklpStartCfixKernelReflector. apply Runs_bind.
  eapply Runs_weaken; [by apply FindReflector_runs|]. intros [Hr|path] x1 [_ H1]; [by apply Runs_ret|].
  apply Runs_bind. eapply Runs_weaken; [by apply StartDriver_runs|]. intros r x2. cbv beta.
  unfold SUCCEEDED. destruct (FAILED (StartHr r)); cbn [negb].
  - intros (_ & _ & H2). by apply Runs_ret.
  - intros (_ & _ & Hn & H2). eapply Runs_close; [done|]. intros b x3 H3. apply Runs_ret.
    eapply Open_eq; [done|]. set_solver.
Qed.

(** No service handle is lost: starting a driver leaves exactly the handle of its
    service open if it succeeds and none if it fails; stopping closes it whatever
    the service control manager says; starting the reflector leaves nothing open. *)
Theorem driver_handles_balanced p n d x :
  (exists r x', CfixklpStartDriver p n d x = Some (r, x') /\ Files x' = Files x /\
    if FAILED (StartHr r) then Loaded r = false /\ DriverHandle r = 0 /\ Services x' = Services x
    else DriverHandle r ∉ Services x /\ Services x' = Services x ∪ {[DriverHandle r]}) /\
  (forall h U, exists Hr x', CfixklpStopDriverAndCloseHandle h U x = Some (Hr, x') /\ Files x' = Files x /\
    Services x' = Services x ∖ {[h]}) /\
  (exists Hr x', CfixklpStartCfixKernelReflector x = Some (Hr, x') /\ Files x' = Files x /\
    Services x' = Services x).
Proof.
  assert (Open (Services x) (Files x) x) as H by done. split_and!.
  - destruct (StartDriver_runs p n d x _ _ H) as (r & x' & E & Hr). exists r, x'. split; [done|].
    destruct (FAILED (StartHr r)); [by destruct Hr as (? & ? & [? ?])|by destruct Hr as (? & ? & ? & [? ?])].
  - intros h U. destruct (StopDriver_runs h U x _ _ H) as (Hr & x' & E & [? ?]). by exists Hr, x'.
  - destruct (StartReflector_runs x _ _ H) as (Hr & x' & E & [? ?]). by exists Hr, x'.
Qed.
End theory.

Module Demo.
(** A system on which every operation succeeds but the start of a driver, and the
    driver is installed already. *)
Record SYS := MkSys { Svc : gset Z; Fil : gset Z }.

Definition OpenSvc : ST SYS (Z + Z) := fun x =>
  Some (inr (NextBlock (Svc x)), MkSys (Svc x ∪ {[NextBlock (Svc x)]}) (Fil x)).
Definition OpenFil : ST SYS (Z + Z) := fun x =>
  Some (inr (NextBlock (Fil x)), MkSys (Svc x) (Fil x ∪ {[NextBlock (Fil x)]})).

#[export] Instance system : System SYS := {
  GetFullPathName p := ret (inr p);
  FileExists _ := ret true;
  OpenSCManager := OpenSvc;
  CreateService _ _ _ _ := ret (inl ERROR_SERVICE_EXISTS);
  OpenService _ _ := OpenSvc;
  StartService _ := ret 5;
  StopService _ := ret 0;
  DeleteService _ := ret 0;
  CloseServiceHandle h := fun x => Some (true, MkSys (Svc x ∖ {[h]}) (Fil x));
  GetModuleFileName := ret (inr "C:\cfix\cfixkl.dll"%string);
  NativeArchitecture := ret PROCESSOR_ARCHITECTURE_AMD64;
  PathRemoveFileSpec _ := Some "C:\cfix"%string;
  PathCombine a b := Some (a +:+ "\" +:+ b)%string;
  CreateFile := OpenFil;
  CloseHandle h := fun x => Some (true, MkSys (Svc x) (Fil x ∖ {[h]}));
  DeviceIoControl _ _ _ _ := ret (31, 0, fun _ => 0);
  GetDeviceDriverBaseName _ := ret (inl 87) }.

Lemma NextBlock_pos B : 0 < NextBlock B.
Proof.
  unfold NextBlock. enough (0 <= foldr Z.max 0 (elements B)) by lia.
  generalize (elements B) as l. induction l; simpl; lia.
Qed.

#[export] Instance laws : SystemLaws SYS.
Proof.
  refine (MkLaws SYS system Svc Fil _ _ _ _ _ _ _ _ _ _ _ _ _ _);
    try (intros; intros x; do 2 eexists; done); try (intros; do 2 eexists; done);
    intros; intros x; (do 2 eexists; split; [reflexivity|]); pose proof (NextBlock_fresh (Svc x)) as [? ?];
    pose proof (NextBlock_pos (Fil x)); pose proof (NextBlock_fresh (Fil x)) as [? ?]; done.
Defined.

(** The driver cannot be started: an error, and no handle is left. *)
Lemma driver_handles_balanced_witness :
  exists r x', CfixklpStartDriver "a.sys" "a" "a" (MkSys {[7]} {[9]}) = Some (r, x') /\
    StartHr r = 0x80070005 /\ Svc x' = {[7]}.
Proof.
  destruct (driver_handles_balanced "a.sys" "a" "a" (MkSys {[7]} {[9]})) as [(r & x' & E & _ & H) _].
  exists r, x'. split; [exact E|]. vm_compute in E. injection E as <- <-. split; [reflexivity|].
  destruct H as (_ & _ & H). exact H.
Defined.
End Demo.
