(* ===== verification/KlModule.v ===== *)
(** * Kernel mode test modules (cfixkern/cfixkl: module.c, the queries of ioctl.c)

    A module: its fixtures (KlFixture), the driver's service (KlDriver), the device
    of the reflector, and the methods that run routines (KlCalls) with the value of
    the thread's storage in a block of the heap. *)
From stdpp Require Import base gmap list strings.
From Stdlib Require Import ZArith Lia.
From S2P Require Import Prelude CfixApi PeModule CmdLine IoBuffer KrModule KrEvents KlCalls KrMain KlFixture KlDriver.
Local Open Scope Z_scope.
Local Open Scope cfix_scope.

Definition CFIXKL_E_UNKNOWN_LOAD_ADDRESS : Z := 0x8004A003.

(** [INVALID_HANDLE_VALUE] *)
Definition INVALID_HANDLE_VALUE : Z := -1.

(** The array of fixtures and the fixtures in it, the reference counter, and the
    handles; 0 for a NULL handle. *)
(* src/cfixkern/cfixkl/module.c:38-67 (CFIXKLP_TEST_MODULE) *)
Record KL_MODULE := MkKlModule {
  KmFixtures : option (Z * list (Z * KL_FIXTURE));
  KmReferences : Z;
  KmDriverHandle : Z;
  KmDriverInstalled : bool;
  KmDriverLoaded : bool;
  KmDriverName : string;
  KmDriverBaseAddress : Z;
  KmReflectorHandle : Z }.

(** The state of the client: its heap and the world outside, the modules and the
    ULONGLONG blocks on the heap, and the pointer in the TLS slot of the thread. *)
Record KL (W : Type) := MkKL {
  Heap : CW W;
  KlModules : gmap Z KL_MODULE;
  Cells : gmap Z Z;
  TlsPtr : Z }.
Arguments MkKL {W}. Arguments Heap {W}. Arguments KlModules {W}. Arguments Cells {W}. Arguments TlsPtr {W}.

Section module.
Context {W : Type} {Sys : System W}.
Variable Malloc : gset Z -> Z -> Z.
Variable P : Z.
Variable GetCurrentThreadId : Z.
(** shlwapi *)
Variable PathStripPath PathRemoveExtension : string -> string.
(** The address of a local variable of the queries. *)
Variable Local_ : Z.

Local Abbreviation M := (ST (KL W)).
Local Abbreviation C := (ST (CW W)).

Definition heap {A} (m : C A) : M A := fun s =>
  match m (Heap s) with
  | Some (a, h) => Some (a, MkKL h (KlModules s) (Cells s) (TlsPtr s))
  | None => None
  end.
Definition sys {A} (m : ST W A) : M A := heap (world m).

Definition load_module (a : Z) : M KL_MODULE := fun s =>
  match KlModules s !! a with Some x => Some (x, s) | None => None end.
Definition store_module (a : Z) (x : KL_MODULE) : M unit :=
  modify (fun s => MkKL (Heap s) (<[a := x]> (KlModules s)) (Cells s) (TlsPtr s)).
Definition load_cell (a : Z) : M Z := fun s =>
  match Cells s !! a with Some x => Some (x, s) | None => None end.
Definition store_cell (a v : Z) : M unit :=
  modify (fun s => MkKL (Heap s) (KlModules s) (<[a := v]> (Cells s)) (TlsPtr s)).
Definition drop_cell (a : Z) : M unit :=
  modify (fun s => MkKL (Heap s) (KlModules s) (delete a (Cells s)) (TlsPtr s)).

(** ** The queries (ioctl.c)

    The name of a service: cfixkr_<basename>. *)
(* src/cfixkern/cfixkl/module.c:114-146 (CfixklsGetDriverNameFromPath) *)
Definition CfixklsGetDriverNameFromPath (DriverPath : string) (NameSizeInChars : nat) : Z + string :=
  match CopyCch MAX_PATH DriverPath with
  | inl Hr => inl Hr
  | inr p => CopyCch NameSizeInChars ("cfixkr_" +:+ PathRemoveExtension (PathStripPath p))
  end.

(** The search among the load addresses of a response at [r]: the result, and the
    address or 0. *)
(* src/cfixkern/cfixkl/ioctl.c:189-219 (CfixklsFindBaseAddressDriver) *)
Fixpoint FindLoadAddress (m : Memory) (r : Z) (DriverBaseName : string) (Index : Z) (n : nat) (Hr : Z) : ST W (Z * Z) :=
  match n with
  | O => ret (Hr, 0)
  | S n =>
      let Address := fetch 8 m (r + 8 + 8 * Index) in
      assert_ (FlagOn Address 0x80000000) ;;;
      assert_ (Z.land Address 0xFFF =? 0) ;;;
      f <- GetDeviceDriverBaseName (wrap (8 * P) Address) ;;
      match f with
      | inl e => FindLoadAddress m r DriverBaseName (Index + 1) n (HRESULT_FROM_WIN32 e)
      | inr FileName =>
          if wcsieq DriverBaseName FileName then ret (S_OK, Address)
          else FindLoadAddress m r DriverBaseName (Index + 1) n Hr
      end
  end.

(** The part after the requests. *)
(* src/cfixkern/cfixkl/ioctl.c:175-241 (CfixklsFindBaseAddressDriver) *)
Definition SearchResponse (DriverBaseName : string) (BytesTransferred : Z) (m : Memory) (r : Z) : ST W (Z * Z) :=
  let Count := fetch 4 m r in
  if (BytesTransferred <? 4) || (BytesTransferred <? wrap (8 * P) (Count * 8))
  then ret (CFIXKL_E_INVALID_REFLECTOR_RESPONSE, 0)
  else
    assert_ (Count <? 8) ;;;
    x <- FindLoadAddress m r DriverBaseName 0 (Z.to_nat Count) S_OK ;;
    ret (if FAILED (fst x) then (fst x, snd x)
         else if negb (snd x =? 0) then (S_OK, snd x) else (CFIXKL_E_UNKNOWN_LOAD_ADDRESS, 0)).

(** The result and the base address. *)
(* src/cfixkern/cfixkl/ioctl.c:73-242 (CfixklsFindBaseAddressDriver) *)
Definition CfixklsFindBaseAddressDriver (ReflectorHandle : Z) (DriverImagePath : string) : C (Z * Z) :=
  match CopyCch MAX_PATH DriverImagePath with
  | inl Hr => ret (Hr, 0)
  | inr p =>
      let DriverBaseName := PathStripPath p in
      x <- world (DeviceIoControl ReflectorHandle GetTestModules Local_ SIZEOF_GET_MODULES) ;;
      let '(Err, BytesTransferred, m) := x in
      if Err =? 0 then world (SearchResponse DriverBaseName BytesTransferred m Local_)
      else if Err =? ERROR_MORE_DATA then
        let ResponseSize := SIZEOF_MODULES (fetch 4 m Local_) in
        ResponseAllocated <- malloc Malloc ResponseSize ;;
        if ResponseAllocated =? 0 then ret (E_OUTOFMEMORY, 0)
        else
          x <- world (DeviceIoControl ReflectorHandle GetTestModules ResponseAllocated ResponseSize) ;;
          let '(Err, BytesTransferred, m) := x in
          r <- (if Err =? 0 then world (SearchResponse DriverBaseName BytesTransferred m ResponseAllocated)
                else ret (HRESULT_FROM_WIN32 Err, 0)) ;;
          free ResponseAllocated ;;;
          ret r
      else ret (HRESULT_FROM_WIN32 Err, 0)
  end.

(** The response of the query for the size has 8 bytes. *)
Definition SIZEOF_QUERY_TEST_MODULE_RESPONSE : Z := 8.
Definition FIELD_OFFSET_FixtureOffsets : Z := 4.

(** The result and the size. *)
(* src/cfixkern/cfixkl/ioctl.c:244-297 (CfixklsQuerySizeForQueryModuleRequest) *)
Definition CfixklsQuerySizeForQueryModuleRequest (ReflectorHandle DriverBaseAddress : Z) : ST W (Z * Z) :=
  assert_ (negb (DriverBaseAddress =? 0)) ;;;
  x <- DeviceIoControl ReflectorHandle (QueryTestModule DriverBaseAddress) Local_ SIZEOF_QUERY_TEST_MODULE_RESPONSE ;;
  let '(Err, BytesTransferred, m) := x in
  ret (if Err =? 0 then (S_OK, FIELD_OFFSET_FixtureOffsets)
       else if (Err =? ERROR_MORE_DATA) && (4 <=? BytesTransferred) then (S_OK, fetch 4 m Local_)
       else (HRESULT_FROM_WIN32 Err, 0)).

(** The base address, and the response in a block of the heap; the block is lost if
    the second request fails. *)
(* src/cfixkern/cfixkl/ioctl.c:453-528 (CfixklpQueryModule) *)
Definition CfixklpQueryModule (ReflectorHandle : Z) (DriverPath : string) : C (Z + Z * Z * Memory) :=
  b <- CfixklsFindBaseAddressDriver ReflectorHandle DriverPath ;;
  if FAILED (fst b) then ret (inl (fst b))
  else
    n <- world (CfixklsQuerySizeForQueryModuleRequest ReflectorHandle (snd b)) ;;
    if FAILED (fst n) then ret (inl (fst n))
    else
      QueryResponse <- malloc Malloc (snd n) ;;
      if QueryResponse =? 0 then ret (inl E_OUTOFMEMORY)
      else
        x <- world (DeviceIoControl ReflectorHandle (QueryTestModule (snd b)) QueryResponse (snd n)) ;;
        let '(Err, BytesTransferred, m) := x in
        if Err =? 0 then assert_ (BytesTransferred =? snd n) ;;; ret (inr (snd b, QueryResponse, m))
        else ret (inl (HRESULT_FROM_WIN32 Err)).

(** ** Creating modules (module.c) *)
Definition set_Reflector (h : Z) (x : KL_MODULE) : KL_MODULE :=
  MkKlModule (KmFixtures x) (KmReferences x) (KmDriverHandle x) (KmDriverInstalled x) (KmDriverLoaded x)
    (KmDriverName x) (KmDriverBaseAddress x) h.
Definition set_Contents (fs : option (Z * list (Z * KL_FIXTURE))) (Base : Z) (x : KL_MODULE) : KL_MODULE :=
  MkKlModule fs (KmReferences x) (KmDriverHandle x) (KmDriverInstalled x) (KmDriverLoaded x)
    (KmDriverName x) Base (KmReflectorHandle x).
Definition set_Driver (h : Z) (Inst Load : bool) (x : KL_MODULE) : KL_MODULE :=
  MkKlModule (KmFixtures x) (KmReferences x) h Inst Load (KmDriverName x) (KmDriverBaseAddress x) (KmReflectorHandle x).
Definition set_KmReferences (n : Z) (x : KL_MODULE) : KL_MODULE :=
  MkKlModule (KmFixtures x) n (KmDriverHandle x) (KmDriverInstalled x) (KmDriverLoaded x)
    (KmDriverName x) (KmDriverBaseAddress x) (KmReflectorHandle x).
Definition set_Name (n : string) (x : KL_MODULE) : KL_MODULE :=
  MkKlModule (KmFixtures x) (KmReferences x) (KmDriverHandle x) (KmDriverInstalled x) (KmDriverLoaded x)
    n (KmDriverBaseAddress x) (KmReflectorHandle x).

(** The module's name: the driver's name without the prefix. *)
Definition ModuleName (DriverName : string) : string := String.substring 7 (String.length DriverName - 7) DriverName.

(** The fixtures from a response, in an array of the heap. *)
(* src/cfixkern/cfixkl/module.c:426-479 (CfixklsInitializeModule) *)
Definition LoadFixtures (m : Memory) (QueryResponse : Z) (ModName : string) : C (Z + Z * list (Z * KL_FIXTURE)) :=
  let FixtureCount := fetch 4 m QueryResponse in
  Fixtures <- malloc Malloc (wrap (8 * P) (P * FixtureCount)) ;;
  if Fixtures =? 0 then ret (inl E_OUTOFMEMORY)
  else
    x <- CreateFixtures Malloc P m QueryResponse ModName 0 (Z.to_nat FixtureCount) [] ;;
    if FAILED (fst x) then DeleteKlFixtures (snd x) ;;; free Fixtures ;;; ret (inl (fst x))
    else ret (inr (Fixtures, snd x)).

(* src/cfixkern/cfixkl/module.c:382-484 (CfixklsInitializeModule) *)
Definition CfixklsInitializeModule (DriverPath : string) (Module_ : Z) : M Z :=
  f <- sys CreateFile ;;
  x <- load_module Module_ ;;
  match f with
  | inl e => store_module Module_ (set_Reflector INVALID_HANDLE_VALUE x) ;;; ret (HRESULT_FROM_WIN32 e)
  | inr h =>
      store_module Module_ (set_Reflector h x) ;;;
      q <- heap (CfixklpQueryModule h DriverPath) ;;
      match q with
      | inl Hr => ret Hr
      | inr (Base, QueryResponse, m) =>
          assert_ (negb (Base =? 0)) ;;;
          r <- heap (LoadFixtures m QueryResponse (ModuleName (KmDriverName x))) ;;
          x <- load_module Module_ ;;
          store_module Module_
            (set_Contents match r with inl _ => None | inr fs => Some fs end Base x) ;;;
          heap (free QueryResponse) ;;;
          ret match r with inl Hr => Hr | inr _ => S_OK end
      end
  end.

(** What closing and stopping return is asserted in debug builds only, and ignored here. *)
(* src/cfixkern/cfixkl/module.c:491-537 (CfixklsDeleteModule) *)
Definition CfixklsDeleteModule (Module_ : Z) : M unit :=
  x <- load_module Module_ ;;
  match KmFixtures x with
  | Some (a, fs) => heap (DeleteKlFixtures fs) ;;; heap (free a)
  | None => ret tt
  end ;;;
  when_ (negb (KmReflectorHandle x =? 0) && negb (KmReflectorHandle x =? INVALID_HANDLE_VALUE))
    (sys (CloseHandle (KmReflectorHandle x)) ;;; ret tt) ;;;
  when_ (negb (KmDriverHandle x =? 0))
    (if KmDriverLoaded x then
       sys (CfixklpStopDriverAndCloseHandle (KmDriverHandle x) (KmDriverInstalled x)) ;;; ret tt
     else sys (CloseServiceHandle (KmDriverHandle x)) ;;; ret tt) ;;;
  modify (fun s => MkKL (Heap s) (delete Module_ (KlModules s)) (Cells s) (TlsPtr s)) ;;;
  heap (free Module_).

(* src/cfixkern/cfixkl/module.c:539-553 (CfixklsReferenceModule) *)
Definition CfixklsReferenceModule (Module_ : Z) : M unit :=
  x <- load_module Module_ ;; store_module Module_ (set_KmReferences (LONG (KmReferences x + 1)) x).

(* src/cfixkern/cfixkl/module.c:555-572 (CfixklsDereferenceModule) *)
Definition CfixklsDereferenceModule (Module_ : Z) : M unit :=
  x <- load_module Module_ ;;
  let n := LONG (KmReferences x - 1) in
  store_module Module_ (set_KmReferences n x) ;;;
  if n =? 0 then CfixklsDeleteModule Module_ else ret tt.

Definition SIZEOF_MODULE : Z := 320.
Definition EmptyModule : KL_MODULE := MkKlModule None 0 0 false false "" 0 0.

(** The steps once the object has been allocated; what is in the object. *)
(* src/cfixkern/cfixkl/module.c:951-1019 (CfixklCreateTestModuleFromDriver) *)
Definition PrepareModule (DriverPath : string) (NewModule : Z) : M Z :=
  match CfixklsGetDriverNameFromPath DriverPath 100 with
  | inl Hr => ret Hr
  | inr DriverName =>
      x <- load_module NewModule ;;
      store_module NewModule (set_Name DriverName x) ;;;
      Hr <- sys CfixklpStartCfixKernelReflector ;;
      if negb (HRESULT_FROM_WIN32 ERROR_SERVICE_ALREADY_RUNNING =? Hr) && FAILED Hr then ret Hr
      else
        r <- sys (CfixklpStartDriver DriverPath DriverName DriverName) ;;
        x <- load_module NewModule ;;
        store_module NewModule (set_Driver (DriverHandle r) (Installed r) (Loaded r) x) ;;;
        if FAILED (StartHr r) then ret (StartHr r)
        else
          Hr <- CfixklsInitializeModule DriverPath NewModule ;;
          if FAILED Hr then ret Hr
          else
            x <- load_module NewModule ;;
            store_module NewModule (set_KmReferences 1 x) ;;;
            ret S_OK
  end.

(** The result, and the module or 0. *)
(* src/cfixkern/cfixkl/module.c:925-1027 (CfixklCreateTestModuleFromDriver) *)
Definition CfixklCreateTestModuleFromDriver (DriverPath : string) : M (Z * Z) :=
  NewModule <- heap (malloc Malloc SIZEOF_MODULE) ;;
  if NewModule =? 0 then ret (E_OUTOFMEMORY, 0)
  else
    store_module NewModule EmptyModule ;;;
    Hr <- PrepareModule DriverPath NewModule ;;
    if FAILED Hr then CfixklsDeleteModule NewModule ;;; ret (Hr, 0)
    else ret (Hr, NewModule).

(** ** Running routines

    The device as [CfixklpCallRoutine] uses it. *)
Definition CallDevice (ReflectorHandle : Z) (q : CALL_ROUTINE_REQUEST) (a n : Z) : ST W (Z + Z * Memory) :=
  x <- DeviceIoControl ReflectorHandle (CallRoutineRequest q) a n ;;
  let '(Err, BytesTransferred, m) := x in
  ret (if Err =? 0 then inr (BytesTransferred, m) else inl Err).

(** A call of a routine of a fixture, with a TLS value. *)
(* src/cfixkern/cfixkl/module.c:626-634 (CfixklsRunSetupRoutine) *)
Definition Call (Module_ : Z) (Context_ : CFIX_EXECUTION_CONTEXT W) (f : KL_FIXTURE) (RoutineKey Tls : Z)
    : M (Z * CALL_RESULT) :=
  x <- load_module Module_ ;;
  heap (CfixklpCallRoutine Malloc GetCurrentThreadId (CallDevice (KmReflectorHandle x)) P Context_
          (KmDriverBaseAddress x) (wrap 16 (KfReserved f)) RoutineKey Tls).

(** The result of a method from the result of a call. *)
(* src/cfixkern/cfixkl/module.c:641-656 (CfixklsRunSetupRoutine) *)
Definition MethodResult (r : Z * CALL_RESULT) (FailureHr : Z) : Z :=
  if SUCCEEDED (fst r) && AbortRun (snd r) then CFIX_E_TESTRUN_ABORTED
  else if SUCCEEDED (fst r) && negb (RoutineRanToCompletion (snd r)) then FailureHr
  else fst r.

Definition Guarded_ (Context_ : CFIX_EXECUTION_CONTEXT W) (m : M Z) : M Z :=
  if negb (CtxVersion Context_ =? CFIX_TEST_CONTEXT_VERSION) then ret E_INVALIDARG else m.

(** A block for a ULONGLONG. *)
Definition malloc_cell : M Z := heap (malloc Malloc 8).
Definition GetTlsValuePtr : M Z := gets TlsPtr.
Definition SetTlsValuePtr (p : Z) : M unit := modify (fun s => MkKL (Heap s) (KlModules s) (Cells s) p).

(* src/cfixkern/cfixkl/module.c:574-662 (CfixklsRunSetupRoutine) *)
Definition CfixklsRunSetupRoutine (Module_ : Z) (f : KL_FIXTURE) (Context_ : CFIX_EXECUTION_CONTEXT W) : M Z :=
  Guarded_ Context_ (
    p <- GetTlsValuePtr ;;
    assert_ (p =? 0) ;;;
    TlsValuePtr <- malloc_cell ;;
    if TlsValuePtr =? 0 then ret E_OUTOFMEMORY
    else
      store_cell TlsValuePtr 0 ;;;
      SetTlsValuePtr TlsValuePtr ;;;
      if negb (SetupRoutine (KfBase f) =? 0) then
        r <- Call Module_ Context_ f (KeyIn (SetupRoutine (KfBase f))) 0 ;;
        store_cell TlsValuePtr 0 ;;;
        ret (MethodResult r CFIX_E_SETUP_ROUTINE_FAILED)
      else ret S_OK).

(* src/cfixkern/cfixkl/module.c:664-742 (CfixklsRunTeardownRoutine) *)
Definition CfixklsRunTeardownRoutine (Module_ : Z) (f : KL_FIXTURE) (Context_ : CFIX_EXECUTION_CONTEXT W) : M Z :=
  Guarded_ Context_ (
    TlsValuePtr <- GetTlsValuePtr ;;
    assert_ (negb (TlsValuePtr =? 0)) ;;;
    TlsValueCopy <- load_cell TlsValuePtr ;;
    drop_cell TlsValuePtr ;;;
    heap (free TlsValuePtr) ;;;
    SetTlsValuePtr 0 ;;;
    if FlagOn (TeardownRoutine (KfBase f)) CFIXKLP_ROUTINE_PRESENT then
      r <- Call Module_ Context_ f (KeyIn (TeardownRoutine (KfBase f))) TlsValueCopy ;;
      ret (MethodResult r CFIX_E_TEARDOWN_ROUTINE_FAILED)
    else ret S_OK).

(* src/cfixkern/cfixkl/module.c:744-811 (CfixklsRunBeforeOrAfterRoutine) *)
Definition CfixklsRunBeforeOrAfterRoutine (Module_ : Z) (f : KL_FIXTURE) (Context_ : CFIX_EXECUTION_CONTEXT W)
    (RoutineTag FailureHr : Z) (ResetTlsAfterCall : bool) : M Z :=
  TlsValuePtr <- GetTlsValuePtr ;;
  assert_ (negb (TlsValuePtr =? 0)) ;;;
  if FlagOn RoutineTag CFIXKLP_ROUTINE_PRESENT then
    v <- load_cell TlsValuePtr ;;
    r <- Call Module_ Context_ f (KeyIn RoutineTag) v ;;
    store_cell TlsValuePtr (TlsValue (snd r)) ;;;
    when_ ResetTlsAfterCall (store_cell TlsValuePtr 0) ;;;
    ret (MethodResult r FailureHr)
  else ret S_OK.

(* src/cfixkern/cfixkl/module.c:813-834 (CfixklsRunBeforeRoutine) *)
Definition CfixklsRunBeforeRoutine (Module_ : Z) (f : KL_FIXTURE) (Context_ : CFIX_EXECUTION_CONTEXT W) : M Z :=
  Guarded_ Context_
    (CfixklsRunBeforeOrAfterRoutine Module_ f Context_ (BeforeRoutine (KfBase f)) CFIX_E_BEFORE_ROUTINE_FAILED false).

(* src/cfixkern/cfixkl/module.c:836-857 (CfixklsRunAfterRoutine) *)
Definition CfixklsRunAfterRoutine (Module_ : Z) (f : KL_FIXTURE) (Context_ : CFIX_EXECUTION_CONTEXT W) : M Z :=
  Guarded_ Context_
    (CfixklsRunBeforeOrAfterRoutine Module_ f Context_ (AfterRoutine (KfBase f)) CFIX_E_AFTER_ROUTINE_FAILED true).

(* src/cfixkern/cfixkl/module.c:860-918 (CfixklsRunTestCaseRoutine) *)
Definition CfixklsRunTestCaseRoutine (Module_ : Z) (f : KL_FIXTURE) (t : CFIX_TEST_CASE)
    (Context_ : CFIX_EXECUTION_CONTEXT W) : M Z :=
  Guarded_ Context_ (
    TlsValuePtr <- GetTlsValuePtr ;;
    assert_ (negb (TlsValuePtr =? 0)) ;;;
    v <- load_cell TlsValuePtr ;;
    r <- Call Module_ Context_ f (wrap 16 (TcRoutine t)) v ;;
    store_cell TlsValuePtr (TlsValue (snd r)) ;;;
    ret (MethodResult r CFIX_E_TEST_ROUTINE_FAILED)).
End module.

(** ** The value of the storage

    What runs between setup and teardown, in any order. *)
Inductive METHOD := MBefore | MTest (t : CFIX_TEST_CASE) | MAfter.

Section storage.
Context {W : Type} {Sys : System W}.
Context (Malloc : gset Z -> Z -> Z) (P Tid : Z).
Context (Module_ : Z) (f : KL_FIXTURE) (ctx : CFIX_EXECUTION_CONTEXT W).

Local Abbreviation M := (ST (KL W)).
Local Abbreviation Call_ := (Call Malloc P Tid Module_ ctx f).

Definition RunMethod (op : METHOD) : M Z :=
  match op with
  | MBefore => CfixklsRunBeforeRoutine Malloc P Tid Module_ f ctx
  | MTest t => CfixklsRunTestCaseRoutine Malloc P Tid Module_ f t ctx
  | MAfter => CfixklsRunAfterRoutine Malloc P Tid Module_ f ctx
  end.

Fixpoint RunMethods (ops : list METHOD) : M (list Z) :=
  match ops with
  | [] => ret []
  | op :: ops => r <- RunMethod op ;; rs <- RunMethods ops ;; ret (r :: rs)
  end.

Definition RunFixture (ops : list METHOD) : M (list Z) :=
  a <- CfixklsRunSetupRoutine Malloc P Tid Module_ f ctx ;;
  if FAILED a then ret [a]
  else
    rs <- RunMethods ops ;;
    c <- CfixklsRunTeardownRoutine Malloc P Tid Module_ f ctx ;;
    ret (a :: rs ++ [c]).

(** The same with the value passed from call to call: no pointer and no cell. *)
Definition Pass (Routine v FailureHr : Z) : M (Z * Z) :=
  if Routine =? 0 then ret (S_OK, v)
  else r <- Call_ (KeyIn Routine) v ;; ret (MethodResult r FailureHr, TlsValue (snd r)).

Definition PassMethod (op : METHOD) (v : Z) : M (Z * Z) :=
  match op with
  | MBefore => Pass (BeforeRoutine (KfBase f)) v CFIX_E_BEFORE_ROUTINE_FAILED
  | MTest t =>
      r <- Call_ (wrap 16 (TcRoutine t)) v ;;
      ret (MethodResult r CFIX_E_TEST_ROUTINE_FAILED, TlsValue (snd r))
  | MAfter =>
      r <- Pass (AfterRoutine (KfBase f)) v CFIX_E_AFTER_ROUTINE_FAILED ;;
      ret (fst r, if AfterRoutine (KfBase f) =? 0 then v else 0)
  end.

Fixpoint PassMethods (ops : list METHOD) (v : Z) : M (list Z * Z) :=
  match ops with
  | [] => ret ([], v)
  | op :: ops => r <- PassMethod op v ;; rs <- PassMethods ops (snd r) ;; ret (fst r :: fst rs, snd rs)
  end.

(** If the setup routine fails, the block stays behind in the slot. *)
Definition PassFixture (ops : list METHOD) : M (list Z) :=
  p <- malloc_cell Malloc ;;
  if p =? 0 then ret [E_OUTOFMEMORY]
  else
    a <- Pass (SetupRoutine (KfBase f)) 0 CFIX_E_SETUP_ROUTINE_FAILED ;;
    if FAILED (fst a) then store_cell p 0 ;;; SetTlsValuePtr p ;;; ret [fst a]
    else
      rs <- PassMethods ops 0 ;;
      heap (free p) ;;;
      c <- Pass (TeardownRoutine (KfBase f)) (snd rs) CFIX_E_TEARDOWN_ROUTINE_FAILED ;;
      ret (fst a :: fst rs ++ [fst c]).

Context (Hctx : CtxVersion ctx = CFIX_TEST_CONTEXT_VERSION).
Context (Hmarked : MarkedRoutines (KfBase f)).

(** The state [s] with the value [v] in the cell [p] of the thread. *)
Definition Held (p v : Z) (s : KL W) : KL W := MkKL (Heap s) (KlModules s) (<[p := v]> (Cells s)) p.

(** [m] does not look at the cells and the slot. *)
Definition Blind {A} (m : M A) : Prop := forall h mods c t,
  m (MkKL h mods c t) =
  match m (MkKL h mods ∅ 0) with
  | Some (a, s) => Some (a, MkKL (Heap s) (KlModules s) c t)
  | None => None
  end.

Lemma Blind_heap {A} (m : ST (CW W) A) : Blind (heap m).
Proof. intros h mods c t. unfold heap. cbn. by destruct (m h) as [[a h']|]. Qed.

Lemma Blind_ret {A} (a : A) : Blind (ret a).
Proof. intros h mods c t. done. Qed.

Lemma Blind_bind {A B} (m : M A) (k : A -> M B) : Blind m -> (forall a, Blind (k a)) -> Blind (bind m k).
Proof.
  intros Hm Hk h mods c t. unfold bind. rewrite (Hm h mods c t).
  destruct (m (MkKL h mods ∅ 0)) as [[a [h' mods' c' t']]|] eqn:E; [|done]. cbn.
  rewrite (Hk a h' mods' c t), (Hk a h' mods' c' t').
  by destruct (k a (MkKL h' mods' ∅ 0)) as [[b s]|].
Qed.

Lemma Blind_load a : Blind (load_module (W := W) a).
Proof. intros h mods c t. unfold load_module. cbn. by destruct (mods !! a). Qed.

Lemma Blind_Call key v : Blind (Call_ key v).
Proof. apply Blind_bind; [apply Blind_load|]. intros x. apply Blind_heap. Qed.

Lemma Blind_Pass r v Hr : Blind (Pass r v Hr).
Proof. unfold Pass. destruct (r =? 0); [apply Blind_ret|]. apply Blind_bind; [apply Blind_Call|]. intros. apply Blind_ret. Qed.

Lemma Blind_PassMethod op v : Blind (PassMethod op v).
Proof.
  destruct op; cbn [PassMethod]; [apply Blind_Pass|..]; (apply Blind_bind; [|intros; apply Blind_ret]).
  - apply Blind_Call.
  - apply Blind_Pass.
Qed.

Lemma Blind_held {A} (m : M A) p v s : Blind m ->
  m (Held p v s) = match m s with Some (a, s') => Some (a, Held p v s') | None => None end /\
  forall a s', m s = Some (a, s') -> Cells s' = Cells s /\ TlsPtr s' = TlsPtr s.
Proof.
  intros Hm. destruct s as [h mods c t]. unfold Held. cbn. rewrite (Hm h mods (<[p := v]> c) p), (Hm h mods c t).
  destruct (m (MkKL h mods ∅ 0)) as [[a s']|]; [|done]. split; [done|]. intros a' s'' E. by injection E as <- <-.
Qed.

Lemma load_held p v (s : KL W) : load_cell p (Held p v s) = Some (v, Held p v s).
Proof. unfold load_cell, Held. cbn. by rewrite lookup_insert_eq. Qed.

Lemma store_held p v v' (s : KL W) : store_cell p v' (Held p v s) = Some (tt, Held p v' s).
Proof. unfold store_cell, modify, Held. cbn. by rewrite insert_insert_eq. Qed.

Lemma valid_context (m : M Z) : Guarded_ ctx m = m.
Proof. unfold Guarded_. by rewrite Hctx, Z.eqb_refl. Qed.

(** A call with the value in the cell, and its new value written back. *)
Lemma call_held key p v s Hr (k : Z * CALL_RESULT -> M Z) (g : Z -> Z) :
  (forall r s', k r (Held p v s') = Some (MethodResult r Hr, Held p (g (TlsValue (snd r))) s')) ->
  bind (Call_ key v) k (Held p v s) =
  match bind (Call_ key v) (fun r => ret (MethodResult r Hr, g (TlsValue (snd r)))) s with
  | Some ((x, v'), s') => Some (x, Held p v' s')
  | None => None
  end.
Proof.
  intros Hk. destruct (Blind_held (Call_ key v) p v s (Blind_Call key v)) as [E _]. unfold bind. rewrite E.
  destruct (Call_ key v s) as [[r s']|]; [|done]. rewrite Hk. done.
Qed.

Lemma BeforeOrAfter_held p v s Routine Hr (reset : bool) :
  p <> 0 -> Marked Routine ->
  CfixklsRunBeforeOrAfterRoutine Malloc P Tid Module_ f ctx Routine Hr reset (Held p v s) =
  match bind (Pass Routine v Hr) (fun r => ret (fst r, if reset && negb (Routine =? 0) then 0 else snd r)) s with
  | Some ((x, v'), s') => Some (x, Held p v' s')
  | None => None
  end.
Proof.
  intros Hp Hm. unfold CfixklsRunBeforeOrAfterRoutine, Pass, GetTlsValuePtr. rewrite bind_gets.
  change (TlsPtr (Held p v s)) with p. rewrite (proj2 (Z.eqb_neq _ _) Hp). unfold bind at 1. cbn [negb assert_ ret].
  rewrite (Marked_flag _ Hm). destruct (Routine =? 0); cbn [negb andb].
  { rewrite bind_ret, andb_false_r. done. }
  rewrite (bind_eq _ _ _ _ _ (load_held p v s)), bind_assoc. rewrite andb_true_r.
  rewrite (call_held _ p v s Hr _ (fun v' => if reset then 0 else v')).
  - unfold bind. by destruct (Call_ _ v s) as [[r s']|].
  - intros r s'. rewrite (bind_eq _ _ _ _ _ (store_held p v _ s')). destruct reset; cbn [when_].
    + by rewrite (bind_eq _ _ _ _ _ (store_held p _ _ s')).
    + by rewrite bind_ret.
Qed.

Lemma RunMethod_held op p v s : p <> 0 ->
  RunMethod op (Held p v s) =
  match PassMethod op v s with Some ((x, v'), s') => Some (x, Held p v' s') | None => None end.
Proof.
  intros Hp. destruct Hmarked as (_ & _ & Hb & Ha). destruct op; cbn [RunMethod PassMethod].
  - unfold CfixklsRunBeforeRoutine. rewrite valid_context, BeforeOrAfter_held by done.
    unfold bind. by destruct (Pass _ v _ s) as [[[x v'] s']|].
  - unfold CfixklsRunTestCaseRoutine, GetTlsValuePtr. rewrite valid_context, bind_gets.
    change (TlsPtr (Held p v s)) with p. rewrite (proj2 (Z.eqb_neq _ _) Hp). unfold bind at 1. cbn [negb assert_ ret].
    rewrite (bind_eq _ _ _ _ _ (load_held p v s)).
    apply (call_held _ p v s CFIX_E_TEST_ROUTINE_FAILED _ (fun v' => v')).
    intros r s'. by rewrite (bind_eq _ _ _ _ _ (store_held p v _ s')).
  - unfold CfixklsRunAfterRoutine. rewrite valid_context, BeforeOrAfter_held by done.
    unfold bind. destruct (Pass _ v _ s) as [[[x v'] s']|] eqn:E; [|done]. cbn.
    destruct (AfterRoutine (KfBase f) =? 0) eqn:E0; [|done]. cbn.
    unfold Pass in E. rewrite E0 in E. by injection E as <- <- <-.
Qed.

Lemma RunMethods_held ops : forall p v s, p <> 0 ->
  RunMethods ops (Held p v s) =
  match PassMethods ops v s with Some ((x, v'), s') => Some (x, Held p v' s') | None => None end.
Proof.
  induction ops as [|op ops IH]; intros p v s Hp; [done|]. cbn [RunMethods PassMethods].
  unfold bind at 1. rewrite RunMethod_held by done. unfold bind at 2.
  destruct (PassMethod op v s) as [[[x v'] s']|]; [|done]. unfold bind at 1. rewrite IH by done. cbn [fst snd].
  unfold bind. by destruct (PassMethods ops v' s') as [[[xs v''] s'']|].
Qed.

Lemma Blind_PassMethods ops : forall v, Blind (PassMethods ops v).
Proof.
  induction ops as [|op ops IH]; intros v; cbn [PassMethods]; [apply Blind_ret|].
  apply Blind_bind; [apply Blind_PassMethod|]. intros r. apply Blind_bind; [apply IH|]. intros. apply Blind_ret.
Qed.

(** The slot and the cells, without the cell of [p]. *)
Lemma Teardown_held p v s : p <> 0 -> Cells s !! p = None -> TlsPtr s = 0 ->
  CfixklsRunTeardownRoutine Malloc P Tid Module_ f ctx (Held p v s) =
  (heap (free p) ;;; c <- Pass (TeardownRoutine (KfBase f)) v CFIX_E_TEARDOWN_ROUTINE_FAILED ;; ret (fst c)) s.
Proof.
  intros Hp Hc H0. destruct Hmarked as (_ & Ht & _ & _).
  unfold CfixklsRunTeardownRoutine, GetTlsValuePtr. rewrite valid_context, bind_gets.
  change (TlsPtr (Held p v s)) with p. rewrite (proj2 (Z.eqb_neq _ _) Hp). unfold bind at 1. cbn [negb assert_ ret].
  rewrite (bind_eq _ _ _ _ _ (load_held p v s)).
  assert (drop_cell p (Held p v s) = Some (tt, MkKL (Heap s) (KlModules s) (Cells s) p)) as E1.
  { unfold drop_cell, modify, Held. cbn. by rewrite delete_insert_id. }
  rewrite (bind_eq _ _ _ _ _ E1). destruct s as [h mods c t]. cbn in *. subst t.
  unfold Pass, heap, free, modify, SetTlsValuePtr, bind. cbn. rewrite (Marked_flag _ Ht).
  destruct (TeardownRoutine (KfBase f) =? 0); [done|]. cbn.
  by destruct (Call_ _ v _) as [[r s']|].
Qed.

Lemma Setup_held p s s1 : p <> 0 -> TlsPtr s = 0 -> malloc_cell Malloc s = Some (p, s1) ->
  CfixklsRunSetupRoutine Malloc P Tid Module_ f ctx s =
  match Pass (SetupRoutine (KfBase f)) 0 CFIX_E_SETUP_ROUTINE_FAILED s1 with
  | Some ((x, _), s') => Some (x, Held p 0 s')
  | None => None
  end.
Proof.
  intros Hp H0 E. unfold CfixklsRunSetupRoutine, GetTlsValuePtr. rewrite valid_context, bind_gets, H0.
  unfold bind at 1. cbn [Z.eqb assert_ ret]. rewrite (bind_eq _ _ _ _ _ E), (proj2 (Z.eqb_neq _ _) Hp).
  assert (TlsPtr s1 = 0) as H1.
  { unfold malloc_cell, heap in E. destruct (malloc _ _ (Heap s)) as [[? ?]|]; [|done]. by injection E as <- <-. }
  unfold store_cell at 1. rewrite bind_modify. unfold SetTlsValuePtr at 1. rewrite bind_modify.
  cbn [Heap KlModules Cells]. fold (Held p 0 s1). unfold Pass.
  destruct (SetupRoutine (KfBase f) =? 0); cbn [negb]; [done|].
  rewrite (call_held _ p 0 s1 CFIX_E_SETUP_ROUTINE_FAILED _ (fun _ => 0)).
  - unfold bind. by destruct (Call_ _ 0 s1) as [[r s']|].
  - intros r s'. by rewrite (bind_eq _ _ _ _ _ (store_held p 0 0 s')) || rewrite (bind_eq _ _ _ _ _ (store_held p _ 0 s')).
Qed.

(** The cells are blocks of the heap. *)
Definition CellsOk (s : KL W) : Prop := forall p, is_Some (Cells s !! p) -> p ∈ Blocks (Heap s).

Lemma fixture_passes ops s :
  (forall B n, Malloc B n = 0 \/ Malloc B n ∉ B) -> TlsPtr s = 0 -> CellsOk s -> RunFixture ops s = PassFixture ops s.
Proof.
  intros HM H0 Hcells. unfold RunFixture, PassFixture.
  destruct (malloc_cell Malloc s) as [[p s1]|] eqn:E; [|by unfold malloc_cell, heap, malloc in E].
  rewrite (bind_eq _ _ _ _ _ E). destruct (Z.eqb_spec p 0) as [-> |Hp].
  { unfold CfixklsRunSetupRoutine, GetTlsValuePtr. rewrite valid_context, bind_assoc, bind_gets, H0, bind_assoc.
    unfold bind at 1. cbn [Z.eqb assert_ ret]. rewrite bind_assoc, (bind_eq _ _ _ _ _ E). cbn [Z.eqb].
    unfold malloc_cell, heap, malloc in E. destruct (Malloc _ 8 =? 0) eqn:EM; [|]; done. }
  assert (Cells s1 = Cells s /\ TlsPtr s1 = 0 /\ Cells s !! p = None) as (Hc1 & Ht1 & Hnone).
  { unfold malloc_cell, heap, malloc in E. injection E as Ep <-. cbn. split_and!; [done..|].
    destruct (Cells s !! p) eqn:Ec; [|done]. destruct (HM (Blocks (Heap s)) 8) as [HM0|HMn]; [congruence|].
    destruct HMn. rewrite Ep. by apply Hcells. }
  unfold bind at 1. rewrite (Setup_held p s s1 Hp H0 E). unfold bind at 3.
  pose proof (proj2 (Blind_held _ p 0 s1 (Blind_Pass (SetupRoutine (KfBase f)) 0 CFIX_E_SETUP_ROUTINE_FAILED))) as Hkeep.
  destruct (Pass (SetupRoutine (KfBase f)) 0 _ s1) as [[[x v] s2]|]; [|done]. cbn [fst].
  destruct (Hkeep _ _ eq_refl) as [Hc2 Ht2]. destruct (FAILED x); [done|].
  unfold bind at 1. rewrite RunMethods_held by done. unfold bind at 2.
  pose proof (proj2 (Blind_held _ p 0 s2 (Blind_PassMethods ops 0))) as Hkeep2.
  destruct (PassMethods ops 0 s2) as [[[xs v'] s3]|]; [|done]. cbn [fst snd].
  destruct (Hkeep2 _ _ eq_refl) as [Hc3 Ht3].
  unfold bind at 1. rewrite Teardown_held by (done || congruence).
  unfold bind. destruct (heap (free p) s3) as [[[] s4]|]; [|done].
  by destruct (Pass _ v' _ s4) as [[[c v''] s5]|].
Qed.

(** C38. Setup, any sequence of before, test and after routines, and teardown of a
    kernel mode fixture run as if the storage value were handed from call to call:
    the setup routine gets 0, a test sees what the before routine has stored, the
    after routine resets the value, the teardown routine gets the last value; the
    block of the value is freed, and slot and cells are as before.  Only a setup
    routine that fails leaves the block in the slot. *)
Theorem storage_passed_between_routines ops s :
  (forall B n, Malloc B n = 0 \/ Malloc B n ∉ B) -> TlsPtr s = 0 -> CellsOk s -> RunFixture ops s = PassFixture ops s.
Proof. apply fixture_passes. Qed.

(** A setup routine that fails leaves its storage block in the slot of the thread,
    and as a fixture that has failed to set up is not torn down, every later attempt
    to set up a kernel mode fixture on that thread runs into the assertion that the
    slot is empty. *)
Theorem failed_setup_blocks_thread s s1 p Hr s2 g :
  TlsPtr s = 0 -> malloc_cell Malloc s = Some (p, s1) -> p <> 0 ->
  CfixklsRunSetupRoutine Malloc P Tid Module_ f ctx s = Some (Hr, s2) -> FAILED Hr = true ->
  TlsPtr s2 = p /\ CfixklsRunSetupRoutine Malloc P Tid Module_ g ctx s2 = None.
Proof.
  intros H0 E Hp ES _. rewrite (Setup_held p s s1 Hp H0 E) in ES.
  destruct (Pass _ 0 _ s1) as [[[x v] s']|]; [|done]. injection ES as <- <-. split; [done|].
  unfold CfixklsRunSetupRoutine, GetTlsValuePtr. rewrite valid_context, bind_gets.
  change (TlsPtr (Held p 0 s')) with p. by rewrite (proj2 (Z.eqb_neq _ _) Hp).
Qed.
End storage.

Module Demo.
#[local] Existing Instance KlDriver.Demo.system.

(** The device of the witness system answers every request with an error, so that a
    routine cannot be called. *)
Definition context : CFIX_EXECUTION_CONTEXT KlDriver.Demo.SYS :=
  MkContext CFIX_TEST_CONTEXT_VERSION (fun _ _ => ret CfixContinue) (fun _ => ret CfixContinue)
    (fun _ _ => ret S_OK) (fun _ _ _ => ret tt) (fun _ _ _ => ret S_OK) (fun _ _ _ _ => ret tt)
    (fun _ => ret (S_OK, 0)) (fun _ _ => ret tt) (fun _ _ => ret tt) (fun _ _ => ret tt) (ret tt) (ret tt).
Definition fixture : KL_FIXTURE :=
  MkKlFixture 0 (MkFixture "Suite" 0x80000000 0 0x80000001 0 CfixApiTypeBase 0 "driver" [MkTestCase "Add" 2]).
Definition plain : KL_FIXTURE :=
  MkKlFixture 0 (MkFixture "Plain" 0 0 0 0 CfixApiTypeBase 0 "driver" [MkTestCase "Add" 2]).
Definition state : KL KlDriver.Demo.SYS :=
  MkKL (MkCW {[0x100; 0x200]} (KlDriver.Demo.MkSys ∅ {[5]}))
    {[0x100 := MkKlModule None 1 0 false false "cfixkr_driver" 0x80400000 5]} {[0x200 := 9]} 0.
Definition Alloc (B : gset Z) (n : Z) : Z := NextBlock B.

Lemma cells_ok : CellsOk state.
Proof. intros p [v H]. unfold state in H. simpl in H. apply lookup_singleton_Some in H as [<- _]. simpl. set_solver. Defined.

Lemma storage_passed_between_routines_witness :
  RunFixture Alloc 8 7 0x100 plain context [MBefore; MTest (MkTestCase "Add" 2); MAfter] state =
  PassFixture Alloc 8 7 0x100 plain context [MBefore; MTest (MkTestCase "Add" 2); MAfter] state /\
  is_Some (RunFixture Alloc 8 7 0x100 plain context [MBefore; MTest (MkTestCase "Add" 2); MAfter] state).
Proof.
  split; [|vm_compute; by eexists].
  apply (storage_passed_between_routines Alloc 8 7 0x100 plain context eq_refl
    (conj (or_introl eq_refl) (conj (or_introl eq_refl) (conj (or_introl eq_refl) (or_introl eq_refl))))).
  - intros B n. right. exact (proj2 (NextBlock_fresh B)).
  - reflexivity.
  - exact cells_ok.
Defined.

Lemma failed_setup_blocks_thread_witness :
  exists s2, CfixklsRunSetupRoutine Alloc 8 7 0x100 fixture context state = Some (0x8007001F, s2) /\
    TlsPtr s2 = 0x201 /\ CfixklsRunSetupRoutine Alloc 8 7 0x100 plain context s2 = None.
Proof.
  eexists. split; [vm_compute; reflexivity|].
  eapply (failed_setup_blocks_thread Alloc 8 7 0x100 fixture context eq_refl
    state _ 0x201 0x8007001F _ plain); [reflexivity|reflexivity|discriminate|vm_compute; reflexivity|reflexivity].
Defined.
End Demo.
