(* ===== verification/KlLife.v ===== *)
(** * A kernel mode test module from its driver (cfixkern: cfixkl and cfixkr together)

    The client creates a module from a driver that has registered with the
    reflector, by three requests to the device; the answers are those of KrMain on
    the state of the kernel.  The theorem follows a module from its creation to the
    release of its last reference. *)
From stdpp Require Import base gmap list strings.
From Stdlib Require Import ZArith Lia.
From S2P Require Import Prelude CfixApi PeModule RptStubs CmdLine IoBuffer KrEvents KlCalls KrModule KrConn KrStubs KrMain KlFixture KlDriver KlModule.
Local Open Scope Z_scope.
Local Open Scope cfix_scope.

(** ** The device answers *)
Section device.
Context (Order : gmap Z (Z * Z) -> list Z).

Lemma put_array_fetch m a vs i v : Forall (fun v => 0 <= v < 2 ^ 64) vs -> vs !! i = Some v ->
  fetch 8 (put_array 8 m a vs) (a + 8 * Z.of_nat i) = v.
Proof.
  intros Hvs. revert m a i. induction Hvs as [|x vs Hx Hvs IH]; intros m a i Hi; [done|]. destruct i as [|i].
  - injection Hi as <-. cbn [put_array]. rewrite Z.mul_0_r, Z.add_0_r.
    rewrite fetch_put_array_ne by (simpl; lia). by apply fetch_put_eq.
  - cbn [put_array]. replace (a + 8 * Z.of_nat (S i)) with (a + Z.of_nat 8 + 8 * Z.of_nat i) by lia. by apply IH.
Qed.

(** A list of addresses in a response at [r]. *)
Record ModulesAt (m : Memory) (r : Z) (l : list Z) : Prop := {
  mods_count : fetch 4 m r = lenZ l;
  mods_at : forall i v, l !! i = Some v -> fetch 8 m (r + 8 + 8 * Z.of_nat i) = v }.

Definition ModulesBytes (l : list Z) : Z := if lenZ l =? 0 then 4 else 8 + 8 * lenZ l.

Lemma SIZEOF_MODULES_small n : 0 <= n < 2 ^ 16 -> SIZEOF_MODULES n = 8 + 8 * n.
Proof. intros H. unfold SIZEOF_MODULES, ULONG. rewrite wrap_small; lia. Qed.

Lemma GetModules_fits k buf n T r :
  buf <> 0 -> Registry k = Some (T, r) -> Forall (fun v => 0 <= v < 2 ^ 64) (Order r) ->
  lenZ (Order r) < 2 ^ 16 -> 16 <= n -> lenZ (Order r) <= (n - 8) / 8 ->
  exists m, CfixkrsGetModulesIoctl Order buf 0 n k =
      Some ((STATUS_SUCCESS, ModulesBytes (Order r)), set_IoMemory m k) /\ ModulesAt m buf (Order r).
Proof.
  intros Hb Hr Hl Hlen Hn Hcap. unfold CfixkrsGetModulesIoctl.
  rewrite (proj2 (Z.eqb_neq _ _) Hb). change (negb (0 =? 0)) with false. cbn [orb].
  unfold SIZEOF_GET_MODULES. rewrite (proj2 (Z.ltb_ge _ _) Hn). cbv zeta.
  rewrite (bind_eq _ _ _ _ _ (GetDriverConnections_spec Order (Z.to_nat ((n - 8) / 8)) k T r Hr)).
  pose proof (lenZ_nonneg (Order r)). unfold lenZ in *.
  rewrite (proj2 (Nat.ltb_ge _ _)) by lia. rewrite take_ge by lia. fold (lenZ (Order r)).
  rewrite bind_modify. change (STATUS_SUCCESS =? STATUS_BUFFER_OVERFLOW) with false.
  change (NT_SUCCESS STATUS_SUCCESS) with true. cbv iota. rewrite bind_modify.
  eexists. split.
  - unfold ret, ModulesBytes. cbn [IoMemory set_IoMemory]. f_equal. f_equal. f_equal.
    destruct (lenZ (Order r) =? 0); [done|]. unfold lenZ. by rewrite SIZEOF_MODULES_small by lia.
  - cbn [IoMemory set_IoMemory]. split.
    + apply fetch_put_eq. unfold lenZ. change (256 ^ Z.of_nat 4) with (2 ^ 32). lia.
    + intros i v Hi. rewrite fetch_put_ne by (simpl; lia). by apply put_array_fetch.
Qed.

Lemma GetModules_overflow k buf T r :
  buf <> 0 -> Registry k = Some (T, r) -> 1 < lenZ (Order r) < 2 ^ 16 ->
  exists m, CfixkrsGetModulesIoctl Order buf 0 16 k = Some ((STATUS_BUFFER_OVERFLOW, 16), set_IoMemory m k) /\
    fetch 4 m buf = lenZ (Order r).
Proof.
  intros Hb Hr Hlen. unfold CfixkrsGetModulesIoctl.
  rewrite (proj2 (Z.eqb_neq _ _) Hb). change (negb (0 =? 0)) with false. cbn [orb].
  change (16 <? SIZEOF_GET_MODULES) with false. cbv iota. change ((16 - 8) / 8) with 1. cbv zeta.
  rewrite (bind_eq _ _ _ _ _ (GetDriverConnections_spec Order (Z.to_nat 1) k T r Hr)).
  unfold lenZ in Hlen. change (Z.to_nat 1) with 1%nat. rewrite (proj2 (Nat.ltb_lt _ _)) by lia.
  rewrite bind_modify. change (STATUS_BUFFER_OVERFLOW =? STATUS_BUFFER_OVERFLOW) with true. cbv iota.
  rewrite bind_modify. eexists. split.
  - unfold ret. f_equal. f_equal. f_equal. assert (lenZ (take 1 (Order r)) = 1) as ->; [|done].
    unfold lenZ. rewrite length_take. lia.
  - cbn [IoMemory set_IoMemory]. unfold lenZ. apply fetch_put_eq. change (256 ^ Z.of_nat 4) with (2 ^ 32). lia.
Qed.

(** The query of a module, for the size and for the contents. *)
Lemma QueryModule_answer k buf n Base Conn c a0 ad :
  buf <> 0 -> 0 <= Base < 2 ^ 64 -> 4 <= n -> RegisteredAt k Base Conn c -> Adapter c = Some (a0, ad) -> AdapterOk ad ->
  let k' := set_IoMemory (put 8 (IoMemory k) buf Base) k in
  let size := DescriptionSize (AdFixtures ad) in
  if n <? size then
    CfixkrsQueryModuleIoctl buf 8 n k' =
    Some ((STATUS_BUFFER_OVERFLOW, 4), set_IoMemory (put 4 (put 8 (IoMemory k) buf Base) buf size) k)
  else exists m,
    CfixkrsQueryModuleIoctl buf 8 n k' = Some ((STATUS_SUCCESS, size), set_IoMemory m k) /\
    fetch 4 m buf = lenZ (AdFixtures ad) /\
    FixturesAt m buf (4 + 4 * lenZ (AdFixtures ad)) 0 (AdFixtures ad) (DescriptionStruct (AdFixtures ad)).
Proof.
  intros Hb HB Hn HR Had Hok k' size. set (m0 := put 8 (IoMemory k) buf Base) in *.
  assert (RegisteredAt k' Base Conn c) as HR' by by destruct HR.
  destruct HR as [_ Hc Hrefs].
  assert (forall x, CfixkrsQueryModuleIoctl buf 8 n k' = x <->
    (c0 <- load_conn Conn ;;
     match Adapter c0 with
     | None => fault
     | Some (_, a) =>
         match CfixkrpQueryModuleTestAdapter a n buf m0 with
         | None => fault
         | Some (Status, BufferSize, m) =>
             modify (set_IoMemory m) ;;;
             BytesWritten <-
               (if Status =? STATUS_BUFFER_OVERFLOW then
                  modify (fun s => set_IoMemory (put 4 (IoMemory s) buf BufferSize) s) ;;; ret 4
                else ret (if NT_SUCCESS Status then BufferSize else 0)) ;;
             CfixkrpDereferenceConnection Conn ;;;
             ret (Status, BytesWritten)
         end
     end) (set_Connections (<[Conn := Referenced c]> (Connections k)) k') = x) as Hstart.
  { intros x. unfold CfixkrsQueryModuleIoctl. rewrite (proj2 (Z.eqb_neq _ _) Hb).
    change (negb (8 =? SIZEOF_QUERY_TEST_MODULE_REQUEST)) with false. rewrite (proj2 (Z.ltb_ge _ _) Hn). cbn [orb].
    rewrite bind_gets. change (IoMemory k') with m0.
    assert (fetch 8 m0 buf = Base) as -> by (by apply fetch_put_eq).
    by rewrite (bind_eq _ _ _ _ _ (lookup_registered _ _ _ _ HR')). }
  assert (forall x : KW, load_conn Conn (set_Connections (<[Conn := Referenced c]> (Connections k)) x) =
    Some (Referenced c, set_Connections (<[Conn := Referenced c]> (Connections k)) x)) as Hload.
  { intros x. unfold load_conn. cbn. by rewrite lookup_insert_eq. }
  pose proof (fun m => dereference_referenced k Conn c m Hc Hrefs) as Hderef.
  destruct (Z.ltb_spec n size) as [Hlt|Hge].
  - apply Hstart. rewrite (bind_eq _ _ _ _ _ (Hload _)). change (Adapter (Referenced c)) with (Adapter c). rewrite Had.
    rewrite (QueryModule_small ad n buf m0 Hok Hlt). rewrite bind_modify.
    change (STATUS_BUFFER_OVERFLOW =? STATUS_BUFFER_OVERFLOW) with true. cbv iota.
    rewrite bind_assoc, bind_modify, bind_ret. cbn [IoMemory set_IoMemory].
    by rewrite (bind_eq _ _ _ _ _ (Hderef (put 4 m0 buf size))).
  - destruct (QueryModule_written ad n buf m0 Hok Hge) as (m & E & Hcount & HF & _). exists m.
    split; [|done]. apply Hstart. rewrite (bind_eq _ _ _ _ _ (Hload _)).
    change (Adapter (Referenced c)) with (Adapter c). rewrite Had, E, bind_modify.
    change (STATUS_SUCCESS =? STATUS_BUFFER_OVERFLOW) with false. change (NT_SUCCESS STATUS_SUCCESS) with true.
    cbv iota. rewrite bind_ret. by rewrite (bind_eq _ _ _ _ _ (Hderef m)).
Qed.
End device.

(** ** The queries of the client *)
Section queries.
Context {W : Type} {Sys : System W}.
Context (P : Z) (HP : P = 4 \/ P = 8) (Malloc : gset Z -> Z -> Z).
Context (HMalloc : forall B n, Malloc B n <> 0 /\ Malloc B n ∉ B).
Context (PathStripPath : string -> string) (Local_ : Z).
(** The kernel in the client's world, its reflector, and the system buffer. *)
Context (kernel : W -> KW) (set_kernel : KW -> W -> W).
Context (kernel_set : forall k w, kernel (set_kernel k w) = k).
Context (set_set : forall k k' w, set_kernel k (set_kernel k' w) = set_kernel k w).
Context (PK : Z) (Pool : gset Z -> Z -> Z) (Tid : Z) (Code : Z -> ST KW (OUT unit)) (RecordOf : Z -> EXCEPTION_RECORD).
Context (KeWait : list Z -> ST KW Z) (Order : gmap Z (Z * Z) -> list Z) (Channel Frame SysBuf : Z).
Context (ErrorOf : Z -> Z).

Local Abbreviation Dispatch := (CfixkrpDispatchDeviceControl PK Pool Tid Code RecordOf KeWait Order Channel Frame).

Definition Answer (rq : REQUEST) (n : Z) (k : KW) : option (OUT (Z * Z) * KW) :=
  match rq with
  | GetTestModules => Dispatch IOCTL_GET_TEST_MODULES SysBuf 0 n k
  | QueryTestModule b => Dispatch IOCTL_QUERY_TEST_MODULE SysBuf 8 n (set_IoMemory (put 8 (IoMemory k) SysBuf b) k)
  | CallRoutineRequest q => Dispatch IOCTL_CALL_ROUTINE SysBuf 24 n (set_IoMemory (WriteRequest q SysBuf (IoMemory k)) k)
  end.

(** The I/O manager copies the system buffer back when a request succeeds, and when
    it ends with a warning. *)
Definition BufferedDevice : Prop := forall h rq a n w Status Bytes k,
  Answer rq n (kernel w) = Some (Returned (Status, Bytes), k) ->
  Status = STATUS_SUCCESS \/ Status = STATUS_BUFFER_OVERFLOW ->
  exists m', DeviceIoControl h rq a n w = Some ((ErrorOf Status, Bytes, m'), set_kernel k w) /\
    Copied m' a (IoMemory k) SysBuf Bytes.

Context (HDevice : BufferedDevice) (HSys : SysBuf <> 0).
Context (HSuccess : ErrorOf STATUS_SUCCESS = 0) (HOverflow : ErrorOf STATUS_BUFFER_OVERFLOW = ERROR_MORE_DATA).

Lemma ModulesAt_Copied m' a m b l : ModulesAt m b l -> Copied m' a m b (ModulesBytes l) -> ModulesAt m' a l.
Proof.
  intros [Hc Hat] HC. unfold ModulesBytes in HC. pose proof (lenZ_nonneg l). split.
  - rewrite <- Hc, <- (Z.add_0_r a), (fetch_Copied _ _ _ _ _ HC), Z.add_0_r; [done|lia|].
    destruct (lenZ l =? 0); simpl; lia.
  - intros i v Hi. rewrite <- (Hat i v Hi), <- !Z.add_assoc.
    pose proof (lookup_lt_Some _ _ _ Hi). destruct (Z.eqb_spec (lenZ l) 0) as [E|E]; [unfold lenZ in E; lia|].
    apply (fetch_Copied _ _ _ _ _ HC); unfold lenZ in *; simpl; lia.
Qed.

(** The loaded driver [Base] among the registered ones [l], told by its name. *)
Record Named (w : W) (l : list Z) (Name : string) (Base : Z) : Prop := {
  nam_base : Base ∈ l;
  nam_range : Forall (fun x => 0 < x < 2 ^ 64 /\ FlagOn x 0x80000000 = true /\ Z.land x 0xFFF = 0) l;
  nam_few : lenZ l < 8;
  nam_names : forall x, x ∈ l -> exists FileName, wcsieq Name FileName = (x =? Base) /\
    forall k, GetDeviceDriverBaseName (wrap (8 * P) x) (set_kernel k w) = Some (inr FileName, set_kernel k w) }.

Lemma FindLoadAddress_found m r Name Base k w all l : forall idx Hr,
  Named w all Name Base -> (forall x, x ∈ l -> x ∈ all) -> Base ∈ l ->
  (forall i v, l !! i = Some v -> fetch 8 m (r + 8 + 8 * (idx + Z.of_nat i)) = v) ->
  FindLoadAddress P m r Name idx (length l) Hr (set_kernel k w) = Some ((S_OK, Base), set_kernel k w).
Proof.
  intros idx Hr [_ Hrange _ Hnames]. revert idx Hr. induction l as [|x l IH]; intros idx Hr Hall Hin Hat; [by inversion Hin|].
  cbn [length FindLoadAddress]. cbv zeta. pose proof (Hat O x eq_refl) as Hx. rewrite Z.add_0_r in Hx. rewrite Hx.
  assert (x ∈ all) as Hxin by (apply Hall; left).
  rewrite Forall_forall in Hrange. destruct (Hrange x Hxin) as (_ & Hf & Hl).
  rewrite bind_assert by done. rewrite Hl, bind_assert by done.
  destruct (Hnames x Hxin) as (FileName & Hw & Hn). rewrite (bind_eq _ _ _ _ _ (Hn k)), Hw.
  destruct (Z.eqb_spec x Base) as [-> |Hne]; [done|]. apply IH.
  - intros y Hy. apply Hall. by right.
  - apply elem_of_cons in Hin as [->|]; done.
  - intros i v Hi. rewrite <- (Hat (S i) v Hi). f_equal. lia.
Qed.

Lemma SearchResponse_found m r l Name Base k w :
  Named w l Name Base -> ModulesAt m r l ->
  SearchResponse P Name (ModulesBytes l) m r (set_kernel k w) = Some ((S_OK, Base), set_kernel k w).
Proof.
  intros HN [Hc Hat]. pose proof (lenZ_nonneg l). pose proof (nam_few _ _ _ _ HN) as Hfew. unfold SearchResponse.
  rewrite Hc. assert (2 ^ 32 <= 2 ^ (8 * P)) by (destruct HP as [-> | ->]; lia).
  assert (lenZ l <> 0) as Hne.
  { destruct HN as [Hb _ _ _]. destruct l; [by inversion Hb|]. unfold lenZ. simpl. lia. }
  unfold ModulesBytes. rewrite (proj2 (Z.eqb_neq _ _) Hne). rewrite wrap_small by lia.
  rewrite !(proj2 (Z.ltb_ge _ _)) by lia. cbn [orb]. rewrite bind_assert by (by apply Z.ltb_lt).
  assert (Z.to_nat (lenZ l) = length l) as -> by (unfold lenZ; lia).
  assert (FindLoadAddress P m r Name 0 (length l) S_OK (set_kernel k w) = Some ((S_OK, Base), set_kernel k w)) as E.
  { apply (FindLoadAddress_found m r Name Base k w l); [done..|apply HN|].
    intros i v Hi. rewrite Z.add_0_l. by apply Hat. }
  rewrite (bind_eq _ _ _ _ _ E). cbn [fst snd]. change (FAILED S_OK) with false. cbv iota.
  destruct HN as [Hb Hrange _ _]. rewrite Forall_forall in Hrange. destruct (Hrange Base Hb) as (Hpos & _ & _).
  by rewrite (proj2 (Z.eqb_neq Base 0)) by lia.
Qed.

(** The kernel has the drivers [l] registered, and [Base] with its adapter. *)
Record Serves (k : KW) (l : list Z) (Base : Z) (ad : CFIXKRP_TEST_ADAPTER) : Prop := {
  srv_registry : exists T r, Registry k = Some (T, r) /\ Order r = l;
  srv_conn : exists Conn c a0, RegisteredAt k Base Conn c /\ Adapter c = Some (a0, ad);
  srv_adapter : AdapterOk ad }.

Lemma Serves_memory k l Base ad m : Serves k l Base ad -> Serves (set_IoMemory m k) l Base ad.
Proof. intros [H1 (Conn & c & a0 & [] & H) H3]. split; [done| |done]. by exists Conn, c, a0. Qed.

Definition Other (m : Memory) (w : W) : W := set_kernel (set_IoMemory m (kernel w)) w.

Lemma Other_Other m m' w : Other m (Other m' w) = Other m w.
Proof. unfold Other. by rewrite kernel_set, set_set. Qed.

Lemma FindBase_spec h Path l Base ad w B :
  (String.length Path < MAX_PATH)%nat -> Serves (kernel w) l Base ad -> Named w l (PathStripPath Path) Base ->
  exists m, CfixklsFindBaseAddressDriver Malloc P PathStripPath Local_ h Path (MkCW B w) =
    Some ((S_OK, Base), MkCW B (Other m w)).
Proof.
  intros HPath HS HN. destruct (srv_registry _ _ _ _ HS) as (T & r & Hr & Hl).
  pose proof (nam_few _ _ _ _ HN) as Hfew. pose proof (lenZ_nonneg l).
  assert (Forall (fun v => 0 <= v < 2 ^ 64) (Order r)) as Hrange.
  { rewrite Hl. eapply Forall_impl; [exact (nam_range _ _ _ _ HN)|]. simpl. lia. }
  unfold CfixklsFindBaseAddressDriver, CopyCch. rewrite (proj2 (Nat.ltb_lt _ _) HPath). cbv zeta.
  destruct (Z.le_gt_cases (lenZ l) 1) as [H1|H1].
  - destruct (GetModules_fits Order (kernel w) SysBuf 16 T r HSys Hr Hrange) as (m & E & Hm);
      [rewrite Hl; lia|lia|rewrite Hl; change ((16 - 8) / 8) with 1; lia|]. rewrite Hl in E, Hm.
    destruct (HDevice h GetTestModules Local_ SIZEOF_GET_MODULES w STATUS_SUCCESS (ModulesBytes l)
      (set_IoMemory m (kernel w))) as (m' & E' & HC); [cbn; unfold lift, bind; unfold SIZEOF_GET_MODULES; by rewrite E|by left|].
    exists m. rewrite bind_world. cbn [World Blocks]. rewrite E'. cbv beta iota. rewrite HSuccess. cbn [Z.eqb].
    unfold world. cbn [World Blocks]. unfold Other.
    by rewrite (SearchResponse_found m' Local_ l _ Base) by (done || by eapply ModulesAt_Copied).
  - destruct (GetModules_overflow Order (kernel w) SysBuf T r HSys Hr) as (m & E & Hm); [rewrite Hl; lia|].
    rewrite Hl in Hm.
    destruct (HDevice h GetTestModules Local_ SIZEOF_GET_MODULES w STATUS_BUFFER_OVERFLOW 16
      (set_IoMemory m (kernel w))) as (m' & E' & HC); [cbn; unfold lift, bind; unfold SIZEOF_GET_MODULES; by rewrite E|by right|].
    rewrite bind_world. cbn [World Blocks]. rewrite E'. cbv beta iota. rewrite HOverflow.
    change (ERROR_MORE_DATA =? 0) with false. change (ERROR_MORE_DATA =? ERROR_MORE_DATA) with true. cbv iota.
    assert (fetch 4 m' Local_ = lenZ l) as ->.
    { rewrite <- Hm, <- (Z.add_0_r Local_), (fetch_Copied _ _ _ _ _ HC), Z.add_0_r; [done|lia|simpl; lia]. }
    rewrite SIZEOF_MODULES_small by lia.
    destruct (malloc_eq Malloc HMalloc (8 + 8 * lenZ l) (MkCW B (set_kernel (set_IoMemory m (kernel w)) w)))
      as (a & Ha & Hnz & Em). cbn [Blocks World] in *.
    rewrite (bind_eq _ _ _ _ _ Em), (proj2 (Z.eqb_neq _ _) Hnz). rewrite bind_world. cbn [World Blocks].
    fold (Other m w). assert (Registry (kernel (Other m w)) = Some (T, r)) as Hr2 by (unfold Other; by rewrite kernel_set).
    destruct (GetModules_fits Order (kernel (Other m w)) SysBuf (8 + 8 * lenZ l) T r HSys Hr2 Hrange) as (m2 & E2 & Hm2);
      [rewrite Hl; lia|lia|rewrite Hl; replace (8 + 8 * lenZ l - 8) with (lenZ l * 8) by lia; rewrite Z.div_mul; lia|].
    rewrite Hl in E2, Hm2.
    destruct (HDevice h GetTestModules a (8 + 8 * lenZ l) (Other m w) STATUS_SUCCESS (ModulesBytes l)
      (set_IoMemory m2 (kernel (Other m w)))) as (m2' & E2' & HC2); [cbn; unfold lift, bind; by rewrite E2|by left|].
    rewrite E2'. cbv beta iota. rewrite HSuccess. cbn [Z.eqb]. rewrite bind_world. cbn [World Blocks].
    fold (Other m2 (Other m w)). rewrite Other_Other. unfold Other at 1.
    rewrite (SearchResponse_found m2' a l _ Base) by (done || by eapply ModulesAt_Copied).
    exists m2. cbn. unfold ret. apply Some_CW. set_solver.
Qed.

Lemma lift_answer Base n k r k' :
  CfixkrsQueryModuleIoctl SysBuf 8 n (set_IoMemory (put 8 (IoMemory k) SysBuf Base) k) = Some (r, k') ->
  Answer (QueryTestModule Base) n k = Some (Returned r, k').
Proof. intros E. cbn. unfold lift, bind. by rewrite E. Qed.

(** The query of the module with a response buffer of [n] bytes at [a]. *)
Lemma QueryRequest_answer h a n l Base ad w :
  Serves (kernel w) l Base ad -> 0 <= Base < 2 ^ 64 -> 4 <= n ->
  let fs := AdFixtures ad in
  exists m m', if n <? DescriptionSize fs then
      DeviceIoControl h (QueryTestModule Base) a n w = Some ((ERROR_MORE_DATA, 4, m'), Other m w) /\
      fetch 4 m' a = DescriptionSize fs
    else
      DeviceIoControl h (QueryTestModule Base) a n w = Some ((0, DescriptionSize fs, m'), Other m w) /\
      fetch 4 m' a = lenZ fs /\ FixturesAt m' a (4 + 4 * lenZ fs) 0 fs (DescriptionStruct fs).
Proof.
  intros [_ (Conn & c & a0 & HR & Had) Hok] HB Hn fs.
  pose proof (QueryModule_answer (kernel w) SysBuf n Base Conn c a0 ad HSys HB Hn HR Had Hok) as HQ. cbv zeta in HQ.
  fold fs in HQ. pose proof (Sum_nonneg StructCb fs StructCb_nonneg). pose proof (Sum_nonneg StringsCb fs StringsCb_nonneg).
  pose proof (lenZ_nonneg fs). pose proof (ad_size _ Hok) as Hsz. fold fs in Hsz.
  destruct (Z.ltb_spec n (DescriptionSize fs)) as [Hlt|Hge].
  - eexists. destruct (HDevice h (QueryTestModule Base) a n w STATUS_BUFFER_OVERFLOW 4 _ (lift_answer _ _ _ _ _ HQ))
      as (m' & E & HC); [by right|]. exists m'. rewrite HOverflow in E. split; [exact E|].
    rewrite <- (Z.add_0_r a), (fetch_Copied _ _ _ _ _ HC), Z.add_0_r by (simpl; lia).
    cbn [IoMemory set_IoMemory]. apply fetch_put_eq. change (256 ^ Z.of_nat 4) with (2 ^ 32).
    unfold DescriptionSize, DescriptionStruct in *. lia.
  - destruct HQ as (m & HQ & Hc & HF). exists m.
    destruct (HDevice h (QueryTestModule Base) a n w STATUS_SUCCESS (DescriptionSize fs) _ (lift_answer _ _ _ _ _ HQ))
      as (m' & E & HC); [by left|]. exists m'. rewrite HSuccess in E. split; [exact E|].
    destruct (FixturesAt_copied ad SysBuf m m' a HF HC) as [-> HF']. by rewrite Hc.
Qed.

Lemma Serves_Other l Base ad m w : Serves (kernel w) l Base ad -> Serves (kernel (Other m w)) l Base ad.
Proof. unfold Other. rewrite kernel_set. apply Serves_memory. Qed.

Lemma QuerySize_spec h l Base ad w :
  Serves (kernel w) l Base ad -> 0 < Base < 2 ^ 64 ->
  exists m, CfixklsQuerySizeForQueryModuleRequest Local_ h Base w =
    Some ((S_OK, DescriptionSize (AdFixtures ad)), Other m w).
Proof.
  intros HS HB. unfold CfixklsQuerySizeForQueryModuleRequest.
  rewrite bind_assert by (by rewrite (proj2 (Z.eqb_neq Base 0)) by lia).
  destruct (QueryRequest_answer h Local_ SIZEOF_QUERY_TEST_MODULE_RESPONSE l Base ad w HS) as (m & m' & HQ);
    [lia|unfold SIZEOF_QUERY_TEST_MODULE_RESPONSE; lia|]. exists m.
  destruct (Z.ltb_spec SIZEOF_QUERY_TEST_MODULE_RESPONSE (DescriptionSize (AdFixtures ad))) as [Hlt|Hge].
  - destruct HQ as [E Hf]. rewrite (bind_eq _ _ _ _ _ E). cbv beta iota. rewrite Hf. reflexivity.
  - destruct HQ as [E _]. rewrite (bind_eq _ _ _ _ _ E). cbv beta iota. cbn [Z.eqb]. unfold ret. do 3 f_equal.
    unfold DescriptionSize, DescriptionStruct, SIZEOF_QUERY_TEST_MODULE_RESPONSE in *.
    destruct (AdFixtures ad) as [|f fs]; [done|]. rewrite lenZ_cons in Hge. cbn [Sum foldr] in Hge.
    fold (Sum StructCb fs) in Hge. fold (Sum StringsCb fs) in Hge. pose proof (lenZ_nonneg fs).
    pose proof (Sum_nonneg StructCb fs StructCb_nonneg). pose proof (Sum_nonneg StringsCb fs StringsCb_nonneg).
    pose proof (StringsCb_nonneg f).
    assert (16 <= StructCb f) by (unfold StructCb, EntryCount; pose proof (lenZ_nonneg (KrEntries f)); lia). lia.
Qed.

Lemma QueryModule_spec h Path l Base ad w B :
  (String.length Path < MAX_PATH)%nat -> Serves (kernel w) l Base ad -> Named w l (PathStripPath Path) Base ->
  let fs := AdFixtures ad in
  exists m m2 b, b ∉ B /\ b <> 0 /\
    CfixklpQueryModule Malloc P PathStripPath Local_ h Path (MkCW B w) =
    Some (inr (Base, b, m2), MkCW (B ∪ {[b]}) (Other m w)) /\
    fetch 4 m2 b = lenZ fs /\ FixturesAt m2 b (4 + 4 * lenZ fs) 0 fs (DescriptionStruct fs).
Proof.
  intros HPath HS HN fs.
  assert (0 < Base < 2 ^ 64) as HB.
  { destruct HN as [Hin Hr _ _]. rewrite Forall_forall in Hr. apply (Hr _ Hin). }
  unfold CfixklpQueryModule. destruct (FindBase_spec h Path l Base ad w B HPath HS HN) as (m1 & E1).
  rewrite (bind_eq _ _ _ _ _ E1). cbn [fst snd]. change (FAILED S_OK) with false. cbv iota.
  destruct (QuerySize_spec h l Base ad (Other m1 w) (Serves_Other _ _ _ _ _ HS) HB) as (m2 & E2).
  rewrite bind_world. cbn [World Blocks]. rewrite E2. cbn [fst snd]. change (FAILED S_OK) with false. cbv iota.
  rewrite Other_Other. fold fs.
  destruct (malloc_eq Malloc HMalloc (DescriptionSize fs) (MkCW B (Other m2 w))) as (b & Hb & Hnz & Em).
  cbn [Blocks World] in *. rewrite (bind_eq _ _ _ _ _ Em), (proj2 (Z.eqb_neq _ _) Hnz).
  pose proof (Sum_nonneg StructCb fs StructCb_nonneg). pose proof (Sum_nonneg StringsCb fs StringsCb_nonneg).
  pose proof (lenZ_nonneg fs).
  destruct (QueryRequest_answer h b (DescriptionSize fs) l Base ad (Other m2 w) (Serves_Other _ _ _ _ _ HS))
    as (m3 & m' & HQ); [lia|unfold DescriptionSize, DescriptionStruct; lia|].
  fold fs in HQ. rewrite Z.ltb_irrefl in HQ. destruct HQ as (E3 & Hc & HF).
  rewrite bind_world. cbn [World Blocks]. rewrite E3, Other_Other. cbv beta iota. cbn [Z.eqb].
  rewrite bind_assert by (apply Z.eqb_refl). by exists m3, m', b.
Qed.

(** ** The module *)
Context (PathRemoveExtension : string -> string) {Laws : SystemLaws W}.
(** The handles of the client are not in the kernel's state. *)
Context (Handles_kept : forall k w, Services (set_kernel k w) = Services w /\ Files (set_kernel k w) = Files w).

Lemma bind_heap {A B} (m : ST (CW W) A) (k : A -> ST (KL W) B) s :
  bind (heap m) k s =
  match m (Heap s) with Some (a, h) => k a (MkKL h (KlModules s) (Cells s) (TlsPtr s)) | None => None end.
Proof. unfold bind, heap. by destruct (m (Heap s)) as [[a h]|]. Qed.

Lemma bind_sys {A B} (m : ST W A) (k : A -> ST (KL W) B) s :
  bind (sys m) k s =
  match m (World (Heap s)) with
  | Some (a, w) => k a (MkKL (MkCW (Blocks (Heap s)) w) (KlModules s) (Cells s) (TlsPtr s))
  | None => None
  end.
Proof. unfold sys. rewrite bind_heap. unfold world. by destruct (m (World (Heap s))) as [[a w]|]. Qed.

Lemma bind_load_module {A} a x (k : KL_MODULE -> ST (KL W) A) s :
  KlModules s !! a = Some x -> bind (load_module a) k s = k x s.
Proof. intros E. unfold bind, load_module. by rewrite E. Qed.

Lemma DeleteKlFixtures_eq (fs : list (Z * KL_FIXTURE)) : forall B (w : W),
  DeleteKlFixtures fs (MkCW B w) = Some (tt, MkCW (B ∖ list_to_set (fst <$> fs)) w).
Proof.
  induction fs as [|f fs IH]; intros B w.
  - cbn. unfold ret. apply Some_CW. set_solver.
  - cbn [DeleteKlFixtures]. unfold CfixklsDeleteFixture, free. rewrite bind_modify. cbn [Blocks World].
    rewrite IH. apply Some_CW. set_solver.
Qed.

(** The fixtures from a response, in blocks of their own, or the error of the first
    one that is refused, and the heap is as before. *)
Lemma LoadFixtures_spec m r ModName fs off str B (w : W) :
  Forall KrFixtureOk fs -> fetch 4 m r = lenZ fs -> FixturesAt m r off 0 fs str ->
  let x := KlFixturesOf ModName 0 fs in
  exists a bs, list_to_set (a :: bs) ## B /\ NoDup (a :: bs) /\ length bs = length (snd x) /\
    LoadFixtures Malloc P m r ModName (MkCW B w) =
    Some (if FAILED (fst x) then (inl (fst x), MkCW B w)
          else (inr (a, zip bs (snd x)), MkCW (B ∪ list_to_set (a :: bs)) w)).
Proof.
  intros Hok Hc HF x. unfold LoadFixtures. rewrite Hc.
  destruct (malloc_eq Malloc HMalloc (wrap (8 * P) (P * lenZ fs)) (MkCW B w)) as (a & Ha & Hnz & Em).
  cbn [Blocks World] in *. rewrite (bind_eq _ _ _ _ _ Em), (proj2 (Z.eqb_neq _ _) Hnz).
  assert (Z.to_nat (lenZ fs) = length fs) as -> by (unfold lenZ; lia).
  destruct (CreateFixtures_at P HP Malloc HMalloc m r ModName fs off 0 str (MkCW (B ∪ {[a]}) w) [] Hok HF)
    as (bs & Hnd & Hbs & Hl & E). cbn [Blocks World app] in *. fold x in Hl, E.
  rewrite (bind_eq _ _ _ _ _ E). cbn [fst snd]. rewrite Forall_forall in Hbs. exists a, bs. split_and!.
  - cbn. intros y Hy. apply elem_of_union in Hy as [->%elem_of_singleton|Hy]; [done|].
    apply elem_of_list_to_set in Hy. pose proof (Hbs y Hy). set_solver.
  - constructor; [|done]. intros Hin. pose proof (Hbs a Hin). set_solver.
  - done.
  - destruct (FAILED (fst x)).
    + rewrite (bind_eq _ _ _ _ _ (DeleteKlFixtures_eq _ _ _)), fst_zip by lia. unfold free. rewrite bind_modify.
      cbn [Blocks World]. unfold ret. apply Some_CW. apply set_eq. intros y.
      assert (y ∈ bs -> y ∉ B) by (intros Hin; pose proof (Hbs y Hin); set_solver). set_solver.
    + unfold ret. apply Some_CW. set_solver.
Qed.

(** A client state with one module in it; what holds of the rest. *)
Definition Client (B : gset Z) (w : W) (mods : gmap Z KL_MODULE) (s : KL W) : KL W :=
  MkKL (MkCW B w) mods (Cells s) (TlsPtr s).
Definition Contents (Base h : Z) (fs : option (Z * list (Z * KL_FIXTURE))) (x : KL_MODULE) : KL_MODULE :=
  set_Contents fs Base (set_Reflector h x).

Lemma InitializeModule_spec Path Module_ x0 h l Base ad B w w1 mods s :
  (String.length Path < MAX_PATH)%nat -> mods !! Module_ = Some x0 ->
  CreateFile w = Some (inr h, w1) -> Serves (kernel w1) l Base ad -> Named w1 l (PathStripPath Path) Base ->
  let x := KlFixturesOf (ModuleName (KmDriverName x0)) 0 (AdFixtures ad) in
  exists m a bs, list_to_set (a :: bs) ## B /\ NoDup (a :: bs) /\ length bs = length (snd x) /\
    CfixklsInitializeModule Malloc P PathStripPath Local_ Path Module_ (Client B w mods s) =
    Some (if FAILED (fst x)
          then (fst x, Client B (Other m w1) (<[Module_ := Contents Base h None x0]> mods) s)
          else (S_OK, Client (B ∪ list_to_set (a :: bs)) (Other m w1)
                        (<[Module_ := Contents Base h (Some (a, zip bs (snd x))) x0]> mods) s)).
Proof.
  intros HPath Hx0 EF HS HN x. unfold CfixklsInitializeModule. rewrite bind_sys. cbn [Client Heap World Blocks KlModules].
  rewrite EF. cbn [Heap World Blocks KlModules Cells TlsPtr].
  rewrite (bind_load_module Module_ x0) by done. unfold store_module at 1. rewrite bind_modify.
  cbn [Heap World Blocks KlModules Cells TlsPtr].
  destruct (QueryModule_spec h Path l Base ad w1 B HPath HS HN) as (m & m2 & b & Hb & Hnz & EQ & Hc & HF).
  rewrite bind_heap. cbn [Heap KlModules Cells TlsPtr]. rewrite EQ. cbv beta iota.
  rewrite bind_assert.
  2:{ destruct HN as [Hin Hr _ _]. rewrite Forall_forall in Hr. by rewrite (proj2 (Z.eqb_neq Base 0)) by (pose proof (Hr _ Hin); lia). }
  destruct (LoadFixtures_spec m2 b (ModuleName (KmDriverName x0)) (AdFixtures ad) _ _ (B ∪ {[b]}) (Other m w1)
    (ad_fixtures _ (srv_adapter _ _ _ _ HS)) Hc HF) as (a & bs & Hd & Hnd & Hl & EL). fold x in Hl, EL.
  exists m, a, bs. split_and!; [set_solver|done..|].
  rewrite bind_heap. cbn [Heap KlModules Cells TlsPtr]. rewrite EL.
  destruct (FAILED (fst x)); cbn [Heap KlModules Cells TlsPtr];
    rewrite (bind_load_module Module_ (set_Reflector h x0)) by (cbn; apply lookup_insert_eq);
    unfold store_module; rewrite bind_modify, bind_heap; cbn [Heap KlModules Cells TlsPtr];
    rewrite insert_insert_eq; unfold free, modify, ret, Client, Contents; cbn [Blocks World];
    do 3 f_equal; f_equal; set_solver.
Qed.

(** The blocks of the heap that a module owns besides its own. *)
Definition FixtureBlocks (o : option (Z * list (Z * KL_FIXTURE))) : gset Z :=
  match o with Some (a, fs) => {[a]} ∪ list_to_set (fst <$> fs) | None => ∅ end.

Lemma DeleteModule_spec Module_ x B w mods s :
  mods !! Module_ = Some x -> 0 < KmReflectorHandle x -> KmDriverHandle x <> 0 ->
  exists w', CfixklsDeleteModule Module_ (Client B w mods s) =
    Some (tt, Client (B ∖ FixtureBlocks (KmFixtures x) ∖ {[Module_]}) w' (delete Module_ mods) s) /\
    Services w' = Services w ∖ {[KmDriverHandle x]} /\ Files w' = Files w ∖ {[KmReflectorHandle x]}.
Proof.
  intros Hx Hh Hd. destruct (close_file (KmReflectorHandle x) w) as (b & w1 & E1 & HS1 & HF1).
  assert (exists w', Services w' = Services w1 ∖ {[KmDriverHandle x]} /\ Files w' = Files w1 /\
    forall B' (k : unit -> ST (KL W) unit),
    bind (if KmDriverLoaded x then
       sys (CfixklpStopDriverAndCloseHandle (KmDriverHandle x) (KmDriverInstalled x)) ;;; ret tt
     else sys (CloseServiceHandle (KmDriverHandle x)) ;;; ret tt) k (Client B' w1 mods s) =
    k tt (Client B' w' mods s)) as (w2 & HS2 & HF2 & E2).
  { destruct (KmDriverLoaded x).
    - destruct (StopDriver_runs (KmDriverHandle x) (KmDriverInstalled x) w1 _ _ (conj eq_refl eq_refl))
        as (Hr & w2 & E & [HS HF]). exists w2. split_and!; [done..|]. intros B' k.
      rewrite bind_assoc, bind_sys. cbn [Client Heap World]. rewrite E. by rewrite bind_ret.
    - destruct (close_service (KmDriverHandle x) w1) as (c & w2 & E & HS & HF). exists w2. split_and!; [done..|].
      intros B' k. rewrite bind_assoc, bind_sys. cbn [Client Heap World]. rewrite E. by rewrite bind_ret. }
  exists w2. split; [|split; congruence]. unfold CfixklsDeleteModule.
  rewrite (bind_load_module Module_ x) by done.
  assert (forall k : unit -> ST (KL W) unit,
    bind match KmFixtures x with
         | Some (a, fs) => heap (DeleteKlFixtures fs) ;;; heap (free a)
         | None => ret tt
         end k (Client B w mods s) = k tt (Client (B ∖ FixtureBlocks (KmFixtures x)) w mods s)) as ->.
  { intros k. destruct (KmFixtures x) as [[a fs]|]; cbn [FixtureBlocks].
    - rewrite bind_assoc, bind_heap. cbn [Client Heap]. rewrite DeleteKlFixtures_eq, bind_heap.
      cbn. unfold Client. do 3 f_equal. set_solver.
    - rewrite bind_ret. unfold Client. do 3 f_equal. set_solver. }
  unfold INVALID_HANDLE_VALUE. rewrite !(proj2 (Z.eqb_neq (KmReflectorHandle x) _)) by lia. cbn [negb andb when_].
  rewrite bind_assoc, bind_sys. cbn [Client Heap World Blocks KlModules]. rewrite E1, bind_ret.
  rewrite (proj2 (Z.eqb_neq _ _) Hd). cbn [negb when_]. cbn [Heap World Blocks KlModules Cells TlsPtr].
  change (MkKL (MkCW (B ∖ FixtureBlocks (KmFixtures x)) w1) mods _ _) with (Client (B ∖ FixtureBlocks (KmFixtures x)) w1 mods s). rewrite E2, bind_modify. reflexivity.
Qed.

Lemma DereferenceModule_last Module_ x B w mods s :
  mods !! Module_ = Some x -> KmReferences x = 1 -> 0 < KmReflectorHandle x -> KmDriverHandle x <> 0 ->
  exists w', CfixklsDereferenceModule Module_ (Client B w mods s) =
    Some (tt, Client (B ∖ FixtureBlocks (KmFixtures x) ∖ {[Module_]}) w' (delete Module_ mods) s) /\
    Services w' = Services w ∖ {[KmDriverHandle x]} /\ Files w' = Files w ∖ {[KmReflectorHandle x]}.
Proof.
  intros Hx Hr Hh Hd. set (y := set_KmReferences 0 x).
  destruct (DeleteModule_spec Module_ y B w (<[Module_ := y]> mods) s (lookup_insert_eq _ _ _) Hh Hd) as (w' & E & HH).
  exists w'. split; [|exact HH]. unfold CfixklsDereferenceModule. rewrite (bind_load_module Module_ x) by done.
  unfold store_module. rewrite bind_modify. cbn [Client Heap World Blocks KlModules Cells TlsPtr]. rewrite Hr.
  change (LONG (1 - 1)) with 0. fold y. cbn [Z.eqb]. rewrite delete_insert_eq in E. exact E.
Qed.

(** Everything the module needed has been given back. *)
Record Released (s s' : KL W) : Prop := {
  rel_blocks : Blocks (Heap s') = Blocks (Heap s);
  rel_modules : KlModules s' = KlModules s;
  rel_cells : Cells s' = Cells s /\ TlsPtr s' = TlsPtr s;
  rel_services : Services (World (Heap s')) = Services (World (Heap s));
  rel_files : Files (World (Heap s')) = Files (World (Heap s)) }.

(** The object once its driver and the device are open, and the handles. *)
Lemma PrepareModule_spec Path Name Module_ s B w mods Hr1 w1 r w2 h w3 l Base ad :
  (String.length Path < MAX_PATH)%nat ->
  CfixklsGetDriverNameFromPath PathStripPath PathRemoveExtension Path 100 = inr Name ->
  mods !! Module_ = Some EmptyModule ->
  CfixklpStartCfixKernelReflector w = Some (Hr1, w1) ->
  FAILED Hr1 = false \/ Hr1 = HRESULT_FROM_WIN32 ERROR_SERVICE_ALREADY_RUNNING ->
  CfixklpStartDriver Path Name Name w1 = Some (r, w2) -> FAILED (StartHr r) = false ->
  CreateFile w2 = Some (inr h, w3) -> Serves (kernel w3) l Base ad -> Named w3 l (PathStripPath Path) Base ->
  let x := KlFixturesOf (ModuleName Name) 0 (AdFixtures ad) in
  exists m a bs, list_to_set (a :: bs) ## B /\ NoDup (a :: bs) /\ length bs = length (snd x) /\
    PrepareModule Malloc P PathStripPath PathRemoveExtension Local_ Path Module_ (Client B w mods s) =
    Some (if FAILED (fst x)
          then (fst x, Client B (Other m w3) (<[Module_ :=
                 MkKlModule None 0 (DriverHandle r) (Installed r) (Loaded r) Name Base h]> mods) s)
          else (S_OK, Client (B ∪ list_to_set (a :: bs)) (Other m w3) (<[Module_ :=
                 MkKlModule (Some (a, zip bs (snd x))) 1 (DriverHandle r) (Installed r) (Loaded r) Name Base h]> mods) s)).
Proof.
  intros HPath HName HM E1 H1 E2 H2 E3 HS HN x. unfold PrepareModule. rewrite HName.
  rewrite (bind_load_module Module_ EmptyModule) by done. unfold store_module at 1. rewrite bind_modify, bind_sys.
  cbn [Client Heap World Blocks KlModules Cells TlsPtr]. rewrite E1.
  assert (negb (HRESULT_FROM_WIN32 ERROR_SERVICE_ALREADY_RUNNING =? Hr1) && FAILED Hr1 = false) as ->.
  { destruct H1 as [-> | ->]; [by rewrite andb_false_r|by rewrite Z.eqb_refl]. }
  rewrite bind_sys. cbn [Client Heap World Blocks KlModules Cells TlsPtr]. rewrite E2.
  cbn [Heap World Blocks KlModules Cells TlsPtr].
  rewrite (bind_load_module Module_ (set_Name Name EmptyModule)) by (cbn; apply lookup_insert_eq).
  unfold store_module at 1. rewrite bind_modify, H2. cbn [Heap World Blocks KlModules Cells TlsPtr].
  rewrite insert_insert_eq. set (x0 := set_Driver _ _ _ _).
  destruct (InitializeModule_spec Path Module_ x0 h l Base ad B w2 w3 (<[Module_ := x0]> mods) s HPath
    (lookup_insert_eq _ _ _) E3 HS HN) as (m & a & bs & Hd & Hnd & Hl & EI).
  change (KmDriverName x0) with Name in Hl, EI. fold x in Hl, EI. rewrite !insert_insert_eq in EI.
  exists m, a, bs. split_and!; [done..|].
  change (MkKL (MkCW B w2) _ _ _) with (Client B w2 (<[Module_ := x0]> mods) s).
  destruct (FAILED (fst x)) eqn:EF; rewrite (bind_eq _ _ _ _ _ EI); cbn [fst snd].
  - rewrite EF. reflexivity.
  - change (FAILED S_OK) with false. cbv iota.
    rewrite (bind_load_module Module_ (Contents Base h (Some (a, zip bs (snd x))) x0)) by (cbn; apply lookup_insert_eq).
    unfold store_module. rewrite bind_modify. cbn [Client Heap World Blocks KlModules Cells TlsPtr].
    by rewrite insert_insert_eq.
Qed.

Lemma open_handles Path Name w Hr1 w1 r w2 h w3 :
  CfixklpStartCfixKernelReflector w = Some (Hr1, w1) ->
  CfixklpStartDriver Path Name Name w1 = Some (r, w2) -> FAILED (StartHr r) = false ->
  CreateFile w2 = Some (inr h, w3) ->
  DriverHandle r <> 0 /\ 0 < h /\
  Services w3 ∖ {[DriverHandle r]} = Services w /\ Files w3 ∖ {[h]} = Files w.
Proof.
  intros E1 E2 H2 E3.
  destruct (StartReflector_runs w _ _ (conj eq_refl eq_refl)) as (? & ? & E1' & [HS1 HF1]). rewrite E1 in E1'.
  injection E1' as <- <-.
  destruct (StartDriver_runs Path Name Name w1 _ _ (conj eq_refl eq_refl)) as (? & ? & E2' & HR). rewrite E2 in E2'.
  injection E2' as <- <-. rewrite H2 in HR. destruct HR as (_ & Hd & Hn & [HS2 HF2]).
  destruct (file_opens w2) as (? & ? & E3' & HS3 & Hh). rewrite E3 in E3'. injection E3' as <- <-.
  destruct Hh as (Hpos & Hf & HF3). rewrite HS1 in *. rewrite HF1 in *.
  split_and!; [done..| |]; [rewrite HS3, HS2|rewrite HF3, HF2]; set_solver.
Qed.

(** C14. The life of a kernel mode test module: the driver's service and the reflector's
    device are opened, the module is found among the registered drivers by the name
    of its image, its description is fetched through the device, and the module has
    the fixtures that the driver registered; if one of them is refused, the creation
    fails with its error and everything is given back, as it is after the last
    reference to the module is released. *)
Theorem driver_module_life Path Name s Hr1 w1 r w2 h w3 l Base ad :
  (forall a, a ∉ Blocks (Heap s) -> KlModules s !! a = None) ->
  (String.length Path < MAX_PATH)%nat ->
  CfixklsGetDriverNameFromPath PathStripPath PathRemoveExtension Path 100 = inr Name ->
  CfixklpStartCfixKernelReflector (World (Heap s)) = Some (Hr1, w1) ->
  FAILED Hr1 = false \/ Hr1 = HRESULT_FROM_WIN32 ERROR_SERVICE_ALREADY_RUNNING ->
  CfixklpStartDriver Path Name Name w1 = Some (r, w2) -> FAILED (StartHr r) = false ->
  CreateFile w2 = Some (inr h, w3) -> Serves (kernel w3) l Base ad -> Named w3 l (PathStripPath Path) Base ->
  let x := KlFixturesOf (ModuleName Name) 0 (AdFixtures ad) in
  exists Hr M s1,
    CfixklCreateTestModuleFromDriver Malloc P PathStripPath PathRemoveExtension Local_ Path s = Some ((Hr, M), s1) /\
    if FAILED (fst x) then Hr = fst x /\ M = 0 /\ Released s s1
    else
      Hr = S_OK /\
      (exists a bs, NoDup (M :: a :: bs) /\ length bs = length (snd x) /\
        Blocks (Heap s1) = Blocks (Heap s) ∪ list_to_set (M :: a :: bs) /\
        KlModules s1 = <[M := MkKlModule (Some (a, zip bs (snd x))) 1 (DriverHandle r) (Installed r) (Loaded r)
                                Name Base h]> (KlModules s)) /\
      exists s2, CfixklsDereferenceModule M s1 = Some (tt, s2) /\ Released s s2.
Proof.
  intros HM HPath HName E1 H1 E2 H2 E3 HS HN x.
  destruct (open_handles _ _ _ _ _ _ _ _ _ E1 E2 H2 E3) as (Hd & Hh & HSv & HFl).
  destruct (malloc_eq Malloc HMalloc SIZEOF_MODULE (Heap s)) as (M & HMB & HM0 & Em).
  set (mods := <[M := EmptyModule]> (KlModules s)).
  assert (forall y, delete M (<[M := y]> mods) = KlModules s) as Hmods.
  { intros y. unfold mods. rewrite insert_insert_eq. apply delete_insert_id. by apply HM. }
  destruct (PrepareModule_spec Path Name M s (Blocks (Heap s) ∪ {[M]}) (World (Heap s)) mods Hr1 w1 r w2 h w3 l Base ad
    HPath HName (lookup_insert_eq _ _ _) E1 H1 E2 H2 E3 HS HN) as (m & a & bs & Hdis & Hnd & Hl & EP).
  fold x in Hl, EP. destruct (Handles_kept (set_IoMemory m (kernel w3)) w3) as [HSk HFk]. fold (Other m w3) in HSk, HFk.
  unfold CfixklCreateTestModuleFromDriver. rewrite bind_heap, Em. cbn [Heap World Blocks KlModules Cells TlsPtr].
  rewrite (proj2 (Z.eqb_neq _ _) HM0). unfold store_module. rewrite bind_modify.
  cbn [Heap World Blocks KlModules Cells TlsPtr]. fold mods.
  change (MkKL _ mods _ _) with (Client (Blocks (Heap s) ∪ {[M]}) (World (Heap s)) mods s).
  destruct (FAILED (fst x)) eqn:EF; rewrite (bind_eq _ _ _ _ _ EP).
  - destruct (DeleteModule_spec M _ (Blocks (Heap s) ∪ {[M]}) (Other m w3) _ s (lookup_insert_eq mods M
      (MkKlModule None 0 (DriverHandle r) (Installed r) (Loaded r) Name Base h)) Hh Hd) as (w' & ED & HS' & HF').
    rewrite EF, (bind_eq _ _ _ _ _ ED), Hmods. do 3 eexists. split; [reflexivity|]. split_and!; [done..|].
    cbn [FixtureBlocks KmFixtures KmDriverHandle KmReflectorHandle] in *.
    split; cbn [Client Heap Blocks World KlModules Cells TlsPtr]; [clear -HMB Hdis; set_solver|done..|by rewrite HS', HSk|by rewrite HF', HFk].
  - change (FAILED S_OK) with false. cbv iota. do 3 eexists. split; [reflexivity|]. split_and!; [done| |].
    + exists a, bs. split_and!; [|done| |].
      * constructor; [|done]. intros Hin. apply (elem_of_list_to_set (C := gset Z)) in Hin. clear -Hin Hdis. set_solver.
      * cbn [Client Heap Blocks]. clear. set_solver.
      * cbn [Client KlModules]. unfold mods. by rewrite insert_insert_eq.
    + set (y := MkKlModule _ _ _ _ _ _ _ _).
      destruct (DereferenceModule_last M y (Blocks (Heap s) ∪ {[M]} ∪ list_to_set (a :: bs)) (Other m w3) (<[M := y]> mods) s
        (lookup_insert_eq mods M y) eq_refl Hh Hd) as (w' & ED & HS' & HF').
      rewrite Hmods in ED. eexists. split; [exact ED|].
      subst y. cbn [FixtureBlocks KmFixtures KmDriverHandle KmReflectorHandle] in *. rewrite fst_zip by lia.
      split; cbn [Client Heap Blocks World KlModules Cells TlsPtr]; [clear -HMB Hdis; set_solver|done..|by rewrite HS', HSk|by rewrite HF', HFk].
Qed.
End queries.

Module Demo.
(** A client on a machine on which the driver is installed already, and two drivers
    are registered with the reflector. *)
Record PC := MkPc { Svc : gset Z; Fil : gset Z; Kernel : KW }.
Definition set_kernel (k : KW) (w : PC) : PC := MkPc (Svc w) (Fil w) k.

Definition Order (r : gmap Z (Z * Z)) : list Z := map fst (map_to_list r).
Definition SysBuf : Z := 0x20000.
Definition ErrorOf (Status : Z) : Z := if Status =? STATUS_SUCCESS then 0 else ERROR_MORE_DATA.

Definition Answer_ : REQUEST -> Z -> KW -> option (OUT (Z * Z) * KW) :=
  Answer 8 KrStubs.Demo.Pool 7 KrStubs.Demo.Code KrStubs.Demo.RecordOf (fun _ => ret 0) Order 0x9000 0x9100 SysBuf.

Definition CopyOut (a : Z) (m : Memory) : Memory := fun i => m (SysBuf + (i - a)).

Definition Device (rq : REQUEST) (a n : Z) : ST PC (Z * Z * Memory) := fun w =>
  match Answer_ rq n (Kernel w) with
  | Some (Returned (Status, Bytes), k) => Some ((ErrorOf Status, Bytes, CopyOut a (IoMemory k)), set_kernel k w)
  | _ => None
  end.

Definition OpenSvc : ST PC (Z + Z) := fun x =>
  Some (inr (NextBlock (Svc x)), MkPc (Svc x ∪ {[NextBlock (Svc x)]}) (Fil x) (Kernel x)).
Definition OpenFil : ST PC (Z + Z) := fun x =>
  Some (inr (NextBlock (Fil x)), MkPc (Svc x) (Fil x ∪ {[NextBlock (Fil x)]}) (Kernel x)).

#[local] Instance system : System PC := {
  GetFullPathName p := ret (inr p);
  FileExists _ := ret true;
  OpenSCManager := OpenSvc;
  CreateService _ _ _ _ := OpenSvc;
  OpenService _ _ := OpenSvc;
  StartService _ := ret 0;
  StopService _ := ret 0;
  DeleteService _ := ret 0;
  CloseServiceHandle h := fun x => Some (true, MkPc (Svc x ∖ {[h]}) (Fil x) (Kernel x));
  GetModuleFileName := ret (inr "C:\cfix\cfixkl.dll"%string);
  NativeArchitecture := ret PROCESSOR_ARCHITECTURE_AMD64;
  PathRemoveFileSpec _ := Some "C:\cfix"%string;
  PathCombine a b := Some (a +:+ "\" +:+ b)%string;
  CreateFile := OpenFil;
  CloseHandle h := fun x => Some (true, MkPc (Svc x) (Fil x ∖ {[h]}) (Kernel x));
  DeviceIoControl _ := Device;
  GetDeviceDriverBaseName a := ret (inr (if a =? 0x80400000 then "driver.sys"%string else "other.sys"%string)) }.

#[local] Instance laws : SystemLaws PC.
Proof.
  refine (MkLaws PC system Svc Fil _ _ _ _ _ _ _ _ _ _ _ _ _ _);
    try (intros; intros x; do 2 eexists; done); try (intros; do 2 eexists; done);
    intros; intros x; (do 2 eexists; split; [reflexivity|]); pose proof (NextBlock_fresh (Svc x)) as [? ?];
    pose proof (KlDriver.Demo.NextBlock_pos (Fil x)); pose proof (NextBlock_fresh (Fil x)) as [? ?]; done.
Defined.

Definition connection : CFIXKRP_DRIVER_CONNECTION :=
  MkConnection 0x80400000 1 1 (Some O) (Some (0x110, KlFixture.Demo.adapter)) (Some (0x120, ∅)).
Definition registered : KW :=
  MkKW {[0x100; 0x110; 0x120; 0x130]} (fun _ => 0) {[0x5000 := connection; 0x6000 := KrStubs.Demo.connection]}
    (Some (0x130, {[0x80400000 := (0x140, 0x5000); 0x80500000 := (0x150, 0x6000)]})) false ∅ ∅ PASSIVE_LEVEL.
Definition machine : PC := MkPc ∅ ∅ registered.
Definition strip (p : string) : string := String.substring 3 (String.length p) p.
Definition stem (p : string) : string := String.substring 0 (String.length p - 4) p.

Lemma device_buffered :
  BufferedDevice Kernel set_kernel 8 KrStubs.Demo.Pool 7 KrStubs.Demo.Code KrStubs.Demo.RecordOf (fun _ => ret 0)
    Order 0x9000 0x9100 SysBuf ErrorOf.
Proof.
  intros h rq a n w Status Bytes k E HS. exists (CopyOut a (IoMemory k)). split.
  - change (Device rq a n w = Some ((ErrorOf Status, Bytes, CopyOut a (IoMemory k)), set_kernel k w)).
    unfold Device, Answer_. by rewrite E.
  - intros i Hi. unfold CopyOut. f_equal. lia.
Defined.

Lemma serves : Serves Order registered [0x80500000; 0x80400000] 0x80400000 KlFixture.Demo.adapter.
Proof.
  split; [by do 2 eexists| |exact KlFixture.Demo.adapter_ok].
  exists 0x5000, connection, 0x110. split; [|reflexivity]. split; [by repeat eexists|reflexivity|simpl; lia].
Defined.

Lemma named w : Named 8 set_kernel w [0x80500000; 0x80400000] "driver.sys" 0x80400000.
Proof.
  split; [right; left|repeat constructor; lia|by vm_compute|].
  intros x Hx. apply elem_of_cons in Hx as [-> |[-> |Hx]%elem_of_cons].
  - exists "other.sys"%string. split; [by vm_compute|done].
  - exists "driver.sys"%string. split; [by vm_compute|done].
  - by apply elem_of_nil in Hx.
Defined.

Lemma kept k w : Services (set_kernel k w) = Services w /\ Files (set_kernel k w) = Files w.
Proof. split; reflexivity. Defined.

(** The module has both fixtures of the driver, and is gone after the release. *)
Lemma driver_module_life_witness :
  exists s1 s2 M, let s := MkKL (MkCW ∅ machine) ∅ ∅ 0 in
    CfixklCreateTestModuleFromDriver (fun B _ => NextBlock B) 8 strip stem 0x700 "C:\driver.sys" s = Some ((S_OK, M), s1) /\
    (exists x, KlModules s1 !! M = Some x /\ KmDriverName x = "cfixkr_driver"%string /\
      map (fun f => FxName (KfBase (snd f))) (from_option snd [] (KmFixtures x)) = ["Empty"; "Suite"]%string) /\
    CfixklsDereferenceModule M s1 = Some (tt, s2) /\ Released s s2.
Proof.
  edestruct (driver_module_life 8 ltac:(by right) (fun B _ => NextBlock B) (fun B _ => NextBlock_fresh B) strip 0x700
    Kernel set_kernel (fun _ _ => eq_refl) (fun _ _ _ => eq_refl) 8 KrStubs.Demo.Pool 7 KrStubs.Demo.Code
    KrStubs.Demo.RecordOf (fun _ => ret 0) Order 0x9000 0x9100 SysBuf ErrorOf device_buffered ltac:(done) eq_refl eq_refl
    stem kept "C:\driver.sys" "cfixkr_driver" (MkKL (MkCW ∅ machine) ∅ ∅ 0))
    as (Hr & M & s1 & E & H).
  - intros a Ha. apply lookup_empty.
  - vm_compute. lia.
  - reflexivity.
  - vm_compute. reflexivity.
  - left. reflexivity.
  - vm_compute. reflexivity.
  - reflexivity.
  - vm_compute. reflexivity.
  - exact serves.
  - apply named.
  - destruct H as (-> & (a & bs & _ & Hl & _ & Hm) & s2 & Ed & HR). exists s1, s2, M. split; [exact E|].
    split; [|split; [exact Ed|exact HR]]. eexists. split; [rewrite Hm; apply lookup_insert_eq|]. split; [reflexivity|].
    cbn [KmFixtures from_option snd]. destruct bs as [|b1 [|b2 [|]]]; try (vm_compute in Hl; discriminate Hl). vm_compute. reflexivity.
Defined.
End Demo.
