(* ===== verification/Formatter.v ===== *)
(** * The event formatter (cdiag/formatter.c)

    A formatter turns an event packet into text: the fields of the packet become
    the values of the template's variables (FormatStr), directly or through a
    translation; a message that is not in the packet comes from the resolver.  The
    theorem is that the text is the template with the fields of the event, and that
    the buffers the translations need are released. *)
From stdpp Require Import base gmap list strings.
From Stdlib Require Import ZArith Lia Ascii.
From S2P Require Import Session MsgResolver Prelude IoBuffer FormatStr.

Local Open Scope Z_scope.
Local Open Scope cfix_scope.

(** A string literal. *)
Definition L (s : string) : list Z := (fun c => Z.of_N (N_of_ascii c)) <$> String.list_ascii_of_string s.

(* src/include/cdiag.h:569-582 (CDIAG_EVENT_TYPE) *)
Definition CdiagMaxEvent : Z := 5.
(* src/include/cdiag.h:584-593 (CDIAG_SEVERITY_LEVEL) *)
Definition CdiagMaxSeverity : Z := 5.
(* src/include/cdiag.h:642-647 (CDIAG_PROCESSOR_MODE) *)
Definition CdiagMaxMode : Z := 1.
(* src/include/cdiag.h:597-597 (CDIAG_EVENT_PACKET_MAX_INSERTION_STRINGS) *)
Definition CDIAG_EVENT_PACKET_MAX_INSERTION_STRINGS : Z := 16.
Definition SIZEOF_EVENT_PACKET : Z := 64.
(* src/include/cdiag.h:758-761 (CdiagsIsValidEventPacket) *)
Definition CdiagsIsValidEventPacket (m : Memory) (pkt : Z) : bool :=
  negb (pkt =? 0) && (fetch 2 m pkt =? SIZEOF_EVENT_PACKET) && (fetch 2 m pkt <=? fetch 2 m (pkt + 2)).

(** ** Terminated strings

    [None] if there is no terminator among the first [n] characters. *)
Fixpoint wcs (m : Memory) (p : Z) (n : nat) : option (list Z) :=
  match n with
  | O => None
  | S n =>
      let c := fetch 2 m p in
      if c =? 0 then Some []
      else match wcs m (p + 2) n with Some s => Some (c :: s) | None => None end
  end.

(** More characters than there are in any packet. *)
Definition MAX_STRING : nat := Z.to_nat 0x10000.

Definition store_wcs (m : Memory) (p : Z) (s : list Z) : Memory := put_array 2 m p (s ++ [0]).

(** ** [_snwprintf] for the formats of the variables *)
Fixpoint decimal_digits (fuel : nat) (v : Z) (acc : list Z) : list Z :=
  match fuel with
  | O => acc
  | S fuel =>
      let acc := 48 + v mod 10 :: acc in
      if v / 10 =? 0 then acc else decimal_digits fuel (v / 10) acc
  end.
(** A DWORD has at most ten digits. *)
Definition decimal (v : Z) : list Z := decimal_digits 10 v [].

Definition hex_char (d : Z) : Z := if d <? 10 then 48 + d else 55 + d.
Fixpoint hex_digits (n : nat) (v : Z) (acc : list Z) : list Z :=
  match n with O => acc | S n => hex_digits n (v / 16) (hex_char (v mod 16) :: acc) end.
Definition hex (width : nat) (v : Z) : list Z :=
  hex_digits (Nat.max width (Z.to_nat (Z.log2 v / 4 + 1))) v [].

Definition Printf (m : Memory) (format : list Z) (arg : Z) : option (list Z) :=
  if decide (format = L "%s") then if arg =? 0 then Some (L "(null)") else wcs m arg MAX_STRING
  else if decide (format = L "%u") then Some (decimal (ULONG arg))
  else if decide (format = L "0x%04X") then Some (L "0x" ++ hex 4 (ULONG arg))
  else if decide (format = L "0x%08X") then Some (L "0x" ++ hex 8 (ULONG arg))
  else None.

(** ** Variables and bindings *)
(* src/cdiag/cdiag/formatter.c:161-167 (BINDING_FIELD_TYPE) *)
Inductive BINDING_FIELD_TYPE := PwstrType | WordType | DwordType | SpecialType.

(** The routines that translate a value. *)
Inductive TRANSLATE_ROUTINE := TranslateEventType | TranslateSeverity | TranslateProcessorMode | TranslateTimestamp.

(* src/cdiag/cdiag/formatter.c:169-204 (BINDING_DEFINITION) *)
Record BINDING_DEFINITION := MkBinding {
  StructOffset : Z;
  Type_ : BINDING_FIELD_TYPE;
  IsOffset : bool;
  OffsetWithinStruct : Z;
  OffsetWithinStructIsOffset : bool;
  TranslateRoutine : option TRANSLATE_ROUTINE }.

Definition Var (n f : string) : FORMAT_VARIABLE := {| Name := L n; Format := L f |}.

(* src/cdiag/cdiag/formatter.c:321-337 (CdiagsEventPacketVariables) *)
Definition CdiagsEventPacketVariables : list FORMAT_VARIABLE :=
  [ Var "Message" "%s"; Var "Type" "%s"; Var "Flags" "0x%04X"; Var "Severity" "%s"; Var "ProcessorMode" "%s";
    Var "Machine" "%s"; Var "ProcessId" "%u"; Var "ThreadId" "%u"; Var "Timestamp" "%s"; Var "Code" "0x%08X";
    Var "Module" "%s"; Var "Function" "%s"; Var "File" "%s"; Var "Line" "%u" ].

(** The offsets are those of CDIAG_EVENT_PACKET and CDIAG_DEBUG_INFO. *)
(* src/cdiag/cdiag/formatter.c:339-355 (CdiagsEventPacketBindings) *)
Definition CdiagsEventPacketBindings : list BINDING_DEFINITION :=
  [ MkBinding 40 PwstrType true 0 false None;
    MkBinding 4 SpecialType false 0 false (Some TranslateEventType);
    MkBinding 12 WordType false 0 false None;
    MkBinding 14 SpecialType false 0 false (Some TranslateSeverity);
    MkBinding 15 SpecialType false 0 false (Some TranslateProcessorMode);
    MkBinding 16 PwstrType true 0 false None;
    MkBinding 20 DwordType false 0 false None;
    MkBinding 24 DwordType false 0 false None;
    MkBinding 28 SpecialType false 0 false (Some TranslateTimestamp);
    MkBinding 36 DwordType false 0 false None;
    MkBinding 44 PwstrType true 4 true None;
    MkBinding 44 PwstrType true 8 true None;
    MkBinding 44 PwstrType true 12 true None;
    MkBinding 44 DwordType true 16 false None ].

(** ** The formatter *)
(* src/cdiag/cdiag/formatter.c:40-58 (CDIAGP_FORMATTER) *)
Record FORMATTER := MkFormatter {
  FmtReferenceCount : Z;
  FormatTemplate : list Z;
  FmtResolver : Z;
  ResolvingFlags : Z }.

(** The memory with the packets, the blocks of the heap, the formatters by address,
    and the resolvers. *)
Record FW (R : Type) := MkFW {
  FmMem : Memory;
  FmBlocks : gset Z;
  Formatters : gmap Z FORMATTER;
  Resolvers : R }.
Arguments MkFW {R}. Arguments FmMem {R}. Arguments FmBlocks {R}. Arguments Formatters {R}. Arguments Resolvers {R}.

Definition MAX_CAPTION_CCH : Z := 64.
Definition RESOLVER_BUFFER_CCH : nat := 1024.

Section formatter.
Context {R : Type}.
(** The heap; the character classes of the locale. *)
Variable HeapAlloc : gset Z -> Z -> Z.
Variables (towlower : Z -> Z) (iswalnum : Z -> bool).
(** String resources: the characters, fewer than the buffer has; none if missing. *)
Variable LoadString : Z -> option (list Z).
(** A file time, as a 64 bit integer, and a system time. *)
Context {SYSTEMTIME : Type}.
Variable FileTimeToLocalFileTime : Z -> option Z.
Variable FileTimeToSystemTime : Z -> option SYSTEMTIME.
(** The text for a time and a buffer (or NULL) of so many characters. *)
Variable GetTimeFormat : SYSTEMTIME -> Z -> Z -> option (list Z).
(** What is in the local variables before they are assigned. *)
Variables (Time0 : Z) (SystemTime0 : SYSTEMTIME).
(** The static arrays of captions, and a buffer on the stack. *)
Variables CdiagsEventTypeCaptions CdiagsSeverityCaptions CdiagsProcModeCaptions ResolverBuffer : Z.
(** The resolvers: resolver, message, flags, insertion strings, buffer. *)
Variable ResolveMessage : Z -> Z -> Z -> option (list (list Z)) -> option (list Z) -> ST R (Z * list Z).
Variables ReferenceResolver DereferenceResolver : Z -> ST R unit.

Local Abbreviation M := (ST (FW R)).

Definition set_FmMem (m : Memory) (s : FW R) : FW R := MkFW m (FmBlocks s) (Formatters s) (Resolvers s).
Definition set_FmBlocks (B : gset Z) (s : FW R) : FW R := MkFW (FmMem s) B (Formatters s) (Resolvers s).
Definition set_Formatters (F : gmap Z FORMATTER) (s : FW R) : FW R := MkFW (FmMem s) (FmBlocks s) F (Resolvers s).

Definition resolvers {A} (x : ST R A) : M A := fun s =>
  match x (Resolvers s) with
  | Some (a, r) => Some (a, MkFW (FmMem s) (FmBlocks s) (Formatters s) r)
  | None => None
  end.

(* src/cdiag/cdiag/memalloc.c:53-64 (CdiagpMalloc) *)
Definition CdiagpMalloc (n : Z) : M Z := fun s =>
  let a := HeapAlloc (FmBlocks s) n in
  Some (a, if a =? 0 then s else set_FmBlocks (FmBlocks s ∪ {[a]}) s).
(* src/cdiag/cdiag/memalloc.c:66-71 (CdiagpFree) *)
Definition CdiagpFree (a : Z) : M unit := modify (fun s => set_FmBlocks (FmBlocks s ∖ {[a]}) s).

(** *** Captions *)
Definition Row (Base Index : Z) : Z := Base + 2 * MAX_CAPTION_CCH * Index.

(** Captions from [Index] on; a missing one is made up, in the array [Other]. *)
(* src/cdiag/cdiag/formatter.c:92-107 (CdiagpInitializeFormatter) *)
Fixpoint LoadCaptions (Ids Base Other : Z) (Word : string) (n : nat) (Index : Z) (m : Memory) : Memory :=
  match n with
  | O => m
  | S n =>
      LoadCaptions Ids Base Other Word n (Index + 1)
        (match LoadString (Ids + Index) with
         | Some s => store_wcs m (Row Base Index) s
         | None => store_wcs m (Row Other Index) (L Word ++ decimal Index)
         end)
  end.

(* src/cdiag/cdiag/formatter.c:85-148 (CdiagpInitializeFormatter) *)
Definition CdiagpInitializeFormatter (m : Memory) : Memory :=
  let m := LoadCaptions 200 CdiagsEventTypeCaptions CdiagsEventTypeCaptions "Type "
             (Z.to_nat (CdiagMaxEvent + 1)) 0 m in
  let m := LoadCaptions 100 CdiagsSeverityCaptions CdiagsSeverityCaptions "Severity "
             (Z.to_nat (CdiagMaxSeverity + 1)) 0 m in
  LoadCaptions 300 CdiagsProcModeCaptions CdiagsSeverityCaptions "Mode " (Z.to_nat (CdiagMaxMode + 1)) 0 m.

(** *** Translations: the value, and whether it must be freed *)
Definition Caption (Base Value Max : Z) : Z := if Value <=? Max then Row Base Value else 0.

(* src/cdiag/cdiag/formatter.c:206-222 (CdiagsTranslateEventType) *)
Definition CdiagsTranslateEventType (ValuePtr : Z) : M (Z * bool) :=
  m <- gets FmMem ;; ret (Caption CdiagsEventTypeCaptions (fetch 4 m ValuePtr) CdiagMaxEvent, false).
(* src/cdiag/cdiag/formatter.c:224-240 (CdiagsTranslateSeverity) *)
Definition CdiagsTranslateSeverity (ValuePtr : Z) : M (Z * bool) :=
  m <- gets FmMem ;; ret (Caption CdiagsSeverityCaptions (fetch 1 m ValuePtr) CdiagMaxSeverity, false).
(* src/cdiag/cdiag/formatter.c:242-258 (CdiagsTranslateProcessorMode) *)
Definition CdiagsTranslateProcessorMode (ValuePtr : Z) : M (Z * bool) :=
  m <- gets FmMem ;; ret (Caption CdiagsProcModeCaptions (fetch 1 m ValuePtr) CdiagMaxMode, false).

(** The block has 100 bytes, [GetTimeFormat] is told 100 characters; a failed
    conversion is noted and the routine goes on. *)
(* src/cdiag/cdiag/formatter.c:260-314 (CdiagsTranslateTimestamp) *)
Definition CdiagsTranslateTimestamp (ValuePtr : Z) : M (Z * bool) :=
  m <- gets FmMem ;;
  let LocalTime := default Time0 (FileTimeToLocalFileTime (fetch 8 m ValuePtr)) in
  let LocalSystemTime := default SystemTime0 (FileTimeToSystemTime LocalTime) in
  Buffer <- CdiagpMalloc 100 ;;
  match GetTimeFormat LocalSystemTime Buffer 100 with
  | Some text =>
      assert_ (negb (Buffer =? 0) && (2 * (lenZ text + 1) <=? 100)) ;;;
      modify (set_FmMem (store_wcs m Buffer text)) ;;;
      ret (Buffer, true)
  | None =>
      when_ (negb (Buffer =? 0)) (CdiagpFree Buffer) ;;;
      ret (0, false)
  end.

Definition Translate (t : TRANSLATE_ROUTINE) : Z -> M (Z * bool) :=
  match t with
  | TranslateEventType => CdiagsTranslateEventType
  | TranslateSeverity => CdiagsTranslateSeverity
  | TranslateProcessorMode => CdiagsTranslateProcessorMode
  | TranslateTimestamp => CdiagsTranslateTimestamp
  end.

(** *** Formatting

    Where the value of a variable is: an address, or NULL. *)
(* src/cdiag/cdiag/formatter.c:396-471 (CdiagsFormat) *)
Definition FieldPtr (m : Memory) (EventPkt : Z) (b : BINDING_DEFINITION) : Z :=
  let Field := EventPkt + StructOffset b in
  if IsOffset b then
    let Offset := fetch 4 m Field in
    if negb (Offset =? 0) then
      let Struct := EventPkt + Offset in
      if negb (OffsetWithinStruct b =? 0) then
        if negb (Struct =? 0) then
          let Field := Struct + OffsetWithinStruct b in
          if OffsetWithinStructIsOffset b then
            if negb (fetch 4 m Field =? 0) then Struct + fetch 4 m Field else 0
          else Field
        else 0
      else Struct
    else 0
  else Field.

(** A binding, and whether it must be freed. *)
(* src/cdiag/cdiag/formatter.c:474-511 (CdiagsFormat) *)
Definition PrepareBinding (EventPkt : Z) (b : BINDING_DEFINITION) : M (Z * bool) :=
  m <- gets FmMem ;;
  let p := FieldPtr m EventPkt b in
  match TranslateRoutine b with
  | Some t => Translate t p
  | None =>
      if p =? 0 then ret (0, false)
      else
        match Type_ b with
        | DwordType => ret (fetch 4 m p, false)
        | WordType => ret (fetch 2 m p, false)
        | PwstrType => ret (p, false)
        | SpecialType => fault
        end
  end.

(* src/cdiag/cdiag/formatter.c:394-512 (CdiagsFormat) *)
Fixpoint PrepareBindings (EventPkt : Z) (bs : list BINDING_DEFINITION) : M (list (Z * bool)) :=
  match bs with
  | [] => ret []
  | b :: bs =>
      v <- PrepareBinding EventPkt b ;;
      vs <- PrepareBindings EventPkt bs ;;
      ret (v :: vs)
  end.

(** The insertion strings of a packet; they have to be readable, and their pointers
    to fit into the array on the stack. *)
(* src/cdiag/cdiag/formatter.c:519-524 (CdiagsFormat) *)
Fixpoint ReadInsertionStrings (m : Memory) (EventPkt Index : Z) (n : nat) : option (list (list Z)) :=
  match n with
  | O => Some []
  | S n =>
      match wcs m (EventPkt + fetch 4 m (EventPkt + 60 + 4 * Index)) MAX_STRING with
      | None => None
      | Some x =>
          match ReadInsertionStrings m EventPkt (Index + 1) n with
          | None => None
          | Some xs => Some (x :: xs)
          end
      end
  end.

(** The binding of the message. *)
(* src/cdiag/cdiag/formatter.c:515-543 (CdiagsFormat) *)
Definition ResolveBinding (f : FORMATTER) (EventPkt Binding : Z) : M Z :=
  m <- gets FmMem ;;
  if (fetch 4 m (EventPkt + 40) =? 0) && negb (FmtResolver f =? 0) then
    let Count := fetch 4 m (EventPkt + 56) in
    if CDIAG_EVENT_PACKET_MAX_INSERTION_STRINGS <? Count then fault
    else
      match ReadInsertionStrings m EventPkt 0 (Z.to_nat Count) with
      | None => fault
      | Some InsertionStrings =>
          r <- resolvers (ResolveMessage (FmtResolver f) (fetch 4 m (EventPkt + 36)) (ResolvingFlags f)
                 (if 0 <? Count then Some InsertionStrings else None)
                 (Some (fetch_array 2 m ResolverBuffer RESOLVER_BUFFER_CCH))) ;;
          modify (set_FmMem (put_array 2 m ResolverBuffer (snd r))) ;;;
          ret (if SUCCEEDED (fst r) then ResolverBuffer else Binding)
      end
  else ret Binding.

(* src/cdiag/cdiag/formatter.c:559-565 (CdiagsFormat) *)
Fixpoint FreeBindings (vs : list (Z * bool)) : M unit :=
  match vs with
  | [] => ret tt
  | (v, MustFree) :: vs => when_ MustFree (CdiagpFree v) ;;; FreeBindings vs
  end.

(** [Buffer] is the block behind the argument, if it is not NULL. *)
(* src/cdiag/cdiag/formatter.c:368-568 (CdiagsFormat) *)
Definition CdiagsFormat (This EventPkt : Z) (BufferSizeInChars : nat) (Buffer : option (list Z)) : M (Z * list Z) :=
  F <- gets Formatters ;;
  m <- gets FmMem ;;
  match F !! This, Buffer with
  | Some f, Some B =>
      if negb (CdiagsIsValidEventPacket m EventPkt) || (BufferSizeInChars =? 0)%nat then ret (E_INVALIDARG, B)
      else
        Bindings <- PrepareBindings EventPkt CdiagsEventPacketBindings ;;
        Message <- ResolveBinding f EventPkt (from_option fst 0 (head Bindings)) ;;
        m <- gets FmMem ;;
        match CdiagpFormatString towlower iswalnum (Printf m) (length CdiagsEventPacketVariables)
                (Some CdiagsEventPacketVariables) (Some (Message :: map fst (tail Bindings)))
                (Some (FormatTemplate f)) BufferSizeInChars (Some B) with
        | None => fault
        | Some (Hr, B) =>
            FreeBindings Bindings ;;;
            ret (Hr, B)
        end
  | _, _ => ret (E_INVALIDARG, default [] Buffer)
  end.

(** *** Formatter objects *)
(* src/cdiag/cdiag/formatter.c:570-584 (CdiagsDeleteFormatter) *)
Definition CdiagsDeleteFormatter (This : Z) (f : FORMATTER) : M unit :=
  when_ (negb (FmtResolver f =? 0)) (resolvers (DereferenceResolver (FmtResolver f))) ;;;
  modify (fun s => set_Formatters (delete This (Formatters s)) s) ;;;
  CdiagpFree This.

Definition load_formatter (This : Z) : M FORMATTER := fun s =>
  match Formatters s !! This with Some f => Some (f, s) | None => None end.
Definition store_count (This : Z) (n : Z) (f : FORMATTER) : M unit :=
  modify (fun s => set_Formatters
    (<[This := MkFormatter n (FormatTemplate f) (FmtResolver f) (ResolvingFlags f)]> (Formatters s)) s).

(* src/cdiag/cdiag/formatter.c:586-594 (CdiagsReferenceFormatter) *)
Definition CdiagsReferenceFormatter (This : Z) : M unit :=
  f <- load_formatter This ;; store_count This (LONG (FmtReferenceCount f + 1)) f.

(* src/cdiag/cdiag/formatter.c:596-608 (CdiagsDereferenceFormatter) *)
Definition CdiagsDereferenceFormatter (This : Z) : M unit :=
  f <- load_formatter This ;;
  let n := LONG (FmtReferenceCount f - 1) in
  store_count This n f ;;;
  if n =? 0 then CdiagsDeleteFormatter This f else ret tt.

Definition SIZEOF_FORMATTER : Z := 64.

(** The result and the formatter, 0 if there is none. *)
(* src/cdiag/cdiag/formatter.c:616-672 (CdiagCreateFormatter) *)
Definition CdiagCreateFormatter (Template : option (list Z)) (Resolver Flags : Z) : M (Z * Z) :=
  match Template with
  | None => ret (E_INVALIDARG, 0)
  | Some T =>
      if negb (CdiagpIsStringValid (Some T) 1 MAXWORD false) || (negb (Flags =? 0) && (Resolver =? 0))
      then ret (E_INVALIDARG, 0)
      else
        Formatter <- CdiagpMalloc (SIZEOF_FORMATTER + 2 * (lenZ T + 1)) ;;
        if Formatter =? 0 then ret (E_OUTOFMEMORY, 0)
        else
          when_ (negb (Resolver =? 0)) (resolvers (ReferenceResolver Resolver)) ;;;
          modify (fun s => set_Formatters
            (<[Formatter := MkFormatter 1 T Resolver (if Resolver =? 0 then 0 else Flags)]> (Formatters s)) s) ;;;
          ret (S_OK, Formatter)
  end.
End formatter.

(** ** What a packet or the clock can make of it *)

(** More insertion strings than the array on the stack has room for. *)
Lemma too_many_insertion_strings {R} Buffer Resolve f p b (s : FW R) :
  fetch 4 (FmMem s) (p + 40) = 0 -> FmtResolver f <> 0 ->
  CDIAG_EVENT_PACKET_MAX_INSERTION_STRINGS < fetch 4 (FmMem s) (p + 56) ->
  ResolveBinding Buffer Resolve f p b s = None.
Proof.
  intros H1 H2 H3. unfold ResolveBinding. rewrite bind_gets, H1, (proj2 (Z.eqb_neq _ _) H2).
  cbn [Z.eqb negb andb]. by rewrite (proj2 (Z.ltb_lt _ _) H3).
Qed.

(** A text of the time of 50 to 99 characters fits the size that [GetTimeFormat] is
    told but not the block. *)
Lemma long_time_overruns {R S} Alloc ToLocal ToSystem (GetTime : S -> Z -> Z -> option (list Z)) T0 S0 p (s : FW R) text :
  (forall t b, GetTime t b 100 = Some text) -> 50 <= lenZ text < 100 ->
  CdiagsTranslateTimestamp Alloc ToLocal ToSystem GetTime T0 S0 p s = None.
Proof.
  intros HT Hl. unfold CdiagsTranslateTimestamp. rewrite bind_gets. unfold bind at 1, CdiagpMalloc. rewrite HT.
  rewrite (proj2 (Z.leb_gt _ _)) by lia. by rewrite andb_false_r.
Qed.

(** ** Events and their packets *)
Definition CharsOk (s : list Z) : Prop := Forall (fun c => 0 < c < 2 ^ 16) s.

(** The terminated string [s] at [p]. *)
Fixpoint WcsAt (m : Memory) (p : Z) (s : list Z) : Prop :=
  match s with
  | [] => fetch 2 m p = 0
  | c :: s => fetch 2 m p = c /\ c <> 0 /\ WcsAt m (p + 2) s
  end.

Definition TextAt (m : Memory) (p : Z) (s : list Z) : Prop := p <> 0 /\ WcsAt m p s /\ (length s < MAX_STRING)%nat.

Record DEBUG := MkDebug { DbModule : option (list Z); DbFunction : option (list Z); DbFile : option (list Z); DbLine : Z }.

Record EVENT := MkEvent {
  EvType : Z;
  EvFlags : Z;
  EvSeverity : Z;
  EvMode : Z;
  EvMachine : option (list Z);
  EvProcess : Z;
  EvThread : Z;
  EvTime : Z;
  EvCode : Z;
  EvMessage : option (list Z);
  EvDebug : option DEBUG;
  EvInserts : list (list Z) }.

(** Where the strings of a packet are. *)
Record OFFSETS := MkOffsets { oMessage : Z; oMachine : Z; oDebug : Z; oModule : Z; oFunction : Z; oFile : Z }.

(** An optional string whose offset from [base] is in [field]. *)
Definition OptAt (m : Memory) (base field off : Z) (o : option (list Z)) : Prop :=
  fetch 4 m field = off /\
  match o with None => off = 0 | Some s => off <> 0 /\ TextAt m (base + off) s end.

Definition DWORD (v : Z) : Prop := 0 <= v < 2 ^ 32.

Record DebugAt (m : Memory) (q : Z) (o : OFFSETS) (d : DEBUG) : Prop := {
  db_module : OptAt m q (q + 4) (oModule o) (DbModule d);
  db_function : OptAt m q (q + 8) (oFunction o) (DbFunction d);
  db_file : OptAt m q (q + 12) (oFile o) (DbFile d);
  db_line : fetch 4 m (q + 16) = DbLine d /\ DWORD (DbLine d) }.

Record FieldsAt (m : Memory) (p : Z) (o : OFFSETS) (ev : EVENT) : Prop := {
  fl_size : fetch 2 m p = SIZEOF_EVENT_PACKET /\ SIZEOF_EVENT_PACKET <= fetch 2 m (p + 2);
  fl_type : fetch 4 m (p + 4) = EvType ev /\ DWORD (EvType ev);
  fl_flags : fetch 2 m (p + 12) = EvFlags ev /\ 0 <= EvFlags ev < 2 ^ 16;
  fl_severity : fetch 1 m (p + 14) = EvSeverity ev /\ 0 <= EvSeverity ev;
  fl_mode : fetch 1 m (p + 15) = EvMode ev /\ 0 <= EvMode ev;
  fl_machine : OptAt m p (p + 16) (oMachine o) (EvMachine ev);
  fl_process : fetch 4 m (p + 20) = EvProcess ev /\ DWORD (EvProcess ev);
  fl_thread : fetch 4 m (p + 24) = EvThread ev /\ DWORD (EvThread ev);
  fl_time : fetch 8 m (p + 28) = EvTime ev;
  fl_code : fetch 4 m (p + 36) = EvCode ev /\ DWORD (EvCode ev);
  fl_message : OptAt m p (p + 40) (oMessage o) (EvMessage ev);
  fl_debug : fetch 4 m (p + 44) = oDebug o /\
    match EvDebug ev with
    | None => oDebug o = 0
    | Some d => oDebug o <> 0 /\ 0 < p + oDebug o /\ DebugAt m (p + oDebug o) o d
    end;
  fl_count : fetch 4 m (p + 56) = lenZ (EvInserts ev) /\ lenZ (EvInserts ev) <= CDIAG_EVENT_PACKET_MAX_INSERTION_STRINGS;
  fl_inserts : forall i s, EvInserts ev !! i = Some s -> TextAt m (p + fetch 4 m (p + 60 + 4 * Z.of_nat i)) s }.

(** ** What the variables stand for *)
Definition Null : list Z := L "(null)".
Definition CaptionText (texts : list (list Z)) (v : Z) : list Z := default Null (texts !! Z.to_nat v).

Definition Texts (types severities modes : list (list Z)) (time message : option (list Z)) (ev : EVENT) : list (list Z) :=
  let debug := fun f : DEBUG -> option (list Z) => default Null (d ← EvDebug ev; f d) in
  [ default Null message; CaptionText types (EvType ev); L "0x" ++ hex 4 (EvFlags ev);
    CaptionText severities (EvSeverity ev); CaptionText modes (EvMode ev); default Null (EvMachine ev);
    decimal (EvProcess ev); decimal (EvThread ev); default Null time; L "0x" ++ hex 8 (EvCode ev);
    debug DbModule; debug DbFunction; debug DbFile; decimal (from_option DbLine 0 (EvDebug ev)) ].

(** The template with these texts for its variables. *)
Definition Render (towlower : Z -> Z) (iswalnum : Z -> bool) (texts : list (list Z)) (T : list Z) : option (list Z) :=
  expand towlower (fun _ k => texts !! Z.to_nat k) CdiagsEventPacketVariables (seqZ 0 14) (parse iswalnum T).

(** ** Strings in memory *)
Lemma wcs_at m s : forall p n, WcsAt m p s -> (length s < n)%nat -> wcs m p n = Some s.
Proof.
  induction s as [|c s IH]; intros p [|n] H Hn; simpl in Hn; try lia; cbn [wcs].
  - cbn [WcsAt] in H. by rewrite H.
  - destruct H as (-> & Hc & H). rewrite (proj2 (Z.eqb_neq _ _) Hc). by rewrite IH by (done || lia).
Qed.

Lemma fetch_put_array_head m p c l : 0 <= c < 2 ^ 16 -> fetch 2 (put_array 2 m p (c :: l)) p = c.
Proof. intros Hc. cbn [put_array]. rewrite fetch_put_array_ne by (simpl; lia). by apply fetch_put_eq. Qed.

Lemma WcsAt_put_array s rest : forall m p, CharsOk s -> WcsAt (put_array 2 m p (s ++ 0 :: rest)) p s.
Proof.
  induction s as [|c s IH]; intros m p Hs.
  - cbn [app WcsAt]. apply fetch_put_array_head. lia.
  - apply Forall_cons in Hs as [Hc Hs]. cbn [app WcsAt]. split_and!; [|lia|by apply IH].
    apply fetch_put_array_head. lia.
Qed.

(** Agreement of memories on the addresses that matter. *)
Definition Agree (Keep : Z -> Prop) (m m' : Memory) : Prop := forall i, Keep i -> m' i = m i.

Lemma Agree_refl Keep m : Agree Keep m m.
Proof. done. Qed.

Lemma Agree_trans Keep m1 m2 m3 : Agree Keep m1 m2 -> Agree Keep m2 m3 -> Agree Keep m1 m3.
Proof. intros H1 H2 i Hi. rewrite H2 by done. by apply H1. Qed.

Lemma Agree_put_array (Keep : Z -> Prop) m p l n : lenZ l <= n -> (forall i, p <= i < p + 2 * n -> ~ Keep i) ->
  Agree Keep m (put_array 2 m p l).
Proof.
  intros Hl HK i Hi. apply put_array_outside. destruct (Z.lt_ge_cases i p); [by left|right].
  destruct (Z.lt_ge_cases i (p + 2 * n)); [by destruct (HK i ltac:(lia))|]. simpl. lia.
Qed.

Lemma WcsAt_agree m m' s : forall p,
  (forall i, p <= i < p + 2 * (lenZ s + 1) -> m' i = m i) -> WcsAt m p s -> WcsAt m' p s.
Proof.
  induction s as [|c s IH]; intros p H HW.
  - cbn [WcsAt] in *. rewrite <- HW. symmetry. apply fetch_ext. intros i Hi. simpl in Hi. symmetry. apply H. unfold lenZ. simpl. lia.
  - destruct HW as (Hc & Hn & HW). assert (lenZ (c :: s) = lenZ s + 1) as E by (unfold lenZ; simpl; lia). rewrite E in H.
    assert (0 <= lenZ s) by (unfold lenZ; lia).
    split_and!; [|done|apply IH; [|done]; intros i Hi; apply H; lia].
    rewrite <- Hc. symmetry. apply fetch_ext. intros i Hi. simpl in Hi. symmetry. apply H. lia.
Qed.

(** ** The four formats *)
Lemma Printf_text m p s : TextAt m p s -> Printf m (L "%s") p = Some s.
Proof.
  intros (Hp & HW & Hl). unfold Printf. rewrite decide_True by done. rewrite (proj2 (Z.eqb_neq _ _) Hp).
  by apply wcs_at.
Qed.

Lemma Printf_null m : Printf m (L "%s") 0 = Some Null.
Proof. done. Qed.

Lemma Printf_decimal m v : DWORD v -> Printf m (L "%u") v = Some (decimal v).
Proof. intros H. unfold Printf, ULONG. by rewrite wrap_small. Qed.

Lemma Printf_hex4 m v : DWORD v -> Printf m (L "0x%04X") v = Some (L "0x" ++ hex 4 v).
Proof. intros H. unfold Printf, ULONG. by rewrite wrap_small. Qed.

Lemma Printf_hex8 m v : DWORD v -> Printf m (L "0x%08X") v = Some (L "0x" ++ hex 8 v).
Proof. intros H. unfold Printf, ULONG. by rewrite wrap_small. Qed.

(** The expansion only depends on the texts of the variables. *)
Lemma expand_texts towlower P P' vs bs bs' ps :
  Forall2 (fun v b => exists t, P (Format v) (fst b) = Some t /\ P' (Format v) (snd b) = Some t) vs (zip bs bs') ->
  length bs = length bs' ->
  expand towlower P vs bs ps = expand towlower P' vs bs' ps /\ is_Some (expand towlower P vs bs ps).
Proof.
  intros H Hl.
  assert (forall name, Value towlower P name vs bs = Value towlower P' name vs bs' /\ is_Some (Value towlower P name vs bs)) as HV.
  { intros name. revert bs bs' Hl H. induction vs as [|v vs IH]; intros bs bs' Hl H; [by split|].
    apply Forall2_cons_inv_l in H as ([b b'] & bb & (t & H1 & H2) & H & E).
    destruct bs as [|b0 bs], bs' as [|b0' bs']; try done. cbn [zip zip_with] in E. injection E as <- <- <-.
    cbn [Value fst snd] in *. destruct (abbreviates _ _ _); [rewrite H1, H2; by split|]. apply IH; [by injection Hl|done]. }
  induction ps as [|p ps [IH [t Ht]]]; [by split|]. cbn [expand].
  assert (render towlower P vs bs p = render towlower P' vs bs' p /\ is_Some (render towlower P vs bs p)) as [E [r Hr]].
  { destruct p as [c| |[|c n]]; cbn [render]; [by split..|]. apply HV. }
  rewrite <- IH, <- E, Ht, Hr. by split.
Qed.

(** ** Rendering *)
Section rendering.
Context {R SYSTEMTIME : Type} (HeapAlloc : gset Z -> Z -> Z) (towlower : Z -> Z) (iswalnum : Z -> bool).
Context (ToLocal : Z -> option Z) (ToSystem : Z -> option SYSTEMTIME) (GetTimeFormat : SYSTEMTIME -> Z -> Z -> option (list Z)).
Context (Time0 : Z) (SystemTime0 : SYSTEMTIME) (Types Severities Modes ResolverBuffer : Z).
Context (ResolveMessage : Z -> Z -> Z -> option (list (list Z)) -> option (list Z) -> ST R (Z * list Z)).

(** The addresses of packets and captions, which neither the heap nor the stack of
    the formatter overlaps. *)
Context (Keep : Z -> Prop).
Context (Hstack : ResolverBuffer <> 0 /\ forall i, ResolverBuffer <= i < ResolverBuffer + 2048 -> ~ Keep i).
Context (Hheap : forall B, let a := HeapAlloc B 100 in
  a = 0 \/ a ∉ B /\ (forall i, a <= i < a + 100 -> ~ Keep i) /\ (a + 100 <= ResolverBuffer \/ ResolverBuffer + 2048 <= a)).
(** The clock's text, which has at most 49 characters. *)
Context (clock : SYSTEMTIME -> option (list Z)).
Context (HTime : forall t b, GetTimeFormat t b 100 = if b =? 0 then None else clock t).
Context (Hclock : forall t s, clock t = Some s -> CharsOk s /\ 2 * (lenZ s + 1) <= 100).

Local Abbreviation PrepareBinding_ := (PrepareBinding (R := R) HeapAlloc ToLocal ToSystem GetTimeFormat Time0 SystemTime0 Types Severities Modes).
Local Abbreviation PrepareBindings_ := (PrepareBindings (R := R) HeapAlloc ToLocal ToSystem GetTimeFormat Time0 SystemTime0 Types Severities Modes).

(** A binding that prints as [text], now and whatever happens elsewhere. *)
Definition Shows (m : Memory) (f text : list Z) (v : Z) : Prop := forall m2, Agree Keep m m2 -> Printf m2 f v = Some text.
Definition Bound (m : Memory) (p : Z) (x : BINDING_DEFINITION * list Z * list Z) : Prop :=
  let '(b, f, text) := x in
  forall s, Agree Keep m (FmMem s) -> exists v, PrepareBinding_ p b s = Some ((v, false), s) /\ Shows m f text v.

Lemma prepare_bound m p l s : Forall (Bound m p) l -> Agree Keep m (FmMem s) ->
  exists vs, PrepareBindings_ p (map (fun x => fst (fst x)) l) s = Some (map (fun v => (v, false)) vs, s) /\
    Forall2 (fun x v => Shows m (snd (fst x)) (snd x) v) l vs.
Proof.
  intros Hl Hs. induction Hl as [|[[b f] text] l Hb Hl IH]; [by exists []|].
  destruct (Hb s Hs) as (v & E & Hv). destruct IH as (vs & E2 & Hvs). exists (v :: vs). split; [|by constructor].
  cbn [map PrepareBindings fst]. by rewrite (bind_eq _ _ _ _ _ E), (bind_eq _ _ _ _ _ E2).
Qed.

Section packet.
Context (m : Memory) (p : Z) (o : OFFSETS) (ev : EVENT).
Context (HF : forall m', Agree Keep m m' -> FieldsAt m' p o ev).

Lemma bound_dword off f text v :
  (forall m', Agree Keep m m' -> fetch 4 m' (p + off) = v) -> p + off <> 0 -> Shows m f text v ->
  Bound m p (MkBinding off DwordType false 0 false None, f, text).
Proof.
  intros Hv Hp Hs s Ha. exists v. split; [|done]. unfold PrepareBinding. rewrite bind_gets.
  cbn [TranslateRoutine Type_]. unfold FieldPtr. cbn [IsOffset StructOffset].
  rewrite (proj2 (Z.eqb_neq _ _) Hp). by rewrite Hv.
Qed.

Lemma bound_opt off oo f :
  (forall m', Agree Keep m m' -> OptAt m' p (p + off) oo f) ->
  Bound m p (MkBinding off PwstrType true 0 false None, L "%s", default Null f).
Proof.
  intros Ho s Ha. exists (if oo =? 0 then 0 else p + oo). split.
  - unfold PrepareBinding. rewrite bind_gets. cbn [TranslateRoutine Type_]. unfold FieldPtr.
    cbn [IsOffset StructOffset OffsetWithinStruct]. change (0 =? 0) with true. cbn [negb].
    destruct (Ho _ Ha) as [E H]. rewrite E. destruct f as [t|].
    + destruct H as (H0 & (Hn & _ & _)). rewrite (proj2 (Z.eqb_neq _ _) H0). cbn [negb].
      by rewrite (proj2 (Z.eqb_neq _ _) Hn).
    + by rewrite H.
  - intros m2 Hm2. destruct (Ho _ Hm2) as [E H]. destruct f as [t|].
    + destruct H as (H0 & H). rewrite (proj2 (Z.eqb_neq _ _) H0). by apply Printf_text.
    + by rewrite H.
Qed.

Lemma bound_debug off oo (g : DEBUG -> option (list Z)) : off <> 0 ->
  (forall d m', EvDebug ev = Some d -> Agree Keep m m' -> OptAt m' (p + oDebug o) (p + oDebug o + off) oo (g d)) ->
  Bound m p (MkBinding 44 PwstrType true off true None, L "%s", default Null (d ← EvDebug ev; g d)).
Proof.
  intros Hoff Ho s Ha.
  exists (if (oDebug o =? 0) || (oo =? 0) then 0 else p + oDebug o + oo). split.
  - unfold PrepareBinding. rewrite bind_gets. cbn [TranslateRoutine Type_]. unfold FieldPtr.
    cbn [IsOffset StructOffset OffsetWithinStruct OffsetWithinStructIsOffset].
    destruct (fl_debug _ _ _ _ (HF _ Ha)) as [E H]. rewrite E. rewrite (proj2 (Z.eqb_neq _ _) Hoff). cbn [negb].
    destruct (EvDebug ev) as [d|]; [|by rewrite H]. destruct H as (H0 & Hp & _).
    rewrite (proj2 (Z.eqb_neq _ _) H0), (proj2 (Z.eqb_neq (p + oDebug o) 0)) by lia. cbn [negb orb].
    destruct (Ho d _ eq_refl Ha) as [E2 H2]. rewrite E2. destruct (g d) as [t|].
    + destruct H2 as (H3 & (Hn & _ & _)). rewrite (proj2 (Z.eqb_neq _ _) H3). cbn [negb].
      by rewrite (proj2 (Z.eqb_neq _ _) Hn).
    + by rewrite H2, ?orb_true_r.
  - intros m2 Hm2. destruct (fl_debug _ _ _ _ (HF _ Hm2)) as [_ H].
    destruct (EvDebug ev) as [d|]; [|by rewrite H]. destruct H as (H0 & _ & _).
    rewrite (proj2 (Z.eqb_neq _ _) H0). cbn [orb mbind option_bind]. destruct (Ho d _ eq_refl Hm2) as [_ H2].
    destruct (g d) as [t|]; [|by rewrite H2, ?orb_true_r]. destruct H2 as (H3 & H2). rewrite (proj2 (Z.eqb_neq _ _) H3).
    by apply Printf_text.
Qed.

Lemma bound_line :
  Bound m p (MkBinding 44 DwordType true 16 false None, L "%u", decimal (from_option DbLine 0 (EvDebug ev))).
Proof.
  intros s Ha. exists (from_option DbLine 0 (EvDebug ev)). split.
  - unfold PrepareBinding. rewrite bind_gets. cbn [TranslateRoutine Type_]. unfold FieldPtr.
    cbn [IsOffset StructOffset OffsetWithinStruct OffsetWithinStructIsOffset].
    destruct (fl_debug _ _ _ _ (HF _ Ha)) as [E H]. rewrite E. destruct (EvDebug ev) as [d|]; [|by rewrite H].
    destruct H as (H0 & Hp & [_ _ _ [Hl _]]). rewrite (proj2 (Z.eqb_neq _ _) H0), (proj2 (Z.eqb_neq (p + oDebug o) 0)) by lia.
    change (16 =? 0) with false. cbn [negb]. rewrite (proj2 (Z.eqb_neq _ _)) by lia. by rewrite Hl.
  - intros m2 Hm2. apply Printf_decimal. destruct (fl_debug _ _ _ _ (HF _ Hm2)) as [_ H].
    destruct (EvDebug ev) as [d|]; [|done]. destruct H as (_ & _ & [_ _ _ [_ Hl]]). exact Hl.
Qed.

Lemma bound_word off f text v :
  (forall m', Agree Keep m m' -> fetch 2 m' (p + off) = v) -> p + off <> 0 -> Shows m f text v ->
  Bound m p (MkBinding off WordType false 0 false None, f, text).
Proof.
  intros Hv Hp Hs s Ha. exists v. split; [|done]. unfold PrepareBinding. rewrite bind_gets.
  cbn [TranslateRoutine Type_]. unfold FieldPtr. cbn [IsOffset StructOffset].
  rewrite (proj2 (Z.eqb_neq _ _) Hp). by rewrite Hv.
Qed.

(** Captions at [Base] up to [Max]. *)
Definition CaptionsAt (Base Max : Z) (texts : list (list Z)) : Prop :=
  lenZ texts = Max + 1 /\
  forall m' i t, Agree Keep m m' -> texts !! i = Some t -> TextAt m' (Row Base (Z.of_nat i)) t.

Lemma Caption_shows Base Max texts v : CaptionsAt Base Max texts -> 0 <= v ->
  Shows m (L "%s") (CaptionText texts v) (Caption Base v Max).
Proof.
  intros [Hl Hc] Hv m2 Hm2. unfold Caption, CaptionText. unfold lenZ in Hl. destruct (Z.leb_spec v Max).
  - destruct (texts !! Z.to_nat v) as [t|] eqn:E; [|apply lookup_ge_None in E; lia].
    apply Printf_text. replace v with (Z.of_nat (Z.to_nat v)) at 1 by lia. by apply Hc.
  - rewrite (lookup_ge_None_2 texts) by lia. done.
Qed.

Lemma bound_caption off t Base Max texts w v :
  (forall s, Translate (R := R) HeapAlloc ToLocal ToSystem GetTimeFormat Time0 SystemTime0 Types Severities Modes t (p + off) s =
    Some ((Caption Base (fetch w (FmMem s) (p + off)) Max, false), s)) ->
  (forall m', Agree Keep m m' -> fetch w m' (p + off) = v) -> 0 <= v -> CaptionsAt Base Max texts ->
  Bound m p (MkBinding off SpecialType false 0 false (Some t), L "%s", CaptionText texts v).
Proof.
  intros Ht Hv H0 Hc s Ha. exists (Caption Base v Max). split; [|by apply Caption_shows].
  unfold PrepareBinding. rewrite bind_gets. cbn [TranslateRoutine]. unfold FieldPtr. cbn [IsOffset StructOffset].
  by rewrite Ht, Hv.
Qed.

(** *** The timestamp *)
Definition TimeOf : SYSTEMTIME := default SystemTime0 (ToSystem (default Time0 (ToLocal (EvTime ev)))).
Definition TimeText (B : gset Z) : option (list Z) := if HeapAlloc B 100 =? 0 then None else clock TimeOf.

(** The same but for the buffer on the stack. *)
Definition OffStack (m1 m2 : Memory) : Prop :=
  forall i, ~ (ResolverBuffer <= i < ResolverBuffer + 2048) -> m2 i = m1 i.

Lemma Agree_OffStack m1 m2 : Agree Keep m m1 -> OffStack m1 m2 -> Agree Keep m m2.
Proof. intros H1 H2 i Hi. rewrite H2; [by apply H1|]. intros H. by apply (proj2 Hstack i). Qed.

Lemma timestamp_spec s : Agree Keep m (FmMem s) ->
  exists v MustFree m1 B1,
    PrepareBinding_ p (MkBinding 28 SpecialType false 0 false (Some TranslateTimestamp)) s =
      Some ((v, MustFree), MkFW m1 B1 (Formatters s) (Resolvers s)) /\
    Agree Keep m m1 /\ (if MustFree : bool then B1 ∖ {[v]} = FmBlocks s else B1 = FmBlocks s) /\
    forall m2, OffStack m1 m2 -> Printf m2 (L "%s") v = Some (default Null (TimeText (FmBlocks s))).
Proof.
  intros Ha. unfold PrepareBinding. rewrite bind_gets. cbn [TranslateRoutine Translate]. unfold FieldPtr.
  cbn [IsOffset StructOffset]. unfold CdiagsTranslateTimestamp. rewrite bind_gets.
  rewrite (fl_time _ _ _ _ (HF _ Ha)). fold TimeOf. unfold TimeText.
  specialize (Hheap (FmBlocks s)). cbv zeta in Hheap. set (a := HeapAlloc (FmBlocks s) 100) in *.
  assert (CdiagpMalloc (R := R) HeapAlloc 100 s = Some (a, if a =? 0 then s else set_FmBlocks (FmBlocks s ∪ {[a]}) s)) as Em by done.
  rewrite (bind_eq _ _ _ _ _ Em), HTime. destruct (Z.eqb_spec a 0) as [E0|E0].
  - exists 0, false, (FmMem s), (FmBlocks s). rewrite E0. split_and!; [by destruct s|done..].
  - destruct Hheap as [?|(Hn & Hk & Hst)]; [done|]. destruct (clock TimeOf) as [t|] eqn:Ec.
    + destruct (Hclock _ _ Ec) as [Hok Hl].
      exists a, true, (store_wcs (FmMem s) a t), (FmBlocks s ∪ {[a]}).
      rewrite bind_assert by (by rewrite (proj2 (Z.leb_le _ _) Hl)).
      rewrite bind_modify. assert (lenZ (t ++ [0]) = lenZ t + 1) as El by (unfold lenZ; rewrite length_app; simpl; lia).
      split_and!; [done| |set_solver|].
      * apply (Agree_trans _ _ _ _ Ha). apply (Agree_put_array _ _ _ _ 50); [lia|]. intros i Hi. apply Hk. lia.
      * intros m2 Hm2. change (default Null (Some t)) with t. apply Printf_text. assert (0 <= lenZ t) by (unfold lenZ; lia). split_and!; [done| |].
        -- apply (WcsAt_agree (store_wcs (FmMem s) a t)); [|by apply WcsAt_put_array].
           intros i Hi. apply Hm2. lia.
        -- unfold MAX_STRING, lenZ in *. lia.
    + exists 0, false, (FmMem s), (FmBlocks s). cbn [negb when_]. unfold CdiagpFree. rewrite bind_modify.
      split_and!; [|done..]. unfold ret, set_FmBlocks. cbn [FmMem FmBlocks Formatters Resolvers]. do 2 f_equal.
      f_equal. set_solver.
Qed.

(** *** The message *)
Lemma ReadInsertionStrings_at m1 : Agree Keep m m1 -> forall n i, (i + n = length (EvInserts ev))%nat ->
  ReadInsertionStrings m1 p (Z.of_nat i) n = Some (drop i (EvInserts ev)).
Proof.
  intros Ha n. induction n as [|n IH]; intros i Hi; cbn [ReadInsertionStrings]; [by rewrite drop_ge by lia|].
  destruct (lookup_lt_is_Some_2 (EvInserts ev) i) as [x Hx]; [lia|].
  destruct (fl_inserts _ _ _ _ (HF _ Ha) i x Hx) as (_ & HW & Hl). rewrite (wcs_at _ _ _ _ HW Hl).
  replace (Z.of_nat i + 1) with (Z.of_nat (S i)) by lia. rewrite IH by lia. by rewrite (drop_S _ _ _ Hx).
Qed.

(** What the resolver [f] has for the event: the text or nothing, and the state of
    the resolvers afterwards; the buffer has 1024 characters of any contents. *)
Definition Resolved (f : FORMATTER) (r : R) (text : option (list Z)) (r' : R) : Prop :=
  if negb (FmtResolver f =? 0) && bool_decide (EvMessage ev = None) then
    forall B0, length B0 = RESOLVER_BUFFER_CCH -> exists Hr B1,
      ResolveMessage (FmtResolver f) (EvCode ev) (ResolvingFlags f)
        (if 0 <? lenZ (EvInserts ev) then Some (EvInserts ev) else None) (Some B0) r = Some ((Hr, B1), r') /\
      length B1 = RESOLVER_BUFFER_CCH /\
      if SUCCEEDED Hr then exists t rest, text = Some t /\ B1 = t ++ 0 :: rest /\ CharsOk t else text = None
  else text = EvMessage ev /\ r' = r.

Lemma length_fetch_array w m1 a n : length (fetch_array w m1 a n) = n.
Proof. revert a. induction n; intros; simpl; congruence. Qed.

Lemma resolve_spec f b0 s text r' :
  Agree Keep m (FmMem s) -> Shows m (L "%s") (default Null (EvMessage ev)) b0 -> Resolved f (Resolvers s) text r' ->
  exists v m2, ResolveBinding ResolverBuffer ResolveMessage f p b0 s =
      Some (v, MkFW m2 (FmBlocks s) (Formatters s) r') /\
    OffStack (FmMem s) m2 /\ Printf m2 (L "%s") v = Some (default Null text).
Proof.
  intros Ha Hb HR. unfold ResolveBinding. rewrite bind_gets. pose proof (HF _ Ha) as Hf.
  destruct (fl_message _ _ _ _ Hf) as [Eo Ho]. rewrite Eo. unfold Resolved in HR.
  assert ((oMessage o =? 0) = bool_decide (EvMessage ev = None)) as ->.
  { destruct (EvMessage ev) as [t|]; [|by rewrite Ho]. destruct Ho as [H0 _]. by rewrite (proj2 (Z.eqb_neq _ _) H0). }
  rewrite andb_comm. destruct (negb (FmtResolver f =? 0) && bool_decide (EvMessage ev = None)) eqn:EC.
  - destruct (fl_count _ _ _ _ Hf) as [Ec Hc]. rewrite Ec, (proj2 (Z.ltb_ge _ _) Hc).
    replace (Z.to_nat (lenZ (EvInserts ev))) with (length (EvInserts ev)) by (unfold lenZ; lia).
    change 0 with (Z.of_nat 0) at 1. rewrite (ReadInsertionStrings_at _ Ha) by lia. rewrite drop_0.
    destruct (fl_code _ _ _ _ Hf) as [-> _].
    destruct (HR (fetch_array 2 (FmMem s) ResolverBuffer RESOLVER_BUFFER_CCH)) as (Hr & B1 & E & Hl & Ht);
      [apply length_fetch_array|].
    assert (resolvers (ResolveMessage (FmtResolver f) (EvCode ev) (ResolvingFlags f)
      (if 0 <? lenZ (EvInserts ev) then Some (EvInserts ev) else None)
      (Some (fetch_array 2 (FmMem s) ResolverBuffer RESOLVER_BUFFER_CCH))) s =
      Some ((Hr, B1), MkFW (FmMem s) (FmBlocks s) (Formatters s) r')) as E2 by (unfold resolvers; by rewrite E).
    rewrite (bind_eq _ _ _ _ _ E2), bind_modify. cbn [snd fst].
    eexists _, _. split; [reflexivity|].
    assert (OffStack (FmMem s) (put_array 2 (FmMem s) ResolverBuffer B1)) as HO.
    { intros i Hi. apply put_array_outside. unfold RESOLVER_BUFFER_CCH, lenZ in *. simpl. lia. }
    split; [exact HO|]. cbn [FmMem set_FmMem]. destruct (SUCCEEDED Hr).
    + destruct Ht as (t & rest & -> & -> & Hok). change (default Null (Some t)) with t. apply Printf_text. split_and!; [apply Hstack|by apply WcsAt_put_array|].
      rewrite length_app in Hl. unfold RESOLVER_BUFFER_CCH, MAX_STRING in *. lia.
    + subst text. destruct (bool_decide_reflect (EvMessage ev = None)) as [EN|]; [|by rewrite andb_false_r in EC].
      rewrite EN in Hb. apply Hb. by apply (Agree_OffStack (FmMem s)).
  - destruct HR as [-> ->]. exists b0, (FmMem s). split; [by destruct s|]. split; [done|]. by apply Hb.
Qed.
End packet.

Lemma PrepareBindings_app p l1 l2 s :
  PrepareBindings_ p (l1 ++ l2) s = (vs1 <- PrepareBindings_ p l1 ;; vs2 <- PrepareBindings_ p l2 ;; ret (vs1 ++ vs2)) s.
Proof.
  revert s. induction l1 as [|b l1 IH]; intros s; cbn [app PrepareBindings].
  - rewrite bind_ret. unfold bind, ret. by destruct (PrepareBindings_ p l2 s) as [[vs s']|].
  - rewrite bind_assoc. unfold bind at 1 3. destruct (PrepareBinding_ p b s) as [[v s']|]; [|done].
    rewrite bind_assoc. unfold bind at 1. rewrite IH. unfold bind at 1 3.
    destruct (PrepareBindings_ p l1 s') as [[vs s2]|]; [|done]. rewrite bind_ret. unfold bind, ret.
    by destruct (PrepareBindings_ p l2 s2) as [[vs2 s3]|].
Qed.

Lemma FreeBindings_one vs v MustFree vs' (s : FW R) :
  FreeBindings (map (fun v => (v, false)) vs ++ (v, MustFree) :: map (fun v => (v, false)) vs') s =
  Some (tt, if MustFree : bool then set_FmBlocks (FmBlocks s ∖ {[v]}) s else s).
Proof.
  assert (forall l (s : FW R), FreeBindings (map (fun v => (v, false)) l) s = Some (tt, s)) as H0.
  { intros l. induction l as [|x l IH]; intros s'; [done|]. cbn [map FreeBindings when_]. rewrite bind_ret. apply IH. }
  induction vs as [|x vs IH]; cbn [map app FreeBindings when_].
  - destruct MustFree; cbn [when_]; [unfold CdiagpFree; rewrite bind_modify|rewrite bind_ret]; apply H0.
  - by rewrite bind_ret.
Qed.

(** The bindings before and after the timestamp. *)
Section bindings.
Context (m : Memory) (p : Z) (o : OFFSETS) (ev : EVENT) (types severities modes : list (list Z)).
Context (Hp : 0 < p) (HF : forall m', Agree Keep m m' -> FieldsAt m' p o ev).
Context (Htypes : CaptionsAt m Types CdiagMaxEvent types) (Hsev : CaptionsAt m Severities CdiagMaxSeverity severities).
Context (Hmodes : CaptionsAt m Modes CdiagMaxMode modes).

Local Abbreviation Text i := (nth i (Texts types severities modes None (EvMessage ev) ev) []).
Local Abbreviation Fmt i := (Format (nth i CdiagsEventPacketVariables (Var "" ""))).
Local Abbreviation Def i := (nth i CdiagsEventPacketBindings (MkBinding 0 SpecialType false 0 false None)).

Lemma bound_before : Forall (Bound m p) (map (fun i => (Def i, Fmt i, Text i)) (seq 0 8)).
Proof.
  repeat constructor.
  - apply (bound_opt m p 40 (oMessage o)). intros m' Hm. apply (HF m' Hm).
  - eapply (bound_caption m p 4); [by intros| |apply (HF m (Agree_refl _ _))|exact Htypes]. intros m' Hm. apply (HF m' Hm).
  - apply bound_word with (v := EvFlags ev); [|lia|].
    + intros m' Hm. apply (HF m' Hm).
    + intros m2 _. apply Printf_hex4. destruct (fl_flags _ _ _ _ (HF m (Agree_refl _ _))). unfold DWORD. lia.
  - eapply (bound_caption m p 14); [by intros| |apply (HF m (Agree_refl _ _))|exact Hsev]. intros m' Hm. apply (HF m' Hm).
  - eapply (bound_caption m p 15); [by intros| |apply (HF m (Agree_refl _ _))|exact Hmodes]. intros m' Hm. apply (HF m' Hm).
  - apply (bound_opt m p 16 (oMachine o)). intros m' Hm. apply (HF m' Hm).
  - apply bound_dword with (v := EvProcess ev); [|lia|].
    + intros m' Hm. apply (HF m' Hm).
    + intros m2 _. apply Printf_decimal. apply (HF m (Agree_refl _ _)).
  - apply bound_dword with (v := EvThread ev); [|lia|].
    + intros m' Hm. apply (HF m' Hm).
    + intros m2 _. apply Printf_decimal. apply (HF m (Agree_refl _ _)).
Qed.

Lemma bound_after : Forall (Bound m p) (map (fun i => (Def i, Fmt i, Text i)) (seq 9 5)).
Proof.
  assert (forall d m', EvDebug ev = Some d -> Agree Keep m m' -> DebugAt m' (p + oDebug o) o d) as HD.
  { intros d m' Ed Hm. destruct (fl_debug _ _ _ _ (HF m' Hm)) as [_ H]. rewrite Ed in H. apply H. }
  repeat constructor.
  - apply bound_dword with (v := EvCode ev); [|lia|].
    + intros m' Hm. apply (HF m' Hm).
    + intros m2 _. apply Printf_hex8. apply (HF m (Agree_refl _ _)).
  - apply (bound_debug m p o ev HF 4 (oModule o)); [lia|]. intros d m' Ed Hm. apply (HD d m' Ed Hm).
  - apply (bound_debug m p o ev HF 8 (oFunction o)); [lia|]. intros d m' Ed Hm. apply (HD d m' Ed Hm).
  - apply (bound_debug m p o ev HF 12 (oFile o)); [lia|]. intros d m' Ed Hm. apply (HD d m' Ed Hm).
  - apply (bound_line m p o ev HF).
Qed.

(** All bindings: values that show the texts, and the block of the time's text. *)
Lemma all_bindings f text r' s : m = FmMem s -> Resolved ev f (Resolvers s) text r' ->
  exists v0 vs v MustFree vs' b0 m1 B1,
    PrepareBindings_ p CdiagsEventPacketBindings s =
      Some (map (fun v => (v, false)) (v0 :: vs) ++ (v, MustFree) :: map (fun v => (v, false)) vs',
            MkFW m1 B1 (Formatters s) (Resolvers s)) /\
    Agree Keep m m1 /\ (if MustFree : bool then B1 ∖ {[v]} = FmBlocks s else B1 = FmBlocks s) /\
    exists m2, ResolveBinding ResolverBuffer ResolveMessage f p v0 (MkFW m1 B1 (Formatters s) (Resolvers s)) =
      Some (b0, MkFW m2 B1 (Formatters s) r') /\ Agree Keep m m2 /\
    Forall2 (fun x v => Printf m2 (Format (fst x)) v = Some (snd x))
      (zip CdiagsEventPacketVariables (Texts types severities modes (TimeText ev (FmBlocks s)) text ev))
      (b0 :: vs ++ v :: vs').
Proof.
  intros Em HR. assert (Agree Keep m (FmMem s)) as Ha0 by (by rewrite <- Em).
  destruct (prepare_bound _ _ _ _ bound_before Ha0) as (vs0 & E1 & H1).
  apply Forall2_cons_inv_l in H1 as (v0 & vs & Hb0 & H1 & ->). cbn [snd fst] in Hb0.
  destruct (timestamp_spec _ _ _ _ HF s Ha0) as (v & fr & m1 & B1 & E2 & Ha & Hfree & Hv).
  destruct (prepare_bound _ _ _ (MkFW m1 B1 (Formatters s) (Resolvers s)) bound_after Ha) as (vs' & E3 & H3).
  destruct (resolve_spec _ _ _ _ HF f _ (MkFW m1 B1 (Formatters s) (Resolvers s)) text r' Ha Hb0 HR) as (b0 & m2 & E4 & HO & Hm).
  assert (Agree Keep m m2) as Ha2 by exact (Agree_OffStack _ _ _ Ha HO).
  exists v0, vs, v, fr, vs', b0, m1, B1. split_and!; [|done..|].
  - change CdiagsEventPacketBindings with
      (map (fun x => fst (fst x)) (map (fun i => (Def i, Fmt i, Text i)) (seq 0 8)) ++
       [MkBinding 28 SpecialType false 0 false (Some TranslateTimestamp)] ++
       map (fun x => fst (fst x)) (map (fun i => (Def i, Fmt i, Text i)) (seq 9 5))).
    rewrite PrepareBindings_app, (bind_eq _ _ _ _ _ E1). cbn [app PrepareBindings]. rewrite bind_assoc.
    rewrite (bind_eq _ _ _ _ _ E2), bind_assoc. by rewrite (bind_eq _ _ _ _ _ E3).
  - exists m2. split_and!; [exact E4|exact Ha2|].
    clear E1 E2 E3 E4 Hb0.
    cbn [map seq] in *. repeat match goal with
      | H : Forall2 _ (_ :: _) _ |- _ => apply Forall2_cons_inv_l in H as (? & ? & ? & H & ->)
      | H : Forall2 _ [] _ |- _ => apply Forall2_nil_inv_l in H as ->
      end.
    cbn [app]. repeat constructor; try exact Hm; try (by apply Hv).
    all: match goal with |- Printf _ _ ?v = _ => match goal with H : Shows _ _ _ v |- _ => exact (H m2 Ha2) end end.
Qed.
End bindings.

(** What is documented of the character classes. *)
Context (lower_nul : forall c, towlower c = 0 <-> c = 0) (lower_alnum : forall c, iswalnum (towlower c) = iswalnum c).
Context (alnum_nul : iswalnum 0 = false) (alnum_percent : iswalnum PERCENT = false).
Context (alnum_letters : forall c, 65 <= c <= 90 -> iswalnum c = true).

Lemma names_ok : Forall (fun v => exists n N, Name v = n :: N /\ iswalnum n = true) CdiagsEventPacketVariables.
Proof. repeat constructor; (eexists _, _; split; [reflexivity|apply alnum_letters; vm_compute; by split]). Qed.

Lemma Render_spec m2 texts bs T :
  Forall2 (fun x v => Printf m2 (Format (fst x)) v = Some (snd x)) (zip CdiagsEventPacketVariables texts) bs ->
  length texts = 14%nat ->
  expand towlower (Printf m2) CdiagsEventPacketVariables bs (parse iswalnum T) = Render towlower iswalnum texts T /\
  is_Some (Render towlower iswalnum texts T).
Proof.
  intros H Hl. assert (length bs = 14%nat) as Hb.
  { apply Forall2_length in H. rewrite length_zip_with, Hl in H. done. }
  unfold Render.
  destruct (expand_texts towlower (Printf m2) (fun _ k => texts !! Z.to_nat k) CdiagsEventPacketVariables bs (seqZ 0 14)
    (parse iswalnum T)) as [E HS]; [|by rewrite Hb|by rewrite <- E].
  apply Forall2_same_length_lookup_2; [rewrite length_zip_with, Hb; done|].
  intros i v [b k] Hv Hbk. apply lookup_zip_with_Some in Hbk as (b' & k' & Ek & Hbi & Hki). injection Ek as -> ->.
  apply lookup_seqZ in Hki as [-> Hi]. cbn [fst snd]. rewrite Z.add_0_l, Nat2Z.id.
  destruct (lookup_lt_is_Some_2 texts i) as [t Ht]; [lia|]. exists t. split; [|done].
  rewrite Forall2_lookup in H. specialize (H i). rewrite Hbi in H.
  rewrite lookup_zip_with, Hv, Ht in H. cbn in H. by inversion_clear H.
Qed.

(** C19. Formatting an event: the text is the template of the formatter with, for each
    of the fourteen variables, the field of the event it names, in its format: a
    caption for the type, the severity and the mode, the message of the packet or
    else the resolver's, the fields of the debug information where there is some,
    and (null) for what is missing.  It is in the buffer, terminated, if there is
    room, and otherwise the caller is told; the heap is as before. *)
Theorem formatter_renders_event s F f p o ev types severities modes B text r' :
  Formatters s !! F = Some f -> CdiagpIsStringValid (Some (FormatTemplate f)) 1 MAXWORD false = true ->
  0 < p -> (forall m', Agree Keep (FmMem s) m' -> FieldsAt m' p o ev) ->
  CaptionsAt (FmMem s) Types CdiagMaxEvent types -> CaptionsAt (FmMem s) Severities CdiagMaxSeverity severities ->
  CaptionsAt (FmMem s) Modes CdiagMaxMode modes ->
  Resolved ev f (Resolvers s) text r' -> B <> [] ->
  exists out Hr B' m',
    Render towlower iswalnum (Texts types severities modes (TimeText ev (FmBlocks s)) text ev) (FormatTemplate f) = Some out /\
    CdiagsFormat HeapAlloc towlower iswalnum ToLocal ToSystem GetTimeFormat Time0 SystemTime0 Types Severities Modes
      ResolverBuffer ResolveMessage F p (length B) (Some B) s =
    Some ((Hr, B'), MkFW m' (FmBlocks s) (Formatters s) r') /\
    length B' = length B /\ Agree Keep (FmMem s) m' /\
    (Hr = S_OK /\ take (S (length out)) B' = out ++ [0] \/
     Hr = CDIAG_E_BUFFER_TOO_SMALL /\ (length B <= S (length out))%nat).
Proof.
  intros Hf HT Hp HF Ht Hs Hm HR HB.
  destruct (all_bindings (FmMem s) p o ev types severities modes Hp HF Ht Hs Hm f text r' s eq_refl HR)
    as (v0 & vs & v & fr & vs' & b0 & m1 & B1 & E1 & Ha & Hfree & m2 & E2 & Ha2 & HV).
  set (texts := Texts _ _ _ _ _ _) in *.
  destruct (Render_spec m2 texts _ (FormatTemplate f) HV eq_refl) as [Ex [out Eout]].
  exists out. unfold CdiagsFormat. rewrite !bind_gets, Hf.
  assert (CdiagsIsValidEventPacket (FmMem s) p = true) as ->.
  { destruct (fl_size _ _ _ _ (HF _ (Agree_refl _ _))) as [H1 H2]. unfold CdiagsIsValidEventPacket.
    rewrite H1, (proj2 (Z.leb_le _ _) H2), (proj2 (Z.eqb_neq p 0)) by lia. done. }
  destruct B as [|b B]; [done|]. cbn [length Nat.eqb negb orb]. rewrite (bind_eq _ _ _ _ _ E1).
  cbn [map app head from_option fst tail]. rewrite (bind_eq _ _ _ _ _ E2), bind_gets. cbn [FmMem].
  assert (b0 :: map fst (map (fun v => (v, false)) vs ++ (v, fr) :: map (fun v => (v, false)) vs') = b0 :: vs ++ v :: vs') as ->.
  { f_equal. rewrite map_app, map_map. cbn [map fst]. by rewrite map_map, !map_id. }
  destruct (FormatString_verdict towlower iswalnum (Printf m2) lower_nul lower_alnum alnum_nul alnum_percent (length B)
    CdiagsEventPacketVariables (b0 :: vs ++ v :: vs') (FormatTemplate f) (length CdiagsEventPacketVariables))
    with (b :: B) as (Hr & B' & E3 & HB' & HVd); try done; try apply names_ok.
  { apply Forall2_length in HV. by rewrite <- HV. }
  { unfold CdiagpIsStringValid in HT. lia. }
  cbn [length] in E3. rewrite E3. exists Hr, B', m2. split; [done|]. split; [|split_and!; [done..|]].
  - rewrite (bind_eq _ _ _ _ _ (FreeBindings_one (v0 :: vs) v fr vs' _)). unfold ret.
    destruct fr; [unfold set_FmBlocks; cbn [FmMem FmBlocks Formatters Resolvers]; by rewrite Hfree|by rewrite Hfree].
  - rewrite Ex, Eout in HVd. destruct HVd as [(-> & t & Et & _ & Htake)|[-> Hsm]]; [left|right].
    + injection Et as <-. cbn [app] in Htake. rewrite length_app, Nat.add_1_r in Htake. done.
    + split; [done|]. specialize (Hsm _ eq_refl). cbn [app length] in *. lia.
Qed.
End rendering.

(** ** The captions *)
Section captions.
Context (LoadString : Z -> option (list Z)) (Types Severities Modes : Z).

(** Captions that are all found end up in their rows, and nothing else changes. *)
Lemma LoadCaptions_found Ids Base Other Word (Text : Z -> list Z) n : forall i m,
  (forall k, i <= k < i + Z.of_nat n -> LoadString (Ids + k) = Some (Text k) /\ CharsOk (Text k) /\ lenZ (Text k) < MAX_CAPTION_CCH) ->
  let m' := LoadCaptions LoadString Ids Base Other Word n i m in
  (forall k, i <= k < i + Z.of_nat n -> WcsAt m' (Row Base k) (Text k)) /\
  (forall a, a < Row Base i \/ Row Base (i + Z.of_nat n) <= a -> m' a = m a).
Proof.
  induction n as [|n IH]; intros i m H; cbn [LoadCaptions]; cbv zeta; [split; [intros k Hk; lia|done]|].
  destruct (H i ltac:(lia)) as (-> & Hok & Hl).
  destruct (IH (i + 1) (store_wcs m (Row Base i) (Text i))) as [IH1 IH2]; [intros k Hk; apply H; lia|].
  assert (lenZ (Text i ++ [0]) = lenZ (Text i) + 1) as El by (unfold lenZ; rewrite length_app; simpl; lia).
  unfold Row, MAX_CAPTION_CCH in *. split.
  - intros k Hk. destruct (Z.eq_dec k i) as [-> |Hne]; [|apply IH1; lia].
    apply (WcsAt_agree (store_wcs m (Base + 2 * 64 * i) (Text i))); [|by apply WcsAt_put_array].
    intros a Ha. apply IH2. unfold lenZ in *. lia.
  - intros a Ha. rewrite IH2 by lia. apply put_array_outside. unfold lenZ in *. simpl. lia.
Qed.

(** If the caption of the user mode is missing, the made-up one overwrites the caption
    of a severity. *)
Lemma missing_mode_caption m : LoadString 301 = None ->
  WcsAt (CdiagpInitializeFormatter LoadString Types Severities Modes m) (Row Severities 1) (L "Mode 1").
Proof.
  intros HN. unfold CdiagpInitializeFormatter. set (m1 := LoadCaptions _ 100 _ _ _ _ _ _).
  change (Z.to_nat (CdiagMaxMode + 1)) with 2%nat. cbn [LoadCaptions]. change (300 + (0 + 1)) with 301. rewrite HN.
  apply WcsAt_put_array. repeat constructor.
Qed.
End captions.

(** ** The life of a formatter *)
Section life.
Context {R : Type} `{Refs : Session.RefObjects R} (HeapAlloc : gset Z -> Z -> Z).
Context (HAlloc : forall B n, HeapAlloc B n ∉ B).

Local Abbreviation Create := (CdiagCreateFormatter HeapAlloc Session.Reference).
Local Abbreviation AddRef := (CdiagsReferenceFormatter (R := R)).
Local Abbreviation Release := (CdiagsDereferenceFormatter (R := R) Session.Dereference).

Fixpoint times (n : nat) (m : ST (FW R) unit) : ST (FW R) unit :=
  match n with O => ret tt | S n => m ;;; times n m end.

Definition counted (s : FW R) (F : Z) (f : FORMATTER) (n : Z) : FW R :=
  set_Formatters (<[F := MkFormatter n (FormatTemplate f) (FmtResolver f) (ResolvingFlags f)]> (Formatters s)) s.

Lemma AddRef_times F f s k : forall n, 0 < n -> n + Z.of_nat k < 2 ^ 31 ->
  times k (AddRef F) (counted s F f n) = Some (tt, counted s F f (n + Z.of_nat k)).
Proof.
  induction k as [|k IH]; intros n H0 Hk; cbn [times]; [by rewrite Z.add_0_r|].
  assert (AddRef F (counted s F f n) = Some (tt, counted s F f (n + 1))) as E.
  { unfold CdiagsReferenceFormatter, load_formatter, bind, counted. cbn. rewrite lookup_insert_eq. cbn.
    rewrite LONG_small by lia. unfold store_count, modify, set_Formatters. cbn. by rewrite insert_insert_eq. }
  rewrite (bind_eq _ _ _ _ _ E), IH by lia. do 3 f_equal. lia.
Qed.

Lemma Release_times F f s k : forall n, n < 2 ^ 31 -> Z.of_nat k < n ->
  times k (Release F) (counted s F f n) = Some (tt, counted s F f (n - Z.of_nat k)).
Proof.
  induction k as [|k IH]; intros n H0 Hk; cbn [times]; [by rewrite Z.sub_0_r|].
  assert (Release F (counted s F f n) = Some (tt, counted s F f (n - 1))) as E.
  { unfold CdiagsDereferenceFormatter, load_formatter, bind, counted. cbn. rewrite lookup_insert_eq. cbn.
    rewrite LONG_small by lia. rewrite (proj2 (Z.eqb_neq _ _)) by lia. unfold store_count, modify, set_Formatters. cbn.
    by rewrite insert_insert_eq. }
  rewrite (bind_eq _ _ _ _ _ E), IH by lia. do 3 f_equal. lia.
Qed.

Lemma Release_last F f s l : Formatters s !! F = None -> F ∉ FmBlocks s -> Session.owns (Resolvers s) (Session.refs_of (FmtResolver f) ++ l) ->
  exists r, Release F (set_FmBlocks (FmBlocks s ∪ {[F]}) (counted s F f 1)) =
    Some (tt, MkFW (FmMem s) (FmBlocks s) (Formatters s) r) /\ Session.owns r l.
Proof.
  intros HF HB Ho.
  assert (exists r, (forall k : unit -> ST (FW R) unit, forall B Fs,
    bind (when_ (negb (FmtResolver f =? 0)) (resolvers (Session.Dereference (FmtResolver f)))) k (MkFW (FmMem s) B Fs (Resolvers s)) =
    k tt (MkFW (FmMem s) B Fs r)) /\ Session.owns r l) as (r & Er & Hr).
  { unfold Session.refs_of in Ho. destruct (FmtResolver f =? 0); [by exists (Resolvers s)|].
    destruct (Session.Dereference_spec _ _ _ Ho) as (r & E & Hr). exists r. split; [|done]. intros k B Fs.
    cbn [negb when_]. unfold bind, resolvers. cbn [Resolvers]. by rewrite E. }
  exists r. split; [|done]. unfold CdiagsDereferenceFormatter, load_formatter. unfold bind at 1. cbn.
  rewrite lookup_insert_eq. cbn [FmtReferenceCount FormatTemplate FmtResolver ResolvingFlags].
  change (LONG (1 - 1)) with 0. change (0 =? 0) with true. cbv iota.
  unfold CdiagsDeleteFormatter. cbn [FmtResolver set_Formatters set_FmBlocks FmMem FmBlocks Formatters Resolvers].
  unfold set_Formatters. cbn [FmMem FmBlocks Formatters Resolvers]. rewrite Er, bind_modify. unfold CdiagpFree, modify. cbn.
  unfold set_FmBlocks. cbn. rewrite !insert_insert_eq, delete_insert_id by done. do 3 f_equal. set_solver.
Qed.

(** A formatter takes a reference on its resolver.  However often it is referenced,
    as many releases and one more give back its block and that reference. *)
Lemma formatter_life T Res Flags s l k :
  CdiagpIsStringValid (Some T) 1 MAXWORD false = true -> (Flags = 0 \/ Res <> 0) ->
  Session.owns (Resolvers s) l -> (Res = 0 \/ Res ∈ l) -> (forall a, a ∉ FmBlocks s -> Formatters s !! a = None) ->
  Z.of_nat k < 2 ^ 31 - 1 ->
  exists Hr F s1, Create (Some T) Res Flags s = Some ((Hr, F), s1) /\
    if F =? 0 then Hr = E_OUTOFMEMORY /\ s1 = s
    else Hr = S_OK /\ Session.owns (Resolvers s1) (Session.refs_of Res ++ l) /\
      exists s2, (times k (AddRef F) ;;; times k (Release F) ;;; Release F) s1 = Some (tt, s2) /\
        FmBlocks s2 = FmBlocks s /\ Formatters s2 = Formatters s /\ Session.owns (Resolvers s2) l.
Proof.
  intros HT HFl Ho HRes HF Hk. unfold CdiagCreateFormatter. rewrite HT.
  assert (negb (Flags =? 0) && (Res =? 0) = false) as ->.
  { destruct HFl as [-> |H]; [done|]. by rewrite (proj2 (Z.eqb_neq _ _) H), andb_false_r. }
  cbn [negb orb]. set (F := HeapAlloc (FmBlocks s) (SIZEOF_FORMATTER + 2 * (lenZ T + 1))).
  unfold bind at 1, CdiagpMalloc. fold F. destruct (F =? 0) eqn:E0; [exists E_OUTOFMEMORY, 0, s; by rewrite Z.eqb_refl|].
  assert (exists r, (forall k : unit -> ST (FW R) (Z * Z), forall B,
    bind (when_ (negb (Res =? 0)) (resolvers (Session.Reference Res))) k (set_FmBlocks B s) =
    k tt (MkFW (FmMem s) B (Formatters s) r)) /\ Session.owns r (Session.refs_of Res ++ l)) as (r & Er & Hr).
  { unfold Session.refs_of. destruct (Z.eqb_spec Res 0) as [|Hn]; [by exists (Resolvers s)|].
    destruct HRes as [|Hin]; [done|]. destruct (Session.Reference_spec _ _ _ Ho Hin) as (r & E & Hr). exists r.
    split; [|done]. intros k' B. cbn [negb when_]. unfold bind, resolvers. cbn [Resolvers set_FmBlocks]. by rewrite E. }
  rewrite Er, bind_modify. exists S_OK, F. eexists. split; [reflexivity|]. rewrite E0. split_and!; [done|exact Hr|].
  set (f := MkFormatter 1 T Res (if Res =? 0 then 0 else Flags)).
  set (s0 := MkFW (FmMem s) (FmBlocks s) (Formatters s) r).
  set (sB := set_FmBlocks (FmBlocks s ∪ {[F]}) s0).
  change (set_Formatters _ _) with (counted sB F f 1).
  assert (times k (AddRef F) (counted sB F f 1) = Some (tt, counted sB F f (1 + Z.of_nat k))) as E1 by (apply AddRef_times; lia).
  assert (times k (Release F) (counted sB F f (1 + Z.of_nat k)) = Some (tt, counted sB F f 1)) as E2.
  { rewrite Release_times by lia. do 3 f_equal. lia. }
  rewrite (bind_eq _ _ _ _ _ E1), (bind_eq _ _ _ _ _ E2).
  destruct (Release_last F f s0 l) as (r2 & E3 & Hr2); [apply HF, HAlloc|apply HAlloc|exact Hr|].
  eexists. split; [exact E3|]. done.
Qed.
End life.

Module Demo.
(** The resources of the library. *)
Definition strings (Id : Z) : option (list Z) :=
  let entry := fun (l : list string) (k : Z) => if k <? 0 then None else L <$> l !! Z.to_nat k in
  if Id <? 200 then entry ["Trace"; "Debug"; "Info"; "Warning"; "Error"; "Fatal"]%string (Id - 100)
  else if Id <? 300 then entry ["Log"; "Assertion"; "Trace"; "Enter"; "Exit"; "Custom"]%string (Id - 200)
  else entry ["Kernel"; "User"]%string (Id - 300).

Definition table (Ids : Z) (n : nat) : list (list Z) := map (fun k => default [] (strings (Ids + k))) (seqZ 0 (Z.of_nat n)).

(** A packet at 0x1000 without a message; the machine's name at 64, the debug
    information at 80 with strings after it, an insertion string at 160. *)
Definition packet : Memory :=
  let w16 := fun m o v => IoBuffer.put 2 m (0x1000 + o) v in
  let w32 := fun m o v => IoBuffer.put 4 m (0x1000 + o) v in
  let m := fun _ => 0 in
  let m := w16 m 0 64 in let m := w16 m 2 200 in let m := w32 m 4 1 in let m := w16 m 12 0x10 in
  let m := IoBuffer.put 1 m (0x1000 + 14) 4 in let m := IoBuffer.put 1 m (0x1000 + 15) 9 in
  let m := w32 m 16 64 in let m := w32 m 20 1234 in let m := w32 m 24 5678 in
  let m := IoBuffer.put 8 m (0x1000 + 28) 116444736000000000 in let m := w32 m 36 7 in
  let m := w32 m 44 80 in let m := w32 m 56 1 in let m := w32 m 60 160 in
  let m := w32 m (80 + 4) 20 in let m := w32 m (80 + 12) 40 in let m := w32 m (80 + 16) 42 in
  let m := store_wcs m (0x1000 + 64) (L "PC") in
  let m := store_wcs m (0x1000 + 100) (L "foo") in let m := store_wcs m (0x1000 + 120) (L "a.c") in
  store_wcs m (0x1000 + 160) (L "x").

Definition event : EVENT :=
  MkEvent 1 0x10 4 9 (Some (L "PC")) 1234 5678 116444736000000000 7 None
    (Some (MkDebug (Some (L "foo")) None (Some (L "a.c")) 42)) [L "x"].
Definition offsets : OFFSETS := MkOffsets 0 64 80 20 0 40.

(** Packets and captions are below 0x4000, the stack is at 0x8000, the heap above. *)
Definition Keep (i : Z) : Prop := 0x1000 <= i < 0x4000.
Definition Heap (B : gset Z) (n : Z) : Z := NextBlock (B ∪ {[0x10000]}).
Definition memory : Memory := CdiagpInitializeFormatter strings 0x2000 0x2400 0x2800 packet.

(** Midnight; the resolver is that of MsgResolver, one module has message 7. *)
Definition clock (t : Z) : option (list Z) := Some (L "00:00:00").
Definition GetTime (t b n : Z) : option (list Z) := if b =? 0 then None else clock t.
Definition Resolve (r code flags : Z) (ins : option (list (list Z))) (B : option (list Z)) : ST RESOLVER (Z * list Z) :=
  CdiagsResolveMessage 1 MsgResolver.Demo.Format code flags ins B.

Definition formatter : FORMATTER := MkFormatter 1 (L "%Severity %Processor %Time: %Message (%File:%Line, %Function) 100%%") 1 0.
Definition state : FW RESOLVER := MkFW memory {[0x500]} {[0x500 := formatter]} MsgResolver.Demo.one.

Lemma fetch_kept w m' a : Agree Keep memory m' -> 0x1000 <= a -> a + Z.of_nat w <= 0x4000 -> fetch w m' a = fetch w memory a.
Proof. intros H H1 H2. apply fetch_ext. intros i Hi. apply H. unfold Keep. lia. Qed.

Lemma text_kept m' a t : Agree Keep memory m' -> 0x1000 <= a -> a + 2 * (lenZ t + 1) <= 0x4000 ->
  WcsAt memory a t -> (length t <? 100)%nat = true -> TextAt m' a t.
Proof.
  intros H H1 H2 HW Hl. split_and!; [lia| |apply Nat.ltb_lt in Hl; unfold MAX_STRING; lia].
  apply (WcsAt_agree memory); [|done]. intros i Hi. apply H. unfold Keep. lia.
Qed.

Ltac kept H := rewrite (fetch_kept _ _ _ H) by (simpl; lia); vm_compute; reflexivity.
Ltac text H := apply (text_kept _ _ _ H); [lia|unfold lenZ; simpl; lia|vm_compute; repeat split; discriminate|reflexivity].

Lemma packet_fields m' : Agree Keep memory m' -> FieldsAt m' 0x1000 offsets event.
Proof.
  intros H. split; cbn [EvType EvFlags EvSeverity EvMode EvMachine EvProcess EvThread EvTime EvCode EvMessage EvDebug
    EvInserts event offsets oMachine oMessage oDebug].
  - rewrite !(fetch_kept _ _ _ H) by (simpl; lia). vm_compute. split; [reflexivity|discriminate].
  - split; [kept H|unfold DWORD; lia].
  - split; [kept H|lia].
  - split; [kept H|lia].
  - split; [kept H|lia].
  - split; [kept H|]. split; [lia|]. text H.
  - split; [kept H|unfold DWORD; lia].
  - split; [kept H|unfold DWORD; lia].
  - kept H.
  - split; [kept H|unfold DWORD; lia].
  - split; [kept H|reflexivity].
  - split; [kept H|]. split_and!; [lia|lia|]. split; cbn [DbModule DbFunction DbFile DbLine oModule oFunction oFile offsets].
    + split; [kept H|]. split; [lia|]. text H.
    + split; [kept H|reflexivity].
    + split; [kept H|]. split; [lia|]. text H.
    + split; [kept H|unfold DWORD; lia].
  - split; [kept H|vm_compute; discriminate].
  - intros i s Hi. destruct i as [|[|i]]; [|done..]. injection Hi as <-.
    rewrite (fetch_kept _ _ _ H) by (simpl; lia).
    replace (0x1000 + fetch 4 memory (0x1000 + 60 + 4 * Z.of_nat 0)) with (0x1000 + 160) by (vm_compute; reflexivity).
    text H.
Defined.

Lemma captions Base Max texts : (length texts <? 100)%nat = true -> 0x1000 <= Base -> Row Base (Max + 1) <= 0x4000 ->
  lenZ texts = Max + 1 -> Forall (fun t => (length t <? 63)%nat = true) texts ->
  (forall i t, texts !! i = Some t -> WcsAt memory (Row Base (Z.of_nat i)) t) ->
  CaptionsAt Keep memory Base Max texts.
Proof.
  intros Hl HB HM HL HT HW. split; [done|]. intros m' i t H Ht. pose proof (lookup_lt_Some _ _ _ Ht).
  pose proof (proj1 (Forall_lookup _ _) HT _ _ Ht) as Hlen. simpl in Hlen. apply Nat.ltb_lt in Hlen.
  apply (text_kept m'); [done| | |by apply HW|apply Nat.ltb_lt; lia]; unfold Row, MAX_CAPTION_CCH, lenZ in *; lia.
Defined.

Lemma below_next B x : x ∈ B -> x < NextBlock B.
Proof.
  intros Hx. unfold NextBlock. assert (x <= foldr Z.max 0 (elements B)); [|lia].
  apply max_bound. by apply elem_of_elements.
Qed.

Lemma heap_apart B : let a := Heap B 100 in
  a = 0 \/ a ∉ B /\ (forall i, a <= i < a + 100 -> ~ Keep i) /\ (a + 100 <= 0x8000 \/ 0x8000 + 2048 <= a).
Proof.
  intros a. right. assert (0x10000 < a) by (apply below_next; set_solver). split_and!; [|unfold Keep; lia|lia].
  unfold a, Heap. pose proof (proj2 (NextBlock_fresh (B ∪ {[0x10000]}))). set_solver.
Defined.

Lemma resolve_one ins B0 : length B0 = RESOLVER_BUFFER_CCH ->
  Resolve 1 7 0 ins (Some B0) MsgResolver.Demo.one = Some ((S_OK, store 0 [65; 0] B0), MsgResolver.Demo.one).
Proof. intros H. unfold Resolve, CdiagsResolveMessage. rewrite H. vm_compute. reflexivity. Defined.

(** The machine code is 7, whose message the resolver has; the mode has no caption,
    the function is missing. *)
Lemma formatter_renders_event_witness :
  exists B' m' out,
    CdiagsFormat Heap FormatStr.Demo.lower FormatStr.Demo.alnum Some Some GetTime 0 0 0x2000 0x2400 0x2800
      0x8000 Resolve 0x500 0x1000 100 (Some (replicate 100 1)) state =
    Some ((S_OK, B'), MkFW m' {[0x500]} {[0x500 := formatter]} MsgResolver.Demo.one) /\
    out = L "Error (null) 00:00:00: A (a.c:42, (null)) 100%" /\ take (S (length out)) B' = out ++ [0].
Proof.
  destruct (formatter_renders_event Heap FormatStr.Demo.lower FormatStr.Demo.alnum Some Some GetTime 0 0
    0x2000 0x2400 0x2800 0x8000 Resolve Keep) with (clock := clock) (s := state) (F := 0x500) (f := formatter) (p := 0x1000)
    (o := offsets) (ev := event) (types := table 200 6) (severities := table 100 6) (modes := table 300 2)
    (B := replicate 100 1) (text := Some (L "A")) (r' := MsgResolver.Demo.one) as (out & Hr & B' & m' & ER & E & _ & _ & H).
  - split; [lia|]. unfold Keep. lia.
  - apply heap_apart.
  - done.
  - intros t s [= <-]. split; [repeat constructor|unfold lenZ; simpl; lia].
  - apply FormatStr.Demo.lower_nul.
  - apply FormatStr.Demo.lower_alnum.
  - reflexivity.
  - reflexivity.
  - intros c Hc. unfold FormatStr.Demo.alnum, FormatStr.Demo.in_range. lia.
  - reflexivity.
  - vm_compute. reflexivity.
  - lia.
  - exact packet_fields.
  - apply captions; [reflexivity|lia|vm_compute; discriminate|reflexivity|repeat constructor|].
    intros i t Hi. do 6 (destruct i as [|i]; [injection Hi as <-; vm_compute; repeat split; discriminate|]). discriminate.
  - apply captions; [reflexivity|lia|vm_compute; discriminate|reflexivity|repeat constructor|].
    intros i t Hi. do 6 (destruct i as [|i]; [injection Hi as <-; vm_compute; repeat split; discriminate|]). discriminate.
  - apply captions; [reflexivity|lia|vm_compute; discriminate|reflexivity|repeat constructor|].
    intros i t Hi. do 2 (destruct i as [|i]; [injection Hi as <-; vm_compute; repeat split; discriminate|]). discriminate.
  - unfold Resolved. cbn [FmtResolver formatter negb Z.eqb EvMessage event andb bool_decide_true].
    rewrite bool_decide_true by done. cbn [andb]. intros B0 HB0. exists S_OK, (store 0 [65; 0] B0).
    split; [by apply resolve_one|]. split.
    + unfold store. rewrite take_0, !length_app, length_drop, HB0. reflexivity.
    + exists (L "A"), (drop 2 B0). split_and!; [done|done|repeat constructor].
  - discriminate.
  - assert (out = L "Error (null) 00:00:00: A (a.c:42, (null)) 100%") as ->.
    { assert (Some out = Some (L "Error (null) 00:00:00: A (a.c:42, (null)) 100%")) as [= ->]; [|done].
      rewrite <- ER. vm_compute. reflexivity. }
    destruct H as [[-> H]|[_ H]]; [|vm_compute in H; lia]. do 3 eexists. split; [exact E|]. split; [reflexivity|exact H].
Defined.
End Demo.
